(* ===== verification/_CoqProject ===== *)
-Q . S2P
Prelude.v
GoStrings.v
GoTime.v
GoFloat.v
GoCrypto.v
GoText.v
GoParse.v
GoSort.v
GoRFC3339.v
Shared.v
Payments.v
Tenants.v
Mandates.v
Boletos.v
DueCharges.v
Consents.v
Checkouts.v
AuditTrail.v
Capabilities.v
RateLimits.v
PixKeys.v
Interleave.v
Ports.v
BankPorts.v
MemStore.v
Invoices.v
SqlStore.v
SqlRefines.v
InvoiceReports.v
WebhookRefs.v
AccountConsole.v
SqlTimes.v
AccountKeys.v
ClientProvisioning.v
PaymentGroups.v
BankSurfaces.v
WebhookRegistration.v
BankIdentity.v
Config.v
BankCerts.v
RowSeal.v
CredVault.v
VaultRotation.v
BankTransport.v
TokenCache.v
BankRouter.v
PiiAccess.v
Settlement.v
Deliveries.v
MandateWebhook.v
MandateDeliveries.v
RecurrenceSvc.v
RecurrenceGates.v
WebhookDispatch.v
TenantAuth.v
Charges.v
Issuing.v
IssuingContracts.v
BoletoAmend.v
BankServices.v
ChargeIntegrity.v
ConsoleCred.v
ConsoleLogin.v
ConsoleLoginSafety.v
OutboundQueue.v
OutboundWebhook.v
OutboundConsole.v
OutboundForward.v
OutboundForwardSafety.v
OutboundGuard.v
C6Codec.v
C6Boleto.v
C6Pix.v
C6Recurrence.v
C6Charges.v
C6Slips.v
HttpServer.v
DurableTables.v
StubBank.v
StubTenants.v
