(* ===== verification/Prelude.v ===== *)
(** * The payment service: a verification library

    The repository is a multi-tenant payment service in Go in front of one bank: tenants
    issue PIX charges, boletos, due-date charges and recurring debits, the bank notifies
    what happens to them, the service settles on what the bank itself answers, and tells
    each account's endpoint.  This library translates its core into executable
    definitions and proves what makes that core correct.  Paths below are relative to
    internal/.

    ** Conventions

    - [result E A] is Go's [(T, error)]; [error] values (Shared) keep the [%w] chain, so
      that [errors.Is] and [errors.As] compute.
    - Stateful code is explicit state passing, [M S E A] (this file).  Code whose calls
      may interleave with other requests is a [prog] (Interleave): a tree of atomic
      actions on shared state, which [run] executes alone and [interleave] under any
      schedule.
    - An int64 is a [Z] with its wrap-around written out ([add64], [mul64], ...); times
      are nanoseconds with a location, including its daylight-saving transitions.
    - Strings are byte strings; the string, time, date, float, hash and JSON functions of
      Go's standard library that the source uses are in GoStrings (with the positional notation
      the codecs share), GoTime, GoFloat (rationals rounded to the 53 bits of a double),
      GoParse ([strings.Split], [strconv.Atoi], [time.ParseDuration]), GoRFC3339 (the
      layouts the stores keep times in), GoCrypto, GoText and GoSort (stable sorting, and
      the range over a map in any order, [MapIteration]), with published test vectors where
      there are some.
    - The clock, fresh identifiers and the bank are arguments.  Nothing is assumed of the
      bank's answers beyond what a theorem says.

    ** The files, the code they model, and what is shown

    Domain:
    - Shared (domain/shared): errors and money.
    - Payments (domain/payment, domain/billing): the payment and its lifecycle, decided
      once; prices and the entries of the ledger.
    - Tenants (domain/tenant, domain/account): the account binding is made once.
    - AuditTrail (domain/audit, domain/access): the trail and the register of reads.
    - Mandates (domain/recurrence): the state machines of mandates and of their charges:
      a transition succeeds exactly on the documented edges, histories are paths of
      bounded length, terminal states are final.
    - Boletos (domain/boleto): fine, interest and discount in int64 agree with an exact
      reference in unbounded integers when that fits; the amount due never falls with
      delay; the best discount is granted.  Two closed theorems show where the code
      departs (an overflow, a daylight-saving day).
    - DueCharges (domain/pixcobv): the same computation as the boleto's, and the exact
      payment window.
    - Checkouts (domain/checkout): hosted payment pages; the instalments offered are the
      most the buyer can take up.
    - Consents (domain/consent, domain/termsconsent and their in-memory trail): a debit is
      authorised by a standing consent only, and the newest record of a trail decides.
    - PixKeys (adapters/secret/secret.go, domain/dda/dda.go): the addresses of a payment,
      their regular expressions written out as matchers.

    Persistence:
    - Ports (ports/ports.go): the repository and the unit of work as type classes;
      [UnitOfWorkLaws] is what use-cases may rely on.  BankPorts and BankSurfaces hold the
      requests and the operations of the bank's ports.
    - MemStore (adapters/persistence/inmemory, app/uow.go): the implementation, over
      every map iteration order ([MapRange]); it discharges the laws, and its payments
      table answers like a unique index.
    - SqlStore (adapters/persistence/sqlite and postgres: the SQL statements on rows, with
      a class [Dialect] for what differs), SqlRefines: what the SQL
      repositories store and read is what MemStore's do; SqlTimes: the text of the times
      they keep orders like the times, and what only PostgreSQL does.
    - DurableTables (sqlite/outbound_delivery.go, webhook_ref.go, account_key.go,
      outbound_webhook.go, consolecred.go, termsconsent.go): the remaining tables, each
      shown to answer as its in-memory store does, the outbox in the order of the written
      instants; one example shows where the SQLite layout reverses two deliveries.

    Settlement:
    - Settlement (app/webhook.go, app/webhook_boleto.go): the service on any repository;
      an error leaves no trace, an announcement has evidence.
    - Deliveries: on the in-memory store, the relation [outcome] specifies a delivery
      and the code refines it; then sequences of deliveries: one publication per event
      key, no payment paid without the bank's full amount, a settlement however many
      inconclusive deliveries came first.
    - MandateWebhook, MandateDeliveries (app/webhook_recurrence.go): mandate
      notifications; histories follow the mandates' edges and are audited; a closed theorem
      shows what an id padded with white space does.
    - WebhookDispatch (adapters/http/handlers.go): routing of a notification and
      isolation of channels, over every table of the store; two closed theorems on batched
      and repeated notifications.

    Issuing:
    - RecurrenceSvc, RecurrenceGates (app/recurrence.go): the
      recurrence use-cases, with every call of the bank recorded; a charge is created only
      under an approved mandate that covers it and retried only under an approved mandate,
      which need not be its own (closed theorem); one origination per charge.
    - Charges (app/charge.go, app/pix.go), Issuing (app/boleto.go, app/checkout.go,
      app/pixcobv.go): issuing as programs of atomic steps.  IssuingContracts: what each
      service guarantees of its request.  ChargeIntegrity: under every interleaving of any
      number of requests one ledger entry per completed payment, one payment at the bank
      per tenant and idempotency key, and only valid, reserved requests in the bank's
      hands.  The proof is rely-guarantee ([interleave_safe] of Interleave); two closed
      theorems show what a retry with another amount or another endpoint does.
    - BoletoAmend (app/boleto.go, app/plainboleto.go): an amendment changes exactly what
      its caller named and keeps the whole within the legal caps.
    - PaymentGroups (domain/dda, app/dda.go): scheduled payments; a group is frozen by its
      submission, and every write to the bank was decided on the bank's own reading.
    - BankServices (app/pixbacen.go, app/acquirer.go, app/statement.go, app/plainboleto.go):
      which of the bank's operations each call of a service makes, and with what.
    - PiiAccess (app/pii_access.go): no personal data is read without a register entry.

    The bank's wire:
    - BankTransport (adapters/bank/c6/c6.go, ratelimit.go, errors.go): pacing, retries and
      their waits, and what of an answer may reach an error: a call ends, and its attempts
      and pauses are bounded whatever the bank does.  TokenCache (c6/token.go): the access
      token a call presents is fresh and its tenant's own.  BankRouter
      (adapters/bank/registry.go, router.go, adapters/http/bankselect.go): a tenant is
      served by the bank chosen for it.
    - C6Codec (adapters/bank/c6): amounts and references as text: round trips, and the
      bank's contract on references.
    - C6Boleto, C6Pix (adapters/bank/c6/boleto.go, pix.go, pixcobv.go,
      adapters/bank/pixsettle.go): the bodies of the requests and answers as records; the
      bank's echo of a request is read back as that request, and a settlement is read off
      an answer to the cent.
    - C6Charges (adapters/bank/c6: c6.go, pix.go, pixcobv.go, boleto.go, checkout.go): the
      operations that issue, read, amend and cancel the four kinds of charge, through the
      transport: every request the issuing services may make goes out once per attempt under
      its own key, with its own amount; a paid session and a document are told apart from
      what only looks like one.  C6Slips (schedulepayments.go, bankslipv1.go): the groups of
      payments and the plain slips: the service's writes are the ones on the wire, and a
      slip with up to three discounts is read back as it was registered.
    - C6Recurrence (c6/recurrence.go, locrec.go): mandates and recurring charges on the wire,
      through the transport: each charge has its own resource and key, and is read back to
      the cent; a theorem on the two services together shows what every charge leaves out.
    - StubBank, StubTenants (adapters/bank/stub*.go): the bank the service runs against when
      none is wired: tenants do not observe each other, a repeated request finds what the
      first one made, and the pages of a listing cover it; closed examples show a page that
      panics, a misread payment reference and a settlement undone.

    Identity and access:
    - Capabilities: bearer secrets and what a store of digests promises: of the secrets
      granted to a holder only the last one stands ([held]).  WebhookRefs
      (domain/webhookref, app/webhook_ref_*.go) and AccountKeys (domain/accountkey,
      app/account_key.go) refine it.
    - TenantAuth (adapters/http/auth.go): who a request is served for, by account key,
      tenant token, callback address and operator token.  RateLimits
      (adapters/http/ratelimit.go): what a caller is let through over any history, bounded
      on both sides.
    - BankIdentity (adapters/secret/secret.go, app/bank_identity.go, app/console.go,
      app/admin.go): one active company per receiving key and bank account, through every
      management operation but reactivation, which a closed theorem shows to break it.
    - BankCerts (domain/bankcert, adapters/secret/cert.go, app/console.go, app/admin.go):
      an accepted certificate is what later reads and the transport find, and the expiry
      badge is the clock's; a closed theorem shows the badge of a distant expiry.
    - RowSeal (adapters/secret/crypto.go): a sealed secret opens under its own key and row
      only.  CredVault (adapters/persistence/sqlite/credential.go; the postgres files are
      the same text): the durable vault answers every history as the in-memory store of
      BankIdentity does.  VaultRotation (sqlite/certificate.go, sqlite/reseal.go): rotating
      the sealing key is all or nothing and invisible to readers.
    - WebhookRegistration (app/webhook_registration.go, app/webhook_reconcile.go): a sweep
      disturbs no registration in order and repairs those whose calls the bank answers, for
      any bank that keeps one address per slot, however many calls it refuses
      ([BankKeepsAddresses]); once all is in order it writes nothing.
    - Config (platform/config): the settings and the bank credentials read from the
      environment; what is missing or malformed falls to the safe side.
    - HttpServer (adapters/http/server.go, middleware.go, response.go and the consoles'
      guards): the table of routes with the checks in front of each: who is not
      authenticated reaches the listed public routes only; every domain error is answered
      with its status.

    Console:
    - Invoices, InvoiceReports (domain/invoice, app/console.go): consumption reports and
      invoices; an account's rollup is the union of its tenants' reports, and consecutive
      invoices bill each recorded call exactly once.
    - AccountConsole
      (app/account_console.go): accounts, listings and batches of invoices, billed once per
      idempotency key unless the batch failed half way (closed theorem).
      ClientProvisioning (app/client_provisioning.go): one client per account and key.
    - ConsoleCred (domain/consoleauth), ConsoleLogin (app/consoleauth.go,
      adapters/consoleauth): password, one-time code, lockout and sessions.
      ConsoleLoginSafety: codes are used once, guessing is bounded, sessions refine a
      history-based specification when requests are served one at a time; a concurrent
      schedule breaks the first two, by a closed theorem.

    Forwarding:
    - OutboundQueue (domain/outboundqueue, the in-memory outbox,
      app/outbound_delivery.go): attribution is exact: one row per account and event key,
      under its owner.
    - OutboundWebhook (domain/outboundwebhook): endpoints and signatures.
      OutboundConsole (app/outbound_webhook.go): the secret shown once is the one that
      signs.
    - OutboundForward, OutboundForwardSafety (app/outbound_forward.go): the forwarder
      against an arbitrary environment and stores that may refuse any claim, deletion,
      dead letter or audit entry: it posts only to the owner's enabled endpoint, signed,
      and every delivery it takes has exactly one outcome; closed theorems show what a
      refused deletion or dead letter and a shutdown in mid-delivery do.
    - OutboundGuard (adapters/outbound): the addresses the dialer may reach are exactly
      those outside a list of blocks; against an arbitrary network the forwarder connects
      only to such addresses, sends at most one request, over https to port 443, follows
      nothing and answers a status or one of two errors; one account's waits do not depend
      on the other accounts.

    ** Bounds and fuel

    Recursion is on the data (bytes, rows, requests, schedules) or on a count the code
    itself bounds (the attempts left of a delivery).  A few functions that consume more
    than one element per step (hash blocks, base-32 groups, JSON characters) take the
    length of their input as a bound, and the decimal digits of an int64 take a bound of
    20: each step consumes at least one element, so the input ends first
    ([GoParse.segments_fuel] proves it for the segments of a duration).  The retry loops
    of the transport and of the token cache take the number of attempts the code's
    constants allow, and are proved to end within it.  A program's tree is well founded,
    so [run] is total.

    ** Not modelled

    The bodies of the HTTP handlers and of the pages (rendering and decoding around the
    use-cases), messaging transport, connection handling of the SQL stores, the commands and
    the test harnesses under cmd/ (input and output around the core), and the bank wire
    formats other than those listed (the account's and the acquirer's statements, batches,
    payload locations, received PIX, webhook registration), which have the shape of those
    that are.
    Argon2, AES-GCM (the class [AEAD] with its laws), url.Parse, strconv.ParseFloat, the
    HTTP client and the router it serves under (chi), the PEM and X.509 parsers, the random
    bytes and the decoding of JSON documents are parameters.  Log lines are left out, but for
    those of Config. *)
From stdpp Require Export base numbers strings list relations gmap fin_maps.
From Stdlib Require Export ZArith Lia Sorted.

#[global] Open Scope string_scope.
#[global] Open Scope Z_scope.

(** * Errors as values

    A Go function that returns [(T, error)] is modelled by [result E T].  The
    notations mirror the three idioms of the source: binding the value of a
    fallible call ([v, err := f(); if err != nil { return err }]), an early
    return under a condition, and the same for the stateful computations below. *)
Inductive result (E A : Type) : Type :=
| Ok (a : A)
| Err (e : E).
Arguments Ok {E A} a.
Arguments Err {E A} e.

Declare Scope go_scope.
Delimit Scope go_scope with go.
#[global] Open Scope go_scope.
#[global] Arguments bool_decide : simpl never.

Notation "'let?' x ':=' c 'in' k" :=
  (match c with Ok x => k | Err e => Err e end)
  (at level 200, x binder, c at level 200, k at level 200, right associativity) : go_scope.
Notation "'refuse' b 'with' e ';;' k" :=
  (if (b : bool) then Err e else k)
  (at level 200, b at level 10, e at level 10, k at level 200, right associativity) : go_scope.

Definition is_ok {E A} (r : result E A) : bool :=
  match r with Ok _ => true | Err _ => false end.

Definition map_err {E F A} (f : E -> F) (r : result E A) : result F A :=
  match r with Ok a => Ok a | Err e => Err (f e) end.

#[export] Instance result_eq_dec {E A} `{EqDecision E, EqDecision A} :
  EqDecision (result E A).
Proof. solve_decision. Defined.

Lemma map_err_Ok {E F A} (f : E -> F) (r : result E A) a :
  map_err f r = Ok a <-> r = Ok a.
Proof. destruct r; simpl; split; congruence. Qed.

(** * Stateful computations

    [M S E A] threads a state and keeps the state reached even when the
    computation fails: undoing it is the job of the transaction boundary, not
    of the monad. *)
Definition M (S E A : Type) : Type := S -> S * result E A.

Definition retM {S E A} (a : A) : M S E A := fun s => (s, Ok a).
Definition throwM {S E A} (e : E) : M S E A := fun s => (s, Err e).
Definition bindM {S E A B} (m : M S E A) (k : A -> M S E B) : M S E B :=
  fun s => match m s with
           | (s', Ok a) => k a s'
           | (s', Err e) => (s', Err e)
           end.
(** A read of the state, and a pure fallible computation. *)
Definition readM {S E A} (f : S -> result E A) : M S E A := fun s => (s, f s).
Definition liftM {S E A} (r : result E A) : M S E A := fun s => (s, r).
Definition wrapM {S E F A} (f : E -> F) (m : M S E A) : M S F A :=
  fun s => let '(s', r) := m s in (s', map_err f r).

Notation "'do' x '<-' c ';;' k" := (bindM c (fun x => k))
  (at level 200, x binder, c at level 99, k at level 200, right associativity) : go_scope.
Notation "'abort' b 'with' e ';;' k" :=
  (if (b : bool) then throwM e else k)
  (at level 200, b at level 10, e at level 10, k at level 200, right associativity) : go_scope.

Section monad_facts.
Context {S E : Type}.

Lemma bindM_Ok {A B} (m : M S E A) (k : A -> M S E B) s s' b :
  bindM m k s = (s', Ok b) ->
  exists s1 a, m s = (s1, Ok a) /\ k a s1 = (s', Ok b).
Proof. unfold bindM. destruct (m s) as [s1 [a|e]]; [eauto | congruence]. Qed.

Lemma bindM_unfold {A B} (m : M S E A) (k : A -> M S E B) s s1 a :
  m s = (s1, Ok a) -> bindM m k s = k a s1.
Proof. unfold bindM. by intros ->. Qed.

Lemma bindM_fail {A B} (m : M S E A) (k : A -> M S E B) s s1 e :
  m s = (s1, Err e) -> bindM m k s = (s1, Err e).
Proof. unfold bindM. by intros ->. Qed.

Lemma wrapM_Ok {F A} (f : E -> F) (m : M S E A) s s' a :
  wrapM f m s = (s', Ok a) <-> m s = (s', Ok a).
Proof. unfold wrapM. destruct (m s) as [s1 [b|e]]; simpl; split; congruence. Qed.

Lemma wrapM_apply {F A} (f : E -> F) (m : M S E A) s s' r :
  m s = (s', r) -> wrapM f m s = (s', map_err f r).
Proof. unfold wrapM. by intros ->. Qed.
End monad_facts.

(** * Machine integers

    Go's [int64] (and [int], 64 bits on the targets the service is built for):
    a [Z] with two's-complement wrap-around written out. *)
Definition maxInt64 : Z := 2 ^ 63 - 1.
Definition minInt64 : Z := - 2 ^ 63.
Definition wrap64 (z : Z) : Z := (z + 2 ^ 63) mod 2 ^ 64 - 2 ^ 63.
Definition in64 (z : Z) : Prop := minInt64 <= z <= maxInt64.
Definition add64 (a b : Z) : Z := wrap64 (a + b).
Definition sub64 (a b : Z) : Z := wrap64 (a - b).
Definition mul64 (a b : Z) : Z := wrap64 (a * b).
(** Go's [/] truncates towards zero; [minInt64 / -1] wraps. *)
Definition div64 (a b : Z) : Z := wrap64 (Z.quot a b).
(** [a << n] on an int64: the bits shifted out are lost. *)
Definition shl64 (a n : Z) : Z := wrap64 (Z.shiftl a n).

#[export] Instance in64_dec z : Decision (in64 z).
Proof. unfold in64. apply _. Defined.

Lemma wrap64_in64 z : in64 (wrap64 z).
Proof.
  unfold in64, wrap64, minInt64, maxInt64.
  pose proof (Z.mod_pos_bound (z + 2 ^ 63) (2 ^ 64)). lia.
Qed.

Lemma wrap64_id z : in64 z -> wrap64 z = z.
Proof.
  unfold in64, wrap64, minInt64, maxInt64. intros.
  rewrite Z.mod_small; lia.
Qed.

Lemma add64_id a b : in64 (a + b) -> add64 a b = a + b.
Proof. apply wrap64_id. Qed.
Lemma sub64_id a b : in64 (a - b) -> sub64 a b = a - b.
Proof. apply wrap64_id. Qed.
Lemma mul64_id a b : in64 (a * b) -> mul64 a b = a * b.
Proof. apply wrap64_id. Qed.

Lemma div64_nonneg a b : in64 a -> 0 <= a -> 0 < b -> div64 a b = a / b.
Proof.
  intros Ha ? ?. unfold div64. rewrite Z.quot_div_nonneg by lia. apply wrap64_id.
  unfold in64 in *. split.
  - pose proof (Z.div_pos a b). unfold minInt64 in *. lia.
  - pose proof (Z.div_le_upper_bound a b a). nia.
Qed.

Lemma div64_quot a b : in64 a -> 0 < b -> div64 a b = Z.quot a b.
Proof.
  intros Ha Hb. unfold div64. apply wrap64_id. unfold in64, minInt64, maxInt64 in *.
  destruct (Z.le_gt_cases 0 a).
  - rewrite Z.quot_div_nonneg by lia. pose proof (Z.div_pos a b).
    pose proof (Z.div_le_upper_bound a b a). nia.
  - pose proof (Z.quot_opp_l a b). rewrite Z.quot_div_nonneg in * by lia.
    pose proof (Z.div_pos (- a) b). pose proof (Z.div_le_upper_bound (- a) b (- a)). nia.
Qed.

Create HintDb go discriminated.
#[export] Hint Resolve wrap64_in64 : go.
#[export] Hint Rewrite @map_err_Ok @wrapM_Ok : go.

(** * Map literals *)
Lemma lookup_literal {A} (l : list (string * A)) k :
  (list_to_map l : gmap string A) !! k =
  snd <$> List.find (fun p => bool_decide (p.1 = k)) l.
Proof.
  induction l as [|[j v] l IH]; [apply lookup_empty|].
  change (list_to_map ((j, v) :: l)) with (<[j := v]> (list_to_map l : gmap string A)).
  cbn [List.find fst]. case_bool_decide.
  - subst. by rewrite lookup_insert_eq.
  - by rewrite lookup_insert_ne.
Qed.

(** * Proof automation of the development *)

(** Case analysis on every [match]/[if] of the context, dropping impossible
    branches and substituting what the branch equations determine. *)
Ltac go_cases :=
  repeat (case_match; simplify_eq/=; try done).

(** Turn the boolean tests of a hypothesis into propositions. *)
Ltac bools :=
  repeat match goal with
  | H : _ && _ = true |- _ => apply andb_true_iff in H; destruct H
  | H : _ || _ = false |- _ => apply orb_false_iff in H; destruct H
  | H : negb _ = true |- _ => apply negb_true_iff in H
  | H : negb _ = false |- _ => apply negb_false_iff in H
  | H : bool_decide _ = true |- _ => apply bool_decide_eq_true in H
  | H : bool_decide _ = false |- _ => apply bool_decide_eq_false in H
  end.

(** Invert a successful run of a stateful computation step by step. *)
Ltac stepM H :=
  let s := fresh "s" in let a := fresh "a" in let Hm := fresh "Hm" in
  apply bindM_Ok in H; destruct H as (s & a & Hm & H);
  try apply wrapM_Ok in Hm.
