(* ===== verification/GoStrings.v ===== *)
(** Go's string operations on bytes, as far as the service uses them:
    [strings.TrimSpace] (Unicode white space included), [strings.ToUpper],
    [strings.ToLower] and [strings.EqualFold] against ASCII constants,
    [strings.HasPrefix], [len] and the all-digits loops; first, positional notation: the
    digits of a number in a base, most significant first, and the number of a digit list. *)
From S2P Require Import Prelude.
From Stdlib Require Export Ascii String.

Section radix.
Context (base : Z).

(** The [n] low digits of [v]. *)
Fixpoint to_digits (n : nat) (v : Z) : list Z :=
  match n with
  | O => []
  | S n => (to_digits n (v / base) ++ [v mod base])%list
  end.
Definition of_digits (l : list Z) : Z := foldl (fun v d => v * base + d) 0 l.

Definition digit_ok (d : Z) : Prop := 0 <= d < base.

Lemma of_digits_app l1 l2 :
  of_digits (l1 ++ l2) = of_digits l1 * base ^ Z.of_nat (List.length l2) + of_digits l2.
Proof.
  unfold of_digits. rewrite foldl_app. generalize (foldl (fun v d => v * base + d) 0 l1).
  induction l2 as [|d l2 IH] using rev_ind; intros v; [cbn; lia|].
  rewrite !foldl_snoc, IH, length_app, Nat2Z.inj_add, Z.pow_add_r by lia. cbn [List.length].
  change (base ^ Z.of_nat 1) with (base * 1). lia.
Qed.

Lemma of_digits_snoc l d : of_digits (l ++ [d]) = of_digits l * base + d.
Proof. unfold of_digits. by rewrite foldl_snoc. Qed.

Lemma length_to_digits n v : List.length (to_digits n v) = n.
Proof. revert v. induction n; intros v; simpl; [done|]. rewrite length_app, IHn. simpl. lia. Qed.

Hypothesis base_pos : 1 < base.

Lemma to_digits_ok n v : Forall digit_ok (to_digits n v).
Proof.
  revert v. induction n as [|n IH]; intros v; simpl; [constructor|].
  apply Forall_app. split; [done|]. repeat constructor; apply Z.mod_pos_bound; lia.
Qed.

Lemma of_digits_bounds l :
  Forall digit_ok l -> 0 <= of_digits l < base ^ Z.of_nat (List.length l).
Proof.
  induction l as [|d l IH] using rev_ind; intros Hl; [cbn; lia|].
  rewrite Forall_app, Forall_singleton in Hl. destruct Hl as [Hl Hd]. specialize (IH Hl).
  rewrite of_digits_snoc, length_app, Nat2Z.inj_add, Z.pow_add_r by lia. cbn [List.length].
  change (base ^ Z.of_nat 1) with (base * 1). unfold digit_ok in Hd.
  generalize dependent (base ^ Z.of_nat (List.length l)). intros P IH.
  pose proof (Z.mul_le_mono_nonneg_r (of_digits l + 1) P base). nia.
Qed.

(** The two round trips. *)
Lemma of_to_digits n v : 0 <= v < base ^ Z.of_nat n -> of_digits (to_digits n v) = v.
Proof.
  revert v. induction n as [|n IH]; intros v Hv; [cbn in *; lia|].
  cbn [to_digits]. rewrite of_digits_snoc, IH; [pose proof (Z.div_mod v base); lia|].
  rewrite Nat2Z.inj_succ, Z.pow_succ_r in Hv by lia.
  split; [apply Z.div_pos; lia|apply Z.div_lt_upper_bound; lia].
Qed.

Lemma to_of_digits l : Forall digit_ok l -> to_digits (List.length l) (of_digits l) = l.
Proof.
  induction l as [|d l IH] using rev_ind; intros Hl; [done|].
  rewrite Forall_app, Forall_singleton in Hl. destruct Hl as [Hl Hd].
  rewrite length_app, of_digits_snoc. cbn [List.length].
  replace (List.length l + 1)%nat with (S (List.length l)) by lia. cbn [to_digits].
  unfold digit_ok in Hd.
  rewrite Z.div_add_l, Z.div_small, Z.add_0_r, IH by (done || lia).
  by rewrite Z.add_comm, Z.mod_add, Z.mod_small by lia.
Qed.

Lemma of_digits_inj l1 l2 : Forall digit_ok l1 -> Forall digit_ok l2 ->
  List.length l1 = List.length l2 -> of_digits l1 = of_digits l2 -> l1 = l2.
Proof.
  intros H1 H2 HL HV. rewrite <- (to_of_digits l1), <- (to_of_digits l2) by done. congruence.
Qed.

(** Leading zeros. *)
Lemma of_digits_zeros n l : of_digits (repeat 0 n ++ l) = of_digits l.
Proof.
  rewrite of_digits_app. cut (of_digits (repeat 0 n) = 0); [lia|].
  induction n as [|n IH]; [done|]. cbn [repeat].
  by rewrite repeat_cons, of_digits_snoc, IH.
Qed.

Lemma to_digits_pad n m v : 0 <= v < base ^ Z.of_nat n ->
  to_digits (m + n) v = (repeat 0 m ++ to_digits n v)%list.
Proof.
  intros Hv. rewrite <- (of_to_digits n v) at 1 by done. rewrite <- (of_digits_zeros m).
  rewrite <- (to_of_digits (repeat 0 m ++ to_digits n v)) at 2.
  - by rewrite length_app, repeat_length, length_to_digits.
  - apply Forall_app. split; [|apply to_digits_ok]. apply Forall_forall.
    intros x Hx. apply list_elem_of_In, repeat_spec in Hx as ->. unfold digit_ok. lia.
Qed.
End radix.

Notation bytes := (list ascii).

Definition code (c : ascii) : N := N_of_ascii c.
Definition bytes_of (s : string) : bytes := String.list_ascii_of_string s.
Definition string_of (l : bytes) : string := String.string_of_list_ascii l.

(** Go's [len(s)]: the number of bytes. *)
Definition len (s : string) : Z := Z.of_nat (String.length s).

Lemma bytes_string l : bytes_of (string_of l) = l.
Proof. apply String.list_ascii_of_string_of_list_ascii. Qed.
Lemma string_bytes s : string_of (bytes_of s) = s.
Proof. apply String.string_of_list_ascii_of_string. Qed.
Lemma length_string l : String.length (string_of l) = List.length l.
Proof. induction l as [|c l IH]; [done|]. exact (f_equal S IH). Qed.
Lemma length_bytes s : List.length (bytes_of s) = String.length s.
Proof. by rewrite <- length_string, string_bytes. Qed.

(** * strings.TrimSpace

    [unicode.IsSpace] holds for six ASCII bytes and for the code points U+0085,
    U+00A0, U+1680, U+2000..U+200A, U+2028, U+2029, U+202F, U+205F, U+3000, whose
    UTF-8 encodings are the two- and three-byte sequences below. *)
Definition space1 (c : ascii) : bool :=
  let n := code c in ((9 <=? n) && (n <=? 13) || (n =? 32))%N.
Definition space2 (c d : ascii) : bool :=
  ((code c =? 194) && ((code d =? 133) || (code d =? 160)))%N.
Definition space3 (c d e : ascii) : bool :=
  let '(c, d, e) := (code c, code d, code e) in
  ((c =? 225) && (d =? 154) && (e =? 128)
   || (c =? 226) && (d =? 128) &&
        ((128 <=? e) && (e <=? 138) || (e =? 168) || (e =? 169) || (e =? 175))
   || (c =? 226) && (d =? 129) && (e =? 159)
   || (c =? 227) && (d =? 128) && (e =? 128))%N.

Section strip.
Context (s1 : ascii -> bool) (s2 : ascii -> ascii -> bool)
        (s3 : ascii -> ascii -> ascii -> bool).

(** Drop white-space encodings from the front. *)
Fixpoint strip (l : bytes) : bytes :=
  match l with
  | [] => []
  | c :: r =>
      if s1 c then strip r else
      match r with
      | [] => l
      | d :: r2 =>
          if s2 c d then strip r2 else
          match r2 with
          | [] => l
          | e :: r3 => if s3 c d e then strip r3 else l
          end
      end
  end.

Definition starts (l : bytes) : bool :=
  match l with
  | c :: r => s1 c || match r with
                      | d :: r2 => s2 c d || match r2 with
                                             | e :: _ => s3 c d e
                                             | [] => false end
                      | [] => false end
  | [] => false
  end.

Lemma strip_fixed l : starts l = false -> strip l = l.
Proof.
  destruct l as [|c [|d [|e r]]]; simpl; try done; intros H; bools; go_cases.
Qed.

Lemma strip_spec l : starts (strip l) = false /\ exists pre, l = (pre ++ strip l)%list.
Proof.
  induction l as [l IH] using (induction_ltof1 _ (@List.length ascii)).
  assert (IH' : forall r pre, (List.length r < List.length l)%nat ->
            l = (pre ++ r)%list ->
            starts (strip r) = false /\ exists pre', l = (pre' ++ strip r)%list).
  { intros r pre Hr Hl. destruct (IH r) as [? [pre' Hp]]; [unfold ltof; lia|].
    split; [done|]. exists (pre ++ pre')%list. rewrite <- app_assoc. congruence. }
  destruct l as [|c r]; [simpl; eauto using app_nil_l|]. simpl.
  destruct (s1 c) eqn:H1; [apply (IH' r [c]); simpl; [lia|done]|].
  destruct r as [|d r2]; [simpl; rewrite H1; split; [done|by exists []]|].
  destruct (s2 c d) eqn:H2; [apply (IH' r2 [c; d]); simpl; [lia|done]|].
  destruct r2 as [|e r3]; [simpl; rewrite H1, H2; split; [done|by exists []]|].
  destruct (s3 c d e) eqn:H3; [apply (IH' r3 [c; d; e]); simpl; [lia|done]|].
  simpl. rewrite H1, H2, H3. split; [done|by exists []].
Qed.

Lemma starts_app p q : starts (p ++ q)%list = false -> starts p = false.
Proof.
  destruct p as [|c [|d [|e p]]]; simpl; try done; intros H; bools;
    repeat match goal with H : ?b = false |- _ => rewrite H end; done.
Qed.
End strip.

Definition trim_left : bytes -> bytes := strip space1 space2 space3.
Definition trim_right (l : bytes) : bytes :=
  rev (strip space1 (flip space2) (fun e d c => space3 c d e) (rev l)).
Definition trim (l : bytes) : bytes := trim_right (trim_left l).

Definition TrimSpace (s : string) : string := string_of (trim (bytes_of s)).

Lemma trim_idem l : trim (trim l) = trim l.
Proof.
  unfold trim. set (l1 := trim_left l).
  assert (H1 : starts space1 space2 space3 l1 = false) by apply strip_spec.
  unfold trim_right at 2 3.
  set (f := strip space1 (flip space2) (fun e d c => space3 c d e)).
  destruct (strip_spec space1 (flip space2) (fun e d c => space3 c d e) (rev l1))
    as [H2 [pre Hpre]]. fold f in H2, Hpre.
  assert (Hl : l1 = (rev (f (rev l1)) ++ rev pre)%list).
  { rewrite <- rev_app_distr, <- Hpre. by rewrite rev_involutive. }
  rewrite Hl in H1. apply starts_app in H1.
  unfold trim_left. rewrite (strip_fixed _ _ _ _ H1).
  unfold trim_right. fold f. rewrite rev_involutive.
  unfold f at 1. by rewrite strip_fixed.
Qed.

Lemma TrimSpace_idem s : TrimSpace (TrimSpace s) = TrimSpace s.
Proof. unfold TrimSpace. by rewrite bytes_string, trim_idem. Qed.

(** A string Go would leave unchanged. *)
Definition trimmed (s : string) : Prop := TrimSpace s = s.
#[export] Instance trimmed_dec s : Decision (trimmed s).
Proof. unfold trimmed. apply _. Defined.

Lemma TrimSpace_trimmed s : trimmed (TrimSpace s).
Proof. apply TrimSpace_idem. Qed.
#[export] Hint Resolve TrimSpace_trimmed : go.
#[export] Hint Rewrite TrimSpace_idem : go.

(** Nothing to trim between two visible ASCII characters. *)
Definition visible (c : ascii) : bool := ((33 <=? code c) && (code c <=? 127))%N.

Lemma visible_tests c : visible c = true ->
  space1 c = false /\ (forall d, space2 c d = false /\ space2 d c = false) /\
  (forall d e, space3 c d e = false /\ space3 d e c = false).
Proof.
  unfold visible. rewrite andb_true_iff, !N.leb_le. intros Hc.
  assert (Hlt : forall k, (128 <= k)%N -> (code c =? k)%N = false) by (intros; apply N.eqb_neq; lia).
  split_and!; [|intros d|intros d e].
  - unfold space1. cbv zeta. rewrite (proj2 (N.leb_gt (code c) 13)) by lia.
    rewrite andb_false_r. apply N.eqb_neq. lia.
  - unfold space2. rewrite !Hlt by lia. cbn. by rewrite andb_false_r.
  - unfold space3. rewrite !Hlt by lia. rewrite (proj2 (N.leb_gt 128 (code c))) by lia.
    cbn. by rewrite !andb_false_r.
Qed.

Lemma starts_visible c l : visible c = true ->
  starts space1 space2 space3 (c :: l) = false /\
  starts space1 (flip space2) (fun e d c => space3 c d e) (c :: l) = false.
Proof.
  intros Hc. destruct (visible_tests c Hc) as (H1 & H2 & H3). unfold starts, flip. rewrite H1.
  destruct l as [|d [|e l]]; [done|by rewrite !(proj1 (H2 d)), !(proj2 (H2 d))|].
  by rewrite !(proj1 (H2 d)), !(proj2 (H2 d)), (proj1 (H3 d e)), (proj2 (H3 e d)).
Qed.

Lemma TrimSpace_visible c l d :
  visible c = true -> visible d = true -> l <> [] ->
  (exists l', l = c :: l') -> (exists l', l = l' ++ [d])%list ->
  TrimSpace (string_of l) = string_of l.
Proof.
  intros Hc Hd _ [l1 E1] [l2 E2]. unfold TrimSpace, trim, trim_left. rewrite bytes_string.
  rewrite strip_fixed by (rewrite E1; by apply starts_visible).
  unfold trim_right. rewrite strip_fixed; [by rewrite rev_involutive|].
  rewrite E2, rev_unit. by apply starts_visible.
Qed.

(** [strings.TrimSpace(s) == ""], the blank test of every constructor. *)
Definition blank (s : string) : bool := bool_decide (TrimSpace s = "").

(** * Case mapping

    ASCII letters are mapped.  Of the other code points only U+0131 and U+017F
    have an ASCII upper case and U+0130 and U+212A an ASCII lower case; those
    are mapped too, since the results are compared with ASCII constants, and the
    remaining bytes are kept (they can equal no ASCII constant either way). *)
Definition upper1 (c : ascii) : ascii :=
  if ((97 <=? code c) && (code c <=? 122))%N then ascii_of_N (code c - 32) else c.
Definition lower1 (c : ascii) : ascii :=
  if ((65 <=? code c) && (code c <=? 90))%N then ascii_of_N (code c + 32) else c.

Fixpoint upper (l : bytes) : bytes :=
  match l with
  | [] => []
  | c :: r =>
      match r with
      | d :: r2 =>
          if ((code c =? 196) && (code d =? 177))%N then "I"%char :: upper r2
          else if ((code c =? 197) && (code d =? 191))%N then "S"%char :: upper r2
          else upper1 c :: upper r
      | [] => [upper1 c]
      end
  end.

Fixpoint lower (l : bytes) : bytes :=
  match l with
  | [] => []
  | c :: r =>
      match r with
      | d :: r2 =>
          if ((code c =? 196) && (code d =? 176))%N then "i"%char :: lower r2
          else match r2 with
               | e :: r3 =>
                   if ((code c =? 226) && (code d =? 132) && (code e =? 170))%N
                   then "k"%char :: lower r3
                   else lower1 c :: lower r
               | [] => lower1 c :: lower r
               end
      | [] => [lower1 c]
      end
  end.

Definition ToUpper (s : string) : string := string_of (upper (bytes_of s)).
Definition ToLower (s : string) : string := string_of (lower (bytes_of s)).

(** [strings.EqualFold] against an ASCII constant: ASCII letters fold to lower
    case; of the other code points only U+212A (to k) and U+017F (to s) fold to an
    ASCII letter. *)
Fixpoint fold_case (l : bytes) : bytes :=
  match l with
  | [] => []
  | c :: r =>
      match r with
      | d :: r2 =>
          if ((code c =? 197) && (code d =? 191))%N then "s"%char :: fold_case r2
          else match r2 with
               | e :: r3 =>
                   if ((code c =? 226) && (code d =? 132) && (code e =? 170))%N
                   then "k"%char :: fold_case r3
                   else lower1 c :: fold_case r
               | [] => lower1 c :: fold_case r
               end
      | [] => [lower1 c]
      end
  end.

Definition EqualFold (s t : string) : bool :=
  bool_decide (fold_case (bytes_of s) = fold_case (bytes_of t)).

Definition HasPrefix (s p : string) : bool := String.prefix p s.

Definition digit (c : ascii) : bool := ((48 <=? code c) && (code c <=? 57))%N.
Definition all_digits (s : string) : bool := forallb digit (bytes_of s).

Example TrimSpace_ex : TrimSpace "  a b
 " = "a b".
Proof. reflexivity. Qed.
Example EqualFold_ex : EqualFold "PaId" "paid" = true.
Proof. reflexivity. Qed.

(** * Concatenation and prefixes *)
Lemma append_String c p s : String c p ++ s = String c (p ++ s).
Proof. done. Qed.
Lemma prefix_app p s : HasPrefix (p ++ s) p = true.
Proof.
  unfold HasPrefix. induction p as [|c p IH]; [by destruct s|]. rewrite append_String.
  unfold String.prefix. fold String.prefix. by destruct (ascii_dec c c).
Qed.
Lemma substring_all s : String.substring 0 (String.length s) s = s.
Proof. induction s as [|c s IH]; [done|]. exact (f_equal (String c) IH). Qed.
Lemma substring_skip p s n : String.substring (String.length p) n (p ++ s) = String.substring 0 n s.
Proof. induction p as [|c p IH]; [done|]. exact IH. Qed.
Lemma length_append p s : String.length (p ++ s) = (String.length p + String.length s)%nat.
Proof. induction p as [|c p IH]; [done|]. exact (f_equal Datatypes.S IH). Qed.
Lemma append_assoc a b c : (a ++ b) ++ c = a ++ (b ++ c).
Proof. induction a as [|x a IH]; [done|]. exact (f_equal (String x) IH). Qed.
