(* ===== verification/GoTime.v ===== *)
(** Go's [time.Time] as the service uses it: instants in nanoseconds carrying a
    location, the civil day of an instant in its location (daylight-saving
    transitions included), [Sub] with its saturation, [AddDate] in days, and
    [time.Parse] on the layout [2006-01-02], the inverse of formatting. *)
From S2P Require Import Prelude GoStrings.

(** A location: the offset (seconds east of UTC) in force before the first
    transition, and the later transitions as (unix second, new offset). *)
Record Location := { base : Z; zones : list (Z * Z) }.
Definition UTC_loc : Location := {| base := 0; zones := [] |}.

Record Time := { ns : Z; loc : Location }.

#[export] Instance Location_eq_dec : EqDecision Location.
Proof. solve_decision. Defined.
#[export] Instance Time_eq_dec : EqDecision Time.
Proof. solve_decision. Defined.

Definition nsec : Z := 1000000000.
Definition day_secs : Z := 86400.
Definition hour : Z := 3600 * nsec.
Definition day_ns : Z := 24 * hour.

(** [time.Time{}]: January 1 of year 1, UTC. *)
Definition zeroTime : Time := {| ns := -62135596800 * nsec; loc := UTC_loc |}.
Definition IsZero (t : Time) : bool := ns t =? ns zeroTime.
Definition Before (t u : Time) : bool := ns t <? ns u.
Definition After (t u : Time) : bool := ns u <? ns t.
Definition Equal (t u : Time) : bool := ns t =? ns u.
Definition Add (t : Time) (d : Z) : Time := {| ns := ns t + d; loc := loc t |}.
Definition in_UTC (t : Time) : Time := {| ns := ns t; loc := UTC_loc |}.

(** [t.Sub(u)] saturates at the bounds of [time.Duration]. *)
Definition Sub (t u : Time) : Z :=
  let d := ns t - ns u in
  if maxInt64 <? d then maxInt64 else if d <? minInt64 then minInt64 else d.

(** [Location.lookup]: the offset in force at a unix second and the bounds of
    the zone it belongs to. *)
Fixpoint lookup_from (off start : Z) (zs : list (Z * Z)) (sec : Z) : Z * Z * Z :=
  match zs with
  | [] => (off, start, maxInt64)
  | (s, o) :: r => if sec <? s then (off, start, s) else lookup_from o s r sec
  end.
Definition lookup (l : Location) (sec : Z) : Z * Z * Z :=
  lookup_from (base l) minInt64 (zones l) sec.
Definition offset_at (l : Location) (sec : Z) : Z := fst (fst (lookup l sec)).

(** Wall-clock seconds of an instant in its location, and [time.Date]'s way
    back: the offset found at the wall-clock reading taken as UTC, looked up
    again when the result falls outside that zone. *)
Definition unix (t : Time) : Z := ns t / nsec.
Definition local_secs (t : Time) : Z := unix t + offset_at (loc t) (unix t).
Definition resolve (l : Location) (secs : Z) : Z :=
  let '(off, start, end_) := lookup l secs in
  if off =? 0 then secs
  else
    let utc := secs - off in
    let off' := if (utc <? start) || (end_ <=? utc) then offset_at l utc else off in
    secs - off'.

(** The civil day of an instant in its location, as a day number. *)
Definition civil_day (t : Time) : Z := local_secs t / day_secs.

(** [time.Date(y, m, d, 0, 0, 0, 0, t.Location())] with [y, m, d := t.Date()]. *)
Definition startOfDay_of (t : Time) : Time :=
  {| ns := resolve (loc t) (civil_day t * day_secs) * nsec; loc := loc t |}.

(** [t.AddDate(0, 0, n)]: the same wall clock [n] civil days later. *)
Definition AddDays (t : Time) (n : Z) : Time :=
  {| ns := resolve (loc t) (local_secs t + n * day_secs) * nsec + ns t mod nsec;
     loc := loc t |}.

(** A location without transitions (UTC and fixed offsets). *)
Definition fixed (l : Location) : Prop := zones l = [].

Lemma offset_fixed l sec : fixed l -> offset_at l sec = base l.
Proof. unfold fixed, offset_at, lookup. by intros ->. Qed.

Lemma resolve_fixed l secs : fixed l -> resolve l secs = secs - base l.
Proof.
  intros H. unfold resolve, lookup. rewrite H. simpl.
  destruct (base l =? 0) eqn:E; [lia|].
  case_match; [by rewrite (offset_fixed l _ H)|done].
Qed.

Lemma startOfDay_fixed t :
  fixed (loc t) -> ns (startOfDay_of t) = (civil_day t * day_secs - base (loc t)) * nsec.
Proof. intros H. simpl. by rewrite resolve_fixed. Qed.

Lemma civil_day_mono t u :
  fixed (loc t) -> loc t = loc u -> ns t <= ns u -> civil_day t <= civil_day u.
Proof.
  intros H E ?. unfold civil_day, local_secs, unix, day_secs, nsec.
  rewrite <- E, !offset_fixed by done.
  apply Z.div_le_mono; [lia|]. apply Z.add_le_mono_r, Z.div_le_mono; lia.
Qed.

(** In a fixed location, midnights are a whole number of days apart and
    [Sub] measures it exactly, within the span of [time.Duration]. *)
Lemma Sub_midnights t u :
  fixed (loc t) -> loc t = loc u ->
  in64 ((civil_day t - civil_day u) * day_ns) ->
  Sub (startOfDay_of t) (startOfDay_of u) = (civil_day t - civil_day u) * day_ns.
Proof.
  intros H E R. unfold Sub. rewrite startOfDay_fixed by done.
  rewrite startOfDay_fixed by (by rewrite <- E). rewrite <- E.
  unfold in64, day_ns, hour, day_secs, nsec in *.
  replace (_ - _) with ((civil_day t - civil_day u) * (24 * (3600 * 1000000000))) by lia.
  repeat case_match; lia.
Qed.

Lemma startOfDay_mono t u :
  fixed (loc t) -> loc t = loc u -> ns t <= ns u ->
  ns (startOfDay_of t) <= ns (startOfDay_of u).
Proof.
  intros H E Hle. rewrite !startOfDay_fixed by congruence. rewrite <- E.
  pose proof (civil_day_mono t u H E Hle). unfold day_secs, nsec. lia.
Qed.

Lemma Sub_in64 t u : in64 (Sub t u).
Proof.
  unfold Sub, in64. repeat case_match; unfold minInt64, maxInt64 in *; lia.
Qed.
Lemma Sub_le t u v w : ns t - ns u <= ns v - ns w -> Sub t u <= Sub v w.
Proof. unfold Sub, minInt64, maxInt64. intros. repeat case_match; lia. Qed.
Lemma Sub_pos t u : 0 < Sub t u -> Sub u t < 0.
Proof. unfold Sub, minInt64, maxInt64. intros. repeat case_match; lia. Qed.
Lemma Sub_neg t u : ns u <= ns t -> 0 <= Sub t u.
Proof. unfold Sub, minInt64, maxInt64. intros. repeat case_match; lia. Qed.

(** * Whole days between two instants

    The expression shared by the two due-date aggregates: the difference of the
    two midnights, truncated to whole days, floored at zero. *)
Definition days_after (t u : Time) : Z :=
  Z.max 0 (Z.quot (Sub (startOfDay_of t) (startOfDay_of u)) day_ns).

Lemma days_after_nonneg t u : 0 <= days_after t u.
Proof. unfold days_after. lia. Qed.

Lemma days_after_code t u :
  (let days := div64 (Sub (startOfDay_of t) (startOfDay_of u)) day_ns in
   if days <? 0 then 0 else days) = days_after t u.
Proof.
  simpl. rewrite div64_quot; [|apply Sub_in64|unfold day_ns, hour, nsec; lia].
  unfold days_after. case_match; lia.
Qed.

(** One cannot be both late and early. *)
Lemma days_after_excl t u : 0 < days_after t u -> days_after u t = 0.
Proof.
  unfold days_after. intros H.
  set (x := Sub (startOfDay_of t) (startOfDay_of u)) in *.
  assert (0 < x).
  { destruct (Z.le_gt_cases x 0); [|lia].
    assert (Z.quot x day_ns <= 0); [|lia].
    pose proof (Z.quot_pos (- x) day_ns). pose proof (Z.quot_opp_l x day_ns).
    unfold day_ns, hour, nsec in *. lia. }
  pose proof (Sub_pos _ _ H0) as Hn. fold x in Hn.
  set (y := Sub (startOfDay_of u) (startOfDay_of t)) in *.
  pose proof (Z.quot_pos (- y) day_ns). pose proof (Z.quot_opp_l y day_ns).
  unfold day_ns, hour, nsec in *. lia.
Qed.

Lemma days_after_mono t u v w :
  ns (startOfDay_of t) - ns (startOfDay_of u) <= ns (startOfDay_of v) - ns (startOfDay_of w) ->
  days_after t u <= days_after v w.
Proof.
  intros H. unfold days_after. apply Sub_le in H.
  pose proof (Z.quot_le_mono _ _ day_ns ltac:(unfold day_ns, hour, nsec; lia) H). lia.
Qed.

(** In a fixed location it is the difference of the civil days. *)
Lemma days_after_fixed t u :
  fixed (loc t) -> loc t = loc u -> in64 ((civil_day t - civil_day u) * day_ns) ->
  days_after t u = Z.max 0 (civil_day t - civil_day u).
Proof.
  intros. unfold days_after. rewrite Sub_midnights by done.
  rewrite Z.quot_mul; [done|]. unfold day_ns, hour, nsec. lia.
Qed.

(** * time.Parse with layout 2006-01-02 *)
Definition num_of (l : bytes) : Z :=
  fold_left (fun n c => n * 10 + (Z.of_N (code c) - 48)) l 0.
Definition leap (y : Z) : bool :=
  (y mod 4 =? 0) && (negb (y mod 100 =? 0) || (y mod 400 =? 0)).
Definition days_in (m y : Z) : Z :=
  if m =? 2 then (if leap y then 29 else 28)
  else if (m =? 4) || (m =? 6) || (m =? 9) || (m =? 11) then 30 else 31.

(** Day number (days since 1970-01-01) of a proleptic Gregorian date. *)
Definition days_from_civil (y m d : Z) : Z :=
  let y := if m <=? 2 then y - 1 else y in
  let era := y / 400 in
  let yoe := y - era * 400 in
  let doy := (153 * (m + (if 2 <? m then -3 else 9)) + 2) / 5 + d - 1 in
  let doe := yoe * 365 + yoe / 4 - yoe / 100 + doy in
  era * 146097 + doe - 719468.

Definition parse_ymd (s : string) : option (Z * Z * Z) :=
  match bytes_of s with
  | [y1; y2; y3; y4; h1; m1; m2; h2; d1; d2] =>
      let y := num_of [y1; y2; y3; y4] in
      let m := num_of [m1; m2] in
      let d := num_of [d1; d2] in
      if forallb digit [y1; y2; y3; y4; m1; m2; d1; d2]
         && bool_decide (h1 = "-"%char) && bool_decide (h2 = "-"%char)
         && (1 <=? m) && (m <=? 12) && (1 <=? d) && (d <=? days_in m y)
      then Some (y, m, d) else None
  | _ => None
  end.

(** [t.Format("2006-01-02")] for a civil day: the inverse computation. *)
Definition civil_from_days (z : Z) : Z * Z * Z :=
  let z := z + 719468 in
  let era := z / 146097 in
  let doe := z - era * 146097 in
  let yoe := (doe - doe / 1460 + doe / 36524 - doe / 146096) / 365 in
  let y := yoe + era * 400 in
  let doy := doe - (365 * yoe + yoe / 4 - yoe / 100) in
  let mp := (5 * doy + 2) / 153 in
  let d := doy - (153 * mp + 2) / 5 + 1 in
  let m := if mp <? 10 then mp + 3 else mp - 9 in
  (if m <=? 2 then y + 1 else y, m, d).

Definition digit_char (n : Z) : ascii := ascii_of_N (Z.to_N (n mod 10 + 48)).
Definition two_digits (n : Z) : bytes := [digit_char (n / 10); digit_char n].
(** Years 0 to 9999, the ones of four digits. *)
Definition four_digits (n : Z) : bytes :=
  [digit_char (n / 1000); digit_char (n / 100); digit_char (n / 10); digit_char n].
Definition format_ymd (ymd : Z * Z * Z) : string :=
  let '(y, m, d) := ymd in
  string_of (four_digits y ++ ["-"%char] ++ two_digits m ++ ["-"%char] ++ two_digits d)%list.
Definition Format_date (t : Time) : string := format_ymd (civil_from_days (civil_day t)).

Example parse_leap : parse_ymd "2024-02-29" = Some (2024, 2, 29).
Proof. reflexivity. Qed.
Example parse_bad : parse_ymd "2023-02-29" = None.
Proof. reflexivity. Qed.
Example format_ex :
  Format_date {| ns := 1709208000 * nsec; loc := UTC_loc |} = "2024-02-29".
Proof. reflexivity. Qed.
Example epoch : days_from_civil 1970 1 1 = 0 /\ days_from_civil 2000 3 1 = 11017.
Proof. split; reflexivity. Qed.

(** * Dates as text *)
(** [time.Parse("2006-01-02", s)]: midnight UTC of the date. *)
Definition Parse_date (s : string) : option Time :=
  '(y, m, d) ← parse_ymd s;
  Some {| ns := days_from_civil y m d * day_secs * nsec; loc := UTC_loc |}.

Ltac div_lia := Z.to_euclidean_division_equations; lia.

(** * Days and dates *)
Lemma leap_shift y k : leap (y + k * 400) = leap y.
Proof.
  unfold leap. replace (y + k * 400) with (y + (k * 100) * 4) at 1 by lia.
  replace (y + k * 400) with (y + (k * 4) * 100) at 1 by lia.
  by rewrite !Z.mod_add by lia.
Qed.

Lemma leap_true y : y mod 4 = 0 -> y mod 100 <> 0 \/ y mod 400 = 0 -> leap y = true.
Proof.
  intros H4 H. unfold leap. rewrite H4. cbn [Z.eqb andb].
  destruct H as [H| ->]; [by rewrite (proj2 (Z.eqb_neq _ _))|by rewrite orb_true_r].
Qed.

(** The day of an era of 400 years, its year and its day of the year. *)
Lemma era_day doe : 0 <= doe < 146097 ->
  let yoe := (doe - doe / 1460 + doe / 36524 - doe / 146096) / 365 in
  let doy := doe - (365 * yoe + yoe / 4 - yoe / 100) in
  0 <= yoe < 400 /\ 0 <= doy <= 365 /\ (doy = 365 -> leap (yoe + 1) = true).
Proof.
  intros Hd yoe doy. split; [subst yoe; div_lia|]. split; [subst doy yoe; div_lia|].
  intros E. subst doy. apply leap_true; subst yoe; [div_lia|].
  destruct (Z.eq_dec (((doe - doe / 1460 + doe / 36524 - doe / 146096) / 365 + 1) mod 100) 0);
    [right|left; done]. div_lia.
Qed.

(** The month, counted from March, and the day of the month. *)
Lemma month_day doy : 0 <= doy <= 365 ->
  let mp := (5 * doy + 2) / 153 in
  let d := doy - (153 * mp + 2) / 5 + 1 in
  0 <= mp <= 11 /\ 1 <= d <= 31 /\ (mp = 1 \/ mp = 3 \/ mp = 6 \/ mp = 8 -> d <= 30) /\
  (mp = 11 -> d <= 29) /\ (mp = 11 -> d = 29 -> doy = 365).
Proof. intros Hd mp d. subst d mp. split_and!; div_lia. Qed.

Definition valid_date (ymd : Z * Z * Z) : Prop :=
  let '(y, m, d) := ymd in 1 <= m <= 12 /\ 1 <= d <= days_in m y.

Lemma civil_roundtrip z :
  valid_date (civil_from_days z) /\
  (let '(y, m, d) := civil_from_days z in days_from_civil y m d) = z.
Proof.
  unfold civil_from_days, valid_date. cbv zeta.
  set (n := z + 719468). set (doe := n - n / 146097 * 146097).
  assert (Hdoe : 0 <= doe < 146097) by (subst doe; div_lia).
  pose proof (era_day doe Hdoe) as (Hy & Hdy & Hleap). cbv zeta in *.
  set (yoe := (doe - doe / 1460 + doe / 36524 - doe / 146096) / 365) in *.
  set (doy := doe - (365 * yoe + yoe / 4 - yoe / 100)) in *.
  pose proof (month_day doy Hdy) as (Hmp & Hd & H30 & H29 & H365). cbv zeta in *.
  set (mp := (5 * doy + 2) / 153) in *. set (d := doy - (153 * mp + 2) / 5 + 1) in *.
  assert (Hm : (if mp <? 10 then mp + 3 else mp - 9) <=? 2 = negb (mp <? 10))
    by (destruct (Z.ltb_spec mp 10); [apply Z.leb_gt|apply Z.leb_le]; lia).
  split.
  - split; [destruct (Z.ltb_spec mp 10); lia|split; [lia|]].
    unfold days_in. rewrite Hm. destruct (Z.ltb_spec mp 10); cbn [negb].
    + rewrite (proj2 (Z.eqb_neq _ 2)) by lia.
      destruct (_ || _) eqn:E; [|lia]. apply H30. lia.
    + destruct (Z.eqb_spec (mp - 9) 2); [|destruct (_ || _) eqn:E; lia].
      replace (yoe + n / 146097 * 400 + 1) with (yoe + 1 + n / 146097 * 400) by lia.
      rewrite leap_shift. destruct (leap (yoe + 1)) eqn:El; [apply H29; lia|].
      specialize (H29 ltac:(lia)). destruct (Z.eq_dec d 29); [|lia].
      pose proof (Hleap (H365 ltac:(lia) ltac:(lia))). congruence.
  - unfold days_from_civil. rewrite Hm.
    assert (Hera : forall y', y' = yoe + n / 146097 * 400 -> y' / 400 = n / 146097)
      by (intros; subst; rewrite Z.div_add, Z.div_small by lia; lia).
    destruct (Z.ltb_spec mp 10); cbn [negb]; cbv zeta.
    + rewrite (Hera _ eq_refl). rewrite (proj2 (Z.ltb_lt 2 _)) by lia.
      replace (yoe + n / 146097 * 400 - n / 146097 * 400) with yoe by lia.
      replace (mp + 3 + -3) with mp by lia. lia.
    + rewrite (Hera (yoe + n / 146097 * 400 + 1 - 1)) by lia.
      rewrite (proj2 (Z.ltb_ge 2 _)) by lia.
      replace (yoe + n / 146097 * 400 + 1 - 1 - n / 146097 * 400) with yoe by lia.
      replace (mp - 9 + 9) with mp by lia. lia.
Qed.

(** * Text *)
Lemma digit_char_ok n : digit (digit_char n) = true /\ Z.of_N (code (digit_char n)) - 48 = n mod 10.
Proof.
  pose proof (Z.mod_pos_bound n 10). unfold digit, digit_char, code.
  rewrite N_ascii_embedding by lia. split; [|lia].
  apply andb_true_iff. rewrite !N.leb_le. lia.
Qed.

Lemma num_of_snoc l n : num_of (l ++ [digit_char n]) = num_of l * 10 + n mod 10.
Proof. unfold num_of. rewrite fold_left_app. cbn. by rewrite (proj2 (digit_char_ok n)). Qed.

Lemma num_of_digits n : 0 <= n ->
  num_of (two_digits n) = n mod 100 /\ num_of (four_digits n) = n mod 10000.
Proof.
  intros Hn. unfold two_digits, four_digits. split.
  - change [digit_char (n / 10); digit_char n] with ([digit_char (n / 10)] ++ [digit_char n])%list.
    rewrite num_of_snoc. change [digit_char (n / 10)] with ([] ++ [digit_char (n / 10)])%list.
    rewrite num_of_snoc. cbn. div_lia.
  - change [digit_char (n / 1000); digit_char (n / 100); digit_char (n / 10); digit_char n]
      with (((([] ++ [digit_char (n / 1000)]) ++ [digit_char (n / 100)]) ++ [digit_char (n / 10)])
            ++ [digit_char n])%list.
    rewrite !num_of_snoc. cbn. div_lia.
Qed.

Lemma format_roundtrip y m d : 0 <= y <= 9999 -> valid_date (y, m, d) ->
  parse_ymd (format_ymd (y, m, d)) = Some (y, m, d).
Proof.
  intros Hy [Hm Hd]. assert (d <= 31) by (unfold days_in in Hd; repeat case_match; lia).
  pose proof (num_of_digits y) as [_ E4]; [lia|]. pose proof (num_of_digits m) as [Em _]; [lia|].
  pose proof (num_of_digits d) as [Ed _]; [lia|]. rewrite Z.mod_small in E4, Em, Ed by lia.
  unfold parse_ymd, format_ymd. rewrite bytes_string. unfold four_digits, two_digits in *.
  cbn [app]. rewrite E4, Em, Ed. cbn [forallb]. rewrite !(proj1 (digit_char_ok _)).
  rewrite !bool_decide_true by done. rewrite !(proj2 (Z.leb_le _ _)) by lia. done.
Qed.

(** A date that is written is read back as the same civil day. *)
Lemma Parse_format t : 0 <= fst (fst (civil_from_days (civil_day t))) <= 9999 ->
  Parse_date (Format_date t) = Some {| ns := civil_day t * day_secs * nsec; loc := UTC_loc |}.
Proof.
  intros Hy. unfold Format_date, Parse_date.
  destruct (civil_roundtrip (civil_day t)) as [Hv E].
  destruct (civil_from_days (civil_day t)) as [[y m] d]. rewrite format_roundtrip by done.
  cbn [mbind option_bind]. by rewrite E.
Qed.

Lemma format_not_empty t : Format_date t <> "".
Proof. unfold Format_date, format_ymd. by destruct (civil_from_days (civil_day t)) as [[y m] d]. Qed.
