(* ===== verification/GoFloat.v ===== *)
(** Just enough of IEEE 754 double precision: non-negative rationals of the normal range,
    rounded to 53 bits, ties to even; then fractions of either sign, the four operations, and
    what a rounding can change.  Overflow and subnormal numbers are out of scope: the values
    the service computes stay far from both. *)
From S2P Require Import Prelude GoStrings GoTime.
From Stdlib Require Import QArith Qabs Lqa.
#[global] Open Scope Z_scope.

(** A fraction [num / den] with [0 <= num], [0 < den]. *)
Notation frac := (Z * Z)%type.

(** The exponent of the fraction: the greatest [e] with [2 ^ e <= num / den]. *)
Definition exponent (num den : Z) : Z :=
  let e := Z.log2 num - Z.log2 den in
  if (if 0 <=? e then num <? den * 2 ^ e else num * 2 ^ (- e) <? den) then e - 1 else e.

(** Round half to even. *)
Definition round_quot (num den : Z) : Z :=
  let q := num / den in
  let r := num mod den in
  if 2 * r <? den then q
  else if den <? 2 * r then q + 1
  else if Z.even q then q else q + 1.

Definition float64 (f : frac) : frac :=
  let '(num, den) := f in
  if num =? 0 then (0, 1)
  else
    let k := 52 - exponent num den in
    if 0 <=? k then (round_quot (num * 2 ^ k) den, 2 ^ k)
    else (round_quot num (den * 2 ^ (- k)) * 2 ^ (- k), 1).

Definition fadd (f g : frac) : frac :=
  float64 (fst f * snd g + fst g * snd f, snd f * snd g).
Definition fdiv (f g : frac) : frac := float64 (fst f * snd g, snd f * fst g).
(** Conversion from an integer, and truncation to one. *)
Definition of_int (n : Z) : frac := float64 (n, 1).
Definition to_int (f : frac) : Z := fst f / snd f.

(** [d.Hours()] for a non-negative duration. *)
Definition Hours (d : Z) : frac :=
  fadd (of_int (d / hour)) (fdiv (of_int (d mod hour)) (of_int hour)).
(** [int(d.Hours() / 24)] *)
Definition whole_days (d : Z) : Z := to_int (fdiv (Hours d) (of_int 24)).

(** * Integers are exact *)
Lemma exponent_int n den : 0 < n -> 0 < den -> exponent (n * den) den = Z.log2 n.
Proof.
  intros Hn Hd. unfold exponent.
  pose proof (Z.log2_spec n Hn) as [Hl Hu]. pose proof (Z.log2_nonneg n) as H0.
  pose proof (Z.log2_mul_below n den Hn Hd) as Hb. pose proof (Z.log2_mul_above n den ltac:(lia) ltac:(lia)) as Ha.
  set (e := Z.log2 (n * den) - Z.log2 den). rewrite (proj2 (Z.leb_le 0 e)) by lia.
  rewrite Z.pow_succ_r in Hu by lia.
  destruct (Z.eq_dec e (Z.log2 n)) as [->|Hne].
  - rewrite (proj2 (Z.ltb_ge _ _)) by nia. done.
  - assert (e = Z.log2 n + 1) as -> by lia.
    rewrite Z.pow_add_r by lia. change (2 ^ 1) with 2.
    rewrite (proj2 (Z.ltb_lt _ _)) by nia. lia.
Qed.

Lemma round_exact q den : 0 < den -> round_quot (q * den) den = q.
Proof.
  intros Hd. unfold round_quot. rewrite Z.div_mul, Z.mod_mul by lia.
  by rewrite (proj2 (Z.ltb_lt _ _)) by lia.
Qed.

(** A fraction that is an integer under 2^53 is not changed. *)
Lemma float64_int n den : 0 <= n < 2 ^ 53 -> 0 < den ->
  exists k, 0 <= k /\ float64 (n * den, den) = (n * 2 ^ k, 2 ^ k).
Proof.
  intros Hn Hd. unfold float64. destruct (Z.eqb_spec (n * den) 0) as [E|E].
  - exists 0. split; [lia|]. assert (n = 0) as -> by nia. done.
  - assert (0 < n) by nia. rewrite exponent_int by lia.
    assert (Z.log2 n < 53) by (apply Z.log2_lt_pow2; lia).
    rewrite (proj2 (Z.leb_le 0 (52 - Z.log2 n))) by lia.
    exists (52 - Z.log2 n). split; [lia|].
    replace (n * den * 2 ^ (52 - Z.log2 n)) with (n * 2 ^ (52 - Z.log2 n) * den) by lia.
    by rewrite round_exact.
Qed.

Lemma of_int_exact n : 0 <= n < 2 ^ 53 -> exists k, 0 <= k /\ of_int n = (n * 2 ^ k, 2 ^ k).
Proof.
  intros Hn. destruct (float64_int n 1) as (k & Hk & E); [done|lia|].
  exists k. by rewrite Z.mul_1_r in E.
Qed.

(** A whole number of days is counted exactly. *)
Lemma whole_days_exact k : 0 <= k < 2 ^ 40 -> whole_days (k * day_ns) = k.
Proof.
  intros Hk. unfold whole_days, Hours.
  replace (k * day_ns) with (k * 24 * hour) by (unfold day_ns; lia).
  rewrite Z.div_mul, Z.mod_mul by (unfold hour, nsec; lia).
  destruct (of_int_exact (k * 24)) as (a & Ha & ->); [lia|].
  destruct (of_int_exact 24) as (c & Hc & ->); [lia|].
  change (of_int 0) with (0, 1).
  assert (Hz : fdiv (0, 1) (of_int hour) = (0, 1)) by reflexivity. rewrite Hz.
  unfold fadd. cbn [fst snd]. rewrite !Z.mul_1_r, Z.mul_0_l, Z.add_0_r.
  destruct (float64_int (k * 24) (2 ^ a)) as (b & Hb & ->); [lia|lia|].
  unfold fdiv. cbn [fst snd].
  assert (0 < 2 ^ b /\ 0 < 2 ^ c) as [? ?] by lia.
  replace (k * 24 * 2 ^ b * 2 ^ c) with (k * (2 ^ b * (24 * 2 ^ c))) by lia.
  destruct (float64_int k (2 ^ b * (24 * 2 ^ c))) as (e & He & ->); [lia|lia|].
  unfold to_int. cbn [fst snd]. apply Z.div_mul. lia.
Qed.

(** * Signed arithmetic *)

Definition fneg (f : frac) : frac := (- f.1, f.2).
Definition round64 (f : frac) : frac :=
  if f.1 <? 0 then fneg (float64 (fneg f)) else float64 f.
Definition dadd (f g : frac) : frac := round64 (f.1 * g.2 + g.1 * f.2, f.2 * g.2).
Definition dsub (f g : frac) : frac := round64 (f.1 * g.2 - g.1 * f.2, f.2 * g.2).
Definition dmul (f g : frac) : frac := round64 (f.1 * g.1, f.2 * g.2).
(** By a positive divisor. *)
Definition ddiv (f g : frac) : frac := round64 (f.1 * g.2, f.2 * g.1).
Definition d_int (n : Z) : frac := round64 (n, 1).
Definition dlt (f g : frac) : bool := f.1 * g.2 <? g.1 * f.2.
Definition dmin (f g : frac) : frac := if dlt f g then f else g.
(** Conversion to an integer truncates towards zero. *)
Definition d_trunc (f : frac) : Z := Z.quot f.1 f.2.

(** [d.Seconds()] *)
Definition Seconds (d : Z) : frac :=
  dadd (d_int (Z.quot d nsec)) (ddiv (d_int (Z.rem d nsec)) (d_int nsec)).

(** * Values *)
Definition val (f : frac) : Q := f.1 # Z.to_pos f.2.
Definition pos_den (f : frac) : Prop := 0 < f.2.
(** 2^-53, half a unit in the last of 53 binary places. *)
Definition eps : Q := 1 # 9007199254740992.

Lemma val_eq n d : 0 < d -> val (n, d) == inject_Z n / inject_Z d.
Proof.
  intros Hd. unfold val. cbn. rewrite Qmake_Qdiv, Z2Pos.id by done. reflexivity.
Qed.

Lemma log2_bounds n : 0 < n -> 2 ^ Z.log2 n <= n < 2 * 2 ^ Z.log2 n.
Proof. intros Hn. pose proof (Z.log2_spec n Hn). rewrite <- Z.pow_succ_r by apply Z.log2_nonneg. lia. Qed.

(** The exponent is the position of the leading bit: with [k = 52 - exponent], the scaled
    fraction lies between 2^52 and 2^53. *)
Lemma exponent_spec num den : 0 < num -> 0 < den ->
  let k := 52 - exponent num den in
  if 0 <=? k then 2 ^ 52 * den <= num * 2 ^ k < 2 ^ 53 * den
  else 2 ^ 52 * (den * 2 ^ (- k)) <= num < 2 ^ 53 * (den * 2 ^ (- k)).
Proof.
  intros Hn Hd k.
  assert (Hshift : forall a b, 0 <= a -> 0 <= b -> 2 ^ (a + b) = 2 ^ a * 2 ^ b) by (intros; by rewrite Z.pow_add_r).
  (* the two-sided bound of the quotient, without fractions *)
  assert (Hq : forall u v, 0 <= u -> 0 <= v -> u - v = exponent num den ->
            2 ^ u * den <= num * 2 ^ v < 2 * 2 ^ u * den).
  { pose proof (log2_bounds num Hn) as [Hn1 Hn2]. pose proof (log2_bounds den Hd) as [Hd1 Hd2].
    pose proof (Z.log2_nonneg num). pose proof (Z.log2_nonneg den).
    intros u v Hu Hv. unfold exponent. set (e := Z.log2 num - Z.log2 den).
    assert (Hcmp : (if 0 <=? e then num <? den * 2 ^ e else num * 2 ^ (- e) <? den) = true <->
              num * 2 ^ Z.log2 den < den * 2 ^ Z.log2 num).
    { destruct (Z.leb_spec 0 e); rewrite Z.ltb_lt.
      - replace (Z.log2 num) with (e + Z.log2 den) by lia. rewrite Hshift by lia.
        assert (0 < 2 ^ Z.log2 den) by lia. nia.
      - replace (Z.log2 den) with (- e + Z.log2 num) by lia. rewrite Hshift by lia.
        assert (0 < 2 ^ Z.log2 num) by lia. nia. }
    assert (0 < 2 ^ Z.log2 num /\ 0 < 2 ^ Z.log2 den /\ 0 < 2 ^ u /\ 0 < 2 ^ v) as (?&?&?&?) by lia.
    destruct (if 0 <=? e then _ else _).
    - pose proof (proj1 Hcmp eq_refl) as Hc. intros E.
      assert (Hpow : 2 * (2 ^ u * 2 ^ Z.log2 den) = 2 ^ v * 2 ^ Z.log2 num).
      { rewrite <- !Hshift by lia. change 2 with (2 ^ 1) at 1. rewrite <- Hshift by lia. f_equal. lia. }
      nia.
    - assert (Hc : den * 2 ^ Z.log2 num <= num * 2 ^ Z.log2 den).
      { destruct (Z.le_gt_cases (den * 2 ^ Z.log2 num) (num * 2 ^ Z.log2 den)); [done|].
        assert (false = true) by (apply Hcmp; lia). done. }
      intros E. assert (Hpow : 2 ^ u * 2 ^ Z.log2 den = 2 ^ v * 2 ^ Z.log2 num)
        by (rewrite <- !Hshift by lia; f_equal; lia).
      nia. }
  assert (H53 : 2 ^ 53 = 2 * 2 ^ 52) by reflexivity. rewrite H53.
  destruct (Z.leb_spec 0 k) as [Hk|Hk].
  - apply Hq; lia.
  - specialize (Hq (52 - k) 0). replace (52 - k) with (52 + - k) in Hq by lia.
    rewrite Hshift, Z.mul_1_r in Hq by lia. set (p := 2 ^ (- k)) in *. lia.
Qed.

Lemma round_quot_error num den : 0 < den ->
  - den <= 2 * (round_quot num den * den - num) <= den.
Proof.
  intros Hd. unfold round_quot. pose proof (Z.div_mod num den ltac:(lia)).
  pose proof (Z.mod_pos_bound num den Hd).
  destruct (Z.ltb_spec (2 * (num mod den)) den); [lia|].
  destruct (Z.ltb_spec den (2 * (num mod den))); [lia|].
  destruct (Z.even _); lia.
Qed.

(** Rounding moves a non-negative value by at most its 2^-53th part. *)
Lemma float64_rel num den : 0 <= num -> 0 < den ->
  let '(n, d) := float64 (num, den) in
  0 < d /\ 0 <= n /\ 2 ^ 53 * Z.abs (n * den - num * d) <= num * d.
Proof.
  intros Hn Hd. unfold float64. destruct (Z.eqb_spec num 0) as [->|Hne]; [split_and!; lia|].
  assert (Hnum : 0 < num) by lia. pose proof (exponent_spec num den Hnum Hd) as He. cbv zeta in He.
  set (k := 52 - exponent num den) in *.
  assert (H53 : 2 ^ 53 = 2 * 2 ^ 52) by reflexivity. rewrite H53 in *.
  destruct (Z.leb_spec 0 k) as [Hk|Hk].
  - set (p := 2 ^ k) in *. assert (0 < p) by (subst p; lia).
    pose proof (round_quot_error (num * p) den Hd) as Hr. set (q := round_quot (num * p) den) in *.
    split_and!; [lia|nia|]. lia.
  - set (p := 2 ^ (- k)) in *. assert (0 < p) by (subst p; lia).
    pose proof (round_quot_error num (den * p) ltac:(lia)) as Hr. set (q := round_quot num (den * p)) in *.
    split_and!; [lia|nia|]. lia.
Qed.

Lemma val_close n d n' d' : 0 < d -> 0 < d' -> 2 ^ 53 * Z.abs (n' * d - n * d') <= Z.abs n * d' ->
  (val (n, d) - eps * Qabs (val (n, d)) <= val (n', d') <= val (n, d) + eps * Qabs (val (n, d)))%Q.
Proof.
  intros Hd Hd' H. destruct d as [|P|], d' as [|P'|]; try done. unfold val, eps. cbn [fst snd Z.to_pos].
  unfold Qle, Qminus, Qplus, Qmult, Qopp, Qabs. cbn [Qnum Qden].
  rewrite !Pos2Z.inj_mul. set (K := 9007199254740992) in *. change (2 ^ 53) with K in H.
  set (p := Z.pos P) in *. set (p' := Z.pos P') in *. rewrite !Z.mul_1_l.
  assert (H1 : K * (n' * p - n * p') * p <= Z.abs n * p' * p) by (apply Z.mul_le_mono_nonneg_r; lia).
  assert (H2 : K * (n * p' - n' * p) * p <= Z.abs n * p' * p) by (apply Z.mul_le_mono_nonneg_r; lia).
  split; lia.
Qed.

Lemma val_neg f : pos_den f -> (val (fneg f) == - val f)%Q.
Proof. done. Qed.
Lemma val_nonneg f : (0 <= val f)%Q <-> 0 <= f.1.
Proof. unfold val, Qle. cbn. lia. Qed.

(** The same of a value of either sign. *)
Lemma round64_rel f : pos_den f ->
  pos_den (round64 f) /\
  (val f - eps * Qabs (val f) <= val (round64 f) <= val f + eps * Qabs (val f))%Q /\
  (0 <= val f -> 0 <= val (round64 f))%Q.
Proof.
  destruct f as [num den]. unfold pos_den. cbn [snd]. intros Hd. unfold round64. cbn [fst].
  destruct (Z.ltb_spec num 0) as [Hn|Hn].
  - unfold fneg at 2 4 6 8. cbn [fst snd]. pose proof (float64_rel (- num) den ltac:(lia) Hd) as H.
    destruct (float64 (- num, den)) as [n d], H as (Hd' & Hn' & H). unfold fneg. cbn [fst snd].
    split; [done|]. split; [apply val_close; lia|]. rewrite val_nonneg. cbn. lia.
  - pose proof (float64_rel num den Hn Hd) as H. destruct (float64 (num, den)) as [n d], H as (Hd' & Hn' & H).
    split; [done|]. split; [apply val_close; lia|]. intros _. by apply val_nonneg.
Qed.

(** ** The operations *)
Ltac unfold_val f g :=
  destruct f as [? [|?|?]], g as [? [|?|?]]; try done;
  unfold val, Qeq, Qminus, Qplus, Qopp, Qmult; cbn -[Z.mul Z.add Z.sub Z.opp];
  rewrite ?Z2Pos.id, ?Pos2Z.inj_mul by lia; try ring; try lia.
Lemma val_add f g : pos_den f -> pos_den g ->
  (val (f.1 * g.2 + g.1 * f.2, f.2 * g.2)%Z == val f + val g)%Q.
Proof. intros Hf Hg. unfold_val f g. Qed.
Lemma val_sub f g : pos_den f -> pos_den g ->
  (val (f.1 * g.2 - g.1 * f.2, f.2 * g.2)%Z == val f - val g)%Q.
Proof. intros Hf Hg. unfold_val f g. Qed.
Lemma val_mul f g : pos_den f -> pos_den g -> (val (f.1 * g.1, f.2 * g.2)%Z == val f * val g)%Q.
Proof. intros Hf Hg. unfold_val f g. Qed.
Lemma val_lt f g : pos_den f -> pos_den g -> dlt f g = true <-> (val f < val g)%Q.
Proof.
  intros Hf Hg. unfold dlt, Qlt. rewrite Z.ltb_lt. unfold_val f g.
Qed.

Lemma pos_den_mul f g : pos_den f -> pos_den g -> 0 < f.2 * g.2.
Proof. unfold pos_den. nia. Qed.

Lemma dadd_rel f g : pos_den f -> pos_den g -> (0 <= val f + val g)%Q ->
  pos_den (dadd f g) /\ (0 <= val (dadd f g))%Q /\
  ((val f + val g) * (1 - eps) <= val (dadd f g) <= (val f + val g) * (1 + eps))%Q.
Proof.
  intros Hf Hg H0. pose proof (round64_rel _ (pos_den_mul f g Hf Hg : pos_den (f.1 * g.2 + g.1 * f.2, f.2 * g.2))) as (Hp & Hb & Hn).
  fold (dadd f g) in Hp, Hb, Hn. rewrite (val_add f g Hf Hg) in Hb, Hn. rewrite (Qabs_pos _ H0) in Hb.
  split; [done|]. split; [by apply Hn|]. split; lra.
Qed.
Lemma dsub_rel f g : pos_den f -> pos_den g -> (0 <= val f - val g)%Q ->
  pos_den (dsub f g) /\ (0 <= val (dsub f g))%Q /\
  ((val f - val g) * (1 - eps) <= val (dsub f g) <= (val f - val g) * (1 + eps))%Q.
Proof.
  intros Hf Hg H0. pose proof (round64_rel _ (pos_den_mul f g Hf Hg : pos_den (f.1 * g.2 - g.1 * f.2, f.2 * g.2))) as (Hp & Hb & Hn).
  fold (dsub f g) in Hp, Hb, Hn. rewrite (val_sub f g Hf Hg) in Hb, Hn. rewrite (Qabs_pos _ H0) in Hb.
  split; [done|]. split; [by apply Hn|]. split; lra.
Qed.
Lemma dmul_rel f g : pos_den f -> pos_den g -> (0 <= val f)%Q -> (0 <= val g)%Q ->
  pos_den (dmul f g) /\ (0 <= val (dmul f g))%Q /\
  (val f * val g * (1 - eps) <= val (dmul f g) <= val f * val g * (1 + eps))%Q.
Proof.
  intros Hf Hg H1 H2. pose proof (round64_rel _ (pos_den_mul f g Hf Hg : pos_den (f.1 * g.1, f.2 * g.2))) as (Hp & Hb & Hn).
  assert (H0 : (0 <= val f * val g)%Q) by (by apply Qmult_le_0_compat).
  fold (dmul f g) in Hp, Hb, Hn. rewrite (val_mul f g Hf Hg) in Hb, Hn. rewrite (Qabs_pos _ H0) in Hb.
  split; [done|]. split; [by apply Hn|]. split; lra.
Qed.

Lemma d_int_rel n : 0 <= n -> pos_den (d_int n) /\ (0 <= val (d_int n))%Q /\
  (inject_Z n * (1 - eps) <= val (d_int n) <= inject_Z n * (1 + eps))%Q.
Proof.
  intros Hn. pose proof (round64_rel (n, 1) ltac:(done)) as (Hp & Hb & H0).
  change (round64 (n, 1)) with (d_int n) in *. change (val (n, 1)) with (inject_Z n) in *.
  assert (Hq : (0 <= inject_Z n)%Q) by (unfold Qle; cbn; lia).
  rewrite (Qabs_pos _ Hq) in Hb. split; [done|]. split; [by apply H0|]. split; lra.
Qed.

(** A duration in seconds, exactly and as the double [Seconds] computes. *)
Definition secs (d : Z) : Q := inject_Z d * (1 # 1000000000).
Lemma nsec_double : d_int nsec = (1000000000 * 2 ^ 23, 2 ^ 23).
Proof. vm_compute. reflexivity. Qed.

Lemma Seconds_rel d : 0 <= d ->
  pos_den (Seconds d) /\ (0 <= val (Seconds d))%Q /\
  (secs d * (1 - 4 * eps) <= val (Seconds d) <= secs d * (1 + 4 * eps))%Q.
Proof.
  intros Hd. unfold Seconds. assert (Hns : 0 < nsec) by done.
  rewrite Z.quot_div_nonneg, Z.rem_mod_nonneg by lia.
  pose proof (Z.div_mod d nsec ltac:(lia)) as Hdm. pose proof (Z.mod_pos_bound d nsec Hns) as Hm.
  set (q := d / nsec) in *. set (r := d mod nsec) in *.
  assert (Hq : 0 <= q) by (subst q; apply Z.div_pos; lia).
  destruct (d_int_rel q Hq) as (Hp1 & Hn1 & Hb1). destruct (d_int_rel r (proj1 Hm)) as (Hp2 & Hn2 & Hb2).
  unfold ddiv. rewrite nsec_double. cbn [fst snd].
  set (g := ((d_int r).1 * 2 ^ 23, (d_int r).2 * (1000000000 * 2 ^ 23))).
  assert (Hg : pos_den g) by (unfold pos_den in *; subst g; cbn [snd]; lia).
  assert (Eg : (val g == val (d_int r) * (1 # 1000000000))%Q).
  { subst g. destruct (d_int r) as [a [|b|b]]; try done. unfold val, Qeq, Qmult. cbn [fst snd Qnum Qden Z.to_pos].
    rewrite !Pos2Z.inj_mul. cbn [Z.mul Z.to_pos]. lia. }
  pose proof (round64_rel g Hg) as (Hp3 & Hb3 & Hn3). set (h := round64 g) in *.
  assert (H0 : (0 <= val g)%Q) by (rewrite Eg; lra). rewrite (Qabs_pos _ H0) in Hb3. specialize (Hn3 H0).
  destruct (dadd_rel (d_int q) h Hp1 Hp3 ltac:(lra)) as (Hp & Hn & Hb). split; [done|]. split; [done|].
  assert (Es : (secs d == inject_Z q + inject_Z r * (1 # 1000000000))%Q).
  { unfold secs. rewrite Hdm, inject_Z_plus, inject_Z_mult. change (inject_Z nsec) with (1000000000 # 1)%Q.
    set (x := inject_Z q). set (y := inject_Z r). field. }
  assert (Hq' : (0 <= inject_Z q)%Q) by (unfold Qle; cbn; lia).
  assert (Hr' : (0 <= inject_Z r)%Q) by (unfold Qle; cbn; lia).
  unfold eps in *. rewrite Es. split; lra.
Qed.
