(* ===== verification/GoCrypto.v ===== *)
(** The Standard-Library hashes and encodings the service computes with, written
    out so that they evaluate: SHA-1 and SHA-256 (FIPS 180-4), HMAC (RFC 2104),
    hexadecimal, and the base32 and base64 alphabets without padding.  The examples
    at the end are published test vectors. *)
From S2P Require Import Prelude GoStrings.

(** * 32-bit words *)
Definition w32 (x : Z) : Z := Z.land x 4294967295.
Definition add32 (x y : Z) : Z := w32 (x + y).
Definition rotr32 (n x : Z) : Z := Z.lor (Z.shiftr x n) (w32 (Z.shiftl x (32 - n))).
Definition rotl32 (n x : Z) : Z := rotr32 (32 - n) x.
Definition not32 (x : Z) : Z := Z.lxor x 4294967295.

Definition byteZ (c : ascii) : Z := Z.of_N (code c).
Definition asciiZ (z : Z) : ascii := ascii_of_N (Z.to_N z).

(** Big-endian words and their bytes. *)
Fixpoint be_words (l : bytes) : list Z :=
  match l with
  | a :: b :: c :: d :: r =>
      byteZ a * 16777216 + byteZ b * 65536 + byteZ c * 256 + byteZ d :: be_words r
  | _ => []
  end.
Fixpoint be_bytes (n : nat) (x : Z) : bytes :=
  match n with
  | O => []
  | S n => (be_bytes n (x / 256) ++ [asciiZ (x mod 256)])%list
  end.

(** The padded message, and its 16-word blocks. *)
Definition md_pad (m : bytes) : bytes :=
  let n := Z.of_nat (List.length m) in
  (m ++ asciiZ 128 :: repeat (asciiZ 0) (Z.to_nat ((55 - n) mod 64)) ++ be_bytes 8 (8 * n))%list.
Fixpoint blocks (fuel : nat) (ws : list Z) : list (list Z) :=
  match fuel, ws with
  | S fuel, _ :: _ => take 16 ws :: blocks fuel (drop 16 ws)
  | _, _ => []
  end.
Definition message_blocks (m : bytes) : list (list Z) :=
  let ws := be_words (md_pad m) in blocks (List.length ws) ws.

(** The message schedule, computed newest word first. *)
Fixpoint extend (f : list Z -> Z) (n : nat) (ws : list Z) : list Z :=
  match n with
  | O => ws
  | S n => extend f n (f ws :: ws)
  end.
Definition schedule (f : list Z -> Z) (n : nat) (block : list Z) : list Z :=
  rev (extend f n (rev block)).

Definition digest (hs : list Z) : bytes := List.concat (map (be_bytes 4) hs).

(** * SHA-256 *)
(** The constants as FIPS 180-4 derives them: the first 32 bits of the fractional parts
    of the cube roots, and of the square roots, of the first primes. *)
Definition is_prime (n : nat) : bool :=
  (1 <? n)%nat && forallb (fun d => negb (Nat.eqb (n mod d) 0)) (seq 2 (n - 2)).
Definition primes : list Z :=
  Eval vm_compute in map Z.of_nat (List.filter is_prime (seq 0 312)).
(** The greatest [r] with [r ^ 3 <= n], its bits from [n_bits] down. *)
Definition cube_root (n_bits : nat) (n : Z) : Z :=
  foldl (fun r i => let r' := r + 2 ^ Z.of_nat i in if r' ^ 3 <=? n then r' else r) 0
    (rev (seq 0 n_bits)).
Definition sha256_K : list Z :=
  Eval vm_compute in map (fun p => w32 (cube_root 36 (p * 2 ^ 96))) primes.
Definition sha256_H : list Z :=
  Eval vm_compute in map (fun p => w32 (Z.sqrt (p * 2 ^ 64))) (take 8 primes).

Definition sha256_word (ws : list Z) : Z :=
  let w i := nth i ws 0 in
  let s0 := Z.lxor (Z.lxor (rotr32 7 (w 14%nat)) (rotr32 18 (w 14%nat))) (Z.shiftr (w 14%nat) 3) in
  let s1 := Z.lxor (Z.lxor (rotr32 17 (w 1%nat)) (rotr32 19 (w 1%nat))) (Z.shiftr (w 1%nat) 10) in
  w32 (w 15%nat + s0 + w 6%nat + s1).

Definition sha256_round (st : list Z) (kw : Z * Z) : list Z :=
  match st with
  | [a; b; c; d; e; f; g; h] =>
      let s1 := Z.lxor (Z.lxor (rotr32 6 e) (rotr32 11 e)) (rotr32 25 e) in
      let ch := Z.lxor (Z.land e f) (Z.land (not32 e) g) in
      let t1 := h + s1 + ch + fst kw + snd kw in
      let s0 := Z.lxor (Z.lxor (rotr32 2 a) (rotr32 13 a)) (rotr32 22 a) in
      let maj := Z.lxor (Z.lxor (Z.land a b) (Z.land a c)) (Z.land b c) in
      [w32 (t1 + s0 + maj); a; b; c; add32 d t1; e; f; g]
  | _ => st
  end.

Definition sha256_block (hs : list Z) (block : list Z) : list Z :=
  zip_with add32 hs
    (foldl sha256_round hs (zip sha256_K (schedule sha256_word 48 block))).
Definition sha256 (m : bytes) : bytes := digest (foldl sha256_block sha256_H (message_blocks m)).

Lemma length_be_bytes n x : List.length (be_bytes n x) = n.
Proof. revert x. induction n as [|n IH]; intros x; [done|]. cbn. rewrite length_app, IH. cbn. lia. Qed.

Lemma length_foldl {A B} (f : list A -> B -> list A) (n : nat) :
  (forall s b, List.length s = n -> List.length (f s b) = n) ->
  forall l s, List.length s = n -> List.length (foldl f s l) = n.
Proof. intros Hf l. induction l as [|b l IH]; cbn; eauto. Qed.

Lemma length_sha256_round st kw : List.length st = 8%nat -> List.length (sha256_round st kw) = 8%nat.
Proof. by do 9 (destruct st as [|? st]; [done|]). Qed.

(** A digest has 32 bytes. *)
Lemma length_sha256 m : List.length (sha256 m) = 32%nat.
Proof.
  unfold sha256.
  assert (HL : List.length (foldl sha256_block sha256_H (message_blocks m)) = 8%nat).
  { apply length_foldl; [|done]. intros hs b Hhs. unfold sha256_block.
    rewrite length_zip_with_l_eq by (rewrite length_foldl with (n := 8%nat);
      [done|intros; by apply length_sha256_round|done]). done. }
  destruct (foldl sha256_block sha256_H (message_blocks m)) as [|h0 hs]; [done|].
  do 7 (destruct hs as [|? hs]; [done|]). destruct hs; [|done].
  unfold digest. cbn [map List.concat]. rewrite !length_app, !length_be_bytes. done.
Qed.

(** * SHA-1 *)
Definition sha1_H : list Z := [0x67452301; 0xefcdab89; 0x98badcfe; 0x10325476; 0xc3d2e1f0].

Definition sha1_word (ws : list Z) : Z :=
  let w i := nth i ws 0 in
  rotl32 1 (Z.lxor (Z.lxor (w 2%nat) (w 7%nat)) (Z.lxor (w 13%nat) (w 15%nat))).

Definition sha1_f (t : nat) (b c d : Z) : Z * Z :=
  if (t <? 20)%nat then (Z.lxor (Z.land b c) (Z.land (not32 b) d), 0x5a827999)
  else if (t <? 40)%nat then (Z.lxor (Z.lxor b c) d, 0x6ed9eba1)
  else if (t <? 60)%nat
  then (Z.lxor (Z.lxor (Z.land b c) (Z.land b d)) (Z.land c d), 0x8f1bbcdc)
  else (Z.lxor (Z.lxor b c) d, 0xca62c1d6).

Definition sha1_round (st : list Z) (tw : nat * Z) : list Z :=
  match st with
  | [a; b; c; d; e] =>
      let '(f, k) := sha1_f (fst tw) b c d in
      [w32 (rotl32 5 a + f + e + k + snd tw); a; rotl32 30 b; c; d]
  | _ => st
  end.

Definition sha1_block (hs : list Z) (block : list Z) : list Z :=
  zip_with add32 hs (foldl sha1_round hs (zip (seq 0 80) (schedule sha1_word 64 block))).
Definition sha1 (m : bytes) : bytes := digest (foldl sha1_block sha1_H (message_blocks m)).

(** * HMAC, both hashes having 64-byte blocks *)
Section hmac.
Context (hash : bytes -> bytes).

Definition xor_pad (p : Z) (key : bytes) : bytes :=
  map (fun c => asciiZ (Z.lxor (byteZ c) p)) key.

Definition hmac (key m : bytes) : bytes :=
  let key := if (64 <? List.length key)%nat then hash key else key in
  let key := (key ++ repeat (asciiZ 0) (64 - List.length key))%list in
  hash (xor_pad 0x5c key ++ hash (xor_pad 0x36 key ++ m))%list.
End hmac.

(** * Text encodings *)
Definition hex_digit (z : Z) : ascii :=
  asciiZ (if z <? 10 then 48 + z else 87 + z).
Definition hex (l : bytes) : string :=
  string_of (List.concat (map (fun c => [hex_digit (byteZ c / 16); hex_digit (byteZ c mod 16)]) l)).

Definition hmac_sha256_hex (key m : string) : string :=
  hex (hmac sha256 (bytes_of key) (bytes_of m)).

(** The value of [l] as digits most significant first, in base 2^bits. *)
Definition base_value (bits : Z) (l : list Z) : Z :=
  fold_left (fun acc d => Z.shiftl acc bits + d) l 0.

(** Decode one group of digits of [bits] bits into the whole bytes it holds; the
    trailing bits are dropped.  A last group of a length no encoder produces
    ([odd]) holds no byte. *)
Definition decode_group (bits : Z) (odd : list nat) (ds : list Z) : bytes :=
  let total := bits * Z.of_nat (List.length ds) in
  if bool_decide (List.length ds ∈ odd) then []
  else be_bytes (Z.to_nat (total / 8)) (Z.shiftr (base_value bits ds) (total mod 8)).

Fixpoint decode_groups (fuel : nat) (bits : Z) (odd : list nat) (size : nat) (ds : list Z)
    : bytes :=
  match fuel, ds with
  | S fuel, _ :: _ =>
      (decode_group bits odd (take size ds) ++
       decode_groups fuel bits odd size (drop size ds))%list
  | _, _ => []
  end.

Definition base32_digit (c : ascii) : option Z :=
  let z := byteZ c in
  if (65 <=? z) && (z <=? 90) then Some (z - 65)
  else if (50 <=? z) && (z <=? 55) then Some (z - 24) else None.
Definition base64_digit (c : ascii) : option Z :=
  let z := byteZ c in
  if (65 <=? z) && (z <=? 90) then Some (z - 65)
  else if (97 <=? z) && (z <=? 122) then Some (z - 71)
  else if (48 <=? z) && (z <=? 57) then Some (z + 4)
  else if z =? 43 then Some 62 else if z =? 47 then Some 63 else None.

(** [DecodeString] of an unpadded encoding: line breaks are skipped, any other byte
    outside the alphabet is an error.  base64 refuses a last group of one digit,
    base32 decodes its odd groups (of 1, 3 or 6 digits) to nothing. *)
Definition decode_digits (digit_of : ascii -> option Z) (s : string) : option (list Z) :=
  mapM digit_of
    (List.filter (fun c => negb ((code c =? 10)%N || (code c =? 13)%N)) (bytes_of s)).

Definition base32_decode (s : string) : option bytes :=
  ds ← decode_digits base32_digit s;
  Some (decode_groups (List.length ds) 5 [1; 3; 6]%nat 8 ds).
Definition base64_decode (s : string) : option bytes :=
  ds ← decode_digits base64_digit s;
  if (List.length ds mod 4 =? 1)%nat then None
  else Some (decode_groups (List.length ds) 6 [] 4 ds).

(** * Test vectors *)
Example sha256_abc :
  hex (sha256 (bytes_of "abc")) =
  "ba7816bf8f01cfea414140de5dae2223b00361a396177a9cb410ff61f20015ad".
Proof. vm_compute. reflexivity. Qed.

Example sha1_two_blocks :
  hex (sha1 (bytes_of "abcdbcdecdefdefgefghfghighijhijkijkljklmklmnlmnomnopnopq")) =
  "84983e441c3bd26ebaae4aa1f95129e5e54670f1".
Proof. vm_compute. reflexivity. Qed.

Example hmac_sha256_rfc4231_2 :
  hmac_sha256_hex "Jefe" "what do ya want for nothing?" =
  "5bdcc146bf60754e6a042426089575c75a003f089d2739839dec58b964ec3843".
Proof. vm_compute. reflexivity. Qed.

Example base32_rfc4648 : base32_decode "MZXW6YTB" = Some (bytes_of "fooba").
Proof. vm_compute. reflexivity. Qed.

Example base64_rfc4648 : base64_decode "Zm9vYg" = Some (bytes_of "foob").
Proof. vm_compute. reflexivity. Qed.
