(* ===== verification/GoText.v ===== *)
(** Text the service emits and reads: decimal integers ([strconv.FormatInt],
    [strconv.ParseInt], [%02d]), hexadecimal, and [encoding/json] of strings and flat
    objects. *)
From S2P Require Import Prelude GoStrings GoCrypto.

(** * strconv.FormatInt(n, 10) *)
Fixpoint digits_of (fuel : nat) (n : Z) (acc : bytes) : bytes :=
  match fuel with
  | O => acc
  | S fuel =>
      let acc := asciiZ (48 + n mod 10) :: acc in
      if n <? 10 then acc else digits_of fuel (n / 10) acc
  end.
(** Twenty digits are enough for any int64. *)
Definition FormatInt (n : Z) : string :=
  string_of (if n <? 0 then "-"%char :: digits_of 20 (- n) [] else digits_of 20 n []).

(** [fmt]'s [%02d]. *)
Definition pad2 (n : Z) : string :=
  if (0 <=? n) && (n <? 10) then ("0" ++ FormatInt n)%string else FormatInt n.

(** * strconv.ParseInt(s, 10, 64); the error is not looked into *)
Definition digit_val (c : ascii) : Z := byteZ c - 48.
Definition ParseUint (l : bytes) : option Z :=
  if bool_decide (l = []) || negb (forallb digit l) then None
  else
    let v := of_digits 10 (map digit_val l) in
    if v <? 2 ^ 64 then Some v else None.
Definition ParseInt (s : string) : option Z :=
  match bytes_of s with
  | [] => None
  | c :: r =>
      let neg := bool_decide (c = "-"%char) in
      let l := if neg || bool_decide (c = "+"%char) then r else c :: r in
      un ← ParseUint l;
      if negb neg && (2 ^ 63 <=? un) then None
      else if neg && (2 ^ 63 <? un) then None
      else Some (if neg then - un else un)
  end.

Definition decimal (d : Z) : ascii := asciiZ (48 + d).

Lemma byteZ_asciiZ z : 0 <= z < 256 -> byteZ (asciiZ z) = z.
Proof.
  intros Hz. unfold byteZ, asciiZ, code. rewrite N_ascii_embedding; [lia|].
  change 256%N with (Z.to_N 256). lia.
Qed.

Lemma asciiZ_byteZ c : asciiZ (byteZ c) = c.
Proof. unfold byteZ, asciiZ, code. by rewrite N2Z.id, ascii_N_embedding. Qed.

Lemma byteZ_bounds c : 0 <= byteZ c < 256.
Proof. unfold byteZ, code. pose proof (N_ascii_bounded c). lia. Qed.

Lemma digit_decimal d : digit_ok 10 d -> digit (decimal d) = true /\ digit_val (decimal d) = d.
Proof.
  intros Hd. unfold digit_ok in Hd. unfold decimal, digit_val.
  rewrite byteZ_asciiZ by lia. split; [|lia].
  unfold digit, asciiZ, code. rewrite N_ascii_embedding by lia.
  apply andb_true_iff. rewrite !N.leb_le. lia.
Qed.

(** The digits [FormatInt] writes. *)
Lemma digits_of_spec fuel n acc : 0 <= n < 10 ^ Z.of_nat fuel -> (0 < fuel)%nat ->
  exists k, (0 < k <= fuel)%nat /\ n < 10 ^ Z.of_nat k /\
    digits_of fuel n acc = (map decimal (to_digits 10 k n) ++ acc)%list.
Proof.
  revert n acc. induction fuel as [|fuel IH]; intros n acc Hn Hf; [lia|]. cbn [digits_of].
  destruct (Z.ltb_spec n 10).
  - exists 1%nat. split_and!; [lia..|]. cbn. by rewrite Z.mod_small by lia.
  - rewrite Nat2Z.inj_succ, Z.pow_succ_r in Hn by lia.
    destruct (IH (n / 10) (asciiZ (48 + n mod 10) :: acc)) as (k & Hk & Hb & ->).
    + split; [apply Z.div_pos; lia|apply Z.div_lt_upper_bound; lia].
    + destruct fuel; [cbn in Hn; lia|lia].
    + exists (S k). split_and!; [lia..| |].
      * rewrite Nat2Z.inj_succ, Z.pow_succ_r by lia.
        pose proof (Z.div_mod n 10). pose proof (Z.mod_pos_bound n 10). lia.
      * cbn [to_digits]. by rewrite map_app, <- app_assoc.
Qed.

Lemma ParseUint_digits ds : Forall (digit_ok 10) ds -> ds <> [] -> of_digits 10 ds < 2 ^ 64 ->
  ParseUint (map decimal ds) = Some (of_digits 10 ds).
Proof.
  intros Hd Hne Hb. unfold ParseUint. rewrite bool_decide_false by (by destruct ds).
  assert (forallb digit (map decimal ds) = true) as ->.
  { apply forallb_forall. intros c Hc. apply in_map_iff in Hc as (d & <- & Hin).
    rewrite Forall_forall in Hd. by apply digit_decimal, Hd, list_elem_of_In. }
  assert (map digit_val (map decimal ds) = ds) as ->.
  { clear Hne Hb. induction Hd as [|d ds Hd Hds IH]; [done|]. cbn [map]. rewrite IH.
    by rewrite (proj2 (digit_decimal d Hd)). }
  cbn. by rewrite (proj2 (Z.ltb_lt _ _)).
Qed.

Lemma decimal_sign d : digit_ok 10 d -> decimal d <> "-"%char /\ decimal d <> "+"%char.
Proof.
  intros Hd. pose proof (proj1 (digit_decimal d Hd)).
  split; intros E; rewrite E in *; vm_compute in H; discriminate.
Qed.

Lemma ParseInt_digits ds : Forall (digit_ok 10) ds -> ds <> [] -> of_digits 10 ds < 2 ^ 63 ->
  ParseInt (string_of (map decimal ds)) = Some (of_digits 10 ds).
Proof.
  intros Hok Hne Hb. unfold ParseInt. rewrite bytes_string.
  pose proof (ParseUint_digits ds Hok Hne) as E. destruct ds as [|d ds]; [done|].
  destruct (decimal_sign d) as [? ?]; [by apply Forall_cons in Hok as [? _]|].
  cbn [map] in *. rewrite !bool_decide_false by done. cbn [orb]. rewrite E by lia.
  cbn [mbind option_bind negb andb]. by rewrite (proj2 (Z.leb_gt _ _)).
Qed.

(** The text of a natural number: digits of its value. *)
Lemma FormatInt_digits n : 0 <= n < 10 ^ 20 -> exists ds,
  bytes_of (FormatInt n) = map decimal ds /\ Forall (digit_ok 10) ds /\ ds <> [] /\
  of_digits 10 ds = n.
Proof.
  intros Hn. unfold FormatInt. rewrite (proj2 (Z.ltb_ge _ _)) by lia. rewrite bytes_string.
  destruct (digits_of_spec 20 n []) as (k & Hk & Hb & ->); [cbn; lia|lia|].
  exists (to_digits 10 k n). rewrite app_nil_r. split_and!; [done|by apply to_digits_ok| |].
  - intros E. pose proof (length_to_digits 10 k n) as HL. rewrite E in HL. cbn in HL. lia.
  - apply of_to_digits; lia.
Qed.

Lemma ParseInt_FormatInt n : in64 n -> ParseInt (FormatInt n) = Some n.
Proof.
  unfold in64, minInt64, maxInt64. intros Hn. destruct (Z.ltb_spec n 0) as [Hneg|Hpos].
  - destruct (FormatInt_digits (- n)) as (ds & Eb & Hok & Hne & EV); [lia|].
    unfold FormatInt in Eb. rewrite (proj2 (Z.ltb_ge _ _)), bytes_string in Eb by lia.
    unfold ParseInt, FormatInt. rewrite (proj2 (Z.ltb_lt _ _)), bytes_string, Eb by lia.
    rewrite bool_decide_true by done. cbn [orb]. rewrite ParseUint_digits by (done || lia). cbn.
    rewrite EV, (proj2 (Z.ltb_ge _ _)) by lia. f_equal. lia.
  - destruct (FormatInt_digits n) as (ds & Eb & Hok & Hne & EV); [lia|].
    rewrite <- (string_bytes (FormatInt n)), Eb, ParseInt_digits by (done || lia). by rewrite EV.
Qed.

Lemma pad2_digits n : 0 <= n < 100 ->
  bytes_of (pad2 n) = [decimal (n / 10); decimal (n mod 10)].
Proof.
  intros Hn. assert (HA : forallb (fun n => bool_decide (bytes_of (pad2 n) =
      [decimal (n / 10); decimal (n mod 10)])) (map Z.of_nat (seq 0 100)) = true)
    by (vm_compute; reflexivity).
  rewrite forallb_forall in HA. specialize (HA n). rewrite bool_decide_eq_true in HA.
  apply HA, in_map_iff. exists (Z.to_nat n). rewrite in_seq. lia.
Qed.

(** * encoding/hex *)
Definition hex_val (c : ascii) : option Z :=
  let z := byteZ c in
  if (48 <=? z) && (z <=? 57) then Some (z - 48)
  else if (97 <=? z) && (z <=? 102) then Some (z - 87)
  else if (65 <=? z) && (z <=? 70) then Some (z - 55) else None.
Fixpoint hex_decode (l : bytes) : option bytes :=
  match l with
  | [] => Some []
  | [_] => None
  | a :: b :: r =>
      x ← hex_val a; y ← hex_val b; rest ← hex_decode r; Some (asciiZ (16 * x + y) :: rest)
  end.

Lemma hex_val_digit z : 0 <= z < 16 -> hex_val (hex_digit z) = Some z.
Proof.
  intros Hz. unfold hex_val, hex_digit.
  destruct (Z.ltb_spec z 10); rewrite byteZ_asciiZ by lia;
    repeat match goal with |- context [?a <=? ?b] => destruct (Z.leb_spec a b) end;
    cbn; f_equal; lia.
Qed.

Lemma hex_roundtrip l : hex_decode (bytes_of (hex l)) = Some l.
Proof.
  unfold hex. rewrite bytes_string. induction l as [|c l IH]; [done|]. cbn [map List.concat app].
  cbn [hex_decode]. pose proof (byteZ_bounds c).
  rewrite !hex_val_digit by (split; [apply Z.div_pos || apply Z.mod_pos_bound; lia|
    apply Z.div_lt_upper_bound || apply Z.mod_pos_bound; lia]).
  cbn -[Z.mul]. rewrite IH. cbn -[Z.mul].
  rewrite <- (Z.div_mod (byteZ c) 16) by lia. by rewrite asciiZ_byteZ.
Qed.

(** * json.Marshal of a string *)
Definition in_range (lo hi : Z) (c : ascii) : bool := (lo <=? byteZ c) && (byteZ c <=? hi).
Definition cont : ascii -> bool := in_range 128 191.

(** The length of the UTF-8 encoding at the head of [l], 0 when it is invalid. *)
Definition rune_len (l : bytes) : nat :=
  match l with
  | a :: r =>
      if byteZ a <? 128 then 1%nat
      else match r with
      | b :: r =>
          if in_range 194 223 a && cont b then 2%nat
          else match r with
          | c :: r =>
              if ((byteZ a =? 224) && in_range 160 191 b || in_range 225 236 a && cont b
                  || (byteZ a =? 237) && in_range 128 159 b || in_range 238 239 a && cont b)
                 && cont c then 3%nat
              else match r with
              | d :: _ =>
                  if ((byteZ a =? 240) && in_range 144 191 b || in_range 241 243 a && cont b
                      || (byteZ a =? 244) && in_range 128 143 b) && cont c && cont d
                  then 4%nat else 0%nat
              | [] => 0%nat
              end
          | [] => 0%nat
          end
      | [] => 0%nat
      end
  | [] => 0%nat
  end.

(** U+2028 and U+2029. *)
Definition line_separator (r : bytes) : bool :=
  bool_decide (r = [asciiZ 226; asciiZ 128; asciiZ 168])
  || bool_decide (r = [asciiZ 226; asciiZ 128; asciiZ 169]).

Definition json_ascii (c : ascii) : bytes :=
  let z := byteZ c in
  if (z =? 34) || (z =? 92) then ["\"%char; c]
  else if z =? 8 then bytes_of "\b"
  else if z =? 12 then bytes_of "\f"
  else if z =? 10 then bytes_of "\n"
  else if z =? 13 then bytes_of "\r"
  else if z =? 9 then bytes_of "\t"
  else if (z <? 32) || (z =? 60) || (z =? 62) || (z =? 38)
  then (bytes_of "\u00" ++ [hex_digit (z / 16); hex_digit (z mod 16)])%list
  else [c].

Fixpoint json_chars (fuel : nat) (l : bytes) : bytes :=
  match fuel, l with
  | S fuel, c :: _ =>
      match rune_len l with
      | O => (bytes_of "\ufffd" ++ json_chars fuel (drop 1 l))%list
      | S O => (json_ascii c ++ json_chars fuel (drop 1 l))%list
      | n =>
          let r := take n l in
          ((if line_separator r
            then bytes_of "\u202" ++ [if bool_decide (r = [asciiZ 226; asciiZ 128; asciiZ 168])
                                      then "8"%char else "9"%char]
            else r) ++ json_chars fuel (drop n l))%list
      end
  | _, _ => []
  end.

Definition quote : bytes := [asciiZ 34].
Definition json_string (s : string) : bytes :=
  (quote ++ json_chars (String.length s) (bytes_of s) ++ quote)%list.

Inductive json_value := JString (s : string) | JInt (n : Z).
Definition json_encode (v : json_value) : bytes :=
  match v with JString s => json_string s | JInt n => bytes_of (FormatInt n) end.

(** A struct: the members in declaration order, keys as tagged. *)
Fixpoint json_members (ms : list (string * json_value)) : bytes :=
  match ms with
  | [] => []
  | [(k, v)] => (json_string k ++ ":"%char :: json_encode v)%list
  | (k, v) :: ms => (json_string k ++ ":"%char :: json_encode v ++ ","%char :: json_members ms)%list
  end.
Definition json_object (ms : list (string * json_value)) : string :=
  string_of ("{"%char :: json_members ms ++ ["}"%char])%list.

Example json_ex :
  json_object [("a", JString "x<y"); ("n", JInt (-1050))] =
  string_of (bytes_of "{" ++ quote ++ bytes_of "a" ++ quote ++ bytes_of ":" ++ quote ++
    bytes_of "x\u003cy" ++ quote ++ bytes_of "," ++ quote ++ bytes_of "n" ++ quote ++
    bytes_of ":-1050}")%list.
Proof. vm_compute. reflexivity. Qed.
