(* ===== verification/GoParse.v ===== *)
(** What the configuration is read with: [strings.Split], [SplitN] and [Cut] at a one-byte
    separator, [strconv.ParseBool], and [time.ParseDuration] with its 64-bit checks and its
    fraction in doubles. *)
From S2P Require Import Prelude GoStrings GoText GoTime GoFloat.
#[global] Open Scope Z_scope.

(** * strings *)
Fixpoint split (sep : ascii) (l : bytes) : list bytes :=
  match l with
  | [] => [[]]
  | c :: r =>
      if bool_decide (c = sep) then [] :: split sep r
      else match split sep r with p :: ps => (c :: p) :: ps | [] => [[c]] end
  end.
(** At most [n] pieces, the last one unsplit. *)
Fixpoint splitN (sep : ascii) (n : nat) (l : bytes) : list bytes :=
  if (n <=? 1)%nat then [l] else
  match l with
  | [] => [[]]
  | c :: r =>
      if bool_decide (c = sep) then [] :: splitN sep (n - 1) r
      else match splitN sep n r with p :: ps => (c :: p) :: ps | [] => [[c]] end
  end.
Definition Split (s : string) (sep : ascii) : list string := map string_of (split sep (bytes_of s)).
Definition SplitN (s : string) (sep : ascii) (n : nat) : list string := map string_of (splitN sep n (bytes_of s)).
(** Before, after, found. *)
Definition Cut (s : string) (sep : ascii) : string * string * bool :=
  match SplitN s sep 2 with
  | [a; b] => (a, b, true)
  | _ => (s, "", false)
  end.

Lemma split_none sep l : Forall (.≠ sep) l -> split sep l = [l].
Proof. induction 1 as [|c l Hc _ IH]; cbn; [done|]. by rewrite bool_decide_false, IH. Qed.
Lemma split_app sep l r : Forall (.≠ sep) l -> split sep (l ++ sep :: r) = l :: split sep r.
Proof.
  induction 1 as [|c l Hc _ IH]; cbn; [by rewrite bool_decide_true|].
  by rewrite bool_decide_false, IH.
Qed.
Lemma splitN_one sep l : splitN sep 1 l = [l].
Proof. by destruct l. Qed.
Lemma splitN_none sep n l : Forall (.≠ sep) l -> splitN sep n l = [l].
Proof.
  induction 1 as [|c l Hc _ IH]; cbn; [by destruct (n <=? 1)%nat|]. destruct (n <=? 1)%nat; [done|].
  by rewrite bool_decide_false, IH.
Qed.
Lemma splitN_app sep n l r : (2 <= n)%nat -> Forall (.≠ sep) l ->
  splitN sep n (l ++ sep :: r) = l :: splitN sep (n - 1) r.
Proof.
  intros Hn. assert ((n <=? 1)%nat = false) as E by (apply Nat.leb_gt; lia).
  induction 1 as [|c l Hc _ IH]; cbn; rewrite E; [by rewrite bool_decide_true|].
  by rewrite bool_decide_false, IH.
Qed.

(** * strconv *)
Definition Truthy : list string := ["1"; "t"; "T"; "TRUE"; "true"; "True"].
Definition Falsy : list string := ["0"; "f"; "F"; "FALSE"; "false"; "False"].
Definition ParseBool (s : string) : option bool :=
  if bool_decide (s ∈ Truthy) then Some true
  else if bool_decide (s ∈ Falsy) then Some false
  else None.
Lemma ParseBool_spec s : match ParseBool s with
  | Some true => s ∈ Truthy | Some false => s ∈ Falsy | None => s ∉ Truthy /\ s ∉ Falsy
  end /\ ~ (s ∈ Truthy /\ s ∈ Falsy).
Proof.
  split; [unfold ParseBool; by repeat case_bool_decide|].
  intros [H1 H2]. unfold Truthy, Falsy in *. rewrite !elem_of_cons, elem_of_nil in *. naive_solver.
Qed.
(** An [int] has 64 bits. *)
Definition Atoi (s : string) : option Z := ParseInt s.

(** * time.ParseDuration

    The text is read segment by segment; [d] is what was read so far. *)
Definition wrapU64 (z : Z) : Z := z mod 2 ^ 64.
Fixpoint leadingInt (x : Z) (l : bytes) : option (Z * bytes) :=
  match l with
  | c :: r =>
      if digit c then
        if 2 ^ 63 / 10 <? x then None
        else let x := wrapU64 (x * 10 + digit_val c) in
             if 2 ^ 63 <? x then None else leadingInt x r
      else Some (x, l)
  | [] => Some (x, [])
  end.
Fixpoint leadingFraction (x : Z) (scale : frac) (overflow : bool) (l : bytes) : Z * frac * bytes :=
  match l with
  | c :: r =>
      if digit c then
        if overflow || (maxInt64 / 10 <? x) then leadingFraction x scale true r
        else let y := wrapU64 (x * 10 + digit_val c) in
             if 2 ^ 63 <? y then leadingFraction x scale true r
             else leadingFraction y (dmul scale (d_int 10)) false r
      else (x, scale, l)
  | [] => (x, scale, [])
  end.
Fixpoint unit_text (l : bytes) : bytes * bytes :=
  match l with
  | c :: r => if bool_decide (c = "."%char) || digit c then ([], l) else let (u, r) := unit_text r in (c :: u, r)
  | [] => ([], [])
  end.
Definition micro (a b : nat) : bytes := [ascii_of_nat a; ascii_of_nat b; "s"%char].
Definition unitMap (u : bytes) : option Z :=
  if bool_decide (u = bytes_of "ns") then Some 1
  else if bool_decide (u = bytes_of "us" \/ u = micro 194 181 \/ u = micro 206 188) then Some 1000
  else if bool_decide (u = bytes_of "ms") then Some 1000000
  else if bool_decide (u = bytes_of "s") then Some nsec
  else if bool_decide (u = bytes_of "m") then Some (60 * nsec)
  else if bool_decide (u = bytes_of "h") then Some (3600 * nsec)
  else None.
(** One segment: its value in nanoseconds, and what follows. *)
Definition segment (l : bytes) : option (Z * bytes) :=
  '(v, r1) ← leadingInt 0 l;
  let pre := negb (bool_decide (r1 = l)) in
  let '(f, scale, r2, post) :=
    match r1 with
    | "."%char :: r => let '(f, scale, r') := leadingFraction 0 (d_int 1) false r in (f, scale, r', negb (bool_decide (r' = r)))
    | _ => (0, d_int 1, r1, false)
    end in
  if negb pre && negb post then None else
  let (u, rest) := unit_text r2 in
  unit ← unitMap u;
  if 2 ^ 63 / unit <? v then None else
  let v := v * unit in
  let v := if 0 <? f then v + d_trunc (dmul (d_int f) (ddiv (d_int unit) scale)) else v in
  if 2 ^ 63 <? v then None else Some (v, rest).
Fixpoint segments (fuel : nat) (d : Z) (l : bytes) : option Z :=
  match l with
  | [] => Some d
  | _ =>
      match fuel with
      | O => None
      | S fuel =>
          '(v, rest) ← segment l;
          let d := wrapU64 (d + v) in
          if 2 ^ 63 <? d then None else segments fuel d rest
      end
  end.
(** Every segment ends in a unit, so there are at most as many as bytes. *)
Definition ParseDuration (s : string) : option Z :=
  let '(neg, l) := match bytes_of s with
                   | "-"%char :: r => (true, r) | "+"%char :: r => (false, r) | l => (false, l)
                   end in
  if bool_decide (l = ["0"%char]) then Some 0 else
  if bool_decide (l = []) then None else
  d ← segments (List.length l) 0 l;
  if neg then Some (wrap64 (- d)) else if 2 ^ 63 - 1 <? d then None else Some d.

Lemma leadingInt_shorter x l v r : leadingInt x l = Some (v, r) -> (List.length r <= List.length l)%nat.
Proof.
  revert x. induction l as [|c l IH]; intros x; cbn; [by intros [= _ <-]|].
  destruct (digit c); [|by intros [= _ <-]]. case_match; [done|]. case_match; [done|]. intros ?%IH. lia.
Qed.
Lemma leadingFraction_shorter x s o l : (List.length (leadingFraction x s o l).2 <= List.length l)%nat.
Proof.
  revert x s o. induction l as [|c l IH]; intros x s o; cbn; [done|].
  destruct (digit c); [|done]. repeat case_match; (etrans; [apply IH|lia]).
Qed.
Lemma unit_text_shorter l : let (u, r) := unit_text l in List.length l = (List.length u + List.length r)%nat.
Proof.
  induction l as [|c l IH]; cbn; [done|]. destruct (_ || _); [done|]. destruct (unit_text l). cbn. lia.
Qed.
Lemma segment_shorter l v r : segment l = Some (v, r) -> (List.length r < List.length l)%nat.
Proof.
  unfold segment. destruct (leadingInt 0 l) as [[w r1]|] eqn:E1; [|done]. cbn [mbind option_bind].
  apply leadingInt_shorter in E1.
  match goal with |- context [match r1 with _ => _ end] =>
    set (p := match r1 with "."%char :: r0 => _ | _ => _ end); assert (Hp : (List.length p.1.2 <= List.length r1)%nat) end.
  { subst p. destruct r1 as [|[[] [] [] [] [] [] [] []] r0]; try done.
    pose proof (leadingFraction_shorter 0 (d_int 1) false r0) as H.
    destruct (leadingFraction _ _ _ _) as [[f s] r']. cbn in *. lia. }
  destruct p as [[[f scale] r2] post]. cbn in Hp. case_match; [done|].
  pose proof (unit_text_shorter r2) as Hu. destruct (unit_text r2) as [[|c u] rest]; [done|].
  destruct (unitMap _); [|done]. cbn [mbind option_bind]. case_match; [done|]. case_match; [done|].
  intros [= _ <-]. cbn in Hu. lia.
Qed.
(** The fuel is enough: more of it changes nothing. *)
Lemma segments_fuel f1 : forall f2 d l, (List.length l <= f1)%nat -> (List.length l <= f2)%nat ->
  segments f1 d l = segments f2 d l.
Proof.
  induction f1 as [|f1 IH]; intros f2 d l H1 H2; (destruct l as [|c l]; [by destruct f2|]); cbn in H1, H2; [lia|].
  destruct f2 as [|f2]; [lia|]. cbn [segments]. destruct (segment (c :: l)) as [[v r]|] eqn:E; [|done].
  cbn [mbind option_bind]. case_match; [done|]. apply segment_shorter in E. cbn in E. apply IH; lia.
Qed.

Example durations :
  map ParseDuration ["5m"; "1h15m30.918s"; "-1.5h"; "0"; "1.0000000000000000000000001s"; ".5ms"; "5"; "s"; ""; "9223372036.854775808s"]
  = [Some (300 * nsec); Some 4530918000000; Some (-5400 * nsec); Some 0; Some nsec; Some 500000; None; None; None; None].
Proof. vm_compute. reflexivity. Qed.
