(* ===== verification/GoSort.v ===== *)
(** Go's sort.SliceStable and the order of strings, and the enumeration of a map, whose
    order Go leaves open. *)
From stdpp Require Import sorting.
From S2P Require Import Prelude GoStrings GoTime.

(** * Stable sorting

    A stable sort is determined by its comparison when that is a strict weak order; this one
    inserts each element before the first one that is not less. *)
Fixpoint insert_stable {A} (less : A -> A -> bool) (x : A) (l : list A) : list A :=
  match l with
  | [] => [x]
  | y :: l' => if less y x then y :: insert_stable less x l' else x :: l
  end.
Definition SliceStable {A} (l : list A) (less : A -> A -> bool) : list A :=
  foldr (insert_stable less) [] l.

(** [x] may stand before [y]. *)
Definition not_after {A} (less : A -> A -> bool) (x y : A) : Prop := less y x = false.

Class WeakOrder {A} (less : A -> A -> bool) : Prop := {
  less_asym : forall x y, less x y = true -> less y x = false;
  not_after_trans :: Transitive (not_after less)
}.

Lemma insert_perm {A} (less : A -> A -> bool) x l : insert_stable less x l ≡ₚ x :: l.
Proof.
  induction l as [|y l IH]; [done|]. cbn [insert_stable]. destruct (less y x); [|done].
  rewrite IH. apply Permutation_swap.
Qed.
Lemma SliceStable_perm {A} (less : A -> A -> bool) l : SliceStable l less ≡ₚ l.
Proof.
  induction l as [|x l IH]; [done|]. cbn [SliceStable foldr]. rewrite insert_perm.
  by constructor.
Qed.

Lemma insert_sorted {A} (less : A -> A -> bool) `{!WeakOrder less} x l :
  StronglySorted (not_after less) l -> StronglySorted (not_after less) (insert_stable less x l).
Proof.
  induction 1 as [|y l Hl IH Hy]; cbn [insert_stable]; [by repeat constructor|].
  destruct (less y x) eqn:E.
  - constructor; [done|]. rewrite insert_perm. constructor; [by apply less_asym|done].
  - constructor; [by constructor|]. constructor; [exact E|].
    eapply Forall_impl; [exact Hy|]. intros z Hz. by trans y.
Qed.
Lemma SliceStable_sorted {A} (less : A -> A -> bool) `{!WeakOrder less} l :
  StronglySorted (not_after less) (SliceStable l less).
Proof. induction l as [|x l IH]; [constructor|]. by apply insert_sorted. Qed.

(** * Strings *)
Definition string_less (s t : string) : bool := String.ltb s t.

Lemma compare_refl s : String.compare s s = Eq.
Proof.
  induction s as [|c s IH]; [done|]. cbn [String.compare].
  destruct (Ascii.compare c c) eqn:E; [done| |];
    pose proof (Ascii.compare_antisym c c) as H; rewrite E in H; discriminate.
Qed.
Lemma ascii_compare_lt a b : Ascii.compare a b = Lt <-> (Ascii.N_of_ascii a < Ascii.N_of_ascii b)%N.
Proof. apply N.compare_lt_iff. Qed.
Lemma compare_lt_trans s t u :
  String.compare s t = Lt -> String.compare t u = Lt -> String.compare s u = Lt.
Proof.
  revert t u. induction s as [|a s IH]; intros [|b t] [|c u]; try done.
  cbn [String.compare]. destruct (Ascii.compare a b) eqn:E1; [|intros _|done].
  - apply Ascii.compare_eq_iff in E1 as ->. destruct (Ascii.compare b c) eqn:E2; [|done|done].
    apply IH.
  - destruct (Ascii.compare b c) eqn:E2; [|intros _|done].
    + apply Ascii.compare_eq_iff in E2 as <-. by rewrite E1.
    + apply ascii_compare_lt in E1, E2.
      assert (Ascii.compare a c = Lt) as -> by (apply ascii_compare_lt; by etrans). done.
Qed.
Lemma string_less_lt s t : string_less s t = true <-> String.compare s t = Lt.
Proof. unfold string_less, String.ltb. by destruct (String.compare s t). Qed.
Lemma string_less_irrefl s : string_less s s = false.
Proof. unfold string_less, String.ltb. by rewrite compare_refl. Qed.
Lemma string_less_total s t : string_less s t = false -> string_less t s = false -> s = t.
Proof.
  unfold string_less, String.ltb. rewrite (String.compare_antisym t s).
  destruct (String.compare s t) eqn:E; [|done|done]. intros _ _. by apply String.compare_eq_iff.
Qed.

(** Comparison by a text of the elements. *)
Definition by_text {A} (f : A -> string) (x y : A) : bool := string_less (f x) (f y).
#[export] Instance by_text_order {A} (f : A -> string) : WeakOrder (by_text f).
Proof.
  split; unfold by_text, not_after.
  - intros x y H. apply not_true_iff_false. rewrite string_less_lt in H |- *.
    rewrite String.compare_antisym, H. done.
  - intros x y z H1 H2. apply not_true_iff_false. intros H3.
    destruct (string_less (f x) (f y)) eqn:E.
    + rewrite string_less_lt in *. assert (string_less (f z) (f y) = true) as Hzy
        by (apply string_less_lt; by eapply compare_lt_trans). by rewrite Hzy in H2.
    + assert (Ef : f x = f y) by (by apply string_less_total). rewrite Ef in H3. congruence.
Qed.

(** Newest first, then the greater identifier first. *)
Definition newest {A} (at_ : A -> Time) (id : A -> string) (x y : A) : bool :=
  if Equal (at_ x) (at_ y) then string_less (id y) (id x) else After (at_ x) (at_ y).

#[export] Instance newest_order {A} (at_ : A -> Time) (id : A -> string) : WeakOrder (newest at_ id).
Proof.
  assert (Hid : WeakOrder (by_text id)) by apply _.
  split; unfold newest, not_after, Equal, After.
  - intros x y. destruct (Z.eqb_spec (ns (at_ x)) (ns (at_ y))) as [E|E].
    + rewrite E, Z.eqb_refl. apply (less_asym (less := by_text id)).
    + rewrite (Z.eqb_sym (ns (at_ y))), (proj2 (Z.eqb_neq _ _) E), Z.ltb_lt, Z.ltb_ge. lia.
  - intros x y z.
    destruct (Z.eqb_spec (ns (at_ y)) (ns (at_ x))) as [E1|E1], (Z.eqb_spec (ns (at_ z)) (ns (at_ y))) as [E2|E2],
      (Z.eqb_spec (ns (at_ z)) (ns (at_ x))) as [E3|E3]; rewrite ?Z.ltb_ge; try lia.
    intros H1 H2. exact (not_after_trans (less := by_text id) z y x H2 H1).
Qed.

(** An order that tells the elements of a list apart leaves them one arrangement. *)
Lemma sorted_unique {A} (less : A -> A -> bool) l1 l2 :
  StronglySorted (not_after less) l1 -> StronglySorted (not_after less) l2 -> l1 ≡ₚ l2 ->
  (forall x y, x ∈ l1 -> y ∈ l1 -> not_after less x y -> not_after less y x -> x = y) -> l1 = l2.
Proof.
  intros H1. revert l2. induction H1 as [|x l1 Hl1 IH Hx]; intros l2 H2 Hp Hd.
  { by apply Permutation_nil_l in Hp. }
  destruct H2 as [|y l2 Hl2 Hy]; [by apply Permutation_nil_r in Hp|].
  assert (x = y) as ->.
  { assert (Hiny : y ∈ x :: l1) by (rewrite Hp; left).
    assert (Hinx : x ∈ y :: l2) by (rewrite <- Hp; left).
    destruct (proj1 (elem_of_cons _ _ _) Hiny) as [|Hiny']; [done|].
    destruct (proj1 (elem_of_cons _ _ _) Hinx) as [|Hinx']; [done|].
    apply Hd; [left|done|by eapply Forall_forall in Hx|by eapply Forall_forall in Hy]. }
  f_equal. apply IH; [done|by apply Permutation_cons_inv in Hp|].
  intros u v Hu Hv. apply Hd; by right.
Qed.
(** Lists ordered by distinct texts are determined by their elements. *)
Lemma sorted_by_text_unique {A} (f : A -> string) l1 l2 :
  StronglySorted (not_after (by_text f)) l1 -> StronglySorted (not_after (by_text f)) l2 ->
  l1 ≡ₚ l2 -> NoDup (map f l1) -> l1 = l2.
Proof.
  intros H1 H2 Hp Hn. apply (sorted_unique (by_text f)); [done..|]. intros x y Hx Hy Hxy Hyx.
  assert (E : f x = f y) by (apply string_less_total; assumption).
  apply list_elem_of_lookup in Hx as [i Hi], Hy as [j Hj].
  assert (i = j) as <-; [|congruence].
  eapply NoDup_lookup; [exact Hn| |]; rewrite list_lookup_fmap; [by rewrite Hi|by rewrite Hj, E].
Qed.

(** The first of a sorted list is what a scan for the least element keeps. *)
Lemma latest_is_head {A} (less : A -> A -> bool) `{!WeakOrder less} (l : list A) :
  fold_left (fun latest r => match latest with None => Some r | Some x => if less r x then Some r else latest end) l None
  = head (SliceStable l less).
Proof.
  assert (H : forall l x, fold_left (fun latest r => match latest with None => Some r
      | Some x => if less r x then Some r else latest end) l (Some x) =
    match head (SliceStable l less) with
    | None => Some x
    | Some y => if less y x then Some y else Some x
    end).
  { clear l. induction l as [|r l IH]; intros x; [done|]. cbn [fold_left SliceStable foldr].
    assert (Hhead : head (insert_stable less r (SliceStable l less)) =
      match head (SliceStable l less) with None => Some r | Some y => if less y r then Some y else Some r end).
    { destruct (SliceStable l less) as [|y ys]; [done|]. cbn. by destruct (less y r). }
    fold (SliceStable l less). rewrite Hhead. destruct (less r x) eqn:E; rewrite IH.
    - destruct (head (SliceStable l less)) as [y|]; [|by rewrite E]. destruct (less y r) eqn:E2; [|by rewrite E].
      destruct (less y x) eqn:E3; [done|]. exfalso.
      assert (not_after less x y) by done. assert (Hrx : not_after less x r); [|unfold not_after in Hrx; congruence].
      trans y; [done|]. unfold not_after. by apply less_asym.
    - destruct (head (SliceStable l less)) as [y|]; [|by rewrite E]. destruct (less y x) eqn:E3, (less y r) eqn:E2; rewrite ?E3, ?E; try done.
      exfalso. assert (Hxy : not_after less x y); [|unfold not_after in Hxy; congruence]. trans r; [exact E|exact E2]. }
  destruct l as [|r l]; [done|]. cbn [fold_left SliceStable foldr]. rewrite H. fold (SliceStable l less).
  destruct (SliceStable l less) as [|y ys]; [done|]. cbn. by destruct (less y r).
Qed.

Lemma filter_filter_and {A} (P Q : A -> bool) l : List.filter Q (List.filter P l) = List.filter (fun x => P x && Q x) l.
Proof. induction l as [|x l IH]; [done|]. cbn. destruct (P x); cbn; [destruct (Q x); by rewrite IH|done]. Qed.
Lemma insert_first {A} (less : A -> A -> bool) x l : Forall (not_after less x) l -> insert_stable less x l = x :: l.
Proof. intros H. destruct l as [|y l]; [done|]. apply Forall_cons in H as [H _]. cbn. by rewrite H. Qed.
(** A stable sort keeps the order of every part of the list. *)
Lemma filter_insert {A} (less : A -> A -> bool) `{!WeakOrder less} (P : A -> bool) x l : StronglySorted (not_after less) l ->
  List.filter P (insert_stable less x l) = if P x then insert_stable less x (List.filter P l) else List.filter P l.
Proof.
  induction 1 as [|y l Hl IH Hy]; cbn [insert_stable List.filter]; [by destruct (P x)|].
  destruct (less y x) eqn:E.
  - cbn [List.filter]. rewrite IH. destruct (P y), (P x); cbn; by rewrite ?E.
  - cbn [List.filter]. destruct (P x); [|done]. symmetry. apply insert_first. apply Forall_forall. intros z Hz.
    assert (Hin : z ∈ y :: l).
    { apply list_elem_of_In. assert (In z (List.filter P (y :: l))) as [? _]%filter_In by (by apply list_elem_of_In). done. }
    apply elem_of_cons in Hin as [->|Hin]; [exact E|]. trans y; [exact E|]. rewrite Forall_forall in Hy. by apply Hy.
Qed.
Lemma filter_sorted {A} (less : A -> A -> bool) `{!WeakOrder less} (P : A -> bool) l :
  List.filter P (SliceStable l less) = SliceStable (List.filter P l) less.
Proof.
  induction l as [|x l IH]; [done|]. cbn [SliceStable foldr]. fold (SliceStable l less).
  rewrite (filter_insert less P), IH by (apply SliceStable_sorted; apply _). cbn [List.filter]. by destruct (P x).
Qed.
Lemma fold_filtered {A B} (P : A -> bool) (f : B -> A -> B) l : forall b,
  fold_left (fun b x => if P x then f b x else b) l b = fold_left f (List.filter P l) b.
Proof. induction l as [|x l IH]; intros b; [done|]. cbn [fold_left List.filter]. by destruct (P x); rewrite IH. Qed.

(** * Ranging over a map *)
Class MapIteration := {
  iterate : forall {V}, gmap string V -> list (string * V);
  iterate_perm : forall {V} (m : gmap string V), iterate m ≡ₚ map_to_list m
}.
#[export] Instance listed_order : MapIteration :=
  {| iterate := fun V m => map_to_list m; iterate_perm := fun V m => Permutation_refl _ |}.
