(* ===== verification/GoRFC3339.v ===== *)
(** The two layouts the stores write instants in: Go's time.RFC3339Nano and the PostgreSQL
    adapter's, which keeps nine digits of fraction.  [Format], [time.Parse], their round trips,
    and how the order of the texts relates to the order of the instants. *)
From S2P Require Import Prelude GoStrings GoTime GoSort.

(** * Format

    The fraction has nine digits, less its trailing zeros. *)
Fixpoint drop_zeros (l : bytes) : bytes :=
  match l with
  | c :: r => if bool_decide (c = "0"%char) then drop_zeros r else l
  | [] => []
  end.
Definition trim_zeros (l : bytes) : bytes := rev (drop_zeros (rev l)).
Definition nine_digits (n : Z) : bytes := map digit_char (to_digits 10 9 n).
Definition append_nano (n : Z) : bytes :=
  match trim_zeros (nine_digits n) with [] => [] | ds => "."%char :: ds end.

Definition clock (sod : Z) : bytes :=
  (two_digits (sod / 3600) ++ [":"%char] ++ two_digits (sod / 60 mod 60) ++ [":"%char] ++
   two_digits (sod mod 60))%list.
(** An offset of whole minutes; seconds of offset are cut off. *)
Definition append_zone (offset : Z) : bytes :=
  if offset =? 0 then ["Z"%char]
  else let zone := Z.quot offset 60 in
       ((if zone <? 0 then "-"%char else "+"%char) ::
        two_digits (Z.abs zone / 60) ++ [":"%char] ++ two_digits (Z.abs zone mod 60))%list.

(** Years 0 to 9999. *)
Definition seconds_text (day sod : Z) : bytes :=
  (bytes_of (format_ymd (civil_from_days day)) ++ ["T"%char] ++ clock sod)%list.
Definition Format_with (nano : Z -> bytes) (t : Time) : string :=
  string_of (seconds_text (civil_day t) (local_secs t mod day_secs) ++
             nano (ns t mod nsec) ++ append_zone (offset_at (loc t) (unix t)))%list.
Definition FormatRFC3339Nano : Time -> string := Format_with append_nano.
(** The layout 2006-01-02T15:04:05.000000000Z07:00. *)
Definition fixed_nano (n : Z) : bytes := "."%char :: nine_digits n.
Definition FormatFixed : Time -> string := Format_with fixed_nano.

(** * Parse

    The texts of the layout: the instant.  For RFC3339Nano this is [parseRFC3339], the fast path
    of [time.Parse]. *)
Fixpoint span_digits (l : bytes) : bytes * bytes :=
  match l with
  | c :: r => if digit c then let '(ds, rest) := span_digits r in (c :: ds, rest) else ([], l)
  | [] => ([], [])
  end.
(** [parseNanoseconds]: at most nine digits count. *)
Definition nanos_of (ds : bytes) : Z :=
  let ds := take 9 ds in num_of ds * 10 ^ (9 - Z.of_nat (List.length ds)).
Definition parse_frac (l : bytes) : Z * bytes :=
  match l with
  | c :: r =>
      if bool_decide (c = "."%char)
      then match span_digits r with ([], _) => (0, l) | (ds, rest) => (nanos_of ds, rest) end
      else (0, l)
  | [] => (0, l)
  end.
Definition parse_uint (ds : bytes) (lo hi : Z) : option Z :=
  if forallb digit ds && (lo <=? num_of ds) && (num_of ds <=? hi) then Some (num_of ds) else None.
Definition parse_zone (l : bytes) : option Z :=
  match l with
  | [z] => if bool_decide (z = "Z"%char) then Some 0 else None
  | [sign; h1; h2; colon; m1; m2] =>
      hr ← parse_uint [h1; h2] 0 23; mm ← parse_uint [m1; m2] 0 59;
      if negb (bool_decide (colon = ":"%char)) then None
      else if bool_decide (sign = "+"%char) then Some ((hr * 60 + mm) * 60)
      else if bool_decide (sign = "-"%char) then Some (- ((hr * 60 + mm) * 60))
      else None
  | _ => None
  end.
(** Exactly nine digits. *)
Definition fixed_frac (l : bytes) : option (Z * bytes) :=
  match l with
  | c :: r =>
      if bool_decide (c = "."%char) && (9 <=? List.length r)%nat
      then n ← parse_uint (take 9 r) 0 999999999; Some (n, drop 9 r)
      else None
  | [] => None
  end.
Definition parse_stamp (frac : bytes -> option (Z * bytes)) (s : string) : option Z :=
  match bytes_of s with
  | y1 :: y2 :: y3 :: y4 :: s1 :: m1 :: m2 :: s2 :: d1 :: d2 :: sep :: h1 :: h2 :: c1 :: i1 :: i2
    :: c2 :: e1 :: e2 :: rest =>
      year ← parse_uint [y1; y2; y3; y4] 0 9999;
      month ← parse_uint [m1; m2] 1 12;
      dd ← parse_uint [d1; d2] 1 (days_in month year);
      hh ← parse_uint [h1; h2] 0 23;
      mi ← parse_uint [i1; i2] 0 59;
      ss ← parse_uint [e1; e2] 0 59;
      if negb (bool_decide (s1 = "-"%char) && bool_decide (s2 = "-"%char) && bool_decide (sep = "T"%char)
               && bool_decide (c1 = ":"%char) && bool_decide (c2 = ":"%char)) then None
      else
        read ← frac rest;
        offset ← parse_zone read.2;
        Some ((days_from_civil year month dd * day_secs + hh * 3600 + mi * 60 + ss - offset) * nsec
              + read.1)
  | _ => None
  end.
Definition parse_instant : string -> option Z := parse_stamp (fun l => Some (parse_frac l)).
Definition parse_fixed : string -> option Z := parse_stamp fixed_frac.

Example format_ex1 : FormatRFC3339Nano {| ns := 1709208000 * nsec + 120000000; loc := UTC_loc |}
  = "2024-02-29T12:00:00.12Z".
Proof. reflexivity. Qed.
Example format_ex2 :
  FormatRFC3339Nano {| ns := 1709208000 * nsec; loc := {| base := -10800; zones := [] |} |}
  = "2024-02-29T09:00:00-03:00".
Proof. reflexivity. Qed.
Example parse_ex : parse_instant "2024-02-29T09:00:00.5-03:00" = Some (1709208000 * nsec + 500000000)
  /\ parse_instant "2023-02-29T09:00:00Z" = None.
Proof. split; reflexivity. Qed.

(** * The round trip *)
Lemma forallb_digits {A} (f : A -> Z) l : forallb digit (map (fun x => digit_char (f x)) l) = true.
Proof. induction l; [done|]. cbn [map forallb]. by rewrite (proj1 (digit_char_ok _)). Qed.

(** [drop_zeros] and [trim_zeros] take away zeros only. *)
Lemma trim_zeros_spec l : exists k, l = (trim_zeros l ++ replicate k "0"%char)%list.
Proof.
  unfold trim_zeros. assert (H : forall r, exists k, r = (replicate k "0"%char ++ drop_zeros r)%list).
  { induction r as [|c r [k IH]]; [by exists 0%nat|]. cbn [drop_zeros].
    case_bool_decide as E; [|by exists 0%nat]. exists (S k). subst c. cbn. by rewrite <- IH. }
  destruct (H (rev l)) as [k Hk]. exists k. rewrite <- (rev_involutive l) at 1. rewrite Hk at 1. rewrite rev_app_distr.
  f_equal. clear. induction k; [done|]. cbn [replicate rev]. by rewrite IHk, <- replicate_S_end.
Qed.

Lemma num_of_from l v : fold_left (fun n c => n * 10 + (Z.of_N (code c) - 48)) l v
  = v * 10 ^ Z.of_nat (List.length l) + num_of l.
Proof.
  unfold num_of. revert v. induction l as [|c l IH]; intros v; [cbn; lia|]. cbn [fold_left List.length].
  rewrite IH, (IH (0 * 10 + _)), Nat2Z.inj_succ, Z.pow_succ_r by lia. ring.
Qed.
Lemma num_of_app a b : num_of (a ++ b) = num_of a * 10 ^ Z.of_nat (List.length b) + num_of b.
Proof. unfold num_of at 1. rewrite fold_left_app. apply num_of_from. Qed.
Lemma num_of_zeros k : num_of (replicate k "0"%char) = 0.
Proof. induction k; [done|]. change (replicate (S k) "0"%char) with (["0"%char] ++ replicate k "0"%char)%list.
  rewrite num_of_app, IHk. change (num_of ["0"%char]) with 0. lia. Qed.

Lemma num_of_map l : Forall (digit_ok 10) l -> num_of (map digit_char l) = of_digits 10 l.
Proof.
  induction l as [|d l IH] using rev_ind; intros Hl; [done|]. rewrite Forall_app, Forall_singleton in Hl.
  destruct Hl as [Hl Hd]. rewrite map_app, of_digits_snoc. cbn [map]. rewrite num_of_snoc, IH by done.
  unfold digit_ok in Hd. by rewrite Z.mod_small.
Qed.
Lemma nine_digits_num n : 0 <= n < nsec -> num_of (nine_digits n) = n.
Proof.
  intros Hn. unfold nine_digits. rewrite num_of_map by (apply to_digits_ok; lia).
  apply of_to_digits; [lia|exact Hn].
Qed.
Lemma nine_digits_length n : List.length (nine_digits n) = 9%nat.
Proof. unfold nine_digits. by rewrite length_map, length_to_digits. Qed.
Lemma nine_digits_digit n : forallb digit (nine_digits n) = true.
Proof. unfold nine_digits. apply (forallb_digits (fun d => d)). Qed.

Lemma forallb_app_l {A} (f : A -> bool) a b : forallb f (a ++ b) = true -> forallb f a = true.
Proof. rewrite forallb_app, andb_true_iff. by intros [? _]. Qed.

Lemma span_digits_app ds rest : forallb digit ds = true ->
  match rest with c :: _ => digit c = false | [] => True end ->
  span_digits (ds ++ rest) = (ds, rest).
Proof.
  intros Hd Hr. induction ds as [|c ds IH].
  - cbn [app]. destruct rest as [|c r]; [done|]. cbn [span_digits]. by rewrite Hr.
  - cbn [forallb] in Hd. apply andb_true_iff in Hd as [Hc Hd]. cbn [app span_digits]. by rewrite Hc, IH.
Qed.

(** What follows the fraction does not start with a digit nor a point. *)
Lemma parse_frac_nano n rest : 0 <= n < nsec ->
  match rest with c :: _ => digit c = false /\ c <> "."%char | [] => True end ->
  parse_frac (append_nano n ++ rest) = (n, rest).
Proof.
  intros Hn Hr. destruct (trim_zeros_spec (nine_digits n)) as [k Hk].
  pose proof (nine_digits_digit n) as Hd. rewrite Hk in Hd. apply forallb_app_l in Hd.
  assert (Hnum : nanos_of (trim_zeros (nine_digits n)) = n).
  { pose proof (nine_digits_length n) as Hl. pose proof (nine_digits_num n Hn) as Hv.
    rewrite Hk in Hl, Hv. rewrite length_app, length_replicate in Hl.
    rewrite num_of_app, num_of_zeros, length_replicate in Hv. unfold nanos_of. rewrite take_ge by lia. cbv zeta.
    replace (9 - Z.of_nat (List.length (trim_zeros (nine_digits n)))) with (Z.of_nat k) by lia. lia. }
  unfold append_nano. destruct (trim_zeros (nine_digits n)) as [|d ds] eqn:E.
  - change (nanos_of []) with 0 in Hnum. subst n. cbn [app]. destruct rest as [|c r]; [done|]. cbn [parse_frac].
    by rewrite bool_decide_false by apply Hr.
  - cbn [app parse_frac]. rewrite bool_decide_true by done.
    change (d :: ds ++ rest)%list with ((d :: ds) ++ rest)%list.
    rewrite span_digits_app; [|done|by destruct rest; [|apply Hr]]. by rewrite Hnum.
Qed.

Lemma parse_two n lo hi : 0 <= n < 100 -> lo <= n <= hi ->
  parse_uint (two_digits n) lo hi = Some n.
Proof.
  intros Hn Hb. unfold parse_uint. destruct (num_of_digits n) as [E _]; [lia|]. rewrite E, Z.mod_small by lia.
  unfold two_digits. cbn [forallb]. rewrite !(proj1 (digit_char_ok _)). cbn [andb].
  by rewrite !(proj2 (Z.leb_le _ _)) by lia.
Qed.
Lemma parse_four n : 0 <= n <= 9999 -> parse_uint (four_digits n) 0 9999 = Some n.
Proof.
  intros Hn. unfold parse_uint. destruct (num_of_digits n) as [_ E]; [lia|]. rewrite E, Z.mod_small by lia.
  unfold four_digits. cbn [forallb]. rewrite !(proj1 (digit_char_ok _)). cbn [andb].
  by rewrite !(proj2 (Z.leb_le _ _)) by lia.
Qed.

(** An offset that the text can hold. *)
Definition zone_ok (offset : Z) : Prop := offset mod 60 = 0 /\ -86400 < offset < 86400.
Lemma parse_zone_append offset : zone_ok offset -> parse_zone (append_zone offset) = Some offset.
Proof.
  intros [Hm Hb]. unfold append_zone. destruct (Z.eqb_spec offset 0) as [->|Hne]; [done|]. cbv zeta.
  assert (Hq : offset = 60 * Z.quot offset 60) by div_lia. set (z := Z.quot offset 60) in *. clearbody z.
  pose proof (parse_two (Z.abs z / 60) 0 23 ltac:(div_lia) ltac:(div_lia)) as H1.
  pose proof (parse_two (Z.abs z mod 60) 0 59 ltac:(div_lia) ltac:(div_lia)) as H2.
  unfold two_digits in *. cbn [app]. unfold parse_zone. rewrite H1, H2. cbn [mbind option_bind].
  rewrite bool_decide_true by done. cbn [negb].
  destruct (Z.ltb_spec z 0).
  - rewrite bool_decide_false by done. rewrite bool_decide_true by done. f_equal. div_lia.
  - rewrite bool_decide_true by done. f_equal. div_lia.
Qed.
Lemma append_zone_head offset : match append_zone offset with
  | c :: _ => digit c = false /\ c <> "."%char | [] => True end.
Proof. unfold append_zone. destruct (offset =? 0); [done|]. cbv zeta. by destruct (_ <? 0). Qed.

(** A time that fits the text. *)
Definition writable (t : Time) : Prop :=
  0 <= fst (fst (civil_from_days (civil_day t))) <= 9999 /\ zone_ok (offset_at (loc t) (unix t)).

Lemma parse_stamp_format frac nano t : writable t ->
  (forall n zone, 0 <= n < nsec ->
     match zone with c :: _ => digit c = false /\ c <> "."%char | [] => True end ->
     frac (nano n ++ zone)%list = Some (n, zone)) ->
  parse_stamp frac (Format_with nano t) = Some (ns t).
Proof.
  intros [Hy Hz] Hfrac. unfold Format_with, seconds_text, parse_stamp. rewrite bytes_string.
  destruct (civil_roundtrip (civil_day t)) as [Hv E]. destruct (civil_from_days (civil_day t)) as [[y m] d].
  cbn [fst] in Hy. destruct Hv as [Hm Hd]. unfold format_ymd. rewrite bytes_string.
  assert (Hd31 : d <= 31) by (unfold days_in in Hd; repeat case_match; lia).
  set (sod := local_secs t mod day_secs). assert (Hs : 0 <= sod < 86400) by (apply Z.mod_pos_bound; done).
  pose proof (parse_four y Hy) as P1. pose proof (parse_two m 1 12 ltac:(lia) Hm) as P2.
  pose proof (parse_two d 1 _ ltac:(lia) Hd) as P3.
  pose proof (parse_two (sod / 3600) 0 23 ltac:(div_lia) ltac:(div_lia)) as P4.
  pose proof (parse_two (sod / 60 mod 60) 0 59 ltac:(div_lia) ltac:(div_lia)) as P5.
  pose proof (parse_two (sod mod 60) 0 59 ltac:(div_lia) ltac:(div_lia)) as P6.
  unfold clock, two_digits, four_digits in *. rewrite <- !app_assoc. cbn [app]. rewrite P1, P2. cbn [mbind option_bind].
  rewrite P3, P4, P5, P6. cbn [mbind option_bind]. rewrite !bool_decide_true by done. cbn [negb andb].
  rewrite Hfrac; [|by apply Z.mod_pos_bound|apply append_zone_head]. cbn [mbind option_bind fst snd].
  rewrite parse_zone_append by done. cbn [mbind option_bind]. f_equal. rewrite E.
  assert (Hsod : sod / 3600 * 3600 + sod / 60 mod 60 * 60 + sod mod 60 = sod) by div_lia.
  assert (Hloc : civil_day t * day_secs + sod = local_secs t)
    by (unfold civil_day; subst sod; pose proof (Z.div_mod (local_secs t) day_secs); unfold day_secs in *; lia).
  assert (Hunix : ns t = unix t * nsec + ns t mod nsec)
    by (unfold unix; pose proof (Z.div_mod (ns t) nsec); unfold nsec in *; lia).
  unfold local_secs in Hloc. nia.
Qed.

Lemma parse_instant_format t : writable t -> parse_instant (FormatRFC3339Nano t) = Some (ns t).
Proof.
  intros Ht. apply parse_stamp_format; [done|]. intros n zone Hn Hz. cbv beta. by rewrite parse_frac_nano.
Qed.
Lemma parse_fixed_format t : writable t -> parse_fixed (FormatFixed t) = Some (ns t).
Proof.
  intros Ht. apply parse_stamp_format; [done|]. intros n zone Hn _. unfold fixed_nano, fixed_frac. cbn [app].
  rewrite bool_decide_true, length_app, nine_digits_length by done. cbn [andb].
  rewrite (proj2 (Nat.leb_le 9 _)) by lia.
  rewrite take_app_length', drop_app_length' by (by rewrite nine_digits_length).
  unfold parse_uint. rewrite nine_digits_digit, nine_digits_num by done. unfold nsec in Hn.
  rewrite (proj2 (Z.leb_le 0 n)), (proj2 (Z.leb_le n _)) by lia. done.
Qed.

(** [parseTime] of the stores: the instant in UTC, the zero time for an unreadable text.
    [slow] is what [time.Parse] does with a text that is not the layout's own. *)
Section parse.
Context (instant : string -> option Z) (slow : string -> option Time).
Definition parseTime (s : string) : Time :=
  match instant s with
  | Some n => {| ns := n; loc := UTC_loc |}
  | None => match slow s with Some t => in_UTC t | None => zeroTime end
  end.
Lemma parseTime_format text t : instant (text t) = Some (ns t) -> parseTime (text t) = in_UTC t.
Proof. intros E. unfold parseTime. by rewrite E. Qed.
End parse.

(** * The calendar is ordered *)
Definition year_days (y : Z) : Z := 365 * y + y / 4 - y / 100 + y / 400.
Lemma year_days_step y : year_days y = year_days (y - 1) + 365 + (if leap y then 1 else 0).
Proof.
  unfold year_days, leap. destruct (Z.eqb_spec (y mod 4) 0), (Z.eqb_spec (y mod 100) 0), (Z.eqb_spec (y mod 400) 0);
    cbn [andb orb negb]; div_lia.
Qed.
Lemma year_days_mono y y' : y <= y' -> year_days y <= year_days y'.
Proof. unfold year_days. intros. div_lia. Qed.
Lemma days_from_civil_year y m d : days_from_civil y m d
  = year_days (if m <=? 2 then y - 1 else y) + (153 * (m + (if 2 <? m then -3 else 9)) + 2) / 5 + d - 1 - 719468.
Proof. unfold days_from_civil, year_days. cbv zeta. generalize (if m <=? 2 then y - 1 else y). intros Y. div_lia. Qed.

(** The days of a year before a month, the year counted from March of the one before. *)
Definition month_base (leap_year : bool) (m : Z) : Z :=
  if m <=? 2 then (153 * (m + 9) + 2) / 5
  else 365 + (if leap_year then 1 else 0) + (153 * (m + -3) + 2) / 5.
Lemma days_month_base y m d :
  days_from_civil y m d = year_days (y - 1) + month_base (leap y) m + d - 719469.
Proof.
  rewrite days_from_civil_year. unfold month_base. destruct (Z.leb_spec m 2).
  - rewrite (proj2 (Z.ltb_ge 2 m)) by lia. lia.
  - rewrite (proj2 (Z.ltb_lt 2 m)) by lia. rewrite (year_days_step y). lia.
Qed.
Lemma twelve m : 1 <= m <= 12 -> m = 1 \/ m = 2 \/ m = 3 \/ m = 4 \/ m = 5 \/ m = 6 \/ m = 7 \/ m = 8 \/
  m = 9 \/ m = 10 \/ m = 11 \/ m = 12.
Proof. lia. Qed.
Lemma month_base_next y m m' : 1 <= m -> m < m' -> m' <= 12 ->
  month_base (leap y) m + days_in m y <= month_base (leap y) m'.
Proof.
  intros H1 H2 H3. unfold days_in.
  destruct (twelve m) as [->|[->|[->|[->|[->|[->|[->|[->|[->|[->|[->| ->]]]]]]]]]]]; [lia| | | | | | | | | | | |lia];
  (destruct (twelve m') as [->|[->|[->|[->|[->|[->|[->|[->|[->|[->|[->| ->]]]]]]]]]]]; [lia|..]);
  try lia; destruct (leap y); vm_compute; discriminate.
Qed.
Lemma year_end y m d : valid_date (y, m, d) ->
  306 < month_base (leap y) m + d <= 671 + (if leap y then 1 else 0).
Proof.
  intros [Hm Hd]. unfold days_in in Hd.
  destruct (twelve m Hm) as [->|[->|[->|[->|[->|[->|[->|[->|[->|[->|[->| ->]]]]]]]]]]];
    cbn [Z.eqb Pos.eqb orb] in Hd; destruct (leap y);
    match goal with |- context [month_base ?b ?m] =>
      let v := eval vm_compute in (month_base b m) in change (month_base b m) with v end; lia.
Qed.

Definition date_key (ymd : Z * Z * Z) : Z := let '(y, m, d) := ymd in (y * 12 + (m - 1)) * 31 + (d - 1).
Lemma days_ordered p q : valid_date p -> valid_date q -> date_key p < date_key q ->
  (let '(y, m, d) := p in days_from_civil y m d) < (let '(y, m, d) := q in days_from_civil y m d).
Proof.
  destruct p as [[y m] d], q as [[y' m'] d']. intros Hp Hq Hlt. rewrite !days_month_base.
  pose proof (year_end _ _ _ Hp). pose proof (year_end _ _ _ Hq). destruct Hp as [Hm Hd], Hq as [Hm' Hd'].
  assert (days_in m y <= 31) by (unfold days_in; repeat case_match; lia).
  assert (days_in m' y' <= 31) by (unfold days_in; repeat case_match; lia). unfold date_key in Hlt.
  destruct (Z.lt_trichotomy y y') as [Hy|[->|Hy]]; [|destruct (Z.lt_trichotomy m m') as [Hmm|[->|Hmm]]|].
  - pose proof (year_days_mono y (y' - 1) ltac:(lia)). rewrite (year_days_step y) in *. lia.
  - pose proof (month_base_next y' m m' ltac:(lia) Hmm ltac:(lia)). lia.
  - lia.
  - lia.
  - lia.
Qed.

(** The days compare as their dates do. *)
Lemma civil_compare z z' :
  (date_key (civil_from_days z) ?= date_key (civil_from_days z')) = (z ?= z').
Proof.
  destruct (civil_roundtrip z) as [Hv E], (civil_roundtrip z') as [Hv' E'].
  destruct (Z.compare_spec (date_key (civil_from_days z)) (date_key (civil_from_days z'))) as [Heq|Hlt|Hgt].
  - symmetry. apply Z.compare_eq_iff. rewrite <- E, <- E'. destruct (civil_from_days z) as [[y m] d].
    destruct (civil_from_days z') as [[y' m'] d']. destruct Hv as [Hm Hd], Hv' as [Hm' Hd'].
    assert (days_in m y <= 31) by (unfold days_in; repeat case_match; lia).
    assert (days_in m' y' <= 31) by (unfold days_in; repeat case_match; lia). unfold date_key in Heq.
    assert (y = y' /\ m = m' /\ d = d') as (-> & -> & ->) by (split_and!; lia). done.
  - pose proof (days_ordered _ _ Hv Hv' Hlt). rewrite E, E' in *. symmetry. by apply Z.compare_lt_iff.
  - pose proof (days_ordered _ _ Hv' Hv Hgt). rewrite E, E' in *. symmetry. by apply Z.compare_gt_iff.
Qed.

(** * The order of the texts *)
Definition lex (c d : comparison) : comparison := match c with Eq => d | _ => c end.
Lemma lex_Z B a a' b b' : 0 <= b < B -> 0 <= b' < B ->
  lex (a ?= a') (b ?= b') = (a * B + b ?= a' * B + b').
Proof.
  intros Hb Hb'. destruct (Z.compare_spec a a'), (Z.compare_spec b b'); cbn [lex]; symmetry;
    first [apply Z.compare_eq_iff|apply Z.compare_lt_iff|apply Z.compare_gt_iff]; nia.
Qed.
Lemma lex_assoc a b c : lex (lex a b) c = lex a (lex b c).
Proof. by destruct a. Qed.

Definition compare_bytes (a b : bytes) : comparison := String.compare (string_of a) (string_of b).
Lemma digit_value c : digit c = true -> 0 <= Z.of_N (code c) - 48 < 10.
Proof. unfold digit. rewrite andb_true_iff, !N.leb_le. lia. Qed.
Lemma num_of_bound l : forallb digit l = true -> 0 <= num_of l < 10 ^ Z.of_nat (List.length l).
Proof.
  induction l as [|c l IH]; [cbn; lia|]. cbn [forallb]. intros [Hc Hl]%andb_true_iff. specialize (IH Hl).
  change (c :: l) with ([c] ++ l)%list. rewrite num_of_app. change (List.length ([c] ++ l)) with (S (List.length l)).
  rewrite Nat2Z.inj_succ, Z.pow_succ_r by lia. apply digit_value in Hc. unfold num_of at 1 3. cbn [fold_left]. nia.
Qed.
Lemma compare_code c c' : Ascii.compare c c' = (Z.of_N (code c) - 48 ?= Z.of_N (code c') - 48).
Proof. unfold Ascii.compare, code. rewrite <- N2Z.inj_compare. destruct (Z.compare_spec (Z.of_N (Ascii.N_of_ascii c)) (Z.of_N (Ascii.N_of_ascii c'))); symmetry;
    first [apply Z.compare_eq_iff|apply Z.compare_lt_iff|apply Z.compare_gt_iff]; lia. Qed.
Lemma compare_digits ds ds' a b : forallb digit ds = true -> forallb digit ds' = true ->
  List.length ds = List.length ds' ->
  compare_bytes (ds ++ a) (ds' ++ b) = lex (num_of ds ?= num_of ds') (compare_bytes a b).
Proof.
  revert ds'. induction ds as [|c ds IH]; intros [|c' ds'] H1 H2 Hl; try done.
  cbn [forallb] in *. apply andb_true_iff in H1 as [Hc H1], H2 as [Hc' H2]. injection Hl as Hl.
  change (c :: ds) with ([c] ++ ds)%list. change (c' :: ds') with ([c'] ++ ds')%list. rewrite !num_of_app, Hl.
  rewrite <- (lex_Z (10 ^ Z.of_nat (List.length ds'))); [|rewrite <- Hl; by apply num_of_bound|by apply num_of_bound].
  rewrite lex_assoc, <- IH by done. unfold compare_bytes. cbn [app string_of String.string_of_list_ascii String.compare].
  unfold num_of. cbn [fold_left]. rewrite !Z.add_0_l, compare_code.
  by destruct (_ ?= _).
Qed.

Lemma digits_two n : 0 <= n < 100 -> forallb digit (two_digits n) = true /\ num_of (two_digits n) = n.
Proof.
  intros Hn. destruct (num_of_digits n) as [E _]; [lia|]. rewrite E, Z.mod_small by lia. split; [|done].
  unfold two_digits. cbn [forallb]. by rewrite !(proj1 (digit_char_ok _)).
Qed.
Lemma digits_four n : 0 <= n <= 9999 -> forallb digit (four_digits n) = true /\ num_of (four_digits n) = n.
Proof.
  intros Hn. destruct (num_of_digits n) as [_ E]; [lia|]. rewrite E, Z.mod_small by lia. split; [|done].
  unfold four_digits. cbn [forallb]. by rewrite !(proj1 (digit_char_ok _)).
Qed.
Lemma compare_two n m a b : 0 <= n < 100 -> 0 <= m < 100 ->
  compare_bytes (two_digits n ++ a) (two_digits m ++ b) = lex (n ?= m) (compare_bytes a b).
Proof.
  intros Hn Hm. destruct (digits_two n Hn) as [D1 E1], (digits_two m Hm) as [D2 E2].
  rewrite compare_digits by done. by rewrite E1, E2.
Qed.
Lemma compare_four n m a b : 0 <= n <= 9999 -> 0 <= m <= 9999 ->
  compare_bytes (four_digits n ++ a) (four_digits m ++ b) = lex (n ?= m) (compare_bytes a b).
Proof.
  intros Hn Hm. destruct (digits_four n Hn) as [D1 E1], (digits_four m Hm) as [D2 E2].
  rewrite compare_digits by done. by rewrite E1, E2.
Qed.
Lemma compare_same c a b : compare_bytes (c :: a) (c :: b) = compare_bytes a b.
Proof. unfold compare_bytes. cbn [string_of String.string_of_list_ascii String.compare]. unfold Ascii.compare. by rewrite N.compare_refl. Qed.

(** Texts of whole seconds compare as the seconds do. *)
Lemma compare_seconds day day' sod sod' a b :
  0 <= fst (fst (civil_from_days day)) <= 9999 -> 0 <= fst (fst (civil_from_days day')) <= 9999 ->
  0 <= sod < day_secs -> 0 <= sod' < day_secs ->
  compare_bytes (seconds_text day sod ++ a) (seconds_text day' sod' ++ b)
    = lex (day * day_secs + sod ?= day' * day_secs + sod') (compare_bytes a b).
Proof.
  unfold day_secs. intros Hy Hy' Hs Hs'. rewrite <- lex_Z, <- civil_compare by done.
  destruct (civil_roundtrip day) as [Hv _], (civil_roundtrip day') as [Hv' _]. unfold seconds_text.
  destruct (civil_from_days day) as [[y m] d], (civil_from_days day') as [[y' m'] d']. cbn [fst] in Hy, Hy'.
  destruct Hv as [Hm Hd], Hv' as [Hm' Hd'].
  assert (days_in m y <= 31) by (unfold days_in; repeat case_match; lia).
  assert (days_in m' y' <= 31) by (unfold days_in; repeat case_match; lia).
  unfold format_ymd, clock. rewrite !bytes_string, <- !app_assoc.
  rewrite compare_four by lia. cbn [app]. rewrite compare_same, compare_two by lia. cbn [app].
  rewrite compare_same, compare_two by lia. cbn [app]. rewrite compare_same, compare_two by div_lia. cbn [app].
  rewrite compare_same, compare_two by div_lia. cbn [app]. rewrite compare_same, compare_two by div_lia.
  unfold date_key. rewrite <- !lex_Z by lia.
  assert (Hpred : forall u v, (u - 1 ?= v - 1) = (u ?= v))
    by (intros; rewrite (Z.compare_sub u), (Z.compare_sub (u - 1)); f_equal; lia).
  rewrite !Hpred, !lex_assoc. do 3 f_equal.
  assert (Hsod : forall u, u = (u / 3600 * 60 + u / 60 mod 60) * 60 + u mod 60) by (intros; div_lia).
  rewrite (Hsod sod), (Hsod sod') at 4. rewrite <- !lex_Z by div_lia. by rewrite !lex_assoc.
Qed.

(** Texts in UTC compare as the seconds do, then as the fractions do. *)
Definition utc_writable (t : Time) : Prop :=
  loc t = UTC_loc /\ 0 <= fst (fst (civil_from_days (civil_day t))) <= 9999.
Lemma compare_texts nano t u : utc_writable t -> utc_writable u ->
  String.compare (Format_with nano t) (Format_with nano u)
    = lex (unix t ?= unix u) (compare_bytes (nano (ns t mod nsec) ++ ["Z"%char]) (nano (ns u mod nsec) ++ ["Z"%char])).
Proof.
  intros [Lt Ht] [Lu Hu]. unfold Format_with. fold (compare_bytes) in *.
  change (String.compare (string_of ?a) (string_of ?b)) with (compare_bytes a b).
  rewrite compare_seconds; [|done|done|by apply Z.mod_pos_bound|by apply Z.mod_pos_bound].
  assert (Hloc : forall t, loc t = UTC_loc -> civil_day t * day_secs + local_secs t mod day_secs = unix t).
  { intros v Hv. unfold civil_day, local_secs. rewrite Hv. change (offset_at UTC_loc (unix v)) with 0.
    pose proof (Z.div_mod (unix v + 0) day_secs). unfold day_secs in *. lia. }
  rewrite !Hloc by done. rewrite Lt, Lu. reflexivity.
Qed.
Lemma unix_compare t u : lex (unix t ?= unix u) (ns t mod nsec ?= ns u mod nsec) = (ns t ?= ns u).
Proof.
  rewrite (lex_Z nsec) by (by apply Z.mod_pos_bound). unfold unix.
  f_equal; rewrite Z.mul_comm, <- Z.div_mod by done; done.
Qed.

(** With nine digits of fraction the order of the texts is the order of the instants. *)
Lemma compare_fixed n m a b : 0 <= n < nsec -> 0 <= m < nsec ->
  compare_bytes (fixed_nano n ++ a) (fixed_nano m ++ b) = lex (n ?= m) (compare_bytes a b).
Proof.
  intros Hn Hm. unfold fixed_nano. cbn [app]. rewrite compare_same.
  rewrite compare_digits by (rewrite ?nine_digits_length; try done; apply nine_digits_digit).
  by rewrite !nine_digits_num.
Qed.
Lemma fixed_compare t u : utc_writable t -> utc_writable u ->
  String.compare (FormatFixed t) (FormatFixed u) = (ns t ?= ns u).
Proof.
  intros Ht Hu. unfold FormatFixed. rewrite compare_texts by done.
  rewrite compare_fixed by (by apply Z.mod_pos_bound). rewrite <- lex_assoc, unix_compare.
  by destruct (ns t ?= ns u).
Qed.
Lemma fixed_order t u : utc_writable t -> utc_writable u ->
  string_less (FormatFixed t) (FormatFixed u) = Before t u.
Proof.
  intros Ht Hu. unfold string_less, Before. change (String.ltb ?a ?b) with (match String.compare a b with Lt => true | _ => false end).
  rewrite fixed_compare by done. unfold Z.ltb. done.
Qed.

(** With the zeros trimmed it is so for instants in different seconds only: a shortened fraction
    ends in a Z, which is greater than every digit and than the point. *)
Lemma text_order t u : utc_writable t -> utc_writable u -> unix t <> unix u ->
  string_less (FormatRFC3339Nano t) (FormatRFC3339Nano u) = Before t u.
Proof.
  intros Ht Hu Hne. unfold string_less, Before. change (String.ltb ?a ?b) with (match String.compare a b with Lt => true | _ => false end).
  unfold FormatRFC3339Nano. rewrite compare_texts by done. unfold Z.ltb. rewrite <- (unix_compare t u).
  destruct (Z.compare_spec (unix t) (unix u)); done.
Qed.
Example text_order_within_second :
  string_less (FormatRFC3339Nano {| ns := nsec / 2; loc := UTC_loc |})
              (FormatRFC3339Nano {| ns := 0; loc := UTC_loc |}) = true.
Proof. reflexivity. Qed.
