(* ===== verification/Shared.v ===== *)
(** internal/domain/shared: the error values of the domain and the money value
    object with its overflow-checked sums. *)
From S2P Require Import Prelude GoStrings.

(** * errors.go

    [New] is a sentinel made by [errors.New] (identified by its text, the texts
    of the service's sentinels being distinct), [Validation] a
    [*ValidationError], [Wrap] an error wrapped by [fmt.Errorf] with the verb w,
    [Joined] one that wraps two ([%w ... %w]). *)
Inductive error : Type :=
| New (text : string)
| Validation (field msg : string)
| Wrap (context : string) (inner : error)
| Joined (context : string) (first second : error).

#[export] Instance error_eq_dec : EqDecision error.
Proof. solve_decision. Defined.

Definition ErrValidation : error := New "validation error".
Definition ErrNotFound : error := New "not found".
Definition ErrConflict : error := New "conflict".
Definition ErrTenantScope : error := New "tenant scope violation".
Definition ErrInvalidTransition : error := New "invalid state transition".
Definition ErrUnauthorized : error := New "unauthorized".
Definition ErrUnavailable : error := New "unavailable".
Definition ErrAmountMismatch : error := New "amount mismatch".

(** [(e *ValidationError).Is(target)]. *)
Definition ValidationError_Is (target : error) : bool :=
  bool_decide (target = ErrValidation).

(** [errors.Is(err, target)]. *)
Fixpoint errors_Is (err target : error) : bool :=
  bool_decide (err = target) ||
  match err with
  | New _ => false
  | Validation _ _ => ValidationError_Is target
  | Wrap _ inner => errors_Is inner target
  | Joined _ a b => errors_Is a target || errors_Is b target
  end.

Definition NewValidationError (field msg : string) : error := Validation field msg.

(** Most operations of the service are fallible in this type. *)
Notation res := (result error).

Lemma errors_Is_refl e : errors_Is e e = true.
Proof. destruct e; simpl; rewrite bool_decide_true by done; done. Qed.

Lemma errors_Is_Wrap c e s : errors_Is (Wrap c e) (New s) = errors_Is e (New s).
Proof. done. Qed.

(** * money.go *)
Definition AddCents (a b : Z) : res Z :=
  refuse ((0 <? b) && (sub64 maxInt64 b <? a) || (b <? 0) && (a <? sub64 minInt64 b))
    with (NewValidationError "amount" "item amount sum overflows int64") ;;
  Ok (add64 a b).

Fixpoint SumCents_from (sum : Z) (amounts : list Z) : res Z :=
  match amounts with
  | [] => Ok sum
  | a :: rest => let? next := AddCents sum a in SumCents_from next rest
  end.
Definition SumCents (amounts : list Z) : res Z := SumCents_from 0 amounts.

Record Money := { cents : Z; currency : string }.
Definition zeroMoney : Money := {| cents := 0; currency := "" |}.

#[export] Instance Money_eq_dec : EqDecision Money.
Proof. solve_decision. Defined.

Definition upper_letter (c : ascii) : bool := ((65 <=? code c) && (code c <=? 90))%N.

(** [currencyRe], the regular expression ^[A-Z]{3}$. *)
Definition currencyRe (s : string) : bool :=
  (len s =? 3) && forallb upper_letter (bytes_of s).

Definition NewMoney (cents : Z) (currency : string) : res Money :=
  refuse (cents <=? 0) with (NewValidationError "amount" "must be greater than zero") ;;
  refuse (negb (currencyRe currency))
    with (NewValidationError "currency" "must be a 3-letter ISO-4217 code") ;;
  Ok {| cents := cents; currency := currency |}.

Definition Money_IsZero (m : Money) : bool :=
  (cents m =? 0) && bool_decide (currency m = "").

(** The invariant of a constructed amount. *)
Definition Money_ok (m : Money) : Prop := 0 < cents m /\ currencyRe (currency m) = true.

Lemma NewMoney_Ok c cur m :
  NewMoney c cur = Ok m <->
  0 < c /\ currencyRe cur = true /\ m = {| cents := c; currency := cur |}.
Proof.
  unfold NewMoney. destruct (Z.leb_spec c 0); [split; [done|lia]|].
  destruct (currencyRe cur); simpl; split; intros; destruct_and?; simplify_eq; done.
Qed.

Lemma AddCents_spec a b :
  in64 a -> in64 b ->
  (in64 (a + b) /\ AddCents a b = Ok (a + b)) \/
  (~ in64 (a + b) /\
   AddCents a b = Err (Validation "amount" "item amount sum overflows int64")).
Proof.
  intros Ha Hb. unfold AddCents.
  assert (Hc : ((0 <? b) && (sub64 maxInt64 b <? a) || (b <? 0) && (a <? sub64 minInt64 b))
               = negb (bool_decide (in64 (a + b)))).
  { destruct (Z.ltb_spec 0 b), (Z.ltb_spec b 0); try lia; cbn [andb orb];
      rewrite ?sub64_id by (unfold in64, minInt64, maxInt64 in *; lia);
      case_bool_decide; unfold in64, minInt64, maxInt64 in *; simpl negb; lia. }
  rewrite Hc. case_bool_decide; simpl; [left|right]; [|done].
  by rewrite add64_id.
Qed.

Definition sumZ (l : list Z) : Z := fold_right Z.add 0 l.

Lemma SumCents_from_exact amounts sum total :
  in64 sum -> Forall in64 amounts ->
  SumCents_from sum amounts = Ok total -> total = sum + sumZ amounts /\ in64 total.
Proof.
  intros Hs Hall. revert sum Hs. induction Hall as [|a l Ha Hl IH]; simpl; intros sum Hs H.
  { simplify_eq. split; [lia|done]. }
  destruct (AddCents_spec sum a Hs Ha) as [[Hin E]|[? E]]; rewrite E in H; [|done].
  apply IH in H as [-> ?]; [|done]. simpl. split; [lia|done].
Qed.
