(* ===== verification/Payments.v ===== *)
(** internal/domain/payment: the Payment aggregate and its status machine.
    internal/domain/billing: per-endpoint pricing and the entries of the append-only ledger. *)
From S2P Require Import Prelude GoStrings GoTime Shared.
(** [Status] is an open string type in the source: any string read back from
    storage inhabits it. *)
Notation Status := string (only parsing).
Definition StatusPending : Status := "pending".
Definition StatusPaid : Status := "paid".
Definition StatusCanceled : Status := "canceled".

Record Payment := {
  payment_id : string;
  payment_tenantID : string;
  payment_amount : Money;
  payment_status : Status;
  payment_endpoint : string;
  payment_idempotencyKey : string;
  payment_txID : string;
  payment_createdAt : Time;
  payment_updatedAt : Time
}.

#[export] Instance Payment_eq_dec : EqDecision Payment.
Proof. solve_decision. Defined.

Definition payment_New (id tenantID endpoint idempotencyKey : string)
    (amount : Money) (now : Time) : res Payment :=
  let id := TrimSpace id in
  refuse (bool_decide (id = ""))
    with (NewValidationError "id" "payment id is required") ;;
  let tenantID := TrimSpace tenantID in
  refuse (bool_decide (tenantID = ""))
    with (NewValidationError "tenant_id" "tenant id is required") ;;
  let endpoint := TrimSpace endpoint in
  refuse (bool_decide (endpoint = ""))
    with (NewValidationError "endpoint" "endpoint is required") ;;
  let idempotencyKey := TrimSpace idempotencyKey in
  refuse (bool_decide (idempotencyKey = ""))
    with (NewValidationError "idempotency_key" "idempotency key is required") ;;
  refuse (Money_IsZero amount)
    with (NewValidationError "amount" "amount is required") ;;
  Ok {| payment_id := id;
        payment_tenantID := tenantID;
        payment_amount := amount;
        payment_status := StatusPending;
        payment_endpoint := endpoint;
        payment_idempotencyKey := idempotencyKey;
        payment_txID := "";
        payment_createdAt := now;
        payment_updatedAt := now |}.

Definition payment_Rehydrate (id tenantID endpoint idempotencyKey txID : string)
    (amount : Money) (status : Status) (createdAt updatedAt : Time) : Payment :=
  {| payment_id := id;
     payment_tenantID := tenantID;
     payment_amount := amount;
     payment_status := status;
     payment_endpoint := endpoint;
     payment_idempotencyKey := idempotencyKey;
     payment_txID := txID;
     payment_createdAt := createdAt;
     payment_updatedAt := updatedAt |}.

(** The methods mutate the receiver; here they return it.  On an error the
    receiver is left as it was. *)
Definition with_status (p : Payment) (s : Status) (txID : string) (now : Time) : Payment :=
  payment_Rehydrate (payment_id p) (payment_tenantID p) (payment_endpoint p)
    (payment_idempotencyKey p) txID (payment_amount p) s (payment_createdAt p) now.

Definition payment_MarkPaid (p : Payment) (txID : string) (now : Time) : res Payment :=
  let txID := TrimSpace txID in
  refuse (bool_decide (txID = ""))
    with (NewValidationError "tx_id" "tx id is required to settle") ;;
  if bool_decide (payment_status p = StatusPaid)
  then if bool_decide (payment_txID p = txID) then Ok p else Err ErrConflict
  else
    refuse (negb (bool_decide (payment_status p = StatusPending)))
      with ErrInvalidTransition ;;
    Ok (with_status p StatusPaid txID now).

Definition payment_Cancel (p : Payment) (now : Time) : res Payment :=
  refuse (negb (bool_decide (payment_status p = StatusPending)))
    with ErrInvalidTransition ;;
  Ok (with_status p StatusCanceled (payment_txID p) now).

Definition payment_SetTxID (p : Payment) (txID : string) : Payment :=
  with_status p (payment_status p) (TrimSpace txID) (payment_updatedAt p).

(** * The invariant of a constructed payment *)
Record Payment_ok (p : Payment) : Prop := {
  ok_id : trimmed (payment_id p) /\ payment_id p <> "";
  ok_tenant : trimmed (payment_tenantID p) /\ payment_tenantID p <> "";
  ok_endpoint : trimmed (payment_endpoint p) /\ payment_endpoint p <> "";
  ok_key : trimmed (payment_idempotencyKey p) /\ payment_idempotencyKey p <> "";
  ok_tx : trimmed (payment_txID p);
  ok_amount : Money_IsZero (payment_amount p) = false;
  ok_paid : payment_status p = StatusPaid -> payment_txID p <> ""
}.

Lemma payment_New_Ok id tenant ep key amount now p :
  payment_New id tenant ep key amount now = Ok p ->
  Payment_ok p /\ payment_id p = TrimSpace id /\ payment_tenantID p = TrimSpace tenant /\
  payment_idempotencyKey p = TrimSpace key /\ payment_amount p = amount /\
  payment_status p = StatusPending /\ payment_txID p = "".
Proof.
  unfold payment_New. intros H.
  repeat (case_bool_decide; [done|]). destruct (Money_IsZero amount) eqn:?; [done|].
  simplify_eq. split; [|done]. split; simpl; auto with go; done.
Qed.

(** * Lifecycle *)

(** What a caller may do with a payment; a refused operation leaves it alone. *)
Inductive payment_op :=
| OpMarkPaid (txID : string) (now : Time)
| OpCancel (now : Time).

Definition ignore_err (p : Payment) (r : res Payment) : Payment :=
  match r with Ok p' => p' | Err _ => p end.
Definition run_op (p : Payment) (o : payment_op) : Payment :=
  match o with
  | OpMarkPaid tx now => ignore_err p (payment_MarkPaid p tx now)
  | OpCancel now => ignore_err p (payment_Cancel p now)
  end.
Definition run_ops : Payment -> list payment_op -> Payment := foldl run_op.

(** The fields the lifecycle never touches. *)
Definition identity (p : Payment) :=
  (payment_id p, payment_tenantID p, payment_amount p, payment_endpoint p,
   payment_idempotencyKey p, payment_createdAt p).

Lemma MarkPaid_inv p tx now q :
  payment_MarkPaid p tx now = Ok q ->
  TrimSpace tx <> "" /\
  ((payment_status p = StatusPaid /\ payment_txID p = TrimSpace tx /\ q = p) \/
   (payment_status p = StatusPending /\ q = with_status p StatusPaid (TrimSpace tx) now)).
Proof.
  unfold payment_MarkPaid. intros H.
  repeat (case_bool_decide; try done); simplify_eq/=; auto.
Qed.

Lemma MarkPaid_pending p tx now :
  payment_status p = StatusPending -> TrimSpace tx <> "" ->
  payment_MarkPaid p tx now = Ok (with_status p StatusPaid (TrimSpace tx) now).
Proof.
  intros Hs Ht. unfold payment_MarkPaid. rewrite Hs.
  rewrite (bool_decide_false _ Ht). done.
Qed.

Lemma Cancel_inv p now q :
  payment_Cancel p now = Ok q ->
  payment_status p = StatusPending /\ q = with_status p StatusCanceled (payment_txID p) now.
Proof. unfold payment_Cancel. intros H. case_bool_decide; simplify_eq/=; done. Qed.

Lemma run_op_ok p o : Payment_ok p -> Payment_ok (run_op p o).
Proof.
  intros Hp. destruct o as [tx now|now]; simpl.
  - destruct (payment_MarkPaid p tx now) as [q|] eqn:E; [|done]. simpl.
    apply MarkPaid_inv in E as [Ht [(_ & _ & ->)|[_ ->]]]; [done|].
    destruct Hp. split; simpl; auto with go.
  - destruct (payment_Cancel p now) as [q|] eqn:E; [|done]. simpl.
    apply Cancel_inv in E as [_ ->]. destruct Hp. split; simpl; auto; done.
Qed.

Lemma run_op_identity p o : identity (run_op p o) = identity p.
Proof.
  destruct o as [tx now|now]; simpl.
  - destruct (payment_MarkPaid p tx now) as [q|] eqn:E; [|done]. simpl.
    by apply MarkPaid_inv in E as [_ [(_ & _ & ->)|[_ ->]]].
  - destruct (payment_Cancel p now) as [q|] eqn:E; [|done]. simpl.
    by apply Cancel_inv in E as [_ ->].
Qed.

Lemma run_op_absorbing p o : payment_status p <> StatusPending -> run_op p o = p.
Proof.
  intros Hs. destruct o as [tx now|now]; simpl.
  - destruct (payment_MarkPaid p tx now) as [q|] eqn:E; [|done]. simpl.
    by apply MarkPaid_inv in E as [_ [(_ & _ & ->)|[? ->]]].
  - destruct (payment_Cancel p now) as [q|] eqn:E; [|done]. simpl.
    by apply Cancel_inv in E as [? ->].
Qed.

Lemma run_ops_absorbing p ops : payment_status p <> StatusPending -> run_ops p ops = p.
Proof.
  unfold run_ops. intros Hs. induction ops as [|o ops IH]; [done|].
  simpl. by rewrite run_op_absorbing.
Qed.

(** C34. A payment keeps its identity (id, tenant, amount, endpoint, idempotency
    key, creation time) and its invariant through any sequence of settle and
    cancel attempts, and the first one that succeeds decides it for ever: the
    result of the whole sequence is the result of some prefix's last operation on
    the still pending payment, later attempts changing nothing. *)
Theorem payment_lifecycle p ops (Hp : Payment_ok p) (Hs : payment_status p = StatusPending) :
  let q := run_ops p ops in
  Payment_ok q /\ identity q = identity p /\
  (q = p \/
   exists done_ o rest, ops = (done_ ++ o :: rest)%list /\
     run_ops p done_ = p /\ q = run_op p o /\
     (payment_status q = StatusPaid \/ payment_status q = StatusCanceled)).
Proof.
  revert p Hp Hs. induction ops as [|o ops IH]; intros p Hp Hs; simpl; [by auto|].
  assert (Ho : run_op p o = p \/ payment_status (run_op p o) = StatusPaid \/
               payment_status (run_op p o) = StatusCanceled).
  { destruct o as [tx now|now]; simpl.
    - destruct (payment_MarkPaid p tx now) as [q|] eqn:E; [|by auto]. simpl.
      apply MarkPaid_inv in E as [_ [(_ & _ & ->)|[_ ->]]]; auto.
    - destruct (payment_Cancel p now) as [q|] eqn:E; [|by auto]. simpl.
      apply Cancel_inv in E as [_ ->]; auto. }
  destruct Ho as [E|Ho].
  - rewrite E. destruct (IH p Hp Hs) as (H1 & H2 & [H3|(d & o' & r & -> & ? & ?)]);
      (split; [done|split; [done|]]); [by left|right].
    exists (o :: d), o', r. simpl. rewrite E. done.
  - change (foldl run_op (run_op p o) ops) with (run_ops (run_op p o) ops).
    rewrite run_ops_absorbing by (destruct Ho as [->| ->]; done).
    split; [by apply run_op_ok|split; [apply run_op_identity|]].
    right. exists [], o, ops. done.
Qed.

Definition sample_time : Time := {| ns := 1700000000 * nsec; loc := UTC_loc |}.
Definition sample_payment : Payment :=
  payment_Rehydrate "p1" "t1" "pix.create" "k1" "" {| cents := 1050; currency := "BRL" |}
    StatusPending sample_time sample_time.

Lemma sample_payment_ok : Payment_ok sample_payment.
Proof. split; try split; done. Qed.

Lemma payment_lifecycle_witness :
  payment_status (run_ops sample_payment
    [OpMarkPaid " " sample_time; OpMarkPaid "tx" sample_time; OpCancel sample_time])
  = StatusPaid /\
  Payment_ok (run_ops sample_payment [OpMarkPaid "tx" sample_time]).
Proof.
  split; [reflexivity|].
  apply (payment_lifecycle sample_payment [OpMarkPaid "tx" sample_time]
           sample_payment_ok eq_refl).
Defined.

(** * Pricing and the ledger *)
Record EndpointPricing := {
  pricing_tenantID : string;
  pricing_endpoint : string;
  pricing_priceCents : Z
}.

Definition NewEndpointPricing (tenantID endpoint : string) (priceCents : Z)
    : res EndpointPricing :=
  let tenantID := TrimSpace tenantID in
  refuse (bool_decide (tenantID = ""))
    with (NewValidationError "tenant_id" "tenant id is required") ;;
  let endpoint := TrimSpace endpoint in
  refuse (bool_decide (endpoint = ""))
    with (NewValidationError "endpoint" "endpoint is required") ;;
  refuse (priceCents <? 0)
    with (NewValidationError "price_cents" "price must be non-negative") ;;
  Ok {| pricing_tenantID := tenantID; pricing_endpoint := endpoint;
        pricing_priceCents := priceCents |}.

Record LedgerEntry := {
  ledger_id : string;
  ledger_tenantID : string;
  ledger_endpoint : string;
  ledger_priceCents : Z;
  ledger_reference : string;
  ledger_at : Time;
  ledger_accountID : string
}.

#[export] Instance LedgerEntry_eq_dec : EqDecision LedgerEntry.
Proof. solve_decision. Defined.

(** [LedgerEntryOption]: a mutation of the entry under construction. *)
Definition LedgerEntryOption : Type := LedgerEntry -> LedgerEntry.

Definition WithAccount (accountID : string) : LedgerEntryOption := fun e =>
  {| ledger_id := ledger_id e; ledger_tenantID := ledger_tenantID e;
     ledger_endpoint := ledger_endpoint e; ledger_priceCents := ledger_priceCents e;
     ledger_reference := ledger_reference e; ledger_at := ledger_at e;
     ledger_accountID := TrimSpace accountID |}.

Definition NewLedgerEntry (id tenantID endpoint reference : string) (priceCents : Z)
    (at_ : Time) (opts : list LedgerEntryOption) : res LedgerEntry :=
  let id := TrimSpace id in
  refuse (bool_decide (id = ""))
    with (NewValidationError "id" "ledger entry id is required") ;;
  let tenantID := TrimSpace tenantID in
  refuse (bool_decide (tenantID = ""))
    with (NewValidationError "tenant_id" "tenant id is required") ;;
  let endpoint := TrimSpace endpoint in
  refuse (bool_decide (endpoint = ""))
    with (NewValidationError "endpoint" "endpoint is required") ;;
  refuse (priceCents <? 0)
    with (NewValidationError "price_cents" "price must be non-negative") ;;
  Ok (foldl (fun e opt => opt e)
        {| ledger_id := id; ledger_tenantID := tenantID; ledger_endpoint := endpoint;
           ledger_priceCents := priceCents; ledger_reference := TrimSpace reference;
           ledger_at := at_; ledger_accountID := "" |} opts).

Record LedgerEntry_ok (e : LedgerEntry) : Prop := {
  ledger_ok_id : trimmed (ledger_id e) /\ ledger_id e <> "";
  ledger_ok_tenant : trimmed (ledger_tenantID e) /\ ledger_tenantID e <> "";
  ledger_ok_endpoint : trimmed (ledger_endpoint e) /\ ledger_endpoint e <> "";
  ledger_ok_reference : trimmed (ledger_reference e);
  ledger_ok_price : 0 <= ledger_priceCents e
}.

Lemma NewLedgerEntry_Ok id tenant ep ref price at_ acct e :
  NewLedgerEntry id tenant ep ref price at_ [WithAccount acct] = Ok e ->
  LedgerEntry_ok e /\ ledger_tenantID e = TrimSpace tenant /\
  ledger_reference e = TrimSpace ref /\ ledger_priceCents e = price /\
  ledger_accountID e = TrimSpace acct.
Proof.
  unfold NewLedgerEntry. intros H. repeat (case_bool_decide; [done|]).
  case_match eqn:E; simplify_eq/=. split; [|done]. split; simpl; auto with go. lia.
Qed.
