(* ===== verification/Tenants.v ===== *)
(** internal/domain/tenant and internal/domain/account: the two levels of the
    tenancy model, the once-only binding of a tenant to its account, and the
    derived self-accounts. *)
From S2P Require Import Prelude GoStrings GoTime Shared.

Record Tenant := {
  tenant_id : string;
  tenant_name : string;
  tenant_active : bool;
  tenant_createdAt : Time;
  tenant_accountID : string
}.

#[export] Instance Tenant_eq_dec : EqDecision Tenant.
Proof. solve_decision. Defined.

Definition tenant_New (id name : string) (now : Time) : res Tenant :=
  let id := TrimSpace id in
  refuse (bool_decide (id = "")) with (NewValidationError "id" "tenant id is required") ;;
  let name := TrimSpace name in
  refuse (bool_decide (name = ""))
    with (NewValidationError "name" "tenant name is required") ;;
  refuse (200 <? len name) with (NewValidationError "name" "tenant name too long") ;;
  Ok {| tenant_id := id; tenant_name := name; tenant_active := true;
        tenant_createdAt := now; tenant_accountID := "" |}.

Definition tenant_Rehydrate (id name : string) (active : bool) (createdAt : Time) : Tenant :=
  {| tenant_id := id; tenant_name := name; tenant_active := active;
     tenant_createdAt := createdAt; tenant_accountID := "" |}.

Definition tenant_RehydrateWithAccount (id name : string) (active : bool)
    (createdAt : Time) (accountID : string) : Tenant :=
  {| tenant_id := id; tenant_name := name; tenant_active := active;
     tenant_createdAt := createdAt; tenant_accountID := TrimSpace accountID |}.

Definition tenant_AssignAccount (t : Tenant) (accountID : string) : res Tenant :=
  let accountID := TrimSpace accountID in
  refuse (bool_decide (accountID = ""))
    with (NewValidationError "account_id" "account id is required") ;;
  refuse (negb (bool_decide (tenant_accountID t = ""))
          && negb (bool_decide (tenant_accountID t = accountID)))
    with (NewValidationError "account_id"
            "tenant account is immutable; re-parenting is not allowed") ;;
  Ok (tenant_RehydrateWithAccount (tenant_id t) (tenant_name t) (tenant_active t)
        (tenant_createdAt t) accountID).

Definition set_tenant (t : Tenant) (name : string) (active : bool) : Tenant :=
  {| tenant_id := tenant_id t; tenant_name := name; tenant_active := active;
     tenant_createdAt := tenant_createdAt t; tenant_accountID := tenant_accountID t |}.

Definition tenant_Rename (t : Tenant) (name : string) : res Tenant :=
  let name := TrimSpace name in
  refuse (bool_decide (name = ""))
    with (NewValidationError "name" "tenant name is required") ;;
  refuse (200 <? len name) with (NewValidationError "name" "tenant name too long") ;;
  Ok (set_tenant t name (tenant_active t)).

Definition tenant_Deactivate (t : Tenant) : Tenant := set_tenant t (tenant_name t) false.
Definition tenant_Activate (t : Tenant) : Tenant := set_tenant t (tenant_name t) true.

(** * internal/domain/account *)
Record Account := {
  account_id : string;
  account_name : string;
  account_active : bool;
  account_createdAt : Time
}.

#[export] Instance Account_eq_dec : EqDecision Account.
Proof. solve_decision. Defined.

Definition account_New (id name : string) (now : Time) : res Account :=
  let id := TrimSpace id in
  refuse (bool_decide (id = "")) with (NewValidationError "id" "account id is required") ;;
  let name := TrimSpace name in
  refuse (bool_decide (name = ""))
    with (NewValidationError "name" "account name is required") ;;
  refuse (200 <? len name) with (NewValidationError "name" "account name too long") ;;
  Ok {| account_id := id; account_name := name; account_active := true;
        account_createdAt := now |}.

Definition account_Rehydrate (id name : string) (active : bool) (createdAt : Time) : Account :=
  {| account_id := id; account_name := name; account_active := active;
     account_createdAt := createdAt |}.

Definition selfAccountPrefix : string := "acct-".

Definition SelfAccountID (tenantID : string) : string :=
  let tenantID := TrimSpace tenantID in
  if bool_decide (tenantID = "") then "" else (selfAccountPrefix ++ tenantID)%string.

Definition IsSelfAccountID (id : string) : bool :=
  HasPrefix (TrimSpace id) selfAccountPrefix.

Definition account_Rename (a : Account) (name : string) : res Account :=
  refuse (IsSelfAccountID (account_id a))
    with (NewValidationError "id" "self-account cannot be renamed directly") ;;
  let name := TrimSpace name in
  refuse (bool_decide (name = ""))
    with (NewValidationError "name" "account name is required") ;;
  refuse (200 <? len name) with (NewValidationError "name" "account name too long") ;;
  Ok (account_Rehydrate (account_id a) name (account_active a) (account_createdAt a)).

Definition account_Deactivate (a : Account) : Account :=
  account_Rehydrate (account_id a) (account_name a) false (account_createdAt a).
Definition account_Activate (a : Account) : Account :=
  account_Rehydrate (account_id a) (account_name a) true (account_createdAt a).

(** * Invariants *)
Definition name_ok (s : string) : Prop := trimmed s /\ s <> "" /\ len s <= 200.
Record Tenant_ok (t : Tenant) : Prop := {
  tenant_ok_id : trimmed (tenant_id t) /\ tenant_id t <> "";
  tenant_ok_name : name_ok (tenant_name t);
  tenant_ok_account : trimmed (tenant_accountID t)
}.

Lemma tenant_New_ok id name now t : tenant_New id name now = Ok t -> Tenant_ok t.
Proof.
  unfold tenant_New. intros H. repeat (case_bool_decide; [done|]).
  case_match eqn:E; simplify_eq. split; simpl; [auto with go| |done].
  repeat split; auto with go. lia.
Qed.

Lemma AssignAccount_inv t acct t' :
  tenant_AssignAccount t acct = Ok t' ->
  TrimSpace acct <> "" /\ (tenant_accountID t = "" \/ tenant_accountID t = TrimSpace acct) /\
  tenant_accountID t' = TrimSpace acct /\
  tenant_id t' = tenant_id t /\ tenant_name t' = tenant_name t /\
  tenant_active t' = tenant_active t /\ tenant_createdAt t' = tenant_createdAt t.
Proof.
  unfold tenant_AssignAccount. intros H. rewrite <- ?bool_decide_not in H.
  repeat (case_bool_decide; simpl in H; try done); simplify_eq/=;
    rewrite TrimSpace_idem; repeat split; auto;
    destruct (decide (tenant_accountID t = "")); auto; right; by apply dec_stable.
Qed.

(** The operations a caller may apply; a refused one changes nothing. *)
Inductive tenant_op :=
| TAssign (acct : string)
| TRename (name : string)
| TDeactivate
| TActivate.

Definition tenant_run (t : Tenant) (o : tenant_op) : Tenant :=
  let keep r := match r with Ok t' => t' | Err _ => t end in
  match o with
  | TAssign a => keep (tenant_AssignAccount t a)
  | TRename n => keep (tenant_Rename t n)
  | TDeactivate => tenant_Deactivate t
  | TActivate => tenant_Activate t
  end.

Lemma tenant_run_spec t o :
  Tenant_ok t ->
  Tenant_ok (tenant_run t o) /\ tenant_id (tenant_run t o) = tenant_id t /\
  (tenant_accountID t <> "" -> tenant_accountID (tenant_run t o) = tenant_accountID t).
Proof.
  intros [Hi Hn Ha]. destruct o as [a|n| |]; simpl; try by (split; [split|]).
  - destruct (tenant_AssignAccount t a) as [t'|] eqn:E; [|by split].
    apply AssignAccount_inv in E as (Hne & Hor & E1 & E2 & E3 & _).
    split; [split|split]; rewrite ?E1, ?E2, ?E3; auto with go.
    intros. destruct Hor; [done|by symmetry].
  - unfold tenant_Rename. case_bool_decide; [by split|].
    destruct (200 <? len (TrimSpace n)) eqn:E; [by split|].
    split; [|done]. split; simpl; auto. repeat split; auto with go. lia.
Qed.

(** Once a tenant is bound to an account, no sequence of assignments,
    renames, suspensions and reactivations re-parents it or changes its id, and its
    invariant (trimmed non-empty id, trimmed name of 1 to 200 bytes) survives. *)
Theorem tenant_binding_immutable t ops (Ht : Tenant_ok t) (Hb : tenant_accountID t <> "") :
  let t' := foldl tenant_run t ops in
  Tenant_ok t' /\ tenant_id t' = tenant_id t /\ tenant_accountID t' = tenant_accountID t.
Proof.
  revert t Ht Hb. induction ops as [|o ops IH]; intros t Ht Hb; [done|]. simpl.
  destruct (tenant_run_spec t o Ht) as (Ho & Ei & Ea). specialize (Ea Hb).
  destruct (IH (tenant_run t o) Ho) as (? & -> & ->); [by rewrite Ea|]. done.
Qed.

Lemma tenant_binding_immutable_witness :
  let t := tenant_RehydrateWithAccount "t1" "Loja" true zeroTime "acct-t1" in
  tenant_accountID (foldl tenant_run t [TAssign "other"; TRename " "; TDeactivate])
  = "acct-t1".
Proof.
  apply (tenant_binding_immutable
           (tenant_RehydrateWithAccount "t1" "Loja" true zeroTime "acct-t1")
           [TAssign "other"; TRename " "; TDeactivate]).
  - by repeat split.
  - done.
Defined.
