(* ===== verification/Mandates.v ===== *)
(** internal/domain/recurrence: the recurring-debit mandate (Rec), its charge
    instances (CobR), their deny-by-default state machines, and the two gates a
    charge must pass before it is originated. *)
From S2P Require Import Prelude GoStrings GoTime Shared.

Notation RecPeriodicidade := string (only parsing).
Notation RecStatus := string (only parsing).
Notation CobRStatus := string (only parsing).

(** * recurrence.go *)
Definition Periodicidade_valid (p : RecPeriodicidade) : bool :=
  bool_decide (p ∈ ["SEMANAL"; "MENSAL"; "TRIMESTRAL"; "SEMESTRAL"; "ANUAL"]).

Definition RecCriada : RecStatus := "CRIADA".
Definition RecAprovada : RecStatus := "APROVADA".
Definition RecRejeitada : RecStatus := "REJEITADA".
Definition RecExpirada : RecStatus := "EXPIRADA".
Definition RecCancelada : RecStatus := "CANCELADA".

Definition RecStatus_valid (s : RecStatus) : bool :=
  bool_decide (s ∈ [RecCriada; RecAprovada; RecRejeitada; RecExpirada; RecCancelada]).

Definition RecStatus_terminal (s : RecStatus) : bool :=
  bool_decide (s ∈ [RecRejeitada; RecExpirada; RecCancelada]).

(** A Go [map[K]map[K]bool] literal; a missing key reads as the zero value. *)
Notation transitions := (gmap string (gmap string bool)).
Definition allowed (m : transitions) (from to : string) : bool :=
  match m !! from with
  | Some row => default false (row !! to)
  | None => false
  end.

Definition recTransitions : transitions :=
  list_to_map
    [(RecCriada, list_to_map [(RecAprovada, true); (RecRejeitada, true);
                              (RecExpirada, true); (RecCancelada, true)]);
     (RecAprovada, list_to_map [(RecCancelada, true); (RecExpirada, true)])].

Record Devedor := { devedor_doc : string; devedor_nome : string }.
Definition zeroDevedor : Devedor := {| devedor_doc := ""; devedor_nome := "" |}.

#[export] Instance Devedor_eq_dec : EqDecision Devedor.
Proof. solve_decision. Defined.

Definition NewDevedor (doc nome : string) : res Devedor :=
  let doc := TrimSpace doc in
  refuse (negb (len doc =? 11) && negb (len doc =? 14))
    with (NewValidationError "devedor_doc" "must be an 11-digit CPF or 14-digit CNPJ") ;;
  refuse (negb (all_digits doc))
    with (NewValidationError "devedor_doc" "must contain only digits") ;;
  let nome := TrimSpace nome in
  refuse (bool_decide (nome = "")) with (NewValidationError "devedor_nome" "is required") ;;
  Ok {| devedor_doc := doc; devedor_nome := nome |}.

Record Rec := {
  rec_idRec : string;
  rec_tenantID : string;
  rec_bankID : string;
  rec_contrato : string;
  rec_devedor : Devedor;
  rec_dataInicial : string;
  rec_periodicidade : RecPeriodicidade;
  rec_valorCents : Z;
  rec_status : RecStatus;
  rec_locID : Z;
  rec_jornadaTxID : string;
  rec_createdAt : Time;
  rec_updatedAt : Time
}.

#[export] Instance Rec_eq_dec : EqDecision Rec.
Proof. solve_decision. Defined.

Record NewRecParams := {
  nrp_IDRec : string;
  nrp_TenantID : string;
  nrp_BankID : string;
  nrp_Contrato : string;
  nrp_Devedor : Devedor;
  nrp_DataInicial : string;
  nrp_Periodicidade : RecPeriodicidade;
  nrp_ValorCents : Z;
  nrp_LocID : Z;
  nrp_JornadaTxID : string
}.

Definition validDate (s : string) : bool := bool_decide (is_Some (parse_ymd s)).

Definition NewRec (p : NewRecParams) (at_ : Time) : res Rec :=
  let idRec := TrimSpace (nrp_IDRec p) in
  refuse (bool_decide (idRec = "")) with (NewValidationError "id_rec" "is required") ;;
  let tenantID := TrimSpace (nrp_TenantID p) in
  refuse (bool_decide (tenantID = "")) with (NewValidationError "tenant_id" "is required") ;;
  let bankID := TrimSpace (nrp_BankID p) in
  refuse (bool_decide (bankID = "")) with (NewValidationError "bank_id" "is required") ;;
  let contrato := TrimSpace (nrp_Contrato p) in
  refuse (bool_decide (contrato = "")) with (NewValidationError "contrato" "is required") ;;
  refuse (bool_decide (nrp_Devedor p = zeroDevedor))
    with (NewValidationError "devedor" "is required") ;;
  refuse (negb (validDate (nrp_DataInicial p)))
    with (NewValidationError "data_inicial" "must be a yyyy-MM-dd date") ;;
  refuse (negb (Periodicidade_valid (nrp_Periodicidade p)))
    with (NewValidationError "periodicidade" "unknown periodicidade") ;;
  refuse (nrp_ValorCents p <? 0)
    with (NewValidationError "valor_cents" "must not be negative") ;;
  Ok {| rec_idRec := idRec;
        rec_tenantID := tenantID;
        rec_bankID := bankID;
        rec_contrato := contrato;
        rec_devedor := nrp_Devedor p;
        rec_dataInicial := nrp_DataInicial p;
        rec_periodicidade := nrp_Periodicidade p;
        rec_valorCents := nrp_ValorCents p;
        rec_status := RecCriada;
        rec_locID := nrp_LocID p;
        rec_jornadaTxID := TrimSpace (nrp_JornadaTxID p);
        rec_createdAt := at_;
        rec_updatedAt := at_ |}.

Definition rec_set (r : Rec) (status : RecStatus) (locID : Z) (jornadaTxID : string)
    (updatedAt : Time) : Rec :=
  {| rec_idRec := rec_idRec r; rec_tenantID := rec_tenantID r; rec_bankID := rec_bankID r;
     rec_contrato := rec_contrato r; rec_devedor := rec_devedor r;
     rec_dataInicial := rec_dataInicial r; rec_periodicidade := rec_periodicidade r;
     rec_valorCents := rec_valorCents r; rec_status := status; rec_locID := locID;
     rec_jornadaTxID := jornadaTxID; rec_createdAt := rec_createdAt r;
     rec_updatedAt := updatedAt |}.

Definition rec_Transition (r : Rec) (to : RecStatus) (at_ : Time) : res Rec :=
  refuse (negb (RecStatus_valid to))
    with (NewValidationError "status" "unknown rec status") ;;
  if bool_decide (to = rec_status r) then Ok r
  else
    refuse (RecStatus_terminal (rec_status r)
            || negb (allowed recTransitions (rec_status r) to))
      with ErrInvalidTransition ;;
    Ok (rec_set r to (rec_locID r) (rec_jornadaTxID r) at_).

Definition RehydrateRecOption : Type := Rec -> Rec.
Definition WithRecJourney (locID : Z) (jornadaTxID : string) : RehydrateRecOption :=
  fun r => rec_set r (rec_status r) locID jornadaTxID (rec_updatedAt r).

Definition RehydrateRec (idRec tenantID bankID contrato : string) (devedor : Devedor)
    (dataInicial : string) (periodicidade : RecPeriodicidade) (valorCents : Z)
    (status : RecStatus) (createdAt updatedAt : Time) (opts : list RehydrateRecOption) : Rec :=
  foldl (fun r o => o r)
    {| rec_idRec := idRec; rec_tenantID := tenantID; rec_bankID := bankID;
       rec_contrato := contrato; rec_devedor := devedor; rec_dataInicial := dataInicial;
       rec_periodicidade := periodicidade; rec_valorCents := valorCents;
       rec_status := status; rec_locID := 0; rec_jornadaTxID := "";
       rec_createdAt := createdAt; rec_updatedAt := updatedAt |} opts.

(** * cobr.go *)
Definition CobRCriada : CobRStatus := "CRIADA".
Definition CobRAtiva : CobRStatus := "ATIVA".
Definition CobRConcluida : CobRStatus := "CONCLUIDA".
Definition CobRExpirada : CobRStatus := "EXPIRADA".
Definition CobRRejeitada : CobRStatus := "REJEITADA".
Definition CobRCancelada : CobRStatus := "CANCELADA".

Definition CobRStatus_valid (s : CobRStatus) : bool :=
  bool_decide (s ∈ [CobRCriada; CobRAtiva; CobRConcluida; CobRExpirada; CobRRejeitada;
                    CobRCancelada]).

Definition CobRStatus_terminal (s : CobRStatus) : bool :=
  bool_decide (s ∈ [CobRConcluida; CobRExpirada; CobRRejeitada; CobRCancelada]).

Definition cobrTransitions : transitions :=
  list_to_map
    [(CobRCriada, list_to_map [(CobRAtiva, true); (CobRConcluida, true);
                               (CobRExpirada, true); (CobRRejeitada, true);
                               (CobRCancelada, true)]);
     (CobRAtiva, list_to_map [(CobRConcluida, true); (CobRExpirada, true);
                              (CobRRejeitada, true); (CobRCancelada, true)])].

Record CobR := {
  cobr_txID : string;
  cobr_idRec : string;
  cobr_tenantID : string;
  cobr_vencimento : string;
  cobr_valorCents : Z;
  cobr_status : CobRStatus;
  cobr_createdAt : Time;
  cobr_updatedAt : Time
}.

#[export] Instance CobR_eq_dec : EqDecision CobR.
Proof. solve_decision. Defined.

Record NewCobRParams := {
  ncp_TxID : string;
  ncp_IDRec : string;
  ncp_TenantID : string;
  ncp_Vencimento : string;
  ncp_ValorCents : Z
}.

Definition RehydrateCobR (txID idRec tenantID vencimento : string) (valorCents : Z)
    (status : CobRStatus) (createdAt updatedAt : Time) : CobR :=
  {| cobr_txID := txID; cobr_idRec := idRec; cobr_tenantID := tenantID;
     cobr_vencimento := vencimento; cobr_valorCents := valorCents; cobr_status := status;
     cobr_createdAt := createdAt; cobr_updatedAt := updatedAt |}.

Definition NewCobR (p : NewCobRParams) (at_ : Time) : res CobR :=
  let txID := TrimSpace (ncp_TxID p) in
  refuse (bool_decide (txID = "")) with (NewValidationError "tx_id" "is required") ;;
  let idRec := TrimSpace (ncp_IDRec p) in
  refuse (bool_decide (idRec = "")) with (NewValidationError "id_rec" "is required") ;;
  let tenantID := TrimSpace (ncp_TenantID p) in
  refuse (bool_decide (tenantID = "")) with (NewValidationError "tenant_id" "is required") ;;
  refuse (negb (validDate (ncp_Vencimento p)))
    with (NewValidationError "vencimento" "must be a yyyy-MM-dd date") ;;
  refuse (ncp_ValorCents p <=? 0)
    with (NewValidationError "valor_cents" "must be greater than zero") ;;
  Ok (RehydrateCobR txID idRec tenantID (ncp_Vencimento p) (ncp_ValorCents p)
        CobRCriada at_ at_).

Definition cobr_Transition (c : CobR) (to : CobRStatus) (at_ : Time) : res CobR :=
  refuse (negb (CobRStatus_valid to))
    with (NewValidationError "status" "unknown cobr status") ;;
  if bool_decide (to = cobr_status c) then Ok c
  else
    refuse (CobRStatus_terminal (cobr_status c)
            || negb (allowed cobrTransitions (cobr_status c) to))
      with ErrInvalidTransition ;;
    Ok (RehydrateCobR (cobr_txID c) (cobr_idRec c) (cobr_tenantID c) (cobr_vencimento c)
          (cobr_valorCents c) to (cobr_createdAt c) at_).

(** * gate.go *)
Definition ErrMandateNotFound : error := New "recurrence: no mandate for charge".
Definition ErrMandateNotApproved : error := New "recurrence: mandate is not APROVADA".
Definition ErrMandateMismatch : error :=
  New "recurrence: mandate does not match charge tenant/idRec".
Definition ErrChargeExceedsMandate : error :=
  New "recurrence: charge exceeds mandate authorized value".

(** The pointer may be nil. *)
Definition RequireApprovedMandate (rec : option Rec) (tenantID idRec : string) : res unit :=
  match rec with
  | None => Err ErrMandateNotFound
  | Some rec =>
      refuse (negb (bool_decide (rec_tenantID rec = tenantID))
              || negb (bool_decide (rec_idRec rec = idRec)))
        with ErrMandateMismatch ;;
      refuse (negb (bool_decide (rec_status rec = RecAprovada)))
        with ErrMandateNotApproved ;;
      Ok tt
  end.

Definition RequireWithinAuthorizedValue (rec : option Rec) (chargeCents : Z) : res unit :=
  match rec with
  | None => Err ErrMandateNotFound
  | Some rec =>
      let authorized := rec_valorCents rec in
      refuse ((0 <? authorized) && (authorized <? chargeCents))
        with ErrChargeExceedsMandate ;;
      Ok tt
  end.

(** * Construction *)
Lemma NewRec_Ok p at_ r :
  NewRec p at_ = Ok r ->
  rec_idRec r = TrimSpace (nrp_IDRec p) /\ rec_idRec r <> "" /\
  rec_tenantID r = TrimSpace (nrp_TenantID p) /\ rec_tenantID r <> "" /\
  rec_status r = RecCriada /\ rec_valorCents r = nrp_ValorCents p /\ 0 <= rec_valorCents r /\
  validDate (rec_dataInicial r) = true /\ rec_devedor r = nrp_Devedor p.
Proof.
  unfold NewRec. cbv zeta. intros HN.
  do 5 (case_bool_decide; [done|]).
  destruct (validDate (nrp_DataInicial p)) eqn:Ed; cbn [negb] in HN; [|done].
  destruct (Periodicidade_valid (nrp_Periodicidade p)); cbn [negb] in HN; [|done].
  destruct (Z.ltb_spec (nrp_ValorCents p) 0); [done|]. by injection HN as <-.
Qed.

Lemma NewCobR_Ok p at_ c :
  NewCobR p at_ = Ok c ->
  cobr_txID c = TrimSpace (ncp_TxID p) /\ cobr_txID c <> "" /\
  cobr_idRec c = TrimSpace (ncp_IDRec p) /\ cobr_tenantID c = TrimSpace (ncp_TenantID p) /\
  cobr_tenantID c <> "" /\ cobr_status c = CobRCriada /\
  cobr_valorCents c = ncp_ValorCents p /\ 0 < cobr_valorCents c /\
  cobr_vencimento c = ncp_Vencimento p /\ validDate (cobr_vencimento c) = true.
Proof.
  unfold NewCobR. cbv zeta. intros HN.
  do 3 (case_bool_decide; [done|]).
  destruct (validDate (ncp_Vencimento p)) eqn:Ed; cbn [negb] in HN; [|done].
  destruct (Z.leb_spec (ncp_ValorCents p) 0); [done|]. by injection HN as <-.
Qed.

(** * The state machines *)

(** The legal moves, as the source documents them. *)
Inductive rec_edge : RecStatus -> RecStatus -> Prop :=
| rec_approve : rec_edge RecCriada RecAprovada
| rec_reject : rec_edge RecCriada RecRejeitada
| rec_lapse : rec_edge RecCriada RecExpirada
| rec_withdraw : rec_edge RecCriada RecCancelada
| rec_revoke : rec_edge RecAprovada RecCancelada
| rec_end : rec_edge RecAprovada RecExpirada.

Inductive cobr_edge : CobRStatus -> CobRStatus -> Prop :=
| cobr_live : cobr_edge CobRCriada CobRAtiva
| cobr_close from to :
    from = CobRCriada \/ from = CobRAtiva ->
    CobRStatus_terminal to = true ->
    cobr_edge from to.

Lemma allowed_literal (l : list (string * list (string * bool))) from to :
  allowed (list_to_map (prod_map id list_to_map <$> l)) from to =
  match List.find (fun p => bool_decide (p.1 = from)) l with
  | Some row => default false (snd <$> List.find (fun p => bool_decide (p.1 = to)) row.2)
  | None => false
  end.
Proof.
  unfold allowed. rewrite lookup_literal.
  assert (E : snd <$> List.find (fun p => bool_decide (p.1 = from))
                (prod_map id (list_to_map (M:=gmap string bool)) <$> l)
              = (fun row => list_to_map row.2) <$>
                  List.find (fun p => bool_decide (p.1 = from)) l).
  { induction l as [|[j v] l IH]; [done|]. simpl. by case_bool_decide. }
  rewrite E. destruct (List.find _ l) as [[j v]|]; [|done]. simpl.
  by rewrite lookup_literal.
Qed.

Lemma rec_allowed from to : allowed recTransitions from to = true <-> rec_edge from to.
Proof.
  change recTransitions with
    (list_to_map (prod_map id list_to_map <$>
       [(RecCriada, [(RecAprovada, true); (RecRejeitada, true);
                     (RecExpirada, true); (RecCancelada, true)]);
        (RecAprovada, [(RecCancelada, true); (RecExpirada, true)])]) : transitions).
  rewrite allowed_literal. simpl. split.
  - intros H. repeat (case_bool_decide; simplify_eq/=); try constructor; done.
  - intros []; reflexivity.
Qed.

Lemma cobr_allowed from to : allowed cobrTransitions from to = true <-> cobr_edge from to.
Proof.
  change cobrTransitions with
    (list_to_map (prod_map id list_to_map <$>
       [(CobRCriada, [(CobRAtiva, true); (CobRConcluida, true); (CobRExpirada, true);
                      (CobRRejeitada, true); (CobRCancelada, true)]);
        (CobRAtiva, [(CobRConcluida, true); (CobRExpirada, true);
                     (CobRRejeitada, true); (CobRCancelada, true)])]) : transitions).
  rewrite allowed_literal. simpl. split.
  - intros H. repeat (case_bool_decide; simplify_eq/=); try done;
      (apply cobr_live || (apply cobr_close; [by auto|reflexivity])).
  - intros [|f t Hf Ht]; [done|]. unfold CobRStatus_terminal in Ht. bools.
    rewrite !elem_of_cons in Ht.
    destruct Hf as [->| ->]; destruct Ht as [->|[->|[->|[->|Ht]]]]; try done;
      by apply elem_of_nil in Ht.
Qed.

(** An aggregate driven by a status machine: a transition either leaves it alone
    or follows one edge, and the edges are well founded by [rank]. *)
Section machine.
Context {X : Type} (status : X -> string) (trans : X -> string -> Time -> res X).
Context (edge : string -> string -> Prop) (rank : string -> nat).
Hypothesis trans_spec : forall x to at_ x', trans x to at_ = Ok x' ->
  x' = x \/ (edge (status x) to /\ status x' = to).
Hypothesis edge_rank : forall a b, edge a b -> (rank b < rank a)%nat.

(** A refused transition leaves the aggregate alone. *)
Definition attempt (x : X) (e : string * Time) : X :=
  match trans x e.1 e.2 with Ok x' => x' | Err _ => x end.

(** The statuses an event sequence drives the aggregate through. *)
Fixpoint history (x : X) (es : list (string * Time)) : list string :=
  match es with
  | [] => []
  | e :: r =>
      let x' := attempt x e in
      if bool_decide (status x' = status x) then history x' r
      else status x' :: history x' r
  end.

Fixpoint path (a : string) (l : list string) : Prop :=
  match l with [] => True | b :: r => edge a b /\ path b r end.

Lemma path_length a l : path a l -> (List.length l <= rank a)%nat.
Proof.
  revert a. induction l as [|b r IH]; intros a H; simpl in *; [lia|].
  destruct H as [He Hp]. apply edge_rank in He. apply IH in Hp. lia.
Qed.

Lemma attempt_spec x e :
  attempt x e = x \/ (edge (status x) (status (attempt x e))).
Proof.
  unfold attempt. destruct (trans x e.1 e.2) as [x'|] eqn:E; [|by left].
  apply trans_spec in E as [->|[He ->]]; auto.
Qed.

Lemma history_path x es : path (status x) (history x es).
Proof.
  revert x. induction es as [|e es IH]; intros x; [done|]. simpl.
  case_bool_decide as E; [rewrite <- E; apply IH|].
  split; [|apply IH]. destruct (attempt_spec x e) as [Ea|]; [|done].
  by rewrite Ea in E.
Qed.

Lemma history_last x es :
  status (foldl attempt x es) = default (status x) (last (history x es)).
Proof.
  revert x. induction es as [|e es IH]; intros x; [done|]. simpl. rewrite IH.
  case_bool_decide as E; [by rewrite E|].
  rewrite last_cons. by destruct (last _).
Qed.

Lemma stuck x es : (forall b, ~ edge (status x) b) -> foldl attempt x es = x.
Proof.
  intros H. induction es as [|e es IH]; [done|]. simpl.
  destruct (attempt_spec x e) as [->|He]; [done|by apply H in He].
Qed.

Lemma frozen_by {B} (f : X -> B) x es :
  (forall y to at_ y', trans y to at_ = Ok y' -> f y' = f y) ->
  f (foldl attempt x es) = f x.
Proof.
  intros Hf. revert x. induction es as [|e es IH]; intros x; [done|]. simpl.
  rewrite IH. unfold attempt. destruct (trans x e.1 e.2) eqn:E; eauto.
Qed.
End machine.

(** The registration facts of a mandate: all fields but status and updatedAt. *)
Definition rec_facts (r : Rec) :=
  (rec_idRec r, rec_tenantID r, rec_bankID r, rec_contrato r, rec_devedor r,
   rec_dataInicial r, rec_periodicidade r, rec_valorCents r, rec_locID r,
   rec_jornadaTxID r, rec_createdAt r).
Definition cobr_facts (c : CobR) :=
  (cobr_txID c, cobr_idRec c, cobr_tenantID c, cobr_vencimento c, cobr_valorCents c,
   cobr_createdAt c).

Definition rec_rank (s : RecStatus) : nat :=
  if bool_decide (s = RecCriada) then 2%nat else if bool_decide (s = RecAprovada) then 1%nat
  else 0%nat.
Definition cobr_rank (s : CobRStatus) : nat :=
  if bool_decide (s = CobRCriada) then 2%nat else if bool_decide (s = CobRAtiva) then 1%nat
  else 0%nat.

Lemma rec_edge_valid a b : rec_edge a b -> RecStatus_valid b = true /\ a <> b.
Proof. intros []; split; (reflexivity || done). Qed.
Lemma rec_edge_rank a b : rec_edge a b -> (rec_rank b < rec_rank a)%nat.
Proof. intros []; vm_compute; lia. Qed.
Lemma cobr_edge_rank a b : cobr_edge a b -> (cobr_rank b < cobr_rank a)%nat.
Proof.
  intros [|f t Hf Ht]; [vm_compute; lia|]. unfold CobRStatus_terminal in Ht. bools.
  rewrite !elem_of_cons in Ht.
  destruct Ht as [->|[->|[->|[->|Ht]]]]; [..|by apply elem_of_nil in Ht];
    destruct Hf as [->| ->]; vm_compute; lia.
Qed.

Lemma rec_Transition_inv r to at_ r' :
  rec_Transition r to at_ = Ok r' ->
  (r' = r /\ to = rec_status r) \/
  (rec_edge (rec_status r) to /\ r' = rec_set r to (rec_locID r) (rec_jornadaTxID r) at_).
Proof.
  unfold rec_Transition. intros H. destruct (RecStatus_valid to); [simpl in H|done].
  case_bool_decide; [simplify_eq; by left|].
  destruct (RecStatus_terminal _); [done|]. simpl in H.
  destruct (allowed recTransitions (rec_status r) to) eqn:E; [|done].
  simplify_eq/=. right. split; [by apply rec_allowed|done].
Qed.

Lemma rec_Transition_edge r to at_ :
  rec_edge (rec_status r) to ->
  rec_Transition r to at_ = Ok (rec_set r to (rec_locID r) (rec_jornadaTxID r) at_).
Proof.
  intros H. unfold rec_Transition.
  destruct (rec_edge_valid _ _ H) as [-> Hne]. simpl.
  rewrite bool_decide_false by congruence.
  rewrite (proj2 (rec_allowed _ _) H).
  by replace (RecStatus_terminal (rec_status r)) with false
    by (inversion H; reflexivity).
Qed.

(** [Rec.Transition] implements the documented mandate machine exactly: it
    succeeds precisely on a known status that is the current one (and then changes
    nothing, not even updatedAt) or one legal move away (and then changes only the
    status and updatedAt); otherwise an unknown status is a validation error and
    anything else ErrInvalidTransition. *)
Theorem rec_Transition_exact r to at_ :
  (forall r', rec_Transition r to at_ = Ok r' <->
     (to = rec_status r /\ RecStatus_valid to = true /\ r' = r) \/
     (rec_edge (rec_status r) to /\
      r' = rec_set r to (rec_locID r) (rec_jornadaTxID r) at_)) /\
  (forall e, rec_Transition r to at_ = Err e <->
     (RecStatus_valid to = false /\ e = Validation "status" "unknown rec status") \/
     (RecStatus_valid to = true /\ to <> rec_status r /\ ~ rec_edge (rec_status r) to /\
      e = ErrInvalidTransition)).
Proof.
  assert (Ha : forall b, RecStatus_terminal (rec_status r) || negb (allowed recTransitions
             (rec_status r) to) = b -> b = negb (allowed recTransitions (rec_status r) to)).
  { intros b <-. destruct (allowed _ _ _) eqn:E; [|by rewrite orb_true_r].
    apply rec_allowed in E. by inversion E. }
  pose proof (rec_allowed (rec_status r) to) as Hr.
  pose proof (rec_edge_valid (rec_status r) to) as Hv.
  unfold rec_Transition. rewrite (Ha _ eq_refl).
  destruct (RecStatus_valid to); simpl; [|naive_solver].
  case_bool_decide; [naive_solver|].
  destruct (allowed _ _ _); simpl; naive_solver.
Qed.

(** Whatever events arrive (replayed, out of order, for unknown statuses), a
    mandate walks a path of legal moves, at most two of them from CRIADA, ends in the
    last status of that path, keeps every registration fact, and is immutable once
    its status is terminal. *)
Theorem rec_lifecycle (r : Rec) (events : list (RecStatus * Time)) :
  let r' := foldl (attempt rec_Transition) r events in
  let h := history rec_status rec_Transition r events in
  path rec_edge (rec_status r) h /\ (List.length h <= rec_rank (rec_status r))%nat /\
  rec_status r' = default (rec_status r) (last h) /\ rec_facts r' = rec_facts r /\
  (RecStatus_terminal (rec_status r) = true -> r' = r).
Proof.
  assert (Hs : forall x to at_ x', rec_Transition x to at_ = Ok x' ->
             x' = x \/ (rec_edge (rec_status x) to /\ rec_status x' = to)).
  { intros x to at_ x' H. apply rec_Transition_inv in H as [[-> _]|[? ->]]; auto. }
  pose proof (history_path rec_status rec_Transition rec_edge Hs r events) as Hp.
  repeat split; [done|by eapply path_length; [apply rec_edge_rank|]|..].
  - apply history_last.
  - apply frozen_by. intros y to at_ y' H.
    by apply rec_Transition_inv in H as [[-> _]|[_ ->]].
  - intros Ht. apply (stuck rec_status _ rec_edge Hs). intros b Hb. by inversion Hb as [E|E|E|E|E|E];
      rewrite <- E in Ht.
Qed.

Lemma cobr_Transition_inv c to at_ c' :
  cobr_Transition c to at_ = Ok c' ->
  (c' = c /\ to = cobr_status c) \/
  (cobr_edge (cobr_status c) to /\
   c' = RehydrateCobR (cobr_txID c) (cobr_idRec c) (cobr_tenantID c) (cobr_vencimento c)
          (cobr_valorCents c) to (cobr_createdAt c) at_).
Proof.
  unfold cobr_Transition. intros H. destruct (CobRStatus_valid to); [simpl in H|done].
  case_bool_decide; [simplify_eq; by left|].
  destruct (CobRStatus_terminal _); [done|]. simpl in H.
  destruct (allowed cobrTransitions (cobr_status c) to) eqn:E; [|done].
  simplify_eq/=. right. split; [by apply cobr_allowed|done].
Qed.

(** The same for a charge instance: no event sequence moves it off a path of
    legal moves (at most two), no settled, expired, rejected or cancelled instance
    ever changes again, and the txid, mandate, tenant, due date and amount it was
    registered with never change. *)
Theorem cobr_lifecycle (c : CobR) (events : list (CobRStatus * Time)) :
  let c' := foldl (attempt cobr_Transition) c events in
  let h := history cobr_status cobr_Transition c events in
  path cobr_edge (cobr_status c) h /\ (List.length h <= cobr_rank (cobr_status c))%nat /\
  cobr_status c' = default (cobr_status c) (last h) /\ cobr_facts c' = cobr_facts c /\
  (CobRStatus_terminal (cobr_status c) = true -> c' = c).
Proof.
  assert (Hs : forall x to at_ x', cobr_Transition x to at_ = Ok x' ->
             x' = x \/ (cobr_edge (cobr_status x) to /\ cobr_status x' = to)).
  { intros x to at_ x' H. apply cobr_Transition_inv in H as [[-> _]|[? ->]]; auto. }
  pose proof (history_path cobr_status cobr_Transition cobr_edge Hs c events) as Hp.
  repeat split; [done|by eapply path_length; [apply cobr_edge_rank|]|..].
  - apply history_last.
  - apply frozen_by. intros y to at_ y' H.
    by apply cobr_Transition_inv in H as [[-> _]|[_ ->]].
  - intros Ht. apply (stuck cobr_status _ cobr_edge Hs). intros b Hb.
    inversion Hb as [E|f t Hf]; subst; [by rewrite <- E in Ht|].
    by destruct Hf as [Hf|Hf]; rewrite Hf in Ht.
Qed.

(** * Gates *)
Lemma RequireApprovedMandate_Ok rec tenant idRec :
  RequireApprovedMandate rec tenant idRec = Ok tt <->
  exists r, rec = Some r /\ rec_tenantID r = tenant /\ rec_idRec r = idRec /\
            rec_status r = RecAprovada.
Proof.
  destruct rec as [r|]; simpl; [|split; [done|by intros (?&?&_)]].
  repeat (case_bool_decide; simpl); split; intros; destruct_and?; eauto;
    try done; naive_solver.
Qed.

Lemma RequireWithinAuthorizedValue_Ok rec amount :
  RequireWithinAuthorizedValue rec amount = Ok tt <->
  exists r, rec = Some r /\ (0 < rec_valorCents r -> amount <= rec_valorCents r).
Proof.
  destruct rec as [r|]; simpl; [|split; [done|by intros (?&?&_)]].
  destruct (Z.ltb_spec 0 (rec_valorCents r)), (Z.ltb_spec (rec_valorCents r) amount);
    simpl; split; intros; try done; [|eexists; split; [done|lia]..].
  destruct_and?. naive_solver lia.
Qed.
