(* ===== verification/Boletos.v ===== *)
(** internal/domain/boleto: the registered bank slip, its discount schedule and
    the amount owed at a payment instant, in wrapping int64 arithmetic. *)
From S2P Require Import Prelude GoStrings GoTime Shared.

Definition MaxFineBps : Z := 200.
Definition MaxMonthlyInterestBps : Z := 100.
Definition bpsDenominator : Z := 10000.
Definition daysPerMonth : Z := 30.

Definition roundDiv (num den : Z) : Z :=
  if den =? 0 then 0 else div64 (add64 num (div64 den 2)) den.

Definition startOfDay (t : Time) : Time := startOfDay_of t.

Record DiscountTier := {
  tier_DaysBeforeDue : Z;
  tier_Bps : Z;
  tier_FixedCents : Z
}.

Definition tier_cents (d : DiscountTier) (principalCents : Z) : Z :=
  if 0 <? tier_FixedCents d then tier_FixedCents d
  else roundDiv (mul64 principalCents (tier_Bps d)) bpsDenominator.

Record Boleto := {
  boleto_id : string;
  boleto_tenantID : string;
  boleto_principal : Money;
  boleto_dueDate : Time;
  boleto_fineBps : Z;
  boleto_fineFixedCents : Z;
  boleto_monthlyInterestBps : Z;
  boleto_validUntil : Time;
  boleto_discounts : list DiscountTier
}.

Definition boleto_New (id tenantID : string) (principal : Money) (dueDate : Time)
    (fineBps monthlyInterestBps : Z) : res Boleto :=
  let id := TrimSpace id in
  refuse (bool_decide (id = "")) with (NewValidationError "id" "boleto id is required") ;;
  let tenantID := TrimSpace tenantID in
  refuse (bool_decide (tenantID = ""))
    with (NewValidationError "tenant_id" "tenant id is required") ;;
  refuse (Money_IsZero principal)
    with (NewValidationError "principal" "principal amount is required") ;;
  refuse (IsZero dueDate) with (NewValidationError "due_date" "due date is required") ;;
  refuse ((fineBps <? 0) || (MaxFineBps <? fineBps))
    with (NewValidationError "fine_bps"
            "fine must be between 0 and 200 basis points (0–2%)") ;;
  refuse ((monthlyInterestBps <? 0) || (MaxMonthlyInterestBps <? monthlyInterestBps))
    with (NewValidationError "monthly_interest_bps"
            "monthly interest must be between 0 and 100 basis points (0–1%)") ;;
  Ok {| boleto_id := id;
        boleto_tenantID := tenantID;
        boleto_principal := principal;
        boleto_dueDate := dueDate;
        boleto_fineBps := fineBps;
        boleto_fineFixedCents := 0;
        boleto_monthlyInterestBps := monthlyInterestBps;
        boleto_validUntil := zeroTime;
        boleto_discounts := [] |}.

Definition boleto_set (b : Boleto) (fineFixedCents : Z) (validUntil : Time)
    (discounts : list DiscountTier) : Boleto :=
  {| boleto_id := boleto_id b; boleto_tenantID := boleto_tenantID b;
     boleto_principal := boleto_principal b; boleto_dueDate := boleto_dueDate b;
     boleto_fineBps := boleto_fineBps b; boleto_fineFixedCents := fineFixedCents;
     boleto_monthlyInterestBps := boleto_monthlyInterestBps b;
     boleto_validUntil := validUntil; boleto_discounts := discounts |}.

(** The loop of [WithDiscounts]: [first] is [i == 0], [prevDays] and [prevCents]
    the loop variables, the result the slice [out]. *)
Fixpoint check_tiers (principal : Z) (first : bool) (prevDays prevCents : Z)
    (tiers : list DiscountTier) : res (list DiscountTier) :=
  match tiers with
  | [] => Ok []
  | d :: rest =>
      refuse (tier_DaysBeforeDue d <? 0)
        with (NewValidationError "discount.days_before_due"
                "days before due must not be negative") ;;
      refuse (Bool.eqb (0 <? tier_Bps d) (0 <? tier_FixedCents d))
        with (NewValidationError "discount"
                "each tier must set exactly one of bps or fixed_cents") ;;
      refuse ((tier_Bps d <? 0) || (tier_FixedCents d <? 0))
        with (NewValidationError "discount" "discount values must not be negative") ;;
      refuse (bpsDenominator <? tier_Bps d)
        with (NewValidationError "discount.bps" "discount must not exceed 100%") ;;
      let c := tier_cents d principal in
      refuse ((c <=? 0) || (principal <=? c))
        with (NewValidationError "discount"
                "discount must be positive and strictly less than the principal") ;;
      refuse (negb first && (prevDays <=? tier_DaysBeforeDue d))
        with (NewValidationError "discount.days_before_due"
                "tiers must be ordered strictly descending by days before due") ;;
      refuse (negb first && (prevCents <=? c))
        with (NewValidationError "discount"
                "fewer days early must earn a strictly smaller discount") ;;
      let? out := check_tiers principal false (tier_DaysBeforeDue d) c rest in
      Ok (d :: out)
  end.

Definition boleto_WithDiscounts (b : Boleto) (tiers : list DiscountTier) : res Boleto :=
  if (List.length tiers =? 0)%nat then Ok b
  else
    let principal := cents (boleto_principal b) in
    let? out := check_tiers principal true maxInt64 (add64 principal 1) tiers in
    Ok (boleto_set b (boleto_fineFixedCents b) (boleto_validUntil b) out).

Definition boleto_WithFixedFine (b : Boleto) (fixed_ : Z) : res Boleto :=
  refuse (0 <? boleto_fineBps b)
    with (NewValidationError "fine_fixed_cents"
            "a boleto cannot carry both a percentage and a fixed fine") ;;
  refuse (fixed_ <=? 0)
    with (NewValidationError "fine_fixed_cents" "fixed fine must be positive") ;;
  let maxFixed := roundDiv (mul64 (cents (boleto_principal b)) MaxFineBps) bpsDenominator in
  refuse (maxFixed <? fixed_)
    with (NewValidationError "fine_fixed_cents"
            "fixed fine must not exceed 2% of the principal") ;;
  Ok (boleto_set b fixed_ (boleto_validUntil b) (boleto_discounts b)).

Definition boleto_WithValidUntil (b : Boleto) (t : Time) : res Boleto :=
  refuse (IsZero t) with (NewValidationError "valid_until" "valid until is required") ;;
  refuse (Before (startOfDay t) (startOfDay (boleto_dueDate b)))
    with (NewValidationError "valid_until"
            "valid until must not be before the due date") ;;
  Ok (boleto_set b (boleto_fineFixedCents b) t (boleto_discounts b)).

Definition boleto_DaysLate (b : Boleto) (at_ : Time) : Z :=
  let diff := Sub (startOfDay at_) (startOfDay (boleto_dueDate b)) in
  let days := div64 diff day_ns in
  if days <? 0 then 0 else days.

Definition boleto_FineCents (b : Boleto) (at_ : Time) : Z :=
  if boleto_DaysLate b at_ =? 0 then 0
  else if 0 <? boleto_fineFixedCents b then boleto_fineFixedCents b
  else roundDiv (mul64 (cents (boleto_principal b)) (boleto_fineBps b)) bpsDenominator.

Definition boleto_InterestCents (b : Boleto) (at_ : Time) : Z :=
  let days := boleto_DaysLate b at_ in
  if days =? 0 then 0
  else roundDiv (mul64 (mul64 (cents (boleto_principal b)) (boleto_monthlyInterestBps b)) days)
         (bpsDenominator * daysPerMonth).

Definition boleto_DaysEarly (b : Boleto) (at_ : Time) : Z :=
  let diff := Sub (startOfDay (boleto_dueDate b)) (startOfDay at_) in
  let days := div64 diff day_ns in
  if days <? 0 then 0 else days.

(** The first tier the payer qualifies for. *)
Fixpoint first_tier (early principal : Z) (tiers : list DiscountTier) : Z :=
  match tiers with
  | [] => 0
  | d :: rest =>
      if tier_DaysBeforeDue d <=? early then tier_cents d principal
      else first_tier early principal rest
  end.

Definition boleto_DiscountCents (b : Boleto) (at_ : Time) : Z :=
  if (List.length (boleto_discounts b) =? 0)%nat || (0 <? boleto_DaysLate b at_) then 0
  else
    let early := boleto_DaysEarly b at_ in
    first_tier early (cents (boleto_principal b)) (boleto_discounts b).

Definition boleto_AmountDueCents (b : Boleto) (at_ : Time) : Z :=
  sub64 (add64 (add64 (cents (boleto_principal b)) (boleto_FineCents b at_))
           (boleto_InterestCents b at_))
        (boleto_DiscountCents b at_).

Definition boleto_AmountDue (b : Boleto) (at_ : Time) : Money :=
  match NewMoney (boleto_AmountDueCents b at_) (currency (boleto_principal b)) with
  | Err _ => boleto_principal b
  | Ok m => m
  end.

(** * Rounded division *)
Lemma roundDiv_exact num den :
  0 <= num -> 0 < den -> num + den <= maxInt64 ->
  roundDiv num den = (num + den / 2) / den.
Proof.
  intros. assert (0 <= den / 2 <= den) by (split; [apply Z.div_pos; lia|apply Z.div_le_upper_bound; lia]).
  unfold roundDiv. destruct (Z.eqb_spec den 0); [lia|].
  rewrite (div64_nonneg den 2), add64_id, div64_nonneg; try done;
    unfold in64, minInt64, maxInt64 in *; lia.
Qed.

(** * The schedule of discounts *)
Definition tier_value (principal : Z) (d : DiscountTier) : Z :=
  if 0 <? tier_FixedCents d then tier_FixedCents d
  else (principal * tier_Bps d + 5000) / 10000.

Definition tier_ok (principal : Z) (d : DiscountTier) : Prop :=
  0 <= tier_DaysBeforeDue d /\ 0 <= tier_Bps d <= bpsDenominator /\
  0 <= tier_FixedCents d /\ (0 < tier_Bps d <-> tier_FixedCents d = 0) /\
  0 < tier_cents d principal < principal.
Definition tier_gt (principal : Z) (d e : DiscountTier) : Prop :=
  tier_DaysBeforeDue e < tier_DaysBeforeDue d /\
  tier_cents e principal < tier_cents d principal.
Definition schedule (principal : Z) (tiers : list DiscountTier) : Prop :=
  Forall (tier_ok principal) tiers /\ StronglySorted (tier_gt principal) tiers.

Lemma check_tiers_Ok principal first prevDays prevCents tiers out :
  check_tiers principal first prevDays prevCents tiers = Ok out ->
  out = tiers /\ schedule principal tiers /\
  (first = false -> Forall (fun d => tier_DaysBeforeDue d < prevDays /\
                                     tier_cents d principal < prevCents) tiers).
Proof.
  revert first prevDays prevCents out.
  induction tiers as [|d l IH]; simpl; intros first prevDays prevCents out H.
  { simplify_eq. repeat constructor. }
  destruct (Z.ltb_spec (tier_DaysBeforeDue d) 0); [done|].
  destruct (Bool.eqb _ _) eqn:E2; [done|].
  destruct (_ || _) eqn:E3 in H; [done|]. bools.
  destruct (Z.ltb_spec bpsDenominator (tier_Bps d)); [done|].
  destruct (_ || _) eqn:E4 in H; [done|]. bools.
  destruct (negb first && _) eqn:E5 in H; [done|].
  destruct (negb first && _) eqn:E6 in H; [done|].
  destruct (check_tiers _ _ _ _ l) as [out'|] eqn:El; [|done]. simplify_eq.
  apply IH in El as (-> & [Hall Hs] & Hprev). specialize (Hprev eq_refl).
  split; [done|split; [split; constructor|]].
  - unfold tier_ok. apply eqb_false_iff in E2.
    destruct (Z.ltb_spec 0 (tier_Bps d)), (Z.ltb_spec 0 (tier_FixedCents d)); try done; lia.
  - done.
  - done.
  - eapply Forall_impl; [exact Hprev|]. unfold tier_gt. simpl. intros x [? ?]. lia.
  - intros ->. constructor; simpl in *; [lia|].
    eapply Forall_impl; [exact Hprev|]. simpl. intros x [? ?]. lia.
Qed.

(** The most generous of the tiers a payer [early] days early qualifies for. *)
Definition best_tier (f : DiscountTier -> Z) (early : Z) (tiers : list DiscountTier) : Z :=
  foldr Z.max 0 (f <$> filter (fun d => tier_DaysBeforeDue d <= early) tiers).

Lemma best_tier_nonneg f early tiers : 0 <= best_tier f early tiers.
Proof.
  unfold best_tier. induction (f <$> _) as [|x l IH]; simpl; lia.
Qed.

Lemma best_tier_upper f early tiers m :
  0 <= m -> Forall (fun d => f d <= m) tiers -> best_tier f early tiers <= m.
Proof.
  intros Hm. unfold best_tier. induction 1 as [|d l Hd Hl IH]; simpl; [lia|].
  rewrite filter_cons. case_decide; csimpl; lia.
Qed.

Lemma best_tier_mono f e1 e2 tiers :
  e1 <= e2 -> best_tier f e1 tiers <= best_tier f e2 tiers.
Proof.
  intros He. unfold best_tier. induction tiers as [|d l IH]; [done|].
  rewrite !filter_cons. repeat case_decide; csimpl; lia.
Qed.

Lemma first_tier_best principal early tiers :
  schedule principal tiers ->
  first_tier early principal tiers = best_tier (fun d => tier_cents d principal) early tiers.
Proof.
  intros [Hall Hs]. induction Hs as [|d l Hs IH Hd]; [done|].
  apply Forall_cons in Hall as [Hok Hall]. simpl. unfold best_tier.
  rewrite filter_cons. destruct (Z.leb_spec (tier_DaysBeforeDue d) early) as [Hle|Hgt].
  - rewrite decide_True by done. csimpl.
    pose proof (best_tier_upper (fun d => tier_cents d principal) early l
                  (tier_cents d principal)) as Hb.
    unfold best_tier in Hb. rewrite Z.max_l; [done|]. apply Hb.
    + unfold tier_ok in Hok. lia.
    + eapply Forall_impl; [exact Hd|]. unfold tier_gt. simpl. lia.
  - rewrite decide_False by lia. by apply IH.
Qed.

(** * The invariant of a constructed boleto *)
Record Boleto_ok (b : Boleto) : Prop := {
  bok_principal : Money_ok (boleto_principal b);
  bok_fine : 0 <= boleto_fineBps b <= MaxFineBps;
  bok_interest : 0 <= boleto_monthlyInterestBps b <= MaxMonthlyInterestBps;
  bok_fixed : 0 <= boleto_fineFixedCents b <= cents (boleto_principal b);
  bok_one_fine : 0 < boleto_fineFixedCents b -> boleto_fineBps b = 0;
  bok_schedule : schedule (cents (boleto_principal b)) (boleto_discounts b)
}.

(** No product of the amount computation leaves int64 when the payment is made
    at [at_]: 2^62 cents times basis points leave room for every sum. *)
Definition fits (b : Boleto) (at_ : Time) : Prop :=
  cents (boleto_principal b) * (10000 + 100 * boleto_DaysLate b at_) <= 2 ^ 62.
Definition small (b : Boleto) : Prop := cents (boleto_principal b) * 10000 <= 2 ^ 62.

Lemma boleto_New_ok id tenant m due f i b :
  Money_ok m -> boleto_New id tenant m due f i = Ok b -> Boleto_ok b.
Proof.
  unfold boleto_New. intros [Hm Hc] H. repeat (case_bool_decide; [done|]).
  destruct (Money_IsZero m); [done|]. destruct (IsZero due); [done|].
  destruct (_ || _) eqn:E1 in H; [done|]. destruct (_ || _) eqn:E2 in H; [done|]. bools.
  unfold MaxFineBps, MaxMonthlyInterestBps in *.
  simplify_eq. split; simpl; unfold MaxFineBps, MaxMonthlyInterestBps; try lia;
    [by split|repeat constructor].
Qed.

Lemma WithDiscounts_ok b tiers b' :
  Boleto_ok b -> boleto_WithDiscounts b tiers = Ok b' -> Boleto_ok b'.
Proof.
  unfold boleto_WithDiscounts. intros Hb H. destruct (_ =? _)%nat; [by simplify_eq|].
  destruct (check_tiers _ _ _ _ _) as [out|] eqn:E; [|done]. simplify_eq.
  apply check_tiers_Ok in E as (-> & ? & _). destruct Hb. by split.
Qed.

Lemma fine_cap_le P : 0 < P -> P * 10000 <= 2 ^ 62 ->
  roundDiv (mul64 P MaxFineBps) bpsDenominator <= P.
Proof.
  unfold MaxFineBps, bpsDenominator. intros.
  rewrite mul64_id, roundDiv_exact by (unfold in64, minInt64, maxInt64; lia).
  change (10000 / 2) with 5000. apply Z.div_le_upper_bound; lia.
Qed.

Lemma WithFixedFine_ok b c b' :
  Boleto_ok b -> small b -> boleto_WithFixedFine b c = Ok b' -> Boleto_ok b'.
Proof.
  unfold boleto_WithFixedFine, small. intros Hb Hs H.
  destruct (Z.ltb_spec 0 (boleto_fineBps b)); [done|].
  destruct (Z.leb_spec c 0); [done|].
  destruct (Z.ltb_spec (roundDiv (mul64 (cents (boleto_principal b)) MaxFineBps) bpsDenominator) c);
    [done|]. simplify_eq.
  pose proof (fine_cap_le (cents (boleto_principal b))).
  destruct Hb as [[] ? ? ? ? ?]. split; simpl; try done; lia.
Qed.

Lemma WithValidUntil_ok b t b' :
  Boleto_ok b -> boleto_WithValidUntil b t = Ok b' -> Boleto_ok b'.
Proof.
  unfold boleto_WithValidUntil. intros Hb H. destruct (IsZero t); [done|].
  destruct (Before _ _); [done|]. simplify_eq. destruct Hb. by split.
Qed.

(** * The amount owed *)

(** The reference: exact integer arithmetic over the rules of the source. *)
Definition owed (b : Boleto) (late early : Z) : Z :=
  let P := cents (boleto_principal b) in
  if late =? 0 then P - best_tier (tier_value P) early (boleto_discounts b)
  else P + (if 0 <? boleto_fineFixedCents b then boleto_fineFixedCents b
            else (P * boleto_fineBps b + 5000) / 10000)
       + (P * boleto_monthlyInterestBps b * late + 150000) / 300000.

Lemma DaysLate_eq b at_ : boleto_DaysLate b at_ = days_after at_ (boleto_dueDate b).
Proof. apply days_after_code. Qed.
Lemma DaysEarly_eq b at_ : boleto_DaysEarly b at_ = days_after (boleto_dueDate b) at_.
Proof. apply days_after_code. Qed.

Lemma tier_cents_value P d :
  0 < P -> P * 10000 <= 2 ^ 62 -> tier_ok P d -> tier_cents d P = tier_value P d.
Proof.
  unfold tier_ok, tier_cents, tier_value, bpsDenominator. intros HP Hs (? & ? & ? & ? & ?).
  destruct (Z.ltb_spec 0 (tier_FixedCents d)); [done|].
  rewrite mul64_id by (unfold in64, minInt64, maxInt64; nia).
  rewrite roundDiv_exact by (unfold maxInt64; nia). done.
Qed.

Lemma best_tier_value P early tiers :
  0 < P -> P * 10000 <= 2 ^ 62 -> Forall (tier_ok P) tiers ->
  best_tier (fun d => tier_cents d P) early tiers = best_tier (tier_value P) early tiers.
Proof.
  intros HP Hs. unfold best_tier. induction 1 as [|d l Hd Hl IH]; [done|].
  rewrite filter_cons. case_decide; [|done]. csimpl.
  by rewrite IH, tier_cents_value.
Qed.

Lemma best_tier_lt P early tiers :
  0 < P -> P * 10000 <= 2 ^ 62 -> Forall (tier_ok P) tiers ->
  best_tier (tier_value P) early tiers < P.
Proof.
  intros HP Hs Hall. apply Z.lt_le_pred, best_tier_upper; [lia|].
  eapply Forall_impl; [exact Hall|]. intros d Hd.
  rewrite <- tier_cents_value by done. unfold tier_ok in Hd. lia.
Qed.

Lemma fine_interest_bounds b late :
  Boleto_ok b -> 0 < late -> cents (boleto_principal b) * (10000 + 100 * late) <= 2 ^ 62 ->
  cents (boleto_principal b) <= owed b late 0 <= 2 ^ 62.
Proof.
  intros [[HP _] Hf Hi Hx H1 _] Hl Hfit. unfold MaxFineBps, MaxMonthlyInterestBps in *.
  unfold owed. destruct (Z.eqb_spec late 0); [lia|].
  set (P := cents (boleto_principal b)) in *.
  assert (0 <= (P * boleto_monthlyInterestBps b * late + 150000) / 300000 <= P * late).
  { split; [apply Z.div_pos; nia|apply Z.div_le_upper_bound; nia]. }
  assert (0 <= (P * boleto_fineBps b + 5000) / 10000 <= P).
  { split; [apply Z.div_pos; nia|apply Z.div_le_upper_bound; nia]. }
  destruct (Z.ltb_spec 0 (boleto_fineFixedCents b)); nia.
Qed.

Lemma total_exact P f i d :
  0 <= P -> 0 <= f -> 0 <= i -> 0 <= d -> P + f + i <= maxInt64 -> d <= maxInt64 ->
  sub64 (add64 (add64 P f) i) d = P + f + i - d.
Proof.
  intros. rewrite (add64_id P f), (add64_id (P + f) i), sub64_id; [done|..];
    unfold in64, minInt64, maxInt64 in *; lia.
Qed.

Lemma DiscountCents_best b at_ :
  Boleto_ok b -> small b -> boleto_DaysLate b at_ = 0 ->
  boleto_DiscountCents b at_ =
  best_tier (tier_value (cents (boleto_principal b))) (boleto_DaysEarly b at_)
    (boleto_discounts b).
Proof.
  intros [[HP _] _ _ _ _ Hs] Hsm E. unfold boleto_DiscountCents. rewrite E.
  destruct (boleto_discounts b) as [|d l] eqn:Ed; [done|].
  cbn [List.length Nat.eqb orb Z.ltb]. rewrite first_tier_best by done.
  destruct Hs. by apply best_tier_value.
Qed.

Lemma FineCents_exact b at_ :
  Boleto_ok b -> small b -> boleto_DaysLate b at_ <> 0 ->
  boleto_FineCents b at_ =
  if 0 <? boleto_fineFixedCents b then boleto_fineFixedCents b
  else (cents (boleto_principal b) * boleto_fineBps b + 5000) / 10000.
Proof.
  unfold small. intros [[HP _] Hf _ _ _ _] Hsm E. unfold boleto_FineCents, MaxFineBps in *.
  destruct (Z.eqb_spec (boleto_DaysLate b at_) 0); [done|]. case_match; [done|].
  unfold bpsDenominator. rewrite mul64_id by (unfold in64, minInt64, maxInt64; nia).
  rewrite roundDiv_exact by (unfold maxInt64; nia). done.
Qed.

Lemma InterestCents_exact b at_ :
  Boleto_ok b -> fits b at_ -> 0 < boleto_DaysLate b at_ ->
  boleto_InterestCents b at_ =
  (cents (boleto_principal b) * boleto_monthlyInterestBps b * boleto_DaysLate b at_
     + 150000) / 300000.
Proof.
  unfold fits. intros [[HP _] _ Hi _ _ _] Hfit E.
  unfold boleto_InterestCents, MaxMonthlyInterestBps in *.
  destruct (Z.eqb_spec (boleto_DaysLate b at_) 0); [lia|].
  unfold bpsDenominator, daysPerMonth. change (10000 * 30) with 300000.
  assert (0 <= cents (boleto_principal b) * boleto_monthlyInterestBps b
          <= cents (boleto_principal b) * 100) by nia.
  set (PM := cents (boleto_principal b) * boleto_monthlyInterestBps b) in *.
  rewrite (mul64_id (cents _)) by (fold PM; unfold in64, minInt64, maxInt64; nia).
  fold PM. rewrite mul64_id by (unfold in64, minInt64, maxInt64; nia).
  rewrite roundDiv_exact by (unfold maxInt64; nia). done.
Qed.

Lemma fits_small b at_ : Boleto_ok b -> fits b at_ -> small b.
Proof.
  unfold fits, small. intros [[HP _] _ _ _ _ _] H.
  pose proof (days_after_nonneg at_ (boleto_dueDate b)). rewrite DaysLate_eq in H. nia.
Qed.

Lemma AmountDueCents_owed b at_ :
  Boleto_ok b -> fits b at_ ->
  boleto_AmountDueCents b at_ = owed b (boleto_DaysLate b at_) (boleto_DaysEarly b at_) /\
  0 < owed b (boleto_DaysLate b at_) (boleto_DaysEarly b at_) <= 2 ^ 62.
Proof.
  intros Hb Hfit. pose proof (fits_small b at_ Hb Hfit) as Hsm.
  pose proof (fine_interest_bounds b (boleto_DaysLate b at_) Hb) as Hbd.
  assert (Hl : 0 <= boleto_DaysLate b at_) by (rewrite DaysLate_eq; apply days_after_nonneg).
  unfold boleto_AmountDueCents. unfold owed in *.
  destruct (Z.eqb_spec (boleto_DaysLate b at_) 0) as [E|E].
  - pose proof (best_tier_nonneg (tier_value (cents (boleto_principal b)))
                  (boleto_DaysEarly b at_) (boleto_discounts b)).
    pose proof Hb as [[HP _] _ _ _ _ [Hall _]].
    pose proof (best_tier_lt _ (boleto_DaysEarly b at_) _ HP Hsm Hall).
    rewrite DiscountCents_best by done.
    unfold boleto_FineCents, boleto_InterestCents. rewrite E. cbn [Z.eqb].
    unfold small in Hsm. rewrite total_exact; unfold maxInt64; lia.
  - specialize (Hbd ltac:(lia) Hfit).
    rewrite FineCents_exact, InterestCents_exact by (done || lia).
    unfold boleto_DiscountCents. rewrite (proj2 (Z.ltb_lt 0 (boleto_DaysLate b at_))), orb_true_r by lia.
    destruct Hb as [[HP _] Hf Hi Hx ? ?].
    assert (0 <= (if 0 <? boleto_fineFixedCents b then boleto_fineFixedCents b
             else (cents (boleto_principal b) * boleto_fineBps b + 5000) / 10000)).
    { case_match; [lia|]. apply Z.div_pos; nia. }
    assert (0 <= (cents (boleto_principal b) * boleto_monthlyInterestBps b
              * boleto_DaysLate b at_ + 150000) / 300000) by (apply Z.div_pos; nia).
    rewrite total_exact; unfold maxInt64; lia.
Qed.

Lemma DaysLate_mono b at1 at2 :
  fixed (loc at1) -> loc at1 = loc at2 -> ns at1 <= ns at2 ->
  boleto_DaysLate b at1 <= boleto_DaysLate b at2 /\
  boleto_DaysEarly b at2 <= boleto_DaysEarly b at1.
Proof.
  intros Hf E Hle. rewrite !DaysLate_eq, !DaysEarly_eq.
  pose proof (startOfDay_mono at1 at2 Hf E Hle).
  split; apply days_after_mono; lia.
Qed.

Lemma owed_late_mono b l1 l2 e1 e2 :
  Boleto_ok b -> 0 <= l1 <= l2 -> 0 <= e2 <= e1 ->
  owed b l1 e1 <= owed b l2 e2.
Proof.
  intros [[HP _] Hf Hi Hx _ _] Hl He. unfold owed.
  set (P := cents (boleto_principal b)) in *.
  pose proof (best_tier_mono (tier_value P) e2 e1 (boleto_discounts b)).
  pose proof (best_tier_nonneg (tier_value P) e1 (boleto_discounts b)).
  destruct (Z.eqb_spec l1 0), (Z.eqb_spec l2 0); try lia.
  - assert (0 <= (if 0 <? boleto_fineFixedCents b then boleto_fineFixedCents b
            else (P * boleto_fineBps b + 5000) / 10000)).
    { case_match; [lia|]. apply Z.div_pos; nia. }
    assert (0 <= (P * boleto_monthlyInterestBps b * l2 + 150000) / 300000)
      by (apply Z.div_pos; nia).
    lia.
  - assert ((P * boleto_monthlyInterestBps b * l1 + 150000) / 300000
            <= (P * boleto_monthlyInterestBps b * l2 + 150000) / 300000)
      by (apply Z.div_le_mono; nia).
    lia.
Qed.

(** C16. The amount owed on a boleto is exactly what the rules say in unbounded
    integers: on time or early, the principal less the most generous discount tier
    the payer qualifies for; late, the principal plus the fine (fixed or rounded
    percentage) plus the pro-rata interest of every day.  It is always strictly
    positive, so [AmountDue] never falls back on the principal.  The bound keeps
    every int64 product in range (2^62 over 10000 + 100 per day late: a principal of
    a billion reais stays inside it for over a thousand years). *)
Theorem boleto_amount_exact b at_ (Hb : Boleto_ok b) (Hfit : fits b at_) :
  let due := owed b (boleto_DaysLate b at_) (boleto_DaysEarly b at_) in
  boleto_AmountDueCents b at_ = due /\ 0 < due /\
  boleto_AmountDue b at_ = {| cents := due; currency := currency (boleto_principal b) |}.
Proof.
  destruct (AmountDueCents_owed b at_ Hb Hfit) as [E Hbd].
  split; [done|split; [lia|]]. unfold boleto_AmountDue. rewrite E.
  destruct (NewMoney _ _) as [m|] eqn:En.
  - apply NewMoney_Ok in En. naive_solver.
  - unfold NewMoney in En. destruct Hb as [[_ Hc] _ _ _ _ _]. rewrite Hc in En.
    destruct (Z.leb_spec (owed b (boleto_DaysLate b at_) (boleto_DaysEarly b at_)) 0); [lia|done].
Qed.

(** Paying later never costs less: over two instants in the same location
    (without daylight-saving transitions) the amount owed is monotone, across the
    discount tiers, the due date and the accrual of interest. *)
Theorem boleto_amount_monotone b at1 at2 (Hb : Boleto_ok b)
    (Hfix : fixed (loc at1)) (Hloc : loc at1 = loc at2) (Hle : ns at1 <= ns at2)
    (Hfit : fits b at2) :
  boleto_AmountDueCents b at1 <= boleto_AmountDueCents b at2.
Proof.
  destruct (DaysLate_mono b at1 at2 Hfix Hloc Hle) as [Hl He].
  assert (fits b at1).
  { unfold fits in *. destruct Hb as [[HP _] _ _ _ _ _]. nia. }
  rewrite (proj1 (AmountDueCents_owed b at1 Hb H)), (proj1 (AmountDueCents_owed b at2 Hb Hfit)).
  rewrite !DaysLate_eq, !DaysEarly_eq in *.
  apply owed_late_mono; [done|..]; auto using days_after_nonneg.
Qed.

(** The schedule check of [WithDiscounts] is what makes the first qualifying
    tier the most generous one: on any boleto it accepts tiers for, every tier is a
    positive discount below the principal, and the discount of an early payment is
    the greatest value among the tiers the payer qualifies for. *)
Theorem boleto_discount_best b tiers b' at_ (Hb : Boleto_ok b) (Hs : small b)
    (HW : boleto_WithDiscounts b tiers = Ok b') (Ht : boleto_DaysLate b at_ = 0) :
  boleto_DiscountCents b' at_ =
    best_tier (tier_value (cents (boleto_principal b))) (boleto_DaysEarly b at_)
      (boleto_discounts b') /\
  boleto_DiscountCents b' at_ < cents (boleto_principal b) /\
  (tiers <> [] -> boleto_discounts b' = tiers).
Proof.
  pose proof (WithDiscounts_ok _ _ _ Hb HW) as Hb'.
  assert (Heq : boleto_principal b' = boleto_principal b /\ boleto_dueDate b' = boleto_dueDate b
                /\ (tiers <> [] -> boleto_discounts b' = tiers)).
  { unfold boleto_WithDiscounts in HW. destruct tiers; [by simplify_eq/=|].
    cbn [List.length Nat.eqb] in HW.
    destruct (check_tiers _ _ _ _ _) as [out|] eqn:E; [|done]. simplify_eq.
    apply check_tiers_Ok in E as (-> & _ & _). done. }
  destruct Heq as (EP & ED & Et).
  assert (boleto_DaysLate b' at_ = 0 /\ boleto_DaysEarly b' at_ = boleto_DaysEarly b at_)
    as [Hl <-] by (unfold boleto_DaysLate, boleto_DaysEarly in *; by rewrite ED).
  rewrite DiscountCents_best, EP by (try done; unfold small in *; by rewrite EP).
  split; [done|split; [|done]]. rewrite <- EP.
  destruct Hb' as [[HP _] _ _ _ _ [Hall _]]. apply best_tier_lt; [done| |done].
  unfold small in Hs. by rewrite EP.
Qed.

(** * Concrete boletos *)
Definition utc (secs : Z) : Time := {| ns := secs * nsec; loc := UTC_loc |}.
Definition BRL (c : Z) : Money := {| cents := c; currency := "BRL" |}.
Definition sample_boleto : Boleto :=
  {| boleto_id := "b1"; boleto_tenantID := "t1"; boleto_principal := BRL 100000;
     boleto_dueDate := utc 1704844800; boleto_fineBps := 200; boleto_fineFixedCents := 0;
     boleto_monthlyInterestBps := 100; boleto_validUntil := zeroTime;
     boleto_discounts := [] |}.
Definition sample_tiers : list DiscountTier :=
  [{| tier_DaysBeforeDue := 10; tier_Bps := 500; tier_FixedCents := 0 |};
   {| tier_DaysBeforeDue := 0; tier_Bps := 0; tier_FixedCents := 1000 |}].

Lemma sample_boleto_ok : Boleto_ok sample_boleto.
Proof.
  split; unfold MaxFineBps, MaxMonthlyInterestBps; simpl; try lia; repeat constructor.
Qed.

Lemma boleto_amount_exact_witness :
  boleto_AmountDueCents sample_boleto (utc (1704844800 + 30 * 86400)) = 103000 /\
  boleto_AmountDue sample_boleto (utc (1704844800 + 30 * 86400)) = BRL 103000.
Proof.
  pose proof (boleto_amount_exact sample_boleto (utc (1704844800 + 30 * 86400))
                sample_boleto_ok) as H.
  destruct H as (E & _ & ->); [vm_compute; done|].
  split; [rewrite E|]; vm_compute; reflexivity.
Defined.

Lemma boleto_amount_monotone_witness :
  boleto_AmountDueCents sample_boleto (utc 1704000000)
  <= boleto_AmountDueCents sample_boleto (utc 1705000000).
Proof.
  apply (boleto_amount_monotone sample_boleto (utc 1704000000) (utc 1705000000)
           sample_boleto_ok); [done|done|vm_compute; done|vm_compute; done].
Defined.

Lemma boleto_discount_best_witness :
  exists b', boleto_WithDiscounts sample_boleto sample_tiers = Ok b' /\
             boleto_DiscountCents b' (utc (1704844800 - 3 * 86400)) = 1000.
Proof.
  eexists. split; [vm_compute; reflexivity|].
  rewrite (proj1 (boleto_discount_best sample_boleto sample_tiers _
             (utc (1704844800 - 3 * 86400)) sample_boleto_ok
             ltac:(vm_compute; done) ltac:(vm_compute; reflexivity)
             ltac:(vm_compute; reflexivity))).
  vm_compute. reflexivity.
Defined.

(** Outside that bound the computation wraps: a boleto the constructors accept
    (9223372036854775000 cents, fine of 1.99%), paid one day late, owes a negative
    number of cents, and [AmountDue] silently falls back on the bare principal
    through the branch the source calls unreachable. *)
Theorem boleto_overflow :
  exists b at_, boleto_New "b" "t" (BRL 9223372036854775000) (utc 1704844800) 199 0 = Ok b /\
    Boleto_ok b /\ boleto_DaysLate b at_ = 1 /\
    boleto_AmountDueCents b at_ < 0 /\
    boleto_AmountDue b at_ = boleto_principal b /\
    cents (boleto_principal b) < owed b 1 0.
Proof.
  eexists _, (utc (1704844800 + 86400)). split; [vm_compute; reflexivity|].
  split; [apply (boleto_New_ok "b" "t" (BRL 9223372036854775000) (utc 1704844800) 199 0);
          [done|vm_compute; reflexivity]|].
  vm_compute. done.
Qed.

Definition sao_paulo_2018 : Location :=
  {| base := -10800; zones := [(1541300400, -7200)] |}.
Definition local_sp (secs : Z) : Time := {| ns := secs * nsec; loc := sao_paulo_2018 |}.
Definition boleto_sp : Boleto :=
  {| boleto_id := "b"; boleto_tenantID := "t"; boleto_principal := BRL 100000;
     boleto_dueDate := local_sp 1541246400; boleto_fineBps := 200;
     boleto_fineFixedCents := 0; boleto_monthlyInterestBps := 100;
     boleto_validUntil := zeroTime; boleto_discounts := [] |}.

(** Days are counted as whole 24 hours between midnights, so where the clock
    springs forward a payment made the civil day after the due date counts as zero
    days late and owes neither fine nor interest: here the zone of Sao Paulo in 2018,
    from -3h to -2h at midnight, the boleto due the day before. *)
Theorem boleto_spring_forward :
  civil_day (local_sp 1541343600) = civil_day (boleto_dueDate boleto_sp) + 1 /\
  boleto_DaysLate boleto_sp (local_sp 1541343600) = 0 /\
  boleto_AmountDueCents boleto_sp (local_sp 1541343600) = 100000.
Proof. vm_compute. done. Qed.
