(* ===== verification/DueCharges.v ===== *)
(** internal/domain/pixcobv: the PIX charge with a due date: construction,
    payment window, and the amount owed at a payment instant. *)
From S2P Require Import Prelude GoStrings GoTime Shared Boletos.

(** The package repeats the rate caps and the rounding of the boleto package. *)
Definition cobv_MaxFineBps : Z := 200.
Definition cobv_MaxMonthlyInterestBps : Z := 100.
Definition cobv_bpsDenominator : Z := 10000.
Definition cobv_daysPerMonth : Z := 30.

Definition cobv_roundDiv (num den : Z) : Z :=
  if den =? 0 then 0 else div64 (add64 num (div64 den 2)) den.

Definition cobv_startOfDay (t : Time) : Time := startOfDay_of t.

Inductive DebtorType := DebtorPF | DebtorPJ.

Record Debtor := {
  debtor_taxID : string;
  debtor_name : string;
  debtor_street : string;
  debtor_city : string;
  debtor_state : string;
  debtor_zipCode : string
}.

Definition debtor_Type (d : Debtor) : DebtorType :=
  if len (debtor_taxID d) =? 14 then DebtorPJ else DebtorPF.

Record Charge := {
  cobv_tenantID : string;
  cobv_principal : Money;
  cobv_dueDate : Time;
  cobv_validityDays : Z;
  cobv_fineBps : Z;
  cobv_monthlyInterestBps : Z;
  cobv_discountBps : Z;
  cobv_discountFixedCents : Z;
  cobv_debtor : Debtor;
  cobv_creditorKey : string
}.

Record CobvParams := {
  cvp_TenantID : string;
  cvp_Principal : Money;
  cvp_DueDate : Time;
  cvp_ValidityDays : Z;
  cvp_FineBps : Z;
  cvp_MonthlyInterestBps : Z;
  cvp_DiscountBps : Z;
  cvp_DiscountFixedCents : Z;
  cvp_DebtorTaxID : string;
  cvp_DebtorName : string;
  cvp_DebtorStreet : string;
  cvp_DebtorCity : string;
  cvp_DebtorState : string;
  cvp_DebtorZipCode : string;
  cvp_CreditorKey : string
}.

Definition cobv_discountCents (bps fixedCents principalCents : Z) : Z :=
  if 0 <? fixedCents then fixedCents
  else cobv_roundDiv (mul64 principalCents bps) cobv_bpsDenominator.

Definition validateDiscount (bps fixedCents principalCents : Z) : res unit :=
  if (bps =? 0) && (fixedCents =? 0) then Ok tt
  else
    refuse ((0 <? bps) && (0 <? fixedCents))
      with (NewValidationError "discount"
              "set at most one of discount_bps or discount_fixed_cents") ;;
    refuse ((bps <? 0) || (fixedCents <? 0))
      with (NewValidationError "discount" "discount values must not be negative") ;;
    refuse (cobv_bpsDenominator <? bps)
      with (NewValidationError "discount_bps" "discount must not exceed 100%") ;;
    let c := cobv_discountCents bps fixedCents principalCents in
    refuse ((c <=? 0) || (principalCents <=? c))
      with (NewValidationError "discount"
              "discount must be positive and strictly less than the principal") ;;
    Ok tt.

Definition validTaxID (s : string) : bool :=
  if negb (len s =? 11) && negb (len s =? 14) then false else all_digits s.

(** The address loop of [newDebtor]. *)
Fixpoint require_fields (fields : list (string * string)) : res unit :=
  match fields with
  | [] => Ok tt
  | (field, value) :: rest =>
      refuse (bool_decide (value = ""))
        with (NewValidationError field "debtor address is required on a due-date charge") ;;
      require_fields rest
  end.

Definition newDebtor (taxID name street city state zipCode : string) : res Debtor :=
  let taxID := TrimSpace taxID in
  let name := TrimSpace name in
  let street := TrimSpace street in
  let city := TrimSpace city in
  let state := TrimSpace state in
  let zipCode := TrimSpace zipCode in
  refuse (negb (validTaxID taxID))
    with (NewValidationError "devedor.tax_id"
            "debtor tax id must be 11 (CPF) or 14 (CNPJ) digits") ;;
  refuse (bool_decide (name = ""))
    with (NewValidationError "devedor.name" "debtor name is required") ;;
  let? _ := require_fields [("devedor.logradouro", street); ("devedor.cidade", city);
                            ("devedor.uf", state); ("devedor.cep", zipCode)] in
  Ok {| debtor_taxID := taxID; debtor_name := name; debtor_street := street;
        debtor_city := city; debtor_state := state; debtor_zipCode := zipCode |}.

Definition cobv_New (p : CobvParams) : res Charge :=
  let tenantID := TrimSpace (cvp_TenantID p) in
  refuse (bool_decide (tenantID = ""))
    with (NewValidationError "tenant_id" "tenant id is required") ;;
  refuse (Money_IsZero (cvp_Principal p))
    with (NewValidationError "principal" "principal amount is required") ;;
  refuse (IsZero (cvp_DueDate p))
    with (NewValidationError "due_date" "due date is required") ;;
  refuse (cvp_ValidityDays p <? 0)
    with (NewValidationError "validity_days"
            "validity after due date must not be negative") ;;
  refuse ((cvp_FineBps p <? 0) || (cobv_MaxFineBps <? cvp_FineBps p))
    with (NewValidationError "fine_bps"
            "fine must be between 0 and 200 basis points (0–2%)") ;;
  refuse ((cvp_MonthlyInterestBps p <? 0)
          || (cobv_MaxMonthlyInterestBps <? cvp_MonthlyInterestBps p))
    with (NewValidationError "monthly_interest_bps"
            "monthly interest must be between 0 and 100 basis points (0–1%)") ;;
  let? _ := validateDiscount (cvp_DiscountBps p) (cvp_DiscountFixedCents p)
              (cents (cvp_Principal p)) in
  let? debtor := newDebtor (cvp_DebtorTaxID p) (cvp_DebtorName p) (cvp_DebtorStreet p)
                   (cvp_DebtorCity p) (cvp_DebtorState p) (cvp_DebtorZipCode p) in
  let creditorKey := TrimSpace (cvp_CreditorKey p) in
  refuse (bool_decide (creditorKey = ""))
    with (NewValidationError "creditor_key" "creditor pix key is required") ;;
  Ok {| cobv_tenantID := tenantID;
        cobv_principal := cvp_Principal p;
        cobv_dueDate := cvp_DueDate p;
        cobv_validityDays := cvp_ValidityDays p;
        cobv_fineBps := cvp_FineBps p;
        cobv_monthlyInterestBps := cvp_MonthlyInterestBps p;
        cobv_discountBps := cvp_DiscountBps p;
        cobv_discountFixedCents := cvp_DiscountFixedCents p;
        cobv_debtor := debtor;
        cobv_creditorKey := creditorKey |}.

Definition cobv_PayableUntil (c : Charge) : Time :=
  AddDays (cobv_startOfDay (cobv_dueDate c)) (cobv_validityDays c).

Definition cobv_Expired (c : Charge) (at_ : Time) : bool :=
  After (cobv_startOfDay at_) (cobv_PayableUntil c).

Definition cobv_DaysLate (c : Charge) (at_ : Time) : Z :=
  let diff := Sub (cobv_startOfDay at_) (cobv_startOfDay (cobv_dueDate c)) in
  let days := div64 diff day_ns in
  if days <? 0 then 0 else days.

Definition cobv_DaysEarly (c : Charge) (at_ : Time) : Z :=
  let diff := Sub (cobv_startOfDay (cobv_dueDate c)) (cobv_startOfDay at_) in
  let days := div64 diff day_ns in
  if days <? 0 then 0 else days.

Definition cobv_FineCents (c : Charge) (at_ : Time) : Z :=
  if cobv_DaysLate c at_ =? 0 then 0
  else cobv_roundDiv (mul64 (cents (cobv_principal c)) (cobv_fineBps c)) cobv_bpsDenominator.

Definition cobv_InterestCents (c : Charge) (at_ : Time) : Z :=
  let days := cobv_DaysLate c at_ in
  if days =? 0 then 0
  else cobv_roundDiv
         (mul64 (mul64 (cents (cobv_principal c)) (cobv_monthlyInterestBps c)) days)
         (cobv_bpsDenominator * cobv_daysPerMonth).

Definition cobv_DiscountCents (c : Charge) (at_ : Time) : Z :=
  if 0 <? cobv_DaysLate c at_ then 0
  else cobv_discountCents (cobv_discountBps c) (cobv_discountFixedCents c)
         (cents (cobv_principal c)).

Definition cobv_AmountDueCents (c : Charge) (at_ : Time) : Z :=
  sub64 (add64 (add64 (cents (cobv_principal c)) (cobv_FineCents c at_))
           (cobv_InterestCents c at_))
        (cobv_DiscountCents c at_).

Definition cobv_AmountDue (c : Charge) (at_ : Time) : Money :=
  match NewMoney (cobv_AmountDueCents c at_) (currency (cobv_principal c)) with
  | Err _ => cobv_principal c
  | Ok m => m
  end.

(** * A due-date charge is the boleto of the same debt *)
Definition as_boleto (c : Charge) : Boleto :=
  {| boleto_id := "cobv";
     boleto_tenantID := cobv_tenantID c;
     boleto_principal := cobv_principal c;
     boleto_dueDate := cobv_dueDate c;
     boleto_fineBps := cobv_fineBps c;
     boleto_fineFixedCents := 0;
     boleto_monthlyInterestBps := cobv_monthlyInterestBps c;
     boleto_validUntil := cobv_PayableUntil c;
     boleto_discounts :=
       if (cobv_discountBps c =? 0) && (cobv_discountFixedCents c =? 0) then []
       else [{| tier_DaysBeforeDue := 0; tier_Bps := cobv_discountBps c;
                tier_FixedCents := cobv_discountFixedCents c |}] |}.

Record Charge_ok (c : Charge) : Prop := {
  cok_tenant : trimmed (cobv_tenantID c) /\ cobv_tenantID c <> "";
  cok_validity : 0 <= cobv_validityDays c;
  cok_debtor : validTaxID (debtor_taxID (cobv_debtor c)) = true;
  cok_boleto : Boleto_ok (as_boleto c)
}.

Lemma validateDiscount_Ok bps fixed_ P :
  validateDiscount bps fixed_ P = Ok tt ->
  (bps = 0 /\ fixed_ = 0) \/
  tier_ok P {| tier_DaysBeforeDue := 0; tier_Bps := bps; tier_FixedCents := fixed_ |}.
Proof.
  unfold validateDiscount. cbv zeta. intros H.
  destruct ((bps =? 0) && (fixed_ =? 0)) eqn:E0; [left; lia|].
  destruct ((0 <? bps) && (0 <? fixed_)) eqn:E1; [done|].
  destruct ((bps <? 0) || (fixed_ <? 0)) eqn:E2; [done|].
  destruct (Z.ltb_spec cobv_bpsDenominator bps); [done|].
  destruct ((cobv_discountCents bps fixed_ P <=? 0)
            || (P <=? cobv_discountCents bps fixed_ P)) eqn:E4; [done|].
  right. bools.
  apply andb_false_iff in E0, E1.
  unfold cobv_bpsDenominator in *.
  change (cobv_discountCents bps fixed_ P)
    with (tier_cents {| tier_DaysBeforeDue := 0; tier_Bps := bps; tier_FixedCents := fixed_ |} P) in *.
  unfold tier_ok, bpsDenominator; simpl. lia.
Qed.

Lemma newDebtor_Ok t n s c u z d :
  newDebtor t n s c u z = Ok d -> validTaxID (debtor_taxID d) = true.
Proof.
  unfold newDebtor. cbv zeta. intros H.
  destruct (validTaxID (TrimSpace t)) eqn:E; [simpl in H|done].
  repeat (case_bool_decide; [done|]). by simplify_eq/=.
Qed.

Lemma cobv_New_inv p c :
  cobv_New p = Ok c ->
  trimmed (cobv_tenantID c) /\ cobv_tenantID c <> "" /\ cobv_principal c = cvp_Principal p /\
  0 <= cobv_validityDays c /\ 0 <= cobv_fineBps c <= 200 /\
  0 <= cobv_monthlyInterestBps c <= 100 /\
  validateDiscount (cobv_discountBps c) (cobv_discountFixedCents c)
    (cents (cobv_principal c)) = Ok tt /\
  validTaxID (debtor_taxID (cobv_debtor c)) = true.
Proof.
  unfold cobv_New, cobv_MaxFineBps, cobv_MaxMonthlyInterestBps. cbv zeta. intros H.
  case_bool_decide; [done|]. destruct (Money_IsZero _); [done|]. destruct (IsZero _); [done|].
  destruct (Z.ltb_spec (cvp_ValidityDays p) 0); [done|].
  destruct (_ || _) eqn:E1 in H; [done|]. destruct (_ || _) eqn:E2 in H; [done|]. bools.
  destruct (validateDiscount _ _ _) as [[]|] eqn:Ed; [|done].
  destruct (newDebtor _ _ _ _ _ _) as [d|] eqn:En; [|done].
  case_bool_decide; [done|]. simplify_eq/=. apply newDebtor_Ok in En.
  repeat split; auto with go; lia.
Qed.

(** The record the constructor builds from its parameters. *)
Lemma cobv_New_fields p c :
  cobv_New p = Ok c ->
  (exists tenant debtor key,
   c = {| cobv_tenantID := tenant; cobv_principal := cvp_Principal p;
         cobv_dueDate := cvp_DueDate p; cobv_validityDays := cvp_ValidityDays p;
         cobv_fineBps := cvp_FineBps p; cobv_monthlyInterestBps := cvp_MonthlyInterestBps p;
         cobv_discountBps := cvp_DiscountBps p;
         cobv_discountFixedCents := cvp_DiscountFixedCents p;
         cobv_debtor := debtor; cobv_creditorKey := key |}) /\
  blank (cvp_CreditorKey p) = false /\ validTaxID (TrimSpace (cvp_DebtorTaxID p)) = true.
Proof.
  unfold cobv_New, newDebtor. cbv zeta. intros H.
  case_bool_decide; [done|]. destruct (Money_IsZero _); [done|]. destruct (IsZero _); [done|].
  destruct (_ <? 0); [done|]. destruct (_ || _); [done|]. destruct (_ || _); [done|].
  destruct (validateDiscount _ _ _); [|done].
  destruct (validTaxID _); [|done]. cbn [negb] in H. case_bool_decide; [done|].
  destruct (require_fields _); [|done]. case_bool_decide; [done|]. simplify_eq/=.
  split_and!; [by do 3 eexists| |done]. unfold blank. by rewrite bool_decide_false.
Qed.

Lemma cobv_days c at_ :
  cobv_DaysLate c at_ = boleto_DaysLate (as_boleto c) at_ /\
  cobv_DaysEarly c at_ = boleto_DaysEarly (as_boleto c) at_.
Proof. done. Qed.

Lemma cobv_FineCents_boleto c at_ :
  cobv_FineCents c at_ = boleto_FineCents (as_boleto c) at_.
Proof. unfold cobv_FineCents, boleto_FineCents. by rewrite (proj1 (cobv_days c at_)). Qed.

Lemma cobv_InterestCents_boleto c at_ :
  cobv_InterestCents c at_ = boleto_InterestCents (as_boleto c) at_.
Proof.
  unfold cobv_InterestCents, boleto_InterestCents, cobv_bpsDenominator, bpsDenominator,
    cobv_daysPerMonth, daysPerMonth.
  rewrite (proj1 (cobv_days c at_)).
  change (boleto_principal (as_boleto c)) with (cobv_principal c).
  change (boleto_monthlyInterestBps (as_boleto c)) with (cobv_monthlyInterestBps c).
  generalize (mul64 (cents (cobv_principal c)) (cobv_monthlyInterestBps c)) as pm.
  generalize (boleto_DaysLate (as_boleto c) at_) as days.
  intros. unfold cobv_roundDiv, roundDiv. reflexivity.
Qed.

Lemma cobv_DiscountCents_boleto c at_ :
  cobv_DiscountCents c at_ = boleto_DiscountCents (as_boleto c) at_.
Proof.
  unfold cobv_DiscountCents, boleto_DiscountCents. destruct (cobv_days c at_) as [-> _].
  destruct (0 <? boleto_DaysLate (as_boleto c) at_); [by rewrite orb_true_r|].
  rewrite orb_false_r.
  replace (boleto_discounts (as_boleto c)) with
    (if (cobv_discountBps c =? 0) && (cobv_discountFixedCents c =? 0) then []
     else [{| tier_DaysBeforeDue := 0; tier_Bps := cobv_discountBps c;
              tier_FixedCents := cobv_discountFixedCents c |}]) by done.
  destruct ((cobv_discountBps c =? 0) && (cobv_discountFixedCents c =? 0)) eqn:E0.
  - bools. apply Z.eqb_eq in H, H0. rewrite H, H0. unfold cobv_discountCents, mul64.
    rewrite Z.mul_0_r. reflexivity.
  - cbn [List.length Nat.eqb first_tier tier_DaysBeforeDue].
    rewrite DaysEarly_eq.
    destruct (Z.leb_spec 0 (days_after (boleto_dueDate (as_boleto c)) at_)); [done|].
    pose proof (days_after_nonneg (boleto_dueDate (as_boleto c)) at_). lia.
Qed.

Lemma cobv_AmountDueCents_boleto c at_ :
  cobv_AmountDueCents c at_ = boleto_AmountDueCents (as_boleto c) at_.
Proof.
  unfold cobv_AmountDueCents, boleto_AmountDueCents.
  by rewrite cobv_FineCents_boleto, cobv_InterestCents_boleto, cobv_DiscountCents_boleto.
Qed.

(** A due-date charge and a boleto are the same debt: whatever [New] accepts
    for a positive amount is the image of a valid boleto with the same principal, due
    date, rates and, when there is a discount, one tier up to the due date; and at
    every payment instant the two owe the same, wrap-around included. *)
Theorem cobv_refines_boleto p c (HN : cobv_New p = Ok c) (Hm : Money_ok (cvp_Principal p)) :
  Charge_ok c /\
  (forall at_, cobv_AmountDueCents c at_ = boleto_AmountDueCents (as_boleto c) at_ /\
               cobv_AmountDue c at_ = boleto_AmountDue (as_boleto c) at_).
Proof.
  apply cobv_New_inv in HN as (Ht & Hne & Ep & Hv & Hf & Hi & Hd & Htax).
  rewrite <- Ep in Hm. apply validateDiscount_Ok in Hd.
  split.
  - split; auto. split; simpl; unfold MaxFineBps, MaxMonthlyInterestBps; try lia; [done| |].
    + destruct Hm. lia.
    + destruct Hd as [[-> ->]|Hd]; [repeat constructor|].
      case_match; [by repeat constructor|].
      split; [by apply Forall_singleton|repeat constructor].
  - intros at_. unfold cobv_AmountDue, boleto_AmountDue.
    by rewrite cobv_AmountDueCents_boleto.
Qed.

Lemma civil_day_startOfDay t :
  fixed (loc t) -> civil_day (startOfDay_of t) = civil_day t.
Proof.
  intros Hf. unfold civil_day at 1, local_secs, unix. simpl.
  rewrite resolve_fixed, offset_fixed by done.
  rewrite Z.div_mul by (unfold nsec; lia).
  replace (_ - _ + _) with (civil_day t * day_secs) by lia.
  apply Z.div_mul. unfold day_secs. lia.
Qed.

Lemma AddDays_midnight t n :
  fixed (loc t) ->
  ns (AddDays (startOfDay_of t) n) = ((civil_day t + n) * day_secs - base (loc t)) * nsec.
Proof.
  intros Hf. unfold AddDays. cbn [ns loc].
  change (loc (startOfDay_of t)) with (loc t).
  rewrite resolve_fixed by done.
  assert (E : local_secs (startOfDay_of t) = civil_day t * day_secs).
  { unfold local_secs, unix. simpl. rewrite resolve_fixed, offset_fixed by done.
    rewrite Z.div_mul by (unfold nsec; lia). lia. }
  rewrite E. simpl. rewrite Z.mod_mul by (unfold nsec; lia).
  unfold day_secs, nsec. lia.
Qed.

(** The payment window: in a location without daylight-saving transitions a
    charge is expired exactly from the civil day after the due day plus the validity
    days, so it is payable throughout the last day of its window, and a charge that
    is not expired is at most [validityDays] days late. *)
Theorem cobv_window c at_ (Hf : fixed (loc at_)) (El : loc at_ = loc (cobv_dueDate c))
    (Hr : in64 ((civil_day at_ - civil_day (cobv_dueDate c)) * day_ns))
    (Hv : 0 <= cobv_validityDays c) :
  (cobv_Expired c at_ = true <->
   civil_day (cobv_dueDate c) + cobv_validityDays c < civil_day at_) /\
  (cobv_Expired c at_ = false -> cobv_DaysLate c at_ <= cobv_validityDays c).
Proof.
  assert (E : cobv_Expired c at_ = true <->
              civil_day (cobv_dueDate c) + cobv_validityDays c < civil_day at_).
  { unfold cobv_Expired, After, cobv_PayableUntil, cobv_startOfDay. rewrite Z.ltb_lt.
    rewrite AddDays_midnight by congruence. rewrite startOfDay_fixed by done.
    rewrite <- El. unfold day_secs, nsec. lia. }
  split; [done|]. intros Hx.
  change (cobv_DaysLate c at_) with (boleto_DaysLate (as_boleto c) at_).
  rewrite DaysLate_eq, days_after_fixed by done. simpl.
  destruct (Z.lt_ge_cases (civil_day (cobv_dueDate c) + cobv_validityDays c) (civil_day at_));
    [|lia]. apply E in H. congruence.
Qed.

Definition sample_params : CobvParams :=
  {| cvp_TenantID := "t1"; cvp_Principal := BRL 100000; cvp_DueDate := utc 1704844800;
     cvp_ValidityDays := 5; cvp_FineBps := 200; cvp_MonthlyInterestBps := 100;
     cvp_DiscountBps := 0; cvp_DiscountFixedCents := 500;
     cvp_DebtorTaxID := "12345678901"; cvp_DebtorName := "Ana"; cvp_DebtorStreet := "Rua A";
     cvp_DebtorCity := "Recife"; cvp_DebtorState := "PE"; cvp_DebtorZipCode := "50000000";
     cvp_CreditorKey := "k" |}.

Lemma cobv_refines_boleto_witness :
  exists c, cobv_New sample_params = Ok c /\
    boleto_AmountDueCents (as_boleto c) (utc 1704758400) = 99500 /\
    cobv_AmountDueCents c (utc 1704758400) = 99500.
Proof.
  eexists. split; [vm_compute; reflexivity|].
  rewrite (proj1 (proj2 (cobv_refines_boleto sample_params _
             ltac:(vm_compute; reflexivity) ltac:(done)) (utc 1704758400))).
  vm_compute. done.
Defined.

Lemma cobv_window_witness :
  exists c, cobv_New sample_params = Ok c /\
    (cobv_Expired c (utc (1704844800 + 5 * 86400 + 86399)) = true <-> 19732 + 5 < 19737) /\
    cobv_Expired c (utc (1704844800 + 6 * 86400)) = true.
Proof.
  eexists. split; [vm_compute; reflexivity|]. split; [|vm_compute; reflexivity].
  match goal with |- context [cobv_Expired ?c ?a] =>
    apply (cobv_window c a) end; vm_compute; done.
Defined.
