(* ===== verification/Consents.v ===== *)
(** Two aggregates of their own: the recurring-debit authorisation (internal/domain/consent) and
    the recorded consent to the terms of use (internal/domain/termsconsent) with its in-memory trail
    (internal/adapters/persistence/inmemory/termsconsent.go). *)
From S2P Require Import Prelude GoStrings GoTime GoSort Shared DueCharges.
#[global] Open Scope Z_scope.

(** * domain/consent *)
Inductive Frequency := Weekly | Monthly | Yearly | OtherFrequency (text : string).
Definition Frequency_valid (f : Frequency) : bool :=
  match f with Weekly | Monthly | Yearly => true | OtherFrequency _ => false end.
Inductive ConsentStatus := ConsentPending | ConsentActive | ConsentCancelled.
#[export] Instance ConsentStatus_eq_dec : EqDecision ConsentStatus.
Proof. solve_decision. Defined.
Record Consent := {
  cs_id : string; cs_tenantID : string; cs_debtorTaxID : string; cs_maxAmount : Money; cs_frequency : Frequency;
  cs_start : Time; cs_end : Time; cs_status : ConsentStatus
}.
Definition with_status (c : Consent) (s : ConsentStatus) : Consent :=
  {| cs_id := cs_id c; cs_tenantID := cs_tenantID c; cs_debtorTaxID := cs_debtorTaxID c; cs_maxAmount := cs_maxAmount c;
     cs_frequency := cs_frequency c; cs_start := cs_start c; cs_end := cs_end c; cs_status := s |}.
Definition consent_New (id tenantID debtorTaxID : string) (maxAmount : Money) (frequency : Frequency) (start end_ : Time)
    : res Consent :=
  let id := TrimSpace id in
  refuse (bool_decide (id = "")) with (NewValidationError "id" "consent id is required") ;;
  let tenantID := TrimSpace tenantID in
  refuse (bool_decide (tenantID = "")) with (NewValidationError "tenant_id" "tenant id is required") ;;
  let debtorTaxID := TrimSpace debtorTaxID in
  refuse (negb (validTaxID debtorTaxID))
    with (NewValidationError "debtor_tax_id" "debtor tax id must be 11 (CPF) or 14 (CNPJ) digits") ;;
  refuse (Money_IsZero maxAmount) with (NewValidationError "max_amount" "per-cycle ceiling is required") ;;
  refuse (negb (Frequency_valid frequency))
    with (NewValidationError "frequency" "frequency must be WEEKLY, MONTHLY or YEARLY") ;;
  refuse (IsZero start) with (NewValidationError "start" "start is required") ;;
  refuse (negb (IsZero end_) && negb (After end_ start)) with (NewValidationError "end" "end must be after start") ;;
  Ok {| cs_id := id; cs_tenantID := tenantID; cs_debtorTaxID := debtorTaxID; cs_maxAmount := maxAmount;
        cs_frequency := frequency; cs_start := start; cs_end := end_; cs_status := ConsentPending |}.
Definition WithinWindow (c : Consent) (at_ : Time) : bool :=
  if Before at_ (cs_start c) then false
  else if negb (IsZero (cs_end c)) && After at_ (cs_end c) then false
  else true.
Definition consent_Covers (c : Consent) (amountCents : Z) : bool :=
  (0 <? amountCents) && (amountCents <=? cents (cs_maxAmount c)).
Definition CanDebit (c : Consent) (at_ : Time) (amountCents : Z) : bool :=
  bool_decide (cs_status c = ConsentActive) && WithinWindow c at_ && consent_Covers c amountCents.
Definition consent_Activate (c : Consent) : res Consent :=
  refuse (negb (bool_decide (cs_status c = ConsentPending))) with ErrInvalidTransition ;; Ok (with_status c ConsentActive).
Definition consent_Cancel (c : Consent) : res Consent :=
  refuse (bool_decide (cs_status c = ConsentCancelled)) with ErrInvalidTransition ;; Ok (with_status c ConsentCancelled).

(** ** Histories: a refused transition changes nothing *)
Inductive consent_op := DoActivate | DoCancel.
#[export] Instance consent_op_eq_dec : EqDecision consent_op.
Proof. solve_decision. Defined.
Definition consent_step (c : Consent) (op : consent_op) : Consent :=
  match (match op with DoActivate => consent_Activate c | DoCancel => consent_Cancel c end) with
  | Ok c' => c'
  | Err _ => c
  end.
Definition consent_run (c : Consent) (ops : list consent_op) : Consent := fold_left consent_step ops c.

Lemma consent_run_status c ops :
  consent_run c ops =
  with_status c (match cs_status c with
    | ConsentCancelled => ConsentCancelled
    | ConsentActive => if decide (DoCancel ∈ ops) then ConsentCancelled else ConsentActive
    | ConsentPending => if decide (DoCancel ∈ ops) then ConsentCancelled
                        else if decide (DoActivate ∈ ops) then ConsentActive else ConsentPending
    end).
Proof.
  unfold consent_run. revert c. induction ops as [|op ops IH]; intros c; cbn [fold_left].
  { destruct c as [????? ? ? []]; cbn; repeat (rewrite decide_False by (by intros ?%elem_of_nil)); done. }
  rewrite IH. destruct c as [? ? ? ? ? ? ? []], op; cbn; unfold with_status; cbn; f_equal;
    repeat (match goal with |- context [decide ?P] => destruct (decide P) end); try done; exfalso;
    repeat match goal with H : ~ (_ ∈ _ :: _) |- _ => rewrite elem_of_cons in H
                         | H : _ ∈ _ :: _ |- _ => rewrite elem_of_cons in H end; naive_solver.
Qed.

(** Nothing is debited without a standing authorisation: whatever was done to a fresh consent, it
    permits a debit exactly when it was activated and never cancelled, the instant lies in its window,
    both ends included, and the amount is positive and within its ceiling. *)
Theorem debit_needs_standing_consent id tenantID debtorTaxID maxAmount frequency start end_ c ops at_ amount
    (Hnew : consent_New id tenantID debtorTaxID maxAmount frequency start end_ = Ok c) :
  CanDebit (consent_run c ops) at_ amount = true <->
  DoActivate ∈ ops /\ DoCancel ∉ ops /\ ns start <= ns at_ /\ (IsZero end_ = true \/ ns at_ <= ns end_) /\
  0 < amount <= cents maxAmount.
Proof.
  assert (cs_status c = ConsentPending /\ cs_start c = start /\ cs_end c = end_ /\ cs_maxAmount c = maxAmount) as (Hs & <- & <- & <-).
  { unfold consent_New in Hnew. cbv zeta in Hnew. repeat (case_match; [done|]). by injection Hnew as <-. }
  rewrite consent_run_status, Hs. unfold CanDebit, WithinWindow, consent_Covers, Before, After. cbn [with_status cs_status cs_start cs_end cs_maxAmount].
  rewrite !andb_true_iff, bool_decide_eq_true, Z.ltb_lt, Z.leb_le.
  destruct (Z.ltb_spec (ns at_) (ns (cs_start c))), (IsZero (cs_end c)), (Z.ltb_spec (ns (cs_end c)) (ns at_)),
    (decide (DoCancel ∈ ops)), (decide (DoActivate ∈ ops)); cbn; naive_solver lia.
Qed.

(** * domain/termsconsent *)
Record Evidence := { ev_channel : string; ev_ip : string; ev_userAgent : string }.
#[export] Instance Evidence_eq_dec : EqDecision Evidence.
Proof. solve_decision. Defined.
Definition noEvidence : Evidence := {| ev_channel := ""; ev_ip := ""; ev_userAgent := "" |}.
Definition NewEvidence (channel ip userAgent : string) : res Evidence :=
  let channel := TrimSpace channel in
  refuse (bool_decide (channel = "")) with (NewValidationError "channel" "is required") ;;
  Ok {| ev_channel := channel; ev_ip := TrimSpace ip; ev_userAgent := TrimSpace userAgent |}.
(** [t.UTC()]: the same instant. *)
Definition in_UTC (t : Time) : Time := {| ns := ns t; loc := UTC_loc |}.
Record TermsRecord := {
  tr_id : string; tr_tenantID : string; tr_subject : string; tr_termsVersion : string; tr_grantedAt : Time;
  tr_evidence : Evidence
}.
Record NewRecordParams := {
  nr_ID : string; nr_TenantID : string; nr_Subject : string; nr_TermsVersion : string; nr_Evidence : Evidence
}.
Definition terms_Rehydrate (id tenantID subject termsVersion : string) (grantedAt : Time) (evidence : Evidence) : TermsRecord :=
  {| tr_id := id; tr_tenantID := tenantID; tr_subject := subject; tr_termsVersion := termsVersion;
     tr_grantedAt := in_UTC grantedAt; tr_evidence := evidence |}.
Definition NewRecord (p : NewRecordParams) (grantedAt : Time) : res TermsRecord :=
  let id := TrimSpace (nr_ID p) in
  refuse (bool_decide (id = "")) with (NewValidationError "id" "is required") ;;
  let tenantID := TrimSpace (nr_TenantID p) in
  refuse (bool_decide (tenantID = "")) with (NewValidationError "tenant_id" "is required") ;;
  let subject := TrimSpace (nr_Subject p) in
  refuse (bool_decide (subject = "")) with (NewValidationError "subject" "is required") ;;
  let termsVersion := TrimSpace (nr_TermsVersion p) in
  refuse (bool_decide (termsVersion = "")) with (NewValidationError "terms_version" "is required") ;;
  refuse (bool_decide (nr_Evidence p = noEvidence)) with (NewValidationError "evidence" "is required") ;;
  refuse (IsZero grantedAt) with (NewValidationError "granted_at" "is required") ;;
  Ok (terms_Rehydrate id tenantID subject termsVersion grantedAt (nr_Evidence p)).
(** What a log line shows of a record. *)
Definition LogValue (r : TermsRecord) : list (string * string) * Time :=
  ([("id", tr_id r); ("tenant_id", tr_tenantID r); ("subject", "[REDACTED]"); ("terms_version", tr_termsVersion r);
    ("channel", ev_channel (tr_evidence r)); ("ip", "[REDACTED]"); ("user_agent", "[REDACTED]")], tr_grantedAt r).

(** ** The trail *)
Notation trail := (list TermsRecord).
Definition RecordConsent (r : TermsRecord) (s : trail) : trail := s ++ [r].
Definition consentAfter : TermsRecord -> TermsRecord -> bool := newest tr_grantedAt tr_id.
Definition of_subject (tenantID subject : string) (r : TermsRecord) : bool :=
  bool_decide (tr_tenantID r = tenantID) && bool_decide (tr_subject r = subject).
Definition FindLatestConsent (tenantID subject termsVersion : string) (s : trail) : res TermsRecord :=
  match fold_left (fun latest r =>
          if negb (bool_decide (tr_tenantID r = tenantID)) || negb (bool_decide (tr_subject r = subject))
             || negb (bool_decide (tr_termsVersion r = termsVersion)) then latest
          else match latest with
               | None => Some r
               | Some l => if consentAfter r l then Some r else latest
               end) s None with
  | None => Err ErrNotFound
  | Some r => Ok r
  end.
Definition ListConsents (tenantID subject : string) (s : trail) : list TermsRecord :=
  SliceStable (List.filter (of_subject tenantID subject) s) consentAfter.

Definition of_version (v : string) (r : TermsRecord) : bool := bool_decide (tr_termsVersion r = v).
(** The trail of consents only grows, and the latest one is the first of the history.  Whatever is
    recorded, the history of a tenant's subject is every record of that pair and of no other, once,
    newest first; the latest consent to a version is the first of the history with that version, and is
    missing only when the history has none; and a further record leaves the others where they were. *)
Theorem consent_trail_exact (s : trail) tenantID subject termsVersion r :
  ListConsents tenantID subject s ≡ₚ List.filter (of_subject tenantID subject) s /\
  StronglySorted (not_after consentAfter) (ListConsents tenantID subject s) /\
  match FindLatestConsent tenantID subject termsVersion s with
  | Ok x => head (List.filter (of_version termsVersion) (ListConsents tenantID subject s)) = Some x
  | Err e => e = ErrNotFound /\ Forall (fun x => of_version termsVersion x = false) (ListConsents tenantID subject s)
  end /\
  ListConsents tenantID subject (RecordConsent r s) ≡ₚ
    (ListConsents tenantID subject s ++ (if of_subject tenantID subject r then [r] else []))%list.
Proof.
  split_and!; [apply SliceStable_perm|apply SliceStable_sorted, _| |].
  - unfold FindLatestConsent.
    set (P := fun r => of_subject tenantID subject r && of_version termsVersion r).
    assert (E : forall l b, fold_left (fun latest r =>
          if negb (bool_decide (tr_tenantID r = tenantID)) || negb (bool_decide (tr_subject r = subject))
             || negb (bool_decide (tr_termsVersion r = termsVersion)) then latest
          else match latest with
               | None => Some r
               | Some l => if consentAfter r l then Some r else latest
               end) l b =
      fold_left (fun b x => if P x then (match b with None => Some x | Some l => if consentAfter x l then Some x else b end) else b) l b).
    { induction l as [|x l IH]; intros b; [done|]. cbn [fold_left]. rewrite IH. subst P. unfold of_subject, of_version.
      by destruct (bool_decide (tr_tenantID x = tenantID)), (bool_decide (tr_subject x = subject)), (bool_decide (tr_termsVersion x = termsVersion)). }
    rewrite E, fold_filtered, (latest_is_head consentAfter).
    assert (Hf : List.filter (of_version termsVersion) (ListConsents tenantID subject s) = SliceStable (List.filter P s) consentAfter).
    { unfold ListConsents. rewrite (filter_sorted consentAfter). f_equal. subst P. by rewrite filter_filter_and. }
    destruct (SliceStable (List.filter P s) consentAfter) as [|x l] eqn:El; [|by rewrite Hf]. split; [done|].
    pose proof (SliceStable_perm consentAfter (List.filter P s)) as Hp. rewrite El in Hp. apply Permutation_nil_l in Hp.
    unfold ListConsents. apply Forall_forall. intros y Hy. rewrite SliceStable_perm in Hy.
    apply list_elem_of_In, filter_In in Hy as [Hy Hs]. destruct (of_version termsVersion y) eqn:Ev; [|done].
    assert (Hin : In y (List.filter P s)) by (apply filter_In; split; [done|]; subst P; cbn; by rewrite Hs, Ev). by rewrite <- Hp in Hin.
  - unfold ListConsents, RecordConsent. rewrite !SliceStable_perm, List.filter_app. cbn [List.filter].
    by destruct (of_subject _ _ r).
Qed.
