(* ===== verification/Checkouts.v ===== *)
(** internal/domain/checkout: the hosted checkout session, its items and the number of
    instalments it may offer. *)
From S2P Require Import Prelude GoStrings GoTime Shared.

Definition CardCredit : string := "credit".
Definition CardDebit : string := "debit".

Definition ParseCardType (s : string) : res string :=
  let c := ToLower (TrimSpace s) in
  if bool_decide (c = CardCredit) then Ok CardCredit
  else if bool_decide (c = CardDebit) then Ok CardDebit
  else Err (NewValidationError "card_type" "card_type must be credit or debit").

Definition CardType_valid (c : string) : bool :=
  bool_decide (c = CardCredit) || bool_decide (c = CardDebit).

Record Item := { item_description : string; item_amountCents : Z }.

Definition NewItem (description : string) (amountCents : Z) : res Item :=
  let description := TrimSpace description in
  refuse (bool_decide (description = ""))
    with (NewValidationError "description" "item description is required") ;;
  refuse (amountCents <=? 0)
    with (NewValidationError "amount_cents" "item amount must be greater than zero") ;;
  Ok {| item_description := description; item_amountCents := amountCents |}.

Record Session := {
  sess_id : string;
  sess_tenantID : string;
  sess_items : list Item;
  sess_total : Money;
  sess_expiresAt : Time;
  sess_cardType : string;
  sess_requireAuth : bool;
  sess_maxInstallments : Z
}.

Definition checkout_New (id tenantID currency : string) (items : list Item) (expiresAt : Time)
    : res Session :=
  let id := TrimSpace id in
  refuse (bool_decide (id = "")) with (NewValidationError "id" "session id is required") ;;
  let tenantID := TrimSpace tenantID in
  refuse (bool_decide (tenantID = ""))
    with (NewValidationError "tenant_id" "tenant id is required") ;;
  refuse (bool_decide (items = []))
    with (NewValidationError "items" "at least one item is required") ;;
  refuse (IsZero expiresAt) with (NewValidationError "expires_at" "expiry is required") ;;
  let? sum := SumCents_from 0 (map item_amountCents items) in
  let? total := NewMoney sum currency in
  Ok {| sess_id := id; sess_tenantID := tenantID; sess_items := items; sess_total := total;
        sess_expiresAt := expiresAt; sess_cardType := ""; sess_requireAuth := false;
        sess_maxInstallments := 0 |}.

Definition DefaultInstallments : Z := 1.
Definition MaxInstallmentsLimit : Z := 12.
Definition MinInstallmentCents : Z := 500.

Definition NormalizeInstallments (card : string) (maxInstallments : Z) : res Z :=
  if maxInstallments <=? 0 then Ok DefaultInstallments
  else
    refuse (MaxInstallmentsLimit <? maxInstallments)
      with (NewValidationError "max_installments"
              "max_installments must be between 1 and 12") ;;
    refuse (bool_decide (card = CardDebit) && (1 <? maxInstallments))
      with (NewValidationError "max_installments"
              "debit card cannot be split into installments") ;;
    Ok maxInstallments.

Definition WithCard (s : Session) (card : string) (requireAuth : bool) (maxInstallments : Z)
    : res Session :=
  refuse (negb (CardType_valid card))
    with (NewValidationError "card_type" "card_type must be credit or debit") ;;
  let? maxInstallments := NormalizeInstallments card maxInstallments in
  Ok {| sess_id := sess_id s; sess_tenantID := sess_tenantID s; sess_items := sess_items s;
        sess_total := sess_total s; sess_expiresAt := sess_expiresAt s;
        sess_cardType := card; sess_requireAuth := requireAuth;
        sess_maxInstallments := maxInstallments |}.

Definition AffordableInstallments (totalCents maxInstallments : Z) : Z :=
  if (maxInstallments <=? 1) || (totalCents <=? 0) then DefaultInstallments
  else
    let cabem := div64 totalCents MinInstallmentCents in
    if cabem <? DefaultInstallments then DefaultInstallments
    else if cabem <? maxInstallments then cabem
    else maxInstallments.

Definition sess_IsExpired (s : Session) (at_ : Time) : bool := After at_ (sess_expiresAt s).

(** A session offers a card type, a positive total that is the sum of its items, and a
    number of instalments from one to twelve, one on a debit card. *)
Record Session_ok (s : Session) : Prop := {
  sok_ids : trimmed (sess_id s) /\ sess_id s <> "" /\ trimmed (sess_tenantID s) /\
            sess_tenantID s <> "";
  sok_total : Money_ok (sess_total s) /\
    cents (sess_total s) = sumZ (map item_amountCents (sess_items s));
  sok_card : CardType_valid (sess_cardType s) = true;
  sok_installments : 1 <= sess_maxInstallments s <= MaxInstallmentsLimit;
  sok_debit : sess_cardType s = CardDebit -> sess_maxInstallments s = 1
}.

Lemma NewItem_Ok d a it : NewItem d a = Ok it ->
  item_amountCents it = a /\ 0 < a /\ trimmed (item_description it) /\ item_description it <> "".
Proof.
  unfold NewItem. cbv zeta. case_bool_decide; [done|]. destruct (Z.leb_spec a 0); [done|].
  intros. simplify_eq/=. auto with go.
Qed.

Lemma NormalizeInstallments_Ok card n m : NormalizeInstallments card n = Ok m ->
  1 <= m <= MaxInstallmentsLimit /\ (card = CardDebit -> m = 1) /\ (0 < n -> m = n).
Proof.
  unfold NormalizeInstallments, MaxInstallmentsLimit, DefaultInstallments. intros H.
  destruct (Z.leb_spec n 0); [simplify_eq; split_and!; lia|].
  destruct (Z.ltb_spec 12 n); [done|].
  destruct (bool_decide (card = CardDebit) && (1 <? n)) eqn:E; [done|]. simplify_eq.
  split_and!; [lia..| |done]. intros ->. rewrite bool_decide_true in E by done.
  cbn [andb] in E. apply Z.ltb_ge in E. lia.
Qed.

Lemma affordable total n : in64 total ->
  let r := AffordableInstallments total n in
  1 <= r <= Z.max 1 n /\ (r = 1 \/ r * MinInstallmentCents <= total) /\
  (forall k, 1 < k <= n -> k * MinInstallmentCents <= total -> k <= r).
Proof.
  intros Ht. cbv zeta. unfold AffordableInstallments, MinInstallmentCents, DefaultInstallments.
  destruct (Z.leb_spec n 1); [cbn [orb]; split_and!; lia|].
  destruct (Z.leb_spec total 0); cbn [orb]; [split_and!; lia|].
  rewrite div64_nonneg by (done || lia).
  assert (Hk : forall k, k * 500 <= total <-> k <= total / 500)
    by (intros; Z.to_euclidean_division_equations; lia).
  destruct (Z.ltb_spec (total / 500) 1); [|destruct (Z.ltb_spec (total / 500) n)];
    split_and!; try lia; try (right; apply Hk; lia); intros k ? ?%Hk; lia.
Qed.

(** The instalments offered are the most the buyer can take up: not more than asked
    for, each of at least the bank's minimum when there is more than one, and no larger
    number would do. *)
Theorem affordable_exact total n (Ht : in64 total) :
  let r := AffordableInstallments total n in
  1 <= r <= Z.max 1 n /\
  (r = 1 \/ r * MinInstallmentCents <= total) /\
  (forall k, 1 < k <= n -> k * MinInstallmentCents <= total -> k <= r).
Proof. by apply affordable. Qed.
Lemma affordable_exact_witness :
  AffordableInstallments 1500 6 = 3 /\ 3 * MinInstallmentCents <= 1500.
Proof.
  pose proof (affordable_exact 1500 6) as H. split; [vm_compute; reflexivity|].
  lapply H; [clear H; intros (_ & [H|H] & _); [discriminate H|exact H]|split; discriminate].
Defined.

Lemma checkout_New_Ok id tenant cur items exp s : checkout_New id tenant cur items exp = Ok s ->
  sess_id s = TrimSpace id /\ sess_id s <> "" /\ sess_tenantID s = TrimSpace tenant /\
  sess_tenantID s <> "" /\ sess_items s = items /\ items <> [] /\ sess_expiresAt s = exp /\
  SumCents_from 0 (map item_amountCents items) = Ok (cents (sess_total s)) /\
  Money_ok (sess_total s) /\ currency (sess_total s) = cur.
Proof.
  unfold checkout_New. cbv zeta. intros H. repeat (case_bool_decide; [done|]).
  destruct (IsZero exp); [done|]. destruct (SumCents_from _ _) as [sum|] eqn:Es; [|done].
  destruct (NewMoney sum cur) as [m|] eqn:Em; [|done]. simplify_eq/=.
  apply NewMoney_Ok in Em as (? & ? & ->). done.
Qed.

Lemma WithCard_Ok s card auth n s' : WithCard s card auth n = Ok s' ->
  CardType_valid card = true /\ exists k, NormalizeInstallments card n = Ok k /\
  s' = {| sess_id := sess_id s; sess_tenantID := sess_tenantID s; sess_items := sess_items s;
          sess_total := sess_total s; sess_expiresAt := sess_expiresAt s; sess_cardType := card;
          sess_requireAuth := auth; sess_maxInstallments := k |}.
Proof.
  unfold WithCard. destruct (CardType_valid card); [|done]. cbn [negb].
  destruct (NormalizeInstallments card n) as [k|]; [|done]. intros. simplify_eq/=. by eauto.
Qed.
