(* ===== verification/AuditTrail.v ===== *)
(** internal/domain/audit: the closed vocabulary of audit actions and the
    constructors of the append-only trail's entries.  internal/domain/access: the register of
    reads of personal data, the pseudonymised subject reference and the retention policy. *)
From S2P Require Import Prelude GoStrings GoTime GoCrypto Shared Tenants Mandates.
Notation Action := string (only parsing).
Definition ActionCreateTenant : Action := "tenant.create".
Definition ActionSetEndpointPrice : Action := "pricing.set".
Definition ActionSetBankCredential : Action := "credential.set".
Definition ActionSetCreditorKey : Action := "credential.creditor_key.set".
Definition ActionSuspendTenant : Action := "tenant.suspend".
Definition ActionActivateTenant : Action := "tenant.activate".
Definition ActionRenameTenant : Action := "tenant.rename".
Definition ActionRenameAccount : Action := "account.rename".
Definition ActionSuspendAccount : Action := "account.suspend".
Definition ActionActivateAccount : Action := "account.activate".
Definition ActionRemoveBankConfig : Action := "bank_config.remove".
Definition ActionSettlementAmountMismatch : Action := "settlement.amount_mismatch".
Definition ActionRecCreated : Action := "recurrence.created".
Definition ActionRecApproved : Action := "recurrence.approved".
Definition ActionRecRejected : Action := "recurrence.rejected".
Definition ActionRecExpired : Action := "recurrence.expired".
Definition ActionRecCancelled : Action := "recurrence.cancelled".
Definition ActionCobRCreated : Action := "recurrence.cobr.created".
Definition ActionCobRCancelled : Action := "recurrence.cobr.cancelled".
Definition ActionSetBankCertificate : Action := "certificate.set".
Definition ActionInvoiceGenerated : Action := "invoice.generated".
Definition ActionMintAccountKey : Action := "account.key_mint".
Definition ActionSetOutboundWebhook : Action := "account.webhook.set".
Definition ActionRotateOutboundWebhookSecret : Action := "account.webhook.rotate_secret".
Definition ActionRemoveOutboundWebhook : Action := "account.webhook.remove".
Definition ActionOutboundWebhookDelivered : Action := "account.webhook.delivered".
Definition ActionOutboundWebhookDeadLettered : Action := "account.webhook.dead_letter".

Definition recurrenceActionByStatus : gmap string Action :=
  list_to_map
    [("CRIADA", ActionRecCreated); ("APROVADA", ActionRecApproved);
     ("REJEITADA", ActionRecRejected); ("EXPIRADA", ActionRecExpired);
     ("CANCELADA", ActionRecCancelled)].

Definition Action_valid (a : Action) : bool :=
  bool_decide (a ∈
    [ActionCreateTenant; ActionSetEndpointPrice; ActionSetBankCredential;
     ActionSetCreditorKey; ActionSuspendTenant; ActionActivateTenant;
     ActionRenameTenant; ActionRenameAccount; ActionSuspendAccount;
     ActionActivateAccount; ActionRemoveBankConfig;
     ActionSettlementAmountMismatch; ActionRecCreated; ActionRecApproved;
     ActionRecRejected; ActionRecExpired; ActionRecCancelled; ActionCobRCreated;
     ActionCobRCancelled; ActionSetBankCertificate; ActionInvoiceGenerated;
     ActionMintAccountKey; ActionSetOutboundWebhook; ActionRotateOutboundWebhookSecret;
     ActionRemoveOutboundWebhook; ActionOutboundWebhookDelivered;
     ActionOutboundWebhookDeadLettered]).

Record Entry := {
  entry_id : string;
  entry_operatorID : string;
  entry_action : Action;
  entry_tenantID : string;
  entry_at : Time;
  entry_txID : string;
  entry_expectedCents : Z;
  entry_receivedCents : Z;
  entry_bankID : string;
  entry_accountID : string;
  entry_origin : string
}.

#[export] Instance Entry_eq_dec : EqDecision Entry.
Proof. solve_decision. Defined.

Definition OriginAdmin : string := "admin".
Definition OriginSelfServe : string := "self-serve".

(** The field test every constructor repeats: trim, refuse the empty string. *)
Definition required (field msg s : string) : res string :=
  let s := TrimSpace s in
  refuse (bool_decide (s = "")) with (NewValidationError field msg) ;; Ok s.
Definition required_id : string -> res string := required "id" "audit entry id is required".
Definition required_tenant : string -> res string :=
  required "tenant_id" "tenant id is required".
Definition required_account : string -> res string :=
  required "account_id" "account id is required".
Definition required_bank : string -> res string := required "bank_id" "bank id is required".
Definition required_tx : string -> res string := required "tx_id" "tx id is required".

(** The struct literal, the fields a constructor leaves out being zero. *)
Definition mk_entry (id operatorID : string) (action : Action) (tenantID : string) (at_ : Time)
    (txID : string) (expected received : Z) (bankID accountID origin : string) : Entry :=
  {| entry_id := id; entry_operatorID := TrimSpace operatorID; entry_action := action;
     entry_tenantID := tenantID; entry_at := at_; entry_txID := txID;
     entry_expectedCents := expected; entry_receivedCents := received;
     entry_bankID := bankID; entry_accountID := accountID; entry_origin := origin |}.

Definition NewEntry (id operatorID : string) (action : Action) (tenantID : string) (at_ : Time)
    : res Entry :=
  let? id := required_id id in
  refuse (negb (Action_valid action))
    with (NewValidationError "action" "unknown audit action") ;;
  let? tenantID := required_tenant tenantID in
  Ok (mk_entry id operatorID action tenantID at_ "" 0 0 "" "" "").

Definition accountActionValid (action : Action) : bool :=
  bool_decide (action ∈ [ActionRenameAccount; ActionSuspendAccount; ActionActivateAccount]).

Definition NewAccountActionEntry (id operatorID : string) (action : Action)
    (accountID : string) (at_ : Time) : res Entry :=
  let? id := required_id id in
  refuse (negb (accountActionValid action))
    with (NewValidationError "action" "unknown account audit action") ;;
  let? accountID := required_account accountID in
  Ok (mk_entry id operatorID action "" at_ "" 0 0 "" accountID "").

Definition NewAccountKeyMintEntry (id operatorID accountID : string) (at_ : Time) : res Entry :=
  let? id := required_id id in
  let? accountID := required_account accountID in
  Ok (mk_entry id operatorID ActionMintAccountKey "" at_ "" 0 0 "" accountID "").

Definition outboundWebhookActionValid (action : Action) : bool :=
  bool_decide (action ∈ [ActionSetOutboundWebhook; ActionRotateOutboundWebhookSecret;
                         ActionRemoveOutboundWebhook]).

Definition NewOutboundWebhookEntry (id operatorID : string) (action : Action)
    (accountID : string) (at_ : Time) : res Entry :=
  let? id := required_id id in
  refuse (negb (outboundWebhookActionValid action))
    with (NewValidationError "action" "unknown outbound webhook audit action") ;;
  let? accountID := required_account accountID in
  Ok (mk_entry id operatorID action "" at_ "" 0 0 "" accountID "").

Definition outboundDeliveryActionValid (action : Action) : bool :=
  bool_decide (action ∈ [ActionOutboundWebhookDelivered; ActionOutboundWebhookDeadLettered]).

Definition NewOutboundDeliveryEntry (id operatorID : string) (action : Action)
    (accountID eventKey : string) (at_ : Time) : res Entry :=
  let? id := required_id id in
  refuse (negb (outboundDeliveryActionValid action))
    with (NewValidationError "action" "unknown outbound delivery audit action") ;;
  let? accountID := required_account accountID in
  Ok (mk_entry id operatorID action "" at_ (TrimSpace eventKey) 0 0 "" accountID "").

Definition NewBankConfigRemovedEntry (id operatorID tenantID bankID : string) (at_ : Time)
    : res Entry :=
  let? id := required_id id in
  let? tenantID := required_tenant tenantID in
  let? bankID := required_bank bankID in
  Ok (mk_entry id operatorID ActionRemoveBankConfig tenantID at_ "" 0 0 bankID "" "").

Definition NewCredentialSetEntry (id operatorID tenantID bankID : string) (at_ : Time)
    : res Entry :=
  let? id := required_id id in
  let? tenantID := required_tenant tenantID in
  let? bankID := required_bank bankID in
  Ok (mk_entry id operatorID ActionSetBankCredential tenantID at_ "" 0 0 bankID "" "").

Definition set_origin (e : Entry) (origin : string) : Entry :=
  mk_entry (entry_id e) (entry_operatorID e) (entry_action e) (entry_tenantID e) (entry_at e)
    (entry_txID e) (entry_expectedCents e) (entry_receivedCents e) (entry_bankID e)
    (entry_accountID e) origin.

Definition NewSelfServeCredentialSetEntry (id operatorID tenantID bankID : string) (at_ : Time)
    : res Entry :=
  let? e := NewCredentialSetEntry id operatorID tenantID bankID at_ in
  Ok (set_origin e OriginSelfServe).

Definition NewCreditorKeySetEntry (id operatorID tenantID bankID : string) (at_ : Time)
    : res Entry :=
  let? id := required_id id in
  let? tenantID := required_tenant tenantID in
  let? bankID := required_bank bankID in
  Ok (mk_entry id operatorID ActionSetCreditorKey tenantID at_ "" 0 0 bankID "" "").

Definition NewCertificateSetEntry (id operatorID tenantID bankID fingerprint : string)
    (at_ : Time) : res Entry :=
  let? id := required_id id in
  let? tenantID := required_tenant tenantID in
  let? bankID := required_bank bankID in
  let? fingerprint :=
    required "fingerprint" "certificate fingerprint is required" fingerprint in
  Ok (mk_entry id operatorID ActionSetBankCertificate tenantID at_ fingerprint 0 0 bankID "" "").

Definition NewSelfServeCertificateSetEntry (id operatorID tenantID bankID fingerprint : string)
    (at_ : Time) : res Entry :=
  let? e := NewCertificateSetEntry id operatorID tenantID bankID fingerprint at_ in
  Ok (set_origin e OriginSelfServe).

Definition NewSettlementMismatchEntry (id operatorID tenantID txID : string)
    (expectedCents receivedCents : Z) (at_ : Time) : res Entry :=
  let? id := required_id id in
  let? tenantID := required_tenant tenantID in
  let? txID := required_tx txID in
  Ok (mk_entry id operatorID ActionSettlementAmountMismatch tenantID at_ txID
        expectedCents receivedCents "" "" "").

Definition NewRecurrenceTransitionEntry (id operatorID tenantID idRec toStatus : string)
    (at_ : Time) : res Entry :=
  let? id := required_id id in
  let? tenantID := required_tenant tenantID in
  let? idRec := required "id_rec" "id rec is required" idRec in
  match recurrenceActionByStatus !! TrimSpace toStatus with
  | None => Err (NewValidationError "status" "unknown recurrence transition status")
  | Some action => Ok (mk_entry id operatorID action tenantID at_ idRec 0 0 "" "" "")
  end.

Definition NewCobROriginationEntry (id operatorID tenantID txID : string) (at_ : Time)
    : res Entry :=
  let? id := required_id id in
  let? tenantID := required_tenant tenantID in
  let? txID := required_tx txID in
  Ok (mk_entry id operatorID ActionCobRCreated tenantID at_ txID 0 0 "" "" "").

Definition NewCobRCancellationEntry (id operatorID tenantID txID : string) (at_ : Time)
    : res Entry :=
  let? id := required_id id in
  let? tenantID := required_tenant tenantID in
  let? txID := required_tx txID in
  Ok (mk_entry id operatorID ActionCobRCancelled tenantID at_ txID 0 0 "" "" "").

Definition entry_AccountID (e : Entry) : string :=
  if negb (bool_decide (entry_accountID e = "")) then entry_accountID e
  else SelfAccountID (entry_tenantID e).

Definition entry_Origin (e : Entry) : string :=
  if bool_decide (entry_origin e = "") then OriginAdmin else entry_origin e.

Lemma required_Ok field msg s v :
  required field msg s = Ok v <-> TrimSpace s <> "" /\ v = TrimSpace s.
Proof. unfold required. cbv zeta. case_bool_decide; naive_solver. Qed.

Lemma NewEntry_Ok id op action t at_ e : NewEntry id op action t at_ = Ok e ->
  entry_action e = action /\ entry_tenantID e = TrimSpace t.
Proof.
  unfold NewEntry, required_id, required_tenant. intros H.
  destruct (required "id" _ id) as [i|]; [|done]. destruct (negb _); [done|].
  destruct (required "tenant_id" _ t) as [t'|] eqn:Et; [|done].
  apply required_Ok in Et as [_ ->]. by injection H as <-.
Qed.
Lemma NewSettlementMismatchEntry_Ok id op t tx ex rc at_ e :
  NewSettlementMismatchEntry id op t tx ex rc at_ = Ok e ->
  entry_action e = ActionSettlementAmountMismatch /\ entry_tenantID e = TrimSpace t /\
  entry_txID e = TrimSpace tx /\ entry_expectedCents e = ex /\ entry_receivedCents e = rc.
Proof.
  unfold NewSettlementMismatchEntry, required_id, required_tenant, required_tx. intros H.
  repeat match type of H with
  | (match required ?f ?m ?s with _ => _ end) = _ =>
      destruct (required f m s) eqn:?; [|done]
  end. simplify_eq/=.
  repeat match goal with H : required _ _ _ = Ok _ |- _ => apply required_Ok in H as [_ ->] end.
  done.
Qed.

(** Every status of a mandate has its audit action, and no other text does. *)
Lemma recurrence_action_total s :
  is_Some (recurrenceActionByStatus !! s) <-> RecStatus_valid s = true.
Proof.
  unfold recurrenceActionByStatus. rewrite lookup_literal, fmap_is_Some.
  unfold RecStatus_valid. rewrite bool_decide_eq_true. simpl.
  rewrite !elem_of_cons.
  unfold RecCriada, RecAprovada, RecRejeitada, RecExpirada, RecCancelada.
  split.
  - repeat case_bool_decide; simpl; intros [? Hs]; subst; simplify_eq; auto 10.
  - intros [->|[->|[->|[->|[->|[]%not_elem_of_nil]]]]]; eexists; reflexivity.
Qed.

(** * The register of reads of personal data *)
Notation AccessAction := string (only parsing).
Definition ActionReadRec : AccessAction := "pii.read.rec".
Definition ActionReadDDA : AccessAction := "pii.read.dda".
Definition ActionReadStatement : AccessAction := "pii.read.statement".

Definition AccessAction_valid (a : AccessAction) : bool :=
  bool_decide (a ∈ [ActionReadRec; ActionReadDDA; ActionReadStatement]).

Record AccessEntry := {
  access_id : string;
  access_at : Time;
  access_durationMs : Z;
  access_tenantID : string;
  access_clientID : string;
  access_operatorID : string;
  access_subjectRef : string;
  access_object : string;
  access_action : AccessAction
}.

#[export] Instance AccessEntry_eq_dec : EqDecision AccessEntry.
Proof. solve_decision. Defined.

Record AccessParams := {
  ap_ID : string;
  ap_At : Time;
  ap_Duration : Z;
  ap_TenantID : string;
  ap_ClientID : string;
  ap_OperatorID : string;
  ap_SubjectRef : string;
  ap_Object : string;
  ap_Action : AccessAction
}.

Definition millisecond : Z := 1000000.

Definition NewAccessEntry (p : AccessParams) : res AccessEntry :=
  let id := TrimSpace (ap_ID p) in
  refuse (bool_decide (id = ""))
    with (NewValidationError "id" "access entry id is required") ;;
  refuse (negb (AccessAction_valid (ap_Action p)))
    with (NewValidationError "action" "unknown access action") ;;
  let tenantID := TrimSpace (ap_TenantID p) in
  refuse (bool_decide (tenantID = ""))
    with (NewValidationError "tenant_id" "tenant id is required") ;;
  let subjectRef := TrimSpace (ap_SubjectRef p) in
  refuse (bool_decide (subjectRef = ""))
    with (NewValidationError "subject_ref" "subject_ref is required") ;;
  let object := TrimSpace (ap_Object p) in
  refuse (bool_decide (object = ""))
    with (NewValidationError "object" "object is required") ;;
  refuse (ap_Duration p <? 0)
    with (NewValidationError "duration" "duration must not be negative") ;;
  Ok {| access_id := id;
        access_at := ap_At p;
        access_durationMs := div64 (ap_Duration p) millisecond;
        access_tenantID := tenantID;
        access_clientID := TrimSpace (ap_ClientID p);
        access_operatorID := TrimSpace (ap_OperatorID p);
        access_subjectRef := subjectRef;
        access_object := object;
        access_action := ap_Action p |}.

(** The digits of a document, whatever its punctuation. *)
Definition normalizeDoc (doc : string) : string :=
  string_of (List.filter digit (bytes_of doc)).

Record Pseudonymizer := { pseudo_key : string }.

Definition NewPseudonymizer (key : string) : res Pseudonymizer :=
  refuse (len key <? 16)
    with (NewValidationError "key" "subject pseudonymizer key must be at least 16 bytes") ;;
  Ok {| pseudo_key := key |}.

Definition Pseudonymizer_Ref (p : Pseudonymizer) (doc : string) : string :=
  ("hmac-sha256:" ++ hmac_sha256_hex (pseudo_key p) (normalizeDoc doc))%string.

Record RetentionPolicy := { retention_window : Z }.
Definition DefaultRetention : Z := 180 * day_ns.

Definition NewRetentionPolicy (window : Z) : res RetentionPolicy :=
  refuse (window <=? 0)
    with (NewValidationError "window" "retention window must be positive") ;;
  Ok {| retention_window := window |}.

Definition RetentionPolicy_Cutoff (r : RetentionPolicy) (now : Time) : Time :=
  Add now (- retention_window r).

(** The reference does not depend on how the document was punctuated. *)
Lemma Ref_punctuation p d1 d2 :
  normalizeDoc d1 = normalizeDoc d2 -> Pseudonymizer_Ref p d1 = Pseudonymizer_Ref p d2.
Proof. unfold Pseudonymizer_Ref. by intros ->. Qed.

Lemma normalizeDoc_digits doc : all_digits (normalizeDoc doc) = true.
Proof.
  unfold all_digits, normalizeDoc. rewrite bytes_string.
  induction (bytes_of doc) as [|c l IH]; [done|]. simpl.
  destruct (digit c) eqn:E; simpl; [by rewrite E|done].
Qed.
