(* ===== verification/Capabilities.v ===== *)
(** Opaque bearer secrets: their encoding (encoding/base64's RawURLEncoding over the random
    bytes), and what a store of digests has to promise: of the secrets granted to a holder
    only the last one stands.  The account keys and the webhook references both refine it.  Then the
    process-local idempotency guards of internal/app: a map from account and key to what the
    first call did and when, with entries dropped once they are older than a span. *)
From S2P Require Import Prelude GoStrings GoTime GoCrypto.

(** * base64.RawURLEncoding *)
Definition url_digit (z : Z) : ascii :=
  asciiZ (if z <? 26 then 65 + z else if z <? 52 then 71 + z else if z <? 62 then z - 4
          else if z =? 62 then 45 else 95).

Fixpoint raw_url (l : bytes) : bytes :=
  match l with
  | a :: b :: c :: rest =>
      url_digit (byteZ a / 4)
      :: url_digit (byteZ a mod 4 * 16 + byteZ b / 16)
      :: url_digit (byteZ b mod 16 * 4 + byteZ c / 64)
      :: url_digit (byteZ c mod 64)
      :: raw_url rest
  | [a; b] =>
      [url_digit (byteZ a / 4); url_digit (byteZ a mod 4 * 16 + byteZ b / 16);
       url_digit (byteZ b mod 16 * 4)]
  | [a] => [url_digit (byteZ a / 4); url_digit (byteZ a mod 4 * 16)]
  | [] => []
  end.
Definition RawURLEncoding (l : bytes) : string := string_of (raw_url l).

(** The characters of the encoding. *)
Definition url_char (c : ascii) : bool :=
  let n := code c in
  ((65 <=? n) && (n <=? 90) || (97 <=? n) && (n <=? 122) || (48 <=? n) && (n <=? 57)
   || (n =? 45) || (n =? 95))%N.

Lemma byteZ_range c : 0 <= byteZ c < 256.
Proof. unfold byteZ, code. pose proof (N_ascii_bounded c). lia. Qed.

Lemma code_asciiZ z : 0 <= z < 256 -> code (asciiZ z) = Z.to_N z.
Proof. intros Hz. unfold code, asciiZ. apply N_ascii_embedding. lia. Qed.

Lemma url_digit_char z : 0 <= z < 64 -> url_char (url_digit z) = true.
Proof.
  intros Hz. unfold url_char, url_digit.
  rewrite code_asciiZ by (repeat case_match; lia).
  repeat case_match; rewrite ?orb_true_iff, ?andb_true_iff, ?N.leb_le, ?N.eqb_eq; lia.
Qed.

Lemma raw_url_chars l : forallb url_char (raw_url l) = true.
Proof.
  induction l as [l IH] using (induction_ltof1 _ (@List.length ascii)).
  destruct l as [|a [|b [|c rest]]]; cbn [raw_url forallb]; [done|..];
    rewrite ?url_digit_char by
      (pose proof (byteZ_range a); try (pose proof (byteZ_range b));
       try (pose proof (byteZ_range c)); Z.to_euclidean_division_equations; lia).
  - done.
  - done.
  - cbn [andb]. apply IH. unfold ltof. cbn. lia.
Qed.

Lemma length_raw_url n l : List.length l = (3 * n)%nat ->
  forall tl, List.length (raw_url (l ++ tl)) = (4 * n + List.length (raw_url tl))%nat.
Proof.
  revert l. induction n as [|n IH]; intros l Hl tl.
  - destruct l; [done|cbn in Hl; lia].
  - destruct l as [|a [|b [|c l]]]; cbn in Hl; try lia. cbn [app raw_url List.length].
    rewrite IH by lia. lia.
Qed.

Lemma length_raw_url32 l : List.length l = 32%nat -> List.length (raw_url l) = 43%nat.
Proof.
  intros Hl. rewrite <- (firstn_skipn 30 l), (length_raw_url 10) by (rewrite length_firstn; lia).
  assert (Hs : List.length (skipn 30 l) = 2%nat) by (rewrite length_skipn; lia).
  by destruct (skipn 30 l) as [|a [|b [|]]].
Qed.

(** * Standing grants

    The abstract store: which digest each holder has. *)
Inductive cap_op :=
| Grant (holder digest : string)
| Withdraw (holder : string).

Definition cap_step (m : gmap string string) (o : cap_op) : gmap string string :=
  match o with Grant h d => <[h := d]> m | Withdraw h => delete h m end.
Definition held (ops : list cap_op) : gmap string string := foldl cap_step ∅ ops.
Definition granted (ops : list cap_op) : list string :=
  omap (fun o => match o with Grant _ d => Some d | Withdraw _ => None end) ops.

(** An index by digest stands for the grants. *)
Definition indexes (byDigest held : gmap string string) : Prop :=
  forall d h, byDigest !! d = Some h <-> held !! h = Some d.

Lemma held_snoc ops o : held (ops ++ [o]) = cap_step (held ops) o.
Proof. unfold held. by rewrite foldl_app. Qed.

Lemma held_granted ops h d : held ops !! h = Some d -> d ∈ granted ops.
Proof.
  revert h d. induction ops as [|o ops IH] using rev_ind; intros h d; [done|].
  rewrite held_snoc. unfold granted. rewrite omap_app, elem_of_app. fold (granted ops).
  destruct o as [h' d'|h']; cbn [cap_step].
  - destruct (decide (h' = h)) as [->|Hne].
    + rewrite lookup_insert_eq. intros. simplify_eq. right. by left.
    + rewrite lookup_insert_ne by done. eauto.
  - rewrite lookup_delete_Some. intros [_ ?]. eauto.
Qed.

(** A new digest for a holder: the holder's old entry goes, the new one comes. *)
Lemma indexes_grant byD byD' m h d :
  indexes byD m -> byD !! d = None ->
  (forall d', byD' !! d' = if decide (d' = d) then Some h
                           else if decide (m !! h = Some d') then None else byD !! d') ->
  indexes byD' (<[h := d]> m).
Proof.
  intros Hi Hf Hb d' h'. rewrite Hb. destruct (decide (d' = d)) as [->|Hd].
  - split; [intros; simplify_eq; by rewrite lookup_insert_eq|].
    rewrite lookup_insert_Some. intros [[-> _]|[_ Hm]]; [done|].
    apply Hi in Hm. congruence.
  - rewrite lookup_insert_Some. case_decide as Hh.
    + split; [done|]. intros [[_ ->]|[Hne Hm]]; [done|].
      apply Hi in Hh, Hm. congruence.
    + rewrite (Hi d' h'). split; [intros Hm|intros [[_ ->]|[_ ?]]; done].
      right. split; [|done]. intros ->. congruence.
Qed.

Lemma indexes_withdraw byD byD' m h :
  indexes byD m ->
  (forall d', byD' !! d' = if decide (m !! h = Some d') then None else byD !! d') ->
  indexes byD' (delete h m).
Proof.
  intros Hi Hb d' h'. rewrite Hb, lookup_delete_Some, <- (Hi d' h'). case_decide as Hh.
  - split; [done|]. intros [Hne Hm]. apply Hi in Hh. congruence.
  - split; [|by intros [_ ?]]. intros Hm. split; [|done]. intros ->. apply Hi in Hm. done.
Qed.

(** A run whose digests are distinct grants each of them while no one holds it. *)
Lemma fresh_grant ops h d byD :
  NoDup (granted (ops ++ [Grant h d])) -> indexes byD (held ops) -> byD !! d = None.
Proof.
  unfold granted. rewrite omap_app. cbn. intros Hn Hi.
  apply NoDup_app in Hn as (_ & Hd & _). destruct (byD !! d) as [h'|] eqn:E; [|done].
  apply Hi, held_granted in E. exfalso. apply (Hd d E). by left.
Qed.

(** * Idempotency windows *)
Definition minutes_ns (n : Z) : Z := n * 60 * nsec.

Definition guard_key (accountID idemKey : string) : string := accountID ++ String zero idemKey.

Section guard.
Context {V : Type} (at_ : V -> Time) (ttl : Z).

Definition prune (now : Time) (seen : gmap string V) : gmap string V :=
  filter (fun p => Sub now (at_ p.2) <= ttl) seen.

Lemma prune_keeps now seen k v :
  Sub now (at_ v) <= ttl -> seen !! k = Some v -> prune now seen !! k = Some v.
Proof. intros Hs Hk. apply map_lookup_filter_Some. done. Qed.
Lemma prune_only now seen k v : prune now seen !! k = Some v -> seen !! k = Some v.
Proof. intros [? _]%map_lookup_filter_Some. done. Qed.
End guard.

Lemma Sub_mono t u v : ns t <= ns u -> Sub t v <= Sub u v.
Proof.
  unfold Sub, maxInt64, minInt64. intros.
  repeat case_match; rewrite ?Z.ltb_lt, ?Z.ltb_ge in *; lia.
Qed.
