(* ===== verification/RateLimits.v ===== *)
(** Token buckets: the inbound limiters of internal/adapters/http/ratelimit.go, with the
    arithmetic in doubles as the code has it.  The theorem bounds from both sides what a
    caller is let through over any history, rounding included. *)
From S2P Require Import Prelude GoStrings GoTime GoFloat GoCrypto Capabilities.
From Stdlib Require Import QArith Lqa.
#[global] Open Scope Z_scope.

(** * The limiter *)
Record bucket := { bk_tokens : frac; bk_at : Time }.
Record rateLimiter := { rl_buckets : gmap string bucket; rl_capacity : frac; rl_refill : frac }.
Definition newRateLimiter (capacity refillPerSec : frac) : rateLimiter :=
  {| rl_buckets := ∅; rl_capacity := capacity; rl_refill := refillPerSec |}.
Definition with_bucket (rl : rateLimiter) (key : string) (b : bucket) : rateLimiter :=
  {| rl_buckets := <[key := b]> (rl_buckets rl); rl_capacity := rl_capacity rl;
     rl_refill := rl_refill rl |}.

(** The refilled tokens of a bucket, under the cap. *)
Definition refilled (rl : rateLimiter) (b : bucket) (t : Time) : frac :=
  let elapsed := Seconds (Sub t (bk_at b)) in
  let tokens := dadd (bk_tokens b) (dmul elapsed (rl_refill rl)) in
  if dlt (rl_capacity rl) tokens then rl_capacity rl else tokens.

Definition allow (rl : rateLimiter) (key : string) (t : Time) : rateLimiter * bool :=
  match rl_buckets rl !! key with
  | None =>
      (with_bucket rl key {| bk_tokens := dsub (rl_capacity rl) (d_int 1); bk_at := t |}, true)
  | Some b =>
      let tokens := refilled rl b t in
      if dlt tokens (d_int 1)
      then (with_bucket rl key {| bk_tokens := tokens; bk_at := t |}, false)
      else (with_bucket rl key {| bk_tokens := dsub tokens (d_int 1); bk_at := t |}, true)
  end.

(** ** Keys

    [bearer], [remoteAddr] and [trustedIP] are what the request carries. *)
Fixpoint last_colon (l : bytes) : option bytes :=
  match l with
  | [] => None
  | c :: r =>
      match last_colon r with
      | Some before => Some (c :: before)
      | None => if bool_decide (c = ":"%char) then Some [] else None
      end
  end.
Definition clientIP (trustedIP remoteAddr : string) : string :=
  if negb (bool_decide (trustedIP = "")) then trustedIP
  else match last_colon (bytes_of remoteAddr) with
       | Some before => string_of before
       | None => remoteAddr
       end.
Definition tenantOrIPKey (tenantID trustedIP remoteAddr : string) : string :=
  if negb (bool_decide (tenantID = "")) then "t:" ++ tenantID
  else "ip:" ++ clientIP trustedIP remoteAddr.
Definition adminTokenKey (bearer trustedIP remoteAddr : string) : string :=
  if negb (bool_decide (bearer = ""))
  then "admin:" ++ RawURLEncoding (sha256 (bytes_of bearer))
  else "ip:" ++ clientIP trustedIP remoteAddr.

(** What a middleware does with a request: pass it on, or answer 429 with a Retry-After. *)
Inductive verdict := Pass | TooMany (retryAfter : option Z).
Definition middleware_ (rl : rateLimiter) (key : string) (t : Time) : rateLimiter * verdict :=
  let '(rl, ok) := allow rl key t in (rl, if ok then Pass else TooMany None).
(** The dedicated limiters fail open on an empty principal. *)
Definition dedicated (namespace : string) (rl : rateLimiter) (retryAfterSecs : Z)
    (principal : string) (t : Time) : rateLimiter * verdict :=
  if bool_decide (principal = "") then (rl, Pass)
  else let '(rl, ok) := allow rl (namespace ++ principal) t in
       (rl, if ok then Pass else TooMany (Some retryAfterSecs)).
Definition middlewareSelfServeCred := dedicated "selfserve-cred:".
Definition middlewareSelfServeCert := dedicated "selfserve-cert:".
Definition middlewareAccountKeyRotate := dedicated "account-key-rotate:".
Definition middlewareClientProvision := dedicated "client-provision:".

(** * Histories *)
Fixpoint serve (rl : rateLimiter) (calls : list (string * Time)) : rateLimiter * list bool :=
  match calls with
  | [] => (rl, [])
  | (key, t) :: rest =>
      let '(rl, ok) := allow rl key t in
      let '(rl, oks) := serve rl rest in (rl, ok :: oks)
  end.
(** The answers a key got. *)
Fixpoint answers (key : string) (calls : list (string * Time)) (oks : list bool) : list bool :=
  match calls, oks with
  | (k, _) :: calls, ok :: oks =>
      if bool_decide (k = key) then ok :: answers key calls oks else answers key calls oks
  | _, _ => []
  end.
Definition admitted (oks : list bool) : Z := Z.of_nat (List.length (List.filter id oks)).
Definition calls_of (key : string) (calls : list (string * Time)) : list Time :=
  map snd (List.filter (fun c => bool_decide (c.1 = key)) calls).

(** One key alone. *)
Fixpoint serve_one (rl : rateLimiter) (b : option bucket) (ts : list Time) : list bool :=
  match ts with
  | [] => []
  | t :: rest =>
      let '(rl', ok) := allow {| rl_buckets := match b with Some b => {[ "" := b ]} | None => ∅ end;
                                 rl_capacity := rl_capacity rl; rl_refill := rl_refill rl |} "" t in
      ok :: serve_one rl (rl_buckets rl' !! "") rest
  end.

Lemma allow_local rl key t rl' ok : allow rl key t = (rl', ok) ->
  rl_capacity rl' = rl_capacity rl /\ rl_refill rl' = rl_refill rl /\
  (forall k, k <> key -> rl_buckets rl' !! k = rl_buckets rl !! k) /\
  let '(one, ok1) :=
    allow {| rl_buckets := match rl_buckets rl !! key with Some b => {[ "" := b ]} | None => ∅ end;
             rl_capacity := rl_capacity rl; rl_refill := rl_refill rl |} "" t in
  ok1 = ok /\ rl_buckets one !! "" = rl_buckets rl' !! key.
Proof.
  unfold allow at 1. destruct (rl_buckets rl !! key) as [b|] eqn:Eb.
  - destruct (dlt (refilled rl b t) (d_int 1)) eqn:Ed; intros [= <- <-]; cbn [with_bucket rl_capacity rl_refill rl_buckets];
      (split_and!; [done|done|by intros k Hk; rewrite lookup_insert_ne|]);
      unfold allow; cbn [rl_buckets]; rewrite lookup_singleton_eq;
      change (refilled {| rl_buckets := {[ "" := b ]}; rl_capacity := rl_capacity rl; rl_refill := rl_refill rl |} b t)
        with (refilled rl b t); rewrite Ed; cbn [with_bucket rl_buckets]; by rewrite !lookup_insert_eq.
  - intros [= <- <-]. cbn [with_bucket rl_capacity rl_refill rl_buckets].
    split_and!; [done|done|by intros k Hk; rewrite lookup_insert_ne|].
    unfold allow. cbn [rl_buckets]. rewrite lookup_empty. cbn [with_bucket rl_buckets].
    by rewrite !lookup_insert_eq.
Qed.

Lemma serve_key key calls : forall rl,
  answers key calls (snd (serve rl calls)) = serve_one rl (rl_buckets rl !! key) (calls_of key calls).
Proof.
  induction calls as [|[k t] calls IH]; intros rl; [done|]. cbn [serve].
  destruct (allow rl k t) as [rl' ok] eqn:Ea. pose proof (allow_local _ _ _ _ _ Ea) as (Hc & Hr & Hother & Hone).
  specialize (IH rl'). destruct (serve rl' calls) as [rl'' oks]. cbn [snd answers] in *.
  assert (Hsame : forall b ts, serve_one rl' b ts = serve_one rl b ts).
  { clear -Hc Hr. intros b ts. revert b. induction ts as [|t ts IHts]; intros b; [done|]. cbn [serve_one].
    rewrite Hc, Hr. destruct (allow _ "" t). by rewrite IHts. }
  unfold calls_of in *. cbn [List.filter fst]. destruct (decide (k = key)) as [->|Hne].
  - rewrite (bool_decide_true _ eq_refl). cbn [map snd serve_one].
    destruct (allow _ "" t) as [one ok1], Hone as [-> ->]. by rewrite IH, Hsame.
  - rewrite !(bool_decide_false _ Hne). by rewrite IH, Hsame, Hother by congruence.
Qed.

(** * How many calls get through *)
Definition limiter_ok (rl : rateLimiter) : Prop :=
  pos_den (rl_capacity rl) /\ pos_den (rl_refill rl) /\
  (1 <= val (rl_capacity rl) <= 4503599627370496 # 1)%Q /\ (0 <= val (rl_refill rl))%Q.
Definition bucket_ok (rl : rateLimiter) (b : bucket) : Prop :=
  pos_den (bk_tokens b) /\ (0 <= val (bk_tokens b) <= val (rl_capacity rl))%Q.
(** The tokens a stretch of time is worth, exactly. *)
Definition worth (rl : rateLimiter) (d : Z) : Q := val (rl_refill rl) * secs d.
Definition count (ok : bool) : Q := if ok then 1 else 0.

Definition d_one : frac := d_int 1.
Lemma val_one : pos_den (d_int 1) /\ (val (d_int 1) == 1)%Q.
Proof. split; [reflexivity|]. vm_compute. reflexivity. Qed.

Lemma secs_nonneg d : 0 <= d -> (0 <= secs d)%Q.
Proof. intros Hd. unfold secs. apply Qmult_le_0_compat; [unfold Qle; cbn; lia|lra]. Qed.

Lemma refill_bounds rl b t : limiter_ok rl -> bucket_ok rl b -> 0 <= ns t - ns (bk_at b) <= maxInt64 ->
  let y := worth rl (ns t - ns (bk_at b)) in
  pos_den (refilled rl b t) /\ (0 <= val (refilled rl b t) <= val (rl_capacity rl))%Q /\
  (val (refilled rl b t) <= val (bk_tokens b) + y * (1 + 8 * eps) + val (rl_capacity rl) * eps)%Q /\
  (1 + 8 * eps <= y -> 1 <= val (refilled rl b t))%Q.
Proof.
  intros (HpC & Hpr & HC & Hr) [HpT HT] Hd y. set (d := ns t - ns (bk_at b)) in *.
  assert (Hsub : Sub t (bk_at b) = d).
  { unfold Sub. fold d. destruct (Z.ltb_spec maxInt64 d); [lia|]. destruct (Z.ltb_spec d minInt64); [|done].
    unfold minInt64 in *. lia. }
  unfold refilled. rewrite Hsub. cbv zeta.
  destruct (Seconds_rel d (proj1 Hd)) as (Hps & Hs0 & Hs). set (s := Seconds d) in *.
  destruct (dmul_rel s (rl_refill rl) Hps Hpr Hs0 Hr) as (Hpm & Hm0 & Hm). set (m := dmul s _) in *.
  assert (Hy0 : (0 <= y)%Q) by (apply Qmult_le_0_compat; [done|apply secs_nonneg; lia]).
  assert (Hlo : (y * (1 - 4 * eps) <= val s * val (rl_refill rl))%Q).
  { unfold y, worth. setoid_replace (val (rl_refill rl) * secs d * (1 - 4 * eps))%Q
      with (secs d * (1 - 4 * eps) * val (rl_refill rl))%Q using relation Qeq by ring. apply Qmult_le_compat_r; [lra|done]. }
  assert (Hhi : (val s * val (rl_refill rl) <= y * (1 + 4 * eps))%Q).
  { unfold y, worth. setoid_replace (val (rl_refill rl) * secs d * (1 + 4 * eps))%Q
      with (secs d * (1 + 4 * eps) * val (rl_refill rl))%Q using relation Qeq by ring. apply Qmult_le_compat_r; [lra|done]. }
  destruct (dadd_rel (bk_tokens b) m HpT Hpm ltac:(lra)) as (Hpa & Ha0 & Ha). set (a := dadd _ m) in *.
  set (sr := (val s * val (rl_refill rl))%Q) in *. unfold eps in *.
  assert (Hup : (val a <= val (bk_tokens b) + y * (1 + 8 * (1 # 9007199254740992)) +
                 val (rl_capacity rl) * (1 # 9007199254740992))%Q) by lra.
  assert (Hbig : (1 + 8 * (1 # 9007199254740992) <= y -> 1 <= val a)%Q) by (intros; lra).
  destruct (dlt (rl_capacity rl) a) eqn:Ec.
  - apply val_lt in Ec; [|done..]. split; [done|]. split; [lra|]. split; [lra|]. intros; lra.
  - assert (Hle : (val a <= val (rl_capacity rl))%Q).
    { destruct (Qlt_le_dec (val (rl_capacity rl)) (val a)) as [H|H]; [|done].
      apply val_lt in H; [|done..]. congruence. }
    split; [done|]. split; [lra|]. split; [done|done].
Qed.

Lemma take_token rl f : limiter_ok rl -> pos_den f -> (1 <= val f <= val (rl_capacity rl))%Q ->
  pos_den (dsub f (d_int 1)) /\ (0 <= val (dsub f (d_int 1)) <= val (rl_capacity rl))%Q /\
  (1 + val (dsub f (d_int 1)) <= val f + val (rl_capacity rl) * eps)%Q.
Proof.
  intros (_ & _ & HC & _) Hp Hf. destruct val_one as [Hp1 E1].
  destruct (dsub_rel f (d_int 1) Hp Hp1 ltac:(lra)) as (Hps & H0 & Hb). rewrite E1 in Hb.
  unfold eps in *. split; [done|]. split; lra.
Qed.

Lemma allow_step rl b t : limiter_ok rl -> bucket_ok rl b -> 0 <= ns t - ns (bk_at b) <= maxInt64 ->
  let y := worth rl (ns t - ns (bk_at b)) in
  let '(rl', ok) := allow {| rl_buckets := {[ "" := b ]}; rl_capacity := rl_capacity rl;
                             rl_refill := rl_refill rl |} "" t in
  exists b', rl_buckets rl' !! "" = Some b' /\ bucket_ok rl b' /\ bk_at b' = t /\
    (count ok + val (bk_tokens b') <=
       val (bk_tokens b) + y * (1 + 8 * eps) + val (rl_capacity rl) * (2 * eps))%Q /\
    (1 + 8 * eps <= y -> Is_true ok)%Q /\
    (count ok + val (bk_tokens b') <= val (rl_capacity rl) + val (rl_capacity rl) * (2 * eps))%Q.
Proof.
  intros Hok Hb Hd y. destruct (refill_bounds rl b t Hok Hb Hd) as (Hp & HT & Hup & Hbig). fold y in Hup, Hbig.
  unfold allow. cbn [rl_buckets]. rewrite lookup_singleton_eq.
  change (refilled {| rl_buckets := {[ "" := b ]}; rl_capacity := rl_capacity rl; rl_refill := rl_refill rl |} b t)
    with (refilled rl b t).
  destruct val_one as [Hp1 E1]. destruct (proj1 (proj2 (proj2 Hok))) as [HC _].
  destruct (dlt (refilled rl b t) (d_int 1)) eqn:El.
  - apply val_lt in El; [|done..]. rewrite E1 in El. eexists. cbn [with_bucket rl_buckets].
    rewrite lookup_insert_eq. split; [done|]. split; [by split|]. split; [done|]. cbn [count bk_tokens].
    unfold eps in *. split; [lra|]. split; [|lra]. intros H. specialize (Hbig H). lra.
  - assert (H1 : (1 <= val (refilled rl b t))%Q).
    { destruct (Qlt_le_dec (val (refilled rl b t)) 1) as [H|H]; [|done].
      rewrite <- E1 in H. apply val_lt in H; [|done..]. congruence. }
    destruct (take_token rl _ Hok Hp (conj H1 (proj2 HT))) as (Hp' & HT' & Hsum).
    eexists. cbn [with_bucket rl_buckets]. rewrite lookup_insert_eq.
    split; [done|]. split; [by split|]. split; [done|]. cbn [count bk_tokens].
    unfold eps in *. split; [lra|]. split; [done|lra].
Qed.

(** Calls in the order of their clock readings, within a span a duration can hold. *)
Fixpoint in_order (u : Time) (ts : list Time) : Prop :=
  match ts with [] => True | t :: rest => 0 <= ns t - ns u <= maxInt64 /\ in_order t rest end.
Definition span (u : Time) (ts : list Time) : Z := ns (List.last ts u) - ns u.

Lemma span_cons u t ts : span u (t :: ts) = ns t - ns u + span t ts.
Proof.
  unfold span. destruct ts as [|t' ts]; [cbn; lia|].
  change (List.last (t :: t' :: ts) u) with (List.last (t' :: ts) u).
  assert (E : forall (l : list Time) a x y, List.last (a :: l) x = List.last (a :: l) y).
  { induction l as [|b l IH]; intros a x y; [done|]. exact (IH b x y). }
  rewrite (E ts t' u t). lia.
Qed.

Lemma admitted_cons ok oks : (inject_Z (admitted (ok :: oks)) == count ok + inject_Z (admitted oks))%Q.
Proof.
  unfold admitted. destruct ok; cbn [List.filter id List.length count].
  - rewrite Nat2Z.inj_succ, <- Z.add_1_l, inject_Z_plus. done.
  - lra.
Qed.

Lemma serve_one_bound rl ts : limiter_ok rl -> forall b, bucket_ok rl b -> in_order (bk_at b) ts ->
  (inject_Z (admitted (serve_one rl (Some b) ts)) <=
     val (bk_tokens b) + worth rl (span (bk_at b) ts) * (1 + 8 * eps) +
     inject_Z (Z.of_nat (List.length ts)) * (val (rl_capacity rl) * (2 * eps)))%Q.
Proof.
  intros Hok. induction ts as [|t ts IH]; intros b Hb Hord.
  - destruct Hb as [_ [Hb _]]. cbn [serve_one]. unfold span, worth, secs. cbn [List.last List.length].
    rewrite Z.sub_diag. change (inject_Z (admitted [])) with 0%Q. change (inject_Z (Z.of_nat 0)) with 0%Q.
    change (inject_Z 0) with 0%Q. lra.
  - destruct Hord as [Hd Hord]. cbn [serve_one]. pose proof (allow_step rl b t Hok Hb Hd) as Hs. cbv zeta in Hs.
    destruct (allow _ "" t) as [rl' ok], Hs as (b' & -> & Hb' & Et & Hsum & _).
    rewrite <- Et in Hord. specialize (IH b' Hb' Hord). rewrite Et in IH.
    rewrite admitted_cons, span_cons. cbn [List.length]. rewrite Nat2Z.inj_succ, <- Z.add_1_l, inject_Z_plus.
    change (inject_Z 1) with 1%Q. unfold worth, secs in *. rewrite inject_Z_plus.
    set (A := inject_Z (admitted _)) in *. set (N := inject_Z (Z.of_nat (List.length ts))) in *.
    set (D := inject_Z (ns t - ns (bk_at b))) in *. set (S := inject_Z (span t ts)) in *.
    setoid_replace (val (rl_refill rl) * ((D + S) * (1 # 1000000000)) * (1 + 8 * eps))%Q
      with (val (rl_refill rl) * (D * (1 # 1000000000)) * (1 + 8 * eps) +
            val (rl_refill rl) * (S * (1 # 1000000000)) * (1 + 8 * eps))%Q using relation Qeq by ring.
    set (x1 := (val (rl_refill rl) * (D * _) * _)%Q) in *. set (x2 := (val (rl_refill rl) * (S * _) * _)%Q) in *.
    set (c := (val (rl_capacity rl) * (2 * eps))%Q) in *.
    setoid_replace ((1 + N) * c)%Q with (c + N * c)%Q using relation Qeq by ring. set (Nc := (N * c)%Q) in *. lra.
Qed.

Lemma serve_one_gap rl ts : limiter_ok rl -> forall b i u t, bucket_ok rl b -> in_order (bk_at b) ts ->
  (bk_at b :: ts) !! i = Some u -> ts !! i = Some t -> (1 + 8 * eps <= worth rl (ns t - ns u))%Q ->
  serve_one rl (Some b) ts !! i = Some true.
Proof.
  intros Hok. induction ts as [|t ts IH]; intros b i u t' Hb Hord Hu Ht Hw; [done|].
  destruct Hord as [Hd Hord]. cbn [serve_one]. pose proof (allow_step rl b t Hok Hb Hd) as Hs. cbv zeta in Hs.
  destruct (allow _ "" t) as [rl' ok], Hs as (b' & -> & Hb' & Et & _ & Hbig & _). destruct i as [|i].
  - injection Hu as <-. injection Ht as <-. cbn. specialize (Hbig Hw). by destruct ok.
  - cbn. eapply IH; [done|by rewrite Et|by rewrite Et|done|done].
Qed.

(** ** Stretches of calls

    What [serve_one] answers to a run of consecutive calls is what it answers to that run
    alone, from the state the earlier calls left. *)
Lemma serve_one_take rl ts : forall b n, take n (serve_one rl b ts) = serve_one rl b (take n ts).
Proof.
  induction ts as [|t ts IH]; intros b [|n]; try done. cbn [serve_one take].
  destruct (allow _ "" t) as [rl' ok]. cbn [take]. by rewrite IH.
Qed.
Lemma in_order_take ts : forall u n, in_order u ts -> in_order u (take n ts).
Proof. induction ts as [|t ts IH]; intros u [|n]; cbn; try done. intros [H1 H2]. split; [done|by apply IH]. Qed.

(** Reserving from the cap: a run that starts now finds at most a full bucket. *)
Lemma run_bound rl b t ts : limiter_ok rl -> bucket_ok rl b -> bk_at b = t -> in_order t ts ->
  forall ok, (count ok + val (bk_tokens b) <= val (rl_capacity rl) + val (rl_capacity rl) * (2 * eps))%Q ->
  (inject_Z (admitted (ok :: serve_one rl (Some b) ts)) <=
     val (rl_capacity rl) + worth rl (span t ts) * (1 + 8 * eps) +
     inject_Z (Z.of_nat (List.length (t :: ts))) * (val (rl_capacity rl) * (2 * eps)))%Q.
Proof.
  intros Hok Hb <- Hord ok Hcap. pose proof (serve_one_bound rl ts Hok b Hb Hord) as H.
  rewrite admitted_cons. cbn [List.length]. rewrite Nat2Z.inj_succ, <- Z.add_1_l, inject_Z_plus.
  change (inject_Z 1) with 1%Q. set (c := (val (rl_capacity rl) * (2 * eps))%Q) in *.
  set (N := inject_Z (Z.of_nat (List.length ts))) in *.
  setoid_replace ((1 + N) * c)%Q with (c + N * c)%Q using relation Qeq by ring.
  set (w := (worth rl _ * _)%Q) in *. set (Nc := (N * c)%Q) in *. lra.
Qed.

Lemma stretch_bound rl ts : limiter_ok rl -> forall b i n t run, bucket_ok rl b -> in_order (bk_at b) ts ->
  take n (drop i ts) = t :: run ->
  (inject_Z (admitted (take n (drop i (serve_one rl (Some b) ts)))) <=
     val (rl_capacity rl) + worth rl (span t run) * (1 + 8 * eps) +
     inject_Z (Z.of_nat (List.length (t :: run))) * (val (rl_capacity rl) * (2 * eps)))%Q.
Proof.
  intros Hok. induction ts as [|t' ts IH]; intros b i n t run Hb Hord Hrun; [by rewrite drop_nil, take_nil in Hrun|].
  destruct Hord as [Hd Hord]. cbn [serve_one]. pose proof (allow_step rl b t' Hok Hb Hd) as Hs. cbv zeta in Hs.
  destruct (allow _ "" t') as [rl' ok], Hs as (b' & -> & Hb' & Et & _ & _ & Hcap). destruct i as [|i].
  - destruct n as [|n]; [done|]. injection Hrun as -> <-. cbn [drop take].
    rewrite serve_one_take. apply run_bound; [done..|by apply in_order_take|done].
  - cbn [drop] in *. eapply IH; [done|by rewrite Et|done].
Qed.

(** C28. An inbound limiter lets through no more than it promises and no less than it owes.
    Whatever other keys do, take any consecutive calls of a key, from its first ever to the
    limiter or after any idle time, at clock readings that never run backwards: at most the
    capacity (the burst) plus what the refill rate is worth over the time those very calls
    span is admitted, up to a rounding term of at most
    [n * capacity * 2^-52 + 8 * worth * 2^-53] over [n] calls.  The key's first call is
    admitted, and so is every call that comes a full token's time after the key's previous
    one.  The capacity is between 1 and 2^52 tokens and the rate is not negative. *)
Theorem limiter_rate rl key calls t0 ts
    (Hok : limiter_ok rl) (Hnew : rl_buckets rl !! key = None)
    (Hcalls : calls_of key calls = t0 :: ts) (Hord : in_order t0 ts) :
  let oks := answers key calls (snd (serve rl calls)) in
  (forall i n t run, take n (drop i (t0 :: ts)) = t :: run ->
     (inject_Z (admitted (take n (drop i oks))) <=
        val (rl_capacity rl) + worth rl (span t run) * (1 + 8 * eps) +
        inject_Z (Z.of_nat (List.length (t :: run))) * (val (rl_capacity rl) * (2 * eps)))%Q) /\
  oks !! O = Some true /\
  (forall i u t, (t0 :: ts) !! i = Some u -> ts !! i = Some t ->
     (1 + 8 * eps <= worth rl (ns t - ns u))%Q -> oks !! S i = Some true).
Proof.
  cbv zeta. rewrite serve_key, Hcalls, Hnew. cbn [serve_one]. unfold allow. cbn [rl_buckets].
  rewrite lookup_empty. cbn [with_bucket rl_buckets rl_capacity]. rewrite lookup_insert_eq.
  set (b := {| bk_tokens := dsub (rl_capacity rl) (d_int 1); bk_at := t0 |}).
  destruct (take_token rl (rl_capacity rl) Hok (proj1 Hok)) as (Hp & HT & Hsum).
  { destruct Hok as (_ & _ & HC & _). lra. }
  assert (Hb : bucket_ok rl b) by done. split; [|split; [done|]].
  - intros [|i] n t run Hrun; [|by apply (stretch_bound rl ts Hok b)].
    destruct n as [|n]; [done|]. injection Hrun as -> <-. cbn [drop take]. rewrite serve_one_take.
    apply run_bound; [done..|by apply in_order_take|]. cbn [count bk_tokens b].
    destruct Hok as (_ & _ & HC & _). unfold eps in *. lra.
  - intros i u t Hu Ht Hw. cbn. by eapply (serve_one_gap rl ts Hok b).
Qed.

(** A limiter of two tokens and one per second; another key calls in between, and the key's
    burst after a hundred idle seconds is the capacity again. *)
Definition second (n : Z) : Time := {| ns := (1700000000 + n) * nsec; loc := UTC_loc |}.
Definition small_limiter : rateLimiter := newRateLimiter (d_int 2) (d_int 1).
Definition small_calls : list (string * Time) :=
  [("t:a", second 0); ("t:b", second 0); ("t:a", second 0); ("t:a", second 0);
   ("t:a", second 100); ("t:a", second 100); ("t:a", second 100)].

Lemma limiter_rate_witness :
  answers "t:a" small_calls (snd (serve small_limiter small_calls))
    = [true; true; false; true; true; false] /\
  (inject_Z 2 <= val (d_int 2) + worth small_limiter 0 * (1 + 8 * eps) +
                 inject_Z 3 * (val (d_int 2) * (2 * eps)))%Q.
Proof.
  assert (Hok : limiter_ok small_limiter).
  { split; [reflexivity|]. split; [reflexivity|]. split; [split|]; vm_compute; discriminate. }
  pose proof (limiter_rate small_limiter "t:a" small_calls (second 0)
                [second 0; second 0; second 100; second 100; second 100] Hok eq_refl) as H. cbv zeta in H.
  assert (E : answers "t:a" small_calls (snd (serve small_limiter small_calls))
              = [true; true; false; true; true; false]) by (vm_compute; reflexivity).
  rewrite E in H. split; [exact E|].
  refine (proj1 (H _ _) 3%nat 3%nat (second 100) [second 100; second 100] _).
  - vm_compute. reflexivity.
  - repeat split; vm_compute; discriminate.
  - reflexivity.
Defined.
