(* ===== verification/PixKeys.v ===== *)
(** The addresses of a payment: the PIX keys a credential may carry
    (adapters/secret/secret.go) and the references a payment group accepts
    (domain/dda/dda.go), whose regular expressions are written out as matchers. *)
From S2P Require Import Prelude GoStrings Shared.

(** * Character classes *)
Definition lower_letter (c : ascii) : bool := ((97 <=? code c) && (code c <=? 122))%N.
Definition upper_letter1 (c : ascii) : bool := ((65 <=? code c) && (code c <=? 90))%N.
Definition letter (c : ascii) : bool := lower_letter c || upper_letter1 c.
Definition hex_lower (c : ascii) : bool := digit c || ((97 <=? code c) && (code c <=? 102))%N.
Definition hex_any (c : ascii) : bool := hex_lower c || ((65 <=? code c) && (code c <=? 70))%N.
Definition one_of (cs : string) (c : ascii) : bool := existsb (Ascii.eqb c) (bytes_of cs).
Definition mail_local (c : ascii) : bool := letter c || digit c || one_of "._%+-" c.
Definition mail_domain (c : ascii) : bool := letter c || digit c || one_of ".-" c.

(** [{n}] of a class, then the rest of the pattern. *)
Fixpoint exactly (n : nat) (class : ascii -> bool) (k : bytes -> bool) (l : bytes) : bool :=
  match n, l with
  | O, _ => k l
  | S n, c :: l => class c && exactly n class k l
  | S _, [] => false
  end.
Definition then_char (d : ascii) (k : bytes -> bool) (l : bytes) : bool :=
  match l with c :: l => Ascii.eqb c d && k l | [] => false end.
Definition at_end (l : bytes) : bool := match l with [] => true | _ => false end.
(** [{lo,hi}] of a class, to the end of the text. *)
Definition between (lo hi : nat) (class : ascii -> bool) (l : bytes) : bool :=
  (lo <=? List.length l)%nat && (List.length l <=? hi)%nat && forallb class l.

(** The longest run of a class, and what follows it. *)
Fixpoint run (class : ascii -> bool) (l : bytes) : bytes * bytes :=
  match l with
  | c :: l' => if class c then let '(a, b) := run class l' in (c :: a, b) else ([], l)
  | [] => ([], [])
  end.

(** 8-4-4-4-12. *)
Definition uuid_shape (class : ascii -> bool) (l : bytes) : bool :=
  exactly 8 class (then_char "-" (exactly 4 class (then_char "-" (exactly 4 class
    (then_char "-" (exactly 4 class (then_char "-" (exactly 12 class at_end)))))))) l.

(** The top-level domain holds no dot, so it is the run of letters the text ends with. *)
Definition domain_shape (tld : bytes -> bool) (l : bytes) : bool :=
  let '(t, rest) := run letter (List.rev l) in
  tld t && match rest with
           | d :: host => Ascii.eqb d "." && negb (at_end host) && forallb mail_domain host
           | [] => false
           end.
(** The local part holds no at sign, so it ends at the first one. *)
Definition email_shape (tld : bytes -> bool) (l : bytes) : bool :=
  let '(local, rest) := run mail_local l in
  negb (at_end local) && then_char "@" (domain_shape tld) rest.

Definition first_digit (c : ascii) : bool := digit c && negb (Ascii.eqb c "0").

(** * secret.go *)
Definition pixEVPPattern (key : string) : bool := uuid_shape hex_any (bytes_of key).
Definition pixEmailPattern (key : string) : bool :=
  email_shape (fun t => (2 <=? List.length t)%nat) (bytes_of key).
Definition pixPhonePattern (key : string) : bool :=
  then_char "+" (exactly 1 first_digit (between 7 14 digit)) (bytes_of key).
Definition isTaxIDKey (key : string) : bool :=
  if negb (len key =? 11) && negb (len key =? 14) then false else all_digits key.

Definition validateCreditorKey (key : string) : res unit :=
  if pixEVPPattern key then Ok tt
  else if (len key <=? 77) && pixEmailPattern key then Ok tt
  else if pixPhonePattern key then Ok tt
  else if isTaxIDKey key then Ok tt
  else Err (NewValidationError "creditor_key"
              "is not a valid PIX key (EVP/UUID, e-mail, phone or CPF/CNPJ)").

(** * dda.go *)
Definition pixKeyPattern (s : string) : bool :=
  let l := bytes_of s in
  between 11 11 digit l || between 14 14 digit l
  || then_char "+" (exactly 1 first_digit (exactly 1 digit (between 5 14 digit))) l
  || email_shape (fun t => (2 <=? List.length t)%nat && (List.length t <=? 6)%nat) l
  || uuid_shape hex_lower l.
Definition validBarcode (s : string) : bool :=
  ((len s =? 44) || (len s =? 47) || (len s =? 48)) && all_digits s.
Definition validBRCode (s : string) : bool :=
  (32 <=? len s) && (len s <=? 396) && HasPrefix s "0002".
Definition ValidateContent (content : string) : res unit :=
  let content := TrimSpace content in
  if validBarcode content || validBRCode content || pixKeyPattern content then Ok tt
  else Err (NewValidationError "content"
              "content must be a boleto barcode, a PIX key or a BR Code").

Example pix_keys :
  map (fun k => is_ok (validateCreditorKey k))
    ["11111111-2222-3333-4444-55555555abCD"; "ana@mail.example.com"; "ana@mail"; "+5561999990000";
     "+0561999990000"; "12345678909"; "1234567890"; "a@b..co"; "a@.co"; "@b.co"; "a@b.c"]
  = [true; true; false; true; false; true; false; true; false; false; false].
Proof. vm_compute. reflexivity. Qed.
