(* ===== verification/Interleave.v ===== *)
(** Programs made of atomic steps on shared state.  The services' shared objects
    (stores, the login lockout) each guard one call by a mutex, so a request is a
    sequence of atomic calls; [run] executes one without interference and
    [interleave] several under a schedule. *)
From S2P Require Import Prelude.

Inductive prog (S A : Type) : Type :=
| Ret (a : A)
| Act {B : Type} (f : S -> S * B) (k : B -> prog S A).
Arguments Ret {S A} a.
Arguments Act {S A B} f k.

Notation "'act' x '<-' f ';;' k" := (Act f (fun x => k))
  (at level 200, x binder, f at level 99, k at level 200, right associativity) : go_scope.

Fixpoint run {S A} (p : prog S A) (s : S) : S * A :=
  match p with
  | Ret a => (s, a)
  | Act f k => let '(s, b) := f s in run (k b) s
  end.

(** One atomic step; a finished program does not move. *)
Definition step {S A} (p : prog S A) (s : S) : S * prog S A :=
  match p with
  | Ret a => (s, Ret a)
  | Act f k => let '(s, b) := f s in (s, k b)
  end.

(** The schedule lists, for each step, the index of the program that takes it. *)
Fixpoint interleave {S A} (sched : list nat) (ps : list (prog S A)) (s : S)
    : S * list (prog S A) :=
  match sched with
  | [] => (s, ps)
  | i :: rest =>
      match ps !! i with
      | Some p => let '(s, p) := step p s in interleave rest (<[i := p]> ps) s
      | None => interleave rest ps s
      end
  end.

Definition outcome {S A} (p : prog S A) : option A :=
  match p with Ret a => Some a | Act _ _ => None end.

(** Requests served one after the other. *)
Fixpoint run_all {S A} (ps : list (prog S A)) (s : S) : S * list A :=
  match ps with
  | [] => (s, [])
  | p :: rest =>
      let '(s, a) := run p s in let '(s, l) := run_all rest s in (s, a :: l)
  end.

(** Sequencing and mapping of programs. *)
Fixpoint pmap {S A B} (f : A -> B) (p : prog S A) : prog S B :=
  match p with
  | Ret a => Ret (f a)
  | Act g k => Act g (fun b => pmap f (k b))
  end.

(** * Rely-guarantee reasoning

    [I] is an invariant of the shared state, [G i] what program [i] may do to it.  A
    program is [safe] from a precondition when each of its steps keeps [I], stays
    within its guarantee and re-establishes a precondition no other program can
    falsify; when it ends, [Q] holds of its result. *)
Section rely_guarantee.
Context {S A : Type} (I : S -> Prop) (G : nat -> S -> S -> Prop) (Q : nat -> A -> S -> Prop).

Definition stable (i : nat) (P : S -> Prop) : Prop :=
  forall j s s', j <> i -> I s -> I s' -> P s -> G j s s' -> P s'.

Fixpoint safe (i : nat) (p : prog S A) (P : S -> Prop) : Prop :=
  match p with
  | Ret a => forall s, I s -> P s -> Q i a s
  | Act f k => forall s, I s -> P s ->
      I (f s).1 /\ G i s (f s).1 /\
      exists P', stable i P' /\ P' (f s).1 /\ safe i (k (f s).2) P'
  end.

Definition pool_safe (ps : list (prog S A)) (s : S) : Prop :=
  forall i p, ps !! i = Some p -> exists P, stable i P /\ P s /\ safe i p P.

Lemma interleave_safe sched ps s :
  I s -> pool_safe ps s ->
  I (interleave sched ps s).1 /\
  pool_safe (interleave sched ps s).2 (interleave sched ps s).1.
Proof.
  revert ps s. induction sched as [|i sched IH]; intros ps s Hs Hps; simpl; [done|].
  destruct (ps !! i) as [p|] eqn:Ep; [|by apply IH].
  destruct (Hps i p Ep) as (P & Hstab & HP & Hsafe). destruct p as [a|B f k]; simpl.
  - apply IH; [done|]. by rewrite list_insert_id.
  - destruct (Hsafe s Hs HP) as (HI & HG & P' & Hstab' & HP' & Hsafe').
    destruct (f s) as [s' b]. simpl in *. apply IH; [done|].
    intros j q Hj. destruct (decide (j = i)) as [->|Hne].
    + rewrite list_lookup_insert_eq in Hj by (by eapply lookup_lt_Some). simplify_eq. eauto.
    + rewrite list_lookup_insert_ne in Hj by done.
      destruct (Hps j q Hj) as (Pj & Sj & Hj1 & Hj2). exists Pj. split_and!; [done| |done].
      by apply (Sj i s s').
Qed.

(** A finished program of a safe pool satisfies its postcondition. *)
Lemma pool_safe_result ps s i a : I s -> pool_safe ps s -> ps !! i = Some (Ret a) -> Q i a s.
Proof. intros Hs Hps Hi. destruct (Hps i _ Hi) as (P & _ & HP & Hsafe). by apply Hsafe. Qed.
End rely_guarantee.
