(* ===== verification/Ports.v ===== *)
(** internal/ports/ports.go: what the use-cases ask of persistence and of the
    bank, as type classes over a store type [S]:
    the persistence surface and the transaction, with [UnitOfWorkLaws] its atomicity,
    which the in-memory store discharges; and app/pricing.go: an unpriced pair is free, any
    other failure of the pricing store is an error. *)
From S2P Require Import Prelude GoStrings GoTime Shared Payments Tenants Mandates AuditTrail.
(** The persistence surface that takes part in one unit of work. *)
Class Repository (S : Type) := {
  SavePayment : Payment -> M S error unit;
  FindPaymentByID : string -> string -> M S error Payment;
  FindPaymentByIdempotencyKey : string -> string -> M S error Payment;
  FindPaymentByTxID : string -> string -> M S error Payment;
  SaveTenant : Tenant -> M S error unit;
  FindTenantByID : string -> M S error Tenant;
  GetEndpointPrice : string -> string -> M S error EndpointPricing;
  UpsertEndpointPrice : EndpointPricing -> M S error unit;
  AppendLedgerEntry : LedgerEntry -> M S error unit;
  MarkProcessed : string -> string -> M S error bool;
  SaveRec : Rec -> M S error unit;
  FindRecByID : string -> string -> M S error Rec;
  SaveCobR : CobR -> M S error unit;
  FindCobRByTxID : string -> string -> M S error CobR;
  Append : Entry -> M S error unit;
  RecordPIIAccess : AccessEntry -> M S error unit
}.

(** [fn] runs against the repository inside one transaction. *)
Class UnitOfWork (S : Type) := {
  WithinTx : forall {A}, M S error A -> M S error A
}.

(** Atomicity: either nothing happened and the caller sees an error, or the
    transaction's writes stand and the caller sees its result. *)
Class UnitOfWorkLaws (S : Type) `{UnitOfWork S} := {
  WithinTx_atomic : forall A (fn : M S error A) s,
    (exists e, WithinTx fn s = (s, Err e)) \/
    (exists s' a, fn s = (s', Ok a) /\ WithinTx fn s = (s', Ok a))
}.

(** * Bank results *)
Record ChargeResult := {
  cr_TxID : string;
  cr_Status : string;
  cr_ExpectedAmountCents : Z;
  cr_ReceivedAmountCents : Z;
  cr_Installments : Z;
  cr_Message : string;
  cr_SettlementKey : string
}.

Definition ChargeResult_AmountReconciled (r : ChargeResult) : bool :=
  (0 <? cr_ExpectedAmountCents r) && (cr_ReceivedAmountCents r =? cr_ExpectedAmountCents r).

Record PixChargeResult := {
  pix_TxID : string;
  pix_Status : string;
  pix_QRCodePayload : string;
  pix_QRCodeLocation : string;
  pix_ExpiresAt : Time;
  pix_ExpectedAmountCents : Z;
  pix_ReceivedAmountCents : Z
}.

Definition PixChargeResult_AmountReconciled (r : PixChargeResult) : bool :=
  (0 <? pix_ExpectedAmountCents r) && (pix_ReceivedAmountCents r =? pix_ExpectedAmountCents r).

Record CheckoutResult := {
  co_SessionID : string;
  co_Status : string;
  co_RedirectURL : string;
  co_AmountCents : Z;
  co_ReceivedAmountCents : Z;
  co_CardType : string;
  co_RequireAuthentication : bool;
  co_MaxInstallments : Z;
  co_Installments : Z;
  co_Message : string
}.

Notation BoletoModality := string (only parsing).
Definition ModalityBoleto : BoletoModality := "boleto".
Definition ModalityBolepix : BoletoModality := "bolepix".
Definition Modality_Normalized (m : BoletoModality) : BoletoModality :=
  if bool_decide (m = "") then ModalityBoleto else m.
Definition Modality_Valid (m : BoletoModality) : bool :=
  bool_decide (m ∈ [""; ModalityBoleto; ModalityBolepix]).

Record BoletoDiscountTier := {
  bdt_DaysBeforeDue : Z;
  bdt_Bps : Z;
  bdt_FixedCents : Z
}.

Record BoletoResult := {
  br_BoletoID : string;
  br_TxID : string;
  br_Status : string;
  br_Modality : BoletoModality;
  br_ExternalReferenceID : string;
  br_QRCode : string;
  br_OurNumber : string;
  br_DigitableLine : string;
  br_Barcode : string;
  br_AmountCents : Z;
  br_DueDate : Time;
  br_ValidUntil : Time;
  br_FineBps : Z;
  br_FineFixedCents : Z;
  br_MonthlyInterestBps : Z;
  br_Discounts : list BoletoDiscountTier
}.

(** * Messages *)
Record Message := {
  msg_TenantID : string;
  msg_Type : string;
  msg_IdempotencyKey : string;
  msg_Payload : list (string * string)  (* the JSON object's members, in order *)
}.

#[export] Instance Message_eq_dec : EqDecision Message.
Proof. solve_decision. Defined.

Definition BankIDC6 : string := "c6".
Definition knownBankIDs : gset string := {[ BankIDC6 ]}.

Definition NormalizeBankID (bankID : string) : string :=
  let bankID := ToLower (TrimSpace bankID) in
  if bool_decide (bankID = "") then BankIDC6 else bankID.

Lemma AmountReconciled_spec r :
  ChargeResult_AmountReconciled r = true <->
  0 < cr_ExpectedAmountCents r /\ cr_ReceivedAmountCents r = cr_ExpectedAmountCents r.
Proof. unfold ChargeResult_AmountReconciled. rewrite andb_true_iff, Z.ltb_lt, Z.eqb_eq. done. Qed.

(** * Reasoning about units of work *)
Section uow.
Context {S : Type} `{UnitOfWorkLaws S}.

Lemma WithinTx_Ok {A} (fn : M S error A) s s' a :
  WithinTx fn s = (s', Ok a) -> fn s = (s', Ok a).
Proof. destruct (WithinTx_atomic A fn s) as [[e ->]|(s1 & b & E & ->)]; [done|congruence]. Qed.

Lemma WithinTx_Err {A} (fn : M S error A) s s' e :
  WithinTx fn s = (s', Err e) -> s' = s.
Proof. destruct (WithinTx_atomic A fn s) as [[e' ->]|(s1 & b & E & ->)]; congruence. Qed.
End uow.

(** * app/pricing.go *)
Section pricing.
Context {S : Type} `{Repository S}.

Definition resolvePriceOrFree (tenantID endpoint : string) : M S error EndpointPricing := fun s =>
  match GetEndpointPrice tenantID endpoint s with
  | (s, Ok price) => (s, Ok price)
  | (s, Err err) =>
      if negb (errors_Is err ErrNotFound) then (s, Err (Wrap "resolve price" err))
      else
        match NewEndpointPricing tenantID endpoint 0 with
        | Err ferr => (s, Err (Wrap "resolve price (free default)" ferr))
        | Ok free => (s, Ok free)
        end
  end.
End pricing.
