(* ===== verification/BankPorts.v ===== *)
(** internal/ports/ports.go, the issuing side: what the use-cases send to the bank to
    create, amend and list charges, and what comes back. *)
From S2P Require Import Prelude GoStrings GoTime Shared Ports.

(** * Charges *)
Record ChargeRequest := {
  chr_TenantID : string;
  chr_PaymentID : string;
  chr_AmountCents : Z;
  chr_Currency : string;
  chr_IdempotencyKey : string;
  chr_DebtorTaxID : string;
  chr_DebtorName : string;
  chr_CreditorKey : string
}.
Record PixListFilter := {
  plf_Start : Time; plf_End : Time; plf_Page : Z; plf_PageSize : Z
}.

(** * Boletos *)
Record BoletoAddress := {
  bad_Street : string;
  bad_Number : Z;
  bad_Neighborhood : string;
  bad_City : string;
  bad_State : string;
  bad_ZipCode : string
}.
Record BoletoPayer := {
  bpy_Name : string;
  bpy_TaxID : string;
  bpy_Address : BoletoAddress
}.
Record BoletoRequest := {
  brq_TenantID : string;
  brq_BoletoID : string;
  brq_AmountCents : Z;
  brq_Currency : string;
  brq_DueDate : Time;
  brq_ValidUntil : Time;
  brq_FineBps : Z;
  brq_FineFixedCents : Z;
  brq_MonthlyInterestBps : Z;
  brq_Discounts : list BoletoDiscountTier;
  brq_Payer : BoletoPayer;
  brq_Description : string;
  brq_IdempotencyKey : string;
  brq_Modality : BoletoModality
}.
Record BoletoFeesPatch := {
  bfp_FineBps : Z;
  bfp_FineFixedCents : Z;
  bfp_MonthlyInterestBps : Z;
  bfp_Discounts : list BoletoDiscountTier
}.
(** A [None] field is a nil pointer: leave this alone. *)
Record BoletoPatch := {
  bpt_AmountCents : option Z;
  bpt_DueDate : option Time;
  bpt_ValidUntil : option Time;
  bpt_Description : option string;
  bpt_Fees : option BoletoFeesPatch;
  bpt_IdempotencyKey : string
}.

(** * Checkout sessions *)
Record CheckoutItem := { coi_Description : string; coi_AmountCents : Z }.
Record CheckoutRequest := {
  crq_TenantID : string;
  crq_SessionID : string;
  crq_Currency : string;
  crq_Items : list CheckoutItem;
  crq_ExpiresAt : Time;
  crq_CardType : string;
  crq_RequireAuthentication : bool;
  crq_MaxInstallments : Z;
  crq_IdempotencyKey : string
}.

(** * PIX charges with a due date *)
Record PixDueChargeRequest := {
  dcr_TenantID : string;
  dcr_TxID : string;
  dcr_AmountCents : Z;
  dcr_Currency : string;
  dcr_DueDate : Time;
  dcr_ValidityDays : Z;
  dcr_FineBps : Z;
  dcr_MonthlyInterestBps : Z;
  dcr_DiscountBps : Z;
  dcr_DiscountFixedCents : Z;
  dcr_DebtorTaxID : string;
  dcr_DebtorName : string;
  dcr_DebtorStreet : string;
  dcr_DebtorCity : string;
  dcr_DebtorState : string;
  dcr_DebtorZipCode : string;
  dcr_CreditorKey : string;
  dcr_IdempotencyKey : string
}.
Record PixDueChargeResult := {
  dcs_TxID : string;
  dcs_Status : string;
  dcs_QRCodePayload : string;
  dcs_QRCodeLocation : string;
  dcs_DueDate : Time;
  dcs_ValidityDays : Z;
  dcs_FineBps : Z;
  dcs_MonthlyInterestBps : Z;
  dcs_DiscountBps : Z;
  dcs_DiscountFixedCents : Z;
  dcs_ExpectedAmountCents : Z;
  dcs_ReceivedAmountCents : Z
}.
Definition PixDueChargeResult_AmountReconciled (r : PixDueChargeResult) : bool :=
  (0 <? dcs_ExpectedAmountCents r) && (dcs_ReceivedAmountCents r =? dcs_ExpectedAmountCents r).

(** * Any request that creates a charge at the bank *)
Inductive BankRequest :=
| BankCharge (r : ChargeRequest)
| BankBoleto (r : BoletoRequest)
| BankCheckout (r : CheckoutRequest)
| BankDueCharge (r : PixDueChargeRequest).

Definition bank_key (r : BankRequest) : string :=
  match r with
  | BankCharge r => chr_IdempotencyKey r
  | BankBoleto r => brq_IdempotencyKey r
  | BankCheckout r => crq_IdempotencyKey r
  | BankDueCharge r => dcr_IdempotencyKey r
  end.
(** The payment a request names; the due-date charge names none. *)
Definition bank_payment (r : BankRequest) : option string :=
  match r with
  | BankCharge r => Some (chr_PaymentID r)
  | BankBoleto r => Some (brq_BoletoID r)
  | BankCheckout r => Some (crq_SessionID r)
  | BankDueCharge _ => None
  end.
(** The amount asked of the payer. *)
Definition bank_amount (r : BankRequest) : Z :=
  match r with
  | BankCharge r => chr_AmountCents r
  | BankBoleto r => brq_AmountCents r
  | BankCheckout r => foldr Z.add 0 (map coi_AmountCents (crq_Items r))
  | BankDueCharge r => dcr_AmountCents r
  end.
