(* ===== verification/MemStore.v ===== *)
(** internal/adapters/persistence/inmemory: the reference implementation of the
    repository ports, its unit of work by snapshot and rollback, and the
    autocommit fallback of internal/app/uow.go. *)
From S2P Require Import Prelude GoStrings GoTime Shared Payments Tenants.
From S2P Require Import Mandates AuditTrail Ports.

(** The containers a transaction snapshots.  Aggregates are stored and returned
    by copy (clonePayment, cloneRec, cloneCobR), which values express; tenants are
    stored by reference in the source, and every modelled operation re-saves a
    tenant after changing it. *)
Record snapshot := {
  st_tenants : gmap string Tenant;
  st_payments : gmap string Payment;
  st_pricing : gmap string EndpointPricing;
  st_ledger : list LedgerEntry;
  st_processed : gset string;
  st_audit : list Entry;
  st_recs : gmap string Rec;
  st_cobrs : gmap string CobR;
  st_piiAccess : list AccessEntry
}.

(** The whole store: the accounts are outside every transaction. *)
Record Store := { core : snapshot; st_accounts : gmap string Account }.

Definition emptySnapshot : snapshot :=
  {| st_tenants := ∅; st_payments := ∅; st_pricing := ∅; st_ledger := [];
     st_processed := ∅; st_audit := []; st_recs := ∅; st_cobrs := ∅; st_piiAccess := [] |}.
Definition NewStore : Store := {| core := emptySnapshot; st_accounts := ∅ |}.

Definition key (a b : string) : string := (a ++ String "000" b)%string.

(** A key names one owner when owners hold no NUL. *)
Definition nul_free (s : string) : Prop := "000"%char ∉ bytes_of s.
#[export] Instance nul_free_dec s : Decision (nul_free s).
Proof. unfold nul_free. apply _. Defined.
Lemma bytes_key t id : bytes_of (key t id) = (bytes_of t ++ "000"%char :: bytes_of id)%list.
Proof. unfold key. induction t as [|c t IH]; [done|]. exact (f_equal (cons c) IH). Qed.
Lemma prefix_unique (a b x y : bytes) c : c ∉ a -> c ∉ b -> (a ++ c :: x = b ++ c :: y)%list -> a = b /\ x = y.
Proof.
  revert b. induction a as [|d a IH]; intros [|e b] Ha Hb E; cbn in E; simplify_eq.
  - done.
  - set_solver.
  - set_solver.
  - destruct (IH b) as [-> ->]; [set_solver..|done|done].
Qed.
Lemma key_unique t id t' id' : nul_free t -> nul_free t' -> key t id = key t' id' -> t = t' /\ id = id'.
Proof.
  intros Ht Ht' E. apply (f_equal bytes_of) in E. rewrite !bytes_key in E.
  destruct (prefix_unique _ _ _ _ _ Ht Ht' E) as [E1 E2].
  rewrite <- (string_bytes t), <- (string_bytes t'), <- (string_bytes id), <- (string_bytes id').
  by rewrite E1, E2.
Qed.

(** Field updates. *)
Definition with_tenants (s : snapshot) x : snapshot :=
  {| st_tenants := x; st_payments := st_payments s; st_pricing := st_pricing s;
     st_ledger := st_ledger s; st_processed := st_processed s; st_audit := st_audit s;
     st_recs := st_recs s; st_cobrs := st_cobrs s; st_piiAccess := st_piiAccess s |}.
Definition with_payments (s : snapshot) x : snapshot :=
  {| st_tenants := st_tenants s; st_payments := x; st_pricing := st_pricing s;
     st_ledger := st_ledger s; st_processed := st_processed s; st_audit := st_audit s;
     st_recs := st_recs s; st_cobrs := st_cobrs s; st_piiAccess := st_piiAccess s |}.
Definition with_pricing (s : snapshot) x : snapshot :=
  {| st_tenants := st_tenants s; st_payments := st_payments s; st_pricing := x;
     st_ledger := st_ledger s; st_processed := st_processed s; st_audit := st_audit s;
     st_recs := st_recs s; st_cobrs := st_cobrs s; st_piiAccess := st_piiAccess s |}.
Definition with_ledger (s : snapshot) x : snapshot :=
  {| st_tenants := st_tenants s; st_payments := st_payments s; st_pricing := st_pricing s;
     st_ledger := x; st_processed := st_processed s; st_audit := st_audit s;
     st_recs := st_recs s; st_cobrs := st_cobrs s; st_piiAccess := st_piiAccess s |}.
Definition with_processed (s : snapshot) x : snapshot :=
  {| st_tenants := st_tenants s; st_payments := st_payments s; st_pricing := st_pricing s;
     st_ledger := st_ledger s; st_processed := x; st_audit := st_audit s;
     st_recs := st_recs s; st_cobrs := st_cobrs s; st_piiAccess := st_piiAccess s |}.
Definition with_audit (s : snapshot) x : snapshot :=
  {| st_tenants := st_tenants s; st_payments := st_payments s; st_pricing := st_pricing s;
     st_ledger := st_ledger s; st_processed := st_processed s; st_audit := x;
     st_recs := st_recs s; st_cobrs := st_cobrs s; st_piiAccess := st_piiAccess s |}.
Definition with_recs (s : snapshot) x : snapshot :=
  {| st_tenants := st_tenants s; st_payments := st_payments s; st_pricing := st_pricing s;
     st_ledger := st_ledger s; st_processed := st_processed s; st_audit := st_audit s;
     st_recs := x; st_cobrs := st_cobrs s; st_piiAccess := st_piiAccess s |}.
Definition with_cobrs (s : snapshot) x : snapshot :=
  {| st_tenants := st_tenants s; st_payments := st_payments s; st_pricing := st_pricing s;
     st_ledger := st_ledger s; st_processed := st_processed s; st_audit := st_audit s;
     st_recs := st_recs s; st_cobrs := x; st_piiAccess := st_piiAccess s |}.
Definition with_piiAccess (s : snapshot) x : snapshot :=
  {| st_tenants := st_tenants s; st_payments := st_payments s; st_pricing := st_pricing s;
     st_ledger := st_ledger s; st_processed := st_processed s; st_audit := st_audit s;
     st_recs := st_recs s; st_cobrs := st_cobrs s; st_piiAccess := x |}.

(** The order in which Go ranges over a map is unspecified: any enumeration of
    its entries. *)
Class MapRange := {
  range : gmap string Payment -> list (string * Payment);
  range_perm : forall m, range m ≡ₚ map_to_list m
}.

Section store.
Context `{MapRange}.

Notation op A := (M snapshot error A).

(** A write that always succeeds. *)
Definition updateM (f : snapshot -> snapshot) : op unit := fun s => (f s, Ok tt).
Definition found {A} (o : option A) : res A :=
  match o with Some a => Ok a | None => Err ErrNotFound end.

(** The loop that returns the first payment satisfying [test]. *)
Definition scan (test : Payment -> bool) (s : snapshot) : option Payment :=
  snd <$> List.find (fun kp => test (snd kp)) (range (st_payments s)).

Definition saveTenant (t : Tenant) : op unit :=
  updateM (fun s => with_tenants s (<[tenant_id t := t]> (st_tenants s))).

Definition findTenantByID (id : string) : op Tenant :=
  readM (fun s => found (st_tenants s !! id)).

Definition savePayment (p : Payment) : op unit := fun s =>
  let clash ex := bool_decide (payment_tenantID ex = payment_tenantID p)
                  && bool_decide (payment_idempotencyKey ex = payment_idempotencyKey p)
                  && negb (bool_decide (payment_id ex = payment_id p)) in
  match scan clash s with
  | Some _ => (s, Err ErrConflict)
  | None =>
      (with_payments s
         (<[key (payment_tenantID p) (payment_id p) := p]> (st_payments s)), Ok tt)
  end.

Definition findPaymentByID (tenantID id : string) : op Payment :=
  readM (fun s => found (st_payments s !! key tenantID id)).

Definition findPaymentByIdempotencyKey (tenantID idemKey : string) : op Payment :=
  readM (fun s => found (scan (fun p => bool_decide (payment_tenantID p = tenantID)
                         && bool_decide (payment_idempotencyKey p = idemKey)) s)).

Definition findPaymentByTxID (tenantID txID : string) : op Payment :=
  readM (fun s => found (scan (fun p => bool_decide (payment_tenantID p = tenantID)
                         && bool_decide (payment_txID p = txID)) s)).

Definition getEndpointPrice (tenantID endpoint : string) : op EndpointPricing :=
  readM (fun s => found (st_pricing s !! key tenantID endpoint)).

Definition upsertEndpointPrice (p : EndpointPricing) : op unit :=
  updateM (fun s => with_pricing s
    (<[key (pricing_tenantID p) (pricing_endpoint p) := p]> (st_pricing s))).

Definition appendLedgerEntry (e : LedgerEntry) : op unit :=
  updateM (fun s => with_ledger s (st_ledger s ++ [e])).

Definition markProcessed (tenantID eventKey : string) : op bool := fun s =>
  let k := key tenantID eventKey in
  if bool_decide (k ∈ st_processed s) then (s, Ok false)
  else (with_processed s ({[ k ]} ∪ st_processed s), Ok true).

Definition appendAudit (e : Entry) : op unit :=
  updateM (fun s => with_audit s (st_audit s ++ [e])).

Definition saveRec (r : Rec) : op unit :=
  updateM (fun s => with_recs s (<[key (rec_tenantID r) (rec_idRec r) := r]> (st_recs s))).

Definition findRecByID (tenantID idRec : string) : op Rec :=
  readM (fun s => found (st_recs s !! key tenantID idRec)).

Definition saveCobR (c : CobR) : op unit :=
  updateM (fun s => with_cobrs s (<[key (cobr_tenantID c) (cobr_txID c) := c]> (st_cobrs s))).

Definition findCobRByTxID (tenantID txID : string) : op CobR :=
  readM (fun s => found (st_cobrs s !! key tenantID txID)).

Definition appendPIIAccess (e : AccessEntry) : op unit :=
  updateM (fun s => with_piiAccess s (st_piiAccess s ++ [e])).

(** [txView], the repository a transaction callback receives. *)
#[export] Instance txView : Repository snapshot := {
  SavePayment := savePayment;
  FindPaymentByID := findPaymentByID;
  FindPaymentByIdempotencyKey := findPaymentByIdempotencyKey;
  FindPaymentByTxID := findPaymentByTxID;
  SaveTenant := saveTenant;
  FindTenantByID := findTenantByID;
  GetEndpointPrice := getEndpointPrice;
  UpsertEndpointPrice := upsertEndpointPrice;
  AppendLedgerEntry := appendLedgerEntry;
  MarkProcessed := markProcessed;
  SaveRec := saveRec;
  FindRecByID := findRecByID;
  SaveCobR := saveCobR;
  FindCobRByTxID := findCobRByTxID;
  Append := appendAudit;
  RecordPIIAccess := appendPIIAccess
}.

(** [Store.WithinTx]: run the callback under the lock, restore the snapshot
    taken before it when it fails. *)
Definition takeSnapshot (s : snapshot) : snapshot := s.
Definition restore (s snap : snapshot) : snapshot := snap.
Definition mem_WithinTx {A} (fn : op A) : op A := fun s =>
  let snap := takeSnapshot s in
  match fn s with
  | (s', Err err) => (restore s' snap, Err err)
  | (s', Ok a) => (s', Ok a)
  end.

#[export] Instance memUoW : UnitOfWork snapshot := { WithinTx := @mem_WithinTx }.

#[export] Instance memUoW_laws : UnitOfWorkLaws snapshot.
Proof.
  split. intros A fn s. unfold WithinTx; simpl. unfold mem_WithinTx.
  destruct (fn s) as [s' [a|e]]; eauto.
Qed.

(** [autocommitUoW]: the callback runs against the repositories directly. *)
Definition autocommit_WithinTx {A} (fn : op A) : op A := fun s => fn s.

(** [PurgePIIAccessBefore]. *)
Definition PurgePIIAccessBefore (cutoff : Time) : op Z := fun s =>
  let removed e := Before (access_at e) cutoff in
  (with_piiAccess s (List.filter (fun e => negb (removed e)) (st_piiAccess s)),
   Ok (Z.of_nat (List.length (List.filter removed (st_piiAccess s))))).

(** * The invariant of the payments table *)
Record Store_ok (s : snapshot) : Prop := {
  ok_keyed : forall k p, st_payments s !! k = Some p ->
    k = key (payment_tenantID p) (payment_id p);
  ok_unique : forall k1 k2 p1 p2,
    st_payments s !! k1 = Some p1 -> st_payments s !! k2 = Some p2 ->
    payment_tenantID p1 = payment_tenantID p2 ->
    payment_idempotencyKey p1 = payment_idempotencyKey p2 ->
    payment_id p1 = payment_id p2
}.

Lemma scan_Some test s p :
  scan test s = Some p -> (exists k, st_payments s !! k = Some p) /\ test p = true.
Proof.
  unfold scan. intros Hf. apply fmap_Some in Hf as [[k q] [Hf ->]].
  apply find_some in Hf as [Hin Ht]. split; [|done]. exists k.
  apply elem_of_map_to_list. rewrite <- range_perm. by apply list_elem_of_In.
Qed.

Lemma scan_None test s k p :
  scan test s = None -> st_payments s !! k = Some p -> test p = false.
Proof.
  unfold scan. intros Hf Hk. apply fmap_None in Hf.
  apply (find_none _ _ Hf (k, p)). apply list_elem_of_In.
  rewrite range_perm. by apply elem_of_map_to_list.
Qed.

(** Whatever the iteration order, a test satisfied by one payment only finds it. *)
Lemma scan_unique test s k p :
  st_payments s !! k = Some p -> test p = true ->
  (forall k' q, st_payments s !! k' = Some q -> test q = true -> q = p) ->
  scan test s = Some p.
Proof.
  intros Hk Ht Hu. destruct (scan test s) as [q|] eqn:E.
  - apply scan_Some in E as [[k' Hk'] Hq]. f_equal. eauto.
  - pose proof (scan_None _ _ _ _ E Hk). congruence.
Qed.

Lemma savePayment_spec s p :
  (exists q k, st_payments s !! k = Some q /\ payment_tenantID q = payment_tenantID p /\
     payment_idempotencyKey q = payment_idempotencyKey p /\ payment_id q <> payment_id p /\
     savePayment p s = (s, Err ErrConflict)) \/
  ((forall k q, st_payments s !! k = Some q -> payment_tenantID q = payment_tenantID p ->
     payment_idempotencyKey q = payment_idempotencyKey p -> payment_id q = payment_id p) /\
   savePayment p s =
     (with_payments s (<[key (payment_tenantID p) (payment_id p) := p]> (st_payments s)), Ok tt)).
Proof.
  unfold savePayment. cbv zeta. destruct (scan _ s) as [q|] eqn:E; [left|right].
  - apply scan_Some in E as [[k Hk] Ht]. bools. eauto 10.
  - split; [|done]. intros k q Hk Et Ei.
    pose proof (scan_None _ _ _ _ E Hk) as Hn. simpl in Hn.
    rewrite Et, Ei, !bool_decide_true in Hn by done. simpl in Hn. by bools.
Qed.

Lemma savePayment_ok s p s' : Store_ok s -> savePayment p s = (s', Ok tt) -> Store_ok s'.
Proof.
  intros [Hk Hu] HS. destruct (savePayment_spec s p) as [(?&?&?&?&?&?&E)|[Hfree E]];
    rewrite E in HS; [done|]. simplify_eq. split; simpl.
  - intros k q [[<- <-]|[_ ?]]%lookup_insert_Some; eauto.
  - intros k1 k2 p1 p2 [[<- <-]|[_ H1]]%lookup_insert_Some
      [[<- <-]|[_ H2]]%lookup_insert_Some Et Ei; eauto.
    symmetry. eauto.
Qed.

(** The payments table answers like a unique index on (tenant, idempotency
    key), whatever order Go ranges over the map in: a save is refused with
    ErrConflict, changing nothing, exactly when another payment of the tenant holds
    the key; otherwise it keeps the table's invariant, and the payment saved is the
    one found afterwards by its key and by its id. *)
Theorem savePayment_index s p (Hs : Store_ok s) :
  (savePayment p s = (s, Err ErrConflict) <->
   exists k q, st_payments s !! k = Some q /\ payment_tenantID q = payment_tenantID p /\
     payment_idempotencyKey q = payment_idempotencyKey p /\ payment_id q <> payment_id p) /\
  (forall s', savePayment p s = (s', Ok tt) ->
     Store_ok s' /\
     findPaymentByIdempotencyKey (payment_tenantID p) (payment_idempotencyKey p) s'
       = (s', Ok p) /\
     findPaymentByID (payment_tenantID p) (payment_id p) s' = (s', Ok p)).
Proof.
  pose proof (savePayment_spec s p) as Hspec. split.
  - destruct Hspec as [(q & k & ? & ? & ? & ? & ->)|[Hfree ->]].
    + split; [|done]. intros _. eauto 10.
    + split; [done|]. intros (k & q & ? & ? & ? & Hne). by destruct Hne; eauto.
  - intros s' HS. pose proof (savePayment_ok s p s' Hs HS) as [Hk' Hu'].
    split; [by split|]. destruct Hspec as [(q & k & ? & ? & ? & ? & E)|[Hfree E]];
      rewrite E in HS; [done|]. simplify_eq.
    assert (Hp : st_payments (with_payments s
        (<[key (payment_tenantID p) (payment_id p) := p]> (st_payments s)))
        !! key (payment_tenantID p) (payment_id p) = Some p) by apply lookup_insert_eq.
    split; [|unfold findPaymentByID, readM; by rewrite Hp].
    unfold findPaymentByIdempotencyKey, readM.
    erewrite scan_unique; [done|exact Hp|by rewrite !bool_decide_true|].
    intros k' q Hq Ht. simpl in Ht. bools.
    pose proof (Hu' _ _ _ _ Hq Hp) as Hid. pose proof (Hk' _ _ Hq) as ->.
    rewrite H0, Hid in Hq by done. congruence.
Qed.
End store.

(** A concrete iteration order. *)
#[export] Instance map_order : MapRange :=
  {| range := map_to_list; range_perm m := Permutation_refl _ |}.

Lemma empty_ok : Store_ok emptySnapshot.
Proof. split; simpl; intros *; by rewrite lookup_empty. Qed.

Lemma savePayment_index_witness :
  exists s', savePayment sample_payment emptySnapshot = (s', Ok tt) /\
    findPaymentByIdempotencyKey "t1" "k1" s' = (s', Ok sample_payment).
Proof.
  eexists. split; [vm_compute; reflexivity|].
  apply (proj2 (savePayment_index emptySnapshot sample_payment empty_ok)).
  vm_compute. reflexivity.
Defined.
