(* ===== verification/Invoices.v ===== *)
(** Consumption and invoices: internal/domain/invoice, the reports of internal/app/console.go
    and the reads they make of the in-memory store
    (internal/adapters/persistence/inmemory/store.go). *)
From S2P Require Import Prelude GoStrings GoTime GoSort Shared Tenants Payments AuditTrail Ports.
From S2P Require Import MemStore.

(** * domain/invoice *)
Record LineItem := { li_endpoint : string; li_calls : Z; li_subtotalCents : Z }.

Definition NewLineItem (endpoint : string) (calls subtotalCents : Z) : res LineItem :=
  let endpoint := TrimSpace endpoint in
  refuse (bool_decide (endpoint = "")) with (NewValidationError "endpoint" "endpoint is required") ;;
  refuse (calls <=? 0) with (NewValidationError "calls" "calls must be positive") ;;
  refuse (subtotalCents <? 0)
    with (NewValidationError "subtotal_cents" "subtotal must be non-negative") ;;
  Ok {| li_endpoint := endpoint; li_calls := calls; li_subtotalCents := subtotalCents |}.

Record Invoice := {
  inv_id : string;
  inv_tenantID : string;
  inv_accountID : string;
  inv_periodStart : Time;
  inv_periodEnd : Time;
  inv_lines : list LineItem;
  inv_totalCalls : Z;
  inv_totalCents : Z;
  inv_generatedAt : Time
}.

(** The loop over the sorted lines. *)
Fixpoint total_lines (lines : list LineItem) (calls cents : Z) : res (Z * Z) :=
  match lines with
  | [] => Ok (calls, cents)
  | l :: rest =>
      refuse (bool_decide (li_endpoint l = "")) with (NewValidationError "line" "invalid line item") ;;
      total_lines rest (add64 calls (li_calls l)) (add64 cents (li_subtotalCents l))
  end.

Definition invoice_New (id tenantID accountID : string) (periodStart periodEnd generatedAt : Time)
    (lines : list LineItem) : res Invoice :=
  let id := TrimSpace id in
  refuse (bool_decide (id = "")) with (NewValidationError "id" "invoice id is required") ;;
  let tenantID := TrimSpace tenantID in
  refuse (bool_decide (tenantID = "")) with (NewValidationError "tenant_id" "tenant id is required") ;;
  refuse (IsZero periodStart || IsZero periodEnd)
    with (NewValidationError "period" "period start and end are required") ;;
  refuse (negb (Before periodStart periodEnd))
    with (NewValidationError "period" "period start must be before period end") ;;
  let cp := SliceStable lines (by_text li_endpoint) in
  let? totals := total_lines cp 0 0 in
  Ok {| inv_id := id; inv_tenantID := tenantID; inv_accountID := TrimSpace accountID;
        inv_periodStart := periodStart; inv_periodEnd := periodEnd; inv_lines := cp;
        inv_totalCalls := totals.1; inv_totalCents := totals.2; inv_generatedAt := generatedAt |}.

(** * The store's reads *)
Definition filterLedger (keep : LedgerEntry -> bool) (s : snapshot) : list LedgerEntry :=
  SliceStable (List.filter keep (st_ledger s)) (newest ledger_at ledger_id).
Definition ListLedgerEntries (tenantID : string) (s : snapshot) : list LedgerEntry :=
  filterLedger (fun e => bool_decide (ledger_tenantID e = tenantID)) s.
Definition ListLedgerEntriesByAccount (accountID : string) (s : snapshot) : list LedgerEntry :=
  filterLedger (fun e => bool_decide (ledger_accountID e = accountID)) s.

(** * Consumption *)
Record ConsumptionLine := { cl_Endpoint : string; cl_Calls : Z; cl_TotalCents : Z }.
Record ConsumptionReport := {
  rep_TenantID : string;
  rep_Lines : list ConsumptionLine;
  rep_TotalCalls : Z;
  rep_TotalCents : Z
}.
Record ConsumptionRange := { rng_Start : Time; rng_End : Time }.

Definition includes (rng : ConsumptionRange) (t : Time) : bool :=
  if negb (IsZero (rng_Start rng)) && Before t (rng_Start rng) then false
  else if negb (IsZero (rng_End rng)) && negb (Before t (rng_End rng)) then false
  else true.

Definition new_line (endpoint : string) : ConsumptionLine :=
  {| cl_Endpoint := endpoint; cl_Calls := 0; cl_TotalCents := 0 |}.
Definition count_entry (e : LedgerEntry) (line : ConsumptionLine) : ConsumptionLine :=
  {| cl_Endpoint := cl_Endpoint line; cl_Calls := add64 (cl_Calls line) 1;
     cl_TotalCents := add64 (cl_TotalCents line) (ledger_priceCents e) |}.
Notation line_map := (gmap string ConsumptionLine).
Definition count_line (e : LedgerEntry) (m : line_map) : line_map :=
  let line := default (new_line (ledger_endpoint e)) (m !! ledger_endpoint e) in
  <[ledger_endpoint e := count_entry e line]> m.

Section reports.
Context `{MapIteration}.

Definition sorted_lines (m : line_map) : list ConsumptionLine :=
  SliceStable (map snd (iterate m)) (by_text cl_Endpoint).

(** The body of the loop: the lines, the calls and the cents so far. *)
Definition count_step (rng : ConsumptionRange) (acc : line_map * Z * Z) (e : LedgerEntry)
    : line_map * Z * Z :=
  if negb (includes rng (ledger_at e)) then acc
  else let '(byEndpoint, calls, cents) := acc in
       (count_line e byEndpoint, add64 calls 1, add64 cents (ledger_priceCents e)).

Definition ConsumptionInRange (tenantID : string) (rng : ConsumptionRange) (s : snapshot)
    : res ConsumptionReport :=
  let tenantID := TrimSpace tenantID in
  let? _ := map_err (Wrap "resolve tenant") (snd (findTenantByID tenantID s)) in
  let '(byEndpoint, calls, cents) :=
    foldl (count_step rng) (∅, 0, 0) (ListLedgerEntries tenantID s) in
  Ok {| rep_TenantID := tenantID; rep_Lines := sorted_lines byEndpoint;
        rep_TotalCalls := calls; rep_TotalCents := cents |}.

Definition Consumption (tenantID : string) (s : snapshot) : res ConsumptionReport :=
  ConsumptionInRange tenantID {| rng_Start := zeroTime; rng_End := zeroTime |} s.

(** ** The rollup of an account *)
Record TenantConsumption := {
  tc_TenantID : string;
  tc_Lines : list ConsumptionLine;
  tc_TotalCalls : Z;
  tc_TotalCents : Z
}.
Record AccountConsumptionReport := {
  acr_AccountID : string;
  acr_Tenants : list TenantConsumption;
  acr_TotalCalls : Z;
  acr_TotalCents : Z
}.

(** A tenant's slice under construction: its counts, and its entry of byTenantEndpoint. *)
Record tenant_slice := { ts_calls : Z; ts_cents : Z; ts_lines : line_map }.
Definition count_slice (e : LedgerEntry) (tc : tenant_slice) : tenant_slice :=
  {| ts_calls := add64 (ts_calls tc) 1;
     ts_cents := add64 (ts_cents tc) (ledger_priceCents e);
     ts_lines := count_line e (ts_lines tc) |}.
Definition rollup_step (rng : ConsumptionRange) (acc : gmap string tenant_slice * Z * Z)
    (e : LedgerEntry) : gmap string tenant_slice * Z * Z :=
  if negb (includes rng (ledger_at e)) then acc
  else let '(byTenant, calls, cents) := acc in
       let tc := default {| ts_calls := 0; ts_cents := 0; ts_lines := ∅ |}
                   (byTenant !! ledger_tenantID e) in
       (<[ledger_tenantID e := count_slice e tc]> byTenant,
        add64 calls 1, add64 cents (ledger_priceCents e)).
Definition slice_report (p : string * tenant_slice) : TenantConsumption :=
  {| tc_TenantID := p.1; tc_Lines := sorted_lines (ts_lines p.2);
     tc_TotalCalls := ts_calls p.2; tc_TotalCents := ts_cents p.2 |}.

(** [accounts]: the account reader, if wired. *)
Definition AccountConsumptionInRange (accounts : option (string -> res Account))
    (accountID : string) (rng : ConsumptionRange) (s : snapshot) : res AccountConsumptionReport :=
  let accountID := TrimSpace accountID in
  refuse (bool_decide (accountID = ""))
    with (NewValidationError "account_id" "account id is required") ;;
  let? _ := match accounts with
            | Some find => match find accountID with
                           | Ok _ => Ok tt
                           | Err e => Err (Wrap "resolve account" e)
                           end
            | None => Ok tt
            end in
  let '(byTenant, calls, cents) :=
    foldl (rollup_step rng) (∅, 0, 0) (ListLedgerEntriesByAccount accountID s) in
  Ok {| acr_AccountID := accountID;
        acr_Tenants := SliceStable (map slice_report (iterate byTenant)) (by_text tc_TenantID);
        acr_TotalCalls := calls; acr_TotalCents := cents |}.

(** * Invoices *)
Record Books := { bk_db : snapshot; bk_invoices : list Invoice }.
(** What an invoice's generation reads of its environment: fresh identifiers, the clock at
    its two readings, the operator, and the answers of the two writes. *)
Record BooksEnv := {
  be_invoiceID : string; be_entryID : string;
  be_generatedAt : Time; be_auditAt : Time;
  be_operator : string;
  be_save : option error;
  be_append : option error
}.
Definition ErrInvoicesUnavailable : error := New "invoice store not configured".

Fixpoint invoice_lines (l : list ConsumptionLine) : res (list LineItem) :=
  match l with
  | [] => Ok []
  | c :: rest =>
      let? li := map_err (Wrap "build invoice line")
                   (NewLineItem (cl_Endpoint c) (cl_Calls c) (cl_TotalCents c)) in
      let? lis := invoice_lines rest in
      Ok (li :: lis)
  end.

Definition SaveInvoice (inv : Invoice) (b : Books) : Books :=
  {| bk_db := bk_db b; bk_invoices := bk_invoices b ++ [inv] |}.

(** Everything before the writes. *)
Definition draft_invoice (env : BooksEnv) (tenantID : string) (rng : ConsumptionRange)
    (s : snapshot) : res Invoice :=
  let tenantID := TrimSpace tenantID in
  refuse (IsZero (rng_Start rng) || IsZero (rng_End rng))
    with (NewValidationError "period" "invoice period start and end are required") ;;
  refuse (negb (Before (rng_Start rng) (rng_End rng)))
    with (NewValidationError "period" "invoice period start must be before end") ;;
  let? t := map_err (Wrap "resolve tenant") (snd (findTenantByID tenantID s)) in
  let? rep := ConsumptionInRange tenantID rng s in
  let? lines := invoice_lines (rep_Lines rep) in
  let accountID := if bool_decide (tenant_accountID t = "") then "acct-" ++ tenantID
                   else tenant_accountID t in
  invoice_New (be_invoiceID env) tenantID accountID (rng_Start rng) (rng_End rng)
    (be_generatedAt env) lines.

Definition GenerateInvoice (env : BooksEnv) (wired : bool) (tenantID : string)
    (rng : ConsumptionRange) : M Books error Invoice :=
  abort (negb wired) with ErrInvoicesUnavailable ;;
  do inv <- readM (fun b => draft_invoice env tenantID rng (bk_db b)) ;;
  fun b =>
    match be_save env with
    | Some e => (b, Err (Wrap "save invoice" e))
    | None =>
        let b := SaveInvoice inv b in
        match NewEntry (be_entryID env) (be_operator env) ActionInvoiceGenerated
                (TrimSpace tenantID) (be_auditAt env) with
        | Err e => (b, Err e)
        | Ok e =>
            match be_append env with
            | Some err => (b, Err (Wrap "audit invoice generation" err))
            | None => ({| bk_db := with_audit (bk_db b) (st_audit (bk_db b) ++ [e]);
                          bk_invoices := bk_invoices b |}, Ok inv)
            end
        end
    end.

Definition FindInvoiceByID (tenantID id : string) (b : Books) : res Invoice :=
  found (List.find (fun inv => bool_decide (inv_tenantID inv = tenantID)
                               && bool_decide (inv_id inv = id)) (bk_invoices b)).
Definition GetInvoice (wired : bool) (tenantID id : string) (b : Books) : res Invoice :=
  refuse (negb wired) with ErrInvoicesUnavailable ;;
  FindInvoiceByID (TrimSpace tenantID) (TrimSpace id) b.
Definition store_ListInvoices (tenantID : string) (b : Books) : list Invoice :=
  SliceStable (List.filter (fun inv => bool_decide (inv_tenantID inv = tenantID)) (bk_invoices b))
    (newest inv_generatedAt inv_id).
Definition ListInvoices (wired : bool) (tenantID : string) (b : Books) : res (list Invoice) :=
  refuse (negb wired) with ErrInvoicesUnavailable ;;
  let tenantID := TrimSpace tenantID in
  let? _ := map_err (Wrap "resolve tenant") (snd (findTenantByID tenantID (bk_db b))) in
  Ok (store_ListInvoices tenantID b).

(** ** Prices *)
Definition store_ListEndpointPrices (tenantID : string) (s : snapshot) : list EndpointPricing :=
  SliceStable (List.filter (fun p => bool_decide (pricing_tenantID p = tenantID))
                 (map snd (iterate (st_pricing s)))) (by_text pricing_endpoint).
Definition ListPricing (tenantID : string) (s : snapshot) : res (list EndpointPricing) :=
  let? _ := map_err (Wrap "resolve tenant") (snd (findTenantByID (TrimSpace tenantID) s)) in
  Ok (store_ListEndpointPrices tenantID s).
Definition SetPrice (tenantID endpoint : string) (priceCents : Z) : M snapshot error EndpointPricing :=
  do _ <- wrapM (Wrap "resolve tenant") (findTenantByID (TrimSpace tenantID)) ;;
  do p <- liftM (NewEndpointPricing tenantID endpoint priceCents) ;;
  do _ <- wrapM (Wrap "upsert price") (upsertEndpointPrice p) ;;
  retM p.
End reports.
