(* ===== verification/SqlStore.v ===== *)
(** The durable store: internal/adapters/persistence/sqlite/sqlite.go, with the mandates of
    recurrence.go, the audit trail of audit.go and the read register of pii_access.go.  The
    tables are those of the migrations, with their primary keys, unique indices and foreign
    keys; each SQL statement is an operation on them.  The PostgreSQL adapter issues the same
    statements: what differs is its [Dialect], the layout of the instants and how the engine
    reports a duplicate. *)
From S2P Require Import Prelude GoStrings GoTime GoSort GoRFC3339 Shared Payments Tenants.
From S2P Require Import Mandates AuditTrail Ports Invoices.

(** * Tables

    Instants are texts; a NULL column is [None]. *)
Record TenantRow := { tnr_name : string; tnr_active : Z; tnr_created_at : string; tnr_account_id : option string }.
Record AccountRow := { acr_name : string; acr_active : Z; acr_created_at : string }.
Record PaymentRow := {
  pyr_tenant_id : string; pyr_endpoint : string; pyr_amount_cents : Z; pyr_currency : string;
  pyr_status : string; pyr_tx_id : string; pyr_idempotency_key : string;
  pyr_created_at : string; pyr_updated_at : string
}.
Record LedgerRow := {
  lgr_tenant_id : string; lgr_endpoint : string; lgr_price_cents : Z; lgr_reference : string;
  lgr_at : string; lgr_account_id : option string
}.
Record RecRow := {
  rcr_bank_id : string; rcr_contrato : string; rcr_devedor_doc : string; rcr_devedor_nome : string;
  rcr_data_inicial : string; rcr_periodicidade : string; rcr_valor_cents : Z; rcr_status : string;
  rcr_loc_id : option Z; rcr_jornada_txid : option string; rcr_created_at : string; rcr_updated_at : string
}.
Record CobRRow := {
  cbr_id_rec : string; cbr_vencimento : string; cbr_valor_cents : Z; cbr_status : string;
  cbr_created_at : string; cbr_updated_at : string
}.
Record AuditRow := {
  aur_operator_id : string; aur_action : string; aur_tenant_id : string; aur_at : string;
  aur_tx_id : string; aur_expected_cents : Z; aur_received_cents : Z; aur_bank_id : string;
  aur_account_id : option string; aur_origin : string
}.
Record PiiRow := {
  pir_at : string; pir_duration_ms : Z; pir_tenant_id : string; pir_client_id : string;
  pir_operator_id : string; pir_subject_ref : string; pir_object : string; pir_action : string
}.
Record InvoiceRow := {
  ivr_tenant_id : string; ivr_account_id : string; ivr_period_start : string; ivr_period_end : string;
  ivr_total_calls : Z; ivr_total_cents : Z; ivr_generated_at : string
}.
Record ItemRow := { itr_endpoint : string; itr_calls : Z; itr_subtotal_cents : Z }.

(** Each table by its primary key. *)
Record tables := {
  tb_tenants : gmap string TenantRow;
  tb_accounts : gmap string AccountRow;
  tb_payments : gmap string PaymentRow;
  tb_pricing : gmap (string * string) Z;
  tb_ledger : gmap string LedgerRow;
  tb_processed : gmap (string * string) string;
  tb_recs : gmap (string * string) RecRow;
  tb_cobrs : gmap (string * string) CobRRow;
  tb_audit : gmap string AuditRow;
  tb_pii : gmap string PiiRow;
  tb_invoices : gmap string InvoiceRow;
  tb_items : gmap (string * Z) ItemRow
}.
Definition emptyTables : tables :=
  {| tb_tenants := ∅; tb_accounts := ∅; tb_payments := ∅; tb_pricing := ∅; tb_ledger := ∅;
     tb_processed := ∅; tb_recs := ∅; tb_cobrs := ∅; tb_audit := ∅; tb_pii := ∅;
     tb_invoices := ∅; tb_items := ∅ |}.

Definition on_tenants f d : tables :=
  {| tb_tenants := f (tb_tenants d); tb_accounts := tb_accounts d; tb_payments := tb_payments d;
     tb_pricing := tb_pricing d; tb_ledger := tb_ledger d; tb_processed := tb_processed d;
     tb_recs := tb_recs d; tb_cobrs := tb_cobrs d; tb_audit := tb_audit d; tb_pii := tb_pii d;
     tb_invoices := tb_invoices d; tb_items := tb_items d |}.
Definition on_accounts f d : tables :=
  {| tb_tenants := tb_tenants d; tb_accounts := f (tb_accounts d); tb_payments := tb_payments d;
     tb_pricing := tb_pricing d; tb_ledger := tb_ledger d; tb_processed := tb_processed d;
     tb_recs := tb_recs d; tb_cobrs := tb_cobrs d; tb_audit := tb_audit d; tb_pii := tb_pii d;
     tb_invoices := tb_invoices d; tb_items := tb_items d |}.
Definition on_payments f d : tables :=
  {| tb_tenants := tb_tenants d; tb_accounts := tb_accounts d; tb_payments := f (tb_payments d);
     tb_pricing := tb_pricing d; tb_ledger := tb_ledger d; tb_processed := tb_processed d;
     tb_recs := tb_recs d; tb_cobrs := tb_cobrs d; tb_audit := tb_audit d; tb_pii := tb_pii d;
     tb_invoices := tb_invoices d; tb_items := tb_items d |}.
Definition on_pricing f d : tables :=
  {| tb_tenants := tb_tenants d; tb_accounts := tb_accounts d; tb_payments := tb_payments d;
     tb_pricing := f (tb_pricing d); tb_ledger := tb_ledger d; tb_processed := tb_processed d;
     tb_recs := tb_recs d; tb_cobrs := tb_cobrs d; tb_audit := tb_audit d; tb_pii := tb_pii d;
     tb_invoices := tb_invoices d; tb_items := tb_items d |}.
Definition on_ledger f d : tables :=
  {| tb_tenants := tb_tenants d; tb_accounts := tb_accounts d; tb_payments := tb_payments d;
     tb_pricing := tb_pricing d; tb_ledger := f (tb_ledger d); tb_processed := tb_processed d;
     tb_recs := tb_recs d; tb_cobrs := tb_cobrs d; tb_audit := tb_audit d; tb_pii := tb_pii d;
     tb_invoices := tb_invoices d; tb_items := tb_items d |}.
Definition on_processed f d : tables :=
  {| tb_tenants := tb_tenants d; tb_accounts := tb_accounts d; tb_payments := tb_payments d;
     tb_pricing := tb_pricing d; tb_ledger := tb_ledger d; tb_processed := f (tb_processed d);
     tb_recs := tb_recs d; tb_cobrs := tb_cobrs d; tb_audit := tb_audit d; tb_pii := tb_pii d;
     tb_invoices := tb_invoices d; tb_items := tb_items d |}.
Definition on_recs f d : tables :=
  {| tb_tenants := tb_tenants d; tb_accounts := tb_accounts d; tb_payments := tb_payments d;
     tb_pricing := tb_pricing d; tb_ledger := tb_ledger d; tb_processed := tb_processed d;
     tb_recs := f (tb_recs d); tb_cobrs := tb_cobrs d; tb_audit := tb_audit d;
     tb_pii := tb_pii d; tb_invoices := tb_invoices d; tb_items := tb_items d |}.
Definition on_cobrs f d : tables :=
  {| tb_tenants := tb_tenants d; tb_accounts := tb_accounts d; tb_payments := tb_payments d;
     tb_pricing := tb_pricing d; tb_ledger := tb_ledger d; tb_processed := tb_processed d;
     tb_recs := tb_recs d; tb_cobrs := f (tb_cobrs d); tb_audit := tb_audit d;
     tb_pii := tb_pii d; tb_invoices := tb_invoices d; tb_items := tb_items d |}.
Definition on_audit f d : tables :=
  {| tb_tenants := tb_tenants d; tb_accounts := tb_accounts d; tb_payments := tb_payments d;
     tb_pricing := tb_pricing d; tb_ledger := tb_ledger d; tb_processed := tb_processed d;
     tb_recs := tb_recs d; tb_cobrs := tb_cobrs d; tb_audit := f (tb_audit d);
     tb_pii := tb_pii d; tb_invoices := tb_invoices d; tb_items := tb_items d |}.
Definition on_pii f d : tables :=
  {| tb_tenants := tb_tenants d; tb_accounts := tb_accounts d; tb_payments := tb_payments d;
     tb_pricing := tb_pricing d; tb_ledger := tb_ledger d; tb_processed := tb_processed d;
     tb_recs := tb_recs d; tb_cobrs := tb_cobrs d; tb_audit := tb_audit d;
     tb_pii := f (tb_pii d); tb_invoices := tb_invoices d; tb_items := tb_items d |}.
Definition on_invoices f d : tables :=
  {| tb_tenants := tb_tenants d; tb_accounts := tb_accounts d; tb_payments := tb_payments d;
     tb_pricing := tb_pricing d; tb_ledger := tb_ledger d; tb_processed := tb_processed d;
     tb_recs := tb_recs d; tb_cobrs := tb_cobrs d; tb_audit := tb_audit d; tb_pii := tb_pii d;
     tb_invoices := f (tb_invoices d); tb_items := tb_items d |}.
Definition on_items f d : tables :=
  {| tb_tenants := tb_tenants d; tb_accounts := tb_accounts d; tb_payments := tb_payments d;
     tb_pricing := tb_pricing d; tb_ledger := tb_ledger d; tb_processed := tb_processed d;
     tb_recs := tb_recs d; tb_cobrs := tb_cobrs d; tb_audit := tb_audit d; tb_pii := tb_pii d;
     tb_invoices := tb_invoices d; tb_items := f (tb_items d) |}.

(** * Columns *)
Definition boolToInt (b : bool) : Z := if b then 1 else 0.
Definition nullIfEmpty (s : string) : option string := if bool_decide (s = "") then None else Some s.
(** [sql.NullString.String], [sql.NullInt64.Int64]. *)
Definition NullString (c : option string) : string := default "" c.
Definition NullInt64 (c : option Z) : Z := default 0 c.

(** What sets the two engines apart. *)
Class Dialect := {
  text : Time -> string;              (* [Format] with the adapter's [tsLayout] *)
  parseTime : string -> Time;
  unique_violation : error;           (* what the engine answers to a duplicate *)
  isUniqueViolation : error -> bool
}.
Definition sqlite_isUniqueViolation (e : error) : bool :=
  match e with
  | New s => match String.index 0 "UNIQUE constraint failed" s with Some _ => true | None => false end
  | _ => false
  end.
(** [slow]: time.Parse on a text that is not the layout's own. *)
Definition sqlite (slow : string -> option Time) : Dialect :=
  {| text := FormatRFC3339Nano; parseTime := GoRFC3339.parseTime parse_instant slow;
     unique_violation := New "UNIQUE constraint failed"; isUniqueViolation := sqlite_isUniqueViolation |}.
Definition pgErrUniqueViolation : string := "23505".
(** [sqlstate]: the code of the driver's error in an error's chain (errors.As). *)
Definition pg_isUniqueViolation (sqlstate : error -> option string) (e : error) : bool :=
  match sqlstate e with Some code => bool_decide (code = pgErrUniqueViolation) | None => false end.
Definition postgres (slow : string -> option Time) (sqlstate : error -> option string) (duplicate : error) : Dialect :=
  {| text := FormatFixed; parseTime := GoRFC3339.parseTime parse_fixed slow;
     unique_violation := duplicate; isUniqueViolation := pg_isUniqueViolation sqlstate |}.

Section rows.
Context `{Dialect}.
Definition tenant_row (t : Tenant) : TenantRow :=
  {| tnr_name := tenant_name t; tnr_active := boolToInt (tenant_active t);
     tnr_created_at := text (tenant_createdAt t); tnr_account_id := nullIfEmpty (tenant_accountID t) |}.
Definition account_row (a : Account) : AccountRow :=
  {| acr_name := account_name a; acr_active := boolToInt (account_active a);
     acr_created_at := text (account_createdAt a) |}.
Definition payment_row (p : Payment) : PaymentRow :=
  {| pyr_tenant_id := payment_tenantID p; pyr_endpoint := payment_endpoint p;
     pyr_amount_cents := cents (payment_amount p); pyr_currency := currency (payment_amount p);
     pyr_status := payment_status p; pyr_tx_id := payment_txID p;
     pyr_idempotency_key := payment_idempotencyKey p; pyr_created_at := text (payment_createdAt p);
     pyr_updated_at := text (payment_updatedAt p) |}.
Definition ledger_row (e : LedgerEntry) : LedgerRow :=
  {| lgr_tenant_id := ledger_tenantID e; lgr_endpoint := ledger_endpoint e;
     lgr_price_cents := ledger_priceCents e; lgr_reference := ledger_reference e;
     lgr_at := text (ledger_at e); lgr_account_id := nullIfEmpty (ledger_accountID e) |}.
Definition rec_row (r : Rec) : RecRow :=
  {| rcr_bank_id := rec_bankID r; rcr_contrato := rec_contrato r;
     rcr_devedor_doc := devedor_doc (rec_devedor r); rcr_devedor_nome := devedor_nome (rec_devedor r);
     rcr_data_inicial := rec_dataInicial r; rcr_periodicidade := rec_periodicidade r;
     rcr_valor_cents := rec_valorCents r; rcr_status := rec_status r; rcr_loc_id := Some (rec_locID r);
     rcr_jornada_txid := Some (rec_jornadaTxID r); rcr_created_at := text (rec_createdAt r);
     rcr_updated_at := text (rec_updatedAt r) |}.
Definition cobr_row (c : CobR) : CobRRow :=
  {| cbr_id_rec := cobr_idRec c; cbr_vencimento := cobr_vencimento c; cbr_valor_cents := cobr_valorCents c;
     cbr_status := cobr_status c; cbr_created_at := text (cobr_createdAt c);
     cbr_updated_at := text (cobr_updatedAt c) |}.
Definition audit_row (e : Entry) : AuditRow :=
  {| aur_operator_id := entry_operatorID e; aur_action := entry_action e; aur_tenant_id := entry_tenantID e;
     aur_at := text (entry_at e); aur_tx_id := entry_txID e; aur_expected_cents := entry_expectedCents e;
     aur_received_cents := entry_receivedCents e; aur_bank_id := entry_bankID e;
     aur_account_id := nullIfEmpty (entry_accountID e); aur_origin := entry_origin e |}.
Definition pii_row (e : AccessEntry) : PiiRow :=
  {| pir_at := text (access_at e); pir_duration_ms := access_durationMs e; pir_tenant_id := access_tenantID e;
     pir_client_id := access_clientID e; pir_operator_id := access_operatorID e;
     pir_subject_ref := access_subjectRef e; pir_object := access_object e; pir_action := access_action e |}.
End rows.

(** * Statements *)
Definition foreign_key_violation : error := New "FOREIGN KEY constraint failed".

(** INSERT under a primary key and a foreign key. *)
Definition insert_row `{Dialect} {K Row} `{Countable K} (k : K) (row : Row) (references : bool) (t : gmap K Row)
    : res (gmap K Row) :=
  match t !! k with
  | Some _ => Err unique_violation
  | None => if references then Ok (<[k := row]> t) else Err foreign_key_violation
  end.
(** INSERT … ON CONFLICT (primary key) DO UPDATE. *)
Definition upsert_row {K Row} `{Countable K} (k : K) (row : Row) (update : Row -> Row) (references : bool)
    (t : gmap K Row) : res (gmap K Row) :=
  match t !! k with
  | Some old => Ok (<[k := update old]> t)
  | None => if references then Ok (<[k := row]> t) else Err foreign_key_violation
  end.
(** Is a row in the table? *)
Definition exists_row {K Row} `{Countable K} (k : K) (t : gmap K Row) : bool :=
  match t !! k with Some _ => true | None => false end.

(** The rows scanned one after the other; the first that fails fails the read. *)
Fixpoint collect {A} (rows : list (res A)) : res (list A) :=
  match rows with
  | [] => Ok []
  | r :: rest => let? a := r in let? l := collect rest in Ok (a :: l)
  end.

Section store.
(** The engine may fail any statement, BEGIN and COMMIT; a failed statement changes nothing.
    [clock] is the text of time.Now, and the engine enumerates a table as it likes. *)
Context `{Dialect} `{MapIteration}.
Context (fault : string -> tables -> option error) (clock : tables -> string).
Notation sql A := (M tables error A).

Definition exec {A} (what : string) (run : tables -> res (tables * A)) : sql A := fun db =>
  match fault what db with
  | Some e => (db, Err e)
  | None => match run db with Ok (db, a) => (db, Ok a) | Err e => (db, Err e) end
  end.
Definition execute (what : string) (run : tables -> res tables) : sql unit :=
  wrapM (Wrap what) (exec what (fun db => let? db := run db in Ok (db, tt))).
(** A SELECT of rows, each scanned. *)
Definition query_rows {A} (what : string) (select : tables -> list (res A)) : sql (list A) :=
  do rows <- wrapM (Wrap what) (exec what (fun db => Ok (db, select db))) ;;
  liftM (collect rows).
(** A SELECT of one row: sql.ErrNoRows becomes ErrNotFound. *)
Definition query_row {Row A} (what : string) (select : tables -> option Row) (scan : Row -> res A) : sql A :=
  do row <- wrapM (Wrap what) (exec what (fun db => Ok (db, select db))) ;;
  liftM (match row with Some r => scan r | None => Err ErrNotFound end).
(** The rows of a table that pass WHERE, in the engine's order. *)
Definition where_ {Row} (test : string -> Row -> bool) (t : gmap string Row) : list (string * Row) :=
  List.filter (fun kr => test kr.1 kr.2) (iterate t).

(** ** Tenants *)
Definition sql_SaveTenant (t : Tenant) : sql unit :=
  execute "save tenant" (fun db =>
    let row := tenant_row t in
    let? tenants := upsert_row (tenant_id t) row
      (fun old => {| tnr_name := tnr_name row; tnr_active := tnr_active row;
                     tnr_created_at := tnr_created_at old; tnr_account_id := tnr_account_id old |})
      (match tnr_account_id row with None => true | Some a => exists_row a (tb_accounts db) end)
      (tb_tenants db) in
    Ok (on_tenants (fun _ => tenants) db)).
Definition scan_tenant (id : string) (r : TenantRow) : Tenant :=
  tenant_RehydrateWithAccount id (tnr_name r) (negb (tnr_active r =? 0)) (parseTime (tnr_created_at r))
    (NullString (tnr_account_id r)).
Definition sql_FindTenantByID (id : string) : sql Tenant :=
  query_row "scan tenant" (fun db => tb_tenants db !! id) (fun r => Ok (scan_tenant id r)).
(** ORDER BY created_at DESC, id DESC, on the texts. *)
Definition newest_text {Row} (at_ : Row -> string) (x y : string * Row) : bool :=
  if bool_decide (at_ x.2 = at_ y.2) then string_less y.1 x.1 else string_less (at_ y.2) (at_ x.2).
Definition sql_ListTenants : sql (list Tenant) :=
  query_rows "query tenants" (fun db =>
    map (fun kr => Ok (scan_tenant kr.1 kr.2))
        (SliceStable (where_ (fun _ _ => true) (tb_tenants db)) (newest_text tnr_created_at))).

(** ** Accounts *)
Definition sql_SaveAccount (a : Account) : sql unit :=
  execute "save account" (fun db =>
    let row := account_row a in
    let? accounts := upsert_row (account_id a) row
      (fun old => {| acr_name := acr_name row; acr_active := acr_active row;
                     acr_created_at := acr_created_at old |}) true (tb_accounts db) in
    Ok (on_accounts (fun _ => accounts) db)).
Definition scan_account (id : string) (r : AccountRow) : Account :=
  account_Rehydrate id (acr_name r) (negb (acr_active r =? 0)) (parseTime (acr_created_at r)).
Definition sql_FindAccountByID (id : string) : sql Account :=
  query_row "scan account" (fun db => tb_accounts db !! id) (fun r => Ok (scan_account id r)).
Definition sql_ListAccounts : sql (list Account) :=
  query_rows "query accounts" (fun db =>
    map (fun kr => Ok (scan_account kr.1 kr.2))
        (SliceStable (where_ (fun _ _ => true) (tb_accounts db)) (newest_text acr_created_at))).

(** ** Payments: the conflict target is looked at first, the other unique index on INSERT. *)
Definition idempotency_taken (row : PaymentRow) (t : gmap string PaymentRow) : bool :=
  existsb (fun kr => bool_decide (pyr_tenant_id kr.2 = pyr_tenant_id row) &&
                     bool_decide (pyr_idempotency_key kr.2 = pyr_idempotency_key row)) (iterate t).
Definition upsert_payment (id : string) (row : PaymentRow) (db : tables) : res tables :=
  let update old :=
    {| pyr_tenant_id := pyr_tenant_id old; pyr_endpoint := pyr_endpoint old;
       pyr_amount_cents := pyr_amount_cents old; pyr_currency := pyr_currency old;
       pyr_status := pyr_status row; pyr_tx_id := pyr_tx_id row;
       pyr_idempotency_key := pyr_idempotency_key old; pyr_created_at := pyr_created_at old;
       pyr_updated_at := pyr_updated_at row |} in
  if negb (exists_row id (tb_payments db)) && idempotency_taken row (tb_payments db)
  then Err unique_violation
  else let? payments := upsert_row id row update (exists_row (pyr_tenant_id row) (tb_tenants db))
                          (tb_payments db) in
       Ok (on_payments (fun _ => payments) db).
Definition sql_SavePayment (p : Payment) : sql unit := fun db =>
  match exec "save payment" (fun db => let? db := upsert_payment (payment_id p) (payment_row p) db in Ok (db, tt)) db with
  | (db, Err e) => (db, Err (if isUniqueViolation e then ErrConflict else Wrap "save payment" e))
  | r => r
  end.
Definition scan_payment (kr : string * PaymentRow) : res Payment :=
  let '(id, r) := kr in
  let? money := map_err (Wrap "rehydrate money") (NewMoney (pyr_amount_cents r) (pyr_currency r)) in
  Ok (payment_Rehydrate id (pyr_tenant_id r) (pyr_endpoint r) (pyr_idempotency_key r) (pyr_tx_id r) money
        (pyr_status r) (parseTime (pyr_created_at r)) (parseTime (pyr_updated_at r))).
Definition queryPayment (test : string -> PaymentRow -> bool) : sql Payment :=
  query_row "scan payment" (fun db => head (where_ test (tb_payments db))) scan_payment.
Definition sql_FindPaymentByID (tenantID id : string) : sql Payment :=
  queryPayment (fun k r => bool_decide (pyr_tenant_id r = tenantID) && bool_decide (k = id)).
Definition sql_FindPaymentByIdempotencyKey (tenantID key : string) : sql Payment :=
  queryPayment (fun _ r => bool_decide (pyr_tenant_id r = tenantID) && bool_decide (pyr_idempotency_key r = key)).
Definition sql_FindPaymentByTxID (tenantID txID : string) : sql Payment :=
  queryPayment (fun _ r => bool_decide (pyr_tenant_id r = tenantID) && bool_decide (pyr_tx_id r = txID)).

(** ** Prices *)
Definition sql_GetEndpointPrice (tenantID endpoint : string) : sql EndpointPricing :=
  query_row "scan price" (fun db => tb_pricing db !! (tenantID, endpoint))
    (NewEndpointPricing tenantID endpoint).
Definition sql_UpsertEndpointPrice (p : EndpointPricing) : sql unit :=
  execute "upsert price" (fun db =>
    let? pricing := upsert_row (pricing_tenantID p, pricing_endpoint p) (pricing_priceCents p)
      (fun _ => pricing_priceCents p) (exists_row (pricing_tenantID p) (tb_tenants db)) (tb_pricing db) in
    Ok (on_pricing (fun _ => pricing) db)).
Definition sql_ListEndpointPrices (tenantID : string) : sql (list EndpointPricing) :=
  query_rows "query prices" (fun db =>
    map (fun kr => map_err (Wrap "rehydrate price") (NewEndpointPricing kr.1.1 kr.1.2 kr.2))
        (SliceStable (List.filter (fun kr => bool_decide (kr.1.1 = tenantID)) (map_to_list (tb_pricing db)))
           (fun x y => string_less x.1.2 y.1.2))).

(** ** Ledger *)
Definition sql_AppendLedgerEntry (e : LedgerEntry) : sql unit :=
  execute "append ledger" (fun db =>
    let? ledger := insert_row (ledger_id e) (ledger_row e) (exists_row (ledger_tenantID e) (tb_tenants db))
                     (tb_ledger db) in
    Ok (on_ledger (fun _ => ledger) db)).
Definition scan_ledger (kr : string * LedgerRow) : res LedgerEntry :=
  let '(id, r) := kr in
  map_err (Wrap "rehydrate ledger")
    (NewLedgerEntry id (lgr_tenant_id r) (lgr_endpoint r) (lgr_reference r) (lgr_price_cents r)
       (parseTime (lgr_at r)) [WithAccount (NullString (lgr_account_id r))]).
Definition scanLedger (test : LedgerRow -> bool) : sql (list LedgerEntry) :=
  query_rows "query ledger" (fun db =>
    map scan_ledger (SliceStable (where_ (fun _ => test) (tb_ledger db)) (newest_text lgr_at))).
Definition sql_ListLedgerEntries (tenantID : string) : sql (list LedgerEntry) :=
  scanLedger (fun r => bool_decide (lgr_tenant_id r = tenantID)).
Definition sql_ListLedgerEntriesByAccount (accountID : string) : sql (list LedgerEntry) :=
  scanLedger (fun r => bool_decide (lgr_account_id r = Some accountID)).

(** ** Processed events: RowsAffected tells the first time from a repetition. *)
Definition sql_MarkProcessed (tenantID eventKey : string) : sql bool :=
  wrapM (Wrap "mark processed") (exec "mark processed" (fun db =>
    match tb_processed db !! (tenantID, eventKey) with
    | Some _ => Ok (db, false)
    | None => Ok (on_processed (insert (tenantID, eventKey) (clock db)) db, true)
    end)).

(** ** Mandates *)
Definition sql_SaveRec (r : Rec) : sql unit :=
  execute "save rec" (fun db =>
    let row := rec_row r in
    let? recs := upsert_row (rec_tenantID r, rec_idRec r) row
      (fun old => {| rcr_bank_id := rcr_bank_id old; rcr_contrato := rcr_contrato old;
                     rcr_devedor_doc := rcr_devedor_doc old; rcr_devedor_nome := rcr_devedor_nome old;
                     rcr_data_inicial := rcr_data_inicial old; rcr_periodicidade := rcr_periodicidade old;
                     rcr_valor_cents := rcr_valor_cents old; rcr_status := rcr_status row;
                     rcr_loc_id := rcr_loc_id old; rcr_jornada_txid := rcr_jornada_txid old;
                     rcr_created_at := rcr_created_at old; rcr_updated_at := rcr_updated_at row |})
      true (tb_recs db) in
    Ok (on_recs (fun _ => recs) db)).
Definition scan_rec (tenantID idRec : string) (r : RecRow) : res Rec :=
  let? devedor := map_err (Wrap "rehydrate devedor") (NewDevedor (rcr_devedor_doc r) (rcr_devedor_nome r)) in
  Ok (RehydrateRec idRec tenantID (rcr_bank_id r) (rcr_contrato r) devedor (rcr_data_inicial r)
        (rcr_periodicidade r) (rcr_valor_cents r) (rcr_status r) (parseTime (rcr_created_at r))
        (parseTime (rcr_updated_at r))
        [WithRecJourney (NullInt64 (rcr_loc_id r)) (NullString (rcr_jornada_txid r))]).
Definition sql_FindRecByID (tenantID idRec : string) : sql Rec :=
  query_row "scan rec" (fun db => tb_recs db !! (tenantID, idRec)) (scan_rec tenantID idRec).
Definition sql_SaveCobR (c : CobR) : sql unit :=
  execute "save cobr" (fun db =>
    let row := cobr_row c in
    let? cobrs := upsert_row (cobr_tenantID c, cobr_txID c) row
      (fun old => {| cbr_id_rec := cbr_id_rec old; cbr_vencimento := cbr_vencimento old;
                     cbr_valor_cents := cbr_valor_cents old; cbr_status := cbr_status row;
                     cbr_created_at := cbr_created_at old; cbr_updated_at := cbr_updated_at row |})
      true (tb_cobrs db) in
    Ok (on_cobrs (fun _ => cobrs) db)).
Definition scanCobR (tenantID txID : string) (r : CobRRow) : CobR :=
  RehydrateCobR txID (cbr_id_rec r) tenantID (cbr_vencimento r) (cbr_valor_cents r) (cbr_status r)
    (parseTime (cbr_created_at r)) (parseTime (cbr_updated_at r)).
Definition sql_FindCobRByTxID (tenantID txID : string) : sql CobR :=
  query_row "scan cobr" (fun db => tb_cobrs db !! (tenantID, txID)) (fun r => Ok (scanCobR tenantID txID r)).
(** ORDER BY vencimento ASC, tx_id ASC *)
Definition earlier_due (x y : (string * string) * CobRRow) : bool :=
  if bool_decide (cbr_vencimento x.2 = cbr_vencimento y.2) then string_less x.1.2 y.1.2
  else string_less (cbr_vencimento x.2) (cbr_vencimento y.2).
Definition sql_ListCobRByRec (tenantID idRec : string) : sql (list CobR) :=
  query_rows "query cobr" (fun db =>
    map (fun kr => Ok (scanCobR kr.1.1 kr.1.2 kr.2))
        (SliceStable (List.filter (fun kr => bool_decide (kr.1.1 = tenantID) && bool_decide (cbr_id_rec kr.2 = idRec))
                        (map_to_list (tb_cobrs db))) earlier_due)).

(** ** Append-only registers *)
Definition sql_Append (e : Entry) : sql unit :=
  execute "append audit entry" (fun db =>
    let? log := insert_row (entry_id e) (audit_row e) true (tb_audit db) in
    Ok (on_audit (fun _ => log) db)).
Definition sql_RecordPIIAccess (e : AccessEntry) : sql unit :=
  execute "record pii access" (fun db =>
    let? log := insert_row (access_id e) (pii_row e) true (tb_pii db) in
    Ok (on_pii (fun _ => log) db)).
(** DELETE … WHERE at < ?, on the texts: the number of rows removed. *)
Definition sql_PurgePIIAccessBefore (cutoff : Time) : sql Z :=
  wrapM (Wrap "purge pii access") (exec "purge pii access" (fun db =>
    let removed (kr : string * PiiRow) := string_less (pir_at kr.2) (text (in_UTC cutoff)) in
    Ok (on_pii (filter (fun kr => negb (removed kr))) db,
        Z.of_nat (size (filter (fun kr => removed kr) (tb_pii db)))))).

(** ** The repository and its transactions *)
#[export] Instance repo : Repository tables := {
  SavePayment := sql_SavePayment;
  FindPaymentByID := sql_FindPaymentByID;
  FindPaymentByIdempotencyKey := sql_FindPaymentByIdempotencyKey;
  FindPaymentByTxID := sql_FindPaymentByTxID;
  SaveTenant := sql_SaveTenant;
  FindTenantByID := sql_FindTenantByID;
  GetEndpointPrice := sql_GetEndpointPrice;
  UpsertEndpointPrice := sql_UpsertEndpointPrice;
  AppendLedgerEntry := sql_AppendLedgerEntry;
  MarkProcessed := sql_MarkProcessed;
  SaveRec := sql_SaveRec;
  FindRecByID := sql_FindRecByID;
  SaveCobR := sql_SaveCobR;
  FindCobRByTxID := sql_FindCobRByTxID;
  Append := sql_Append;
  RecordPIIAccess := sql_RecordPIIAccess
}.

(** BEGIN, the callback, then COMMIT or ROLLBACK; a COMMIT that fails has written nothing. *)
Definition in_transaction {A} (begin commit : string) (fn : sql A) : sql A := fun db =>
  match fault begin db with
  | Some e => (db, Err (Wrap begin e))
  | None =>
      match fn db with
      | (_, Err e) => (db, Err e)
      | (db', Ok a) =>
          match fault commit db' with
          | Some e => (db, Err (Wrap commit e))
          | None => (db', Ok a)
          end
      end
  end.
Definition sql_WithinTx {A} : sql A -> sql A := in_transaction "begin tx" "commit tx".
#[export] Instance sqlUoW : UnitOfWork tables := { WithinTx := @sql_WithinTx }.
Lemma in_transaction_atomic {A} begin commit (fn : sql A) db :
  (exists e, in_transaction begin commit fn db = (db, Err e)) \/
  (exists db' a, fn db = (db', Ok a) /\ in_transaction begin commit fn db = (db', Ok a)).
Proof.
  unfold in_transaction. destruct (fault begin db); [eauto|]. destruct (fn db) as [db' [a|e]]; [|eauto].
  destruct (fault commit db'); eauto.
Qed.
#[export] Instance sqlUoW_laws : UnitOfWorkLaws tables.
Proof. split. intros A fn db. apply in_transaction_atomic. Qed.

(** ** Invoices: the header and its items in one transaction *)
Fixpoint insert_items (id : string) (seq : Z) (lines : list LineItem) : sql unit :=
  match lines with
  | [] => retM tt
  | l :: rest =>
      do _ <- execute "insert invoice item" (fun db =>
        let? items := insert_row (id, seq)
          {| itr_endpoint := li_endpoint l; itr_calls := li_calls l; itr_subtotal_cents := li_subtotalCents l |}
          (exists_row id (tb_invoices db)) (tb_items db) in
        Ok (on_items (fun _ => items) db)) ;;
      insert_items id (seq + 1) rest
  end.
Definition invoice_row (inv : Invoice) : InvoiceRow :=
  {| ivr_tenant_id := inv_tenantID inv; ivr_account_id := inv_accountID inv;
     ivr_period_start := text (in_UTC (inv_periodStart inv)); ivr_period_end := text (in_UTC (inv_periodEnd inv));
     ivr_total_calls := inv_totalCalls inv; ivr_total_cents := inv_totalCents inv;
     ivr_generated_at := text (in_UTC (inv_generatedAt inv)) |}.
Definition sql_SaveInvoice (inv : Invoice) : sql unit :=
  in_transaction "begin invoice tx" "commit invoice tx" (
    do _ <- execute "insert invoice" (fun db =>
      let? invoices := insert_row (inv_id inv) (invoice_row inv) (exists_row (inv_tenantID inv) (tb_tenants db))
                         (tb_invoices db) in
      Ok (on_invoices (fun _ => invoices) db)) ;;
    insert_items (inv_id inv) 0 (inv_lines inv)).
(** ORDER BY seq ASC *)
Definition seq_less (x y : (string * Z) * ItemRow) : bool := x.1.2 <? y.1.2.
Definition invoiceItems (invoiceID : string) : sql (list LineItem) :=
  query_rows "query invoice items" (fun db =>
    map (fun kr => map_err (Wrap "rehydrate invoice item")
                     (NewLineItem (itr_endpoint kr.2) (itr_calls kr.2) (itr_subtotal_cents kr.2)))
        (SliceStable (List.filter (fun kr => bool_decide (kr.1.1 = invoiceID)) (map_to_list (tb_items db))) seq_less)).
Definition scan_invoice (tenantID : string) (kr : string * InvoiceRow) (lines : list LineItem) : Invoice :=
  {| inv_id := kr.1; inv_tenantID := tenantID; inv_accountID := ivr_account_id kr.2;
     inv_periodStart := parseTime (ivr_period_start kr.2); inv_periodEnd := parseTime (ivr_period_end kr.2);
     inv_lines := lines; inv_totalCalls := ivr_total_calls kr.2; inv_totalCents := ivr_total_cents kr.2;
     inv_generatedAt := parseTime (ivr_generated_at kr.2) |}.
Definition sql_FindInvoiceByID (tenantID id : string) : sql Invoice :=
  do row <- query_row "query invoice"
    (fun db => match tb_invoices db !! id with
               | Some r => if bool_decide (ivr_tenant_id r = tenantID) then Some r else None
               | None => None
               end) Ok ;;
  do lines <- invoiceItems id ;;
  retM (scan_invoice tenantID (id, row) lines).
Fixpoint with_items (tenantID : string) (rows : list (string * InvoiceRow)) : sql (list Invoice) :=
  match rows with
  | [] => retM []
  | kr :: rest =>
      do lines <- invoiceItems kr.1 ;;
      do tail <- with_items tenantID rest ;;
      retM (scan_invoice tenantID kr lines :: tail)
  end.
Definition sql_ListInvoices (tenantID : string) : sql (list Invoice) :=
  do rows <- query_rows "query invoices" (fun db =>
    map Ok (SliceStable (where_ (fun _ r => bool_decide (ivr_tenant_id r = tenantID)) (tb_invoices db))
              (newest_text ivr_generated_at))) ;;
  with_items tenantID rows.
End store.
