(* ===== verification/SqlRefines.v ===== *)
(** The durable store implements the in-memory one: a transaction, whatever it reads and
    decides, answers the same over the tables of SqlStore as over the maps of MemStore, and
    leaves tables that stand for the maps it leaves.  Then invoices (SaveInvoice,
    FindInvoiceByID): the header and its lines are written together or not at all. *)
From stdpp Require Import sorting.
From S2P Require Import Prelude GoStrings GoTime GoSort GoRFC3339 Shared Payments Tenants.
From S2P Require Import Mandates AuditTrail Ports MemStore Invoices SqlStore.
(** * Transactions as programs

    What a use-case does inside a unit of work: repository calls, each decided by the answers
    before it. *)
Inductive call : Type -> Type :=
| CSavePayment (p : Payment) : call unit
| CFindPaymentByID (tenantID id : string) : call Payment
| CFindPaymentByIdempotencyKey (tenantID key : string) : call Payment
| CFindPaymentByTxID (tenantID txID : string) : call Payment
| CSaveTenant (t : Tenant) : call unit
| CFindTenantByID (id : string) : call Tenant
| CGetEndpointPrice (tenantID endpoint : string) : call EndpointPricing
| CUpsertEndpointPrice (p : EndpointPricing) : call unit
| CAppendLedgerEntry (e : LedgerEntry) : call unit
| CMarkProcessed (tenantID eventKey : string) : call bool
| CSaveRec (r : Rec) : call unit
| CFindRecByID (tenantID idRec : string) : call Rec
| CSaveCobR (c : CobR) : call unit
| CFindCobRByTxID (tenantID txID : string) : call CobR
| CAppend (e : Entry) : call unit
| CRecordPIIAccess (e : AccessEntry) : call unit.

Definition perform {S} `{Repository S} {A} (c : call A) : M S error A :=
  match c in call A return M S error A with
  | CSavePayment p => SavePayment p
  | CFindPaymentByID t i => FindPaymentByID t i
  | CFindPaymentByIdempotencyKey t k => FindPaymentByIdempotencyKey t k
  | CFindPaymentByTxID t x => FindPaymentByTxID t x
  | CSaveTenant t => SaveTenant t
  | CFindTenantByID i => FindTenantByID i
  | CGetEndpointPrice t e => GetEndpointPrice t e
  | CUpsertEndpointPrice p => UpsertEndpointPrice p
  | CAppendLedgerEntry e => AppendLedgerEntry e
  | CMarkProcessed t k => MarkProcessed t k
  | CSaveRec r => SaveRec r
  | CFindRecByID t i => FindRecByID t i
  | CSaveCobR c => SaveCobR c
  | CFindCobRByTxID t x => FindCobRByTxID t x
  | CAppend e => Append e
  | CRecordPIIAccess e => RecordPIIAccess e
  end.

Inductive program (A : Type) : Type :=
| Done (r : res A)
| Then {B : Type} (c : call B) (k : res B -> program A).
Arguments Done {A}. Arguments Then {A B}.

Fixpoint run {S} `{Repository S} {A} (p : program A) : M S error A :=
  match p with
  | Done r => liftM r
  | Then c k => fun s => let '(s, r) := perform c s in run (k r) s
  end.

(** * What may be stored

    An identifier without a NUL byte is told apart from what follows it in a key. *)
Definition clean (s : string) : bool := forallb (fun c => negb (bool_decide (c = "000"%char))) (bytes_of s).
Lemma key_clean a b c d : clean a = true -> clean c = true -> key a b = key c d -> a = c /\ b = d.
Proof.
  unfold clean, key. revert c. induction a as [|x a IH]; intros [|y c] Ha Hc; cbn in *.
  - by intros [= ->].
  - intros [= <- _]. by rewrite bool_decide_true in Hc.
  - intros [= -> _]. by rewrite bool_decide_true in Ha.
  - apply andb_true_iff in Ha as [_ Ha], Hc as [_ Hc]. intros [= <- E]. by destruct (IH c Ha Hc E) as [-> ->].
Qed.

Definition storable_tenant (t : Tenant) : Prop :=
  utc_writable (tenant_createdAt t) /\ trimmed (tenant_accountID t).
Definition storable_payment (p : Payment) : Prop :=
  utc_writable (payment_createdAt p) /\ utc_writable (payment_updatedAt p) /\
  Money_ok (payment_amount p) /\ clean (payment_tenantID p) = true.
Definition storable_pricing (t e : string) (p : EndpointPricing) : Prop :=
  NewEndpointPricing t e (pricing_priceCents p) = Ok p.
Definition storable_rec (t i : string) (r : Rec) : Prop :=
  rec_tenantID r = t /\ rec_idRec r = i /\ utc_writable (rec_createdAt r) /\ utc_writable (rec_updatedAt r) /\
  NewDevedor (devedor_doc (rec_devedor r)) (devedor_nome (rec_devedor r)) = Ok (rec_devedor r).
Definition storable_cobr (t x : string) (c : CobR) : Prop :=
  cobr_tenantID c = t /\ cobr_txID c = x /\ utc_writable (cobr_createdAt c) /\ utc_writable (cobr_updatedAt c).

(** * Tables that stand for a snapshot *)
Definition keyed {V Row} (row : V -> Row) (ok : string -> string -> V -> Prop)
    (t : gmap (string * string) Row) (m : gmap string V) : Prop :=
  forall a b, clean a = true ->
    t !! (a, b) = row <$> m !! key a b /\ forall v, m !! key a b = Some v -> ok a b v.
Definition logged {E Row} (id : E -> string) (row : E -> Row) (t : gmap string Row) (l : list E) : Prop :=
  (forall e, e ∈ l -> t !! id e = Some (row e)) /\
  (forall i r, t !! i = Some r -> exists e, e ∈ l /\ id e = i /\ r = row e) /\ NoDup (map id l).

Record represents `{Dialect} (known : string -> bool) (db : tables) (s : snapshot) : Prop := {
  rp_accounts : forall a, known a = true -> exists_row a (tb_accounts db) = true;
  rp_tenants : forall id, tb_tenants db !! id = tenant_row <$> st_tenants s !! id;
  rp_tenant_ok : forall id t, st_tenants s !! id = Some t -> tenant_id t = id /\ storable_tenant t;
  rp_store_ok : Store_ok s;
  rp_payment_ok : forall k p, st_payments s !! k = Some p ->
    storable_payment p /\ tb_payments db !! payment_id p = Some (payment_row p);
  rp_payments : forall id r, tb_payments db !! id = Some r ->
    exists p, st_payments s !! key (payment_tenantID p) id = Some p /\ payment_id p = id /\ r = payment_row p;
  rp_pricing : keyed pricing_priceCents storable_pricing (tb_pricing db) (st_pricing s);
  rp_ledger : logged ledger_id ledger_row (tb_ledger db) (st_ledger s);
  rp_processed : forall t k, clean t = true ->
    exists_row (t, k) (tb_processed db) = bool_decide (key t k ∈ st_processed s);
  rp_recs : keyed rec_row storable_rec (tb_recs db) (st_recs s);
  rp_cobrs : keyed cobr_row storable_cobr (tb_cobrs db) (st_cobrs s);
  rp_audit : logged entry_id audit_row (tb_audit db) (st_audit s);
  rp_pii : logged access_id pii_row (tb_pii db) (st_piiAccess s)
}.

(** * Calls the tables can serve as the maps do

    A saved aggregate that is stored already keeps its registration facts, which the upserts
    do not write; a new register entry has an identifier of its own; what a row references
    exists. *)
Definition same_registration (p q : Payment) : Prop :=
  payment_tenantID p = payment_tenantID q /\ payment_endpoint p = payment_endpoint q /\
  payment_amount p = payment_amount q /\ payment_idempotencyKey p = payment_idempotencyKey q /\
  payment_createdAt p = payment_createdAt q.
Definition same_mandate (r q : Rec) : Prop :=
  rec_bankID r = rec_bankID q /\ rec_contrato r = rec_contrato q /\ rec_devedor r = rec_devedor q /\
  rec_dataInicial r = rec_dataInicial q /\ rec_periodicidade r = rec_periodicidade q /\
  rec_valorCents r = rec_valorCents q /\ rec_locID r = rec_locID q /\
  rec_jornadaTxID r = rec_jornadaTxID q /\ rec_createdAt r = rec_createdAt q.
Definition same_cobr (c q : CobR) : Prop :=
  cobr_idRec c = cobr_idRec q /\ cobr_vencimento c = cobr_vencimento q /\
  cobr_valorCents c = cobr_valorCents q /\ cobr_createdAt c = cobr_createdAt q.

Definition call_ok (known : string -> bool) {A} (c : call A) (s : snapshot) : Prop :=
  match c with
  | CSavePayment p =>
      storable_payment p /\ is_Some (st_tenants s !! payment_tenantID p) /\
      (forall k q, st_payments s !! k = Some q -> payment_id q = payment_id p -> same_registration p q)
  | CFindPaymentByID t _ => clean t = true
  | CFindPaymentByIdempotencyKey _ _ => True
  | CFindPaymentByTxID t x =>
      forall k1 k2 p q, st_payments s !! k1 = Some p -> st_payments s !! k2 = Some q ->
        payment_tenantID p = t -> payment_tenantID q = t -> payment_txID p = x -> payment_txID q = x -> p = q
  | CSaveTenant t =>
      storable_tenant t /\ (tenant_accountID t = "" \/ known (tenant_accountID t) = true) /\
      (forall u, st_tenants s !! tenant_id t = Some u ->
         tenant_createdAt t = tenant_createdAt u /\ tenant_accountID t = tenant_accountID u)
  | CFindTenantByID _ => True
  | CGetEndpointPrice t _ => clean t = true
  | CUpsertEndpointPrice p =>
      clean (pricing_tenantID p) = true /\ storable_pricing (pricing_tenantID p) (pricing_endpoint p) p /\
      is_Some (st_tenants s !! pricing_tenantID p)
  | CAppendLedgerEntry e =>
      is_Some (st_tenants s !! ledger_tenantID e) /\
      forall x, x ∈ st_ledger s -> ledger_id x <> ledger_id e
  | CMarkProcessed t _ => clean t = true
  | CSaveRec r =>
      clean (rec_tenantID r) = true /\ storable_rec (rec_tenantID r) (rec_idRec r) r /\
      (forall q, st_recs s !! key (rec_tenantID r) (rec_idRec r) = Some q -> same_mandate r q)
  | CFindRecByID t _ => clean t = true
  | CSaveCobR c =>
      clean (cobr_tenantID c) = true /\ storable_cobr (cobr_tenantID c) (cobr_txID c) c /\
      (forall q, st_cobrs s !! key (cobr_tenantID c) (cobr_txID c) = Some q -> same_cobr c q)
  | CFindCobRByTxID t _ => clean t = true
  | CAppend e => forall x, x ∈ st_audit s -> entry_id x <> entry_id e
  | CRecordPIIAccess e => forall x, x ∈ st_piiAccess s -> access_id x <> access_id e
  end.

(** * Tables under the operations *)
Lemma keyed_insert {V Row} (row : V -> Row) ok t m a b v : keyed row ok t m -> clean a = true -> ok a b v ->
  keyed row ok (<[(a, b) := row v]> t) (<[key a b := v]> m).
Proof.
  intros Hk Ha Hv c d Hc. destruct (Hk c d Hc) as [E Hok]. destruct (decide ((c, d) = (a, b))) as [[= -> ->]|Hne].
  - rewrite !lookup_insert_eq. split; [done|]. by intros v' [= <-].
  - assert (key a b <> key c d) by (intros [-> ->]%key_clean; done).
    rewrite !lookup_insert_ne by congruence. by split.
Qed.
Lemma logged_snoc {E Row} (id : E -> string) (row : E -> Row) t l e : logged id row t l ->
  (forall x, x ∈ l -> id x <> id e) ->
  t !! id e = None /\ logged id row (<[id e := row e]> t) (l ++ [e]).
Proof.
  intros (H1 & H2 & H3) Hf. split.
  { destruct (t !! id e) as [r|] eqn:Er; [|done]. apply H2 in Er as (x & Hx & Eid & _). by destruct (Hf x). }
  split; [|split].
  - intros x [Hx| ->%list_elem_of_singleton]%elem_of_app; [|by rewrite lookup_insert_eq].
    rewrite lookup_insert_ne by (intros E'; by destruct (Hf x)). by apply H1.
  - intros i r [[<- <-]|[_ Hr]]%lookup_insert_Some.
    + exists e. split; [set_solver|done].
    + apply H2 in Hr as (x & ? & ? & ?). exists x. split; [set_solver|done].
  - rewrite map_app. apply NoDup_app. split; [done|]. split; [|by apply NoDup_singleton].
    intros i (x & -> & Hx)%list_elem_of_fmap Ei%list_elem_of_singleton. by destruct (Hf x).
Qed.

Lemma NullString_nullIfEmpty s : NullString (nullIfEmpty s) = s.
Proof. unfold NullString, nullIfEmpty. by case_bool_decide as E; [rewrite E|]. Qed.
Lemma utc_writable_writable t : utc_writable t -> writable t.
Proof. intros [E Hy]. split; [done|]. by rewrite E. Qed.
Lemma in_UTC_utc t : utc_writable t -> in_UTC t = t.
Proof. intros [E _]. unfold in_UTC. rewrite <- E. by destruct t. Qed.

(** What both engines promise: an instant in UTC is read back, and a duplicate is told apart. *)
Class DialectLaws (D : Dialect) : Prop := {
  parse_utc t : utc_writable t -> parseTime (text t) = t;
  duplicate_known : isUniqueViolation unique_violation = true
}.
#[export] Instance sqlite_laws slow : DialectLaws (sqlite slow).
Proof.
  split; [|done]. intros t Ht. cbn [parseTime text sqlite].
  rewrite parseTime_format by by apply parse_instant_format, utc_writable_writable. by apply in_UTC_utc.
Qed.
Lemma postgres_laws slow sqlstate duplicate : sqlstate duplicate = Some pgErrUniqueViolation ->
  DialectLaws (postgres slow sqlstate duplicate).
Proof.
  intros Hd. split.
  - intros t Ht. cbn [parseTime text postgres].
    rewrite parseTime_format by by apply parse_fixed_format, utc_writable_writable. by apply in_UTC_utc.
  - cbn [isUniqueViolation unique_violation postgres]. unfold pg_isUniqueViolation. rewrite Hd. by apply bool_decide_true.
Qed.

Section rows.
Context {D : Dialect} {L : DialectLaws D}.
#[local] Arguments parseTime : simpl never.
#[local] Arguments TrimSpace : simpl never.
#[local] Arguments NewMoney : simpl never.
#[local] Arguments NewDevedor : simpl never.
#[local] Arguments text : simpl never.

Lemma scan_tenant_row t : storable_tenant t -> scan_tenant (tenant_id t) (tenant_row t) = t.
Proof.
  intros [Ht Ha]. unfold scan_tenant, tenant_row, tenant_RehydrateWithAccount. cbn.
  rewrite NullString_nullIfEmpty, parse_utc by done. rewrite Ha.
  destruct t as [? ? [] ? ?]; done.
Qed.
Lemma scan_payment_row p : storable_payment p -> scan_payment (payment_id p, payment_row p) = Ok p.
Proof.
  intros (Hc & Hu & [Hpos Hcur] & _). unfold scan_payment, payment_row. cbn.
  rewrite (proj2 (NewMoney_Ok _ _ _) (conj Hpos (conj Hcur eq_refl))). cbn. rewrite !parse_utc by done.
  destruct p as [? ? [] ? ? ? ? ? ?]; done.
Qed.
Lemma scan_rec_row t i r : storable_rec t i r -> scan_rec t i (rec_row r) = Ok r.
Proof.
  intros (<- & <- & Hc & Hu & Hd). unfold scan_rec, rec_row. cbn. rewrite Hd. cbn. rewrite !parse_utc by done.
  by destruct r.
Qed.
Lemma scan_cobr_row t x c : storable_cobr t x c -> scanCobR t x (cobr_row c) = c.
Proof. intros (<- & <- & Hc & Hu). unfold scanCobR, cobr_row. cbn. rewrite !parse_utc by done. by destruct c. Qed.
End rows.

Section simulation.
Context `{MapRange} `{MapIteration} {D : Dialect} {L : DialectLaws D}.
Context (fault : string -> tables -> option error) (clock : tables -> string).
Hypothesis no_fault : forall what db, fault what db = None.
Context (known : string -> bool).
#[local] Existing Instance repo.
Notation sql := (@perform tables (repo fault clock)).
Notation mem := (@perform snapshot txView).
Notation rep := (represents known).

(** The two calls answer the same and the tables stand for the maps afterwards. *)
Definition simulates {A} (c : call A) (db : tables) (s : snapshot) : Prop :=
  (sql c db).2 = (mem c s).2 /\ rep (sql c db).1 (mem c s).1.

Lemma exec_runs {A} what (f : tables -> res (tables * A)) db :
  exec fault what f db = match f db with Ok (db', a) => (db', Ok a) | Err e => (db, Err e) end.
Proof. unfold exec. by rewrite no_fault. Qed.
Lemma execute_runs what f db db' : f db = Ok db' -> execute fault what f db = (db', Ok tt).
Proof. intros E. unfold execute, wrapM. rewrite exec_runs, E. done. Qed.
Lemma query_row_runs {Row A} what (select : tables -> option Row) (scan : Row -> res A) db :
  query_row fault what select scan db
    = (db, match select db with Some r => scan r | None => Err ErrNotFound end).
Proof. unfold query_row, wrapM, bindM. rewrite exec_runs. by destruct (select db). Qed.

Lemma simulates_read {A} (c : call A) db s :
  rep db s -> (exists r, sql c db = (db, r) /\ mem c s = (s, r)) -> simulates c db s.
Proof. intros Hr (r & E1 & E2). unfold simulates. by rewrite E1, E2. Qed.

Lemma tenant_exists db s id : rep db s -> is_Some (st_tenants s !! id) -> exists_row id (tb_tenants db) = true.
Proof. intros Hr [t Ht]. unfold exists_row. by rewrite (rp_tenants _ _ _ Hr), Ht. Qed.

Lemma find_tenant_simulates id db s : rep db s -> simulates (CFindTenantByID id) db s.
Proof.
  intros Hr. apply simulates_read; [done|]. cbn [perform FindTenantByID repo txView].
  unfold sql_FindTenantByID, findTenantByID, readM. rewrite query_row_runs, (rp_tenants _ _ _ Hr).
  destruct (st_tenants s !! id) as [t|] eqn:Et; [|by eexists]. cbn.
  destruct (rp_tenant_ok _ _ _ Hr _ _ Et) as [<- Hs]. rewrite scan_tenant_row by done. by eexists.
Qed.
Lemma save_tenant_simulates t db s : rep db s -> call_ok known (CSaveTenant t) s -> simulates (CSaveTenant t) db s.
Proof.
  intros Hr (Hst & Hacc & Hsame). unfold simulates. cbn [perform SaveTenant repo txView].
  assert (E : sql_SaveTenant fault t db = (on_tenants (insert (tenant_id t) (tenant_row t)) db, Ok tt)).
  { unfold sql_SaveTenant. apply execute_runs. cbv zeta. unfold upsert_row.
    rewrite (rp_tenants _ _ _ Hr). destruct (st_tenants s !! tenant_id t) as [u|] eqn:Eu; cbn.
    - destruct (Hsame u eq_refl) as [E1 E2]. unfold tenant_row. by rewrite E1, E2.
    - unfold nullIfEmpty. case_bool_decide as Ea; [done|]. destruct Hacc as [?|Hk]; [done|].
      by rewrite (rp_accounts _ _ _ Hr _ Hk). }
  rewrite E. cbn. split; [done|]. destruct Hr. split; cbn; try done.
  - intros id. destruct (decide (tenant_id t = id)) as [<-|Hne]; [by rewrite !lookup_insert_eq|].
    by rewrite !lookup_insert_ne.
  - intros id u [[<- <-]|[_ Hu]]%lookup_insert_Some; [done|by apply rp_tenant_ok0].
  - by destruct rp_store_ok0.
Qed.

(** Payments: the rows of the table are the payments of the map. *)
Lemma row_test db s (test : string -> PaymentRow -> bool) (test' : Payment -> bool) :
  rep db s -> (forall p, test (payment_id p) (payment_row p) = test' p) ->
  forall id r, In (id, r) (where_ test (tb_payments db)) <->
    exists k p, st_payments s !! k = Some p /\ test' p = true /\ id = payment_id p /\ r = payment_row p.
Proof.
  intros Hr Ht id r. unfold where_. rewrite filter_In, <- list_elem_of_In, iterate_perm, elem_of_map_to_list. cbn. split.
  - intros [Hid Htest]. destruct (rp_payments _ _ _ Hr _ _ Hid) as (p & Hp & <- & ->).
    rewrite Ht in Htest. eauto 10.
  - intros (k & p & Hk & Htest & -> & ->). destruct (rp_payment_ok _ _ _ Hr _ _ Hk) as [_ Hrow]. by rewrite Ht.
Qed.
Lemma find_payment_simulates db s test (test' : Payment -> bool) :
  rep db s -> (forall p, test (payment_id p) (payment_row p) = test' p) ->
  (forall k1 k2 p q, st_payments s !! k1 = Some p -> st_payments s !! k2 = Some q ->
     test' p = true -> test' q = true -> p = q) ->
  queryPayment fault test db = (db, found (scan test' s)).
Proof.
  intros Hr Ht Hu. unfold queryPayment. rewrite query_row_runs. f_equal.
  pose proof (row_test db s test test' Hr Ht) as Hin.
  destruct (where_ test (tb_payments db)) as [|[id r] rest] eqn:Ew; cbn [head].
  - destruct (scan test' s) as [p|] eqn:Es; [|done]. apply scan_Some in Es as [[k Hk] Hp].
    destruct (proj2 (Hin (payment_id p) (payment_row p))). eauto 10.
  - destruct (proj1 (Hin id r) (or_introl eq_refl)) as (k & p & Hk & Hp & -> & ->).
    rewrite (scan_unique test' s k p Hk Hp); [|intros k' q Hq Htq; by eapply Hu].
    cbn [found]. apply scan_payment_row. by destruct (rp_payment_ok _ _ _ Hr _ _ Hk).
Qed.

Lemma find_by_id_simulates t i db s : rep db s -> clean t = true -> simulates (CFindPaymentByID t i) db s.
Proof.
  intros Hr Hc. apply simulates_read; [done|]. cbn [perform FindPaymentByID repo txView].
  unfold sql_FindPaymentByID. pose proof (rp_store_ok _ _ _ Hr) as [Hkeyed _].
  assert (Hid : forall k p, st_payments s !! k = Some p -> payment_tenantID p = t -> payment_id p = i -> k = key t i)
    by (intros k p Hk <- <-; by apply Hkeyed).
  rewrite (find_payment_simulates db s _ (fun p => bool_decide (payment_tenantID p = t) && bool_decide (payment_id p = i)));
    [|done|done|].
  - eexists. split; [reflexivity|]. unfold findPaymentByID, readM. do 2 f_equal.
    destruct (st_payments s !! key t i) as [p|] eqn:Ep.
    + symmetry. apply (scan_unique _ s (key t i) p Ep).
      * pose proof (Hkeyed _ _ Ep) as Ek. destruct (rp_payment_ok _ _ _ Hr _ _ Ep) as [(_ & _ & _ & Hcp) _].
        apply key_clean in Ek as [-> ->]; [|done..]. by rewrite !bool_decide_true.
      * intros k q Hq Ht. bools. pose proof (Hkeyed _ _ Hq) as ->. congruence.
    + destruct (scan _ s) as [p|] eqn:Es; [|done]. apply scan_Some in Es as [[k Hk] Ht]. bools.
      pose proof (Hkeyed _ _ Hk) as ->. congruence.
  - intros k1 k2 p q Hp Hq Htp Htq. bools. pose proof (Hkeyed _ _ Hp) as ->. pose proof (Hkeyed _ _ Hq) as ->. congruence.
Qed.
Lemma find_by_key_simulates t i db s : rep db s -> simulates (CFindPaymentByIdempotencyKey t i) db s.
Proof.
  intros Hr. apply simulates_read; [done|]. cbn [perform FindPaymentByIdempotencyKey repo txView].
  unfold sql_FindPaymentByIdempotencyKey. pose proof (rp_store_ok _ _ _ Hr) as [Hkeyed Huniq].
  rewrite (find_payment_simulates db s _ (fun p => bool_decide (payment_tenantID p = t) && bool_decide (payment_idempotencyKey p = i)));
    [by eexists|done|done|].
  intros k1 k2 p q Hp Hq Htp Htq. bools. pose proof (Hkeyed _ _ Hp) as ->. pose proof (Hkeyed _ _ Hq) as ->.
  assert (payment_id p = payment_id q) by (eapply Huniq; [exact Hp|exact Hq|congruence|congruence]). congruence.
Qed.
Lemma find_by_tx_simulates t x db s : rep db s -> call_ok known (CFindPaymentByTxID t x) s ->
  simulates (CFindPaymentByTxID t x) db s.
Proof.
  intros Hr Hu. apply simulates_read; [done|]. cbn [perform FindPaymentByTxID repo txView].
  unfold sql_FindPaymentByTxID.
  rewrite (find_payment_simulates db s _ (fun p => bool_decide (payment_tenantID p = t) && bool_decide (payment_txID p = x)));
    [by eexists|done|done|].
  intros k1 k2 p q Hp Hq Htp Htq. bools. eapply Hu; [exact Hp|exact Hq|done..].
Qed.

Lemma idempotency_taken_spec db s p : rep db s ->
  idempotency_taken (payment_row p) (tb_payments db) = true <->
  exists k q, st_payments s !! k = Some q /\ payment_tenantID q = payment_tenantID p /\
    payment_idempotencyKey q = payment_idempotencyKey p.
Proof.
  intros Hr. unfold idempotency_taken. rewrite existsb_exists. split.
  - intros ([id r] & Hin & Ht). rewrite <- list_elem_of_In, iterate_perm, elem_of_map_to_list in Hin.
    destruct (rp_payments _ _ _ Hr _ _ Hin) as (q & Hq & _ & ->). cbn in Ht. bools. eauto 10.
  - intros (k & q & Hk & Et & Ei). destruct (rp_payment_ok _ _ _ Hr _ _ Hk) as [_ Hrow].
    exists (payment_id q, payment_row q). rewrite <- list_elem_of_In, iterate_perm, elem_of_map_to_list.
    split; [done|]. cbn. by rewrite Et, Ei, !bool_decide_true.
Qed.

(** The tables after a payment is written. *)
Lemma payment_written db s p : rep db s -> storable_payment p ->
  (forall k q, st_payments s !! k = Some q -> payment_tenantID q = payment_tenantID p ->
     payment_idempotencyKey q = payment_idempotencyKey p -> payment_id q = payment_id p) ->
  (forall k q, st_payments s !! k = Some q -> payment_id q = payment_id p -> payment_tenantID q = payment_tenantID p) ->
  rep (on_payments (insert (payment_id p) (payment_row p)) db)
      (with_payments s (<[key (payment_tenantID p) (payment_id p) := p]> (st_payments s))).
Proof.
  intros Hr Hp Hfree Hsame. pose proof Hr as Hr'. destruct Hr. split; cbn; try done.
  - eapply savePayment_ok; [exact rp_store_ok0|]. destruct (savePayment_spec s p) as [(q & k & Hk & ? & ? & Hne & _)|[_ ->]]; [|done].
    by destruct Hne; eapply Hfree.
  - intros k q [[<- <-]|[Hne Hq]]%lookup_insert_Some; [by rewrite lookup_insert_eq|].
    destruct (rp_payment_ok0 _ _ Hq) as [Hst Hrow]. split; [done|]. rewrite lookup_insert_ne; [done|].
    intros Eid. apply Hne. rewrite (ok_keyed _ rp_store_ok0 _ _ Hq). f_equal; [|done]. symmetry. eapply Hsame; [exact Hq|done].
  - intros id r [[<- <-]|[Hne Hq]]%lookup_insert_Some.
    + exists p. by rewrite lookup_insert_eq.
    + destruct (rp_payments0 _ _ Hq) as (q & Hkq & <- & ->). exists q. split; [|done].
      rewrite lookup_insert_ne; [done|]. intros Ek. apply Hne.
      destruct Hp as (_ & _ & _ & Hcp). destruct (rp_payment_ok0 _ _ Hkq) as [(_ & _ & _ & Hcq) _].
      by apply key_clean in Ek as [_ ?].
Qed.
Lemma save_payment_simulates p db s : rep db s -> call_ok known (CSavePayment p) s -> simulates (CSavePayment p) db s.
Proof.
  intros Hr (Hst & Htn & Hsame). unfold simulates. cbn [perform SavePayment repo txView].
  pose proof (rp_store_ok _ _ _ Hr) as [Hkeyed Huniq]. unfold sql_SavePayment. rewrite exec_runs. unfold upsert_payment.
  destruct (tb_payments db !! payment_id p) as [r|] eqn:Er.
  - destruct (rp_payments _ _ _ Hr _ _ Er) as (q & Hq & Eid & ->).
    pose proof (Hsame _ _ Hq Eid) as (E1 & E2 & E3 & E4 & E5).
    unfold exists_row, upsert_row. rewrite Er. cbn [negb andb].
    assert (Hfree : forall k x, st_payments s !! k = Some x -> payment_tenantID x = payment_tenantID p ->
              payment_idempotencyKey x = payment_idempotencyKey p -> payment_id x = payment_id p).
    { intros k x Hx Et Ei. rewrite <- Eid. eapply Huniq; [exact Hx|exact Hq|congruence|congruence]. }
    destruct (savePayment_spec s p) as [(x & k & Hx & ? & ? & Hne & _)|[_ ->]]; [by destruct Hne; eapply Hfree|].
    cbn. split; [done|]. replace (Build_PaymentRow _ _ _ _ _ _ _ _ _) with (payment_row p)
      by (unfold payment_row; cbn; by rewrite E1, E2, E3, E4, E5).
    apply payment_written; [done|done|done|]. intros k x Hx Ex. by destruct (Hsame _ _ Hx Ex).
  - assert (Hnew : forall k x, st_payments s !! k = Some x -> payment_id x <> payment_id p).
    { intros k x Hx Ex. destruct (rp_payment_ok _ _ _ Hr _ _ Hx) as [_ Hrow]. congruence. }
    assert (Hno : exists_row (payment_id p) (tb_payments db) = false) by (unfold exists_row; by rewrite Er).
    rewrite Hno. cbn [negb andb]. destruct (savePayment_spec s p) as [(x & k & Hx & Et & Ei & Hne & ->)|[Hfree ->]].
    + rewrite (proj2 (idempotency_taken_spec db s p Hr)) by eauto. cbn. by rewrite duplicate_known.
    + rewrite (not_true_is_false (idempotency_taken _ _))
        by (rewrite (idempotency_taken_spec db s p Hr); intros (k & x & Hx & Et & Ei); by destruct (Hnew _ _ Hx); eapply Hfree).
      unfold upsert_row. rewrite Er. rewrite (tenant_exists db s) by done. cbn. split; [done|].
      apply payment_written; [done..|]. intros k x Hx Ex. by destruct (Hnew _ _ Hx).
Qed.

(** Prices, mandates and charge instances: tables under a pair of columns. *)
Lemma get_price_simulates t e db s : rep db s -> clean t = true -> simulates (CGetEndpointPrice t e) db s.
Proof.
  intros Hr Hc. apply simulates_read; [done|]. cbn [perform GetEndpointPrice repo txView].
  unfold sql_GetEndpointPrice, getEndpointPrice, readM. rewrite query_row_runs.
  destruct (rp_pricing _ _ _ Hr t e Hc) as [-> Hok].
  destruct (st_pricing s !! key t e) as [p|]; cbn; [|by eexists]. rewrite (Hok p eq_refl). by eexists.
Qed.
Lemma find_rec_simulates t i db s : rep db s -> clean t = true -> simulates (CFindRecByID t i) db s.
Proof.
  intros Hr Hc. apply simulates_read; [done|]. cbn [perform FindRecByID repo txView].
  unfold sql_FindRecByID, findRecByID, readM. rewrite query_row_runs.
  destruct (rp_recs _ _ _ Hr t i Hc) as [-> Hok].
  destruct (st_recs s !! key t i) as [p|]; cbn; [|by eexists]. rewrite (scan_rec_row _ _ _ (Hok p eq_refl)). by eexists.
Qed.
Lemma find_cobr_simulates t x db s : rep db s -> clean t = true -> simulates (CFindCobRByTxID t x) db s.
Proof.
  intros Hr Hc. apply simulates_read; [done|]. cbn [perform FindCobRByTxID repo txView].
  unfold sql_FindCobRByTxID, findCobRByTxID, readM. rewrite query_row_runs.
  destruct (rp_cobrs _ _ _ Hr t x Hc) as [-> Hok].
  destruct (st_cobrs s !! key t x) as [p|]; cbn; [|by eexists]. rewrite (scan_cobr_row _ _ _ (Hok p eq_refl)). by eexists.
Qed.
Lemma upsert_price_simulates p db s : rep db s -> call_ok known (CUpsertEndpointPrice p) s ->
  simulates (CUpsertEndpointPrice p) db s.
Proof.
  intros Hr (Hc & Hok & Htn). unfold simulates. cbn [perform UpsertEndpointPrice repo txView].
  assert (E : sql_UpsertEndpointPrice fault p db
    = (on_pricing (insert (pricing_tenantID p, pricing_endpoint p) (pricing_priceCents p)) db, Ok tt)).
  { unfold sql_UpsertEndpointPrice. apply execute_runs. unfold upsert_row. rewrite (tenant_exists db s) by done.
    by destruct (tb_pricing db !! _). }
  rewrite E. split; [done|]. cbn. destruct Hr. split; cbn; try done; [by destruct rp_store_ok0|].
  by apply (keyed_insert pricing_priceCents).
Qed.
Lemma save_rec_simulates r db s : rep db s -> call_ok known (CSaveRec r) s -> simulates (CSaveRec r) db s.
Proof.
  intros Hr (Hc & Hok & Hsame). unfold simulates. cbn [perform SaveRec repo txView].
  assert (E : sql_SaveRec fault r db = (on_recs (insert (rec_tenantID r, rec_idRec r) (rec_row r)) db, Ok tt)).
  { unfold sql_SaveRec. apply execute_runs. cbv zeta. unfold upsert_row.
    destruct (rp_recs _ _ _ Hr (rec_tenantID r) (rec_idRec r) Hc) as [-> _].
    destruct (st_recs s !! key _ _) as [q|]; [|done]. cbn.
    destruct (Hsame q eq_refl) as (E1 & E2 & E3 & E4 & E5 & E6 & E7 & E8 & E9).
    unfold rec_row. by rewrite E1, E2, E3, E4, E5, E6, E7, E8, E9. }
  rewrite E. split; [done|]. cbn. destruct Hr. split; cbn; try done; [by destruct rp_store_ok0|].
  by apply (keyed_insert rec_row).
Qed.
Lemma save_cobr_simulates c db s : rep db s -> call_ok known (CSaveCobR c) s -> simulates (CSaveCobR c) db s.
Proof.
  intros Hr (Hc & Hok & Hsame). unfold simulates. cbn [perform SaveCobR repo txView].
  assert (E : sql_SaveCobR fault c db = (on_cobrs (insert (cobr_tenantID c, cobr_txID c) (cobr_row c)) db, Ok tt)).
  { unfold sql_SaveCobR. apply execute_runs. cbv zeta. unfold upsert_row.
    destruct (rp_cobrs _ _ _ Hr (cobr_tenantID c) (cobr_txID c) Hc) as [-> _].
    destruct (st_cobrs s !! key _ _) as [q|]; [|done]. cbn.
    destruct (Hsame q eq_refl) as (E1 & E2 & E3 & E4). unfold cobr_row. by rewrite E1, E2, E3, E4. }
  rewrite E. split; [done|]. cbn. destruct Hr. split; cbn; try done; [by destruct rp_store_ok0|].
  by apply (keyed_insert cobr_row).
Qed.

(** Registers, and the anti-replay marks. *)
Lemma append_ledger_simulates e db s : rep db s -> call_ok known (CAppendLedgerEntry e) s ->
  simulates (CAppendLedgerEntry e) db s.
Proof.
  intros Hr (Htn & Hf). unfold simulates. cbn [perform AppendLedgerEntry repo txView].
  destruct (logged_snoc ledger_id ledger_row _ _ e (rp_ledger _ _ _ Hr) Hf) as [Hn Hl].
  assert (E : sql_AppendLedgerEntry fault e db = (on_ledger (insert (ledger_id e) (ledger_row e)) db, Ok tt)).
  { unfold sql_AppendLedgerEntry. apply execute_runs. unfold insert_row. by rewrite Hn, (tenant_exists db s). }
  rewrite E. split; [done|]. cbn. destruct Hr. split; cbn; try done. by destruct rp_store_ok0.
Qed.
Lemma append_audit_simulates e db s : rep db s -> call_ok known (CAppend e) s -> simulates (CAppend e) db s.
Proof.
  intros Hr Hf. unfold simulates. cbn [perform Append repo txView].
  destruct (logged_snoc entry_id audit_row _ _ e (rp_audit _ _ _ Hr) Hf) as [Hn Hl].
  assert (E : sql_Append fault e db = (on_audit (insert (entry_id e) (audit_row e)) db, Ok tt)).
  { unfold sql_Append. apply execute_runs. unfold insert_row. by rewrite Hn. }
  rewrite E. split; [done|]. cbn. destruct Hr. split; cbn; try done. by destruct rp_store_ok0.
Qed.
Lemma record_access_simulates e db s : rep db s -> call_ok known (CRecordPIIAccess e) s ->
  simulates (CRecordPIIAccess e) db s.
Proof.
  intros Hr Hf. unfold simulates. cbn [perform RecordPIIAccess repo txView].
  destruct (logged_snoc access_id pii_row _ _ e (rp_pii _ _ _ Hr) Hf) as [Hn Hl].
  assert (E : sql_RecordPIIAccess fault e db = (on_pii (insert (access_id e) (pii_row e)) db, Ok tt)).
  { unfold sql_RecordPIIAccess. apply execute_runs. unfold insert_row. by rewrite Hn. }
  rewrite E. split; [done|]. cbn. destruct Hr. split; cbn; try done. by destruct rp_store_ok0.
Qed.
Lemma mark_simulates t k db s : rep db s -> clean t = true -> simulates (CMarkProcessed t k) db s.
Proof.
  intros Hr Hc. unfold simulates. cbn [perform MarkProcessed repo txView].
  pose proof (rp_processed _ _ _ Hr t k Hc) as Hp. unfold sql_MarkProcessed, wrapM, markProcessed. rewrite exec_runs.
  unfold exists_row in Hp. rewrite <- Hp. destruct (tb_processed db !! (t, k)) as [x|] eqn:Ex; [by split|].
  split; [done|]. cbn. destruct Hr. split; cbn; try done; [by destruct rp_store_ok0|].
  intros t' k' Ht'. unfold exists_row in *. destruct (decide ((t', k') = (t, k))) as [[= -> ->]|Hne].
  - rewrite lookup_insert_eq. symmetry. apply bool_decide_true. set_solver.
  - rewrite lookup_insert_ne by congruence. rewrite (rp_processed0 t' k' Ht'). apply bool_decide_ext.
    assert (key t' k' <> key t k) by (intros [-> ->]%key_clean; done). set_solver.
Qed.

Lemma perform_simulates {A} (c : call A) db s : rep db s -> call_ok known c s -> simulates c db s.
Proof.
  intros Hr Hok. destruct c.
  - by apply save_payment_simulates.
  - by apply find_by_id_simulates.
  - by apply find_by_key_simulates.
  - by apply find_by_tx_simulates.
  - by apply save_tenant_simulates.
  - by apply find_tenant_simulates.
  - by apply get_price_simulates.
  - by apply upsert_price_simulates.
  - by apply append_ledger_simulates.
  - by apply mark_simulates.
  - by apply save_rec_simulates.
  - by apply find_rec_simulates.
  - by apply save_cobr_simulates.
  - by apply find_cobr_simulates.
  - by apply append_audit_simulates.
  - by apply record_access_simulates.
Qed.

(** Every call of a program's run over the maps is one the tables can serve. *)
Fixpoint run_ok {A} (p : program A) (s : snapshot) : Prop :=
  match p with
  | Done _ => True
  | Then c k => call_ok known c s /\ let '(s, r) := mem c s in run_ok (k r) s
  end.
Lemma run_simulates {A} (p : program A) : forall db s, rep db s -> run_ok p s ->
  let '(db', r) := run (H := repo fault clock) p db in
  let '(s', r') := run (H := txView) p s in r = r' /\ rep db' s'.
Proof.
  induction p as [r|B c k IH]; intros db s Hr Hok; cbn [run]; [by split|]. destruct Hok as [Hc Hok].
  destruct (perform_simulates c db s Hr Hc) as [Ea Hr']. destruct (sql c db) as [db' r], (mem c s) as [s' r'].
  cbn [fst snd] in Ea, Hr'. subst r'. by apply IH.
Qed.
End simulation.

(** C13. The durable store implements the in-memory one: a transaction, whatever it reads and
    whatever it decides on the answers, answers the same over the tables as over the maps,
    commits or rolls back with it, and leaves tables that stand for the maps it leaves, so the
    next transaction may follow.  The engine is one that fails no statement; the transaction's
    calls are ones the schema admits: what a row references exists, a register entry has an
    identifier of its own, a row saved again keeps its registration facts, a looked-up txid
    names one payment of its tenant, instants are in UTC and tenants' identifiers have no NUL
    byte. *)
Theorem durable_refines_memory `{MapRange} `{MapIteration} {D : Dialect} {L : DialectLaws D} fault clock known {A} (p : program A) db s
    (Hfault : forall what db, fault what db = None) (Hrep : represents known db s)
    (Hok : run_ok known p s) :
  let '(db', r) := WithinTx (UnitOfWork := sqlUoW fault) (run (H := repo fault clock) p) db in
  let '(s', r') := WithinTx (UnitOfWork := memUoW) (run (H := txView) p) s in
  r = r' /\ represents known db' s'.
Proof.
  pose proof (run_simulates fault clock Hfault known p db s Hrep Hok) as Hs.
  cbn [WithinTx sqlUoW memUoW]. unfold sql_WithinTx, in_transaction, mem_WithinTx. rewrite !Hfault.
  destruct (run p db) as [db' r], (run p s) as [s' r']. destruct Hs as [-> Hs].
  destruct r' as [a|e]; [rewrite Hfault|]; by split.
Qed.

Definition t_sql : Tenant := tenant_RehydrateWithAccount "t1" "Loja" true sample_time "".
(** A tenant, a payment of it, and the mark of an event; the answer is the payment read back. *)
Definition first_payment : program Payment :=
  Then (CSaveTenant t_sql) (fun _ =>
  Then (CSavePayment sample_payment) (fun _ =>
  Then (CMarkProcessed "t1" "e1") (fun fresh =>
  match fresh with
  | Ok true => Then (CFindPaymentByIdempotencyKey "t1" "k1") (fun r => Done r)
  | _ => Done (Err ErrConflict)
  end))).
Lemma keyed_empty {V Row} (row : V -> Row) ok : keyed row ok ∅ ∅.
Proof. intros a b _. rewrite !lookup_empty. by split. Qed.
Lemma logged_empty {E Row} (id : E -> string) (row : E -> Row) : logged id row ∅ [].
Proof.
  split; [intros e He; by apply elem_of_nil in He|]. split; [intros i r Hr; by rewrite lookup_empty in Hr|constructor].
Qed.
Lemma empty_represents `{Dialect} known : (forall a, known a = false) -> represents known emptyTables emptySnapshot.
Proof.
  intros Hk. split; try apply keyed_empty; try apply logged_empty; try done.
  intros a Ha. by rewrite Hk in Ha.
Qed.

Lemma first_payment_ok : run_ok (fun _ => false) first_payment emptySnapshot.
Proof.
  split; [|split; [|split; [|split]]]; cbn.
  - split; [split; [split; [reflexivity|vm_compute; split; discriminate]|reflexivity]|].
    split; [by left|]. intros u. by rewrite lookup_empty.
  - split; [|split].
    + split; [split; [reflexivity|vm_compute; split; discriminate]|].
      split; [split; [reflexivity|vm_compute; split; discriminate]|]. split; [split; reflexivity|reflexivity].
    + by eexists.
    + intros k q. by rewrite lookup_empty.
  - done.
  - done.
  - done.
Qed.

Lemma durable_refines_memory_witness :
  let fault := fun _ _ => None in
  let '(db, r) := WithinTx (UnitOfWork := sqlUoW fault)
                    (run (H := repo (H := sqlite (fun _ => None)) fault (fun _ => "")) first_payment) emptyTables in
  r = Ok sample_payment.
Proof.
  pose proof (durable_refines_memory (D := sqlite (fun _ => None)) (fun _ _ => None) (fun _ => "") (fun _ => false)
    first_payment emptyTables emptySnapshot (fun _ _ => eq_refl) (empty_represents _ (fun _ => eq_refl)) first_payment_ok) as Hs.
  cbv zeta. destruct (WithinTx _ emptyTables) as [db r].
  destruct (WithinTx (UnitOfWork := memUoW) _ emptySnapshot) as [s r'] eqn:E. destruct Hs as [-> _].
  apply (f_equal snd) in E. vm_compute in E. rewrite <- E. reflexivity.
Defined.

(** * Invoices *)
Definition no_engine_fault : string -> tables -> option error := fun _ _ => None.
Definition storable_invoice (inv : Invoice) : Prop :=
  utc_writable (inv_periodStart inv) /\ utc_writable (inv_periodEnd inv) /\ utc_writable (inv_generatedAt inv) /\
  Forall (fun l => NewLineItem (li_endpoint l) (li_calls l) (li_subtotalCents l) = Ok l) (inv_lines inv).

Definition item_row (l : LineItem) : ItemRow :=
  {| itr_endpoint := li_endpoint l; itr_calls := li_calls l; itr_subtotal_cents := li_subtotalCents l |}.
(** The rows of an invoice's lines from a sequence number on. *)
Fixpoint item_rows (id : string) (seq : Z) (lines : list LineItem) : list ((string * Z) * ItemRow) :=
  match lines with
  | [] => []
  | l :: rest => ((id, seq), item_row l) :: item_rows id (seq + 1) rest
  end.

Lemma item_rows_seq id lines : forall seq kr, kr ∈ item_rows id seq lines -> kr.1.1 = id /\ seq <= kr.1.2.
Proof.
  induction lines as [|l lines IH]; intros seq kr Hin; [by apply elem_of_nil in Hin|].
  cbn [item_rows] in Hin. apply elem_of_cons in Hin as [->|Hin]; [cbn; split; [done|lia]|].
  apply IH in Hin. split; [by destruct Hin|lia].
Qed.
Lemma item_rows_sorted id lines : forall seq, StronglySorted (not_after seq_less) (item_rows id seq lines).
Proof.
  induction lines as [|l lines IH]; intros seq; cbn [item_rows]; [constructor|]. constructor; [done|].
  apply Forall_forall. intros kr Hin. apply item_rows_seq in Hin. unfold not_after, seq_less. cbn. apply Z.ltb_ge. lia.
Qed.
Lemma item_rows_nodup id lines : forall seq, NoDup (map fst (item_rows id seq lines)).
Proof.
  induction lines as [|l lines IH]; intros seq; cbn [item_rows map]; [constructor|]. constructor; [|done].
  intros Hin. apply list_elem_of_fmap in Hin as (kr & E & Hin). apply item_rows_seq in Hin.
  destruct kr as [[i n] r]. cbn in *. injection E as _ <-. lia.
Qed.
#[export] Instance seq_order : WeakOrder seq_less.
Proof.
  split; unfold not_after, seq_less; [intros x y H%Z.ltb_lt; apply Z.ltb_ge; lia|].
  intros x y z H1%Z.ltb_ge H2%Z.ltb_ge. apply Z.ltb_ge. lia.
Qed.

Lemma filter_perm {A} (f : A -> bool) l l' : l ≡ₚ l' -> List.filter f l ≡ₚ List.filter f l'.
Proof.
  induction 1 as [|x l l' _ IH|x y l|l1 l2 l3 _ IH1 _ IH2]; cbn [List.filter]; [done|by destruct (f x); rewrite IH| |by etrans].
  destruct (f x), (f y); [apply Permutation_swap|done..].
Qed.
Lemma filter_id {A} (f : A -> bool) l : (forall x, x ∈ l -> f x = true) -> List.filter f l = l.
Proof.
  induction l as [|x l IH]; intros Hl; [done|]. cbn [List.filter]. rewrite Hl by left. f_equal. apply IH.
  intros y Hy. apply Hl. by right.
Qed.
Lemma filter_none {A} (f : A -> bool) l : (forall x, x ∈ l -> f x = false) -> List.filter f l = [].
Proof.
  induction l as [|x l IH]; intros Hl; [done|]. cbn [List.filter]. rewrite Hl by left. apply IH.
  intros y Hy. apply Hl. by right.
Qed.

Section durable.
Context (fault : string -> tables -> option error).
Context `{MapIteration} {D : Dialect} {L : DialectLaws D}.

(** What the loop of inserts leaves. *)
Lemma insert_items_spec id lines : forall seq db db',
  insert_items fault id seq lines db = (db', Ok tt) ->
  (forall n, seq <= n -> tb_items db !! (id, n) = None) ->
  tb_invoices db' = tb_invoices db /\ tb_tenants db' = tb_tenants db /\
  map_to_list (tb_items db') ≡ₚ item_rows id seq lines ++ map_to_list (tb_items db).
Proof.
  induction lines as [|l lines IH]; intros seq db db' HR Hfree; cbn [insert_items] in HR.
  { unfold retM in HR. by injection HR as <-. }
  unfold bindM, execute, wrapM, exec in HR. destruct (fault "insert invoice item" db); [done|].
  unfold insert_row in HR. rewrite (Hfree seq) in HR by lia. destruct (exists_row id (tb_invoices db)); [|done].
  cbn in HR. apply IH in HR as (E1 & E2 & E3).
  - cbn in *. split; [done|]. split; [done|]. rewrite E3, map_to_list_insert by (apply Hfree; lia).
    cbn [item_rows app]. symmetry. apply Permutation_middle.
  - intros n Hn. cbn. rewrite lookup_insert_ne by (intros [= E]; lia). apply Hfree. lia.
Qed.

Definition of_invoice (id : string) (kr : (string * Z) * ItemRow) : bool := bool_decide (kr.1.1 = id).
Lemma items_in_order id lines l : List.filter (of_invoice id) l ≡ₚ item_rows id 0 lines ->
  SliceStable (List.filter (of_invoice id) l) seq_less = item_rows id 0 lines.
Proof.
  intros Hp. apply (sorted_unique seq_less).
  - apply SliceStable_sorted, _.
  - apply item_rows_sorted.
  - by rewrite SliceStable_perm.
  - intros x y Hx Hy Hxy Hyx. rewrite SliceStable_perm, Hp in Hx, Hy.
    pose proof (item_rows_seq _ _ _ _ Hx) as [Ex _]. pose proof (item_rows_seq _ _ _ _ Hy) as [Ey _].
    unfold not_after, seq_less in *. apply Z.ltb_ge in Hxy, Hyx.
    assert (E : x.1 = y.1) by (destruct x as [[? ?] ?], y as [[? ?] ?]; cbn in *; subst; f_equal; lia).
    apply list_elem_of_lookup in Hx as [i Hi], Hy as [j Hj]. assert (i = j) as <-; [|congruence].
    eapply NoDup_lookup; [apply (item_rows_nodup id lines 0)| |]; rewrite list_lookup_fmap; [by rewrite Hi|by rewrite Hj; cbn; rewrite E].
Qed.
Lemma invoiceItems_runs id lines db :
  List.filter (of_invoice id) (map_to_list (tb_items db)) ≡ₚ item_rows id 0 lines ->
  Forall (fun l => NewLineItem (li_endpoint l) (li_calls l) (li_subtotalCents l) = Ok l) lines ->
  invoiceItems no_engine_fault id db = (db, Ok lines).
Proof.
  intros Hp Hl. unfold invoiceItems, query_rows, wrapM, bindM, exec, no_engine_fault, liftM. f_equal.
  change (fun kr : (string * Z) * ItemRow => bool_decide (kr.1.1 = id)) with (of_invoice id).
  rewrite (items_in_order id lines) by done. clear Hp. generalize 0. induction Hl as [|l lines E Hl IH]; intros seq; [done|].
  cbn [item_rows map collect]. cbn [fst snd item_row itr_endpoint itr_calls itr_subtotal_cents]. rewrite E. cbn [map_err].
  rewrite IH. done.
Qed.

(** An invoice is stored whole or not at all: whatever statement the engine fails, a save
    that answers an error has left the tables as they were; and after one that succeeds the
    invoice is read back under its tenant as it was, every line in document order, and by no
    other tenant. *)
Theorem invoice_stored_whole inv db (Hi : storable_invoice inv)
    (Hnew : forall n, tb_items db !! (inv_id inv, n) = None) :
  let '(db', r) := sql_SaveInvoice fault inv db in
  match r with
  | Err _ => db' = db
  | Ok _ =>
      sql_FindInvoiceByID no_engine_fault (inv_tenantID inv) (inv_id inv) db' = (db', Ok inv) /\
      forall other, other <> inv_tenantID inv ->
        sql_FindInvoiceByID no_engine_fault other (inv_id inv) db' = (db', Err ErrNotFound)
  end.
Proof.
  unfold sql_SaveInvoice.
  match goal with |- context [in_transaction fault ?b ?c ?fn db] =>
    destruct (in_transaction_atomic fault b c fn db) as [[e ->]|(db' & [] & E & ->)] end; [done|].
  unfold bindM, execute, wrapM, exec in E. destruct (fault "insert invoice" db); [done|].
  unfold insert_row in E. destruct (tb_invoices db !! inv_id inv) eqn:Ei; [done|].
  destruct (exists_row (inv_tenantID inv) (tb_tenants db)); [|done]. cbn in E.
  apply insert_items_spec in E as (Einv & _ & Hp); [|intros n _; apply Hnew]. cbn in Einv, Hp.
  destruct Hi as (Hs & He & Hg & Hl).
  assert (Hrow : tb_invoices db' !! inv_id inv = Some (invoice_row inv)) by (by rewrite Einv, lookup_insert_eq).
  assert (Hitems : List.filter (of_invoice (inv_id inv)) (map_to_list (tb_items db')) ≡ₚ item_rows (inv_id inv) 0 (inv_lines inv)).
  { rewrite (filter_perm _ _ _ Hp), List.filter_app.
    rewrite (filter_none _ (map_to_list (tb_items db))), app_nil_r, filter_id; [done| |].
    - intros kr Hkr. apply item_rows_seq in Hkr as [Ek _]. unfold of_invoice. by rewrite Ek, bool_decide_true.
    - intros [[i n] r] Hkr. apply elem_of_map_to_list in Hkr. unfold of_invoice. cbn. apply bool_decide_false.
      intros ->. by rewrite Hnew in Hkr. }
  pose proof (invoiceItems_runs _ _ db' Hitems Hl) as Hread.
  assert (Hquery : forall other, sql_FindInvoiceByID no_engine_fault other (inv_id inv) db'
    = if bool_decide (inv_tenantID inv = other)
      then (db', Ok (scan_invoice other (inv_id inv, invoice_row inv) (inv_lines inv)))
      else (db', Err ErrNotFound)).
  { intros other. unfold sql_FindInvoiceByID, query_row, wrapM, bindM, exec, no_engine_fault at 1. rewrite Hrow.
    cbn [ivr_tenant_id invoice_row map_err]. unfold liftM, retM. case_bool_decide; cbn [map_err]; [by rewrite Hread|done]. }
  rewrite Hquery. split.
  - rewrite bool_decide_true by done. unfold scan_invoice, invoice_row. cbn [fst snd ivr_account_id ivr_period_start
      ivr_period_end ivr_total_calls ivr_total_cents ivr_generated_at].
    rewrite !in_UTC_utc, !parse_utc by done. by destruct inv.
  - intros other Hne. rewrite Hquery. by rewrite bool_decide_false.
Qed.
End durable.

Definition sample_invoice : Invoice :=
  {| inv_id := "i1"; inv_tenantID := "t1"; inv_accountID := "";
     inv_periodStart := sample_time; inv_periodEnd := Add sample_time nsec;
     inv_lines := [{| li_endpoint := "boleto.create"; li_calls := 2; li_subtotalCents := 30 |};
                   {| li_endpoint := "pix.create"; li_calls := 1; li_subtotalCents := 10 |}];
     inv_totalCalls := 3; inv_totalCents := 40; inv_generatedAt := Add sample_time nsec |}.
Definition liteDialect : Dialect := sqlite (fun _ => None).
Definition one_tenant : tables := on_tenants (insert "t1" (tenant_row (H := liteDialect) t_sql)) emptyTables.

Lemma invoice_stored_whole_witness :
  (sql_SaveInvoice (H := liteDialect) no_engine_fault sample_invoice one_tenant).2 = Ok tt /\
  sql_FindInvoiceByID (H := liteDialect) no_engine_fault "t1" "i1"
      (sql_SaveInvoice (H := liteDialect) no_engine_fault sample_invoice one_tenant).1
    = ((sql_SaveInvoice (H := liteDialect) no_engine_fault sample_invoice one_tenant).1, Ok sample_invoice).
Proof.
  assert (Hi : storable_invoice sample_invoice).
  { repeat split; try (vm_compute; discriminate). repeat constructor. }
  pose proof (invoice_stored_whole (D := liteDialect) (L := sqlite_laws _) no_engine_fault sample_invoice one_tenant Hi
                (fun n => eq_refl)) as Hs.
  assert (Eok : (sql_SaveInvoice (H := liteDialect) no_engine_fault sample_invoice one_tenant).2 = Ok tt)
    by (vm_compute; reflexivity).
  split; [exact Eok|]. destruct (sql_SaveInvoice no_engine_fault sample_invoice one_tenant) as [db' r].
  cbn [fst snd] in *. subst r. exact (proj1 Hs).
Defined.
