(* ===== verification/InvoiceReports.v ===== *)
(** What the consumption reports and the invoices say: each is the tally of the recorded
    ledger entries of its window, an account's rollup is the sum of its tenants' tallies, and
    consecutive invoices bill every entry exactly once. *)
From S2P Require Import Prelude GoStrings GoTime GoSort Shared Tenants Payments AuditTrail Ports.
From S2P Require Import MemStore Invoices.

(** * The tally of a list of entries *)
Definition having (f : LedgerEntry -> string) (k : string) (l : list LedgerEntry)
    : list LedgerEntry := List.filter (fun e => bool_decide (f e = k)) l.
Notation of_endpoint := (having ledger_endpoint).
Notation of_tenant := (having ledger_tenantID).
Notation of_account := (having ledger_accountID).
Definition window (rng : ConsumptionRange) (l : list LedgerEntry) : list LedgerEntry :=
  List.filter (fun e => includes rng (ledger_at e)) l.

(** The calls and cents of a list, as the int64 sums the code keeps. *)
Definition calls_of (l : list LedgerEntry) : Z := wrap64 (Z.of_nat (List.length l)).
Definition prices (l : list LedgerEntry) : Z := sumZ (map ledger_priceCents l).
Definition cents_of (l : list LedgerEntry) : Z := wrap64 (prices l).

(** The distinct texts of a list, in order. *)
Definition distinct (l : list string) : list string :=
  SliceStable (remove_dups l) (by_text id).
Definition line_of (l : list LedgerEntry) (ep : string) : ConsumptionLine :=
  {| cl_Endpoint := ep; cl_Calls := calls_of (of_endpoint ep l);
     cl_TotalCents := cents_of (of_endpoint ep l) |}.
Definition tally (l : list LedgerEntry) : list ConsumptionLine :=
  map (line_of l) (distinct (map ledger_endpoint l)).
Definition tenant_tally (l : list LedgerEntry) (t : string) : TenantConsumption :=
  {| tc_TenantID := t; tc_Lines := tally (of_tenant t l);
     tc_TotalCalls := calls_of (of_tenant t l); tc_TotalCents := cents_of (of_tenant t l) |}.

(** ** Sums *)
Lemma wrap_add a b : wrap64 (wrap64 a + b) = wrap64 (a + b).
Proof.
  unfold wrap64. f_equal.
  replace ((a + 2 ^ 63) mod 2 ^ 64 - 2 ^ 63 + b + 2 ^ 63) with ((a + 2 ^ 63) mod 2 ^ 64 + b) by lia.
  rewrite Zplus_mod_idemp_l. f_equal. lia.
Qed.
Lemma calls_snoc l e : calls_of (l ++ [e]) = add64 (calls_of l) 1.
Proof. unfold calls_of, add64. rewrite wrap_add, length_app. f_equal. cbn. lia. Qed.
Lemma sumZ_app l1 l2 : sumZ (l1 ++ l2)%list = sumZ l1 + sumZ l2.
Proof. unfold sumZ. induction l1 as [|x l1 IH]; cbn; [done|]. rewrite IH. lia. Qed.
Lemma prices_app l1 l2 : prices (l1 ++ l2) = prices l1 + prices l2.
Proof. unfold prices. by rewrite map_app, sumZ_app. Qed.
Lemma cents_snoc l e : cents_of (l ++ [e]) = add64 (cents_of l) (ledger_priceCents e).
Proof. unfold cents_of, add64. rewrite wrap_add, prices_app. do 2 f_equal. cbn. lia. Qed.

#[export] Instance prices_perm : Proper ((≡ₚ) ==> (=)) prices.
Proof. unfold prices, sumZ. induction 1; cbn in *; lia. Qed.
#[export] Instance calls_perm : Proper ((≡ₚ) ==> (=)) calls_of.
Proof. intros l1 l2 E. unfold calls_of. by rewrite E. Qed.
#[export] Instance cents_perm : Proper ((≡ₚ) ==> (=)) cents_of.
Proof. intros l1 l2 E. unfold cents_of. by rewrite E. Qed.
#[export] Instance bool_filter_perm {A} (f : A -> bool) : Proper ((≡ₚ) ==> (≡ₚ)) (List.filter f).
Proof.
  induction 1 as [|x l1 l2 _ IH|x y l|l1 l2 l3 _ IH1 _ IH2]; cbn; [done| | |by trans (List.filter f l2)].
  - destruct (f x); [by constructor|done].
  - destruct (f x), (f y); try done. constructor.
Qed.

(** ** The distinct texts *)
Lemma distinct_perm l : distinct l ≡ₚ remove_dups l.
Proof. apply SliceStable_perm. Qed.
Lemma elem_distinct l x : x ∈ distinct l <-> x ∈ l.
Proof. by rewrite distinct_perm, elem_of_remove_dups. Qed.
Lemma NoDup_distinct l : NoDup (distinct l).
Proof. rewrite distinct_perm. apply NoDup_remove_dups. Qed.

(** A list ordered by a text that takes each of its values once, and the same texts as [l]. *)
Lemma distinct_unique l1 l2 : (forall x, x ∈ l1 <-> x ∈ l2) -> distinct l1 = distinct l2.
Proof.
  intros E. eapply sorted_by_text_unique; try apply SliceStable_sorted, _.
  - apply NoDup_Permutation; [apply NoDup_distinct..|]. intros x. by rewrite !elem_distinct, E.
  - rewrite map_id. apply NoDup_distinct.
Qed.
#[export] Instance distinct_proper : Proper ((≡ₚ) ==> (=)) distinct.
Proof. intros l1 l2 E. apply distinct_unique. intros x. by rewrite E. Qed.

#[export] Instance tally_perm : Proper ((≡ₚ) ==> (=)) tally.
Proof.
  intros l1 l2 E. unfold tally.
  rewrite (distinct_proper _ _ (Permutation_map ledger_endpoint E)). apply map_ext. intros ep.
  unfold line_of, having. by rewrite (bool_filter_perm _ _ _ E).
Qed.

Lemma map_distinct_sorted {B} (g : B -> string) (ref : string -> B) keys :
  (forall k, g (ref k) = k) -> StronglySorted (not_after (by_text g)) (map ref (distinct keys)).
Proof.
  intros Hr. unfold distinct. generalize (remove_dups keys). intros l.
  pose proof (SliceStable_sorted (by_text id) l) as Hs.
  induction Hs as [|k ks Hs IH Hh]; [constructor|]. cbn [map]. constructor; [done|].
  apply Forall_map. eapply Forall_impl; [exact Hh|]. intros x Hx.
  unfold not_after, by_text in *. cbn. by rewrite !Hr.
Qed.

(** ** A map of results by text, listed in the order of the text *)
Lemma listed `{MapIteration} {V B} (m : gmap string V) (f : string * V -> B) (g : B -> string)
    (ref : string -> B) keys :
  (forall k, g (ref k) = k) ->
  (forall k v, m !! k = Some v -> k ∈ keys /\ f (k, v) = ref k) ->
  (forall k, k ∈ keys -> is_Some (m !! k)) ->
  SliceStable (map f (iterate m)) (by_text g) = map ref (distinct keys).
Proof.
  intros Hr Hm Hk.
  assert (Hkeys : map g (map f (map_to_list m)) = (map_to_list m).*1).
  { rewrite map_map. apply map_ext_in. intros [k v] Hin.
    apply list_elem_of_In, elem_of_map_to_list in Hin. destruct (Hm _ _ Hin) as [_ ->]. apply Hr. }
  assert (Hgr : map g (map ref (distinct keys)) = distinct keys)
    by (rewrite map_map; erewrite map_ext; [apply map_id|done]).
  eapply sorted_by_text_unique with (f := g).
  - apply SliceStable_sorted, _.
  - by apply map_distinct_sorted.
  - rewrite SliceStable_perm, iterate_perm. apply NoDup_Permutation.
    + apply (NoDup_fmap_1 g). change (NoDup (map g (map f (map_to_list m)))).
      rewrite Hkeys. apply NoDup_fst_map_to_list.
    + apply (NoDup_fmap_1 g). change (NoDup (map g (map ref (distinct keys)))).
      rewrite Hgr. apply NoDup_distinct.
    + intros b. rewrite !list_elem_of_In, !in_map_iff. setoid_rewrite <- list_elem_of_In. split.
      * intros ([k v] & <- & Hin). apply elem_of_map_to_list in Hin. apply Hm in Hin as [Hk' ->].
        exists k. split; [done|]. by apply (elem_distinct keys k).
      * intros (k & <- & Hin). apply (elem_distinct keys k) in Hin. destruct (Hk _ Hin) as [v Hv].
        exists (k, v). split; [by apply Hm|]. by apply elem_of_map_to_list.
  - rewrite SliceStable_perm, iterate_perm, Hkeys. apply NoDup_fst_map_to_list.
Qed.

(** * The loops compute the tally *)
Section loops.
Context `{MapIteration}.
Implicit Types (l : list LedgerEntry) (e : LedgerEntry) (rng : ConsumptionRange).

Lemma window_snoc rng l e :
  window rng (l ++ [e]) = (window rng l ++ if includes rng (ledger_at e) then [e] else [])%list.
Proof. unfold window. rewrite List.filter_app. cbn. by destruct (includes _ _). Qed.
Lemma having_snoc f k l e :
  having f k (l ++ [e]) = (having f k l ++ if decide (f e = k) then [e] else [])%list.
Proof. unfold having. rewrite List.filter_app. cbn. by case_bool_decide; case_decide. Qed.
Lemma having_occurs f k l : having f k l <> [] <-> k ∈ map f l.
Proof.
  rewrite list_elem_of_In, in_map_iff. split.
  - intros Hne. destruct (having f k l) as [|e es] eqn:E; [done|]. exists e.
    assert (Hin : In e (having f k l)) by (rewrite E; by left).
    apply filter_In in Hin as [? Hb]. by apply bool_decide_eq_true in Hb.
  - intros (e & <- & Hin) E.
    assert (In e (having f (f e) l)) as Hf by (apply filter_In; by rewrite bool_decide_true).
    by rewrite E in Hf.
Qed.

(** The lines counted for a list: one for each endpoint that occurs. *)
Definition counted (m : line_map) l : Prop := forall ep,
  m !! ep = if decide (of_endpoint ep l = []) then None else Some (line_of l ep).

Lemma counted_nil : counted ∅ [].
Proof. intros ep. by rewrite lookup_empty. Qed.
Lemma snoc_not_nil {A} (l : list A) x : (l ++ [x])%list <> [].
Proof. by destruct l. Qed.

Lemma counted_snoc m l e : counted m l -> counted (count_line e m) (l ++ [e]).
Proof.
  intros Hm ep. unfold count_line, line_of. rewrite having_snoc.
  destruct (decide (ledger_endpoint e = ep)) as [E|E].
  - subst ep. rewrite lookup_insert_eq, decide_False by apply snoc_not_nil. f_equal.
    rewrite Hm, calls_snoc, cents_snoc. unfold line_of.
    case_decide as En; cbn; [by rewrite En|done].
  - by rewrite lookup_insert_ne, app_nil_r.
Qed.

Lemma sorted_tally m l : counted m l -> sorted_lines m = tally l.
Proof.
  intros Hm. unfold sorted_lines, tally. apply listed with (ref := line_of l); [done|..].
  - intros ep line. rewrite Hm. case_decide as E; [done|]. intros [= <-].
    split; [by apply having_occurs|done].
  - intros ep Hin. apply having_occurs in Hin. rewrite Hm, decide_False by done. done.
Qed.

Lemma count_loop rng l : exists m,
  foldl (count_step rng) (∅, 0, 0) l = (m, calls_of (window rng l), cents_of (window rng l)) /\
  counted m (window rng l).
Proof.
  induction l as [|e l (m & E & Hm)] using rev_ind; [by exists ∅|].
  rewrite foldl_app, E, window_snoc. cbn [foldl]. unfold count_step.
  destruct (includes rng (ledger_at e)); cbn [negb].
  - eexists. rewrite calls_snoc, cents_snoc. split; [done|]. by apply counted_snoc.
  - exists m. by rewrite app_nil_r.
Qed.

(** The slices of an account: one for each tenant that occurs. *)
Definition sliced (m : gmap string tenant_slice) l : Prop := forall t,
  match m !! t with
  | None => of_tenant t l = []
  | Some tc => of_tenant t l <> [] /\ ts_calls tc = calls_of (of_tenant t l) /\
               ts_cents tc = cents_of (of_tenant t l) /\ counted (ts_lines tc) (of_tenant t l)
  end.

Lemma sliced_snoc m l e : sliced m l ->
  sliced (<[ledger_tenantID e :=
             count_slice e (default {| ts_calls := 0; ts_cents := 0; ts_lines := ∅ |}
                              (m !! ledger_tenantID e))]> m) (l ++ [e]).
Proof.
  intros Hm t. rewrite having_snoc.
  destruct (decide (ledger_tenantID e = t)) as [<-|E].
  - rewrite lookup_insert_eq, calls_snoc, cents_snoc. split; [apply snoc_not_nil|].
    specialize (Hm (ledger_tenantID e)). destruct (m !! ledger_tenantID e) as [tc|]; cbn.
    + destruct Hm as (_ & -> & -> & Hc). split_and!; [done..|]. by apply counted_snoc.
    + rewrite Hm. split_and!; [done..|]. apply (counted_snoc _ []), counted_nil.
  - rewrite lookup_insert_ne, app_nil_r by done. apply Hm.
Qed.

Lemma rollup_loop rng l : exists m,
  foldl (rollup_step rng) (∅, 0, 0) l = (m, calls_of (window rng l), cents_of (window rng l)) /\
  sliced m (window rng l).
Proof.
  induction l as [|e l (m & E & Hm)] using rev_ind.
  { exists ∅. split; [done|]. intros t. by rewrite lookup_empty. }
  rewrite foldl_app, E, window_snoc. cbn [foldl]. unfold rollup_step.
  destruct (includes rng (ledger_at e)); cbn [negb].
  - eexists. rewrite calls_snoc, cents_snoc. split; [done|]. by apply sliced_snoc.
  - exists m. by rewrite app_nil_r.
Qed.

Lemma sorted_slices m l : sliced m l ->
  SliceStable (map slice_report (iterate m)) (by_text tc_TenantID)
  = map (tenant_tally l) (distinct (map ledger_tenantID l)).
Proof.
  intros Hm. apply listed with (ref := tenant_tally l); [done|..].
  - intros t tc E. specialize (Hm t). rewrite E in Hm. destruct Hm as (Hne & Ec & Es & Hc).
    split; [by apply having_occurs|]. unfold slice_report, tenant_tally. cbn [fst snd].
    by rewrite Ec, Es, (sorted_tally _ _ Hc).
  - intros t Hin. apply having_occurs in Hin. specialize (Hm t). by destruct (m !! t).
Qed.

(** ** Sums by key *)
Lemma sum_by_key (w : LedgerEntry -> Z) f keys l :
  NoDup keys -> (forall e, In e l -> f e ∈ keys) ->
  sumZ (map (fun k => sumZ (map w (having f k l))) keys) = sumZ (map w l).
Proof.
  intros Hn. induction l as [|e l IH]; intros Hk.
  { clear. induction keys as [|k keys IH]; [done|]. exact IH. }
  assert (Hone : forall ks, NoDup ks ->
    sumZ (map (fun k => sumZ (map w (having f k (e :: l)))) ks)
    = (if decide (f e ∈ ks) then w e else 0)
      + sumZ (map (fun k => sumZ (map w (having f k l))) ks)).
  { induction 1 as [|k ks Hnk Hns IHs]; [by rewrite decide_False by apply not_elem_of_nil|].
    unfold sumZ in *. cbn [map foldr]. rewrite IHs. unfold having at 1. cbn [List.filter].
    fold (having f k l). case_bool_decide as E.
    - subst k. rewrite decide_False, decide_True by (done || by left). cbn. lia.
    - destruct (decide (f e ∈ ks)) as [Hin|Hin].
      + rewrite decide_True by (by right). lia.
      + rewrite decide_False by (by rewrite elem_of_cons; intros [?|?]). lia. }
  rewrite Hone, decide_True by (done || apply Hk; by left).
  rewrite IH by (intros; apply Hk; by right). done.
Qed.

Lemma calls_sum l : Z.of_nat (List.length l) = sumZ (map (fun _ => 1) l).
Proof. induction l as [|e l IH]; [done|]. cbn [List.length map]. unfold sumZ in *. cbn. lia. Qed.

Lemma sum_wraps {A} (g : A -> Z) ks :
  wrap64 (sumZ (map (fun k => wrap64 (g k)) ks)) = wrap64 (sumZ (map g ks)).
Proof.
  induction ks as [|k ks IH]; [done|]. unfold sumZ in *. cbn.
  rewrite wrap_add, Z.add_comm, <- wrap_add, IH, wrap_add. f_equal. lia.
Qed.

Lemma wraps_by_key (w : LedgerEntry -> Z) f l :
  wrap64 (sumZ (map (fun k => wrap64 (sumZ (map w (having f k l)))) (distinct (map f l))))
  = wrap64 (sumZ (map w l)).
Proof.
  rewrite sum_wraps. f_equal. apply sum_by_key; [apply NoDup_distinct|].
  intros e He. apply elem_distinct, list_elem_of_In, in_map, He.
Qed.
Lemma calls_by_key f l :
  wrap64 (sumZ (map (fun k => calls_of (having f k l)) (distinct (map f l)))) = calls_of l.
Proof.
  unfold calls_of. rewrite calls_sum, <- (wraps_by_key _ f). do 2 f_equal. apply map_ext.
  intros k. by rewrite calls_sum.
Qed.
Lemma cents_by_key f l :
  wrap64 (sumZ (map (fun k => cents_of (having f k l)) (distinct (map f l)))) = cents_of l.
Proof. apply wraps_by_key. Qed.
End loops.

(** * The reports *)
Section reports.
Context `{MapIteration}.

(** A tenant's entries of a window, as the ledger has them. *)
Definition entries (t : string) (rng : ConsumptionRange) (s : snapshot) : list LedgerEntry :=
  window rng (of_tenant t (st_ledger s)).
Definition report (t : string) (l : list LedgerEntry) : ConsumptionReport :=
  {| rep_TenantID := t; rep_Lines := tally l; rep_TotalCalls := calls_of l;
     rep_TotalCents := cents_of l |}.

Lemma report_tally t l l' m : l ≡ₚ l' -> counted m l ->
  {| rep_TenantID := t; rep_Lines := sorted_lines m; rep_TotalCalls := calls_of l;
     rep_TotalCents := cents_of l |} = report t l'.
Proof. intros E Hm. rewrite (sorted_tally _ _ Hm). unfold report. by rewrite !E. Qed.

Lemma report_run t rng s : ConsumptionInRange t rng s =
  match st_tenants s !! TrimSpace t with
  | Some _ => Ok (report (TrimSpace t) (entries (TrimSpace t) rng s))
  | None => Err (Wrap "resolve tenant" ErrNotFound)
  end.
Proof.
  unfold ConsumptionInRange, findTenantByID, readM, found. cbn [snd].
  destruct (st_tenants s !! TrimSpace t); [|done]. cbn [map_err].
  destruct (count_loop rng (ListLedgerEntries (TrimSpace t) s)) as (m & -> & Hm).
  f_equal. apply report_tally; [|done]. unfold window, entries, ListLedgerEntries, filterLedger.
  by rewrite SliceStable_perm.
Qed.

Lemma slices_perm l l' : l ≡ₚ l' ->
  map (tenant_tally l) (distinct (map ledger_tenantID l))
  = map (tenant_tally l') (distinct (map ledger_tenantID l')).
Proof.
  intros E. rewrite (distinct_proper _ _ (Permutation_map ledger_tenantID E)). apply map_ext.
  intros t. unfold tenant_tally, having. by rewrite (bool_filter_perm _ _ _ E).
Qed.

Lemma rollup_run accounts a rng s rep : AccountConsumptionInRange accounts a rng s = Ok rep ->
  let l := window rng (of_account (TrimSpace a) (st_ledger s)) in
  rep = {| acr_AccountID := TrimSpace a;
           acr_Tenants := map (tenant_tally l) (distinct (map ledger_tenantID l));
           acr_TotalCalls := calls_of l; acr_TotalCents := cents_of l |}.
Proof.
  unfold AccountConsumptionInRange. case_bool_decide; [done|].
  destruct (match accounts with Some find => _ | None => Ok tt end) as [[]|]; [|done].
  destruct (rollup_loop rng (ListLedgerEntriesByAccount (TrimSpace a) s)) as (m & -> & Hm).
  intros [= <-]. rewrite (sorted_slices _ _ Hm).
  assert (E : window rng (ListLedgerEntriesByAccount (TrimSpace a) s)
              ≡ₚ window rng (of_account (TrimSpace a) (st_ledger s)))
    by (unfold window, ListLedgerEntriesByAccount, filterLedger; by rewrite SliceStable_perm).
  by rewrite (slices_perm _ _ E), !E.
Qed.

Lemma owned_entries t a rng (ledger : list LedgerEntry) :
  (forall e, In e (of_tenant t ledger) -> ledger_accountID e = a) ->
  of_tenant t (window rng (of_account a ledger)) = window rng (of_tenant t ledger).
Proof.
  unfold having, window. induction ledger as [|e l IH]; intros Ha; [done|].
  cbn [List.filter] in *.
  destruct (bool_decide (ledger_tenantID e = t)) eqn:Et.
  - rewrite bool_decide_true by (apply Ha; by left). cbn [List.filter].
    destruct (includes rng (ledger_at e)); cbn [List.filter]; rewrite ?Et, IH;
      auto; intros; apply Ha; by right.
  - destruct (bool_decide (ledger_accountID e = a)); cbn [List.filter];
      [destruct (includes rng (ledger_at e)); cbn [List.filter]; rewrite ?Et|]; auto.
Qed.

(** An account's rollup is the tally of its recorded entries: one slice per tenant with an
    entry in the window, in order, with one line per endpoint, whose calls and cents add up
    to the slice's and theirs to the account's; and when all of a tenant's entries are the
    account's, its slice is that tenant's own report. *)
Theorem rollup_exact accounts a rng s rep
    (Hrep : AccountConsumptionInRange accounts a rng s = Ok rep) :
  let l := window rng (of_account (TrimSpace a) (st_ledger s)) in
  acr_Tenants rep = map (tenant_tally l) (distinct (map ledger_tenantID l)) /\
  acr_TotalCalls rep = wrap64 (sumZ (map tc_TotalCalls (acr_Tenants rep))) /\
  acr_TotalCents rep = wrap64 (sumZ (map tc_TotalCents (acr_Tenants rep))) /\
  (forall tc, In tc (acr_Tenants rep) ->
     tc_TotalCents tc = wrap64 (sumZ (map cl_TotalCents (tc_Lines tc))) /\
     tc_TotalCalls tc = wrap64 (sumZ (map cl_Calls (tc_Lines tc)))) /\
  (forall t r, ConsumptionInRange t rng s = Ok r -> 
     (forall e, In e (of_tenant (TrimSpace t) (st_ledger s)) -> ledger_accountID e = TrimSpace a) ->
     tenant_tally l (TrimSpace t) =
       {| tc_TenantID := rep_TenantID r; tc_Lines := rep_Lines r;
          tc_TotalCalls := rep_TotalCalls r; tc_TotalCents := rep_TotalCents r |}).
Proof.
  apply rollup_run in Hrep. subst rep. cbv zeta.
  set (l := window rng (of_account (TrimSpace a) (st_ledger s))).
  cbn [acr_Tenants acr_TotalCalls acr_TotalCents]. split_and!; [done|..].
  - rewrite map_map. symmetry. apply calls_by_key.
  - rewrite map_map. symmetry. apply cents_by_key.
  - intros tc (t & <- & _)%in_map_iff. unfold tenant_tally, tally.
    cbn [tc_TotalCents tc_TotalCalls tc_Lines]. rewrite !map_map.
    split; symmetry; [apply cents_by_key|apply calls_by_key].
  - intros t r Hr Hown. rewrite report_run in Hr.
    destruct (st_tenants s !! TrimSpace t); [|done]. injection Hr as <-.
    unfold tenant_tally, l. by rewrite owned_entries.
Qed.

(** * Invoices *)
Definition bill_line (c : ConsumptionLine) : LineItem :=
  {| li_endpoint := cl_Endpoint c; li_calls := cl_Calls c; li_subtotalCents := cl_TotalCents c |}.

Lemma invoice_lines_Ok cs lis :
  Forall (fun c => trimmed (cl_Endpoint c)) cs -> invoice_lines cs = Ok lis ->
  lis = map bill_line cs /\
  Forall (fun c => cl_Endpoint c <> "" /\ 0 < cl_Calls c /\ 0 <= cl_TotalCents c) cs.
Proof.
  intros Ht. revert lis. induction Ht as [|c cs Hc Ht IH]; intros lis; cbn [invoice_lines].
  { by intros [= <-]. }
  unfold NewLineItem. rewrite Hc. case_bool_decide; [done|]. cbn [map_err].
  destruct (cl_Calls c <=? 0) eqn:E1; [done|]. destruct (cl_TotalCents c <? 0) eqn:E2; [done|].
  cbn [map_err]. destruct (invoice_lines cs) as [ls|]; [|done]. intros [= <-].
  destruct (IH ls eq_refl) as [-> Hf]. split; [done|]. constructor; [|done]. split_and!; [done|lia..].
Qed.

Lemma total_lines_Ok ls calls cents :
  Forall (fun li => li_endpoint li <> "") ls -> total_lines ls (wrap64 calls) (wrap64 cents)
  = Ok (wrap64 (calls + sumZ (map li_calls ls)), wrap64 (cents + sumZ (map li_subtotalCents ls))).
Proof.
  intros Hf. revert calls cents. induction Hf as [|li ls Hli Hf IH]; intros calls cents.
  { unfold sumZ. cbn. by rewrite !Z.add_0_r. }
  cbn [total_lines]. rewrite bool_decide_false by done. unfold add64. rewrite !wrap_add, IH.
  unfold sumZ. cbn. by rewrite !Z.add_assoc.
Qed.

Lemma sorted_already {A} (f : A -> string) l :
  StronglySorted (not_after (by_text f)) l -> NoDup (map f l) -> SliceStable l (by_text f) = l.
Proof.
  intros Hs Hn. eapply sorted_by_text_unique; [apply SliceStable_sorted, _|exact Hs|apply SliceStable_perm|].
  by rewrite SliceStable_perm.
Qed.

Lemma bill_sorted l :
  SliceStable (map bill_line (tally l)) (by_text li_endpoint) = map bill_line (tally l).
Proof.
  unfold tally. rewrite map_map. apply sorted_already; [by apply map_distinct_sorted|].
  rewrite map_map. cbn. rewrite map_id. apply NoDup_distinct.
Qed.

Lemma tally_trimmed l : Forall LedgerEntry_ok l -> Forall (fun c => trimmed (cl_Endpoint c)) (tally l).
Proof.
  intros Hok. apply Forall_map, Forall_forall. intros ep Hep. cbn.
  apply elem_distinct, list_elem_of_In, in_map_iff in Hep as (e & <- & He).
  apply list_elem_of_In in He. by apply ledger_ok_endpoint, (proj1 (Forall_forall _ _) Hok).
Qed.

Lemma Forall_kept {A} (P : A -> Prop) (f : A -> bool) l : Forall P l -> Forall P (List.filter f l).
Proof. induction 1; cbn; [done|]. destruct (f _); [by constructor|done]. Qed.
Lemma entries_ok t rng s : Forall LedgerEntry_ok (st_ledger s) -> Forall LedgerEntry_ok (entries t rng s).
Proof. intros. by do 2 apply Forall_kept. Qed.

Lemma draft_Ok env t rng s inv : Forall LedgerEntry_ok (st_ledger s) ->
  draft_invoice env t rng s = Ok inv ->
  let l := entries (TrimSpace t) rng s in
  inv_tenantID inv = TrimSpace t /\ inv_periodStart inv = rng_Start rng /\
  inv_periodEnd inv = rng_End rng /\
  inv_lines inv = map bill_line (tally l) /\
  Forall (fun li => li_endpoint li <> "" /\ 0 < li_calls li /\ 0 <= li_subtotalCents li)
    (inv_lines inv) /\
  inv_totalCalls inv = calls_of l /\ inv_totalCents inv = cents_of l.
Proof.
  intros Hok. unfold draft_invoice. rewrite report_run, TrimSpace_idem.
  destruct (IsZero (rng_Start rng) || IsZero (rng_End rng)) eqn:Ez; [done|].
  destruct (negb (Before (rng_Start rng) (rng_End rng))) eqn:Eb; [done|].
  unfold findTenantByID, readM, found. cbn [snd].
  destruct (st_tenants s !! TrimSpace t) as [row|]; [|done]. cbn [map_err].
  set (l := entries (TrimSpace t) rng s). cbn [rep_Lines report].
  destruct (invoice_lines (tally l)) as [lis|] eqn:El; [|done].
  apply invoice_lines_Ok in El as [-> Hpos]; [|by apply tally_trimmed, entries_ok].
  unfold invoice_New. rewrite TrimSpace_idem, Ez, Eb, bill_sorted.
  case_bool_decide; [done|]. case_bool_decide; [done|].
  assert (Hne : Forall (fun li => li_endpoint li <> "") (map bill_line (tally l)))
    by (apply Forall_map; eapply Forall_impl; [exact Hpos|]; by intros ? [? _]).
  pose proof (total_lines_Ok _ 0 0 Hne) as Et. change (wrap64 0) with 0 in Et. rewrite Et.
  intros [= <-]. cbn. split_and!; [done..| | |].
  - apply Forall_map. exact Hpos.
  - rewrite <- (calls_by_key ledger_endpoint l). unfold tally. by rewrite !map_map.
  - rewrite <- (cents_by_key ledger_endpoint l). unfold tally. by rewrite !map_map.
Qed.

Lemma generate_Ok env t rng b b' inv : GenerateInvoice env true t rng b = (b', Ok inv) ->
  draft_invoice env t rng (bk_db b) = Ok inv /\
  bk_invoices b' = (bk_invoices b ++ [inv])%list /\
  exists e, NewEntry (be_entryID env) (be_operator env) ActionInvoiceGenerated (TrimSpace t)
              (be_auditAt env) = Ok e /\
            bk_db b' = with_audit (bk_db b) (st_audit (bk_db b) ++ [e]).
Proof.
  unfold GenerateInvoice, bindM, readM. cbn [negb].
  destruct (draft_invoice env t rng (bk_db b)) as [i|]; [|done].
  destruct (be_save env); [done|]. destruct (NewEntry _ _ _ _ _) as [e|]; [|done].
  destruct (be_append env); [done|]. intros [= <- <-]. split_and!; [done..|]. by exists e.
Qed.

(** An invoice bills what was recorded: its lines are the tally of the tenant's ledger
    entries of the period, one per endpoint, whose totals are the invoice's; it is appended
    to the invoices, no earlier one is touched, and one audit entry records it.  A refused
    attempt changes nothing, unless it is the audit that failed: then the invoice stays,
    unaudited. *)
Theorem invoice_exact env t rng b (Hok : Forall LedgerEntry_ok (st_ledger (bk_db b))) :
  let l := entries (TrimSpace t) rng (bk_db b) in
  let '(b', r) := GenerateInvoice env true t rng b in
  match r with
  | Ok inv =>
      inv_tenantID inv = TrimSpace t /\
      inv_lines inv = map bill_line (tally l) /\
      Forall (fun li => li_endpoint li <> "" /\ 0 < li_calls li /\ 0 <= li_subtotalCents li)
        (inv_lines inv) /\
      inv_totalCalls inv = calls_of l /\ inv_totalCents inv = cents_of l /\
      bk_invoices b' = (bk_invoices b ++ [inv])%list /\
      exists e, entry_action e = ActionInvoiceGenerated /\ entry_tenantID e = TrimSpace t /\
                bk_db b' = with_audit (bk_db b) (st_audit (bk_db b) ++ [e])
  | Err _ => b' = b \/ exists inv, draft_invoice env t rng (bk_db b) = Ok inv /\
                                   b' = SaveInvoice inv b
  end.
Proof.
  cbv zeta. destruct (GenerateInvoice env true t rng b) as [b' [inv|err]] eqn:E.
  - apply generate_Ok in E as (Ed & Ei & e & Ee & Edb).
    apply draft_Ok in Ed as (? & _ & _ & ? & ? & ? & ?); [|done]. split_and!; [done..|].
    apply NewEntry_Ok in Ee as [Ea Et]. rewrite TrimSpace_idem in Et. by exists e.
  - revert E. unfold GenerateInvoice, bindM, readM. cbn [negb].
    destruct (draft_invoice env t rng (bk_db b)) as [i|]; [|by intros [= <- _]; left].
    destruct (be_save env); [by intros [= <- _]; left|].
    destruct (NewEntry _ _ _ _ _) as [e|]; [|intros [= <- _]; right; by exists i].
    destruct (be_append env); [|done]. intros [= <- _]. right. by exists i.
Qed.

(** ** Consecutive periods *)
Definition period (p : Time * Time) : ConsumptionRange := {| rng_Start := p.1; rng_End := p.2 |}.

(** The invoice of a period, generated at any moment at which the ledger had the period's
    entries of [L]. *)
Definition issued (L : list LedgerEntry) (t : string) (p : Time * Time) (inv : Invoice) : Prop :=
  exists env b b', GenerateInvoice env true t (period p) b = (b', Ok inv) /\
    Forall LedgerEntry_ok (st_ledger (bk_db b)) /\
    entries (TrimSpace t) (period p) (bk_db b) ≡ₚ window (period p) (of_tenant (TrimSpace t) L).

Lemma issued_cents L t p inv : issued L t p inv ->
  inv_totalCents inv = cents_of (window (period p) (of_tenant (TrimSpace t) L)).
Proof.
  intros (env & b & b' & E & Hok & Hl). apply generate_Ok in E as (Ed & _).
  apply draft_Ok in Ed as (_ & _ & _ & _ & _ & _ & ->); [|done]. by rewrite Hl.
Qed.
Lemma issued_period L t p inv : issued L t p inv ->
  IsZero p.1 = false /\ IsZero p.2 = false /\ Before p.1 p.2 = true.
Proof.
  intros (env & b & b' & E & _). apply generate_Ok in E as (Ed & _). revert Ed.
  unfold draft_invoice. cbn [rng_Start rng_End period].
  destruct (IsZero p.1), (IsZero p.2), (Before p.1 p.2); done.
Qed.

Lemma window_split a m c l : IsZero a = false -> IsZero m = false -> IsZero c = false ->
  ns a <= ns m -> ns m <= ns c ->
  window (period (a, c)) l ≡ₚ window (period (a, m)) l ++ window (period (m, c)) l.
Proof.
  intros Ha Hm Hc H1 H2. unfold window. induction l as [|e l IH]; [done|]. cbn [List.filter].
  assert (E : includes (period (a, c)) (ledger_at e) =
              includes (period (a, m)) (ledger_at e) || includes (period (m, c)) (ledger_at e)
           /\ includes (period (a, m)) (ledger_at e) && includes (period (m, c)) (ledger_at e) = false).
  { unfold includes, period, Before. cbn [rng_Start rng_End fst snd]. rewrite Ha, Hm, Hc. cbn.
    destruct (Z.ltb_spec (ns (ledger_at e)) (ns a)), (Z.ltb_spec (ns (ledger_at e)) (ns m)),
      (Z.ltb_spec (ns (ledger_at e)) (ns c)); cbn; split; try done; lia. }
  destruct E as [-> Ex].
  destruct (includes (period (a, m)) _), (includes (period (m, c)) _); try done; cbn [orb].
  - cbn. by rewrite IH.
  - rewrite IH. by apply Permutation_middle.
Qed.

Lemma last_cons {A} (x : A) l d : List.last (x :: l) d = List.last l x.
Proof. revert x d. induction l as [|y l IH]; intros x d; [done|]. exact (eq_trans (IH y d) (eq_sym (IH y x))). Qed.
Lemma window_empty a l : IsZero a = false -> window (period (a, a)) l = [].
Proof.
  intros Ha. unfold window. induction l as [|e l IH]; [done|]. cbn [List.filter].
  assert (includes (period (a, a)) (ledger_at e) = false) as ->; [|done].
  unfold includes, period, Before. cbn [rng_Start rng_End fst snd]. rewrite Ha. cbn.
  by destruct (Z.ltb_spec (ns (ledger_at e)) (ns a)).
Qed.

Lemma prices_window_le rng l : Forall LedgerEntry_ok l -> 0 <= prices (window rng l) <= prices l.
Proof.
  intros Hok. unfold window, prices, sumZ. induction Hok as [|e l He Hok IH]; [done|].
  pose proof (ledger_ok_price _ He). cbn [List.filter map foldr].
  destruct (includes _ _); cbn [map foldr]; lia.
Qed.

(** C33. Consecutive invoices bill every recorded call exactly once: for any chain of
    instants, the invoices of the periods between them, each generated at any moment at
    which its period's entries were recorded, add up to the prices of the entries from the
    first instant to the last. *)
Theorem invoices_tile L t first rest invs
    (Hok : Forall LedgerEntry_ok L) (Hfit : prices L <= maxInt64)
    (Hnz : IsZero first = false)
    (Hinv : Forall2 (issued L t) (zip (first :: rest) rest) invs) :
  sumZ (map inv_totalCents invs) =
  prices (window (period (first, List.last rest first)) (of_tenant (TrimSpace t) L)).
Proof.
  set (E := of_tenant (TrimSpace t) L) in *.
  assert (Hok' : Forall LedgerEntry_ok E) by (by apply Forall_kept).
  assert (HE : prices E <= maxInt64).
  { etrans; [|exact Hfit]. unfold E, having, prices, sumZ. clear -Hok.
    induction Hok as [|e l He Hok IH]; [done|]. pose proof (ledger_ok_price _ He).
    cbn [List.filter map foldr]. case_bool_decide; cbn [map foldr]; lia. }
  clear Hok Hfit.
  assert (Hgoal : forall rest first invs, IsZero first = false ->
    Forall2 (fun p inv => IsZero p.1 = false /\ IsZero p.2 = false /\ Before p.1 p.2 = true /\
               inv_totalCents inv = cents_of (window (period p) E)) (zip (first :: rest) rest) invs ->
    ns first <= ns (List.last rest first) /\ IsZero (List.last rest first) = false /\
    sumZ (map inv_totalCents invs) = prices (window (period (first, List.last rest first)) E)).
  { clear -Hok' HE. clearbody E. induction rest as [|m rest IH]; intros first invs Hnz Hinv.
    { apply Forall2_nil_inv_l in Hinv as ->. cbn. rewrite window_empty by done. repeat split; [lia|done]. }
    cbn [zip zip_with] in Hinv. apply Forall2_cons_inv_l in Hinv as (inv & invs' & Hi & Hrest & ->).
    destruct Hi as (_ & Hm & Hlt & Ec). destruct (IH m invs' Hm Hrest) as (Hle & Hlast & Esum).
    rewrite last_cons. unfold Before in Hlt. cbn [fst snd] in Hlt. split_and!; [lia|done|].
    rewrite (window_split first m _ E), prices_app, <- Esum by (done || lia).
    unfold sumZ. cbn [map foldr]. fold (sumZ (map inv_totalCents invs')). rewrite Ec.
    unfold cents_of. rewrite wrap64_id; [done|].
    pose proof (prices_window_le (period (first, m)) E Hok'). unfold in64, minInt64. lia. }
  apply (Hgoal rest first invs Hnz). eapply Forall2_impl; [exact Hinv|].
  intros p inv Hp. destruct (issued_period _ _ _ _ Hp) as (? & ? & ?).
  split_and!; [done..|]. by apply issued_cents in Hp.
Qed.
End reports.

(** * A ledger *)
Definition at_second (n : Z) : Time := {| ns := n * nsec; loc := UTC_loc |}.
Definition sample_entry (id ep : string) (price second : Z) (t a : string) : LedgerEntry :=
  {| ledger_id := id; ledger_tenantID := t; ledger_endpoint := ep; ledger_priceCents := price;
     ledger_reference := ""; ledger_at := at_second second; ledger_accountID := a |}.
Definition sample_ledger : list LedgerEntry :=
  [sample_entry "e1" "pix" 30 100 "t1" "a1"; sample_entry "e2" "boleto" 200 150 "t1" "a1";
   sample_entry "e3" "pix" 30 200 "t2" "a1"; sample_entry "e4" "pix" 40 250 "t1" "a1"].
Definition sample_books (l : list LedgerEntry) : Books :=
  {| bk_db := with_ledger (with_tenants emptySnapshot
       {[ "t1" := {| tenant_id := "t1"; tenant_name := "n"; tenant_active := true;
                     tenant_createdAt := zeroTime; tenant_accountID := "a1" |} ]}) l;
     bk_invoices := [] |}.
Definition sample_books_env (id : string) : BooksEnv :=
  {| be_invoiceID := id; be_entryID := "e" ++ id; be_generatedAt := at_second 400;
     be_auditAt := at_second 401; be_operator := "op"; be_save := None; be_append := None |}.

Lemma sample_ledger_ok l : incl l sample_ledger -> Forall LedgerEntry_ok l.
Proof.
  intros Hl. apply Forall_forall. intros e He%list_elem_of_In%Hl.
  repeat (destruct He as [<-|He]; [split; cbn; try split; (vm_compute; congruence)|]).
  destruct He.
Qed.

(** The first invoice is generated before the second period's calls are recorded. *)
Lemma invoices_tile_witness : exists i1 i2,
  issued sample_ledger "t1" (at_second 100, at_second 200) i1 /\
  issued sample_ledger "t1" (at_second 200, at_second 300) i2 /\
  sumZ (map inv_totalCents [i1; i2]) = 270.
Proof.
  assert (H1 : exists i1, issued sample_ledger "t1" (at_second 100, at_second 200) i1).
  { destruct (GenerateInvoice (sample_books_env "i1") true "t1"
                (period (at_second 100, at_second 200)) (sample_books (take 3 sample_ledger)))
      as [b' [inv|]] eqn:E; [|vm_compute in E; discriminate E].
    exists inv, (sample_books_env "i1"), (sample_books (take 3 sample_ledger)), b'.
    split; [exact E|]. split; [|vm_compute; reflexivity].
    apply sample_ledger_ok. intros x. cbn. tauto. }
  assert (H2 : exists i2, issued sample_ledger "t1" (at_second 200, at_second 300) i2).
  { destruct (GenerateInvoice (sample_books_env "i2") true " t1"
                (period (at_second 200, at_second 300)) (sample_books sample_ledger))
      as [b' [inv|]] eqn:E; [|vm_compute in E; discriminate E].
    exists inv, (sample_books_env "i2"), (sample_books sample_ledger), b'.
    split; [|split]; [|apply sample_ledger_ok; intros x; cbn; tauto|vm_compute; reflexivity].
    etrans; [|exact E]. vm_compute. reflexivity. }
  destruct H1 as [i1 H1], H2 as [i2 H2]. exists i1, i2. split; [done|]. split; [done|].
  rewrite (invoices_tile sample_ledger "t1" (at_second 100) [at_second 200; at_second 300]
             [i1; i2]).
  - vm_compute. reflexivity.
  - apply sample_ledger_ok. intros x Hx. exact Hx.
  - vm_compute. discriminate.
  - reflexivity.
  - repeat constructor; assumption.
Defined.

Lemma rollup_exact_witness : exists rep,
  AccountConsumptionInRange None " a1" (period (at_second 100, at_second 260))
    (bk_db (sample_books sample_ledger)) = Ok rep /\
  acr_TotalCents rep = 300 /\ map tc_TenantID (acr_Tenants rep) = ["t1"; "t2"].
Proof.
  destruct (AccountConsumptionInRange None " a1" (period (at_second 100, at_second 260))
    (bk_db (sample_books sample_ledger))) as [rep|] eqn:E; [|vm_compute in E; discriminate E].
  exists rep. split; [reflexivity|]. destruct (rollup_exact _ _ _ _ _ E) as (Ht & _ & Hc & _).
  rewrite Hc, Ht. split; vm_compute; reflexivity.
Defined.
