(* ===== verification/WebhookRefs.v ===== *)
(** internal/domain/webhookref, the in-memory store of references
    (adapters/persistence/inmemory/webhook_ref.go) and the mint and resolve use-cases
    (app/webhook_ref_mint.go, app/webhook_ref_resolve.go). *)
From S2P Require Import Prelude GoStrings GoCrypto Shared Capabilities.

(** * webhookref *)
Definition refBytes : nat := 32.
Definition RefLen : Z := 43.

(** [entropy]: what the system's generator delivers, [None] when it fails. *)
Definition Generate (entropy : option bytes) : res string :=
  match entropy with
  | None => Err (New "crypto/rand")
  | Some b => Ok (RawURLEncoding b)
  end.
Definition Sum (ref : string) : bytes := sha256 (bytes_of ref).
Definition Valid (ref : string) : bool :=
  if negb (len ref =? RefLen) then false else forallb url_char (bytes_of ref).

Lemma Sum_length ref : List.length (Sum ref) = 32%nat.
Proof. apply length_sha256. Qed.

(** Every reference the service mints has the shape the receiver requires, so no minted
    callback address is refused before its lookup. *)
Lemma Generate_valid b ref :
  List.length b = refBytes -> Generate (Some b) = Ok ref -> Valid ref = true.
Proof.
  intros Hb [= <-]. unfold Valid, RawURLEncoding, len.
  by rewrite bytes_string, raw_url_chars, length_string, length_raw_url32.
Qed.

(** * The store: digest to tenant *)
Notation WebhookRefStore := (gmap string string).

Definition PutWebhookRef (refSHA : bytes) (tenantID : string) : M WebhookRefStore error unit :=
  abort (bool_decide (refSHA = [])) with (NewValidationError "ref_sha256" "ref hash is required") ;;
  abort (bool_decide (tenantID = "")) with (NewValidationError "tenant_id" "tenant id is required") ;;
  fun byHash =>
    let newHash := hex refSHA in
    (<[newHash := tenantID]>
       (filter (fun p => ~ (p.2 = tenantID /\ p.1 <> newHash)) byHash), Ok tt).

Definition RevokeWebhookRefs (tenantID : string) : M WebhookRefStore error Z :=
  abort (bool_decide (tenantID = "")) with (NewValidationError "tenant_id" "tenant id is required") ;;
  fun byHash =>
    (filter (fun p => p.2 <> tenantID) byHash,
     Ok (Z.of_nat (size (filter (fun p => p.2 = tenantID) byHash)))).

Definition LookupWebhookRef (byHash : WebhookRefStore) (refSHA : bytes) : res (option string) :=
  if bool_decide (refSHA = []) then Ok None else Ok (byHash !! hex refSHA).

(** * Mint *)
Definition MintWebhookRef (entropy : option bytes) (tenantID : string)
    : M WebhookRefStore error string :=
  do ref <- liftM (map_err (Wrap "generate webhook ref") (Generate entropy)) ;;
  do _ <- wrapM (Wrap "persist webhook ref") (PutWebhookRef (Sum ref) tenantID) ;;
  retM ref.

(** * Resolve *)
Inductive RefSource := RefSourceNone | RefSourceDurable | RefSourceEnv.
Record RefResolution := { rr_TenantID : string; rr_Source : RefSource; rr_Mismatch : bool }.

Definition envOnly (envTenant : string) : RefResolution :=
  if bool_decide (envTenant = "")
  then {| rr_TenantID := ""; rr_Source := RefSourceNone; rr_Mismatch := false |}
  else {| rr_TenantID := envTenant; rr_Source := RefSourceEnv; rr_Mismatch := false |}.

(** [store]: the lookup of the configured store, if there is one. *)
Definition Resolve (store : option (bytes -> res (option string))) (ref envTenant : string)
    : res RefResolution :=
  match store with
  | None => Ok (envOnly envTenant)
  | Some lookup =>
      if negb (Valid ref) then Ok (envOnly envTenant)
      else
        let? found := lookup (Sum ref) in
        match found with
        | None => Ok (envOnly envTenant)
        | Some durable =>
            Ok {| rr_TenantID := durable; rr_Source := RefSourceDurable;
                  rr_Mismatch := negb (bool_decide (envTenant = ""))
                                 && negb (bool_decide (envTenant = durable)) |}
        end
  end.

(** * Histories *)
Inductive ref_op := MintRef (entropy : option bytes) (tenant : string) | RevokeRefs (tenant : string).

Definition ref_step (s : WebhookRefStore) (o : ref_op) : WebhookRefStore :=
  match o with
  | MintRef e t => fst (MintWebhookRef e t s)
  | RevokeRefs t => fst (RevokeWebhookRefs t s)
  end.
Definition run_refs (ops : list ref_op) : WebhookRefStore := foldl ref_step ∅ ops.

(** What the history grants: the successful mints and the effective revocations. *)
Definition ref_grant (o : ref_op) : option cap_op :=
  match o with
  | MintRef (Some b) t => if bool_decide (t = "") then None
                          else Some (Grant t (hex (Sum (RawURLEncoding b))))
  | MintRef None _ => None
  | RevokeRefs t => if bool_decide (t = "") then None else Some (Withdraw t)
  end.
Definition ref_grants (ops : list ref_op) : list cap_op := omap ref_grant ops.

Lemma Sum_not_empty ref : Sum ref <> [].
Proof. intros E. pose proof (Sum_length ref) as L. by rewrite E in L. Qed.

Lemma MintWebhookRef_run b t s : t <> "" ->
  MintWebhookRef (Some b) t s =
  (<[hex (Sum (RawURLEncoding b)) := t]>
     (filter (fun p => ~ (p.2 = t /\ p.1 <> hex (Sum (RawURLEncoding b)))) s),
   Ok (RawURLEncoding b)).
Proof.
  intros Ht. unfold MintWebhookRef, bindM, liftM, wrapM, PutWebhookRef. cbn [Generate map_err].
  by rewrite !bool_decide_false by (done || apply Sum_not_empty).
Qed.

Lemma MintWebhookRef_empty_tenant e s : fst (MintWebhookRef e "" s) = s.
Proof.
  unfold MintWebhookRef, bindM, liftM, wrapM, PutWebhookRef. destruct (Generate e); [|done].
  cbn [map_err]. by rewrite bool_decide_false by apply Sum_not_empty.
Qed.

(** A filter of an index that drops exactly the entries of one holder's other digest. *)
Lemma filter_lookup (P : string * string -> Prop) `{forall p, Decision (P p)}
    (s m : gmap string string) h d' :
  indexes s m ->
  (forall h', m !! h' = Some d' -> P (d', h') <-> h' <> h) ->
  filter P s !! d' = if decide (m !! h = Some d') then None else s !! d'.
Proof.
  intros Hi HP. case_decide as Hm.
  - apply map_lookup_filter_None. right. intros h' E. apply Hi in E as E'.
    apply Hi in Hm. rewrite HP by done. naive_solver.
  - destruct (s !! d') as [h'|] eqn:E.
    + apply map_lookup_filter_Some. split; [done|]. apply Hi in E. apply HP; [done|].
      by intros ->.
    + apply map_lookup_filter_None. by left.
Qed.

Lemma refs_index ops : NoDup (granted (ref_grants ops)) ->
  indexes (run_refs ops) (held (ref_grants ops)).
Proof.
  induction ops as [|o ops IH] using rev_ind; intros Hn; [done|].
  unfold run_refs, ref_grants in *. rewrite foldl_app, omap_app in *. cbn [foldl] in *.
  assert (Hn' : NoDup (granted (omap ref_grant ops))).
  { unfold granted in Hn. rewrite omap_app in Hn. by apply NoDup_app in Hn as [? _]. }
  specialize (IH Hn'). set (s := foldl ref_step ∅ ops) in *.
  destruct o as [[b|] t|t]; cbn [ref_step omap list_omap ref_grant] in *.
  - case_bool_decide as Ht; [subst|].
    + by rewrite app_nil_r, MintWebhookRef_empty_tenant.
    + rewrite held_snoc, MintWebhookRef_run by done. eapply indexes_grant; [exact IH| |].
      * eapply fresh_grant; eassumption.
      * intros d'. cbn [fst]. destruct (decide (d' = _)) as [->|Hd];
          [by rewrite lookup_insert_eq|].
        rewrite lookup_insert_ne by done. apply filter_lookup; [exact IH|]. cbn. naive_solver.
  - by rewrite app_nil_r.
  - unfold RevokeWebhookRefs. case_bool_decide as Ht; [by rewrite app_nil_r|].
    rewrite held_snoc. apply (indexes_withdraw s); [exact IH|]. intros d'.
      apply filter_lookup; [exact IH|]. cbn. naive_solver.
Qed.

(** One live callback address per tenant: after any history of mints and revocations in
    which no two references share a digest, a well-formed reference resolves durably to a
    tenant exactly when it is the last one minted for it and has not been revoked since. *)
Theorem reference_resolves_exactly ops ref env t
    (Hn : NoDup (granted (ref_grants ops))) (Hv : Valid ref = true) :
  Resolve (Some (LookupWebhookRef (run_refs ops))) ref env =
    Ok {| rr_TenantID := t; rr_Source := RefSourceDurable;
          rr_Mismatch := negb (bool_decide (env = "")) && negb (bool_decide (env = t)) |}
  <-> held (ref_grants ops) !! t = Some (hex (Sum ref)).
Proof.
  rewrite <- (refs_index ops Hn (hex (Sum ref)) t).
  unfold Resolve, LookupWebhookRef. rewrite Hv, bool_decide_false by apply Sum_not_empty.
  cbn [negb]. destruct (run_refs ops !! _) as [t'|]; unfold envOnly.
  - split; intros; simplify_eq; done.
  - split; [|done]. case_bool_decide; intros; simplify_eq.
Qed.

Definition sample_entropy (c : ascii) : bytes := replicate refBytes c.
Definition sample_history : list ref_op :=
  [MintRef (Some (sample_entropy "a")) "t1"; MintRef (Some (sample_entropy "b")) "t2";
   MintRef None "t1"; MintRef (Some (sample_entropy "c")) "t1"; RevokeRefs "t2"].
Lemma reference_resolves_exactly_witness :
  Resolve (Some (LookupWebhookRef (run_refs sample_history)))
    (RawURLEncoding (sample_entropy "c")) "" =
    Ok {| rr_TenantID := "t1"; rr_Source := RefSourceDurable; rr_Mismatch := false |} /\
  Resolve (Some (LookupWebhookRef (run_refs sample_history)))
    (RawURLEncoding (sample_entropy "a")) "" = Ok (envOnly "").
Proof.
  split; [|vm_compute; reflexivity].
  apply (reference_resolves_exactly sample_history _ "").
  - apply (bool_decide_unpack _). vm_compute. exact I.
  - vm_compute. reflexivity.
  - vm_compute. reflexivity.
Defined.
