(* ===== verification/AccountConsole.v ===== *)
(** The console's listings and its account plane: internal/app/console.go (tenants),
    internal/app/account_console.go and the in-memory store's accounts
    (internal/adapters/persistence/inmemory/store.go). *)
From S2P Require Import Prelude GoStrings GoText GoTime GoSort Shared Tenants Payments AuditTrail Ports.
From S2P Require Import MemStore Capabilities Invoices InvoiceReports.

Definition ErrAccountsUnavailable : error := New "account store not configured".

(** strings.Contains. *)
Definition Contains (s sub : string) : bool :=
  match String.index 0 sub s with Some _ => true | None => false end.

Inductive StatusFilter := StatusAny | StatusActive | StatusSuspended.
Definition ParseStatusFilter (raw : string) : StatusFilter :=
  let raw := ToLower (TrimSpace raw) in
  if bool_decide (raw = "active") then StatusActive
  else if bool_decide (raw = "suspended") then StatusSuspended
  else StatusAny.
Definition matchesStatus (t : Tenant) (f : StatusFilter) : bool :=
  match f with
  | StatusActive => tenant_active t
  | StatusSuspended => negb (tenant_active t)
  | StatusAny => true
  end.
Definition matchesAccountStatus (a : Account) (f : StatusFilter) : bool :=
  match f with
  | StatusActive => account_active a
  | StatusSuspended => negb (account_active a)
  | StatusAny => true
  end.
Definition effectiveAccountID (t : Tenant) : string :=
  if negb (bool_decide (TrimSpace (tenant_accountID t) = "")) then TrimSpace (tenant_accountID t)
  else SelfAccountID (tenant_id t).

(** * The state of the console *)
Record invoiceBatchEntry := { ib_invoices : list Invoice; ib_at : Time }.
Record Desk := {
  dk_books : Books;
  dk_accounts : gmap string Account;
  dk_batches : gmap string invoiceBatchEntry
}.
Definition with_books (d : Desk) (b : Books) : Desk :=
  {| dk_books := b; dk_accounts := dk_accounts d; dk_batches := dk_batches d |}.
Definition with_batches (d : Desk) (m : gmap string invoiceBatchEntry) : Desk :=
  {| dk_books := dk_books d; dk_accounts := dk_accounts d; dk_batches := m |}.
Definition desk_db (d : Desk) : snapshot := bk_db (dk_books d).

Notation desk_op A := (M Desk error A).

Definition SaveAccount (a : Account) : desk_op unit := fun d =>
  ({| dk_books := dk_books d; dk_accounts := <[account_id a := a]> (dk_accounts d);
      dk_batches := dk_batches d |}, Ok tt).
Definition FindAccountByID (id : string) (d : Desk) : res Account := found (dk_accounts d !! id).
Definition on_db {A} (op : M snapshot error A) : desk_op A := fun d =>
  let '(s, r) := op (desk_db d) in
  (with_books d {| bk_db := s; bk_invoices := bk_invoices (dk_books d) |}, r).

Section console.
Context `{MapIteration}.
(** Whether the account store is wired. *)
Context (accounts_wired : bool).

(** * Listings

    [lower_text]: strings.ToLower on any text; GoStrings only has its ASCII results. *)
Context (lower_text : string -> string).
Definition name_matches (needle name : string) : bool :=
  bool_decide (needle = "") || Contains (lower_text name) needle.
Definition store_ListTenants (s : snapshot) : list Tenant :=
  SliceStable (map snd (iterate (st_tenants s))) (newest tenant_createdAt tenant_id).
Definition store_ListAccounts (d : Desk) : list Account :=
  SliceStable (map snd (iterate (dk_accounts d))) (newest account_createdAt account_id).

Record ListTenantsQuery := { ltq_Search : string; ltq_Status : StatusFilter }.
Definition ListTenants (q : ListTenantsQuery) (s : snapshot) : list Tenant :=
  let needle := lower_text (TrimSpace (ltq_Search q)) in
  SliceStable (List.filter (fun t => matchesStatus t (ltq_Status q) && name_matches needle (tenant_name t))
                 (store_ListTenants s)) (newest tenant_createdAt tenant_id).
Definition GetTenant (id : string) (s : snapshot) : res Tenant :=
  map_err (Wrap "find tenant") (snd (findTenantByID (TrimSpace id) s)).

Definition tenantCountsByAccount (s : snapshot) : gmap string Z :=
  foldl (fun counts t => <[effectiveAccountID t :=
                            default 0 (counts !! effectiveAccountID t) + 1]> counts)
        ∅ (store_ListTenants s).

Record AccountListItem := { ali_Account : Account; ali_TenantCount : Z }.
Record ListAccountsQuery := {
  laq_Search : string; laq_Status : StatusFilter; laq_IncludeSelf : bool
}.
Definition ListAccounts (q : ListAccountsQuery) (d : Desk) : res (list AccountListItem) :=
  refuse (negb accounts_wired) with ErrAccountsUnavailable ;;
  let counts := tenantCountsByAccount (desk_db d) in
  let needle := lower_text (TrimSpace (laq_Search q)) in
  let keep a := (laq_IncludeSelf q || negb (IsSelfAccountID (account_id a)))
                && matchesAccountStatus a (laq_Status q) && name_matches needle (account_name a) in
  Ok (SliceStable
        (map (fun a => {| ali_Account := a; ali_TenantCount := default 0 (counts !! account_id a) |})
             (List.filter keep (store_ListAccounts d)))
        (newest (fun i => account_createdAt (ali_Account i)) (fun i => account_id (ali_Account i)))).

Definition GetAccount (id : string) (d : Desk) : res Account :=
  refuse (negb accounts_wired) with ErrAccountsUnavailable ;;
  map_err (Wrap "find account") (FindAccountByID (TrimSpace id) d).

Definition ListTenantsByAccount (acctID : string) (s : snapshot) : res (list Tenant) :=
  let acctID := TrimSpace acctID in
  refuse (bool_decide (acctID = ""))
    with (NewValidationError "account_id" "account id is required") ;;
  Ok (List.filter (fun t => bool_decide (effectiveAccountID t = acctID)) (store_ListTenants s)).

(** * Writes *)
Record DeskEnv := { de_id : string; de_now : Time; de_operator : string; de_append : option error }.

Definition CreateAccount (env : DeskEnv) (name : string) : desk_op Account :=
  abort (negb accounts_wired) with ErrAccountsUnavailable ;;
  do a <- liftM (account_New (de_id env) name (de_now env)) ;;
  do _ <- SaveAccount a ;;
  retM a.

Definition accountTransition (env : DeskEnv) (id : string) (action : Action)
    (apply_ : Account -> res Account) : desk_op Account :=
  abort (negb accounts_wired) with ErrAccountsUnavailable ;;
  do a <- readM (fun d => map_err (Wrap "find account") (FindAccountByID (TrimSpace id) d)) ;;
  do a <- liftM (apply_ a) ;;
  do _ <- SaveAccount a ;;
  do e <- liftM (map_err (Wrap "build audit entry")
                   (NewAccountActionEntry (de_id env) (de_operator env) action (account_id a)
                      (de_now env))) ;;
  abort (match de_append env with Some _ => true | None => false end)
    with (Wrap "append audit entry" (default ErrUnavailable (de_append env))) ;;
  do _ <- on_db (appendAudit e) ;;
  retM a.
Definition RenameAccount (env : DeskEnv) (id name : string) : desk_op Account :=
  accountTransition env id ActionRenameAccount (fun a => account_Rename a name).
Definition DeactivateAccount (env : DeskEnv) (id : string) : desk_op Account :=
  accountTransition env id ActionSuspendAccount (fun a => Ok (account_Deactivate a)).
Definition ActivateAccount (env : DeskEnv) (id : string) : desk_op Account :=
  accountTransition env id ActionActivateAccount (fun a => Ok (account_Activate a)).

Definition CreateTenantUnderAccount (env : DeskEnv) (acctID name : string) : desk_op Tenant :=
  abort (negb accounts_wired) with ErrAccountsUnavailable ;;
  let acctID := TrimSpace acctID in
  do _ <- readM (fun d => map_err (Wrap "resolve account") (FindAccountByID acctID d)) ;;
  do t <- liftM (tenant_New (de_id env) name (de_now env)) ;;
  do t <- liftM (tenant_AssignAccount t acctID) ;;
  do _ <- on_db (saveTenant t) ;;
  retM t.

(** * An account's invoices *)
Definition ListInvoicesByAccount (invoices_wired : bool) (acctID : string) (d : Desk)
    : res (list Invoice) :=
  refuse (negb invoices_wired) with ErrInvoicesUnavailable ;;
  refuse (negb accounts_wired) with ErrAccountsUnavailable ;;
  let acctID := TrimSpace acctID in
  let? _ := map_err (Wrap "resolve account") (FindAccountByID acctID d) in
  let? tenants := ListTenantsByAccount acctID (desk_db d) in
  Ok (SliceStable (List.concat (map (fun t => store_ListInvoices (tenant_id t) (dk_books d)) tenants))
        (newest inv_generatedAt inv_id)).

(** The loop over the account's tenants; [envs n] is the environment of the [n]-th invoice. *)
Fixpoint bill_tenants (envs : nat -> BooksEnv) (n : nat) (rng : ConsumptionRange)
    (tenants : list Tenant) : M Books error (list Invoice) :=
  match tenants with
  | [] => retM []
  | t :: rest =>
      do rep <- readM (fun b => ConsumptionInRange (tenant_id t) rng (bk_db b)) ;;
      if rep_TotalCalls rep =? 0 then bill_tenants envs n rng rest
      else
        do inv <- GenerateInvoice (envs n) true (tenant_id t) rng ;;
        do out <- bill_tenants envs (S n) rng rest ;;
        retM (inv :: out)
  end.

Definition generateAccountInvoices (envs : nat -> BooksEnv) (invoices_wired : bool)
    (acctID : string) (rng : ConsumptionRange) : desk_op (list Invoice) :=
  abort (negb invoices_wired) with ErrInvoicesUnavailable ;;
  abort (negb accounts_wired) with ErrAccountsUnavailable ;;
  abort (IsZero (rng_Start rng) || IsZero (rng_End rng))
    with (NewValidationError "period" "invoice period start and end are required") ;;
  abort (negb (Before (rng_Start rng) (rng_End rng)))
    with (NewValidationError "period" "invoice period start must be before end") ;;
  let acctID := TrimSpace acctID in
  do _ <- readM (fun d => map_err (Wrap "resolve account") (FindAccountByID acctID d)) ;;
  do tenants <- readM (fun d => ListTenantsByAccount acctID (desk_db d)) ;;
  fun d => let '(b, r) := bill_tenants envs 0 rng tenants (dk_books d) in (with_books d b, r).

Definition invoiceBatchIdempotencyTTL : Z := minutes_ns 15.
Definition pruneBatches : Time -> gmap string invoiceBatchEntry -> gmap string invoiceBatchEntry :=
  prune ib_at invoiceBatchIdempotencyTTL.

(** [now]: the guard's one reading of the clock. *)
Definition GenerateAccountInvoices (envs : nat -> BooksEnv) (invoices_wired : bool) (now : Time)
    (acctID : string) (rng : ConsumptionRange) (idempotencyKey : string)
    : desk_op (list Invoice) :=
  let key := TrimSpace idempotencyKey in
  if bool_decide (key = "") then generateAccountInvoices envs invoices_wired acctID rng
  else fun d =>
    let gkey := guard_key (TrimSpace acctID) key in
    let d := with_batches d (pruneBatches now (dk_batches d)) in
    match dk_batches d !! gkey with
    | Some e => (d, Ok (ib_invoices e))
    | None =>
        match generateAccountInvoices envs invoices_wired acctID rng d with
        | (d, Err e) => (d, Err e)
        | (d, Ok invs) =>
            (with_batches d (<[gkey := {| ib_invoices := invs; ib_at := now |}]> (dk_batches d)),
             Ok invs)
        end
    end.
End console.

(** * What a batch bills *)
Section batches.
Context `{MapIteration}.

(** The tenants with a call in the window, and the invoice of one of them. *)
Definition billable (rng : ConsumptionRange) (s : snapshot) (t : Tenant) : bool :=
  negb (bool_decide (entries (TrimSpace (tenant_id t)) rng s = [])).
Definition bills (rng : ConsumptionRange) (s : snapshot) (t : Tenant) (inv : Invoice) : Prop :=
  let l := entries (TrimSpace (tenant_id t)) rng s in
  inv_tenantID inv = TrimSpace (tenant_id t) /\ inv_periodStart inv = rng_Start rng /\
  inv_periodEnd inv = rng_End rng /\ inv_lines inv = map bill_line (tally l) /\
  inv_totalCalls inv = calls_of l /\ inv_totalCents inv = cents_of l.

(** A ledger whose entries are well formed and fit an int. *)
Definition Ledger_ok (s : snapshot) : Prop :=
  Forall LedgerEntry_ok (st_ledger s) /\ Z.of_nat (List.length (st_ledger s)) <= maxInt64.

Lemma length_kept {A} (f : A -> bool) l : (List.length (List.filter f l) <= List.length l)%nat.
Proof. induction l as [|x l IH]; [done|]. cbn. destruct (f x); cbn; lia. Qed.

Lemma no_calls t rng s : Ledger_ok s ->
  (calls_of (entries t rng s) =? 0) = bool_decide (entries t rng s = []).
Proof.
  intros [_ Hlen]. unfold calls_of.
  assert (Hle : (List.length (entries t rng s) <= List.length (st_ledger s))%nat)
    by (etrans; apply length_kept).
  rewrite wrap64_id by (unfold in64, minInt64; lia).
  destruct (entries t rng s); [done|]. rewrite bool_decide_false by done. apply Z.eqb_neq. cbn. lia.
Qed.

Lemma generate_db env t rng b b' inv : GenerateInvoice env true t rng b = (b', Ok inv) ->
  st_ledger (bk_db b') = st_ledger (bk_db b) /\ st_tenants (bk_db b') = st_tenants (bk_db b).
Proof. intros (_ & _ & e & _ & ->)%generate_Ok. done. Qed.

Lemma bill_tenants_Ok envs rng ts : forall n b b' invs, Ledger_ok (bk_db b) ->
  bill_tenants envs n rng ts b = (b', Ok invs) ->
  bk_invoices b' = (bk_invoices b ++ invs)%list /\
  Forall2 (bills rng (bk_db b)) (List.filter (billable rng (bk_db b)) ts) invs.
Proof.
  induction ts as [|t ts IH]; intros n b b' invs Hok; cbn [bill_tenants].
  { intros [= <- <-]. by rewrite app_nil_r. }
  unfold bindM at 1, readM at 1. rewrite report_run.
  destruct (st_tenants (bk_db b) !! TrimSpace (tenant_id t)); [|done].
  cbn [report rep_TotalCalls]. rewrite no_calls by done. cbn [List.filter]. unfold billable at 1.
  case_bool_decide as En; cbn [negb]; [by apply IH|]. unfold bindM.
  destruct (GenerateInvoice (envs n) true (tenant_id t) rng b) as [b1 [inv|]] eqn:Eg; [|done].
  destruct (bill_tenants envs (S n) rng ts b1) as [b2 [out|]] eqn:Eb; [|done].
  intros [= <- <-]. destruct (generate_db _ _ _ _ _ _ Eg) as [El Et].
  apply generate_Ok in Eg as (Ed & Ei & _).
  apply draft_Ok in Ed as (? & ? & ? & ? & _ & ? & ?); [|by destruct Hok].
  apply IH in Eb as [Ei2 Hf]; [|unfold Ledger_ok in *; by rewrite El].
  split; [by rewrite Ei2, Ei, <- (assoc_L (++)%list)|].
  constructor; [by split_and!|]. revert Hf. unfold billable, bills, entries. by rewrite El.
Qed.

Lemma generate_all_Ok envs invoices acctID rng d d' invs : Ledger_ok (desk_db d) ->
  generateAccountInvoices true envs invoices acctID rng d = (d', Ok invs) ->
  exists ts, ListTenantsByAccount acctID (desk_db d) = Ok ts /\
    Forall2 (bills rng (desk_db d)) (List.filter (billable rng (desk_db d)) ts) invs /\
    bk_invoices (dk_books d') = (bk_invoices (dk_books d) ++ invs)%list /\
    dk_batches d' = dk_batches d.
Proof.
  intros Hok. unfold generateAccountInvoices, bindM, readM, throwM.
  destruct (negb invoices); [done|]. cbn [negb]. destruct (_ || _); [done|].
  destruct (negb (Before _ _)); [done|].
  destruct (map_err _ (FindAccountByID _ d)); [|done].
  assert (Ets : ListTenantsByAccount (TrimSpace acctID) (desk_db d)
                = ListTenantsByAccount acctID (desk_db d))
    by (unfold ListTenantsByAccount; by rewrite TrimSpace_idem).
  rewrite Ets. destruct (ListTenantsByAccount acctID (desk_db d)) as [ts|]; [|done].
  destruct (bill_tenants envs 0 rng ts (dk_books d)) as [b r] eqn:Eb.
  intros [= <- ->]. apply bill_tenants_Ok in Eb as [Ei Hf]; [|done]. by exists ts.
Qed.

(** A batch bills each client company of the account once: one invoice for each company of
    the account with a recorded call in the period, in the order of the listing, each the
    tally of that company's entries, and no other invoice; and a second submission of the
    same token within fifteen minutes answers with the same invoices and adds none,
    whatever it asks for. *)
Theorem batch_bills_once envs invoices now acctID rng token d d' invs
    (Hok : Ledger_ok (desk_db d)) (Htoken : TrimSpace token <> "")
    (Hnew : pruneBatches now (dk_batches d) !! guard_key (TrimSpace acctID) (TrimSpace token) = None)
    (Hgen : GenerateAccountInvoices true envs invoices now acctID rng token d = (d', Ok invs)) :
  (exists ts, ListTenantsByAccount acctID (desk_db d) = Ok ts /\
     Forall2 (bills rng (desk_db d)) (List.filter (billable rng (desk_db d)) ts) invs) /\
  bk_invoices (dk_books d') = (bk_invoices (dk_books d) ++ invs)%list /\
  forall envs2 now2 rng2, Sub now2 now <= invoiceBatchIdempotencyTTL ->
    let '(d2, r) := GenerateAccountInvoices true envs2 invoices now2 acctID rng2 token d' in
    r = Ok invs /\ dk_books d2 = dk_books d'.
Proof.
  revert Hgen. unfold GenerateAccountInvoices. rewrite !(bool_decide_false _ Htoken).
  cbn [with_batches dk_batches]. rewrite Hnew.
  destruct (generateAccountInvoices _ _ _ _ _ _) as [d1 [invs1|]] eqn:Eg; [|done].
  intros [= <- <-]. apply generate_all_Ok in Eg as (ts & Ets & Hf & Ei & Eb); [|done].
  split_and!; [by exists ts|done|]. intros envs2 now2 rng2 Hs. cbn [with_batches dk_batches].
  rewrite (prune_keeps ib_at _ now2 _ _ {| ib_invoices := invs1; ib_at := now |} Hs
             (lookup_insert_eq _ _ _) : pruneBatches now2 _ !! _ = _).
  done.
Qed.
End batches.

(** * A desk with two client companies *)
Definition desk_tenant (id : string) (created : Z) : Tenant :=
  {| tenant_id := id; tenant_name := "n"; tenant_active := true;
     tenant_createdAt := at_second created; tenant_accountID := "a1" |}.
Definition sample_desk : Desk :=
  {| dk_books := {| bk_db := with_ledger (with_tenants emptySnapshot
                      (list_to_map [("t1", desk_tenant "t1" 20); ("t2", desk_tenant "t2" 10);
                                    ("t3", desk_tenant "t3" 5)])) sample_ledger;
                    bk_invoices := [] |};
     dk_accounts := {[ "a1" := {| account_id := "a1"; account_name := "n"; account_active := true;
                                  account_createdAt := zeroTime |} ]};
     dk_batches := ∅ |}.
(** Fresh identifiers; [refused n]: the audit sink refuses the [n]-th invoice. *)
Definition batch_envs (prefix : string) (refused : nat -> bool) (n : nat) : BooksEnv :=
  {| be_invoiceID := prefix ++ FormatInt (Z.of_nat n); be_entryID := "e" ++ FormatInt (Z.of_nat n);
     be_generatedAt := at_second 400; be_auditAt := at_second 401; be_operator := "op";
     be_save := None; be_append := if refused n then Some ErrUnavailable else None |}.
Definition all_of_it : ConsumptionRange := period (at_second 100, at_second 300).

Lemma batch_bills_once_witness :
  let run envs now d := GenerateAccountInvoices true envs true (at_second now) " a1 " all_of_it "tok" d in
  let '(d1, r1) := run (batch_envs "i" (fun _ => false)) 500 sample_desk in
  exists i1 i2, r1 = Ok [i1; i2] /\ inv_tenantID i1 = "t1" /\ inv_totalCents i1 = 270 /\
    inv_tenantID i2 = "t2" /\ inv_totalCents i2 = 30 /\
    snd (run (batch_envs "j" (fun _ => false)) 1400 d1) = r1.
Proof.
  cbv beta zeta.
  destruct (GenerateAccountInvoices true (batch_envs "i" (fun _ => false)) true (at_second 500) " a1 "
              all_of_it "tok" sample_desk) as [d1 r1] eqn:E.
  assert (Hr : exists invs, r1 = Ok invs).
  { change r1 with (snd (d1, r1)). rewrite <- E. eexists. vm_compute. reflexivity. }
  destruct Hr as [invs ->].
  destruct (batch_bills_once (batch_envs "i" (fun _ => false)) true (at_second 500) " a1 " all_of_it
              "tok" sample_desk d1 invs) as ((ts & Ets & Hf) & _ & Hagain).
  { split; [by apply sample_ledger_ok; intros x Hx|vm_compute; discriminate]. }
  { discriminate. }
  { vm_compute. reflexivity. }
  { exact E. }
  assert (El : ListTenantsByAccount " a1 " (desk_db sample_desk)
               = Ok [desk_tenant "t1" 20; desk_tenant "t2" 10; desk_tenant "t3" 5])
    by (vm_compute; reflexivity).
  rewrite El in Ets. injection Ets as <-.
  assert (Eb : List.filter (billable all_of_it (desk_db sample_desk))
                 [desk_tenant "t1" 20; desk_tenant "t2" 10; desk_tenant "t3" 5]
               = [desk_tenant "t1" 20; desk_tenant "t2" 10]) by (vm_compute; reflexivity).
  rewrite Eb in Hf.
  apply Forall2_cons_inv_l in Hf as (i1 & l1 & (H1 & _ & _ & _ & _ & H2) & Hf & ->).
  apply Forall2_cons_inv_l in Hf as (i2 & l2 & (H3 & _ & _ & _ & _ & H4) & Hf & ->).
  pose proof (Forall2_nil_inv_l _ _ Hf) as ->. exists i1, i2.
  split_and!; [done|rewrite H1|rewrite H2|rewrite H3|rewrite H4|]; [vm_compute; reflexivity..|].
  assert (Hs : Sub (at_second 1400) (at_second 500) <= invoiceBatchIdempotencyTTL)
    by (vm_compute; discriminate).
  specialize (Hagain (batch_envs "j" (fun _ => false)) (at_second 1400) all_of_it Hs).
  destruct (GenerateAccountInvoices true (batch_envs "j" (fun _ => false)) true (at_second 1400) " a1 "
              all_of_it "tok" d1). by destruct Hagain.
Defined.

(** A batch is not a transaction: when it fails at a later company, the invoices of the
    earlier ones stay, the token is not remembered, and the retry bills them again. *)
Theorem failed_batch_bills_again :
  let run envs now d := GenerateAccountInvoices true envs true (at_second now) "a1" all_of_it "tok" d in
  let '(d1, r1) := run (batch_envs "i" (fun n => (n =? 1)%nat)) 500 sample_desk in
  let '(d2, r2) := run (batch_envs "j" (fun _ => false)) 510 d1 in
  is_ok r1 = false /\ is_ok r2 = true /\
  map (fun inv => (inv_tenantID inv, inv_totalCents inv)) (bk_invoices (dk_books d2)) =
    [("t1", 270); ("t2", 30); ("t1", 270); ("t2", 30)].
Proof. vm_compute. repeat split. Qed.
