(* ===== verification/SqlTimes.v ===== *)
(** What the texts of instants do to the durable reads that depend on their order: the listings
    of tenants and of the ledger, and the retention purge
    of the durable stores.  Where the texts are ordered as the instants are, as with the
    PostgreSQL layout, they are those of the in-memory store; with the SQLite layout they are
    not.  Then the PostgreSQL adapter (internal/adapters/persistence/postgres/postgres.go,
    recurrence.go, audit.go, pii_access.go): the statements of SqlStore in the dialect whose
    instants keep nine digits of fraction and whose duplicates are told by their SQLSTATE. *)
From stdpp Require Import sorting.
From S2P Require Import Prelude GoStrings GoTime GoSort GoRFC3339 Shared Payments Tenants.
From S2P Require Import Mandates AuditTrail Ports MemStore Invoices SqlStore SqlRefines.
From S2P Require Import AccountConsole.
(** A dialect whose texts are ordered as the instants are. *)
Class OrderedTexts (D : Dialect) : Prop := {
  text_less t u : utc_writable t -> utc_writable u -> string_less (text t) (text u) = Before t u
}.
#[export] Instance postgres_ordered slow sqlstate duplicate : OrderedTexts (postgres slow sqlstate duplicate).
Proof. split. exact fixed_order. Qed.

(** * Sorting by text *)
Lemma string_less_trans a b c : string_less a b = true -> string_less b c = true -> string_less a c = true.
Proof. rewrite !string_less_lt. apply compare_lt_trans. Qed.
Lemma string_less_asym a b : string_less a b = true -> string_less b a = false.
Proof.
  intros H. apply not_true_iff_false. intros H'. pose proof (string_less_trans _ _ _ H H') as E.
  by rewrite string_less_irrefl in E.
Qed.
Lemma newest_text_spec {Row} (at_ : Row -> string) x y : newest_text at_ x y = true <->
  string_less (at_ y.2) (at_ x.2) = true \/ (at_ x.2 = at_ y.2 /\ string_less y.1 x.1 = true).
Proof.
  unfold newest_text. case_bool_decide as E; [rewrite E, string_less_irrefl; naive_solver|naive_solver].
Qed.
Lemma newest_text_asym {Row} (at_ : Row -> string) x y : newest_text at_ x y = true -> newest_text at_ y x = false.
Proof.
  intros Hxy. apply not_true_iff_false. rewrite newest_text_spec in *. intros Hyx.
  destruct Hxy as [H1|[E1 H1]], Hyx as [H2|[E2 H2]].
  - by rewrite (string_less_asym _ _ H1) in H2.
  - by rewrite E2, string_less_irrefl in H1.
  - by rewrite E1, string_less_irrefl in H2.
  - by rewrite (string_less_asym _ _ H1) in H2.
Qed.
Lemma newest_text_trans {Row} (at_ : Row -> string) x y z :
  newest_text at_ x y = true -> newest_text at_ y z = true -> newest_text at_ x z = true.
Proof.
  rewrite !newest_text_spec. intros [H1|[E1 H1]] [H2|[E2 H2]].
  - left. by eapply string_less_trans.
  - left. by rewrite <- E2.
  - left. by rewrite E1.
  - right. split; [congruence|by eapply string_less_trans].
Qed.
Lemma newest_text_tie {Row} (at_ : Row -> string) x y :
  newest_text at_ x y = false -> newest_text at_ y x = false -> at_ x.2 = at_ y.2 /\ x.1 = y.1.
Proof.
  rewrite <- !not_true_iff_false, !newest_text_spec. intros H1 H2.
  assert (E : at_ x.2 = at_ y.2).
  { apply string_less_total; apply not_true_iff_false; intros H; [apply H2|apply H1]; by left. }
  split; [done|]. apply string_less_total; apply not_true_iff_false; intros H; [apply H2|apply H1]; by right.
Qed.
#[export] Instance newest_text_order {Row} (at_ : Row -> string) : WeakOrder (newest_text at_).
Proof.
  split; [apply newest_text_asym|]. intros x y z Hxy Hyz. unfold not_after in *.
  apply not_true_iff_false. intros Hzx. destruct (newest_text at_ x y) eqn:E.
  - by rewrite (newest_text_trans _ _ _ _ Hzx E) in Hyz.
  - destruct (newest_text_tie at_ x y E Hxy) as [Ea Ei]. rewrite <- not_true_iff_false, newest_text_spec in Hyz.
    apply Hyz. apply newest_text_spec in Hzx. by rewrite <- Ea, <- Ei.
Qed.

(** Sorting commutes with a map that keeps the order. *)
Lemma insert_stable_map {A B} (f : A -> B) lessA lessB x l :
  (forall y, y ∈ l -> lessB (f y) (f x) = lessA y x) ->
  insert_stable lessB (f x) (map f l) = map f (insert_stable lessA x l).
Proof.
  induction l as [|y l IH]; intros Hl; [done|]. cbn [insert_stable map]. rewrite Hl by left.
  destruct (lessA y x); [|done]. cbn [map]. f_equal. apply IH. intros z Hz. apply Hl. by right.
Qed.
Lemma SliceStable_map {A B} (f : A -> B) lessA lessB l :
  (forall x y, x ∈ l -> y ∈ l -> lessB (f x) (f y) = lessA x y) ->
  SliceStable (map f l) lessB = map f (SliceStable l lessA).
Proof.
  induction l as [|x l IH]; intros Hl; [done|]. cbn [SliceStable foldr map]. change (foldr (insert_stable ?g) [] ?m) with (SliceStable m g).
  rewrite IH by (intros; apply Hl; by right). apply insert_stable_map. intros y Hy.
  apply Hl; [|by left]. right. by rewrite SliceStable_perm in Hy.
Qed.

Section reads.
Context `{MapIteration} {D : Dialect} {L : DialectLaws D} {O : OrderedTexts D}.

Lemma text_inj t u : utc_writable t -> utc_writable u -> text t = text u -> t = u.
Proof. intros Ht Hu E. by rewrite <- (parse_utc t), <- (parse_utc u), E. Qed.

(** The rows that stand for a list of entities, whatever order the engine keeps them in. *)
Lemma rows_of {E Row} (id : E -> string) (row : E -> Row) t l : logged id row t l ->
  iterate t ≡ₚ map (fun e => (id e, row e)) l.
Proof.
  intros (H1 & H2 & Hnd). rewrite iterate_perm. apply NoDup_Permutation.
  - apply NoDup_map_to_list.
  - apply (NoDup_fmap_1 fst). unfold fmap. change (list_fmap ?A ?B ?f ?l) with (map f l). by rewrite map_map.
  - intros [i r]. rewrite elem_of_map_to_list. split.
    + intros Hr. apply H2 in Hr as (e & He & <- & ->). by apply (list_elem_of_fmap_2 (fun e => (id e, row e))).
    + intros (e & [= -> ->] & He)%list_elem_of_fmap. by apply H1.
Qed.
Lemma filter_map {A B} (f : A -> B) g h (l : list A) : (forall x, x ∈ l -> g (f x) = h x) ->
  List.filter g (map f l) = map f (List.filter h l).
Proof.
  induction l as [|x l IH]; intros Hl; [done|]. cbn [map List.filter]. rewrite Hl by left.
  rewrite IH by (intros; apply Hl; by right). by destruct (h x).
Qed.
Lemma collect_scans {E Row} (id : E -> string) (row : E -> Row) scan (l : list E) :
  (forall e, e ∈ l -> scan (id e, row e) = Ok e) -> collect (map scan (map (fun e => (id e, row e)) l)) = Ok l.
Proof.
  induction l as [|e l IH]; intros Hl; [done|]. cbn [map collect]. rewrite Hl by left.
  rewrite IH by (intros; apply Hl; by right). done.
Qed.
Lemma filter_member {A} (h : A -> bool) l x : x ∈ List.filter h l -> x ∈ l.
Proof. rewrite !list_elem_of_In, filter_In. tauto. Qed.
Lemma newest_as_text {E Row} (id : E -> string) (row : E -> Row) (at_ : Row -> string) (time : E -> Time) x y :
  utc_writable (time x) -> at_ (row x) = text (time x) ->
  utc_writable (time y) -> at_ (row y) = text (time y) ->
  newest_text at_ (id x, row x) (id y, row y) = newest time id x y.
Proof.
  intros Hx Ex Hy Ey. unfold newest_text, newest. cbn [fst snd]. rewrite Ex, Ey.
  assert (Et : bool_decide (text (time x) = text (time y)) = Equal (time x) (time y)).
  { unfold Equal. destruct (Z.eqb_spec (ns (time x)) (ns (time y))) as [En|Hne].
    - apply bool_decide_true. f_equal. destruct Hx as [Lx _], Hy as [Ly _], (time x), (time y). cbn in *. congruence.
    - apply bool_decide_false. intros Et. by apply Hne; rewrite (text_inj _ _ Hx Hy Et). }
  rewrite Et, text_less by done. reflexivity.
Qed.

(** The rows of a table, sorted, are the entities they stand for, sorted. *)
Lemma sorted_rows {E Row} (id : E -> string) (row : E -> Row) (test : string -> Row -> bool) (keep : E -> bool)
    lessR lessE t l `{!WeakOrder lessR} :
  logged id row t l ->
  (forall e, e ∈ l -> test (id e) (row e) = keep e) ->
  (forall x y, x ∈ l -> y ∈ l -> lessR (id x, row x) (id y, row y) = lessE x y) ->
  (forall x y, lessR x y = false -> lessR y x = false -> x.1 = y.1) ->
  SliceStable (where_ test t) lessR = map (fun e => (id e, row e)) (SliceStable (List.filter keep l) lessE).
Proof.
  intros Hlog Ht Hless Htie.
  rewrite <- (SliceStable_map (fun e => (id e, row e)) lessE lessR) by (intros x y Hx%filter_member Hy%filter_member; auto).
  apply (sorted_unique lessR); [apply SliceStable_sorted, _..| |].
  - rewrite !SliceStable_perm. unfold where_. rewrite (filter_perm _ _ _ (rows_of _ _ _ _ Hlog)).
    by rewrite (filter_map _ _ keep).
  - intros [i r] [j p] Hx Hy Hxy Hyx. rewrite SliceStable_perm in Hx, Hy.
    pose proof (Htie _ _ Hyx Hxy) as Eij. cbn in Eij. subst j. f_equal.
    unfold where_ in Hx, Hy. apply filter_member in Hx, Hy. rewrite iterate_perm in Hx, Hy.
    apply elem_of_map_to_list in Hx, Hy. congruence.
Qed.
(** A listing of the rows that stand for a list of entities is the listing of the entities. *)
Lemma listing {E Row} (id : E -> string) (row : E -> Row) (at_ : Row -> string) (time : E -> Time)
    (scan : string * Row -> res E) (test : string -> Row -> bool) (keep : E -> bool) t l :
  logged id row t l ->
  (forall e, e ∈ l -> utc_writable (time e) /\ at_ (row e) = text (time e) /\
                      scan (id e, row e) = Ok e /\ test (id e) (row e) = keep e) ->
  collect (map scan (SliceStable (where_ test t) (newest_text at_)))
    = Ok (SliceStable (List.filter keep l) (newest time id)).
Proof.
  intros Hlog Hl. rewrite (sorted_rows id row test keep (newest_text at_) (newest time id) t l); [|done|..].
  - apply collect_scans. intros e He. rewrite SliceStable_perm in He. apply filter_member in He.
    by destruct (Hl e He) as (_ & _ & ? & _).
  - intros e He. by destruct (Hl e He) as (_ & _ & _ & ?).
  - intros x y Hx Hy. destruct (Hl x Hx) as (? & ? & _), (Hl y Hy) as (? & ? & _). by apply newest_as_text.
  - intros x y H1 H2. by destruct (newest_text_tie at_ _ _ H1 H2).
Qed.

(** ** The purge *)
Lemma logged_size {E Row} (id : E -> string) (row : E -> Row) t l : logged id row t l -> size t = List.length l.
Proof.
  intros Hlog. rewrite <- length_map_to_list, <- iterate_perm, (rows_of _ _ _ _ Hlog). apply length_map.
Qed.
Lemma logged_filter {E Row} (id : E -> string) (row : E -> Row) t l (P : string * Row -> bool) (h : E -> bool) :
  logged id row t l -> (forall e, e ∈ l -> P (id e, row e) = h e) ->
  logged id row (filter (fun kr => P kr) t) (List.filter h l).
Proof.
  intros (H1 & H2 & H3) HP. split; [|split].
  - intros e [He Hh]%list_elem_of_In%filter_In. apply list_elem_of_In in He.
    apply map_lookup_filter_Some. split; [by apply H1|]. by rewrite HP, Hh.
  - intros i r [Hr Hp]%map_lookup_filter_Some. apply H2 in Hr as (e & He & <- & ->). exists e. split; [|done].
    apply list_elem_of_In, filter_In. rewrite <- list_elem_of_In, <- HP by done. split; [done|]. by apply Is_true_true.
  - clear HP H1 H2. induction l as [|e l IH]; [done|]. cbn [map] in H3. apply NoDup_cons in H3 as [Hn Hd].
    cbn [List.filter]. destruct (h e); [|by apply IH]. cbn [map]. constructor; [|by apply IH].
    intros (x & Ex & Hx)%list_elem_of_fmap. apply Hn. rewrite Ex. apply (list_elem_of_fmap_2 id). by eapply filter_member.
Qed.
Lemma purge_rows known db s cutoff : represents known db s -> utc_writable (in_UTC cutoff) ->
  (forall e, e ∈ st_piiAccess s -> utc_writable (access_at e)) ->
  let '(db', n) := sql_PurgePIIAccessBefore no_engine_fault cutoff db in
  let '(s', n') := PurgePIIAccessBefore cutoff s in
  n = n' /\ represents known db' s'.
Proof.
  intros Hr Hc Hutc. unfold sql_PurgePIIAccessBefore, wrapM, exec, no_engine_fault, PurgePIIAccessBefore. cbv zeta.
  set (removed := fun kr : string * PiiRow => string_less (pir_at kr.2) (text (in_UTC cutoff))).
  set (old := fun e => Before (access_at e) cutoff).
  assert (Hold : forall e, e ∈ st_piiAccess s -> removed (access_id e, pii_row e) = old e).
  { intros e He. unfold removed. cbn [snd pii_row pir_at]. by rewrite text_less by auto. }
  pose proof (logged_filter _ _ _ _ removed old (rp_pii _ _ _ Hr) Hold) as Hgone.
  pose proof (logged_filter _ _ _ _ (fun kr => negb (removed kr)) (fun e => negb (old e)) (rp_pii _ _ _ Hr)) as Hkept.
  split; [cbn [map_err]; do 2 f_equal; exact (logged_size _ _ _ _ Hgone)|].
  destruct Hr. split; cbn; try done; [by destruct rp_store_ok|]. apply Hkept. intros e He. by rewrite Hold.
Qed.

(** ** Listings *)
Lemma tenants_logged known db s : represents known db s ->
  logged tenant_id tenant_row (tb_tenants db) (map snd (iterate (st_tenants s))).
Proof.
  intros Hr. assert (Hin : forall t, t ∈ map snd (iterate (st_tenants s)) -> st_tenants s !! tenant_id t = Some t).
  { intros t ([i u] & -> & Hiu)%list_elem_of_fmap. rewrite iterate_perm in Hiu. apply elem_of_map_to_list in Hiu.
    cbn [snd]. by destruct (rp_tenant_ok _ _ _ Hr _ _ Hiu) as [-> _]. }
  split; [|split].
  - intros t Ht. rewrite (rp_tenants _ _ _ Hr). by rewrite (Hin t Ht).
  - intros i r. rewrite (rp_tenants _ _ _ Hr). destruct (st_tenants s !! i) as [t|] eqn:Et; [|done]. intros [= <-].
    exists t. destruct (rp_tenant_ok _ _ _ Hr _ _ Et) as [<- _]. split; [|done].
    apply list_elem_of_fmap. exists (tenant_id t, t). split; [done|]. rewrite iterate_perm. by apply elem_of_map_to_list.
  - rewrite map_map. rewrite (map_ext_in _ fst); [|intros [i t] Hit; cbn].
    + rewrite iterate_perm. apply NoDup_fst_map_to_list.
    + rewrite <- list_elem_of_In, iterate_perm in Hit. apply elem_of_map_to_list in Hit.
      by destruct (rp_tenant_ok _ _ _ Hr _ _ Hit).
Qed.
Lemma tenants_listing known db s : represents known db s ->
  sql_ListTenants no_engine_fault db = (db, Ok (store_ListTenants s)).
Proof.
  intros Hr. unfold sql_ListTenants, query_rows, wrapM, bindM, exec, no_engine_fault, liftM. cbn [map_err].
  rewrite (listing tenant_id tenant_row tnr_created_at tenant_createdAt _ _ (fun _ => true) _ _ (tenants_logged _ _ _ Hr)).
  - by rewrite filter_id.
  - intros t ([i u] & -> & Hiu)%list_elem_of_fmap. rewrite iterate_perm in Hiu. apply elem_of_map_to_list in Hiu.
    destruct (rp_tenant_ok _ _ _ Hr _ _ Hiu) as [_ Hst]. pose proof Hst as [Hu _]. cbn [snd fst].
    split; [done|]. split; [done|]. split; [|done]. by rewrite scan_tenant_row.
Qed.
End reads.

Definition storable_ledger (e : LedgerEntry) : Prop :=
  utc_writable (ledger_at e) /\
  NewLedgerEntry (ledger_id e) (ledger_tenantID e) (ledger_endpoint e) (ledger_reference e) (ledger_priceCents e)
    (ledger_at e) [WithAccount (ledger_accountID e)] = Ok e.

(** The reads that depend on the order of instants are those of the in-memory store. *)
Lemma reads_in_time `{MapIteration} {D : Dialect} {L : DialectLaws D} {O : OrderedTexts D}
    known db s cutoff
    (Hrep : represents known db s) (Hledger : forall e, e ∈ st_ledger s -> storable_ledger e)
    (Hpii : forall e, e ∈ st_piiAccess s -> utc_writable (access_at e)) (Hcut : utc_writable (in_UTC cutoff)) :
  (forall t, sql_ListLedgerEntries no_engine_fault t db = (db, Ok (ListLedgerEntries t s))) /\
  (forall a, a <> "" ->
     sql_ListLedgerEntriesByAccount no_engine_fault a db = (db, Ok (ListLedgerEntriesByAccount a s))) /\
  sql_ListTenants no_engine_fault db = (db, Ok (store_ListTenants s)) /\
  let '(db', n) := sql_PurgePIIAccessBefore no_engine_fault cutoff db in
  let '(s', n') := PurgePIIAccessBefore cutoff s in
  n = n' /\ represents known db' s'.
Proof.
  assert (Hscan : forall test keep, (forall e, e ∈ st_ledger s -> test (ledger_row e) = keep e) ->
            scanLedger no_engine_fault test db = (db, Ok (filterLedger keep s))).
  { intros test keep Hk. unfold scanLedger, query_rows, wrapM, bindM, exec, no_engine_fault, liftM. cbn [map_err].
    f_equal. apply (listing ledger_id ledger_row lgr_at ledger_at _ (fun _ => test)); [apply Hrep|].
    intros e He. destruct (Hledger e He) as [Hu Hn]. split; [done|]. split; [done|]. split; [|by apply Hk].
    unfold scan_ledger. cbn. by rewrite NullString_nullIfEmpty, parse_utc, Hn. }
  split; [|split; [|split]].
  - intros t. apply Hscan. done.
  - intros a Ha. apply Hscan. intros e He. cbn. apply bool_decide_ext. unfold nullIfEmpty.
    case_bool_decide as E; split; congruence.
  - by eapply tenants_listing.
  - by apply purge_rows.
Qed.

(** Two reads of personal data, one second before the cutoff and half a second after it. *)
Definition access_entry_at (id : string) (t : Time) : AccessEntry :=
  {| access_id := id; access_at := t; access_durationMs := 0; access_tenantID := "t1";
     access_clientID := ""; access_operatorID := ""; access_subjectRef := "s"; access_object := "rec:1";
     access_action := ActionReadRec |}.
Definition old_entry : AccessEntry := access_entry_at "a0" (Add sample_time (- nsec)).
Definition young_entry : AccessEntry := access_entry_at "a1" (Add sample_time (nsec / 2)).
Definition two_reads : program unit :=
  Then (CRecordPIIAccess old_entry) (fun _ => Then (CRecordPIIAccess young_entry) Done).
(** * The SQLite layout

    A register entry half a second younger than the cutoff is purged, and of two tenants created
    in the same second the older may be listed first. *)
Example purge_removes_younger :
  Before sample_time (access_at young_entry) = true /\
  let db := (sql_RecordPIIAccess (H := liteDialect) no_engine_fault young_entry emptyTables).1 in
  (sql_PurgePIIAccessBefore (H := liteDialect) no_engine_fault sample_time db).2 = Ok 1.
Proof. split; vm_compute; reflexivity. Qed.
Example older_listed_first :
  let older := tenant_RehydrateWithAccount "t1" "Loja" true sample_time "" in
  let newer := tenant_RehydrateWithAccount "t2" "Loja" true (Add sample_time (nsec / 2)) "" in
  let save t db := (sql_SaveTenant (H := liteDialect) no_engine_fault t db).1 in
  (sql_ListTenants (H := liteDialect) no_engine_fault (save newer (save older emptyTables))).2 = Ok [older; newer].
Proof. vm_compute. reflexivity. Qed.

(** * The PostgreSQL adapter *)
Section postgres.
(** The driver: time.Parse on other texts, the SQLSTATE of an error, the error of a duplicate. *)
Context (slow : string -> option Time) (sqlstate : error -> option string) (duplicate : error).
Context (fault : string -> tables -> option error) (clock : tables -> string).
Context `{MapIteration}.
#[local] Instance pg : Dialect := postgres slow sqlstate duplicate.
Definition pg_SaveTenant := sql_SaveTenant fault.
Definition pg_FindTenantByID := sql_FindTenantByID fault.
Definition pg_ListTenants := sql_ListTenants fault.
Definition pg_SaveAccount := sql_SaveAccount fault.
Definition pg_FindAccountByID := sql_FindAccountByID fault.
Definition pg_ListAccounts := sql_ListAccounts fault.
Definition pg_SavePayment := sql_SavePayment fault.
Definition pg_FindPaymentByID := sql_FindPaymentByID fault.
Definition pg_FindPaymentByIdempotencyKey := sql_FindPaymentByIdempotencyKey fault.
Definition pg_FindPaymentByTxID := sql_FindPaymentByTxID fault.
Definition pg_GetEndpointPrice := sql_GetEndpointPrice fault.
Definition pg_UpsertEndpointPrice := sql_UpsertEndpointPrice fault.
Definition pg_ListEndpointPrices := sql_ListEndpointPrices fault.
Definition pg_AppendLedgerEntry := sql_AppendLedgerEntry fault.
Definition pg_ListLedgerEntries := sql_ListLedgerEntries fault.
Definition pg_ListLedgerEntriesByAccount := sql_ListLedgerEntriesByAccount fault.
Definition pg_MarkProcessed := sql_MarkProcessed fault clock.
Definition pg_SaveRec := sql_SaveRec fault.
Definition pg_FindRecByID := sql_FindRecByID fault.
Definition pg_SaveCobR := sql_SaveCobR fault.
Definition pg_FindCobRByTxID := sql_FindCobRByTxID fault.
Definition pg_ListCobRByRec := sql_ListCobRByRec fault.
Definition pg_Append := sql_Append fault.
Definition pg_RecordPIIAccess := sql_RecordPIIAccess fault.
Definition pg_PurgePIIAccessBefore := sql_PurgePIIAccessBefore fault.
Definition pg_SaveInvoice := sql_SaveInvoice fault.
Definition pg_FindInvoiceByID := sql_FindInvoiceByID fault.
Definition pg_ListInvoices := sql_ListInvoices fault.

#[export] Instance pgRepo : Repository tables := {
  SavePayment := pg_SavePayment;
  FindPaymentByID := pg_FindPaymentByID;
  FindPaymentByIdempotencyKey := pg_FindPaymentByIdempotencyKey;
  FindPaymentByTxID := pg_FindPaymentByTxID;
  SaveTenant := pg_SaveTenant;
  FindTenantByID := pg_FindTenantByID;
  GetEndpointPrice := pg_GetEndpointPrice;
  UpsertEndpointPrice := pg_UpsertEndpointPrice;
  AppendLedgerEntry := pg_AppendLedgerEntry;
  MarkProcessed := pg_MarkProcessed;
  SaveRec := pg_SaveRec;
  FindRecByID := pg_FindRecByID;
  SaveCobR := pg_SaveCobR;
  FindCobRByTxID := pg_FindCobRByTxID;
  Append := pg_Append;
  RecordPIIAccess := pg_RecordPIIAccess
}.
End postgres.

(** Over PostgreSQL the reads that depend on the order of instants are those of the in-memory
    store.  Whatever transactions ran on a sound engine since the tables were empty, the ledger
    of a tenant or of an account and the tenants are listed newest first, as the in-memory store
    lists them, and the retention purge removes the entries older than the cutoff and no other. *)
Theorem postgres_follows_time `{MapRange} `{MapIteration} slow sqlstate duplicate clock known {A} (p : program A) cutoff
    (Hd : sqlstate duplicate = Some pgErrUniqueViolation) (Hknown : forall a, known a = false)
    (Hok : run_ok known p emptySnapshot) :
  let fault := no_engine_fault in
  let db := (run (H := pgRepo slow sqlstate duplicate fault clock) p emptyTables).1 in
  let s := (run (H := txView) p emptySnapshot).1 in
  (forall e, e ∈ st_ledger s -> storable_ledger e) ->
  (forall e, e ∈ st_piiAccess s -> utc_writable (access_at e)) -> utc_writable (in_UTC cutoff) ->
  (forall t, pg_ListLedgerEntries slow sqlstate duplicate fault t db = (db, Ok (ListLedgerEntries t s))) /\
  (forall a, a <> "" ->
     pg_ListLedgerEntriesByAccount slow sqlstate duplicate fault a db = (db, Ok (ListLedgerEntriesByAccount a s))) /\
  pg_ListTenants slow sqlstate duplicate fault db = (db, Ok (store_ListTenants s)) /\
  (pg_PurgePIIAccessBefore slow sqlstate duplicate fault cutoff db).2 = (PurgePIIAccessBefore cutoff s).2.
Proof.
  cbv zeta. intros Hl Hp Hc. pose proof (postgres_laws slow sqlstate duplicate Hd) as L.
  pose proof (run_simulates (D := pg slow sqlstate duplicate) no_engine_fault clock (fun _ _ => eq_refl) known p
    emptyTables emptySnapshot (empty_represents known Hknown) Hok) as Hs.
  change (pgRepo slow sqlstate duplicate no_engine_fault clock)
    with (repo (H := pg slow sqlstate duplicate) no_engine_fault clock).
  destruct (run p emptyTables) as [db r], (run p emptySnapshot) as [s r']. destruct Hs as [_ Hrep]. cbn [fst] in *.
  destruct (reads_in_time (D := pg slow sqlstate duplicate) known db s cutoff Hrep Hl Hp Hc) as (H1 & H2 & H3 & H4).
  split; [exact H1|]. split; [exact H2|]. split; [exact H3|]. unfold pg_PurgePIIAccessBefore.
  destruct (sql_PurgePIIAccessBefore _ _ db), (PurgePIIAccessBefore cutoff s). by destruct H4 as [-> _].
Qed.

Lemma postgres_follows_time_witness :
  let pg := fun A (f : forall slow sqlstate duplicate, A) =>
    f (fun _ : string => @None Time) (fun _ : error => Some pgErrUniqueViolation) (New "duplicate key") in
  let db := (run (H := pg _ (fun a b c => pgRepo a b c no_engine_fault (fun _ => ""))) two_reads emptyTables).1 in
  (pg _ (fun a b c => pg_PurgePIIAccessBefore a b c no_engine_fault sample_time db)).2 = Ok 1.
Proof.
  cbv zeta. destruct (postgres_follows_time (fun _ => None) (fun _ => Some pgErrUniqueViolation) (New "duplicate key")
    (fun _ => "") (fun _ => false) two_reads sample_time eq_refl (fun _ => eq_refl)) as (_ & _ & _ & Hp).
  - split; [|split; [|done]]; cbn; [by intros x ?%elem_of_nil|]. by intros x ->%list_elem_of_singleton.
  - by intros e ?%elem_of_nil.
  - intros e [->|[->|?%elem_of_nil]%elem_of_cons]%elem_of_cons; [..|done]; vm_compute; repeat split; discriminate.
  - vm_compute; repeat split; discriminate.
  - etrans; [exact Hp|]. vm_compute. reflexivity.
Defined.
