(* ===== verification/AccountKeys.v ===== *)
(** internal/domain/accountkey, its in-memory store
    (adapters/persistence/inmemory/accountkey.go) and the rotation use-case
    (app/account_key.go). *)
From S2P Require Import Prelude GoStrings GoTime GoCrypto Shared AuditTrail Capabilities.

(** * accountkey *)
Definition secretBytes : nat := 32.
Definition secretPrefix : string := "ak_".

Definition GenerateSecret (entropy : option bytes) : res string :=
  match entropy with
  | None => Err (New "crypto/rand")
  | Some b => Ok (secretPrefix ++ RawURLEncoding b)
  end.
Definition HasSecretShape (secret : string) : bool := HasPrefix secret secretPrefix.
Definition HashSecret (secret : string) : string := hex (sha256 (bytes_of secret)).

Record AccountKey := {
  ak_accountID : string;
  ak_hash : string;
  ak_active : bool;
  ak_createdAt : Time;
  ak_rotatedAt : Time
}.

Definition ak_New (accountID secret : string) (now : Time) : res AccountKey :=
  let accountID := TrimSpace accountID in
  refuse (bool_decide (accountID = ""))
    with (NewValidationError "account_id" "account id is required") ;;
  refuse (bool_decide (secret = ""))
    with (NewValidationError "secret" "secret is required") ;;
  Ok {| ak_accountID := accountID; ak_hash := HashSecret secret; ak_active := true;
        ak_createdAt := now; ak_rotatedAt := zeroTime |}.

Definition Mint (entropy : option bytes) (accountID : string) (now : Time)
    : res (AccountKey * string) :=
  let? secret := GenerateSecret entropy in
  let? k := ak_New accountID secret now in
  Ok (k, secret).

Definition Supersede (k : AccountKey) (now : Time) : AccountKey :=
  {| ak_accountID := ak_accountID k; ak_hash := ak_hash k; ak_active := false;
     ak_createdAt := ak_createdAt k; ak_rotatedAt := now |}.

Definition Verify (k : AccountKey) (secret : string) : bool :=
  bool_decide (HashSecret secret = ak_hash k) && ak_active k.

(** * The store *)
Record AccountKeyStore := {
  byAccount : gmap string AccountKey;
  byHash : gmap string string
}.
Definition NewAccountKeyStore : AccountKeyStore := {| byAccount := ∅; byHash := ∅ |}.

(** The superseded key is written to its entry, which the new key then replaces. *)
Definition PutKey (entropy : option bytes) (now : Time) (accountID : string)
    : M AccountKeyStore error string := fun s =>
  if bool_decide (accountID = "")
  then (s, Err (NewValidationError "account_id" "account id is required"))
  else
    match Mint entropy accountID now with
    | Err e => (s, Err e)
    | Ok (key, plaintext) =>
        let s := match byAccount s !! accountID with
                 | Some prev => {| byAccount := <[accountID := Supersede prev now]> (byAccount s);
                                   byHash := delete (ak_hash prev) (byHash s) |}
                 | None => s
                 end in
        ({| byAccount := <[accountID := key]> (byAccount s);
            byHash := <[ak_hash key := accountID]> (byHash s) |}, Ok plaintext)
    end.

Definition AuthenticateAccountKey (s : AccountKeyStore) (secret : string) : option string :=
  if bool_decide (secret = "") then None
  else
    accountID ← byHash s !! HashSecret secret;
    key ← byAccount s !! accountID;
    if Verify key secret then Some accountID else None.

(** ** The store keeps the last key of each account, and its hash only *)
Record Store_ok (s : AccountKeyStore) (m : gmap string string) : Prop := {
  store_index : indexes (byHash s) m;
  store_keys : forall a, (ak_hash <$> byAccount s !! a) = m !! a;
  store_active : forall a k, byAccount s !! a = Some k -> ak_active k = true
}.

(** A history of mints: what the generator delivered, when, for which account. *)
Record mint := { mint_entropy : option bytes; mint_now : Time; mint_account : string }.
Definition mint_step (s : AccountKeyStore) (m : mint) : AccountKeyStore :=
  fst (PutKey (mint_entropy m) (mint_now m) (mint_account m) s).
Definition run_mints (ms : list mint) : AccountKeyStore := foldl mint_step NewAccountKeyStore ms.

Definition mint_grant (m : mint) : option cap_op :=
  match mint_entropy m with
  | Some b => if blank (mint_account m) then None
              else Some (Grant (mint_account m) (HashSecret (secretPrefix ++ RawURLEncoding b)))
  | None => None
  end.
Definition mint_grants (ms : list mint) : list cap_op := omap mint_grant ms.

Lemma Mint_run e a now : 
  Mint e a now =
  match e with
  | None => Err (New "crypto/rand")
  | Some b =>
      if blank a then Err (NewValidationError "account_id" "account id is required")
      else Ok ({| ak_accountID := TrimSpace a;
                  ak_hash := HashSecret (secretPrefix ++ RawURLEncoding b);
                  ak_active := true; ak_createdAt := now; ak_rotatedAt := zeroTime |},
               secretPrefix ++ RawURLEncoding b)
  end.
Proof.
  destruct e as [b|]; [|done]. unfold Mint, ak_New, blank. cbn [GenerateSecret].
  case_bool_decide; [done|]. by rewrite bool_decide_false.
Qed.

Lemma PutKey_no_entropy now a s : fst (PutKey None now a s) = s.
Proof. unfold PutKey. by case_bool_decide. Qed.

Lemma PutKey_blank e now a s : blank a = true -> fst (PutKey e now a s) = s.
Proof.
  intros Ha. unfold PutKey. case_bool_decide; [done|]. rewrite Mint_run, Ha. by destruct e.
Qed.

Lemma blank_empty a : blank a = false -> a <> "".
Proof. by intros H ->. Qed.

(** The store after a mint that succeeds, as lookups. *)
Lemma PutKey_run b now a s : blank a = false ->
  let d := HashSecret (secretPrefix ++ RawURLEncoding b) in
  let s' := fst (PutKey (Some b) now a s) in
  snd (PutKey (Some b) now a s) = Ok (secretPrefix ++ RawURLEncoding b) /\
  (exists k, ak_hash k = d /\ ak_active k = true /\
     forall a', byAccount s' !! a' = if decide (a' = a) then Some k else byAccount s !! a') /\
  (forall d', byHash s' !! d' =
     if decide (d' = d) then Some a
     else if decide (ak_hash <$> byAccount s !! a = Some d') then None else byHash s !! d').
Proof.
  intros Ha. cbv zeta. unfold PutKey.
  rewrite bool_decide_false by (by apply blank_empty). rewrite Mint_run, Ha.
  cbn [fst snd byAccount byHash ak_hash]. split_and!; [done| |].
  - eexists. split; [|split; [|intros a'; case_decide as E]].
    3: { subst a'. by rewrite lookup_insert_eq. }
    + done.
    + done.
    + rewrite lookup_insert_ne by done. destruct (byAccount s !! a); [|done].
      cbn [byAccount]. by rewrite lookup_insert_ne.
  - intros d'. case_decide as E; [subst d'; by rewrite lookup_insert_eq|].
    rewrite lookup_insert_ne by done. destruct (byAccount s !! a) as [p|]; cbn [fmap option_fmap option_map].
    + cbn [byHash]. case_decide as Hp; [simplify_eq; by rewrite lookup_delete_eq|].
      rewrite lookup_delete_ne by congruence. done.
    + by rewrite decide_False.
Qed.

Lemma mint_ok s m b now a : Store_ok s m -> blank a = false ->
  let d := HashSecret (secretPrefix ++ RawURLEncoding b) in
  byHash s !! d = None ->
  Store_ok (fst (PutKey (Some b) now a s)) (<[a := d]> m).
Proof.
  intros [Hi Hk Hact] Ha d Hf.
  destruct (PutKey_run b now a s Ha) as (_ & (k & Ed & Ek & Hb) & Hh). split.
  - eapply indexes_grant; [exact Hi|exact Hf|]. intros d'. rewrite Hh. by rewrite Hk.
  - intros a'. rewrite Hb. case_decide as E.
    + subst a'. rewrite lookup_insert_eq. cbn. by rewrite Ed.
    + by rewrite lookup_insert_ne, <- Hk.
  - intros a' k'. rewrite Hb. case_decide; [intros; by simplify_eq|eauto].
Qed.

Lemma run_mints_ok ms : NoDup (granted (mint_grants ms)) ->
  Store_ok (run_mints ms) (held (mint_grants ms)).
Proof.
  induction ms as [|m ms IH] using rev_ind; intros Hn.
  { split; [done|done|]. cbn. intros a k. by rewrite lookup_empty. }
  unfold run_mints, mint_grants in *. rewrite foldl_app, omap_app in *. cbn [foldl] in *.
  assert (Hn' : NoDup (granted (omap mint_grant ms))).
  { unfold granted in Hn. rewrite omap_app in Hn. by apply NoDup_app in Hn as [? _]. }
  specialize (IH Hn'). destruct m as [[b|] now a]; cbn [omap list_omap mint_grant mint_entropy
    mint_account] in *; unfold mint_step; cbn [mint_entropy mint_now mint_account].
  - destruct (blank a) eqn:Ha.
    + by rewrite app_nil_r, PutKey_blank.
    + rewrite held_snoc. apply mint_ok; [done|done|].
      eapply fresh_grant; [exact Hn|exact (store_index _ _ IH)].
  - by rewrite app_nil_r, PutKey_no_entropy.
Qed.

Lemma authenticate_held ms secret a : NoDup (granted (mint_grants ms)) -> secret <> "" ->
  AuthenticateAccountKey (run_mints ms) secret = Some a <->
  held (mint_grants ms) !! a = Some (HashSecret secret).
Proof.
  intros Hn Hs.
  destruct (run_mints_ok ms Hn) as [Hi Hk Hact]. rewrite <- (Hi (HashSecret secret) a).
  unfold AuthenticateAccountKey. rewrite bool_decide_false by done.
  destruct (byHash (run_mints ms) !! HashSecret secret) as [a'|] eqn:E; cbn [mbind option_bind];
    [|by split].
  apply Hi in E. rewrite <- Hk in E.
  destruct (byAccount (run_mints ms) !! a') as [k|] eqn:Ek; [|done]. cbn [mbind option_bind].
  cbn in E. simplify_eq. unfold Verify. rewrite (Hact _ _ Ek), bool_decide_true by done. done.
Qed.

(** C39. One live key per account: after any history of mints in which no two secrets share a
    digest, a secret authenticates an account exactly when its digest is that of the last
    secret minted for it; every earlier one is dead at once. *)
Theorem account_key_exact ms secret a (Hn : NoDup (granted (mint_grants ms)))
    (Hs : secret <> "") :
  AuthenticateAccountKey (run_mints ms) secret = Some a <->
  held (mint_grants ms) !! a = Some (HashSecret secret).
Proof. by apply authenticate_held. Qed.

Definition sample_mint (c : ascii) (a : string) : mint :=
  {| mint_entropy := Some (replicate secretBytes c); mint_now := zeroTime; mint_account := a |}.
Definition sample_mints : list mint :=
  [sample_mint "a" "acc1"; sample_mint "b" "acc2"; sample_mint "c" "acc1"].
Lemma account_key_exact_witness :
  AuthenticateAccountKey (run_mints sample_mints)
    (secretPrefix ++ RawURLEncoding (replicate secretBytes "c"%char)) = Some "acc1" /\
  AuthenticateAccountKey (run_mints sample_mints)
    (secretPrefix ++ RawURLEncoding (replicate secretBytes "a"%char)) = None.
Proof.
  split; [|vm_compute; reflexivity].
  apply (account_key_exact sample_mints).
  - apply (bool_decide_unpack _). vm_compute. exact I.
  - discriminate.
  - vm_compute. reflexivity.
Defined.

(** * Rotation (app/account_key.go) *)
Definition accountKeyIdempotencyTTL : Z := minutes_ns 15.
Definition ErrAccountKeyAlreadyRotated : error :=
  New "account key already rotated for this idempotency key".
Definition ErrAccountKeysUnavailable : error := New "account key store not configured".

(** The guard remembers when a key was consumed, never what it minted. *)
Definition pruneLocked : Time -> gmap string Time -> gmap string Time :=
  prune id accountKeyIdempotencyTTL.

Record AccountKeyService := {
  aks_keys : option AccountKeyStore;
  aks_seen : gmap string Time;
  aks_audited : bool;                        (* the audit sink is wired *)
  aks_audit : list Entry
}.

(** What one call reads of its environment: the generator, the clock at each of its
    readings, the new identifier, the operator of its context, the sink's answer. *)
Record RotateEnv := {
  re_entropy : option bytes;
  re_now : Time; re_mint_now : Time; re_audit_now : Time; re_seen_now : Time;
  re_id : string;
  re_operator : string;
  re_append : option error
}.

Definition appendMintAudit (env : RotateEnv) (accountID : string) (s : AccountKeyService)
    : AccountKeyService * res unit :=
  if negb (aks_audited s) then (s, Ok tt)
  else
    match NewAccountKeyMintEntry (re_id env) (re_operator env) accountID (re_audit_now env) with
    | Err e => (s, Err (Wrap "build account-key mint audit entry" e))
    | Ok entry =>
        match re_append env with
        | Some e => (s, Err (Wrap "append account-key mint audit entry" e))
        | None => ({| aks_keys := aks_keys s; aks_seen := aks_seen s;
                      aks_audited := aks_audited s; aks_audit := aks_audit s ++ [entry] |}, Ok tt)
        end
    end.

Definition RotateAccountKey (env : RotateEnv) (accountID idemKey : string)
    : M AccountKeyService error string :=
  let accountID := TrimSpace accountID in
  abort (bool_decide (accountID = ""))
    with (NewValidationError "account_id" "account id is required") ;;
  let idemKey := TrimSpace idemKey in
  abort (bool_decide (idemKey = ""))
    with (NewValidationError "idempotency_key" "idempotency key is required") ;;
  fun s =>
    match aks_keys s with
    | None => (s, Err ErrAccountKeysUnavailable)
    | Some keys =>
        let gkey := guard_key accountID idemKey in
        let seen := pruneLocked (re_now env) (aks_seen s) in
        let with_ keys seen s := {| aks_keys := Some keys; aks_seen := seen;
                                    aks_audited := aks_audited s; aks_audit := aks_audit s |} in
        match seen !! gkey with
        | Some _ => (with_ keys seen s, Err ErrAccountKeyAlreadyRotated)
        | None =>
            match PutKey (re_entropy env) (re_mint_now env) accountID keys with
            | (keys, Err e) => (with_ keys seen s, Err e)
            | (keys, Ok plaintext) =>
                match appendMintAudit env accountID (with_ keys seen s) with
                | (s, Err e) => (s, Err e)
                | (s, Ok _) => (with_ keys (<[gkey := re_seen_now env]> seen) s, Ok plaintext)
                end
            end
        end
    end.

(** A call, and a run of calls. *)
Record rotation := { rot_env : RotateEnv; rot_account : string; rot_key : string }.
Definition rotate (c : rotation) : M AccountKeyService error string :=
  RotateAccountKey (rot_env c) (rot_account c) (rot_key c).
Definition run_rotations (cs : list rotation) (s : AccountKeyService) : AccountKeyService :=
  foldl (fun s c => fst (rotate c s)) s cs.
Definition rotation_guard (c : rotation) : string :=
  guard_key (TrimSpace (rot_account c)) (TrimSpace (rot_key c)).

(** Whatever a call does, an entry of the guard it does not prune stays as it is. *)
Lemma rotate_seen c s k t :
  Sub (re_now (rot_env c)) t <= accountKeyIdempotencyTTL ->
  aks_seen s !! k = Some t -> aks_seen (fst (rotate c s)) !! k = Some t.
Proof.
  intros Hs Hk. unfold rotate, RotateAccountKey.
  case_bool_decide; [done|]. case_bool_decide; [done|].
  destruct (aks_keys s) as [keys|]; [|done].
  pose proof (prune_keeps id _ _ _ _ _ Hs Hk : pruneLocked _ _ !! _ = _) as Hp.
  destruct (pruneLocked _ _ !! guard_key _ _) eqn:Eg; [done|].
  destruct (PutKey _ _ _ keys) as [keys' [p|e]]; [|done].
  unfold appendMintAudit. cbn [aks_audited].
  repeat case_match; cbn [fst aks_seen]; simplify_eq; try done;
    rewrite lookup_insert_ne by congruence; done.
Qed.

(** What a call that delivers a secret leaves behind. *)
Lemma rotate_Ok c s s' p : rotate c s = (s', Ok p) ->
  aks_seen s' !! rotation_guard c = Some (re_seen_now (rot_env c)) /\
  is_Some (aks_keys s') /\
  TrimSpace (rot_account c) <> "" /\ TrimSpace (rot_key c) <> "".
Proof.
  unfold rotate, RotateAccountKey, rotation_guard.
  case_bool_decide; [done|]. case_bool_decide; [done|].
  destruct (aks_keys s) as [keys|]; [|done].
  destruct (pruneLocked _ _ !! guard_key _ _) eqn:Eg; [done|].
  destruct (PutKey _ _ _ keys) as [keys' [q|e]]; [|done].
  destruct (appendMintAudit _ _ _) as [s1 [u|e]]; [|done].
  intros. simplify_eq. cbn. rewrite lookup_insert_eq. split_and!; [done|by eexists|done|done].
Qed.

Lemma rotate_keys c s : is_Some (aks_keys s) -> is_Some (aks_keys (fst (rotate c s))).
Proof.
  intros [keys Hk]. unfold rotate, RotateAccountKey. case_bool_decide; [by eexists|].
  case_bool_decide; [by eexists|]. rewrite Hk.
  destruct (pruneLocked _ _ !! guard_key _ _); [by eexists|].
  destruct (PutKey _ _ _ keys) as [keys' [p|e]]; [|by eexists].
  unfold appendMintAudit. repeat case_match; simplify_eq; by eexists.
Qed.

Lemma rotations_keep cs s k t :
  Forall (fun c => Sub (re_now (rot_env c)) t <= accountKeyIdempotencyTTL) cs ->
  aks_seen s !! k = Some t -> is_Some (aks_keys s) ->
  aks_seen (run_rotations cs s) !! k = Some t /\ is_Some (aks_keys (run_rotations cs s)).
Proof.
  intros Hcs. revert s. induction Hcs as [|c cs Hc Hcs IH]; intros s Hk Hs; [done|].
  apply IH; [by apply rotate_seen|by apply rotate_keys].
Qed.

(** A secret is shown once: after a rotation delivered a secret, whatever other calls are
    served in between, a repeated call under the same account and idempotency key within
    fifteen minutes is answered with the replay sentinel, mints nothing and audits nothing. *)
Theorem replay_collapses s0 first mid again s1 p
    (H1 : rotate first s0 = (s1, Ok p))
    (Hclock : Forall (fun c => ns (re_now (rot_env c)) <= ns (re_now (rot_env again))) mid)
    (Hwithin : Sub (re_now (rot_env again)) (re_seen_now (rot_env first))
               <= accountKeyIdempotencyTTL)
    (Hacc : TrimSpace (rot_account again) = TrimSpace (rot_account first))
    (Hkey : TrimSpace (rot_key again) = TrimSpace (rot_key first)) :
  let s2 := run_rotations mid s1 in
  let '(s3, answer) := rotate again s2 in
  answer = Err ErrAccountKeyAlreadyRotated /\
  aks_keys s3 = aks_keys s2 /\ aks_audit s3 = aks_audit s2.
Proof.
  apply rotate_Ok in H1 as (Hg & Hk & Ha & Hi). cbv zeta.
  destruct (fun H => rotations_keep mid s1 _ _ H Hg Hk) as [Hs2 [keys Hk2]].
  { eapply Forall_impl; [exact Hclock|]. cbn. intros c Hc.
    etrans; [by apply Sub_mono|exact Hwithin]. }
  unfold rotate, RotateAccountKey. rewrite Hacc, Hkey, !bool_decide_false by done.
  destruct (aks_keys (run_rotations mid s1)) as [keys'|]; [|done].
  unfold rotation_guard in Hs2. by rewrite (prune_keeps id _ _ _ _ _ Hwithin Hs2 : pruneLocked _ _ !! _ = _).
Qed.

Definition sample_service : AccountKeyService :=
  {| aks_keys := Some NewAccountKeyStore; aks_seen := ∅; aks_audited := true; aks_audit := [] |}.
Definition rotation_at (c : ascii) (at_ : Z) (append : option error) (account key : string)
    : rotation :=
  let t := {| ns := at_ * nsec; loc := UTC_loc |} in
  {| rot_env := {| re_entropy := Some (replicate secretBytes c); re_now := t; re_mint_now := t;
                   re_audit_now := t; re_seen_now := t; re_id := "e1"; re_operator := "op";
                   re_append := append |};
     rot_account := account; rot_key := key |}.

Lemma replay_collapses_witness :
  let s1 := fst (rotate (rotation_at "a" 0 None "acc" "k") sample_service) in
  let s2 := run_rotations [rotation_at "b" 300 None "other" "k"] s1 in
  snd (rotate (rotation_at "c" 900 None " acc " "k") s2) = Err ErrAccountKeyAlreadyRotated.
Proof.
  cbv zeta.
  destruct (rotate (rotation_at "a" 0 None "acc" "k") sample_service) as [s1 r] eqn:E.
  assert (Hr : exists p, r = Ok p).
  { change r with (snd (s1, r)). rewrite <- E. eexists. vm_compute. reflexivity. }
  destruct Hr as [p ->].
  pose proof (replay_collapses _ _ [rotation_at "b" 300 None "other" "k"]
    (rotation_at "c" 900 None " acc " "k") _ _ E) as H.
  cbn [fst]. cbv zeta in H. destruct (rotate (rotation_at "c" 900 None " acc " "k") _).
  apply H; [repeat constructor; discriminate|discriminate|reflexivity|reflexivity].
Defined.

(** The comment of the audit step says that no mint is silently left unaudited. The mint
    comes first and is not undone: when the audit sink fails, the previous key is already
    dead, the new one is installed, no one has its secret and nothing records the mint. *)
Theorem unaudited_mint :
  let s1 := fst (rotate (rotation_at "a" 0 None "acc" "k1") sample_service) in
  let '(s2, answer) := rotate (rotation_at "b" 60 (Some ErrUnavailable) "acc" "k2") s1 in
  let auth s c := match aks_keys s with
                  | Some keys => AuthenticateAccountKey keys
                                   (secretPrefix ++ RawURLEncoding (replicate secretBytes c))
                  | None => None
                  end in
  answer = Err (Wrap "append account-key mint audit entry" ErrUnavailable) /\
  auth s1 "a"%char = Some "acc" /\ auth s2 "a"%char = None /\ auth s2 "b"%char = Some "acc" /\
  aks_audit s2 = aks_audit s1.
Proof. vm_compute. repeat split. Qed.
