(* ===== verification/ClientProvisioning.v ===== *)
(** internal/app/client_provisioning.go: a reseller account creates its client companies. *)
From S2P Require Import Prelude GoStrings GoTime GoCrypto Shared Tenants Ports MemStore.
From S2P Require Import Capabilities WebhookRefs.

Definition defaultClientName : string := "empresa-cliente".
Definition clientProvisionIdempotencyTTL : Z := minutes_ns 15.
Definition ErrClientProvisioningUnavailable : error := New "client provisioning store not configured".

Record provisionResult := { pr_tenantID : string; pr_at : Time }.
Definition pruneProvisions : Time -> gmap string provisionResult -> gmap string provisionResult :=
  prune pr_at clientProvisionIdempotencyTTL.

(** The service: the tenants it writes (if a repository is wired), the references' store (if a
    minter is wired), and the guard's memory. *)
Record Provisioning := {
  pv_tenants : option (gmap string Tenant);
  pv_refs : option WebhookRefStore;
  pv_seen : gmap string provisionResult
}.
(** What one call reads of its environment: a fresh identifier, the clock at its two readings,
    the random bytes, and whether the store answers its read and its write. *)
Record ProvisionEnv := {
  pe_id : string;
  pe_now : Time; pe_seen_now : Time;
  pe_entropy : option bytes;
  pe_find : option error; pe_save : option error
}.

(** The reference of a new client, when one is asked for and a minter is wired. *)
Definition mint_for (env : ProvisionEnv) (mintWebhook : bool) (tenantID : string)
    (refs : option WebhookRefStore) : option WebhookRefStore * res string :=
  match refs with
  | Some store =>
      if mintWebhook then
        let '(store, r) := MintWebhookRef (pe_entropy env) tenantID store in
        (Some store, map_err (Wrap "mint webhook ref") r)
      else (Some store, Ok "")
  | None => (None, Ok "")
  end.

Definition provision (env : ProvisionEnv) (accountID name idemKey : string) (mintWebhook : bool)
    : M Provisioning error (Tenant * string) :=
  let accountID := TrimSpace accountID in
  abort (bool_decide (accountID = ""))
    with (NewValidationError "account_id" "account id is required") ;;
  let idemKey := TrimSpace idemKey in
  abort (bool_decide (idemKey = ""))
    with (NewValidationError "idempotency_key" "idempotency key is required") ;;
  fun s =>
    match pv_tenants s with
    | None => (s, Err ErrClientProvisioningUnavailable)
    | Some tenants =>
        let name := TrimSpace name in
        let name := if bool_decide (name = "") then defaultClientName else name in
        let gkey := guard_key accountID idemKey in
        let seen := pruneProvisions (pe_now env) (pv_seen s) in
        let with_ tenants refs seen :=
          {| pv_tenants := Some tenants; pv_refs := refs; pv_seen := seen |} in
        match seen !! gkey with
        | Some res =>
            (with_ tenants (pv_refs s) seen,
             match pe_find env, tenants !! pr_tenantID res with
             | Some e, _ => Err (Wrap "resolve provisioned client" e)
             | None, None => Err (Wrap "resolve provisioned client" ErrNotFound)
             | None, Some t => Ok (t, "")
             end)
        | None =>
            match (let? t := tenant_New (pe_id env) name (pe_now env) in
                   tenant_AssignAccount t accountID) with
            | Err e => (with_ tenants (pv_refs s) seen, Err e)
            | Ok t =>
                match pe_save env with
                | Some e => (with_ tenants (pv_refs s) seen, Err (Wrap "save tenant" e))
                | None =>
                    let tenants := <[tenant_id t := t]> tenants in
                    match mint_for env mintWebhook (tenant_id t) (pv_refs s) with
                    | (refs, Err e) => (with_ tenants refs seen, Err e)
                    | (refs, Ok ref) =>
                        (with_ tenants refs
                           (<[gkey := {| pr_tenantID := tenant_id t; pr_at := pe_seen_now env |}]> seen),
                         Ok (t, ref))
                    end
                end
            end
        end
    end.

Definition ProvisionClientWithWebhook (env : ProvisionEnv) (accountID name idemKey : string)
    : M Provisioning error (Tenant * string) := provision env accountID name idemKey true.
Definition ProvisionClient (env : ProvisionEnv) (accountID name idemKey : string)
    : M Provisioning error Tenant :=
  do r <- provision env accountID name idemKey false ;; retM (fst r).

(** * Histories of calls *)
Record provision_call := {
  pc_env : ProvisionEnv; pc_account : string; pc_name : string; pc_key : string; pc_webhook : bool
}.
Definition serve_provision (c : provision_call) : M Provisioning error (Tenant * string) :=
  provision (pc_env c) (pc_account c) (pc_name c) (pc_key c) (pc_webhook c).
Definition run_provisions (cs : list provision_call) (s : Provisioning) : Provisioning :=
  foldl (fun s c => fst (serve_provision c s)) s cs.
Definition call_guard (c : provision_call) : string :=
  guard_key (TrimSpace (pc_account c)) (TrimSpace (pc_key c)).

(** The rows of a store. *)
Definition rows (s : Provisioning) : gmap string Tenant := default ∅ (pv_tenants s).

(** What a call may do to the rows: nothing, or add one company of its own account under its
    fresh identifier. *)
Definition adds_own (c : provision_call) (before after : gmap string Tenant) : Prop :=
  after = before \/
  exists t, after = <[TrimSpace (pe_id (pc_env c)) := t]> before /\
    tenant_id t = TrimSpace (pe_id (pc_env c)) /\
    tenant_accountID t = TrimSpace (pc_account c) /\ tenant_active t = true.

Lemma new_client_facts id name now acct t t' :
  tenant_New id name now = Ok t -> tenant_AssignAccount t acct = Ok t' ->
  tenant_id t' = TrimSpace id /\ tenant_accountID t' = TrimSpace acct /\ tenant_active t' = true.
Proof.
  intros Hn Ha. apply AssignAccount_inv in Ha as (_ & _ & Eacc & Eid & _ & Eact & _).
  rewrite Eacc, Eid, Eact. revert Hn. unfold tenant_New. do 2 (case_bool_decide; [done|]).
  case_match; [done|]. by intros [= <-].
Qed.

(** The four ways a call goes: refused, replayed, failed before or after the write. *)
Lemma serve_rows c s : adds_own c (rows s) (rows (fst (serve_provision c s))).
Proof.
  unfold serve_provision, provision, adds_own, rows.
  case_bool_decide; [by left|]. case_bool_decide; [by left|].
  destruct (pv_tenants s) as [tenants|] eqn:Et; [|cbn; rewrite Et; by left].
  destruct (pruneProvisions _ _ !! _); [by left|].
  destruct (tenant_New _ _ _) as [t0|] eqn:En; [|by left].
  destruct (tenant_AssignAccount t0 _) as [t|] eqn:Ea; [|by left].
  destruct (new_client_facts _ _ _ _ _ _ En Ea) as (Eid & Eacc & Eact).
  destruct (pe_save _); [by left|]. right. exists t. rewrite TrimSpace_idem in Eacc.
  destruct (mint_for _ _ _ _) as [refs [ref|]]; cbn; by rewrite Eid.
Qed.

(** Identifiers are fresh: no two calls draw the same one, nor one of an existing row. *)
Definition fresh_ids (cs : list provision_call) (s : Provisioning) : Prop :=
  NoDup (map (fun c => TrimSpace (pe_id (pc_env c))) cs) /\
  forall c, In c cs -> rows s !! TrimSpace (pe_id (pc_env c)) = None.

Lemma fresh_rest c cs s : fresh_ids (c :: cs) s -> fresh_ids cs (fst (serve_provision c s)).
Proof.
  intros [Hn Hf]. cbn [map] in Hn. apply NoDup_cons in Hn as [Hc Hn]. split; [done|].
  intros c' Hin. pose proof (Hf c' (or_intror Hin)) as Hnone.
  destruct (serve_rows c s) as [->|(t & -> & _)]; [done|].
  rewrite lookup_insert_ne; [done|]. intros E. apply Hc. rewrite E.
  apply list_elem_of_In. by apply (in_map (fun c => TrimSpace (pe_id (pc_env c)))).
Qed.

Lemma step_keeps_rows c s id t : fresh_ids [c] s -> rows s !! id = Some t ->
  rows (fst (serve_provision c s)) !! id = Some t.
Proof.
  intros [_ Hf] Hid. specialize (Hf c (or_introl eq_refl)).
  destruct (serve_rows c s) as [->|(u & -> & _)]; [done|].
  rewrite lookup_insert_ne; [done|]. intros E. by rewrite E, Hid in Hf.
Qed.
Lemma fresh_head c cs s : fresh_ids (c :: cs) s -> fresh_ids [c] s.
Proof.
  intros [Hn Hf]. split; [apply NoDup_singleton|]. intros c' [<-|[]]. apply Hf. by left.
Qed.

(** An account provisions companies of its own and touches no other: whatever calls are
    served, in whatever order and with whatever failures, every company that existed is as
    it was, and every new one is active, was asked for by a call that drew its identifier,
    and belongs to the account of that call. *)
Theorem provision_scope cs s (Hids : fresh_ids cs s) :
  let s' := run_provisions cs s in
  (forall id t, rows s !! id = Some t -> rows s' !! id = Some t) /\
  (forall id t, rows s' !! id = Some t -> rows s !! id = Some t \/
     exists c, In c cs /\ id = TrimSpace (pe_id (pc_env c)) /\
       tenant_id t = id /\ tenant_accountID t = TrimSpace (pc_account c) /\
       tenant_active t = true).
Proof.
  cbv zeta. revert s Hids. induction cs as [|c cs IH]; intros s Hids; [by split; [|left]|].
  cbn [run_provisions foldl]. fold (run_provisions cs (fst (serve_provision c s))).
  destruct (IH _ (fresh_rest _ _ _ Hids)) as [Hkeep Hnew]. split.
  - intros id t Hid. apply Hkeep. apply step_keeps_rows; [by eapply fresh_head|done].
  - intros id t Hid. destruct (Hnew id t Hid) as [Hs|(c' & Hin & Hc')].
    + destruct (serve_rows c s) as [E|(u & E & Eid & Eacc & Eact)]; rewrite E in Hs; [by left|].
      destruct (decide (TrimSpace (pe_id (pc_env c)) = id)) as [<-|Hne].
      * rewrite lookup_insert_eq in Hs. injection Hs as ->. right. exists c.
        split_and!; [by left|done..].
      * rewrite lookup_insert_ne in Hs by done. by left.
    + right. exists c'. split; [by right|done].
Qed.

(** ** Replays *)
Definition remembers (s : Provisioning) (k : string) (r : provisionResult) : Prop :=
  pv_seen s !! k = Some r /\ is_Some (pv_tenants s).

Lemma serve_remembers c s k r : remembers s k r ->
  Sub (pe_now (pc_env c)) (pr_at r) <= clientProvisionIdempotencyTTL ->
  remembers (fst (serve_provision c s)) k r.
Proof.
  intros [Hk [tenants Ht]] Hs. unfold serve_provision, provision, remembers.
  case_bool_decide; [by cbn; rewrite Ht|]. case_bool_decide; [by cbn; rewrite Ht|]. rewrite Ht.
  pose proof (prune_keeps pr_at _ _ _ _ _ Hs Hk : pruneProvisions _ _ !! _ = _) as Hp.
  destruct (pruneProvisions _ _ !! guard_key _ _) eqn:Eg; [by split|].
  destruct (let? t := _ in _) as [t|]; [|by split]. destruct (pe_save _); [by split|].
  destruct (mint_for _ _ _ _) as [refs [ref|]]; cbn [fst pv_seen pv_tenants]; [|by split].
  split; [|by eexists]. by rewrite lookup_insert_ne by congruence.
Qed.

Lemma run_remembers cs s k r : remembers s k r ->
  Forall (fun c => Sub (pe_now (pc_env c)) (pr_at r) <= clientProvisionIdempotencyTTL) cs ->
  remembers (run_provisions cs s) k r.
Proof.
  intros Hr Hcs. revert s Hr. induction Hcs as [|c cs Hc Hcs IH]; intros s Hr; [done|].
  apply IH. by apply serve_remembers.
Qed.

(** What a call that creates leaves behind. *)
Lemma serve_created c s s' t ref : serve_provision c s = (s', Ok (t, ref)) ->
  pruneProvisions (pe_now (pc_env c)) (pv_seen s) !! call_guard c = None ->
  TrimSpace (pc_account c) <> "" /\ TrimSpace (pc_key c) <> "" /\
  remembers s' (call_guard c) {| pr_tenantID := tenant_id t; pr_at := pe_seen_now (pc_env c) |} /\
  rows s' !! tenant_id t = Some t.
Proof.
  unfold serve_provision, provision, call_guard. intros H Hg. revert H.
  case_bool_decide; [done|]. case_bool_decide; [done|].
  destruct (pv_tenants s) as [tenants|]; [|done]. rewrite Hg.
  destruct (let? t := _ in _) as [t0|]; [|done]. destruct (pe_save _); [done|].
  destruct (mint_for _ _ _ _) as [refs [r|]]; [|done]. intros [= <- -> ->].
  unfold remembers, rows. cbn. rewrite !lookup_insert_eq. by split_and!.
Qed.

Lemma run_keeps_row cs s id t : fresh_ids cs s -> rows s !! id = Some t ->
  rows (run_provisions cs s) !! id = Some t.
Proof.
  revert s. induction cs as [|c cs IH]; intros s Hf Hid; [done|].
  apply IH; [by apply fresh_rest|]. apply step_keeps_rows; [by eapply fresh_head|done].
Qed.

(** One company per idempotency key: after a call created a company, whatever other calls
    are served in between, the same call repeated within fifteen minutes is answered with
    that company and without its callback reference, and creates and mints nothing. *)
Theorem provision_once first mid again s0 s1 t ref
    (H1 : serve_provision first s0 = (s1, Ok (t, ref)))
    (Hnew : pruneProvisions (pe_now (pc_env first)) (pv_seen s0) !! call_guard first = None)
    (Hids : fresh_ids mid s1)
    (Hclock : Forall (fun c => ns (pe_now (pc_env c)) <= ns (pe_now (pc_env again))) mid)
    (Hwithin : Sub (pe_now (pc_env again)) (pe_seen_now (pc_env first))
               <= clientProvisionIdempotencyTTL)
    (Hacc : TrimSpace (pc_account again) = TrimSpace (pc_account first))
    (Hkey : TrimSpace (pc_key again) = TrimSpace (pc_key first))
    (Hfind : pe_find (pc_env again) = None) :
  let s2 := run_provisions mid s1 in
  let '(s3, answer) := serve_provision again s2 in
  answer = Ok (t, "") /\ rows s3 = rows s2 /\ pv_refs s3 = pv_refs s2.
Proof.
  destruct (serve_created _ _ _ _ _ H1 Hnew) as (Ha & Hk & Hrem & Hrow). cbv zeta.
  destruct (run_remembers mid _ _ _ Hrem) as [Hseen [tenants Ht]].
  { eapply Forall_impl; [exact Hclock|]. cbn. intros c Hc.
    etrans; [by apply Sub_mono|exact Hwithin]. }
  pose proof (run_keeps_row _ _ _ _ Hids Hrow) as Hrow2.
  unfold serve_provision, provision. rewrite Hacc, Hkey, !bool_decide_false, Ht by done.
  unfold call_guard in Hseen.
  assert (Hp : pruneProvisions (pe_now (pc_env again)) (pv_seen (run_provisions mid s1))
                 !! guard_key (TrimSpace (pc_account first)) (TrimSpace (pc_key first)) = _)
    by (apply prune_keeps; [|exact Hseen]; exact Hwithin).
  rewrite Hp.
  unfold rows in *. rewrite Ht in *. cbn in Hrow2 |- *. by rewrite Hfind, Hrow2.
Qed.

Definition provision_at (id : string) (second : Z) (account key : string) : provision_call :=
  let t := {| ns := second * nsec; loc := UTC_loc |} in
  {| pc_env := {| pe_id := id; pe_now := t; pe_seen_now := t;
                  pe_entropy := Some (replicate refBytes "x"%char);
                  pe_find := None; pe_save := None |};
     pc_account := account; pc_name := ""; pc_key := key; pc_webhook := true |}.
Definition provisioning_start : Provisioning :=
  {| pv_tenants := Some ∅; pv_refs := Some ∅; pv_seen := ∅ |}.

Lemma provision_once_witness :
  let s1 := fst (serve_provision (provision_at "c1" 0 "acc" "k") provisioning_start) in
  let s2 := run_provisions [provision_at "c2" 60 "other" "k"] s1 in
  exists t, snd (serve_provision (provision_at "c3" 900 " acc " "k ") s2) = Ok (t, "") /\
            size (rows s2) = 2%nat.
Proof.
  cbv zeta.
  destruct (serve_provision (provision_at "c1" 0 "acc" "k") provisioning_start) as [s1 r] eqn:E.
  assert (Hr : exists t ref, r = Ok (t, ref)).
  { change r with (snd (s1, r)). rewrite <- E. do 2 eexists. vm_compute. reflexivity. }
  destruct Hr as (t & ref & ->). exists t. cbn [fst]. split.
  - pose proof (provision_once _ [provision_at "c2" 60 "other" "k"]
      (provision_at "c3" 900 " acc " "k ") _ _ _ _ E) as H. cbv zeta in H.
    destruct (serve_provision (provision_at "c3" 900 " acc " "k ") _).
    apply H; [vm_compute; reflexivity| |by repeat constructor|discriminate|reflexivity..].
    split; [apply NoDup_singleton|]. intros c [<-|[]].
    change s1 with (fst (s1, Ok (E:=error) (t, ref))). rewrite <- E. vm_compute. reflexivity.
  - change s1 with (fst (s1, Ok (E:=error) (t, ref))). rewrite <- E. vm_compute. reflexivity.
Defined.
