(* ===== verification/PaymentGroups.v ===== *)
(** internal/domain/dda and internal/app/dda.go: the payments a client schedules in a group,
    which is editable until it is submitted for approval. *)
From S2P Require Import Prelude GoStrings GoTime Shared Tenants PixKeys.

(** * The closed sets *)
Inductive ItemStatus :=
| StatusReadData | StatusDecodeError | StatusError | StatusScheduled | StatusProcessing
| StatusProcessed | StatusSchedulingCancelled.
#[export] Instance ItemStatus_eq_dec : EqDecision ItemStatus.
Proof. solve_decision. Defined.

Definition status_text (s : ItemStatus) : string :=
  match s with
  | StatusReadData => "READ_DATA" | StatusDecodeError => "DECODE_ERROR" | StatusError => "ERROR"
  | StatusScheduled => "SCHEDULED" | StatusProcessing => "PROCESSING"
  | StatusProcessed => "PROCESSED" | StatusSchedulingCancelled => "SCHEDULING_CANCELLED"
  end.
Definition all_statuses : list ItemStatus :=
  [StatusReadData; StatusDecodeError; StatusError; StatusScheduled; StatusProcessing;
   StatusProcessed; StatusSchedulingCancelled].

Definition ParseItemStatus (s : string) : res ItemStatus :=
  let s := ToUpper (TrimSpace s) in
  if bool_decide (s = "") then Ok StatusReadData
  else
    match List.find (fun st => bool_decide (status_text st = s)) all_statuses with
    | Some st => Ok st
    | None => Err (NewValidationError "status" "unknown payment item status")
    end.

Definition Submitted (s : ItemStatus) : bool :=
  match s with
  | StatusScheduled | StatusProcessing | StatusProcessed | StatusSchedulingCancelled => true
  | _ => false
  end.

(** The empty product type is the absent one. *)
Inductive ProductType := ProductNone | ProductBoleto | ProductPix.
Definition ParseProductType (s : string) : res ProductType :=
  let s := ToUpper (TrimSpace s) in
  if bool_decide (s = "") then Ok ProductNone
  else if bool_decide (s = "BOLETO") then Ok ProductBoleto
  else if bool_decide (s = "PIX") then Ok ProductPix
  else Err (NewValidationError "product_type" "unknown payment product type").

(** * Bonds and items *)
Record DDABoleto := {
  bond_content : string; bond_amountCents : Z; bond_dueDate : Time;
  bond_beneficiaryName : string; bond_payerName : string; bond_bankCode : string;
  bond_bankName : string; bond_overdue : bool
}.
Definition NewDDABoleto (p : DDABoleto) : res DDABoleto :=
  let content := TrimSpace (bond_content p) in
  let? _ := ValidateContent content in
  refuse (bond_amountCents p <=? 0)
    with (NewValidationError "boleto.amount" "amount must be greater than zero") ;;
  refuse (IsZero (bond_dueDate p))
    with (NewValidationError "boleto.due_date" "due date is required") ;;
  let beneficiaryName := TrimSpace (bond_beneficiaryName p) in
  refuse (bool_decide (beneficiaryName = ""))
    with (NewValidationError "boleto.beneficiary_name" "beneficiary name is required") ;;
  Ok {| bond_content := content; bond_amountCents := bond_amountCents p;
        bond_dueDate := bond_dueDate p; bond_beneficiaryName := beneficiaryName;
        bond_payerName := TrimSpace (bond_payerName p);
        bond_bankCode := TrimSpace (bond_bankCode p);
        bond_bankName := TrimSpace (bond_bankName p); bond_overdue := bond_overdue p |}.

Record GroupItem := {
  gi_id : string; gi_content : string; gi_amountCents : Z; gi_dueDate : Time;
  gi_status : ItemStatus; gi_productType : ProductType; gi_errorMessage : string;
  gi_overdue : bool
}.
(** The transported item; also the constructor's parameters. *)
Record DDAItem := {
  di_ID : string; di_Content : string; di_AmountCents : Z; di_DueDate : Time;
  di_Status : string; di_ProductType : string; di_ErrorMessage : string; di_Overdue : bool
}.

Definition NewGroupItem (p : DDAItem) : res GroupItem :=
  let id := TrimSpace (di_ID p) in
  refuse (bool_decide (id = "")) with (NewValidationError "item.id" "item id is required") ;;
  let content := TrimSpace (di_Content p) in
  let? _ := ValidateContent content in
  refuse (di_AmountCents p <=? 0)
    with (NewValidationError "item.amount" "amount must be greater than zero") ;;
  let? status := ParseItemStatus (di_Status p) in
  let? product := ParseProductType (di_ProductType p) in
  Ok {| gi_id := id; gi_content := content; gi_amountCents := di_AmountCents p;
        gi_dueDate := di_DueDate p; gi_status := status; gi_productType := product;
        gi_errorMessage := TrimSpace (di_ErrorMessage p); gi_overdue := di_Overdue p |}.

(** * The group *)
Record PaymentGroup := { pg_id : string; pg_tenantID : string; pg_items : list GroupItem }.

Definition Reconstruct (id tenantID : string) (items : list GroupItem) : res PaymentGroup :=
  let id := TrimSpace id in
  refuse (bool_decide (id = "")) with (NewValidationError "group.id" "group id is required") ;;
  let tenantID := TrimSpace tenantID in
  refuse (bool_decide (tenantID = ""))
    with (NewValidationError "group.tenant_id" "tenant id is required") ;;
  Ok {| pg_id := id; pg_tenantID := tenantID; pg_items := items |}.

Definition IsSubmitted (g : PaymentGroup) : bool :=
  existsb (fun it => Submitted (gi_status it)) (pg_items g).

Definition present (g : PaymentGroup) (id : string) : bool :=
  existsb (fun it => bool_decide (gi_id it = id)) (pg_items g).

Fixpoint check_ids (g : PaymentGroup) (ids : list string) : res unit :=
  match ids with
  | [] => Ok tt
  | id :: rest =>
      let id := TrimSpace id in
      refuse (bool_decide (id = ""))
        with (NewValidationError "item_id" "item id must not be empty") ;;
      refuse (negb (present g id)) with ErrNotFound ;;
      check_ids g rest
  end.

Definition RemoveItems (g : PaymentGroup) (ids : list string) : res PaymentGroup :=
  refuse (IsSubmitted g) with ErrInvalidTransition ;;
  refuse (bool_decide (ids = []))
    with (NewValidationError "item_ids" "at least one item id is required") ;;
  let? _ := check_ids g ids in
  Ok {| pg_id := pg_id g; pg_tenantID := pg_tenantID g;
        pg_items := List.filter (fun it => negb (bool_decide (gi_id it ∈ map TrimSpace ids)))
                      (pg_items g) |}.

Definition schedule_item (it : GroupItem) : GroupItem :=
  {| gi_id := gi_id it; gi_content := gi_content it; gi_amountCents := gi_amountCents it;
     gi_dueDate := gi_dueDate it; gi_status := StatusScheduled;
     gi_productType := gi_productType it; gi_errorMessage := gi_errorMessage it;
     gi_overdue := gi_overdue it |}.

Definition SubmitForApproval (g : PaymentGroup) : res PaymentGroup :=
  refuse (IsSubmitted g) with ErrInvalidTransition ;;
  refuse (bool_decide (pg_items g = []))
    with (NewValidationError "items" "cannot submit an empty payment group") ;;
  Ok {| pg_id := pg_id g; pg_tenantID := pg_tenantID g;
        pg_items := map schedule_item (pg_items g) |}.

(** * The service *)
Record DDAGroup := { dg_ID : string; dg_Items : list DDAItem }.
Record DDAPayment := {
  dp_Content : string; dp_AmountCents : Z; dp_Description : string;
  dp_BeneficiaryName : string; dp_PayerName : string; dp_BankCode : string;
  dp_BankName : string; dp_TransactionDate : Time
}.
Record DDAGroupRequest := {
  dgr_TenantID : string; dgr_Payments : list DDAPayment; dgr_IdempotencyKey : string
}.
Definition maxDDAGroupPayments : nat := 200.
Definition maxDDADescriptionLen : Z := 100.

(** The writes asked of the bank. *)
Inductive dda_call :=
| CallCreate (tenantID : string) (req : DDAGroupRequest)
| CallRemove (tenantID groupID : string) (itemIDs : list string)
| CallRemoveOne (tenantID groupID itemID : string)
| CallSubmit (tenantID groupID uploaderName idemKey : string).

Section dda_service.
(** The tenants' table; what the bank reads back of a group; what it answers to a creation
    and to the other writes. *)
Context (find : string -> res Tenant).
Context (bank_group : string -> string -> res DDAGroup).
Context (bank_create : DDAGroupRequest -> res DDAGroup).
Context (bank_answer : dda_call -> res unit).

Notation dda A := (M (list dda_call) error A).

Definition call (c : dda_call) : dda unit := fun calls => (calls ++ [c], bank_answer c)%list.

Definition requireActiveTenant (tenantID : string) : res unit :=
  match find tenantID with
  | Err e => Err (Wrap "resolve tenant" e)
  | Ok t => refuse (negb (tenant_active t))
              with (NewValidationError "tenant" "tenant is not active") ;; Ok tt
  end.

Definition with_content (p : DDAPayment) (content : string) : DDAPayment :=
  {| dp_Content := content; dp_AmountCents := dp_AmountCents p;
     dp_Description := dp_Description p; dp_BeneficiaryName := dp_BeneficiaryName p;
     dp_PayerName := dp_PayerName p; dp_BankCode := dp_BankCode p; dp_BankName := dp_BankName p;
     dp_TransactionDate := dp_TransactionDate p |}.
Fixpoint check_payments (l : list DDAPayment) : res (list DDAPayment) :=
  match l with
  | [] => Ok []
  | pay :: rest =>
      let? _ := ValidateContent (dp_Content pay) in
      refuse (dp_AmountCents pay <=? 0)
        with (NewValidationError "amount" "amount must be greater than zero") ;;
      refuse (maxDDADescriptionLen <? len (dp_Description pay))
        with (NewValidationError "description" "description is too long") ;;
      let? out := check_payments rest in
      Ok (with_content pay (TrimSpace (dp_Content pay)) :: out)
  end.

Definition CreatePaymentGroup (tenantID : string) (payments : list DDAPayment)
    (idempotencyKey : string) : dda DDAGroup :=
  do _ <- liftM (requireActiveTenant tenantID) ;;
  abort (blank idempotencyKey)
    with (NewValidationError "idempotency_key" "idempotency key is required") ;;
  abort (bool_decide (payments = []))
    with (NewValidationError "payments" "at least one payment is required") ;;
  abort (maxDDAGroupPayments <? List.length payments)%nat
    with (NewValidationError "payments" "too many payments in a single group") ;;
  do payments <- liftM (check_payments payments) ;;
  let req := {| dgr_TenantID := tenantID; dgr_Payments := payments;
                dgr_IdempotencyKey := idempotencyKey |} in
  do group <- (fun calls =>
    ((calls ++ [CallCreate tenantID req])%list,
     map_err (Wrap "bank create payment group") (bank_create req))) ;;
  abort (blank (dg_ID group))
    with (NewValidationError "group.id" "bank returned no payment group id") ;;
  retM group.

Fixpoint new_group_items (l : list DDAItem) : res (list GroupItem) :=
  match l with
  | [] => Ok []
  | it :: rest =>
      let? di := NewGroupItem it in
      let? out := new_group_items rest in
      Ok (di :: out)
  end.
Definition reconstruct (tenantID : string) (group : DDAGroup) : res PaymentGroup :=
  let? items := new_group_items (dg_Items group) in
  Reconstruct (dg_ID group) tenantID items.

Definition loadForMutation (tenantID groupID : string) : res PaymentGroup :=
  let? _ := requireActiveTenant tenantID in
  let groupID := TrimSpace groupID in
  refuse (bool_decide (groupID = ""))
    with (NewValidationError "group_id" "group id is required") ;;
  let? group := bank_group tenantID groupID in
  reconstruct tenantID group.

Definition GetPaymentGroupItems (tenantID groupID : string) : res (list DDAItem) :=
  let? _ := requireActiveTenant tenantID in
  let groupID := TrimSpace groupID in
  refuse (bool_decide (groupID = ""))
    with (NewValidationError "group_id" "group id is required") ;;
  let? group := bank_group tenantID groupID in
  Ok (dg_Items group).

Definition RemovePaymentGroupItems (tenantID groupID : string) (itemIDs : list string) : dda unit :=
  do group <- liftM (loadForMutation tenantID groupID) ;;
  abort (bool_decide (itemIDs = []))
    with (NewValidationError "item_ids" "at least one item id is required") ;;
  do _ <- liftM (RemoveItems group itemIDs) ;;
  call (CallRemove tenantID groupID itemIDs).

Definition RemovePaymentGroupItem (tenantID groupID itemID : string) : dda unit :=
  do group <- liftM (loadForMutation tenantID groupID) ;;
  let itemID := TrimSpace itemID in
  abort (bool_decide (itemID = "")) with (NewValidationError "item_id" "item id is required") ;;
  do _ <- liftM (RemoveItems group [itemID]) ;;
  call (CallRemoveOne tenantID groupID itemID).

Definition SubmitPaymentGroup (tenantID groupID uploaderName idemKey : string) : dda unit :=
  abort (blank idemKey)
    with (NewValidationError "idempotency_key" "idempotency key is required") ;;
  abort (blank uploaderName)
    with (NewValidationError "uploader_name" "uploader name is required") ;;
  do group <- liftM (loadForMutation tenantID groupID) ;;
  if IsSubmitted group then retM tt
  else
    do _ <- liftM (SubmitForApproval group) ;;
    call (CallSubmit tenantID groupID uploaderName idemKey).
End dda_service.

(** * The group's life *)
Lemma refuse_false (b : bool) {A} (e : error) (k : res A) a :
  (if b then Err e else k) = Ok a <-> b = false /\ k = Ok a.
Proof. destruct b; naive_solver. Qed.

Lemma check_ids_Ok g ids :
  check_ids g ids = Ok tt <->
  Forall (fun id => TrimSpace id <> "" /\ present g (TrimSpace id) = true) ids.
Proof.
  induction ids as [|id ids IH]; [by split|]. cbn [check_ids].
  rewrite !refuse_false, IH, Forall_cons, bool_decide_eq_false, negb_false_iff. tauto.
Qed.

Lemma RemoveItems_Ok g ids g' :
  RemoveItems g ids = Ok g' <->
  IsSubmitted g = false /\ ids <> [] /\
  Forall (fun id => TrimSpace id <> "" /\ present g (TrimSpace id) = true) ids /\
  pg_id g' = pg_id g /\ pg_tenantID g' = pg_tenantID g /\
  pg_items g' = List.filter (fun it => negb (bool_decide (gi_id it ∈ map TrimSpace ids)))
                  (pg_items g).
Proof.
  unfold RemoveItems. rewrite !refuse_false, bool_decide_eq_false.
  rewrite <- check_ids_Ok. destruct (check_ids g ids) as [[]|e].
  - destruct g' as [i t its]. cbn. split; [intros (? & ? & [= <- <- <-]); tauto|].
    intros (? & ? & _ & -> & -> & ->). done.
  - split; [by intros (_ & _ & ?)|]. by intros (_ & _ & ? & _).
Qed.

(** Trimming a group is all or nothing: items are removed exactly when the group has not
    been submitted, at least one item is named and every name, trimmed, is an item of the
    group; then exactly the named items go and the others stay in order. *)
Theorem RemoveItems_exact g ids g' :
  RemoveItems g ids = Ok g' <->
  IsSubmitted g = false /\ ids <> [] /\
  Forall (fun id => TrimSpace id <> "" /\ present g (TrimSpace id) = true) ids /\
  pg_id g' = pg_id g /\ pg_tenantID g' = pg_tenantID g /\
  pg_items g' = List.filter (fun it => negb (bool_decide (gi_id it ∈ map TrimSpace ids)))
                  (pg_items g).
Proof. apply RemoveItems_Ok. Qed.

Inductive group_op := OpRemove (ids : list string) | OpSubmit.
Definition group_attempt (g : PaymentGroup) (o : group_op) : PaymentGroup :=
  match (match o with OpRemove ids => RemoveItems g ids | OpSubmit => SubmitForApproval g end) with
  | Ok g' => g'
  | Err _ => g
  end.
Definition run_group (ops : list group_op) (g : PaymentGroup) : PaymentGroup :=
  foldl group_attempt g ops.
Definition item_ids (g : PaymentGroup) : list string := map gi_id (pg_items g).

Lemma frozen_attempt g o : IsSubmitted g = true -> group_attempt g o = g.
Proof.
  intros H. unfold group_attempt, RemoveItems, SubmitForApproval. by destruct o; rewrite H.
Qed.

Lemma filter_sublist_map {A B} (h : A -> B) (f : A -> bool) (l : list A) :
  sublist (map h (List.filter f l)) (map h l).
Proof.
  induction l as [|x l IH]; [done|]. cbn. destruct (f x); [by apply sublist_skip|by apply sublist_cons].
Qed.

Lemma attempt_items g o : sublist (item_ids (group_attempt g o)) (item_ids g).
Proof.
  unfold group_attempt, item_ids. destruct o as [ids|].
  - destruct (RemoveItems g ids) as [g'|] eqn:E; [|done].
    apply RemoveItems_Ok in E as (_ & _ & _ & _ & _ & ->).
    apply filter_sublist_map.
  - unfold SubmitForApproval. destruct (IsSubmitted g); [done|]. case_bool_decide; [done|].
    cbn. rewrite map_map. done.
Qed.

Lemma submit_submits g g' : SubmitForApproval g = Ok g' -> IsSubmitted g' = true.
Proof.
  unfold SubmitForApproval. destruct (IsSubmitted g); [done|]. case_bool_decide as E; [done|].
  intros [= <-]. unfold IsSubmitted. cbn. by destruct (pg_items g).
Qed.

(** A submitted group is frozen: whatever removals and submissions are attempted on a
    group, no item it did not have ever appears, and from the first accepted submission on
    nothing changes it. *)
Theorem group_frozen before after g g1
    (Hs : SubmitForApproval (run_group before g) = Ok g1) :
  sublist (item_ids g1) (item_ids g) /\
  run_group (before ++ OpSubmit :: after) g = g1 /\
  forall ids, RemoveItems g1 ids = Err ErrInvalidTransition.
Proof.
  pose proof (submit_submits _ _ Hs) as Hsub. split_and!.
  - assert (Hb : sublist (item_ids (run_group before g)) (item_ids g)).
    { clear. revert g. induction before as [|o before IH]; intros g; [done|].
      cbn [run_group foldl]. etrans; [apply IH|apply attempt_items]. }
    etrans; [|exact Hb]. pose proof (attempt_items (run_group before g) OpSubmit) as Ha.
    unfold group_attempt in Ha. by rewrite Hs in Ha.
  - unfold run_group in *. rewrite foldl_app. cbn [foldl].
    assert (group_attempt (foldl group_attempt g before) OpSubmit = g1) as ->
      by (unfold group_attempt at 1; by rewrite Hs).
    clear -Hsub. induction after as [|o after IH]; [done|]. cbn [foldl]. by rewrite frozen_attempt.
  - intros ids. unfold RemoveItems. by rewrite Hsub.
Qed.

Definition sample_item (id : string) (st : ItemStatus) : GroupItem :=
  {| gi_id := id; gi_content := "12345678909"; gi_amountCents := 100; gi_dueDate := zeroTime;
     gi_status := st; gi_productType := ProductPix; gi_errorMessage := ""; gi_overdue := false |}.
Definition sample_group : PaymentGroup :=
  {| pg_id := "g"; pg_tenantID := "t";
     pg_items := [sample_item "i1" StatusReadData; sample_item "i2" StatusDecodeError] |}.
Lemma group_frozen_witness :
  item_ids (run_group ([OpRemove [" i2 "]] ++ [OpSubmit; OpRemove ["i1"]; OpSubmit]) sample_group)
  = ["i1"].
Proof.
  destruct (SubmitForApproval (run_group [OpRemove [" i2 "]] sample_group)) as [g1|] eqn:E.
  - destruct (group_frozen [OpRemove [" i2 "]] [OpRemove ["i1"]; OpSubmit] sample_group g1 E)
      as (_ & -> & _).
    vm_compute in E. injection E as <-. reflexivity.
  - vm_compute in E. discriminate E.
Defined.

(** * What reaches the bank *)
Section gated.
Context (find : string -> res Tenant).
Context (bank_group : string -> string -> res DDAGroup).
Context (bank_create : DDAGroupRequest -> res DDAGroup).
Context (bank_answer : dda_call -> res unit).

Inductive dda_cmd :=
| CmdCreate (tenantID : string) (payments : list DDAPayment) (key : string)
| CmdRemove (tenantID groupID : string) (itemIDs : list string)
| CmdRemoveOne (tenantID groupID itemID : string)
| CmdSubmit (tenantID groupID uploaderName key : string).
Definition dda_exec (c : dda_cmd) : M (list dda_call) error unit :=
  match c with
  | CmdCreate t l k => do _ <- CreatePaymentGroup find bank_create t l k ;; retM tt
  | CmdRemove t g ids => RemovePaymentGroupItems find bank_group bank_answer t g ids
  | CmdRemoveOne t g id => RemovePaymentGroupItem find bank_group bank_answer t g id
  | CmdSubmit t g u k => SubmitPaymentGroup find bank_group bank_answer t g u k
  end.

Definition active_tenant (t : string) : Prop := exists row, find t = Ok row /\ tenant_active row = true.
(** The bank's own reading of a group, as the service decides on it. *)
Definition read_group (t g : string) (pg : PaymentGroup) : Prop :=
  exists dg, bank_group t (TrimSpace g) = Ok dg /\ reconstruct t dg = Ok pg.
Definition payment_ok (p : DDAPayment) : Prop :=
  ValidateContent (dp_Content p) = Ok tt /\ 0 < dp_AmountCents p /\
  len (dp_Description p) <= maxDDADescriptionLen.

Definition allowed (c : dda_call) : Prop :=
  match c with
  | CallCreate t req =>
      active_tenant t /\ dgr_TenantID req = t /\ blank (dgr_IdempotencyKey req) = false /\ dgr_Payments req <> [] /\
      (List.length (dgr_Payments req) <= maxDDAGroupPayments)%nat /\
      Forall payment_ok (dgr_Payments req)
  | CallRemove t g ids =>
      active_tenant t /\ exists pg, read_group t g pg /\ IsSubmitted pg = false /\ ids <> [] /\
        Forall (fun id => present pg (TrimSpace id) = true) ids
  | CallRemoveOne t g id =>
      active_tenant t /\ exists pg, read_group t g pg /\ IsSubmitted pg = false /\
        present pg (TrimSpace id) = true
  | CallSubmit t g uploaderName key =>
      active_tenant t /\ blank key = false /\ blank uploaderName = false /\
      exists pg, read_group t g pg /\ IsSubmitted pg = false /\ pg_items pg <> []
  end.

Lemma require_active t : requireActiveTenant find t = Ok tt -> active_tenant t.
Proof.
  unfold requireActiveTenant, active_tenant. destruct (find t) as [row|]; [|done].
  rewrite refuse_false, negb_false_iff. intros [? _]. by exists row.
Qed.

Lemma load_read t g pg : loadForMutation find bank_group t g = Ok pg ->
  active_tenant t /\ read_group t g pg.
Proof.
  unfold loadForMutation, read_group. destruct (requireActiveTenant find t) as [[]|] eqn:Ea; [|done].
  rewrite refuse_false. intros [_ H]. split; [by apply require_active|].
  destruct (bank_group t (TrimSpace g)) as [dg|]; [|done]. by exists dg.
Qed.

Lemma ValidateContent_trim s : ValidateContent s = Ok tt -> ValidateContent (TrimSpace s) = Ok tt.
Proof. unfold ValidateContent. by rewrite TrimSpace_idem. Qed.

Lemma check_payments_Ok l out : check_payments l = Ok out ->
  Forall payment_ok out /\ List.length out = List.length l.
Proof.
  revert out. induction l as [|p l IH]; intros out; cbn [check_payments]; [by intros [= <-]|].
  destruct (ValidateContent (dp_Content p)) as [[]|] eqn:Ev; [|done].
  rewrite !refuse_false. intros (Ha & Hd & H). destruct (check_payments l) as [out'|]; [|done].
  injection H as <-. destruct (IH out' eq_refl) as [Hf Hl]. cbn. split; [|lia].
  constructor; [|done]. unfold payment_ok. cbn. split_and!; [by apply ValidateContent_trim|lia..].
Qed.

(** Only decidable writes reach the bank: whatever is asked of the service and whatever the
    bank answers, a request adds at most one write, and that write is a creation of a
    bounded group of well-formed payments or a change of a group which the bank's own
    reading shows not submitted, and which holds every item named; always for an active
    tenant. *)
Theorem group_writes_gated c calls :
  let '(calls', _) := dda_exec c calls in
  calls' = calls \/ exists w, calls' = (calls ++ [w])%list /\ allowed w.
Proof.
  destruct c as [t l k|t g ids|t g id|t g u k]; cbn [dda_exec].
  - unfold CreatePaymentGroup, bindM, liftM, throwM, retM.
    destruct (requireActiveTenant find t) as [[]|] eqn:Ea; [|by left].
    destruct (blank k) eqn:Ek; [by left|]. case_bool_decide as El; [by left|].
    destruct (Nat.ltb_spec maxDDAGroupPayments (List.length l)); [by left|].
    destruct (check_payments l) as [ps|] eqn:Ep; [|by left].
    apply check_payments_Ok in Ep as [Hf Hl].
    assert (Hall : allowed (CallCreate t {| dgr_TenantID := t; dgr_Payments := ps;
                                            dgr_IdempotencyKey := k |})).
    { cbn. split_and!; [by apply require_active|done|done|intros ->; by destruct l|lia|done]. }
    destruct (bank_create _) as [dg|]; cbn [map_err]; [|right; by eexists].
    destruct (blank (dg_ID dg)); right; by eexists.
  - unfold RemovePaymentGroupItems, bindM, liftM, throwM, call.
    destruct (loadForMutation find bank_group t g) as [pg|] eqn:Eg; [|by left].
    apply load_read in Eg as [Ha Hr]. case_bool_decide; [by left|].
    destruct (RemoveItems pg ids) as [pg'|] eqn:Ei; [|by left].
    apply RemoveItems_Ok in Ei as (Hs & Hne & Hf & _). right. eexists. split; [done|]. cbn.
    split; [done|]. exists pg. split_and!; [done..|]. eapply Forall_impl; [exact Hf|]. by intros ? [_ ?].
  - unfold RemovePaymentGroupItem, bindM, liftM, throwM, call.
    destruct (loadForMutation find bank_group t g) as [pg|] eqn:Eg; [|by left].
    apply load_read in Eg as [Ha Hr]. case_bool_decide; [by left|].
    destruct (RemoveItems pg [TrimSpace id]) as [pg'|] eqn:Ei; [|by left].
    apply RemoveItems_Ok in Ei as (Hs & _ & Hf & _). apply Forall_inv in Hf as [_ Hp].
    right. eexists. split; [done|]. cbn.
    split; [done|]. by exists pg.
  - unfold SubmitPaymentGroup, bindM, liftM, throwM, retM, call.
    destruct (blank k) eqn:Ek; [by left|]. destruct (blank u) eqn:Eu; [by left|].
    destruct (loadForMutation find bank_group t g) as [pg|] eqn:Eg; [|by left].
    apply load_read in Eg as [Ha Hr]. destruct (IsSubmitted pg) eqn:Es; [by left|].
    destruct (SubmitForApproval pg) as [pg'|] eqn:Esub; [|by left].
    right. eexists. split; [done|]. cbn. split_and!; [done|done|done|]. exists pg.
    split_and!; [done|done|]. unfold SubmitForApproval in Esub. rewrite Es in Esub.
    by case_bool_decide.
Qed.
End gated.

(** The group that is read and the group that is written may carry different names: the
    decision is made on the trimmed identifier and the write names the identifier as given. *)
Theorem group_written_under_raw_id :
  let find _ := Ok {| tenant_id := "t"; tenant_name := "n"; tenant_active := true;
                      tenant_createdAt := zeroTime; tenant_accountID := "" |} in
  let item := {| di_ID := "i1"; di_Content := "12345678909"; di_AmountCents := 100;
                 di_DueDate := zeroTime; di_Status := ""; di_ProductType := "";
                 di_ErrorMessage := ""; di_Overdue := false |} in
  let bank_group _ g := if bool_decide (g = "g1") then Ok {| dg_ID := "g1"; dg_Items := [item] |}
                        else Err ErrNotFound in
  SubmitPaymentGroup find bank_group (fun _ => Ok tt) "t" " g1" "ana" "k" [] =
  ([CallSubmit "t" " g1" "ana" "k"], Ok tt).
Proof. vm_compute. reflexivity. Qed.
