(* ===== verification/BankSurfaces.v ===== *)
(** internal/ports: the bank's surfaces the use-cases and the router share.  pixbacen.go,
    boletolist.go, plainboleto.go, acquirerstatement.go and the provider interfaces of
    ports.go: each interface is a record of operations over a world, which is whatever the
    bank and the network keep. *)
From S2P Require Import Prelude GoStrings GoTime Shared Ports BankPorts PaymentGroups.

(** * Payload locations *)
Record PixLocation := {
  pl_ID : Z; pl_Location : string; pl_TipoCob : string; pl_TxID : string; pl_CreatedAt : Time
}.
Record PixLocationFilter := {
  plof_Start : Time; plof_End : Time; plof_TipoCob : string; plof_TxIDPresent : option bool;
  plof_Page : Z; plof_PageSize : Z
}.
Record PixPage := { pp_Page : Z; pp_PageSize : Z; pp_TotalItems : Z; pp_TotalPages : Z }.
Record PixLocationList := { pll_Locations : list PixLocation; pll_PixPage : PixPage }.

(** * Received PIX and refunds *)
Notation PixRefundNature := string (only parsing).
Definition RefundOriginal : PixRefundNature := "ORIGINAL".
Definition RefundWithdrawal : PixRefundNature := "RETIRADA".
Definition RefundMEDOperational : PixRefundNature := "MED_OPERACIONAL".
Definition RefundMEDFraud : PixRefundNature := "MED_FRAUDE".
Record PixRefundRequest := {
  rrq_AmountCents : Z; rrq_Nature : PixRefundNature; rrq_Description : string
}.
Record PixRefund := {
  prf_ID : string; prf_ReturnID : string; prf_AmountCents : Z; prf_Nature : PixRefundNature;
  prf_Description : string; prf_Status : string; prf_Reason : string; prf_RequestedAt : Time;
  prf_SettledAt : Time
}.
Record ReceivedPix := {
  rpx_EndToEndID : string; rpx_TxID : string; rpx_AmountCents : Z; rpx_CreditorKey : string;
  rpx_ReceivedAt : Time; rpx_PayerInfo : string; rpx_Refunds : list PixRefund
}.
Record ReceivedPixFilter := {
  rpf_Start : Time; rpf_End : Time; rpf_TxID : string; rpf_TxIDPresent : option bool;
  rpf_RefundPresent : option bool; rpf_PayerTaxID : string; rpf_Page : Z; rpf_PageSize : Z
}.
Record ReceivedPixList := { rpl_Received : list ReceivedPix; rpl_PixPage : PixPage }.

(** * Batches of due-date charges, and lists of charges *)
Record PixDueChargeBatchItem := {
  bti_TxID : string; bti_Status : string; bti_Problem : string; bti_CreatedAt : Time
}.
Record PixDueChargeBatch := {
  btc_ID : string; btc_Description : string; btc_CreatedAt : Time; btc_Items : list
  PixDueChargeBatchItem
}.
Record PixDueChargeBatchFilter := {
  btf_Start : Time; btf_End : Time; btf_Page : Z; btf_PageSize : Z
}.
Record PixDueChargeBatchList := { btl_Batches : list PixDueChargeBatch; btl_PixPage : PixPage }.
Record PixDueChargeList := { pdl_Charges : list PixDueChargeResult; pdl_PixPage : PixPage }.
Record PixChargeList := {
  pcl_Charges : list PixChargeResult; pcl_Page : Z; pcl_PageSize : Z; pcl_TotalItems : Z;
  pcl_TotalPages : Z
}.

(** * Boletos, statements, the acquirer *)
Record BoletoDocument := {
  bdoc_ContentType : string; bdoc_Filename : string; bdoc_Content : bytes
}.
Record BoletoListFilter := {
  blf_PaymentDateFrom : Time; blf_PaymentDateTo : Time; blf_DueDateFrom : Time; blf_DueDateTo
  : Time; blf_CreditDateFrom : Time; blf_CreditDateTo : Time; blf_Status : string;
  blf_ExternalReferenceID : string; blf_Page : Z; blf_PageSize : Z
}.
Record BoletoList := {
  bll_Boletos : list BoletoResult; bll_Page : Z; bll_PageSize : Z; bll_TotalItems : Z;
  bll_TotalPages : Z
}.
Record StatementEntry := {
  ste_ID : string; ste_Date : Time; ste_AmountCents : Z; ste_Kind : string; ste_Description :
  string
}.
Record Statement := { stm_Entries : list StatementEntry }.
Record StatementFilter := { stf_Start : Time; stf_End : Time }.
Record Receivable := {
  rcv_ReceivableID : string; rcv_TransactionID : string; rcv_LocalRef : string; rcv_BrandName
  : string; rcv_PaymentType : string; rcv_Type : string; rcv_Status : string; rcv_Origin :
  string; rcv_Installment : Z; rcv_Installments : Z; rcv_InterestType : string;
  rcv_GrossAmountCents : Z; rcv_FeeCents : Z; rcv_DiscountCents : Z; rcv_NetAmountCents : Z;
  rcv_MDR : Z; rcv_ExpectedDate : Time; rcv_PaymentDate : Time; rcv_TransactionTime : Time
}.
Record CardTransaction := {
  ctx_ID : string; ctx_LocalRef : string; ctx_AuthCode : string; ctx_AuthorizerRef : string;
  ctx_BrandName : string; ctx_PaymentType : string; ctx_Status : string; ctx_Origin : string;
  ctx_EntryMode : string; ctx_Installments : Z; ctx_InterestType : string; ctx_CurrencyCode :
  string; ctx_TerminalID : string; ctx_FraudAnalysis : string; ctx_AmountCents : Z;
  ctx_OccurredAt : Time
}.
Record AcquirerStatementFilter := {
  asf_Start : Time; asf_End : Time; asf_Page : Z; asf_PageSize : Z
}.
Record AcquirerPage := { aqp_Page : Z; aqp_LastPage : Z; aqp_Items : Z }.
Record ReceivableList := { rvl_Receivables : list Receivable; rvl_AcquirerPage : AcquirerPage }.
Record CardTransactionList := {
  ctl_Transactions : list CardTransaction; ctl_AcquirerPage : AcquirerPage
}.

(** * Interfaces

    Every operation names the tenant it acts for. *)
Record BankProvider (W : Type) := {
  bank_CreateCharge : string -> ChargeRequest -> M W error ChargeResult;
  bank_GetCharge : string -> string -> M W error ChargeResult
}.
Record PixProvider (W : Type) := {
  pix_CreateImmediateCharge : string -> ChargeRequest -> Z -> M W error PixChargeResult;
  pix_GetImmediateCharge : string -> string -> M W error PixChargeResult;
  pix_ListImmediateCharges : string -> PixListFilter -> M W error PixChargeList
}.
Record PixDueChargeProvider (W : Type) := {
  due_CreateDueCharge : string -> PixDueChargeRequest -> M W error PixDueChargeResult;
  due_GetDueCharge : string -> string -> M W error PixDueChargeResult;
  due_UpdateDueCharge : string -> string -> PixDueChargeRequest -> M W error PixDueChargeResult
}.
Record CheckoutProvider (W : Type) := {
  checkout_CreateCheckoutSession : string -> CheckoutRequest -> M W error CheckoutResult;
  checkout_GetCheckoutSession : string -> string -> M W error CheckoutResult;
  checkout_CancelCheckoutSession : string -> string -> M W error CheckoutResult
}.
Record BoletoProvider (W : Type) := {
  boleto_CreateBoleto : string -> BoletoRequest -> M W error BoletoResult;
  boleto_GetBoleto : string -> string -> M W error BoletoResult;
  boleto_CancelBoleto : string -> string -> M W error BoletoResult;
  boleto_GetBoletoByBankRef : string -> string -> M W error BoletoResult;
  boleto_GetBoletoPDF : string -> string -> M W error BoletoDocument;
  boleto_UpdateBoleto : string -> string -> BoletoPatch -> M W error BoletoResult
}.
Record DDAProvider (W : Type) := {
  dda_ListOpenBoletos : string -> M W error (list DDABoleto);
  dda_CreatePaymentGroup : string -> DDAGroupRequest -> M W error DDAGroup;
  dda_GetPaymentGroup : string -> string -> M W error DDAGroup;
  dda_RemovePaymentGroupItems : string -> string -> list string -> M W error unit;
  dda_RemovePaymentGroupItem : string -> string -> string -> M W error unit;
  dda_SubmitPaymentGroup : string -> string -> string -> string -> M W error unit
}.
Record StatementProvider (W : Type) := {
  statement_GetStatement : string -> StatementFilter -> M W error Statement
}.
Record PixChargeReviser (W : Type) := {
  reviser_CreateImmediateChargeAutoTxID : string -> ChargeRequest -> Z -> M W error PixChargeResult;
  reviser_ReviseImmediateCharge : string -> string -> ChargeRequest -> Z -> M W error PixChargeResult
}.
Record PixDueChargeReviser (W : Type) := {
  duereviser_ReviseDueCharge : string -> string -> PixDueChargeRequest -> M W error PixDueChargeResult
}.
Record PixDueChargeLister (W : Type) := {
  duelister_ListDueCharges : string -> PixListFilter -> M W error PixDueChargeList
}.
Record PixLocationProvider (W : Type) := {
  location_CreateLocation : string -> string -> M W error PixLocation;
  location_ListLocations : string -> PixLocationFilter -> M W error PixLocationList;
  location_GetLocation : string -> Z -> M W error PixLocation;
  location_UnlinkLocationTxID : string -> Z -> M W error PixLocation
}.
Record PixReceivedProvider (W : Type) := {
  received_GetReceivedPix : string -> string -> M W error ReceivedPix;
  received_ListReceivedPix : string -> ReceivedPixFilter -> M W error ReceivedPixList;
  received_RequestRefund : string -> string -> string -> PixRefundRequest -> M W error PixRefund;
  received_GetRefund : string -> string -> string -> M W error PixRefund
}.
Record PixDueChargeBatchProvider (W : Type) := {
  batch_CreateBatch : string -> string -> string -> list PixDueChargeRequest -> M W error unit;
  batch_ReviseBatch : string -> string -> string -> list PixDueChargeRequest -> M W error unit;
  batch_GetBatch : string -> string -> M W error PixDueChargeBatch;
  batch_ListBatches : string -> PixDueChargeBatchFilter -> M W error PixDueChargeBatchList
}.
Record AcquirerStatementProvider (W : Type) := {
  acquirer_ListReceivables : string -> AcquirerStatementFilter -> M W error ReceivableList;
  acquirer_ListCardTransactions : string -> AcquirerStatementFilter -> M W error CardTransactionList
}.
Record PlainBoletoProvider (W : Type) := {
  plain_CreatePlainBoleto : string -> BoletoRequest -> M W error BoletoResult;
  plain_GetPlainBoleto : string -> string -> M W error BoletoResult;
  plain_UpdatePlainBoleto : string -> string -> BoletoPatch -> M W error BoletoResult;
  plain_CancelPlainBoleto : string -> string -> M W error unit;
  plain_GetPlainBoletoPDF : string -> string -> M W error BoletoDocument
}.
Record BoletoLister (W : Type) := {
  blister_ListBoletos : string -> BoletoListFilter -> M W error BoletoList
}.
Arguments bank_CreateCharge {W}.
Arguments bank_GetCharge {W}.
Arguments pix_CreateImmediateCharge {W}.
Arguments pix_GetImmediateCharge {W}.
Arguments pix_ListImmediateCharges {W}.
Arguments due_CreateDueCharge {W}.
Arguments due_GetDueCharge {W}.
Arguments due_UpdateDueCharge {W}.
Arguments checkout_CreateCheckoutSession {W}.
Arguments checkout_GetCheckoutSession {W}.
Arguments checkout_CancelCheckoutSession {W}.
Arguments boleto_CreateBoleto {W}.
Arguments boleto_GetBoleto {W}.
Arguments boleto_CancelBoleto {W}.
Arguments boleto_GetBoletoByBankRef {W}.
Arguments boleto_GetBoletoPDF {W}.
Arguments boleto_UpdateBoleto {W}.
Arguments dda_ListOpenBoletos {W}.
Arguments dda_CreatePaymentGroup {W}.
Arguments dda_GetPaymentGroup {W}.
Arguments dda_RemovePaymentGroupItems {W}.
Arguments dda_RemovePaymentGroupItem {W}.
Arguments dda_SubmitPaymentGroup {W}.
Arguments statement_GetStatement {W}.
Arguments reviser_CreateImmediateChargeAutoTxID {W}.
Arguments reviser_ReviseImmediateCharge {W}.
Arguments duereviser_ReviseDueCharge {W}.
Arguments duelister_ListDueCharges {W}.
Arguments location_CreateLocation {W}.
Arguments location_ListLocations {W}.
Arguments location_GetLocation {W}.
Arguments location_UnlinkLocationTxID {W}.
Arguments received_GetReceivedPix {W}.
Arguments received_ListReceivedPix {W}.
Arguments received_RequestRefund {W}.
Arguments received_GetRefund {W}.
Arguments batch_CreateBatch {W}.
Arguments batch_ReviseBatch {W}.
Arguments batch_GetBatch {W}.
Arguments batch_ListBatches {W}.
Arguments acquirer_ListReceivables {W}.
Arguments acquirer_ListCardTransactions {W}.
Arguments plain_CreatePlainBoleto {W}.
Arguments plain_GetPlainBoleto {W}.
Arguments plain_UpdatePlainBoleto {W}.
Arguments plain_CancelPlainBoleto {W}.
Arguments plain_GetPlainBoletoPDF {W}.
Arguments blister_ListBoletos {W}.
