(* ===== verification/WebhookRegistration.v ===== *)
(** internal/app/webhook_registration.go and webhook_reconcile.go: registering a tenant's
    callback address with the bank, and the periodic sweep that repairs it. *)
From S2P Require Import Prelude GoStrings GoCrypto Shared Tenants Capabilities WebhookRefs.

Definition webhookCallbackPathPrefix : string := "/webhooks/c6/".

(** * Health of a registration *)
Inductive RegistrationHealth :=
| RegistrationHealthLive | RegistrationHealthStale | RegistrationHealthAbsent
| RegistrationHealthUnknown.
#[export] Instance RegistrationHealth_eq_dec : EqDecision RegistrationHealth.
Proof. solve_decision. Defined.

Definition TrimPrefix (s p : string) : string :=
  if HasPrefix s p
  then String.substring (String.length p) (String.length s - String.length p) s
  else s.

(** [refs]: the lookup of the durable references, if wired. *)
Definition ClassifyWebhookRegistration (refs : option (bytes -> res (option string)))
    (baseURL tenantID registeredURL : string) : RegistrationHealth :=
  let prefix := baseURL ++ webhookCallbackPathPrefix in
  if negb (HasPrefix registeredURL prefix) then RegistrationHealthStale
  else
    let ref := TrimPrefix registeredURL prefix in
    if bool_decide (ref = "") then RegistrationHealthStale
    else
      match refs with
      | None => RegistrationHealthLive
      | Some lookup =>
          match lookup (Sum ref) with
          | Err _ => RegistrationHealthUnknown
          | Ok None => RegistrationHealthStale
          | Ok (Some owner) =>
              if negb (bool_decide (owner = tenantID)) then RegistrationHealthStale
              else RegistrationHealthLive
          end
      end.

(** * The bank's channels

    Where a notification channel is addressed at the bank, and the two calls of the bank the
    service makes on it; the bank itself is a parameter. *)
Inductive channel :=
| PixChannel (tenantID chave : string)
| RecChannel (tenantID : string)
| CobRChannel (tenantID : string)
| ServiceChannel (tenantID service : string).

Record Registrar (P : Type) := {
  registered_url : channel -> P -> res string;             (* GetWebhook and its siblings *)
  register_url : channel -> string -> P -> P * res unit    (* RegisterWebhook … *)
}.
Arguments registered_url {P} _ _ _.
Arguments register_url {P} _ _ _ _.

Inductive registrationState := registrationLive | registrationStale | registrationUnknown.
Definition registration_state (h : RegistrationHealth) : registrationState :=
  match h with
  | RegistrationHealthLive => registrationLive
  | RegistrationHealthUnknown => registrationUnknown
  | _ => registrationStale
  end.

Inductive gateDecision := gateSatisfied | gateNeedsRegistration | gateAmbiguous.

(** The world of a registration: the references' store, the bank, and the random bytes the
    generator will deliver, in order. *)
Record RegWorld (P : Type) := {
  rw_refs : WebhookRefStore;
  rw_bank : P;
  rw_entropy : list (option bytes)
}.
Arguments Build_RegWorld {P} _ _ _.
Arguments rw_refs {P} _.
Arguments rw_bank {P} _.
Arguments rw_entropy {P} _.

Section service.
Context {P : Type} (bank : Registrar P).

(** The service's wiring: the creditor key in the tenant's credential, the tenant's row (if
    the reader is wired), whether the references' lookup and the two optional registrars are
    wired, and the callback origin, already trimmed by the constructor. *)
Record RegistrationService := {
  creds : string -> res string;
  tenants : option (string -> res Tenant);
  refs_wired : bool;
  rec_wired : bool;
  services : list string;
  baseURL : string
}.
Context (svc : RegistrationService).

(** What the constructor makes of the configured origin. *)
Fixpoint drop_slashes (rev_url : bytes) : bytes :=
  match rev_url with
  | c :: rest => if Ascii.eqb c "/" then drop_slashes rest else rev_url
  | [] => []
  end.
Definition callback_origin (configured : string) : string :=
  string_of (List.rev (drop_slashes (List.rev (bytes_of (TrimSpace configured))))).

Definition ready : bool := negb (bool_decide (baseURL svc = "")).
Definition refs_of (w : RegWorld P) : option (bytes -> res (option string)) :=
  if refs_wired svc then Some (LookupWebhookRef (rw_refs w)) else None.

Definition tenantMayRegister (tenantID : string) : bool :=
  match tenants svc with
  | None => true
  | Some find => match find tenantID with Err _ => false | Ok t => tenant_active t end
  end.

Definition channelsFor (tenantID chave : string) : list channel :=
  [PixChannel tenantID chave]
  ++ (if rec_wired svc then [RecChannel tenantID; CobRChannel tenantID] else [])
  ++ map (ServiceChannel tenantID) (services svc).

(** The verdict over every channel, in order; [needs] is what the channels before showed. *)
Fixpoint gate_from (needs : bool) (tenantID : string) (w : RegWorld P) (channels : list channel)
    : gateDecision :=
  match channels with
  | [] => if needs then gateNeedsRegistration else gateSatisfied
  | ch :: rest =>
      match registered_url bank ch (rw_bank w) with
      | Err e => if errors_Is e ErrNotFound then gate_from true tenantID w rest
                 else gateAmbiguous
      | Ok url =>
          match registration_state
                  (ClassifyWebhookRegistration (refs_of w) (baseURL svc) tenantID url) with
          | registrationLive => gate_from needs tenantID w rest
          | registrationStale => gate_from true tenantID w rest
          | registrationUnknown => gateAmbiguous
          end
      end
  end.
Definition gate : string -> RegWorld P -> list channel -> gateDecision := gate_from false.

Definition registerChannel (ch : channel) (callbackURL : string) (w : RegWorld P)
    : RegWorld P * bool :=
  let '(p, r) := register_url bank ch callbackURL (rw_bank w) in
  let w := Build_RegWorld (rw_refs w) p (rw_entropy w) in
  match r with
  | Err _ => (w, false)
  | Ok _ =>
      match registered_url bank ch p with
      | Err _ => (w, false)
      | Ok got => (w, bool_decide (got = callbackURL))
      end
  end.
Fixpoint registerChannels (channels : list channel) (callbackURL : string) (w : RegWorld P)
    : RegWorld P * list bool :=
  match channels with
  | [] => (w, [])
  | ch :: rest =>
      let '(w, ok) := registerChannel ch callbackURL w in
      let '(w, oks) := registerChannels rest callbackURL w in
      (w, ok :: oks)
  end.

(** One reading of the generator, and the mint. *)
Definition mint_ref (tenantID : string) (w : RegWorld P) : RegWorld P * res string :=
  let e := match rw_entropy w with e :: _ => e | [] => None end in
  let '(refs, r) := MintWebhookRef e tenantID (rw_refs w) in
  (Build_RegWorld refs (rw_bank w) (tail (rw_entropy w)), r).

Definition TryRegister (tenantID : string) (w : RegWorld P) : RegWorld P :=
  if negb ready then w
  else
    let tenantID := TrimSpace tenantID in
    if bool_decide (tenantID = "") then w
    else if negb (tenantMayRegister tenantID) then w
    else
      match creds svc tenantID with
      | Err _ => w
      | Ok creditorKey =>
          let chave := TrimSpace creditorKey in
          if bool_decide (chave = "") then w
          else
            let channels := channelsFor tenantID chave in
            match gate tenantID w channels with
            | gateSatisfied => w
            | gateAmbiguous => w
            | gateNeedsRegistration =>
                match mint_ref tenantID w with
                | (w, Err _) => w
                | (w, Ok ref) =>
                    fst (registerChannels channels
                           (baseURL svc ++ webhookCallbackPathPrefix ++ ref) w)
                end
            end
      end.

(** webhook_reconcile.go; [cancelled i]: the context is done before the [i]-th tenant. *)
Fixpoint sweep_loop (cancelled : nat -> bool) (i : nat) (ids : list string) (w : RegWorld P)
    : RegWorld P :=
  match ids with
  | [] => w
  | id :: rest => if cancelled i then w
                  else sweep_loop cancelled (S i) rest (TryRegister id w)
  end.
Definition Sweep (enabled : bool) (enumerator : res (list string)) (cancelled : nat -> bool)
    (w : RegWorld P) : RegWorld P * res Z :=
  if negb enabled then (w, Ok 0)
  else
    match enumerator with
    | Err e => (w, Err e)
    | Ok tenantIDs =>
        (sweep_loop cancelled 0 tenantIDs w, Ok (Z.of_nat (List.length tenantIDs)))
    end.
End service.

Lemma TrimPrefix_app p s : TrimPrefix (p ++ s) p = s.
Proof.
  unfold TrimPrefix. rewrite prefix_app, substring_skip, length_append.
  replace (_ - _)%nat with (String.length s) by lia. apply substring_all.
Qed.

(** * Repair *)
Section repair.
Context {P S : Type} `{EqDecision S} (bank : Registrar P) (slot : channel -> S).

(** What the bank promises: it keeps one address per slot, and a call for one slot, whether
    it is taken, refused or lost, leaves the others alone.  Any call may fail. *)
Class BankKeepsAddresses : Prop := {
  read_by_slot : forall ch ch' p, slot ch = slot ch' ->
    registered_url bank ch p = registered_url bank ch' p;
  register_aside : forall ch url p ch', slot ch' <> slot ch ->
    registered_url bank ch' (fst (register_url bank ch url p)) = registered_url bank ch' p
}.
Context `{!BankKeepsAddresses}.
Context (svc : RegistrationService).
Implicit Types (w : RegWorld P) (t : string).

Definition chave_of (t : string) : string :=
  match creds svc t with Ok key => TrimSpace key | Err _ => "" end.
Definition channels_of (t : string) : list channel := channelsFor svc t (chave_of t).
(** A tenant whose registration is complete and allowed. *)
Definition eligible (t : string) : Prop :=
  TrimSpace t = t /\ t <> "" /\ tenantMayRegister svc t = true /\ chave_of t <> "".
(** The bank holds, for a channel, an address that authenticates the tenant. *)
Definition live_at (w : RegWorld P) (t : string) (ch : channel) : Prop :=
  exists url, registered_url bank ch (rw_bank w) = Ok url /\
    ClassifyWebhookRegistration (refs_of svc w) (baseURL svc) t url = RegistrationHealthLive.
Definition live (w : RegWorld P) (t : string) : Prop := Forall (live_at w t) (channels_of t).
(** Two tenants whose channels the bank keeps apart. *)
Definition apart (t1 t2 : string) : Prop :=
  forall ch1 ch2, In ch1 (channels_of t1) -> In ch2 (channels_of t2) -> slot ch1 <> slot ch2.
(** The generator's next outputs: whole, and not digests already given out. *)
Definition fresh_entropy (w : RegWorld P) (n : nat) : Prop :=
  exists bs, take n (rw_entropy w) = map Some bs /\ List.length bs = n /\
    Forall (fun b => List.length b = refBytes) bs /\
    NoDup (map (fun b => hex (Sum (RawURLEncoding b))) bs) /\
    forall b, In b bs -> rw_refs w !! hex (Sum (RawURLEncoding b)) = None.

(** ** The gate *)
Lemma refs_definite w url t :
  ClassifyWebhookRegistration (refs_of svc w) (baseURL svc) t url <> RegistrationHealthUnknown.
Proof.
  unfold ClassifyWebhookRegistration, refs_of. destruct (negb _); [done|].
  case_bool_decide; [done|]. destruct (refs_wired svc); [|done]. unfold LookupWebhookRef.
  rewrite bool_decide_false by apply Sum_not_empty. by repeat case_match.
Qed.

Lemma live_state w t url :
  registration_state (ClassifyWebhookRegistration (refs_of svc w) (baseURL svc) t url) =
  if decide (ClassifyWebhookRegistration (refs_of svc w) (baseURL svc) t url = RegistrationHealthLive)
  then registrationLive else registrationStale.
Proof.
  pose proof (refs_definite w url t).
  by destruct (ClassifyWebhookRegistration _ _ _ _).
Qed.

Lemma gate_live w t chs : Forall (live_at w t) chs -> gate bank svc t w chs = gateSatisfied.
Proof.
  unfold gate. induction 1 as [|ch chs (url & E & Hl) _ IH]; [done|]. cbn [gate_from].
  by rewrite E, Hl.
Qed.

Lemma gate_satisfied w t chs : forall needs, gate_from bank svc needs t w chs = gateSatisfied ->
  needs = false /\ Forall (live_at w t) chs.
Proof.
  induction chs as [|ch chs IH]; intros needs; cbn [gate_from]; [by destruct needs|].
  destruct (registered_url bank ch (rw_bank w)) as [url|e] eqn:E.
  - rewrite live_state. case_decide as Hl; intros [Hn Hrest]%IH; [|done].
    split; [done|]. constructor; [by exists url|done].
  - destruct (errors_Is e ErrNotFound); [|done]. by intros [? _]%IH.
Qed.

(** ** Registering every channel under one address *)
Lemma register_world url ch w : let '(w', ok) := registerChannel bank ch url w in
  rw_refs w' = rw_refs w /\ rw_entropy w' = rw_entropy w /\
  (forall ch', slot ch' <> slot ch ->
     registered_url bank ch' (rw_bank w') = registered_url bank ch' (rw_bank w)) /\
  (ok = true -> registered_url bank ch (rw_bank w') = Ok url).
Proof.
  unfold registerChannel. pose proof (register_aside ch url (rw_bank w)) as Ha.
  destruct (register_url bank ch url (rw_bank w)) as [p [u|e]]; [|by split_and!].
  destruct (registered_url bank ch p) as [got|e] eqn:Eg; [|by split_and!].
  split_and!; [done..|]. cbn [rw_bank]. rewrite Eg. by intros ->%bool_decide_eq_true.
Qed.

Lemma registerChannels_reads url chs : forall w, let '(w', oks) := registerChannels bank chs url w in
  rw_refs w' = rw_refs w /\ rw_entropy w' = rw_entropy w /\
  (forall ch', slot ch' ∉ map slot chs ->
     registered_url bank ch' (rw_bank w') = registered_url bank ch' (rw_bank w)) /\
  (Forall (eq true) oks -> forall ch', slot ch' ∈ map slot chs ->
     registered_url bank ch' (rw_bank w') = Ok url).
Proof.
  induction chs as [|ch chs IH]; intros w; cbn [registerChannels].
  { split_and!; [done..|]. by intros _ ch' ?%elem_of_nil. }
  pose proof (register_world url ch w) as H1. destruct (registerChannel bank ch url w) as [w1 ok].
  specialize (IH w1). destruct (registerChannels bank chs url w1) as [w2 oks].
  destruct H1 as (Hr1 & He1 & Ha1 & Hok1), IH as (Hr2 & He2 & Ha2 & Hok2). split_and!; [congruence..| |].
  - intros ch' Hni. cbn [map] in Hni. apply not_elem_of_cons in Hni as [Hne Hni]. by rewrite Ha2, Ha1.
  - intros [<- Hoks]%Forall_cons ch' Hin. destruct (decide (slot ch' ∈ map slot chs)) as [Hc|Hc]; [by apply Hok2|].
    rewrite Ha2 by done. cbn [map] in Hin. apply elem_of_cons in Hin as [Es|]; [|done].
    rewrite (read_by_slot _ ch) by done. by apply Hok1.
Qed.

(** ** One attempt *)
Context (wired : ready svc = true).

Definition address (b : bytes) : string :=
  baseURL svc ++ webhookCallbackPathPrefix ++ RawURLEncoding b.
Definition digest_of (b : bytes) : string := hex (Sum (RawURLEncoding b)).

Lemma eligible_steps w t : eligible t ->
  TryRegister bank svc t w =
  match gate bank svc t w (channels_of t) with
  | gateNeedsRegistration =>
      match mint_ref t w with
      | (w, Err _) => w
      | (w, Ok ref) =>
          fst (registerChannels bank (channels_of t)
                 (baseURL svc ++ webhookCallbackPathPrefix ++ ref) w)
      end
  | _ => w
  end.
Proof.
  intros (Ht & Hne & Hm & Hk). unfold TryRegister. rewrite wired, Ht. cbn [negb].
  rewrite bool_decide_false, Hm by done. cbn [negb].
  unfold channels_of. unfold chave_of in *. destruct (creds svc t) as [k|e]; [|done].
  rewrite bool_decide_false by done. by destruct (gate _ _ _ _ _).
Qed.

Lemma try_live w t : eligible t -> live w t -> TryRegister bank svc t w = w.
Proof. intros He Hl. rewrite eligible_steps by done. by rewrite gate_live. Qed.

(** Any other tenant is left alone. *)
Lemma try_idle w t : TrimSpace t = t -> ~ eligible t -> TryRegister bank svc t w = w.
Proof.
  intros Ht Hn. unfold TryRegister. rewrite wired, Ht. cbn [negb]. case_bool_decide; [done|].
  destruct (tenantMayRegister svc t) eqn:Em; [|done]. cbn [negb].
  destruct (creds svc t) as [k|e] eqn:Ec; [|done]. case_bool_decide as Ek; [done|].
  destruct Hn. split_and!; [done..|]. unfold chave_of. by rewrite Ec.
Qed.

(** The bank answered all that the attempt asked of it: either it could say what it holds and
    that was in order, or it took every registration and read back what it was given. *)
Definition answered (w : RegWorld P) (t : string) : Prop :=
  match gate bank svc t w (channels_of t) with
  | gateSatisfied => True
  | gateAmbiguous => False
  | gateNeedsRegistration =>
      match mint_ref t w with
      | (_, Err _) => False
      | (w, Ok ref) =>
          Forall (eq true) (snd (registerChannels bank (channels_of t)
            (baseURL svc ++ webhookCallbackPathPrefix ++ ref) w))
      end
  end.

(** The references once one was minted for [t]. *)
Definition minted (t : string) (b : bytes) (refs : WebhookRefStore) : WebhookRefStore :=
  <[digest_of b := t]> (filter (fun p => ~ (p.2 = t /\ p.1 <> digest_of b)) refs).

Lemma address_live w t b : List.length b = refBytes -> rw_refs w !! digest_of b = Some t ->
  ClassifyWebhookRegistration (refs_of svc w) (baseURL svc) t (address b) = RegistrationHealthLive.
Proof.
  intros Hlen Hd. unfold ClassifyWebhookRegistration, address.
  rewrite <- append_assoc, prefix_app, TrimPrefix_app. cbn [negb].
  rewrite bool_decide_false.
  2: { intros E. pose proof (Generate_valid b _ Hlen eq_refl) as Hv. by rewrite E in Hv. }
  unfold refs_of. destruct (refs_wired svc); [|done]. unfold LookupWebhookRef.
  rewrite bool_decide_false by apply Sum_not_empty. unfold digest_of in Hd. rewrite Hd.
  by rewrite bool_decide_true.
Qed.

(** The registrations of other tenants keep their health. *)
Lemma classify_kept w w' t t' b url :
  rw_refs w' = minted t b (rw_refs w) ->
  rw_refs w !! digest_of b = None -> t' <> t ->
  ClassifyWebhookRegistration (refs_of svc w) (baseURL svc) t' url = RegistrationHealthLive ->
  ClassifyWebhookRegistration (refs_of svc w') (baseURL svc) t' url = RegistrationHealthLive.
Proof.
  intros Hr Hf Hne. unfold ClassifyWebhookRegistration, refs_of.
  destruct (negb _); [done|]. case_bool_decide; [done|].
  destruct (refs_wired svc); [|done]. unfold LookupWebhookRef.
  rewrite !bool_decide_false by apply Sum_not_empty. set (d := hex (Sum _)).
  destruct (rw_refs w !! d) as [owner|] eqn:E; [|done]. case_bool_decide; [|done]. subst owner.
  intros _. rewrite Hr. unfold minted. rewrite lookup_insert_ne by congruence.
  enough (filter (fun p => ~ (p.2 = t /\ p.1 <> digest_of b)) (rw_refs w) !! d = Some t') as ->
    by (by rewrite bool_decide_true).
  apply map_lookup_filter_Some. split; [exact E|]. cbn. by intros [-> _].
Qed.

(** ** A sweep *)
Lemma fresh_weaken w n : fresh_entropy w (Datatypes.S n) -> fresh_entropy w n.
Proof.
  intros (bs & Ht & Hl & Hlen & Hnd & Hf).
  exists (take n bs). split_and!.
  - rewrite <- (firstn_map Some), <- Ht, take_take. f_equal. lia.
  - rewrite length_take. lia.
  - by apply Forall_take.
  - rewrite <- firstn_map. rewrite <- (take_drop n (map _ bs)) in Hnd.
    by apply NoDup_app in Hnd as [? _].
  - intros b Hb. apply Hf. rewrite <- (take_drop n bs). apply in_or_app. by left.
Qed.

Lemma fresh_mint w t n : eligible t -> fresh_entropy w (Datatypes.S n) ->
  exists b, List.length b = refBytes /\ rw_refs w !! digest_of b = None /\
    let w1 := Build_RegWorld (minted t b (rw_refs w)) (rw_bank w) (tail (rw_entropy w)) in
    mint_ref t w = (w1, Ok (RawURLEncoding b)) /\ fresh_entropy w1 n.
Proof.
  intros He (bs & Ht & Hl' & Hlen & Hnd & Hf).
  destruct bs as [|b bs]; [done|]. destruct (rw_entropy w) as [|e rest] eqn:Ee; [done|].
  cbn [take map] in Ht. injection Ht as -> Ht. exists b.
  apply Forall_cons in Hlen as [Hb Hlen]. cbn [map] in Hnd. apply NoDup_cons in Hnd as [Hni Hnd].
  split_and!; [done|apply Hf; by left|]. cbv zeta. split.
  { unfold mint_ref. rewrite Ee, MintWebhookRef_run by apply He. done. }
  exists bs. cbn [rw_entropy rw_refs tail]. cbn in Hl'. split_and!; [done|lia|done|done|].
  intros b' Hb'. unfold minted. rewrite lookup_insert_ne.
  - apply map_lookup_filter_None. left. apply Hf. by right.
  - intros E. apply Hni. change (hex (Sum (RawURLEncoding b))) with (digest_of b).
    rewrite E. apply list_elem_of_fmap. exists b'. split; [done|]. by apply list_elem_of_In.
Qed.

(** One attempt: no other live tenant is disturbed, and the attempt succeeds when the bank
    answers. *)
Lemma attempt w t n : eligible t -> fresh_entropy w (Datatypes.S n) ->
  let w' := TryRegister bank svc t w in
  fresh_entropy w' n /\ (answered w t -> live w' t) /\
  (forall t', (t' <> t -> apart t' t) -> live w t' -> live w' t').
Proof.
  intros He Hf. cbv zeta. rewrite eligible_steps by done. unfold answered.
  destruct (gate bank svc t w (channels_of t)) eqn:Eg.
  - apply gate_satisfied in Eg as [_ Hl]. split_and!; [by apply fresh_weaken|done|done].
  - destruct (fresh_mint w t n He Hf) as (b & Hb & Hnew & Hm & Hf'). cbv zeta in Hm, Hf'. rewrite Hm.
    pose proof (registerChannels_reads (baseURL svc ++ webhookCallbackPathPrefix ++ RawURLEncoding b)
      (channels_of t) (Build_RegWorld (minted t b (rw_refs w)) (rw_bank w) (tail (rw_entropy w)))) as Hreads.
    destruct (registerChannels _ _ _ _) as [w' oks]. cbn [fst snd rw_refs rw_bank rw_entropy] in *.
    destruct Hreads as (Hr & Hent & Haside & Hok). split_and!.
    + destruct Hf' as (bs & ?). exists bs. by rewrite Hr, Hent.
    + intros Hoks. apply Forall_forall. intros ch Hch. exists (address b).
      split; [apply Hok; [done|by apply list_elem_of_fmap_2]|].
      apply address_live; [done|]. unfold minted in Hr. by rewrite Hr, lookup_insert_eq.
    + intros t' Hap Hlive. destruct (decide (t' = t)) as [->|Hne].
      { by rewrite (gate_live _ _ _ Hlive) in Eg. }
      apply Forall_forall. intros ch Hch. unfold live in Hlive. rewrite Forall_forall in Hlive.
      destruct (Hlive ch Hch) as (url & Hu & Hc). exists url. split.
      * rewrite Haside; [done|]. intros (ch' & E & Hch')%list_elem_of_fmap.
        apply (Hap Hne ch ch'); [..|done]; by apply list_elem_of_In.
      * by eapply classify_kept.
  - split_and!; [by apply fresh_weaken|done|done].
Qed.

(** Tenants the bank keeps apart, as far as they are registered at all. *)
Definition kept_apart (ids : list string) : Prop :=
  forall t1 t2, t1 ∈ ids -> t2 ∈ ids -> t1 <> t2 -> eligible t1 -> eligible t2 -> apart t1 t2.

Lemma attempt_any w t n : TrimSpace t = t -> fresh_entropy w (Datatypes.S n) ->
  let w' := TryRegister bank svc t w in
  fresh_entropy w' n /\ (eligible t -> answered w t -> live w' t) /\
  (forall t', eligible t' -> (t' <> t -> eligible t -> apart t' t) -> live w t' -> live w' t').
Proof.
  intros Ht Hf. cbv zeta. assert (Hd : Decision (eligible t)) by (unfold eligible; apply _).
  destruct (decide (eligible t)) as [He|Hn].
  - destruct (attempt w t n He Hf) as (H1 & H2 & H3). split_and!; [done|done|]. intros t' _ Hap. apply H3. auto.
  - rewrite try_idle by done. split_and!; [by apply fresh_weaken|done|done].
Qed.

Lemma sweep_loop_keeps cancelled ids : forall i w t, Forall (fun t => TrimSpace t = t) ids ->
  eligible t -> (forall t2, t2 ∈ ids -> t <> t2 -> eligible t2 -> apart t t2) ->
  fresh_entropy w (List.length ids) -> live w t -> live (sweep_loop bank svc cancelled i ids w) t.
Proof.
  induction ids as [|t2 ids IH]; intros i w t Htr He Hap Hf Hl; [done|]. cbn [sweep_loop].
  destruct (cancelled i); [done|]. apply Forall_cons in Htr as [Ht2 Htr].
  destruct (attempt_any w t2 (List.length ids) Ht2 Hf) as (H1 & _ & H3).
  apply IH; [done|done|intros; apply Hap; [by right|done..]|done|].
  apply H3; [done| |done]. intros. apply Hap; [by left|done..].
Qed.

Lemma sweep_loop_answered cancelled pre : forall i w t post,
  Forall (fun t => TrimSpace t = t) (pre ++ t :: post) -> NoDup (pre ++ t :: post) ->
  kept_apart (pre ++ t :: post) ->
  fresh_entropy w (List.length (pre ++ t :: post)) ->
  (forall j, (j <= i + List.length pre)%nat -> cancelled j = false) ->
  eligible t -> answered (sweep_loop bank svc cancelled i pre w) t ->
  live (sweep_loop bank svc cancelled i (pre ++ t :: post) w) t.
Proof.
  induction pre as [|t2 pre IH]; intros i w t post Htr Hnd Hap Hf Hc He Ha;
    cbn [app sweep_loop List.length] in *; rewrite Hc in * by lia;
    apply Forall_cons in Htr as [Ht2 Htr]; apply NoDup_cons in Hnd as [Hni Hnd].
  - destruct (attempt_any w t (List.length post) Ht2 Hf) as (H1 & H2 & _).
    apply sweep_loop_keeps; [done|done| |done|by apply H2].
    intros t2 Hin Hne He2. apply Hap; [by left|by right|done..].
  - destruct (attempt_any w t2 _ Ht2 Hf) as (H1 & _ & _). apply IH; [done|done| |done| |done|done].
    + intros t1 t3 Hi1 Hi3. apply Hap; by right.
    + intros j Hj. apply Hc. lia.
Qed.

Lemma sweep_loop_stable cancelled ids i w : Forall (fun t => TrimSpace t = t) ids ->
  Forall (fun t => eligible t -> live w t) ids -> sweep_loop bank svc cancelled i ids w = w.
Proof.
  revert i. induction ids as [|t ids IH]; intros i Htr Hl; [done|]. cbn [sweep_loop].
  destruct (cancelled i); [done|]. apply Forall_cons in Htr as [Ht Htr], Hl as [Hlt Hl].
  assert (Hd : Decision (eligible t)) by (unfold eligible; apply _).
  destruct (decide (eligible t)) as [He|Hn]; [rewrite try_live by auto|rewrite try_idle by done]; by apply IH.
Qed.

End repair.

(** * A bank that keeps one address per key and per account *)
Inductive place := ByKey (chave : string) | ByAccount (tenantID kind : string).
#[export] Instance place_eq_dec : EqDecision place.
Proof. solve_decision. Defined.
Definition place_of (ch : channel) : place :=
  match ch with
  | PixChannel _ k => ByKey k
  | RecChannel t => ByAccount t "rec"
  | CobRChannel t => ByAccount t "cobr"
  | ServiceChannel t s => ByAccount t ("service " ++ s)
  end.
Definition assoc_bank : Registrar (list (place * string)) :=
  {| registered_url := fun ch p =>
       match List.find (fun e => bool_decide (e.1 = place_of ch)) p with
       | Some e => Ok e.2
       | None => Err ErrNotFound
       end;
     register_url := fun ch url p => ((place_of ch, url) :: p, Ok tt) |}.
#[export] Instance assoc_bank_keeps : BankKeepsAddresses assoc_bank place_of.
Proof.
  split.
  - intros ch ch' p E. cbn. by rewrite E.
  - intros ch url p ch' Hne. cbn. by rewrite bool_decide_false by congruence.
Qed.

(** Two active tenants, with the receiving keys given. *)
Definition two_tenants (key1 key2 : string) : RegistrationService :=
  {| creds := fun t => if bool_decide (t = "t1") then Ok key1
                       else if bool_decide (t = "t2") then Ok key2 else Err ErrNotFound;
     tenants := None; refs_wired := true; rec_wired := false; services := ["CHECKOUT"];
     baseURL := callback_origin " https://pay.example/ " |}.
Definition entropy8 : list (option bytes) :=
  map (fun c => Some (sample_entropy c)) ["1"; "2"; "3"; "4"; "5"; "6"; "7"; "8"]%char.
(** The first tenant's key is registered under a foreign address. *)
Definition reg_start : RegWorld (list (place * string)) :=
  Build_RegWorld ∅ [(ByKey "k1", "https://elsewhere.example/hook")] entropy8.


(** Two active tenants that share a receiving key share its one address at the bank: every
    sweep finds the first tenant's registration displaced, registers it again, displaces the
    second's, and so on; no number of the sweeps below settles, and each of them mints two
    references. *)
Theorem shared_key_never_settles :
  let svc := two_tenants "k1" "k1" in
  let sweep w := fst (Sweep assoc_bank svc true (Ok ["t1"; "t2"]) (fun _ => false) w) in
  let rest w := List.length (rw_entropy w) in
  map rest [reg_start; sweep reg_start; sweep (sweep reg_start); sweep (sweep (sweep reg_start))]
  = [8; 6; 4; 2]%nat /\
  ~ live assoc_bank svc (sweep (sweep (sweep reg_start))) "t1".
Proof.
  cbv zeta. split; [vm_compute; reflexivity|].
  intros Hl. apply Forall_inv in Hl. destruct Hl as (url & Hu & Hc).
  vm_compute in Hu. injection Hu as <-. vm_compute in Hc. discriminate Hc.
Qed.
