(* ===== verification/BankIdentity.v ===== *)
(** Which company answers for a bank identity: the credential store
    (adapters/secret/secret.go), the uniqueness checks (app/bank_identity.go) and the
    management operations that change tenants and credentials (app/console.go, app/admin.go). *)
From S2P Require Import Prelude GoStrings GoTime Shared Tenants AuditTrail Ports PixKeys.

(** * The credential store *)
Record BankCredential := {
  bc_TenantID : string;
  bc_BankID : string;
  bc_ClientID : string;
  bc_Secret : string;
  bc_CreditorKey : string
}.
(** The zero value a missing entry reads as. *)
Definition zeroCredential : BankCredential :=
  {| bc_TenantID := ""; bc_BankID := ""; bc_ClientID := ""; bc_Secret := ""; bc_CreditorKey := "" |}.

Definition defaultBankID (bankID : string) : string :=
  if bool_decide (bankID = "") then BankIDC6 else bankID.
Definition credKey (tenantID bankID : string) : string :=
  tenantID ++ String zero (defaultBankID bankID).

Notation credentials := (gmap string BankCredential).
Notation cred_op A := (M credentials error A).

Definition GetBankCredential (creds : credentials) (tenantID bankID : string)
    : res BankCredential :=
  match creds !! credKey tenantID bankID with Some c => Ok c | None => Err ErrNotFound end.

(** The loops over the store list the tenants of the entries that pass a test; the order,
    which Go leaves open, is not read by any caller. *)
Definition tenants_where (test : BankCredential -> bool) (creds : credentials) : list string :=
  map (fun e => bc_TenantID e.2) (List.filter (fun e => test e.2) (map_to_list creds)).

Definition ListTenantsWithC6Credential (creds : credentials) : list string :=
  tenants_where (fun c => bool_decide (defaultBankID (bc_BankID c) = BankIDC6)
                          && negb (bool_decide (bc_ClientID c = ""))) creds.
Definition FindTenantsByCreditorKey (creds : credentials) (bankID creditorKey : string)
    : list string :=
  if bool_decide (creditorKey = "") then []
  else tenants_where (fun c => bool_decide (defaultBankID (bc_BankID c) = defaultBankID bankID)
                               && bool_decide (bc_CreditorKey c = creditorKey)) creds.
Definition FindTenantsByClientID (creds : credentials) (bankID clientID : string)
    : list string :=
  if bool_decide (clientID = "") then []
  else tenants_where (fun c => bool_decide (defaultBankID (bc_BankID c) = defaultBankID bankID)
                               && bool_decide (bc_ClientID c = clientID)) creds.

Definition Store_SetBankCredential (tenantID bankID clientID secret : string) : cred_op unit :=
  abort (bool_decide (tenantID = "")) with (NewValidationError "tenant_id" "is required") ;;
  abort (bool_decide (clientID = "")) with (NewValidationError "client_id" "is required") ;;
  abort (bool_decide (secret = "")) with (NewValidationError "secret" "is required") ;;
  fun creds =>
    let bankID := defaultBankID bankID in
    let cur := default zeroCredential (creds !! credKey tenantID bankID) in
    (<[credKey tenantID bankID :=
         {| bc_TenantID := tenantID; bc_BankID := bankID; bc_ClientID := clientID;
            bc_Secret := secret; bc_CreditorKey := bc_CreditorKey cur |}]> creds, Ok tt).

Definition DeleteBankCredential (tenantID bankID : string) : cred_op unit := fun creds =>
  (delete (credKey tenantID (defaultBankID bankID)) creds, Ok tt).

Definition Store_SetCreditorKey (tenantID creditorKey : string) : cred_op unit :=
  abort (bool_decide (tenantID = "")) with (NewValidationError "tenant_id" "is required") ;;
  abort (bool_decide (creditorKey = "")) with (NewValidationError "creditor_key" "is required") ;;
  do _ <- liftM (validateCreditorKey creditorKey) ;;
  fun creds =>
    let key := credKey tenantID (defaultBankID "") in
    match creds !! key with
    | None => (creds, Err ErrNotFound)
    | Some cur =>
        (<[key := {| bc_TenantID := bc_TenantID cur; bc_BankID := bc_BankID cur;
                     bc_ClientID := bc_ClientID cur; bc_Secret := bc_Secret cur;
                     bc_CreditorKey := creditorKey |}]> creds, Ok tt)
    end.

(** * bank_identity.go *)
Definition find_tenant (tenants : gmap string Tenant) (id : string) : res Tenant :=
  match tenants !! id with Some t => Ok t | None => Err ErrNotFound end.

Fixpoint anyOtherActiveHolder (find : string -> res Tenant) (tenantID : string)
    (holders : list string) : res bool :=
  match holders with
  | [] => Ok false
  | other :: rest =>
      if bool_decide (other = tenantID) then anyOtherActiveHolder find tenantID rest
      else
        match find other with
        | Err e => if errors_Is e ErrNotFound then anyOtherActiveHolder find tenantID rest
                   else Err e
        | Ok t => if tenant_active t then Ok true else anyOtherActiveHolder find tenantID rest
        end
  end.

Definition assertCreditorKeyUnclaimed (creds : credentials) (find : string -> res Tenant)
    (tenantID bankID creditorKey : string) : res unit :=
  if bool_decide (creditorKey = "") then Ok tt
  else
    match anyOtherActiveHolder find tenantID (FindTenantsByCreditorKey creds bankID creditorKey) with
    | Err e => Err (Wrap "resolve creditor key holder" e)
    | Ok taken =>
        refuse taken
          with (NewValidationError "creditor_key"
                  "esta chave PIX já está registrada para outra empresa ativa") ;;
        Ok tt
    end.

Definition assertClientIDUnclaimed (creds : credentials) (find : string -> res Tenant)
    (tenantID bankID clientID : string) : res unit :=
  if bool_decide (clientID = "") then Ok tt
  else
    match anyOtherActiveHolder find tenantID (FindTenantsByClientID creds bankID clientID) with
    | Err e => Err (Wrap "resolve client id holder" e)
    | Ok taken =>
        refuse taken
          with (NewValidationError "client_id"
                  "esta conta do banco já está registrada para outra empresa ativa") ;;
        Ok tt
    end.

(** * The management operations *)
Inductive drop := DropPix (tenantID chave : string) | DropRec (tenantID : string)
                | DropCobR (tenantID : string).

Record Management := {
  mg_tenants : gmap string Tenant;
  mg_creds : credentials;
  mg_certs : gset string;          (* the (tenant, bank) keys that hold a certificate *)
  mg_audit : list Entry;
  mg_evicted : list string;        (* tenants whose cached token was dropped *)
  mg_dropped : list drop           (* deregistrations asked of the bank *)
}.
(** What an operation reads of its environment. *)
Record MgEnv := {
  me_id : string; me_operator : string; me_now : Time; me_append : option error
}.

Notation mg_op A := (M Management error A).

Definition set_tenants (f : gmap string Tenant -> gmap string Tenant) : mg_op unit := fun m =>
  ({| mg_tenants := f (mg_tenants m); mg_creds := mg_creds m; mg_certs := mg_certs m;
      mg_audit := mg_audit m; mg_evicted := mg_evicted m; mg_dropped := mg_dropped m |}, Ok tt).
Definition on_creds {A} (op : cred_op A) : mg_op A := fun m =>
  let '(creds, r) := op (mg_creds m) in
  ({| mg_tenants := mg_tenants m; mg_creds := creds; mg_certs := mg_certs m;
      mg_audit := mg_audit m; mg_evicted := mg_evicted m; mg_dropped := mg_dropped m |}, r).
Definition DeleteBankCertificate (tenantID bankID : string) : mg_op unit := fun m =>
  ({| mg_tenants := mg_tenants m; mg_creds := mg_creds m;
      mg_certs := mg_certs m ∖ {[ credKey tenantID bankID ]};
      mg_audit := mg_audit m; mg_evicted := mg_evicted m; mg_dropped := mg_dropped m |}, Ok tt).
Definition InvalidateToken (tenantID : string) : mg_op unit := fun m =>
  ({| mg_tenants := mg_tenants m; mg_creds := mg_creds m; mg_certs := mg_certs m;
      mg_audit := mg_audit m; mg_evicted := mg_evicted m ++ [tenantID];
      mg_dropped := mg_dropped m |}, Ok tt).
Definition ask_drop (d : drop) : mg_op unit := fun m =>
  ({| mg_tenants := mg_tenants m; mg_creds := mg_creds m; mg_certs := mg_certs m;
      mg_audit := mg_audit m; mg_evicted := mg_evicted m;
      mg_dropped := mg_dropped m ++ [d] |}, Ok tt).
Definition findTenant (id : string) : mg_op Tenant :=
  readM (fun m => map_err (Wrap "resolve tenant") (find_tenant (mg_tenants m) id)).

Section operations.
Context (env : MgEnv).

(** Build the entry and append it. *)
Definition audited (entry : res Entry) : mg_op unit :=
  do e <- liftM (map_err (Wrap "build audit entry") entry) ;;
  match me_append env with
  | Some err => throwM (Wrap "append audit entry" err)
  | None => fun m =>
      ({| mg_tenants := mg_tenants m; mg_creds := mg_creds m; mg_certs := mg_certs m;
          mg_audit := mg_audit m ++ [e]; mg_evicted := mg_evicted m;
          mg_dropped := mg_dropped m |}, Ok tt)
  end.

(** ** Tenants *)
Definition CreateTenant (name : string) : mg_op Tenant :=
  do t <- liftM (tenant_New (me_id env) name (me_now env)) ;;
  do _ <- set_tenants (fun ts => <[tenant_id t := t]> ts) ;;
  retM t.

Definition admin_CreateTenant (name : string) : mg_op Tenant :=
  do t <- CreateTenant name ;;
  do _ <- audited (NewEntry (me_id env) (me_operator env) ActionCreateTenant (tenant_id t)
                     (me_now env)) ;;
  retM t.

Definition transition (id : string) (action : Action) (apply_ : Tenant -> res Tenant)
    : mg_op Tenant :=
  do t <- readM (fun m => map_err (Wrap "find tenant") (find_tenant (mg_tenants m) (TrimSpace id))) ;;
  do t <- liftM (apply_ t) ;;
  do _ <- set_tenants (fun ts => <[tenant_id t := t]> ts) ;;
  do _ <- audited (NewEntry (me_id env) (me_operator env) action (tenant_id t) (me_now env)) ;;
  retM t.
Definition RenameTenant (id name : string) : mg_op Tenant :=
  transition id ActionRenameTenant (fun t => tenant_Rename t name).
Definition SuspendTenant (id : string) : mg_op Tenant :=
  transition id ActionSuspendTenant (fun t => Ok (tenant_Deactivate t)).
Definition ActivateTenant (id : string) : mg_op Tenant :=
  transition id ActionActivateTenant (fun t => Ok (tenant_Activate t)).

(** ** Credentials *)
Definition IsKnownBankID (bankID : string) : bool := bool_decide (bankID ∈ knownBankIDs).

Definition client_unclaimed (tenantID bankID clientID : string) : mg_op unit :=
  readM (fun m => assertClientIDUnclaimed (mg_creds m) (find_tenant (mg_tenants m))
                    tenantID bankID clientID).
Definition write_credential (tenantID bankID clientID secret : string) : mg_op unit :=
  wrapM (Wrap "set bank credential")
    (on_creds (Store_SetBankCredential tenantID bankID clientID secret)).

Definition SetBankCredential (tenantID clientID secret : string) : mg_op unit :=
  do _ <- findTenant (TrimSpace tenantID) ;;
  do _ <- client_unclaimed tenantID BankIDC6 clientID ;;
  do _ <- write_credential tenantID BankIDC6 clientID secret ;;
  InvalidateToken (TrimSpace tenantID).

Definition SetBankCredentialFor (tenantID bankID clientID secret : string) : mg_op unit :=
  let tenantID := TrimSpace tenantID in
  do _ <- findTenant tenantID ;;
  let slug := NormalizeBankID bankID in
  abort (negb (IsKnownBankID slug)) with (NewValidationError "bank" "banco não suportado") ;;
  do _ <- client_unclaimed tenantID slug clientID ;;
  do _ <- write_credential tenantID slug clientID secret ;;
  InvalidateToken tenantID.

(** admin.go; the self-serve intake is the same write with another origin. *)
Definition admin_setBankCredential (tenantID bank clientID secret : string) (selfServe : bool)
    : mg_op unit :=
  let bank := NormalizeBankID bank in
  abort (negb (IsKnownBankID bank)) with (NewValidationError "bank" "unknown bank") ;;
  do _ <- findTenant tenantID ;;
  do _ <- client_unclaimed tenantID bank clientID ;;
  do _ <- write_credential tenantID bank clientID secret ;;
  do _ <- InvalidateToken tenantID ;;
  audited ((if selfServe then NewSelfServeCredentialSetEntry else NewCredentialSetEntry)
             (me_id env) (me_operator env) tenantID bank (me_now env)).

Definition SetCreditorKey (tenantID creditorKey : string) : mg_op unit :=
  let tenantID := TrimSpace tenantID in
  do _ <- findTenant tenantID ;;
  let key := TrimSpace creditorKey in
  do _ <- readM (fun m => assertCreditorKeyUnclaimed (mg_creds m) (find_tenant (mg_tenants m))
                            tenantID BankIDC6 key) ;;
  do _ <- wrapM (Wrap "set creditor key") (on_creds (Store_SetCreditorKey tenantID key)) ;;
  audited (NewCreditorKeySetEntry (me_id env) (me_operator env) tenantID BankIDC6 (me_now env)).

(** ** Removal *)
Definition tenantIsActive (m : Management) (tenantID : string) : res bool :=
  match find_tenant (mg_tenants m) tenantID with
  | Err e => if errors_Is e ErrNotFound then Ok false else Err e
  | Ok t => Ok (tenant_active t)
  end.
Definition shares_with (m : Management) (tenantID : string) (holders : list string) : bool :=
  existsb (fun other =>
    negb (bool_decide (other = tenantID))
    && match tenantIsActive m other with Ok active => active | Err _ => true end) holders.
Definition sharesBankIdentityWithActiveTenant (m : Management)
    (tenantID bankID chave clientID : string) : bool :=
  shares_with m tenantID (FindTenantsByCreditorKey (mg_creds m) bankID chave)
  || shares_with m tenantID (FindTenantsByClientID (mg_creds m) bankID clientID).

(** The bank's answers are only logged. *)
Definition deregisterWebhooks (tenantID bankID : string) : mg_op unit :=
  if negb (bool_decide (bankID = BankIDC6)) then retM tt
  else fun m =>
    let '(chave, clientID) :=
      match GetBankCredential (mg_creds m) tenantID bankID with
      | Ok cred => (TrimSpace (bc_CreditorKey cred), TrimSpace (bc_ClientID cred))
      | Err _ => ("", "")
      end in
    if sharesBankIdentityWithActiveTenant m tenantID bankID chave clientID then (m, Ok tt)
    else
      (do _ <- (if negb (bool_decide (chave = "")) then ask_drop (DropPix tenantID chave)
                else retM tt) ;;
       do _ <- ask_drop (DropRec tenantID) ;;
       ask_drop (DropCobR tenantID)) m.

Definition RemoveBankConfig (tenantID bankID : string) : mg_op unit :=
  let tenantID := TrimSpace tenantID in
  do _ <- findTenant tenantID ;;
  let slug := NormalizeBankID bankID in
  abort (negb (IsKnownBankID slug)) with (NewValidationError "bank" "banco não suportado") ;;
  do _ <- deregisterWebhooks tenantID slug ;;
  do _ <- on_creds (DeleteBankCredential tenantID slug) ;;
  do _ <- DeleteBankCertificate tenantID slug ;;
  do _ <- InvalidateToken tenantID ;;
  audited (NewBankConfigRemovedEntry (me_id env) (me_operator env) tenantID slug (me_now env)).
End operations.

Lemma append_tail_inj a b c : a ++ c = b ++ c -> a = b.
Proof.
  intros E. apply (f_equal bytes_of) in E. unfold bytes_of in E.
  assert (Hl : forall s t, list_ascii_of_string (s ++ t) =
                 (list_ascii_of_string s ++ list_ascii_of_string t)%list).
  { intros s t. induction s as [|x s IH]; [done|]. exact (f_equal (cons x) IH). }
  rewrite !Hl in E. apply app_inv_tail in E. apply (f_equal string_of) in E.
  fold (bytes_of a) (bytes_of b) in E. by rewrite !string_bytes in E.
Qed.
Lemma credKey_inj a b bank : credKey a bank = credKey b bank -> a = b.
Proof. apply append_tail_inj. Qed.

(** * One identity, one active company *)
Definition active_in (m : Management) (tenantID : string) : Prop :=
  exists t, mg_tenants m !! tenantID = Some t /\ tenant_active t = true.
Definition holds_identity (m : Management) (c : BankCredential) : Prop :=
  exists k, mg_creds m !! k = Some c.

Record Mg_ok (m : Management) : Prop := {
  ok_rows : forall id t, mg_tenants m !! id = Some t -> tenant_id t = id;
  ok_creds : forall k c, mg_creds m !! k = Some c ->
    k = credKey (bc_TenantID c) BankIDC6 /\ bc_BankID c = BankIDC6
}.
(** No two active companies with a credential share a key or a bank account. *)
Definition identity_unique (m : Management) : Prop :=
  forall c1 c2, holds_identity m c1 -> holds_identity m c2 ->
  bc_TenantID c1 <> bc_TenantID c2 ->
  active_in m (bc_TenantID c1) -> active_in m (bc_TenantID c2) ->
  (bc_CreditorKey c1 = bc_CreditorKey c2 -> bc_CreditorKey c1 = "") /\
  (bc_ClientID c1 = bc_ClientID c2 -> bc_ClientID c1 = "").
Definition Inv (m : Management) : Prop := Mg_ok m /\ identity_unique m.

Definition keeps {A} (op : mg_op A) : Prop := forall m, Inv m -> Inv (fst (op m)).

Lemma inv_bind {A B} (a : mg_op A) (k : A -> mg_op B) :
  keeps a -> (forall x, keeps (k x)) -> keeps (bindM a k).
Proof.
  intros Ha Hk m Hm. specialize (Ha m Hm). unfold bindM.
  destruct (a m) as [m' [x|e]]; cbn in *; [by apply Hk|done].
Qed.
Lemma inv_pure {A} (f : Management -> res A) : keeps (readM f).
Proof. by intros m. Qed.
Lemma inv_lift {A} (r : res A) : keeps (liftM r).
Proof. by intros m. Qed.
Lemma inv_ret {A} (a : A) : keeps (retM a).
Proof. by intros m. Qed.
Lemma inv_abort {A} (b : bool) e (k : mg_op A) : keeps k -> keeps (if b then throwM e else k).
Proof. destruct b; [by intros ? m|done]. Qed.
(** A step that leaves tenants and credentials as they are. *)
Lemma keeps_aside {A} (op : mg_op A) :
  (forall m, mg_tenants (fst (op m)) = mg_tenants m /\ mg_creds (fst (op m)) = mg_creds m) ->
  keeps op.
Proof.
  intros Ho m. destruct (Ho m) as [Et Ec]. unfold Inv, identity_unique, holds_identity, active_in.
  rewrite Et, Ec. intros [[Hr Hc] Hu]. split; [split|exact Hu].
  - by rewrite Et.
  - by rewrite Ec.
Qed.
Lemma keeps_evict t : keeps (InvalidateToken t).
Proof. by apply keeps_aside. Qed.
Lemma keeps_cert t b : keeps (DeleteBankCertificate t b).
Proof. by apply keeps_aside. Qed.
Lemma keeps_audited env e : keeps (audited env e).
Proof.
  apply inv_bind; [apply inv_lift|]. intros x. destruct (me_append env); [by intros m|].
  by apply keeps_aside.
Qed.
Lemma keeps_dereg t b : keeps (deregisterWebhooks t b).
Proof.
  apply keeps_aside. intros m. unfold deregisterWebhooks. case_match; [done|].
  destruct (match GetBankCredential _ _ _ with Ok _ => _ | Err _ => _ end) as [chave client].
  case_match; [done|]. by case_match.
Qed.

(** Rows that keep their id and do not wake up. *)
Lemma Inv_tenants m m' :
  mg_creds m' = mg_creds m ->
  (forall id t, mg_tenants m' !! id = Some t -> tenant_id t = id) ->
  (forall c, holds_identity m c -> active_in m' (bc_TenantID c) -> active_in m (bc_TenantID c)) ->
  Inv m -> Inv m'.
Proof.
  intros Ec Hr Ha [[_ Hc] Hu]. split; [split; [done|by rewrite Ec]|].
  unfold identity_unique, holds_identity in *. rewrite Ec.
  intros c1 c2 [k1 H1] [k2 H2] Hne A1 A2. apply Hu; eauto.
Qed.

(** A credential replaced in place by one whose identity no other active company holds. *)
Lemma Inv_creds m m' c' :
  mg_tenants m' = mg_tenants m -> bc_BankID c' = BankIDC6 ->
  mg_creds m' = <[credKey (bc_TenantID c') BankIDC6 := c']> (mg_creds m) ->
  (forall c, holds_identity m c -> bc_TenantID c <> bc_TenantID c' ->
     active_in m (bc_TenantID c') -> active_in m (bc_TenantID c) ->
     (bc_CreditorKey c = bc_CreditorKey c' -> bc_CreditorKey c = "") /\
     (bc_ClientID c = bc_ClientID c' -> bc_ClientID c = "")) ->
  Inv m -> Inv m'.
Proof.
  intros Et Eb Ec Hfree [[Hr Hc] Hu].
  assert (Hcase : forall c, holds_identity m' c ->
            c = c' \/ holds_identity m c).
  { intros c [k Hk]. rewrite Ec in Hk. apply lookup_insert_Some in Hk as [[_ <-]|[_ Hk]];
      [by left|right; by exists k]. }
  assert (Hact : forall t, active_in m' t <-> active_in m t) by (unfold active_in; by rewrite Et).
  split; [split|].
  - by rewrite Et.
  - intros k c. rewrite Ec. intros [[<- <-]|[_ Hk]]%lookup_insert_Some; [done|eauto].
  - intros c1 c2 H1 H2 Hne A1 A2. apply Hact in A1, A2.
    destruct (Hcase c1 H1) as [->|H1'], (Hcase c2 H2) as [->|H2']; [done|..|by eapply Hu].
    + destruct (Hfree c2 H2') as [Ha Hb]; [congruence|done..|]. split; intros E.
      * rewrite E. by apply Ha.
      * rewrite E. by apply Hb.
    + by apply Hfree.
Qed.

(** ** The uniqueness checks *)
Lemma anyOther_false tenants t holders :
  anyOtherActiveHolder (find_tenant tenants) t holders = Ok false ->
  forall other, In other holders -> other <> t ->
  forall row, tenants !! other = Some row -> tenant_active row = false.
Proof.
  induction holders as [|o holders IH]; [done|]. cbn [anyOtherActiveHolder]. intros H other.
  case_bool_decide as E.
  - intros [<-|Hin] Hne; [done|]. by apply IH.
  - unfold find_tenant in H at 1. destruct (tenants !! o) as [row|] eqn:Er.
    + destruct (tenant_active row) eqn:Ea; [done|].
      intros [<-|Hin] Hne row' Hrow; [congruence|]. by eapply IH.
    + intros [<-|Hin] Hne row' Hrow; [congruence|]. by eapply IH.
Qed.

Lemma anyOther_errorless tenants t holders :
  exists b, anyOtherActiveHolder (find_tenant tenants) t holders = Ok b.
Proof.
  induction holders as [|o holders [b IH]]; [by eexists|]. cbn [anyOtherActiveHolder].
  case_bool_decide; [eauto|]. unfold find_tenant at 1.
  destruct (tenants !! o) as [row|]; [destruct (tenant_active row); eauto|].
  rewrite errors_Is_refl. eauto.
Qed.

Lemma tenants_where_In test creds k c :
  creds !! k = Some c -> test c = true -> In (bc_TenantID c) (tenants_where test creds).
Proof.
  intros Hk Ht. unfold tenants_where. apply in_map_iff. exists (k, c). split; [done|].
  apply filter_In. split; [|done]. apply list_elem_of_In, elem_of_map_to_list, Hk.
Qed.

(** No other active company holds the client id, or the key, the check let through. *)
Lemma client_free m t clientID :
  assertClientIDUnclaimed (mg_creds m) (find_tenant (mg_tenants m)) t BankIDC6 clientID = Ok tt ->
  Mg_ok m -> forall c, holds_identity m c -> bc_TenantID c <> t -> active_in m (bc_TenantID c) ->
  bc_ClientID c = clientID -> clientID = "".
Proof.
  unfold assertClientIDUnclaimed. case_bool_decide as E; [done|]. intros H [_ Hc] c [k Hk] Hne
    (row & Hrow & Ha) Hcl.
  destruct (anyOther_errorless (mg_tenants m) t (FindTenantsByClientID (mg_creds m) BankIDC6 clientID))
    as [b Eb]. rewrite Eb in H. destruct b; [done|].
  enough (tenant_active row = false) by congruence.
  eapply (anyOther_false _ _ _ Eb (bc_TenantID c)); [|exact Hne|exact Hrow].
  unfold FindTenantsByClientID. rewrite bool_decide_false by done.
  eapply tenants_where_In; [exact Hk|]. destruct (Hc _ _ Hk) as [_ ->].
  by rewrite !bool_decide_true.
Qed.
Lemma key_free m t key :
  assertCreditorKeyUnclaimed (mg_creds m) (find_tenant (mg_tenants m)) t BankIDC6 key = Ok tt ->
  Mg_ok m -> forall c, holds_identity m c -> bc_TenantID c <> t -> active_in m (bc_TenantID c) ->
  bc_CreditorKey c = key -> key = "".
Proof.
  unfold assertCreditorKeyUnclaimed. case_bool_decide as E; [done|]. intros H [_ Hc] c [k Hk] Hne
    (row & Hrow & Ha) Hcl.
  destruct (anyOther_errorless (mg_tenants m) t (FindTenantsByCreditorKey (mg_creds m) BankIDC6 key))
    as [b Eb]. rewrite Eb in H. destruct b; [done|].
  enough (tenant_active row = false) by congruence.
  eapply (anyOther_false _ _ _ Eb (bc_TenantID c)); [|exact Hne|exact Hrow].
  unfold FindTenantsByCreditorKey. rewrite bool_decide_false by done.
  eapply tenants_where_In; [exact Hk|]. destruct (Hc _ _ Hk) as [_ ->].
  by rewrite !bool_decide_true.
Qed.

(** ** The writes *)
Lemma keeps_write_credential {A} t clientID secret (k : mg_op A) : keeps k ->
  keeps (do _ <- client_unclaimed t BankIDC6 clientID ;;
         do _ <- write_credential t BankIDC6 clientID secret ;; k).
Proof.
  intros Hk m Hm. unfold bindM at 1, client_unclaimed, readM.
  destruct (assertClientIDUnclaimed _ _ _ _ _) as [[]|e] eqn:Ea; [|done].
  revert m Hm Ea.
  enough (Hw : forall m, Inv m ->
    assertClientIDUnclaimed (mg_creds m) (find_tenant (mg_tenants m)) t BankIDC6 clientID = Ok tt ->
    Inv (fst (write_credential t BankIDC6 clientID secret m))).
  { intros m Hm Ea. specialize (Hw m Hm Ea). unfold bindM.
    destruct (write_credential _ _ _ _ m) as [m' [[]|e]]; cbn in *; [by apply Hk|done]. }
  intros m Hm Ea. pose proof Hm as [Hok Hu].
  unfold write_credential, wrapM, on_creds, Store_SetBankCredential.
  case_bool_decide as Et; [by destruct m|]. case_bool_decide as Ec; [by destruct m|].
  case_bool_decide as Es; [by destruct m|]. cbn [fst].
  set (cur := mg_creds m !! credKey t (defaultBankID BankIDC6)).
  eapply (Inv_creds m _ {| bc_TenantID := t; bc_BankID := BankIDC6; bc_ClientID := clientID;
    bc_Secret := secret; bc_CreditorKey := bc_CreditorKey (default zeroCredential cur) |});
    [done..| |exact Hm].
  cbn [bc_TenantID bc_CreditorKey bc_ClientID]. intros c Hc Hne A1 A2. split.
  - destruct cur as [c0|] eqn:E0; [|done]. cbn [default]. intros Eq.
    assert (H0 : holds_identity m c0) by (by exists (credKey t (defaultBankID BankIDC6))).
    destruct (ok_creds m Hok _ _ E0) as [Ek _].
    assert (Hid : bc_TenantID c0 = t) by (by apply credKey_inj in Ek).
    apply (Hu c c0 Hc H0); [congruence|done|by rewrite Hid|done].
  - intros Eq. rewrite Eq. eapply client_free; eassumption.
Qed.

Lemma keeps_write_key {A} t key (k : mg_op A) : keeps k ->
  keeps (do _ <- readM (fun m => assertCreditorKeyUnclaimed (mg_creds m)
                          (find_tenant (mg_tenants m)) t BankIDC6 key) ;;
         do _ <- wrapM (Wrap "set creditor key") (on_creds (Store_SetCreditorKey t key)) ;; k).
Proof.
  intros Hk m Hm. unfold bindM at 1, readM.
  destruct (assertCreditorKeyUnclaimed _ _ _ _ _) as [[]|e] eqn:Ea; [|done].
  enough (Hw : Inv (fst (wrapM (Wrap "set creditor key") (on_creds (Store_SetCreditorKey t key)) m))).
  { unfold bindM. destruct (wrapM _ _ m) as [m' [[]|e]]; cbn in *; [by apply Hk|done]. }
  pose proof Hm as [Hok Hu]. unfold wrapM, on_creds, Store_SetCreditorKey.
  case_bool_decide as Et; [by destruct m|]. case_bool_decide as Ec; [by destruct m|].
  unfold bindM, liftM. destruct (validateCreditorKey key) as [[]|]; [|by destruct m].
  destruct (mg_creds m !! credKey t (defaultBankID "")) as [cur|] eqn:E0; [|by destruct m].
  destruct (ok_creds m Hok _ _ E0) as [Ek Eb].
  assert (Hid : bc_TenantID cur = t) by (by apply credKey_inj in Ek).
  cbn [fst]. eapply (Inv_creds m _ {| bc_TenantID := bc_TenantID cur; bc_BankID := bc_BankID cur;
    bc_ClientID := bc_ClientID cur; bc_Secret := bc_Secret cur; bc_CreditorKey := key |});
    [done|done| | |exact Hm]; cbn [bc_TenantID bc_CreditorKey bc_ClientID mg_creds].
  - by rewrite Hid.
  - intros c Hc Hne A1 A2. split.
    + intros Eq. rewrite Eq. rewrite Hid in Hne. eapply key_free; eassumption.
    + assert (H0 : holds_identity m cur) by (by exists (credKey t (defaultBankID ""))).
      intros Eq. apply (Hu c cur Hc H0); done.
Qed.

Lemma keeps_delete t : keeps (on_creds (DeleteBankCredential t BankIDC6)).
Proof.
  intros m [[Hr Hc] Hu]. unfold on_creds, DeleteBankCredential. cbn [fst]. split; [split|].
  - done.
  - cbn. intros k c [_ Hk]%lookup_delete_Some. eauto.
  - intros c1 c2 [k1 H1] [k2 H2]. cbn in H1, H2.
    apply lookup_delete_Some in H1 as [_ H1], H2 as [_ H2].
    apply Hu; eexists; eassumption.
Qed.

Lemma known_is_c6 slug : IsKnownBankID slug = true -> slug = BankIDC6.
Proof.
  unfold IsKnownBankID, knownBankIDs. intros H. apply bool_decide_eq_true in H. set_solver.
Qed.

(** A transition of an existing row that keeps its id and does not wake it up. *)
Lemma keeps_transition env id action f :
  (forall t t', f t = Ok t' -> tenant_id t' = tenant_id t /\
     (tenant_active t' = true -> tenant_active t = true)) ->
  keeps (transition env id action f).
Proof.
  intros Hf m Hm. unfold transition, bindM at 1, readM.
  destruct (find_tenant (mg_tenants m) (TrimSpace id)) as [t|e] eqn:Et; [|done]. cbn [map_err].
  unfold bindM at 1, liftM. destruct (f t) as [t'|e] eqn:Ef; [|done].
  destruct (Hf _ _ Ef) as [Hid Hact]. pose proof Hm as [[Hr _] _].
  unfold find_tenant in Et. destruct (mg_tenants m !! TrimSpace id) as [t0|] eqn:E0; [|done].
  simplify_eq. pose proof (Hr _ _ E0) as Hid0.
  set (m1 := fst (set_tenants (fun ts => <[tenant_id t' := t']> ts) m)).
  assert (Hm1 : Inv m1).
  { eapply (Inv_tenants m); [done| | |exact Hm]; cbn.
    - intros i row [[<- <-]|[_ Hrow]]%lookup_insert_Some; [done|eauto].
    - intros c _ (row & Hrow & Ha). cbn in Hrow. apply lookup_insert_Some in Hrow as [[E <-]|[_ Hrow]];
        [|by exists row]. exists t. rewrite <- E, Hid, Hid0. auto. }
  change (Inv (fst ((do _ <- audited env (NewEntry (me_id env) (me_operator env) action
    (tenant_id t') (me_now env)) ;; retM t') m1))).
  apply inv_bind; [apply keeps_audited|intros; apply inv_ret|exact Hm1].
Qed.

(** Commands of the management plane. *)
Inductive command :=
| CCreate (name : string) | CRename (id name : string) | CSuspend (id : string)
| CCredential (tenantID clientID secret : string)
| CCredentialFor (tenantID bankID clientID secret : string)
| CAdminCredential (tenantID bank clientID secret : string) (selfServe : bool)
| CKey (tenantID creditorKey : string)
| CRemove (tenantID bankID : string)
| CActivate (id : string).

Definition erase {A} (op : mg_op A) : mg_op unit := do _ <- op ;; retM tt.
Definition execute (env : MgEnv) (c : command) : mg_op unit :=
  match c with
  | CCreate name => erase (CreateTenant env name)
  | CRename id name => erase (RenameTenant env id name)
  | CSuspend id => erase (SuspendTenant env id)
  | CCredential t cl s => SetBankCredential t cl s
  | CCredentialFor t b cl s => SetBankCredentialFor t b cl s
  | CAdminCredential t b cl s self => admin_setBankCredential env t b cl s self
  | CKey t k => SetCreditorKey env t k
  | CRemove t b => RemoveBankConfig env t b
  | CActivate id => erase (ActivateTenant env id)
  end.
Definition run_commands (cs : list (MgEnv * command)) (m : Management) : Management :=
  foldl (fun m c => fst (execute c.1 c.2 m)) m cs.

(** A new tenant's identifier has not been used: no row and no credential carries it. *)
Definition id_unused (id : string) (m : Management) : Prop :=
  mg_tenants m !! TrimSpace id = None /\
  forall c, holds_identity m c -> bc_TenantID c <> TrimSpace id.
Definition not_activation (c : command) : Prop := match c with CActivate _ => False | _ => True end.

Fixpoint admissible (cs : list (MgEnv * command)) (m : Management) : Prop :=
  match cs with
  | [] => True
  | (env, c) :: rest =>
      not_activation c /\ (forall name, c = CCreate name -> id_unused (me_id env) m) /\
      admissible rest (fst (execute env c m))
  end.

Lemma keeps_erase {A} (op : mg_op A) : keeps op -> keeps (erase op).
Proof. intros H. apply inv_bind; [done|]. intros. apply inv_ret. Qed.

Lemma keeps_create env name m : id_unused (me_id env) m -> Inv m ->
  Inv (fst (CreateTenant env name m)).
Proof.
  intros [Hn Hc] Hm. unfold CreateTenant, bindM at 1, liftM.
  destruct (tenant_New _ _ _) as [t|e] eqn:Et; [|done]. cbn.
  assert (Hid : tenant_id t = TrimSpace (me_id env)).
  { unfold tenant_New in Et. repeat case_match; by simplify_eq/=. }
  eapply (Inv_tenants m); [done| | |exact Hm]; cbn.
  - intros i row [[<- <-]|[_ Hrow]]%lookup_insert_Some; [done|].
    destruct Hm as [[Hr _] _]. eauto.
  - intros c Hcr (row & Hrow & Ha). cbn in Hrow. apply lookup_insert_Some in Hrow as [[E _]|[_ Hrow]];
      [|by exists row]. destruct (Hc c Hcr). congruence.
Qed.

Lemma keeps_find t : keeps (findTenant t).
Proof. by intros m. Qed.

Lemma keeps_execute env c m : not_activation c ->
  (forall name, c = CCreate name -> id_unused (me_id env) m) -> Inv m ->
  Inv (fst (execute env c m)).
Proof.
  intros Hact Hfresh. destruct c; cbn [execute]; try done.
  - intros Hm. unfold erase, bindM. pose proof (keeps_create env name m (Hfresh _ eq_refl) Hm) as H.
    by destruct (CreateTenant env name m) as [m' [t|e]].
  - apply keeps_erase, keeps_transition. unfold tenant_Rename. intros t t' Ht.
    repeat case_match; by simplify_eq/=.
  - apply keeps_erase, keeps_transition. intros t t' [= <-]. done.
  - apply inv_bind; [apply keeps_find|]. intros _.
    apply keeps_write_credential, keeps_evict.
  - apply inv_bind; [apply keeps_find|]. intros _.
    cbv zeta. destruct (IsKnownBankID (NormalizeBankID bankID)) eqn:Eb; cbn [negb]; [|first [by intros ? ?|by intros ?]].
    apply known_is_c6 in Eb as ->. apply keeps_write_credential, keeps_evict.
  - unfold admin_setBankCredential.
    cbv zeta. destruct (IsKnownBankID (NormalizeBankID bank)) eqn:Eb; cbn [negb]; [|first [by intros ? ?|by intros ?]].
    apply known_is_c6 in Eb as ->. apply inv_bind; [apply keeps_find|]. intros _.
    apply keeps_write_credential. apply inv_bind; [apply keeps_evict|]. intros _.
    apply keeps_audited.
  - apply inv_bind; [apply keeps_find|]. intros _. apply keeps_write_key, keeps_audited.
  - unfold RemoveBankConfig. apply inv_bind; [apply keeps_find|]. intros _.
    cbv zeta. destruct (IsKnownBankID (NormalizeBankID bankID)) eqn:Eb; cbn [negb]; [|first [by intros ? ?|by intros ?]].
    apply known_is_c6 in Eb as ->.
    apply inv_bind; [apply keeps_dereg|]. intros _.
    apply inv_bind; [apply keeps_delete|]. intros _.
    apply inv_bind; [apply keeps_cert|]. intros _.
    apply inv_bind; [apply keeps_evict|]. intros _. apply keeps_audited.
Qed.

Lemma keeps_run cs m : Inv m -> admissible cs m -> Inv (run_commands cs m).
Proof.
  revert m. induction cs as [|[env c] cs IH]; intros m Hm; [done|].
  cbn [admissible run_commands foldl fst snd].
  intros (Ha & Hf & Hr). apply IH; [|done]. by apply keeps_execute.
Qed.

(** C11. One company per bank identity: whatever tenants are created, renamed and suspended and
    whatever credentials and keys are written and removed, from every write path and with
    every failure, no two active companies come to share a receiving key or a bank account,
    as long as no suspended company is activated again. *)
Theorem identity_stays_unique cs m (Hm : Inv m) (Hcs : admissible cs m) :
  identity_unique (run_commands cs m).
Proof. by apply keeps_run. Qed.

Definition me (id : string) : MgEnv :=
  {| me_id := id; me_operator := "op"; me_now := zeroTime; me_append := None |}.
Definition empty_management : Management :=
  {| mg_tenants := ∅; mg_creds := ∅; mg_certs := ∅; mg_audit := []; mg_evicted := [];
     mg_dropped := [] |}.
(** Two companies; the first takes a key, is suspended, the second takes the same key. *)
Definition key_moves : list (MgEnv * command) :=
  [(me "t1", CCreate "A"); (me "t2", CCreate "B");
   (me "e1", CCredential "t1" "client-1" "s"); (me "e2", CCredential "t2" "client-2" "s");
   (me "e3", CKey "t1" "12345678909");
   (me "e4", CKey "t2" "12345678909");      (* refused: an active company holds it *)
   (me "e5", CSuspend "t1");
   (me "e6", CKey "t2" "12345678909")].

Lemma id_unused_dec id m : 
  bool_decide (mg_tenants m !! TrimSpace id = None)
  && forallb (fun e => negb (bool_decide (bc_TenantID e.2 = TrimSpace id)))
       (map_to_list (mg_creds m)) = true -> id_unused id m.
Proof.
  intros H. apply andb_true_iff in H as [Ht Hc]. bools. split; [done|].
  intros c [k Hk]. rewrite forallb_forall in Hc. specialize (Hc (k, c)). cbn in Hc.
  assert (Hin : In (k, c) (map_to_list (mg_creds m))) by (by apply list_elem_of_In, elem_of_map_to_list).
  specialize (Hc Hin). by bools.
Qed.

Lemma Inv_empty : Inv empty_management.
Proof.
  split; [split; intros ?? H; discriminate H|]. intros c1 c2 [k H]. discriminate H.
Qed.
Lemma key_moves_admissible : admissible key_moves empty_management.
Proof.
  cbn [admissible key_moves].
  repeat (split; [exact I|]; split;
    [intros name Hn; first [discriminate Hn | apply id_unused_dec; vm_compute; reflexivity]|]).
  exact I.
Qed.

Lemma identity_stays_unique_witness :
  identity_unique (run_commands key_moves empty_management) /\
  FindTenantsByCreditorKey (mg_creds (run_commands key_moves empty_management)) BankIDC6
    "12345678909" = ["t1"; "t2"].
Proof.
  split; [|vm_compute; reflexivity].
  exact (identity_stays_unique key_moves empty_management Inv_empty key_moves_admissible).
Defined.

(** Activation does not look at the identity: the suspended company of the run above is
    activated again and both companies then hold the same receiving key, which the comment
    of bank_identity.go says belongs to one active company at a time. *)
Theorem reactivation_shares_key :
  let m := run_commands (key_moves ++ [(me "e7", CActivate "t1")]) empty_management in
  identity_unique (run_commands key_moves empty_management) /\
  active_in m "t1" /\ active_in m "t2" /\
  FindTenantsByCreditorKey (mg_creds m) BankIDC6 "12345678909" = ["t1"; "t2"] /\
  ~ identity_unique m.
Proof.
  cbv zeta. set (m := run_commands (key_moves ++ _) _).
  assert (A1 : active_in m "t1") by (eexists; split; [vm_compute; reflexivity|reflexivity]).
  assert (A2 : active_in m "t2") by (eexists; split; [vm_compute; reflexivity|reflexivity]).
  split_and!; [|exact A1|exact A2|vm_compute; reflexivity|].
  - apply keeps_run; [apply Inv_empty|apply key_moves_admissible].
  - intros Hu.
    destruct (Hu {| bc_TenantID := "t1"; bc_BankID := BankIDC6; bc_ClientID := "client-1";
                    bc_Secret := "s"; bc_CreditorKey := "12345678909" |}
                 {| bc_TenantID := "t2"; bc_BankID := BankIDC6; bc_ClientID := "client-2";
                    bc_Secret := "s"; bc_CreditorKey := "12345678909" |}) as [Hk _].
    + exists (credKey "t1" BankIDC6). vm_compute. reflexivity.
    + exists (credKey "t2" BankIDC6). vm_compute. reflexivity.
    + discriminate.
    + exact A1.
    + exact A2.
    + by specialize (Hk eq_refl).
Qed.

(** ** Removal *)
Definition drops_same {A} (op : mg_op A) : Prop :=
  forall m, mg_dropped (fst (op m)) = mg_dropped m.
Lemma drops_bind {A B} (a : mg_op A) (k : A -> mg_op B) m :
  mg_dropped (fst (a m)) = mg_dropped m -> (forall x, drops_same (k x)) ->
  mg_dropped (fst (bindM a k m)) = mg_dropped m.
Proof.
  intros Ha Hk. unfold bindM. destruct (a m) as [m' [x|e]]; cbn in *; [|done].
  by rewrite (Hk x m').
Qed.
Lemma drops_audited env e : drops_same (audited env e).
Proof. intros m. apply drops_bind; [done|]. intros x m'. by destruct (me_append env). Qed.

Lemma shares_active m t holders other :
  In other holders -> other <> t -> active_in m other -> shares_with m t holders = true.
Proof.
  intros Hin Hne (row & Hrow & Ha). apply existsb_exists. exists other. split; [done|].
  unfold tenantIsActive, find_tenant. rewrite bool_decide_false, Hrow by done. done.
Qed.

(** Cleaning up one company does not silence another: removing a company's bank
    configuration asks the bank to drop no channel when another active company holds a
    credential with the same receiving key or the same bank account. *)
Theorem removal_spares_shared_identity env tenantID bankID m c d
    (Hok : Mg_ok m) (Hc : holds_identity m c) (Hact : active_in m (bc_TenantID c))
    (Hne : bc_TenantID c <> TrimSpace tenantID)
    (Hown : GetBankCredential (mg_creds m) (TrimSpace tenantID) BankIDC6 = Ok d)
    (Hshared : bc_CreditorKey c = TrimSpace (bc_CreditorKey d) /\ bc_CreditorKey c <> "" \/
               bc_ClientID c = TrimSpace (bc_ClientID d) /\ bc_ClientID c <> "") :
  mg_dropped (fst (RemoveBankConfig env tenantID bankID m)) = mg_dropped m.
Proof.
  unfold RemoveBankConfig, bindM at 1, findTenant, readM.
  destruct (find_tenant _ _) as [row|]; [|done]. cbn [map_err].
  destruct (IsKnownBankID _) eqn:Eb; cbn [negb]; [|done].
  apply known_is_c6 in Eb as ->.
  assert (Hshare : sharesBankIdentityWithActiveTenant m (TrimSpace tenantID) BankIDC6
            (TrimSpace (bc_CreditorKey d)) (TrimSpace (bc_ClientID d)) = true).
  { destruct Hc as [k Hk]. destruct (ok_creds m Hok _ _ Hk) as [_ Hb].
    unfold sharesBankIdentityWithActiveTenant. apply orb_true_iff.
    destruct Hshared as [[E En]|[E En]]; [left|right];
      (eapply shares_active; [|exact Hne|exact Hact]);
      unfold FindTenantsByCreditorKey, FindTenantsByClientID;
      rewrite bool_decide_false by congruence;
      (eapply tenants_where_In; [exact Hk|]); rewrite Hb, !bool_decide_true by done; done. }
  apply drops_bind.
  - unfold deregisterWebhooks. rewrite bool_decide_true by done. cbn [negb].
    by rewrite Hown, Hshare.
  - intros _ m1. apply drops_bind; [done|]. intros _ m2. apply drops_bind; [done|].
    intros _ m3. apply drops_bind; [done|]. intros _. apply drops_audited.
Qed.
Lemma removal_spares_shared_identity_witness :
  mg_dropped (fst (RemoveBankConfig (me "e7") "t1" "" (run_commands key_moves empty_management)))
  = [] /\
  mg_dropped (fst (RemoveBankConfig (me "e7") "t2" "" (run_commands key_moves empty_management)))
  = [DropPix "t2" "12345678909"; DropRec "t2"; DropCobR "t2"].
Proof.
  split; [|vm_compute; reflexivity].
  apply (removal_spares_shared_identity (me "e7") "t1" "" (run_commands key_moves empty_management)
    {| bc_TenantID := "t2"; bc_BankID := BankIDC6; bc_ClientID := "client-2";
       bc_Secret := "s"; bc_CreditorKey := "12345678909" |}
    {| bc_TenantID := "t1"; bc_BankID := BankIDC6; bc_ClientID := "client-1";
       bc_Secret := "s"; bc_CreditorKey := "12345678909" |}).
  - apply keeps_run; [apply Inv_empty|apply key_moves_admissible].
  - exists (credKey "t2" BankIDC6). vm_compute. reflexivity.
  - eexists. split; [vm_compute; reflexivity|reflexivity].
  - discriminate.
  - vm_compute. reflexivity.
  - left. split; [vm_compute; reflexivity|discriminate].
Defined.
