(* ===== verification/Config.v ===== *)
(** The process configuration: internal/platform/config/config.go.  The environment is a
    function from names to texts, empty when unset; what is logged is the list of the lines,
    in order.  [ParseFloat], of strconv, is a parameter with any type of numbers. *)
From S2P Require Import Prelude GoStrings GoText GoTime GoSort GoParse Shared Ports BankIdentity.
#[global] Open Scope Z_scope.

(** * Lists and maps in a variable *)
Definition splitNonEmpty (s : string) : list string :=
  List.filter (fun p => negb (bool_decide (p = ""))) (map TrimSpace (Split s ",")).
Definition parseKV (s : string) : gmap string string :=
  fold_left (fun m pair =>
    let '(k, v, ok) := Cut pair ":" in
    let k := TrimSpace k in
    let v := TrimSpace v in
    if ok && negb (bool_decide (k = "")) && negb (bool_decide (v = "")) then <[k := v]> m else m)
  (splitNonEmpty s) ∅.

(** * Log lines

    What a line carries besides its text. *)
Inductive LogLine :=
| MalformedCredential (entry_index field_count : Z)
| CredentialWithoutTenant (entry_index : Z)
| CredentialWithoutIDs (tenant_id bank_id : string)
| MalformedCreditorKey (entry_index field_count : Z)
| CreditorKeyEmpty (entry_index : Z)
| CreditorKeyUnmatched (tenant_id bank_id : string)
| LoadedCredentials (count : Z) (tenant_bank_pairs : list string).

(** * Bank credentials *)
Definition bankCredKey (tenant bank : string) : string := tenant ++ String zero bank.
Definition or_c6 (bank : string) : string := if bool_decide (bank = "") then BankIDC6 else bank.

(** One entry of PAYMENT_BANK_CREDS. *)
Definition bank_cred_entry (i : Z) (item : string) (m : credentials) : credentials * list LogLine :=
  let parts := SplitN item ":" 4 in
  match (match parts with
         | [tenant; clientID; secret] => Some (tenant, BankIDC6, clientID, secret)
         | [tenant; bank; clientID; secret] => Some (tenant, bank, clientID, secret)
         | _ => None
         end) with
  | None => (m, [MalformedCredential i (Z.of_nat (List.length parts))])
  | Some (tenant, bank, clientID, secret) =>
      let tenant := TrimSpace tenant in
      let bank := TrimSpace bank in
      let clientID := TrimSpace clientID in
      let secret := TrimSpace secret in
      let bank := or_c6 bank in
      if bool_decide (tenant = "") then (m, [CredentialWithoutTenant i])
      else if bool_decide (clientID = "") || bool_decide (secret = "") then (m, [CredentialWithoutIDs tenant bank])
      else (<[bankCredKey tenant bank :=
                {| bc_TenantID := tenant; bc_BankID := bank; bc_ClientID := clientID; bc_Secret := secret;
                   bc_CreditorKey := "" |}]> m, [])
  end.
(** A loop over the entries of a list, with their positions. *)
Fixpoint each_entry (f : Z -> string -> credentials -> credentials * list LogLine) (i : Z) (items : list string)
    (m : credentials) : credentials * list LogLine :=
  match items with
  | [] => (m, [])
  | item :: rest =>
      let (m, log) := f i item m in
      let (m, log') := each_entry f (i + 1) rest m in
      (m, log ++ log')%list
  end.
Definition parseBankCreds (s : string) : credentials * list LogLine :=
  each_entry bank_cred_entry 0 (splitNonEmpty s) ∅.

(** One entry of PAYMENT_BANK_CREDITOR_KEYS. *)
Definition creditor_key_entry (i : Z) (item : string) (creds : credentials) : credentials * list LogLine :=
  let parts := SplitN item ":" 3 in
  match (match parts with
         | [tenant; key] => Some (tenant, BankIDC6, key)
         | [tenant; bank; key] => Some (tenant, bank, key)
         | _ => None
         end) with
  | None => (creds, [MalformedCreditorKey i (Z.of_nat (List.length parts))])
  | Some (tenant, bank, key) =>
      let tenant := TrimSpace tenant in
      let bank := TrimSpace bank in
      let key := TrimSpace key in
      let bank := or_c6 bank in
      if bool_decide (tenant = "") || bool_decide (key = "") then (creds, [CreditorKeyEmpty i])
      else match creds !! bankCredKey tenant bank with
           | None => (creds, [CreditorKeyUnmatched tenant bank])
           | Some cred =>
               (<[bankCredKey tenant bank :=
                    {| bc_TenantID := bc_TenantID cred; bc_BankID := bc_BankID cred; bc_ClientID := bc_ClientID cred;
                       bc_Secret := bc_Secret cred; bc_CreditorKey := key |}]> creds, [])
           end
  end.
Definition mergeCreditorKeys (creds : credentials) (s : string) : credentials * list LogLine :=
  each_entry creditor_key_entry 0 (splitNonEmpty s) creds.

Definition logLoadedBankCreds (creds : credentials) : list LogLine :=
  let pairs := map (fun e => bc_TenantID e.2 ++ "/" ++ bc_BankID e.2) (map_to_list creds) in
  [LoadedCredentials (Z.of_nat (size creds)) (SliceStable pairs string_less)].

(** * Single values *)
Definition Env := string -> string.
Section values.
Context (Getenv : Env).
Definition getenv (key def : string) : string :=
  let v := Getenv key in if bool_decide (v = "") then def else v.
Definition getenvBool (key : string) (def : bool) : bool :=
  let v := Getenv key in if bool_decide (v = "") then def else default def (ParseBool v).
Definition getenvInt (key : string) (def : Z) : Z :=
  let v := Getenv key in
  if bool_decide (v = "") then def
  else match Atoi v with Some n => if n <? 0 then def else n | None => def end.
Definition getenvIntSigned (key : string) (def : Z) : Z :=
  let v := Getenv key in if bool_decide (v = "") then def else default def (Atoi v).
Definition getenvDuration (key : string) (def : Z) : Z :=
  let v := Getenv key in
  if bool_decide (v = "") then def
  else match ParseDuration v with Some d => if d <=? 0 then def else d | None => def end.
Context {F : Type} (ParseFloat : string -> option F).
Definition getenvFloat (key : string) (def : F) : F :=
  let v := Getenv key in if bool_decide (v = "") then def else default def (ParseFloat v).
End values.

(** * The configuration *)
Record C6Config (F : Type) := {
  c6_BaseURL : string; c6_TokenURL : string; c6_Scope : string; c6_Timeout : Z;
  c6_ClientCertPath : string; c6_ClientKeyPath : string; c6_BillingScheme : string;
  c6_BankSlipWriteScope : string; c6_RateLimitRPS : F; c6_RateLimitBurst : Z; c6_MaxRetries : Z
}.
Record Config (F : Type) := {
  cfg_HTTPAddr : string; cfg_DBPath : string; cfg_DBDSN : string; cfg_TenantTokens : gmap string string;
  cfg_AdminTokens : list string; cfg_OperatorTokens : list string; cfg_WebhookRefs : gmap string string;
  cfg_BankCreds : credentials; cfg_BankVaultKey : string; cfg_BankVaultKeyPrevious : string;
  cfg_RabbitURL : string; cfg_SecureCookies : bool; cfg_TrustedProxyHops : Z; cfg_SelfServeCredIntake : bool;
  cfg_PixRecurrence : bool; cfg_WebhookLogPayload : bool; cfg_AccountKeySelector : bool;
  cfg_AccountOutboundWebhook : bool; cfg_ConsoleUsername : string; cfg_ConsoleBootstrapToken : string;
  cfg_C6 : C6Config F; cfg_WebhookReconcile : bool; cfg_WebhookReconcileInterval : Z; cfg_STGSeed : bool
}.
Arguments c6_Timeout {F}. Arguments c6_MaxRetries {F}. Arguments c6_RateLimitBurst {F}.
Arguments cfg_SecureCookies {F}. Arguments cfg_TrustedProxyHops {F}. Arguments cfg_SelfServeCredIntake {F}.
Arguments cfg_PixRecurrence {F}. Arguments cfg_WebhookLogPayload {F}. Arguments cfg_AccountKeySelector {F}.
Arguments cfg_AccountOutboundWebhook {F}. Arguments cfg_WebhookReconcile {F}. Arguments cfg_STGSeed {F}.
Arguments cfg_BankCreds {F}. Arguments cfg_C6 {F}. Arguments cfg_WebhookReconcileInterval {F}.
Arguments cfg_ConsoleBootstrapToken {F}.

(** The configuration and what is logged on the way. *)
Definition FromEnv {F} (ParseFloat : string -> option F) (zeroF : F) (Getenv : Env) : Config F * list LogLine :=
  let (creds, log1) := parseBankCreds (Getenv "PAYMENT_BANK_CREDS") in
  let (bankCreds, log2) := mergeCreditorKeys creds (Getenv "PAYMENT_BANK_CREDITOR_KEYS") in
  ({| cfg_HTTPAddr := getenv Getenv "PAYMENT_HTTP_ADDR" ":8080";
      cfg_DBPath := getenv Getenv "PAYMENT_DB_PATH" "payment.db";
      cfg_DBDSN := Getenv "PAYMENT_DB_DSN";
      cfg_TenantTokens := parseKV (Getenv "PAYMENT_TENANT_TOKENS");
      cfg_AdminTokens := splitNonEmpty (Getenv "PAYMENT_ADMIN_TOKENS");
      cfg_OperatorTokens := splitNonEmpty (Getenv "PAYMENT_OPERATOR_TOKENS");
      cfg_WebhookRefs := parseKV (Getenv "PAYMENT_WEBHOOK_REFS");
      cfg_BankCreds := bankCreds;
      cfg_BankVaultKey := Getenv "PAYMENT_BANK_VAULT_KEY";
      cfg_BankVaultKeyPrevious := Getenv "PAYMENT_BANK_VAULT_KEY_PREVIOUS";
      cfg_RabbitURL := Getenv "PAYMENT_RABBIT_URL";
      cfg_SecureCookies := getenvBool Getenv "PAYMENT_SECURE_COOKIES" true;
      cfg_TrustedProxyHops := getenvInt Getenv "PAYMENT_TRUSTED_PROXY_HOPS" 0;
      cfg_SelfServeCredIntake := getenvBool Getenv "PAYMENT_SELFSERVE_CRED_INTAKE" false;
      cfg_PixRecurrence := getenvBool Getenv "PAYMENT_PIX_RECURRENCE" false;
      cfg_WebhookLogPayload := getenvBool Getenv "PAYMENT_WEBHOOK_LOG_PAYLOAD" false;
      cfg_AccountKeySelector := getenvBool Getenv "PAYMENT_ACCOUNT_KEY_SELECTOR" false;
      cfg_AccountOutboundWebhook := getenvBool Getenv "PAYMENT_ACCOUNT_OUTBOUND_WEBHOOK" false;
      cfg_ConsoleUsername := getenv Getenv "PAYMENT_CONSOLE_USERNAME" "pericles.luz";
      cfg_ConsoleBootstrapToken := Getenv "PAYMENT_CONSOLE_BOOTSTRAP_TOKEN";
      cfg_C6 := {|
        c6_BaseURL := Getenv "PAYMENT_C6_BASE_URL";
        c6_TokenURL := Getenv "PAYMENT_C6_TOKEN_URL";
        c6_Scope := Getenv "PAYMENT_C6_SCOPE";
        c6_Timeout := getenvDuration Getenv "PAYMENT_C6_TIMEOUT" (15 * nsec);
        c6_ClientCertPath := Getenv "PAYMENT_C6_CLIENT_CERT";
        c6_ClientKeyPath := Getenv "PAYMENT_C6_CLIENT_KEY";
        c6_BillingScheme := TrimSpace (Getenv "PAYMENT_C6_BILLING_SCHEME");
        c6_BankSlipWriteScope := TrimSpace (Getenv "PAYMENT_C6_SCOPE_BANK_SLIP_WRITE");
        c6_RateLimitRPS := getenvFloat Getenv ParseFloat "PAYMENT_C6_RATE_LIMIT_RPS" zeroF;
        c6_RateLimitBurst := getenvInt Getenv "PAYMENT_C6_RATE_LIMIT_BURST" 0;
        c6_MaxRetries := getenvIntSigned Getenv "PAYMENT_C6_MAX_RETRIES" 0 |};
      cfg_WebhookReconcile := getenvBool Getenv "PAYMENT_WEBHOOK_RECONCILE" false;
      cfg_WebhookReconcileInterval := getenvDuration Getenv "PAYMENT_WEBHOOK_RECONCILE_INTERVAL" (300 * nsec);
      cfg_STGSeed := getenvBool Getenv "PAYMENT_STG_SEED" false |},
   (log1 ++ log2 ++ logLoadedBankCreds bankCreds)%list).

(** * What an operator writes, and what is loaded

    A credential in the short form names no bank; a field is visible ASCII without the two
    separators, a secret of the long form may hold a colon. *)
Record CredEntry := { ce_tenant : string; ce_bank : option string; ce_client : string; ce_secret : string }.
Record KeyEntry := { ke_tenant : string; ke_bank : option string; ke_key : string }.
Definition with_bank (bank : option string) : string := match bank with Some b => b ++ ":" | None => "" end.
Definition cred_text (e : CredEntry) : string :=
  ce_tenant e ++ ":" ++ with_bank (ce_bank e) ++ ce_client e ++ ":" ++ ce_secret e.
Definition key_text (e : KeyEntry) : string := ke_tenant e ++ ":" ++ with_bank (ke_bank e) ++ ke_key e.
Definition plain (ok : ascii -> bool) (s : string) : Prop :=
  s <> "" /\ Forall (fun c => visible c = true /\ c <> ","%char /\ ok c = true) (bytes_of s).
Definition field : string -> Prop := plain (fun c => negb (bool_decide (c = ":"%char))).
Definition bank_ok (b : option string) : Prop := match b with Some b => field b | None => True end.
Definition cred_ok (e : CredEntry) : Prop :=
  field (ce_tenant e) /\ bank_ok (ce_bank e) /\ field (ce_client e) /\
  match ce_bank e with Some _ => plain (fun _ => true) (ce_secret e) | None => field (ce_secret e) end.
Definition key_ok (e : KeyEntry) : Prop := field (ke_tenant e) /\ bank_ok (ke_bank e) /\ field (ke_key e).
Definition cred_of (e : CredEntry) : BankCredential :=
  {| bc_TenantID := ce_tenant e; bc_BankID := default BankIDC6 (ce_bank e); bc_ClientID := ce_client e;
     bc_Secret := ce_secret e; bc_CreditorKey := "" |}.
Definition cred_key (e : CredEntry) : string := bankCredKey (ce_tenant e) (default BankIDC6 (ce_bank e)).
Definition key_key (e : KeyEntry) : string := bankCredKey (ke_tenant e) (default BankIDC6 (ke_bank e)).
Definition with_key (k : string) (c : BankCredential) : BankCredential :=
  {| bc_TenantID := bc_TenantID c; bc_BankID := bc_BankID c; bc_ClientID := bc_ClientID c; bc_Secret := bc_Secret c;
     bc_CreditorKey := k |}.
Definition the_last {A} (P : A -> bool) (l : list A) : option A := last (List.filter P l).
Definition cred_pair (e : CredEntry) : string * string := (ce_tenant e, default BankIDC6 (ce_bank e)).
Definition key_pair (e : KeyEntry) : string * string := (ke_tenant e, default BankIDC6 (ke_bank e)).
Definition for_key {A} (key : A -> string) (k : string) (e : A) : bool := bool_decide (key e = k).
Definition for_pair {A} (pair : A -> string * string) (tenant bank : string) (e : A) : bool :=
  bool_decide (pair e = (tenant, bank)).
(** The credential of a pair: the last one written, with the last key written for it. *)
Definition loaded (es : list CredEntry) (ks : list KeyEntry) (tenant bank : string) : option BankCredential :=
  e ← the_last (for_pair cred_pair tenant bank) es;
  Some (match the_last (for_pair key_pair tenant bank) ks with
        | Some k => with_key (ke_key k) (cred_of e)
        | None => cred_of e
        end).
(** The keys of a pair no credential was written for, and the line each is skipped with. *)
Definition unmatched (es : list CredEntry) (ks : list KeyEntry) : list LogLine :=
  map (fun k => CreditorKeyUnmatched (key_pair k).1 (key_pair k).2)
    (List.filter (fun k => negb (existsb (fun e => bool_decide (cred_pair e = key_pair k)) es)) ks).

Lemma bytes_append a b : bytes_of (a ++ b) = (bytes_of a ++ bytes_of b)%list.
Proof.
  induction a as [|c a IH]; [done|]. change (c :: bytes_of (a ++ b) = c :: (bytes_of a ++ bytes_of b))%list. by rewrite IH.
Qed.
Lemma bytes_nil s : bytes_of s = [] -> s = "".
Proof. by destruct s. Qed.
Lemma plain_weaken ok s : plain ok s -> plain (fun _ => true) s.
Proof. intros [Hne H]. split; [done|]. eapply Forall_impl; [exact H|]. by intros c (? & ? & ?). Qed.
Lemma plain_append ok a b : plain ok a -> plain ok b -> plain ok (a ++ b).
Proof.
  intros [Ha Fa] [Hb Fb]. split; [by destruct a|]. rewrite bytes_append. by apply Forall_app.
Qed.
Lemma plain_trimmed ok s : plain ok s -> TrimSpace s = s.
Proof.
  intros [Hne H]. destruct (bytes_of s) as [|c l] eqn:E; [by apply bytes_nil in E|].
  rewrite <- (string_bytes s), E. destruct (exists_last (l := c :: l)) as (l' & d & E'); [done|].
  assert (visible c = true /\ visible d = true) as [? ?].
  { split; [by apply Forall_cons in H as [[? _] _]|]. rewrite E', Forall_app, Forall_cons in H. tauto. }
  apply (TrimSpace_visible c (c :: l) d); [done..|by exists l|by exists l'].
Qed.
Lemma plain_no_comma ok s : plain ok s -> Forall (.≠ ","%char) (bytes_of s).
Proof. intros [_ H]. eapply Forall_impl; [exact H|]. by intros c (_ & ? & _). Qed.
Lemma field_no_colon s : field s -> Forall (.≠ ":"%char) (bytes_of s).
Proof.
  intros [_ H]. eapply Forall_impl; [exact H|]. intros c (_ & _ & Hc) ->. by vm_compute in Hc.
Qed.

(** ** The list of entries *)
Lemma concat_cons a b l : String.concat "," (a :: b :: l) = a ++ "," ++ String.concat "," (b :: l).
Proof. done. Qed.
Lemma split_concat l : Forall (plain (fun _ => true)) l -> l <> [] -> Split (String.concat "," l) "," = l.
Proof.
  unfold Split. intros Hl. induction Hl as [|a l Ha Hl IH]; [done|]. intros _. destruct l as [|b l].
  { cbn. rewrite split_none by by eapply plain_no_comma. cbn. by rewrite string_bytes. }
  rewrite concat_cons, bytes_append. change (bytes_of ("," ++ ?s)) with (","%char :: bytes_of s).
  rewrite split_app by by eapply plain_no_comma. cbn [map]. by rewrite string_bytes, IH.
Qed.
Lemma splitNonEmpty_concat l : Forall (plain (fun _ => true)) l -> splitNonEmpty (String.concat "," l) = l.
Proof.
  intros Hl. destruct (decide (l = [])) as [->|Hne]; [done|]. unfold splitNonEmpty. rewrite split_concat by done.
  clear Hne. induction Hl as [|a l Ha Hl IH]; [done|]. cbn. rewrite (plain_trimmed _ _ Ha). destruct Ha as [Ha _].
  rewrite bool_decide_false by done. cbn. by rewrite IH.
Qed.
Lemma SplitN_field n a s : (2 <= n)%nat -> field a -> SplitN (a ++ ":" ++ s) ":" n = a :: SplitN s ":" (n - 1).
Proof.
  intros Hn Ha. unfold SplitN. rewrite bytes_append. change (bytes_of (":" ++ ?s)) with (":"%char :: bytes_of s).
  rewrite splitN_app by (by try apply field_no_colon). cbn [map]. by rewrite string_bytes.
Qed.
Lemma SplitN_last n a : field a -> SplitN a ":" n = [a].
Proof. intros Ha. unfold SplitN. rewrite splitN_none by by apply field_no_colon. cbn. by rewrite string_bytes. Qed.
Lemma SplitN_one a : SplitN a ":" 1 = [a].
Proof. unfold SplitN. rewrite splitN_one. cbn. by rewrite string_bytes. Qed.
Lemma with_bank_append b s : (with_bank (Some b) ++ s = b ++ ":" ++ s)%string.
Proof. cbn [with_bank]. by rewrite append_assoc. Qed.
Lemma or_c6_field b : field b -> or_c6 b = b.
Proof. intros [Hb _]. unfold or_c6. by rewrite bool_decide_false. Qed.

Lemma cred_entry_spec i e m : cred_ok e ->
  bank_cred_entry i (cred_text e) m = (<[cred_key e := cred_of e]> m, []).
Proof.
  destruct e as [t [b|] c s]; unfold cred_ok, cred_text, cred_key, cred_of; cbn [ce_tenant ce_bank ce_client ce_secret default];
    intros (Ht & Hb & Hc & Hs); unfold bank_cred_entry; cbn [bank_ok] in Hb.
  - rewrite with_bank_append, !SplitN_field by (done || lia). cbn [Nat.sub]. rewrite SplitN_one. cbv zeta iota.
    rewrite !(plain_trimmed _ _ Ht), !(plain_trimmed _ _ Hb), !(plain_trimmed _ _ Hc), !(plain_trimmed _ _ Hs), or_c6_field by done.
    rewrite !bool_decide_false by (by apply Ht || apply Hc || apply Hs). done.
  - cbn [with_bank]. change ("" ++ ?s)%string with s. rewrite !SplitN_field by (done || lia). cbn [Nat.sub].
    rewrite SplitN_last by done. cbv zeta iota.
    rewrite !(plain_trimmed _ _ Ht), !(plain_trimmed _ _ Hc), !(plain_trimmed _ _ Hs).
    change (or_c6 (TrimSpace BankIDC6)) with BankIDC6.
    rewrite !bool_decide_false by (by apply Ht || apply Hc || apply Hs). done.
Qed.
Lemma key_entry_spec i e m : key_ok e ->
  creditor_key_entry i (key_text e) m =
  match m !! key_key e with
  | None => (m, [CreditorKeyUnmatched (ke_tenant e) (default BankIDC6 (ke_bank e))])
  | Some c => (<[key_key e := with_key (ke_key e) c]> m, [])
  end.
Proof.
  destruct e as [t [b|] k]; unfold key_ok, key_text, key_key; cbn [ke_tenant ke_bank ke_key default];
    intros (Ht & Hb & Hk); unfold creditor_key_entry; cbn [bank_ok] in Hb.
  - rewrite with_bank_append, !SplitN_field by (done || lia). cbn [Nat.sub]. rewrite SplitN_one. cbv zeta iota.
    rewrite !(plain_trimmed _ _ Ht), !(plain_trimmed _ _ Hb), !(plain_trimmed _ _ Hk), or_c6_field by done.
    rewrite !bool_decide_false by (by apply Ht || apply Hk). done.
  - cbn [with_bank]. change ("" ++ ?s)%string with s. rewrite SplitN_field by (done || lia). cbn [Nat.sub].
    rewrite SplitN_last by done. cbv zeta iota.
    rewrite !(plain_trimmed _ _ Ht), !(plain_trimmed _ _ Hk). change (or_c6 (TrimSpace BankIDC6)) with BankIDC6.
    rewrite !bool_decide_false by (by apply Ht || apply Hk). done.
Qed.
Lemma cred_text_plain e : cred_ok e -> plain (fun _ => true) (cred_text e).
Proof.
  intros (Ht & Hb & Hc & Hs). assert (Hcolon : plain (fun _ => true) ":") by (split; [done|by repeat constructor]).
  assert (plain (fun _ => true) (ce_secret e)) by (destruct (ce_bank e); [done|by eapply plain_weaken]).
  unfold cred_text. destruct (ce_bank e) as [b|] eqn:E;
    [rewrite with_bank_append|cbn [with_bank]; change ("" ++ ?s)%string with s];
    repeat (apply plain_append; [first [done|by eapply plain_weaken]|]); done.
Qed.
Lemma key_text_plain e : key_ok e -> plain (fun _ => true) (key_text e).
Proof.
  intros (Ht & Hb & Hc). assert (Hcolon : plain (fun _ => true) ":") by (split; [done|by repeat constructor]).
  apply plain_weaken in Hc. unfold key_text. destruct (ke_bank e) as [b|] eqn:E;
    [rewrite with_bank_append|cbn [with_bank]; change ("" ++ ?s)%string with s];
    repeat (apply plain_append; [first [done|by eapply plain_weaken]|]); done.
Qed.

(** ** The two loops *)
Lemma each_cred es : forall i m, Forall cred_ok es ->
  each_entry bank_cred_entry i (map cred_text es) m =
  (fold_left (fun (m : credentials) e => <[cred_key e := cred_of e]> m) es m, []).
Proof.
  induction es as [|e es IH]; intros i m Hes; [done|]. apply Forall_cons in Hes as [He Hes].
  cbn [map each_entry fold_left]. by rewrite cred_entry_spec, IH.
Qed.
Lemma creds_lookup es : forall (m : credentials) k,
  fold_left (fun (m : credentials) e => <[cred_key e := cred_of e]> m) es m !! k =
  match the_last (for_key cred_key k) es with Some e => Some (cred_of e) | None => m !! k end.
Proof.
  unfold the_last, for_key. induction es as [|e es IH]; intros m k; [done|]. cbn [fold_left List.filter]. rewrite IH.
  case_bool_decide as E; [rewrite last_cons, <- E, lookup_insert_eq; by destruct (last _)|].
  by rewrite lookup_insert_ne.
Qed.
Lemma each_key ks : forall i m, Forall key_ok ks ->
  let (m', log) := each_entry creditor_key_entry i (map key_text ks) m in
  (forall k, m' !! k =
     c ← m !! k;
     Some match the_last (for_key key_key k) ks with Some k => with_key (ke_key k) c | None => c end) /\
  log = map (fun k => CreditorKeyUnmatched (key_pair k).1 (key_pair k).2)
          (List.filter (fun k => bool_decide (m !! key_key k = None)) ks).
Proof.
  unfold the_last, for_key. induction ks as [|k ks IH]; intros i m Hks.
  { split; [|done]. intros x. cbn. by destruct (m !! _). }
  apply Forall_cons in Hks as [Hk Hks]. cbn [map each_entry]. rewrite key_entry_spec by done.
  destruct (m !! key_key k) as [c|] eqn:Em.
  - specialize (IH (i + 1) (<[key_key k := with_key (ke_key k) c]> m) Hks).
    destruct (each_entry _ _ _ _) as [m' log]. destruct IH as [IHm IHl]. split.
    + intros x. rewrite IHm. cbn [List.filter]. case_bool_decide as E.
      * rewrite <- E, lookup_insert_eq, Em, last_cons. cbn. by destruct (last _).
      * by rewrite lookup_insert_ne.
    + cbn [app List.filter]. rewrite IHl, Em, bool_decide_false by done. f_equal.
      apply List.filter_ext. intros k'. apply bool_decide_ext.
      destruct (decide (key_key k = key_key k')) as [<-|]; [|by rewrite lookup_insert_ne].
      rewrite lookup_insert_eq, Em. done.
  - specialize (IH (i + 1) m Hks). destruct (each_entry _ _ _ _) as [m' log]. destruct IH as [IHm IHl]. split.
    + intros x. rewrite IHm. cbn [List.filter]. case_bool_decide as E; [|done]. by rewrite <- E, Em.
    + cbn [List.filter]. rewrite Em, bool_decide_true by done. cbn [map]. by rewrite <- IHl.
Qed.

(** ** Pairs and keys *)
Lemma field_no_nul s : field s -> Forall (.≠ zero) (bytes_of s).
Proof. intros [_ H]. eapply Forall_impl; [exact H|]. intros c (Hc & _) ->. by vm_compute in Hc. Qed.
Lemma bankCredKey_inj t b t' b' : field t -> field t' -> bankCredKey t b = bankCredKey t' b' -> (t, b) = (t', b').
Proof.
  intros Ht Ht' E%(f_equal (fun s => splitN zero 2 (bytes_of s))). unfold bankCredKey in E.
  rewrite !bytes_append in E. change (bytes_of (String zero ?s)) with (zero :: bytes_of s) in E.
  rewrite !splitN_app, !splitN_one in E by (lia || by apply field_no_nul). injection E as E1 E2.
  by rewrite <- (string_bytes t), <- (string_bytes b), E1, E2, !string_bytes.
Qed.
Lemma pair_key t b t' b' : field t -> field t' ->
  bool_decide (bankCredKey t b = bankCredKey t' b') = bool_decide ((t, b) = (t', b')).
Proof. intros Ht Ht'. apply bool_decide_ext. split; [by apply bankCredKey_inj|by intros [= -> ->]]. Qed.
Lemma last_for {A} (tenant_of bank_of : A -> string) l tenant bank :
  field tenant -> Forall (fun e => field (tenant_of e)) l ->
  the_last (for_key (fun e => bankCredKey (tenant_of e) (bank_of e)) (bankCredKey tenant bank)) l =
  the_last (for_pair (fun e => (tenant_of e, bank_of e)) tenant bank) l.
Proof.
  intros Ht Hl. unfold the_last. f_equal. apply filter_ext_in. intros e He. apply pair_key; [|done].
  rewrite Forall_forall in Hl. by apply Hl, list_elem_of_In.
Qed.
Lemma last_none {A} (P : A -> bool) l : bool_decide (the_last P l = None) = negb (existsb P l).
Proof.
  unfold the_last. induction l as [|x l IH]; [done|]. cbn [List.filter existsb]. destruct (P x); [|done].
  rewrite last_cons. by destruct (last _).
Qed.


(** ** Settings *)
Definition dark_flags {F} : list (string * (Config F -> bool)) :=
  [("PAYMENT_SELFSERVE_CRED_INTAKE", cfg_SelfServeCredIntake); ("PAYMENT_PIX_RECURRENCE", cfg_PixRecurrence);
   ("PAYMENT_WEBHOOK_LOG_PAYLOAD", cfg_WebhookLogPayload); ("PAYMENT_ACCOUNT_KEY_SELECTOR", cfg_AccountKeySelector);
   ("PAYMENT_ACCOUNT_OUTBOUND_WEBHOOK", cfg_AccountOutboundWebhook); ("PAYMENT_WEBHOOK_RECONCILE", cfg_WebhookReconcile);
   ("PAYMENT_STG_SEED", cfg_STGSeed)].

Lemma getenvBool_moved Getenv key def :
  getenvBool Getenv key def = negb def <-> Getenv key ∈ (if def then Falsy else Truthy).
Proof.
  unfold getenvBool. cbv zeta. pose proof (ParseBool_spec (Getenv key)) as [Hp Hd]. case_bool_decide as E.
  { rewrite E. split; [by destruct def|]. intros H. exfalso. destruct def; unfold Truthy, Falsy in H;
      rewrite !elem_of_cons, elem_of_nil in H; naive_solver. }
  destruct (ParseBool _) as [[]|], def; cbn; naive_solver.
Qed.
Lemma getenvInt_spec Getenv key : let n := getenvInt Getenv key 0 in 0 <= n /\ (0 < n -> Atoi (Getenv key) = Some n).
Proof.
  cbv zeta. unfold getenvInt. cbv zeta. case_bool_decide; [lia|]. destruct (Atoi _) as [n|]; [|lia].
  destruct (Z.ltb_spec n 0); split; [lia..|done].
Qed.
Lemma getenvDuration_positive Getenv key def : 0 < def -> 0 < getenvDuration Getenv key def.
Proof.
  intros Hd. unfold getenvDuration. cbv zeta. case_bool_decide; [done|]. destruct (ParseDuration _) as [d|]; [|done].
  destruct (Z.leb_spec d 0); [done|lia].
Qed.

(** A mistyped setting changes nothing.  Cookies lose their Secure attribute only on one of
    the six texts that say so; a feature that ships dark is on only on one of the six that say that;
    the number of trusted proxies is the one written or none; and no text makes a timeout or the
    sweep's interval zero or negative. *)
Theorem settings_fail_safe {F} (ParseFloat : string -> option F) (zeroF : F) (Getenv : Env) :
  let cfg := (FromEnv ParseFloat zeroF Getenv).1 in
  (cfg_SecureCookies cfg = false <-> Getenv "PAYMENT_SECURE_COOKIES" ∈ Falsy) /\
  Forall (fun f => f.2 cfg = true <-> Getenv f.1 ∈ Truthy) dark_flags /\
  0 <= cfg_TrustedProxyHops cfg /\
  (0 < cfg_TrustedProxyHops cfg -> Atoi (Getenv "PAYMENT_TRUSTED_PROXY_HOPS") = Some (cfg_TrustedProxyHops cfg)) /\
  0 < c6_Timeout (cfg_C6 cfg) /\ 0 < cfg_WebhookReconcileInterval cfg.
Proof.
  cbv zeta. unfold FromEnv. destruct (parseBankCreds _) as [creds ?], (mergeCreditorKeys _ _) as [creds' ?]. cbn [fst].
  destruct (getenvInt_spec Getenv "PAYMENT_TRUSTED_PROXY_HOPS").
  split_and!; [apply (getenvBool_moved _ _ true)|unfold dark_flags;
    repeat (apply Forall_cons; split; [apply (getenvBool_moved _ _ false)|]); by apply Forall_nil|done|done|by apply getenvDuration_positive..].
Qed.

(** ** What the separators cost

    A comma ends an entry: the secret is cut there, and its tail, when it reads as an entry of its
    own, is loaded as a pair whose tenant, a piece of the secret, is logged. *)
Theorem comma_cuts_a_secret :
  let (creds, log) := parseBankCreds "t1:c6:id:pa,ss:x:y" in
  (bc_Secret <$> creds !! bankCredKey "t1" "c6") = Some "pa" /\ log = [] /\
  logLoadedBankCreds creds = [LoadedCredentials 2 ["ss/c6"; "t1/c6"]].
Proof. vm_compute. done. Qed.
(** A legacy secret with a colon reads as the long form: the client identifier becomes the bank. *)
Theorem legacy_colon_is_a_bank :
  map (fun e => (bc_BankID e.2, bc_ClientID e.2, bc_Secret e.2)) (map_to_list (parseBankCreds "t1:id:se:cret").1) =
  [("id", "se", "cret")].
Proof. vm_compute. reflexivity. Qed.
