(* ===== verification/BankCerts.v ===== *)
(** The bank's client certificates: internal/domain/bankcert, the vault of
    internal/adapters/secret/cert.go, and the uploads and badges of internal/app/console.go and
    internal/app/admin.go.  The PEM, X.509 and key-pair parsers are parameters. *)
From S2P Require Import Prelude GoStrings GoTime GoCrypto Shared Tenants AuditTrail Ports.
From S2P Require Import BankIdentity.

Record Certificate := {
  cert_SubjectCN : string; cert_Issuer : string; cert_SerialNumber : string;
  cert_FingerprintSHA256 : string; cert_NotBefore : Time; cert_NotAfter : Time
}.
Record BankCertificate := {
  bcert_TenantID : string; bcert_BankID : string; bcert_CertPEM : string; bcert_KeyPEM : string
}.
Record BankCertificateMeta := {
  meta_TenantID : string; meta_BankID : string; meta_cert : Certificate
}.

(** What x509.ParseCertificate reads of a certificate's bytes. *)
Record X509 := {
  x_CommonName : string; x_Issuer : string; x_Serial : string; x_NotBefore : Time; x_NotAfter : Time
}.

(** * The expiry badge *)
Inductive CertStatus :=
| CertStatusValid | CertStatusExpiringSoon | CertStatusExpired | CertStatusNotYetValid.
#[export] Instance CertStatus_eq_dec : EqDecision CertStatus.
Proof. solve_decision. Defined.
Definition certExpiryWarningWindow : Z := 30 * 24 * hour.

Definition ceilDays (d : Z) : Z :=
  if d <=? 0 then div64 d day_ns else div64 (sub64 (add64 d day_ns) 1) day_ns.

Definition certStatusFor (notBefore notAfter now : Time) : CertStatus * Z :=
  let days := ceilDays (Sub notAfter now) in
  (if Before now notBefore then CertStatusNotYetValid
   else if negb (Before now notAfter) then CertStatusExpired
   else if Sub notAfter now <=? certExpiryWarningWindow then CertStatusExpiringSoon
   else CertStatusValid, days).

(** The badge tells the truth about the clock: pre-provisioned before its window, expired
    from the instant the window ends, expiring during its last thirty days, valid before;
    and the days shown to a future expiry are its distance rounded up, as long as that
    distance is under 292 years. *)
Theorem badge_exact notBefore notAfter now :
  let '(st, days) := certStatusFor notBefore notAfter now in
  (st = CertStatusNotYetValid <-> ns now < ns notBefore) /\
  (st = CertStatusExpired <-> ns notBefore <= ns now /\ ns notAfter <= ns now) /\
  (st = CertStatusExpiringSoon <-> ns notBefore <= ns now /\
     0 < ns notAfter - ns now <= certExpiryWarningWindow) /\
  (st = CertStatusValid <-> ns notBefore <= ns now /\ certExpiryWarningWindow < ns notAfter - ns now) /\
  (0 < ns notAfter - ns now <= maxInt64 - day_ns ->
     (days - 1) * day_ns < ns notAfter - ns now <= days * day_ns).
Proof.
  unfold certStatusFor, ceilDays, Before, Sub. cbv zeta.
  assert (Hw : 0 < certExpiryWarningWindow < maxInt64) by (split; vm_compute; reflexivity).
  assert (Hd : 0 < day_ns < maxInt64) by (split; vm_compute; reflexivity).
  assert (Hm : minInt64 < 0) by reflexivity.
  split_and!.
  all: try (destruct (Z.ltb_spec (ns now) (ns notBefore)), (Z.ltb_spec (ns now) (ns notAfter)); cbn [negb];
    repeat (case_match; rewrite ?Z.leb_le, ?Z.leb_gt, ?Z.ltb_lt, ?Z.ltb_ge in *);
    (split; [first [done|lia]|intros; first [done|exfalso; lia]])).
  intros [H1 H2].
  destruct (Z.ltb_spec maxInt64 (ns notAfter - ns now)); [lia|].
  destruct (Z.ltb_spec (ns notAfter - ns now) minInt64); [lia|].
  destruct (Z.leb_spec (ns notAfter - ns now) 0); [lia|].
  set (d := ns notAfter - ns now) in *.
  rewrite add64_id by (unfold in64; lia). unfold sub64. rewrite wrap64_id by (unfold in64; lia).
  rewrite div64_nonneg by (unfold in64; lia).
  pose proof (Z.div_mod (d + day_ns - 1) day_ns ltac:(lia)).
  pose proof (Z.mod_pos_bound (d + day_ns - 1) day_ns ltac:(lia)). lia.
Qed.

(** A certificate without an expiry date ends, by convention, with the year 9999: the distance
    saturates, the rounding overflows, and the badge counts days since it lapsed. *)
Theorem far_expiry_counts_backwards :
  certStatusFor zeroTime {| ns := 253402300799 * nsec; loc := UTC_loc |}
    {| ns := 1700000000 * nsec; loc := UTC_loc |} = (CertStatusValid, -106750).
Proof. vm_compute. reflexivity. Qed.

Section parsers.
(** The bytes of a PEM block of type CERTIFICATE, the certificate those bytes encode, and
    whether a certificate and a key make a pair. *)
Context (pem_certificate : string -> option bytes).
Context (x509_parse : bytes -> option X509).
Context (X509KeyPair : string -> string -> bool).

Definition ParseCert (certPEM : string) : res Certificate :=
  match pem_certificate certPEM with
  | None => Err (NewValidationError "cert_pem" "not a valid PEM certificate")
  | Some der =>
      match x509_parse der with
      | None => Err (NewValidationError "cert_pem" "malformed certificate")
      | Some c =>
          Ok {| cert_SubjectCN := x_CommonName c; cert_Issuer := x_Issuer c;
                cert_SerialNumber := x_Serial c; cert_FingerprintSHA256 := hex (sha256 der);
                cert_NotBefore := x_NotBefore c; cert_NotAfter := x_NotAfter c |}
      end
  end.
Definition Parse (certPEM keyPEM : string) : res Certificate :=
  let? meta := ParseCert certPEM in
  refuse (negb (X509KeyPair certPEM keyPEM))
    with (NewValidationError "key_pem" "private key does not match certificate") ;;
  Ok meta.

(** * The vault *)
Notation vault := (gmap string BankCertificate).
Definition store_SetBankCertificate (c : BankCertificate) : M vault error unit :=
  abort (bool_decide (bcert_TenantID c = "")) with (NewValidationError "tenant_id" "is required") ;;
  abort (bool_decide (bcert_CertPEM c = "")) with (NewValidationError "cert_pem" "is required") ;;
  abort (bool_decide (bcert_KeyPEM c = "")) with (NewValidationError "key_pem" "is required") ;;
  fun v =>
    let c := {| bcert_TenantID := bcert_TenantID c; bcert_BankID := defaultBankID (bcert_BankID c);
                bcert_CertPEM := bcert_CertPEM c; bcert_KeyPEM := bcert_KeyPEM c |} in
    (<[credKey (bcert_TenantID c) (bcert_BankID c) := c]> v, Ok tt).
Definition vault_DeleteBankCertificate (tenantID bankID : string) : M vault error unit := fun v =>
  (delete (credKey tenantID (defaultBankID bankID)) v, Ok tt).
Definition LoadTLSCertificate (tenantID bankID : string) (v : vault) : res BankCertificate :=
  match v !! credKey tenantID (defaultBankID bankID) with
  | None => Err ErrNotFound
  | Some c => if X509KeyPair (bcert_CertPEM c) (bcert_KeyPEM c) then Ok c
              else Err (New "tls: private key does not match public key")
  end.
Definition meta_of (c : BankCertificate) (cert : Certificate) : BankCertificateMeta :=
  {| meta_TenantID := bcert_TenantID c; meta_BankID := bcert_BankID c; meta_cert := cert |}.
Definition GetBankCertificateMeta (tenantID bankID : string) (v : vault) : res BankCertificateMeta :=
  match v !! credKey tenantID bankID with
  | None => Err ErrNotFound
  | Some c => let? cert := ParseCert (bcert_CertPEM c) in Ok (meta_of c cert)
  end.

(** * The uploads *)
Record CertDesk := {
  cd_tenants : gmap string Tenant;
  cd_vault : vault;
  cd_evicted : list string;
  cd_audit : list Entry
}.
Record CertEnv := {
  ce_now : Time; ce_audit_now : Time; ce_id : string; ce_operator : string;
  ce_append : option error
}.
Notation cert_op A := (M CertDesk error A).

Definition on_vault (op : M vault error unit) : cert_op unit := fun d =>
  let '(v, r) := op (cd_vault d) in
  ({| cd_tenants := cd_tenants d; cd_vault := v; cd_evicted := cd_evicted d;
      cd_audit := cd_audit d |}, r).
Definition evict (tenantID : string) : cert_op unit := fun d =>
  ({| cd_tenants := cd_tenants d; cd_vault := cd_vault d;
      cd_evicted := cd_evicted d ++ [tenantID]; cd_audit := cd_audit d |}, Ok tt).
Definition record (env : CertEnv) (entry : res Entry) : cert_op unit :=
  do e <- liftM (map_err (Wrap "build audit entry") entry) ;;
  match ce_append env with
  | Some err => throwM (Wrap "append audit entry" err)
  | None => fun d => ({| cd_tenants := cd_tenants d; cd_vault := cd_vault d;
                         cd_evicted := cd_evicted d; cd_audit := cd_audit d ++ [e] |}, Ok tt)
  end.
Definition resolve_tenant (tenantID : string) : cert_op Tenant :=
  readM (fun d => map_err (Wrap "resolve tenant") (find_tenant (cd_tenants d) tenantID)).

(** From the parsed pair on, the console's and the admin's uploads are the same. *)
Definition install (env : CertEnv) (tenantID bankID certPEM keyPEM expired : string)
    (selfServe : bool) : cert_op BankCertificateMeta :=
  do cert <- liftM (Parse certPEM keyPEM) ;;
  abort (Before (cert_NotAfter cert) (ce_now env)) with (NewValidationError "cert_pem" expired) ;;
  let c := {| bcert_TenantID := tenantID; bcert_BankID := bankID; bcert_CertPEM := certPEM;
              bcert_KeyPEM := keyPEM |} in
  do _ <- wrapM (Wrap "set bank certificate") (on_vault (store_SetBankCertificate c)) ;;
  do _ <- evict tenantID ;;
  do _ <- record env ((if selfServe then NewSelfServeCertificateSetEntry else NewCertificateSetEntry)
                        (ce_id env) (ce_operator env) tenantID bankID
                        (cert_FingerprintSHA256 cert) (ce_audit_now env)) ;;
  retM (meta_of c cert).

Definition SetBankCertificate (env : CertEnv) (tenantID bankID certPEM keyPEM : string)
    : cert_op BankCertificateMeta :=
  let tenantID := TrimSpace tenantID in
  do _ <- resolve_tenant tenantID ;;
  let slug := NormalizeBankID bankID in
  abort (negb (IsKnownBankID slug)) with (NewValidationError "bank" "banco não suportado") ;;
  install env tenantID slug certPEM keyPEM "certificado já expirado" false.

Definition admin_setBankCertificate (env : CertEnv) (tenantID bank certPEM keyPEM : string)
    (selfServe : bool) : cert_op BankCertificateMeta :=
  let bank := NormalizeBankID bank in
  abort (negb (IsKnownBankID bank)) with (NewValidationError "bank" "unknown bank") ;;
  do _ <- resolve_tenant tenantID ;;
  install env tenantID bank certPEM keyPEM "certificate is expired" selfServe.

(** ** The console's view of a bank *)
Record BankCertInfo := { bci_cert : Certificate; bci_Status : CertStatus; bci_DaysToExpiry : Z }.
Record BankInfo := {
  bi_Slug : string; bi_CredentialSet : bool; bi_ClientID : string; bi_CreditorKey : string;
  bi_Cert : option BankCertInfo
}.
Definition lookupBank (creds : credentials) (v : vault) (now : Time) (tenantID bankID : string)
    : res BankInfo :=
  let with_cert set client key :=
    match GetBankCertificateMeta tenantID bankID v with
    | Ok meta =>
        let '(st, days) := certStatusFor (cert_NotBefore (meta_cert meta))
                             (cert_NotAfter (meta_cert meta)) now in
        Ok {| bi_Slug := bankID; bi_CredentialSet := set; bi_ClientID := client;
              bi_CreditorKey := key;
              bi_Cert := Some {| bci_cert := meta_cert meta; bci_Status := st;
                                 bci_DaysToExpiry := days |} |}
    | Err e =>
        if errors_Is e ErrNotFound
        then Ok {| bi_Slug := bankID; bi_CredentialSet := set; bi_ClientID := client;
                   bi_CreditorKey := key; bi_Cert := None |}
        else Err (Wrap "read bank certificate" e)
    end in
  match GetBankCredential creds tenantID bankID with
  | Ok c => with_cert true (bc_ClientID c) (bc_CreditorKey c)
  | Err e => if errors_Is e ErrNotFound then with_cert false "" ""
             else Err (Wrap "read bank credential" e)
  end.

Definition KnownBankIDs : list string := [BankIDC6].
Definition GetBank (tenants : gmap string Tenant) (creds : credentials) (v : vault) (now : Time)
    (tenantID bankID : string) : res BankInfo :=
  let tenantID := TrimSpace tenantID in
  let? _ := map_err (Wrap "resolve tenant") (find_tenant tenants tenantID) in
  let slug := NormalizeBankID bankID in
  refuse (negb (IsKnownBankID slug)) with (Wrap "unknown bank" ErrNotFound) ;;
  lookupBank creds v now tenantID slug.
(** The loop of ListBanks and AddableBankSlugs over the supported banks. *)
Fixpoint lookup_banks (creds : credentials) (v : vault) (now : Time) (tenantID : string)
    (slugs : list string) : res (list BankInfo) :=
  match slugs with
  | [] => Ok []
  | slug :: rest =>
      let? info := lookupBank creds v now tenantID slug in
      let? infos := lookup_banks creds v now tenantID rest in
      Ok (info :: infos)
  end.
Definition ListBanks (tenants : gmap string Tenant) (creds : credentials) (v : vault) (now : Time)
    (tenantID : string) : res (list BankInfo) :=
  let tenantID := TrimSpace tenantID in
  let? _ := map_err (Wrap "resolve tenant") (find_tenant tenants tenantID) in
  let? infos := lookup_banks creds v now tenantID KnownBankIDs in
  Ok (List.filter bi_CredentialSet infos).
Definition AddableBankSlugs (tenants : gmap string Tenant) (creds : credentials) (v : vault)
    (now : Time) (tenantID : string) : res (list string) :=
  let tenantID := TrimSpace tenantID in
  let? _ := map_err (Wrap "resolve tenant") (find_tenant tenants tenantID) in
  let? infos := lookup_banks creds v now tenantID KnownBankIDs in
  Ok (map bi_Slug (List.filter (fun i => negb (bi_CredentialSet i)) infos)).

(** * What the vault holds *)
Definition Vault_ok (v : vault) : Prop := forall k c, v !! k = Some c ->
  k = credKey (bcert_TenantID c) (bcert_BankID c) /\
  exists cert, Parse (bcert_CertPEM c) (bcert_KeyPEM c) = Ok cert.

Lemma Parse_Ok certPEM keyPEM cert : Parse certPEM keyPEM = Ok cert <->
  ParseCert certPEM = Ok cert /\ X509KeyPair certPEM keyPEM = true.
Proof.
  unfold Parse. destruct (ParseCert certPEM) as [c|]; [|by split; [|intros [? _]]].
  destruct (X509KeyPair certPEM keyPEM); cbn; [by split; [|intros [? _]]|by split; [|intros [_ ?]]].
Qed.

(** The uploads of both planes, with the instant, the tenant and the material. *)
Inductive upload :=
| ConsoleUpload (env : CertEnv) (tenantID bankID certPEM keyPEM : string)
| AdminUpload (env : CertEnv) (tenantID bankID certPEM keyPEM : string) (selfServe : bool).
Definition run_upload (u : upload) : cert_op BankCertificateMeta :=
  match u with
  | ConsoleUpload env t b c k => SetBankCertificate env t b c k
  | AdminUpload env t b c k self => admin_setBankCertificate env t b c k self
  end.
Definition upload_now (u : upload) : Time :=
  match u with ConsoleUpload env _ _ _ _ | AdminUpload env _ _ _ _ _ => ce_now env end.
Definition upload_tenant (u : upload) : string :=
  match u with ConsoleUpload _ t _ _ _ => TrimSpace t | AdminUpload _ t _ _ _ _ => t end.

(** Where an upload ends: with the vault untouched, or with the pair installed; in the second
    case the answer, when it is not an error, is the pair's metadata. *)
Definition installed (u : upload) (d d' : CertDesk) (r : res BankCertificateMeta) : Prop :=
  cd_vault d' = cd_vault d /\ is_ok r = false \/
  exists c cert, Parse (bcert_CertPEM c) (bcert_KeyPEM c) = Ok cert /\
    ns (upload_now u) <= ns (cert_NotAfter cert) /\
    bcert_TenantID c = upload_tenant u /\ bcert_BankID c = BankIDC6 /\
    cd_vault d' = <[credKey (upload_tenant u) BankIDC6 := c]> (cd_vault d) /\
    cd_evicted d' = (cd_evicted d ++ [upload_tenant u])%list /\
    (is_ok r = true -> r = Ok (meta_of c cert)).

Lemma install_cases env t certPEM keyPEM msg self d :
  let '(d', r) := install env t BankIDC6 certPEM keyPEM msg self d in
  installed (AdminUpload env t BankIDC6 certPEM keyPEM self) d d' r.
Proof.
  unfold install, installed, bindM, liftM, throwM, wrapM, evict, record, retM.
  destruct (Parse certPEM keyPEM) as [cert|] eqn:Ep; [|by left].
  destruct (Before (cert_NotAfter cert) (ce_now env)) eqn:Eb; [by left|].
  unfold Before in Eb. apply Z.ltb_ge in Eb. unfold on_vault, store_SetBankCertificate, throwM.
  cbn [bcert_TenantID bcert_CertPEM bcert_KeyPEM].
  case_bool_decide; [by left|]. case_bool_decide; [by left|]. case_bool_decide; [by left|].
  cbn -[Parse credKey NewCertificateSetEntry NewSelfServeCertificateSetEntry].
  destruct (map_err _ _) as [e|]; [destruct (ce_append env)|]; right;
    exists {| bcert_TenantID := t; bcert_BankID := BankIDC6; bcert_CertPEM := certPEM;
              bcert_KeyPEM := keyPEM |}, cert; by split_and!.
Qed.

Lemma upload_cases u d : let '(d', r) := run_upload u d in installed u d d' r.
Proof.
  destruct u as [env t b c k|env t b c k self]; cbn [run_upload];
    unfold SetBankCertificate, admin_setBankCertificate, resolve_tenant, bindM, readM, throwM.
  - destruct (map_err _ (find_tenant _ _)); [|by left].
    destruct (IsKnownBankID (NormalizeBankID b)) eqn:Ek; cbn [negb]; [|by left].
    rewrite (known_is_c6 _ Ek). exact (install_cases env (TrimSpace t) c k _ false d).
  - destruct (IsKnownBankID (NormalizeBankID b)) eqn:Ek; cbn [negb]; [|by left].
    destruct (map_err _ (find_tenant _ _)); [|by left].
    rewrite (known_is_c6 _ Ek). exact (install_cases env t c k _ self d).
Qed.

(** What the vault holds can be used: after an upload, from either plane and whatever
    fails, every certificate of the vault still parses and matches its key; a successful
    upload answers with exactly what a later read of that company's certificate returns, the
    pair is the one the transport loads, it had not expired, and the pooled connections of
    that company were dropped; and no other company's certificate changed. *)
Theorem upload_exact u d (Hok : Vault_ok (cd_vault d)) :
  let '(d', r) := run_upload u d in
  let t := upload_tenant u in
  Vault_ok (cd_vault d') /\
  (forall k, k <> credKey t BankIDC6 -> cd_vault d' !! k = cd_vault d !! k) /\
  match r with
  | Ok meta =>
      GetBankCertificateMeta t BankIDC6 (cd_vault d') = Ok meta /\
      is_ok (LoadTLSCertificate t BankIDC6 (cd_vault d')) = true /\
      ns (upload_now u) <= ns (cert_NotAfter (meta_cert meta)) /\
      cd_evicted d' = (cd_evicted d ++ [t])%list
  | Err _ => True
  end.
Proof.
  pose proof (upload_cases u d) as H. destruct (run_upload u d) as [d' r]. cbv zeta.
  destruct H as [[-> Hr]|(c & cert & Hp & Hn & Et & Eb & -> & -> & Hr)].
  { split_and!; [done..|]. by destruct r. }
  split_and!.
  - intros k c'. destruct (decide (credKey (upload_tenant u) BankIDC6 = k)) as [<-|Hk].
    + rewrite lookup_insert_eq. intros [= <-]. rewrite Et, Eb. split; [done|by exists cert].
    + rewrite lookup_insert_ne by done. apply Hok.
  - intros k Hk. by rewrite lookup_insert_ne.
  - destruct r as [meta|]; [|done]. specialize (Hr eq_refl). injection Hr as ->.
    apply Parse_Ok in Hp as [Hc Hpair].
    unfold GetBankCertificateMeta, LoadTLSCertificate. rewrite !lookup_insert_eq, Hc, Hpair.
    by split_and!.
Qed.
End parsers.

(** A pair is its own PEM; every certificate runs to 2026. *)
Definition sample_x509 (der : bytes) : option X509 :=
  match der with
  | [] => None
  | _ => Some {| x_CommonName := string_of der; x_Issuer := "AC"; x_Serial := "1";
                 x_NotBefore := zeroTime; x_NotAfter := {| ns := 1800000000 * nsec; loc := UTC_loc |} |}
  end.
Definition sample_pair (certPEM keyPEM : string) : bool := bool_decide (certPEM = keyPEM).
Definition sample_desk : CertDesk :=
  {| cd_tenants := {[ "t1" := {| tenant_id := "t1"; tenant_name := "T"; tenant_active := true;
                                 tenant_createdAt := zeroTime; tenant_accountID := "a" |} ]};
     cd_vault := ∅; cd_evicted := []; cd_audit := [] |}.
Definition sample_env (append : option error) : CertEnv :=
  {| ce_now := {| ns := 1700000000 * nsec; loc := UTC_loc |}; ce_audit_now := {| ns := 1700000000 * nsec; loc := UTC_loc |}; ce_id := "e1";
     ce_operator := "op"; ce_append := append |}.

Lemma upload_exact_witness :
  let u := ConsoleUpload (sample_env None) " t1 " "C6" "pem" "pem" in
  let '(d', r) := run_upload (fun s => Some (bytes_of s)) sample_x509 sample_pair u sample_desk in
  is_ok r = true /\
  exists meta, r = Ok meta /\
    GetBankCertificateMeta (fun s => Some (bytes_of s)) sample_x509 "t1" BankIDC6 (cd_vault d')
      = Ok meta.
Proof.
  pose proof (upload_exact (fun s => Some (bytes_of s)) sample_x509 sample_pair
    (ConsoleUpload (sample_env None) " t1 " "C6" "pem" "pem") sample_desk) as H.
  cbv zeta. set (run := run_upload _ _ _ _ _) in *.
  assert (Hok : is_ok (snd run) = true) by (vm_compute; reflexivity).
  clearbody run. destruct run as [d' r]. cbn [snd] in Hok.
  destruct r as [meta|]; [|discriminate].
  destruct H as (_ & _ & Hget & _); [intros k c [=]|].
  split; [reflexivity|]. exists meta. split; [reflexivity|exact Hget].
Defined.
