(* ===== verification/RowSeal.v ===== *)
(** Secrets at rest: internal/adapters/secret/crypto.go.  The cipher itself (AES-256-GCM) is
    the platform's: an operation of the class [AEAD], with what the service relies on in
    [AEADLaws].  The data each blob is bound to is written out. *)
From S2P Require Import Prelude GoStrings GoText GoCrypto Shared.

(** * The bound data *)
Definition appendLenPrefixed (dst : bytes) (s : string) : bytes :=
  (dst ++ be_bytes 8 (len s) ++ bytes_of s)%list.
Definition RowAAD (tenantID bankID : string) : bytes :=
  let out := bytes_of "payment/bank-vault/row/v1" in
  let out := appendLenPrefixed out tenantID in
  appendLenPrefixed out bankID.
Definition ConsoleAAD (username : string) : bytes :=
  appendLenPrefixed (bytes_of "payment/console-cred/row/v1") username.
Definition OutboundWebhookAAD (accountID : string) : bytes :=
  appendLenPrefixed (bytes_of "payment/outbound-webhook/row/v1") accountID.

(** The rows a blob can be bound to. *)
Inductive sealed_row :=
| BankRow (tenantID bankID : string)
| ConsoleRow (username : string)
| OutboundRow (accountID : string).
Definition aad_of (r : sealed_row) : bytes :=
  match r with
  | BankRow t b => RowAAD t b
  | ConsoleRow u => ConsoleAAD u
  | OutboundRow a => OutboundWebhookAAD a
  end.

(** A Go string's length is an [int]. *)
Definition fits (s : string) : Prop := len s <= maxInt64.
Definition row_fits (r : sealed_row) : Prop :=
  match r with BankRow t b => fits t /\ fits b | ConsoleRow s | OutboundRow s => fits s end.

Lemma be_bytes_inj n x y : 0 <= x < 256 ^ Z.of_nat n -> 0 <= y < 256 ^ Z.of_nat n ->
  be_bytes n x = be_bytes n y -> x = y.
Proof.
  revert x y. induction n as [|n IH]; intros x y Hx Hy; [cbn in *; lia|].
  rewrite Nat2Z.inj_succ, Z.pow_succ_r in Hx, Hy by lia. cbn [be_bytes].
  intros E. apply app_inj_tail in E as [E1 E2].
  apply IH in E1; [|split; [apply Z.div_pos; lia|apply Z.div_lt_upper_bound; lia]..].
  apply (f_equal byteZ) in E2. rewrite !byteZ_asciiZ in E2 by (apply Z.mod_pos_bound; lia).
  rewrite (Z.div_mod x 256), (Z.div_mod y 256) by lia. congruence.
Qed.

(** A length-prefixed field is read back from the front of anything. *)
Lemma field_inj d s s' r r' : fits s -> fits s' ->
  (appendLenPrefixed d s ++ r = appendLenPrefixed d s' ++ r')%list -> s = s' /\ r = r'.
Proof.
  unfold appendLenPrefixed, fits, maxInt64. intros Hs Hs' E. rewrite <- !app_assoc in E.
  apply app_inv_head in E. apply app_inj_1 in E as [E1 E2]; [|by rewrite !length_be_bytes].
  apply be_bytes_inj in E1; [|unfold len in *; cbn; lia..].
  apply app_inj_1 in E2 as [E2 ->]; [|rewrite !length_bytes; unfold len in E1; lia].
  split; [|done]. by rewrite <- (string_bytes s), E2, string_bytes.
Qed.

Lemma aad_of_inj r r' : row_fits r -> row_fits r' -> aad_of r = aad_of r' -> r = r'.
Proof.
  destruct r as [t b|u|a], r' as [t' b'|u'|a']; cbn [row_fits aad_of];
    unfold RowAAD, ConsoleAAD, OutboundWebhookAAD; cbv zeta.
  all: try (intros _ _ E; unfold appendLenPrefixed in E; cbn in E; discriminate).
  - intros [Ht Hb] [Ht' Hb'] E.
    assert (Ea : forall d s x, appendLenPrefixed (appendLenPrefixed d s) x
                   = (appendLenPrefixed d s ++ appendLenPrefixed [] x)%list) by done.
    rewrite !Ea in E. apply field_inj in E as [-> E]; [|done..].
    rewrite <- (app_nil_r (appendLenPrefixed [] b)), <- (app_nil_r (appendLenPrefixed [] b')) in E.
    by apply field_inj in E as [-> _].
  - intros Hu Hu' E. rewrite <- (app_nil_r (appendLenPrefixed _ u)),
      <- (app_nil_r (appendLenPrefixed _ u')) in E. by apply field_inj in E as [-> _].
  - intros Hu Hu' E. rewrite <- (app_nil_r (appendLenPrefixed _ a)),
      <- (app_nil_r (appendLenPrefixed _ a')) in E. by apply field_inj in E as [-> _].
Qed.

(** * The cipher

    [gcm_seal key nonce plaintext aad] is the ciphertext with its tag. *)
Class AEAD := {
  gcm_seal : bytes -> bytes -> bytes -> bytes -> bytes;
  gcm_open : bytes -> bytes -> bytes -> bytes -> option bytes
}.
(** Authenticated encryption: what opens is what was sealed, under the same key, nonce and
    bound data. *)
Class AEADLaws `{AEAD} := {
  open_seal key nonce p aad : gcm_open key nonce (gcm_seal key nonce p aad) aad = Some p;
  open_only key nonce c p aad :
    gcm_open key nonce c aad = Some p -> c = gcm_seal key nonce p aad;
  seal_binds key key' nonce p p' aad aad' :
    gcm_seal key nonce p aad = gcm_seal key' nonce p' aad' -> key = key' /\ aad = aad'
}.

Definition ErrKeySize : error := New "secret: key must be 32 bytes (AES-256)".
Definition ErrMalformed : error := New "secret: ciphertext too short".
Definition ErrAuthentication : error := New "cipher: message authentication failed".
(** The nonce size of the standard library's GCM. *)
Definition NonceSize : nat := 12.

Record Cipher := { cipher_key : bytes }.
#[export] Instance Cipher_eq_dec : EqDecision Cipher.
Proof. solve_decision. Defined.
Definition NewCipher (key : bytes) : res Cipher :=
  refuse (negb (Nat.eqb (List.length key) 32)) with ErrKeySize ;;
  Ok {| cipher_key := key |}.

Section cipher.
Context `{AEAD}.

(** [nonce]: the bytes read from the random source, or the error of that read. *)
Definition SealWithAAD (c : Cipher) (nonce : res bytes) (plaintext aad : bytes) : res bytes :=
  let? nonce := map_err (Wrap "secret: read nonce") nonce in
  Ok (nonce ++ gcm_seal (cipher_key c) nonce plaintext aad)%list.
Definition OpenWithAAD (c : Cipher) (sealed aad : bytes) : res bytes :=
  if (List.length sealed <? NonceSize)%nat then Err ErrMalformed
  else match gcm_open (cipher_key c) (take NonceSize sealed) (drop NonceSize sealed) aad with
       | Some p => Ok p
       | None => Err (Wrap "secret: open" ErrAuthentication)
       end.
Definition Seal (c : Cipher) (nonce : res bytes) (plaintext : bytes) : res bytes :=
  SealWithAAD c nonce plaintext [].
Definition Open (c : Cipher) (sealed : bytes) : res bytes := OpenWithAAD c sealed [].

(** What io.ReadFull answers: an error, or as many bytes as the nonce has. *)
Definition nonce_read (nonce : res bytes) : Prop :=
  match nonce with Ok n => List.length n = NonceSize | Err _ => True end.

Context `{!AEADLaws}.

Lemma SealWithAAD_Ok c nonce p aad blob : SealWithAAD c nonce p aad = Ok blob <->
  exists n, nonce = Ok n /\ blob = (n ++ gcm_seal (cipher_key c) n p aad)%list.
Proof.
  unfold SealWithAAD. destruct nonce as [n|e]; cbn.
  - split; [intros [= <-]; eauto|]. by intros (n' & [= <-] & ->).
  - split; [done|]. by intros (? & ? & _).
Qed.

(** A sealed blob opens under the same cipher and bound data only, to what was sealed. *)
Lemma open_sealed c nonce p aad blob c' aad' q :
  nonce_read nonce -> SealWithAAD c nonce p aad = Ok blob ->
  OpenWithAAD c' blob aad' = Ok q <-> c' = c /\ aad' = aad /\ q = p.
Proof.
  intros Hn (n & -> & ->)%SealWithAAD_Ok. cbn in Hn. unfold OpenWithAAD.
  rewrite length_app, (proj2 (Nat.ltb_ge _ _)), take_app_length', drop_app_length' by lia.
  split.
  - destruct (gcm_open _ _ _ _) as [p'|] eqn:E; [|done]. intros [= ->].
    pose proof (open_only _ _ _ _ _ E) as Es. destruct (seal_binds _ _ _ _ _ _ _ Es) as [Ek ->].
    destruct c as [k], c' as [k']. cbn in *. subst k'. rewrite open_seal in E. by injection E as ->.
  - intros (-> & -> & ->). by rewrite open_seal.
Qed.

Lemma sealed_nonempty c nonce p aad blob :
  nonce_read nonce -> SealWithAAD c nonce p aad = Ok blob -> blob <> [].
Proof. intros Hn (n & -> & ->)%SealWithAAD_Ok. cbn in Hn. by destruct n. Qed.

(** A stored secret is bound to its place: a blob sealed for a row opens under the same
    key and that row only, to exactly the bytes sealed; copied to another row, to another
    table or read under another key it does not open. *)
Theorem sealed_row_exact c nonce p r blob c' r' q
    (Hn : nonce_read nonce) (Hs : SealWithAAD c nonce p (aad_of r) = Ok blob)
    (Hf : row_fits r) (Hf' : row_fits r') :
  OpenWithAAD c' blob (aad_of r') = Ok q <-> c' = c /\ r' = r /\ q = p.
Proof.
  rewrite (open_sealed _ _ _ _ _ _ _ _ Hn Hs).
  split; intros (-> & E & ->); (split_and!; [done| |done]); [|by rewrite E].
  by apply aad_of_inj in E.
Qed.
End cipher.

(** ** An authenticated cipher that hides nothing, for examples *)
Definition plain_frame (l : bytes) : bytes :=
  (List.concat (map (fun a => [Ascii.one; a]) l) ++ [Ascii.zero])%list.
Definition plain_seal (key _ p aad : bytes) : bytes :=
  (plain_frame key ++ plain_frame aad ++ p)%list.
Definition plain_open (key _ c aad : bytes) : option bytes :=
  let tag := (plain_frame key ++ plain_frame aad)%list in
  if bool_decide (take (List.length tag) c = tag) then Some (drop (List.length tag) c) else None.
#[export] Instance plain_AEAD : AEAD := {| gcm_seal := plain_seal; gcm_open := plain_open |}.

Lemma plain_frame_inj l l' r r' :
  (plain_frame l ++ r = plain_frame l' ++ r')%list -> l = l' /\ r = r'.
Proof.
  unfold plain_frame. revert l'. induction l as [|a l IH]; intros [|a' l']; cbn; intros E.
  - by injection E as ->.
  - discriminate.
  - discriminate.
  - injection E as -> E. apply IH in E as [-> ->]. done.
Qed.

#[export] Instance plain_AEADLaws : AEADLaws.
Proof.
  split; cbn.
  - intros key nonce p aad. unfold plain_open, plain_seal. rewrite app_assoc.
    rewrite take_app_length, drop_app_length. by rewrite bool_decide_true.
  - intros key nonce c p aad. unfold plain_open, plain_seal. cbv zeta.
    set (tag := (plain_frame key ++ plain_frame aad)%list).
    case_bool_decide as Ht; [|done]. intros [= <-].
    rewrite app_assoc. fold tag. rewrite <- (take_drop (List.length tag) c) at 1. by rewrite Ht.
  - intros key key' nonce p p' aad aad'. unfold plain_seal. intros E.
    apply plain_frame_inj in E as [-> E]. by apply plain_frame_inj in E as [-> _].
Qed.

Definition sample_key : bytes := replicate 32 "k"%char.
Definition sample_cipher : Cipher := {| cipher_key := sample_key |}.
Definition sample_nonce : bytes := replicate NonceSize "n"%char.

Lemma sealed_row_exact_witness :
  exists blob, SealWithAAD sample_cipher (Ok sample_nonce) (bytes_of "s3cret")
                 (aad_of (BankRow "ab" "c")) = Ok blob /\
    OpenWithAAD sample_cipher blob (aad_of (BankRow "ab" "c")) = Ok (bytes_of "s3cret") /\
    ~ (exists q, OpenWithAAD sample_cipher blob (aad_of (BankRow "a" "bc")) = Ok q).
Proof.
  eexists. split; [reflexivity|]. split.
  - apply (sealed_row_exact sample_cipher (Ok sample_nonce) (bytes_of "s3cret") (BankRow "ab" "c"));
      [reflexivity|reflexivity|split; discriminate|split; discriminate|done].
  - intros [q Hq].
    apply (sealed_row_exact sample_cipher (Ok sample_nonce) (bytes_of "s3cret") (BankRow "ab" "c"))
      in Hq as (_ & [=] & _); [reflexivity|reflexivity|split; discriminate|split; discriminate].
Defined.
