(* ===== verification/CredVault.v ===== *)
(** The durable credential vault: internal/adapters/persistence/sqlite/credential.go (the
    PostgreSQL vault is the same text with other placeholders).  Secrets are sealed before
    they reach a column; the theorem says that a reader cannot tell the vault from the
    in-memory store of BankIdentity. *)
From S2P Require Import Prelude GoStrings GoText Shared Ports PixKeys BankIdentity RowSeal.

(** * The table bank_credentials

    Keyed by its primary key (tenant_id, bank_id); a NULL column is [None].  A statement
    either fails, with the driver's error and no change, or does what it says. *)
Record VaultRow := {
  vr_client_id : string;
  vr_secret_sealed : bytes;
  vr_creditor_key_sealed : option bytes;
  vr_updated_at : string
}.
Notation cred_table := (gmap (string * string) VaultRow).
Notation cred_sql A := (M cred_table error A).

Definition statement {S A} (db : option error) (run : M S error A) : M S error A :=
  match db with Some e => throwM e | None => run end.

(** INSERT … ON CONFLICT (tenant_id, bank_id) DO NOTHING *)
Definition insert_absent (k : string * string) (row : VaultRow) : cred_sql unit := fun tbl =>
  (match tbl !! k with Some _ => tbl | None => <[k := row]> tbl end, Ok tt).
(** INSERT … ON CONFLICT DO UPDATE SET client_id, secret_sealed, updated_at *)
Definition upsert_identity (k : string * string) (client : string) (sealed : bytes) (now : string)
    : cred_sql unit := fun tbl =>
  (<[k := {| vr_client_id := client; vr_secret_sealed := sealed;
             vr_creditor_key_sealed :=
               match tbl !! k with Some row => vr_creditor_key_sealed row | None => None end;
             vr_updated_at := now |}]> tbl, Ok tt).
(** UPDATE … SET creditor_key_sealed, updated_at WHERE: the number of rows affected. *)
Definition update_creditor (k : string * string) (sealed : bytes) (now : string)
    : cred_sql Z := fun tbl =>
  match tbl !! k with
  | None => (tbl, Ok 0)
  | Some row =>
      (<[k := {| vr_client_id := vr_client_id row; vr_secret_sealed := vr_secret_sealed row;
                 vr_creditor_key_sealed := Some sealed; vr_updated_at := now |}]> tbl, Ok 1)
  end.

Section vault.
Context `{AEAD} (cipher : Cipher).

(** What a write takes from outside: the nonces its seals read, the answer of the statement,
    the formatted instant. *)
Record WriteEnv := { we_nonce : res bytes; we_nonce' : res bytes; we_db : option error; we_now : string }.

(** ** Reads *)
Definition open_creditor (column : option bytes) (aad : bytes) : res string :=
  match column with
  | Some ((_ :: _) as sealed) =>
      match OpenWithAAD cipher sealed aad with
      | Ok ck => Ok (string_of ck)
      | Err e => Err (Wrap "open creditor key" e)
      end
  | _ => Ok ""
  end.
Definition vault_GetBankCredential (db : option error) (tbl : cred_table) (tenantID bankID : string)
    : res BankCredential :=
  let bankID := defaultBankID bankID in
  match db with
  | Some e => Err (Wrap "read bank credential" e)
  | None =>
      match tbl !! (tenantID, bankID) with
      | None => Err ErrNotFound
      | Some row =>
          let aad := RowAAD tenantID bankID in
          let? sec := map_err (Wrap "open bank secret")
                        (OpenWithAAD cipher (vr_secret_sealed row) aad) in
          let? ck := open_creditor (vr_creditor_key_sealed row) aad in
          Ok {| bc_TenantID := tenantID; bc_BankID := bankID; bc_ClientID := vr_client_id row;
                bc_Secret := string_of sec; bc_CreditorKey := ck |}
      end
  end.

(** SELECT tenant_id … WHERE: the tenants of the rows that pass a test, in the engine's order. *)
Definition rows_where (test : string * string -> VaultRow -> bool) (tbl : cred_table) : list string :=
  map (fun e => e.1.1) (List.filter (fun e => test e.1 e.2) (map_to_list tbl)).
Definition query (db : option error) (what : string) (ids : list string) : res (list string) :=
  match db with Some e => Err (Wrap what e) | None => Ok ids end.

Definition vault_ListTenantsWithC6Credential (db : option error) (tbl : cred_table)
    : res (list string) :=
  query db "list tenants with c6 credential" (rows_where (fun k _ => bool_decide (k.2 = BankIDC6)) tbl).
Definition vault_FindTenantsByCreditorKey (db : option error) (tbl : cred_table)
    (bankID creditorKey : string) : res (list string) :=
  let bankID := defaultBankID bankID in
  if bool_decide (creditorKey = "") then Ok []
  else query db "list creditor key holders"
         (rows_where (fun k row =>
            bool_decide (k.2 = bankID) &&
            match vr_creditor_key_sealed row with
            | None => false
            | Some sealed =>
                match OpenWithAAD cipher sealed (RowAAD k.1 bankID) with
                | Ok plain => bool_decide (string_of plain = creditorKey)
                | Err _ => false
                end
            end) tbl).
Definition vault_FindTenantsByClientID (db : option error) (tbl : cred_table)
    (bankID clientID : string) : res (list string) :=
  let bankID := defaultBankID bankID in
  if bool_decide (clientID = "") then Ok []
  else query db "list client id holders"
         (rows_where (fun k row => bool_decide (k.2 = bankID) &&
                                   bool_decide (vr_client_id row = clientID)) tbl).

(** ** Writes *)
Definition vault_SetBankCredential (env : WriteEnv) (tenantID bankID clientID secretVal : string)
    : cred_sql unit :=
  abort (bool_decide (tenantID = "")) with (NewValidationError "tenant_id" "is required") ;;
  abort (bool_decide (clientID = "")) with (NewValidationError "client_id" "is required") ;;
  abort (bool_decide (secretVal = "")) with (NewValidationError "secret" "is required") ;;
  let bankID := defaultBankID bankID in
  do sealed <- liftM (map_err (Wrap "seal bank secret")
                        (SealWithAAD cipher (we_nonce env) (bytes_of secretVal)
                           (RowAAD tenantID bankID))) ;;
  wrapM (Wrap "write bank credential")
    (statement (we_db env) (upsert_identity (tenantID, bankID) clientID sealed (we_now env))).

Definition vault_DeleteBankCredential (env : WriteEnv) (tenantID bankID : string) : cred_sql unit :=
  let bankID := defaultBankID bankID in
  wrapM (Wrap "delete bank credential")
    (statement (we_db env) (fun tbl => (delete (tenantID, bankID) tbl, Ok tt))).

Definition vault_SetCreditorKey (env : WriteEnv) (tenantID creditorKey : string) : cred_sql unit :=
  abort (bool_decide (tenantID = "")) with (NewValidationError "tenant_id" "is required") ;;
  abort (bool_decide (creditorKey = "")) with (NewValidationError "creditor_key" "is required") ;;
  do _ <- liftM (validateCreditorKey creditorKey) ;;
  let bankID := defaultBankID "" in
  do sealed <- liftM (map_err (Wrap "seal creditor key")
                        (SealWithAAD cipher (we_nonce env) (bytes_of creditorKey)
                           (RowAAD tenantID bankID))) ;;
  do n <- wrapM (Wrap "write creditor key")
            (statement (we_db env) (update_creditor (tenantID, bankID) sealed (we_now env))) ;;
  abort (n =? 0) with ErrNotFound ;;
  retM tt.

(** One entry of the environment's credentials: its map key, and what sealing it reads. *)
Definition seed_one (env : WriteEnv) (k : string) (c : BankCredential) : cred_sql unit :=
  let tenantID := if bool_decide (bc_TenantID c = "") then k else bc_TenantID c in
  let bankID := defaultBankID (bc_BankID c) in
  if bool_decide (bc_ClientID c = "") || bool_decide (bc_Secret c = "") then retM tt
  else
    let aad := RowAAD tenantID bankID in
    do sealedSecret <- liftM (map_err (Wrap "seal seed secret")
                                (SealWithAAD cipher (we_nonce env) (bytes_of (bc_Secret c)) aad)) ;;
    do sealedCK <- (if bool_decide (bc_CreditorKey c = "") then retM None
                    else liftM (map_err (Wrap "seal seed creditor key")
                           (let? ck := SealWithAAD cipher (we_nonce' env)
                                         (bytes_of (bc_CreditorKey c)) aad in Ok (Some ck)))) ;;
    wrapM (Wrap "seed bank credential")
      (statement (we_db env)
         (insert_absent (tenantID, bankID)
            {| vr_client_id := bc_ClientID c; vr_secret_sealed := sealedSecret;
               vr_creditor_key_sealed := sealedCK; vr_updated_at := we_now env |})).
(** [entries]: the environment's map in the order Go ranges over it. *)
Fixpoint Seed (entries : list (WriteEnv * string * BankCredential)) : cred_sql unit :=
  match entries with
  | [] => retM tt
  | (env, k, c) :: rest => do _ <- seed_one env k c ;; Seed rest
  end.

(** * The vault and the in-memory store

    [shows tbl creds]: every row opens to the entry the store has under its key, and the
    store has no other.  A bank's identifier holds no NUL, the separator of the store's
    keys. *)
Definition bank_id_ok (b : string) : Prop := b <> "" /\ zero ∉ bytes_of b.
Definition row_shows (t b : string) (row : VaultRow) (c : BankCredential) : Prop :=
  bc_TenantID c = t /\ bc_BankID c = b /\ bc_ClientID c = vr_client_id row /\
  bc_ClientID c <> "" /\
  OpenWithAAD cipher (vr_secret_sealed row) (RowAAD t b) = Ok (bytes_of (bc_Secret c)) /\
  match vr_creditor_key_sealed row with
  | None => bc_CreditorKey c = ""
  | Some sealed => sealed <> [] /\ bc_CreditorKey c <> "" /\
      OpenWithAAD cipher sealed (RowAAD t b) = Ok (bytes_of (bc_CreditorKey c))
  end.
Definition shows (tbl : cred_table) (creds : credentials) : Prop :=
  (forall t b row, tbl !! (t, b) = Some row -> bank_id_ok b /\
     exists c, creds !! credKey t b = Some c /\ row_shows t b row c) /\
  (forall k c, creds !! k = Some c -> exists t b row, tbl !! (t, b) = Some row /\ k = credKey t b).
End vault.

Lemma default_ok b : b <> "" -> defaultBankID b = b.
Proof. intros Hb. unfold defaultBankID. by rewrite bool_decide_false. Qed.

(** Keys of NUL-free banks are unambiguous. *)
Lemma credKey_pair_inj t b t' b' : bank_id_ok b -> bank_id_ok b' ->
  credKey t b = credKey t' b' -> t = t' /\ b = b'.
Proof.
  intros [Hb Hz] [Hb' Hz']. unfold credKey. rewrite !default_ok by done. intros E.
  assert (Hsplit : forall t t' b b', zero ∉ bytes_of b -> zero ∉ bytes_of b' ->
            t ++ String zero b = t' ++ String zero b' -> t = t' /\ b = b'); [|by eauto].
  clear. intros t. induction t as [|c t IH]; intros [|c' t'] b b' Hz Hz'; cbn; intros E.
  - by injection E as ->.
  - injection E as <- ->. exfalso. apply Hz. clear. induction t' as [|a t' IH]; cbn.
    + left.
    + by right.
  - injection E as -> <-. exfalso. apply Hz'. clear. induction t as [|a t IH]; cbn.
    + left.
    + by right.
  - injection E as -> E. by destruct (IH _ _ _ Hz Hz' E) as [-> ->].
Qed.

(** * Histories *)
Inductive vault_op :=
| OpSet (env : WriteEnv) (tenantID bankID clientID secretVal : string)
| OpDelete (env : WriteEnv) (tenantID bankID : string)
| OpCreditor (env : WriteEnv) (tenantID creditorKey : string)
| OpGet (db : option error) (tenantID bankID : string)
| OpByCreditor (db : option error) (bankID creditorKey : string)
| OpByClient (db : option error) (bankID clientID : string)
| OpC6 (db : option error).
Inductive vault_answer :=
| Done (r : res unit) | Got (r : res BankCredential) | Listed (r : res (list string)).

Definition failed {A} (o : option A) : bool := match o with Some _ => true | None => false end.
(** The random source or the engine refuses this operation. *)
Definition faulty (op : vault_op) : bool :=
  match op with
  | OpSet env _ _ _ _ | OpCreditor env _ _ => negb (is_ok (we_nonce env)) || failed (we_db env)
  | OpDelete env _ _ => failed (we_db env)
  | OpGet db _ _ | OpByCreditor db _ _ | OpByClient db _ _ | OpC6 db => failed db
  end.
Definition op_wf (op : vault_op) : Prop :=
  match op with
  | OpSet env _ b _ _ => nonce_read (we_nonce env) /\ bank_id_ok (defaultBankID b)
  | OpDelete _ _ b | OpGet _ _ b => bank_id_ok (defaultBankID b)
  | OpCreditor env _ _ => nonce_read (we_nonce env)
  | OpByCreditor _ _ _ | OpByClient _ _ _ | OpC6 _ => True
  end.
Definition answers_agree (a a' : vault_answer) : Prop :=
  match a, a' with
  | Done r, Done r' => r = r'
  | Got r, Got r' => r = r'
  | Listed (Ok l), Listed (Ok l') => forall x, x ∈ l <-> x ∈ l'
  | _, _ => False
  end.

Definition run_store (op : vault_op) (creds : credentials) : credentials * vault_answer :=
  match op with
  | OpSet _ t b client s => let '(m, r) := Store_SetBankCredential t b client s creds in (m, Done r)
  | OpDelete _ t b => let '(m, r) := BankIdentity.DeleteBankCredential t b creds in (m, Done r)
  | OpCreditor _ t k => let '(m, r) := Store_SetCreditorKey t k creds in (m, Done r)
  | OpGet _ t b => (creds, Got (GetBankCredential creds t b))
  | OpByCreditor _ b k => (creds, Listed (Ok (FindTenantsByCreditorKey creds b k)))
  | OpByClient _ b c => (creds, Listed (Ok (FindTenantsByClientID creds b c)))
  | OpC6 _ => (creds, Listed (Ok (ListTenantsWithC6Credential creds)))
  end.

Section histories.
Context `{AEAD} (cipher : Cipher).

Definition run_vault (op : vault_op) (tbl : cred_table) : cred_table * vault_answer :=
  match op with
  | OpSet env t b client s =>
      let '(m, r) := vault_SetBankCredential cipher env t b client s tbl in (m, Done r)
  | OpDelete env t b => let '(m, r) := vault_DeleteBankCredential env t b tbl in (m, Done r)
  | OpCreditor env t k => let '(m, r) := vault_SetCreditorKey cipher env t k tbl in (m, Done r)
  | OpGet db t b => (tbl, Got (vault_GetBankCredential cipher db tbl t b))
  | OpByCreditor db b k => (tbl, Listed (vault_FindTenantsByCreditorKey cipher db tbl b k))
  | OpByClient db b c => (tbl, Listed (vault_FindTenantsByClientID db tbl b c))
  | OpC6 db => (tbl, Listed (vault_ListTenantsWithC6Credential db tbl))
  end.

(** The vault and the store run side by side; an operation the environment refuses leaves the
    table as it was and is one the store never sees. *)
Fixpoint in_step (ops : list vault_op) (tbl : cred_table) (creds : credentials) : Prop :=
  match ops with
  | [] => shows cipher tbl creds
  | op :: rest =>
      let '(tbl', a) := run_vault op tbl in
      if faulty op then tbl' = tbl /\ in_step rest tbl' creds
      else let '(creds', a') := run_store op creds in
           answers_agree a a' /\ in_step rest tbl' creds'
  end.

Context `{!AEADLaws}.

Lemma shows_insert tbl creds t b row c :
  shows cipher tbl creds -> bank_id_ok b -> row_shows cipher t b row c ->
  shows cipher (<[(t, b) := row]> tbl) (<[credKey t b := c]> creds).
Proof.
  intros [Hr Hk] Hb Hc. split.
  - intros t' b' row'. destruct (decide ((t, b) = (t', b'))) as [[= <- <-]|Hne].
    + rewrite lookup_insert_eq. intros [= <-]. split; [done|]. exists c. by rewrite lookup_insert_eq.
    + rewrite lookup_insert_ne by done. intros Hl. destruct (Hr _ _ _ Hl) as [Hb' (c' & Hc' & Hs)].
      split; [done|]. exists c'. rewrite lookup_insert_ne; [done|].
      intros E. apply credKey_pair_inj in E as [-> ->]; [by apply Hne|done..].
  - intros k c'. destruct (decide (credKey t b = k)) as [<-|Hne].
    + intros _. exists t, b, row. by rewrite lookup_insert_eq.
    + rewrite lookup_insert_ne by done. intros Hl.
      destruct (Hk _ _ Hl) as (t' & b' & row' & Hl' & ->). exists t', b', row'.
      split; [|done]. rewrite lookup_insert_ne; [done|]. intros [= -> ->]. done.
Qed.

Lemma shows_delete tbl creds t b : shows cipher tbl creds -> bank_id_ok b ->
  shows cipher (delete (t, b) tbl) (delete (credKey t b) creds).
Proof.
  intros [Hr Hk] Hb. split.
  - intros t' b' row' [Hne Hl]%lookup_delete_Some. destruct (Hr _ _ _ Hl) as [Hb' (c' & Hc' & Hs)].
    split; [done|]. exists c'. split; [|done]. apply lookup_delete_Some. split; [|done].
    intros E. apply credKey_pair_inj in E as [-> ->]; [by apply Hne|done..].
  - intros k c' [Hne Hl]%lookup_delete_Some. destruct (Hk _ _ Hl) as (t' & b' & row' & Hl' & ->).
    exists t', b', row'. split; [|done]. apply lookup_delete_Some. split; [|done]. by intros [= -> ->].
Qed.

Lemma shows_at tbl creds t b : shows cipher tbl creds -> bank_id_ok b ->
  match tbl !! (t, b), creds !! credKey t b with
  | Some row, Some c => row_shows cipher t b row c
  | None, None => True
  | _, _ => False
  end.
Proof.
  intros [Hr Hk] Hb. destruct (tbl !! (t, b)) as [row|] eqn:El.
  - destruct (Hr _ _ _ El) as [_ (c & -> & Hs)]. done.
  - destruct (creds !! credKey t b) as [c|] eqn:Ec; [|done].
    destruct (Hk _ _ Ec) as (t' & b' & row & El' & E). destruct (Hr _ _ _ El') as [Hb' _].
    apply credKey_pair_inj in E as [-> ->]; [|done..]. congruence.
Qed.

Lemma credKey_default t b : credKey t (defaultBankID b) = credKey t b.
Proof.
  unfold credKey, defaultBankID. destruct (decide (b = "")) as [->|Hb]; [done|].
  by rewrite !(bool_decide_false _ Hb).
Qed.

Lemma shows_get tbl creds t b : shows cipher tbl creds -> bank_id_ok (defaultBankID b) ->
  vault_GetBankCredential cipher None tbl t b = GetBankCredential creds t b.
Proof.
  intros Hs Hb. unfold vault_GetBankCredential, GetBankCredential. cbv zeta.
  pose proof (shows_at _ _ t _ Hs Hb) as Ha. rewrite credKey_default in Ha.
  destruct (tbl !! _) as [row|], (creds !! _) as [c|]; try done.
  destruct c as [t' b' client sec ck], Ha as (Et & Eb & Ec & _ & Es & Ek). cbn in *. subst t' b' client.
  rewrite Es. cbn. rewrite string_bytes. unfold open_creditor.
  destruct (vr_creditor_key_sealed row) as [[|x l]|]; [by destruct Ek| |by rewrite Ek].
  destruct Ek as (_ & _ & ->). by rewrite string_bytes.
Qed.

Lemma elem_rows_where test tbl x : x ∈ rows_where test tbl <->
  exists b row, tbl !! (x, b) = Some row /\ test (x, b) row = true.
Proof.
  unfold rows_where. rewrite list_elem_of_In, in_map_iff. split.
  - intros ([[t b] row] & <- & [Hin Ht]%filter_In). exists b, row. split; [|done].
    by apply elem_of_map_to_list, list_elem_of_In.
  - intros (b & row & Hl & Ht). exists ((x, b), row). split; [done|]. apply filter_In. split; [|done].
    by apply list_elem_of_In, elem_of_map_to_list.
Qed.
Lemma elem_tenants_where test creds x : x ∈ tenants_where test creds <->
  exists k c, creds !! k = Some c /\ test c = true /\ bc_TenantID c = x.
Proof.
  unfold tenants_where. rewrite list_elem_of_In, in_map_iff. split.
  - intros ([k c] & <- & [Hin Ht]%filter_In). exists k, c. split_and!; [|done..].
    by apply elem_of_map_to_list, list_elem_of_In.
  - intros (k & c & Hl & Ht & <-). exists (k, c). split; [done|]. apply filter_In. split; [|done].
    by apply list_elem_of_In, elem_of_map_to_list.
Qed.

Lemma shows_list tbl creds test test' x : shows cipher tbl creds ->
  (forall t b row c, bank_id_ok b -> row_shows cipher t b row c -> test (t, b) row = test' c) ->
  x ∈ rows_where test tbl <-> x ∈ tenants_where test' creds.
Proof.
  intros [Hr Hk] Ht. rewrite elem_rows_where, elem_tenants_where. split.
  - intros (b & row & Hl & Hx). destruct (Hr _ _ _ Hl) as [Hb (c & Hc & Hs)].
    exists (credKey x b), c. split_and!; [done| |by destruct Hs]. by rewrite <- (Ht _ _ _ _ Hb Hs).
  - intros (k & c & Hc & Hx & <-). destruct (Hk _ _ Hc) as (t & b & row & Hl & ->).
    destruct (Hr _ _ _ Hl) as [Hb (c' & Hc' & Hs)]. rewrite Hc in Hc'. injection Hc' as <-.
    exists b, row. pose proof Hs as (-> & _). split; [done|]. by rewrite (Ht _ _ _ _ Hb Hs).
Qed.

(** A row seals what its entry says. *)
Lemma sealed_shows nonce sec blob t b :
  nonce_read nonce -> SealWithAAD cipher nonce (bytes_of sec) (RowAAD t b) = Ok blob ->
  blob <> [] /\ OpenWithAAD cipher blob (RowAAD t b) = Ok (bytes_of sec).
Proof.
  intros Hn Hs. split; [by apply (sealed_nonempty _ _ _ _ _ Hn Hs)|].
  by apply (open_sealed _ _ _ _ _ _ _ _ Hn Hs).
Qed.

Lemma Set_in_step env t b client s tbl creds :
  shows cipher tbl creds -> nonce_read (we_nonce env) -> bank_id_ok (defaultBankID b) ->
  let '(tbl', r) := vault_SetBankCredential cipher env t b client s tbl in
  if negb (is_ok (we_nonce env)) || failed (we_db env) then tbl' = tbl
  else let '(creds', r') := Store_SetBankCredential t b client s creds in
       r = r' /\ shows cipher tbl' creds'.
Proof.
  intros Hs Hn Hb. unfold vault_SetBankCredential, Store_SetBankCredential, throwM, bindM, liftM, wrapM.
  case_bool_decide; [by destruct (_ || _)|]. case_bool_decide as Hcl; [by destruct (_ || _)|].
  case_bool_decide; [by destruct (_ || _)|]. cbv zeta.
  destruct (SealWithAAD cipher _ _ _) as [blob|] eqn:Es.
  2:{ destruct (we_nonce env); [discriminate|done]. }
  destruct (we_nonce env) as [n|] eqn:En; [|discriminate]. cbn [map_err is_ok negb orb].
  unfold statement. destruct (we_db env); [done|]. cbn [failed map_err]. split; [done|].
  destruct (sealed_shows _ _ _ _ _ Hn Es) as [_ Hopen].
  apply shows_insert; [done..|]. split_and!; [done..| |].
  - done.
  - pose proof (shows_at _ _ t _ Hs Hb) as Ha. cbn [vr_creditor_key_sealed bc_CreditorKey].
    destruct (tbl !! _) as [row|], (creds !! _) as [c|]; try done. by destruct Ha as (_ & _ & _ & _ & _ & ?).
Qed.

Lemma Creditor_in_step env t key tbl creds :
  shows cipher tbl creds -> nonce_read (we_nonce env) ->
  let '(tbl', r) := vault_SetCreditorKey cipher env t key tbl in
  if negb (is_ok (we_nonce env)) || failed (we_db env) then tbl' = tbl
  else let '(creds', r') := Store_SetCreditorKey t key creds in
       r = r' /\ shows cipher tbl' creds'.
Proof.
  intros Hs Hn. unfold vault_SetCreditorKey, Store_SetCreditorKey, throwM, bindM, liftM, wrapM.
  case_bool_decide; [by destruct (_ || _)|]. case_bool_decide as Hk; [by destruct (_ || _)|].
  destruct (validateCreditorKey key); [|by destruct (_ || _)]. cbv zeta.
  change (defaultBankID "") with BankIDC6. assert (Hb : bank_id_ok BankIDC6).
  { split; [done|]. cbn. rewrite !not_elem_of_cons. split_and!; [done..|]. apply not_elem_of_nil. }
  destruct (SealWithAAD cipher _ _ _) as [blob|] eqn:Es.
  2:{ destruct (we_nonce env); [discriminate|done]. }
  destruct (we_nonce env) as [n|] eqn:En; [|discriminate]. cbn [map_err is_ok negb orb].
  unfold statement. destruct (we_db env); [done|]. unfold update_creditor. cbn [failed].
  pose proof (shows_at _ _ t _ Hs Hb) as Ha.
  destruct (tbl !! _) as [row|], (creds !! _) as [c|]; try done. cbn [map_err Z.eqb].
  destruct (sealed_shows _ _ _ _ _ Hn Es) as [Hne Hopen]. unfold retM. split; [done|].
  destruct Ha as (? & ? & ? & ? & ? & ?). apply shows_insert; [done..|]. by split_and!.
Qed.

Lemma vault_step op tbl creds : op_wf op -> shows cipher tbl creds ->
  let '(tbl', a) := run_vault op tbl in
  if faulty op then tbl' = tbl
  else let '(creds', a') := run_store op creds in answers_agree a a' /\ shows cipher tbl' creds'.
Proof.
  intros Hwf Hs. destruct op as [env t b client s|env t b|env t k|db t b|db b k|db b client|db];
    cbn [run_vault run_store faulty op_wf] in *.
  - pose proof (Set_in_step env t b client s _ _ Hs (proj1 Hwf) (proj2 Hwf)) as H1.
    destruct (vault_SetBankCredential _ _ _ _ _ _ _), (_ || _); [done|].
    by destruct (Store_SetBankCredential _ _ _ _ _).
  - unfold vault_DeleteBankCredential, wrapM, statement, BankIdentity.DeleteBankCredential.
    destruct (we_db env); [done|]. split; [done|]. cbn [fst snd]. by apply shows_delete.
  - pose proof (Creditor_in_step env t k _ _ Hs Hwf) as H1.
    destruct (vault_SetCreditorKey _ _ _ _ _), (_ || _); [done|].
    by destruct (Store_SetCreditorKey _ _ _).
  - destruct db; [done|]. split; [|done]. by apply shows_get.
  - destruct db; [done|]. split; [|done]. unfold vault_FindTenantsByCreditorKey, FindTenantsByCreditorKey.
    case_bool_decide as Hk; [done|]. intros x. apply shows_list; [done|].
    intros t' b' row c [Hb' _] (Et & Eb & _ & _ & _ & Hc). cbn [fst snd]. rewrite Eb, (default_ok b') by done.
    destruct (decide (b' = defaultBankID b)) as [->|Hne]; [|by rewrite bool_decide_false].
    rewrite bool_decide_true by done. cbn [andb].
    destruct (vr_creditor_key_sealed row); [|by rewrite Hc, bool_decide_false].
    destruct Hc as (_ & _ & ->). by rewrite string_bytes.
  - destruct db; [done|]. split; [|done]. unfold vault_FindTenantsByClientID, FindTenantsByClientID.
    case_bool_decide as Hk; [done|]. intros x. apply shows_list; [done|].
    intros t' b' row c [Hb' _] (Et & Eb & Ec & _). cbn. by rewrite Eb, (default_ok b'), Ec.
  - destruct db; [done|]. split; [|done]. intros x. apply shows_list; [done|].
    intros t' b' row c [Hb' _] (Et & Eb & _ & Hne & _). cbn.
    rewrite Eb, (default_ok b'), (bool_decide_false (_ = "")) by done. by rewrite andb_true_r.
Qed.

(** C31. The durable vault is the in-memory store: run side by side on any history of writes,
    deletions and reads, every operation the random source and the engine let through gets
    the same answer from both (the listings as sets), and afterwards every credential reads
    the same; one they refuse leaves the table as it was. *)
Theorem vault_refines_store ops tbl creds (Hops : Forall op_wf ops) (Hs : shows cipher tbl creds) :
  in_step ops tbl creds.
Proof.
  revert tbl creds Hs. induction Hops as [|op ops Hwf _ IH]; intros tbl creds Hs; [done|].
  cbn [in_step]. pose proof (vault_step op tbl creds Hwf Hs) as H1.
  destruct (run_vault op tbl) as [tbl' a]. destruct (faulty op); [subst tbl'; by split; [|apply IH]|].
  destruct (run_store op creds) as [creds' a'], H1. by split; [|apply IH].
Qed.
End histories.

Definition sample_write (db : option error) : WriteEnv :=
  {| we_nonce := Ok sample_nonce; we_nonce' := Ok sample_nonce; we_db := db;
     we_now := "2026-01-01T00:00:00Z" |}.
Definition sample_vault_ops : list vault_op :=
  [OpSet (sample_write None) "t1" "" "client" "s3cret";
   OpCreditor (sample_write None) "t1" "12345678901";
   OpSet (sample_write (Some ErrUnavailable)) "t1" "" "other" "lost";
   OpSet (sample_write None) "t1" "" "client" "rotated"; OpGet None "t1" "c6"].

Lemma vault_refines_store_witness :
  in_step sample_cipher sample_vault_ops ∅ ∅ /\
  GetBankCredential (foldl (fun m op => if faulty op then m else fst (run_store op m)) ∅
                       sample_vault_ops) "t1" "c6"
  = Ok {| bc_TenantID := "t1"; bc_BankID := "c6"; bc_ClientID := "client"; bc_Secret := "rotated";
          bc_CreditorKey := "12345678901" |}.
Proof.
  split; [|vm_compute; reflexivity]. refine (vault_refines_store _ _ _ _ _ _).
  - assert (Hb : bank_id_ok BankIDC6).
    { split; [done|]. cbn. rewrite !not_elem_of_cons. split_and!; [done..|]. apply not_elem_of_nil. }
    unfold sample_vault_ops. rewrite !List.Forall_cons_iff. cbn [op_wf]. by split_and!.
  - split; [|done]. intros t b row [=].
Defined.
