(* ===== verification/VaultRotation.v ===== *)
(** The durable certificate vault and the rotation of the sealing key:
    internal/adapters/persistence/sqlite/certificate.go and sqlite/reseal.go (PostgreSQL's are
    the same text).  The rotation opens every sealed column with the previous key and seals
    it again under the new one, both tables in one transaction. *)
From S2P Require Import Prelude GoStrings GoText GoTime Shared Ports BankIdentity BankCerts RowSeal.
From S2P Require Import CredVault.

(** * The table bank_certificates *)
Record CertRow := { vc_cert_pem : string; vc_key_pem_sealed : bytes; vc_updated_at : string }.
Notation cert_table := (gmap (string * string) CertRow).

Section certificates.
Context (pem_certificate : string -> option bytes).
Context (x509_parse : bytes -> option X509).
Context (X509KeyPair : string -> string -> bool).
Context `{AEAD} (cipher : Cipher).

Definition durable_SetBankCertificate (env : WriteEnv) (c : BankCertificate)
    : M cert_table error unit :=
  abort (bool_decide (bcert_TenantID c = "")) with (NewValidationError "tenant_id" "is required") ;;
  abort (bool_decide (bcert_CertPEM c = "")) with (NewValidationError "cert_pem" "is required") ;;
  abort (bool_decide (bcert_KeyPEM c = "")) with (NewValidationError "key_pem" "is required") ;;
  let bankID := defaultBankID (bcert_BankID c) in
  do sealedKey <- liftM (map_err (Wrap "seal private key")
                           (SealWithAAD cipher (we_nonce env) (bytes_of (bcert_KeyPEM c))
                              (RowAAD (bcert_TenantID c) bankID))) ;;
  wrapM (Wrap "write bank certificate")
    (statement (we_db env) (fun tbl =>
       (<[(bcert_TenantID c, bankID) := {| vc_cert_pem := bcert_CertPEM c;
            vc_key_pem_sealed := sealedKey; vc_updated_at := we_now env |}]> tbl, Ok tt))).

Definition durable_DeleteBankCertificate (env : WriteEnv) (tenantID bankID : string)
    : M cert_table error unit :=
  let bankID := defaultBankID bankID in
  wrapM (Wrap "delete bank certificate")
    (statement (we_db env) (fun tbl => (delete (tenantID, bankID) tbl, Ok tt))).

Definition durable_GetBankCertificateMeta (db : option error) (tbl : cert_table)
    (tenantID bankID : string) : res BankCertificateMeta :=
  let bankID := defaultBankID bankID in
  match db with
  | Some e => Err (Wrap "read bank certificate" e)
  | None =>
      match tbl !! (tenantID, bankID) with
      | None => Err ErrNotFound
      | Some row =>
          let? cert := ParseCert pem_certificate x509_parse (vc_cert_pem row) in
          Ok {| meta_TenantID := tenantID; meta_BankID := bankID; meta_cert := cert |}
      end
  end.

(** The assembled pair, as the certificate and key it was assembled from. *)
Definition durable_LoadTLSCertificate (db : option error) (tbl : cert_table)
    (tenantID bankID : string) : res (string * string) :=
  let bankID := defaultBankID bankID in
  match db with
  | Some e => Err (Wrap "read bank certificate" e)
  | None =>
      match tbl !! (tenantID, bankID) with
      | None => Err ErrNotFound
      | Some row =>
          let? keyPEM := map_err (Wrap "open sealed private key")
                           (OpenWithAAD cipher (vc_key_pem_sealed row) (RowAAD tenantID bankID)) in
          let keyPEM := string_of keyPEM in
          if X509KeyPair (vc_cert_pem row) keyPEM then Ok (vc_cert_pem row, keyPEM)
          else Err (Wrap "assemble mTLS certificate"
                      (New "tls: private key does not match public key"))
      end
  end.
End certificates.

(** * Rotation *)
Record VaultHandle := { vh_db : nat; vh_cipher : Cipher }.
(** The database's answers and the nonces read, per row. *)
Record RotationEnv := {
  ro_begin : option error; ro_commit : option error;
  ro_scan_creds : option error; ro_scan_certs : option error;
  ro_write_cred : string * string -> option error;
  ro_write_cert : string * string -> option error;
  ro_secret_nonce : string * string -> res bytes;
  ro_creditor_nonce : string * string -> res bytes;
  ro_key_nonce : string * string -> res bytes
}.
Notation vault_tables := (cred_table * cert_table)%type.

(** The loop over the scanned rows: [one] computes the new columns of a row, then the UPDATE
    writes them. *)
Fixpoint reseal_rows {Row} (one : string * string -> Row -> res (Row -> Row))
    (db : string * string -> option error) (what : string)
    (batch : list (string * string * Row)) (n : Z) : M (gmap (string * string) Row) error Z :=
  match batch with
  | [] => retM n
  | (k, r) :: rest =>
      do set_columns <- liftM (one k r) ;;
      do _ <- wrapM (Wrap what) (statement (db k) (fun tbl => (alter set_columns k tbl, Ok tt))) ;;
      reseal_rows one db what rest (n + 1)
  end.

Section rotation.
Context `{AEAD}.

Definition openForReseal (oldCipher : Cipher) (sealed aad : bytes) : res bytes :=
  match OpenWithAAD oldCipher sealed aad with
  | Ok pt => Ok pt
  | Err e =>
      match OpenWithAAD oldCipher sealed [] with
      | Ok legacy => Ok legacy
      | Err _ => Err (Wrap "reseal: cannot open blob with previous key" e)
      end
  end.
Definition reseal_blob (old new : Cipher) (nonce : res bytes) (what : string) (sealed aad : bytes)
    : res bytes :=
  let? pt := openForReseal old sealed aad in
  map_err (Wrap what) (SealWithAAD new nonce pt aad).

Definition reseal_credential (env : RotationEnv) (old new : Cipher) (k : string * string)
    (r : VaultRow) : res (VaultRow -> VaultRow) :=
  let aad := RowAAD k.1 k.2 in
  let? newSec := reseal_blob old new (ro_secret_nonce env k) "reseal credentials: seal secret"
                   (vr_secret_sealed r) aad in
  let? newCK := match vr_creditor_key_sealed r with
                | Some ((_ :: _) as sealed) =>
                    let? ck := reseal_blob old new (ro_creditor_nonce env k)
                                 "reseal credentials: seal creditor key" sealed aad in
                    Ok (Some ck)
                | _ => Ok None
                end in
  Ok (fun row => {| vr_client_id := vr_client_id row; vr_secret_sealed := newSec;
                    vr_creditor_key_sealed := newCK; vr_updated_at := vr_updated_at row |}).
Definition resealCredentialsTx (env : RotationEnv) (old new : Cipher) : M cred_table error Z :=
  match ro_scan_creds env with
  | Some e => throwM (Wrap "reseal credentials: scan" e)
  | None => fun tbl => reseal_rows (reseal_credential env old new) (ro_write_cred env)
                         "reseal credentials: write row" (map_to_list tbl) 0 tbl
  end.

Definition reseal_certificate (env : RotationEnv) (old new : Cipher) (k : string * string)
    (r : CertRow) : res (CertRow -> CertRow) :=
  let? newKey := reseal_blob old new (ro_key_nonce env k) "reseal certificates: seal key"
                   (vc_key_pem_sealed r) (RowAAD k.1 k.2) in
  Ok (fun row => {| vc_cert_pem := vc_cert_pem row; vc_key_pem_sealed := newKey;
                    vc_updated_at := vc_updated_at row |}).
Definition resealCertificatesTx (env : RotationEnv) (old new : Cipher) : M cert_table error Z :=
  match ro_scan_certs env with
  | Some e => throwM (Wrap "reseal certificates: scan" e)
  | None => fun tbl => reseal_rows (reseal_certificate env old new) (ro_write_cert env)
                         "reseal certificates: write row" (map_to_list tbl) 0 tbl
  end.

(** A transaction: what the body wrote is kept only if the commit succeeds. *)
Definition in_tx {S A} (env : RotationEnv) (op : string) (body : M S error A) : M S error A := fun s =>
  match ro_begin env with
  | Some e => (s, Err (Wrap (op ++ ": begin") e))
  | None =>
      match body s with
      | (_, Err e) => (s, Err e)
      | (s', Ok a) =>
          match ro_commit env with
          | Some e => (s, Err (Wrap (op ++ ": commit") e))
          | None => (s', Ok a)
          end
      end
  end.
Definition ErrNoPrevious : error := New "reseal: previous cipher is required".

Definition CredentialVault_Reseal (env : RotationEnv) (v : VaultHandle) (oldCipher : option Cipher)
    : M cred_table error Z :=
  match oldCipher with
  | None => throwM ErrNoPrevious
  | Some old => in_tx env "reseal credentials" (resealCredentialsTx env old (vh_cipher v))
  end.
Definition CertificateVault_Reseal (env : RotationEnv) (v : VaultHandle) (oldCipher : option Cipher)
    : M cert_table error Z :=
  match oldCipher with
  | None => throwM ErrNoPrevious
  | Some old => in_tx env "reseal certificates" (resealCertificatesTx env old (vh_cipher v))
  end.

Definition ResealAll (env : RotationEnv) (cred cert : option VaultHandle) (oldCipher : option Cipher)
    : M vault_tables error (Z * Z) :=
  match oldCipher, cred, cert with
  | None, _, _ => throwM ErrNoPrevious
  | Some old, Some cred, Some cert =>
      abort (negb (Nat.eqb (vh_db cred) (vh_db cert)))
        with (New "reseal: credential and certificate vaults must share one database handle for atomic rotation") ;;
      in_tx env "reseal" (fun '(creds, certs) =>
        match resealCredentialsTx env old (vh_cipher cred) creds with
        | (creds', Err e) => ((creds', certs), Err e)
        | (creds', Ok credN) =>
            match resealCertificatesTx env old (vh_cipher cert) certs with
            | (certs', Err e) => ((creds', certs'), Err e)
            | (certs', Ok certN) => ((creds', certs'), Ok (credN, certN))
            end
        end)
  | Some _, _, _ => throwM (New "reseal: both credential and certificate vaults are required")
  end.

(** ** The loop *)
Lemma reseal_rows_Ok {Row} (one : string * string -> Row -> res (Row -> Row)) db what batch n tbl
    tbl' n' :
  NoDup batch.*1 -> (forall k r, (k, r) ∈ batch -> tbl !! k = Some r) ->
  reseal_rows one db what batch n tbl = (tbl', Ok n') ->
  n' = n + Z.of_nat (List.length batch) /\
  (forall k, k ∉ batch.*1 -> tbl' !! k = tbl !! k) /\
  (forall k r, (k, r) ∈ batch -> exists f, one k r = Ok f /\ tbl' !! k = Some (f r)).
Proof.
  revert n tbl. induction batch as [|[k r] rest IH]; intros n tbl Hnd Hin; cbn [reseal_rows].
  - intros [= <- <-]. split_and!; [cbn; lia|done|]. intros k r H0. by apply not_elem_of_nil in H0.
  - cbn in Hnd. apply NoDup_cons in Hnd as [Hk Hnd].
    unfold bindM at 1, liftM, wrapM, statement. destruct (one k r) as [f|] eqn:E1; [|done].
    unfold bindM. destruct (db k); [done|]. cbn [map_err]. intros Hrun.
    assert (Htail : forall k' r', (k', r') ∈ rest -> alter f k tbl !! k' = Some r').
    { intros k' r' H0. rewrite lookup_alter_ne; [apply Hin; by right|].
      intros ->. apply Hk, list_elem_of_fmap. by exists (k', r'). }
    destruct (IH _ _ Hnd Htail Hrun) as (-> & Hout & Hrest). split_and!.
    + cbn [List.length]. lia.
    + intros k' Hk'. cbn in Hk'. apply not_elem_of_cons in Hk' as [Hne Hk'].
      rewrite Hout by done. by rewrite lookup_alter_ne.
    + intros k' r' [[= -> ->]|H0]%elem_of_cons; [|by apply Hrest].
      exists f. split; [done|]. rewrite Hout by done. rewrite lookup_alter_eq.
      rewrite (Hin k r) by left. done.
Qed.

Lemma reseal_rows_total {Row} (one : string * string -> Row -> res (Row -> Row)) db what batch n tbl :
  (forall k r, (k, r) ∈ batch -> is_ok (one k r) = true /\ db k = None) ->
  is_ok (snd (reseal_rows one db what batch n tbl)) = true.
Proof.
  revert n tbl. induction batch as [|[k r] rest IH]; intros n tbl Hall; cbn [reseal_rows]; [done|].
  destruct (Hall k r) as [Ho Hd]; [by left|]. unfold bindM at 1, liftM, wrapM, statement.
  destruct (one k r); [|done]. unfold bindM. rewrite Hd. cbn [map_err].
  apply IH. intros k' r' H0. apply Hall. by right.
Qed.

(** The same over a whole table. *)
Lemma reseal_table_Ok {Row} (one : string * string -> Row -> res (Row -> Row))
    (db : string * string -> option error) (what : string) (tbl tbl' : gmap (string * string) Row)
    (n' : Z) :
  reseal_rows one db what (map_to_list tbl) 0 tbl = (tbl', Ok n') ->
  n' = Z.of_nat (size tbl) /\ size tbl' = size tbl /\
  forall k, match tbl !! k, tbl' !! k with
            | Some r, Some r' => exists f, one k r = Ok f /\ r' = f r
            | None, None => True
            | _, _ => False
            end.
Proof.
  intros Hrun. apply reseal_rows_Ok in Hrun as (-> & Hout & Hin).
  2:{ apply NoDup_fst_map_to_list. }
  2:{ intros k r H0. by apply elem_of_map_to_list. }
  assert (Hk : forall k, match tbl !! k, tbl' !! k with
            | Some r, Some r' => exists f, one k r = Ok f /\ r' = f r
            | None, None => True | _, _ => False end).
  { intros k. destruct (tbl !! k) as [r|] eqn:El.
    - destruct (Hin k r) as (f & Hf & ->); [by apply elem_of_map_to_list|]. eauto.
    - rewrite Hout, El; [done|]. intros (k' & -> & H0)%list_elem_of_fmap.
      destruct k' as [k' r]. apply elem_of_map_to_list in H0. cbn in El. congruence. }
  split_and!; [by rewrite length_map_to_list| |exact Hk].
  rewrite <- !(size_dom (D:=gset (string * string))). f_equal. apply set_eq. intros k. rewrite !elem_of_dom. specialize (Hk k).
  destruct (tbl !! k), (tbl' !! k); try done; split; intros; first [done|by eexists].
Qed.

(** ** Blobs *)
Context `{!AEADLaws}.

Lemma reseal_blob_Ok old new nonce what sealed aad blob : nonce_read nonce ->
  reseal_blob old new nonce what sealed aad = Ok blob ->
  exists p, openForReseal old sealed aad = Ok p /\ OpenWithAAD new blob aad = Ok p /\ blob <> [] /\
            (old <> new -> is_ok (openForReseal old blob aad) = false).
Proof.
  intros Hn. unfold reseal_blob. destruct (openForReseal old sealed aad) as [p|]; [|done].
  rewrite map_err_Ok. intros Hs. exists p. split_and!; [done| | |].
  - by apply (open_sealed _ _ _ _ _ _ _ _ Hn Hs).
  - by apply (sealed_nonempty _ _ _ _ _ Hn Hs).
  - intros Hne. unfold openForReseal.
    destruct (OpenWithAAD old blob aad) eqn:E.
    { apply (open_sealed _ _ _ _ _ _ _ _ Hn Hs) in E as [? _]. done. }
    destruct (OpenWithAAD old blob []) eqn:E'; [|done].
    apply (open_sealed _ _ _ _ _ _ _ _ Hn Hs) in E' as [? _]. done.
Qed.
Lemma reseal_blob_total old new nonce what sealed aad : is_ok nonce = true ->
  is_ok (reseal_blob old new nonce what sealed aad) = is_ok (openForReseal old sealed aad).
Proof.
  intros Hn. unfold reseal_blob. destruct (openForReseal old sealed aad); [|done].
  unfold SealWithAAD. by destruct nonce.
Qed.
Lemma opened_reseals old sealed aad p :
  OpenWithAAD old sealed aad = Ok p -> openForReseal old sealed aad = Ok p.
Proof. unfold openForReseal. by intros ->. Qed.
End rotation.

Definition nonces_ok (env : RotationEnv) : Prop := forall k,
  nonce_read (ro_secret_nonce env k) /\ nonce_read (ro_creditor_nonce env k) /\
  nonce_read (ro_key_nonce env k).
(** Nothing around the rotation fails. *)
Definition quiet (env : RotationEnv) : Prop :=
  (ro_begin env = None /\ ro_commit env = None /\
   ro_scan_creds env = None /\ ro_scan_certs env = None) /\
  forall k, ro_write_cred env k = None /\ ro_write_cert env k = None /\
    is_ok (ro_secret_nonce env k) = true /\ is_ok (ro_creditor_nonce env k) = true /\
    is_ok (ro_key_nonce env k) = true.

Section exact.
Context `{AEADLaws}.
Context (env : RotationEnv) (old new : Cipher).

Definition certs_open (certs : cert_table) : Prop := forall k row, certs !! k = Some row ->
  is_ok (openForReseal old (vc_key_pem_sealed row) (RowAAD k.1 k.2)) = true.

Lemma reseal_credential_shows t b row c f :
  nonces_ok env -> row_shows old t b row c -> reseal_credential env old new (t, b) row = Ok f ->
  row_shows new t b (f row) c /\
  (old <> new -> forall env' new', is_ok (reseal_credential env' old new' (t, b) (f row)) = false).
Proof.
  intros Hn (Et & Eb & Ec & Hc & Es & Ek). destruct (Hn (t, b)) as (Hn1 & Hn2 & _).
  unfold reseal_credential at 1. cbn [fst snd]. cbv zeta.
  destruct (reseal_blob _ _ _ _ (vr_secret_sealed row) _) as [s'|] eqn:E1; [|done].
  apply reseal_blob_Ok in E1 as (p & Hp & Ho & _ & Hfail); [|done].
  rewrite (opened_reseals _ _ _ _ Es) in Hp. injection Hp as <-.
  assert (Hrerun : forall ck u, old <> new -> forall env' new', is_ok (reseal_credential env' old new' (t, b)
            {| vr_client_id := vr_client_id row; vr_secret_sealed := s';
               vr_creditor_key_sealed := ck; vr_updated_at := u |}) = false).
  { intros ck u Hne env' new'. unfold reseal_credential, reseal_blob. cbn [fst snd vr_secret_sealed].
    specialize (Hfail Hne). by destruct (openForReseal old s' _). }
  destruct (vr_creditor_key_sealed row) as [[|x l]|].
  - by destruct Ek as [? _].
  - destruct Ek as (_ & Hck & Eo).
    destruct (reseal_blob _ _ _ _ (x :: l) _) as [k'|] eqn:E2; [|done].
    apply reseal_blob_Ok in E2 as (p & Hp & Ho' & Hne' & _); [|done].
    rewrite (opened_reseals _ _ _ _ Eo) in Hp. injection Hp as <-.
    intros [= <-]. split; [by split_and!|apply Hrerun].
  - intros [= <-]. split; [by split_and!|apply Hrerun].
Qed.

Lemma reseal_credential_total t b row c :
  quiet env -> row_shows old t b row c -> is_ok (reseal_credential env old new (t, b) row) = true.
Proof.
  intros [_ Hq] (_ & _ & _ & _ & Es & Ek). destruct (Hq (t, b)) as (_ & _ & H1 & H2 & _).
  unfold reseal_credential. cbn [fst snd]. cbv zeta.
  pose proof (reseal_blob_total old new _ "reseal credentials: seal secret" (vr_secret_sealed row)
                (RowAAD t b) H1) as Hs. rewrite (opened_reseals _ _ _ _ Es) in Hs.
  destruct (reseal_blob _ _ _ _ (vr_secret_sealed row) _); [|done].
  destruct (vr_creditor_key_sealed row) as [[|x l]|]; [done| |done].
  destruct Ek as (_ & _ & Eo).
  pose proof (reseal_blob_total old new _ "reseal credentials: seal creditor key" (x :: l)
                (RowAAD t b) H2) as Hk. rewrite (opened_reseals _ _ _ _ Eo) in Hk.
  by destruct (reseal_blob _ _ _ _ (x :: l) _).
Qed.

(** ** The two tables *)
Lemma credentials_rotated tbl tbl' creds n : nonces_ok env -> shows old tbl creds ->
  resealCredentialsTx env old new tbl = (tbl', Ok n) ->
  n = Z.of_nat (size tbl) /\ size tbl' = size tbl /\ shows new tbl' creds /\
  (old <> new -> tbl <> ∅ -> forall env' new',
     is_ok (snd (resealCredentialsTx env' old new' tbl')) = false).
Proof.
  intros Hn [Hr Hk]. unfold resealCredentialsTx at 1. destruct (ro_scan_creds env); [done|].
  intros (-> & Hsize & Hrows)%reseal_table_Ok.
  assert (Hone : forall k row, tbl !! k = Some row -> exists c f, creds !! credKey k.1 k.2 = Some c /\
            tbl' !! k = Some (f row) /\ reseal_credential env old new k row = Ok f /\
            row_shows old k.1 k.2 row c /\ bank_id_ok k.2).
  { intros [t b] row Hl. destruct (Hr _ _ _ Hl) as [Hb (c & Hc & Hs)]. specialize (Hrows (t, b)).
    rewrite Hl in Hrows. destruct (tbl' !! (t, b)) as [row'|]; [|done].
    destruct Hrows as (f & Hf & ->). by exists c, f. }
  split_and!; [done|done| |].
  - split.
    + intros t b row' Hl'. specialize (Hrows (t, b)). rewrite Hl' in Hrows.
      destruct (tbl !! (t, b)) as [row|] eqn:Hl; [|done].
      destruct (Hone _ _ Hl) as (c & f & Hc & Hl'' & Hf & Hs & Hb). cbn [fst snd] in *.
      rewrite Hl' in Hl''. injection Hl'' as ->. split; [done|]. exists c. split; [done|].
      by apply (reseal_credential_shows _ _ _ _ _ Hn Hs Hf).
    + intros k c Hc. destruct (Hk _ _ Hc) as (t & b & row & Hl & ->).
      destruct (Hone _ _ Hl) as (c' & f & _ & Hl' & _). by exists t, b, (f row).
  - intros Hne Hemp env' new'. apply map_choose in Hemp as ([t b] & row & Hl).
    destruct (Hone _ _ Hl) as (c & f & _ & Hl' & Hf & Hs & _). cbn [fst snd] in *.
    destruct (reseal_credential_shows _ _ _ _ _ Hn Hs Hf) as [_ Hstop].
    destruct (resealCredentialsTx env' old new' tbl') as [tbl'' [m|e]] eqn:E; [|done].
    unfold resealCredentialsTx in E. destruct (ro_scan_creds env'); [done|].
    apply reseal_table_Ok in E as (_ & _ & H2). specialize (H2 (t, b)). rewrite Hl' in H2.
    destruct (tbl'' !! _); [|done]. destruct H2 as (g & Hg & _).
    specialize (Hstop Hne env' new'). by rewrite Hg in Hstop.
Qed.

Lemma credentials_rotate tbl creds : quiet env -> shows old tbl creds ->
  is_ok (snd (resealCredentialsTx env old new tbl)) = true.
Proof.
  intros Hq [Hr _]. unfold resealCredentialsTx. pose proof Hq as [(_ & _ & -> & _) Hq'].
  apply reseal_rows_total. intros [t b] row Hin%elem_of_map_to_list.
  destruct (Hr _ _ _ Hin) as [_ (c & _ & Hs)]. split; [|apply Hq'].
  by apply (reseal_credential_total _ _ _ _ Hq Hs).
Qed.

Lemma certificates_rotated tbl tbl' n : nonces_ok env ->
  resealCertificatesTx env old new tbl = (tbl', Ok n) ->
  n = Z.of_nat (size tbl) /\ size tbl' = size tbl /\ certs_open tbl /\
  (forall pair t b cert, durable_LoadTLSCertificate pair old None tbl t b = Ok cert ->
     durable_LoadTLSCertificate pair new None tbl' t b = Ok cert) /\
  (old <> new -> tbl <> ∅ -> forall env' new',
     is_ok (snd (resealCertificatesTx env' old new' tbl')) = false).
Proof.
  intros Hn. unfold resealCertificatesTx at 1. destruct (ro_scan_certs env); [done|].
  intros (-> & Hsize & Hrows)%reseal_table_Ok.
  assert (Hone : forall k row, tbl !! k = Some row -> exists blob p,
            tbl' !! k = Some {| vc_cert_pem := vc_cert_pem row; vc_key_pem_sealed := blob;
                                vc_updated_at := vc_updated_at row |} /\
            openForReseal old (vc_key_pem_sealed row) (RowAAD k.1 k.2) = Ok p /\
            OpenWithAAD new blob (RowAAD k.1 k.2) = Ok p /\
            (old <> new -> is_ok (openForReseal old blob (RowAAD k.1 k.2)) = false)).
  { intros k row Hl. specialize (Hrows k). rewrite Hl in Hrows.
    destruct (tbl' !! k) as [row'|]; [|done]. destruct Hrows as (f & Hf & ->).
    unfold reseal_certificate in Hf. destruct (reseal_blob _ _ _ _ _ _) as [blob|] eqn:E; [|done].
    injection Hf as <-. apply reseal_blob_Ok in E as (p & ? & ? & _ & ?); [|apply Hn]. by exists blob, p. }
  split_and!; [done|done| | |].
  - intros k row Hl. by destruct (Hone _ _ Hl) as (blob & p & _ & -> & _).
  - intros pair t b cert. unfold durable_LoadTLSCertificate. cbv zeta.
    destruct (tbl !! _) as [row|] eqn:Hl; [|done].
    destruct (Hone _ _ Hl) as (blob & p & -> & Hp & Ho & _). cbn [fst snd vc_key_pem_sealed vc_cert_pem] in *.
    destruct (OpenWithAAD old _ _) as [q|] eqn:Eq; [|done].
    rewrite (opened_reseals _ _ _ _ Eq) in Hp. injection Hp as ->. by rewrite Ho.
  - intros Hne Hemp env' new'. apply map_choose in Hemp as (k & row & Hl).
    destruct (Hone _ _ Hl) as (blob & p & Hl' & _ & _ & Hstop). specialize (Hstop Hne).
    destruct (resealCertificatesTx env' old new' tbl') as [tbl'' [m|e]] eqn:E; [|done].
    unfold resealCertificatesTx in E. destruct (ro_scan_certs env'); [done|].
    apply reseal_table_Ok in E as (_ & _ & H2). specialize (H2 k). rewrite Hl' in H2.
    destruct (tbl'' !! _); [|done]. destruct H2 as (g & Hg & _).
    unfold reseal_certificate, reseal_blob in Hg. cbn [vc_key_pem_sealed] in Hg.
    by destruct (openForReseal old blob _).
Qed.

Lemma certificates_rotate tbl : quiet env -> certs_open tbl ->
  is_ok (snd (resealCertificatesTx env old new tbl)) = true.
Proof.
  intros Hq Hopen. unfold resealCertificatesTx. pose proof Hq as [(_ & _ & _ & ->) Hq'].
  apply reseal_rows_total. intros k row Hin%elem_of_map_to_list.
  destruct (Hq' k) as (_ & Hw & _ & _ & Hk). split; [|done]. unfold reseal_certificate.
  pose proof (reseal_blob_total old new _ "reseal certificates: seal key" (vc_key_pem_sealed row)
                (RowAAD k.1 k.2) Hk) as Hb. rewrite (Hopen _ _ Hin) in Hb.
  by destruct (reseal_blob _ _ _ _ _ _).
Qed.
End exact.

(** C30. Changing the sealing key is invisible to readers and all or nothing.  Over a vault
    that shows a given store under the previous key, a rotation either reports an error, and
    then both tables are as they were, or it rewrites every row of both: the vault shows the
    same store under the new key, every certificate pair that loaded loads unchanged, and
    running the rotation again with the same previous key is refused and changes nothing.
    It succeeds whenever nothing around it fails and every stored private key opens. *)
Theorem rotation_exact `{AEADLaws} env cred cert old st creds
    (Hn : nonces_ok env) (Hs : shows old st.1 creds) (Hdb : vh_db cred = vh_db cert) :
  let '(st', r) := ResealAll env (Some cred) (Some cert) (Some old) st in
  match r with
  | Err _ => st' = st /\ ~ (quiet env /\ certs_open old st.2)
  | Ok (n, m) =>
      n = Z.of_nat (size st.1) /\ m = Z.of_nat (size st.2) /\
      shows (vh_cipher cred) st'.1 creds /\
      (forall pair t b c, durable_LoadTLSCertificate pair old None st.2 t b = Ok c ->
         durable_LoadTLSCertificate pair (vh_cipher cert) None st'.2 t b = Ok c) /\
      (vh_cipher cred <> old -> vh_cipher cert <> old -> st <> (∅, ∅) -> forall env',
         let '(st'', r') := ResealAll env' (Some cred) (Some cert) (Some old) st' in
         st'' = st' /\ is_ok r' = false)
  end.
Proof.
  destruct st as [tc tk]. cbn [fst snd] in *. unfold ResealAll at 1. rewrite Hdb, Nat.eqb_refl.
  cbn [negb]. unfold in_tx at 1.
  destruct (ro_begin env) as [e|] eqn:Eb; [split; [done|]; intros [[[Hb _] _] _]; congruence|].
  pose proof (credentials_rotate env old (vh_cipher cred) tc creds) as Htc.
  pose proof (certificates_rotate env old (vh_cipher cert) tk) as Htk.
  destruct (resealCredentialsTx env old (vh_cipher cred) tc) as [tc' [n|e]] eqn:Ec.
  2:{ split; [done|]. intros [Hq _]. by specialize (Htc Hq Hs). }
  destruct (resealCertificatesTx env old (vh_cipher cert) tk) as [tk' [m|e]] eqn:Ek.
  2:{ split; [done|]. intros [Hq Ho]. by specialize (Htk Hq Ho). }
  destruct (ro_commit env) as [e|] eqn:Em; [split; [done|]; intros [[(_ & Hm & _) _] _]; congruence|].
  apply (credentials_rotated _ _ _ _ _ _ _ Hn Hs) in Ec as (-> & Hsc & Hshow & Hstopc).
  apply (certificates_rotated _ _ _ _ _ _ Hn) in Ek as (-> & Hsk & _ & Hload & Hstopk).
  cbn [fst snd]. split_and!; [done..|]. intros Hnc Hnk Hne env'.
  unfold ResealAll. rewrite Hdb, Nat.eqb_refl. cbn [negb]. unfold in_tx.
  destruct (ro_begin env'); [done|].
  destruct (resealCredentialsTx env' old (vh_cipher cred) tc') as [tc'' [n'|e]] eqn:Ec; [|done].
  destruct (resealCertificatesTx env' old (vh_cipher cert) tk') as [tk'' [m'|e]] eqn:Ek; [|done].
  exfalso. destruct (decide (tc = ∅)) as [->|Htcne].
  - destruct (decide (tk = ∅)) as [->|Htkne]; [done|].
    specialize (Hstopk (not_eq_sym Hnk) Htkne env' (vh_cipher cert)). by rewrite Ek in Hstopk.
  - specialize (Hstopc (not_eq_sym Hnc) Htcne env' (vh_cipher cred)). by rewrite Ec in Hstopc.
Qed.

Definition next_cipher : Cipher := {| cipher_key := replicate 32 "n"%char |}.
Definition quiet_env : RotationEnv :=
  {| ro_begin := None; ro_commit := None; ro_scan_creds := None; ro_scan_certs := None;
     ro_write_cred := fun _ => None; ro_write_cert := fun _ => None;
     ro_secret_nonce := fun _ => Ok sample_nonce; ro_creditor_nonce := fun _ => Ok sample_nonce;
     ro_key_nonce := fun _ => Ok sample_nonce |}.
Definition sample_blob (text : string) : bytes :=
  match SealWithAAD sample_cipher (Ok sample_nonce) (bytes_of text) (RowAAD "t1" "c6") with
  | Ok b => b | Err _ => [] end.
Definition sample_tables : vault_tables :=
  ({[ ("t1", "c6") := {| vr_client_id := "client"; vr_secret_sealed := sample_blob "s3cret";
                         vr_creditor_key_sealed := None; vr_updated_at := "2026" |} ]},
   {[ ("t1", "c6") := {| vc_cert_pem := "pem"; vc_key_pem_sealed := sample_blob "key";
                         vc_updated_at := "2026" |} ]}).
Definition sample_creds : credentials :=
  {[ credKey "t1" "c6" := {| bc_TenantID := "t1"; bc_BankID := "c6"; bc_ClientID := "client";
                             bc_Secret := "s3cret"; bc_CreditorKey := "" |} ]}.

Lemma sample_shown : shows sample_cipher sample_tables.1 sample_creds.
Proof.
  unfold sample_tables, sample_creds. cbn [fst]. split.
  - intros t b row Hl. apply lookup_singleton_Some in Hl as [[= <- <-] <-]. split.
    + split; [done|]. cbn. rewrite !not_elem_of_cons. split_and!; [done..|]. apply not_elem_of_nil.
    + eexists. split; [apply lookup_singleton_eq|]. split_and!; [done..|vm_compute; reflexivity|done].
  - intros k c Hl. apply lookup_singleton_Some in Hl as [<- <-].
    exists "t1", "c6". eexists. split; [apply lookup_singleton_eq|done].
Qed.

Lemma rotation_exact_witness :
  exists st', ResealAll quiet_env (Some {| vh_db := 1; vh_cipher := next_cipher |})
                (Some {| vh_db := 1; vh_cipher := next_cipher |}) (Some sample_cipher) sample_tables
              = (st', Ok (1, 1)) /\
    shows next_cipher st'.1 sample_creds /\
    is_ok (vault_GetBankCredential sample_cipher None st'.1 "t1" "c6") = false.
Proof.
  pose proof (rotation_exact quiet_env {| vh_db := 1; vh_cipher := next_cipher |}
    {| vh_db := 1; vh_cipher := next_cipher |} sample_cipher sample_tables sample_creds) as H.
  set (run := ResealAll _ _ _ _ _) in *.
  assert (Hr : snd run = Ok (1, 1)) by (vm_compute; reflexivity).
  assert (Hold : is_ok (vault_GetBankCredential sample_cipher None (fst run).1 "t1" "c6") = false)
    by (vm_compute; reflexivity).
  clearbody run. destruct run as [st' r]. cbn [fst snd] in *. subst r. exists st'.
  split; [reflexivity|]. split; [|exact Hold].
  apply H; [by intros k|exact sample_shown|reflexivity].
Defined.
