(* ===== verification/BankTransport.v ===== *)
(** Calls to the bank: internal/adapters/bank/c6/c6.go (do and its siblings), ratelimit.go
    (pacing, Retry-After, back-off) and errors.go (what of an answer may reach an error).
    The HTTP client, the JSON decoder and http.ParseTime are parameters. *)
From S2P Require Import Prelude GoStrings GoText GoTime GoFloat Shared.
From Stdlib Require Import QArith Lqa.
#[global] Open Scope Z_scope.

(** * Errors *)
Record Error := {
  er_Op : string; er_StatusCode : Z; er_Code : string; er_Fields : list string;
  er_detail : string; er_sentinel : error
}.
Definition transportError (op : string) : Error :=
  {| er_Op := op; er_StatusCode := 0; er_Code := ""; er_Fields := []; er_detail := "";
     er_sentinel := ErrUnavailable |}.
Definition sentinelForStatus (status : Z) : error :=
  if (status =? 400) || (status =? 422) then ErrValidation
  else if (status =? 401) || (status =? 403) then ErrUnauthorized
  else if status =? 404 then ErrNotFound
  else if status =? 409 then ErrConflict
  else if status =? 429 then ErrUnavailable
  else if 500 <=? status then ErrUnavailable
  else ErrUnavailable.

Record violacao := { vio_Propriedade : string; vio_Campo : string }.
Record errorEnvelope := {
  ev_Error : string; ev_Code : string; ev_Type : string; ev_Violacoes : list violacao
}.
Definition maxViolatedFields : Z := 20.
Definition maxFieldNameLength : Z := 64.

Definition isFieldNameRune (c : ascii) : bool :=
  in_range 97 122 c || in_range 65 90 c || in_range 48 57 c
  || existsb (fun d => bool_decide (c = d)) ["_"; "."; "-"; "["; "]"; "/"]%char.
(** The loop ranges over runes; the bytes of a rune that is not ASCII are not in the set. *)
Definition sanitizeFieldName (name : string) : string :=
  if bool_decide (name = "") || (maxFieldNameLength <? len name) then ""
  else if forallb isFieldNameRune (bytes_of name) then name else "".
Definition violated_name (v : violacao) : string :=
  sanitizeFieldName (if bool_decide (vio_Propriedade v = "") then vio_Campo v else vio_Propriedade v).
Fixpoint collect_fields (vs : list violacao) (fields : list string) : list string :=
  match vs with
  | [] => fields
  | v :: rest =>
      let name := violated_name v in
      let fields := if bool_decide (name = "") then fields else (fields ++ [name])%list in
      if maxViolatedFields <=? Z.of_nat (List.length fields) then fields
      else collect_fields rest fields
  end.

(** [typ[:i]] for the first of [?] and [#], then what follows the last [/]. *)
Fixpoint before_query (l : bytes) : bytes :=
  match l with
  | [] => []
  | c :: r => if bool_decide (c = "?"%char) || bool_decide (c = "#"%char) then [] else c :: before_query r
  end.
Fixpoint after_slash (l acc : bytes) : bytes :=
  match l with
  | [] => acc
  | c :: r => if bool_decide (c = "/"%char) then after_slash r [] else after_slash r (acc ++ [c])%list
  end.
Definition problemTypeCode (typ : string) : string :=
  if bool_decide (typ = "") then ""
  else string_of (after_slash (before_query (bytes_of typ)) []).

Section errors.
Context (decode_envelope : bytes -> option errorEnvelope).

Definition parseErrorCode (body : bytes) : string :=
  if bool_decide (body = []) then ""
  else match decode_envelope body with
       | None => ""
       | Some env =>
           if negb (bool_decide (ev_Code env = "")) then ev_Code env
           else if negb (bool_decide (ev_Error env = "")) then ev_Error env
           else problemTypeCode (ev_Type env)
       end.
Definition parseViolatedFields (body : bytes) : list string :=
  if bool_decide (body = []) then []
  else match decode_envelope body with
       | None => []
       | Some env => collect_fields (ev_Violacoes env) []
       end.
Definition mapError (op : string) (status : Z) (body : bytes) : Error :=
  {| er_Op := op; er_StatusCode := status; er_Code := parseErrorCode body;
     er_Fields := parseViolatedFields body; er_detail := "";
     er_sentinel := sentinelForStatus status |}.
End errors.

(** * Pacing *)
Record tokenBucket := {
  tb_tokens : frac; tb_capacity : frac; tb_refillPerSec : frac; tb_last : Time
}.
Definition reserve (tb : tokenBucket) (now : Time) : tokenBucket * Z :=
  let last := if IsZero (tb_last tb) then now else tb_last tb in
  let elapsed := Seconds (Sub now last) in
  let tokens := if dlt (0, 1) elapsed
                then dmin (tb_capacity tb) (dadd (tb_tokens tb) (dmul elapsed (tb_refillPerSec tb)))
                else tb_tokens tb in
  let wait := if dlt tokens (d_int 1) && dlt (0, 1) (tb_refillPerSec tb)
              then d_trunc (dmul (ddiv (dsub (d_int 1) tokens) (tb_refillPerSec tb)) (d_int nsec))
              else 0 in
  ({| tb_tokens := dsub tokens (d_int 1); tb_capacity := tb_capacity tb;
      tb_refillPerSec := tb_refillPerSec tb; tb_last := now |}, wait).

(** * Retrying *)
Definition millisecond : Z := 1000000.
Definition defaultMaxRetries : Z := 2.
Definition defaultBurst : Z := 8.
Definition backoffBase : Z := 200 * millisecond.
Definition backoffMaxDelay : Z := 8 * nsec.
Definition maxRetryAfterWait : Z := 30 * nsec.
Definition maxResponseBytes : nat := Z.to_nat (Z.shiftl 1 20).

Definition isRetryableStatus (status : Z) : bool := (status =? 429) || (status =? 503).

Definition parseRetryAfter (http_ParseTime : string -> option Time) (h : string) (now : Time)
    : option Z :=
  let h := TrimSpace h in
  if bool_decide (h = "") then None
  else match ParseInt h with
       | Some secs => if secs <? 0 then None else Some (mul64 secs nsec)
       | None =>
           match http_ParseTime h with
           | Some t => let d := Sub t now in Some (if d <? 0 then 0 else d)
           | None => None
           end
       end.

(** [retryAfter]: what the server asked, if anything; [None] when there is to be no retry. *)
Definition retryDelay (rand : frac) (attempt : Z) (retryAfter : option Z) : option Z :=
  match retryAfter with
  | Some asked => if maxRetryAfterWait <? asked then None else Some asked
  | None =>
      let d := shl64 backoffBase attempt in
      let d := if (d <=? 0) || (backoffMaxDelay <? d) then backoffMaxDelay else d in
      let half := div64 d 2 in
      let jitter := d_trunc (dmul rand (d_int half)) in
      Some (add64 half jitter)
  end.

(** The retries [New] settles on. *)
Definition effective_maxRetries (configured : Z) : Z :=
  if configured =? 0 then defaultMaxRetries else if configured <? 0 then 0 else configured.

(** * Requests *)
Record http_response := { hr_status : Z; hr_retry_after : string; hr_body : bytes }.
(** What one attempt meets: the limiter's clock and the end of its wait, the client's answer
    ([None]: a transport failure), the clock and random number of the back-off, and the end
    of its sleep. *)
Record attempt_world := {
  aw_reserve_at : Time; aw_limiter_sleep : option error;
  aw_answer : option http_response;
  aw_now : Time; aw_rand : frac; aw_backoff_sleep : option error
}.
(** A request: its Idempotency-Key, the payload GetBody rewinds to (if it has one), and the
    part of its body not read yet. *)
Record request := { rq_key : string; rq_GetBody : option bytes; rq_Body : bytes }.
Definition newRequest (key : string) (payload : option bytes) : request :=
  {| rq_key := key; rq_GetBody := payload; rq_Body := default [] payload |}.
(** The transport's side of a call: the bucket, the request, and what was sent and waited. *)
Record Wire := {
  wi_bucket : option tokenBucket; wi_req : request;
  wi_sent : list (string * bytes);  (* key and body of each request, in order *)
  wi_waits : list Z;                (* the limiter's waits *)
  wi_pauses : list Z                (* the back-offs *)
}.
Definition rewind (attempt : Z) (w : Wire) : Wire :=
  let r := wi_req w in
  match rq_GetBody r with
  | Some payload =>
      if 0 <? attempt
      then {| wi_bucket := wi_bucket w;
              wi_req := {| rq_key := rq_key r; rq_GetBody := Some payload; rq_Body := payload |};
              wi_sent := wi_sent w; wi_waits := wi_waits w; wi_pauses := wi_pauses w |}
      else w
  | None => w
  end.
(** [limiter.wait]: the state, and whether the wait ended well. *)
Definition limiter_wait (aw : attempt_world) (w : Wire) : Wire * bool :=
  match wi_bucket w with
  | None => (w, true)
  | Some tb =>
      let '(tb, d) := reserve tb (aw_reserve_at aw) in
      let w' waits := {| wi_bucket := Some tb; wi_req := wi_req w; wi_sent := wi_sent w;
                         wi_waits := waits; wi_pauses := wi_pauses w |} in
      if 0 <? d
      then (w' (wi_waits w ++ [d])%list,
            match aw_limiter_sleep aw with None => true | Some _ => false end)
      else (w' (wi_waits w), true)
  end.
(** The client reads the body to its end. *)
Definition send (w : Wire) : Wire :=
  let r := wi_req w in
  {| wi_bucket := wi_bucket w;
     wi_req := {| rq_key := rq_key r; rq_GetBody := rq_GetBody r; rq_Body := [] |};
     wi_sent := wi_sent w ++ [(rq_key r, rq_Body r)]; wi_waits := wi_waits w;
     wi_pauses := wi_pauses w |}.
Definition pause (d : Z) (w : Wire) : Wire :=
  {| wi_bucket := wi_bucket w; wi_req := wi_req w; wi_sent := wi_sent w; wi_waits := wi_waits w;
     wi_pauses := (wi_pauses w ++ [d])%list |}.

Section calls.
Context (decode_envelope : bytes -> option errorEnvelope).
Context (http_ParseTime : string -> option Time).
Context {A : Type} (unmarshal : bytes -> option A).
Context (maxRetries : Z) (op : string).

(** The loop has no bound of its own: [None] when the fuel runs out. *)
Fixpoint do_loop (fuel : nat) (world : Z -> attempt_world) (attempt : Z) (w : Wire)
    : option (Wire * result Error A) :=
  match fuel with
  | O => None
  | S fuel =>
      let aw := world attempt in
      let w := rewind attempt w in
      let '(w, ready) := limiter_wait aw w in
      if negb ready then Some (w, Err (transportError op))
      else
        let w := send w in
        match aw_answer aw with
        | None => Some (w, Err (transportError op))
        | Some resp =>
            let body := take maxResponseBytes (hr_body resp) in
            let status := hr_status resp in
            let retryAfter := parseRetryAfter http_ParseTime (hr_retry_after resp) (aw_now aw) in
            if Z.quot status 100 =? 2 then
              match unmarshal body with
              | Some dst => Some (w, Ok dst)
              | None => Some (w, Err {| er_Op := op; er_StatusCode := status; er_Code := "";
                                        er_Fields := []; er_detail := "";
                                        er_sentinel := ErrUnavailable |})
              end
            else
              let refused := Some (w, Err (mapError decode_envelope op status body)) in
              if isRetryableStatus status && (attempt <? maxRetries) then
                match retryDelay (aw_rand aw) attempt retryAfter with
                | Some delay =>
                    match aw_backoff_sleep aw with
                    | Some _ => Some (pause delay w, Err (transportError op))
                    | None => do_loop fuel world (attempt + 1) (pause delay w)
                    end
                | None => refused
                end
              else refused
        end
  end.
Definition do_ (fuel : nat) (world : Z -> attempt_world) (bucket : option tokenBucket)
    (req : request) : option (Wire * result Error A) :=
  do_loop fuel world 0
    {| wi_bucket := bucket; wi_req := req; wi_sent := []; wi_waits := []; wi_pauses := [] |}.

(** Single-shot siblings: a binary document, and an answer without content. *)
Definition doRaw (answer : option (http_response * string)) (limit : nat)
    : result Error (bytes * string) :=
  match answer with
  | None => Err (transportError op)
  | Some (resp, contentType) =>
      let body := take (limit + 1) (hr_body resp) in
      if negb (Z.quot (hr_status resp) 100 =? 2)
      then Err (mapError decode_envelope op (hr_status resp) body)
      else if (limit <? List.length body)%nat
      then Err {| er_Op := op; er_StatusCode := hr_status resp; er_Code := ""; er_Fields := [];
                  er_detail := "document exceeds the maximum size"; er_sentinel := ErrUnavailable |}
      else Ok (body, contentType)
  end.
Definition doNoContent (answer : option http_response) : result Error unit :=
  match answer with
  | None => Err (transportError op)
  | Some resp =>
      let body := take maxResponseBytes (hr_body resp) in
      if negb (Z.quot (hr_status resp) 100 =? 2)
      then Err (mapError decode_envelope op (hr_status resp) body)
      else Ok tt
  end.

(** * The loop *)
(** Attempt [n] was refused for load, and [d] is the pause that follows. *)
Definition overloaded (world : Z -> attempt_world) (n : Z) (d : Z) : Prop :=
  exists resp, aw_answer (world n) = Some resp /\ isRetryableStatus (hr_status resp) = true /\
    retryDelay (aw_rand (world n)) n
      (parseRetryAfter http_ParseTime (hr_retry_after resp) (aw_now (world n))) = Some d.
Definition accepted (world : Z -> attempt_world) (n : Z) (v : A) : Prop :=
  exists resp, aw_answer (world n) = Some resp /\ Z.quot (hr_status resp) 100 = 2 /\
    unmarshal (take maxResponseBytes (hr_body resp)) = Some v.

(** What attempts [a], [a + 1], ... did: [ds] pauses and [m] requests. *)
Definition attempts (world : Z -> attempt_world) (a : Z) (line : string * bytes) (w w' : Wire)
    (r : result Error A) : Prop :=
  exists ds m, wi_pauses w' = (wi_pauses w ++ ds)%list /\
    wi_sent w' = (wi_sent w ++ replicate m line)%list /\
    (List.length ds <= m <= S (List.length ds))%nat /\
    Z.of_nat m <= Z.max 0 (maxRetries - a) + 1 /\
    (forall i d, ds !! i = Some d -> overloaded world (a + Z.of_nat i) d) /\
    (forall v, r = Ok v -> m = S (List.length ds) /\
       accepted world (a + Z.of_nat (List.length ds)) v).

Definition ready_to_send (payload : option bytes) (key : string) (a : Z) (w : Wire) : Prop :=
  rq_GetBody (wi_req w) = payload /\ rq_key (wi_req w) = key /\
  (rq_Body (wi_req w) = default [] payload \/ 0 < a /\ rq_Body (wi_req w) = []).

Lemma rewind_ready payload key a w : ready_to_send payload key a w ->
  let w' := rewind a w in
  wi_sent w' = wi_sent w /\ wi_pauses w' = wi_pauses w /\
  rq_GetBody (wi_req w') = payload /\ rq_key (wi_req w') = key /\
  rq_Body (wi_req w') = default [] payload.
Proof.
  intros (Hg & Hk & Hb). unfold rewind. cbv zeta. rewrite Hg. destruct payload as [p|].
  - destruct (Z.ltb_spec 0 a); cbn; [done|]. destruct Hb as [Hb|[? _]]; [done|lia].
  - destruct Hb as [Hb|[_ Hb]]; done.
Qed.
Lemma limiter_wait_keeps aw w w' ok : limiter_wait aw w = (w', ok) ->
  wi_sent w' = wi_sent w /\ wi_pauses w' = wi_pauses w /\ wi_req w' = wi_req w.
Proof.
  unfold limiter_wait. destruct (wi_bucket w) as [tb|]; [|by intros [= <- _]].
  destruct (reserve tb _) as [tb' d]. destruct (0 <? d); by intros [= <- _].
Qed.

Lemma do_loop_attempts payload key world fuel : forall a w, 0 <= a ->
  Z.max 0 (maxRetries - a) < Z.of_nat fuel -> ready_to_send payload key a w ->
  exists w' r, do_loop fuel world a w = Some (w', r) /\
               attempts world a (key, default [] payload) w w' r.
Proof.
  induction fuel as [|fuel IH]; intros a w Ha Hf Hw; [lia|]. cbn [do_loop]. cbv zeta.
  destruct (rewind_ready _ _ _ _ Hw) as (Hs & Hp & Hg & Hk & Hb).
  destruct (limiter_wait (world a) (rewind a w)) as [w1 ok] eqn:El.
  apply limiter_wait_keeps in El as (Hs1 & Hp1 & Hr1). rewrite Hs in Hs1. rewrite Hp in Hp1.
  rewrite <- Hr1 in Hg, Hk, Hb.
  assert (Hstop : forall w' r, wi_pauses w' = wi_pauses w ->
            wi_sent w' = (wi_sent w ++ [(key, default [] payload)])%list ->
            (forall v, r = Ok v -> accepted world a v) ->
            exists w'' r', Some (w', r) = Some (w'', r') /\
              attempts world a (key, default [] payload) w w'' r').
  { intros w' r E1 E2 Hv. exists w', r. split; [done|]. exists [], 1%nat.
    rewrite E1, E2, app_nil_r. split_and!; [done|done|cbn; lia|cbn; lia|lia|done|].
    intros v Er. split; [done|]. cbn. rewrite Z.add_0_r. by apply Hv. }
  destruct ok; cbn [negb].
  2:{ exists w1, (Err (transportError op)). split; [done|]. exists [], 0%nat.
      rewrite Hp1, Hs1, !app_nil_r. split_and!; [done|done|cbn; lia|lia|lia|done|done]. }
  assert (Hsend : wi_sent (send w1) = (wi_sent w ++ [(key, default [] payload)])%list)
    by (cbn; by rewrite Hs1, Hk, Hb).
  assert (Hpause : wi_pauses (send w1) = wi_pauses w) by done.
  destruct (aw_answer (world a)) as [resp|] eqn:Ea; [|by apply Hstop].
  destruct (Z.eqb_spec (Z.quot (hr_status resp) 100) 2) as [E2|E2].
  { destruct (unmarshal _) as [v|] eqn:Eu; [|by apply Hstop].
    apply Hstop; [done..|]. intros v' [= <-]. by exists resp. }
  destruct (isRetryableStatus (hr_status resp) && (a <? maxRetries)) eqn:Er; [|by apply Hstop].
  apply andb_true_iff in Er as [Er Hlt]. apply Z.ltb_lt in Hlt.
  destruct (retryDelay _ _ _) as [delay|] eqn:Ed; [|by apply Hstop].
  assert (Hover : overloaded world a delay) by (by exists resp).
  destruct (aw_backoff_sleep (world a)).
  { eexists _, _. split; [done|]. exists [delay], 1%nat. cbn [pause wi_pauses wi_sent].
    rewrite Hpause, Hsend. split_and!; [done|done|cbn; lia|cbn; lia|lia| |done].
    intros [|[|i]] d [= <-]. by rewrite Z.add_0_r. }
  destruct (IH (a + 1) (pause delay (send w1))) as (w' & r & -> & ds & m & Hps & Hss & Hm & Hbd & Hds & Hok);
    [lia|lia|by split_and!; [..|right; split; [lia|]]|].
  exists w', r. split; [done|]. exists (delay :: ds), (S m). cbn [pause wi_pauses wi_sent] in Hps, Hss.
  rewrite Hpause in Hps. rewrite Hsend in Hss. rewrite Hps, Hss, <- !app_assoc.
  split_and!; [done|done|cbn [List.length]; lia|cbn [List.length]; lia|lia| |].
  - intros [|i] d; [intros [= <-]; by rewrite Z.add_0_r|]. intros Hd. apply Hds in Hd.
    by replace (a + Z.of_nat (S i)) with (a + 1 + Z.of_nat i) by lia.
  - intros v Hv. destruct (Hok v Hv) as [-> Hacc]. split; [done|]. cbn [List.length].
    by replace (a + Z.of_nat (S (List.length ds))) with (a + 1 + Z.of_nat (List.length ds)) by lia.
Qed.
End calls.

(** C25. A call to the bank ends.  Whatever the bank, the network and the clocks do, with one
    more unit of fuel than retries the loop returns: it sent at most [maxRetries + 1] requests,
    every one the same key and the same whole body; each pause followed a 429 or 503 answer
    and is the one computed from it; and a success is the decoded body of the last answer. *)
Theorem do_terminates decode_envelope http_ParseTime {A} (unmarshal : bytes -> option A)
    maxRetries op world bucket key payload fuel
    (Hf : Z.max 0 maxRetries < Z.of_nat fuel) :
  exists w r,
    do_ decode_envelope http_ParseTime unmarshal maxRetries op fuel world bucket
      (newRequest key payload) = Some (w, r) /\
    (exists m, wi_sent w = replicate m (key, default [] payload) /\
       (List.length (wi_pauses w) <= m <= S (List.length (wi_pauses w)))%nat /\
       Z.of_nat m <= Z.max 0 maxRetries + 1) /\
    (forall i d, wi_pauses w !! i = Some d -> overloaded http_ParseTime world (Z.of_nat i) d) /\
    (forall v, r = Ok v -> accepted unmarshal world (Z.of_nat (List.length (wi_pauses w))) v).
Proof.
  unfold do_. set (w0 := {| wi_bucket := bucket |}).
  destruct (do_loop_attempts decode_envelope http_ParseTime unmarshal maxRetries op payload key world
              fuel 0 w0) as (w & r & E & ds & m & Hp & Hs & Hm & Hb & Hds & Hok);
    [lia|lia|by split_and!; [..|left]|].
  cbn [w0 wi_pauses wi_sent app] in Hp, Hs. exists w, r. rewrite Hp, Hs.
  split; [done|]. split; [exists m; split_and!; [done|lia|lia|lia]|]. split.
  - intros i d Hi. by apply Hds in Hi.
  - intros v Hv. by destruct (Hok v Hv).
Qed.

(** ** The pauses *)
Lemma backoff_shift n : 0 <= n ->
  (let d := shl64 backoffBase n in if (d <=? 0) || (backoffMaxDelay <? d) then backoffMaxDelay else d)
  = Z.min backoffMaxDelay (backoffBase * 2 ^ n).
Proof.
  intros Hn. cbv zeta. unfold shl64. rewrite Z.shiftl_mul_pow2 by done.
  change backoffBase with (390625 * 2 ^ 9). change backoffMaxDelay with 8000000000.
  rewrite <- Z.mul_assoc, <- Z.pow_add_r by lia.
  destruct (Z.le_gt_cases n 5) as [H5|H5].
  { assert (n = 0 \/ n = 1 \/ n = 2 \/ n = 3 \/ n = 4 \/ n = 5) as Hc by lia.
    by destruct Hc as [->|[->|[->|[->|[->| ->]]]]]. }
  rewrite Z.min_l.
  2:{ replace (9 + n) with (15 + (n - 6)) by lia. rewrite Z.pow_add_r by lia.
      assert (0 < 2 ^ (n - 6)) by lia. lia. }
  unfold wrap64. destruct (Z.le_gt_cases (9 + n) 40) as [H40|H40].
  - assert (2 ^ 15 <= 2 ^ (9 + n) <= 2 ^ 40) by (split; apply Z.pow_le_mono_r; lia).
    rewrite Z.mod_small by lia. destruct (Z.leb_spec (390625 * 2 ^ (9 + n) + 2 ^ 63 - 2 ^ 63) 0); [lia|].
    destruct (Z.ltb_spec 8000000000 (390625 * 2 ^ (9 + n) + 2 ^ 63 - 2 ^ 63)); [done|lia].
  - (* every bit below the 40th is clear, so what is left is not positive or too long *)
    replace (9 + n) with (40 + (n - 31)) by lia. rewrite Z.pow_add_r by lia.
    set (q := 2 ^ (n - 31)). replace (390625 * (2 ^ 40 * q) + 2 ^ 63) with ((390625 * q + 2 ^ 23) * 2 ^ 40) by lia.
    change (2 ^ 64) with (2 ^ 24 * 2 ^ 40). rewrite Z.mul_mod_distr_r by lia.
    set (z := (390625 * q + 2 ^ 23) mod 2 ^ 24).
    destruct (Z.leb_spec (z * 2 ^ 40 - 2 ^ 63) 0); [done|].
    destruct (Z.ltb_spec 8000000000 (z * 2 ^ 40 - 2 ^ 63)); [done|]. lia.
Qed.

(** How long the adapter waits.  A pause the bank asked for is kept to the nanosecond, and
    one beyond thirty seconds is not waited at all; without one, at any attempt count, the
    pause lies between half of and the whole of the doubling back-off capped at eight seconds,
    for every random number below one. *)
Theorem backoff_exact rand attempt retryAfter
    (Hr : pos_den rand /\ (0 <= val rand < 1)%Q) (Ha : 0 <= attempt) :
  match retryAfter with
  | Some asked =>
      retryDelay rand attempt retryAfter = if asked <=? maxRetryAfterWait then Some asked else None
  | None =>
      let b := Z.min backoffMaxDelay (backoffBase * 2 ^ attempt) in
      exists d, retryDelay rand attempt retryAfter = Some d /\ b / 2 <= d <= b
  end.
Proof.
  destruct retryAfter as [asked|]; unfold retryDelay.
  { destruct (Z.ltb_spec maxRetryAfterWait asked), (Z.leb_spec asked maxRetryAfterWait); done || lia. }
  pose proof (backoff_shift attempt Ha) as Eb. cbv zeta in Eb |- *. rewrite Eb. clear Eb.
  assert (Hb : 0 < Z.min backoffMaxDelay (backoffBase * 2 ^ attempt) <= 8000000000).
  { assert (0 < 2 ^ attempt) by lia. unfold backoffMaxDelay, backoffBase, millisecond, nsec. lia. }
  set (b := Z.min _ _) in *. clearbody b. rewrite div64_nonneg by (unfold in64, minInt64, maxInt64; lia).
  pose proof (Z.div_mod b 2 ltac:(lia)). pose proof (Z.mod_pos_bound b 2 ltac:(lia)).
  set (half := b / 2) in *. assert (Hh : 0 <= half <= 4000000000) by lia.
  destruct (d_int_rel half (proj1 Hh)) as (Hpi & H0i & Hi). destruct Hr as [Hpr Hr].
  destruct (dmul_rel rand (d_int half) Hpr Hpi (proj1 Hr) H0i) as (Hpm & H0m & Hm).
  set (m := dmul rand (d_int half)) in *.
  assert (Hhq : (0 <= inject_Z half <= 4000000000 # 1)%Q) by (unfold Qle; cbn; lia).
  assert (Hprod : (val rand * val (d_int half) <= val (d_int half))%Q).
  { rewrite <- (Qmult_1_l (val (d_int half))) at 2. apply Qmult_le_compat_r; [lra|done]. }
  assert (Hlt : (val m < inject_Z (half + 1))%Q).
  { rewrite inject_Z_plus. change (inject_Z 1) with 1%Q.
    set (p := (val rand * val (d_int half))%Q) in *. unfold eps in *. lra. }
  assert (Hj : 0 <= d_trunc m <= half).
  { unfold d_trunc. apply val_nonneg in H0m. unfold pos_den in Hpm. destruct m as [mn md]. cbn [fst snd] in *.
    rewrite Z.quot_div_nonneg by lia. split; [apply Z.div_pos; lia|].
    unfold Qlt, val in Hlt. cbn [Qnum Qden inject_Z fst snd] in Hlt. rewrite Z2Pos.id in Hlt by lia.
    assert (mn / md < half + 1); [|lia]. apply Z.div_lt_upper_bound; lia. }
  eexists. split; [done|]. rewrite add64_id by (unfold in64, minInt64, maxInt64; lia). lia.
Qed.

(** The seconds of a Retry-After are multiplied in int64: from 9223372037 on the product wraps
    around, and the pause the bank asked for becomes a negative one, which ends at once. *)
Theorem retry_after_wraps http_ParseTime now rand attempt :
  parseRetryAfter http_ParseTime "9223372036" now = Some (9223372036 * nsec) /\
  parseRetryAfter http_ParseTime "9223372037" now = Some (-9223372036709551616) /\
  retryDelay rand attempt (Some (-9223372036709551616)) = Some (-9223372036709551616).
Proof. vm_compute. done. Qed.

(** ** What of an answer reaches an error *)
Definition safe_name (name : string) : Prop :=
  1 <= len name <= maxFieldNameLength /\ forallb isFieldNameRune (bytes_of name) = true.

Lemma violated_name_safe v : violated_name v <> "" -> safe_name (violated_name v).
Proof.
  unfold violated_name, sanitizeFieldName. set (n := if bool_decide _ then _ else _). clearbody n.
  case_bool_decide as Hn; [done|]. cbn [orb]. destruct (Z.ltb_spec maxFieldNameLength (len n)); [done|].
  destruct (forallb _ _) eqn:Ef; [|done]. intros _. split; [|done].
  destruct n; [done|]. unfold len in *. cbn [String.length] in *. lia.
Qed.

Lemma collect_fields_safe vs : forall fields, Forall safe_name fields ->
  Z.of_nat (List.length fields) < maxViolatedFields ->
  Forall safe_name (collect_fields vs fields) /\
  Z.of_nat (List.length (collect_fields vs fields)) <= maxViolatedFields.
Proof.
  induction vs as [|v vs IH]; intros fields Hf Hl; cbn [collect_fields]; [by split; [|lia]|]. cbv zeta.
  set (fields' := if bool_decide _ then _ else _).
  assert (Hf' : Forall safe_name fields').
  { subst fields'. case_bool_decide as Hn; [done|]. apply Forall_app. split; [done|].
    apply Forall_singleton. by apply violated_name_safe. }
  assert (Hl' : Z.of_nat (List.length fields') <= maxViolatedFields).
  { subst fields'. case_bool_decide; [lia|]. rewrite length_app. cbn. lia. }
  destruct (Z.leb_spec maxViolatedFields (Z.of_nat (List.length fields'))); [by split|by apply IH].
Qed.

(** A refusal of the bank says no more than it may: whatever its body holds, the error
    carries at most twenty field names, each of one to sixty-four letters, digits and
    separators, no text that could hold a value; and its sentinel is the one of the status:
    only 400 and 422 blame the request, 401 and 403 the credential, and everything else that
    is not 404 or 409 is an unavailable bank. *)
Theorem refusal_says_little decode_envelope op status body :
  let e := mapError decode_envelope op status body in
  Forall safe_name (er_Fields e) /\ Z.of_nat (List.length (er_Fields e)) <= maxViolatedFields /\
  (er_sentinel e = ErrValidation <-> status = 400 \/ status = 422) /\
  (er_sentinel e = ErrUnauthorized <-> status = 401 \/ status = 403) /\
  (er_sentinel e = ErrNotFound <-> status = 404) /\
  (er_sentinel e = ErrConflict <-> status = 409) /\
  (~ In status [400; 401; 403; 404; 409; 422] -> er_sentinel e = ErrUnavailable).
Proof.
  cbv zeta. cbn [er_Fields er_sentinel mapError]. split; [|split].
  1,2: unfold parseViolatedFields; case_bool_decide; [by split || done|];
       destruct (decode_envelope body) as [env|]; [|by split || done];
       by apply (collect_fields_safe (ev_Violacoes env) []).
  unfold sentinelForStatus.
  repeat match goal with
         | |- context [status =? ?n] => destruct (Z.eqb_spec status n) as [->|]; cbn [orb]
         end.
  all: try destruct (500 <=? status);
    (split_and!; [split; intros H0; first [discriminate H0|exfalso; lia|lia|reflexivity]..|]);
    intros Hn; first [reflexivity|exfalso; apply Hn; cbn; tauto].
Qed.

(** * An operation of the adapter *)
(** [errors.Is] sees the sentinel of an adapter's error. *)
Definition c6_error (e : Error) : error := Wrap (er_Op e ++ er_detail e) (er_sentinel e).

(** A request of [authedJSONRequest]: what it adds to the base URL, its body if it has one and
    its Idempotency-Key; and whether [setPartnerSoftware] has stamped it. *)
Record call (B : Type) := {
  cl_op : string; cl_method : string; cl_path : string; cl_body : option B; cl_idem : string;
  cl_partner : bool
}.
#[global] Arguments cl_op {B}.
#[global] Arguments cl_method {B}.
#[global] Arguments cl_path {B}.
#[global] Arguments cl_body {B}.
#[global] Arguments cl_idem {B}.
#[global] Arguments cl_partner {B}.

Section operations.
Context {B : Type} (marshal : B -> bytes) (decode_envelope : bytes -> option errorEnvelope).
Context (http_ParseTime : string -> option Time).
(** The token cache, the limiter as a call finds it, and what each attempt of a call meets. *)
Context (token : string -> res string) (maxRetries : Z).
Context (bucket : string -> call B -> option tokenBucket) (world : string -> call B -> Z -> attempt_world).
(** What a call of the single-shot siblings meets. *)
Context (single : string -> call B -> option (http_response * string)).

(** [do] on the request; the loop ends within this fuel. *)
Definition transmit {A} (unmarshal : bytes -> option A) (tenantID : string) (c : call B)
    : option (Wire * result Error A) :=
  do_ decode_envelope http_ParseTime unmarshal maxRetries (cl_op c) (Z.to_nat (Z.max 0 maxRetries + 1))
    (world tenantID c) (bucket tenantID c) (newRequest (cl_idem c) (marshal <$> cl_body c)).
Definition deliver {A} (unmarshal : bytes -> option A) (tenantID : string) (c : call B) : res A :=
  match transmit unmarshal tenantID c with
  | Some (_, r) => map_err c6_error r
  | None => Err ErrUnavailable
  end.
(** [authedJSONRequest], which fetches the token, then the request. *)
Definition exchange {A} (unmarshal : bytes -> option A) (tenantID : string) (c : res (call B)) : res A :=
  let? c := c in
  let? _ := token tenantID in
  deliver unmarshal tenantID c.
Definition exchange_empty (tenantID : string) (c : res (call B)) : res unit :=
  let? c := c in
  let? _ := token tenantID in
  map_err c6_error (doNoContent decode_envelope (cl_op c) (fst <$> single tenantID c)).
Definition exchange_raw (tenantID : string) (limit : nat) (c : res (call B)) : res (bytes * string) :=
  let? c := c in
  let? _ := token tenantID in
  map_err c6_error (doRaw decode_envelope (cl_op c) (single tenantID c) limit).

(** A call goes out under one key and one body, at most once more than the retries allowed, and
    is answered with what its last attempt met. *)
Lemma transmit_attempts {A} (unmarshal : bytes -> option A) tenantID c :
  exists w a m, transmit unmarshal tenantID c = Some (w, a) /\
    deliver unmarshal tenantID c = map_err c6_error a /\
    wi_sent w = replicate m (cl_idem c, default [] (marshal <$> cl_body c)) /\
    Z.of_nat m <= Z.max 0 maxRetries + 1 /\
    forall v, a = Ok v -> (0 < m)%nat /\ exists n, accepted unmarshal (world tenantID c) n v.
Proof.
  destruct (do_loop_attempts decode_envelope http_ParseTime unmarshal maxRetries (cl_op c)
    (marshal <$> cl_body c) (cl_idem c) (world tenantID c) (Z.to_nat (Z.max 0 maxRetries + 1)) 0
    {| wi_bucket := bucket tenantID c; wi_req := newRequest (cl_idem c) (marshal <$> cl_body c);
       wi_sent := []; wi_waits := []; wi_pauses := [] |})
    as (w & a & E & ds & m & _ & Hs & _ & Hm & _ & Hok); [lia|lia|by split_and!; [..|left]|].
  exists w, a, m. unfold deliver, transmit, do_. rewrite E. split_and!; [done..|exact Hs|lia|].
  intros v Ev. destruct (Hok v Ev) as [-> Hacc]. split; [lia|by eexists].
Qed.
Lemma exchange_accepted {A} (unmarshal : bytes -> option A) tenantID c v :
  exchange unmarshal tenantID (Ok c) = Ok v -> exists n, accepted unmarshal (world tenantID c) n v.
Proof.
  unfold exchange. destruct (token tenantID) as [k|]; [|done].
  destruct (transmit_attempts unmarshal tenantID c) as (w & a & m & _ & -> & _ & _ & Hok).
  intros Ha%map_err_Ok. by apply Hok.
Qed.
End operations.

(** A bank that asks to be called again in two seconds, then answers. *)
Definition busy_then_ok (n : Z) : attempt_world :=
  {| aw_reserve_at := {| ns := 1700000000 * nsec; loc := UTC_loc |}; aw_limiter_sleep := None;
     aw_answer := Some (if n =? 0
                        then {| hr_status := 429; hr_retry_after := " 2 "; hr_body := [] |}
                        else {| hr_status := 200; hr_retry_after := ""; hr_body := ["o"; "k"]%char |});
     aw_now := zeroTime; aw_rand := (1, 2); aw_backoff_sleep := None |}.
Definition full_bucket : tokenBucket :=
  {| tb_tokens := d_int defaultBurst; tb_capacity := d_int defaultBurst;
     tb_refillPerSec := d_int 8; tb_last := zeroTime |}.

Lemma do_terminates_witness :
  exists w, do_ (fun _ => None) (fun _ => None) Some 2 "create_charge" 3 busy_then_ok
              (Some full_bucket) (newRequest "key" (Some ["b"%char]))
            = Some (w, Ok ["o"; "k"]%char) /\
    wi_sent w = [("key", ["b"%char]); ("key", ["b"%char])] /\ wi_pauses w = [2 * nsec].
Proof.
  destruct (do_terminates (fun _ => None) (fun _ => None) Some 2 "create_charge" busy_then_ok
              (Some full_bucket) "key" (Some ["b"%char]) 3) as (w & r & E & _); [cbn; lia|].
  exists w. assert (Ew : exists w', Some (w, r) = Some (w', Ok ["o"; "k"]%char) /\
    wi_sent w' = [("key", ["b"%char]); ("key", ["b"%char])] /\ wi_pauses w' = [2 * nsec]).
  { rewrite <- E. eexists. split; [vm_compute; reflexivity|]. split; reflexivity. }
  destruct Ew as (w' & [= <- ->] & H1 & H2). split; [exact E|]. split; [exact H1|exact H2].
Defined.

Lemma backoff_exact_witness :
  exists d, retryDelay (1, 2) 40 None = Some d /\ 4 * nsec <= d <= 8 * nsec.
Proof.
  destruct (backoff_exact (1, 2) 40 None) as (d & E & Hd); [|lia|].
  - split; [reflexivity|]. split; [discriminate|reflexivity].
  - exists d. split; [exact E|exact Hd].
Defined.
