(* ===== verification/TokenCache.v ===== *)
(** Access tokens: internal/adapters/bank/c6/token.go, the per-tenant cache of the bank's
    OAuth tokens with its refresh, its retries and its eviction.  The HTTP client and the JSON
    decoder are parameters, as in BankTransport. *)
From S2P Require Import Prelude GoStrings GoText GoTime GoFloat Shared BankIdentity BankTransport.

Definition defaultRefreshSkew : Z := 30 * nsec.
Definition fallbackTokenTTL : Z := 60 * nsec.
Definition tokenMaxRetries : Z := 3.
(** [250 * time.Millisecond << tentativa] *)
Definition tokenRetryBackoff (tentativa : Z) : Z := shl64 (250 * millisecond) tentativa.

Record cachedToken := { ct_accessToken : string; ct_expiresAt : Time; ct_scope : string }.
Definition zeroToken : cachedToken :=
  {| ct_accessToken := ""; ct_expiresAt := zeroTime; ct_scope := "" |}.
Record tokenResponse := {
  tr_AccessToken : string; tr_TokenType : string; tr_ExpiresIn : Z; tr_Scope : string
}.
Notation slots := (gmap string cachedToken).

(** What one request for a token meets. *)
Record token_world := {
  tw_answer : option http_response; tw_now : Time; tw_sleep : option error
}.
(** What a call of the cache reads: the clock, the tenant's stored credential, and the
    requests it may make. *)
Record token_env := {
  te_now : Time; te_cred : res BankCredential; te_world : Z -> token_world
}.
Inductive token_error := FromStore (e : error) | FromBank (e : Error).

(** End a case of the loop that sent one request and stopped. *)
Ltac stop_here :=
  exists 1%nat, []; eexists; rewrite app_nil_r;
  split; [reflexivity|split; [lia|constructor]].

Section tokens.
Context (decode_envelope : bytes -> option errorEnvelope).
Context (decode_token : bytes -> option tokenResponse).

(** [spare] is [tokenMaxRetries - tentativa].  The answer comes with the credentials sent, a
    client id and a secret per request, and the pauses. *)
Fixpoint fetch_loop (spare : nat) (world : Z -> token_world) (tentativa : Z) (cred : BankCredential)
    (sent : list (string * string)) (pauses : list Z)
    : list (string * string) * list Z * result Error cachedToken :=
  let tw := world tentativa in
  let sent := (sent ++ [(bc_ClientID cred, bc_Secret cred)])%list in
  match tw_answer tw with
  | None => (sent, pauses, Err (transportError "token"))
  | Some resp =>
      let body := take maxResponseBytes (hr_body resp) in
      let status := hr_status resp in
      if Z.quot status 100 =? 2 then
        let unusable := Err {| er_Op := "token"; er_StatusCode := status; er_Code := "";
                               er_Fields := []; er_detail := ""; er_sentinel := ErrUnavailable |} in
        match decode_token body with
        | None => (sent, pauses, unusable)
        | Some tr =>
            if bool_decide (tr_AccessToken tr = "") then (sent, pauses, unusable)
            else
              let ttl := mul64 (tr_ExpiresIn tr) nsec in
              let ttl := if ttl <=? 0 then fallbackTokenTTL else ttl in
              (sent, pauses, Ok {| ct_accessToken := tr_AccessToken tr;
                                   ct_expiresAt := Add (tw_now tw) ttl; ct_scope := tr_Scope tr |})
        end
      else
        let ultimo := mapError decode_envelope "token" status body in
        if negb (Z.quot status 100 =? 5) then (sent, pauses, Err ultimo)
        else match spare with
             | O => (sent, pauses, Err ultimo)
             | S spare =>
                 let pauses := (pauses ++ [tokenRetryBackoff tentativa])%list in
                 match tw_sleep tw with
                 | Some _ => (sent, pauses, Err ultimo)
                 | None => fetch_loop spare world (tentativa + 1) cred sent pauses
                 end
             end
  end.
Definition fetch (world : Z -> token_world) (cred : BankCredential)
    : list (string * string) * list Z * result Error cachedToken :=
  fetch_loop (Z.to_nat tokenMaxRetries) world 0 cred [] [].

Definition usable (now : Time) (tok : cachedToken) : bool :=
  negb (bool_decide (ct_accessToken tok = ""))
  && Before now (Add (ct_expiresAt tok) (- defaultRefreshSkew)).
(** The slot of a tenant, created on first use. *)
Definition stateFor (t : string) (m : slots) : slots * cachedToken :=
  match m !! t with
  | Some tok => (m, tok)
  | None => (<[t := zeroToken]> m, zeroToken)
  end.

(** What a call did: the slots after it, the requests it sent, the token it fetched. *)
Record token_run (R : Type) := {
  tk_slots : slots; tk_sent : list (string * string); tk_fetched : option (BankCredential * cachedToken);
  tk_answer : result token_error R
}.
Arguments tk_slots {R}. Arguments tk_sent {R}. Arguments tk_fetched {R}. Arguments tk_answer {R}.

(** The slot's token when it is usable, a fetched one otherwise; [token] and [grantedScopes]
    differ in what they read of it. *)
Definition refresh {R} (read : cachedToken -> R) (env : token_env) (t : string) (m : slots)
    : token_run R :=
  let '(m, tok) := stateFor t m in
  if usable (te_now env) tok
  then {| tk_slots := m; tk_sent := []; tk_fetched := None; tk_answer := Ok (read tok) |}
  else match te_cred env with
       | Err e => {| tk_slots := m; tk_sent := []; tk_fetched := None; tk_answer := Err (FromStore e) |}
       | Ok cred =>
           let '(sent, _, r) := fetch (te_world env) cred in
           match r with
           | Err e => {| tk_slots := m; tk_sent := sent; tk_fetched := None; tk_answer := Err (FromBank e) |}
           | Ok tok => {| tk_slots := <[t := tok]> m; tk_sent := sent; tk_fetched := Some (cred, tok);
                          tk_answer := Ok (read tok) |}
           end
       end.
(** What a call that goes to the bank answers. *)
Definition answer_of_fetch (env : token_env) : result token_error string :=
  match te_cred env with
  | Err e => Err (FromStore e)
  | Ok cred => match snd (fetch (te_world env) cred) with
               | Ok tok => Ok (ct_accessToken tok)
               | Err e => Err (FromBank e)
               end
  end.
Definition token : token_env -> string -> slots -> token_run string := refresh ct_accessToken.
(** strings.Fields: the white space of [TrimSpace] separates. *)
Definition flush (word : bytes) (rest : list bytes) : list bytes :=
  match word with [] => rest | _ => word :: rest end.
Fixpoint Fields (l word : bytes) : list bytes :=
  match l with
  | [] => flush word []
  | c :: r =>
      if space1 c then flush word (Fields r []) else
      match r with
      | [] => flush (word ++ [c])%list []
      | d :: r2 =>
          if space2 c d then flush word (Fields r2 []) else
          match r2 with
          | [] => Fields r (word ++ [c])%list
          | e :: r3 => if space3 c d e then flush word (Fields r3 []) else Fields r (word ++ [c])%list
          end
      end
  end.
Definition scopes_of (tok : cachedToken) : gset string :=
  list_to_set (map (fun w => ToLower (string_of w)) (Fields (bytes_of (ct_scope tok)) [])).
Definition grantedScopes : token_env -> string -> slots -> token_run (gset string) :=
  refresh scopes_of.
Definition invalidate (t : string) (m : slots) : slots :=
  match m !! t with Some _ => <[t := zeroToken]> m | None => m end.

(** * Histories *)
Inductive token_op :=
| OpToken (env : token_env) (t : string)
| OpScopes (env : token_env) (t : string)
| OpInvalidate (t : string).
Inductive token_event := Fetched (c : BankCredential) (tok : cachedToken) | Dropped | Nothing.
Definition event_of (f : option (BankCredential * cachedToken)) : token_event :=
  match f with Some (c, tok) => Fetched c tok | None => Nothing end.
Definition run_op (op : token_op) (m : slots) : slots * (string * token_event) :=
  match op with
  | OpToken env t => let r := token env t m in (tk_slots r, (t, event_of (tk_fetched r)))
  | OpScopes env t => let r := grantedScopes env t m in (tk_slots r, (t, event_of (tk_fetched r)))
  | OpInvalidate t => (invalidate t m, (t, Dropped))
  end.
Fixpoint run_ops (ops : list token_op) (m : slots) : slots * list (string * token_event) :=
  match ops with
  | [] => (m, [])
  | op :: rest =>
      let '(m, e) := run_op op m in let '(m, es) := run_ops rest m in (m, e :: es)
  end.
(** A tenant's grant, by the history alone: the last token fetched for it that no eviction
    followed. *)
Definition standing_step (t : string) (acc : option (BankCredential * cachedToken))
    (e : string * token_event) : option (BankCredential * cachedToken) :=
  if bool_decide (e.1 = t)
  then match e.2 with Fetched c tok => Some (c, tok) | Dropped => None | Nothing => acc end
  else acc.
Definition standing (t : string) (log : list (string * token_event))
    : option (BankCredential * cachedToken) := foldl (standing_step t) None log.

(** The slots hold what the history grants. *)
Definition slots_hold (m : slots) (grant : string -> option (BankCredential * cachedToken)) : Prop :=
  forall t, match grant t with
            | Some (c, tok) => m !! t = Some tok /\ ct_accessToken tok <> ""
            | None => forall tok, m !! t = Some tok -> tok = zeroToken
            end.

Lemma fetch_named world cred sent pauses tok :
  fetch world cred = (sent, pauses, Ok tok) -> ct_accessToken tok <> "".
Proof.
  unfold fetch. generalize (@nil (string * string)), (@nil Z), 0, (Z.to_nat tokenMaxRetries).
  intros s0 p0 n spare. revert s0 p0 n. induction spare as [|spare IH]; intros s0 p0 n; cbn [fetch_loop]; cbv zeta;
    (destruct (tw_answer (world n)) as [resp|]; [|done]);
    (destruct (_ =? 2);
     [destruct (decode_token _) as [tr|]; [|done]; case_bool_decide as Ht; [done|]; by intros [= _ _ <-]|]);
    (destruct (negb _); [done|]); [done|].
  destruct (tw_sleep (world n)); [done|]. apply IH.
Qed.

Lemma fetch_loop_sent world cred spare : forall n s p, 0 <= n -> n + Z.of_nat spare <= tokenMaxRetries ->
  exists m ds r, fetch_loop spare world n cred s p
    = ((s ++ replicate m (bc_ClientID cred, bc_Secret cred))%list, (p ++ ds)%list, r) /\
  (m <= S spare)%nat /\ Forall (fun d => 0 < d <= nsec) ds.
Proof.
  unfold tokenMaxRetries. induction spare as [|spare IH]; intros n s p Hn Hb; cbn [fetch_loop]; cbv zeta;
    (destruct (tw_answer (world n)) as [resp|]; [|stop_here]);
    (destruct (Z.quot (hr_status resp) 100 =? 2);
     [destruct (decode_token _) as [tr|]; [|stop_here]; destruct (bool_decide _); stop_here|]);
    (destruct (negb _); [stop_here|]); [stop_here|].
  assert (Hd : 0 < tokenRetryBackoff n <= nsec).
  { assert (n = 0 \/ n = 1 \/ n = 2) as [->|[->| ->]] by lia; vm_compute; done. }
  destruct (tw_sleep (world n)).
  { exists 1%nat, [tokenRetryBackoff n]. eexists. split; [reflexivity|]. split; [lia|by constructor]. }
  destruct (IH (n + 1) (s ++ [(bc_ClientID cred, bc_Secret cred)])%list (p ++ [tokenRetryBackoff n])%list)
    as (m & ds & r & -> & Hm & Hds); [lia|lia|].
  exists (S m), (tokenRetryBackoff n :: ds), r. rewrite <- !app_assoc.
  split; [done|]. split; [lia|by constructor].
Qed.

(** A call of the cache asks for at most four tokens, under the tenant's stored credential. *)
Lemma refresh_sent {R} (read : cachedToken -> R) env t m :
  tk_sent (refresh read env t m) = [] \/
  exists c k, te_cred env = Ok c /\ (k <= 4)%nat /\
    tk_sent (refresh read env t m) = replicate k (bc_ClientID c, bc_Secret c).
Proof.
  unfold refresh. destruct (stateFor t m) as [m' tok]. destruct (usable _ tok); [by left|].
  destruct (te_cred env) as [c|e]; [|by left]. right. unfold fetch.
  destruct (fetch_loop_sent (te_world env) c (Z.to_nat tokenMaxRetries) 0 [] []) as (k & ds & r & -> & Hk & _);
    [lia|by vm_compute|]. change (Z.to_nat tokenMaxRetries) with 3%nat in Hk. cbn [app]. exists c, k. split; [done|]. split; [lia|by destruct r].
Qed.

(** * The cache is its history *)
Lemma stateFor_hold t m grant : slots_hold m grant ->
  let '(m', tok) := stateFor t m in
  slots_hold m' grant /\ tok = match grant t with Some (_, tok) => tok | None => zeroToken end.
Proof.
  intros Hm. unfold stateFor. pose proof (Hm t) as Ht. destruct (m !! t) as [tok|] eqn:E.
  - split; [done|]. destruct (grant t) as [[c tok']|]; [by destruct Ht as [[= ->] _]|by apply Ht].
  - destruct (grant t) as [[c tok']|] eqn:Eg; [by destruct Ht|]. split; [|done].
    intros t'. destruct (decide (t = t')) as [<-|Hne].
    + rewrite Eg. intros tok. rewrite lookup_insert_eq. congruence.
    + specialize (Hm t'). by rewrite lookup_insert_ne.
Qed.

Definition step_grant (grant : string -> option (BankCredential * cachedToken))
    (e : string * token_event) : string -> option (BankCredential * cachedToken) :=
  fun t => standing_step t (grant t) e.

Lemma refresh_hold {R} (read : cachedToken -> R) env t m grant : slots_hold m grant ->
  slots_hold (tk_slots (refresh read env t m))
    (step_grant grant (t, event_of (tk_fetched (refresh read env t m)))).
Proof.
  intros Hm. unfold refresh. pose proof (stateFor_hold t m grant Hm) as Hs.
  destruct (stateFor t m) as [m' tok], Hs as [Hm' _].
  assert (Hkeep : slots_hold m' (step_grant grant (t, Nothing))).
  { intros t'. unfold step_grant, standing_step. cbn [fst snd]. destruct (bool_decide _); apply Hm'. }
  destruct (usable _ tok); [exact Hkeep|]. destruct (te_cred env) as [c|]; [|exact Hkeep].
  destruct (fetch _ c) as [[sent ps] [tok'|e]] eqn:Ef; [|exact Hkeep]. apply fetch_named in Ef. cbn [tk_slots tk_fetched event_of].
  intros t'. unfold step_grant, standing_step. cbn [fst snd]. destruct (decide (t = t')) as [<-|Hne].
  - rewrite bool_decide_true by done. split; [by rewrite lookup_insert_eq|done].
  - rewrite bool_decide_false by done. rewrite lookup_insert_ne by done. apply Hm'.
Qed.

Lemma run_op_hold op m grant : slots_hold m grant ->
  slots_hold (fst (run_op op m)) (step_grant grant (snd (run_op op m))).
Proof.
  intros Hm. destruct op as [env t|env t|t]; cbn [run_op fst snd]; [by apply refresh_hold..|].
  intros t'. unfold step_grant, standing_step, invalidate. cbn [fst snd].
  destruct (decide (t = t')) as [<-|Hne].
  - rewrite bool_decide_true by done. destruct (m !! t) as [tok|] eqn:E.
    + intros tok'. rewrite lookup_insert_eq. congruence.
    + intros tok'. congruence.
  - rewrite bool_decide_false by done. specialize (Hm t').
    destruct (m !! t); [by rewrite lookup_insert_ne|done].
Qed.

Lemma run_ops_hold ops : forall m grant, slots_hold m grant ->
  slots_hold (fst (run_ops ops m)) (fun t => foldl (standing_step t) (grant t) (snd (run_ops ops m))).
Proof.
  induction ops as [|op ops IH]; intros m grant Hm; [done|]. cbn [run_ops].
  pose proof (run_op_hold op m grant Hm) as H1. destruct (run_op op m) as [m1 e]. cbn [fst snd] in H1.
  specialize (IH m1 _ H1). by destruct (run_ops ops m1) as [m2 es].
Qed.

(** C26. A tenant is only ever handed its own token, and never one an eviction has outdated.
    After any history of reads, scope queries and evictions, of all tenants, a call for a
    tenant is answered from the cache, with no request, exactly when the last token fetched
    for that tenant has not been evicted since and is more than thirty seconds from its
    expiry, and then with that token; otherwise it is answered by a fetch under the
    credential the store holds at that moment, at most four requests, all of them presenting
    that credential. *)
Theorem token_exact ops env t :
  let '(m, log) := run_ops ops ∅ in
  let r := token env t m in
  match standing t log with
  | Some (c, tok) =>
      if Before (te_now env) (Add (ct_expiresAt tok) (- defaultRefreshSkew))
      then tk_sent r = [] /\ tk_answer r = Ok (ct_accessToken tok)
      else tk_answer r = answer_of_fetch env
  | None => tk_answer r = answer_of_fetch env
  end /\
  (tk_sent r = [] \/ exists c k, te_cred env = Ok c /\ (k <= 4)%nat /\
     tk_sent r = replicate k (bc_ClientID c, bc_Secret c)).
Proof.
  assert (Hm0 : slots_hold ∅ (fun _ => None)) by (intros t' tok; by rewrite lookup_empty).
  pose proof (run_ops_hold ops ∅ _ Hm0) as Hm. destruct (run_ops ops ∅) as [m log]. cbn [fst snd] in Hm.
  change (slots_hold m (fun t => standing t log)) in Hm. cbv zeta. split; [|apply refresh_sent].
  pose proof (stateFor_hold t m _ Hm) as Hs. pose proof (Hm t) as Hc. cbv beta in Hs, Hc. unfold token, refresh, answer_of_fetch.
  destruct (stateFor t m) as [m' tok], Hs as [_ ->]. unfold usable.
  destruct (standing t log) as [[c tok]|].
  - destruct Hc as [_ Hc]. rewrite bool_decide_false by done. cbn [negb andb].
    destruct (Before _ _); [done|]. destruct (te_cred env) as [c'|]; [|done]. by destruct (fetch _ c') as [[? ?] [|]].
  - cbn [zeroToken ct_accessToken]. rewrite bool_decide_true by done. cbn [negb andb].
    destruct (te_cred env) as [c'|]; [|done]. by destruct (fetch _ c') as [[? ?] [|]].
Qed.
End tokens.
