(* ===== verification/BankRouter.v ===== *)
(** Which bank serves a request: the registry of wired banks and its routers
    (internal/adapters/bank/registry.go, router.go) and the selector at the HTTP boundary
    (internal/adapters/http/bankselect.go). *)
From S2P Require Import Prelude GoStrings GoTime GoSort Shared Ports BankPorts PaymentGroups BankSurfaces.
From S2P Require Import BankIdentity BankTransport TokenCache.

(** * Bank slugs *)
Definition control (c : ascii) : bool := ((code c <? 32) || (code c =? 127))%N.
Definition CanonicalBankID (bankID : string) : option string :=
  let bankID := ToLower (TrimSpace bankID) in
  if bool_decide (bankID = "") then None
  else if existsb control (bytes_of bankID) then None else Some bankID.

(** * The registry

    The fields a router or the composite invalidator reads; the four webhook surfaces of a bank
    are read by the startup wiring, and are the [Registrar] of WebhookRegistration. *)
Record ProviderSet (W : Type) := {
  ps_Bank : option (BankProvider W);
  ps_Pix : option (PixProvider W);
  ps_PixDueCharge : option (PixDueChargeProvider W);
  ps_Checkout : option (CheckoutProvider W);
  ps_Boleto : option (BoletoProvider W);
  ps_DDA : option (DDAProvider W);
  ps_Statement : option (StatementProvider W);
  ps_PixChargeReviser : option (PixChargeReviser W);
  ps_PixDueChargeReviser : option (PixDueChargeReviser W);
  ps_PixDueChargeLister : option (PixDueChargeLister W);
  ps_PixLocation : option (PixLocationProvider W);
  ps_PixReceived : option (PixReceivedProvider W);
  ps_PixDueChargeBatch : option (PixDueChargeBatchProvider W);
  ps_AcquirerStatement : option (AcquirerStatementProvider W);
  ps_PlainBoleto : option (PlainBoletoProvider W);
  ps_BoletoLister : option (BoletoLister W);
  ps_CredInvalidator : option (string -> W -> W)
}.
Arguments ps_Bank {W}.
Arguments ps_Pix {W}.
Arguments ps_PixDueCharge {W}.
Arguments ps_Checkout {W}.
Arguments ps_Boleto {W}.
Arguments ps_DDA {W}.
Arguments ps_Statement {W}.
Arguments ps_PixChargeReviser {W}.
Arguments ps_PixDueChargeReviser {W}.
Arguments ps_PixDueChargeLister {W}.
Arguments ps_PixLocation {W}.
Arguments ps_PixReceived {W}.
Arguments ps_PixDueChargeBatch {W}.
Arguments ps_AcquirerStatement {W}.
Arguments ps_PlainBoleto {W}.
Arguments ps_BoletoLister {W}.
Arguments ps_CredInvalidator {W}.
(** One router per port. *)
Record Routers (W : Type) := {
  ro_Bank : BankProvider W;
  ro_Pix : PixProvider W;
  ro_PixDueCharge : PixDueChargeProvider W;
  ro_Checkout : CheckoutProvider W;
  ro_Boleto : BoletoProvider W;
  ro_DDA : DDAProvider W;
  ro_Statement : StatementProvider W;
  ro_PixChargeReviser : PixChargeReviser W;
  ro_PixDueChargeReviser : PixDueChargeReviser W;
  ro_PixDueChargeLister : PixDueChargeLister W;
  ro_PixLocation : PixLocationProvider W;
  ro_PixReceived : PixReceivedProvider W;
  ro_PixDueChargeBatch : PixDueChargeBatchProvider W;
  ro_AcquirerStatement : AcquirerStatementProvider W;
  ro_PlainBoleto : PlainBoletoProvider W;
  ro_BoletoLister : BoletoLister W
}.
Notation Registry W := (gmap string (ProviderSet W)).
Definition non_canonical : error :=
  New "bank registry: refusing to register non-canonical bank slug".
Definition Register {W} (bankID : string) (set : ProviderSet W) : M (Registry W) error unit := fun reg =>
  match CanonicalBankID bankID with
  | Some id => if bool_decide (id = bankID) then (<[id := set]> reg, Ok tt) else (reg, Err non_canonical)
  | None => (reg, Err non_canonical)
  end.
Definition Get {W} (reg : Registry W) (bankID : string) : option (ProviderSet W) :=
  id ← CanonicalBankID bankID; reg !! id.
Definition Has {W} (reg : Registry W) (bankID : string) : bool :=
  match CanonicalBankID bankID with
  | Some id => match reg !! id with Some _ => true | None => false end
  | None => false
  end.
Definition Banks `{MapIteration} {W} (reg : Registry W) : list string := map fst (iterate reg).
(** The startup wiring: a list of registrations, the refused ones left out. *)
Definition wire {W} (l : list (string * ProviderSet W)) : Registry W :=
  foldl (fun reg e => (Register e.1 e.2 reg).1) ∅ l.

Section routers.
Context {W : Type} (reg : Registry W).
(** The slug stamped on the request's context, empty when there is none. *)
Context (bank : string).

Definition resolve : option (ProviderSet W) :=
  Get reg (if bool_decide (bank = "") then BankIDC6 else bank).
Definition dispatch {P A} (surface : ProviderSet W -> option P) (call : P -> M W error A) : M W error A :=
  match resolve with
  | Some set => match surface set with Some p => call p | None => throwM ErrUnavailable end
  | None => throwM ErrUnavailable
  end.

Definition bankRouter : BankProvider W :=
  {| bank_CreateCharge t b := dispatch ps_Bank (fun p => bank_CreateCharge p t b);
     bank_GetCharge t b := dispatch ps_Bank (fun p => bank_GetCharge p t b) |}.
Definition pixRouter : PixProvider W :=
  {| pix_CreateImmediateCharge t b c :=
       dispatch ps_Pix (fun p => pix_CreateImmediateCharge p t b c);
     pix_GetImmediateCharge t b := dispatch ps_Pix (fun p => pix_GetImmediateCharge p t b);
     pix_ListImmediateCharges t b := dispatch ps_Pix (fun p => pix_ListImmediateCharges p t b) |}.
Definition pixDueChargeRouter : PixDueChargeProvider W :=
  {| due_CreateDueCharge t b := dispatch ps_PixDueCharge (fun p => due_CreateDueCharge p t b);
     due_GetDueCharge t b := dispatch ps_PixDueCharge (fun p => due_GetDueCharge p t b);
     due_UpdateDueCharge t b c :=
       dispatch ps_PixDueCharge (fun p => due_UpdateDueCharge p t b c) |}.
Definition checkoutRouter : CheckoutProvider W :=
  {| checkout_CreateCheckoutSession t b :=
       dispatch ps_Checkout (fun p => checkout_CreateCheckoutSession p t b);
     checkout_GetCheckoutSession t b :=
       dispatch ps_Checkout (fun p => checkout_GetCheckoutSession p t b);
     checkout_CancelCheckoutSession t b :=
       dispatch ps_Checkout (fun p => checkout_CancelCheckoutSession p t b) |}.
Definition boletoRouter : BoletoProvider W :=
  {| boleto_CreateBoleto t b := dispatch ps_Boleto (fun p => boleto_CreateBoleto p t b);
     boleto_GetBoleto t b := dispatch ps_Boleto (fun p => boleto_GetBoleto p t b);
     boleto_CancelBoleto t b := dispatch ps_Boleto (fun p => boleto_CancelBoleto p t b);
     boleto_GetBoletoByBankRef t b := dispatch ps_Boleto (fun p => boleto_GetBoletoByBankRef p t b);
     boleto_GetBoletoPDF t b := dispatch ps_Boleto (fun p => boleto_GetBoletoPDF p t b);
     boleto_UpdateBoleto t b c := dispatch ps_Boleto (fun p => boleto_UpdateBoleto p t b c) |}.
Definition ddaRouter : DDAProvider W :=
  {| dda_ListOpenBoletos t := dispatch ps_DDA (fun p => dda_ListOpenBoletos p t);
     dda_CreatePaymentGroup t b := dispatch ps_DDA (fun p => dda_CreatePaymentGroup p t b);
     dda_GetPaymentGroup t b := dispatch ps_DDA (fun p => dda_GetPaymentGroup p t b);
     dda_RemovePaymentGroupItems t b c :=
       dispatch ps_DDA (fun p => dda_RemovePaymentGroupItems p t b c);
     dda_RemovePaymentGroupItem t b c :=
       dispatch ps_DDA (fun p => dda_RemovePaymentGroupItem p t b c);
     dda_SubmitPaymentGroup t b c d :=
       dispatch ps_DDA (fun p => dda_SubmitPaymentGroup p t b c d) |}.
Definition statementRouter : StatementProvider W :=
  {| statement_GetStatement t b := dispatch ps_Statement (fun p => statement_GetStatement p t b) |}.
Definition pixChargeReviserRouter : PixChargeReviser W :=
  {| reviser_CreateImmediateChargeAutoTxID t b c :=
       dispatch ps_PixChargeReviser (fun p => reviser_CreateImmediateChargeAutoTxID p t b c);
     reviser_ReviseImmediateCharge t b c d :=
       dispatch ps_PixChargeReviser (fun p => reviser_ReviseImmediateCharge p t b c d) |}.
Definition pixDueChargeReviserRouter : PixDueChargeReviser W :=
  {| duereviser_ReviseDueCharge t b c :=
       dispatch ps_PixDueChargeReviser (fun p => duereviser_ReviseDueCharge p t b c) |}.
Definition pixDueChargeListerRouter : PixDueChargeLister W :=
  {| duelister_ListDueCharges t b :=
       dispatch ps_PixDueChargeLister (fun p => duelister_ListDueCharges p t b) |}.
Definition pixLocationRouter : PixLocationProvider W :=
  {| location_CreateLocation t b :=
       dispatch ps_PixLocation (fun p => location_CreateLocation p t b);
     location_ListLocations t b := dispatch ps_PixLocation (fun p => location_ListLocations p t b);
     location_GetLocation t b := dispatch ps_PixLocation (fun p => location_GetLocation p t b);
     location_UnlinkLocationTxID t b :=
       dispatch ps_PixLocation (fun p => location_UnlinkLocationTxID p t b) |}.
Definition pixReceivedRouter : PixReceivedProvider W :=
  {| received_GetReceivedPix t b :=
       dispatch ps_PixReceived (fun p => received_GetReceivedPix p t b);
     received_ListReceivedPix t b :=
       dispatch ps_PixReceived (fun p => received_ListReceivedPix p t b);
     received_RequestRefund t b c d :=
       dispatch ps_PixReceived (fun p => received_RequestRefund p t b c d);
     received_GetRefund t b c := dispatch ps_PixReceived (fun p => received_GetRefund p t b c) |}.
Definition pixDueChargeBatchRouter : PixDueChargeBatchProvider W :=
  {| batch_CreateBatch t b c d :=
       dispatch ps_PixDueChargeBatch (fun p => batch_CreateBatch p t b c d);
     batch_ReviseBatch t b c d :=
       dispatch ps_PixDueChargeBatch (fun p => batch_ReviseBatch p t b c d);
     batch_GetBatch t b := dispatch ps_PixDueChargeBatch (fun p => batch_GetBatch p t b);
     batch_ListBatches t b := dispatch ps_PixDueChargeBatch (fun p => batch_ListBatches p t b) |}.
Definition acquirerStatementRouter : AcquirerStatementProvider W :=
  {| acquirer_ListReceivables t b :=
       dispatch ps_AcquirerStatement (fun p => acquirer_ListReceivables p t b);
     acquirer_ListCardTransactions t b :=
       dispatch ps_AcquirerStatement (fun p => acquirer_ListCardTransactions p t b) |}.
Definition plainBoletoRouter : PlainBoletoProvider W :=
  {| plain_CreatePlainBoleto t b :=
       dispatch ps_PlainBoleto (fun p => plain_CreatePlainBoleto p t b);
     plain_GetPlainBoleto t b := dispatch ps_PlainBoleto (fun p => plain_GetPlainBoleto p t b);
     plain_UpdatePlainBoleto t b c :=
       dispatch ps_PlainBoleto (fun p => plain_UpdatePlainBoleto p t b c);
     plain_CancelPlainBoleto t b :=
       dispatch ps_PlainBoleto (fun p => plain_CancelPlainBoleto p t b);
     plain_GetPlainBoletoPDF t b :=
       dispatch ps_PlainBoleto (fun p => plain_GetPlainBoletoPDF p t b) |}.
Definition boletoListerRouter : BoletoLister W :=
  {| blister_ListBoletos t b := dispatch ps_BoletoLister (fun p => blister_ListBoletos p t b) |}.
Definition NewRouters : Routers W :=
  {| ro_Bank := bankRouter;
     ro_Pix := pixRouter;
     ro_PixDueCharge := pixDueChargeRouter;
     ro_Checkout := checkoutRouter;
     ro_Boleto := boletoRouter;
     ro_DDA := ddaRouter;
     ro_Statement := statementRouter;
     ro_PixChargeReviser := pixChargeReviserRouter;
     ro_PixDueChargeReviser := pixDueChargeReviserRouter;
     ro_PixDueChargeLister := pixDueChargeListerRouter;
     ro_PixLocation := pixLocationRouter;
     ro_PixReceived := pixReceivedRouter;
     ro_PixDueChargeBatch := pixDueChargeBatchRouter;
     ro_AcquirerStatement := acquirerStatementRouter;
     ro_PlainBoleto := plainBoletoRouter;
     ro_BoletoLister := boletoListerRouter |}.
End routers.

(** The composite invalidator: every wired bank that caches anything. *)
Definition InvalidateToken `{MapIteration} {W} (reg : Registry W) (tenantID : string) (w : W) : W :=
  foldl (fun w e => match ps_CredInvalidator e.2 with Some inv => inv tenantID w | None => w end)
        w (iterate reg).

(** * The selector *)
Section selector.
Context `{MapIteration} (cred : string -> string -> res BankCredential).
Definition configured (tenantID id : string) : bool :=
  match cred tenantID id with Ok _ => true | Err _ => false end.
(** The allow-list: the canonical slugs. *)
Notation BankResolver := (gmap string unit).
Definition NewBankResolver (wired : list string) : BankResolver :=
  foldl (fun set id => match CanonicalBankID id with Some norm => <[norm := tt]> set | None => set end) ∅ wired.
(** The loop over the wired banks: the last configured one and their number. *)
Definition count_configured (tenantID : string) (ids : list string) : string * Z :=
  foldl (fun acc id => if configured tenantID id then (id, acc.2 + 1) else acc) ("", 0) ids.
Definition defaultBank (wired : BankResolver) (tenantID : string) : string :=
  let '(id, count) := count_configured tenantID (map fst (iterate wired)) in
  if count =? 1 then id else BankIDC6.
Definition Resolve (wired : BankResolver) (tenantID requested : string) : res string :=
  if bool_decide (TrimSpace requested = "") then Ok (defaultBank wired tenantID)
  else match CanonicalBankID requested with
       | None => Err ErrNotFound
       | Some id =>
           match wired !! id with
           | None => Err ErrNotFound
           | Some _ => if configured tenantID id then Ok id else Err ErrNotFound
           end
       end.
(** The middleware reads the header; a handler whose body names a bank rebinds. *)
Definition rebindBank (wired : BankResolver) (tenantID bodyBank bank : string) : res string :=
  if bool_decide (TrimSpace bodyBank = "") then Ok bank else Resolve wired tenantID bodyBank.
Definition bank_of_request (wired : BankResolver) (tenantID header bodyBank : string) : res string :=
  let? bank := Resolve wired tenantID header in rebindBank wired tenantID bodyBank bank.
End selector.

(** * What the routers are *)
Section providers.
Context {W : Type}.
Definition no_bank : BankProvider W :=
  {| bank_CreateCharge _ _ := throwM ErrUnavailable;
     bank_GetCharge _ _ := throwM ErrUnavailable |}.
Definition no_pix : PixProvider W :=
  {| pix_CreateImmediateCharge _ _ _ := throwM ErrUnavailable;
     pix_GetImmediateCharge _ _ := throwM ErrUnavailable;
     pix_ListImmediateCharges _ _ := throwM ErrUnavailable |}.
Definition no_due : PixDueChargeProvider W :=
  {| due_CreateDueCharge _ _ := throwM ErrUnavailable;
     due_GetDueCharge _ _ := throwM ErrUnavailable;
     due_UpdateDueCharge _ _ _ := throwM ErrUnavailable |}.
Definition no_checkout : CheckoutProvider W :=
  {| checkout_CreateCheckoutSession _ _ := throwM ErrUnavailable;
     checkout_GetCheckoutSession _ _ := throwM ErrUnavailable;
     checkout_CancelCheckoutSession _ _ := throwM ErrUnavailable |}.
Definition no_boleto : BoletoProvider W :=
  {| boleto_CreateBoleto _ _ := throwM ErrUnavailable;
     boleto_GetBoleto _ _ := throwM ErrUnavailable;
     boleto_CancelBoleto _ _ := throwM ErrUnavailable;
     boleto_GetBoletoByBankRef _ _ := throwM ErrUnavailable;
     boleto_GetBoletoPDF _ _ := throwM ErrUnavailable;
     boleto_UpdateBoleto _ _ _ := throwM ErrUnavailable |}.
Definition no_dda : DDAProvider W :=
  {| dda_ListOpenBoletos _ := throwM ErrUnavailable;
     dda_CreatePaymentGroup _ _ := throwM ErrUnavailable;
     dda_GetPaymentGroup _ _ := throwM ErrUnavailable;
     dda_RemovePaymentGroupItems _ _ _ := throwM ErrUnavailable;
     dda_RemovePaymentGroupItem _ _ _ := throwM ErrUnavailable;
     dda_SubmitPaymentGroup _ _ _ _ := throwM ErrUnavailable |}.
Definition no_statement : StatementProvider W :=
  {| statement_GetStatement _ _ := throwM ErrUnavailable |}.
Definition no_reviser : PixChargeReviser W :=
  {| reviser_CreateImmediateChargeAutoTxID _ _ _ := throwM ErrUnavailable;
     reviser_ReviseImmediateCharge _ _ _ _ := throwM ErrUnavailable |}.
Definition no_duereviser : PixDueChargeReviser W :=
  {| duereviser_ReviseDueCharge _ _ _ := throwM ErrUnavailable |}.
Definition no_duelister : PixDueChargeLister W :=
  {| duelister_ListDueCharges _ _ := throwM ErrUnavailable |}.
Definition no_location : PixLocationProvider W :=
  {| location_CreateLocation _ _ := throwM ErrUnavailable;
     location_ListLocations _ _ := throwM ErrUnavailable;
     location_GetLocation _ _ := throwM ErrUnavailable;
     location_UnlinkLocationTxID _ _ := throwM ErrUnavailable |}.
Definition no_received : PixReceivedProvider W :=
  {| received_GetReceivedPix _ _ := throwM ErrUnavailable;
     received_ListReceivedPix _ _ := throwM ErrUnavailable;
     received_RequestRefund _ _ _ _ := throwM ErrUnavailable;
     received_GetRefund _ _ _ := throwM ErrUnavailable |}.
Definition no_batch : PixDueChargeBatchProvider W :=
  {| batch_CreateBatch _ _ _ _ := throwM ErrUnavailable;
     batch_ReviseBatch _ _ _ _ := throwM ErrUnavailable;
     batch_GetBatch _ _ := throwM ErrUnavailable;
     batch_ListBatches _ _ := throwM ErrUnavailable |}.
Definition no_acquirer : AcquirerStatementProvider W :=
  {| acquirer_ListReceivables _ _ := throwM ErrUnavailable;
     acquirer_ListCardTransactions _ _ := throwM ErrUnavailable |}.
Definition no_plain : PlainBoletoProvider W :=
  {| plain_CreatePlainBoleto _ _ := throwM ErrUnavailable;
     plain_GetPlainBoleto _ _ := throwM ErrUnavailable;
     plain_UpdatePlainBoleto _ _ _ := throwM ErrUnavailable;
     plain_CancelPlainBoleto _ _ := throwM ErrUnavailable;
     plain_GetPlainBoletoPDF _ _ := throwM ErrUnavailable |}.
Definition no_blister : BoletoLister W :=
  {| blister_ListBoletos _ _ := throwM ErrUnavailable |}.
Definition no_set : ProviderSet W :=
  {| ps_Bank := None; ps_Pix := None; ps_PixDueCharge := None; ps_Checkout := None; ps_Boleto := None;
     ps_DDA := None; ps_Statement := None; ps_PixChargeReviser := None; ps_PixDueChargeReviser := None;
     ps_PixDueChargeLister := None; ps_PixLocation := None; ps_PixReceived := None;
     ps_PixDueChargeBatch := None; ps_AcquirerStatement := None; ps_PlainBoleto := None;
     ps_BoletoLister := None; ps_CredInvalidator := None |}.
Definition routers_of (set : ProviderSet W) : Routers W :=
  {| ro_Bank := default no_bank (ps_Bank set);
     ro_Pix := default no_pix (ps_Pix set);
     ro_PixDueCharge := default no_due (ps_PixDueCharge set);
     ro_Checkout := default no_checkout (ps_Checkout set);
     ro_Boleto := default no_boleto (ps_Boleto set);
     ro_DDA := default no_dda (ps_DDA set);
     ro_Statement := default no_statement (ps_Statement set);
     ro_PixChargeReviser := default no_reviser (ps_PixChargeReviser set);
     ro_PixDueChargeReviser := default no_duereviser (ps_PixDueChargeReviser set);
     ro_PixDueChargeLister := default no_duelister (ps_PixDueChargeLister set);
     ro_PixLocation := default no_location (ps_PixLocation set);
     ro_PixReceived := default no_received (ps_PixReceived set);
     ro_PixDueChargeBatch := default no_batch (ps_PixDueChargeBatch set);
     ro_AcquirerStatement := default no_acquirer (ps_AcquirerStatement set);
     ro_PlainBoleto := default no_plain (ps_PlainBoleto set);
     ro_BoletoLister := default no_blister (ps_BoletoLister set) |}.

Context (reg : Registry W) (bank : string).

(** The routers of a wired bank are its providers, and one that answers unavailable where the
    bank has none. *)
Lemma NewRouters_is set : resolve reg bank = Some set -> NewRouters reg bank = routers_of set.
Proof.
  intros Hset. unfold NewRouters, routers_of. f_equal; unfold bankRouter, pixRouter, pixDueChargeRouter, checkoutRouter, boletoRouter, ddaRouter, statementRouter, pixChargeReviserRouter, pixDueChargeReviserRouter, pixDueChargeListerRouter, pixLocationRouter, pixReceivedRouter, pixDueChargeBatchRouter, acquirerStatementRouter, plainBoletoRouter, boletoListerRouter, dispatch;
    rewrite Hset; match goal with |- context [match ?s with Some _ => _ | None => _ end] => destruct s as [[]|] end; reflexivity.
Qed.
Lemma NewRouters_none : resolve reg bank = None -> NewRouters reg bank = routers_of no_set.
Proof.
  intros Hset. unfold NewRouters, routers_of. f_equal; unfold bankRouter, pixRouter, pixDueChargeRouter, checkoutRouter, boletoRouter, ddaRouter, statementRouter, pixChargeReviserRouter, pixDueChargeReviserRouter, pixDueChargeListerRouter, pixLocationRouter, pixReceivedRouter, pixDueChargeBatchRouter, acquirerStatementRouter, plainBoletoRouter, boletoListerRouter, dispatch;
    rewrite Hset; reflexivity.
Qed.

End providers.

(** * Selection *)
Lemma wire_keys {W} (l : list (string * ProviderSet W)) : forall reg : Registry W,
  (forall id set, reg !! id = Some set -> CanonicalBankID id = Some id) ->
  forall id set, foldl (fun reg e => (Register e.1 e.2 reg).1) reg l !! id = Some set -> CanonicalBankID id = Some id.
Proof.
  induction l as [|[b s] l IH]; intros reg Hreg; cbn [foldl]; [exact Hreg|]. apply IH.
  intros id set. unfold Register. cbn [fst snd]. destruct (CanonicalBankID b) as [c|] eqn:Ec; [|apply Hreg].
  case_bool_decide as E; [|apply Hreg]. subst c. cbn [fst].
  intros [[<- <-]|[_ Hid]]%lookup_insert_Some; [done|by eapply Hreg].
Qed.
Lemma wire_canonical {W} (l : list (string * ProviderSet W)) id set :
  wire l !! id = Some set -> CanonicalBankID id = Some id.
Proof. unfold wire. apply wire_keys. intros id' set'. by rewrite lookup_empty. Qed.

Lemma count_configured_app cred t l id n :
  foldl (fun acc id => if configured cred t id then (id, acc.2 + 1) else acc) (id, n) l
    = (default id (last (List.filter (configured cred t) l)),
       n + Z.of_nat (List.length (List.filter (configured cred t) l))).
Proof.
  revert id n. induction l as [|x l IH]; intros id n; cbn [foldl List.filter]; [cbn; f_equal; lia|].
  destruct (configured cred t x); rewrite IH; [|done]. cbn [snd List.length]. f_equal; [|lia].
  rewrite last_cons. by destruct (last _).
Qed.
(** The banks a tenant is configured for, among the wired ones. *)
Definition configured_banks `{MapIteration} cred (wired : gmap string unit) (t : string) : list string :=
  List.filter (configured cred t) (map fst (iterate wired)).
Lemma defaultBank_spec `{MapIteration} cred wired t :
  (exists id, configured_banks cred wired t = [id] /\ defaultBank cred wired t = id) \/
  ((forall id, configured_banks cred wired t <> [id]) /\ defaultBank cred wired t = BankIDC6).
Proof.
  unfold defaultBank, count_configured, configured_banks. rewrite count_configured_app, Z.add_0_l.
  destruct (List.filter (configured cred t) _) as [|x [|y l]] eqn:E; cbn [List.length].
  - right. by split.
  - left. by exists x.
  - right. split; [done|]. rewrite (proj2 (Z.eqb_neq _ 1)) by lia. done.
Qed.

(** The slug a request names: the body's, else the header's. *)
Definition selector_of (header body : string) : string :=
  if bool_decide (TrimSpace body = "") then header else body.

Lemma resolver_slugs l : forall (set : gmap string unit) id,
  is_Some (foldl (fun set id => match CanonicalBankID id with Some norm => <[norm := tt]> set | None => set end) set l !! id)
  <-> is_Some (set !! id) \/ exists b, b ∈ l /\ CanonicalBankID b = Some id.
Proof.
  induction l as [|b l IH]; intros set id; cbn [foldl].
  { split; [by left|]. intros [?|(b & Hb & _)]; [done|by apply elem_of_nil in Hb]. }
  rewrite IH. split.
  - intros [Hin|(c & Hc & E)]; [|right; exists c; split; [by right|done]].
    destruct (CanonicalBankID b) as [norm|] eqn:Eb; [|by left].
    destruct Hin as [x [[<- _]|[_ Hx]]%lookup_insert_Some]; [right; exists b; split; [by left|done]|left; by exists x].
  - intros [[x Hx]|(c & [->|Hc]%elem_of_cons & E)].
    + left. destruct (CanonicalBankID b) as [norm|]; [|by exists x]. destruct (decide (norm = id)) as [->|Hne];
        [rewrite lookup_insert_eq|rewrite lookup_insert_ne by done]; by eexists.
    + left. rewrite E. rewrite lookup_insert_eq. by eexists.
    + right. by exists c.
Qed.
Lemma wired_slugs `{MapIteration} {W} (l : list (string * ProviderSet W)) id :
  is_Some (NewBankResolver (Banks (wire l)) !! id) <-> is_Some (wire l !! id).
Proof.
  unfold NewBankResolver. rewrite resolver_slugs. rewrite lookup_empty. split.
  - intros [[? ?]|(b & Hb & Ec)]; [done|]. apply list_elem_of_fmap in Hb as ([k set] & -> & Hk).
    rewrite iterate_perm in Hk. apply elem_of_map_to_list in Hk. cbn in Ec.
    rewrite (wire_canonical _ _ _ Hk) in Ec. injection Ec as <-. by eexists.
  - intros [set Hset]. right. exists id. split; [|by eapply wire_canonical].
    apply list_elem_of_fmap. exists (id, set). split; [done|]. rewrite iterate_perm. by apply elem_of_map_to_list.
Qed.

(** C15. No request is served by a bank it did not choose.  Whatever banks are wired and
    whatever the header and the body say, a request that is answered is served through the
    providers of one bank only: the one its selector names, which is wired and for which the
    authenticated tenant holds a credential; or, without a selector, the only wired bank the
    tenant is configured for, and C6 when there is none or more than one.  A surface that bank
    lacks answers unavailable and reaches no other bank, and a refused selection is always the
    same not-found. *)
Theorem served_by_the_chosen_bank `{MapIteration} {W} (l : list (string * ProviderSet W)) cred t header body :
  let reg := wire l in
  let wired := NewBankResolver (Banks reg) in
  match bank_of_request cred wired t header body with
  | Err e => e = ErrNotFound
  | Ok id =>
      NewRouters reg id = routers_of (default no_set (reg !! id)) /\
      if bool_decide (TrimSpace (selector_of header body) = "")
      then configured_banks cred wired t = [id] \/
           (id = BankIDC6 /\ forall one, configured_banks cred wired t <> [one])
      else CanonicalBankID (selector_of header body) = Some id /\ is_Some (reg !! id) /\
           configured cred t id = true
  end.
Proof.
  cbv zeta. set (reg := wire l). set (wired := NewBankResolver (Banks reg)).
  assert (Hexpl : forall req, TrimSpace req <> "" -> match Resolve cred wired t req with
            | Err e => e = ErrNotFound
            | Ok id => CanonicalBankID req = Some id /\ is_Some (reg !! id) /\ configured cred t id = true end).
  { intros req Hreq. unfold Resolve. rewrite bool_decide_false by done.
    destruct (CanonicalBankID req) as [id|]; [|done]. destruct (wired !! id) as [u|] eqn:Ew; [|done].
    assert (Hs : is_Some (reg !! id)) by (apply wired_slugs; fold reg wired; by exists u).
    by destruct (configured cred t id) eqn:Ec. }
  assert (Hrt : forall id, id = BankIDC6 \/ CanonicalBankID id = Some id ->
            NewRouters reg id = routers_of (default no_set (reg !! id))).
  { intros id Hid. assert (Er : resolve reg id = reg !! id).
    { unfold resolve, Get. destruct Hid as [->|Hc]; [done|]. case_bool_decide as Ee; [by subst id|]. by rewrite Hc. }
    destruct (reg !! id) as [set|] eqn:Es; cbn [default]; [by apply NewRouters_is|by apply NewRouters_none]. }
  assert (Hdef : forall id, id = defaultBank cred wired t -> (id = BankIDC6 \/ CanonicalBankID id = Some id) /\
            (configured_banks cred wired t = [id] \/
             (id = BankIDC6 /\ forall one, configured_banks cred wired t <> [one]))).
  { intros id ->. destruct (defaultBank_spec cred wired t) as [(i & Ef & ->)|(Hno & ->)]; [|by split; [left|right]].
    split; [|by left]. right. assert (Hin : In i (configured_banks cred wired t)) by (rewrite Ef; by left).
    apply filter_In in Hin as [Hin _]. apply list_elem_of_In, list_elem_of_fmap in Hin as ([k u] & -> & Hk).
    rewrite iterate_perm in Hk. apply elem_of_map_to_list in Hk.
    destruct (proj1 (wired_slugs l k)) as [set Hset]; [by exists u|]. by eapply wire_canonical. }
  assert (Hcan : forall req id, CanonicalBankID req = Some id -> is_Some (reg !! id) -> CanonicalBankID id = Some id)
    by (intros req id _ [set Hset]; by eapply wire_canonical).
  unfold bank_of_request, rebindBank, selector_of.
  destruct (bool_decide (TrimSpace body = "")) eqn:Eb.
  - destruct (bool_decide (TrimSpace header = "")) eqn:Eh.
    + unfold Resolve. rewrite Eh. destruct (Hdef _ eq_refl) as [H1 H2]. split; [by apply Hrt|done].
    + apply bool_decide_eq_false in Eh. specialize (Hexpl header Eh). destruct (Resolve cred wired t header) as [id|e]; [|done].
      destruct Hexpl as (H1 & H2 & H3). split; [|done]. apply Hrt. right. by eapply Hcan.
  - apply bool_decide_eq_false in Eb. assert (Hh : forall e, Resolve cred wired t header = Err e -> e = ErrNotFound).
    { intros e. unfold Resolve. case_bool_decide; [done|]. destruct (CanonicalBankID header); [|by intros [= <-]].
      destruct (wired !! _); [|by intros [= <-]]. destruct (configured _ _ _); [done|by intros [= <-]]. }
    destruct (Resolve cred wired t header) as [h|e]; [|by apply Hh].
    specialize (Hexpl body Eb). destruct (Resolve cred wired t body) as [id|e]; [|done].
    rewrite bool_decide_false by done. destruct Hexpl as (H1 & H2 & H3). split; [|done]. apply Hrt. right. by eapply Hcan.
Qed.

(** * Eviction reaches every bank *)
Notation caches := (gmap string (gmap string cachedToken)).
(** An adapter's invalidator, on its own slots. *)
Definition evict_bank (id tenantID : string) (c : caches) : caches :=
       alter (invalidate tenantID) id c.

Lemma invalidate_twice t m : invalidate t (invalidate t m) = invalidate t m.
Proof.
  unfold invalidate. destruct (m !! t) as [x|] eqn:E; [|by rewrite E]. by rewrite lookup_insert_eq, insert_insert_eq.
Qed.
(** The fan-out leaves each bank's slots evicted, or as they were. *)
Lemma fan_out (l : list (string * ProviderSet caches)) t id : forall w : caches,
  (forall k set, (k, set) ∈ l -> ps_CredInvalidator set = Some (evict_bank k)) ->
  foldl (fun w e => match ps_CredInvalidator e.2 with Some inv => inv t w | None => w end) w l !! id
    = (if bool_decide (id ∈ map fst l) then invalidate t else fun m => m) <$> (w !! id).
Proof.
  induction l as [|[k set] l IH]; intros w Hl; cbn [foldl].
  { rewrite bool_decide_false by (by intros ?%elem_of_nil). by destruct (w !! id). }
  rewrite IH by (intros; apply Hl; by right). cbn [snd]. rewrite (Hl k set) by left. unfold evict_bank.
  destruct (decide (k = id)) as [->|Hne].
  - rewrite (bool_decide_true (id ∈ map fst ((id, set) :: l))) by left. rewrite lookup_alter_eq.
    destruct (w !! id) as [m|]; [|done]. cbn. destruct (bool_decide _); [by rewrite invalidate_twice|done].
  - rewrite lookup_alter_ne by done. f_equal. erewrite bool_decide_ext; [reflexivity|]. cbn [map fst].
    rewrite elem_of_cons. split; [by right|]. by intros [->|].
Qed.

(** A credential written for a tenant takes effect at every bank at once.  Whatever tokens
    the banks' adapters hold, after the composite eviction the next call for the tenant at any
    wired bank goes to that bank for a new token, and every request it sends presents the
    credential the store then holds: none is answered from the cache. *)
Theorem eviction_reaches_every_bank `{MapIteration} decode_envelope decode_token
    (reg : Registry caches) (w : caches) t id slots env
    (Hreg : forall k set, reg !! k = Some set -> ps_CredInvalidator set = Some (evict_bank k))
    (Hwired : is_Some (reg !! id)) (Hslots : InvalidateToken reg t w !! id = Some slots) :
  let r := token decode_envelope decode_token env t slots in
  tk_answer _ r = answer_of_fetch decode_envelope decode_token env /\
  forall c s, (c, s) ∈ tk_sent _ r -> exists cred, te_cred env = Ok cred /\ c = bc_ClientID cred /\ s = bc_Secret cred.
Proof.
  unfold InvalidateToken in Hslots. rewrite fan_out in Hslots.
  2:{ intros k set Hk. rewrite iterate_perm in Hk. apply elem_of_map_to_list in Hk. by apply Hreg. }
  rewrite bool_decide_true in Hslots.
  2:{ destruct Hwired as [set Hset]. apply list_elem_of_fmap. exists (id, set). split; [done|].
      rewrite iterate_perm. by apply elem_of_map_to_list. }
  destruct (w !! id) as [m|]; [|done]. injection Hslots as <-. cbv zeta. split.
  - unfold token, refresh, answer_of_fetch, stateFor, invalidate.
    assert (Hz : forall m', match m' with Some tok => tok | None => zeroToken end = zeroToken ->
              usable (te_now env) (match m' with Some tok => tok | None => zeroToken end) = false) by (by intros m' ->).
    destruct (m !! t) as [x|] eqn:Ex; [rewrite lookup_insert_eq|rewrite Ex];
      (destruct (te_cred env) as [cred|]; [|done]);
      cbn [usable zeroToken ct_accessToken]; destruct (fetch _ _ _ cred) as [[? ?] [|]]; done.
  - intros c s Hin. destruct (refresh_sent decode_envelope decode_token ct_accessToken env t (invalidate t m)) as [E|(cred & k & Ec & _ & E)];
      unfold token in Hin; rewrite E in Hin; [by apply elem_of_nil in Hin|].
    apply elem_of_replicate in Hin as [[= -> ->] _]. by exists cred.
Qed.

(** A tenant whose credential was rotated while a token bought with the old one was cached. *)
Definition rotated : token_env :=
  {| te_now := zeroTime;
     te_cred := Ok {| bc_TenantID := "t1"; bc_BankID := "c6"; bc_ClientID := "id"; bc_Secret := "new";
                      bc_CreditorKey := "" |};
     te_world := fun _ => {| tw_answer := None; tw_now := zeroTime; tw_sleep := None |} |}.
Definition one_bank : Registry caches :=
  {["c6" := {| ps_Bank := None; ps_Pix := None; ps_PixDueCharge := None; ps_Checkout := None;
               ps_Boleto := None; ps_DDA := None; ps_Statement := None; ps_PixChargeReviser := None;
               ps_PixDueChargeReviser := None; ps_PixDueChargeLister := None; ps_PixLocation := None;
               ps_PixReceived := None; ps_PixDueChargeBatch := None; ps_AcquirerStatement := None;
               ps_PlainBoleto := None; ps_BoletoLister := None;
               ps_CredInvalidator := Some (evict_bank "c6") |}]}.
Definition old_token : cachedToken :=
  {| ct_accessToken := "old"; ct_expiresAt := {| ns := 9223372036854775807; loc := UTC_loc |}; ct_scope := "" |}.
Lemma eviction_reaches_every_bank_witness :
  tk_answer _ (token (fun _ => None) (fun _ => None) rotated "t1" {["t1" := old_token]}) = Ok "old" /\
  tk_answer _ (token (fun _ => None) (fun _ => None) rotated "t1" {["t1" := zeroToken]})
    = answer_of_fetch (fun _ => None) (fun _ => None) rotated.
Proof.
  split; [by vm_compute|].
  apply (eviction_reaches_every_bank (fun _ => None) (fun _ => None) one_bank {["c6" := {["t1" := old_token]}]} "t1" "c6").
  - intros k set Hk. unfold one_bank in Hk. apply lookup_singleton_Some in Hk as [<- <-]. reflexivity.
  - by eexists.
  - reflexivity.
Defined.
