(* ===== verification/PiiAccess.v ===== *)
(** internal/app/pii_access.go: the only way to read a payer's data at rest.  The
    mandate and the record of the access come out of one transaction; a scheduled purge
    expires the register. *)
From S2P Require Import Prelude GoStrings GoTime GoCrypto Shared Payments Tenants.
From S2P Require Import Mandates AuditTrail Ports MemStore.

Record ReadRecInput := {
  rri_TenantID : string;
  rri_IDRec : string;
  rri_ClientID : string;
  rri_OperatorID : string
}.

Section service.
Context {S : Type} `{Repository S} `{UnitOfWork S}.
(** The two readings of the clock and the fresh id of one call. *)
Context (pseudo : Pseudonymizer) (start loaded : Time) (newID : string).

Definition ReadRec (i : ReadRecInput) : M S error Rec :=
  let tenantID := TrimSpace (rri_TenantID i) in
  abort (bool_decide (tenantID = "")) with (NewValidationError "tenant_id" "is required") ;;
  let idRec := TrimSpace (rri_IDRec i) in
  abort (bool_decide (idRec = "")) with (NewValidationError "id_rec" "is required") ;;
  WithinTx
    (do rec <- FindRecByID tenantID idRec ;;
     do entry <- wrapM (Wrap "build access entry") (liftM (NewAccessEntry
       {| ap_ID := newID;
          ap_At := start;
          ap_Duration := Sub loaded start;
          ap_TenantID := tenantID;
          ap_ClientID := TrimSpace (rri_ClientID i);
          ap_OperatorID := TrimSpace (rri_OperatorID i);
          ap_SubjectRef := Pseudonymizer_Ref pseudo (devedor_doc (rec_devedor rec));
          ap_Object := "rec:" ++ rec_idRec rec;
          ap_Action := ActionReadRec |})) ;;
     do _ <- wrapM (Wrap "record pii access") (RecordPIIAccess entry) ;;
     retM rec).
End service.

(** The retention routine; [PurgePIIAccessBefore] is the purger of the store. *)
Definition Purge {S} (purger : Time -> M S error Z) (policy : RetentionPolicy) (now : Time)
    : M S error Z :=
  wrapM (Wrap "purge pii access") (purger (RetentionPolicy_Cutoff policy now)).

(** * Histories on the in-memory store *)
Section histories.
Context `{MapRange} (pseudo : Pseudonymizer) (policy : RetentionPolicy).

Inductive pii_op :=
| OpRead (start loaded : Time) (newID : string) (i : ReadRecInput)
| OpPurge (now : Time).

Definition pii_step (s : snapshot) (o : pii_op) : snapshot :=
  match o with
  | OpRead start loaded newID i => (ReadRec pseudo start loaded newID i s).1
  | OpPurge now => (Purge PurgePIIAccessBefore policy now s).1
  end.
Definition run_pii : snapshot -> list pii_op -> snapshot := foldl pii_step.

(** A later step keeps an access of instant [t] on record. *)
Definition retains (t : Time) (o : pii_op) : Prop :=
  match o with
  | OpRead _ _ _ _ => True
  | OpPurge now => ns now - retention_window policy <= ns t
  end.

(** What is recorded of a read. *)
Definition records (start loaded : Time) (newID : string) (i : ReadRecInput) (rec : Rec)
    (e : AccessEntry) : Prop :=
  access_id e = TrimSpace newID /\ access_at e = start /\
  access_durationMs e = Sub loaded start / millisecond /\
  access_tenantID e = TrimSpace (rri_TenantID i) /\
  access_clientID e = TrimSpace (rri_ClientID i) /\
  access_operatorID e = TrimSpace (rri_OperatorID i) /\
  access_subjectRef e = TrimSpace (Pseudonymizer_Ref pseudo (devedor_doc (rec_devedor rec))) /\
  access_object e = TrimSpace ("rec:" ++ rec_idRec rec) /\ access_action e = ActionReadRec.

Lemma NewAccessEntry_inv p e : NewAccessEntry p = Ok e ->
  0 <= ap_Duration p /\ e =
  {| access_id := TrimSpace (ap_ID p); access_at := ap_At p;
     access_durationMs := div64 (ap_Duration p) millisecond;
     access_tenantID := TrimSpace (ap_TenantID p); access_clientID := TrimSpace (ap_ClientID p);
     access_operatorID := TrimSpace (ap_OperatorID p);
     access_subjectRef := TrimSpace (ap_SubjectRef p); access_object := TrimSpace (ap_Object p);
     access_action := ap_Action p |}.
Proof.
  unfold NewAccessEntry. cbv zeta. intros HE.
  repeat match type of HE with
  | (if ?b then _ else _) = _ => destruct b eqn:?; [done|]
  end. simplify_eq. split; [|done]. by apply Z.ltb_ge.
Qed.

(** The two outcomes of a read. *)
Lemma ReadRec_spec start loaded newID i s s' r :
  ReadRec pseudo start loaded newID i s = (s', r) ->
  match r with
  | Ok rec => st_recs s !! key (TrimSpace (rri_TenantID i)) (TrimSpace (rri_IDRec i)) = Some rec /\
      exists e, records start loaded newID i rec e /\
                s' = with_piiAccess s (st_piiAccess s ++ [e])
  | Err _ => s' = s
  end.
Proof.
  unfold ReadRec, throwM. cbv zeta. intros HR.
  repeat (case_bool_decide; [by simplify_eq|]).
  destruct r as [rec|err]; [|by eapply WithinTx_Err].
  apply WithinTx_Ok in HR. stepM HR. cbn [FindRecByID txView] in Hm.
  unfold findRecByID, readM in Hm. destruct (st_recs s !! _) as [q|] eqn:Eq; simplify_eq/=.
  stepM HR. unfold liftM in Hm. injection Hm as -> He. apply NewAccessEntry_inv in He as [Hd ->].
  stepM HR. unfold retM in HR. simplify_eq/=. unfold appendPIIAccess, updateM in Hm.
  simplify_eq. split; [done|]. eexists. split; [|done].
  cbn in Hd |- *. unfold records. cbn.
  rewrite !TrimSpace_idem, div64_nonneg by (done || apply Sub_in64). auto 10.
Qed.

Lemma pii_step_recs s o : st_recs (pii_step s o) = st_recs s.
Proof.
  destruct o as [a b c i|now]; [|done]. simpl.
  destruct (ReadRec _ _ _ _ i s) as [s' r] eqn:E. apply ReadRec_spec in E.
  by destruct r; [destruct E as (_ & e & _ & ->)|subst].
Qed.

Lemma pii_step_keeps s o e :
  retains (access_at e) o -> e ∈ st_piiAccess s -> e ∈ st_piiAccess (pii_step s o).
Proof.
  destruct o as [a b c i|now]; simpl.
  - intros _ He. destruct (ReadRec _ _ _ _ i s) as [s' r] eqn:E. apply ReadRec_spec in E.
    destruct r; [destruct E as (_ & e' & _ & ->)|by subst]. simpl. set_solver.
  - intros Hr He. apply list_elem_of_In, filter_In. split; [by apply list_elem_of_In|].
    apply negb_true_iff, Z.ltb_ge. unfold RetentionPolicy_Cutoff, Add. simpl. lia.
Qed.

Lemma run_pii_recs s ops : st_recs (run_pii s ops) = st_recs s.
Proof.
  revert s. induction ops as [|o ops IH]; intros s; simpl; [done|]. by rewrite IH, pii_step_recs.
Qed.

(** No unregistered read, and no early purge: in any history of reads and purges, a
    read that is answered with a mandate returns the mandate as stored, for the caller's
    own tenant, and appends exactly one entry, naming the responsible, the pseudonym of
    the debtor and the instant, which stays in the register as long as no later purge
    runs more than the retention window after it; a read that is answered with an error
    changes nothing. *)
Theorem reads_registered s before start loaded newID i later s1 s2 r
    (H1 : s1 = run_pii s before)
    (H2 : ReadRec pseudo start loaded newID i s1 = (s2, r)) :
  match r with
  | Ok rec =>
      st_recs s !! key (TrimSpace (rri_TenantID i)) (TrimSpace (rri_IDRec i)) = Some rec /\
      exists e, records start loaded newID i rec e /\
        s2 = with_piiAccess s1 (st_piiAccess s1 ++ [e]) /\
        (Forall (retains start) later -> e ∈ st_piiAccess (run_pii s2 later))
  | Err _ => s2 = s1
  end.
Proof.
  apply ReadRec_spec in H2. destruct r as [rec|err]; [|done].
  destruct H2 as (Hrec & e & He & Hs2). subst s1. rewrite run_pii_recs in Hrec.
  split; [done|]. exists e. split_and!; [done..|]. intros Hl.
  assert (e ∈ st_piiAccess s2) as Hin by (rewrite Hs2; set_solver).
  destruct He as (_ & <- & _). clear Hs2. revert s2 Hin.
  induction Hl as [|o later Ho Hl IH]; intros s2 Hin; simpl; auto using pii_step_keeps.
Qed.

Lemma filter_complement {A} (f : A -> bool) l :
  List.length l =
  (List.length (List.filter f l) + List.length (List.filter (fun x => negb (f x)) l))%nat.
Proof. induction l as [|x l IH]; [done|]. simpl. destruct (f x); simpl; lia. Qed.

Lemma filter_again {A} (f : A -> bool) l :
  let l' := List.filter (fun x => negb (f x)) l in
  List.filter (fun x => negb (f x)) l' = l' /\ List.filter f l' = [].
Proof.
  induction l as [|x l [IH1 IH2]]; [done|]. simpl.
  destruct (f x) eqn:E; simpl; rewrite ?E; simpl; [done|]. by rewrite IH1.
Qed.

(** The purge removes exactly the entries older than the window and reports how many;
    run again at once it finds nothing. *)
Theorem purge_exact now s :
  let '(s', n) := Purge PurgePIIAccessBefore policy now s in
  n = Ok (Z.of_nat (List.length (st_piiAccess s)) - Z.of_nat (List.length (st_piiAccess s'))) /\
  (forall e, e ∈ st_piiAccess s' <->
     e ∈ st_piiAccess s /\ ns now - retention_window policy <= ns (access_at e)) /\
  Purge PurgePIIAccessBefore policy now s' = (s', Ok 0).
Proof.
  unfold Purge, PurgePIIAccessBefore, wrapM. cbn [fst snd st_piiAccess with_piiAccess].
  set (old := fun e => Before (access_at e) (RetentionPolicy_Cutoff policy now)).
  split_and!.
  - cbn [map_err st_piiAccess with_piiAccess]. f_equal.
    pose proof (filter_complement old (st_piiAccess s)) as HC. subst old. lia.
  - intros e. cbn [st_piiAccess with_piiAccess]. rewrite !list_elem_of_In, filter_In.
    unfold old, Before, RetentionPolicy_Cutoff, Add. simpl.
    by rewrite negb_true_iff, Z.ltb_ge, Z.add_opp_r.
  - cbn [map_err st_piiAccess with_piiAccess].
    destruct (filter_again old (st_piiAccess s)) as [E1 E2]. subst old. by rewrite E1, E2.
Qed.
End histories.

(** A mandate read, then a purge within the window. *)
Definition pii_store : snapshot :=
  with_recs emptySnapshot {[ key "t1" "R1" :=
    RehydrateRec "R1" "t1" "c6" "contract" {| devedor_doc := "123.456.789-09"; devedor_nome := "Ana" |}
      "2024-01-01" "MENSAL" 1000 "CRIADA" sample_time sample_time [] ]}.
Definition pii_pseudo : Pseudonymizer := {| pseudo_key := "0123456789abcdef" |}.
Definition pii_policy : RetentionPolicy := {| retention_window := DefaultRetention |}.

Lemma reads_registered_witness :
  exists rec e, rec_idRec rec = "R1" /\ access_object e = "rec:R1" /\
    e ∈ st_piiAccess (run_pii pii_pseudo pii_policy
          (ReadRec pii_pseudo sample_time sample_time "a1"
             {| rri_TenantID := "t1"; rri_IDRec := "R1"; rri_ClientID := ""; rri_OperatorID := "" |}
             pii_store).1
          [OpPurge sample_time]).
Proof.
  pose proof (reads_registered pii_pseudo pii_policy pii_store [] sample_time sample_time "a1"
    {| rri_TenantID := "t1"; rri_IDRec := "R1"; rri_ClientID := ""; rri_OperatorID := "" |}
    [OpPurge sample_time] pii_store _ _ eq_refl (surjective_pairing _)) as HR.
  assert (HOk : is_ok (ReadRec pii_pseudo sample_time sample_time "a1"
    {| rri_TenantID := "t1"; rri_IDRec := "R1"; rri_ClientID := ""; rri_OperatorID := "" |}
    pii_store).2 = true) by (vm_compute; reflexivity).
  destruct (ReadRec pii_pseudo _ _ _ _ pii_store).2 as [rec|err]; [|done].
  destruct HR as (Hrec & e & He & _ & Hin). exists rec, e.
  assert (rec_idRec rec = "R1") as Eid by (vm_compute in Hrec; by injection Hrec as <-).
  split; [done|]. split; [|by apply Hin; repeat constructor; vm_compute].
  destruct He as (_ & _ & _ & _ & _ & _ & _ & -> & _). by rewrite Eid.
Defined.
