(* ===== verification/Settlement.v ===== *)
(** internal/app/webhook.go and webhook_boleto.go: a bank notification is a
    trigger; the payment is settled, inside one transaction with the anti-replay
    mark, only on what the bank itself answers. *)
From S2P Require Import Prelude GoStrings GoTime Shared Payments Tenants.
From S2P Require Import Mandates AuditTrail Ports.

Definition bankStatusPaid : string := "paid".
Definition systemOperatorWebhook : string := "system:c6-webhook".
Definition TopicPaymentCreated : string := "payment.created".
Definition TopicPaymentPaid : string := "payment.paid".

Record PaymentEvent := {
  ev_TenantID : string;
  ev_TxID : string;
  ev_EventKey : string;
  ev_ClaimsSettlement : bool
}.

Definition errNotYetPayable : error := New "cobrança ainda não paga".
Definition errSettlementLag : error :=
  New "liquidação anunciada ainda não visível na cobrança".

(** [outboundqueue.Detail] *)
Record Detail := {
  detail_AmountCents : Z;
  detail_Installments : Z;
  detail_Message : string
}.

(** What the service emits: bus messages, and calls of the outbound attributor,
    which never fail the caller. *)
Inductive effect :=
| Publish (topic : string) (m : Message)
| Attribute_ (tenantID eventKey txID event : string) (d : Detail).

(** The store, and the effects emitted so far in order. *)
Record World (S : Type) := { db : S; emitted : list effect }.
Arguments db {S} w.
Arguments emitted {S} w.

Definition emit {S} (w : World S) (e : effect) : World S :=
  {| db := db w; emitted := (emitted w ++ [e])%list |}.

Section settlement.
Context {S : Type} `{Repository S} `{UnitOfWork S}.
(** The one reading of the clock and the one fresh id a delivery needs. *)
Context (now : Time) (newID : string).

Notation reconcileFunc := (string -> string -> res ChargeResult).

Definition recordSettlementMismatch (ev : PaymentEvent) (r : ChargeResult) : M S error unit :=
  do e <- wrapM (Wrap "build audit entry")
            (liftM (NewSettlementMismatchEntry newID systemOperatorWebhook (ev_TenantID ev)
                      (ev_TxID ev) (cr_ExpectedAmountCents r) (cr_ReceivedAmountCents r) now)) ;;
  wrapM (Wrap "append audit entry") (Append e).

(** The callback [settle] runs inside the transaction; its result stands for the
    captured variables [settled] and [settledRes]. *)
Definition settle_tx (ev : PaymentEvent) (reconcile : reconcileFunc)
    : M S error (option (Payment * ChargeResult)) :=
  do first <- wrapM (Wrap "mark processed") (MarkProcessed (ev_TenantID ev) (ev_EventKey ev)) ;;
  if negb first then retM None
  else
    do r <- wrapM (Wrap "reconcile charge")
              (liftM (reconcile (ev_TenantID ev) (ev_TxID ev))) ;;
    if negb (EqualFold (cr_Status r) bankStatusPaid) then
      if ev_ClaimsSettlement ev
      then throwM (Wrap "aviso afirma pagamento mas a cobrança ainda não consta paga"
                     errSettlementLag)
      else throwM errNotYetPayable
    else if negb (ChargeResult_AmountReconciled r) then
      do _ <- wrapM (Wrap "record settlement divergence") (recordSettlementMismatch ev r) ;;
      retM None
    else
      let settlementKey := if bool_decide (cr_SettlementKey r = "") then ev_TxID ev
                           else cr_SettlementKey r in
      do p <- wrapM (Wrap "find payment by tx")
                (FindPaymentByTxID (ev_TenantID ev) settlementKey) ;;
      match payment_MarkPaid p settlementKey now with
      | Err e => if errors_Is e ErrConflict then retM None
                 else throwM (Wrap "settle payment" e)
      | Ok p =>
          do _ <- wrapM (Wrap "save settled payment") (SavePayment p) ;;
          retM (Some (p, r))
      end.

Definition publishSettled (settled : Payment) (ev : PaymentEvent) (r : ChargeResult)
    (w : World S) : World S :=
  let w := emit w (Publish TopicPaymentPaid
    {| msg_TenantID := payment_tenantID settled;
       msg_Type := TopicPaymentPaid;
       msg_IdempotencyKey := ev_EventKey ev;
       msg_Payload := [("payment_id", payment_id settled);
                       ("tenant_id", payment_tenantID settled);
                       ("tx_id", payment_txID settled)] |}) in
  emit w (Attribute_ (payment_tenantID settled) (ev_EventKey ev) (payment_txID settled)
    TopicPaymentPaid
    {| detail_AmountCents := cr_ExpectedAmountCents r;
       detail_Installments := cr_Installments r;
       detail_Message := cr_Message r |}).

Definition settle (ev : PaymentEvent) (reconcile : reconcileFunc)
    : M (World S) error unit := fun w =>
  if blank (ev_TenantID ev)
  then (w, Err (NewValidationError "tenant_id" "tenant id is required"))
  else if blank (ev_TxID ev)
  then (w, Err (NewValidationError "tx_id" "tx id is required"))
  else if blank (ev_EventKey ev)
  then (w, Err (NewValidationError "event_key" "event key is required"))
  else
    match WithinTx (settle_tx ev reconcile) (db w) with
    | (s, Err err) =>
        let w := {| db := s; emitted := emitted w |} in
        if errors_Is err errNotYetPayable then (w, Ok tt) else (w, Err err)
    | (s, Ok None) => ({| db := s; emitted := emitted w |}, Ok tt)
    | (s, Ok (Some (settled, settledRes))) =>
        (publishSettled settled ev settledRes {| db := s; emitted := emitted w |}, Ok tt)
    end.

(** * The three rails *)
Definition HandlePaymentEvent (GetCharge : reconcileFunc) (ev : PaymentEvent)
    : M (World S) error unit := settle ev GetCharge.

Definition reconcileCheckout (GetCheckoutSession : string -> string -> res CheckoutResult)
    (tenantID sessionID : string) : res ChargeResult :=
  let? r := GetCheckoutSession tenantID sessionID in
  Ok {| cr_TxID := co_SessionID r;
        cr_Status := co_Status r;
        cr_ExpectedAmountCents := co_AmountCents r;
        cr_ReceivedAmountCents := co_ReceivedAmountCents r;
        cr_Installments := co_Installments r;
        cr_Message := co_Message r;
        cr_SettlementKey := "" |}.

(** A port that was not wired is nil. *)
Definition HandleCheckoutEvent
    (checkout : option (string -> string -> res CheckoutResult)) (ev : PaymentEvent)
    : M (World S) error unit :=
  match checkout with
  | None => throwM (Wrap "checkout webhook not configured" ErrUnavailable)
  | Some GetCheckoutSession => settle ev (reconcileCheckout GetCheckoutSession)
  end.

Definition boletoStatusPaid : string := "PAID".
Definition boletoStatusWaitingConfirmation : string := "WAITING_CONFIRMATION".
Definition boletoStatusCanceledV2 : string := "CANCELED".
Definition boletoStatusCanceledLegacy : string := "CANCELLED".

Definition boletoSettlementMessage (r : BoletoResult) : string :=
  let modality := Modality_Normalized (br_Modality r) in
  if bool_decide (br_Status r = "") then modality
  else (modality ++ " " ++ ToUpper (TrimSpace (br_Status r)))%string.

Definition toBoletoChargeResult (r : BoletoResult) (settlementKey : string)
    : res ChargeResult :=
  let status := ToUpper (TrimSpace (br_Status r)) in
  refuse (bool_decide (status = boletoStatusWaitingConfirmation))
    with (Wrap "pagamento confirmado, recursos ainda não creditados" errSettlementLag) ;;
  if bool_decide (status = boletoStatusCanceledV2)
     || bool_decide (status = boletoStatusCanceledLegacy)
  then Ok {| cr_TxID := br_TxID r; cr_Status := status;
             cr_ExpectedAmountCents := br_AmountCents r; cr_ReceivedAmountCents := 0;
             cr_Installments := 0; cr_Message := ""; cr_SettlementKey := settlementKey |}
  else
    let paid := bool_decide (status = boletoStatusPaid) in
    Ok {| cr_TxID := br_TxID r;
          cr_Status := if paid then bankStatusPaid else status;
          cr_ExpectedAmountCents := br_AmountCents r;
          cr_ReceivedAmountCents := if paid then br_AmountCents r else 0;
          cr_Installments := 0;
          cr_Message := boletoSettlementMessage r;
          cr_SettlementKey := settlementKey |}.

Definition reconcileBoletoByBankRef
    (GetBoletoByBankRef : string -> string -> res BoletoResult)
    (tenantID bankRef : string) : res ChargeResult :=
  let? r := GetBoletoByBankRef tenantID bankRef in
  toBoletoChargeResult r (br_TxID r).

(** The two reads of the boleto port this handler uses. *)
Record BoletoReader := {
  GetBoleto : string -> string -> res BoletoResult;
  GetBoletoByBankRef : string -> string -> res BoletoResult
}.

(** [payments] tells whether the local payment port is wired; it reads the same
    store outside the transaction. *)
Definition HandleBoletoEvent (boleto : option BoletoReader) (payments : bool)
    (ev : PaymentEvent) : M (World S) error unit := fun w =>
  match boleto with
  | None => (w, Err (Wrap "boleto webhook not configured" ErrUnavailable))
  | Some boleto =>
      if blank (ev_TxID ev)
      then (w, Err (NewValidationError "tx_id" "tx id is required"))
      else
        let by_bank_ref := settle ev (reconcileBoletoByBankRef (GetBoletoByBankRef boleto)) in
        if payments then
          match FindPaymentByTxID (ev_TenantID ev) (ev_TxID ev) (db w) with
          | (_, Ok p) =>
              settle ev (fun tenantID _ =>
                let? r := GetBoleto boleto tenantID (payment_id p) in
                toBoletoChargeResult r "") w
          | (_, Err err) =>
              if negb (errors_Is err ErrNotFound)
              then (w, Err (Wrap "resolve boleto payment" err))
              else by_bank_ref w
          end
        else by_bank_ref w
  end.
End settlement.

(** * Safety for any store whose transactions are atomic *)
Section safety.
Context {S : Type} `{Repository S} `{UnitOfWorkLaws S}.

(** What the bank must have answered for a payment to be settled. *)
Definition settleable (r : ChargeResult) : Prop :=
  EqualFold (cr_Status r) bankStatusPaid = true /\
  0 < cr_ExpectedAmountCents r /\ cr_ReceivedAmountCents r = cr_ExpectedAmountCents r.

Definition settlement_key (ev : PaymentEvent) (r : ChargeResult) : string :=
  if bool_decide (cr_SettlementKey r = "") then ev_TxID ev else cr_SettlementKey r.

(** The two effects of a settlement. *)
Definition settlement_effects (p : Payment) (ev : PaymentEvent) (r : ChargeResult)
    : list effect :=
  [Publish TopicPaymentPaid
     {| msg_TenantID := payment_tenantID p; msg_Type := TopicPaymentPaid;
        msg_IdempotencyKey := ev_EventKey ev;
        msg_Payload := [("payment_id", payment_id p); ("tenant_id", payment_tenantID p);
                        ("tx_id", payment_txID p)] |};
   Attribute_ (payment_tenantID p) (ev_EventKey ev) (payment_txID p) TopicPaymentPaid
     {| detail_AmountCents := cr_ExpectedAmountCents r;
        detail_Installments := cr_Installments r; detail_Message := cr_Message r |}].

Lemma settle_tx_Some now newID ev reconcile (s s' : S) p r :
  settle_tx now newID ev reconcile s = (s', Ok (Some (p, r))) ->
  exists s1 s2 p0,
    MarkProcessed (ev_TenantID ev) (ev_EventKey ev) s = (s1, Ok true) /\
    reconcile (ev_TenantID ev) (ev_TxID ev) = Ok r /\ settleable r /\
    FindPaymentByTxID (ev_TenantID ev) (settlement_key ev r) s1 = (s2, Ok p0) /\
    payment_MarkPaid p0 (settlement_key ev r) now = Ok p /\
    SavePayment p s2 = (s', Ok tt).
Proof.
  unfold settle_tx. intros HT. stepM HT. destruct a; simpl in HT; [|by simplify_eq/=].
  stepM HT. unfold liftM in Hm0. simplify_eq/=.
  destruct (EqualFold _ _) eqn:Ef; simpl in HT;
    [|by destruct (ev_ClaimsSettlement ev)].
  destruct (ChargeResult_AmountReconciled a) eqn:Ea; simpl in HT; [|by stepM HT].
  stepM HT. apply AmountReconciled_spec in Ea.
  destruct (payment_MarkPaid _ _ now) as [q|e] eqn:Em;
    [|by destruct (errors_Is e ErrConflict)].
  stepM HT. destruct a1. unfold retM in HT. simplify_eq.
  unfold settleable, settlement_key. do 3 eexists. split_and!; eauto; tauto.
Qed.

Lemma settle_Err now newID ev reconcile (w w' : World S) e :
  settle now newID ev reconcile w = (w', Err e) -> w' = w.
Proof.
  intros HE. unfold settle in HE. repeat (destruct (blank _); [by simplify_eq|]).
  destruct (WithinTx _ (db w)) as [s [[[p r]|]|err]] eqn:Et; [done|done|].
  apply WithinTx_Err in Et as ->. destruct (errors_Is err _); [done|].
  simplify_eq. by destruct w.
Qed.

(** C12. A delivery the service answers with an error changed nothing: the store,
    the anti-replay mark included, and the effects emitted are those of before, so
    the bank's redelivery is processed from scratch. *)
Theorem settle_error_no_trace now newID ev reconcile (w w' : World S) e
    (HE : settle now newID ev reconcile w = (w', Err e)) : w' = w.
Proof. by eapply settle_Err. Qed.

(** Nothing is announced without authoritative evidence: if a delivery emits
    anything, the event key was fresh, the bank itself (not the notification)
    answered a paid status with a positive amount received in full, the tenant's
    payment under the settlement key accepted the settlement and was saved in the
    same transaction, and exactly the payment.paid message and its attribution were
    emitted. *)
Theorem settle_emits_evidence now newID ev reconcile (w w' : World S) res
    (HS : settle now newID ev reconcile w = (w', res)) (Hne : emitted w' <> emitted w) :
  exists r p0 p s1 s2,
    reconcile (ev_TenantID ev) (ev_TxID ev) = Ok r /\ settleable r /\
    MarkProcessed (ev_TenantID ev) (ev_EventKey ev) (db w) = (s1, Ok true) /\
    FindPaymentByTxID (ev_TenantID ev) (settlement_key ev r) s1 = (s2, Ok p0) /\
    payment_MarkPaid p0 (settlement_key ev r) now = Ok p /\
    SavePayment p s2 = (db w', Ok tt) /\
    emitted w' = (emitted w ++ settlement_effects p ev r)%list /\ res = Ok tt.
Proof.
  unfold settle in HS. repeat (destruct (blank _); [by simplify_eq|]).
  destruct (WithinTx _ (db w)) as [s [[[p r]|]|err]] eqn:Et.
  - apply WithinTx_Ok, settle_tx_Some in Et as (s1 & s2 & p0 & ? & ? & ? & ? & ? & ?).
    unfold publishSettled, emit in HS. simplify_eq/=.
    exists r, p0, p, s1, s2. rewrite <- app_assoc. auto 10.
  - by simplify_eq.
  - destruct (errors_Is err _); by simplify_eq.
Qed.
End safety.
