(* ===== verification/Deliveries.v ===== *)
(** The settlement service over the in-memory store: a rule-per-outcome
    specification of one delivery and its refinement, then sequences of
    deliveries (replays, reorderings, bank outages). *)
From S2P Require Import Prelude GoStrings GoTime Shared Payments Tenants.
From S2P Require Import Mandates AuditTrail Ports MemStore Settlement.

Section rules.
Context `{MapRange}.

(** One attempt to deliver an event: the event, what the bank answers to the
    reconciliation, the clock reading and the fresh id. *)
Record delivery := {
  d_ev : PaymentEvent;
  d_answer : res ChargeResult;
  d_now : Time;
  d_id : string
}.

Definition event_ok (ev : PaymentEvent) : Prop :=
  blank (ev_TenantID ev) = false /\ blank (ev_TxID ev) = false /\
  blank (ev_EventKey ev) = false.
#[export] Instance event_ok_dec ev : Decision (event_ok ev).
Proof. unfold event_ok. apply _. Defined.

Definition marked (s : snapshot) (ev : PaymentEvent) : Prop :=
  key (ev_TenantID ev) (ev_EventKey ev) ∈ st_processed s.
#[export] Instance marked_dec s ev : Decision (marked s ev).
Proof. unfold marked. apply _. Defined.
Definition mark (s : snapshot) (ev : PaymentEvent) : snapshot :=
  with_processed s ({[ key (ev_TenantID ev) (ev_EventKey ev) ]} ∪ st_processed s).

Definition paid (r : ChargeResult) : Prop := EqualFold (cr_Status r) bankStatusPaid = true.
Definition reconciled (r : ChargeResult) : Prop :=
  0 < cr_ExpectedAmountCents r /\ cr_ReceivedAmountCents r = cr_ExpectedAmountCents r.

(** The payment a settlement looks up. *)
Definition lookup_tx (s : snapshot) (tenantID txID : string) : option Payment :=
  scan (fun p => bool_decide (payment_tenantID p = tenantID)
                 && bool_decide (payment_txID p = txID)) s.
Definition store_payment (s : snapshot) (p : Payment) : snapshot :=
  with_payments s (<[key (payment_tenantID p) (payment_id p) := p]> (st_payments s)).

(** The specification: [outcome s d s' effects response] lists, for a well-formed
    event, the outcomes a delivery can have, each with its condition. *)
Inductive outcome (s : snapshot) (d : delivery) :
    snapshot -> list effect -> res unit -> Prop :=
| o_duplicate :
    marked s (d_ev d) -> outcome s d s [] (Ok tt)
| o_bank_error e :
    ~ marked s (d_ev d) -> d_answer d = Err e -> errors_Is e errNotYetPayable = false ->
    outcome s d s [] (Err (Wrap "reconcile charge" e))
| o_bank_quiet e :
    ~ marked s (d_ev d) -> d_answer d = Err e -> errors_Is e errNotYetPayable = true ->
    outcome s d s [] (Ok tt)
| o_not_paid r :
    ~ marked s (d_ev d) -> d_answer d = Ok r -> ~ paid r ->
    ev_ClaimsSettlement (d_ev d) = false -> outcome s d s [] (Ok tt)
| o_settlement_lag r :
    ~ marked s (d_ev d) -> d_answer d = Ok r -> ~ paid r ->
    ev_ClaimsSettlement (d_ev d) = true ->
    outcome s d s []
      (Err (Wrap "aviso afirma pagamento mas a cobrança ainda não consta paga"
              errSettlementLag))
| o_divergence r entry :
    ~ marked s (d_ev d) -> d_answer d = Ok r -> paid r -> ~ reconciled r ->
    NewSettlementMismatchEntry (d_id d) systemOperatorWebhook (ev_TenantID (d_ev d))
      (ev_TxID (d_ev d)) (cr_ExpectedAmountCents r) (cr_ReceivedAmountCents r) (d_now d)
      = Ok entry ->
    outcome s d (with_audit (mark s (d_ev d)) (st_audit s ++ [entry])) [] (Ok tt)
| o_unauditable r e :
    ~ marked s (d_ev d) -> d_answer d = Ok r -> paid r -> ~ reconciled r ->
    NewSettlementMismatchEntry (d_id d) systemOperatorWebhook (ev_TenantID (d_ev d))
      (ev_TxID (d_ev d)) (cr_ExpectedAmountCents r) (cr_ReceivedAmountCents r) (d_now d)
      = Err e -> errors_Is e errNotYetPayable = false ->
    outcome s d s [] (Err (Wrap "record settlement divergence" (Wrap "build audit entry" e)))
| o_unknown_payment r :
    ~ marked s (d_ev d) -> d_answer d = Ok r -> paid r -> reconciled r ->
    lookup_tx s (ev_TenantID (d_ev d)) (settlement_key (d_ev d) r) = None ->
    outcome s d s [] (Err (Wrap "find payment by tx" ErrNotFound))
| o_conflict r p e :
    ~ marked s (d_ev d) -> d_answer d = Ok r -> paid r -> reconciled r ->
    lookup_tx s (ev_TenantID (d_ev d)) (settlement_key (d_ev d) r) = Some p ->
    payment_MarkPaid p (settlement_key (d_ev d) r) (d_now d) = Err e ->
    errors_Is e ErrConflict = true -> outcome s d (mark s (d_ev d)) [] (Ok tt)
| o_refused r p e :
    ~ marked s (d_ev d) -> d_answer d = Ok r -> paid r -> reconciled r ->
    lookup_tx s (ev_TenantID (d_ev d)) (settlement_key (d_ev d) r) = Some p ->
    payment_MarkPaid p (settlement_key (d_ev d) r) (d_now d) = Err e ->
    errors_Is e ErrConflict = false ->
    outcome s d s [] (Err (Wrap "settle payment" e))
| o_settled r p p' :
    ~ marked s (d_ev d) -> d_answer d = Ok r -> paid r -> reconciled r ->
    lookup_tx s (ev_TenantID (d_ev d)) (settlement_key (d_ev d) r) = Some p ->
    payment_MarkPaid p (settlement_key (d_ev d) r) (d_now d) = Ok p' ->
    outcome s d (store_payment (mark s (d_ev d)) p') (settlement_effects p' (d_ev d) r) (Ok tt).

(** Running one delivery. *)
Definition deliver (w : World snapshot) (d : delivery) : World snapshot * res unit :=
  settle (d_now d) (d_id d) (d_ev d) (fun _ _ => d_answer d) w.

Lemma lookup_tx_inv s t tx p :
  lookup_tx s t tx = Some p ->
  payment_tenantID p = t /\ payment_txID p = tx /\ exists k, st_payments s !! k = Some p.
Proof. intros Hs. apply scan_Some in Hs as [Hk Ht]. by bools. Qed.

Lemma markProcessed_fresh s ev :
  ~ marked s ev -> MarkProcessed (ev_TenantID ev) (ev_EventKey ev) s = (mark s ev, Ok true).
Proof. unfold marked. intros. simpl. unfold markProcessed. by rewrite bool_decide_false. Qed.
Lemma markProcessed_dup s ev :
  marked s ev -> MarkProcessed (ev_TenantID ev) (ev_EventKey ev) s = (s, Ok false).
Proof. unfold marked. intros. simpl. unfold markProcessed. by rewrite bool_decide_true. Qed.

Lemma MarkPaid_keeps p tx now p' :
  payment_MarkPaid p tx now = Ok p' -> identity p' = identity p.
Proof. intros HM. by apply MarkPaid_inv in HM as [_ [(_ & _ & ->)|[_ ->]]]. Qed.

(** Saving a stored payment under a new status is never refused. *)
Lemma save_stored s p p' :
  Store_ok s -> (exists k, st_payments s !! k = Some p) -> identity p' = identity p ->
  savePayment p' s = (store_payment s p', Ok tt).
Proof.
  intros [_ Hu] [k Hk] Hid. injection Hid as Eid Etn _ _ Eik _.
  destruct (savePayment_spec s p') as [(q & k' & Hq & Et & Ei & Hne & _)|[_ E]]; [|done].
  destruct Hne. rewrite Eid. apply (Hu k' k q p); congruence.
Qed.

(** The run of [settle] once the mark is taken and the bank has answered. *)
Lemma deliver_tx w d :
  event_ok (d_ev d) ->
  deliver w d =
  match settle_tx (d_now d) (d_id d) (d_ev d) (fun _ _ => d_answer d) (db w) with
  | (_, Err e) => (w, if errors_Is e errNotYetPayable then Ok tt else Err e)
  | (s, Ok None) => ({| db := s; emitted := emitted w |}, Ok tt)
  | (s, Ok (Some (p, r))) =>
      ({| db := s; emitted := (emitted w ++ settlement_effects p (d_ev d) r)%list |}, Ok tt)
  end.
Proof.
  intros (H1 & H2 & H3). unfold deliver, settle. rewrite H1, H2, H3.
  unfold WithinTx; simpl. unfold mem_WithinTx.
  destruct (settle_tx _ _ _ _ _) as [s [[[p r]|]|e]]; [|done|].
  - unfold publishSettled, emit. simpl. by rewrite <- app_assoc.
  - destruct w. by destruct (errors_Is e _).
Qed.

Lemma mark_ok s ev : Store_ok s -> Store_ok (mark s ev).
Proof. intros [? ?]. by split. Qed.

(** [settle_tx] one decision at a time. *)
Lemma tx_dup s d : marked s (d_ev d) ->
  settle_tx (d_now d) (d_id d) (d_ev d) (fun _ _ => d_answer d) s = (s, Ok None).
Proof.
  intros Hm. unfold settle_tx. erewrite bindM_unfold; [|by apply wrapM_Ok, markProcessed_dup].
  done.
Qed.

Lemma tx_bank_error s d e : ~ marked s (d_ev d) -> d_answer d = Err e ->
  settle_tx (d_now d) (d_id d) (d_ev d) (fun _ _ => d_answer d) s =
  (mark s (d_ev d), Err (Wrap "reconcile charge" e)).
Proof.
  intros Hm Ha. unfold settle_tx.
  erewrite bindM_unfold; [|by apply wrapM_Ok, markProcessed_fresh].
  by rewrite Ha.
Qed.

(** What remains of the callback once the bank has answered. *)
Definition after_answer (d : delivery) (r : ChargeResult)
    : M snapshot error (option (Payment * ChargeResult)) :=
  if negb (EqualFold (cr_Status r) bankStatusPaid) then
    if ev_ClaimsSettlement (d_ev d)
    then throwM (Wrap "aviso afirma pagamento mas a cobrança ainda não consta paga"
                   errSettlementLag)
    else throwM errNotYetPayable
  else if negb (ChargeResult_AmountReconciled r) then
    do _ <- wrapM (Wrap "record settlement divergence")
              (recordSettlementMismatch (d_now d) (d_id d) (d_ev d) r) ;;
    retM None
  else
    do p <- wrapM (Wrap "find payment by tx")
              (FindPaymentByTxID (ev_TenantID (d_ev d)) (settlement_key (d_ev d) r)) ;;
    match payment_MarkPaid p (settlement_key (d_ev d) r) (d_now d) with
    | Err e => if errors_Is e ErrConflict then retM None
               else throwM (Wrap "settle payment" e)
    | Ok p =>
        do _ <- wrapM (Wrap "save settled payment") (SavePayment p) ;;
        retM (Some (p, r))
    end.

Lemma tx_answer s d r : ~ marked s (d_ev d) -> d_answer d = Ok r ->
  settle_tx (d_now d) (d_id d) (d_ev d) (fun _ _ => d_answer d) s =
  after_answer d r (mark s (d_ev d)).
Proof.
  intros Hm Ha. unfold settle_tx.
  erewrite bindM_unfold; [|by apply wrapM_Ok, markProcessed_fresh].
  cbn [negb]. rewrite Ha. reflexivity.
Qed.

Lemma answer_unpaid s d r : ~ paid r ->
  after_answer d r s =
  (s, Err (if ev_ClaimsSettlement (d_ev d)
           then Wrap "aviso afirma pagamento mas a cobrança ainda não consta paga"
                  errSettlementLag
           else errNotYetPayable)).
Proof.
  intros Hp. unfold after_answer. rewrite (not_true_is_false _ Hp). simpl.
  by destruct (ev_ClaimsSettlement (d_ev d)).
Qed.

Lemma answer_divergent s d r : paid r -> ~ reconciled r ->
  after_answer d r s =
  match NewSettlementMismatchEntry (d_id d) systemOperatorWebhook (ev_TenantID (d_ev d))
          (ev_TxID (d_ev d)) (cr_ExpectedAmountCents r) (cr_ReceivedAmountCents r) (d_now d) with
  | Ok entry => (with_audit s (st_audit s ++ [entry]), Ok None)
  | Err e => (s, Err (Wrap "record settlement divergence" (Wrap "build audit entry" e)))
  end.
Proof.
  intros Hp Hr. unfold after_answer. rewrite Hp. cbn [negb].
  destruct (ChargeResult_AmountReconciled r) eqn:E; [by apply AmountReconciled_spec in E|].
  cbn [negb]. unfold recordSettlementMismatch, bindM, wrapM, liftM.
  by destruct (NewSettlementMismatchEntry _ _ _ _ _ _ _).
Qed.

Lemma answer_reconciled s d r : paid r -> reconciled r ->
  after_answer d r s =
  match lookup_tx s (ev_TenantID (d_ev d)) (settlement_key (d_ev d) r) with
  | None => (s, Err (Wrap "find payment by tx" ErrNotFound))
  | Some p =>
      match payment_MarkPaid p (settlement_key (d_ev d) r) (d_now d) with
      | Err e => if errors_Is e ErrConflict then (s, Ok None)
                 else (s, Err (Wrap "settle payment" e))
      | Ok p => let '(s', x) := savePayment p s in
                (s', match x with Ok _ => Ok (Some (p, r))
                             | Err e => Err (Wrap "save settled payment" e) end)
      end
  end.
Proof.
  intros Hp Hr. unfold after_answer. rewrite Hp. cbn [negb].
  apply AmountReconciled_spec in Hr. rewrite Hr. cbn [negb].
  unfold bindM, wrapM. simpl. unfold findPaymentByTxID, readM, found.
  change (scan _ s) with (lookup_tx s (ev_TenantID (d_ev d)) (settlement_key (d_ev d) r)).
  destruct (lookup_tx _ _ _) as [p|]; simpl; [|done].
  destruct (payment_MarkPaid _ _ _) as [q|e]; [|by destruct (errors_Is e _)].
  by destruct (savePayment q s) as [s' [[]|e]].
Qed.

Lemma audit_error_not_quiet id op t tx ex rc at_ e :
  NewSettlementMismatchEntry id op t tx ex rc at_ = Err e ->
  errors_Is e errNotYetPayable = false.
Proof.
  unfold NewSettlementMismatchEntry, required_id, required_tenant, required_tx, required.
  cbv zeta. intros HE. repeat (case_bool_decide; [by simplify_eq|]). done.
Qed.

Lemma MarkPaid_error_not_quiet p tx now e :
  payment_MarkPaid p tx now = Err e -> errors_Is e errNotYetPayable = false.
Proof.
  unfold payment_MarkPaid. cbv zeta. intros HE.
  repeat (case_bool_decide; [by simplify_eq/=|]). simpl in HE.
  repeat case_bool_decide; by simplify_eq/=.
Qed.

(** The run of a delivery under one outcome. *)
Lemma outcome_run w d s' fx r :
  Store_ok (db w) -> event_ok (d_ev d) -> outcome (db w) d s' fx r ->
  deliver w d = ({| db := s'; emitted := (emitted w ++ fx)%list |}, r).
Proof.
  intros Hs Hev HO. rewrite deliver_tx by done.
  destruct w as [s em]. cbn [db emitted] in *.
  destruct HO as [Hm|e Hm Ha Hq|e Hm Ha Hq|c Hm Ha Hp Hc|c Hm Ha Hp Hc|c en Hm Ha Hp Hr He
    |c e Hm Ha Hp Hr He Hq|c Hm Ha Hp Hr Hl|c p e Hm Ha Hp Hr Hl HM Hq|c p e Hm Ha Hp Hr Hl HM Hq
    |c p p' Hm Ha Hp Hr Hl HM];
    rewrite ?app_nil_r.
  - by rewrite tx_dup.
  - rewrite (tx_bank_error _ _ _ Hm Ha). change (errors_Is (Wrap ?c e) ?t) with (errors_Is e t).
    by rewrite Hq.
  - rewrite (tx_bank_error _ _ _ Hm Ha). change (errors_Is (Wrap ?c e) ?t) with (errors_Is e t).
    by rewrite Hq.
  - by rewrite (tx_answer _ _ _ Hm Ha), answer_unpaid, Hc.
  - by rewrite (tx_answer _ _ _ Hm Ha), answer_unpaid, Hc.
  - by rewrite (tx_answer _ _ _ Hm Ha), answer_divergent, He.
  - rewrite (tx_answer _ _ _ Hm Ha), answer_divergent, He by done.
    cbn [errors_Is]. by rewrite Hq.
  - rewrite (tx_answer _ _ _ Hm Ha), answer_reconciled by done.
    change (lookup_tx (mark s (d_ev d))) with (lookup_tx s). by rewrite Hl.
  - rewrite (tx_answer _ _ _ Hm Ha), answer_reconciled by done.
    change (lookup_tx (mark s (d_ev d))) with (lookup_tx s). by rewrite Hl, HM, Hq.
  - rewrite (tx_answer _ _ _ Hm Ha), answer_reconciled by done.
    change (lookup_tx (mark s (d_ev d))) with (lookup_tx s). rewrite Hl, HM, Hq.
    change (errors_Is (Wrap ?c e) ?t) with (errors_Is e t).
    by rewrite (MarkPaid_error_not_quiet _ _ _ _ HM).
  - rewrite (tx_answer _ _ _ Hm Ha), answer_reconciled by done.
    change (lookup_tx (mark s (d_ev d))) with (lookup_tx s). rewrite Hl, HM.
    destruct (lookup_tx_inv _ _ _ _ Hl) as (_ & _ & Hk).
    by rewrite (save_stored (mark s (d_ev d)) p p' (mark_ok s _ Hs) Hk (MarkPaid_keeps _ _ _ _ HM)).
Qed.

Lemma outcome_total s d : event_ok (d_ev d) -> exists s' fx r, outcome s d s' fx r.
Proof.
  intros Hev. destruct (decide (marked s (d_ev d))); [eauto using outcome|].
  destruct (d_answer d) as [c|e] eqn:Ha.
  2: { destruct (errors_Is e errNotYetPayable) eqn:?; eauto using outcome. }
  destruct (EqualFold (cr_Status c) bankStatusPaid) eqn:Hp.
  2: { assert (~ paid c) by (unfold paid; by rewrite Hp).
       destruct (ev_ClaimsSettlement (d_ev d)) eqn:?; eauto using outcome. }
  destruct (ChargeResult_AmountReconciled c) eqn:Hr.
  2: { assert (~ reconciled c).
       { intros HR. apply AmountReconciled_spec in HR. congruence. }
       destruct (NewSettlementMismatchEntry (d_id d) systemOperatorWebhook
         (ev_TenantID (d_ev d)) (ev_TxID (d_ev d)) (cr_ExpectedAmountCents c)
         (cr_ReceivedAmountCents c) (d_now d)) as [en|e] eqn:He; do 3 eexists;
         [by eapply o_divergence|eapply o_unauditable; eauto using audit_error_not_quiet]. }
  apply AmountReconciled_spec in Hr.
  destruct (lookup_tx s (ev_TenantID (d_ev d)) (settlement_key (d_ev d) c)) as [p|] eqn:Hl;
    [|eauto using outcome].
  destruct (payment_MarkPaid p (settlement_key (d_ev d) c) (d_now d)) as [p'|e] eqn:HM;
    [eauto using outcome|].
  destruct (errors_Is e ErrConflict) eqn:?; eauto using outcome.
Qed.

(** C1. One delivery refines the outcome specification: over a well-formed store, a
    delivery of a well-formed event has exactly one outcome (duplicate, bank error,
    not paid yet, announced but not visible, divergence, unauditable divergence,
    unknown payment, conflict, refusal or settlement) and the service computes it:
    the new store, the effects emitted and the answer to the bank. *)
Theorem deliver_refines w d s' fx r (Hs : Store_ok (db w)) (Hev : event_ok (d_ev d)) :
  outcome (db w) d s' fx r <->
  deliver w d = ({| db := s'; emitted := (emitted w ++ fx)%list |}, r).
Proof.
  split; [by apply outcome_run|]. intros HD.
  destruct (outcome_total (db w) d Hev) as (s1 & fx1 & r1 & HO).
  pose proof (outcome_run _ _ _ _ _ Hs Hev HO) as E. rewrite HD in E.
  injection E as -> Hfx ->. apply app_inv_head in Hfx. by rewrite Hfx.
Qed.

Lemma outcome_ok s d s' fx r : Store_ok s -> outcome s d s' fx r -> Store_ok s'.
Proof.
  intros Hs HO. destruct HO; auto using mark_ok.
  - pose proof (mark_ok s (d_ev d) Hs) as [? ?]. by split.
  - destruct (lookup_tx_inv _ _ _ _ H4) as (_ & _ & Hk).
    apply (savePayment_ok (mark s (d_ev d)) p'); [by apply mark_ok|].
    apply (save_stored _ p); [by apply mark_ok|done|by eapply MarkPaid_keeps].
Qed.

(** * Histories of deliveries *)
Definition run_deliveries (w : World snapshot) (ds : list delivery) : World snapshot :=
  foldl (fun w d => (deliver w d).1) w ds.

(** The (tenant, idempotency key) pairs of the payment.paid messages. *)
Definition published (fx : list effect) : list (string * string) :=
  omap (fun e => match e with
                 | Publish _ m => Some (msg_TenantID m, msg_IdempotencyKey m)
                 | Attribute_ _ _ _ _ _ => None
                 end) fx.

Lemma deliver_malformed w d : ~ event_ok (d_ev d) -> (deliver w d).1 = w.
Proof.
  unfold event_ok, deliver, settle. intros Hn.
  destruct (blank (ev_TenantID _)); [done|]. destruct (blank (ev_TxID _)); [done|].
  destruct (blank (ev_EventKey _)); [done|]. by destruct Hn.
Qed.

(** One step of a history, at the level of the specification. *)
Lemma deliver_step w d :
  Store_ok (db w) ->
  (deliver w d).1 = w \/
  exists s' fx r, outcome (db w) d s' fx r /\ Store_ok s' /\
    (deliver w d).1 = {| db := s'; emitted := (emitted w ++ fx)%list |}.
Proof.
  intros Hs. destruct (decide (event_ok (d_ev d))) as [Hev|Hn];
    [right|left; by apply deliver_malformed].
  destruct (outcome_total (db w) d Hev) as (s' & fx & r & HO).
  exists s', fx, r. split; [done|split; [by eapply outcome_ok|]].
  by rewrite (outcome_run _ _ _ _ _ Hs Hev HO).
Qed.

Lemma deliver_ok w d : Store_ok (db w) -> Store_ok (db (deliver w d).1).
Proof. intros Hs. by destruct (deliver_step w d Hs) as [->|(s' & fx & r & _ & ? & ->)]. Qed.

(** What a step may publish, and what it leaves marked. *)
Lemma step_published s d s' fx r :
  outcome s d s' fx r ->
  st_processed s ⊆ st_processed s' /\
  (published fx = [] \/
   exists t k, published fx = [(t, k)] /\ key t k ∉ st_processed s /\ key t k ∈ st_processed s').
Proof.
  intros HO. destruct HO; unfold mark; simpl; try (split; [set_solver|by left]).
  split; [set_solver|right].
  destruct (lookup_tx_inv _ _ _ _ H4) as (Et & _ & _).
  pose proof (MarkPaid_keeps _ _ _ _ H5) as Hid. injection Hid as _ Etn _ _ _ _.
  exists (payment_tenantID p'), (ev_EventKey (d_ev d)). split; [done|].
  rewrite Etn, Et. split; [done|set_solver].
Qed.

(** C2. A settlement is announced at most once per (tenant, event key): over any
    sequence of deliveries, whatever the bank answers to each and however often an
    event is redelivered, the payment.paid messages emitted carry pairwise distinct
    keys, none of which had been processed before. *)
Theorem publication_at_most_once w ds (Hs : Store_ok (db w)) :
  exists new, emitted (run_deliveries w ds) = (emitted w ++ new)%list /\
    NoDup (published new) /\
    (forall t k, (t, k) ∈ published new ->
       key t k ∉ st_processed (db w) /\ key t k ∈ st_processed (db (run_deliveries w ds))) /\
    st_processed (db w) ⊆ st_processed (db (run_deliveries w ds)).
Proof.
  revert w Hs. induction ds as [|d ds IH]; intros w Hs; simpl.
  { exists []. rewrite app_nil_r. split_and!; [done|constructor|set_solver|done]. }
  destruct (deliver_step w d Hs) as [E|(s' & fx & r & HO & Hs' & E)]; rewrite E; [by apply IH|].
  destruct (IH {| db := s'; emitted := (emitted w ++ fx)%list |} Hs')
    as (new & Hem & Hnd & Hnew & Hsub).
  destruct (step_published _ _ _ _ _ HO) as [Hmono Hpub]. cbn [db emitted] in *.
  exists (fx ++ new)%list. rewrite Hem. unfold run_deliveries in *.
  unfold published in *. rewrite omap_app in *.
  split_and!; [by rewrite app_assoc| | |set_solver].
  - destruct Hpub as [->|(t & k & -> & Hf & Hin)]; [done|]. simpl.
    constructor; [|done]. intros Hd. by destruct (Hnew _ _ Hd).
  - intros t k [Hin|Hin]%elem_of_app; [|destruct (Hnew _ _ Hin); set_solver].
    destruct Hpub as [Hp|(t' & k' & Hp & Hf & Hk)]; rewrite Hp in Hin; [set_solver|].
    apply list_elem_of_singleton in Hin. simplify_eq. set_solver.
Qed.

(** A payment row before and after one step. *)
Lemma step_payments s d s' fx r k p :
  Store_ok s -> outcome s d s' fx r -> st_payments s !! k = Some p ->
  exists p', st_payments s' !! k = Some p' /\ identity p' = identity p /\
    (p' = p \/
     (payment_status p = StatusPending /\ payment_status p' = StatusPaid /\
      exists c, d_answer d = Ok c /\ paid c /\ reconciled c /\
        payment_tenantID p = ev_TenantID (d_ev d) /\
        payment_txID p = settlement_key (d_ev d) c)).
Proof.
  intros Hs HO Hk. destruct HO; unfold mark; simpl; eauto.
  rename p0 into q, p' into q'.
  destruct (lookup_tx_inv _ _ _ _ H4) as (Et & Ex & k' & Hk').
  pose proof (MarkPaid_keeps _ _ _ _ H5) as Hid.
  pose proof (ok_keyed _ Hs _ _ Hk') as Hkey.
  injection (id Hid) as Eid Etn _ _ _ _. rewrite Etn, Eid, <- Hkey.
  destruct (decide (k' = k)) as [->|Hne].
  - rewrite Hk in Hk'. injection Hk' as ->. exists q'. rewrite lookup_insert_eq.
    split_and!; [done|by eapply MarkPaid_keeps|].
    apply MarkPaid_inv in H5 as [_ [(_ & _ & ->)|[? ->]]]; [by left|right]. eauto 10.
  - exists p. rewrite lookup_insert_ne by done. auto.
Qed.

(** C3. No payment becomes paid without evidence: over any sequence of deliveries no
    payment is lost or re-identified (amount included), and a payment whose record
    changed went from pending to paid because of a delivery for its own tenant and
    txid for which the bank answered a paid status and a positive amount received
    in full. *)
Theorem paid_needs_evidence w ds k p (Hs : Store_ok (db w))
    (Hk : st_payments (db w) !! k = Some p) :
  exists p', st_payments (db (run_deliveries w ds)) !! k = Some p' /\ identity p' = identity p /\
    (p' = p \/
     (payment_status p = StatusPending /\ payment_status p' = StatusPaid /\
      exists d c, d ∈ ds /\ d_answer d = Ok c /\ paid c /\ reconciled c /\
        payment_tenantID p = ev_TenantID (d_ev d) /\
        payment_txID p = settlement_key (d_ev d) c)).
Proof.
  revert w p Hs Hk. induction ds as [|d ds IH]; intros w p Hs Hk; simpl; [by eauto|].
  destruct (deliver_step w d Hs) as [E|(s' & fx & r & HO & Hs' & E)]; rewrite E.
  { destruct (IH w p Hs Hk) as (p' & ? & ? & [Ep|(? & ? & d' & c & ? & ?)]);
      exists p'; [by auto|]. split_and!; [done..|right]. split_and!; [done..|].
    exists d', c. split; [by apply list_elem_of_further|done]. }
  destruct (step_payments _ _ _ _ _ _ _ Hs HO Hk) as (p1 & Hk1 & Hid & Hor).
  destruct (IH {| db := s'; emitted := (emitted w ++ fx)%list |} p1 Hs' Hk1)
    as (p' & Hk' & Hid' & Hor').
  exists p'. split; [done|split; [congruence|]].
  destruct Hor as [->|(Hpend & Hpaid & c & ?)].
  - destruct Hor' as [->|(? & ? & d' & c & ? & ?)]; [by left|right].
    split_and!; [done..|]. exists d', c. split; [by apply list_elem_of_further|done].
  - right. destruct Hor' as [->|(Hp1 & _)]; [|rewrite Hpaid in Hp1; done].
    split_and!; [done..|]. exists d, c. split; [by apply list_elem_of_here|done].
Qed.

(** An answer that does not decide the fate of a charge. *)
Definition inconclusive (a : res ChargeResult) : Prop :=
  match a with Err _ => True | Ok c => ~ paid c end.

Lemma inconclusive_step w d :
  Store_ok (db w) -> ~ marked (db w) (d_ev d) -> inconclusive (d_answer d) ->
  (deliver w d).1 = w.
Proof.
  intros Hs Hm Ha.
  destruct (deliver_step w d Hs) as [E|(s' & fx & r & HO & _ & E)]; [done|].
  rewrite E. destruct w as [s em]. simpl in *.
  destruct HO; rewrite ?app_nil_r; try done; rewrite H1 in Ha; simpl in Ha; done.
Qed.

Lemma inconclusive_run w ev ds :
  Store_ok (db w) -> ~ marked (db w) ev ->
  Forall (fun d => d_ev d = ev /\ inconclusive (d_answer d)) ds -> run_deliveries w ds = w.
Proof.
  intros Hs Hm. unfold run_deliveries.
  induction 1 as [|d ds [He Ha] Hds IH]; [done|]. simpl.
  rewrite inconclusive_step; [done|done|by rewrite He|done].
Qed.

(** C4. No notification is lost to bad timing: however many times an event was
    delivered while the bank failed to answer or did not show the charge paid yet,
    whether those deliveries were acknowledged or refused, the first delivery for
    which the bank shows the amount received in full settles the pending payment,
    records the mark and announces the settlement. *)
Theorem redelivery_settles w early d c p (Hs : Store_ok (db w)) (Hev : event_ok (d_ev d))
    (Hfresh : ~ marked (db w) (d_ev d))
    (Hearly : Forall (fun e => d_ev e = d_ev d /\ inconclusive (d_answer e)) early)
    (Ha : d_answer d = Ok c) (Hp : paid c) (Hr : reconciled c)
    (Hl : lookup_tx (db w) (ev_TenantID (d_ev d)) (settlement_key (d_ev d) c) = Some p)
    (Hpend : payment_status p = StatusPending)
    (Hkey : blank (settlement_key (d_ev d) c) = false) :
  let p' := with_status p StatusPaid (TrimSpace (settlement_key (d_ev d) c)) (d_now d) in
  deliver (run_deliveries w early) d =
    ({| db := store_payment (mark (db w) (d_ev d)) p';
        emitted := (emitted w ++ settlement_effects p' (d_ev d) c)%list |}, Ok tt).
Proof.
  rewrite (inconclusive_run w (d_ev d) early Hs Hfresh Hearly). cbv zeta.
  apply outcome_run; [done|done|]. eapply o_settled; [done..|].
  apply MarkPaid_pending; [done|]. unfold blank in Hkey. by bools.
Qed.

(** A boleto the bank reports CANCELED (either spelling) is not a terminal
    outcome of the service: the delivery leaves no trace, the anti-replay mark
    included, and when the notification claimed a settlement the bank is answered
    with the error that asks for a redelivery. *)
Theorem dead_boleto_not_terminal w d b key_ (Hs : Store_ok (db w)) (Hev : event_ok (d_ev d))
    (Hfresh : ~ marked (db w) (d_ev d))
    (Hdead : ToUpper (TrimSpace (br_Status b)) = boletoStatusCanceledV2 \/
             ToUpper (TrimSpace (br_Status b)) = boletoStatusCanceledLegacy)
    (Ha : d_answer d = toBoletoChargeResult b key_) :
  deliver w d =
    (w, if ev_ClaimsSettlement (d_ev d)
        then Err (Wrap "aviso afirma pagamento mas a cobrança ainda não consta paga"
                    errSettlementLag)
        else Ok tt).
Proof.
  assert (Hc : exists c, d_answer d = Ok c /\ ~ paid c).
  { rewrite Ha. unfold toBoletoChargeResult. cbv zeta.
    destruct Hdead as [-> | ->]; eexists; (split; [reflexivity|]); unfold paid; by vm_compute. }
  destruct Hc as (c & Hc & Hnp).
  assert (HO : outcome (db w) d (db w) []
     (if ev_ClaimsSettlement (d_ev d)
      then Err (Wrap "aviso afirma pagamento mas a cobrança ainda não consta paga"
                  errSettlementLag) else Ok tt)).
  { destruct (ev_ClaimsSettlement (d_ev d)) eqn:E; eauto using outcome. }
  rewrite (outcome_run _ _ _ _ _ Hs Hev HO), app_nil_r. by destruct w.
Qed.
End rules.

(** * Concrete deliveries *)
Definition sample_store : snapshot :=
  with_payments emptySnapshot
    {[ key "t1" "p1" := payment_SetTxID sample_payment "tx1" ]}.
Definition sample_world : World snapshot := {| db := sample_store; emitted := [] |}.
Definition sample_event : PaymentEvent :=
  {| ev_TenantID := "t1"; ev_TxID := "tx1"; ev_EventKey := "e1"; ev_ClaimsSettlement := true |}.
Definition answer (status : string) (received : Z) : ChargeResult :=
  {| cr_TxID := "tx1"; cr_Status := status; cr_ExpectedAmountCents := 1050;
     cr_ReceivedAmountCents := received; cr_Installments := 0; cr_Message := "";
     cr_SettlementKey := "" |}.
Definition sample_delivery (a : res ChargeResult) : delivery :=
  {| d_ev := sample_event; d_answer := a; d_now := sample_time; d_id := "id1" |}.

Lemma sample_store_ok : Store_ok sample_store.
Proof.
  split; simpl.
  - intros k p [<- <-]%lookup_singleton_Some. reflexivity.
  - intros k1 k2 p1 p2 [<- <-]%lookup_singleton_Some [<- <-]%lookup_singleton_Some. done.
Qed.

Lemma deliver_refines_witness :
  outcome sample_store (sample_delivery (Ok (answer "PAID" 1000)))
    (db (deliver sample_world (sample_delivery (Ok (answer "PAID" 1000)))).1) [] (Ok tt).
Proof.
  apply (deliver_refines sample_world (sample_delivery (Ok (answer "PAID" 1000)))
           _ [] (Ok tt) sample_store_ok).
  - by vm_compute.
  - vm_compute. reflexivity.
Defined.

Lemma publication_at_most_once_witness :
  let ds := [sample_delivery (Ok (answer "pending" 0)); sample_delivery (Ok (answer "paid" 1050));
             sample_delivery (Ok (answer "paid" 1050))] in
  published (emitted (run_deliveries sample_world ds)) = [("t1", "e1")] /\
  NoDup (published (emitted (run_deliveries sample_world ds))).
Proof.
  split; [vm_compute; reflexivity|].
  pose proof (publication_at_most_once sample_world
    [sample_delivery (Ok (answer "pending" 0)); sample_delivery (Ok (answer "paid" 1050));
     sample_delivery (Ok (answer "paid" 1050))] sample_store_ok) as (new & -> & H & _).
  exact H.
Defined.

Lemma paid_needs_evidence_witness :
  exists p', st_payments (db (run_deliveries sample_world
      [sample_delivery (Ok (answer "paid" 1050))])) !! key "t1" "p1" = Some p' /\
    payment_status p' = StatusPaid.
Proof.
  destruct (paid_needs_evidence sample_world [sample_delivery (Ok (answer "paid" 1050))]
              (key "t1" "p1") (payment_SetTxID sample_payment "tx1") sample_store_ok)
    as (p' & Hp & _); [reflexivity|].
  exists p'. split; [exact Hp|]. vm_compute in Hp. by injection Hp as <-.
Defined.

Lemma redelivery_settles_witness :
  (deliver (run_deliveries sample_world
     [sample_delivery (Err ErrUnavailable); sample_delivery (Ok (answer "ATIVA" 0))])
     (sample_delivery (Ok (answer "paid" 1050)))).2 = Ok tt.
Proof.
  rewrite (redelivery_settles sample_world
     [sample_delivery (Err ErrUnavailable); sample_delivery (Ok (answer "ATIVA" 0))]
     (sample_delivery (Ok (answer "paid" 1050))) (answer "paid" 1050)
     (payment_SetTxID sample_payment "tx1") sample_store_ok);
    try (vm_compute; done); try done.
  repeat constructor; vm_compute; done.
Defined.

Definition dead_boleto : BoletoResult :=
  {| br_BoletoID := "p1"; br_TxID := "tx1"; br_Status := "CANCELED"; br_Modality := "";
     br_ExternalReferenceID := "x"; br_QRCode := ""; br_OurNumber := "";
     br_DigitableLine := ""; br_Barcode := ""; br_AmountCents := 1050;
     br_DueDate := zeroTime; br_ValidUntil := zeroTime; br_FineBps := 0;
     br_FineFixedCents := 0; br_MonthlyInterestBps := 0; br_Discounts := [] |}.

Lemma dead_boleto_not_terminal_witness :
  errors_Is (match (deliver sample_world
      (sample_delivery (toBoletoChargeResult dead_boleto ""))).2 with
             | Err e => e | Ok _ => New "" end) errSettlementLag = true.
Proof.
  rewrite (dead_boleto_not_terminal sample_world
    (sample_delivery (toBoletoChargeResult dead_boleto "")) dead_boleto "" sample_store_ok);
    try done; try (vm_compute; done).
  by left.
Defined.

Lemma settle_error_no_trace_witness :
  (settle sample_time "id1" sample_event (fun _ _ => Err ErrUnavailable) sample_world).1
  = sample_world.
Proof.
  apply (settle_error_no_trace sample_time "id1" sample_event (fun _ _ => Err ErrUnavailable)
    sample_world _ (Wrap "reconcile charge" ErrUnavailable)).
  vm_compute. reflexivity.
Defined.

Lemma settle_emits_evidence_witness :
  (settle sample_time "id1" sample_event (fun _ _ => Ok (answer "paid" 1050)) sample_world).2
  = Ok tt.
Proof.
  destruct (settle_emits_evidence sample_time "id1" sample_event
    (fun _ _ => Ok (answer "paid" 1050)) sample_world _ _ (surjective_pairing _))
    as (r & p0 & p & s1 & s2 & _ & _ & _ & _ & _ & _ & _ & E).
  - vm_compute. done.
  - exact E.
Defined.

(** * The autocommit fallback *)

(** Transactionality is what the anti-replay mark depends on: under the
    autocommit fallback of uow.go the delivery that reads the charge as not paid yet
    leaves the mark behind, so the redelivery for which the bank shows the payment in
    full is taken for a duplicate and the payment stays pending, where the in-memory
    unit of work settles it. *)
Theorem autocommit_burns_mark :
  let auto : UnitOfWork snapshot := {| WithinTx := @autocommit_WithinTx |} in
  let run uow d w := (settle (H0 := uow) (d_now d) (d_id d) (d_ev d)
                        (fun _ _ => d_answer d) w).1 in
  let early := sample_delivery (Ok (answer "ATIVA" 0)) in
  let paid_ := sample_delivery (Ok (answer "paid" 1050)) in
  marked (db (run auto early sample_world)) sample_event /\
  run auto paid_ (run auto early sample_world) = run auto early sample_world /\
  emitted (run auto paid_ (run auto early sample_world)) = [] /\
  ~ marked (db (run memUoW early sample_world)) sample_event /\
  List.length (emitted (run memUoW paid_ (run memUoW early sample_world))) = 2%nat.
Proof.
  cbv zeta. split_and!.
  - vm_compute. reflexivity.
  - vm_compute. reflexivity.
  - vm_compute. reflexivity.
  - by vm_compute.
  - vm_compute. reflexivity.
Qed.

(** * The boleto rail *)
Section boleto_rail.
Context {S : Type} `{Repository S} `{UnitOfWorkLaws S}.

(** The bank's own read of a boleto says that a positive amount was paid. *)
Definition read_paid (b : BoletoResult) : Prop :=
  ToUpper (TrimSpace (br_Status b)) = boletoStatusPaid /\ 0 < br_AmountCents b.

Lemma settle_emits_bank now newID ev reconcile (w : World S) :
  emitted (settle now newID ev reconcile w).1 <> emitted w ->
  exists r, reconcile (ev_TenantID ev) (ev_TxID ev) = Ok r /\ settleable r.
Proof.
  unfold settle. intros Hne. repeat (destruct (blank _); [done|]).
  destruct (WithinTx _ (db w)) as [s [[[p r]|]|err]] eqn:Et; [|done|].
  - apply WithinTx_Ok, settle_tx_Some in Et as (s1 & s2 & p0 & ? & ? & ? & _). eauto.
  - by destruct (errors_Is err _).
Qed.

Lemma toBoletoChargeResult_settleable b k r :
  toBoletoChargeResult b k = Ok r -> settleable r -> read_paid b.
Proof.
  unfold read_paid, toBoletoChargeResult. cbv zeta. intros Hb (Hp & Hpos & Heq).
  case_bool_decide; [done|].
  destruct (_ || _) eqn:E; simplify_eq/=; [lia|].
  case_bool_decide; [done|]. lia.
Qed.

(** The boleto rail settles on one status only: if a boleto notification makes
    the service announce anything, the bank's own read of the charge (of the boleto
    the local row names, or of the reference the notification carried when no local
    row is known) reported PAID, case and surrounding space aside, for a positive
    amount. *)
Theorem boleto_settles_on_PAID now newID reader payments ev (w : World S)
    (Hne : emitted (HandleBoletoEvent now newID reader payments ev w).1 <> emitted w) :
  exists rd b, reader = Some rd /\ read_paid b /\
    (GetBoletoByBankRef rd (ev_TenantID ev) (ev_TxID ev) = Ok b \/
     exists p, (FindPaymentByTxID (ev_TenantID ev) (ev_TxID ev) (db w)).2 = Ok p /\
               GetBoleto rd (ev_TenantID ev) (payment_id p) = Ok b).
Proof.
  unfold HandleBoletoEvent in Hne. destruct reader as [rd|]; [|done].
  destruct (blank (ev_TxID ev)); [done|]. exists rd.
  assert (Href : forall v, emitted (settle now newID ev
      (reconcileBoletoByBankRef (GetBoletoByBankRef rd)) v).1 <> emitted v -> v = w ->
      exists b, GetBoletoByBankRef rd (ev_TenantID ev) (ev_TxID ev) = Ok b /\ read_paid b).
  { intros v Hv _. apply settle_emits_bank in Hv as (r & Hr & Hs).
    unfold reconcileBoletoByBankRef in Hr.
    destruct (GetBoletoByBankRef rd _ _) as [b|]; [|done].
    eauto using toBoletoChargeResult_settleable. }
  destruct payments; [|destruct (Href w Hne eq_refl) as (b & ? & ?); eauto 10].
  destruct (FindPaymentByTxID _ _ (db w)) as [s [p|err]].
  - apply settle_emits_bank in Hne as (r & Hr & Hs).
    destruct (GetBoleto rd _ (payment_id p)) as [b|] eqn:Eb; [|done].
    eauto 10 using toBoletoChargeResult_settleable.
  - destruct (errors_Is err ErrNotFound); [|done]. simpl in Hne.
    destruct (Href w Hne eq_refl) as (b & ? & ?). eauto 10.
Qed.
End boleto_rail.

Definition paid_reader : BoletoReader :=
  let b := {| br_BoletoID := "p1"; br_TxID := "tx1"; br_Status := " Paid"; br_Modality := "";
     br_ExternalReferenceID := "x"; br_QRCode := ""; br_OurNumber := "";
     br_DigitableLine := ""; br_Barcode := ""; br_AmountCents := 1050;
     br_DueDate := zeroTime; br_ValidUntil := zeroTime; br_FineBps := 0;
     br_FineFixedCents := 0; br_MonthlyInterestBps := 0; br_Discounts := [] |} in
  {| GetBoleto := fun _ _ => Ok b; GetBoletoByBankRef := fun _ _ => Err ErrNotFound |}.

Lemma boleto_settles_on_PAID_witness :
  exists rd b, Some paid_reader = Some rd /\
    read_paid b.
Proof.
  destruct (boleto_settles_on_PAID sample_time "id1" (Some paid_reader) true sample_event
              sample_world) as (rd & b & H & E & _).
  - vm_compute. done.
  - exists rd, b. split; [exact H|exact E].
Defined.
