(* ===== verification/MandateWebhook.v ===== *)
(** internal/app/webhook_recurrence.go: notifications about mandates and their
    charges, reconciled with the bank and recorded through the domain state
    machines in the transaction of the anti-replay mark. *)
From S2P Require Import Prelude GoStrings GoTime Shared Payments Tenants.
From S2P Require Import Mandates AuditTrail Ports.

(** * internal/ports/recurrence.go *)
Record RecDevedor := { rd_CPF : string; rd_CNPJ : string; rd_Nome : string }.
Record RecVinculo := { rv_Contrato : string; rv_Devedor : RecDevedor; rv_Objeto : string }.
Record RecCalendario := { rcal_DataInicial : string; rcal_Periodicidade : string }.
Record Recebedor := {
  rb_ISPB : string;
  rb_CNPJ : string;
  rb_CPF : string;
  rb_Nome : string
}.
Record RecDadosQR := { qr_Jornada : string; qr_PixCopiaECola : string }.
Record RecResult := {
  rr_IDRec : string;
  rr_Status : string;
  rr_Vinculo : RecVinculo;
  rr_Calendario : RecCalendario;
  rr_Recebedor : Recebedor;
  rr_PoliticaRetentativa : string;
  rr_TipoJornada : string;
  rr_LocID : Z;
  rr_Location : string;
  rr_ValorRecCents : Z;
  rr_DadosQR : RecDadosQR
}.
Record CobRResult := {
  cbr_TxID : string;
  cbr_IDRec : string;
  cbr_Status : string;
  cbr_ValorCents : Z
}.

Record RecEvent := {
  rev_TenantID : string;
  rev_IDRec : string;
  rev_EventKey : string;
  rev_BankID : string
}.
Record CobREvent := {
  cev_TenantID : string;
  cev_TxID : string;
  cev_EventKey : string
}.

Definition recDevedorDoc (d : RecDevedor) : string :=
  let doc := TrimSpace (rd_CPF d) in
  if negb (bool_decide (doc = "")) then doc else TrimSpace (rd_CNPJ d).

Section webhook.
Context {S : Type} `{Repository S} `{UnitOfWork S}.
(** Successive readings of the clock within one delivery, and the fresh id. *)
Context (clock : nat -> Time) (newID : string).

(** The tail shared by the two ways of reaching a new state. *)
Definition save_rec_audited (ev : RecEvent) (rec : Rec) : M S error unit :=
  do _ <- wrapM (Wrap "save mandate") (SaveRec rec) ;;
  do entry <- wrapM (Wrap "build audit entry")
                (liftM (NewRecurrenceTransitionEntry newID "" (rev_TenantID ev) (rev_IDRec ev)
                          (rec_status rec) (clock 2))) ;;
  wrapM (Wrap "append audit") (Append entry).

(** The mandate recorded on first sight; [None] is "acked and dropped". *)
Definition first_sight (ev : RecEvent) (r : RecResult) : option Rec :=
  let status := rr_Status r in
  let bankID := TrimSpace (rev_BankID ev) in
  let bankID := if bool_decide (bankID = "") then BankIDC6 else bankID in
  let devedor := rv_Devedor (rr_Vinculo r) in
  match NewDevedor (recDevedorDoc devedor) (rd_Nome devedor) with
  | Err _ => None
  | Ok devedor =>
      match NewRec {| nrp_IDRec := rev_IDRec ev;
                      nrp_TenantID := rev_TenantID ev;
                      nrp_BankID := bankID;
                      nrp_Contrato := rv_Contrato (rr_Vinculo r);
                      nrp_Devedor := devedor;
                      nrp_DataInicial := rcal_DataInicial (rr_Calendario r);
                      nrp_Periodicidade := rcal_Periodicidade (rr_Calendario r);
                      nrp_ValorCents := rr_ValorRecCents r;
                      nrp_LocID := 0;
                      nrp_JornadaTxID := "" |} (clock 0) with
      | Err _ => None
      | Ok rec =>
          if negb (bool_decide (status = rec_status rec)) then
            match rec_Transition rec status (clock 1) with
            | Err _ => None
            | Ok rec => Some rec
            end
          else Some rec
      end
  end.

Definition recordRec (ev : RecEvent) (r : RecResult) : M S error unit := fun s =>
  let status := rr_Status r in
  match FindRecByID (rev_TenantID ev) (rev_IDRec ev) s with
  | (s, Ok rec) =>
      if bool_decide (rec_status rec = status) then (s, Ok tt)
      else match rec_Transition rec status (clock 0) with
           | Err _ => (s, Ok tt)
           | Ok rec => save_rec_audited ev rec s
           end
  | (s, Err err) =>
      if errors_Is err ErrNotFound then
        match first_sight ev r with
        | None => (s, Ok tt)
        | Some rec => save_rec_audited ev rec s
        end
      else (s, Err (Wrap "load mandate" err))
  end.

(** The charge recorded on first sight, at its initial state when the status is
    not one the machine can reach. *)
Definition first_sight_cobr (ev : CobREvent) (r : CobRResult) : option CobR :=
  match NewCobR {| ncp_TxID := cev_TxID ev;
                   ncp_IDRec := cbr_IDRec r;
                   ncp_TenantID := cev_TenantID ev;
                   ncp_Vencimento := Format_date (in_UTC (clock 0));
                   ncp_ValorCents := cbr_ValorCents r |} (clock 1) with
  | Err _ => None
  | Ok cobr =>
      if negb (bool_decide (cbr_Status r = cobr_status cobr)) then
        match cobr_Transition cobr (cbr_Status r) (clock 2) with
        | Err _ => Some cobr
        | Ok cobr => Some cobr
        end
      else Some cobr
  end.

Definition recordCobR (ev : CobREvent) (r : CobRResult) : M S error unit := fun s =>
  let status := cbr_Status r in
  match FindCobRByTxID (cev_TenantID ev) (cev_TxID ev) s with
  | (s, Ok cobr) =>
      if bool_decide (cobr_status cobr = status) then (s, Ok tt)
      else match cobr_Transition cobr status (clock 0) with
           | Err _ => (s, Ok tt)
           | Ok cobr => wrapM (Wrap "save recurring charge") (SaveCobR cobr) s
           end
  | (s, Err err) =>
      if errors_Is err ErrNotFound then
        match first_sight_cobr ev r with
        | None => (s, Ok tt)
        | Some cobr => wrapM (Wrap "save recurring charge") (SaveCobR cobr) s
        end
      else (s, Err (Wrap "load recurring charge" err))
  end.

Definition reconcileRecurrence (tenantID eventKey : string) (reconcile : M S error unit)
    : M S error unit :=
  WithinTx
    (do first <- wrapM (Wrap "mark processed") (MarkProcessed tenantID eventKey) ;;
     if negb first then retM tt
     else fun s =>
       match reconcile s with
       | (s, Err err) =>
           if errors_Is err ErrNotFound then (s, Ok tt)
           else (s, Err (Wrap "reconcile recurrence" err))
       | (s, Ok _) => (s, Ok tt)
       end).

Definition HandleRecEvent (GetRec : option (string -> string -> res RecResult))
    (ev : RecEvent) : M S error unit :=
  abort (blank (rev_TenantID ev))
    with (NewValidationError "tenant_id" "tenant id is required") ;;
  abort (blank (rev_IDRec ev)) with (NewValidationError "id_rec" "id rec is required") ;;
  abort (blank (rev_EventKey ev))
    with (NewValidationError "event_key" "event key is required") ;;
  match GetRec with
  | None => throwM (Wrap "recurrence webhook not configured" ErrUnavailable)
  | Some GetRec =>
      reconcileRecurrence (rev_TenantID ev) (rev_EventKey ev)
        (do r <- liftM (GetRec (rev_TenantID ev) (rev_IDRec ev)) ;; recordRec ev r)
  end.

Definition HandleCobREvent (GetCobR : option (string -> string -> res CobRResult))
    (ev : CobREvent) : M S error unit :=
  abort (blank (cev_TenantID ev))
    with (NewValidationError "tenant_id" "tenant id is required") ;;
  abort (blank (cev_TxID ev)) with (NewValidationError "tx_id" "tx id is required") ;;
  abort (blank (cev_EventKey ev))
    with (NewValidationError "event_key" "event key is required") ;;
  match GetCobR with
  | None => throwM (Wrap "recurrence webhook not configured" ErrUnavailable)
  | Some GetCobR =>
      reconcileRecurrence (cev_TenantID ev) (cev_EventKey ev)
        (do r <- liftM (GetCobR (cev_TenantID ev) (cev_TxID ev)) ;; recordCobR ev r)
  end.
End webhook.
