(* ===== verification/MandateDeliveries.v ===== *)
(** Recurrence notifications over the in-memory store: what one delivery may do to
    the mandates, the charges and the trail, and what sequences of them may do. *)
From S2P Require Import Prelude GoStrings GoTime Shared Payments Tenants.
From S2P Require Import Mandates AuditTrail Ports MemStore MandateWebhook.

#[local] Opaque recurrenceActionByStatus.

Section mandates.
Context `{MapRange}.

(** One attempt to deliver a mandate notification. *)
Record rec_delivery := {
  rdl_ev : RecEvent;
  rdl_answer : res RecResult;
  rdl_clock : nat -> Time;
  rdl_id : string
}.
Definition rec_deliver (s : snapshot) (d : rec_delivery) : snapshot * res unit :=
  HandleRecEvent (rdl_clock d) (rdl_id d) (Some (fun _ _ => rdl_answer d)) (rdl_ev d) s.

(** The row a notification looks up, by its ids verbatim, and the row a first sight is
    stored at, by the trimmed ids the aggregate holds. *)
Definition looked_up (ev : RecEvent) : string := key (rev_TenantID ev) (rev_IDRec ev).
Definition stored_at (ev : RecEvent) : string :=
  key (TrimSpace (rev_TenantID ev)) (TrimSpace (rev_IDRec ev)).
(** A notification that names the mandate at [k], if at all, without padding its ids. *)
Definition names_plainly (k : string) (ev : RecEvent) : Prop := stored_at ev = k -> looked_up ev = k.
Lemma trimmed_plainly k ev : trimmed (rev_TenantID ev) -> trimmed (rev_IDRec ev) -> names_plainly k ev.
Proof. unfold names_plainly, stored_at. by intros -> ->. Qed.

Definition recs_keyed (s : snapshot) : Prop :=
  forall k r, st_recs s !! k = Some r -> k = key (rec_tenantID r) (rec_idRec r).

(** A new mandate state and where it comes from. *)
Inductive rec_advance (old : option Rec) (new_ : Rec) : Prop :=
| adv_first :
    old = None -> rec_status new_ = RecCriada \/ rec_edge RecCriada (rec_status new_) ->
    rec_advance old new_
| adv_step r :
    old = Some r -> rec_edge (rec_status r) (rec_status new_) ->
    rec_facts new_ = rec_facts r -> rec_advance old new_.

(** What a delivery may do: nothing to mandates and trail, or one advance of the mandate it
    looks up, or the record of one it does not find, with exactly one audit entry, the one of
    the new status. *)
Definition rec_effect (s s' : snapshot) (ev : RecEvent) : Prop :=
  (st_recs s' = st_recs s /\ st_audit s' = st_audit s) \/
  exists k new_ entry,
    ((k = looked_up ev /\ rec_advance (st_recs s !! k) new_) \/
     (k = stored_at ev /\ rec_advance (st_recs s !! looked_up ev) new_ /\
      st_recs s !! looked_up ev = None)) /\
    st_recs s' = <[k := new_]> (st_recs s) /\
    k = key (rec_tenantID new_) (rec_idRec new_) /\
    st_audit s' = (st_audit s ++ [entry])%list /\
    recurrenceActionByStatus !! rec_status new_ = Some (entry_action entry) /\
    entry_txID entry = TrimSpace (rev_IDRec ev) /\ entry_tenantID entry = TrimSpace (rev_TenantID ev).

Lemma NewRecurrenceTransitionEntry_Ok id op t i st at_ e :
  NewRecurrenceTransitionEntry id op t i st at_ = Ok e ->
  recurrenceActionByStatus !! TrimSpace st = Some (entry_action e) /\
  entry_txID e = TrimSpace i /\ entry_tenantID e = TrimSpace t.
Proof.
  unfold NewRecurrenceTransitionEntry. intros HE.
  destruct (required_id id) as [id'|]; [|done].
  destruct (required_tenant t) as [t'|] eqn:Et; [|done].
  destruct (required _ _ i) as [i'|] eqn:Ei; [|done].
  destruct (recurrenceActionByStatus !! TrimSpace st) as [a|] eqn:Ea; [|done].
  apply required_Ok in Et as [_ ->]. apply required_Ok in Ei as [_ ->]. by simplify_eq/=.
Qed.

Lemma rec_status_trimmed r : RecStatus_valid r = true -> TrimSpace r = r.
Proof.
  unfold RecStatus_valid. intros Hv. apply bool_decide_eq_true in Hv.
  rewrite !elem_of_cons in Hv.
  destruct Hv as [->|[->|[->|[->|[->|Hv]]]]]; try reflexivity. by apply elem_of_nil in Hv.
Qed.

Lemma rec_advance_valid old new_ : rec_advance old new_ -> RecStatus_valid (rec_status new_) = true.
Proof. intros [_ [->|[? ?]%rec_edge_valid]|? _ [? ?]%rec_edge_valid]; done. Qed.

(** The mandate a first notification records. *)
Lemma first_sight_Some clock ev r rec :
  first_sight clock ev r = Some rec ->
  rec_tenantID rec = TrimSpace (rev_TenantID ev) /\ rec_idRec rec = TrimSpace (rev_IDRec ev) /\
  (rec_status rec = RecCriada \/ rec_edge RecCriada (rec_status rec)).
Proof.
  unfold first_sight. cbv zeta. intros HF. destruct (NewDevedor _ _) as [dv|]; [|done].
  destruct (NewRec _ _) as [rec0|] eqn:EN; [|done].
  apply NewRec_Ok in EN as (Ei & _ & Et & _ & Es & _). case_bool_decide; simpl in HF; [by simplify_eq; auto|].
  destruct (rec_Transition rec0 _ _) as [rec1|] eqn:ET; [|done]. simplify_eq.
  apply rec_Transition_inv in ET as [[-> ?]|[He ->]]; [done|].
  rewrite Es in He. by auto.
Qed.

Lemma save_rec_audited_spec clock id ev rec s s' x :
  save_rec_audited clock id ev rec s = (s', x) ->
  x = Ok tt ->
  exists entry,
    st_recs s' = <[key (rec_tenantID rec) (rec_idRec rec) := rec]> (st_recs s) /\
    st_audit s' = (st_audit s ++ [entry])%list /\
    recurrenceActionByStatus !! TrimSpace (rec_status rec) = Some (entry_action entry) /\
    entry_txID entry = TrimSpace (rev_IDRec ev) /\
    entry_tenantID entry = TrimSpace (rev_TenantID ev).
Proof.
  intros HS ->. unfold save_rec_audited in HS. stepM HS.
  unfold SaveRec in Hm; simpl in Hm. unfold saveRec, updateM in Hm. simplify_eq.
  stepM HS. unfold liftM in Hm. apply wrapM_Ok in HS.
  unfold Append in HS; simpl in HS. unfold appendAudit, updateM in HS. simplify_eq/=.
  apply NewRecurrenceTransitionEntry_Ok in H2 as (? & ? & ?). eauto 10.
Qed.

Lemma save_rec_audited_Err clock id ev rec s s' e :
  save_rec_audited clock id ev rec s = (s', Err e) -> errors_Is e ErrNotFound = false.
Proof.
  unfold save_rec_audited, bindM, wrapM, liftM; simpl. unfold saveRec, updateM; simpl.
  unfold NewRecurrenceTransitionEntry, required_id, required_tenant, required. cbv zeta.
  intros HE. repeat (case_bool_decide; [by simplify_eq/=|]; simpl in HE).
  destruct (recurrenceActionByStatus !! _); by simplify_eq/=.
Qed.

Lemma FindRecByID_spec t i s :
  FindRecByID t i s =
  (s, match st_recs s !! key t i with Some r => Ok r | None => Err ErrNotFound end).
Proof. reflexivity. Qed.

Lemma recordRec_effect clock id ev r s s' x :
  recs_keyed s -> recordRec clock id ev r s = (s', x) ->
  match x with
  | Ok _ => rec_effect s s' ev
  | Err e => errors_Is e ErrNotFound = false
  end.
Proof.
  intros Hk HR. unfold recordRec in HR. cbv zeta in HR.
  rewrite FindRecByID_spec in HR. destruct (st_recs s !! _) as [old|] eqn:Eold.
  - case_bool_decide; [simplify_eq; by left|].
    destruct (rec_Transition old (rr_Status r) (clock 0%nat)) as [new_|] eqn:ET;
      [|simplify_eq; by left].
    apply rec_Transition_inv in ET as [[-> ?]|[He ->]]; [congruence|].
    destruct x as [[]|e]; [|by apply save_rec_audited_Err in HR].
    apply save_rec_audited_spec in HR as (en & Er & Ea & Eact & Etx & Etn); [|done].
    right. exists (looked_up ev), (rec_set old (rr_Status r) (rec_locID old) (rec_jornadaTxID old) (clock 0%nat)), en.
    pose proof (Hk _ _ Eold) as Ek. cbn [rec_set rec_status rec_tenantID rec_idRec] in *.
    rewrite (rec_status_trimmed _ (proj1 (rec_edge_valid _ _ He))) in Eact.
    unfold looked_up. rewrite Er, <- Ek. split_and!; [|assumption || reflexivity..].
    left. split; [done|]. eapply adv_step; [exact Eold|exact He|reflexivity].
  - cbv beta iota in HR. rewrite errors_Is_refl in HR.
    destruct (first_sight clock ev r) as [new_|] eqn:EF; [|simplify_eq; by left].
    destruct (first_sight_Some _ _ _ _ EF) as (Et & Ei & Es).
    destruct x as [[]|e]; [|by apply save_rec_audited_Err in HR].
    apply save_rec_audited_spec in HR as (en & Er & Ea & Eact & Etx & Etn); [|done].
    right. exists (stored_at ev), new_, en. rewrite Et, Ei in Er.
    assert (Hv : RecStatus_valid (rec_status new_) = true)
      by (destruct Es as [->|[? ?]%rec_edge_valid]; done).
    rewrite (rec_status_trimmed _ Hv) in Eact. unfold stored_at.
    rewrite Et, Ei. split_and!; [|assumption || reflexivity..].
    right. split; [done|]. split; [|done]. by apply adv_first.
Qed.

(** The transaction around a reconciliation. *)
Lemma reconcileRecurrence_spec t k rc s :
  reconcileRecurrence t k rc s =
  if bool_decide (key t k ∈ st_processed s) then (s, Ok tt)
  else
    match rc (with_processed s ({[ key t k ]} ∪ st_processed s)) with
    | (s', Ok _) => (s', Ok tt)
    | (s', Err e) => if errors_Is e ErrNotFound then (s', Ok tt)
                     else (s, Err (Wrap "reconcile recurrence" e))
    end.
Proof.
  unfold reconcileRecurrence, WithinTx; simpl. unfold mem_WithinTx, bindM, wrapM, markProcessed.
  case_bool_decide; [done|]. simpl. destruct (rc _) as [s' [u|e]]; [done|].
  by destruct (errors_Is e ErrNotFound).
Qed.

Lemma recs_keyed_effect s s' ev : recs_keyed s -> rec_effect s s' ev -> recs_keyed s'.
Proof.
  intros Hk [[E _]|(k0 & new_ & en & _ & E & Ek & _)] k r; rewrite E; [apply Hk|].
  intros [[<- <-]|[_ Hr]]%lookup_insert_Some; [done|by apply Hk].
Qed.

Lemma rec_deliver_step s d :
  recs_keyed s -> rec_effect s (rec_deliver s d).1 (rdl_ev d).
Proof.
  intros Hk. unfold rec_deliver, HandleRecEvent.
  do 3 (destruct (blank _); [by left|]).
  rewrite reconcileRecurrence_spec. case_bool_decide; [by left|].
  set (s1 := with_processed s _).
  unfold bindM, liftM. destruct (rdl_answer d) as [r|e].
  - destruct (recordRec _ _ _ r s1) as [s2 x] eqn:ER.
    pose proof (recordRec_effect _ _ _ _ s1 _ _ Hk ER) as Heff.
    destruct x as [[]|e]; [exact Heff|]. rewrite Heff. by left.
  - destruct (errors_Is e ErrNotFound); by left.
Qed.

Definition run_rec_deliveries (s : snapshot) (ds : list rec_delivery) : snapshot :=
  foldl (fun s d => (rec_deliver s d).1) s ds.

(** What one delivery may do to a mandate it does not name with padded ids. *)
Lemma rec_deliver_row s d k r : recs_keyed s -> names_plainly k (rdl_ev d) -> st_recs s !! k = Some r ->
  exists r1, st_recs (rec_deliver s d).1 !! k = Some r1 /\ rec_facts r1 = rec_facts r /\
    rtc rec_edge (rec_status r) (rec_status r1) /\
    (RecStatus_terminal (rec_status r) = true -> r1 = r) /\
    st_audit s `prefix_of` st_audit (rec_deliver s d).1.
Proof.
  intros Hk Hn Hr. destruct (rec_deliver_step s d Hk) as
    [[Er Ea]|(k0 & new_ & en & Hadv & Er & _ & Ea & _)]; rewrite Er, Ea.
  { exists r. split_and!; by try apply rtc_refl. }
  destruct (decide (k = k0)) as [<-|Hne].
  - rewrite lookup_insert_eq. exists new_.
    destruct Hadv as [[-> Hadv]|(Ek & Hadv & Hnone)]; [|by rewrite (Hn (eq_sym Ek)), Hr in Hnone].
    rewrite Hr in Hadv. destruct Hadv as [?|r0 E He Hf]; [done|]. injection E as <-.
    split_and!; [done|done|by apply rtc_once| |by apply prefix_app_r].
    intros Hterm. inversion He as [E|E|E|E|E|E]; rewrite <- E in Hterm; done.
  - rewrite lookup_insert_ne by done. exists r. split_and!; try done; by apply prefix_app_r.
Qed.

(** C19. Whatever mandate notifications arrive, for whatever mandates, in whatever order and
    however often, and whatever the bank answers to each: a stored mandate keeps its
    registration facts and moves only along legal edges, so one whose status is terminal is
    not touched again; and the trail only grows.  The one condition is that no notification
    names this mandate with white space around its ids (those that name other mandates may):
    the handler looks a mandate up by the ids verbatim and stores it by the trimmed ones, and
    [untrimmed_id_replaces_mandate] shows what a padded id does. *)
Theorem mandate_history s ds k r (Hk : recs_keyed s)
    (Hn : Forall (fun d => names_plainly k (rdl_ev d)) ds)
    (Hr : st_recs s !! k = Some r) :
  exists r', st_recs (run_rec_deliveries s ds) !! k = Some r' /\
    rec_facts r' = rec_facts r /\ rtc rec_edge (rec_status r) (rec_status r') /\
    (RecStatus_terminal (rec_status r) = true -> r' = r) /\
    st_audit s `prefix_of` st_audit (run_rec_deliveries s ds) /\
    recs_keyed (run_rec_deliveries s ds).
Proof.
  revert s r Hk Hr. induction Hn as [|d ds Hd Hds IH]; intros s r Hk Hr; simpl.
  { exists r. split_and!; by try apply rtc_refl. }
  pose proof (recs_keyed_effect _ _ _ Hk (rec_deliver_step s d Hk)) as Hk1.
  destruct (rec_deliver_row s d k r Hk Hd Hr) as (r1 & Hr1 & Hf & Hrtc & Hterm & Hpre).
  destruct (IH _ r1 Hk1 Hr1) as (r' & ? & Hf' & Hrtc' & Hterm' & Hpre' & Hk').
  exists r'. split_and!; [done|congruence|by etrans| |by etrans|done].
  intros HT. rewrite <- (Hterm HT). apply Hterm'. by rewrite (Hterm HT).
Qed.

(** A delivery that moves a mandate audits it in the same transaction, exactly
    once: the stored mandates and the trail change together or not at all, the entry
    naming the tenant, the mandate and the action of its new status, which is the
    initial one, or one legal move from the initial or the stored one. *)
Theorem mandate_transition_audited s d (Hk : recs_keyed s) :
  rec_effect s (rec_deliver s d).1 (rdl_ev d) /\
  (forall e, (rec_deliver s d).2 = Err e -> (rec_deliver s d).1 = s).
Proof.
  split; [by apply rec_deliver_step|]. intros e. unfold rec_deliver, HandleRecEvent.
  do 3 (destruct (blank _); [done|]).
  rewrite reconcileRecurrence_spec. case_bool_decide; [done|].
  destruct (bindM _ _ _) as [s' [u|e']]; [done|]. by destruct (errors_Is e' ErrNotFound).
Qed.
End mandates.

(** * Concrete mandates *)
Definition sample_rec (id status : string) : Rec :=
  RehydrateRec id "t1" "c6" "contract" {| devedor_doc := "12345678901"; devedor_nome := "Ana" |}
    "2024-01-01" "MENSAL" 5000 status sample_time sample_time [].
Definition sample_rec_store (status : string) : snapshot :=
  with_recs emptySnapshot {[ key "t1" "R1" := sample_rec "R1" status ]}.
Definition bank_rec (id status : string) : RecResult :=
  {| rr_IDRec := id; rr_Status := status;
     rr_Vinculo := {| rv_Contrato := "contract";
       rv_Devedor := {| rd_CPF := "12345678901"; rd_CNPJ := ""; rd_Nome := "Ana" |};
       rv_Objeto := "" |};
     rr_Calendario := {| rcal_DataInicial := "2024-01-01"; rcal_Periodicidade := "MENSAL" |};
     rr_Recebedor := {| rb_ISPB := ""; rb_CNPJ := ""; rb_CPF := ""; rb_Nome := "" |};
     rr_PoliticaRetentativa := ""; rr_TipoJornada := ""; rr_LocID := 0; rr_Location := "";
     rr_ValorRecCents := 5000;
     rr_DadosQR := {| qr_Jornada := ""; qr_PixCopiaECola := "" |} |}.
Definition rec_attempt (id key_ status : string) : rec_delivery :=
  {| rdl_ev := {| rev_TenantID := "t1"; rev_IDRec := id; rev_EventKey := key_; rev_BankID := "" |};
     rdl_answer := Ok (bank_rec id status); rdl_clock := fun _ => sample_time; rdl_id := "a1" |}.

Lemma sample_recs_keyed status : recs_keyed (sample_rec_store status).
Proof.
  intros k r Hr. unfold sample_rec_store in Hr. cbn [st_recs with_recs] in Hr.
  by apply lookup_singleton_Some in Hr as [<- <-].
Qed.

(** Notifications of this mandate and of another, the latter with a padded id. *)
Definition sample_notifications : list rec_delivery :=
  [rec_attempt "R1" "e1" RecAprovada; rec_attempt " R2" "e2" RecCriada;
   rec_attempt "R1" "e3" RecCancelada; rec_attempt "R1" "e4" RecAprovada].
Lemma mandate_history_witness :
  exists r', st_recs (run_rec_deliveries (sample_rec_store RecCriada) sample_notifications)
      !! key "t1" "R1" = Some r' /\ rec_status r' = RecCancelada.
Proof.
  destruct (mandate_history (sample_rec_store RecCriada) sample_notifications
      (key "t1" "R1") (sample_rec "R1" RecCriada) (sample_recs_keyed _))
    as (r' & Hr & _); [repeat constructor; vm_compute; congruence|reflexivity|].
  exists r'. split; [exact Hr|]. vm_compute in Hr. by injection Hr as <-.
Defined.

Lemma mandate_transition_audited_witness :
  rec_effect (sample_rec_store RecCriada)
    (rec_deliver (sample_rec_store RecCriada) (rec_attempt "R1" "e1" RecAprovada)).1
    (rdl_ev (rec_attempt "R1" "e1" RecAprovada)).
Proof.
  apply (mandate_transition_audited (sample_rec_store RecCriada)
           (rec_attempt "R1" "e1" RecAprovada) (sample_recs_keyed _)).
Defined.

(** The lookup uses the notification's id verbatim and the construction trims
    it, so an id with surrounding space escapes the state machine: the notification
    below replaces a CANCELADA mandate by a fresh APROVADA one. *)
Theorem untrimmed_id_replaces_mandate :
  let s := sample_rec_store RecCancelada in
  let s' := (rec_deliver s (rec_attempt " R1" "e1" RecAprovada)).1 in
  option_map rec_status (st_recs s !! key "t1" "R1") = Some RecCancelada /\
  option_map rec_status (st_recs s' !! key "t1" "R1") = Some RecAprovada.
Proof. split; vm_compute; reflexivity. Qed.
