(* ===== verification/RecurrenceSvc.v ===== *)
(** internal/app/recurrence.go: the use-cases that register mandates and originate,
    cancel and retry their charges.  The calls made to the bank are recorded in
    order, so that what reaches the bank can be stated. *)
From S2P Require Import Prelude GoStrings GoTime Shared Payments Tenants.
From S2P Require Import Mandates AuditTrail Ports MandateWebhook.

Definition RecCreateEndpoint : string := "pix.rec.create".
Definition CobRCreateEndpoint : string := "pix.cobr.create".

(** * Requests to the bank *)
(** [TipoConta] is CORRENTE, POUPANCA or PAGAMENTO; Go's zero value is the empty text. *)
Definition ContaCorrente : string := "CORRENTE".
Definition ContaPoupanca : string := "POUPANCA".
Definition ContaPagamento : string := "PAGAMENTO".
Record CobRRecebedor := { crb_Conta : string; crb_TipoConta : string }.
Definition zeroRecebedor : CobRRecebedor := {| crb_Conta := ""; crb_TipoConta := "" |}.
Record CreateCobRRequest := {
  ccr_IDRec : string;
  ccr_TxID : string;
  ccr_DataVencimento : string;
  ccr_AjusteDiaUtil : bool;
  ccr_ValorCents : Z;
  ccr_Recebedor : CobRRecebedor;
  ccr_IdempotencyKey : string
}.
Record CreateRecRequest := {
  crr_Vinculo : RecVinculo;
  crr_Calendario : RecCalendario;
  crr_PoliticaRetentativa : string;
  crr_LocID : Z;
  crr_JornadaTxID : string;
  crr_ValorRecCents : Z;
  crr_IdempotencyKey : string
}.
Record SolicRecDestinatario := {
  srd_CPF : string;
  srd_CNPJ : string;
  srd_Agencia : string;
  srd_Conta : string;
  srd_ISPBParticipante : string
}.
Record CreateSolicRecRequest := {
  csr_IDRec : string;
  csr_Destinatario : SolicRecDestinatario;
  csr_ExpiraEm : Time;
  csr_IdempotencyKey : string
}.
Record SolicRecResult := {
  srr_IDSolicRec : string;
  srr_IDRec : string;
  srr_Status : string;
  srr_Destinatario : SolicRecDestinatario;
  srr_ExpiraEm : Time
}.
Record LocRecResult := {
  lrr_ID : Z;
  lrr_Location : string;
  lrr_Criacao : Time;
  lrr_IDRec : string
}.

Inductive bank_call :=
| CallCreateCobR (tenantID : string) (req : CreateCobRRequest)
| CallCancelCobR (tenantID txID : string)
| CallRetryCobR (tenantID txID dataRetentativa : string)
| CallCreateRec (tenantID : string) (req : CreateRecRequest)
| CallCancelRec (tenantID idRec : string)
| CallCreateSolicRec (tenantID : string) (req : CreateSolicRecRequest)
| CallCreateLocRec (tenantID idempotencyKey : string)
| CallUnlinkLocRec (tenantID : string) (id : Z).

(** The four ports, each of which may be unwired. *)
Record CobRProvider := {
  CreateCobR : string -> CreateCobRRequest -> res CobRResult;
  GetCobR_ : string -> string -> res CobRResult;
  CancelCobR_ : string -> string -> res CobRResult;
  RetryCobR_ : string -> string -> string -> res CobRResult
}.
Record RecProvider := {
  CreateRec : string -> CreateRecRequest -> res RecResult;
  GetRec_ : string -> string -> res RecResult;
  GetRecForQR : string -> string -> string -> res RecResult;
  CancelRec : string -> string -> res RecResult
}.
Record SolicRecProvider := {
  CreateSolicRec : string -> CreateSolicRecRequest -> res SolicRecResult;
  GetSolicRec : string -> string -> res SolicRecResult
}.
Record LocRecProvider := {
  CreateLocRec_ : string -> string -> res LocRecResult;
  GetLocRec_ : string -> Z -> res LocRecResult;
  UnlinkLocRec_ : string -> Z -> res LocRecResult
}.

Record OriginateCobRInput := {
  oci_TenantID : string;
  oci_AccountID : string;
  oci_OperatorID : string;
  oci_IDRec : string;
  oci_TxID : string;
  oci_Vencimento : string;
  oci_ValorCents : Z;
  oci_IdempotencyKey : string
}.
Record CreateMandateInput := {
  cmi_TenantID : string;
  cmi_AccountID : string;
  cmi_OperatorID : string;
  cmi_Contrato : string;
  cmi_Objeto : string;
  cmi_DevedorDoc : string;
  cmi_DevedorNome : string;
  cmi_DataInicial : string;
  cmi_Periodicidade : string;
  cmi_PoliticaRetentativa : string;
  cmi_LocID : Z;
  cmi_JornadaTxID : string;
  cmi_ValorRecCents : Z;
  cmi_IdempotencyKey : string
}.
Record RequestConfirmationInput := {
  rci_TenantID : string;
  rci_IDRec : string;
  rci_CPF : string;
  rci_CNPJ : string;
  rci_Agencia : string;
  rci_Conta : string;
  rci_ISPBParticipante : string;
  rci_ExpiraEm : Time;
  rci_IdempotencyKey : string
}.

(** Store and bank calls made so far. *)
Record RWorld (S : Type) := { rdb : S; calls : list bank_call }.
Arguments rdb {S} r.
Arguments calls {S} r.

Definition toRecDevedor (d : Devedor) : RecDevedor :=
  if len (devedor_doc d) =? 11
  then {| rd_CPF := devedor_doc d; rd_CNPJ := ""; rd_Nome := devedor_nome d |}
  else {| rd_CPF := ""; rd_CNPJ := devedor_doc d; rd_Nome := devedor_nome d |}.

Definition bankIDOrDefault (_ : RecResult) : string := BankIDC6.

Definition solicRecMaxExpiry : Z := 30 * day_ns.

Section service.
Context {S : Type} `{Repository S} `{UnitOfWork S}.
(** Successive clock readings and fresh ids within one call. *)
Context (clock : nat -> Time) (ids : nat -> string).
Context (cobr : option CobRProvider) (rec : option RecProvider)
        (solicRec : option SolicRecProvider) (locRec : option LocRecProvider).

Notation svc A := (M (RWorld S) error A).

Definition onDB {A} (m : M S error A) : svc A := fun w =>
  let '(s, r) := m (rdb w) in ({| rdb := s; calls := calls w |}, r).
Definition callBank {A} (c : bank_call) (answer : res A) : svc A := fun w =>
  ({| rdb := rdb w; calls := (calls w ++ [c])%list |}, answer).

Definition unconfigured {A} (what : string) : svc A := throwM (Wrap what ErrUnavailable).

(** A lookup for which ErrNotFound is an answer. *)
Definition lookupM {A} (ctx : string) (m : M S error A) : svc (option A) := fun w =>
  match onDB m w with
  | (w, Ok a) => (w, Ok (Some a))
  | (w, Err e) => if errors_Is e ErrNotFound then (w, Ok None) else (w, Err (Wrap ctx e))
  end.

Definition load_mandate (tenantID idRec : string) : svc Rec :=
  do r <- lookupM "load mandate" (FindRecByID tenantID idRec) ;;
  match r with Some r => retM r | None => throwM ErrMandateNotFound end.

Definition OriginateCobR (i : OriginateCobRInput) : svc CobR :=
  let tenantID := TrimSpace (oci_TenantID i) in
  abort (bool_decide (tenantID = "")) with (NewValidationError "tenant_id" "is required") ;;
  let idRec := TrimSpace (oci_IDRec i) in
  abort (bool_decide (idRec = "")) with (NewValidationError "id_rec" "is required") ;;
  let txID := TrimSpace (oci_TxID i) in
  abort (bool_decide (txID = "")) with (NewValidationError "tx_id" "is required") ;;
  match cobr with
  | None => unconfigured "recurrence charge port not configured"
  | Some port =>
      do existing <- lookupM "idempotency lookup" (FindCobRByTxID tenantID txID) ;;
      match existing with
      | Some existing => retM existing
      | None =>
          do rec <- load_mandate tenantID idRec ;;
          do _ <- liftM (RequireApprovedMandate (Some rec) tenantID idRec) ;;
          do _ <- liftM (RequireWithinAuthorizedValue (Some rec) (oci_ValorCents i)) ;;
          do price <- onDB (resolvePriceOrFree tenantID CobRCreateEndpoint) ;;
          do c <- liftM (NewCobR {| ncp_TxID := txID;
                                    ncp_IDRec := idRec;
                                    ncp_TenantID := tenantID;
                                    ncp_Vencimento := TrimSpace (oci_Vencimento i);
                                    ncp_ValorCents := oci_ValorCents i |} (clock 0)) ;;
          (* AjusteDiaUtil and Recebedor are not set *)
          let req := {| ccr_IDRec := idRec;
                        ccr_TxID := txID;
                        ccr_DataVencimento := cobr_vencimento c;
                        ccr_AjusteDiaUtil := false;
                        ccr_ValorCents := cobr_valorCents c;
                        ccr_Recebedor := zeroRecebedor;
                        ccr_IdempotencyKey := TrimSpace (oci_IdempotencyKey i) |} in
          do _ <- wrapM (Wrap "bank create cobr")
                    (callBank (CallCreateCobR tenantID req) (CreateCobR port tenantID req)) ;;
          do entry <- liftM (NewCobROriginationEntry (ids 0) (oci_OperatorID i) tenantID txID
                               (clock 1)) ;;
          do ledger <- liftM (NewLedgerEntry (ids 1) tenantID CobRCreateEndpoint txID
                                (pricing_priceCents price) (clock 2)
                                [WithAccount (oci_AccountID i)]) ;;
          do _ <- onDB (WithinTx
            (do _ <- wrapM (Wrap "save cobr") (SaveCobR c) ;;
             do _ <- wrapM (Wrap "append audit") (Append entry) ;;
             wrapM (Wrap "append ledger") (AppendLedgerEntry ledger))) ;;
          retM c
      end
  end.

Definition CreateLocRec (tenantID idempotencyKey : string) : svc LocRecResult :=
  let tenantID := TrimSpace tenantID in
  abort (bool_decide (tenantID = "")) with (NewValidationError "tenant_id" "is required") ;;
  match locRec with
  | None => unconfigured "recurrence location port not configured"
  | Some port =>
      callBank (CallCreateLocRec tenantID (TrimSpace idempotencyKey))
        (CreateLocRec_ port tenantID (TrimSpace idempotencyKey))
  end.

Definition CreateMandate (i : CreateMandateInput) : svc (Rec * RecResult) :=
  let tenantID := TrimSpace (cmi_TenantID i) in
  abort (bool_decide (tenantID = "")) with (NewValidationError "tenant_id" "is required") ;;
  match rec with
  | None => unconfigured "recurrence mandate port not configured"
  | Some port =>
      abort (bool_decide (TrimSpace (cmi_IdempotencyKey i) = ""))
        with (NewValidationError "idempotency_key" "idempotency key is required") ;;
      do t <- wrapM (Wrap "resolve tenant") (onDB (FindTenantByID tenantID)) ;;
      abort (negb (tenant_active t)) with (NewValidationError "tenant" "tenant is not active") ;;
      do devedor <- liftM (NewDevedor (cmi_DevedorDoc i) (cmi_DevedorNome i)) ;;
      abort (cmi_ValorRecCents i <? 0)
        with (NewValidationError "valor_rec_cents" "must not be negative") ;;
      do price <- onDB (resolvePriceOrFree tenantID RecCreateEndpoint) ;;
      let req :=
        {| crr_Vinculo := {| rv_Contrato := TrimSpace (cmi_Contrato i);
                             rv_Devedor := toRecDevedor devedor;
                             rv_Objeto := TrimSpace (cmi_Objeto i) |};
           crr_Calendario := {| rcal_DataInicial := TrimSpace (cmi_DataInicial i);
                                rcal_Periodicidade := TrimSpace (cmi_Periodicidade i) |};
           crr_PoliticaRetentativa := TrimSpace (cmi_PoliticaRetentativa i);
           crr_LocID := cmi_LocID i;
           crr_JornadaTxID := TrimSpace (cmi_JornadaTxID i);
           crr_ValorRecCents := cmi_ValorRecCents i;
           crr_IdempotencyKey := TrimSpace (cmi_IdempotencyKey i) |} in
      do r <- wrapM (Wrap "bank create rec")
                (callBank (CallCreateRec tenantID req) (CreateRec port tenantID req)) ;;
      do existing <- lookupM "idempotency lookup" (FindRecByID tenantID (rr_IDRec r)) ;;
      match existing with
      | Some existing => retM (existing, r)
      | None =>
          do m <- liftM (NewRec {| nrp_IDRec := rr_IDRec r;
                                   nrp_TenantID := tenantID;
                                   nrp_BankID := bankIDOrDefault r;
                                   nrp_Contrato := TrimSpace (cmi_Contrato i);
                                   nrp_Devedor := devedor;
                                   nrp_DataInicial := TrimSpace (cmi_DataInicial i);
                                   nrp_Periodicidade := TrimSpace (cmi_Periodicidade i);
                                   nrp_ValorCents := cmi_ValorRecCents i;
                                   nrp_LocID := cmi_LocID i;
                                   nrp_JornadaTxID := TrimSpace (cmi_JornadaTxID i) |} (clock 0)) ;;
          do entry <- liftM (NewRecurrenceTransitionEntry (ids 0) (cmi_OperatorID i) tenantID
                               (rec_idRec m) (rec_status m) (clock 1)) ;;
          do ledger <- liftM (NewLedgerEntry (ids 1) tenantID RecCreateEndpoint (rec_idRec m)
                                (pricing_priceCents price) (clock 2)
                                [WithAccount (cmi_AccountID i)]) ;;
          do _ <- onDB (WithinTx
            (do _ <- wrapM (Wrap "save rec") (SaveRec m) ;;
             do _ <- wrapM (Wrap "append audit") (Append entry) ;;
             wrapM (Wrap "append ledger") (AppendLedgerEntry ledger))) ;;
          retM (m, r)
      end
  end.

Definition GetMandate (tenantID idRec : string) : svc RecResult :=
  let tenantID := TrimSpace tenantID in
  let idRec := TrimSpace idRec in
  abort (bool_decide (tenantID = "")) with (NewValidationError "tenant_id" "is required") ;;
  abort (bool_decide (idRec = "")) with (NewValidationError "id_rec" "is required") ;;
  match rec with
  | None => unconfigured "recurrence mandate port not configured"
  | Some port => liftM (GetRec_ port tenantID idRec)
  end.

Definition GetMandateQR (tenantID idRec txID : string) : svc RecResult :=
  let tenantID := TrimSpace tenantID in
  let idRec := TrimSpace idRec in
  let txID := TrimSpace txID in
  abort (bool_decide (tenantID = "")) with (NewValidationError "tenant_id" "is required") ;;
  abort (bool_decide (idRec = "")) with (NewValidationError "id_rec" "is required") ;;
  match rec with
  | None => unconfigured "recurrence mandate port not configured"
  | Some port =>
      do txID <- (if bool_decide (txID = "") then
                    do r <- lookupM "load mandate" (FindRecByID tenantID idRec) ;;
                    retM (match r with Some r => rec_jornadaTxID r | None => txID end)
                  else retM txID) ;;
      liftM (GetRecForQR port tenantID idRec txID)
  end.

Definition GetLocRec (tenantID : string) (id : Z) : svc LocRecResult :=
  abort (blank tenantID) with (NewValidationError "tenant_id" "is required") ;;
  match locRec with
  | None => unconfigured "recurrence location port not configured"
  | Some port => liftM (GetLocRec_ port (TrimSpace tenantID) id)
  end.

Definition UnlinkLocRec (tenantID : string) (id : Z) : svc LocRecResult :=
  abort (blank tenantID) with (NewValidationError "tenant_id" "is required") ;;
  match locRec with
  | None => unconfigured "recurrence location port not configured"
  | Some port => callBank (CallUnlinkLocRec (TrimSpace tenantID) id)
                   (UnlinkLocRec_ port (TrimSpace tenantID) id)
  end.

(** The local side of a cancellation: the transaction's callback. *)
Definition cancel_mandate_tx (tenantID operatorID idRec : string) : M S error unit := fun s =>
  match FindRecByID tenantID idRec s with
  | (s, Err ferr) =>
      if errors_Is ferr ErrNotFound then (s, Ok tt) else (s, Err (Wrap "load mandate" ferr))
  | (s, Ok m) =>
      if bool_decide (rec_status m = RecCancelada) then (s, Ok tt)
      else
        (do m <- liftM (rec_Transition m RecCancelada (clock 0)) ;;
         do _ <- wrapM (Wrap "save rec") (SaveRec m) ;;
         do entry <- liftM (NewRecurrenceTransitionEntry (ids 0) operatorID tenantID idRec
                              RecCancelada (clock 1)) ;;
         wrapM (Wrap "append audit") (Append entry)) s
  end.

Definition CancelMandate (tenantID operatorID idRec : string) : svc RecResult :=
  let tenantID := TrimSpace tenantID in
  let idRec := TrimSpace idRec in
  abort (bool_decide (tenantID = "")) with (NewValidationError "tenant_id" "is required") ;;
  abort (bool_decide (idRec = "")) with (NewValidationError "id_rec" "is required") ;;
  match rec with
  | None => unconfigured "recurrence mandate port not configured"
  | Some port =>
      do r <- wrapM (Wrap "bank cancel rec")
                (callBank (CallCancelRec tenantID idRec) (CancelRec port tenantID idRec)) ;;
      do _ <- onDB (WithinTx (cancel_mandate_tx tenantID operatorID idRec)) ;;
      retM r
  end.

Definition RequestConfirmation (i : RequestConfirmationInput) : svc SolicRecResult :=
  let tenantID := TrimSpace (rci_TenantID i) in
  abort (bool_decide (tenantID = "")) with (NewValidationError "tenant_id" "is required") ;;
  let idRec := TrimSpace (rci_IDRec i) in
  abort (bool_decide (idRec = "")) with (NewValidationError "id_rec" "is required") ;;
  match solicRec with
  | None => unconfigured "recurrence activation port not configured"
  | Some port =>
      let now := clock 0 in
      abort (IsZero (rci_ExpiraEm i) || negb (After (rci_ExpiraEm i) now))
        with (NewValidationError "expira_em" "must be in the future") ;;
      abort (solicRecMaxExpiry <=? Sub (rci_ExpiraEm i) now)
        with (NewValidationError "expira_em" "must be less than 30 days ahead") ;;
      let req := {| csr_IDRec := idRec;
                    csr_Destinatario :=
                      {| srd_CPF := TrimSpace (rci_CPF i);
                         srd_CNPJ := TrimSpace (rci_CNPJ i);
                         srd_Agencia := TrimSpace (rci_Agencia i);
                         srd_Conta := TrimSpace (rci_Conta i);
                         srd_ISPBParticipante := TrimSpace (rci_ISPBParticipante i) |};
                    csr_ExpiraEm := rci_ExpiraEm i;
                    csr_IdempotencyKey := TrimSpace (rci_IdempotencyKey i) |} in
      callBank (CallCreateSolicRec tenantID req) (CreateSolicRec port tenantID req)
  end.

Definition GetConfirmation (tenantID idSolicRec : string) : svc SolicRecResult :=
  let tenantID := TrimSpace tenantID in
  let idSolicRec := TrimSpace idSolicRec in
  abort (bool_decide (tenantID = "")) with (NewValidationError "tenant_id" "is required") ;;
  abort (bool_decide (idSolicRec = ""))
    with (NewValidationError "id_solic_rec" "is required") ;;
  match solicRec with
  | None => unconfigured "recurrence activation port not configured"
  | Some port => liftM (GetSolicRec port tenantID idSolicRec)
  end.

Definition svc_GetCobR (tenantID txID : string) : svc CobRResult :=
  let tenantID := TrimSpace tenantID in
  let txID := TrimSpace txID in
  abort (bool_decide (tenantID = "")) with (NewValidationError "tenant_id" "is required") ;;
  abort (bool_decide (txID = "")) with (NewValidationError "tx_id" "is required") ;;
  match cobr with
  | None => unconfigured "recurrence charge port not configured"
  | Some port => liftM (GetCobR_ port tenantID txID)
  end.

Definition cancel_cobr_tx (tenantID operatorID txID : string) : M S error unit := fun s =>
  match FindCobRByTxID tenantID txID s with
  | (s, Err ferr) =>
      if errors_Is ferr ErrNotFound then (s, Ok tt)
      else (s, Err (Wrap "reload recurring charge" ferr))
  | (s, Ok current) =>
      if bool_decide (cobr_status current = CobRCancelada) then (s, Ok tt)
      else
        match cobr_Transition current CobRCancelada (clock 0) with
        | Err _ => (s, Ok tt)
        | Ok current =>
            (do _ <- wrapM (Wrap "save recurring charge") (SaveCobR current) ;;
             do entry <- liftM (NewCobRCancellationEntry (ids 0) operatorID tenantID txID
                                  (clock 1)) ;;
             wrapM (Wrap "append audit") (Append entry)) s
        end
  end.

Definition CancelCobR (tenantID operatorID txID : string) : svc CobRResult :=
  let tenantID := TrimSpace tenantID in
  let txID := TrimSpace txID in
  abort (bool_decide (tenantID = "")) with (NewValidationError "tenant_id" "is required") ;;
  abort (bool_decide (txID = "")) with (NewValidationError "tx_id" "is required") ;;
  match cobr with
  | None => unconfigured "recurrence charge port not configured"
  | Some port =>
      do known <- lookupM "load recurring charge" (FindCobRByTxID tenantID txID) ;;
      match known with
      | None => throwM ErrNotFound
      | Some _ =>
          do r <- wrapM (Wrap "bank cancel cobr")
                    (callBank (CallCancelCobR tenantID txID) (CancelCobR_ port tenantID txID)) ;;
          do _ <- onDB (WithinTx (cancel_cobr_tx tenantID operatorID txID)) ;;
          retM r
      end
  end.

Definition RetryCobR (tenantID idRec txID dataRetentativa : string) : svc CobRResult :=
  let tenantID := TrimSpace tenantID in
  let idRec := TrimSpace idRec in
  let txID := TrimSpace txID in
  let dataRetentativa := TrimSpace dataRetentativa in
  abort (bool_decide (tenantID = "")) with (NewValidationError "tenant_id" "is required") ;;
  abort (bool_decide (idRec = "")) with (NewValidationError "id_rec" "is required") ;;
  abort (bool_decide (txID = "")) with (NewValidationError "tx_id" "is required") ;;
  abort (bool_decide (dataRetentativa = ""))
    with (NewValidationError "data_retentativa" "is required") ;;
  match cobr with
  | None => unconfigured "recurrence charge port not configured"
  | Some port =>
      do rec <- load_mandate tenantID idRec ;;
      do _ <- liftM (RequireApprovedMandate (Some rec) tenantID idRec) ;;
      callBank (CallRetryCobR tenantID txID dataRetentativa)
        (RetryCobR_ port tenantID txID dataRetentativa)
  end.
End service.
