(* ===== verification/RecurrenceGates.v ===== *)
(** The recurrence use-cases over the in-memory store: what may reach the bank,
    and what is recorded when it does. *)
From S2P Require Import Prelude GoStrings GoTime Shared Payments Tenants.
From S2P Require Import Mandates AuditTrail Ports MemStore.
From S2P Require Import MandateWebhook RecurrenceSvc MandateDeliveries.

Section gates.
Context `{MapRange}.
Context (clock : nat -> Time) (ids : nat -> string).

Notation world := (RWorld snapshot).

Lemma RWorld_eta (w : world) : {| rdb := rdb w; calls := calls w |} = w.
Proof. by destruct w. Qed.

(** The reads of the service leave the world alone. *)
Lemma lookup_cobr_run ctx t x (w : world) :
  lookupM ctx (FindCobRByTxID t x) w = (w, Ok (st_cobrs (rdb w) !! key t x)).
Proof.
  unfold lookupM, onDB; simpl. unfold findCobRByTxID, readM, found. rewrite RWorld_eta.
  destruct (st_cobrs (rdb w) !! key t x); [done|]. by rewrite errors_Is_refl.
Qed.

Lemma lookup_rec_run ctx t x (w : world) :
  lookupM ctx (FindRecByID t x) w = (w, Ok (st_recs (rdb w) !! key t x)).
Proof.
  unfold lookupM, onDB; simpl. unfold findRecByID, readM, found. rewrite RWorld_eta.
  destruct (st_recs (rdb w) !! key t x); [done|]. by rewrite errors_Is_refl.
Qed.

Lemma load_mandate_run t i (w : world) :
  load_mandate t i w =
  (w, match st_recs (rdb w) !! key t i with
      | Some r => Ok r | None => Err ErrMandateNotFound end).
Proof.
  unfold load_mandate, bindM. rewrite lookup_rec_run.
  by destruct (st_recs (rdb w) !! key t i).
Qed.

(** The price of a call: the configured one, or nothing. *)
Definition price_of (s : snapshot) (t ep : string) : res EndpointPricing :=
  match st_pricing s !! key t ep with
  | Some p => Ok p
  | None => map_err (Wrap "resolve price (free default)") (NewEndpointPricing t ep 0)
  end.

Lemma resolvePriceOrFree_run t ep s : resolvePriceOrFree t ep s = (s, price_of s t ep).
Proof.
  unfold resolvePriceOrFree, price_of; simpl. unfold getEndpointPrice, readM, found.
  destruct (st_pricing s !! key t ep); [done|]. rewrite errors_Is_refl. simpl.
  by destruct (NewEndpointPricing t ep 0).
Qed.

(** The request an origination sends. *)
Definition origination_request (i : OriginateCobRInput) : CreateCobRRequest :=
  {| ccr_IDRec := TrimSpace (oci_IDRec i);
     ccr_TxID := TrimSpace (oci_TxID i);
     ccr_DataVencimento := TrimSpace (oci_Vencimento i);
     ccr_AjusteDiaUtil := false;
     ccr_ValorCents := oci_ValorCents i;
     ccr_Recebedor := zeroRecebedor;
     ccr_IdempotencyKey := TrimSpace (oci_IdempotencyKey i) |}.

(** What must hold before the bank is asked to debit a payer. *)
Record may_originate (s : snapshot) (i : OriginateCobRInput) (m : Rec) : Prop := {
  mo_found : st_recs s !! key (TrimSpace (oci_TenantID i)) (TrimSpace (oci_IDRec i)) = Some m;
  mo_tenant : rec_tenantID m = TrimSpace (oci_TenantID i);
  mo_rec : rec_idRec m = TrimSpace (oci_IDRec i);
  mo_approved : rec_status m = RecAprovada;
  mo_positive : 0 < oci_ValorCents i;
  mo_ceiling : 0 < rec_valorCents m -> oci_ValorCents i <= rec_valorCents m;
  mo_new : st_cobrs s !! key (TrimSpace (oci_TenantID i)) (TrimSpace (oci_TxID i)) = None
}.

(** The records of an origination, written together. *)
Definition record_origination (s : snapshot) (c : CobR) (e : Entry) (l : LedgerEntry) : snapshot :=
  with_ledger (with_audit (with_cobrs s
    (<[key (cobr_tenantID c) (cobr_txID c) := c]> (st_cobrs s))) (st_audit s ++ [e]))
    (st_ledger s ++ [l]).

(** The run after the gates and the construction passed: one bank call, then all
    the records or none. *)
Inductive originated (i : OriginateCobRInput) (w w' : world) : res CobR -> Prop :=
| orig_bank_error e :
    w' = {| rdb := rdb w; calls := (calls w ++ [CallCreateCobR (TrimSpace (oci_TenantID i))
                                                  (origination_request i)])%list |} ->
    originated i w w' (Err e)
| orig_recorded c e l :
    w' = {| rdb := record_origination (rdb w) c e l;
            calls := (calls w ++ [CallCreateCobR (TrimSpace (oci_TenantID i))
                                    (origination_request i)])%list |} ->
    cobr_txID c = TrimSpace (oci_TxID i) -> cobr_tenantID c = TrimSpace (oci_TenantID i) ->
    cobr_idRec c = TrimSpace (oci_IDRec i) -> cobr_valorCents c = oci_ValorCents i ->
    entry_action e = ActionCobRCreated ->
    ledger_reference l = TrimSpace (oci_TxID i) ->
    ledger_tenantID l = TrimSpace (oci_TenantID i) ->
    originated i w w' (Ok c).

Lemma records_tx c e l s :
  WithinTx (do _ <- wrapM (Wrap "save cobr") (SaveCobR c) ;;
            do _ <- wrapM (Wrap "append audit") (Append e) ;;
            wrapM (Wrap "append ledger") (AppendLedgerEntry l)) s
  = (record_origination s c e l, Ok tt).
Proof. reflexivity. Qed.

Lemma NewLedgerEntry_trim id t ep ref pr at_ a l :
  NewLedgerEntry id t ep ref pr at_ [WithAccount a] = Ok l ->
  trimmed t -> trimmed ref -> ledger_tenantID l = t /\ ledger_reference l = ref.
Proof.
  intros HN Ht Hr. apply NewLedgerEntry_Ok in HN as (_ & -> & -> & _). by rewrite Ht, Hr.
Qed.

Lemma NewCobROriginationEntry_action id op t tx at_ e :
  NewCobROriginationEntry id op t tx at_ = Ok e -> entry_action e = ActionCobRCreated.
Proof.
  unfold NewCobROriginationEntry. intros HN. destruct (required_id id); [|done].
  destruct (required_tenant t); [|done]. destruct (required_tx tx); [|done]. by simplify_eq.
Qed.

(** Every run of an origination, by what it did to the world. *)
Lemma OriginateCobR_cases cobr i (w w' : world) r :
  OriginateCobR clock ids cobr i w = (w', r) ->
  (w' = w /\ exists e, r = Err e) \/
  (w' = w /\ exists c, r = Ok c /\
     st_cobrs (rdb w) !! key (TrimSpace (oci_TenantID i)) (TrimSpace (oci_TxID i)) = Some c) \/
  (exists m, may_originate (rdb w) i m /\ originated i w w' r).
Proof.
  unfold OriginateCobR. cbv zeta. intros HO.
  do 3 (case_bool_decide; [unfold throwM in HO; simplify_eq; left; eauto|]).
  destruct cobr as [port|]; [|unfold unconfigured, throwM in HO; simplify_eq; left; eauto].
  unfold bindM at 1 in HO. rewrite lookup_cobr_run in HO.
  destruct (st_cobrs (rdb w) !! _) as [c|] eqn:Ec.
  { unfold retM in HO. simplify_eq. right; left. eauto. }
  unfold bindM at 1 in HO. rewrite load_mandate_run in HO.
  destruct (st_recs (rdb w) !! _) as [m|] eqn:Em; [|simplify_eq; left; eauto].
  unfold bindM at 1, liftM at 1 in HO.
  destruct (RequireApprovedMandate _ _ _) as [[]|e] eqn:Eg; [|simplify_eq; left; eauto].
  unfold bindM at 1, liftM at 1 in HO.
  destruct (RequireWithinAuthorizedValue _ _) as [[]|e] eqn:Ev; [|simplify_eq; left; eauto].
  unfold bindM at 1, onDB at 1 in HO. rewrite resolvePriceOrFree_run, RWorld_eta in HO.
  destruct (price_of _ _ _) as [price|e]; [|simplify_eq; left; eauto].
  unfold bindM at 1, liftM at 1 in HO.
  destruct (NewCobR _ _) as [c|e] eqn:EN; [|simplify_eq; left; eauto].
  apply RequireApprovedMandate_Ok in Eg as (m' & [= <-] & Et & Ei & Es).
  apply RequireWithinAuthorizedValue_Ok in Ev as (m' & [= <-] & Hceil).
  apply NewCobR_Ok in EN as (Ex & _ & Ecr & Ect & _ & _ & Ecv & Hpos & Eve & _).
  simpl in *. rewrite !TrimSpace_idem in *.
  right; right. exists m. split; [split; auto; by rewrite <- Ecv|].
  assert (Hreq : {| ccr_IDRec := TrimSpace (oci_IDRec i); ccr_TxID := TrimSpace (oci_TxID i);
                    ccr_DataVencimento := cobr_vencimento c; ccr_AjusteDiaUtil := false;
                    ccr_ValorCents := cobr_valorCents c; ccr_Recebedor := zeroRecebedor;
                    ccr_IdempotencyKey := TrimSpace (oci_IdempotencyKey i) |}
                 = origination_request i) by (unfold origination_request; by rewrite Ecv, Eve).
  rewrite Hreq in HO. clear Hreq.
  unfold bindM at 1, wrapM at 1, callBank at 1 in HO.
  destruct (CreateCobR port _ _) as [cr|e]; simpl in HO; [|simplify_eq; by constructor].
  unfold bindM at 1, liftM at 1 in HO.
  destruct (NewCobROriginationEntry _ _ _ _ _) as [en|e] eqn:Een; [|simplify_eq; by constructor].
  unfold bindM at 1, liftM at 1 in HO.
  destruct (NewLedgerEntry _ _ _ _ _ _ _) as [l|e] eqn:El; [|simplify_eq; by constructor].
  unfold bindM at 1, onDB at 1 in HO. rewrite records_tx in HO. unfold retM in HO.
  apply NewLedgerEntry_trim in El as [? ?]; [|by auto with go..].
  simplify_eq. eapply orig_recorded; eauto using NewCobROriginationEntry_action.
Qed.

(** What must hold before the bank is asked to debit a charge again: the mandate the caller
    names is the tenant's and approved. *)
Record may_retry (s : snapshot) (tenantID idRec : string) (m : Rec) : Prop := {
  mr_found : st_recs s !! key (TrimSpace tenantID) (TrimSpace idRec) = Some m;
  mr_tenant : rec_tenantID m = TrimSpace tenantID;
  mr_rec : rec_idRec m = TrimSpace idRec;
  mr_approved : rec_status m = RecAprovada
}.

(** Every run of a retry, by what it did to the world. *)
Lemma RetryCobR_cases cobr t i tx d (w w' : world) r :
  RetryCobR cobr t i tx d w = (w', r) ->
  (w' = w /\ exists e, r = Err e) \/
  (exists m, may_retry (rdb w) t i m /\
     w' = {| rdb := rdb w;
             calls := (calls w ++ [CallRetryCobR (TrimSpace t) (TrimSpace tx) (TrimSpace d)])%list |}).
Proof.
  unfold RetryCobR. cbv zeta. intros HO.
  do 4 (case_bool_decide; [unfold throwM in HO; simplify_eq; left; eauto|]).
  destruct cobr as [port|]; [|unfold unconfigured, throwM in HO; simplify_eq; left; eauto].
  unfold bindM at 1 in HO. rewrite load_mandate_run in HO.
  destruct (st_recs (rdb w) !! _) as [m|] eqn:Em; [|simplify_eq; left; eauto].
  unfold bindM at 1, liftM at 1 in HO.
  destruct (RequireApprovedMandate _ _ _) as [[]|e] eqn:Eg; [|simplify_eq; left; eauto].
  apply RequireApprovedMandate_Ok in Eg as (m' & [= <-] & Et & Ei & Es).
  right. exists m. split; [by split|].
  unfold callBank in HO. by injection HO as <- _.
Qed.

(** C18. The mandate gates: the two operations that have the bank debit a payer ask it only
    under an authorization.  If an origination makes any bank call, it is exactly one charge
    creation, for the trimmed ids and the amount asked, and at that moment the store held a
    mandate of exactly that tenant and idRec, APROVADA, whose ceiling (when it has one)
    covers the amount, which is positive, and no charge under that txid.  If a retry makes
    any bank call, it is exactly one, for the trimmed ids and date, nothing is stored, and at
    that moment the store held the mandate the caller names, of exactly that tenant and
    idRec, APROVADA; that this mandate is the charge's own is not checked
    ([retry_gate_names_any_mandate]). *)
Theorem debit_gate cobr w w' :
  (forall i r, OriginateCobR clock ids cobr i w = (w', r) -> calls w' <> calls w ->
     exists m, may_originate (rdb w) i m /\
       calls w' = (calls w ++ [CallCreateCobR (TrimSpace (oci_TenantID i))
                                 (origination_request i)])%list) /\
  (forall t i tx d r, RetryCobR cobr t i tx d w = (w', r) -> calls w' <> calls w ->
     exists m, may_retry (rdb w) t i m /\ rdb w' = rdb w /\
       calls w' = (calls w ++ [CallRetryCobR (TrimSpace t) (TrimSpace tx) (TrimSpace d)])%list).
Proof.
  split.
  - intros i r HO Hc.
    destruct (OriginateCobR_cases cobr i w w' r HO) as [[-> _]|[[-> _]|(m & Hm & Hor)]];
      [done|done|]. exists m. split; [done|]. destruct Hor as [? E|? ? ? E]; by rewrite E.
  - intros t i tx d r HO Hc.
    destruct (RetryCobR_cases cobr t i tx d w w' r HO) as [[-> _]|(m & Hm & ->)]; [done|].
    exists m. by split_and!.
Qed.

(** An origination records everything or nothing, and a retry is free: an error
    leaves the store untouched; a success either returns the charge already stored
    under the txid, touching neither store nor bank, or stores the new charge together
    with exactly one audit entry and one ledger entry for it; and repeating the
    successful call, whatever the bank would answer, returns the same charge and
    changes nothing. *)
Theorem originate_once cobr cobr' i w w' r
    (HO : OriginateCobR clock ids cobr i w = (w', r)) :
  match r with
  | Err _ => rdb w' = rdb w
  | Ok c =>
      (w' = w \/ exists e l, rdb w' = record_origination (rdb w) c e l /\
                  ledger_reference l = TrimSpace (oci_TxID i)) /\
      (cobr' <> None -> OriginateCobR clock ids cobr' i w' = (w', Ok c))
  end.
Proof.
  assert (Hretry : forall v c, TrimSpace (oci_TenantID i) <> "" -> TrimSpace (oci_IDRec i) <> "" ->
    TrimSpace (oci_TxID i) <> "" ->
    st_cobrs (rdb v) !! key (TrimSpace (oci_TenantID i)) (TrimSpace (oci_TxID i)) = Some c ->
    cobr' <> None -> OriginateCobR clock ids cobr' i v = (v, Ok c)).
  { intros v c H1 H2 H3 Hl Hp. unfold OriginateCobR. cbv zeta.
    rewrite !bool_decide_false by done. destruct cobr' as [p|]; [|done].
    unfold bindM at 1. by rewrite lookup_cobr_run, Hl. }
  assert (Hids : forall c, r = Ok c -> TrimSpace (oci_TenantID i) <> "" /\
    TrimSpace (oci_IDRec i) <> "" /\ TrimSpace (oci_TxID i) <> "").
  { intros c ->. unfold OriginateCobR in HO. cbv zeta in HO.
    do 3 (case_bool_decide; [done|]). done. }
  destruct (OriginateCobR_cases cobr i w w' r HO)
    as [[-> [e ->]]|[[-> (c & -> & Hl)]|(m & Hm & Hor)]]; [done| |].
  - destruct (Hids c eq_refl) as (? & ? & ?). split; [by left|]. by apply Hretry.
  - destruct Hor as [? E|c e l E Ex Et Ei Ev Ea Elr Elt]; rewrite E; [done|].
    destruct (Hids c eq_refl) as (? & ? & ?). split; [right; eauto|].
    apply Hretry; [done..|]. simpl. rewrite <- Ex, <- Et. apply lookup_insert_eq.
Qed.
End gates.

(** * Concrete runs *)
Definition sample_port : CobRProvider :=
  {| CreateCobR := fun _ _ => Ok {| cbr_TxID := "x1"; cbr_IDRec := "R1";
                                    cbr_Status := "CRIADA"; cbr_ValorCents := 100 |};
     GetCobR_ := fun _ _ => Err ErrNotFound;
     CancelCobR_ := fun _ _ => Err ErrNotFound;
     RetryCobR_ := fun _ tx _ => Ok {| cbr_TxID := tx; cbr_IDRec := "R1";
                                       cbr_Status := "ATIVA"; cbr_ValorCents := 100 |} |}.
Definition sample_origination : OriginateCobRInput :=
  {| oci_TenantID := "t1"; oci_AccountID := "acct-t1"; oci_OperatorID := "op";
     oci_IDRec := "R1"; oci_TxID := " x1 "; oci_Vencimento := "2024-03-01";
     oci_ValorCents := 5000; oci_IdempotencyKey := "k" |}.
Definition approved_world : RWorld snapshot :=
  {| rdb := sample_rec_store RecAprovada; calls := [] |}.
Definition const_clock (_ : nat) : Time := sample_time.
Definition const_ids (n : nat) : string := if (n =? 0)%nat then "id0" else "id1".

Lemma debit_gate_witness :
  (exists m, may_originate (rdb approved_world) sample_origination m /\
    calls (OriginateCobR const_clock const_ids (Some sample_port) sample_origination
             approved_world).1
    = [CallCreateCobR "t1" (origination_request sample_origination)]) /\
  exists m, may_retry (rdb approved_world) "t1" " R1 " m /\
    calls (RetryCobR (S := snapshot) (Some sample_port) "t1" " R1 " "x1" "2024-02-01" approved_world).1
    = [CallRetryCobR "t1" "x1" "2024-02-01"].
Proof.
  split.
  - apply (proj1 (debit_gate const_clock const_ids (Some sample_port) approved_world _)
             sample_origination _ (surjective_pairing _)).
    vm_compute. done.
  - destruct (proj2 (debit_gate const_clock const_ids (Some sample_port) approved_world _)
             "t1" " R1 " "x1" "2024-02-01" _ (surjective_pairing _)) as (m & Hm & _ & Hc).
    + vm_compute. done.
    + exists m. split; [exact Hm|]. rewrite Hc. vm_compute. reflexivity.
Defined.

Lemma originate_once_witness :
  let run w := OriginateCobR const_clock const_ids (Some sample_port) sample_origination w in
  exists c, (run approved_world).2 = Ok c /\
    run (run approved_world).1 = ((run approved_world).1, Ok c).
Proof.
  cbv zeta. eexists. split; [vm_compute; reflexivity|].
  apply (originate_once const_clock const_ids (Some sample_port) (Some sample_port)
    sample_origination approved_world _ (Ok _)); [vm_compute; reflexivity|done].
Defined.

(** The retry gate checks the mandate the caller names, not the one the charge
    belongs to: here charge x1 belongs to the cancelled mandate R1, retrying it under
    R1 is refused without reaching the bank, and retrying it under another, approved
    mandate R2 of the tenant does reach the bank. *)
Theorem retry_gate_names_any_mandate :
  let s := with_cobrs (with_recs emptySnapshot
             (<[key "t1" "R2" := sample_rec "R2" RecAprovada]>
                {[ key "t1" "R1" := sample_rec "R1" RecCancelada ]}))
             {[ key "t1" "x1" := RehydrateCobR "x1" "R1" "t1" "2024-01-01" 100 CobRAtiva
                                   sample_time sample_time ]} in
  let w := {| rdb := s; calls := [] |} in
  let retry idRec := RetryCobR (S := snapshot) (Some sample_port) "t1" idRec "x1" "2024-02-01" w in
  retry "R1" = (w, Err ErrMandateNotApproved) /\
  calls (retry "R2").1 = [CallRetryCobR "t1" "x1" "2024-02-01"] /\
  is_ok (retry "R2").2 = true.
Proof. cbv zeta. split_and!; vm_compute; reflexivity. Qed.
