(* ===== verification/WebhookDispatch.v ===== *)
(** internal/adapters/http/handlers.go: the receiver of the bank's notifications, from
    the decoded body on.  The channel (the opaque URL) gives the tenant; the body only
    says which state to reconcile. *)
From S2P Require Import Prelude GoStrings GoTime Shared Payments Tenants.
From S2P Require Import Mandates AuditTrail Ports MemStore Settlement Deliveries.
From S2P Require Import MandateWebhook MandateDeliveries.

Definition webhookServicePix : string := "pix".
Definition webhookServiceCheckout : string := "checkout".
Definition webhookServiceBankSlip : string := "bank_slip".
Definition webhookServiceBankSlipPix : string := "bank_slip_pix".
Definition webhookLabelBoleto : string := "boleto".
Definition webhookLabelRec : string := "rec".
Definition webhookLabelCobR : string := "cobr".

Record pixReceived := { pr_EndToEndID : string; pr_TxID : string }.
Record c6WebhookNotification := {
  note_ExternalID : string;
  note_ClientID : string;
  note_Service : string;
  note_Status : string;
  note_Information : string;
  note_Pix : list pixReceived;
  note_IDRec : string;
  note_TxID : string
}.

(** The first non-empty trimmed field of a list. *)
Definition first_nonempty (f : pixReceived -> string) (l : list pixReceived) : option string :=
  List.find (fun s => negb (bool_decide (s = ""))) (map (fun p => TrimSpace (f p)) l).
Definition firstEndToEndID (l : list pixReceived) : string :=
  default "" (first_nonempty pr_EndToEndID l).
Definition firstPixReconcileID (l : list pixReceived) : string :=
  default (firstEndToEndID l) (first_nonempty pr_TxID l).

Inductive webhookKind :=
| webhookKindPayment | webhookKindCheckout | webhookKindRec | webhookKindCobR
| webhookKindBoleto.

(** The authenticated channel. *)
Record WebhookIdentity := { wid_TenantID : string; wid_ClientID : string }.

Inductive response :=
| Accepted                    (* 202 *)
| Unauthorized                (* 401 *)
| BadRequest                  (* 400 *)
| Failed (err : error).       (* writeDomainError *)

Section dispatch.
(** [json.Unmarshal] of the nested document: the received PIX it lists, or an error. *)
Context (parse_information : string -> option (list pixReceived)).

Definition resolveWebhook (note : c6WebhookNotification)
    : option (webhookKind * string * string) :=
  let has s := negb (bool_decide (s = "")) in
  if EqualFold (note_Service note) webhookServiceBankSlip
     || EqualFold (note_Service note) webhookServiceBankSlipPix
  then if has (note_ExternalID note)
       then Some (webhookKindBoleto, note_ExternalID note, webhookLabelBoleto) else None
  else if EqualFold (note_Service note) webhookServicePix
          || (negb (Nat.eqb (List.length (note_Pix note)) 0) && negb (has (note_IDRec note)))
  then
    let pixID := firstPixReconcileID (note_Pix note) in
    if has pixID then Some (webhookKindPayment, pixID, webhookServicePix)
    else
      let nested := match (if has (note_Information note)
                           then parse_information (note_Information note) else None) with
                    | Some l => firstPixReconcileID l
                    | None => ""
                    end in
      if has nested then Some (webhookKindPayment, nested, webhookServicePix)
      else if has (note_ExternalID note)
      then Some (webhookKindPayment, note_ExternalID note, webhookServicePix)
      else None
  else if has (note_IDRec note) && has (note_TxID note)
  then Some (webhookKindCobR, note_TxID note, webhookLabelCobR)
  else if has (note_IDRec note)
  then Some (webhookKindRec, note_IDRec note, webhookLabelRec)
  else if EqualFold (note_Service note) webhookLabelRec && has (note_ExternalID note)
  then Some (webhookKindRec, note_ExternalID note, webhookLabelRec)
  else if EqualFold (note_Service note) webhookLabelCobR && has (note_ExternalID note)
  then Some (webhookKindCobR, note_ExternalID note, webhookLabelCobR)
  else if EqualFold (note_Service note) webhookServiceCheckout
  then if has (note_ExternalID note)
       then Some (webhookKindCheckout, note_ExternalID note, webhookServiceCheckout) else None
  else if has (note_ExternalID note)
  then Some (webhookKindPayment, note_ExternalID note, ToLower (note_Service note))
  else None.

Definition claimsSettlement (note : c6WebhookNotification) : bool :=
  if negb (Nat.eqb (List.length (note_Pix note)) 0) || EqualFold (note_Status note) "PAID"
  then true
  else if negb (bool_decide (note_Information note = ""))
  then match parse_information (note_Information note) with
       | Some l => negb (Nat.eqb (List.length l) 0)
       | None => false
       end
  else false.

(** The bank's reads the five handlers use. *)
Record BankReads := {
  rd_charge : string -> string -> res ChargeResult;
  rd_checkout : option (string -> string -> res CheckoutResult);
  rd_boleto : option BoletoReader;
  rd_payments : bool;
  rd_rec : option (string -> string -> res RecResult);
  rd_cobr : option (string -> string -> res CobRResult)
}.

Context {S : Type} `{Repository S} `{UnitOfWork S}.
Context (now : Time) (clock : nat -> Time) (newID : string) (bank : BankReads).

(** The mandate handlers emit nothing. *)
Definition silently (m : M S error unit) : M (World S) error unit := fun w =>
  let '(s, r) := m (db w) in ({| db := s; emitted := emitted w |}, r).

Definition dispatch (kind : webhookKind) (tenantID objectID eventKey : string) (claims : bool)
    : M (World S) error unit :=
  let ev := {| ev_TenantID := tenantID; ev_TxID := objectID; ev_EventKey := eventKey;
               ev_ClaimsSettlement := claims |} in
  match kind with
  | webhookKindCheckout => HandleCheckoutEvent now newID (rd_checkout bank) ev
  | webhookKindRec =>
      silently (HandleRecEvent clock newID (rd_rec bank)
        {| rev_TenantID := tenantID; rev_IDRec := objectID; rev_EventKey := eventKey;
           rev_BankID := "" |})
  | webhookKindCobR =>
      silently (HandleCobREvent clock (rd_cobr bank)
        {| cev_TenantID := tenantID; cev_TxID := objectID; cev_EventKey := eventKey |})
  | webhookKindBoleto => HandleBoletoEvent now newID (rd_boleto bank) (rd_payments bank) ev
  | webhookKindPayment => HandlePaymentEvent now newID (rd_charge bank) ev
  end.

(** Steps 3 and 4 of [handleC6Webhook], the channel authenticated and the body
    decoded. *)
Definition handleC6Webhook (id : WebhookIdentity) (note : c6WebhookNotification)
    (w : World S) : World S * response :=
  if negb (bool_decide (note_ClientID note = "")) && negb (bool_decide (wid_ClientID id = ""))
     && negb (bool_decide (note_ClientID note = wid_ClientID id))
  then (w, Unauthorized)
  else
    match resolveWebhook note with
    | None => (w, BadRequest)
    | Some (kind, objectID, label) =>
        let eventKey := (objectID ++ "|" ++ label ++ "|" ++ note_Status note)%string in
        match dispatch kind (wid_TenantID id) objectID eventKey (claimsSettlement note) w with
        | (w, Err err) => (w, Failed err)
        | (w, Ok _) => (w, Accepted)
        end
    end.
End dispatch.

(** * Isolation of channels, over the in-memory store *)
Create HintDb frames discriminated.

Section isolation.
Context `{MapRange}.

Definition effect_tenant (e : effect) : string :=
  match e with
  | Publish _ m => msg_TenantID m
  | Attribute_ tenantID _ _ _ _ => tenantID
  end.

(** Ids of tenants as the system generates them. *)
Definition plain_tenant (t : string) : Prop := trimmed t /\ nul_free t.

(** A well-formed store: every aggregate stands under its own key, a tenant's payments have
    distinct idempotency keys, and no tenant id holds a NUL. *)
Record Rows_ok (s : snapshot) : Prop := {
  rows_payments : Store_ok s;
  rows_recs : forall k r, st_recs s !! k = Some r ->
    k = key (rec_tenantID r) (rec_idRec r) /\ nul_free (rec_tenantID r);
  rows_cobrs : forall k c, st_cobrs s !! k = Some c ->
    k = key (cobr_tenantID c) (cobr_txID c) /\ nul_free (cobr_tenantID c)
}.

(** Two states of a table agree on the rows that are not [T]'s. *)
Definition others_agree {X} (tenant : X -> string) (T : string) (m m' : gmap string X) : Prop :=
  forall k x, tenant x <> T -> m' !! k = Some x <-> m !! k = Some x.

(** What a step on behalf of tenant [T] may do to the store. *)
Record touches (T : string) (s s' : snapshot) : Prop := {
  t_tenants : st_tenants s' = st_tenants s;
  t_pricing : st_pricing s' = st_pricing s;
  t_ledger : st_ledger s' = st_ledger s;
  t_access : st_piiAccess s' = st_piiAccess s;
  t_payments : others_agree payment_tenantID T (st_payments s) (st_payments s');
  t_recs : others_agree rec_tenantID T (st_recs s) (st_recs s');
  t_cobrs : others_agree cobr_tenantID T (st_cobrs s) (st_cobrs s');
  t_marks : st_processed s ⊆ st_processed s' /\
    forall k, k ∈ st_processed s' -> k ∈ st_processed s \/ exists e, k = key T e;
  t_audit : exists es, st_audit s' = (st_audit s ++ es)%list /\
    Forall (fun e => entry_tenantID e = T) es;
  t_rows : Rows_ok s'
}.

(** A step taken on behalf of tenant [T]: what it emitted names [T], and the store changed
    in [T]'s rows, marks and audit entries only. *)
Definition confined (T : string) (w w' : World snapshot) : Prop :=
  (exists fx, emitted w' = (emitted w ++ fx)%list /\ forall e, e ∈ fx -> effect_tenant e = T) /\
  touches T (db w) (db w').

Lemma touches_refl T s : Rows_ok s -> touches T s s.
Proof. intros Hs. split; try done; [by split; auto|]. exists []. by rewrite app_nil_r. Qed.
Lemma touches_trans T s1 s2 s3 : touches T s1 s2 -> touches T s2 s3 -> touches T s1 s3.
Proof.
  intros [] []. split; try congruence; try done.
  - intros k x Hx. by etrans; [apply t_payments1|apply t_payments0].
  - intros k x Hx. by etrans; [apply t_recs1|apply t_recs0].
  - intros k x Hx. by etrans; [apply t_cobrs1|apply t_cobrs0].
  - destruct t_marks0 as [? H1], t_marks1 as [? H2]. split; [set_solver|].
    intros k [Hk|?]%H2; [by apply H1|by right].
  - destruct t_audit0 as (es & E & ?), t_audit1 as (es' & E' & ?). exists (es ++ es')%list.
    rewrite E', E, app_assoc. split; [done|by apply Forall_app].
Qed.

Lemma confined_refl T w : Rows_ok (db w) -> confined T w w.
Proof.
  intros ?. split; [|by apply touches_refl]. exists []. rewrite app_nil_r. split; [done|set_solver].
Qed.

(** A new row of [T] under its own key replaces no other tenant's. *)
Lemma others_agree_insert {X} (tenant id : X -> string) T (m : gmap string X) x :
  (forall k y, m !! k = Some y -> k = key (tenant y) (id y) /\ nul_free (tenant y)) ->
  nul_free T -> tenant x = T ->
  others_agree tenant T m (<[key (tenant x) (id x) := x]> m) /\
  (forall k y, <[key (tenant x) (id x) := x]> m !! k = Some y ->
     k = key (tenant y) (id y) /\ nul_free (tenant y)).
Proof.
  intros Hm HT Hx. split.
  - intros k y Hy. destruct (decide (key (tenant x) (id x) = k)) as [<-|?]; [|by rewrite lookup_insert_ne].
    rewrite lookup_insert_eq. split; [intros [= <-]; congruence|].
    intros Hk. destruct (Hm _ _ Hk) as [E Hn]. apply key_unique in E as [E _]; [congruence|by rewrite Hx|done].
  - intros k y [[<- <-]|[_ Hk]]%lookup_insert_Some; [by rewrite Hx|by apply Hm].
Qed.

(** Computations on the store for tenant [T]. *)
Definition frames (T : string) {A} (m : M snapshot error A) : Prop :=
  forall s, Rows_ok s -> touches T s (fst (m s)).

Section frames.
Context (T : string) (HT : plain_tenant T).

Lemma frames_ret {A} (a : A) : frames T (retM a).
Proof. intros s Hs. by apply touches_refl. Qed.
Lemma frames_lift {A} (r : res A) : frames T (liftM r).
Proof. intros s Hs. by apply touches_refl. Qed.
Lemma frames_bind {A B} (m : M snapshot error A) (f : A -> M snapshot error B) :
  frames T m -> (forall a, frames T (f a)) -> frames T (bindM m f).
Proof.
  intros Hm Hf s Hs. unfold bindM. specialize (Hm s Hs). destruct (m s) as [s1 [a|e]]; [|done].
  cbn [fst] in Hm. eapply touches_trans; [exact Hm|apply Hf, (t_rows _ _ _ Hm)].
Qed.
Lemma frames_wrap {A} f (m : M snapshot error A) : frames T m -> frames T (wrapM f m).
Proof. intros Hm s Hs. specialize (Hm s Hs). unfold wrapM. by destruct (m s) as [s1 [a|e]]. Qed.
Lemma frames_WithinTx {A} (m : M snapshot error A) : frames T m -> frames T (WithinTx m).
Proof.
  intros Hm s Hs. specialize (Hm s Hs). unfold WithinTx; simpl. unfold mem_WithinTx.
  destruct (m s) as [s1 [a|e]]; [done|by apply touches_refl].
Qed.
Lemma Rows_ok_tables s s' : st_payments s' = st_payments s -> st_recs s' = st_recs s ->
  st_cobrs s' = st_cobrs s -> Rows_ok s -> Rows_ok s'.
Proof.
  intros E1 E2 E3 [[] ? ?]. split; [split|..]; rewrite ?E1, ?E2, ?E3; eauto.
Qed.
Lemma frames_mark k : frames T (MarkProcessed T k).
Proof.
  intros s Hs. simpl. unfold markProcessed. case_bool_decide; [by apply touches_refl|]. simpl.
  split; try done; [| |by apply (Rows_ok_tables s)].
  - split; [set_solver|]. simpl. intros x [->%elem_of_singleton|?]%elem_of_union; [right; by eexists|by left].
  - exists []. by rewrite app_nil_r.
Qed.
Lemma frames_SaveRec r : rec_tenantID r = T -> frames T (SaveRec r).
Proof.
  intros Hr s Hs. destruct (others_agree_insert rec_tenantID rec_idRec T (st_recs s) r (rows_recs _ Hs)
    (proj2 HT) Hr) as [Ho Hk]. split; try done; [by split; auto| |].
  - exists []. by rewrite app_nil_r.
  - split; [destruct (rows_payments _ Hs); by split|exact Hk|apply (rows_cobrs _ Hs)].
Qed.
Lemma frames_SaveCobR c : cobr_tenantID c = T -> frames T (SaveCobR c).
Proof.
  intros Hc s Hs. destruct (others_agree_insert cobr_tenantID cobr_txID T (st_cobrs s) c (rows_cobrs _ Hs)
    (proj2 HT) Hc) as [Ho Hk]. split; try done; [by split; auto| |].
  - exists []. by rewrite app_nil_r.
  - split; [destruct (rows_payments _ Hs); by split|apply (rows_recs _ Hs)|exact Hk].
Qed.
Lemma frames_Append e : entry_tenantID e = T -> frames T (Append e).
Proof.
  intros He s Hs. split; try done; [by split; auto| |by apply (Rows_ok_tables s)].
  exists [e]. split; [done|by constructor].
Qed.
Hint Resolve frames_ret frames_lift frames_bind frames_wrap frames_WithinTx frames_mark
  frames_SaveRec frames_SaveCobR frames_Append : frames.

Lemma frames_save_rec clock newID ev r : rev_TenantID ev = T -> rec_tenantID r = T ->
  frames T (save_rec_audited clock newID ev r).
Proof.
  intros Hev Hr. unfold save_rec_audited. apply frames_bind; [auto with frames|]. intros _ s Hs.
  unfold bindM, wrapM at 1, liftM. destruct (NewRecurrenceTransitionEntry _ _ _ _ _ _) as [e|] eqn:E;
    [|by apply touches_refl].
  apply frames_wrap, Hs; [apply frames_Append]. apply NewRecurrenceTransitionEntry_Ok in E as (_ & _ & ->).
  rewrite Hev. apply HT.
Qed.

Lemma frames_recordRec clock newID ev r : rev_TenantID ev = T -> frames T (recordRec clock newID ev r).
Proof.
  intros Hev s Hs. unfold recordRec. rewrite FindRecByID_spec. destruct (st_recs s !! _) as [old|] eqn:Eo.
  - assert (Ho : rec_tenantID old = T).
    { destruct (rows_recs _ Hs _ _ Eo) as [E Hn]. rewrite Hev in E.
      apply key_unique in E as [E _]; [done|apply HT|done]. }
    cbv zeta. case_bool_decide; [by apply touches_refl|].
    destruct (rec_Transition _ _ _) as [new_|] eqn:ET; [|by apply touches_refl].
    apply frames_save_rec; [done| |done].
    by apply rec_Transition_inv in ET as [[-> _]|[_ ->]].
  - cbv beta iota zeta. rewrite errors_Is_refl. destruct (first_sight clock ev r) as [q|] eqn:EF;
      [|by apply touches_refl].
    apply frames_save_rec; [done| |done]. apply first_sight_Some in EF as (-> & _). rewrite Hev. apply HT.
Qed.

Lemma first_sight_cobr_tenant clock ev r c :
  first_sight_cobr clock ev r = Some c -> cobr_tenantID c = TrimSpace (cev_TenantID ev).
Proof.
  unfold first_sight_cobr. destruct (NewCobR _ _) as [c0|] eqn:EN; [|done].
  apply NewCobR_Ok in EN as (_ & _ & _ & Et & _). destruct (negb _); [|by intros [= <-]].
  destruct (cobr_Transition _ _ _) as [c1|] eqn:ET; intros [= <-]; [|done].
  by apply cobr_Transition_inv in ET as [[-> _]|[_ ->]].
Qed.

Lemma frames_recordCobR clock ev r : cev_TenantID ev = T -> frames T (recordCobR clock ev r).
Proof.
  intros Hev s Hs. unfold recordCobR. cbn [FindCobRByTxID txView]. unfold findCobRByTxID, readM, found.
  destruct (st_cobrs s !! _) as [old|] eqn:Eo.
  - assert (Ho : cobr_tenantID old = T).
    { destruct (rows_cobrs _ Hs _ _ Eo) as [E Hn]. rewrite Hev in E.
      apply key_unique in E as [E _]; [done|apply HT|done]. }
    cbv zeta. case_bool_decide; [by apply touches_refl|].
    destruct (cobr_Transition _ _ _) as [new_|] eqn:ET; [|by apply touches_refl].
    apply frames_wrap, Hs. apply frames_SaveCobR.
    by apply cobr_Transition_inv in ET as [[-> _]|[_ ->]].
  - cbv beta iota zeta. rewrite errors_Is_refl. destruct (first_sight_cobr clock ev r) as [q|] eqn:EF;
      [|by apply touches_refl].
    apply frames_wrap, Hs. apply frames_SaveCobR. rewrite (first_sight_cobr_tenant _ _ _ _ EF), Hev. apply HT.
Qed.

Lemma frames_reconcileRecurrence k m : frames T m -> frames T (reconcileRecurrence T k m).
Proof.
  intros Hm. unfold reconcileRecurrence. apply frames_WithinTx, frames_bind; [auto with frames|].
  intros []; simpl; [|apply frames_ret]. intros s Hs. specialize (Hm s Hs).
  destruct (m s) as [s1 [a|e]]; [done|]. by destruct (errors_Is e _).
Qed.

Lemma frames_HandleRec clock newID get ev : rev_TenantID ev = T -> frames T (HandleRecEvent clock newID get ev).
Proof.
  intros Hev. unfold HandleRecEvent. do 3 (case_match; [by intros s Hs; apply touches_refl|]).
  destruct get as [g|]; [|by intros s Hs; apply touches_refl]. rewrite Hev.
  apply frames_reconcileRecurrence, frames_bind; auto using frames_recordRec with frames.
Qed.

Lemma frames_HandleCobR clock get ev : cev_TenantID ev = T -> frames T (HandleCobREvent clock get ev).
Proof.
  intros Hev. unfold HandleCobREvent. do 3 (case_match; [by intros s Hs; apply touches_refl|]).
  destruct get as [g|]; [|by intros s Hs; apply touches_refl]. rewrite Hev.
  apply frames_reconcileRecurrence, frames_bind; auto using frames_recordCobR with frames.
Qed.
End frames.

(** An answer other than success left no trace. *)
Definition traceless (m : M (World snapshot) error unit) : Prop :=
  forall w w' e, m w = (w', Err e) -> w' = w.
(** A handler working for tenant [T]. *)
Definition serves (T : string) (m : M (World snapshot) error unit) : Prop :=
  traceless m /\ forall w, Rows_ok (db w) -> confined T w (m w).1.

Lemma settle_is_delivery now newID ev reconcile w :
  settle now newID ev reconcile w =
  deliver w {| d_ev := ev; d_answer := reconcile (ev_TenantID ev) (ev_TxID ev);
               d_now := now; d_id := newID |}.
Proof. reflexivity. Qed.

Lemma mark_touches s ev : Rows_ok s -> touches (ev_TenantID ev) s (mark s ev).
Proof.
  intros Hs. split; try done; [| |by apply (Rows_ok_tables s)].
  - split; [set_solver|]. simpl. intros x [->%elem_of_singleton|?]%elem_of_union; [right; by eexists|by left].
  - exists []. by rewrite app_nil_r.
Qed.

Lemma outcome_touches s d s' fx r :
  trimmed (ev_TenantID (d_ev d)) -> Rows_ok s -> outcome s d s' fx r -> touches (ev_TenantID (d_ev d)) s s'.
Proof.
  intros HT Hs HO. pose proof (outcome_ok _ _ _ _ _ (rows_payments _ Hs) HO) as Hok.
  destruct HO; try (by apply touches_refl); try (by apply mark_touches).
  - eapply touches_trans; [by apply mark_touches|]. split; try done; [by split; auto| |].
    + exists [entry]. split; [done|]. constructor; [|done].
      unfold NewSettlementMismatchEntry in H4. destruct (required_id _) as [i|]; [|done].
      destruct (required_tenant _) as [t|] eqn:Et; [|done]. destruct (required_tx _) as [x|]; [|done].
      apply required_Ok in Et as [_ ->]. cbn in H4. injection H4 as <-. exact HT.
    + by apply (Rows_ok_tables s).
  - eapply touches_trans; [by apply mark_touches|]. split; try done; [|by split; auto| |].
    + intros k q Hne. unfold store_payment, mark. simpl.
      destruct (lookup_tx_inv _ _ _ _ H4) as (Et & _ & k' & Hk').
      pose proof (MarkPaid_keeps _ _ _ _ H5) as Hid. injection Hid as Eid Etn _ _ _ _.
      pose proof (ok_keyed _ (rows_payments _ Hs) _ _ Hk') as Ek. rewrite Eid, Etn, <- Ek.
      destruct (decide (k = k')) as [->|?]; [|by rewrite lookup_insert_ne].
      rewrite lookup_insert_eq, Hk'. split; intros; simplify_eq; congruence.
    + exists []. by rewrite app_nil_r.
    + split; [done|apply (rows_recs _ Hs)|apply (rows_cobrs _ Hs)].
Qed.

Lemma outcome_confined s d s' fx r em :
  trimmed (ev_TenantID (d_ev d)) -> Rows_ok s -> outcome s d s' fx r ->
  confined (ev_TenantID (d_ev d)) {| db := s; emitted := em |}
    {| db := s'; emitted := (em ++ fx)%list |}.
Proof.
  intros HT Hs HO. split; [|by eapply outcome_touches]. cbn [emitted].
  exists fx. split; [done|]. destruct HO; try (by intros ? ?%not_elem_of_nil).
  destruct (lookup_tx_inv _ _ _ _ H4) as (Et & _ & _).
  pose proof (MarkPaid_keeps _ _ _ _ H5) as Hid. injection Hid as _ Etn _ _ _ _.
  unfold settlement_effects. intros e [<-|[<-|[]]]%list_elem_of_In; simpl; congruence.
Qed.

Section serving.
Context (T : string) (HT : plain_tenant T).

Lemma serves_settle now newID ev reconcile : ev_TenantID ev = T ->
  serves T (settle now newID ev reconcile).
Proof.
  intros <-. split.
  - intros w w' e HE. by eapply settle_Err.
  - intros w Hs. rewrite settle_is_delivery.
    set (d := {| d_ev := ev; d_answer := reconcile (ev_TenantID ev) (ev_TxID ev);
      d_now := now; d_id := newID |}).
    destruct (deliver_step w d (rows_payments _ Hs)) as [->|(s' & fx & r & HO & _ & ->)];
      [by apply confined_refl|].
    destruct w as [s0 em]. exact (outcome_confined s0 d s' fx r em (proj1 HT) Hs HO).
Qed.

Lemma serves_throw e : serves T (throwM e).
Proof. split; [by intros ???[=]|intros; by apply confined_refl]. Qed.

Lemma serves_silently (m : M snapshot error unit) :
  frames T m -> (forall s s' e, m s = (s', Err e) -> s' = s) -> serves T (silently m).
Proof.
  intros Hk He. unfold silently. split.
  - intros w w' e HE. destruct (m (db w)) as [s1 r] eqn:Em. simplify_eq/=.
    apply He in Em as ->. by destruct w.
  - intros w Hs. specialize (Hk (db w) Hs). destruct (m (db w)) as [s1 r]. split; [|done].
    exists []. rewrite app_nil_r. split; [done|set_solver].
Qed.

Lemma HandleRec_traceless clock newID get ev s s' e :
  HandleRecEvent clock newID get ev s = (s', Err e) -> s' = s.
Proof.
  unfold HandleRecEvent. do 3 (case_match; [by intros [=]|]). destruct get as [g|]; [|by intros [=]].
  apply WithinTx_Err.
Qed.
Lemma HandleCobR_traceless clock get ev s s' e :
  HandleCobREvent clock get ev s = (s', Err e) -> s' = s.
Proof.
  unfold HandleCobREvent. do 3 (case_match; [by intros [=]|]). destruct get as [g|]; [|by intros [=]].
  apply WithinTx_Err.
Qed.

Lemma serves_HandleBoleto now newID boleto payments ev : ev_TenantID ev = T ->
  serves T (HandleBoletoEvent now newID boleto payments ev).
Proof.
  intros Hev. assert (HB : forall w, exists m, serves T m /\
            HandleBoletoEvent now newID boleto payments ev w = m w).
  { intros w. unfold HandleBoletoEvent. repeat case_match;
      first [eexists; split; [apply serves_throw|reflexivity]
            |eexists; split; [by apply serves_settle|reflexivity]]. }
  split; [intros w w' e|intros w]; destruct (HB w) as (m & [Ht Hc] & ->); eauto.
Qed.

Lemma serves_dispatch now clock newID bank kind objectID eventKey claims :
  serves T (dispatch now clock newID bank kind T objectID eventKey claims).
Proof.
  destruct kind; simpl.
  - by apply serves_settle.
  - unfold HandleCheckoutEvent. destruct (rd_checkout bank); [|apply serves_throw]. by apply serves_settle.
  - eapply serves_silently; [by apply frames_HandleRec|eauto using HandleRec_traceless].
  - eapply serves_silently; [by apply frames_HandleCobR|eauto using HandleCobR_traceless].
  - by apply serves_HandleBoleto.
Qed.
End serving.

(** C9. A channel speaks for its own tenant only.  Over a well-formed store, whatever the
    notification says and whatever the bank answers, what is emitted names the tenant of the
    authenticated channel; every payment, mandate and recurring charge of another tenant is
    exactly where and what it was; the anti-replay marks and audit entries added are that
    tenant's, none is lost; no tenant, price, ledger or access row changes; and the store
    stays well-formed.  A notification naming another merchant is refused; and any answer but
    202 means that nothing happened, the anti-replay mark included.  The channel's tenant id
    holds no NUL and no surrounding space. *)
Theorem channel_isolation parse now clock newID bank id note w
    (HT : plain_tenant (wid_TenantID id)) (Hs : Rows_ok (db w)) :
  let '(w', resp) := handleC6Webhook parse now clock newID bank id note w in
  confined (wid_TenantID id) w w' /\
  (resp <> Accepted -> w' = w) /\
  (note_ClientID note <> "" -> wid_ClientID id <> "" -> note_ClientID note <> wid_ClientID id ->
   resp = Unauthorized).
Proof.
  unfold handleC6Webhook.
  destruct (negb _ && negb _ && negb _) eqn:Em; [split_and!; by auto using confined_refl|].
  assert (note_ClientID note <> "" -> wid_ClientID id <> "" ->
          note_ClientID note <> wid_ClientID id -> False) as Hm.
  { intros. by rewrite !bool_decide_false in Em by done. }
  destruct (resolveWebhook parse note) as [[[kind o] l]|];
    [|split_and!; [by apply confined_refl|done|intros; exfalso; eauto]].
  destruct (serves_dispatch (wid_TenantID id) HT now clock newID bank kind o
    (o ++ "|" ++ l ++ "|" ++ note_Status note)%string (claimsSettlement parse note)) as [Ht Hc].
  specialize (Hc w Hs). destruct (dispatch _ _ _ _ _ _ _ _ _ w) as [w' [a|e]] eqn:Ed.
  - split_and!; [done|done|intros; exfalso; eauto].
  - split_and!; [done|intros _; by eapply Ht|intros; exfalso; eauto].
Qed.
End isolation.

(** * Concrete notifications *)
Definition two_payments : snapshot :=
  let p2 := payment_SetTxID (payment_Rehydrate "p2" "t1" "pix" "k2" "" (payment_amount sample_payment) StatusPending
                               sample_time sample_time) "tx2" in
  with_payments sample_store (<[key "t1" "p2" := p2]> (st_payments sample_store)).
Definition paying_bank : BankReads :=
  {| rd_charge := fun _ _ => Ok (answer "paid" 1050);
     rd_checkout := None; rd_boleto := Some paid_reader; rd_payments := true;
     rd_rec := None; rd_cobr := None |}.
Definition sample_note (service externalID status : string) (pix : list string)
    : c6WebhookNotification :=
  {| note_ExternalID := externalID; note_ClientID := "m1"; note_Service := service;
     note_Status := status; note_Information := "";
     note_Pix := map (fun tx => {| pr_EndToEndID := ("E" ++ tx)%string; pr_TxID := tx |}) pix;
     note_IDRec := ""; note_TxID := "" |}.
Definition sample_channel : WebhookIdentity := {| wid_TenantID := "t1"; wid_ClientID := "m1" |}.
Definition receive (note : c6WebhookNotification) (w : World snapshot)
    : World snapshot * response :=
  handleC6Webhook (fun _ => None) sample_time (fun _ => sample_time) "id1" paying_bank
    sample_channel note w.
Definition status_at (w : World snapshot) (k : string) : option Status :=
  payment_status <$> st_payments (db w) !! k.

(** A store with a mandate of each of two tenants; the bank shows the first approved. *)
Definition two_mandates : snapshot :=
  let r2 := RehydrateRec "R1" "t2" "c6" "contract" {| devedor_doc := "12345678901"; devedor_nome := "Ana" |}
              "2024-01-01" "MENSAL" 5000 RecCriada sample_time sample_time [] in
  with_recs sample_store {[ key "t1" "R1" := sample_rec "R1" RecCriada; key "t2" "R1" := r2 ]}.
Definition mandate_bank : BankReads :=
  {| rd_charge := fun _ _ => Err ErrNotFound; rd_checkout := None; rd_boleto := None;
     rd_payments := true; rd_rec := Some (fun _ _ => Ok (bank_rec "R1" RecAprovada)); rd_cobr := None |}.
Definition mandate_note : c6WebhookNotification :=
  {| note_ExternalID := ""; note_ClientID := "m1"; note_Service := ""; note_Status := "APROVADA";
     note_Information := ""; note_Pix := []; note_IDRec := "R1"; note_TxID := "" |}.

Lemma two_mandates_ok : Rows_ok two_mandates.
Proof.
  split; [destruct sample_store_ok as [H1 H2]; by split; [exact H1|exact H2]| |by intros k c Hc].
  intros k r Hr. cbn [two_mandates st_recs with_recs] in Hr.
  apply lookup_insert_Some in Hr as [[<- <-]|[_ Hr]]; [split; [done|]|
    apply lookup_singleton_Some in Hr as [<- <-]; split; [done|]]; vm_compute; set_solver.
Qed.

Lemma channel_isolation_witness :
  let w0 := {| db := two_mandates; emitted := [] |} in
  let '(w1, resp) := handleC6Webhook (fun _ => None) sample_time (fun _ => sample_time) "id1"
                       mandate_bank sample_channel mandate_note w0 in
  resp = Accepted /\ st_recs (db w1) !! key "t2" "R1" = st_recs two_mandates !! key "t2" "R1" /\
  (rec_status <$> st_recs (db w1) !! key "t1" "R1") = Some RecAprovada.
Proof.
  cbv zeta. pose proof (channel_isolation (fun _ => None) sample_time (fun _ => sample_time) "id1"
    mandate_bank sample_channel mandate_note {| db := two_mandates; emitted := [] |}) as H.
  destruct (handleC6Webhook _ _ _ _ _ _ _ _) as [w1 resp] eqn:E.
  destruct H as [[_ Hc] _]; [split; [reflexivity|apply (bool_decide_unpack _); vm_compute; exact I]|
    exact two_mandates_ok|].
  assert (Er : resp = Accepted /\ (rec_status <$> st_recs (db w1) !! key "t1" "R1") = Some RecAprovada).
  { assert (E' := f_equal snd E). assert (E2 := f_equal (fun x => rec_status <$> st_recs (db (fst x)) !! key "t1" "R1") E).
    cbn [fst snd] in E', E2. rewrite <- E', <- E2. split; vm_compute; reflexivity. }
  split; [exact (proj1 Er)|]. split; [|exact (proj2 Er)].
  apply (t_recs _ _ _ Hc (key "t2" "R1")); [vm_compute; discriminate|reflexivity].
Defined.

(** A notification that lists several received PIX settles the first one only: with
    two pending charges the bank reports as paid in full, the notification naming both
    is accepted, the second charge stays pending, and the bank's redelivery of the same
    notification is accepted without any effect. *)
Theorem batched_pix_dropped :
  let note := sample_note "PIX" "" "CONCLUIDA" ["tx1"; "tx2"] in
  let w0 := {| db := two_payments; emitted := [] |} in
  let w1 := (receive note w0).1 in
  (receive note w0).2 = Accepted /\
  status_at w1 (key "t1" "p1") = Some StatusPaid /\
  status_at w1 (key "t1" "p2") = Some StatusPending /\
  receive note w1 = (w1, Accepted) /\
  status_at (receive (sample_note "PIX" "" "CONCLUIDA" ["tx2"]) w1).1 (key "t1" "p2")
    = Some StatusPaid.
Proof. cbv zeta. split_and!; vm_compute; reflexivity. Qed.

(** The event key carries the unverified status text of the notification, so the
    same paid boleto notified under two status texts is announced twice, under two
    idempotency keys; the same notification under the other boleto service is not. *)
Theorem second_status_announces_again :
  let first := sample_note "BANK_SLIP" "tx1" "PAID" [] in
  let again := sample_note "BANK_SLIP" "tx1" "SETTLED" [] in
  let other := sample_note "BANK_SLIP_PIX" "tx1" "PAID" [] in
  let w1 := (receive first sample_world).1 in
  published (emitted w1) = [("t1", "tx1|boleto|PAID")] /\
  receive other w1 = (w1, Accepted) /\
  published (emitted (receive again w1).1)
    = [("t1", "tx1|boleto|PAID"); ("t1", "tx1|boleto|SETTLED")] /\
  st_payments (db (receive again w1).1) = st_payments (db w1).
Proof. cbv zeta. split_and!; vm_compute; reflexivity. Qed.
