(* ===== verification/TenantAuth.v ===== *)
(** internal/adapters/http/auth.go: who a request is. The bearer token and the client
    selector of a tenant request, the operator of an admin request, the channel of a webhook,
    and the choke point that decides whether a request is served and for whom. *)
From S2P Require Import Prelude GoStrings GoTime GoCrypto Shared Tenants Ports MemStore.
From S2P Require Import WebhookDispatch Capabilities WebhookRefs AccountKeys.

(** * Roles and principals *)
Inductive Role := RoleAdmin | RoleOperator | OtherRole (text : string).
Record Principal := { pr_AccountID : string; pr_TenantID : string }.
Record AdminPrincipal := { ap_OperatorID : string; ap_Role : Role }.

Definition Role_valid (r : Role) : bool :=
  match r with RoleAdmin | RoleOperator => true | OtherRole _ => false end.

(** * StaticTokenAuth *)
Record StaticTokenAuth := {
  tenantTokens : gmap string string;
  adminRoles : gmap string Role;
  webhookRefs : gmap string WebhookIdentity
}.

Definition validTenantRef (ref : string) : bool := Valid ref.
Definition hashTenantRef (ref : string) : string := hex (Sum ref).

(** The references' map is rebuilt under their digests, entry by entry. *)
Definition add_ref (m : gmap string WebhookIdentity) (e : string * WebhookIdentity)
    : gmap string WebhookIdentity :=
  if negb (validTenantRef e.1) || bool_decide (wid_TenantID e.2 = "") then m
  else <[hashTenantRef e.1 := e.2]> m.

Definition NewStaticTokenAuthWithRoles (tokens : gmap string string) (roles : gmap string Role)
    (refs : gmap string WebhookIdentity) : StaticTokenAuth :=
  {| tenantTokens := tokens;
     adminRoles := filter (fun e => e.1 <> "" /\ Role_valid e.2 = true) roles;
     webhookRefs := foldl add_ref ∅ (map_to_list refs) |}.

Definition AuthenticateTenant (a : StaticTokenAuth) (token : string) : option string :=
  if bool_decide (token = "") then None else tenantTokens a !! token.

Definition AuthenticateTenantPrincipal (a : StaticTokenAuth) (token : string) : option Principal :=
  tenantID ← AuthenticateTenant a token;
  Some {| pr_TenantID := tenantID; pr_AccountID := SelfAccountID tenantID |}.

Definition deriveOperatorID (token : string) : string :=
  "op-" ++ hex (take 8 (sha256 (bytes_of token))).

(** The scan compares every entry, to its end; the last match stands. *)
Definition scan_roles (token : string) (entries : list (string * Role)) : option Role :=
  foldl (fun found e => if bool_decide (e.1 = token) then Some e.2 else found) None entries.

Definition AuthenticateAdminPrincipal (a : StaticTokenAuth) (token : string)
    : option AdminPrincipal :=
  if bool_decide (token = "") then None
  else
    matched ← scan_roles token (map_to_list (adminRoles a));
    Some {| ap_OperatorID := deriveOperatorID token; ap_Role := matched |}.

(** [refStore], [credStore]: the durable lookups, if wired; the second answers a client id. *)
Definition AuthenticateWebhookCtx (a : StaticTokenAuth)
    (refStore : option (bytes -> res (option string)))
    (credStore : option (string -> res string)) (tenantRef : string) : option WebhookIdentity :=
  if negb (validTenantRef tenantRef) then None
  else
    match webhookRefs a !! hashTenantRef tenantRef with
    | Some id => Some id
    | None =>
        lookup ← refStore;
        match lookup (Sum tenantRef) with
        | Err _ | Ok None => None
        | Ok (Some tenantID) =>
            if bool_decide (tenantID = "") then None
            else Some {| wid_TenantID := tenantID;
                         wid_ClientID := match credStore with
                                         | Some get => match get tenantID with
                                                       | Ok clientID => clientID
                                                       | Err _ => ""
                                                       end
                                         | None => ""
                                         end |}
        end
    end.

(** * The request's headers *)
Definition bearerToken (authorization : string) : string :=
  let prefix := "Bearer " in
  if (len prefix <? len authorization)
     && EqualFold (String.substring 0 (String.length prefix) authorization) prefix
  then TrimSpace (String.substring (String.length prefix)
                    (String.length authorization - String.length prefix) authorization)
  else "".

(** * The owner of a tenant *)
Definition StoreAccountResolver_ResolveAccountID
    (FindTenantByID : option (string -> res Tenant)) (tenantID : string) : string :=
  match FindTenantByID with
  | None => ""
  | Some find =>
      let tenantID := TrimSpace tenantID in
      if bool_decide (tenantID = "") then ""
      else match find tenantID with Err _ => "" | Ok t => tenant_accountID t end
  end.

(** Resolvers, the unwired ones [None]. *)
Definition resolvers := list (option (string -> string)).

Fixpoint resolveOwner (tenantID : string) (resolver : resolvers) : string :=
  match resolver with
  | [] => ""
  | None :: rest => resolveOwner tenantID rest
  | Some resolve :: _ => resolve tenantID
  end.

(** The first resolver that knows a parent replaces the default account. *)
Fixpoint parent_account (tenantID default_ : string) (resolver : resolvers) : string :=
  match resolver with
  | [] => default_
  | None :: rest => parent_account tenantID default_ rest
  | Some resolve :: rest =>
      if bool_decide (resolve tenantID = "") then parent_account tenantID default_ rest
      else resolve tenantID
  end.

(** * The choke point *)
Record accountKeyGuard := { akg_enabled : bool; akg_keyAuth : option (string -> option string) }.
Definition guard_active (g : accountKeyGuard) : bool :=
  akg_enabled g && match akg_keyAuth g with Some _ => true | None => false end.

(** The answer of the middleware: an error status, or the next handler under a tenant and an
    account. *)
Inductive passage :=
| Refused (status : Z)
| Served (tenantID accountID : string).

Definition tenantAuthMiddlewareWithSelector (auth : string -> option Principal)
    (guard : accountKeyGuard) (resolver : resolvers) (authorization clientTenant : string)
    : passage :=
  let bearer := bearerToken authorization in
  let selector := TrimSpace clientTenant in
  match (if guard_active guard && HasSecretShape bearer then akg_keyAuth guard else None) with
  | Some keyAuth =>
      match keyAuth bearer with
      | None => Refused 401
      | Some accountID =>
          if bool_decide (selector = "") then Refused 400
          else
            let owner := resolveOwner selector resolver in
            if bool_decide (owner = "") || negb (bool_decide (owner = accountID))
            then Refused 404
            else Served selector accountID
      end
  | None =>
      match auth bearer with
      | None => Refused 401
      | Some p =>
          if guard_active guard && negb (bool_decide (selector = "")) then Refused 400
          else Served (pr_TenantID p) (parent_account (pr_TenantID p) (pr_AccountID p) resolver)
      end
  end.

Definition tenantAuthMiddleware (auth : string -> option Principal) (resolver : resolvers)
    (authorization : string) : passage :=
  tenantAuthMiddlewareWithSelector auth {| akg_enabled := false; akg_keyAuth := None |} resolver
    authorization "".

(** ** The admin plane *)
Inductive admin_passage := AdminRefused (status : Z) | AdminServed (p : AdminPrincipal).
Definition adminAuthMiddleware (auth : string -> option AdminPrincipal) (authorization : string)
    : admin_passage :=
  match auth (bearerToken authorization) with
  | None => AdminRefused 401
  | Some p => AdminServed p
  end.

#[export] Instance Role_eq_dec : EqDecision Role.
Proof. solve_decision. Defined.

(** [None]: the next handler runs. *)
Definition requireRole (allowed : list Role) (role : option Role) : option Z :=
  match role with
  | None => Some 401
  | Some role => if existsb (fun a => bool_decide (role = a)) allowed then None else Some 403
  end.

(** * What a tenant request can reach *)
Section scope.
Context (accounts : list mint) (db : snapshot) (auth : StaticTokenAuth).
Context (distinct : NoDup (granted (mint_grants accounts))).

(** The choke point as the server wires it: the account keys of the store, the static tenant
    tokens, and the account of a tenant read from the tenants' table. *)
Definition key_guard : accountKeyGuard :=
  {| akg_enabled := true;
     akg_keyAuth := Some (AuthenticateAccountKey (run_mints accounts)) |}.
Definition table_owner : string -> string :=
  StoreAccountResolver_ResolveAccountID (Some (fun id => snd (findTenantByID id db))).
Definition gate : string -> string -> passage :=
  tenantAuthMiddlewareWithSelector (AuthenticateTenantPrincipal auth) key_guard [Some table_owner].

Definition owned_by (t a : string) : Prop :=
  exists row, st_tenants db !! t = Some row /\ tenant_accountID row = a.

Lemma table_owner_spec t a : TrimSpace t = t -> t <> "" -> a <> "" ->
  table_owner t = a <-> owned_by t a.
Proof.
  intros Ht Hne Ha. unfold table_owner, StoreAccountResolver_ResolveAccountID, findTenantByID,
    readM, found, owned_by. rewrite Ht, bool_decide_false by done. cbn [snd].
  destruct (st_tenants db !! t) as [row|].
  - split; [by exists row|]. by intros (? & [= ->] & ?).
  - split; [by intros <-|]. by intros (? & ? & _).
Qed.

(** C10. An account key reaches its own account's tenants and nothing else: a request whose
    bearer has the shape of an account key is served exactly when the key is the last one
    minted for an account and the selected tenant's row names that account; it is served
    under that tenant and that account. *)
Theorem account_key_scope authorization selector t a
    (Hshape : HasSecretShape (bearerToken authorization) = true) :
  gate authorization selector = Served t a <->
  held (mint_grants accounts) !! a = Some (HashSecret (bearerToken authorization)) /\
  t = TrimSpace selector /\ t <> "" /\ a <> "" /\ owned_by t a.
Proof.
  assert (Hne : bearerToken authorization <> "") by (by intros E; rewrite E in Hshape).
  unfold gate, tenantAuthMiddlewareWithSelector, key_guard, guard_active.
  cbn [akg_enabled akg_keyAuth andb]. rewrite Hshape. cbn [resolveOwner].
  rewrite <- (authenticate_held accounts _ a distinct Hne).
  destruct (AuthenticateAccountKey _ _) as [a'|]; [|by split; [|intros [? _]]].
  case_bool_decide as Es; [split; [done|intros (_ & -> & ? & _); done]|].
  destruct (bool_decide (table_owner (TrimSpace selector) = "") ||
            negb (bool_decide (table_owner (TrimSpace selector) = a'))) eqn:Eo.
  - split; [done|]. intros ([= ->] & -> & _ & Ha & Hown).
    apply table_owner_spec in Hown; [|apply TrimSpace_idem|done..].
    rewrite Hown, bool_decide_false, bool_decide_true in Eo by done. done.
  - apply orb_false_iff in Eo as [E1 E2]. bools.
    split.
    + intros [= <- <-]. split_and!; [done..|congruence|].
      apply table_owner_spec; [apply TrimSpace_idem|done|congruence|done].
    + intros ([= ->] & -> & _). done.
Qed.
End scope.

Definition scope_mints : list mint := [sample_mint "a" "acc1"; sample_mint "b" "acc1"].
Definition scope_db : snapshot :=
  with_tenants emptySnapshot
    {[ "t1" := {| tenant_id := "t1"; tenant_name := "n"; tenant_active := true;
                  tenant_createdAt := zeroTime; tenant_accountID := "acc1" |};
       "t2" := {| tenant_id := "t2"; tenant_name := "n"; tenant_active := true;
                  tenant_createdAt := zeroTime; tenant_accountID := "acc2" |} ]}.
Definition scope_auth : StaticTokenAuth := NewStaticTokenAuthWithRoles {[ "tok" := "t2" ]} ∅ ∅.
Definition scope_header (c : ascii) : string :=
  "bearer " ++ secretPrefix ++ RawURLEncoding (replicate secretBytes c).
Lemma account_key_scope_witness :
  gate scope_mints scope_db scope_auth (scope_header "b") " t1 " = Served "t1" "acc1" /\
  gate scope_mints scope_db scope_auth (scope_header "b") "t2" = Refused 404 /\
  gate scope_mints scope_db scope_auth (scope_header "a") "t1" = Refused 401.
Proof.
  split; [|vm_compute; repeat split].
  apply (account_key_scope scope_mints scope_db scope_auth).
  - apply (bool_decide_unpack _). vm_compute. exact I.
  - vm_compute. reflexivity.
  - split_and!; [vm_compute; reflexivity..|discriminate|discriminate|].
    eexists. split; [vm_compute; reflexivity|reflexivity].
Defined.

(** The choke point does not look whether the selected tenant is active: a suspended
    company's requests pass it, by account key and by token, and are left to the checks of
    the services behind it. *)
Theorem suspended_tenant_served :
  let db := with_tenants emptySnapshot
    {[ "t1" := {| tenant_id := "t1"; tenant_name := "n"; tenant_active := false;
                  tenant_createdAt := zeroTime; tenant_accountID := "acc1" |} ]} in
  let tokens := NewStaticTokenAuthWithRoles {[ "tok" := "t1" ]} ∅ ∅ in
  gate scope_mints db tokens (scope_header "b") "t1" = Served "t1" "acc1" /\
  gate scope_mints db tokens "Bearer tok" "" = Served "t1" "acc1".
Proof. vm_compute. repeat split. Qed.

(** * The tenant tokens *)

(** A tenant token is bound to its tenant: in the presence of account keys, a bearer that
    is not one is served exactly when it is a configured token and the request names no
    other client; it is served under the token's own tenant, whatever the headers say, and
    under that tenant's parent account, or its own when it has no parent. *)
Theorem tenant_token_scope ms db auth authorization selector t a
    (Hshape : HasSecretShape (bearerToken authorization) = false) :
  gate ms db auth authorization selector = Served t a <->
  bearerToken authorization <> "" /\ tenantTokens auth !! bearerToken authorization = Some t /\
  blank selector = true /\
  a = (if bool_decide (table_owner db t = "") then SelfAccountID t else table_owner db t).
Proof.
  unfold gate, tenantAuthMiddlewareWithSelector, key_guard, guard_active, blank.
  cbn [akg_enabled akg_keyAuth andb]. rewrite Hshape. cbn [parent_account].
  unfold AuthenticateTenantPrincipal, AuthenticateTenant.
  case_bool_decide as Eb; [by split; [|intros [? _]]|].
  destruct (tenantTokens auth !! _) as [t'|]; cbn [mbind option_bind pr_TenantID pr_AccountID];
    [|by split; [|intros (_ & ? & _)]].
  case_bool_decide as Es; cbn [negb].
  - split; [intros [= <- <-]; done|]. intros (_ & [= ->] & _ & ->). done.
  - split; [done|]. by intros (_ & _ & ? & _).
Qed.
Lemma tenant_token_scope_witness :
  gate scope_mints scope_db scope_auth "Bearer tok" "" = Served "t2" "acc2" /\
  gate scope_mints scope_db scope_auth "Bearer tok" "t1" = Refused 400.
Proof.
  split; [|vm_compute; reflexivity].
  apply (tenant_token_scope scope_mints scope_db scope_auth); [vm_compute; reflexivity|].
  split_and!; [discriminate|vm_compute; reflexivity..].
Defined.

(** * The admin plane *)
Lemma scan_roles_spec token l found : NoDup l.*1 ->
  foldl (fun found e => if bool_decide (e.1 = token) then Some e.2 else found) found l =
  match list_find (fun e : string * Role => e.1 = token) l with
  | Some (_, e) => Some e.2
  | None => found
  end.
Proof.
  revert found. induction l as [|[k r] l IH]; intros found Hn; [done|].
  cbn in Hn. apply NoDup_cons in Hn as [Hk Hn]. cbn [foldl list_find fst snd]. rewrite IH by done.
  case_bool_decide as E; [|rewrite decide_False by done; by destruct (list_find _ l) as [[??]|]].
  rewrite decide_True by done. subst k.
  destruct (list_find _ l) as [[i e]|] eqn:Ef; [|done].
  apply list_find_Some in Ef as (Hl & <- & _). exfalso. apply Hk.
  apply list_elem_of_fmap. eexists. split; [done|]. by eapply list_elem_of_lookup_2.
Qed.

Lemma scan_roles_lookup (m : gmap string Role) token :
  scan_roles token (map_to_list m) = m !! token.
Proof.
  unfold scan_roles. rewrite scan_roles_spec by apply NoDup_fst_map_to_list.
  destruct (list_find _ (map_to_list m)) as [[i e]|] eqn:Ef.
  - apply list_find_Some in Ef as (Hl & <- & _). symmetry. apply elem_of_map_to_list.
    rewrite <- surjective_pairing. by eapply list_elem_of_lookup_2.
  - apply list_find_None in Ef. destruct (m !! token) as [r|] eqn:E; [|done].
    apply elem_of_map_to_list in E. rewrite Forall_forall in Ef. by destruct (Ef _ E).
Qed.

(** An operator is admitted to a route exactly when the bearer is a configured token with
    a valid role, and that role is one of the route's; in whatever order the tokens are
    compared. *)
Theorem admin_admitted tokens roles refs authorization allowed :
  (exists p, adminAuthMiddleware
               (AuthenticateAdminPrincipal (NewStaticTokenAuthWithRoles tokens roles refs))
               authorization = AdminServed p /\
             requireRole allowed (Some (ap_Role p)) = None) <->
  exists r, bearerToken authorization <> "" /\ roles !! bearerToken authorization = Some r /\
            Role_valid r = true /\ r ∈ allowed.
Proof.
  unfold adminAuthMiddleware, AuthenticateAdminPrincipal, requireRole.
  set (tok := bearerToken authorization). rewrite scan_roles_lookup. cbn [adminRoles
    NewStaticTokenAuthWithRoles].
  assert (Hall : forall r, existsb (fun a => bool_decide (r = a)) allowed = true <-> r ∈ allowed).
  { intros r. rewrite existsb_exists, list_elem_of_In. split.
    - intros (x & Hx & E). by apply bool_decide_eq_true in E as ->.
    - intros. exists r. by rewrite bool_decide_true. }
  case_bool_decide as Et; [split; [by intros (? & ? & _)|by intros (? & ? & _)]|].
  split.
  - intros (p & H & Hr). destruct (filter _ roles !! tok) as [r|] eqn:E; [|done].
    cbn in H. simplify_eq. cbn in Hr. apply map_lookup_filter_Some in E as (E & _ & Hv).
    exists r. split_and!; [done..|]. apply Hall. by destruct (existsb _ _).
  - intros (r & _ & E & Hv & Hin).
    rewrite (proj2 (map_lookup_filter_Some _ _ _ _) (conj E (conj Et Hv))).
    eexists. split; [reflexivity|]. cbn. by rewrite (proj2 (Hall r) Hin).
Qed.

(** * The webhook channel *)

(** A callback address authenticates its tenant's channel only while it is that tenant's
    last reference: with no statically configured references, after any history of mints and
    revocations with distinct digests, an address is accepted for a tenant exactly when it
    is well formed and the tenant's standing reference. *)
Theorem webhook_channel_exact auth ops creds ref t
    (Hn : NoDup (granted (ref_grants ops))) (Henv : webhookRefs auth = ∅) :
  (exists client, AuthenticateWebhookCtx auth (Some (LookupWebhookRef (run_refs ops))) creds ref =
                  Some {| wid_TenantID := t; wid_ClientID := client |}) <->
  Valid ref = true /\ t <> "" /\ held (ref_grants ops) !! t = Some (hex (Sum ref)).
Proof.
  rewrite <- (refs_index ops Hn (hex (Sum ref)) t).
  unfold AuthenticateWebhookCtx, validTenantRef. rewrite Henv, lookup_empty.
  destruct (Valid ref); cbn [negb]; [|by split; [intros [??]|intros [? _]]].
  cbn [mbind option_bind]. unfold LookupWebhookRef.
  rewrite (bool_decide_false (Sum ref = [])) by apply Sum_not_empty.
  destruct (run_refs ops !! hex (Sum ref)) as [t'|]; [|by split; [intros [??]|intros (_ & _ & ?)]].
  case_bool_decide as Et.
  - split; [by intros [??]|]. intros (_ & ? & [= ->]). done.
  - split; [intros [c [= -> _]]; done|]. intros (_ & _ & [= ->]). eexists. reflexivity.
Qed.
Lemma webhook_channel_exact_witness :
  (exists client,
     AuthenticateWebhookCtx scope_auth (Some (LookupWebhookRef (run_refs sample_history))) None
       (RawURLEncoding (sample_entropy "c")) =
     Some {| wid_TenantID := "t1"; wid_ClientID := client |}) /\
  AuthenticateWebhookCtx scope_auth (Some (LookupWebhookRef (run_refs sample_history))) None
    (RawURLEncoding (sample_entropy "a")) = None.
Proof.
  split; [|vm_compute; reflexivity].
  apply (webhook_channel_exact scope_auth sample_history).
  - apply (bool_decide_unpack _). vm_compute. exact I.
  - reflexivity.
  - split_and!; [vm_compute; reflexivity|discriminate|vm_compute; reflexivity].
Defined.
