(* ===== verification/Charges.v ===== *)
(** internal/app/charge.go and internal/app/pix.go: creating a charge under an
    idempotency key.  The store calls, the transactions and the bank call are each
    one atomic step of a program, so that concurrent requests can be interleaved. *)
From S2P Require Import Prelude GoStrings GoTime Shared Payments Tenants.
From S2P Require Import Mandates AuditTrail Ports BankPorts Settlement Interleave.

Definition PixCreateEndpoint : string := "pix.create".
Definition maxPixListRange : Z := 366 * day_ns.

Record CreateChargeInput := {
  cci_TenantID : string;
  cci_AccountID : string;
  cci_Endpoint : string;
  cci_AmountCents : Z;
  cci_Currency : string;
  cci_IdempotencyKey : string
}.
Record CreateImmediateChargeInput := {
  ici_TenantID : string;
  ici_AccountID : string;
  ici_AmountCents : Z;
  ici_Currency : string;
  ici_IdempotencyKey : string;
  ici_ExpiresInSeconds : Z;
  ici_DebtorTaxID : string;
  ici_DebtorName : string
}.

(** Store, requests sent to the bank so far, messages published. *)
Record CWorld (S : Type) := {
  cw_db : S;
  cw_sent : list (string * BankRequest);
  cw_published : list Message
}.
Arguments Build_CWorld {S} cw_db cw_sent cw_published.
Arguments cw_db {S} c.
Arguments cw_sent {S} c.
Arguments cw_published {S} c.

(** * Boundary checks of pix.go *)
Definition validTaxID (s : string) : bool :=
  if negb (len s =? 11) && negb (len s =? 14) then false else all_digits s.

Definition validateDebtor (taxID name : string) : res unit :=
  let taxID := TrimSpace taxID in
  let name := TrimSpace name in
  if bool_decide (taxID = "") && bool_decide (name = "") then Ok tt
  else
    refuse (negb (validTaxID taxID))
      with (NewValidationError "devedor.tax_id"
              "debtor tax id must be 11 (CPF) or 14 (CNPJ) digits") ;;
    Ok tt.

Definition validatePixListWindow (start end_ : Time) (page pageSize : Z) : res unit :=
  refuse (IsZero start || IsZero end_)
    with (NewValidationError "start_end" "start and end are required") ;;
  refuse (negb (After end_ start))
    with (NewValidationError "end" "end must be after start") ;;
  refuse (maxPixListRange <? Sub end_ start)
    with (NewValidationError "range" "date range too large") ;;
  refuse ((page <? 0) || (pageSize <? 0))
    with (NewValidationError "pagination" "page and page_size must not be negative") ;;
  Ok tt.

Section charges.
Context {S : Type} `{Repository S} `{UnitOfWork S}.

Notation request A := (prog (CWorld S) A).

Definition on_db {A} (m : M S error A) : CWorld S -> CWorld S * res A := fun w =>
  let '(s, r) := m (cw_db w) in (Build_CWorld s (cw_sent w) (cw_published w), r).

(** The bank answers the [n]-th request it receives. *)
Definition send_bank {Q R} (bank : nat -> string -> Q -> res R) (wrap : Q -> BankRequest)
    (tenantID : string) (req : Q) : CWorld S -> CWorld S * res R := fun w =>
  (Build_CWorld (cw_db w) (cw_sent w ++ [(tenantID, wrap req)])%list (cw_published w),
   bank (List.length (cw_sent w)) tenantID req).

(** A best-effort publication. *)
Definition publish (m : Message) : CWorld S -> CWorld S * unit := fun w =>
  (Build_CWorld (cw_db w) (cw_sent w) (cw_published w ++ [m])%list, tt).

Definition publishPaymentEvent (topic : string) (p : Payment) : CWorld S -> CWorld S * unit :=
  publish {| msg_TenantID := payment_tenantID p;
             msg_Type := topic;
             msg_IdempotencyKey := payment_idempotencyKey p;
             msg_Payload := [("payment_id", payment_id p); ("tenant_id", payment_tenantID p);
                             ("status", payment_status p); ("tx_id", payment_txID p)] |}.

(** [reservePayment] of every issuing service, followed by the rest of the request; the
    services differ in the endpoint and in where the amount is validated. *)
Definition reserve {R} (newID : string) (now : Time) (tenantID endpoint idemKey : string)
    (amount : res Money) (k : Payment -> request (res R)) : request (res R) :=
  act existing <- on_db (FindPaymentByIdempotencyKey tenantID idemKey) ;;
  match existing with
  | Ok existing => k existing
  | Err err =>
      if negb (errors_Is err ErrNotFound) then Ret (Err (Wrap "idempotency lookup" err))
      else
        match (let? amount := amount in
               payment_New newID tenantID endpoint idemKey amount now) with
        | Err e => Ret (Err e)
        | Ok p =>
            act saved <- on_db (WithinTx (SavePayment p)) ;;
            match saved with
            | Ok _ => k p
            | Err err =>
                if errors_Is err ErrConflict then
                  act won <- on_db (FindPaymentByIdempotencyKey tenantID idemKey) ;;
                  match won with
                  | Err e => Ret (Err (Wrap "resolve idempotency conflict" e))
                  | Ok won => k won
                  end
                else Ret (Err (Wrap "reserve payment" err))
            end
        end
  end.

(** The callback of the finalizing transaction: the payment to answer with, and
    whether this attempt finalized it. *)
Definition finalize_tx (tenantID idemKey : string) (p : Payment) (entry : LedgerEntry)
    : M S error (Payment * bool) :=
  let save : M S error (Payment * bool) :=
    do _ <- wrapM (Wrap "save payment") (SavePayment p) ;;
    do _ <- wrapM (Wrap "append ledger") (AppendLedgerEntry entry) ;;
    retM (p, true) in
  fun s =>
    match FindPaymentByIdempotencyKey tenantID idemKey s with
    | (s, Ok current) =>
        if negb (bool_decide (payment_txID current = "")) then (s, Ok (current, false))
        else save s
    | (s, Err err) =>
        if negb (errors_Is err ErrNotFound) then (s, Err (Wrap "reload payment" err))
        else save s
    end.

(** From the bank's answer to the end of the request. *)
Definition finalize {R} (tenantID idemKey endpoint accountID entryID : string) (now : Time)
    (price : EndpointPricing) (p : Payment) (txID : string) (answer : Payment -> R)
    : request (res R) :=
  let p := payment_SetTxID p txID in
  match NewLedgerEntry entryID tenantID endpoint (payment_id p) (pricing_priceCents price)
          now [WithAccount accountID] with
  | Err e => Ret (Err e)
  | Ok entry =>
      act r <- on_db (WithinTx (finalize_tx tenantID idemKey p entry)) ;;
      match r with
      | Err e => Ret (Err e)
      | Ok (p, false) => Ret (Ok (answer p))
      | Ok (p, true) =>
          act _ <- publishPaymentEvent TopicPaymentCreated p ;;
          Ret (Ok (answer p))
      end
  end.

(** Two fresh ids and up to three readings of the clock per request: at validation, at
    the reservation and at the ledger entry. *)
Record Fresh := { id1 : string; id2 : string; now0 : Time; now1 : Time; now2 : Time }.

(** What every service checks of its tenant and idempotency key first. *)
Definition for_active_tenant {R} (tenantID idemKey : string) (k : request (res R))
    : request (res R) :=
  act t <- on_db (FindTenantByID tenantID) ;;
  match t with
  | Err e => Ret (Err (Wrap "resolve tenant" e))
  | Ok t =>
      if negb (tenant_active t)
      then Ret (Err (NewValidationError "tenant" "tenant is not active"))
      else if bool_decide (idemKey = "")
      then Ret (Err (NewValidationError "idempotency_key" "idempotency key is required"))
      else k
  end.

Section create.
Context (fresh : Fresh).

Definition CreateCharge (bank : nat -> string -> ChargeRequest -> res ChargeResult)
    (i : CreateChargeInput) : request (res Payment) :=
  for_active_tenant (cci_TenantID i) (cci_IdempotencyKey i)
    (act price <- on_db (resolvePriceOrFree (cci_TenantID i) (cci_Endpoint i)) ;;
     match price with
     | Err e => Ret (Err e)
     | Ok price =>
         reserve (id1 fresh) (now1 fresh) (cci_TenantID i) (cci_Endpoint i)
           (cci_IdempotencyKey i) (NewMoney (cci_AmountCents i) (cci_Currency i)) (fun p =>
           if negb (bool_decide (payment_txID p = "")) then Ret (Ok p)
           else
             act r <- send_bank bank BankCharge (cci_TenantID i)
               {| chr_TenantID := cci_TenantID i;
                  chr_PaymentID := payment_id p;
                  chr_AmountCents := cents (payment_amount p);
                  chr_Currency := currency (payment_amount p);
                  chr_IdempotencyKey := cci_IdempotencyKey i;
                  chr_DebtorTaxID := ""; chr_DebtorName := ""; chr_CreditorKey := "" |} ;;
             match r with
             | Err e => Ret (Err (Wrap "bank create charge" e))
             | Ok r =>
                 finalize (cci_TenantID i) (cci_IdempotencyKey i) (cci_Endpoint i)
                   (cci_AccountID i) (id2 fresh) (now2 fresh) price p (cr_TxID r) id
             end)
     end).

(** The bank port of the immediate charge; its create takes the expiry. *)
Definition CreateImmediateCharge
    (create : Z -> nat -> string -> ChargeRequest -> res PixChargeResult)
    (get : string -> string -> res PixChargeResult)
    (i : CreateImmediateChargeInput) : request (res (Payment * PixChargeResult)) :=
  for_active_tenant (ici_TenantID i) (ici_IdempotencyKey i)
    (if ici_ExpiresInSeconds i <? 0
     then Ret (Err (NewValidationError "expires_in_seconds" "must not be negative"))
     else
       match validateDebtor (ici_DebtorTaxID i) (ici_DebtorName i) with
       | Err e => Ret (Err e)
       | Ok _ =>
           act price <- on_db (resolvePriceOrFree (ici_TenantID i) PixCreateEndpoint) ;;
           match price with
           | Err e => Ret (Err e)
           | Ok price =>
               reserve (id1 fresh) (now1 fresh) (ici_TenantID i) PixCreateEndpoint
                 (ici_IdempotencyKey i) (NewMoney (ici_AmountCents i) (ici_Currency i)) (fun p =>
                 if negb (bool_decide (payment_txID p = "")) then
                   match get (ici_TenantID i) (payment_txID p) with
                   | Err e => Ret (Err (Wrap "reconcile existing pix charge" e))
                   | Ok qr => Ret (Ok (p, qr))
                   end
                 else
                   act r <- send_bank (create (mul64 (ici_ExpiresInSeconds i) nsec))
                     BankCharge (ici_TenantID i)
                     {| chr_TenantID := ici_TenantID i;
                        chr_PaymentID := payment_id p;
                        chr_AmountCents := cents (payment_amount p);
                        chr_Currency := currency (payment_amount p);
                        chr_IdempotencyKey := ici_IdempotencyKey i;
                        chr_DebtorTaxID := TrimSpace (ici_DebtorTaxID i);
                        chr_DebtorName := TrimSpace (ici_DebtorName i);
                        chr_CreditorKey := "" |} ;;
                   match r with
                   | Err e => Ret (Err (Wrap "bank create pix charge" e))
                   | Ok qr =>
                       finalize (ici_TenantID i) (ici_IdempotencyKey i) PixCreateEndpoint
                         (ici_AccountID i) (id2 fresh) (now2 fresh) price p (pix_TxID qr)
                         (fun p => (p, qr))
                   end)
           end
       end).
End create.

(** * Reads *)
Definition GetPayment (tenantID id : string) : M S error Payment := fun s =>
  match FindPaymentByID tenantID id s with
  | (s, Err e) => (s, Err e)
  | (s, Ok p) =>
      if negb (bool_decide (payment_tenantID p = tenantID)) then (s, Err ErrNotFound)
      else (s, Ok p)
  end.

Definition GetImmediateCharge (get : string -> string -> res PixChargeResult)
    (tenantID txID : string) : res PixChargeResult :=
  let txID := TrimSpace txID in
  refuse (bool_decide (txID = "")) with (NewValidationError "txid" "txid is required") ;;
  get tenantID txID.

Definition ListImmediateCharges {L} (list_ : string -> PixListFilter -> res L)
    (tenantID : string) (start end_ : Time) (page pageSize : Z) : res L :=
  let? _ := validatePixListWindow start end_ page pageSize in
  list_ tenantID {| plf_Start := start; plf_End := end_; plf_Page := page;
                    plf_PageSize := pageSize |}.
End charges.
