(* ===== verification/Issuing.v ===== *)
(** internal/app/boleto.go, checkout.go and pixcobv.go: registering a boleto, opening a
    checkout session and creating a due-date charge, with the validation each performs
    before it reserves a payment. *)
From S2P Require Import Prelude GoStrings GoTime Shared Payments Tenants Boletos DueCharges Checkouts.
From S2P Require Import Mandates AuditTrail Ports BankPorts Settlement Interleave Charges.

(** * boleto.go: validation *)
Definition BoletoCreateEndpoint : string := "boleto.create".
Definition maxBoletoDiscountTiers : nat := 12.

Record DiscountTierInput := { dti_DaysBeforeDue : Z; dti_Bps : Z; dti_FixedCents : Z }.
Record BoletoAddressInput := {
  bai_Street : string; bai_Number : Z; bai_Neighborhood : string;
  bai_City : string; bai_State : string; bai_ZipCode : string
}.
Record BoletoPayerInput := {
  bpi_Name : string; bpi_TaxID : string; bpi_Address : BoletoAddressInput
}.
Record RegisterBoletoInput := {
  rbi_TenantID : string;
  rbi_AccountID : string;
  rbi_AmountCents : Z;
  rbi_Currency : string;
  rbi_DueDate : Time;
  rbi_FineBps : Z;
  rbi_FineFixedCents : Z;
  rbi_MonthlyInterestBps : Z;
  rbi_Discounts : list DiscountTierInput;
  rbi_Payer : BoletoPayerInput;
  rbi_Description : string;
  rbi_IdempotencyKey : string;
  rbi_Modality : BoletoModality
}.

Definition validUF (s : string) : bool :=
  (len s =? 2) &&
  forallb (fun c => ((65 <=? code c) && (code c <=? 90) || (97 <=? code c) && (code c <=? 122))%N)
    (bytes_of s).
Definition validCEP (s : string) : bool := (len s =? 8) && all_digits s.

Definition validateBoletoPayer (p : BoletoPayerInput) : res unit :=
  let taxID := TrimSpace (bpi_TaxID p) in
  refuse (negb (bool_decide (taxID = "")) && negb (Charges.validTaxID taxID))
    with (NewValidationError "payer.tax_id"
            "payer tax id must be 11 (CPF) or 14 (CNPJ) digits") ;;
  let uf := TrimSpace (bai_State (bpi_Address p)) in
  refuse (negb (bool_decide (uf = "")) && negb (validUF uf))
    with (NewValidationError "payer.address.state"
            "payer address state must be a 2-letter UF") ;;
  let cep := TrimSpace (bai_ZipCode (bpi_Address p)) in
  refuse (negb (bool_decide (cep = "")) && negb (validCEP cep))
    with (NewValidationError "payer.address.zip_code"
            "payer address zip code must be 8 digits") ;;
  Ok tt.

Definition buildDiscountTiers (tiers : list DiscountTierInput) : res (list DiscountTier) :=
  if bool_decide (tiers = []) then Ok []
  else
    refuse (maxBoletoDiscountTiers <? List.length tiers)%nat
      with (NewValidationError "discounts" "too many discount tiers") ;;
    Ok (map (fun d => {| tier_DaysBeforeDue := dti_DaysBeforeDue d; tier_Bps := dti_Bps d;
                         tier_FixedCents := dti_FixedCents d |}) tiers).

Definition buildBoleto (id tenantID : string) (principal : Money) (dueDate validUntil : Time)
    (fineBps fineFixedCents monthlyInterestBps : Z) (tiers : list DiscountTier) : res Boleto :=
  let? b := boleto_New id tenantID principal dueDate fineBps monthlyInterestBps in
  let? b := (if 0 <? fineFixedCents then boleto_WithFixedFine b fineFixedCents else Ok b) in
  let? b := (if negb (IsZero validUntil) then boleto_WithValidUntil b validUntil else Ok b) in
  boleto_WithDiscounts b tiers.

Definition newDomainBoleto (id : string) (i : RegisterBoletoInput) (principal : Money)
    (tiers : list DiscountTier) : res Boleto :=
  buildBoleto id (rbi_TenantID i) principal (rbi_DueDate i) zeroTime (rbi_FineBps i)
    (rbi_FineFixedCents i) (rbi_MonthlyInterestBps i) tiers.

Definition toPortTier (d : DiscountTier) : BoletoDiscountTier :=
  {| bdt_DaysBeforeDue := tier_DaysBeforeDue d; bdt_Bps := tier_Bps d;
     bdt_FixedCents := tier_FixedCents d |}.

Definition toPortBoletoPayer (p : BoletoPayerInput) : BoletoPayer :=
  let a := bpi_Address p in
  {| bpy_Name := TrimSpace (bpi_Name p);
     bpy_TaxID := TrimSpace (bpi_TaxID p);
     bpy_Address := {| bad_Street := TrimSpace (bai_Street a);
                       bad_Number := bai_Number a;
                       bad_Neighborhood := TrimSpace (bai_Neighborhood a);
                       bad_City := TrimSpace (bai_City a);
                       bad_State := TrimSpace (bai_State a);
                       bad_ZipCode := TrimSpace (bai_ZipCode a) |} |}.

Definition toBoletoRequest (b : Boleto) (payer : BoletoPayerInput) (description idemKey : string)
    (modality : BoletoModality) : BoletoRequest :=
  {| brq_TenantID := boleto_tenantID b;
     brq_BoletoID := boleto_id b;
     brq_AmountCents := cents (boleto_principal b);
     brq_Currency := currency (boleto_principal b);
     brq_DueDate := boleto_dueDate b;
     brq_ValidUntil := boleto_validUntil b;
     brq_FineBps := boleto_fineBps b;
     brq_FineFixedCents := boleto_fineFixedCents b;
     brq_MonthlyInterestBps := boleto_monthlyInterestBps b;
     brq_Discounts := map toPortTier (boleto_discounts b);
     brq_Payer := toPortBoletoPayer payer;
     brq_Description := TrimSpace description;
     brq_IdempotencyKey := idemKey;
     brq_Modality := modality |}.

(** * checkout.go: validation *)
Definition CheckoutCreateEndpoint : string := "checkout.create".
Definition MinCheckoutTotalCents : Z := 500.
Definition maxCheckoutItems : nat := 100.

Record CheckoutItemInput := { cit_Description : string; cit_AmountCents : Z }.
Record CreateCheckoutSessionInput := {
  csi_TenantID : string;
  csi_AccountID : string;
  csi_Currency : string;
  csi_Items : list CheckoutItemInput;
  csi_ExpiresAt : Time;
  csi_ExpiresInSeconds : Z;
  csi_CardType : string;
  csi_RequireAuthentication : bool;
  csi_MaxInstallments : Z;
  csi_IdempotencyKey : string
}.

Definition resolveExpiry (now : Time) (i : CreateCheckoutSessionInput) : res Time :=
  let? exp :=
    (if IsZero (csi_ExpiresAt i) then
       refuse (csi_ExpiresInSeconds i <=? 0)
         with (NewValidationError "expires"
                 "expires_at or a positive expires_in_seconds is required") ;;
       Ok (Add now (mul64 (csi_ExpiresInSeconds i) nsec))
     else Ok (csi_ExpiresAt i)) in
  refuse (negb (After exp now))
    with (NewValidationError "expires_at" "expiry must be in the future") ;;
  Ok exp.

Fixpoint new_items (l : list CheckoutItemInput) : res (list Item) :=
  match l with
  | [] => Ok []
  | it :: rest =>
      let? item := NewItem (TrimSpace (cit_Description it)) (cit_AmountCents it) in
      let? out := new_items rest in
      Ok (item :: out)
  end.
Definition buildCheckoutItems (l : list CheckoutItemInput) : res (list Item) :=
  refuse (bool_decide (l = []))
    with (NewValidationError "items" "at least one item is required") ;;
  refuse (maxCheckoutItems <? List.length l)%nat
    with (NewValidationError "items" "too many items") ;;
  new_items l.

Definition toCheckoutRequest (s : Session) (idemKey : string) : CheckoutRequest :=
  {| crq_TenantID := sess_tenantID s;
     crq_SessionID := sess_id s;
     crq_Currency := currency (sess_total s);
     crq_Items := map (fun it => {| coi_Description := item_description it;
                                    coi_AmountCents := item_amountCents it |}) (sess_items s);
     crq_ExpiresAt := sess_expiresAt s;
     crq_CardType := sess_cardType s;
     crq_RequireAuthentication := sess_requireAuth s;
     crq_MaxInstallments := sess_maxInstallments s;
     crq_IdempotencyKey := idemKey |}.

(** * pixcobv.go: validation *)
Definition PixCobVCreateEndpoint : string := "pix.cobv.create".

Record DueChargeInput := {
  dci_TenantID : string;
  dci_AccountID : string;
  dci_AmountCents : Z;
  dci_Currency : string;
  dci_DueDate : Time;
  dci_ValidityDays : Z;
  dci_FineBps : Z;
  dci_MonthlyInterestBps : Z;
  dci_DiscountBps : Z;
  dci_DiscountFixedCents : Z;
  dci_DebtorTaxID : string;
  dci_DebtorName : string;
  dci_DebtorStreet : string;
  dci_DebtorCity : string;
  dci_DebtorState : string;
  dci_DebtorZipCode : string;
  dci_CreditorKey : string;
  dci_IdempotencyKey : string
}.

(** Midnight, in [ref]'s location, of the civil date an instant has in its own. *)
Definition day_in (ref t : Time) : Time :=
  {| ns := resolve (loc ref) (civil_day t * day_secs) * nsec; loc := loc ref |}.
Definition dayAfter (t ref : Time) : bool := After (day_in ref t) (day_in ref ref).

Definition due_params (i : DueChargeInput) (principal : Money) : CobvParams :=
  {| cvp_TenantID := dci_TenantID i;
     cvp_Principal := principal;
     cvp_DueDate := dci_DueDate i;
     cvp_ValidityDays := dci_ValidityDays i;
     cvp_FineBps := dci_FineBps i;
     cvp_MonthlyInterestBps := dci_MonthlyInterestBps i;
     cvp_DiscountBps := dci_DiscountBps i;
     cvp_DiscountFixedCents := dci_DiscountFixedCents i;
     cvp_DebtorTaxID := dci_DebtorTaxID i;
     cvp_DebtorName := dci_DebtorName i;
     cvp_DebtorStreet := dci_DebtorStreet i;
     cvp_DebtorCity := dci_DebtorCity i;
     cvp_DebtorState := dci_DebtorState i;
     cvp_DebtorZipCode := dci_DebtorZipCode i;
     cvp_CreditorKey := dci_CreditorKey i |}.

Definition validateDueCharge (now : Time) (i : DueChargeInput) (principal : Money) : res unit :=
  refuse (negb (dayAfter (dci_DueDate i) now))
    with (NewValidationError "due_date" "due date must be in the future") ;;
  let? _ := cobv_New (due_params i principal) in
  Ok tt.

Definition toRequest (i : DueChargeInput) (txID : string) : PixDueChargeRequest :=
  {| dcr_TenantID := dci_TenantID i;
     dcr_TxID := txID;
     dcr_AmountCents := dci_AmountCents i;
     dcr_Currency := dci_Currency i;
     dcr_DueDate := dci_DueDate i;
     dcr_ValidityDays := dci_ValidityDays i;
     dcr_FineBps := dci_FineBps i;
     dcr_MonthlyInterestBps := dci_MonthlyInterestBps i;
     dcr_DiscountBps := dci_DiscountBps i;
     dcr_DiscountFixedCents := dci_DiscountFixedCents i;
     dcr_DebtorTaxID := dci_DebtorTaxID i;
     dcr_DebtorName := dci_DebtorName i;
     dcr_DebtorStreet := dci_DebtorStreet i;
     dcr_DebtorCity := dci_DebtorCity i;
     dcr_DebtorState := dci_DebtorState i;
     dcr_DebtorZipCode := dci_DebtorZipCode i;
     dcr_CreditorKey := dci_CreditorKey i;
     dcr_IdempotencyKey := dci_IdempotencyKey i |}.

(** * The use-cases *)
Section issuing.
Context {S : Type} `{Repository S} `{UnitOfWork S}.
Context (fresh : Fresh).
Notation request A := (prog (CWorld S) A).

(** The checks of RegisterBoleto up to the reservation. *)
Definition boleto_checked (i : RegisterBoletoInput) : res (Money * list DiscountTier) :=
  let? _ := validateBoletoPayer (rbi_Payer i) in
  refuse (negb (Modality_Valid (rbi_Modality i)))
    with (NewValidationError "payment_method" "payment method must be boleto or bolepix") ;;
  let? principal := NewMoney (rbi_AmountCents i) (rbi_Currency i) in
  let? tiers := buildDiscountTiers (rbi_Discounts i) in
  let? _ := newDomainBoleto "validate" i principal tiers in
  Ok (principal, tiers).

Definition RegisterBoleto (bank : nat -> string -> BoletoRequest -> res BoletoResult)
    (i : RegisterBoletoInput) : request (res (Payment * BoletoResult)) :=
  let tenantID := rbi_TenantID i in
  for_active_tenant tenantID (rbi_IdempotencyKey i)
    (match boleto_checked i with
     | Err e => Ret (Err e)
     | Ok (principal, tiers) =>
         act price <- on_db (resolvePriceOrFree tenantID BoletoCreateEndpoint) ;;
         match price with
         | Err e => Ret (Err e)
         | Ok price =>
             reserve (id1 fresh) (now1 fresh) tenantID BoletoCreateEndpoint
               (rbi_IdempotencyKey i) (Ok principal) (fun p =>
               match newDomainBoleto (payment_id p) i principal tiers with
               | Err e => Ret (Err e)
               | Ok b =>
                   act r <- send_bank bank BankBoleto tenantID
                     (toBoletoRequest b (rbi_Payer i) (rbi_Description i)
                        (rbi_IdempotencyKey i) (rbi_Modality i)) ;;
                   match r with
                   | Err e => Ret (Err (Wrap "bank create boleto" e))
                   | Ok r =>
                       if negb (bool_decide (payment_txID p = "")) then Ret (Ok (p, r))
                       else
                         finalize tenantID (rbi_IdempotencyKey i) BoletoCreateEndpoint
                           (rbi_AccountID i) (id2 fresh) (now2 fresh) price p (br_TxID r)
                           (fun p => (p, r))
                   end
               end)
         end
     end).

(** The checks of CreateSession before the price: the card, the ceiling of
    instalments, the expiry and the items. *)
Definition session_checked (i : CreateCheckoutSessionInput)
    : res (string * Z * Time * list Item) :=
  let? card := ParseCardType (csi_CardType i) in
  let? maxInstallments := NormalizeInstallments card (csi_MaxInstallments i) in
  let? expiresAt := resolveExpiry (now0 fresh) i in
  let? items := buildCheckoutItems (csi_Items i) in
  Ok (card, maxInstallments, expiresAt, items).
(** Its checks after the price: the total and the instalments it affords. *)
Definition session_total (i : CreateCheckoutSessionInput) (items : list Item)
    (maxInstallments : Z) : res (Money * Z) :=
  let? sum := SumCents_from 0 (map item_amountCents items) in
  refuse (sum <? MinCheckoutTotalCents)
    with (NewValidationError "items" "checkout total must be at least 500 cents") ;;
  let maxInstallments := AffordableInstallments sum maxInstallments in
  let? total := NewMoney sum (csi_Currency i) in
  Ok (total, maxInstallments).
(** The session under the reserved payment's id. *)
Definition session_for (i : CreateCheckoutSessionInput) (id card : string) (expiresAt : Time)
    (items : list Item) (maxInstallments : Z) : res Session :=
  let? sess := checkout_New id (csi_TenantID i) (csi_Currency i) items expiresAt in
  WithCard sess card (csi_RequireAuthentication i) maxInstallments.

Definition CreateSession (bank : nat -> string -> CheckoutRequest -> res CheckoutResult)
    (i : CreateCheckoutSessionInput) : request (res (Payment * CheckoutResult)) :=
  let tenantID := csi_TenantID i in
  for_active_tenant tenantID (csi_IdempotencyKey i)
    (match session_checked i with
     | Err e => Ret (Err e)
     | Ok (card, maxInstallments, expiresAt, items) =>
         act price <- on_db (resolvePriceOrFree tenantID CheckoutCreateEndpoint) ;;
         match price with
         | Err e => Ret (Err e)
         | Ok price =>
             match session_total i items maxInstallments with
             | Err e => Ret (Err e)
             | Ok (total, maxInstallments) =>
                 reserve (id1 fresh) (now1 fresh) tenantID CheckoutCreateEndpoint
                   (csi_IdempotencyKey i) (Ok total) (fun p =>
                   match session_for i (payment_id p) card expiresAt items maxInstallments with
                   | Err e => Ret (Err e)
                   | Ok sess =>
                       act r <- send_bank bank BankCheckout tenantID
                         (toCheckoutRequest sess (csi_IdempotencyKey i)) ;;
                       match r with
                       | Err e => Ret (Err (Wrap "bank create checkout" e))
                       | Ok r =>
                           if negb (bool_decide (payment_txID p = "")) then Ret (Ok (p, r))
                           else
                             finalize tenantID (csi_IdempotencyKey i) CheckoutCreateEndpoint
                               (csi_AccountID i) (id2 fresh) (now2 fresh) price p
                               (co_SessionID r) (fun p => (p, r))
                       end
                   end)
             end
         end
     end).

Definition due_checked (i : DueChargeInput) : res Money :=
  let? principal := NewMoney (dci_AmountCents i) (dci_Currency i) in
  let? _ := validateDueCharge (now0 fresh) i principal in
  Ok principal.

Definition CreateDueCharge
    (bank : nat -> string -> PixDueChargeRequest -> res PixDueChargeResult)
    (get : string -> string -> res PixDueChargeResult)
    (i : DueChargeInput) : request (res (Payment * PixDueChargeResult)) :=
  let tenantID := dci_TenantID i in
  for_active_tenant tenantID (dci_IdempotencyKey i)
    (match due_checked i with
     | Err e => Ret (Err e)
     | Ok principal =>
         act price <- on_db (resolvePriceOrFree tenantID PixCobVCreateEndpoint) ;;
         match price with
         | Err e => Ret (Err e)
         | Ok price =>
             reserve (id1 fresh) (now1 fresh) tenantID PixCobVCreateEndpoint
               (dci_IdempotencyKey i) (Ok principal) (fun p =>
               if negb (bool_decide (payment_txID p = "")) then
                 match get tenantID (payment_txID p) with
                 | Err e => Ret (Err (Wrap "reconcile existing cobv charge" e))
                 | Ok r => Ret (Ok (p, r))
                 end
               else
                 act r <- send_bank bank BankDueCharge tenantID (toRequest i "") ;;
                 match r with
                 | Err e => Ret (Err (Wrap "bank create cobv charge" e))
                 | Ok r =>
                     finalize tenantID (dci_IdempotencyKey i) PixCobVCreateEndpoint
                       (dci_AccountID i) (id2 fresh) (now2 fresh) price p (dcs_TxID r)
                       (fun p => (p, r))
                 end)
         end
     end).
End issuing.

(** * Reads and cancellations: an id, then the bank *)
Definition with_id {R} (field msg id : string) (k : string -> res R) : res R :=
  let id := TrimSpace id in
  refuse (bool_decide (id = "")) with (NewValidationError field msg) ;;
  k id.
Definition GetBoleto (get : string -> string -> res BoletoResult) (tenantID boletoID : string)
    : res BoletoResult :=
  with_id "id" "boleto id is required" boletoID (get tenantID).
Definition CancelBoleto (cancel : string -> string -> res BoletoResult)
    (tenantID boletoID : string) : res unit :=
  with_id "id" "boleto id is required" boletoID (fun id =>
    let? _ := cancel tenantID id in Ok tt).
Definition GetSession (get : string -> string -> res CheckoutResult)
    (tenantID sessionID : string) : res CheckoutResult :=
  with_id "session_id" "session id is required" sessionID (get tenantID).
Definition CancelSession (cancel : string -> string -> res CheckoutResult)
    (tenantID sessionID : string) : res CheckoutResult :=
  with_id "session_id" "session id is required" sessionID (cancel tenantID).
Definition GetDueCharge (get : string -> string -> res PixDueChargeResult)
    (tenantID txID : string) : res PixDueChargeResult :=
  with_id "txid" "txid is required" txID (get tenantID).

Definition UpdateDueCharge
    (update : string -> string -> PixDueChargeRequest -> res PixDueChargeResult) (now : Time)
    (tenantID txID : string) (i : DueChargeInput) : res PixDueChargeResult :=
  with_id "txid" "txid is required" txID (fun txID =>
    refuse (bool_decide (dci_IdempotencyKey i = ""))
      with (NewValidationError "idempotency_key" "idempotency key is required") ;;
    let? principal := NewMoney (dci_AmountCents i) (dci_Currency i) in
    let? _ := validateDueCharge now i principal in
    update tenantID txID (toRequest i txID)).
