(* ===== verification/IssuingContracts.v ===== *)
(** What the issuing services promise of every request they send to the bank, and that
    their validation establishes it. *)
From S2P Require Import Prelude GoStrings GoTime Shared Payments Tenants Boletos DueCharges Checkouts.
From S2P Require Import Mandates AuditTrail Ports BankPorts Settlement Interleave Charges Issuing.

Definition fromPortTier (d : BoletoDiscountTier) : DiscountTier :=
  {| tier_DaysBeforeDue := bdt_DaysBeforeDue d; tier_Bps := bdt_Bps d;
     tier_FixedCents := bdt_FixedCents d |}.

(** Rates within the legal caps, at most one kind of fine, and discounts that grow with
    the days of advance and stay under the principal. *)
Record BoletoRequest_ok (r : BoletoRequest) : Prop := {
  brok_amount : Money_ok {| cents := brq_AmountCents r; currency := brq_Currency r |};
  brok_due : IsZero (brq_DueDate r) = false;
  brok_fine : 0 <= brq_FineBps r <= MaxFineBps;
  brok_interest : 0 <= brq_MonthlyInterestBps r <= MaxMonthlyInterestBps;
  brok_fixed : brq_FineFixedCents r = 0 \/
    brq_FineBps r = 0 /\
    0 < brq_FineFixedCents r <= roundDiv (mul64 (brq_AmountCents r) MaxFineBps) bpsDenominator;
  brok_tiers : (List.length (brq_Discounts r) <= maxBoletoDiscountTiers)%nat /\
    schedule (brq_AmountCents r) (map fromPortTier (brq_Discounts r));
  brok_modality : Modality_Valid (brq_Modality r) = true
}.

(** Between one and a hundred items of positive amount, a total over the minimum, and
    instalments the total affords. *)
Record CheckoutRequest_ok (r : CheckoutRequest) : Prop := {
  crok_items : crq_Items r <> [] /\ (List.length (crq_Items r) <= maxCheckoutItems)%nat /\
    Forall (fun it => 0 < coi_AmountCents it) (crq_Items r);
  crok_total : MinCheckoutTotalCents <= bank_amount (BankCheckout r);
  crok_currency : currencyRe (crq_Currency r) = true;
  crok_card : CardType_valid (crq_CardType r) = true;
  crok_installments : 1 <= crq_MaxInstallments r <= MaxInstallmentsLimit;
  crok_debit : crq_CardType r = CardDebit -> crq_MaxInstallments r = 1;
  crok_affordable :
    crq_MaxInstallments r * MinInstallmentCents <= bank_amount (BankCheckout r)
}.

Record PixDueChargeRequest_ok (r : PixDueChargeRequest) : Prop := {
  drok_amount : Money_ok {| cents := dcr_AmountCents r; currency := dcr_Currency r |};
  drok_validity : 0 <= dcr_ValidityDays r;
  drok_fine : 0 <= dcr_FineBps r <= cobv_MaxFineBps;
  drok_interest : 0 <= dcr_MonthlyInterestBps r <= cobv_MaxMonthlyInterestBps;
  drok_discount :
    validateDiscount (dcr_DiscountBps r) (dcr_DiscountFixedCents r) (dcr_AmountCents r) = Ok tt;
  drok_debtor : DueCharges.validTaxID (TrimSpace (dcr_DebtorTaxID r)) = true;
  drok_key : blank (dcr_CreditorKey r) = false
}.

Definition request_ok (r : BankRequest) : Prop :=
  match r with
  | BankCharge _ => True
  | BankBoleto r => BoletoRequest_ok r
  | BankCheckout r => CheckoutRequest_ok r
  | BankDueCharge r => PixDueChargeRequest_ok r
  end.

(** * Boletos *)
Lemma buildDiscountTiers_Ok l out : buildDiscountTiers l = Ok out ->
  (List.length out <= maxBoletoDiscountTiers)%nat.
Proof.
  unfold buildDiscountTiers. case_bool_decide; [intros; simplify_eq; cbn; lia|].
  destruct (Nat.ltb_spec maxBoletoDiscountTiers (List.length l)); [done|].
  intros. simplify_eq. by rewrite length_map.
Qed.

Lemma buildBoleto_Ok id tenant m due until f fx mi tiers b :
  Money_ok m -> buildBoleto id tenant m due until f fx mi tiers = Ok b ->
  boleto_id b = TrimSpace id /\ boleto_tenantID b = TrimSpace tenant /\
  boleto_principal b = m /\ boleto_dueDate b = due /\ IsZero due = false /\
  boleto_fineBps b = f /\ 0 <= f <= MaxFineBps /\
  boleto_monthlyInterestBps b = mi /\ 0 <= mi <= MaxMonthlyInterestBps /\
  boleto_fineFixedCents b = Z.max 0 fx /\
  (0 < fx -> f = 0 /\ fx <= roundDiv (mul64 (cents m) MaxFineBps) bpsDenominator) /\
  boleto_validUntil b = (if IsZero until then zeroTime else until) /\
  boleto_discounts b = tiers /\ schedule (cents m) tiers.
Proof.
  intros Hm. unfold buildBoleto, boleto_New. cbv zeta. intros H.
  do 2 (case_bool_decide; [done|]). destruct (Money_IsZero m); [done|].
  destruct (IsZero due) eqn:Hdue; [done|]. destruct (_ || _) eqn:E1 in H; [done|].
  destruct (_ || _) eqn:E2 in H; [done|]. bools. cbn [boleto_fineBps] in H.
  set (b0 := Build_Boleto _ _ _ _ _ _ _ _ _) in H.
  destruct (if 0 <? fx then boleto_WithFixedFine b0 fx else Ok b0) as [b1|] eqn:Ef; [|done].
  destruct (if negb (IsZero until) then boleto_WithValidUntil b1 until else Ok b1)
    as [b2|] eqn:Eu; [|done].
  assert (F1 : b1 = boleto_set b0 (Z.max 0 fx) zeroTime [] /\
    (0 < fx -> f = 0 /\ fx <= roundDiv (mul64 (cents m) MaxFineBps) bpsDenominator)).
  { destruct (Z.ltb_spec 0 fx) as [Hp|Hn]; [|simplify_eq; rewrite Z.max_l by lia; split; [done|lia]].
    unfold boleto_WithFixedFine in Ef. cbn [boleto_fineBps boleto_principal b0] in Ef.
    destruct (Z.ltb_spec 0 f); [done|]. destruct (Z.leb_spec fx 0); [done|].
    destruct (Z.ltb_spec (roundDiv (mul64 (cents m) MaxFineBps) bpsDenominator) fx); [done|].
    simplify_eq. rewrite Z.max_r by lia. split; [done|lia]. }
  destruct F1 as [-> F1].
  assert (b2 = boleto_set b0 (Z.max 0 fx) (if IsZero until then zeroTime else until) []) as ->.
  { destruct (IsZero until) eqn:Ez; cbn [negb] in Eu; [by simplify_eq|].
    unfold boleto_WithValidUntil in Eu. rewrite Ez in Eu. destruct (Before _ _); [done|].
    by simplify_eq. }
  unfold boleto_WithDiscounts in H.
  destruct (Nat.eqb_spec (List.length tiers) 0) as [En|_].
  - destruct tiers; [|done]. simplify_eq/=. split_and!; try done; try lia. repeat constructor.
  - destruct (check_tiers _ _ _ _ _) as [out|] eqn:Ec; [|done]. simplify_eq/=.
    apply check_tiers_Ok in Ec as (-> & ? & _). split_and!; try done; lia.
Qed.

Lemma boleto_checked_Ok i m tiers : boleto_checked i = Ok (m, tiers) ->
  Money_ok m /\ cents m = rbi_AmountCents i /\
  (List.length tiers <= maxBoletoDiscountTiers)%nat /\ Modality_Valid (rbi_Modality i) = true.
Proof.
  unfold boleto_checked. intros H. destruct (validateBoletoPayer _) as [[]|]; [|done].
  destruct (Modality_Valid (rbi_Modality i)) eqn:Em; [|done]. cbn [negb] in H.
  destruct (NewMoney _ _) as [m'|] eqn:E1; [|done].
  destruct (buildDiscountTiers _) as [t'|] eqn:E2; [|done].
  destruct (newDomainBoleto _ _ _ _); [|done]. simplify_eq.
  apply NewMoney_Ok in E1 as (? & ? & ->). by apply buildDiscountTiers_Ok in E2.
Qed.

Lemma boleto_request_ok i m tiers id b payer desc idem :
  boleto_checked i = Ok (m, tiers) -> newDomainBoleto id i m tiers = Ok b ->
  let r := toBoletoRequest b payer desc idem (rbi_Modality i) in
  BoletoRequest_ok r /\ brq_BoletoID r = TrimSpace id /\ brq_IdempotencyKey r = idem /\
  brq_AmountCents r = rbi_AmountCents i.
Proof.
  intros Hc Hb r. apply boleto_checked_Ok in Hc as (Hm & Ha & Hl & Hmod).
  unfold newDomainBoleto in Hb. apply buildBoleto_Ok in Hb; [|done].
  destruct Hb as (Eid & _ & Ep & Ed & Hd & Ef & Hf & Ei & Hi & Efx & Hfx & _ & Et & Hs).
  split_and!; [|exact Eid|done|by subst r; simpl; rewrite Ep].
  subst r. split; simpl; rewrite ?Ep, ?Ed, ?Ef, ?Ei, ?Efx, ?Et; try done.
  - destruct (Z.leb_spec (rbi_FineFixedCents i) 0); [left; lia|right].
    destruct Hfx as [-> ?]; [lia|]. split; [done|lia].
  - split; [by rewrite length_map|]. rewrite map_map. cbn.
    rewrite (map_ext _ (fun d => d)); [by rewrite map_id|]. by intros [].
Qed.

(** * Checkout sessions *)
Lemma new_items_Ok l out : new_items l = Ok out ->
  List.length out = List.length l /\ Forall (fun it => 0 < item_amountCents it) out.
Proof.
  revert out. induction l as [|c l IH]; cbn [new_items]; intros out H; [by simplify_eq|].
  destruct (NewItem _ _) as [it|] eqn:E; [|done]. destruct (new_items l) as [o|]; [|done].
  simplify_eq. destruct (IH o eq_refl) as [HL HF]. apply NewItem_Ok in E as (Ea & Hp & _).
  cbn. split; [by rewrite HL|]. constructor; [|done]. by rewrite Ea.
Qed.

Lemma new_items_amounts l out : new_items l = Ok out ->
  map item_amountCents out = map cit_AmountCents l.
Proof.
  revert out. induction l as [|c l IH]; cbn [new_items]; intros out H; [by simplify_eq|].
  destruct (NewItem _ _) as [it|] eqn:E; [|done]. destruct (new_items l) as [o|]; [|done].
  simplify_eq. apply NewItem_Ok in E as (Ea & _). cbn [map]. by rewrite Ea, (IH o eq_refl).
Qed.

Section checkout.
Context (fresh : Fresh) (i : CreateCheckoutSessionInput).
Context (card : string) (n : Z) (expiresAt : Time) (items : list Item).
Hypothesis Hchecked : session_checked fresh i = Ok (card, n, expiresAt, items).

Lemma session_checked_Ok :
  CardType_valid card = true /\ 1 <= n <= MaxInstallmentsLimit /\
  After expiresAt (now0 fresh) = true /\
  items <> [] /\ (List.length items <= maxCheckoutItems)%nat /\
  Forall (fun it => 0 < item_amountCents it) items /\
  map item_amountCents items = map cit_AmountCents (csi_Items i).
Proof.
  unfold session_checked in Hchecked.
  destruct (ParseCardType _) as [c|] eqn:Ec; [|done].
  destruct (NormalizeInstallments c _) as [k|] eqn:En; [|done].
  destruct (resolveExpiry _ _) as [t|] eqn:Et; [|done].
  destruct (buildCheckoutItems _) as [l|] eqn:El; [|done]. simplify_eq.
  apply NormalizeInstallments_Ok in En as (? & _ & _). split.
  { unfold ParseCardType in Ec. cbv zeta in Ec. repeat case_bool_decide; by simplify_eq. }
  split; [done|]. split.
  { unfold resolveExpiry in Et. destruct (if IsZero _ then _ else _) as [t'|]; [|done].
    destruct (After t' (now0 fresh)) eqn:Ea; [|done]. cbn [negb] in Et. by simplify_eq. }
  unfold buildCheckoutItems in El. case_bool_decide as Hne; [done|].
  destruct (Nat.ltb_spec maxCheckoutItems (List.length (csi_Items i))); [done|].
  pose proof (new_items_amounts _ _ El). apply new_items_Ok in El as [EL ?].
  split_and!; [|by rewrite EL|done|done]. intros ->. by destruct (csi_Items i).
Qed.

Lemma checkout_request_ok total m id s idem :
  Forall in64 (map cit_AmountCents (csi_Items i)) ->
  session_total i items n = Ok (total, m) ->
  session_for i id card expiresAt items m = Ok s ->
  let r := toCheckoutRequest s idem in
  CheckoutRequest_ok r /\ crq_SessionID r = TrimSpace id /\ crq_IdempotencyKey r = idem /\
  bank_amount (BankCheckout r) = cents total.
Proof.
  intros Hin Ht Hs r. destruct session_checked_Ok as (Hcard & Hn & _ & Hne & HL & Hpos & Eam).
  rewrite <- Eam in Hin. unfold session_total in Ht.
  destruct (SumCents_from _ _) as [sum|] eqn:Es; [|done].
  destruct (Z.ltb_spec sum MinCheckoutTotalCents) as [|Hmin]; [done|].
  destruct (NewMoney sum _) as [t|] eqn:Em; [|done]. simplify_eq.
  apply NewMoney_Ok in Em as (Hp & Hcur & ->).
  pose proof (SumCents_from_exact _ 0 _ ltac:(split; discriminate) Hin Es) as [Esum Hs64].
  destruct (affordable sum n Hs64) as (Ha1 & Ha2 & _).
  unfold session_for in Hs. destruct (checkout_New _ _ _ _ _) as [s0|] eqn:E0; [|done].
  apply checkout_New_Ok in E0 as (Eid & _ & _ & _ & Ei & _ & _ & _ & _ & Ecur).
  apply WithCard_Ok in Hs as (_ & k & Enorm & ->).
  apply NormalizeInstallments_Ok in Enorm as (Hk1 & Hk2 & Hk3).
  subst r. assert (k = AffordableInstallments sum n) as -> by (apply Hk3; lia). clear Hk3.
  assert (Eb : foldr Z.add 0 (map item_amountCents items) = sum) by (unfold sumZ in Esum; lia).
  assert (Ec : forall s', sess_items s' = items ->
            bank_amount (BankCheckout (toCheckoutRequest s' idem)) = sum).
  { intros s' E'. unfold bank_amount. cbn. rewrite map_map, E'. exact Eb. }
  split_and!; [|exact Eid|done|by apply Ec].
  split; cbn -[bank_amount]; rewrite ?Ei, ?Ecur, ?length_map; try done.
  - split_and!; [by destruct items|done|]. by apply Forall_map.
  - by rewrite Ec.
  - rewrite Ec by done. unfold MinInstallmentCents, MinCheckoutTotalCents in *. lia.
Qed.
End checkout.

(** * Due-date charges *)
Lemma due_request_ok fresh i m tx : due_checked fresh i = Ok m ->
  PixDueChargeRequest_ok (toRequest i tx) /\ dayAfter (dci_DueDate i) (now0 fresh) = true /\
  cents m = dci_AmountCents i /\ Money_ok m.
Proof.
  unfold due_checked. intros H. destruct (NewMoney _ _) as [m'|] eqn:Em; [|done].
  apply NewMoney_Ok in Em as (Hp & Hcur & ->). unfold validateDueCharge in H.
  destruct (dayAfter _ _); [|done]. cbn [negb] in H.
  destruct (cobv_New _) as [c|] eqn:Ec; [|done]. simplify_eq.
  pose proof (cobv_New_fields _ _ Ec) as ((t & d & k & ->) & Hkey & Hdoc).
  apply cobv_New_inv in Ec as (_ & _ & _ & Hv & Hf & Hi & Hd & _).
  cbn in Hv, Hf, Hi, Hd, Hkey, Hdoc. split_and!; [|done..]. by split.
Qed.
