(* ===== verification/BoletoAmend.v ===== *)
(** internal/app/boleto.go and internal/app/plainboleto.go: amending a registered boleto,
    and the plain boletos, which are issued and amended without a payment of ours. *)
From S2P Require Import Prelude GoStrings GoTime Shared Payments Tenants Boletos Mandates.
From S2P Require Import AuditTrail Ports BankPorts Charges Issuing DueCharges Checkouts IssuingContracts.

(** * boleto.go: UpdateBoleto *)
Definition defaultBoletoCurrency : string := "BRL".

(** [None] is a nil pointer or a nil slice. *)
Record UpdateBoletoInput := {
  ubi_AmountCents : option Z;
  ubi_Currency : string;
  ubi_DueDate : option Time;
  ubi_ValidUntil : option Time;
  ubi_FineBps : option Z;
  ubi_FineFixedCents : option Z;
  ubi_MonthlyInterestBps : option Z;
  ubi_Discounts : option (list DiscountTierInput);
  ubi_IdempotencyKey : string
}.

Definition is_set {A} (o : option A) : bool := match o with Some _ => true | None => false end.

Definition touchesFees (i : UpdateBoletoInput) : bool :=
  is_set (ubi_FineBps i) || is_set (ubi_FineFixedCents i)
  || is_set (ubi_MonthlyInterestBps i) || is_set (ubi_Discounts i).

Record mergedBoleto := {
  mb_principal : Money;
  mb_dueDate : Time;
  mb_validUntil : Time;
  mb_fineBps : Z;
  mb_fineFixedCents : Z;
  mb_monthlyInterestBps : Z;
  mb_tiers : list DiscountTier
}.

Definition mergeBoletoPatch (current : BoletoResult) (i : UpdateBoletoInput) : res mergedBoleto :=
  let currency := TrimSpace (ubi_Currency i) in
  refuse (is_set (ubi_AmountCents i) && bool_decide (currency = ""))
    with (NewValidationError "currency" "currency is required when amending the amount") ;;
  let amountCents := default (br_AmountCents current) (ubi_AmountCents i) in
  let currency := if bool_decide (currency = "") then defaultBoletoCurrency else currency in
  let? principal := NewMoney amountCents currency in
  let? tiers := match ubi_Discounts i with
                | Some l => buildDiscountTiers l
                | None => Ok (map fromPortTier (br_Discounts current))
                end in
  Ok {| mb_principal := principal;
        mb_dueDate := default (br_DueDate current) (ubi_DueDate i);
        mb_validUntil := default (br_ValidUntil current) (ubi_ValidUntil i);
        mb_fineBps := default (br_FineBps current) (ubi_FineBps i);
        mb_fineFixedCents := default (br_FineFixedCents current) (ubi_FineFixedCents i);
        mb_monthlyInterestBps := default (br_MonthlyInterestBps current) (ubi_MonthlyInterestBps i);
        mb_tiers := tiers |}.

Definition toBoletoPatch (i : UpdateBoletoInput) (merged : mergedBoleto) : BoletoPatch :=
  {| bpt_AmountCents := ubi_AmountCents i;
     bpt_DueDate := ubi_DueDate i;
     bpt_ValidUntil := ubi_ValidUntil i;
     bpt_Description := None;
     bpt_Fees :=
       if touchesFees i then
         Some {| bfp_FineBps := mb_fineBps merged;
                 bfp_FineFixedCents := mb_fineFixedCents merged;
                 bfp_MonthlyInterestBps := mb_monthlyInterestBps merged;
                 bfp_Discounts := map toPortTier (mb_tiers merged) |}
       else None;
     bpt_IdempotencyKey := ubi_IdempotencyKey i |}.

Section update.
Context (get : string -> string -> res BoletoResult).
Context (update : string -> string -> BoletoPatch -> res BoletoResult).

(** The patch an amendment comes to, given the registered state. *)
Definition amendment (tenantID boletoID : string) (current : BoletoResult) (i : UpdateBoletoInput)
    : res BoletoPatch :=
  let? merged := mergeBoletoPatch current i in
  let? _ := buildBoleto boletoID tenantID (mb_principal merged) (mb_dueDate merged)
              (mb_validUntil merged) (mb_fineBps merged) (mb_fineFixedCents merged)
              (mb_monthlyInterestBps merged) (mb_tiers merged) in
  Ok (toBoletoPatch i merged).

Definition UpdateBoleto (tenantID boletoID : string) (i : UpdateBoletoInput) : res BoletoResult :=
  with_id "id" "boleto id is required" boletoID (fun boletoID =>
    refuse (bool_decide (ubi_IdempotencyKey i = ""))
      with (NewValidationError "idempotency_key" "idempotency key is required") ;;
    let? current := get tenantID boletoID in
    let? patch := amendment tenantID boletoID current i in
    update tenantID boletoID patch).
End update.

(** * plainboleto.go *)
Definition maxPlainDiscountTiers : nat := 3.

(** The loop of [validatePlainDiscounts]: the forms seen so far and the last term. *)
Fixpoint plain_tiers (percent fixed_ : bool) (prev : Z) (tiers : list BoletoDiscountTier)
    : res (bool * bool) :=
  match tiers with
  | [] => Ok (percent, fixed_)
  | t :: rest =>
      refuse ((0 <? bdt_Bps t) && (0 <? bdt_FixedCents t))
        with (NewValidationError "discounts"
                "a tier is either a percentage or a fixed amount, never both") ;;
      refuse (negb (0 <? bdt_Bps t) && negb (0 <? bdt_FixedCents t))
        with (NewValidationError "discounts" "a tier worth nothing is not a discount") ;;
      refuse (bdt_DaysBeforeDue t <? 0)
        with (NewValidationError "discounts" "days before due must not be negative") ;;
      refuse ((0 <=? prev) && (prev <=? bdt_DaysBeforeDue t))
        with (NewValidationError "discounts"
                "tiers must be ordered with strictly decreasing days before due") ;;
      plain_tiers (percent || (0 <? bdt_Bps t)) (fixed_ || (0 <? bdt_FixedCents t))
        (bdt_DaysBeforeDue t) rest
  end.

Definition validatePlainDiscounts (tiers : list BoletoDiscountTier) : res unit :=
  refuse (maxPlainDiscountTiers <? List.length tiers)%nat
    with (NewValidationError "discounts" "at most three discount tiers") ;;
  let? forms := plain_tiers false false (-1) tiers in
  refuse (fst forms && snd forms)
    with (NewValidationError "discounts"
            "every tier must use the same form: all percentages or all fixed amounts") ;;
  Ok tt.

Record PlainBoletoInput := {
  pbi_TenantID : string;
  pbi_SlipID : string;
  pbi_AmountCents : Z;
  pbi_Currency : string;
  pbi_DueDate : Time;
  pbi_FineBps : Z;
  pbi_FineFixedCents : Z;
  pbi_MonthlyInterestBps : Z;
  pbi_Discounts : list BoletoDiscountTier;
  pbi_Payer : BoletoPayer;
  pbi_Description : string;
  pbi_IdempotencyKey : string
}.
Record PlainBoletoPatchInput := {
  ppi_AmountCents : option Z;
  ppi_DueDate : option Time;
  ppi_FineBps : option Z;
  ppi_FineFixedCents : option Z;
  ppi_MonthlyInterestBps : option Z;
  ppi_Discounts : list BoletoDiscountTier;
  ppi_IdempotencyKey : string
}.

Definition plain_request (i : PlainBoletoInput) (slipID : string) : res BoletoRequest :=
  let? _ := NewMoney (pbi_AmountCents i) (pbi_Currency i) in
  refuse (IsZero (pbi_DueDate i))
    with (NewValidationError "due_date" "due date is required") ;;
  refuse ((0 <? pbi_FineBps i) && (0 <? pbi_FineFixedCents i))
    with (NewValidationError "fine"
            "fine must be either a percentage or a fixed amount, never both") ;;
  let? _ := validatePlainDiscounts (pbi_Discounts i) in
  Ok {| brq_TenantID := pbi_TenantID i;
        brq_BoletoID := slipID;
        brq_AmountCents := pbi_AmountCents i;
        brq_Currency := pbi_Currency i;
        brq_DueDate := pbi_DueDate i;
        brq_ValidUntil := zeroTime;
        brq_FineBps := pbi_FineBps i;
        brq_FineFixedCents := pbi_FineFixedCents i;
        brq_MonthlyInterestBps := pbi_MonthlyInterestBps i;
        brq_Discounts := pbi_Discounts i;
        brq_Payer := pbi_Payer i;
        brq_Description := pbi_Description i;
        brq_IdempotencyKey := pbi_IdempotencyKey i;
        brq_Modality := ModalityBoleto |}.

Definition plain_patch (i : PlainBoletoPatchInput) : res BoletoPatch :=
  refuse (match ppi_AmountCents i with Some a => a <=? 0 | None => false end)
    with (NewValidationError "amount_cents" "amount must be greater than zero") ;;
  refuse (match ppi_DueDate i with Some d => IsZero d | None => false end)
    with (NewValidationError "due_date" "due date must be a real date") ;;
  let? _ := validatePlainDiscounts (ppi_Discounts i) in
  let? fees :=
    (if is_set (ppi_FineBps i) || is_set (ppi_FineFixedCents i)
        || is_set (ppi_MonthlyInterestBps i) || negb (bool_decide (ppi_Discounts i = []))
     then
       let fees := {| bfp_FineBps := default 0 (ppi_FineBps i);
                      bfp_FineFixedCents := default 0 (ppi_FineFixedCents i);
                      bfp_MonthlyInterestBps := default 0 (ppi_MonthlyInterestBps i);
                      bfp_Discounts := ppi_Discounts i |} in
       refuse ((0 <? bfp_FineBps fees) && (0 <? bfp_FineFixedCents fees))
         with (NewValidationError "fine"
                 "fine must be either a percentage or a fixed amount, never both") ;;
       Ok (Some fees)
     else Ok None) in
  refuse (negb (is_set (ppi_AmountCents i)) && negb (is_set (ppi_DueDate i)) && negb (is_set fees))
    with (NewValidationError "patch" "nothing to update") ;;
  Ok {| bpt_AmountCents := ppi_AmountCents i; bpt_DueDate := ppi_DueDate i;
        bpt_ValidUntil := None; bpt_Description := None; bpt_Fees := fees;
        bpt_IdempotencyKey := ppi_IdempotencyKey i |}.

(** The schedules a plain boleto takes: up to three tiers, terms falling strictly, each
    tier of exactly one form and all of the same one. *)
Definition plain_schedule (l : list BoletoDiscountTier) : Prop :=
  (List.length l <= maxPlainDiscountTiers)%nat /\
  StronglySorted (fun t u => bdt_DaysBeforeDue u < bdt_DaysBeforeDue t) l /\
  Forall (fun t => 0 <= bdt_DaysBeforeDue t) l /\
  (Forall (fun t => 0 < bdt_Bps t /\ bdt_FixedCents t <= 0) l \/
   Forall (fun t => 0 < bdt_FixedCents t /\ bdt_Bps t <= 0) l).

Lemma plain_tiers_spec percent fixed_ prev l r :
  plain_tiers percent fixed_ prev l = Ok r <->
  StronglySorted (fun t u => bdt_DaysBeforeDue u < bdt_DaysBeforeDue t) l /\
  Forall (fun t => 0 <= bdt_DaysBeforeDue t /\ (0 <= prev -> bdt_DaysBeforeDue t < prev)) l /\
  Forall (fun t => 0 < bdt_Bps t <-> bdt_FixedCents t <= 0) l /\
  r = (percent || existsb (fun t => 0 <? bdt_Bps t) l,
       fixed_ || existsb (fun t => 0 <? bdt_FixedCents t) l).
Proof.
  revert percent fixed_ prev. induction l as [|t l IH]; intros percent fixed_ prev; cbn [plain_tiers existsb].
  { rewrite !orb_false_r. split; [intros; simplify_eq; repeat constructor|]. by intros (_ & _ & _ & ->). }
  destruct (Z.ltb_spec 0 (bdt_Bps t)), (Z.ltb_spec 0 (bdt_FixedCents t)); cbn [andb negb];
    try (split; [done|]; intros (_ & _ & HF%Forall_inv & _); lia);
    (destruct (Z.ltb_spec (bdt_DaysBeforeDue t) 0);
      [split; [done|]; intros (_ & HF%Forall_inv & _); lia|]);
    (destruct (Z.leb_spec 0 prev), (Z.leb_spec prev (bdt_DaysBeforeDue t)); cbn [andb];
      try (split; [done|]; intros (_ & HF%Forall_inv & _); lia));
    rewrite IH, <- !orb_assoc; cbn [orb];
    (split; [intros (HS & HB & HF & ->)|intros (HS & HB & HF & ->)]);
    try (apply StronglySorted_inv in HS as [HS Hd]; apply Forall_cons in HB as [? HB];
         apply Forall_cons in HF as [? HF];
         split_and!; [done|apply Forall_and; split;
           [by eapply Forall_impl; [exact HB|]; intros ? [? ?]
           |eapply Forall_impl; [exact Hd|]; cbn; intros; lia]|done|done]);
    (split_and!; [constructor; [done|]|constructor; [lia|]|constructor; [lia|done]|done]);
    eapply Forall_impl; try exact HB; cbn; intros ? [? ?]; lia.
Qed.

Lemma one_form l : Forall (fun t => 0 < bdt_Bps t <-> bdt_FixedCents t <= 0) l ->
  existsb (fun t => 0 <? bdt_Bps t) l && existsb (fun t => 0 <? bdt_FixedCents t) l = false <->
  Forall (fun t => 0 < bdt_Bps t /\ bdt_FixedCents t <= 0) l \/
  Forall (fun t => 0 < bdt_FixedCents t /\ bdt_Bps t <= 0) l.
Proof.
  intros Hx. rewrite Forall_forall in Hx. rewrite andb_false_iff, <- !not_true_iff_false, !existsb_exists.
  rewrite !Forall_forall. setoid_rewrite Z.ltb_lt. split.
  - intros [H|H]; [right|left]; intros t Ht; specialize (Hx t Ht);
      apply list_elem_of_In in Ht; split; destruct (Z.lt_ge_cases 0 (bdt_Bps t)); try lia;
      exfalso; apply H; exists t; split; try done; lia.
  - intros [H|H]; [right|left]; intros (t & Ht%list_elem_of_In & Hp);
      specialize (H t Ht); lia.
Qed.

(** The discounts of a plain boleto are accepted exactly when they form such a
    schedule. *)
Theorem plain_discounts_exact l : validatePlainDiscounts l = Ok tt <-> plain_schedule l.
Proof.
  unfold validatePlainDiscounts, plain_schedule.
  destruct (Nat.ltb_spec maxPlainDiscountTiers (List.length l)); [split; [done|lia]|].
  destruct (plain_tiers false false (-1) l) as [r|e] eqn:E.
  - apply plain_tiers_spec in E as (HS & HB & HF & ->). cbn [fst snd orb].
    rewrite <- one_form by done.
    assert (Forall (fun t => 0 <= bdt_DaysBeforeDue t) l)
      by (eapply Forall_impl; [exact HB|]; by intros ? [? ?]).
    destruct (_ && _); split; try done; by intros (_ & _ & _ & ?).
  - split; [done|]. intros (_ & HS & HB & HF). exfalso.
    assert (E' : exists r, plain_tiers false false (-1) l = Ok r); [|destruct E'; congruence].
    eexists. apply plain_tiers_spec. split_and!; [done| | |reflexivity].
    + eapply Forall_impl; [exact HB|]. intros ? ?. split; [done|lia].
    + destruct HF as [HF|HF]; (eapply Forall_impl; [exact HF|]); cbn; lia.
Qed.


(** * What an amendment does

    The bank's documented reading of a patch: a field left out stays as it is, and the
    fees are replaced as a whole. *)
Definition bank_apply (current : BoletoResult) (p : BoletoPatch) : BoletoResult :=
  {| br_BoletoID := br_BoletoID current;
     br_TxID := br_TxID current;
     br_Status := br_Status current;
     br_Modality := br_Modality current;
     br_ExternalReferenceID := br_ExternalReferenceID current;
     br_QRCode := br_QRCode current;
     br_OurNumber := br_OurNumber current;
     br_DigitableLine := br_DigitableLine current;
     br_Barcode := br_Barcode current;
     br_AmountCents := default (br_AmountCents current) (bpt_AmountCents p);
     br_DueDate := default (br_DueDate current) (bpt_DueDate p);
     br_ValidUntil := default (br_ValidUntil current) (bpt_ValidUntil p);
     br_FineBps := from_option bfp_FineBps (br_FineBps current) (bpt_Fees p);
     br_FineFixedCents := from_option bfp_FineFixedCents (br_FineFixedCents current) (bpt_Fees p);
     br_MonthlyInterestBps :=
       from_option bfp_MonthlyInterestBps (br_MonthlyInterestBps current) (bpt_Fees p);
     br_Discounts := from_option bfp_Discounts (br_Discounts current) (bpt_Fees p) |}.

Definition input_tier (d : DiscountTierInput) : BoletoDiscountTier :=
  {| bdt_DaysBeforeDue := dti_DaysBeforeDue d; bdt_Bps := dti_Bps d;
     bdt_FixedCents := dti_FixedCents d |}.

Lemma from_to_tier d : fromPortTier (toPortTier d) = d.
Proof. by destruct d. Qed.
Lemma to_from_tiers l : map toPortTier (map fromPortTier l) = l.
Proof. rewrite map_map, (map_ext _ (fun d => d)); [apply map_id|]. by intros []. Qed.
Lemma from_to_tiers l : map fromPortTier (map toPortTier l) = l.
Proof. rewrite map_map, (map_ext _ (fun d => d)); [apply map_id|]. apply from_to_tier. Qed.

Lemma buildDiscountTiers_map l out : buildDiscountTiers l = Ok out ->
  map toPortTier out = map input_tier l.
Proof.
  unfold buildDiscountTiers. case_bool_decide; [intros; by simplify_eq|].
  destruct (_ <? _)%nat; [done|]. intros. simplify_eq. by rewrite map_map.
Qed.

Lemma mergeBoletoPatch_Ok cur i m : mergeBoletoPatch cur i = Ok m ->
  Money_ok (mb_principal m) /\
  cents (mb_principal m) = default (br_AmountCents cur) (ubi_AmountCents i) /\
  mb_dueDate m = default (br_DueDate cur) (ubi_DueDate i) /\
  mb_validUntil m = default (br_ValidUntil cur) (ubi_ValidUntil i) /\
  mb_fineBps m = default (br_FineBps cur) (ubi_FineBps i) /\
  mb_fineFixedCents m = default (br_FineFixedCents cur) (ubi_FineFixedCents i) /\
  mb_monthlyInterestBps m = default (br_MonthlyInterestBps cur) (ubi_MonthlyInterestBps i) /\
  map toPortTier (mb_tiers m) = from_option (map input_tier) (br_Discounts cur) (ubi_Discounts i).
Proof.
  unfold mergeBoletoPatch. cbv zeta. destruct (_ && _); [done|].
  destruct (NewMoney _ _) as [pr|] eqn:Em; [|done]. apply NewMoney_Ok in Em as (? & ? & ->).
  destruct (match ubi_Discounts i with Some l => _ | None => _ end) as [tiers|] eqn:Et; [|done].
  intros. simplify_eq/=. split_and!; try done.
  destruct (ubi_Discounts i) as [l|]; cbn in *; [by apply buildDiscountTiers_map|].
  simplify_eq. apply to_from_tiers.
Qed.

(** C17. An amendment changes what its caller named and nothing else: once the bank has
    applied the patch, every parameter the caller set has the value asked for and every
    other the value it had, the fees among them although the bank replaces them as a
    whole; and the amended boleto as a whole is within the legal caps, with one kind of
    fine and a well-formed discount schedule. *)
Theorem amendment_exact tenantID boletoID cur i p
    (Hp : amendment tenantID boletoID cur i = Ok p) :
  let after := bank_apply cur p in
  br_AmountCents after = default (br_AmountCents cur) (ubi_AmountCents i) /\
  br_DueDate after = default (br_DueDate cur) (ubi_DueDate i) /\
  br_ValidUntil after = default (br_ValidUntil cur) (ubi_ValidUntil i) /\
  br_FineBps after = default (br_FineBps cur) (ubi_FineBps i) /\
  br_FineFixedCents after = default (br_FineFixedCents cur) (ubi_FineFixedCents i) /\
  br_MonthlyInterestBps after = default (br_MonthlyInterestBps cur) (ubi_MonthlyInterestBps i) /\
  br_Discounts after = from_option (map input_tier) (br_Discounts cur) (ubi_Discounts i) /\
  0 < br_AmountCents after /\ IsZero (br_DueDate after) = false /\
  0 <= br_FineBps after <= MaxFineBps /\
  0 <= br_MonthlyInterestBps after <= MaxMonthlyInterestBps /\
  (0 < br_FineFixedCents after -> br_FineBps after = 0 /\
     br_FineFixedCents after <= roundDiv (mul64 (br_AmountCents after) MaxFineBps) bpsDenominator) /\
  schedule (br_AmountCents after) (map fromPortTier (br_Discounts after)).
Proof.
  unfold amendment in Hp. destruct (mergeBoletoPatch cur i) as [m|] eqn:Em; [|done].
  apply mergeBoletoPatch_Ok in Em as (Hm & Ec & Ed & Ev & Ef & Ex & Ei & Et).
  destruct (buildBoleto _ _ _ _ _ _ _ _ _) as [b|] eqn:Eb; [|done]. simplify_eq.
  apply buildBoleto_Ok in Eb as (_ & _ & _ & _ & Hd & _ & Hf & _ & Hi & _ & Hx & _ & _ & Hs); [|done].
  assert (HF : forall A (f : BoletoFeesPatch -> A) d v,
    (touchesFees i = true -> f {| bfp_FineBps := mb_fineBps m;
        bfp_FineFixedCents := mb_fineFixedCents m;
        bfp_MonthlyInterestBps := mb_monthlyInterestBps m;
        bfp_Discounts := map toPortTier (mb_tiers m) |} = v) ->
    (touchesFees i = false -> d = v) ->
    from_option f d (bpt_Fees (toBoletoPatch i m)) = v).
  { intros A f d v H1 H2. unfold toBoletoPatch. cbn. destruct (touchesFees i); cbn; auto. }
  assert (HU : touchesFees i = false -> ubi_FineBps i = None /\ ubi_FineFixedCents i = None /\
            ubi_MonthlyInterestBps i = None /\ ubi_Discounts i = None).
  { unfold touchesFees. by destruct (ubi_FineBps i), (ubi_FineFixedCents i),
      (ubi_MonthlyInterestBps i), (ubi_Discounts i). }
  cbv zeta. cbn [bank_apply br_AmountCents br_DueDate br_ValidUntil br_FineBps br_FineFixedCents
    br_MonthlyInterestBps br_Discounts].
  rewrite (HF _ bfp_FineBps _ (mb_fineBps m)), (HF _ bfp_FineFixedCents _ (mb_fineFixedCents m)),
    (HF _ bfp_MonthlyInterestBps _ (mb_monthlyInterestBps m)),
    (HF _ bfp_Discounts _ (map toPortTier (mb_tiers m)));
    try (intros HT; try done; destruct (HU HT) as (E1 & E2 & E3 & E4));
    try (rewrite ?Ef, ?Ex, ?Ei, ?Et, ?E1, ?E2, ?E3, ?E4; reflexivity).
  rewrite from_to_tiers. unfold toBoletoPatch. cbn [bpt_AmountCents bpt_DueDate bpt_ValidUntil].
  rewrite <- Ec, <- Ed. split_and!; try done; [apply Hm|apply Hf|apply Hf|apply Hi|apply Hi].
Qed.

(** * Samples *)
Definition registered (fineBps fixed_ interest : Z) (tiers : list BoletoDiscountTier) : BoletoResult :=
  {| br_BoletoID := "b1"; br_TxID := "tx"; br_Status := "CREATED"; br_Modality := "";
     br_ExternalReferenceID := ""; br_QRCode := ""; br_OurNumber := ""; br_DigitableLine := "";
     br_Barcode := ""; br_AmountCents := 50000; br_DueDate := Boletos.utc 1789776000;
     br_ValidUntil := zeroTime; br_FineBps := fineBps; br_FineFixedCents := fixed_;
     br_MonthlyInterestBps := interest; br_Discounts := tiers |}.
Definition change (fineBps fixed_ : option Z) : UpdateBoletoInput :=
  {| ubi_AmountCents := None; ubi_Currency := ""; ubi_DueDate := None; ubi_ValidUntil := None;
     ubi_FineBps := fineBps; ubi_FineFixedCents := fixed_; ubi_MonthlyInterestBps := None;
     ubi_Discounts := None; ubi_IdempotencyKey := "k" |}.
Definition sample_tier : BoletoDiscountTier :=
  {| bdt_DaysBeforeDue := 5; bdt_Bps := 300; bdt_FixedCents := 0 |}.

Lemma amendment_exact_witness :
  exists p, amendment "t1" "b1" (registered 200 0 100 [sample_tier]) (change (Some 50) None) = Ok p /\
    br_MonthlyInterestBps (bank_apply (registered 200 0 100 [sample_tier]) p) = 100.
Proof.
  eexists. split; [vm_compute; reflexivity|].
  refine (proj1 (proj2 (proj2 (proj2 (proj2 (proj2 (amendment_exact "t1" "b1"
    (registered 200 0 100 [sample_tier]) (change (Some 50) None) _ _))))))).
  vm_compute. reflexivity.
Defined.

(** A negative fixed fine is not refused: the guard that attaches the fine only skips it,
    so the patch restates the fees with the negative value. *)
Theorem negative_fine_amendment :
  match amendment "t1" "b1" (registered 0 700 100 []) (change None (Some (-500))) with
  | Ok p => option_map bfp_FineFixedCents (bpt_Fees p) = Some (-500)
  | Err _ => False
  end.
Proof. vm_compute. reflexivity. Qed.

(** A plain boleto's amendment restates only the fees it names: setting the fine drops
    the interest and the discounts the bank holds. *)
Theorem plain_patch_drops_fees :
  match plain_patch {| ppi_AmountCents := None; ppi_DueDate := None; ppi_FineBps := Some 50;
                       ppi_FineFixedCents := None; ppi_MonthlyInterestBps := None;
                       ppi_Discounts := []; ppi_IdempotencyKey := "k" |} with
  | Ok p =>
      let before := registered 200 0 100 [sample_tier] in
      let after := bank_apply before p in
      br_FineBps after = 50 /\ br_MonthlyInterestBps after = 0 /\ br_Discounts after = []
  | Err _ => False
  end.
Proof. vm_compute. repeat split. Qed.
