(* ===== verification/BankServices.v ===== *)
(** The use-cases that stand between a tenant and the bank without touching the store:
    internal/app/pixbacen.go (revisions, payload locations, received PIX and refunds, batches),
    acquirer.go, statement.go with internal/domain/statement, and the service of plainboleto.go.
    Each checks the tenant and the request and makes at most one call of the bank. *)
From S2P Require Import Prelude GoStrings GoTime Shared Payments Tenants DueCharges Ports BankPorts.
From S2P Require Import PaymentGroups BankSurfaces Charges Issuing BoletoAmend.

(** * domain/statement *)
Definition MaxPeriod : Z := 30 * 24 * 3600 * nsec.
Notation EntryKind := string (only parsing).
Definition KindCredit : EntryKind := "credit".
Definition KindDebit : EntryKind := "debit".
Definition ParseEntryKind (s : string) : res EntryKind :=
  let k := TrimSpace s in
  if bool_decide (k = KindCredit) then Ok KindCredit
  else if bool_decide (k = KindDebit) then Ok KindDebit
  else Err (NewValidationError "entry.kind" "unknown statement entry kind").
Record Period := { per_start : Time; per_end : Time }.
Definition NewPeriod (start end_ : Time) : res Period :=
  refuse (IsZero start) with (NewValidationError "inicio" "start date is required") ;;
  refuse (IsZero end_) with (NewValidationError "fim" "end date is required") ;;
  refuse (Before end_ start) with (NewValidationError "fim" "end date must not precede start date") ;;
  refuse (MaxPeriod <? Sub end_ start) with (NewValidationError "fim" "period must not exceed 30 days") ;;
  Ok {| per_start := start; per_end := end_ |}.
Record PostedEntry := {
  pe_id : string; pe_date : Time; pe_amountCents : Z; pe_kind : EntryKind; pe_description : string
}.
Definition statement_NewEntry (id : string) (date : Time) (amountCents : Z) (kind : EntryKind) (description : string)
    : res PostedEntry :=
  let id := TrimSpace id in
  refuse (bool_decide (id = "")) with (NewValidationError "entry.id" "entry id is required") ;;
  refuse (IsZero date) with (NewValidationError "entry.date" "entry date is required") ;;
  refuse (amountCents <=? 0) with (NewValidationError "entry.amount_cents" "amount must be greater than zero") ;;
  let? k := ParseEntryKind kind in
  let description := TrimSpace description in
  refuse (bool_decide (description = "")) with (NewValidationError "entry.description" "description is required") ;;
  Ok {| pe_id := id; pe_date := date; pe_amountCents := amountCents; pe_kind := k; pe_description := description |}.
Record AccountStatement := { as_tenantID : string; as_period : Period; as_entries : list PostedEntry }.
Definition statement_New (tenantID : string) (period : Period) (entries : list PostedEntry) : res AccountStatement :=
  let tenantID := TrimSpace tenantID in
  refuse (bool_decide (tenantID = "")) with (NewValidationError "tenant_id" "tenant id is required") ;;
  Ok {| as_tenantID := tenantID; as_period := period; as_entries := entries |}.

(** statement.go, [toDomainStatement]. *)
Fixpoint posted_entries (l : list StatementEntry) : res (list PostedEntry) :=
  match l with
  | [] => Ok []
  | e :: rest =>
      let? kind := ParseEntryKind (ste_Kind e) in
      let? de := statement_NewEntry (ste_ID e) (ste_Date e) (ste_AmountCents e) kind (ste_Description e) in
      let? tail := posted_entries rest in
      Ok (de :: tail)
  end.
Definition toDomainStatement (tenantID : string) (period : Period) (s : Statement) : res AccountStatement :=
  let? entries := posted_entries (stm_Entries s) in
  statement_New tenantID period entries.

(** * Inputs *)
Record ReviseImmediateChargeInput := {
  ric_TenantID : string; ric_TxID : string; ric_AmountCents : Z; ric_ExpiresIn : Z;
  ric_DebtorTaxID : string; ric_DebtorName : string; ric_CreditorKey : string; ric_IdempotencyKey : string
}.
Record ListDueChargesInput := {
  ldc_TenantID : string; ldc_Start : Time; ldc_End : Time; ldc_Page : Z; ldc_PageSize : Z
}.
Record ListLocationsInput := {
  lli_TenantID : string; lli_Start : Time; lli_End : Time; lli_TipoCob : string;
  lli_TxIDPresent : option bool; lli_Page : Z; lli_PageSize : Z
}.
Record ListReceivedPixInput := {
  lrp_TenantID : string; lrp_Start : Time; lrp_End : Time; lrp_TxID : string; lrp_TxIDPresent : option bool;
  lrp_RefundPresent : option bool; lrp_PayerTaxID : string; lrp_Page : Z; lrp_PageSize : Z
}.
Record RequestRefundInput := {
  rri_TenantID : string; rri_EndToEndID : string; rri_RefundID : string; rri_AmountCents : Z;
  rri_Nature : string; rri_Description : string
}.
Record BatchChargeInput := { bci_TxID : string; bci_DueCharge : DueChargeInput }.
Record BatchInput := {
  bin_TenantID : string; bin_BatchID : string; bin_Description : string; bin_Charges : list BatchChargeInput
}.
Record ListBatchesInput := {
  lbi_TenantID : string; lbi_Start : Time; lbi_End : Time; lbi_Page : Z; lbi_PageSize : Z
}.
Record AcquirerStatementInput := {
  asi_TenantID : string; asi_Start : Time; asi_End : Time; asi_Page : Z; asi_PageSize : Z
}.
Record GetStatementInput := { gsi_TenantID : string; gsi_Start : Time; gsi_End : Time }.
Record ListBoletosInput := {
  lbl_TenantID : string; lbl_PaymentDateFrom : Time; lbl_PaymentDateTo : Time; lbl_DueDateFrom : Time;
  lbl_DueDateTo : Time; lbl_CreditDateFrom : Time; lbl_CreditDateTo : Time; lbl_Status : string;
  lbl_ExternalReferenceID : string; lbl_Page : Z; lbl_PageSize : Z
}.

(** * Checks *)
Definition parseRefundNature (s : string) : res PixRefundNature :=
  let n := ToUpper (TrimSpace s) in
  if bool_decide (n = "") then Ok ""
  else if bool_decide (n ∈ [RefundOriginal; RefundWithdrawal; RefundMEDOperational; RefundMEDFraud]) then Ok n
  else Err (NewValidationError "nature" "unknown refund nature").
Definition maxBatchCharges : nat := 200.
Definition maxAcquirerWindow : Z := 60 * 24 * 3600 * nsec.
Definition acquirer_validate (i : AcquirerStatementInput) : res unit :=
  refuse (IsZero (asi_Start i)) with (NewValidationError "start" "start date is required") ;;
  refuse (negb (IsZero (asi_End i)) && Before (asi_End i) (asi_Start i))
    with (NewValidationError "end" "end must not be before start") ;;
  refuse (negb (IsZero (asi_End i)) && (maxAcquirerWindow <? Sub (asi_End i) (asi_Start i)))
    with (NewValidationError "range" "date range too large") ;;
  refuse ((asi_Page i <? 0) || (asi_PageSize i <? 0))
    with (NewValidationError "pagination" "page and page_size must not be negative") ;;
  Ok tt.
Definition acquirer_filter (i : AcquirerStatementInput) : AcquirerStatementFilter :=
  {| asf_Start := asi_Start i; asf_End := asi_End i; asf_Page := asi_Page i; asf_PageSize := asi_PageSize i |}.
Definition maxBoletoListWindow : Z := 60 * 24 * 3600 * nsec.
(** The loop over the three ranges: is there any? *)
Fixpoint boleto_ranges (some : bool) (l : list (Time * Time)) : res bool :=
  match l with
  | [] => Ok some
  | (from, to) :: rest =>
      if IsZero from && IsZero to then boleto_ranges some rest else
      refuse (IsZero from || IsZero to || Before to from)
        with (NewValidationError "range" "both ends of a date range are required") ;;
      refuse (maxBoletoListWindow <? Sub to from) with (NewValidationError "range" "date range too large") ;;
      boleto_ranges true rest
  end.
Definition boleto_intervals (i : ListBoletosInput) : list (Time * Time) :=
  [(lbl_PaymentDateFrom i, lbl_PaymentDateTo i); (lbl_DueDateFrom i, lbl_DueDateTo i);
   (lbl_CreditDateFrom i, lbl_CreditDateTo i)].

(** * The services

    A port that is not wired answers unavailable. *)
Section services.
Context {W : Type} (FindTenantByID : string -> res Tenant) (now : Time).
Definition requireActiveTenantFor (tenantID : string) : res unit :=
  let? t := map_err (Wrap "resolve tenant") (FindTenantByID tenantID) in
  refuse (negb (tenant_active t)) with (NewValidationError "tenant" "tenant is not active") ;;
  Ok tt.
(** The two lines every operation starts with. *)
Definition behind {P A} (port : option P) (tenantID : string) (k : P -> M W error A) : M W error A :=
  match port with
  | None => throwM ErrUnavailable
  | Some p => do _ <- liftM (requireActiveTenantFor tenantID) ;; k p
  end.
(** A path parameter, trimmed and required. *)
Definition required (field message s : string) : res string :=
  let s := TrimSpace s in
  refuse (bool_decide (s = "")) with (NewValidationError field message) ;; Ok s.

Definition ReviseImmediateCharge (port : option (PixChargeReviser W)) (i : ReviseImmediateChargeInput)
    : M W error PixChargeResult :=
  behind port (ric_TenantID i) (fun p =>
    do txID <- liftM (required "txid" "txid is required" (ric_TxID i)) ;;
    abort (ric_AmountCents i <? 0) with (NewValidationError "amount_cents" "amount must not be negative") ;;
    do _ <- liftM (validateDebtor (ric_DebtorTaxID i) (ric_DebtorName i)) ;;
    abort ((ric_AmountCents i =? 0) && (ric_ExpiresIn i <=? 0) && bool_decide (TrimSpace (ric_DebtorTaxID i) = "")
           && bool_decide (TrimSpace (ric_CreditorKey i) = ""))
      with (NewValidationError "revision" "nothing to revise") ;;
    reviser_ReviseImmediateCharge p (ric_TenantID i) txID
      {| chr_TenantID := ""; chr_PaymentID := ""; chr_AmountCents := ric_AmountCents i; chr_Currency := "";
         chr_IdempotencyKey := ric_IdempotencyKey i; chr_DebtorTaxID := TrimSpace (ric_DebtorTaxID i);
         chr_DebtorName := TrimSpace (ric_DebtorName i); chr_CreditorKey := TrimSpace (ric_CreditorKey i) |}
      (ric_ExpiresIn i)).
Definition ReviseDueCharge (port : option (PixDueChargeReviser W)) (tenantID txID : string) (i : DueChargeInput)
    : M W error PixDueChargeResult :=
  behind port tenantID (fun p =>
    do txID <- liftM (required "txid" "txid is required" txID) ;;
    abort (dci_AmountCents i <? 0) with (NewValidationError "amount_cents" "amount must not be negative") ;;
    duereviser_ReviseDueCharge p tenantID txID (toRequest i txID)).
Definition ListDueCharges (port : option (PixDueChargeLister W)) (i : ListDueChargesInput) : M W error PixDueChargeList :=
  behind port (ldc_TenantID i) (fun p =>
    do _ <- liftM (validatePixListWindow (ldc_Start i) (ldc_End i) (ldc_Page i) (ldc_PageSize i)) ;;
    duelister_ListDueCharges p (ldc_TenantID i)
      {| plf_Start := ldc_Start i; plf_End := ldc_End i; plf_Page := ldc_Page i; plf_PageSize := ldc_PageSize i |}).

(** ** Payload locations *)
Definition tipo_cob (s : string) : string := ToLower (TrimSpace s).
Definition known_tipo (s : string) : bool := bool_decide (s = "cob") || bool_decide (s = "cobv").
Definition unknown_tipo : error := NewValidationError "tipo_cob" "tipo_cob must be cob or cobv".
Definition CreateLocation (port : option (PixLocationProvider W)) (tenantID tipoCob : string) : M W error PixLocation :=
  behind port tenantID (fun p =>
    abort (negb (known_tipo (tipo_cob tipoCob))) with unknown_tipo ;;
    location_CreateLocation p tenantID (tipo_cob tipoCob)).
Definition ListLocations (port : option (PixLocationProvider W)) (i : ListLocationsInput) : M W error PixLocationList :=
  behind port (lli_TenantID i) (fun p =>
    do _ <- liftM (validatePixListWindow (lli_Start i) (lli_End i) (lli_Page i) (lli_PageSize i)) ;;
    let tipo := tipo_cob (lli_TipoCob i) in
    abort (negb (bool_decide (tipo = "")) && negb (known_tipo tipo)) with unknown_tipo ;;
    location_ListLocations p (lli_TenantID i)
      {| plof_Start := lli_Start i; plof_End := lli_End i; plof_TipoCob := tipo;
         plof_TxIDPresent := lli_TxIDPresent i; plof_Page := lli_Page i; plof_PageSize := lli_PageSize i |}).
Definition GetLocation (port : option (PixLocationProvider W)) (tenantID : string) (id : Z) : M W error PixLocation :=
  behind port tenantID (fun p =>
    abort (id <=? 0) with (NewValidationError "id" "location id must be positive") ;;
    location_GetLocation p tenantID id).
Definition UnlinkLocationTxID (port : option (PixLocationProvider W)) (tenantID : string) (id : Z) : M W error PixLocation :=
  behind port tenantID (fun p =>
    abort (id <=? 0) with (NewValidationError "id" "location id must be positive") ;;
    location_UnlinkLocationTxID p tenantID id).

(** ** Received PIX and refunds *)
Definition GetReceivedPix (port : option (PixReceivedProvider W)) (tenantID endToEndID : string) : M W error ReceivedPix :=
  behind port tenantID (fun p =>
    do e2e <- liftM (required "e2eid" "end-to-end id is required" endToEndID) ;;
    received_GetReceivedPix p tenantID e2e).
Definition ListReceivedPix (port : option (PixReceivedProvider W)) (i : ListReceivedPixInput) : M W error ReceivedPixList :=
  behind port (lrp_TenantID i) (fun p =>
    do _ <- liftM (validatePixListWindow (lrp_Start i) (lrp_End i) (lrp_Page i) (lrp_PageSize i)) ;;
    let taxID := TrimSpace (lrp_PayerTaxID i) in
    abort (negb (bool_decide (taxID = "")) && negb (Charges.validTaxID taxID))
      with (NewValidationError "payer_tax_id" "payer tax id must be 11 (CPF) or 14 (CNPJ) digits") ;;
    received_ListReceivedPix p (lrp_TenantID i)
      {| rpf_Start := lrp_Start i; rpf_End := lrp_End i; rpf_TxID := TrimSpace (lrp_TxID i);
         rpf_TxIDPresent := lrp_TxIDPresent i; rpf_RefundPresent := lrp_RefundPresent i; rpf_PayerTaxID := taxID;
         rpf_Page := lrp_Page i; rpf_PageSize := lrp_PageSize i |}).
Definition RequestRefund (port : option (PixReceivedProvider W)) (i : RequestRefundInput) : M W error PixRefund :=
  behind port (rri_TenantID i) (fun p =>
    do e2e <- liftM (required "e2eid" "end-to-end id is required" (rri_EndToEndID i)) ;;
    do refundID <- liftM (required "refund_id" "refund id is required" (rri_RefundID i)) ;;
    abort (rri_AmountCents i <=? 0)
      with (NewValidationError "amount_cents" "refund amount must be greater than zero") ;;
    do nature <- liftM (parseRefundNature (rri_Nature i)) ;;
    received_RequestRefund p (rri_TenantID i) e2e refundID
      {| rrq_AmountCents := rri_AmountCents i; rrq_Nature := nature; rrq_Description := TrimSpace (rri_Description i) |}).
Definition GetRefund (port : option (PixReceivedProvider W)) (tenantID endToEndID refundID : string) : M W error PixRefund :=
  behind port tenantID (fun p =>
    let e2e := TrimSpace endToEndID in
    let refundID := TrimSpace refundID in
    abort (bool_decide (e2e = "") || bool_decide (refundID = ""))
      with (NewValidationError "refund" "end-to-end id and refund id are required") ;;
    received_GetRefund p tenantID e2e refundID).

(** ** Batches *)
Fixpoint batch_requests (charges : list BatchChargeInput) : res (list PixDueChargeRequest) :=
  match charges with
  | [] => Ok []
  | c :: rest =>
      let? txID := required "charges.txid" "every charge in a batch needs its own txid" (bci_TxID c) in
      let i := bci_DueCharge c in
      let? principal := NewMoney (dci_AmountCents i) (dci_Currency i) in
      let? _ := validateDueCharge now i principal in
      let? tail := batch_requests rest in
      Ok (toRequest i txID :: tail)
  end.
Definition write (port : option (PixDueChargeBatchProvider W)) (i : BatchInput) (revisao : bool) : M W error unit :=
  behind port (bin_TenantID i) (fun p =>
    let batchID := TrimSpace (bin_BatchID i) in
    let description := TrimSpace (bin_Description i) in
    abort (bool_decide (batchID = "")) with (NewValidationError "batch_id" "batch id is required") ;;
    abort (bool_decide (description = "")) with (NewValidationError "description" "description is required") ;;
    abort (bool_decide (bin_Charges i = [])) with (NewValidationError "charges" "at least one charge is required") ;;
    abort (maxBatchCharges <? List.length (bin_Charges i))%nat
      with (NewValidationError "charges" "too many charges in a single batch") ;;
    do reqs <- liftM (batch_requests (bin_Charges i)) ;;
    if revisao then batch_ReviseBatch p (bin_TenantID i) batchID description reqs
    else batch_CreateBatch p (bin_TenantID i) batchID description reqs).
Definition CreateBatch (port : option (PixDueChargeBatchProvider W)) (i : BatchInput) : M W error unit := write port i false.
Definition ReviseBatch (port : option (PixDueChargeBatchProvider W)) (i : BatchInput) : M W error unit := write port i true.
Definition GetBatch (port : option (PixDueChargeBatchProvider W)) (tenantID batchID : string) : M W error PixDueChargeBatch :=
  behind port tenantID (fun p =>
    do batchID <- liftM (required "batch_id" "batch id is required" batchID) ;;
    batch_GetBatch p tenantID batchID).
Definition ListBatches (port : option (PixDueChargeBatchProvider W)) (i : ListBatchesInput) : M W error PixDueChargeBatchList :=
  behind port (lbi_TenantID i) (fun p =>
    do _ <- liftM (validatePixListWindow (lbi_Start i) (lbi_End i) (lbi_Page i) (lbi_PageSize i)) ;;
    batch_ListBatches p (lbi_TenantID i)
      {| btf_Start := lbi_Start i; btf_End := lbi_End i; btf_Page := lbi_Page i; btf_PageSize := lbi_PageSize i |}).

(** ** The acquirer's and the account's statement *)
Definition ListReceivables (port : option (AcquirerStatementProvider W)) (i : AcquirerStatementInput) : M W error ReceivableList :=
  behind port (asi_TenantID i) (fun p =>
    do _ <- liftM (acquirer_validate i) ;; acquirer_ListReceivables p (asi_TenantID i) (acquirer_filter i)).
Definition ListCardTransactions (port : option (AcquirerStatementProvider W)) (i : AcquirerStatementInput)
    : M W error CardTransactionList :=
  behind port (asi_TenantID i) (fun p =>
    do _ <- liftM (acquirer_validate i) ;; acquirer_ListCardTransactions p (asi_TenantID i) (acquirer_filter i)).
(** This port is always wired. *)
Definition GetStatement (p : StatementProvider W) (i : GetStatementInput) : M W error Statement :=
  do _ <- liftM (requireActiveTenantFor (gsi_TenantID i)) ;;
  do period <- liftM (NewPeriod (gsi_Start i) (gsi_End i)) ;;
  do s <- wrapM (Wrap "bank get statement") (statement_GetStatement p (gsi_TenantID i)
            {| stf_Start := per_start period; stf_End := per_end period |}) ;;
  do _ <- liftM (toDomainStatement (gsi_TenantID i) period s) ;;
  retM s.

(** ** Plain boletos, and the listing of boletos *)
Definition CreatePlainBoleto (port : option (PlainBoletoProvider W)) (i : PlainBoletoInput) : M W error BoletoResult :=
  behind port (pbi_TenantID i) (fun p =>
    do slipID <- liftM (required "slip_id" "slip id is required" (pbi_SlipID i)) ;;
    do r <- liftM (plain_request i slipID) ;;
    plain_CreatePlainBoleto p (pbi_TenantID i) r).
Definition GetPlainBoleto (port : option (PlainBoletoProvider W)) (tenantID slipID : string) : M W error BoletoResult :=
  behind port tenantID (fun p =>
    do slipID <- liftM (required "slip_id" "slip id is required" slipID) ;; plain_GetPlainBoleto p tenantID slipID).
Definition UpdatePlainBoleto (port : option (PlainBoletoProvider W)) (tenantID slipID : string) (i : PlainBoletoPatchInput)
    : M W error BoletoResult :=
  behind port tenantID (fun p =>
    do slipID <- liftM (required "slip_id" "slip id is required" slipID) ;;
    do patch <- liftM (plain_patch i) ;;
    plain_UpdatePlainBoleto p tenantID slipID patch).
Definition CancelPlainBoleto (port : option (PlainBoletoProvider W)) (tenantID slipID : string) : M W error unit :=
  behind port tenantID (fun p =>
    do slipID <- liftM (required "slip_id" "slip id is required" slipID) ;; plain_CancelPlainBoleto p tenantID slipID).
Definition GetPlainBoletoPDF (port : option (PlainBoletoProvider W)) (tenantID slipID : string) : M W error BoletoDocument :=
  behind port tenantID (fun p =>
    do slipID <- liftM (required "slip_id" "slip id is required" slipID) ;; plain_GetPlainBoletoPDF p tenantID slipID).
Definition ListBoletos (port : option (BoletoLister W)) (i : ListBoletosInput) : M W error BoletoList :=
  behind port (lbl_TenantID i) (fun p =>
    do some <- liftM (boleto_ranges false (boleto_intervals i)) ;;
    abort (negb some)
      with (NewValidationError "range" "at least one date range is required (payment, due or credit)") ;;
    abort ((lbl_Page i <? 0) || (lbl_PageSize i <? 0))
      with (NewValidationError "pagination" "page and page_size must not be negative") ;;
    blister_ListBoletos p (lbl_TenantID i)
      {| blf_PaymentDateFrom := lbl_PaymentDateFrom i; blf_PaymentDateTo := lbl_PaymentDateTo i;
         blf_DueDateFrom := lbl_DueDateFrom i; blf_DueDateTo := lbl_DueDateTo i;
         blf_CreditDateFrom := lbl_CreditDateFrom i; blf_CreditDateTo := lbl_CreditDateTo i;
         blf_Status := ToUpper (TrimSpace (lbl_Status i));
         blf_ExternalReferenceID := TrimSpace (lbl_ExternalReferenceID i);
         blf_Page := lbl_Page i; blf_PageSize := lbl_PageSize i |}).
End services.

(** * What the bank is asked

    The operations a tenant may ask for, and the calls of the bank's surfaces. *)
Inductive service_op : Type -> Type :=
| OpReviseImmediate (i : ReviseImmediateChargeInput) : service_op PixChargeResult
| OpReviseDue (t x : string) (i : DueChargeInput) : service_op PixDueChargeResult
| OpListDue (i : ListDueChargesInput) : service_op PixDueChargeList
| OpCreateLocation (t tipo : string) : service_op PixLocation
| OpListLocations (i : ListLocationsInput) : service_op PixLocationList
| OpGetLocation (t : string) (id : Z) : service_op PixLocation
| OpUnlinkLocation (t : string) (id : Z) : service_op PixLocation
| OpGetReceived (t e2e : string) : service_op ReceivedPix
| OpListReceived (i : ListReceivedPixInput) : service_op ReceivedPixList
| OpRequestRefund (i : RequestRefundInput) : service_op PixRefund
| OpGetRefund (t e2e id : string) : service_op PixRefund
| OpWriteBatch (i : BatchInput) (revisao : bool) : service_op unit
| OpGetBatch (t id : string) : service_op PixDueChargeBatch
| OpListBatches (i : ListBatchesInput) : service_op PixDueChargeBatchList
| OpListReceivables (i : AcquirerStatementInput) : service_op ReceivableList
| OpListCards (i : AcquirerStatementInput) : service_op CardTransactionList
| OpGetStatement (i : GetStatementInput) : service_op Statement
| OpCreatePlain (i : PlainBoletoInput) : service_op BoletoResult
| OpGetPlain (t id : string) : service_op BoletoResult
| OpUpdatePlain (t id : string) (i : PlainBoletoPatchInput) : service_op BoletoResult
| OpCancelPlain (t id : string) : service_op unit
| OpPlainPDF (t id : string) : service_op BoletoDocument
| OpListBoletos (i : ListBoletosInput) : service_op BoletoList.
Definition op_tenant {A} (op : service_op A) : string :=
  match op with
  | OpReviseImmediate i => ric_TenantID i | OpReviseDue t _ _ => t | OpListDue i => ldc_TenantID i
  | OpCreateLocation t _ => t | OpListLocations i => lli_TenantID i | OpGetLocation t _ => t
  | OpUnlinkLocation t _ => t | OpGetReceived t _ => t | OpListReceived i => lrp_TenantID i
  | OpRequestRefund i => rri_TenantID i | OpGetRefund t _ _ => t | OpWriteBatch i _ => bin_TenantID i
  | OpGetBatch t _ => t | OpListBatches i => lbi_TenantID i | OpListReceivables i => asi_TenantID i
  | OpListCards i => asi_TenantID i | OpGetStatement i => gsi_TenantID i | OpCreatePlain i => pbi_TenantID i
  | OpGetPlain t _ => t | OpUpdatePlain t _ _ => t | OpCancelPlain t _ => t | OpPlainPDF t _ => t
  | OpListBoletos i => lbl_TenantID i
  end.

(** The surfaces the services are wired to. *)
Record Surfaces (W : Type) := {
  su_Reviser : option (PixChargeReviser W); su_DueReviser : option (PixDueChargeReviser W);
  su_DueLister : option (PixDueChargeLister W); su_Location : option (PixLocationProvider W);
  su_Received : option (PixReceivedProvider W); su_Batch : option (PixDueChargeBatchProvider W);
  su_Acquirer : option (AcquirerStatementProvider W); su_Statement : StatementProvider W;
  su_Plain : option (PlainBoletoProvider W); su_Lister : option (BoletoLister W)
}.
Arguments su_Reviser {W}. Arguments su_DueReviser {W}. Arguments su_DueLister {W}. Arguments su_Location {W}.
Arguments su_Received {W}. Arguments su_Batch {W}. Arguments su_Acquirer {W}. Arguments su_Statement {W}.
Arguments su_Plain {W}. Arguments su_Lister {W}.
Definition serve {W A} (find : string -> res Tenant) (now : Time) (su : Surfaces W) (op : service_op A) : M W error A :=
  match op in service_op A return M W error A with
  | OpReviseImmediate i => ReviseImmediateCharge find (su_Reviser su) i
  | OpReviseDue t x i => ReviseDueCharge find (su_DueReviser su) t x i
  | OpListDue i => ListDueCharges find (su_DueLister su) i
  | OpCreateLocation t tipo => CreateLocation find (su_Location su) t tipo
  | OpListLocations i => ListLocations find (su_Location su) i
  | OpGetLocation t id => GetLocation find (su_Location su) t id
  | OpUnlinkLocation t id => UnlinkLocationTxID find (su_Location su) t id
  | OpGetReceived t e => GetReceivedPix find (su_Received su) t e
  | OpListReceived i => ListReceivedPix find (su_Received su) i
  | OpRequestRefund i => RequestRefund find (su_Received su) i
  | OpGetRefund t e r => GetRefund find (su_Received su) t e r
  | OpWriteBatch i revisao => write find now (su_Batch su) i revisao
  | OpGetBatch t id => GetBatch find (su_Batch su) t id
  | OpListBatches i => ListBatches find (su_Batch su) i
  | OpListReceivables i => ListReceivables find (su_Acquirer su) i
  | OpListCards i => ListCardTransactions find (su_Acquirer su) i
  | OpGetStatement i => GetStatement find (su_Statement su) i
  | OpCreatePlain i => CreatePlainBoleto find (su_Plain su) i
  | OpGetPlain t id => GetPlainBoleto find (su_Plain su) t id
  | OpUpdatePlain t id i => UpdatePlainBoleto find (su_Plain su) t id i
  | OpCancelPlain t id => CancelPlainBoleto find (su_Plain su) t id
  | OpPlainPDF t id => GetPlainBoletoPDF find (su_Plain su) t id
  | OpListBoletos i => ListBoletos find (su_Lister su) i
  end.

(** ** Requests in order *)
Definition pix_window (start end_ : Time) (page pageSize : Z) : Prop :=
  IsZero start = false /\ IsZero end_ = false /\ ns start < ns end_ /\
  Sub end_ start <= maxPixListRange /\ 0 <= page /\ 0 <= pageSize.
Definition debtor_in_order (taxID name : string) : Prop :=
  (TrimSpace taxID = "" /\ TrimSpace name = "") \/ Charges.validTaxID (TrimSpace taxID) = true.
(** A due-date charge a batch may carry, on [now]. *)
Definition due_in_order (now : Time) (i : DueChargeInput) : Prop :=
  dayAfter (dci_DueDate i) now = true /\
  exists principal c, NewMoney (dci_AmountCents i) (dci_Currency i) = Ok principal /\
                      cobv_New (due_params i principal) = Ok c.
Definition range_in_order (r : Time * Time) : Prop :=
  IsZero r.1 = false /\ IsZero r.2 = false /\ ns r.1 <= ns r.2 /\ Sub r.2 r.1 <= maxBoletoListWindow.
Definition no_range (r : Time * Time) : Prop := IsZero r.1 = true /\ IsZero r.2 = true.

(** The calls an operation may lead to. *)
Definition leads_to {W A} (now : Time) (su : Surfaces W) (op : service_op A) : M W error A -> Prop :=
  match op in service_op A return M W error A -> Prop with
  | OpReviseImmediate i => fun m => exists p,
      su_Reviser su = Some p /\ TrimSpace (ric_TxID i) <> "" /\ 0 <= ric_AmountCents i /\
      debtor_in_order (ric_DebtorTaxID i) (ric_DebtorName i) /\
      (0 < ric_AmountCents i \/ 0 < ric_ExpiresIn i \/ TrimSpace (ric_DebtorTaxID i) <> "" \/ TrimSpace (ric_CreditorKey i) <> "") /\
      m = reviser_ReviseImmediateCharge p (ric_TenantID i) (TrimSpace (ric_TxID i))
        {| chr_TenantID := ""; chr_PaymentID := ""; chr_AmountCents := ric_AmountCents i; chr_Currency := "";
           chr_IdempotencyKey := ric_IdempotencyKey i; chr_DebtorTaxID := TrimSpace (ric_DebtorTaxID i);
           chr_DebtorName := TrimSpace (ric_DebtorName i); chr_CreditorKey := TrimSpace (ric_CreditorKey i) |}
        (ric_ExpiresIn i)
  | OpReviseDue t x i => fun m => exists p,
      su_DueReviser su = Some p /\ TrimSpace x <> "" /\ 0 <= dci_AmountCents i /\
      m = duereviser_ReviseDueCharge p t (TrimSpace x) (toRequest i (TrimSpace x))
  | OpListDue i => fun m => exists p,
      su_DueLister su = Some p /\ pix_window (ldc_Start i) (ldc_End i) (ldc_Page i) (ldc_PageSize i) /\
      m = duelister_ListDueCharges p (ldc_TenantID i)
        {| plf_Start := ldc_Start i; plf_End := ldc_End i; plf_Page := ldc_Page i; plf_PageSize := ldc_PageSize i |}
  | OpCreateLocation t tipo => fun m => exists p,
      su_Location su = Some p /\ known_tipo (tipo_cob tipo) = true /\
      m = location_CreateLocation p t (tipo_cob tipo)
  | OpListLocations i => fun m => exists p,
      su_Location su = Some p /\ pix_window (lli_Start i) (lli_End i) (lli_Page i) (lli_PageSize i) /\
      (tipo_cob (lli_TipoCob i) = "" \/ known_tipo (tipo_cob (lli_TipoCob i)) = true) /\
      m = location_ListLocations p (lli_TenantID i)
        {| plof_Start := lli_Start i; plof_End := lli_End i; plof_TipoCob := tipo_cob (lli_TipoCob i);
           plof_TxIDPresent := lli_TxIDPresent i; plof_Page := lli_Page i; plof_PageSize := lli_PageSize i |}
  | OpGetLocation t id => fun m => exists p,
      su_Location su = Some p /\ 0 < id /\
      m = location_GetLocation p t id
  | OpUnlinkLocation t id => fun m => exists p,
      su_Location su = Some p /\ 0 < id /\
      m = location_UnlinkLocationTxID p t id
  | OpGetReceived t e => fun m => exists p,
      su_Received su = Some p /\ TrimSpace e <> "" /\
      m = received_GetReceivedPix p t (TrimSpace e)
  | OpListReceived i => fun m => exists p,
      su_Received su = Some p /\ pix_window (lrp_Start i) (lrp_End i) (lrp_Page i) (lrp_PageSize i) /\
      (TrimSpace (lrp_PayerTaxID i) = "" \/ Charges.validTaxID (TrimSpace (lrp_PayerTaxID i)) = true) /\
      m = received_ListReceivedPix p (lrp_TenantID i)
        {| rpf_Start := lrp_Start i; rpf_End := lrp_End i; rpf_TxID := TrimSpace (lrp_TxID i);
           rpf_TxIDPresent := lrp_TxIDPresent i; rpf_RefundPresent := lrp_RefundPresent i;
           rpf_PayerTaxID := TrimSpace (lrp_PayerTaxID i); rpf_Page := lrp_Page i; rpf_PageSize := lrp_PageSize i |}
  | OpRequestRefund i => fun m => exists nature p,
      su_Received su = Some p /\ TrimSpace (rri_EndToEndID i) <> "" /\
      TrimSpace (rri_RefundID i) <> "" /\ 0 < rri_AmountCents i /\
      nature = ToUpper (TrimSpace (rri_Nature i)) /\
      nature ∈ [""; RefundOriginal; RefundWithdrawal; RefundMEDOperational; RefundMEDFraud] /\
      m = received_RequestRefund p (rri_TenantID i) (TrimSpace (rri_EndToEndID i)) (TrimSpace (rri_RefundID i))
        {| rrq_AmountCents := rri_AmountCents i; rrq_Nature := nature; rrq_Description := TrimSpace (rri_Description i) |}
  | OpGetRefund t e r => fun m => exists p,
      su_Received su = Some p /\ TrimSpace e <> "" /\ TrimSpace r <> "" /\
      m = received_GetRefund p t (TrimSpace e) (TrimSpace r)
  | OpWriteBatch i revisao => fun m => exists p,
      su_Batch su = Some p /\ TrimSpace (bin_BatchID i) <> "" /\ TrimSpace (bin_Description i) <> "" /\
      bin_Charges i <> [] /\ (List.length (bin_Charges i) <= maxBatchCharges)%nat /\
      Forall (fun c => TrimSpace (bci_TxID c) <> "" /\ due_in_order now (bci_DueCharge c)) (bin_Charges i) /\
      m = (if revisao then batch_ReviseBatch p else batch_CreateBatch p) (bin_TenantID i) (TrimSpace (bin_BatchID i))
        (TrimSpace (bin_Description i))
        (map (fun c => toRequest (bci_DueCharge c) (TrimSpace (bci_TxID c))) (bin_Charges i))
  | OpGetBatch t id => fun m => exists p,
      su_Batch su = Some p /\ TrimSpace id <> "" /\
      m = batch_GetBatch p t (TrimSpace id)
  | OpListBatches i => fun m => exists p,
      su_Batch su = Some p /\ pix_window (lbi_Start i) (lbi_End i) (lbi_Page i) (lbi_PageSize i) /\
      m = batch_ListBatches p (lbi_TenantID i)
        {| btf_Start := lbi_Start i; btf_End := lbi_End i; btf_Page := lbi_Page i; btf_PageSize := lbi_PageSize i |}
  | OpListReceivables i => fun m => exists p,
      su_Acquirer su = Some p /\ acquirer_validate i = Ok tt /\
      m = acquirer_ListReceivables p (asi_TenantID i) (acquirer_filter i)
  | OpListCards i => fun m => exists p,
      su_Acquirer su = Some p /\ acquirer_validate i = Ok tt /\
      m = acquirer_ListCardTransactions p (asi_TenantID i) (acquirer_filter i)
  | OpGetStatement i => fun m =>
      IsZero (gsi_Start i) = false /\ IsZero (gsi_End i) = false /\ ns (gsi_Start i) <= ns (gsi_End i) /\
      Sub (gsi_End i) (gsi_Start i) <= MaxPeriod /\
      m = (do s <- wrapM (Wrap "bank get statement") (statement_GetStatement (su_Statement su) (gsi_TenantID i)
                     {| stf_Start := gsi_Start i; stf_End := gsi_End i |}) ;;
           do _ <- liftM (toDomainStatement (gsi_TenantID i) {| per_start := gsi_Start i; per_end := gsi_End i |} s) ;;
           retM s)
  | OpCreatePlain i => fun m => exists r p,
      su_Plain su = Some p /\ TrimSpace (pbi_SlipID i) <> "" /\
      plain_request i (TrimSpace (pbi_SlipID i)) = Ok r /\
      m = plain_CreatePlainBoleto p (pbi_TenantID i) r
  | OpGetPlain t id => fun m => exists p,
      su_Plain su = Some p /\ TrimSpace id <> "" /\
      m = plain_GetPlainBoleto p t (TrimSpace id)
  | OpUpdatePlain t id i => fun m => exists patch p,
      su_Plain su = Some p /\ TrimSpace id <> "" /\ plain_patch i = Ok patch /\
      m = plain_UpdatePlainBoleto p t (TrimSpace id) patch
  | OpCancelPlain t id => fun m => exists p,
      su_Plain su = Some p /\ TrimSpace id <> "" /\
      m = plain_CancelPlainBoleto p t (TrimSpace id)
  | OpPlainPDF t id => fun m => exists p,
      su_Plain su = Some p /\ TrimSpace id <> "" /\
      m = plain_GetPlainBoletoPDF p t (TrimSpace id)
  | OpListBoletos i => fun m => exists p,
      su_Lister su = Some p /\ Forall (fun r => no_range r \/ range_in_order r) (boleto_intervals i) /\
      Exists range_in_order (boleto_intervals i) /\ 0 <= lbl_Page i /\ 0 <= lbl_PageSize i /\
      m = blister_ListBoletos p (lbl_TenantID i)
        {| blf_PaymentDateFrom := lbl_PaymentDateFrom i; blf_PaymentDateTo := lbl_PaymentDateTo i;
           blf_DueDateFrom := lbl_DueDateFrom i; blf_DueDateTo := lbl_DueDateTo i;
           blf_CreditDateFrom := lbl_CreditDateFrom i; blf_CreditDateTo := lbl_CreditDateTo i;
           blf_Status := ToUpper (TrimSpace (lbl_Status i));
           blf_ExternalReferenceID := TrimSpace (lbl_ExternalReferenceID i);
           blf_Page := lbl_Page i; blf_PageSize := lbl_PageSize i |}
  end.

Section decision.
Context {W : Type} (FindTenantByID : string -> res Tenant) (now : Time) (su : Surfaces W).
Notation serve := (serve FindTenantByID now su).
Notation leads_to := (leads_to now su).
Definition active (tenantID : string) : Prop :=
  exists t, FindTenantByID tenantID = Ok t /\ tenant_active t = true.

Lemma requireActive_spec t : match requireActiveTenantFor FindTenantByID t with Ok _ => active t | Err _ => ~ active t end.
Proof.
  unfold requireActiveTenantFor, active. destruct (FindTenantByID t) as [u|e]; cbn; [|by intros (? & ? & _)].
  destruct (tenant_active u) eqn:E; cbn; [by exists u|]. intros (? & [= <-] & ?). congruence.
Qed.
Lemma required_spec f m s : match required f m s with Ok x => x = TrimSpace s /\ TrimSpace s <> "" | Err _ => TrimSpace s = "" end.
Proof. unfold required. cbv zeta. by case_bool_decide. Qed.
Lemma pix_window_spec s e p z : match validatePixListWindow s e p z with Ok _ => pix_window s e p z | Err _ => ~ pix_window s e p z end.
Proof.
  unfold validatePixListWindow, pix_window, After. destruct (IsZero s), (IsZero e); cbn; try naive_solver.
  destruct (Z.ltb_spec (ns s) (ns e)); cbn; [|naive_solver lia].
  destruct (Z.ltb_spec maxPixListRange (Sub e s)); [naive_solver lia|].
  destruct (Z.ltb_spec p 0), (Z.ltb_spec z 0); cbn; naive_solver lia.
Qed.
Lemma debtor_spec t n : match validateDebtor t n with Ok _ => debtor_in_order t n | Err _ => ~ debtor_in_order t n end.
Proof.
  unfold validateDebtor, debtor_in_order. cbv zeta. repeat case_bool_decide; cbn; try naive_solver;
    destruct (Charges.validTaxID (TrimSpace t)) eqn:E; cbn; naive_solver.
Qed.
Lemma batch_spec l : match batch_requests now l with
  | Ok reqs => Forall (fun c => TrimSpace (bci_TxID c) <> "" /\ due_in_order now (bci_DueCharge c)) l /\
               reqs = map (fun c => toRequest (bci_DueCharge c) (TrimSpace (bci_TxID c))) l
  | Err _ => ~ Forall (fun c => TrimSpace (bci_TxID c) <> "" /\ due_in_order now (bci_DueCharge c)) l
  end.
Proof.
  induction l as [|c l IH]; cbn [batch_requests]; [by split|].
  pose proof (required_spec "charges.txid" "every charge in a batch needs its own txid" (bci_TxID c)) as Hx.
  destruct (required _ _ _) as [x|]; [|by intros [[? _] _]%Forall_cons]. destruct Hx as [-> Hx].
  unfold validateDueCharge. destruct (NewMoney _ _) as [p|] eqn:Ep.
  2:{ intros [[_ (_ & p & ? & ? & _)] _]%Forall_cons. congruence. }
  destruct (dayAfter _ now) eqn:Ed; cbn [negb]; [|intros [[_ [? _]] _]%Forall_cons; congruence].
  destruct (cobv_New _) as [v|] eqn:Ev; [|intros [[_ (_ & q & ? & ? & ?)] _]%Forall_cons; congruence].
  destruct (batch_requests now l) as [reqs|]; [|by intros [_ ?]%Forall_cons]. destruct IH as [Hl ->]. split; [|done].
  constructor; [|done]. split; [done|]. split; [done|]. by exists p, v.
Qed.
Lemma nature_spec s :
  let n := ToUpper (TrimSpace s) in
  match parseRefundNature s with
  | Ok m => m = n /\ n ∈ [""; RefundOriginal; RefundWithdrawal; RefundMEDOperational; RefundMEDFraud]
  | Err _ => n ∉ [""; RefundOriginal; RefundWithdrawal; RefundMEDOperational; RefundMEDFraud]
  end.
Proof.
  cbv zeta. unfold parseRefundNature. cbv zeta. case_bool_decide as E1; [split; [done|rewrite E1; by left]|].
  case_bool_decide as E2; [split; [done|by right]|]. by rewrite not_elem_of_cons.
Qed.
Lemma ranges_spec l : forall some, match boleto_ranges some l with
  | Ok b => Forall (fun r => no_range r \/ range_in_order r) l /\ (b = true <-> some = true \/ Exists range_in_order l)
  | Err _ => ~ Forall (fun r => no_range r \/ range_in_order r) l
  end.
Proof.
  induction l as [|[from to] l IH]; intros some; cbn [boleto_ranges].
  { split; [constructor|]. rewrite Exists_nil. tauto. }
  destruct (IsZero from) eqn:Ef, (IsZero to) eqn:Et; cbn.
  - specialize (IH some). destruct (boleto_ranges some l) as [b|]; [|by intros [_ ?]%Forall_cons].
    destruct IH as [Hl ->]. split; [constructor; [by left|done]|]. rewrite Exists_cons. unfold range_in_order. cbn.
    rewrite Ef. naive_solver.
  - intros [[[? ?]|(? & _)] _]%Forall_cons; cbn in *; congruence.
  - intros [[[? ?]|(_ & ? & _)] _]%Forall_cons; cbn in *; congruence.
  - unfold Before. destruct (Z.ltb_spec (ns to) (ns from)).
    { intros [[[? ?]|(_ & _ & ? & _)] _]%Forall_cons; cbn in *; [congruence|lia]. }
    destruct (Z.ltb_spec maxBoletoListWindow (Sub to from)).
    { intros [[[? ?]|(_ & _ & _ & ?)] _]%Forall_cons; cbn in *; [congruence|lia]. }
    specialize (IH true). destruct (boleto_ranges true l) as [b|]; [|by intros [_ ?]%Forall_cons].
    destruct IH as [Hl ->]. assert (Hr : range_in_order (from, to)) by done.
    split; [constructor; [by right|done]|]. rewrite Exists_cons. naive_solver.
Qed.

Lemma period_spec s e : match NewPeriod s e with
  | Ok p => p = {| per_start := s; per_end := e |} /\ IsZero s = false /\ IsZero e = false /\ ns s <= ns e /\
            Sub e s <= MaxPeriod
  | Err _ => ~ (IsZero s = false /\ IsZero e = false /\ ns s <= ns e /\ Sub e s <= MaxPeriod)
  end.
Proof.
  unfold NewPeriod, Before. destruct (IsZero s), (IsZero e); cbn; try naive_solver.
  destruct (Z.ltb_spec (ns e) (ns s)); [naive_solver lia|].
  destruct (Z.ltb_spec MaxPeriod (Sub e s)); naive_solver lia.
Qed.
Lemma same_spec {B} (r : res B) : match r with Ok b => r = Ok b | Err _ => forall b, ~ (r = Ok b) end.
Proof. by destruct r. Qed.
Lemma unit_spec (r : res unit) : match r with Ok _ => r = Ok tt | Err _ => r <> Ok tt end.
Proof. by destruct r as [[]|]. Qed.

(** ** Deciding

    [admits L f]: [f] makes a call of [L], or refuses when there is none. *)
Definition admits {A} (L : M W error A -> Prop) (f : M W error A) : Prop :=
  forall w, (exists m, L m /\ f w = m w) \/ ((forall m, ~ L m) /\ exists e, f w = (w, Err e)).
Lemma admits_call {A} (L : M W error A -> Prop) f : L f -> admits L f.
Proof. intros Hf w. left. by exists f. Qed.
Lemma admits_abort {A} (L : M W error A -> Prop) (b : bool) e (k : M W error A) :
  (b = true -> forall m, ~ L m) -> (b = false -> admits L k) -> admits L (abort b with e ;; k).
Proof. intros H1 H2 w. destruct b; [right; split; [by apply H1|by exists e]|by apply H2]. Qed.
Lemma admits_check {A B} (L : M W error B -> Prop) (r : res A) (k : A -> M W error B) :
  match r with Ok a => admits L (k a) | Err _ => forall m, ~ L m end -> admits L (do a <- liftM r ;; k a).
Proof. intros H w. unfold bindM, liftM. destruct r as [a|e]; [by apply H|]. right. split; [done|by exists e]. Qed.

Definition decides {A} (t : string) (L : M W error A -> Prop) (f : M W error A) : Prop :=
  forall w, (exists m, L m /\ active t /\ f w = m w) \/ ((forall m, L m -> ~ active t) /\ exists e, f w = (w, Err e)).
Lemma decides_tenant {A} t (L : M W error A -> Prop) k : admits L k ->
  decides t L (do _ <- liftM (requireActiveTenantFor FindTenantByID t) ;; k).
Proof.
  intros Hk w. pose proof (requireActive_spec t) as Ht. unfold bindM, liftM.
  destruct (requireActiveTenantFor FindTenantByID t) as [u|e]; [|right; split; [done|by exists e]].
  destruct (Hk w) as [(m & Hm & E)|[Hn He]]; [left; by exists m|right; split; [|done]]. intros m Hm. by destruct (Hn m).
Qed.
Lemma decides_behind {P A} (port : option P) t (L : M W error A -> Prop) k :
  (forall m, L m -> port <> None) -> (forall p, port = Some p -> admits L (k p)) ->
  decides t L (behind FindTenantByID port t k).
Proof.
  intros Hn Hk. unfold behind. destruct port as [p|]; [by apply decides_tenant, Hk|].
  intros w. right. split; [|by exists ErrUnavailable]. intros m Hm. by destruct (Hn m Hm).
Qed.

(** A boolean guard as a proposition. *)
Ltac flags H :=
  rewrite ?orb_true_iff, ?andb_false_iff, ?andb_true_iff, ?orb_false_iff, ?negb_true_iff, ?negb_false_iff,
    ?Z.ltb_lt, ?Z.ltb_ge, ?Z.leb_le, ?Z.leb_gt, ?Z.eqb_eq, ?Z.eqb_neq, ?Nat.ltb_lt, ?Nat.ltb_ge,
    ?bool_decide_eq_true, ?bool_decide_eq_false in H.
(** The request is refused: no call fits it. *)
Ltac none := let m := fresh "m" in let Hm := fresh "Hm" in intros m Hm; cbn in Hm; naive_solver (first [congruence|lia]).
(** One step of an operation: a port, a check, a guard, the call. *)
Ltac behind_port := apply decides_behind; [none|let p := fresh "p" in let Ep := fresh "Ep" in intros p Ep].
Ltac check_with spec :=
  apply admits_check; let H := fresh "Hs" in pose proof spec as H;
  match type of H with context [match ?r with Ok _ => _ | Err _ => _ end] =>
    let E := fresh "E" in destruct r eqn:E; [|none] end.
Ltac guarded :=
  apply admits_abort;
  [let H := fresh "Hg" in intros H; flags H; none|let H := fresh "Hg" in intros H; flags H].
Ltac call_it := apply admits_call; cbn; destruct_and?; subst; naive_solver (first [congruence|lia]).

(** C32. The bank is asked exactly what a sound request of an active tenant says.  Whatever
    operation a tenant asks for, of the twenty-three these services offer, either the request is
    in order and the tenant active, and what happens is the one call of the bank it leads to; or
    it is refused, and the bank is not asked at all.  A refund in order names the payment and the
    refund, and asks for the positive amount the caller gave; a batch carries at most two hundred
    due-date charges, each valid by itself; a listing has a bounded window. *)
Theorem service_calls_exact {A} (op : service_op A) w :
  (exists m, leads_to op m /\ active (op_tenant op) /\ serve op w = m w) \/
  ((forall m, leads_to op m -> ~ active (op_tenant op)) /\ exists e, serve op w = (w, Err e)).
Proof.
  revert w. change (decides (op_tenant op) (leads_to op) (serve op)). destruct op; cbn [op_tenant BankServices.serve].
  - behind_port. check_with (required_spec "txid" "txid is required" (ric_TxID i)). guarded.
    check_with (debtor_spec (ric_DebtorTaxID i) (ric_DebtorName i)). guarded. call_it.
  - behind_port. check_with (required_spec "txid" "txid is required" x). guarded. call_it.
  - behind_port. check_with (pix_window_spec (ldc_Start i) (ldc_End i) (ldc_Page i) (ldc_PageSize i)). call_it.
  - behind_port. guarded. call_it.
  - behind_port. check_with (pix_window_spec (lli_Start i) (lli_End i) (lli_Page i) (lli_PageSize i)). cbv zeta. guarded. call_it.
  - behind_port. guarded. call_it.
  - behind_port. guarded. call_it.
  - behind_port. check_with (required_spec "e2eid" "end-to-end id is required" e2e). call_it.
  - behind_port. check_with (pix_window_spec (lrp_Start i) (lrp_End i) (lrp_Page i) (lrp_PageSize i)). cbv zeta. guarded. call_it.
  - behind_port. check_with (required_spec "e2eid" "end-to-end id is required" (rri_EndToEndID i)).
    check_with (required_spec "refund_id" "refund id is required" (rri_RefundID i)). guarded.
    check_with (nature_spec (rri_Nature i)). call_it.
  - behind_port. cbv zeta. guarded. call_it.
  - behind_port. cbv zeta. do 4 guarded. check_with (batch_spec (bin_Charges i)). destruct revisao; call_it.
  - behind_port. check_with (required_spec "batch_id" "batch id is required" id). call_it.
  - behind_port. check_with (pix_window_spec (lbi_Start i) (lbi_End i) (lbi_Page i) (lbi_PageSize i)). call_it.
  - behind_port. check_with (unit_spec (acquirer_validate i)). call_it.
  - behind_port. check_with (unit_spec (acquirer_validate i)). call_it.
  - unfold GetStatement. apply decides_tenant. check_with (period_spec (gsi_Start i) (gsi_End i)). call_it.
  - behind_port. check_with (required_spec "slip_id" "slip id is required" (pbi_SlipID i)).
    destruct Hs as [-> Hx]. check_with (same_spec (plain_request i (TrimSpace (pbi_SlipID i)))). call_it.
  - behind_port. check_with (required_spec "slip_id" "slip id is required" id). call_it.
  - behind_port. check_with (required_spec "slip_id" "slip id is required" id).
    check_with (same_spec (plain_patch i)). call_it.
  - behind_port. check_with (required_spec "slip_id" "slip id is required" id). call_it.
  - behind_port. check_with (required_spec "slip_id" "slip id is required" id). call_it.
  - behind_port. check_with (ranges_spec (boleto_intervals i) false). do 2 guarded. call_it.
Qed.
End decision.
