(* ===== verification/ChargeIntegrity.v ===== *)
(** Issuing charges, boletos, checkout sessions and due-date charges concurrently on the
    in-memory store: whatever the interleaving of any number of requests, each payment is
    billed once and the bank is asked for one charge per idempotency key. *)
From S2P Require Import Prelude GoStrings GoTime Shared Payments Tenants Boletos DueCharges Checkouts.
From S2P Require Import Mandates AuditTrail Ports BankPorts MemStore Settlement.
From S2P Require Import Interleave Charges Issuing IssuingContracts.

Lemma safe_pmap {S A B} (I : S -> Prop) G Q i (f : A -> B) (p : prog S A) P :
  safe I G (fun i a s => Q i (f a) s) i p P -> safe I G Q i (pmap f p) P.
Proof.
  revert P. induction p as [a|C g k IH]; intros P; simpl; [done|].
  intros Hs s HI HP. destruct (Hs s HI HP) as (? & ? & P' & ? & ? & ?).
  split_and!; [done..|]. exists P'. auto.
Qed.

Lemma find_idem_spec `{MapRange} s t k :
  (exists kk p, st_payments s !! kk = Some p /\ payment_tenantID p = t /\
     payment_idempotencyKey p = k /\ findPaymentByIdempotencyKey t k s = (s, Ok p)) \/
  ((forall kk p, st_payments s !! kk = Some p -> payment_tenantID p = t ->
      payment_idempotencyKey p <> k) /\
   findPaymentByIdempotencyKey t k s = (s, Err ErrNotFound)).
Proof.
  unfold findPaymentByIdempotencyKey, readM. destruct (scan _ s) as [p|] eqn:E; simpl.
  - left. apply scan_Some in E as [[kk Hkk] Ht]. bools. eauto 10.
  - right. split; [|done]. intros kk p Hp Et Ek.
    pose proof (scan_None _ _ _ _ E Hp) as Hf. simpl in Hf.
    by rewrite Et, Ek, !bool_decide_true in Hf.
Qed.

Section integrity.
Context `{MapRange}.
(** The requests are told apart by the store key of the payment each may create. *)
Context (own : list string) (w0 : CWorld snapshot).

Notation world := (CWorld snapshot).
Definition payments (w : world) : gmap string Payment := st_payments (cw_db w).
Definition bill (e : LedgerEntry) : string := key (ledger_tenantID e) (ledger_reference e).
Definition completed (w : world) (k : string) : Prop :=
  exists p, payments w !! k = Some p /\ payment_txID p <> "".

(** A payment seen under [k] keeps its identity; once completed it does not move. *)
Definition kept (w w' : world) : Prop :=
  forall k p, payments w !! k = Some p ->
    exists p', payments w' !! k = Some p' /\ identity p' = identity p /\
      (payment_txID p <> "" -> p' = p).

(** The bank request keeps its service's contract and is for a stored payment, under its
    own key; the charge services ask for the payment's own amount. *)
Definition backed (w : world) (t : string) (req : BankRequest) : Prop :=
  request_ok req /\
  exists p, payments w !! key t (payment_id p) = Some p /\ payment_tenantID p = t /\
    payment_idempotencyKey p = bank_key req /\
    from_option (eq (payment_id p)) True (bank_payment req) /\
    match req with
    | BankCharge r => payment_amount p = {| cents := chr_AmountCents r; currency := chr_Currency r |}
    | _ => True
    end.

Record Inv (w : world) : Prop := {
  inv_ok : Store_ok (cw_db w);
  inv_payments : forall k p, payments w !! k = Some p -> Payment_ok p;
  inv_kept : kept w0 w;
  inv_billed : exists new, st_ledger (cw_db w) = (st_ledger (cw_db w0) ++ new)%list /\
    NoDup (map bill new) /\
    forall k, k ∈ map bill new <-> completed w k /\ ~ completed w0 k;
  inv_sent : forall t req, (t, req) ∈ cw_sent w -> backed w t req
}.

(** What request [i] may do: keep the payments, add its own. *)
Definition guar (i : nat) (w w' : world) : Prop :=
  kept w w' /\
  forall k, payments w !! k = None -> is_Some (payments w' !! k) -> own !! i = Some k.

Hypothesis own_distinct : NoDup own.

(** Preconditions: the request's payment does not exist yet; a payment of its tenant
    and idempotency key is stored, of which [p] is a copy. *)
Definition unborn (i : nat) (w : world) : Prop :=
  exists k, own !! i = Some k /\ payments w !! k = None.
Definition holds (tenant idem : string) (p : Payment) (w : world) : Prop :=
  Payment_ok p /\ payment_tenantID p = tenant /\ payment_idempotencyKey p = idem /\
  exists q, payments w !! key tenant (payment_id p) = Some q /\ identity q = identity p /\
    (payment_txID p <> "" -> q = p).

Lemma kept_refl w : kept w w.
Proof. intros k p Hk. by exists p. Qed.
Lemma kept_trans w1 w2 w3 : kept w1 w2 -> kept w2 w3 -> kept w1 w3.
Proof.
  intros H1 H2 k p Hk. destruct (H1 k p Hk) as (p' & Hk' & E & Hsame).
  destruct (H2 k p' Hk') as (p'' & Hk'' & E' & Hsame'). exists p''. split_and!; [done|congruence|].
  intros Hn. rewrite Hsame' by (by rewrite Hsame). by apply Hsame.
Qed.
Lemma guar_refl i w : guar i w w.
Proof. split; [apply kept_refl|]. intros k E [? E']. congruence. Qed.

Lemma unborn_stable i : stable Inv guar i (unborn i).
Proof.
  intros j s s' Hne _ _ (k & Hk & Hn) [_ Hnew]. exists k. split; [done|].
  destruct (payments s' !! k) eqn:E; [|done]. exfalso. apply Hne.
  eapply (NoDup_lookup own); [done| |done]. apply Hnew; [done|by rewrite E].
Qed.

Lemma holds_stable i t k p : stable Inv guar i (holds t k p).
Proof.
  intros j s s' _ _ _ (Hp & Et & Ek & q & Hq & Eq & Hsame) [Hkept _].
  split_and!; [done..|]. destruct (Hkept _ _ Hq) as (q' & Hq' & E & Hs').
  exists q'. split_and!; [done|congruence|]. intros Hn.
  rewrite Hs'; [by apply Hsame|]. by rewrite Hsame.
Qed.

(** Steps that leave the payments and the ledger alone. *)
Lemma Inv_same_db w w' :
  cw_db w' = cw_db w -> (forall x, x ∈ cw_sent w' -> x ∈ cw_sent w \/ backed w x.1 x.2) ->
  Inv w -> Inv w'.
Proof.
  intros E Hs [? ? ? ? Hsent]. unfold kept, completed, backed, payments in *.
  split; unfold kept, completed, backed, payments; rewrite ?E; try done.
  intros t req [Hin|Hb]%Hs; [by apply Hsent|done].
Qed.

Lemma guar_same_db i w w' : cw_db w' = cw_db w -> guar i w w'.
Proof. intros E. unfold guar, kept, payments. rewrite E. apply (guar_refl i w). Qed.

(** A read of the store. *)
Lemma safe_read {A R} Q i (m : M snapshot error A) (k : res A -> prog world R)
    (P : world -> Prop) (P' : res A -> world -> Prop) :
  (forall s, (m s).1 = s) -> (forall r, stable Inv guar i (P' r)) ->
  (forall w, Inv w -> P w -> P' (m (cw_db w)).2 w) ->
  (forall r, safe Inv guar Q i (k r) (P' r)) ->
  safe Inv guar Q i (Act (on_db m) k) P.
Proof.
  intros Hread Hstab HP Hk w HI Hw. unfold on_db. specialize (Hread (cw_db w)).
  specialize (HP w HI Hw). destruct (m (cw_db w)) as [s r]. simpl in *. subst s.
  assert (E : Build_CWorld (cw_db w) (cw_sent w) (cw_published w) = w) by (by destruct w).
  rewrite E. split_and!; [done|apply guar_refl|]. exists (P' r). auto.
Qed.

Lemma backed_kept w w' t req : kept w w' -> backed w t req -> backed w' t req.
Proof.
  intros Hk (Hok & p & Hp & ? & ? & Hid & ?). destruct (Hk _ _ Hp) as (p' & Hp' & E & _).
  unfold identity in E. simplify_eq. split; [done|]. exists p'.
  assert (payment_id p' = payment_id p) as -> by congruence.
  split_and!; [congruence..|done|]. destruct req; [congruence|done..].
Qed.

(** [q], the answer, is the completed payment of the tenant and key. *)
Definition answered (tenant idem : string) (q : Payment) (w : world) : Prop :=
  exists k, payments w !! k = Some q /\ payment_txID q <> "" /\
    payment_tenantID q = tenant /\ payment_idempotencyKey q = idem.

Lemma answered_stable i t k q : stable Inv guar i (answered t k q).
Proof.
  intros j s s' _ _ _ (kk & Hq & Htx & ? & ?) [Hkept _]. exists kk.
  destruct (Hkept _ _ Hq) as (q' & Hq' & _ & E). rewrite E in Hq' by done. done.
Qed.

Lemma completed_dec w k : completed w k \/ ~ completed w k.
Proof.
  unfold completed. destruct (payments w !! k) as [p|]; [|right; by intros (? & ? & _)].
  destruct (decide (payment_txID p = "")); [|left; by exists p].
  right. intros (q & ? & Hn). congruence.
Qed.

Lemma Inv_change w w' :
  Inv w -> kept w w' -> Store_ok (cw_db w') ->
  (forall k p, payments w' !! k = Some p -> Payment_ok p) ->
  (exists new, st_ledger (cw_db w') = (st_ledger (cw_db w) ++ new)%list /\ NoDup (map bill new) /\
     forall k, k ∈ map bill new <-> completed w' k /\ ~ completed w k) ->
  cw_sent w' = cw_sent w -> Inv w'.
Proof.
  intros [Hok Hp Hk (new0 & El0 & Hnd0 & Hb0) Hs] Hkept Hok' Hp' (new & El & Hnd & Hb) Es.
  assert (Hmono : forall u v k, kept u v -> completed u k -> completed v k).
  { intros u v k Huv (p & E & Hn). destruct (Huv _ _ E) as (p' & E' & _ & Hsame).
    exists p'. split; [done|]. by rewrite Hsame. }
  split; [done..|by eapply kept_trans| |].
  - exists (new0 ++ new)%list. rewrite El, El0, app_assoc. split; [done|]. rewrite map_app. split.
    + apply NoDup_app. split_and!; [done| |done]. intros k [Hc _]%Hb0 [_ Hn]%Hb. done.
    + intros k. rewrite elem_of_app, Hb0, Hb. split.
      * intros [[? ?]|[? Hn]]; [split; [by eapply Hmono|done]|].
        split; [done|]. intros Hc. apply Hn. by eapply Hmono.
      * intros [Hc Hn]. destruct (completed_dec w k); [by left|by right].
  - rewrite Es. intros t req Hin. eapply backed_kept; [done|by apply Hs].
Qed.

Lemma save_new i w p :
  Inv w -> unborn i w -> own !! i = Some (key (payment_tenantID p) (payment_id p)) ->
  Payment_ok p -> payment_txID p = "" ->
  let '(w', r) := on_db (WithinTx (SavePayment p)) w in
  Inv w' /\ guar i w w' /\
  match r with
  | Ok _ => holds (payment_tenantID p) (payment_idempotencyKey p) p w'
  | Err e => w' = w
  end.
Proof.
  intros HI (k0 & Ek0 & Hnone) Eown Hp Htx. rewrite Ek0 in Eown. simplify_eq.
  unfold on_db, WithinTx, memUoW, mem_WithinTx, SavePayment, txView.
  destruct (savePayment_spec (cw_db w) p) as [(q & k & _ & _ & _ & _ & E)|[Hfree E]]; rewrite E.
  { simpl. unfold restore, takeSnapshot.
    assert (Build_CWorld (cw_db w) (cw_sent w) (cw_published w) = w) as -> by (by destruct w).
    split_and!; [done|apply guar_refl|done]. }
  set (w' := Build_CWorld _ _ _).
  assert (Hkept : kept w w').
  { intros k q Hq. exists q. split_and!; [|done..]. unfold payments, w'. simpl.
    rewrite lookup_insert_ne; [done|]. intros <-. congruence. }
  assert (Hin : payments w' !! key (payment_tenantID p) (payment_id p) = Some p).
  { unfold payments, w'. simpl. by rewrite lookup_insert_eq. }
  assert (Hsplit : forall k q, payments w' !! k = Some q ->
    (k = key (payment_tenantID p) (payment_id p) /\ q = p) \/ payments w !! k = Some q).
  { intros k q. unfold payments, w'. simpl. intros [[<- <-]|[_ ?]]%lookup_insert_Some; auto. }
  split_and!.
  - apply (Inv_change w); [done..| | | |done].
    + by apply (savePayment_ok (cw_db w) p (cw_db w')); [apply HI|rewrite E].
    + intros k q [[_ ->]|Hq]%Hsplit; [done|]. by apply (inv_payments w HI k).
    + exists []. rewrite app_nil_r. split_and!; [done|constructor|]. intros k. simpl.
      split; [by intros ?%elem_of_nil|]. intros [(q & Hq & Hn) Hno]. exfalso. apply Hno.
      destruct (Hsplit k q Hq) as [[_ ->]|Hq']; [done|]. by exists q.
  - split; [done|]. intros k Hn [q Hq]. destruct (Hsplit k q Hq) as [[-> _]|?]; [done|congruence].
  - split_and!; [done..|]. by exists p.
Qed.

Lemma SetTxID_ok p tx : Payment_ok p -> TrimSpace tx <> "" -> Payment_ok (payment_SetTxID p tx).
Proof. intros [? ? ? ? ? ? ?] Ht. split; simpl; auto with go. Qed.

Lemma identity_fields p q :
  identity p = identity q ->
  payment_id p = payment_id q /\ payment_tenantID p = payment_tenantID q /\
  payment_idempotencyKey p = payment_idempotencyKey q /\ payment_amount p = payment_amount q.
Proof. unfold identity. intros E. by simplify_eq. Qed.

(** The store's copy of [p]: the one payment of its tenant and idempotency key. *)
Lemma holds_lookup w t k p :
  Inv w -> holds t k p w -> exists q,
    payments w !! key t (payment_id p) = Some q /\ identity q = identity p /\
    findPaymentByIdempotencyKey t k (cw_db w) = (cw_db w, Ok q).
Proof.
  intros HI (_ & Et & Ek & q & Hq & Eq & _). exists q. split_and!; [done..|].
  destruct (identity_fields _ _ Eq) as (Eid & Eqt & Eqk & _).
  destruct (find_idem_spec (cw_db w) t k)
    as [(kk & c & Hc & Ect & Eck & ->)|[Hno _]]; [|destruct (Hno _ _ Hq); congruence].
  do 2 f_equal. destruct (inv_ok w HI) as [Hkey Huniq].
  assert (payment_id c = payment_id q) as Ecid by (apply (Huniq kk _ c q Hc Hq); congruence).
  pose proof (Hkey _ _ Hc) as Ekk. rewrite Ekk, Ecid, Ect, Eid in Hc.
  unfold payments in Hq. congruence.
Qed.

(** Saving the finalized payment together with its ledger entry. *)
Lemma finalize_save i w t k p q tx entry :
  Inv w -> holds t k p w -> payments w !! key t (payment_id p) = Some q ->
  identity q = identity p -> payment_txID q = "" ->
  TrimSpace tx <> "" -> bill entry = key t (payment_id p) ->
  let p' := payment_SetTxID p tx in
  exists s', savePayment p' (cw_db w) = (s', Ok tt) /\
    let w' := Build_CWorld (with_ledger s' (st_ledger s' ++ [entry])) (cw_sent w)
                (cw_published w) in
    Inv w' /\ guar i w w' /\ answered t k p' w'.
Proof.
  intros HI (Hp & Et & Ek & _) Hq Eq Hqt Htx Hbill p'.
  destruct (identity_fields _ _ Eq) as (Eid & Eqt & Eqk & _).
  assert (Ep' : payment_tenantID p' = t /\ payment_id p' = payment_id p /\
            payment_idempotencyKey p' = k /\ payment_txID p' = TrimSpace tx /\
            identity p' = identity q) by (split_and!; [done..|by rewrite Eq]).
  destruct Ep' as (Pt & Pi & Pk & Px & Pid).
  destruct (savePayment_spec (cw_db w) p') as [(r & kk & Hr & Ert & Erk & Hne & _)|[_ E]].
  { exfalso. apply Hne. rewrite Pi, <- Eid.
    apply (ok_unique _ (inv_ok w HI) _ _ _ _ Hr Hq); congruence. }
  exists (with_payments (cw_db w) (<[key t (payment_id p) := p']> (st_payments (cw_db w)))).
  split; [by rewrite E, Pt, Pi|]. cbn zeta. set (w' := Build_CWorld _ _ _).
  assert (Hl : forall k', payments w' !! k' =
            if decide (k' = key t (payment_id p)) then Some p' else payments w !! k').
  { intros k'. unfold payments, w'. simpl. destruct (decide _) as [->|?];
      [by rewrite lookup_insert_eq|by rewrite lookup_insert_ne]. }
  assert (Hkept : kept w w').
  { intros k' x Hx. rewrite Hl. destruct (decide _) as [->|?]; [|by exists x].
    assert (x = q) as -> by congruence. exists p'. split_and!; [done..|]. by rewrite Hqt. }
  split_and!.
  - apply (Inv_change w); [done..| | | |done].
    + pose proof (savePayment_ok (cw_db w) p' _ (inv_ok w HI) E) as [? ?]. rewrite Pt, Pi in *.
      by split.
    + intros k' x. rewrite Hl. destruct (decide _) as [->|?]; [|by apply (inv_payments w HI)].
      intros ?. simplify_eq. by apply SetTxID_ok.
    + exists [entry]. split; [done|]. split; [apply NoDup_singleton|]. intros k'. simpl.
      rewrite list_elem_of_singleton, Hbill. unfold completed. rewrite Hl. split.
      * intros ->. rewrite decide_True by done. split; [by exists p'; rewrite Px|].
        rewrite Hq. intros (x & ? & Hx). simplify_eq.
      * destruct (decide _) as [->|?]; [done|]. by intros [? ?].
  - split; [done|]. intros k' Hn [x Hx]. rewrite Hl in Hx.
    destruct (decide _) as [->|?]; congruence.
  - exists (key t (payment_id p)). rewrite Hl, decide_True by done. by rewrite Px.
Qed.

Lemma finalize_step i w t k p tx entry :
  Inv w -> holds t k p w -> TrimSpace tx <> "" -> bill entry = key t (payment_id p) ->
  let '(w', r) := on_db (WithinTx (finalize_tx t k (payment_SetTxID p tx) entry)) w in
  Inv w' /\ guar i w w' /\ forall q b, r = Ok (q, b) -> answered t k q w'.
Proof.
  intros HI Hh Htx Hbill. pose proof (holds_lookup w t k p HI Hh) as (q & Hq & Eq & Hfind).
  unfold on_db, WithinTx, memUoW, mem_WithinTx, finalize_tx.
  change (FindPaymentByIdempotencyKey t k (cw_db w))
    with (findPaymentByIdempotencyKey t k (cw_db w)). rewrite Hfind.
  case_bool_decide as Hqt; cbn [negb].
  - destruct (finalize_save i w t k p q tx entry) as (s' & E & HI' & HG & Ha); [done..|].
    change (SavePayment (payment_SetTxID p tx)) with (savePayment (payment_SetTxID p tx)).
    unfold bindM, wrapM. rewrite E. cbn [map_err].
    change (AppendLedgerEntry entry s') with (with_ledger s' (st_ledger s' ++ [entry]), Ok tt : res unit).
    cbn [map_err retM]. split_and!; [done..|]. intros ? ? ?. by simplify_eq.
  - assert (Build_CWorld (cw_db w) (cw_sent w) (cw_published w) = w) as -> by (by destruct w).
    destruct (identity_fields _ _ Eq) as (Eid & Eqt & Eqk & _). destruct Hh as (_ & Et & Ek & _).
    split_and!; [done|apply guar_refl|]. intros ? ? ?. simplify_eq.
    eexists. split_and!; [exact Hq|done|congruence..].
Qed.

(** ** The parts of a request *)
Section parts.
Context {R : Type} (Q : nat -> res R -> world -> Prop).
Hypothesis Q_err : forall i e w, Q i (Err e) w.

Notation safe := (safe Inv guar Q).

Lemma safe_err i e P : safe i (Ret (Err e)) P.
Proof. intros w _ _. apply Q_err. Qed.

Lemma safe_weaken i (p : prog world (res R)) (P P' : world -> Prop) :
  (forall w, Inv w -> P w -> P' w) -> safe i p P' -> safe i p P.
Proof. intros HP. destruct p; intros Hs w HI Hw; apply Hs; auto. Qed.

Lemma holds_of_find w t k p :
  Inv w -> findPaymentByIdempotencyKey t k (cw_db w) = (cw_db w, Ok p) -> holds t k p w.
Proof.
  intros HI Hf. destruct (find_idem_spec (cw_db w) t k)
    as [(kk & c & Hc & Ect & Eck & E)|[_ E]]; rewrite E in Hf; simplify_eq.
  split_and!; [by apply (inv_payments w HI kk)|done..|]. exists p. split; [|done].
  unfold payments. rewrite <- (ok_keyed _ (inv_ok w HI) _ _ Hc). exact Hc.
Qed.

Lemma read_find s t k : (FindPaymentByIdempotencyKey t k s).1 = s.
Proof.
  change (FindPaymentByIdempotencyKey t k s) with (findPaymentByIdempotencyKey t k s).
  by destruct (find_idem_spec s t k) as [(?&?&?&?&?&E)|[_ E]]; rewrite E.
Qed.

(** Looking a payment up by its idempotency key. *)
Lemma safe_find i t k (P : world -> Prop) (f : res Payment -> prog world (res R)) :
  stable Inv guar i P ->
  (forall p, safe i (f (Ok p)) (holds t k p)) -> (forall e, safe i (f (Err e)) P) ->
  safe i (Act (on_db (FindPaymentByIdempotencyKey t k)) f) P.
Proof.
  intros HP Hok Herr.
  apply (safe_read _ _ _ _ _ (fun r => match r with Ok p => holds t k p | Err _ => P end)).
  - intros s. apply read_find.
  - intros [p|e]; [apply holds_stable|done].
  - intros w HI Hw. destruct (FindPaymentByIdempotencyKey t k (cw_db w)) as [s r] eqn:E.
    pose proof (read_find (cw_db w) t k) as Es. rewrite E in Es. simpl in *. subst s.
    destruct r as [p|e]; [|done]. by apply holds_of_find.
  - intros [p|e]; auto.
Qed.

Lemma true_stable i : stable Inv guar i (fun _ => True).
Proof. by intros ? ? ? ? ? ? ? ?. Qed.

Lemma safe_reserve i newID now t ep k amount (f : Payment -> prog world (res R)) :
  trimmed t -> trimmed k -> own !! i = Some (key t (TrimSpace newID)) ->
  (forall p, safe i (f p) (holds t k p)) ->
  safe i (reserve newID now t ep k amount f) (unborn i).
Proof.
  intros Ht Hk Hown Hf. apply safe_find; [apply unborn_stable|done|]. intros e.
  destruct (negb _); [apply safe_err|].
  destruct (let? amount := amount in payment_New newID t ep k amount now)
    as [p|e'] eqn:En; [|apply safe_err].
  destruct amount as [m|]; [|done].
  apply payment_New_Ok in En as (Hp & Eid & Et & Ek & _ & _ & Etx).
  rewrite Ht in Et. rewrite Hk in Ek.
  intros w HI Hw. pose proof (save_new i w p HI Hw) as Hsave.
  destruct (on_db (WithinTx (SavePayment p)) w) as [w' r] eqn:E.
  destruct Hsave as (HI' & HG & Hr); [by rewrite Hown, Et, Eid|done..|]. simpl.
  split_and!; [done..|]. destruct r as [u|err].
  - exists (holds t k p). split_and!; [apply holds_stable|by rewrite Et, Ek in Hr|apply Hf].
  - exists (fun _ => True). split_and!; [apply true_stable|done|].
    destruct (errors_Is err ErrConflict); [|apply safe_err].
    apply safe_find; [apply true_stable|done|]. intros e2. apply safe_err.
Qed.

Lemma safe_finalize i t k ep acct eid now price p tx (answer : Payment -> R) :
  trimmed t -> TrimSpace tx <> "" ->
  (forall q w, answered t k q w -> Q i (Ok (answer q)) w) ->
  safe i (finalize t k ep acct eid now price p tx answer) (holds t k p).
Proof.
  intros Ht Htx HQ. unfold finalize.
  destruct (NewLedgerEntry _ _ _ _ _ _ _) as [entry|e] eqn:En; [|apply safe_err].
  intros w HI Hh. pose proof Hh as (Hp & _).
  apply NewLedgerEntry_Ok in En as (_ & Et & Er & _).
  assert (Hbill : bill entry = key t (payment_id p)).
  { unfold bill. rewrite Et, Er, Ht. simpl. by rewrite (proj1 (ok_id p Hp)). }
  pose proof (finalize_step i w t k p tx entry HI Hh Htx Hbill) as Hfin.
  destruct (on_db _ w) as [w' r]. destruct Hfin as (HI' & HG & Ha). simpl.
  split_and!; [done..|]. destruct r as [[q b]|e];
    [|exists (fun _ => True); split_and!; [apply true_stable|done|apply safe_err]].
  exists (answered t k q). split_and!; [apply answered_stable|by apply (Ha q b)|].
  destruct b; [|by intros ? _ ?; apply HQ].
  intros w1 HI1 Hans. simpl. split_and!.
  - apply (Inv_same_db w1); [done|auto|done].
  - by apply guar_same_db.
  - exists (answered t k q). split_and!; [apply answered_stable|done|]. intros ? _ ?. by apply HQ.
Qed.

(** Asking the bank on behalf of a held payment. *)
Lemma safe_send {A B} i (bank : nat -> string -> A -> res B) (wrap : A -> BankRequest) t k p req
    (f : res B -> prog world (res R)) :
  request_ok (wrap req) -> bank_key (wrap req) = k ->
  from_option (eq (payment_id p)) True (bank_payment (wrap req)) ->
  match wrap req with
  | BankCharge r => payment_amount p = {| cents := chr_AmountCents r; currency := chr_Currency r |}
  | _ => True
  end ->
  (forall n, safe i (f (bank n t req)) (holds t k p)) ->
  safe i (Act (send_bank bank wrap t req) f) (holds t k p).
Proof.
  intros Hok Ek Eid Eam Hf w HI Hh. simpl. split_and!.
  - apply (Inv_same_db w); [done| |done]. intros [t' r] Hin. simpl in Hin.
    apply elem_of_app in Hin as [?|Hin]; [by left|right].
    apply list_elem_of_singleton in Hin. injection Hin as -> ->. cbn [fst snd].
    destruct Hh as (_ & Et & Ekp & q & Hq & Eq & _).
    destruct (identity_fields _ _ Eq) as (Eqi & ? & ? & ?). split; [done|].
    exists q. rewrite Eqi. split_and!; [done|congruence..|done|].
    destruct (wrap req); [congruence|done..].
  - by apply guar_same_db.
  - exists (holds t k p). split_and!; [apply holds_stable|done|apply Hf].
Qed.

(** The reads before the reservation. *)
Lemma safe_unborn_read {A} i (m : M snapshot error A) (f : res A -> prog world (res R)) :
  (forall s, (m s).1 = s) -> (forall r, safe i (f r) (unborn i)) ->
  safe i (Act (on_db m) f) (unborn i).
Proof.
  intros Hm Hf. apply (safe_read _ _ _ _ _ (fun _ => unborn i)); auto using unborn_stable.
Qed.
End parts.
End integrity.

(** * Any number of concurrent requests *)
Inductive creq :=
| ReqCharge (f : Fresh) (i : CreateChargeInput)
| ReqPix (f : Fresh) (i : CreateImmediateChargeInput)
| ReqBoleto (f : Fresh) (i : RegisterBoletoInput)
| ReqSession (f : Fresh) (i : CreateCheckoutSessionInput)
| ReqDue (f : Fresh) (i : DueChargeInput).

Definition creq_tenant (r : creq) : string :=
  match r with
  | ReqCharge _ i => cci_TenantID i | ReqPix _ i => ici_TenantID i
  | ReqBoleto _ i => rbi_TenantID i | ReqSession _ i => csi_TenantID i
  | ReqDue _ i => dci_TenantID i
  end.
Definition creq_idem (r : creq) : string :=
  match r with
  | ReqCharge _ i => cci_IdempotencyKey i | ReqPix _ i => ici_IdempotencyKey i
  | ReqBoleto _ i => rbi_IdempotencyKey i | ReqSession _ i => csi_IdempotencyKey i
  | ReqDue _ i => dci_IdempotencyKey i
  end.
Definition creq_fresh (r : creq) : Fresh :=
  match r with
  | ReqCharge f _ | ReqPix f _ | ReqBoleto f _ | ReqSession f _ | ReqDue f _ => f
  end.
(** Where the payment the request may create is stored. *)
Definition creq_own (r : creq) : string := key (creq_tenant r) (TrimSpace (id1 (creq_fresh r))).
(** The amounts of the items are int64 values. *)
Definition creq_int64 (r : creq) : Prop :=
  match r with
  | ReqSession _ i => Forall in64 (map cit_AmountCents (csi_Items i))
  | _ => True
  end.

Definition map_ok {A B} (f : A -> B) (r : res A) : res B :=
  match r with Ok a => Ok (f a) | Err e => Err e end.

(** The bank's ports: the answer to the n-th request of each kind, and the reads that
    reconcile an existing charge. *)
Record Bank := {
  bank_CreateCharge : nat -> string -> ChargeRequest -> res ChargeResult;
  bank_CreateImmediateCharge : Z -> nat -> string -> ChargeRequest -> res PixChargeResult;
  bank_GetImmediateCharge : string -> string -> res PixChargeResult;
  bank_CreateBoleto : nat -> string -> BoletoRequest -> res BoletoResult;
  bank_CreateCheckoutSession : nat -> string -> CheckoutRequest -> res CheckoutResult;
  bank_CreateDueCharge : nat -> string -> PixDueChargeRequest -> res PixDueChargeResult;
  bank_GetDueCharge : string -> string -> res PixDueChargeResult
}.
(** A created charge has an id: ports.go requires it of every adapter. *)
Record BankLaws (b : Bank) : Prop := {
  charge_tx : forall n t r a, bank_CreateCharge b n t r = Ok a -> blank (cr_TxID a) = false;
  pix_tx : forall d n t r a, bank_CreateImmediateCharge b d n t r = Ok a -> blank (pix_TxID a) = false;
  boleto_tx : forall n t r a, bank_CreateBoleto b n t r = Ok a -> blank (br_TxID a) = false;
  session_tx : forall n t r a,
    bank_CreateCheckoutSession b n t r = Ok a -> blank (co_SessionID a) = false;
  due_tx : forall n t r a, bank_CreateDueCharge b n t r = Ok a -> blank (dcs_TxID a) = false
}.

Section pool.
Context `{MapRange} (bank : Bank) (Hbank : BankLaws bank).

Definition program (r : creq) : prog (CWorld snapshot) (res Payment) :=
  match r with
  | ReqCharge f i => CreateCharge f (bank_CreateCharge bank) i
  | ReqPix f i => pmap (map_ok fst)
      (CreateImmediateCharge f (bank_CreateImmediateCharge bank) (bank_GetImmediateCharge bank) i)
  | ReqBoleto f i => pmap (map_ok fst) (RegisterBoleto f (bank_CreateBoleto bank) i)
  | ReqSession f i => pmap (map_ok fst) (CreateSession f (bank_CreateCheckoutSession bank) i)
  | ReqDue f i => pmap (map_ok fst)
      (CreateDueCharge f (bank_CreateDueCharge bank) (bank_GetDueCharge bank) i)
  end.

(** The store is well formed and the requests' inputs are trimmed and their fresh ids
    fresh. *)
Record start_ok (reqs : list creq) (w0 : CWorld snapshot) : Prop := {
  start_store : Store_ok (cw_db w0);
  start_payments : forall k p, payments w0 !! k = Some p -> Payment_ok p;
  start_sent : cw_sent w0 = [];
  start_fresh : NoDup (map creq_own reqs);
  start_unused : Forall (fun r => payments w0 !! creq_own r = None) reqs;
  start_trimmed : Forall (fun r => trimmed (creq_tenant r) /\ trimmed (creq_idem r)) reqs;
  start_int64 : Forall creq_int64 reqs
}.

Lemma readonly_tenant s t : (FindTenantByID t s).1 = s.
Proof. done. Qed.
Lemma readonly_price s t e : (resolvePriceOrFree t e s).1 = s.
Proof.
  unfold resolvePriceOrFree.
  change (GetEndpointPrice t e s) with (getEndpointPrice t e s). unfold getEndpointPrice, readM.
  destruct (found _); [done|]. destruct (negb _); [done|].
  by destruct (NewEndpointPricing t e 0).
Qed.

Section one.
Context (reqs : list creq) (w0 : CWorld snapshot) (Hw0 : start_ok reqs w0).
Notation own := (map creq_own reqs).

(** The answer to request [i] is the completed payment of its tenant and key. *)
Definition answers (i : nat) (r : res Payment) (w : CWorld snapshot) : Prop :=
  match r with
  | Err _ => True
  | Ok q => exists req, reqs !! i = Some req /\ answered (creq_tenant req) (creq_idem req) q w
  end.

Section request.
Context {R : Type} (i : nat) (Q : nat -> res R -> CWorld snapshot -> Prop).
Hypothesis Q_err : forall i e w, Q i (Err e) w.
Notation safe := (safe (Inv w0) (guar own) Q i).

(** The opening of a request: tenant, key and price are read, nothing else. *)
Lemma safe_tenant t idem (k : prog (CWorld snapshot) (res R)) :
  safe k (unborn own i) -> NoDup own -> safe (for_active_tenant t idem k) (unborn own i).
Proof.
  intros Hk Hnd. unfold for_active_tenant.
  apply safe_unborn_read; [done|intros s; apply readonly_tenant|].
  intros [tn|e]; [|by intros ? _ _]. destruct (negb _); [by intros ? _ _|].
  case_bool_decide; [by intros ? _ _|]. done.
Qed.

Lemma safe_price t ep (k : res EndpointPricing -> prog (CWorld snapshot) (res R)) :
  NoDup own -> (forall p, safe (k (Ok p)) (unborn own i)) -> (forall e, safe (k (Err e)) (unborn own i)) ->
  safe (Act (on_db (resolvePriceOrFree t ep)) k) (unborn own i).
Proof.
  intros Hnd Hk He. apply safe_unborn_read; [done|intros s; apply readonly_price|].
  intros [p|e]; auto.
Qed.

(** Answering a payment that is already complete. *)
Lemma safe_done t k p (r : res R) :
  payment_txID p <> "" -> (forall w, answered t k p w -> Q i r w) -> safe (Ret r) (holds t k p).
Proof.
  intros Htx HQ w HI (_ & Et & Ek & q & Hq & _ & Hsame). apply HQ.
  rewrite Hsame in Hq by done. by exists (key t (payment_id p)).
Qed.
End request.

Lemma not_blank s : blank s = false -> TrimSpace s <> "".
Proof. unfold blank. by intros ?%bool_decide_eq_false. Qed.

(** One lemma per service. *)
Section services.
Context (i : nat).

Lemma request_facts r : reqs !! i = Some r ->
  trimmed (creq_tenant r) /\ trimmed (creq_idem r) /\ creq_int64 r /\
  own !! i = Some (creq_own r) /\ NoDup own.
Proof.
  intros Hi. pose proof (start_trimmed _ _ Hw0) as Htr. pose proof (start_int64 _ _ Hw0) as Hin.
  rewrite Forall_lookup in Htr, Hin. destruct (Htr i r Hi) as [Ht Hk].
  split_and!; [done..|by apply (Hin i)|by rewrite list_lookup_fmap, Hi|apply (start_fresh _ _ Hw0)].
Qed.

Lemma answers_ok r q w : reqs !! i = Some r ->
  answered (creq_tenant r) (creq_idem r) q w -> answers i (Ok q) w.
Proof. intros Hi Ha. by exists r. Qed.

Definition answers_fst {A} (j : nat) (x : res (Payment * A)) (w : CWorld snapshot) : Prop :=
  answers j (map_ok fst x) w.

Notation safe := (safe (Inv w0) (guar own)).

Lemma charge_safe f c : reqs !! i = Some (ReqCharge f c) ->
  safe answers i (CreateCharge f (bank_CreateCharge bank) c) (unborn own i).
Proof.
  intros Hi. destruct (request_facts _ Hi) as (Ht & Hk & _ & Hown & Hnd). cbn in Ht, Hk.
  apply safe_tenant; [by intros| |done]. apply safe_price; [done| |by intros ? ? _ _]. intros price.
  apply safe_reserve; [done|by intros|done..|]. intros p. case_bool_decide as Htx; cbn [negb].
  - apply safe_send; [done..|by destruct (payment_amount p)|]. intros n.
    destruct (bank_CreateCharge bank n _ _) as [a|e] eqn:Eb; [|by intros ? _ _].
    apply (charge_tx _ Hbank), not_blank in Eb.
    apply safe_finalize; [by intros|done..|]. intros q w. by apply (answers_ok _ q w Hi).
  - apply (safe_done i answers _ _ p); [done|]. intros w. by apply (answers_ok _ p w Hi).
Qed.

(** The held payment is well formed. *)
Lemma safe_held {R} (Q : nat -> res R -> CWorld snapshot -> Prop) t k p
    (f : prog (CWorld snapshot) (res R)) :
  (Payment_ok p -> safe Q i f (holds t k p)) -> safe Q i f (holds t k p).
Proof.
  intros Hf. destruct f as [x|C g h]; intros w HI Hh; pose proof (proj1 Hh) as Hp;
    exact (Hf Hp w HI Hh).
Qed.

Lemma pix_safe f c : reqs !! i = Some (ReqPix f c) ->
  safe answers_fst i (CreateImmediateCharge f (bank_CreateImmediateCharge bank)
    (bank_GetImmediateCharge bank) c) (unborn own i).
Proof.
  intros Hi. destruct (request_facts _ Hi) as (Ht & Hk & _ & Hown & Hnd). cbn in Ht, Hk.
  apply safe_tenant; [by intros| |done]. destruct (_ <? 0); [by intros ? _ _|].
  destruct (validateDebtor _ _) as [[]|]; [|by intros ? _ _].
  apply safe_price; [done| |by intros ? ? _ _]. intros price.
  apply safe_reserve; [done|by intros|done..|]. intros p. case_bool_decide as Htx; cbn [negb].
  - apply safe_send; [done..|by destruct (payment_amount p)|]. intros n.
    destruct (bank_CreateImmediateCharge bank _ n _ _) as [a|e] eqn:Eb; [|by intros ? _ _].
    apply (pix_tx _ Hbank), not_blank in Eb.
    apply safe_finalize; [by intros|done..|]. intros q w. by apply (answers_ok _ q w Hi).
  - destruct (bank_GetImmediateCharge bank _ _) as [qr|e]; [|by intros ? _ _].
    apply (safe_done i answers_fst _ _ p); [done|]. intros w. by apply (answers_ok _ p w Hi).
Qed.

Lemma due_safe f c : reqs !! i = Some (ReqDue f c) ->
  safe answers_fst i (CreateDueCharge f (bank_CreateDueCharge bank) (bank_GetDueCharge bank) c)
    (unborn own i).
Proof.
  intros Hi. destruct (request_facts _ Hi) as (Ht & Hk & _ & Hown & Hnd). cbn in Ht, Hk.
  apply safe_tenant; [by intros| |done]. destruct (due_checked f c) as [m|e] eqn:Ec; [|by intros ? _ _].
  apply (due_request_ok _ _ _ "") in Ec as (Hok & _).
  apply safe_price; [done| |by intros ? ? _ _]. intros price.
  apply safe_reserve; [done|by intros|done..|]. intros p. case_bool_decide as Htx; cbn [negb].
  - apply safe_send; [done..|]. intros n.
    destruct (bank_CreateDueCharge bank n _ _) as [a|e] eqn:Eb; [|by intros ? _ _].
    apply (due_tx _ Hbank), not_blank in Eb.
    apply safe_finalize; [by intros|done..|]. intros q w. by apply (answers_ok _ q w Hi).
  - destruct (bank_GetDueCharge bank _ _) as [qr|e]; [|by intros ? _ _].
    apply (safe_done i answers_fst _ _ p); [done|]. intros w. by apply (answers_ok _ p w Hi).
Qed.

(** The boleto and the session are sent again on a retry, for the bank to collapse. *)
Lemma boleto_safe f c : reqs !! i = Some (ReqBoleto f c) ->
  safe answers_fst i (RegisterBoleto f (bank_CreateBoleto bank) c) (unborn own i).
Proof.
  intros Hi. destruct (request_facts _ Hi) as (Ht & Hk & _ & Hown & Hnd). cbn in Ht, Hk.
  apply safe_tenant; [by intros| |done].
  destruct (boleto_checked c) as [[m tiers]|e] eqn:Ec; [|by intros ? _ _].
  apply safe_price; [done| |by intros ? ? _ _]. intros price.
  apply safe_reserve; [done|by intros|done..|]. intros p. apply safe_held. intros Hp.
  destruct (newDomainBoleto _ _ _ _) as [b|e] eqn:Eb; [|by intros ? _ _].
  destruct (boleto_request_ok c m tiers (payment_id p) b (rbi_Payer c) (rbi_Description c)
              (rbi_IdempotencyKey c) Ec Eb) as (Hok & Hid & Hkey & _).
  apply safe_send; [done..|cbn [bank_payment from_option]; by rewrite Hid, (proj1 (ok_id p Hp))|done|]. intros n.
  destruct (bank_CreateBoleto bank n _ _) as [a|e] eqn:Ea; [|by intros ? _ _].
  apply (boleto_tx _ Hbank), not_blank in Ea. case_bool_decide as Htx; cbn [negb].
  - apply safe_finalize; [by intros|done..|]. intros q w. by apply (answers_ok _ q w Hi).
  - apply (safe_done i answers_fst _ _ p); [done|]. intros w. by apply (answers_ok _ p w Hi).
Qed.

Lemma session_safe f c : reqs !! i = Some (ReqSession f c) ->
  safe answers_fst i (CreateSession f (bank_CreateCheckoutSession bank) c) (unborn own i).
Proof.
  intros Hi. destruct (request_facts _ Hi) as (Ht & Hk & Hin & Hown & Hnd). cbn in Ht, Hk, Hin.
  apply safe_tenant; [by intros| |done].
  destruct (session_checked f c) as [[[[card n0] exp] items]|e] eqn:Ec; [|by intros ? _ _].
  apply safe_price; [done| |by intros ? ? _ _]. intros price.
  destruct (session_total c items n0) as [[total n1]|e] eqn:Et; [|by intros ? _ _].
  apply safe_reserve; [done|by intros|done..|]. intros p. apply safe_held. intros Hp.
  destruct (session_for _ _ _ _ _ _) as [s|e] eqn:Es; [|by intros ? _ _].
  destruct (checkout_request_ok f c card n0 exp items Ec total n1 (payment_id p) s
              (csi_IdempotencyKey c) Hin Et Es) as (Hok & Hid & Hkey & _).
  apply safe_send; [done..|cbn [bank_payment from_option]; by rewrite Hid, (proj1 (ok_id p Hp))|done|]. intros n.
  destruct (bank_CreateCheckoutSession bank n _ _) as [a|e] eqn:Ea; [|by intros ? _ _].
  apply (session_tx _ Hbank), not_blank in Ea. case_bool_decide as Htx; cbn [negb].
  - apply safe_finalize; [by intros|done..|]. intros q w. by apply (answers_ok _ q w Hi).
  - apply (safe_done i answers_fst _ _ p); [done|]. intros w. by apply (answers_ok _ p w Hi).
Qed.

Lemma request_safe r : reqs !! i = Some r -> safe answers i (program r) (unborn own i).
Proof.
  intros Hi. destruct r as [f c|f c|f c|f c|f c]; cbn [program].
  - by apply charge_safe.
  - by apply safe_pmap, pix_safe.
  - by apply safe_pmap, boleto_safe.
  - by apply safe_pmap, session_safe.
  - by apply safe_pmap, due_safe.
Qed.
End services.

Lemma start_inv : Inv w0 w0.
Proof.
  destruct Hw0 as [Hs Hp Hsent _ _ _]. split; [done..|apply kept_refl| |].
  - exists []. rewrite app_nil_r. split_and!; [done|constructor|]. intros k. simpl.
    split; [by intros ?%elem_of_nil|]. by intros [? ?].
  - rewrite Hsent. by intros ? ? ?%elem_of_nil.
Qed.

Lemma start_pool : pool_safe (Inv w0) (guar own) answers (map program reqs) w0.
Proof.
  intros i p Hi. rewrite list_lookup_fmap in Hi. destruct (reqs !! i) as [r|] eqn:Er; [|done].
  simplify_eq/=. exists (unborn own i). split_and!.
  - apply unborn_stable. apply (start_fresh _ _ Hw0).
  - exists (creq_own r). split; [by rewrite list_lookup_fmap, Er|].
    pose proof (start_unused _ _ Hw0) as Hu. rewrite Forall_lookup in Hu. by apply (Hu i).
  - by apply request_safe.
Qed.
End one.

Lemma pool_invariant reqs w0 sched : start_ok reqs w0 ->
  let '(w, ps) := interleave sched (map program reqs) w0 in
  Inv w0 w /\ forall i q, ps !! i = Some (Ret (Ok q)) -> exists r, reqs !! i = Some r /\
                 answered (creq_tenant r) (creq_idem r) q w.
Proof.
  intros Hw0.
  destruct (interleave_safe (Inv w0) (guar (map creq_own reqs)) (answers reqs) sched
    (map program reqs) w0 (start_inv reqs w0 Hw0) (start_pool reqs w0 Hw0)) as [HI Hps].
  destruct (interleave sched (map program reqs) w0) as [w ps]. simpl in HI, Hps.
  split; [done|]. intros i q Hi. apply (pool_safe_result _ _ _ _ _ _ _ HI Hps Hi).
Qed.

(** C5. One charge per idempotency key, under every interleaving: whatever number of
    charge, immediate-charge, boleto, checkout and due-date-charge requests run
    concurrently, retries of one another included, and wherever each of them is when
    observed, the ledger grew by exactly one entry for each payment that became complete
    since the start and by no other; requests the bank received under one tenant and
    idempotency key name the same payment, and those of the charge services ask for the
    same amount; no payment that existed was lost or re-identified, nor moved once
    complete; and every request that was answered got the completed payment of its own
    tenant and key. *)
Theorem charges_exactly_once reqs w0 sched (Hw0 : start_ok reqs w0) :
  let '(w, ps) := interleave sched (map program reqs) w0 in
  (exists new, st_ledger (cw_db w) = (st_ledger (cw_db w0) ++ new)%list /\
     NoDup (map bill new) /\
     forall k, k ∈ map bill new <-> completed w k /\ ~ completed w0 k) /\
  (forall t r1 r2, (t, r1) ∈ cw_sent w -> (t, r2) ∈ cw_sent w -> bank_key r1 = bank_key r2 ->
     (forall id1 id2, bank_payment r1 = Some id1 -> bank_payment r2 = Some id2 -> id1 = id2) /\
     (forall c1 c2, r1 = BankCharge c1 -> r2 = BankCharge c2 ->
        chr_AmountCents c1 = chr_AmountCents c2 /\ chr_Currency c1 = chr_Currency c2)) /\
  kept w0 w /\
  (forall i q, ps !! i = Some (Ret (Ok q)) -> exists r, reqs !! i = Some r /\
     answered (creq_tenant r) (creq_idem r) q w).
Proof.
  pose proof (pool_invariant reqs w0 sched Hw0) as HP.
  destruct (interleave sched (map program reqs) w0) as [w ps]. destruct HP as [HI Hps].
  split_and!; [apply HI| |apply HI|exact Hps].
  intros t r1 r2 H1 H2 Ek. destruct (inv_sent w0 w HI t r1 H1) as (_ & p1 & L1 & T1 & K1 & I1 & A1).
  destruct (inv_sent w0 w HI t r2 H2) as (_ & p2 & L2 & T2 & K2 & I2 & A2).
  assert (payment_id p1 = payment_id p2) as Eid.
  { apply (ok_unique _ (inv_ok w0 w HI) _ _ _ _ L1 L2); congruence. }
  assert (p1 = p2) as <- by congruence. split.
  - intros a b E1 E2. rewrite E1 in I1. rewrite E2 in I2. cbn in I1, I2. congruence.
  - intros c1 c2 -> ->. rewrite A1 in A2. by simplify_eq.
Qed.

(** C6. What reaches the bank is valid and reserved: under every interleaving of the five
    services each request in the bank's hands keeps its service's contract (rates within
    the legal caps, one kind of fine, discounts under the principal, a checkout total
    over the minimum with affordable instalments) and belongs to a stored payment of the
    tenant and idempotency key it was sent under, the one it names. *)
Theorem bank_requests_sound reqs w0 sched t r (Hw0 : start_ok reqs w0) :
  let w := fst (interleave sched (map program reqs) w0) in
  (t, r) ∈ cw_sent w ->
  request_ok r /\ exists p, payments w !! key t (payment_id p) = Some p /\
    payment_tenantID p = t /\ payment_idempotencyKey p = bank_key r /\
    from_option (eq (payment_id p)) True (bank_payment r).
Proof.
  pose proof (pool_invariant reqs w0 sched Hw0) as HP.
  destruct (interleave sched (map program reqs) w0) as [w ps]. destruct HP as [HI _].
  intros w' Hin. destruct (inv_sent w0 w HI t r Hin) as (Hok & p & ? & ? & ? & ? & _). eauto 10.
Qed.
End pool.

(** * A sample: a tenant, a free price, and racing requests under four keys *)
Definition sample_db : snapshot :=
  with_tenants emptySnapshot
    {[ "t1" := tenant_RehydrateWithAccount "t1" "Loja" true sample_time "" ]}.
Definition sample_cworld : CWorld snapshot := Build_CWorld sample_db [] [].
Definition sample_fresh (n : string) : Fresh :=
  {| id1 := "p" ++ n; id2 := "l" ++ n; now0 := sample_time; now1 := sample_time;
     now2 := sample_time |}.
Definition sample_req (n idem : string) (amount : Z) : creq :=
  ReqCharge (sample_fresh n)
    {| cci_TenantID := "t1"; cci_AccountID := ""; cci_Endpoint := "charge.create";
       cci_AmountCents := amount; cci_Currency := "BRL"; cci_IdempotencyKey := idem |}.
Definition sample_boleto_req (n idem : string) (amount : Z) : creq :=
  ReqBoleto (sample_fresh n)
    {| rbi_TenantID := "t1"; rbi_AccountID := ""; rbi_AmountCents := amount;
       rbi_Currency := "BRL"; rbi_DueDate := Add sample_time (10 * day_ns); rbi_FineBps := 200;
       rbi_FineFixedCents := 0; rbi_MonthlyInterestBps := 100;
       rbi_Discounts := [{| dti_DaysBeforeDue := 5; dti_Bps := 500; dti_FixedCents := 0 |}];
       rbi_Payer := {| bpi_Name := "Ana"; bpi_TaxID := "12345678901";
         bpi_Address := {| bai_Street := "Rua A"; bai_Number := 1; bai_Neighborhood := "Centro";
                           bai_City := "Recife"; bai_State := "PE"; bai_ZipCode := "50000000" |} |};
       rbi_Description := "mensalidade"; rbi_IdempotencyKey := idem; rbi_Modality := "" |}.
Definition sample_session_req (n idem : string) (amount : Z) : creq :=
  ReqSession (sample_fresh n)
    {| csi_TenantID := "t1"; csi_AccountID := ""; csi_Currency := "BRL";
       csi_Items := [{| cit_Description := "livro"; cit_AmountCents := amount |}];
       csi_ExpiresAt := zeroTime; csi_ExpiresInSeconds := 3600; csi_CardType := "Credit";
       csi_RequireAuthentication := true; csi_MaxInstallments := 6;
       csi_IdempotencyKey := idem |}.
Definition sample_due_req (n idem : string) (amount : Z) : creq :=
  ReqDue (sample_fresh n)
    {| dci_TenantID := "t1"; dci_AccountID := ""; dci_AmountCents := amount;
       dci_Currency := "BRL"; dci_DueDate := Add sample_time (10 * day_ns);
       dci_ValidityDays := 30; dci_FineBps := 0; dci_MonthlyInterestBps := 0;
       dci_DiscountBps := 0; dci_DiscountFixedCents := 0; dci_DebtorTaxID := "12345678901";
       dci_DebtorName := "Ana"; dci_DebtorStreet := "Rua A"; dci_DebtorCity := "Recife";
       dci_DebtorState := "PE"; dci_DebtorZipCode := "50000000"; dci_CreditorKey := "chave";
       dci_IdempotencyKey := idem |}.
Definition sample_reqs : list creq :=
  [sample_req "1" "k" 100; sample_req "2" "k" 250; sample_boleto_req "3" "b" 7000;
   sample_session_req "4" "s" 1500; sample_due_req "5" "d" 900].

(** A bank that answers every create; with [fail], every first request is lost. *)
Definition sample_bank (fail : bool) : Bank :=
  let answer {A} (n : nat) (a : A) : res A :=
    if fail && Nat.eqb (n mod 2) 0 then Err ErrUnavailable else Ok a in
  {| bank_CreateCharge := fun n t r => answer n
       {| cr_TxID := "tx"; cr_Status := "pending"; cr_ExpectedAmountCents := chr_AmountCents r;
          cr_ReceivedAmountCents := 0; cr_Installments := 0; cr_Message := "";
          cr_SettlementKey := "" |};
     bank_CreateImmediateCharge := fun d n t r => answer n
       {| pix_TxID := "tx"; pix_Status := "ATIVA"; pix_QRCodePayload := ""; pix_QRCodeLocation := "";
          pix_ExpiresAt := sample_time; pix_ExpectedAmountCents := chr_AmountCents r;
          pix_ReceivedAmountCents := 0 |};
     bank_GetImmediateCharge := fun _ _ => Err ErrUnavailable;
     bank_CreateBoleto := fun n t r => answer n
       {| br_BoletoID := brq_BoletoID r; br_TxID := "tx"; br_Status := "CREATED"; br_Modality := "";
          br_ExternalReferenceID := ""; br_QRCode := ""; br_OurNumber := ""; br_DigitableLine := "";
          br_Barcode := ""; br_AmountCents := brq_AmountCents r; br_DueDate := brq_DueDate r;
          br_ValidUntil := zeroTime; br_FineBps := 0; br_FineFixedCents := 0;
          br_MonthlyInterestBps := 0; br_Discounts := [] |};
     bank_CreateCheckoutSession := fun n t r => answer n
       {| co_SessionID := "sess"; co_Status := "open"; co_RedirectURL := ""; co_AmountCents := 0;
          co_ReceivedAmountCents := 0; co_CardType := crq_CardType r;
          co_RequireAuthentication := true; co_MaxInstallments := crq_MaxInstallments r;
          co_Installments := 0; co_Message := "" |};
     bank_CreateDueCharge := fun n t r => answer n
       {| dcs_TxID := "tx"; dcs_Status := "ATIVA"; dcs_QRCodePayload := ""; dcs_QRCodeLocation := "";
          dcs_DueDate := dcr_DueDate r; dcs_ValidityDays := 0; dcs_FineBps := 0;
          dcs_MonthlyInterestBps := 0; dcs_DiscountBps := 0; dcs_DiscountFixedCents := 0;
          dcs_ExpectedAmountCents := dcr_AmountCents r; dcs_ReceivedAmountCents := 0 |};
     bank_GetDueCharge := fun _ _ => Err ErrUnavailable |}.

Lemma sample_bank_laws fail : BankLaws (sample_bank fail).
Proof.
  split; intros *; cbn; destruct (_ && _); intros H; by simplify_eq/=.
Qed.

Definition round_robin (m k : nat) : list nat := List.concat (repeat (seq 0 m) k).

Lemma sample_start : start_ok sample_reqs sample_cworld.
Proof.
  split.
  - split; [intros k p Hx|intros k ? p ? Hx]; change ((∅ : gmap string Payment) !! k = Some p) in Hx;
      by rewrite lookup_empty in Hx.
  - intros k p Hx. change ((∅ : gmap string Payment) !! k = Some p) in Hx.
    by rewrite lookup_empty in Hx.
  - done.
  - vm_compute. repeat constructor; set_solver.
  - repeat constructor.
  - repeat constructor.
  - repeat constructor; discriminate.
Qed.

(** All five are answered, with four ledger entries for the four payments. *)
Example sample_race :
  let '(w, ps) := interleave (round_robin 5 12) (map (program (sample_bank false)) sample_reqs)
    sample_cworld in
  List.length (st_ledger (cw_db w)) = 4%nat /\
  map (fun r => (bank_payment r.2, bank_amount r.2)) (cw_sent w) =
    [(Some "p1", 100); (Some "p3", 7000); (Some "p4", 1500); (None, 900); (Some "p1", 100)] /\
  map (fun o => match o with Some (Ok p) => payment_id p | _ => "" end) (map outcome ps) =
    ["p1"; "p1"; "p3"; "p4"; "p5"].
Proof. vm_compute. repeat split. Qed.

Lemma charges_exactly_once_witness :
  let '(w, _) := interleave (round_robin 5 12) (map (program (sample_bank false)) sample_reqs)
    sample_cworld in
  exists new, st_ledger (cw_db w) = (st_ledger (cw_db sample_cworld) ++ new)%list /\
    NoDup (map bill new).
Proof.
  pose proof (charges_exactly_once _ (sample_bank_laws false) sample_reqs sample_cworld
    (round_robin 5 12) sample_start) as HC.
  destruct (interleave _ _ _) as [w ps]. destruct HC as [(new & ? & ? & _) _]. by exists new.
Defined.

Lemma bank_requests_sound_witness :
  exists r, request_ok (BankCheckout r) /\ crq_MaxInstallments r = 3.
Proof.
  pose proof (fun r => bank_requests_sound _ (sample_bank_laws false) sample_reqs sample_cworld
    (round_robin 5 12) "t1" r sample_start) as HC.
  set (w := fst (interleave _ _ _)) in HC.
  assert (E : exists r, nth_error (cw_sent w) 2 = Some ("t1", BankCheckout r) /\
                        crq_MaxInstallments r = 3) by (eexists; vm_compute; split; reflexivity).
  destruct E as (r & E & Er). exists r. split; [|exact Er].
  apply (HC (BankCheckout r)), list_elem_of_In, (nth_error_In _ 2), E.
Defined.

(** A request that resumes a reservation sends the bank its own amount, not the reserved
    one: after a first attempt the bank did not answer, a boleto, a session and a
    due-date charge retried with another amount are charged that amount, while the
    payment and its ledger entry keep the first one; the charge services send the
    payment's amount. *)
Definition retry (first second : creq) : Z * Z :=
  let '(w, _) := run_all (map (program (sample_bank true)) [first; second]) sample_cworld in
  (match map_to_list (payments w) with [(_, p)] => cents (payment_amount p) | _ => 0 end,
   match last (cw_sent w) with Some (_, r) => bank_amount r | None => 0 end).
Theorem retried_amount_diverges :
  retry (sample_boleto_req "1" "k" 7000) (sample_boleto_req "2" "k" 9000) = (7000, 9000) /\
  retry (sample_session_req "1" "k" 1500) (sample_session_req "2" "k" 3000) = (1500, 3000) /\
  retry (sample_due_req "1" "k" 900) (sample_due_req "2" "k" 800) = (900, 800) /\
  retry (sample_req "1" "k" 100) (sample_req "2" "k" 250) = (100, 100).
Proof. vm_compute. repeat split. Qed.

(** An idempotency key is the tenant's, not the endpoint's: a boleto requested under the
    key of a finished charge is registered at the bank under the charge's payment, with
    no reservation, no tx id and no ledger entry of its own. *)
Theorem key_shared_by_endpoints :
  let '(w, ps) := run_all (map (program (sample_bank false))
    [sample_req "1" "k" 100; sample_boleto_req "2" "k" 7000]) sample_cworld in
  map (fun r => (bank_payment r.2, bank_amount r.2)) (cw_sent w) =
    [(Some "p1", 100); (Some "p1", 7000)] /\
  map (fun r => match r with Ok p => payment_endpoint p | Err _ => "" end) ps =
    ["charge.create"; "charge.create"] /\
  List.length (st_ledger (cw_db w)) = 1%nat.
Proof. vm_compute. repeat split. Qed.
