(* ===== verification/ConsoleCred.v ===== *)
(** internal/domain/consoleauth: the console operator's credential, the argon2id
    hash format, the RFC 6238 one-time password and the session value. *)
From S2P Require Import Prelude GoStrings GoTime GoCrypto Shared.

(** * password.go *)
Section password.
(** golang.org/x/crypto/argon2: [IDKey(plain, salt, time, memory, threads, keyLen)]. *)
Context (IDKey : bytes -> bytes -> Z -> Z -> Z -> Z -> bytes).

Definition argonTime : Z := 3.
Definition argonMemory : Z := 65536.
Definition argonThreads : Z := 4.
Definition argonKeyLen : Z := 32.
Definition argonVersion : Z := 19.

(** [strings.Split] on a one-byte separator. *)
Fixpoint split_on (sep : ascii) (l : bytes) : list bytes :=
  match l with
  | [] => [[]]
  | c :: r =>
      let rest := split_on sep r in
      if ascii_dec c sep then [] :: rest
      else match rest with
           | w :: ws => (c :: w) :: ws
           | [] => [[c]]
           end
  end.

(** [fmt.Sscanf] of a literal, and of the verb [%d] into an int: white space but
    no line feed before it, an optional sign, at least one digit, no overflow.  What
    follows the last verb is not read. *)
Fixpoint scan_literal (lit l : bytes) : option bytes :=
  match lit, l with
  | [], _ => Some l
  | c :: lit, d :: l => if ascii_dec c d then scan_literal lit l else None
  | _ :: _, [] => None
  end.
Fixpoint skip_space (l : bytes) : option bytes :=
  match l with
  | [] => Some []
  | c :: r =>
      if (code c =? 10)%N then None
      else if space1 c then skip_space r
      else match r with
           | [] => Some l
           | d :: r2 =>
               if space2 c d then skip_space r2
               else match r2 with
                    | [] => Some l
                    | e :: r3 => if space3 c d e then skip_space r3 else Some l
                    end
           end
  end.
Fixpoint scan_digits (acc : Z) (seen : bool) (l : bytes) : option (Z * bytes) :=
  match l with
  | c :: r =>
      if digit c then scan_digits (10 * acc + (byteZ c - 48)) true r
      else if seen then Some (acc, l) else None
  | [] => if seen then Some (acc, l) else None
  end.
Definition scan_int (l : bytes) : option (Z * bytes) :=
  l ← skip_space l;
  let '(sign, l) := match l with
                    | c :: r => if (code c =? 43)%N then (1, r)
                                else if (code c =? 45)%N then (-1, r) else (1, l)
                    | [] => (1, l) end in
  '(n, l) ← scan_digits 0 false l;
  if bool_decide (in64 (sign * n)) then Some (sign * n, l) else None.

Definition decodeArgon2 (encoded : string) : option (bytes * bytes) :=
  match split_on "$" (bytes_of encoded) with
  | [p0; p1; p2; p3; p4; p5] =>
      if negb (bool_decide (p0 = []) && bool_decide (p1 = bytes_of "argon2id")) then None
      else
        l ← scan_literal (bytes_of "v=") p2;
        '(version, _) ← scan_int l;
        if negb (version =? argonVersion) then None
        else
          l ← scan_literal (bytes_of "m=") p3;
          '(mem, l) ← scan_int l;
          l ← scan_literal (bytes_of ",t=") l;
          '(iter, l) ← scan_int l;
          l ← scan_literal (bytes_of ",p=") l;
          '(par, _) ← scan_int l;
          if negb ((mem =? argonMemory) && (iter =? argonTime) && (par =? argonThreads))
          then None
          else
            salt ← base64_decode (string_of p4);
            key ← base64_decode (string_of p5);
            if (List.length key =? 0)%nat then None else Some (salt, key)
  | _ => None
  end.

Definition VerifyPassword (encoded plain : string) : bool :=
  match decodeArgon2 encoded with
  | None => false
  | Some (salt, key) =>
      if bool_decide (plain = "") then false
      else bool_decide (IDKey (bytes_of plain) salt argonTime argonMemory argonThreads
                          (Z.of_nat (List.length key)) = key)
  end.
End password.

(** * consoleauth.go *)
Record Credential := {
  cred_username : string;
  cred_passwordHash : string;
  cred_totpSecret : string
}.
Definition NewCredential (username passwordHash totpSecret : string) : Credential :=
  {| cred_username := username; cred_passwordHash := passwordHash;
     cred_totpSecret := totpSecret |}.

Record Session := {
  session_id : string;
  session_subject : string;
  session_createdAt : Time;
  session_expiresAt : Time;
  session_lastSeenAt : Time
}.

Definition NewSession (id subject : string) (now : Time) (absolute : Z) : Session :=
  {| session_id := id; session_subject := subject; session_createdAt := now;
     session_expiresAt := Add now absolute; session_lastSeenAt := now |}.

Definition session_Valid (s : Session) (now : Time) (idle : Z) : bool :=
  if negb (Before now (session_expiresAt s)) then false
  else if (0 <? idle) && (idle <? Sub now (session_lastSeenAt s)) then false
  else true.

Definition session_Touched (s : Session) (now : Time) : Session :=
  {| session_id := session_id s; session_subject := session_subject s;
     session_createdAt := session_createdAt s; session_expiresAt := session_expiresAt s;
     session_lastSeenAt := now |}.

(** * totp.go *)
Definition totpDigits : Z := 6.
Definition totpPeriod : Z := 30.
Definition totpDefaultSkew : Z := 1.

Definition ReplaceSpaces (s : string) : string :=
  string_of (List.filter (fun c => negb (code c =? 32)%N) (bytes_of s)).
Definition decodeSecret (secret : string) : option bytes :=
  base32_decode (ToUpper (ReplaceSpaces (TrimSpace secret))).

(** [fmt.Sprintf("%0*d", n, x)] for [0 <= x < 10^n]. *)
Fixpoint decimal_pad (n : nat) (x : Z) : bytes :=
  match n with
  | O => []
  | S n => (decimal_pad n (x / 10) ++ [asciiZ (48 + x mod 10)])%list
  end.

Definition hotp (key : bytes) (counter : Z) : string :=
  let sum := map byteZ (hmac sha1 key (be_bytes 8 counter)) in
  let at_ i := nth i sum 0 in
  let offset := Z.to_nat (Z.land (at_ (List.length sum - 1)%nat) 0x0f) in
  let bin := Z.lor (Z.lor (Z.lor (Z.shiftl (Z.land (at_ offset) 0x7f) 24)
                                 (Z.shiftl (at_ (offset + 1)%nat) 16))
                          (Z.shiftl (at_ (offset + 2)%nat) 8))
                   (at_ (offset + 3)%nat) in
  string_of (decimal_pad 6 (bin mod 1000000)).

(** The loop over the steps from the oldest of the window; [None] is (0, false). *)
Fixpoint totp_scan (key : bytes) (code : string) (steps : list Z) : option Z :=
  match steps with
  | [] => None
  | s :: rest =>
      if s <? 0 then totp_scan key code rest
      else if bool_decide (hotp key s = code) then Some s
      else totp_scan key code rest
  end.

Definition verifyTOTPSkew (secret code : string) (now : Time) (skew : Z) : option Z :=
  match decodeSecret secret with
  | None => None
  | Some key =>
      if (List.length key =? 0)%nat then None
      else
        let code := TrimSpace code in
        if negb (len code =? totpDigits) then None
        else
          let current := div64 (unix now) totpPeriod in
          totp_scan key code
            (map (fun i => current + Z.of_nat i - skew) (seq 0 (Z.to_nat (2 * skew + 1))))
  end.

Definition VerifyTOTP (secret code : string) (now : Time) : option Z :=
  verifyTOTPSkew secret code now totpDefaultSkew.

(** [url.PathEscape] and [url.QueryEscape]. *)
Definition hex_upper (z : Z) : ascii := asciiZ (if z <? 10 then 48 + z else 55 + z).
Definition percent (c : ascii) : bytes :=
  ["%"%char; hex_upper (byteZ c / 16); hex_upper (byteZ c mod 16)].
Definition unreserved (c : ascii) : bool :=
  digit c || upper_letter c || ((97 <=? code c) && (code c <=? 122))%N
  || bool_decide (c ∈ bytes_of "-_.~").
Definition PathEscape (s : string) : string :=
  string_of (List.concat (map (fun c =>
    if unreserved c || bool_decide (c ∈ bytes_of "$&+=:@") then [c] else percent c) (bytes_of s))).
Definition QueryEscape (s : string) : string :=
  string_of (List.concat (map (fun c =>
    if unreserved c then [c] else if (code c =? 32)%N then ["+"%char] else percent c)
    (bytes_of s))).

(** [q.Encode()] sorts by key. *)
Definition OTPAuthURI (issuer account secret : string) : string :=
  ("otpauth://totp/" ++ PathEscape (issuer ++ ":" ++ account)
   ++ "?algorithm=SHA1&digits=6&issuer=" ++ QueryEscape issuer
   ++ "&period=30&secret=" ++ QueryEscape secret)%string.

Example OTPAuthURI_ex :
  OTPAuthURI "Pagamentos Admin" "op" "ABC" =
  "otpauth://totp/Pagamentos%20Admin:op?algorithm=SHA1&digits=6&issuer=Pagamentos+Admin&period=30&secret=ABC".
Proof. vm_compute. reflexivity. Qed.

(** RFC 6238 appendix B, at 59 s, of the 20-byte secret "12345678901234567890". *)
Definition rfc6238_secret : string := "GEZDGNBVGY3TQOJQGEZDGNBVGY3TQOJQ".
Example hotp_rfc6238 :
  hotp (bytes_of "12345678901234567890") 1 = "287082".
Proof. vm_compute. reflexivity. Qed.

Lemma totp_scan_Some key code steps s :
  totp_scan key code steps = Some s -> s ∈ steps /\ 0 <= s /\ hotp key s = code.
Proof.
  induction steps as [|x steps IH]; simpl; [done|]. rewrite elem_of_cons.
  destruct (Z.ltb_spec x 0); [naive_solver|].
  case_bool_decide; intros; simplify_eq; [split_and!; auto; lia|naive_solver].
Qed.

Lemma totp_scan_None key code steps :
  totp_scan key code steps = None -> forall s, s ∈ steps -> 0 <= s -> hotp key s <> code.
Proof.
  induction steps as [|x steps IH]; simpl; intros H s Hs; [by apply elem_of_nil in Hs|].
  apply elem_of_cons in Hs.
  destruct (Z.ltb_spec x 0); [destruct Hs; [lia|auto]|].
  case_bool_decide; [done|]. destruct Hs; [by subst|auto].
Qed.

(** A session is valid exactly until its absolute expiry and its idle limit. *)
Lemma session_Valid_spec s now idle :
  session_Valid s now idle = true <->
  ns now < ns (session_expiresAt s) /\
  (0 < idle -> Sub now (session_lastSeenAt s) <= idle).
Proof.
  unfold session_Valid, Before.
  destruct (Z.ltb_spec (ns now) (ns (session_expiresAt s))); simpl; [|split; [done|lia]].
  destruct (Z.ltb_spec 0 idle), (Z.ltb_spec idle (Sub now (session_lastSeenAt s)));
    simpl; split; try done; intros; lia.
Qed.
