(* ===== verification/ConsoleLogin.v ===== *)
(** internal/app/consoleauth.go over internal/adapters/consoleauth/memstore.go: the
    console login.  Every store call and every lockout call is one atomic step, so a
    request is a program of [Interleave]. *)
From S2P Require Import Prelude GoStrings GoTime Shared Interleave ConsoleCred.

Definition ErrInvalidCredentials : error := New "credenciais inválidas".
Definition ErrConsoleAuthUnavailable : error := New "console auth not configured".
Definition ErrBootstrapDisabled : error := New "bootstrap desabilitado".
Definition ErrBootstrapForbidden : error := New "bootstrap não autorizado".
Definition ErrBootstrapLocked : error := New "credencial já provisionada".

(** The three storage ports over a store [S]; every call may fail. *)
Class ConsoleStores (S : Type) := {
  GetCredential : S -> S * res (option Credential);
  SaveCredential : Credential -> S -> S * res unit;
  CreateSession : Session -> S -> S * res unit;
  GetSession : string -> S -> S * res (option Session);
  TouchSession : string -> Time -> S -> S * res unit;
  DeleteSession : string -> S -> S * res unit;
  LastStep : string -> S -> S * res Z;
  SetLastStep : string -> Z -> S -> S * res unit
}.

(** * The brute-force lockout *)
Record lockoutEntry := { lock_count : Z; lock_until : Time }.
Record loginLockout := {
  lock_max : Z;
  lock_window : Z;
  lock_failures : gmap string lockoutEntry
}.
Definition with_failures (l : loginLockout) f : loginLockout :=
  {| lock_max := lock_max l; lock_window := lock_window l; lock_failures := f |}.

Definition newLoginLockout (max window : Z) : loginLockout :=
  {| lock_max := max; lock_window := window; lock_failures := ∅ |}.

Definition lockout_locked (key : string) (now : Time) (l : loginLockout)
    : loginLockout * bool :=
  match lock_failures l !! key with
  | None => (l, false)
  | Some e =>
      if After now (lock_until e) then (with_failures l (delete key (lock_failures l)), false)
      else (l, lock_max l <=? lock_count e)
  end.

Definition lockout_strike (key : string) (now : Time) (l : loginLockout)
    : loginLockout * unit :=
  let count := match lock_failures l !! key with
               | None => 0
               | Some e => if After now (lock_until e) then 0 else lock_count e
               end in
  (with_failures l (<[key := {| lock_count := count + 1;
                                lock_until := Add now (lock_window l) |}]> (lock_failures l)), tt).

Definition lockout_reset (key : string) (l : loginLockout) : loginLockout * unit :=
  (with_failures l (delete key (lock_failures l)), tt).

(** * The service *)
Record ConsoleAuthConfig := {
  cfg_Username : string;
  cfg_Issuer : string;
  cfg_BootstrapToken : string;
  cfg_AbsoluteTTL : Z;
  cfg_IdleTTL : Z;
  cfg_MaxFailures : Z;
  cfg_LockoutWindow : Z
}.

Definition minute : Z := 60 * nsec.
Definition defaultConsoleUsername : string := "pericles.luz".
Definition defaultConsoleIssuer : string := "Pagamentos Admin".
Definition defaultAbsoluteTTL : Z := 12 * hour.
Definition defaultIdleTTL : Z := 30 * minute.
Definition defaultMaxFailures : Z := 5.
Definition defaultLockoutWindow : Z := 15 * minute.

Definition or_default (x d : Z) : Z := if x <=? 0 then d else x.
Definition or_text (x d : string) : string := if bool_decide (x = "") then d else x.

(** The immutable part; [has_creds], [has_sessions] and [has_replay] tell which
    stores were wired. *)
Record ConsoleAuthService := {
  has_creds : bool;
  has_sessions : bool;
  has_replay : bool;
  svc_username : string;
  svc_issuer : string;
  svc_bootstrapToken : string;
  svc_absoluteTTL : Z;
  svc_idleTTL : Z
}.

Definition NewConsoleAuthService (creds sessions replay : bool) (cfg : ConsoleAuthConfig)
    : ConsoleAuthService * loginLockout :=
  ({| has_creds := creds; has_sessions := sessions; has_replay := replay;
      svc_username := or_text (cfg_Username cfg) defaultConsoleUsername;
      svc_issuer := or_text (cfg_Issuer cfg) defaultConsoleIssuer;
      svc_bootstrapToken := cfg_BootstrapToken cfg;
      svc_absoluteTTL := or_default (cfg_AbsoluteTTL cfg) defaultAbsoluteTTL;
      svc_idleTTL := or_default (cfg_IdleTTL cfg) defaultIdleTTL |},
   newLoginLockout (or_default (cfg_MaxFailures cfg) defaultMaxFailures)
     (or_default (cfg_LockoutWindow cfg) defaultLockoutWindow)).

(** The shared mutable state: the stores and the lockout. *)
Record Console (S : Type) := { stores : S; lockout : loginLockout }.
Arguments Build_Console {S} stores lockout.
Arguments stores {S} c.
Arguments lockout {S} c.

Section service.
Context {S : Type} `{ConsoleStores S}.
(** argon2, and the results of the random generators within one call. *)
Context (IDKey : bytes -> bytes -> Z -> Z -> Z -> Z -> bytes).
Context (svc : ConsoleAuthService).

Definition on_stores {A} (f : S -> S * A) (c : Console S) : Console S * A :=
  let '(s, a) := f (stores c) in (Build_Console s (lockout c), a).
Definition on_lockout {A} (f : loginLockout -> loginLockout * A) (c : Console S)
    : Console S * A :=
  let '(l, a) := f (lockout c) in (Build_Console (stores c) l, a).

Notation request A := (prog (Console S) A).

Definition Provisioned : request bool :=
  if negb (has_creds svc) then Ret false
  else
    act r <- on_stores GetCredential ;;
    Ret match r with
        | Err _ => true
        | Ok None => false
        | Ok (Some _) => true
        end.

(** What the operator is shown once. *)
Record BootstrapResult := {
  boot_Username : string;
  boot_Password : string;
  boot_TOTPSecret : string;
  boot_OTPAuthURI : string
}.

(** [password], [secret] and [hash] stand for the three generators' results; the
    hash is of the password generated. *)
Definition Bootstrap (password secret : res string) (HashPassword : string -> res string)
    (token : string) : request (res BootstrapResult) :=
  if negb (has_creds svc) then Ret (Err ErrConsoleAuthUnavailable)
  else if bool_decide (svc_bootstrapToken svc = "") then Ret (Err ErrBootstrapDisabled)
  else if negb (bool_decide (token = svc_bootstrapToken svc))
  then Ret (Err ErrBootstrapForbidden)
  else
    act c <- on_stores GetCredential ;;
    match c with
    | Err e => Ret (Err e)
    | Ok (Some _) => Ret (Err ErrBootstrapLocked)
    | Ok None =>
        match (let? p := password in let? t := secret in let? h := HashPassword p in
               Ok (p, t, h)) with
        | Err e => Ret (Err e)
        | Ok (p, t, h) =>
            act saved <- on_stores (SaveCredential (NewCredential (svc_username svc) h t)) ;;
            match saved with
            | Err e => Ret (Err e)
            | Ok _ => Ret (Ok {| boot_Username := svc_username svc; boot_Password := p;
                                 boot_TOTPSecret := t;
                                 boot_OTPAuthURI :=
                                   OTPAuthURI (svc_issuer svc) (svc_username svc) t |})
            end
        end
    end.

Definition refuse_login (username : string) (now : Time) : request (res string) :=
  act _ <- on_lockout (lockout_strike username now) ;; Ret (Err ErrInvalidCredentials).

(** [totpFresh] followed by its continuation. *)
Definition totpFresh (subject : string) (step : Z) (k : bool -> request (res string))
    : request (res string) :=
  if negb (has_replay svc) then k true
  else
    act last <- on_stores (LastStep subject) ;;
    k match last with Err _ => false | Ok last => last <? step end.

Definition replaySet (subject : string) (step : Z) (k : request (res string))
    : request (res string) :=
  if negb (has_replay svc) then k
  else
    act r <- on_stores (SetLastStep subject step) ;;
    match r with Err e => Ret (Err e) | Ok _ => k end.

(** The tail of a successful login. *)
Definition mint_session (username : string) (cred : Credential) (now : Time)
    (newSessionID : res string) : request (res string) :=
  act _ <- on_lockout (lockout_reset username) ;;
  match newSessionID with
  | Err e => Ret (Err e)
  | Ok id =>
      act created <- on_stores
        (CreateSession (NewSession id (cred_username cred) now (svc_absoluteTTL svc))) ;;
      match created with Err e => Ret (Err e) | Ok _ => Ret (Ok id) end
  end.

Definition Login (now : Time) (newSessionID : res string) (username password code : string)
    : request (res string) :=
  if negb (has_creds svc && has_sessions svc) then Ret (Err ErrConsoleAuthUnavailable)
  else
    act locked <- on_lockout (lockout_locked username now) ;;
    if (locked : bool) then Ret (Err ErrInvalidCredentials)
    else
      act c <- on_stores GetCredential ;;
      match c with
      | Err _ => Ret (Err ErrConsoleAuthUnavailable)
      | Ok None => refuse_login username now
      | Ok (Some cred) =>
          if negb (bool_decide (username = cred_username cred)
                   && VerifyPassword IDKey (cred_passwordHash cred) password)
          then refuse_login username now
          else
            match VerifyTOTP (cred_totpSecret cred) code now with
            | None => refuse_login username now
            | Some step =>
                totpFresh (cred_username cred) step (fun fresh =>
                  if fresh
                  then replaySet (cred_username cred) step
                         (mint_session username cred now newSessionID)
                  else refuse_login username now)
            end
      end.

Definition Authenticate (now : Time) (sessionID : string) : request (option string) :=
  if negb (has_sessions svc) || bool_decide (sessionID = "") then Ret None
  else
    act found <- on_stores (GetSession sessionID) ;;
    match found with
    | Err _ | Ok None => Ret None
    | Ok (Some sess) =>
        if negb (session_Valid sess now (svc_idleTTL svc))
        then act _ <- on_stores (DeleteSession sessionID) ;; Ret None
        else act _ <- on_stores (TouchSession sessionID now) ;;
             Ret (Some (session_subject sess))
    end.

Definition Logout (sessionID : string) : request (res unit) :=
  if negb (has_sessions svc) || bool_decide (sessionID = "") then Ret (Ok tt)
  else act r <- on_stores (DeleteSession sessionID) ;; Ret r.
End service.

(** * memstore.go *)
Record MemStore := {
  ms_cred : option Credential;
  ms_sessions : gmap string Session;
  ms_lastStep : gmap string Z
}.
Definition NewMemStore : MemStore :=
  {| ms_cred := None; ms_sessions := ∅; ms_lastStep := ∅ |}.
Definition with_cred (m : MemStore) x : MemStore :=
  {| ms_cred := x; ms_sessions := ms_sessions m; ms_lastStep := ms_lastStep m |}.
Definition with_sessions (m : MemStore) x : MemStore :=
  {| ms_cred := ms_cred m; ms_sessions := x; ms_lastStep := ms_lastStep m |}.
Definition with_lastStep (m : MemStore) x : MemStore :=
  {| ms_cred := ms_cred m; ms_sessions := ms_sessions m; ms_lastStep := x |}.

Definition mem_GetCredential (m : MemStore) : MemStore * res (option Credential) :=
  (m, Ok (ms_cred m)).
Definition mem_SaveCredential (c : Credential) (m : MemStore) : MemStore * res unit :=
  (with_cred m (Some c), Ok tt).
Definition mem_Create (s : Session) (m : MemStore) : MemStore * res unit :=
  (with_sessions m (<[session_id s := s]> (ms_sessions m)), Ok tt).
Definition mem_Get (id : string) (m : MemStore) : MemStore * res (option Session) :=
  (m, Ok (ms_sessions m !! id)).
Definition mem_Touch (id : string) (lastSeen : Time) (m : MemStore) : MemStore * res unit :=
  match ms_sessions m !! id with
  | Some s => (with_sessions m (<[id := session_Touched s lastSeen]> (ms_sessions m)), Ok tt)
  | None => (m, Ok tt)
  end.
Definition mem_Delete (id : string) (m : MemStore) : MemStore * res unit :=
  (with_sessions m (delete id (ms_sessions m)), Ok tt).
(** A missing key reads as 0. *)
Definition mem_LastStep (subject : string) (m : MemStore) : MemStore * res Z :=
  (m, Ok (default 0 (ms_lastStep m !! subject))).
Definition mem_SetLastStep (subject : string) (step : Z) (m : MemStore)
    : MemStore * res unit :=
  (with_lastStep m (<[subject := step]> (ms_lastStep m)), Ok tt).

#[export] Instance memStores : ConsoleStores MemStore := {
  GetCredential := mem_GetCredential;
  SaveCredential := mem_SaveCredential;
  CreateSession := mem_Create;
  GetSession := mem_Get;
  TouchSession := mem_Touch;
  DeleteSession := mem_Delete;
  LastStep := mem_LastStep;
  SetLastStep := mem_SetLastStep
}.
