(* ===== verification/ConsoleLoginSafety.v ===== *)
(** Safety of the console login on the in-memory store: one-time passwords are
    consumed, guessing is bounded, sessions end, when requests are served one at a
    time; and what a concurrent schedule can do. *)
From S2P Require Import Prelude GoStrings GoTime Shared Interleave ConsoleCred ConsoleLogin.

Section safety.
Context (IDKey : bytes -> bytes -> Z -> Z -> Z -> Z -> bytes).
Context (svc : ConsoleAuthService).
Hypothesis wired : has_creds svc = true /\ has_sessions svc = true /\ has_replay svc = true.

Notation console := (Console MemStore).

(** Requests as data, and what the service answers. *)
Inductive req :=
| RBootstrap (password secret : res string) (hash : string -> res string) (token : string)
| RLogin (now : Time) (newID : res string) (username password code : string)
| RAuth (now : Time) (id : string)
| RLogout (id : string).
Inductive ans :=
| ABootstrap (r : res BootstrapResult)
| ALogin (r : res string)
| AAuth (r : option string)
| ALogout (r : res unit).

Definition serve (r : req) (c : console) : console * ans :=
  match r with
  | RBootstrap p t h tok => let '(c, a) := run (Bootstrap svc p t h tok) c in (c, ABootstrap a)
  | RLogin now id u p code =>
      let '(c, a) := run (Login IDKey svc now id u p code) c in (c, ALogin a)
  | RAuth now id => let '(c, a) := run (Authenticate svc now id) c in (c, AAuth a)
  | RLogout id => let '(c, a) := run (Logout svc id) c in (c, ALogout a)
  end.
Definition serve_all (rs : list req) (c : console) : console :=
  foldl (fun c r => (serve r c).1) c rs.

(** ** What one login does *)

(** The credential and step a login is accepted for, the lockout aside. *)
Definition accepted (m : MemStore) (now : Time) (username password code : string)
    : option (Credential * Z) :=
  cred ← ms_cred m;
  if negb (bool_decide (username = cred_username cred)
           && VerifyPassword IDKey (cred_passwordHash cred) password) then None
  else
    step ← VerifyTOTP (cred_totpSecret cred) code now;
    if default 0 (ms_lastStep m !! cred_username cred) <? step then Some (cred, step) else None.

Definition is_locked (c : console) (username : string) (now : Time) : bool :=
  (lockout_locked username now (lockout c)).2.

Lemma locked_state u now l :
  (lockout_locked u now l).2 = true -> (lockout_locked u now l).1 = l.
Proof. unfold lockout_locked. by repeat case_match. Qed.

Lemma Login_run now newID u p code c :
  run (Login IDKey svc now newID u p code) c =
  if is_locked c u now then (c, Err ErrInvalidCredentials)
  else
    let l := (lockout_locked u now (lockout c)).1 in
    match accepted (stores c) now u p code with
    | None => (Build_Console (stores c) (lockout_strike u now l).1, Err ErrInvalidCredentials)
    | Some (cred, step) =>
        let m := with_lastStep (stores c) (<[cred_username cred := step]> (ms_lastStep (stores c))) in
        let l := (lockout_reset u l).1 in
        match newID with
        | Err e => (Build_Console m l, Err e)
        | Ok id =>
            (Build_Console
               (with_sessions m (<[id := NewSession id (cred_username cred) now
                                           (svc_absoluteTTL svc)]> (ms_sessions m))) l, Ok id)
        end
    end.
Proof.
  destruct c as [m l], wired as (Hc & Hs & Hr). unfold is_locked. cbn [stores lockout].
  pose proof (locked_state u now l) as HL.
  unfold Login. rewrite Hc, Hs. cbn [negb andb run on_lockout stores lockout].
  unfold on_lockout at 1. cbn [stores lockout].
  destruct (lockout_locked u now l) as [l' []] eqn:El; cbn [fst snd] in *.
  { by rewrite HL. }
  cbn [run]. unfold on_stores at 1. cbn [stores lockout GetCredential memStores mem_GetCredential].
  unfold accepted. destruct (ms_cred m) as [cred|]; [|done]. csimpl.
  destruct (bool_decide _ && _); cbn [negb]; [|done].
  destruct (VerifyTOTP _ _ _) as [st|]; [|done]. csimpl.
  unfold totpFresh. rewrite Hr. cbn [negb run].
  unfold on_stores at 1. cbn [stores lockout LastStep memStores mem_LastStep].
  destruct (default 0 _ <? st); [|done].
  unfold replaySet. rewrite Hr. cbn [negb run].
  unfold on_stores at 1. cbn [stores lockout SetLastStep memStores mem_SetLastStep].
  unfold mint_session. cbn [run]. by destruct newID.
Qed.

Lemma accepted_Some m now u p code cred st :
  accepted m now u p code = Some (cred, st) ->
  ms_cred m = Some cred /\ u = cred_username cred /\
  VerifyTOTP (cred_totpSecret cred) code now = Some st /\
  default 0 (ms_lastStep m !! cred_username cred) < st.
Proof.
  unfold accepted. destruct (ms_cred m) as [cr|]; csimpl; [|done].
  destruct (bool_decide _ && _) eqn:E; cbn [negb]; [|done]. bools.
  destruct (VerifyTOTP _ _ _) as [s|] eqn:Ev; csimpl; [|done].
  destruct (Z.ltb_spec (default 0 (ms_lastStep m !! cred_username cr)) s); [|done].
  intros. by simplify_eq.
Qed.

Lemma Authenticate_run now id c :
  run (Authenticate svc now id) c =
  if bool_decide (id = "") then (c, None)
  else
    match ms_sessions (stores c) !! id with
    | None => (c, None)
    | Some s =>
        if session_Valid s now (svc_idleTTL svc)
        then (Build_Console (with_sessions (stores c)
                (<[id := session_Touched s now]> (ms_sessions (stores c)))) (lockout c),
              Some (session_subject s))
        else (Build_Console (with_sessions (stores c) (delete id (ms_sessions (stores c))))
                (lockout c), None)
    end.
Proof.
  destruct c as [m l], wired as (_ & Hs & _). unfold Authenticate. rewrite Hs.
  cbn [negb orb]. case_bool_decide; [done|].
  cbn [run]. unfold on_stores at 1. cbn [stores lockout GetSession memStores mem_Get].
  destruct (ms_sessions m !! id) as [s|] eqn:E; [|done].
  destruct (session_Valid s now _); [|done].
  cbn [negb run]. unfold on_stores. cbn [stores lockout TouchSession memStores].
  unfold mem_Touch. by rewrite E.
Qed.

Lemma serve_Logout id c :
  (serve (RLogout id) c).1 = c \/
  (serve (RLogout id) c).1 =
    Build_Console (with_sessions (stores c) (delete id (ms_sessions (stores c)))) (lockout c).
Proof.
  destruct c as [m l], wired as (_ & Hs & _). unfold serve, Logout. rewrite Hs.
  cbn [negb orb]. case_bool_decide; [by left|by right].
Qed.

Lemma Bootstrap_run p t h tok c :
  exists a,
  run (Bootstrap svc p t h tok) c = (c, Err a) \/
  exists pw sec hash cred,
    cred = NewCredential (svc_username svc) hash sec /\
    ms_cred (stores c) = None /\ tok = svc_bootstrapToken svc /\
    p = Ok pw /\ t = Ok sec /\ h pw = Ok hash /\
    run (Bootstrap svc p t h tok) c =
      (Build_Console (with_cred (stores c) (Some cred)) (lockout c),
       Ok {| boot_Username := svc_username svc; boot_Password := pw; boot_TOTPSecret := sec;
             boot_OTPAuthURI := OTPAuthURI (svc_issuer svc) (svc_username svc) sec |}).
Proof.
  destruct c as [m l], wired as (Hc & _). unfold Bootstrap. rewrite Hc. cbn [negb].
  case_bool_decide; [eexists; by left|].
  case_bool_decide; cbn [negb]; [|eexists; by left].
  cbn [run]. unfold on_stores at 1 3. cbn [stores lockout GetCredential memStores mem_GetCredential].
  destruct (ms_cred m) eqn:E; [eexists; by left|].
  destruct p as [p|]; [|eexists; by left]. destruct t as [t|]; [|eexists; by left].
  destruct (h p) as [hash|] eqn:Eh; [|eexists; by left].
  exists ErrBootstrapLocked. right.
  exists p, t, hash, (NewCredential (svc_username svc) hash t). by rewrite <- E.
Qed.

(** ** One-time passwords *)
Definition consumed (c : console) (subject : string) : Z :=
  default 0 (ms_lastStep (stores c) !! subject).

Lemma serve_Login now newID u p code c :
  serve (RLogin now newID u p code) c =
  let '(c', a) := run (Login IDKey svc now newID u p code) c in (c', ALogin a).
Proof. done. Qed.

Lemma serve_keeps_credential r c cred :
  ms_cred (stores c) = Some cred ->
  ms_cred (stores (serve r c).1) = Some cred /\
  consumed c (cred_username cred) <= consumed (serve r c).1 (cred_username cred).
Proof.
  intros Hc. destruct r as [p t h tok|now newID u p code|now id|id].
  - unfold serve. destruct (Bootstrap_run p t h tok c) as [a [->|(?&?&?&?&_&?&_)]]; [done|].
    congruence.
  - rewrite serve_Login, Login_run. destruct (is_locked c u now); [done|]. cbn zeta.
    destruct (accepted _ _ _ _ _) as [[cr st]|] eqn:Ea; [|done].
    apply accepted_Some in Ea as (E & _ & _ & Hlt). simplify_eq.
    destruct newID; cbn [stores ms_cred with_sessions with_lastStep fst]; (split; [done|]);
      unfold consumed; cbn [stores ms_lastStep with_sessions with_lastStep];
      rewrite lookup_insert_eq; simpl; lia.
  - unfold serve. rewrite Authenticate_run. by repeat case_match; simplify_eq/=.
  - destruct (serve_Logout id c) as [-> | ->]; done.
Qed.

Lemma serve_all_keeps_credential rs c cred :
  ms_cred (stores c) = Some cred ->
  ms_cred (stores (serve_all rs c)) = Some cred /\
  consumed c (cred_username cred) <= consumed (serve_all rs c) (cred_username cred).
Proof.
  revert c. induction rs as [|r rs IH]; intros c Hc; [done|].
  destruct (serve_keeps_credential r c cred Hc) as [H1 H2].
  destruct (IH _ H1) as [H3 H4]. split; [done|]. by etrans.
Qed.

Lemma Login_granted now newID u p code c c' id cred :
  ms_cred (stores c) = Some cred ->
  serve (RLogin now newID u p code) c = (c', ALogin (Ok id)) ->
  is_locked c u now = false /\
  exists st, accepted (stores c) now u p code = Some (cred, st) /\
    VerifyTOTP (cred_totpSecret cred) code now = Some st /\
    consumed c (cred_username cred) < st /\ consumed c' (cred_username cred) = st.
Proof.
  intros Hc. rewrite serve_Login, Login_run. destruct (is_locked c u now); [done|]. cbn zeta.
  destruct (accepted _ _ _ _ _) as [[cr st]|] eqn:Ea; [|done].
  pose proof (accepted_Some _ _ _ _ _ _ _ Ea) as (E & -> & Hv & Hlt). simplify_eq.
  destruct newID; [|done]. intros. simplify_eq. split; [done|]. exists st.
  split_and!; auto. unfold consumed. cbn [stores ms_lastStep with_sessions with_lastStep].
  by rewrite lookup_insert_eq.
Qed.

(** C36. A one-time password is used once when requests are served one at a time:
    whatever requests are served in between (logins, logouts, bootstraps, in whatever
    order and at whatever clock readings), a login granted after another one was
    answered matched a strictly later time step, so a code cannot be replayed in its
    acceptance window, nor an older one used after it.  The operator's credential
    stands before the first.  Two logins in flight together may both be granted on one
    step ([check_then_act_races]). *)
Theorem totp_single_use c cred now1 newID1 u1 p1 code1 c1 id1 rs now2 newID2 u2 p2 code2 c2 id2
    (Hc : ms_cred (stores c) = Some cred)
    (H1 : serve (RLogin now1 newID1 u1 p1 code1) c = (c1, ALogin (Ok id1)))
    (H2 : serve (RLogin now2 newID2 u2 p2 code2) (serve_all rs c1) = (c2, ALogin (Ok id2))) :
  exists step1 step2,
    VerifyTOTP (cred_totpSecret cred) code1 now1 = Some step1 /\
    VerifyTOTP (cred_totpSecret cred) code2 now2 = Some step2 /\ step1 < step2.
Proof.
  destruct (serve_keeps_credential (RLogin now1 newID1 u1 p1 code1) c cred Hc) as [Hc1 _].
  destruct (Login_granted _ _ _ _ _ _ _ _ _ Hc H1) as (_ & s1 & _ & Hv1 & _ & E1).
  rewrite H1 in Hc1. cbn [fst] in Hc1.
  destruct (serve_all_keeps_credential rs c1 cred Hc1) as [Hc2 Hmono].
  destruct (Login_granted _ _ _ _ _ _ _ _ _ Hc2 H2) as (_ & s2 & _ & Hv2 & Hlt & _).
  exists s1, s2. split_and!; [done..|lia].
Qed.

(** ** Guessing is bounded *)

(** The requests of [u] the lockout let through to the password check. *)
Definition tried (u : string) (r : req) (c : console) : Z :=
  match r with
  | RLogin now _ u' _ _ => if bool_decide (u' = u) && negb (is_locked c u now) then 1 else 0
  | _ => 0
  end.
Fixpoint tries (u : string) (rs : list req) (c : console) : Z :=
  match rs with
  | [] => 0
  | r :: rs => tried u r c + tries u rs (serve r c).1
  end.

(** A refused login of [u] within [window] of [from]; any other request. *)
Definition refused_within (u : string) (from window : Z) (r : req) (c : console) : Prop :=
  match r with
  | RLogin now newID u' _ _ =>
      u' = u -> from <= ns now <= from + window /\ is_ok newID = true /\
                (serve r c).2 = ALogin (Err ErrInvalidCredentials)
  | _ => True
  end.
Fixpoint all_refused (u : string) (from window : Z) (rs : list req) (c : console) : Prop :=
  match rs with
  | [] => True
  | r :: rs => refused_within u from window r c /\ all_refused u from window rs (serve r c).1
  end.

(** No negative number of strikes stands against [u]. *)
Definition counted (u : string) (l : loginLockout) : Prop :=
  forall e, lock_failures l !! u = Some e -> 0 <= lock_count e.

(** At least [k] strikes stand against [u], whose streak lasts until [deadline]. *)
Definition streak (u : string) (deadline k : Z) (l : loginLockout) : Prop :=
  (k = 0 /\ counted u l) \/
  exists e, lock_failures l !! u = Some e /\ k <= lock_count e /\
            deadline <= ns (lock_until e).

Lemma streak_same u deadline k l l' :
  lock_failures l' !! u = lock_failures l !! u ->
  streak u deadline k l -> streak u deadline k l'.
Proof.
  unfold streak, counted. intros ->. done.
Qed.

Lemma locked_other u v now l :
  u <> v -> lock_failures (lockout_locked v now l).1 !! u = lock_failures l !! u.
Proof.
  intros. unfold lockout_locked. destruct (lock_failures l !! v) eqn:E; [|done].
  destruct (After _ _); [|done]. cbn. by rewrite lookup_delete_ne.
Qed.

Lemma strike_other u v now l :
  u <> v -> lock_failures (lockout_strike v now l).1 !! u = lock_failures l !! u.
Proof. intros. cbn [lockout_strike fst lock_failures with_failures]. by rewrite lookup_insert_ne. Qed.

Lemma reset_other u v l :
  u <> v -> lock_failures (lockout_reset v l).1 !! u = lock_failures l !! u.
Proof. intros. cbn [lockout_reset fst lock_failures with_failures]. by rewrite lookup_delete_ne. Qed.

Lemma locked_bounds v now l :
  lock_max (lockout_locked v now l).1 = lock_max l /\
  lock_window (lockout_locked v now l).1 = lock_window l.
Proof. unfold lockout_locked. by repeat case_match. Qed.

Lemma serve_Auth_lockout now id c : lockout (serve (RAuth now id) c).1 = lockout c.
Proof. unfold serve. rewrite Authenticate_run. by repeat case_match; simplify_eq. Qed.

Lemma serve_lockout_other r c u :
  match r with RLogin _ _ u' _ _ => u' <> u | _ => True end ->
  lock_failures (lockout (serve r c).1) !! u = lock_failures (lockout c) !! u.
Proof.
  destruct r as [p t h tok|now newID v p code|now id|id].
  - intros _. unfold serve.
    by destruct (Bootstrap_run p t h tok c) as [a [->|(?&?&?&?&_&_&_&_&_&_&->)]].
  - intros Hne. rewrite serve_Login, Login_run. destruct (is_locked c v now); [done|].
    cbn zeta. destruct (accepted _ _ _ _ _) as [[cr st]|].
    + by destruct newID; cbn [lockout fst]; rewrite reset_other, locked_other by congruence.
    + cbn [lockout fst]. by rewrite strike_other, locked_other by congruence.
  - intros _. by rewrite serve_Auth_lockout.
  - intros _. by destruct (serve_Logout id c) as [-> | ->].
Qed.

Lemma serve_bounds r c :
  lock_max (lockout (serve r c).1) = lock_max (lockout c) /\
  lock_window (lockout (serve r c).1) = lock_window (lockout c).
Proof.
  destruct r as [p t h tok|now newID v p code|now id|id].
  - unfold serve.
    by destruct (Bootstrap_run p t h tok c) as [a [->|(?&?&?&?&_&_&_&_&_&_&->)]].
  - rewrite serve_Login, Login_run. pose proof (locked_bounds v now (lockout c)).
    destruct (is_locked c v now); [done|].
    cbn zeta. destruct (accepted _ _ _ _ _) as [[cr st]|]; [destruct newID|]; done.
  - by rewrite serve_Auth_lockout.
  - by destruct (serve_Logout id c) as [-> | ->].
Qed.

(** A refused login either met the lockout, which [k] strikes already justify, or
    adds a strike to the streak. *)
Lemma refused_login u from now newID p code c k :
  let r := RLogin now newID u p code in
  refused_within u from (lock_window (lockout c)) r c ->
  0 < lock_max (lockout c) -> 0 <= k -> streak u (from + lock_window (lockout c)) k (lockout c) ->
  streak u (from + lock_window (lockout c)) (k + tried u r c) (lockout (serve r c).1) /\
  (tried u r c = 0 \/ (tried u r c = 1 /\ k < lock_max (lockout c))).
Proof.
  intros r Hr Hmax Hk Hst. destruct (Hr eq_refl) as (Hnow & Hid & Ha). revert Ha.
  unfold r, tried. rewrite bool_decide_true by done. cbn [andb].
  rewrite serve_Login, Login_run. destruct (is_locked c u now) eqn:El; cbn [negb].
  { intros _. rewrite Z.add_0_r. auto. }
  cbn zeta. destruct (accepted _ _ _ _ _) as [[cr st]|]; [by destruct newID|]. intros _.
  destruct c as [m l]. unfold is_locked, lockout_locked in El. cbn [lockout stores] in *.
  assert (Hlt : k < lock_max l /\ forall e, lock_failures l !! u = Some e ->
            k <= lock_count e /\ (k = 0 \/ After now (lock_until e) = false)).
  { destruct Hst as [[-> Hc]|(e & He & ? & ?)]; [naive_solver|]. rewrite He in El.
    assert (After now (lock_until e) = false) as Hf by (unfold After; lia).
    rewrite Hf in El. cbn in El. split; [lia|]. intros e' ?. simplify_eq. auto. }
  destruct Hlt as [Hlt He]. split; [|auto]. right.
  eexists. cbn [lock_failures lockout with_failures lockout_strike fst].
  rewrite lookup_insert_eq. split; [done|]. cbn [lock_count lock_until Add ns].
  unfold lockout_locked. destruct (lock_failures l !! u) as [e|] eqn:E;
    cbn [fst lock_failures with_failures lock_window].
  - destruct (After now (lock_until e)) eqn:Ea; cbn [fst lock_failures with_failures lock_window].
    + rewrite lookup_delete_eq. destruct (He e eq_refl) as [? [->|?]]; [lia|congruence].
    + rewrite E, Ea. destruct (He e eq_refl). lia.
  - rewrite E. destruct Hst as [[-> _]|(? & ? & _)]; [lia|congruence].
Qed.

Lemma tries_bound u from rs c k :
  all_refused u from (lock_window (lockout c)) rs c -> 0 < lock_max (lockout c) ->
  0 <= k <= lock_max (lockout c) ->
  streak u (from + lock_window (lockout c)) k (lockout c) ->
  k + tries u rs c <= lock_max (lockout c).
Proof.
  revert c k. induction rs as [|r rs IH]; intros c k Hall Hmax Hk Hst; simpl; [lia|].
  destruct Hall as [Hr Hall]. destruct (serve_bounds r c) as [Em Ew].
  assert (Hnext : streak u (from + lock_window (lockout c)) (k + tried u r c) (lockout (serve r c).1)
            /\ (tried u r c = 0 \/ (tried u r c = 1 /\ k < lock_max (lockout c)))).
  { destruct r as [p t h tok|now newID v p code|now id|id];
      try (cbn [tried]; rewrite Z.add_0_r; split; [|by left];
           eapply streak_same; [by apply serve_lockout_other|done]).
    destruct (decide (v = u)) as [->|Hne]; [by apply refused_login; try done; lia|].
    unfold tried. rewrite bool_decide_false by done. cbn [andb]. rewrite Z.add_0_r.
    split; [|by left]. eapply streak_same; [by apply serve_lockout_other|done]. }
  destruct Hnext as [Hst' Ht]. rewrite <- Ew in Hall, Hst'.
  specialize (IH _ (k + tried u r c) Hall). rewrite Em in IH. lapply IH; [|done].
  intros IH'. assert (0 <= k + tried u r c <= lock_max (lockout c)) as Hb by lia.
  specialize (IH' Hb Hst'). lia.
Qed.

(** C37. Guessing is bounded when requests are served one at a time: whatever requests
    are served, in whatever order, and whatever strikes stood before, while no login of
    a user is granted at most [MaxFailures] of that user's attempts made within one
    lockout window reach the password check; the others are answered by the lockout
    alone.  Attempts in flight together may pass the lockout before any of them strikes
    ([check_then_act_races]). *)
Theorem lockout_bounds_guessing u from rs c
    (Hmax : 0 < lock_max (lockout c)) (Hcount : counted u (lockout c))
    (Hall : all_refused u from (lock_window (lockout c)) rs c) :
  tries u rs c <= lock_max (lockout c).
Proof. apply (tries_bound u from rs c 0); [done..|lia|by left]. Qed.

(** ** Sessions

    What a history of requests and answers says of the sessions: who logged in under
    an id, when, and when that session was last used. *)
Record session_fact := { by_user : string; minted_at : Time; last_used : Time }.
Notation facts := (gmap string session_fact).

Definition fact_step (t : facts) (ra : req * ans) : facts :=
  match ra with
  | (RLogin now _ u _ _, ALogin (Ok id)) =>
      <[id := {| by_user := u; minted_at := now; last_used := now |}]> t
  | (RAuth now id, AAuth (Some _)) =>
      alter (fun f => {| by_user := by_user f; minted_at := minted_at f; last_used := now |}) id t
  | (RAuth _ id, AAuth None) | (RLogout id, _) => delete id t
  | _ => t
  end.

Fixpoint history (rs : list req) (c : console) : list (req * ans) :=
  match rs with
  | [] => []
  | r :: rs => (r, (serve r c).2) :: history rs (serve r c).1
  end.

Definition session_of (id : string) (f : session_fact) : Session :=
  {| session_id := id; session_subject := by_user f; session_createdAt := minted_at f;
     session_expiresAt := Add (minted_at f) (svc_absoluteTTL svc);
     session_lastSeenAt := last_used f |}.

(** The store holds what the history says. *)
Definition represents (c : console) (t : facts) : Prop :=
  forall id, id <> "" -> ms_sessions (stores c) !! id = session_of id <$> (t !! id).

(** Who an authentication at [now] should be granted to. *)
Definition entitled (t : facts) (now : Time) (id : string) : option string :=
  if bool_decide (id = "") then None
  else
    f ← t !! id;
    if (ns now <? ns (minted_at f) + svc_absoluteTTL svc)
       && ((svc_idleTTL svc <=? 0) || (Sub now (last_used f) <=? svc_idleTTL svc))
    then Some (by_user f) else None.

Lemma session_of_valid id f now :
  session_Valid (session_of id f) now (svc_idleTTL svc) =
  (ns now <? ns (minted_at f) + svc_absoluteTTL svc)
  && ((svc_idleTTL svc <=? 0) || (Sub now (last_used f) <=? svc_idleTTL svc)).
Proof.
  unfold session_Valid, Before. cbn [session_of session_expiresAt session_lastSeenAt Add ns].
  destruct (_ <? _); [|done]. cbn [negb andb].
  destruct (Z.ltb_spec 0 (svc_idleTTL svc)), (Z.leb_spec (svc_idleTTL svc) 0),
    (Z.ltb_spec (svc_idleTTL svc) (Sub now (last_used f))),
    (Z.leb_spec (Sub now (last_used f)) (svc_idleTTL svc)); simpl; done || lia.
Qed.

Lemma Authenticate_entitled c t now id :
  represents c t -> (run (Authenticate svc now id) c).2 = entitled t now id.
Proof.
  intros HR. rewrite Authenticate_run. unfold entitled. case_bool_decide as Hid; [done|].
  rewrite (HR id Hid). destruct (t !! id) as [f|]; csimpl; [|done].
  rewrite session_of_valid. by destruct (_ && _).
Qed.

Lemma represents_delete c t id m' :
  represents c t -> ms_sessions m' = delete id (ms_sessions (stores c)) ->
  represents (Build_Console m' (lockout c)) (delete id t).
Proof.
  intros HR Hm j Hj. cbn [stores]. rewrite Hm. destruct (decide (j = id)) as [->|].
  - by rewrite !lookup_delete_eq.
  - rewrite !lookup_delete_ne by done. by apply HR.
Qed.

Lemma represents_auth c t now id :
  represents c t ->
  represents (serve (RAuth now id) c).1 (fact_step t (RAuth now id, (serve (RAuth now id) c).2)).
Proof.
  intros HR. unfold serve. rewrite Authenticate_run. case_bool_decide as Hid.
  { cbn. intros j Hj. rewrite lookup_delete_ne by congruence. by apply HR. }
  rewrite (HR id Hid). destruct (t !! id) as [f|] eqn:E; csimpl.
  - destruct (session_Valid _ _ _); cbn [fst snd fact_step]; [|by apply represents_delete].
    intros j Hj. cbn [stores ms_sessions with_sessions]. destruct (decide (j = id)) as [->|].
    + by rewrite lookup_insert_eq, lookup_alter_eq, E.
    + rewrite lookup_insert_ne, lookup_alter_ne by done. by apply HR.
  - intros j Hj. cbn [fst snd fact_step]. destruct (decide (j = id)) as [->|].
    + by rewrite lookup_delete_eq, (HR id Hj), E.
    + rewrite lookup_delete_ne by done. by apply HR.
Qed.

Lemma represents_step c t r :
  represents c t -> represents (serve r c).1 (fact_step t (r, (serve r c).2)).
Proof.
  intros HR. destruct r as [p s h tok|now newID u p code|now id|id].
  - unfold serve. destruct (Bootstrap_run p s h tok c)
      as [a [->|(?&?&?&?&_&_&_&_&_&_&->)]]; exact HR.
  - rewrite serve_Login, Login_run. destruct (is_locked c u now); [exact HR|]. cbn zeta.
    destruct (accepted _ _ _ _ _) as [[cr st]|] eqn:Ea; [|exact HR].
    apply accepted_Some in Ea as (_ & -> & _). destruct newID as [id|]; [|exact HR].
    cbn [fst snd fact_step]. intros j Hj. cbn [stores ms_sessions with_sessions with_lastStep].
    destruct (decide (j = id)) as [->|].
    + by rewrite !lookup_insert_eq.
    + rewrite !lookup_insert_ne by done. by apply HR.
  - by apply represents_auth.
  - cbn [fact_step]. destruct c as [m l], wired as (_ & Hs & _). unfold serve, Logout. rewrite Hs.
    cbn [negb orb]. case_bool_decide as Hid; [|by apply represents_delete].
    intros j Hj. cbn [run fst]. rewrite lookup_delete_ne by congruence. by apply HR.
Qed.

Lemma represents_all rs c t :
  represents c t -> represents (serve_all rs c) (foldl fact_step t (history rs c)).
Proof.
  revert c t. induction rs as [|r rs IH]; intros c t HR; [done|]. cbn [history foldl serve_all].
  by apply IH, represents_step.
Qed.

(** C38. A session id is worth exactly its login: after any history of requests served
    from a store without sessions, an authentication is granted precisely when the id
    was minted by a granted login that was not logged out since, the absolute lifetime
    counted from that login has not run out, however active the session was, and the
    idle limit has not run out since its last use; and it is granted as that login's
    user. *)
Theorem sessions_refine rs c now id
    (H0 : ms_sessions (stores c) = ∅) :
  (serve (RAuth now id) (serve_all rs c)).2 =
    AAuth (entitled (foldl fact_step ∅ (history rs c)) now id).
Proof.
  assert (HR : represents c ∅).
  { intros j _. by rewrite H0, !lookup_empty. }
  apply (represents_all rs) in HR. unfold serve.
  pose proof (Authenticate_entitled _ _ now id HR) as E.
  destruct (run _ _) as [c' a]. cbn [snd] in *. by rewrite E.
Qed.
End safety.

(** * Concrete runs *)

(** A derivation function that accepts one password, and a hash it verifies. *)
Definition sample_IDKey (plain _ : bytes) (_ _ _ _ : Z) : bytes :=
  if bool_decide (plain = bytes_of "pw") then bytes_of "foo" else bytes_of "bar".
Definition sample_svc : ConsoleAuthService :=
  {| has_creds := true; has_sessions := true; has_replay := true; svc_username := "op";
     svc_issuer := "Console"; svc_bootstrapToken := "boot";
     svc_absoluteTTL := defaultAbsoluteTTL; svc_idleTTL := defaultIdleTTL |}.
Definition sample_cred : Credential :=
  NewCredential "op" "$argon2id$v=19$m=65536,t=3,p=4$YWJj$Zm9v" rfc6238_secret.
Definition sample_console (max : Z) : Console MemStore :=
  Build_Console (with_cred NewMemStore (Some sample_cred))
    (newLoginLockout max defaultLockoutWindow).
Definition at_sec (s : Z) : Time := {| ns := s * nsec; loc := UTC_loc |}.

(** Code 287082 is that of step 1; the next step's is 359152. *)
Definition sample_login (t : Z) (id pw code : string) : req :=
  RLogin (at_sec t) (Ok id) "op" pw code.
Lemma sample_wired :
  has_creds sample_svc = true /\ has_sessions sample_svc = true /\ has_replay sample_svc = true.
Proof. done. Qed.

Lemma totp_single_use_witness :
  exists step1 step2, VerifyTOTP rfc6238_secret "287082" (at_sec 59) = Some step1 /\
    VerifyTOTP rfc6238_secret "359152" (at_sec 70) = Some step2 /\ step1 < step2.
Proof.
  eapply (totp_single_use sample_IDKey sample_svc sample_wired (sample_console 5) sample_cred
    (at_sec 59) (Ok "s1") "op" "pw" "287082" _ "s1" [sample_login 60 "s2" "pw" "287082"]
    (at_sec 70) (Ok "s3") "op" "pw" "359152" _ "s3"); [done|vm_compute; reflexivity..].
Defined.

Lemma lockout_bounds_guessing_witness :
  tries sample_IDKey sample_svc "op" (repeat (sample_login 60 "s" "no" "000000") 8)
    (sample_console 3) <= 3.
Proof.
  apply (lockout_bounds_guessing sample_IDKey sample_svc sample_wired "op" (60 * nsec)).
  - done.
  - intros e. vm_compute. done.
  - vm_compute. repeat split; try done; intros; discriminate.
Defined.

Lemma sessions_refine_witness :
  (serve sample_IDKey sample_svc (RAuth (at_sec 1800) "s1")
     (serve_all sample_IDKey sample_svc [sample_login 59 "s1" "pw" "287082"] (sample_console 5))).2
  = AAuth (Some "op").
Proof.
  rewrite (sessions_refine sample_IDKey sample_svc sample_wired) by done.
  vm_compute. reflexivity.
Defined.

(** * Concurrent requests

    Each store call is atomic but a request is not: its checks and its writes are
    separate calls. *)
Definition sample_attempt (id pw : string) : prog (Console MemStore) (res string) :=
  Login sample_IDKey sample_svc (at_sec 59) (Ok id) "op" pw "287082".
Definition sample_boot (pw secret : string) : prog (Console MemStore) (res BootstrapResult) :=
  Bootstrap sample_svc (Ok pw) (Ok secret) (fun p => Ok p) "boot".

(** Round-robin over [n] programs, [k] times. *)
Definition round_robin (n k : nat) : list nat := List.concat (repeat (seq 0 n) k).

(** The three guarantees are sequential.  Under a schedule that lets two requests
    make their checks before either writes: two logins with the same one-time code
    are both granted; with a lockout of one strike, two wrong passwords and a right
    one are all three verified; and two bootstraps both succeed, the second
    credential replacing the first operator's.  One after the other, the second login,
    the third attempt and the second bootstrap are refused. *)
Theorem check_then_act_races :
  let outcomes {A} n (ps : list (prog (Console MemStore) A)) c :=
    map outcome (interleave (round_robin n 8) ps c).2 in
  outcomes 2%nat [sample_attempt "s1" "pw"; sample_attempt "s2" "pw"] (sample_console 5)
    = [Some (Ok "s1"); Some (Ok "s2")] /\
  (run_all [sample_attempt "s1" "pw"; sample_attempt "s2" "pw"] (sample_console 5)).2
    = [Ok "s1"; Err ErrInvalidCredentials] /\
  outcomes 3%nat [sample_attempt "s1" "no"; sample_attempt "s2" "no"; sample_attempt "s3" "pw"]
    (sample_console 1)
    = [Some (Err ErrInvalidCredentials); Some (Err ErrInvalidCredentials); Some (Ok "s3")] /\
  (run_all [sample_attempt "s1" "no"; sample_attempt "s2" "no"; sample_attempt "s3" "pw"]
     (sample_console 1)).2
    = [Err ErrInvalidCredentials; Err ErrInvalidCredentials; Err ErrInvalidCredentials] /\
  (let empty := Build_Console NewMemStore (newLoginLockout 5 defaultLockoutWindow) in
   let boots := [sample_boot "p1" "A"; sample_boot "p2" "B"] in
   map (fun o => is_ok <$> o) (outcomes 2%nat boots empty) = [Some true; Some true] /\
   (cred_passwordHash <$>
      ms_cred (stores (interleave (round_robin 2 8) boots empty).1)) = Some "p2" /\
   map is_ok (run_all boots empty).2 = [true; false]).
Proof. vm_compute. repeat split. Qed.
