(* ===== verification/OutboundQueue.v ===== *)
(** The outbox of outbound webhooks: the aggregates of
    internal/domain/outboundqueue, the in-memory store of
    internal/adapters/persistence/inmemory/outbound_delivery.go and the attribution
    step of internal/app/outbound_delivery.go. *)
From S2P Require Import Prelude GoStrings GoTime Shared Tenants Settlement.

(** * Aggregates *)
Notation DeliveryStatus := string (only parsing).
Definition DeliveryPending : DeliveryStatus := "pending".
Definition DeliveryDelivered : DeliveryStatus := "delivered".

Notation Reason := string (only parsing).
Definition ReasonUnresolvable : Reason := "unresolvable".
Definition ReasonEndpointInactive : Reason := "endpoint_inactive".
Definition ReasonDeliveryExhausted : Reason := "delivery_exhausted".
Definition Reason_valid (r : Reason) : bool :=
  bool_decide (r ∈ [ReasonUnresolvable; ReasonEndpointInactive; ReasonDeliveryExhausted]).

Record Delivery := {
  del_id : string;
  del_accountID : string;
  del_tenantID : string;
  del_eventKey : string;
  del_txID : string;
  del_eventType : string;
  del_status : DeliveryStatus;
  del_createdAt : Time;
  del_detail : Detail
}.

Record DeadLetter := {
  dl_id : string;
  dl_tenantID : string;
  dl_eventKey : string;
  dl_txID : string;
  dl_eventType : string;
  dl_reason : Reason;
  dl_createdAt : Time
}.

#[export] Instance Detail_eq_dec : EqDecision Detail.
Proof. solve_decision. Defined.
#[export] Instance Delivery_eq_dec : EqDecision Delivery.
Proof. solve_decision. Defined.
#[export] Instance DeadLetter_eq_dec : EqDecision DeadLetter.
Proof. solve_decision. Defined.

Definition NewDelivery (id accountID tenantID eventKey txID eventType : string)
    (detail : Detail) (now : Time) : res Delivery :=
  let id := TrimSpace id in
  let accountID := TrimSpace accountID in
  let tenantID := TrimSpace tenantID in
  let eventKey := TrimSpace eventKey in
  let eventType := TrimSpace eventType in
  refuse (bool_decide (id = "")) with (NewValidationError "id" "delivery id is required") ;;
  refuse (bool_decide (accountID = ""))
    with (NewValidationError "account_id" "account id is required") ;;
  refuse (bool_decide (tenantID = ""))
    with (NewValidationError "tenant_id" "tenant id is required") ;;
  refuse (bool_decide (eventKey = ""))
    with (NewValidationError "event_key" "event key is required") ;;
  refuse (bool_decide (eventType = ""))
    with (NewValidationError "event_type" "event type is required") ;;
  Ok {| del_id := id; del_accountID := accountID; del_tenantID := tenantID;
        del_eventKey := eventKey; del_txID := TrimSpace txID; del_eventType := eventType;
        del_status := DeliveryPending; del_createdAt := now; del_detail := detail |}.

Definition RehydrateDelivery (id accountID tenantID eventKey txID eventType : string)
    (status : DeliveryStatus) (createdAt : Time) (detail : Detail) : Delivery :=
  {| del_id := id; del_accountID := accountID; del_tenantID := tenantID;
     del_eventKey := eventKey; del_txID := txID; del_eventType := eventType;
     del_status := status; del_createdAt := createdAt; del_detail := detail |}.

Definition NewDeadLetter (id tenantID eventKey txID eventType : string) (reason : Reason)
    (now : Time) : res DeadLetter :=
  let id := TrimSpace id in
  let tenantID := TrimSpace tenantID in
  let eventKey := TrimSpace eventKey in
  let eventType := TrimSpace eventType in
  refuse (bool_decide (id = "")) with (NewValidationError "id" "dead-letter id is required") ;;
  refuse (bool_decide (tenantID = ""))
    with (NewValidationError "tenant_id" "tenant id is required") ;;
  refuse (bool_decide (eventKey = ""))
    with (NewValidationError "event_key" "event key is required") ;;
  refuse (bool_decide (eventType = ""))
    with (NewValidationError "event_type" "event type is required") ;;
  refuse (negb (Reason_valid reason))
    with (NewValidationError "reason" "dead-letter reason is unknown") ;;
  Ok {| dl_id := id; dl_tenantID := tenantID; dl_eventKey := eventKey;
        dl_txID := TrimSpace txID; dl_eventType := eventType; dl_reason := reason;
        dl_createdAt := now |}.

Definition DeadLetterFromDelivery (id : string) (d : Delivery) (reason : Reason) (now : Time)
    : res DeadLetter :=
  refuse (negb (bool_decide (reason = ReasonEndpointInactive))
          && negb (bool_decide (reason = ReasonDeliveryExhausted)))
    with (NewValidationError "reason" "reason is not an F2 delivery-failure reason") ;;
  NewDeadLetter id (del_tenantID d) (del_eventKey d) (del_txID d) (del_eventType d) reason now.

(** * The in-memory store *)
Record OutboundDeliveryStore := {
  ob_deliveries : list Delivery;
  ob_seenDeliver : gset string;
  ob_deadLetters : list DeadLetter;
  ob_seenDead : gset string
}.
Definition NewOutboundDeliveryStore : OutboundDeliveryStore :=
  {| ob_deliveries := []; ob_seenDeliver := ∅; ob_deadLetters := []; ob_seenDead := ∅ |}.

Definition pipe_key (a b : string) : string := (a ++ "|" ++ b)%string.
Definition deliver_key (d : Delivery) : string := pipe_key (del_accountID d) (del_eventKey d).
Definition dead_key (d : DeadLetter) : string := pipe_key (dl_tenantID d) (dl_eventKey d).

Definition EnqueueDelivery (d : Delivery) (s : OutboundDeliveryStore) : OutboundDeliveryStore :=
  if bool_decide (deliver_key d ∈ ob_seenDeliver s) then s
  else {| ob_deliveries := (ob_deliveries s ++ [d])%list;
          ob_seenDeliver := {[ deliver_key d ]} ∪ ob_seenDeliver s;
          ob_deadLetters := ob_deadLetters s; ob_seenDead := ob_seenDead s |}.

Definition store_DeadLetter (dl : DeadLetter) (s : OutboundDeliveryStore)
    : OutboundDeliveryStore :=
  if bool_decide (dead_key dl ∈ ob_seenDead s) then s
  else {| ob_deliveries := ob_deliveries s; ob_seenDeliver := ob_seenDeliver s;
          ob_deadLetters := (ob_deadLetters s ++ [dl])%list;
          ob_seenDead := {[ dead_key dl ]} ∪ ob_seenDead s |}.

Definition is_pending (d : Delivery) : bool := bool_decide (del_status d = DeliveryPending).

Definition PendingDeliveries (accountID : string) (s : OutboundDeliveryStore) : list Delivery :=
  List.filter (fun d => bool_decide (del_accountID d = accountID) && is_pending d)
    (ob_deliveries s).

Definition ClaimPendingDeliveries (limit : Z) (s : OutboundDeliveryStore) : list Delivery :=
  if limit <=? 0 then []
  else take (Z.to_nat limit) (List.filter is_pending (ob_deliveries s)).

(** The loop removes the first delivery with the id and frees its key. *)
Fixpoint delete_first (id : string) (ds : list Delivery) : option (Delivery * list Delivery) :=
  match ds with
  | [] => None
  | d :: rest =>
      if bool_decide (del_id d = id) then Some (d, rest)
      else match delete_first id rest with
           | None => None
           | Some (x, rest) => Some (x, d :: rest)
           end
  end.

Definition DeleteDelivery (id : string) (s : OutboundDeliveryStore) : OutboundDeliveryStore :=
  match delete_first id (ob_deliveries s) with
  | None => s
  | Some (d, rest) =>
      {| ob_deliveries := rest; ob_seenDeliver := ob_seenDeliver s ∖ {[ deliver_key d ]};
         ob_deadLetters := ob_deadLetters s; ob_seenDead := ob_seenDead s |}
  end.

(** * Attribution *)
Section attribute.
(** The tenant read the default resolver makes. *)
Context (FindTenantByID : string -> res Tenant).

Definition ResolveAccountID (tenantID : string) : res string :=
  let tenantID := TrimSpace tenantID in
  if bool_decide (tenantID = "") then Ok ""
  else let? t := FindTenantByID tenantID in Ok (tenant_accountID t).

(** [active] is false unless the feature is on and every port wired. *)
Definition park (newID : string) (now : Time) (tenantID eventKey txID eventType : string)
    (reason : Reason) (s : OutboundDeliveryStore) : OutboundDeliveryStore :=
  match NewDeadLetter newID tenantID eventKey txID eventType reason now with
  | Err _ => s
  | Ok dl => store_DeadLetter dl s
  end.

Definition Attribute (active : bool) (newID : string) (now : Time)
    (tenantID eventKey txID eventType : string) (detail : Detail)
    (s : OutboundDeliveryStore) : OutboundDeliveryStore :=
  if negb active then s
  else
    match ResolveAccountID tenantID with
    | Err _ => park newID now tenantID eventKey txID eventType ReasonUnresolvable s
    | Ok accountID =>
        if blank accountID then s
        else
          match NewDelivery newID accountID tenantID eventKey txID eventType detail now with
          | Err _ => s
          | Ok d => EnqueueDelivery d s
          end
    end.
End attribute.

(** * Facts on the store *)

(** The dedup keys are exactly those of the queued rows, no two rows share one, and no
    two share an id. *)
Record Outbox_ok (s : OutboundDeliveryStore) : Prop := {
  outbox_keys : NoDup (map deliver_key (ob_deliveries s));
  outbox_seen : forall k, k ∈ ob_seenDeliver s <-> k ∈ map deliver_key (ob_deliveries s);
  outbox_ids : NoDup (map del_id (ob_deliveries s))
}.

Lemma delete_first_spec id ds :
  match delete_first id ds with
  | None => id ∉ map del_id ds
  | Some (d, rest) => del_id d = id /\ exists pre post,
      ds = (pre ++ d :: post)%list /\ rest = (pre ++ post)%list /\ id ∉ map del_id pre
  end.
Proof.
  induction ds as [|d ds IH]; simpl; [apply not_elem_of_nil|].
  case_bool_decide as E; [split; [done|]; exists [], ds; split_and!; [done..|apply not_elem_of_nil]|].
  destruct (delete_first id ds) as [[x rest]|].
  - destruct IH as (? & pre & post & -> & -> & ?). split; [done|].
    exists (d :: pre), post. split_and!; [done..|]. cbn. by rewrite not_elem_of_cons.
  - by rewrite not_elem_of_cons.
Qed.

Lemma Enqueue_ok d s :
  Outbox_ok s -> del_id d ∉ map del_id (ob_deliveries s) -> Outbox_ok (EnqueueDelivery d s).
Proof.
  intros [Hk Hs Hi] Hid. unfold EnqueueDelivery. case_bool_decide as E; [by split|].
  rewrite Hs in E. split; cbn [ob_deliveries ob_seenDeliver].
  - rewrite map_app. simpl. apply NoDup_app. split_and!; [done| |apply NoDup_singleton].
    intros x Hx E'. apply list_elem_of_singleton in E' as ->. done.
  - intros k. rewrite map_app, elem_of_union, elem_of_singleton, elem_of_app, Hs. simpl.
    rewrite list_elem_of_singleton. tauto.
  - rewrite map_app. simpl. apply NoDup_app. split_and!; [done| |apply NoDup_singleton].
    intros x Hx E'. apply list_elem_of_singleton in E' as ->. done.
Qed.

Lemma Delete_ok id s : Outbox_ok s -> Outbox_ok (DeleteDelivery id s).
Proof.
  intros [Hk Hs Hi]. unfold DeleteDelivery. pose proof (delete_first_spec id (ob_deliveries s)) as D.
  destruct (delete_first id _) as [[d rest]|]; [|by split].
  destruct D as (? & pre & post & E & -> & _). rewrite E, map_app in *. simpl in *.
  apply NoDup_app in Hk as (K1 & K2 & K3), Hi as (I1 & I2 & I3).
  apply NoDup_cons in K3 as [K3 K4], I3 as [I3 I4].
  split; cbn [ob_deliveries ob_seenDeliver]; rewrite map_app.
  - apply NoDup_app. split_and!; [done| |done]. intros x Hx ?. apply (K2 x Hx). by right.
  - intros k. rewrite elem_of_difference, elem_of_singleton, Hs, !elem_of_app, elem_of_cons.
    split; [tauto|]. intros [Hp|Hp]; (split; [tauto|]); intros ->; [|done].
    apply (K2 _ Hp). by left.
  - apply NoDup_app. split_and!; [done| |done]. intros x Hx ?. apply (I2 x Hx). by right.
Qed.

Lemma Delete_spec id s d :
  Outbox_ok s ->
  d ∈ ob_deliveries (DeleteDelivery id s) <-> d ∈ ob_deliveries s /\ del_id d <> id.
Proof.
  intros [_ _ Hi]. unfold DeleteDelivery. pose proof (delete_first_spec id (ob_deliveries s)) as D.
  destruct (delete_first id _) as [[x rest]|]; cbn [ob_deliveries].
  - destruct D as (<- & pre & post & E & -> & Hpre). rewrite E in *.
    rewrite map_app in Hi. simpl in Hi. apply NoDup_app in Hi as (_ & _ & Hi).
    apply NoDup_cons in Hi as [Hpost _].
    rewrite !elem_of_app, elem_of_cons. split.
    + intros Hd. split; [tauto|]. intros Eid. rewrite <- Eid in Hpre, Hpost.
      destruct Hd as [Hd|Hd]; apply (list_elem_of_fmap_2 del_id) in Hd; done.
    + intros [[?|[->|?]] ?]; tauto.
  - split; [|tauto]. intros Hd. split; [done|]. intros <-.
    by apply D, (list_elem_of_fmap_2 del_id).
Qed.

Lemma Delete_length d s :
  d ∈ ob_deliveries s ->
  S (List.length (ob_deliveries (DeleteDelivery (del_id d) s))) = List.length (ob_deliveries s).
Proof.
  intros Hin. unfold DeleteDelivery.
  pose proof (delete_first_spec (del_id d) (ob_deliveries s)) as D.
  destruct (delete_first _ _) as [[x rest]|]; cbn [ob_deliveries].
  - destruct D as (_ & pre & post & -> & -> & _). rewrite !length_app. simpl. lia.
  - by apply (list_elem_of_fmap_2 del_id) in Hin.
Qed.

Lemma DeadLetter_deliveries dl s :
  ob_deliveries (store_DeadLetter dl s) = ob_deliveries s /\
  ob_seenDeliver (store_DeadLetter dl s) = ob_seenDeliver s.
Proof. unfold store_DeadLetter. by case_bool_decide. Qed.

Lemma DeadLetter_ok dl s : Outbox_ok s -> Outbox_ok (store_DeadLetter dl s).
Proof.
  destruct (DeadLetter_deliveries dl s) as [E1 E2]. intros [? ? ?].
  split; rewrite ?E1, ?E2; done.
Qed.

(** * Attribution of a stream of inbound events *)
Record inbound := {
  in_newID : string;
  in_now : Time;
  in_tenant : string;
  in_key : string;
  in_tx : string;
  in_type : string;
  in_detail : Detail
}.

(** Identifiers that cannot be confused once joined with a bar. *)
Definition no_bar (s : string) : bool := forallb (fun c => negb (code c =? 124)%N) (bytes_of s).

Lemma pipe_key_inj a b c d :
  no_bar a = true -> no_bar c = true -> pipe_key a b = pipe_key c d -> a = c /\ b = d.
Proof.
  unfold pipe_key, no_bar. revert c. induction a as [|x a IH]; intros [|y c]; simpl.
  - intros _ _ E. by simplify_eq.
  - intros _ Hc E. injection E as <- _. done.
  - intros Ha _ E. injection E as -> _. done.
  - intros Ha Hc E. bools. injection E as -> E. by destruct (IH c H2 H0 E) as [-> ->].
Qed.

Section stream.
Context (dir : string -> res Tenant).

Definition attribute1 (s : OutboundDeliveryStore) (e : inbound) : OutboundDeliveryStore :=
  Attribute dir true (in_newID e) (in_now e) (in_tenant e) (in_key e) (in_tx e) (in_type e)
    (in_detail e) s.

(** An event as the webhook hands it over: every field it must carry is there, and its
    tenant and account ids have no bar. *)
Record inbound_ok (e : inbound) : Prop := {
  inb_id : blank (in_newID e) = false;
  inb_tenant : blank (in_tenant e) = false;
  inb_key : blank (in_key e) = false;
  inb_type : blank (in_type e) = false;
  inb_bar : no_bar (TrimSpace (in_tenant e)) = true;
  inb_account : forall a, ResolveAccountID dir (in_tenant e) = Ok a -> no_bar (TrimSpace a) = true
}.

(** The row of an event, for an owner. *)
Definition row_of (e : inbound) (account : string) : Delivery :=
  {| del_id := TrimSpace (in_newID e); del_accountID := TrimSpace account;
     del_tenantID := TrimSpace (in_tenant e); del_eventKey := TrimSpace (in_key e);
     del_txID := TrimSpace (in_tx e); del_eventType := TrimSpace (in_type e);
     del_status := DeliveryPending; del_createdAt := in_now e; del_detail := in_detail e |}.
Definition letter_of (e : inbound) : DeadLetter :=
  {| dl_id := TrimSpace (in_newID e); dl_tenantID := TrimSpace (in_tenant e);
     dl_eventKey := TrimSpace (in_key e); dl_txID := TrimSpace (in_tx e);
     dl_eventType := TrimSpace (in_type e); dl_reason := ReasonUnresolvable;
     dl_createdAt := in_now e |}.

Lemma attribute1_run s e :
  inbound_ok e ->
  attribute1 s e =
  match ResolveAccountID dir (in_tenant e) with
  | Err _ => store_DeadLetter (letter_of e) s
  | Ok a => if blank a then s else EnqueueDelivery (row_of e a) s
  end.
Proof.
  intros [Hi Ht Hk Hy _ _]. unfold attribute1, Attribute. cbn [negb].
  destruct (ResolveAccountID _ _) as [a|err].
  - destruct (blank a) eqn:Ea; [done|]. unfold NewDelivery. unfold blank in *.
    by rewrite Hi, Ea, Ht, Hk, Hy.
  - unfold park, NewDeadLetter. unfold blank in *. by rewrite Hi, Ht, Hk, Hy.
Qed.

(** Where the events served so far are, and that nothing else is stored. *)
Record attributed (es : list inbound) (s : OutboundDeliveryStore) : Prop := {
  at_ok : Outbox_ok s;
  at_dead_seen : forall k, k ∈ ob_seenDead s <-> k ∈ map dead_key (ob_deadLetters s);
  at_rows : forall d, d ∈ ob_deliveries s ->
    exists e a, e ∈ es /\ ResolveAccountID dir (in_tenant e) = Ok a /\ blank a = false /\
      d = row_of e a;
  at_letters : forall l, l ∈ ob_deadLetters s ->
    exists e err, e ∈ es /\ ResolveAccountID dir (in_tenant e) = Err err /\ l = letter_of e;
  at_queued : forall e a, e ∈ es -> ResolveAccountID dir (in_tenant e) = Ok a ->
    blank a = false -> pipe_key (TrimSpace a) (TrimSpace (in_key e)) ∈ ob_seenDeliver s;
  at_parked : forall e err, e ∈ es -> ResolveAccountID dir (in_tenant e) = Err err ->
    pipe_key (TrimSpace (in_tenant e)) (TrimSpace (in_key e)) ∈ ob_seenDead s
}.

Lemma Enqueue_seen d s : deliver_key d ∈ ob_seenDeliver (EnqueueDelivery d s) /\
  ob_seenDeliver s ⊆ ob_seenDeliver (EnqueueDelivery d s) /\
  ob_seenDead (EnqueueDelivery d s) = ob_seenDead s /\
  ob_deadLetters (EnqueueDelivery d s) = ob_deadLetters s /\
  forall x, x ∈ ob_deliveries (EnqueueDelivery d s) -> x ∈ ob_deliveries s \/ x = d.
Proof.
  unfold EnqueueDelivery. case_bool_decide; [split_and!; auto|]. cbn.
  split_and!; [set_solver..|]. intros x. rewrite elem_of_app, list_elem_of_singleton. done.
Qed.

Lemma DeadLetter_seen l s : dead_key l ∈ ob_seenDead (store_DeadLetter l s) /\
  ob_seenDead s ⊆ ob_seenDead (store_DeadLetter l s) /\
  (forall x, x ∈ ob_deadLetters (store_DeadLetter l s) -> x ∈ ob_deadLetters s \/ x = l) /\
  ((forall k, k ∈ ob_seenDead s <-> k ∈ map dead_key (ob_deadLetters s)) ->
   forall k, k ∈ ob_seenDead (store_DeadLetter l s) <->
             k ∈ map dead_key (ob_deadLetters (store_DeadLetter l s))).
Proof.
  unfold store_DeadLetter. case_bool_decide; [split_and!; auto|]. cbn.
  split_and!; [set_solver..| |].
  - intros x. rewrite elem_of_app, list_elem_of_singleton. done.
  - intros Hs k. rewrite map_app, elem_of_app, elem_of_union, elem_of_singleton, Hs. simpl.
    rewrite list_elem_of_singleton. tauto.
Qed.

Lemma attributed_step es s e :
  attributed es s -> inbound_ok e ->
  TrimSpace (in_newID e) ∉ map del_id (ob_deliveries s) ->
  attributed (es ++ [e]) (attribute1 s e).
Proof.
  intros [Hok Hds Hr Hl Hq Hp] He Hid. rewrite attribute1_run by done.
  destruct (ResolveAccountID dir (in_tenant e)) as [a|err] eqn:Er;
    [destruct (blank a) eqn:Ea|].
  - split; [done..| | | |].
    + intros d Hd. destruct (Hr d Hd) as (e' & a' & ? & ?). exists e', a'. rewrite elem_of_app. auto.
    + intros l Hx. destruct (Hl l Hx) as (e' & r' & ? & ?). exists e', r'. rewrite elem_of_app. auto.
    + intros e' a' [Hx| ->%list_elem_of_singleton]%elem_of_app Hres Hb;
        [by apply (Hq e' a')|congruence].
    + intros e' r' [Hx| ->%list_elem_of_singleton]%elem_of_app Hres;
        [by apply (Hp e' r')|congruence].
  - destruct (Enqueue_seen (row_of e a) s) as (S1 & S2 & S3 & S4 & S5).
    split; [by apply Enqueue_ok|by rewrite S3, S4| | | |].
    + intros d [Hd| ->]%S5; [|exists e, a; split_and!; try done; set_solver].
      destruct (Hr d Hd) as (e' & a' & ? & ? & ? & ?). exists e', a'. set_solver.
    + rewrite S4. intros l Hx. destruct (Hl l Hx) as (e' & r' & ? & ?).
      exists e', r'. rewrite elem_of_app. auto.
    + intros e' a' [Hx| ->%list_elem_of_singleton]%elem_of_app Hres Hb; [by apply S2, (Hq e')|].
      rewrite Er in Hres. simplify_eq. exact S1.
    + rewrite S3. intros e' r' [Hx| ->%list_elem_of_singleton]%elem_of_app Hres;
        [by apply (Hp e' r')|congruence].
  - destruct (DeadLetter_seen (letter_of e) s) as (S1 & S2 & S3 & S4).
    destruct (DeadLetter_deliveries (letter_of e) s) as [D1 D2].
    split; [by apply DeadLetter_ok|by apply S4| | | |].
    + rewrite D1. intros d Hd. destruct (Hr d Hd) as (e' & a' & ? & ?).
      exists e', a'. rewrite elem_of_app. auto.
    + intros l [Hx| ->]%S3; [|exists e, err; split_and!; try done; set_solver].
      destruct (Hl l Hx) as (e' & r' & ? & ? & ?). exists e', r'. set_solver.
    + rewrite D2. intros e' a' [Hx| ->%list_elem_of_singleton]%elem_of_app Hres Hb;
        [by apply (Hq e' a')|congruence].
    + intros e' r' [Hx| ->%list_elem_of_singleton]%elem_of_app Hres; [by apply S2, (Hp e' r')|].
      exact S1.
Qed.

Definition attribute_all (es : list inbound) (s : OutboundDeliveryStore)
    : OutboundDeliveryStore := foldl attribute1 s es.

Lemma attributed_all done_ es s :
  attributed done_ s -> Forall inbound_ok es ->
  NoDup (map (fun e => TrimSpace (in_newID e)) (done_ ++ es)%list) ->
  attributed (done_ ++ es) (attribute_all es s).
Proof.
  revert done_ s. induction es as [|e es IH]; intros done_ s Ha Hall Hnd.
  { by rewrite app_nil_r. }
  apply Forall_cons in Hall as [He Hall]. cbn [attribute_all foldl].
  replace (done_ ++ e :: es)%list with ((done_ ++ [e]) ++ es)%list in * by (by rewrite <- app_assoc).
  apply (IH (done_ ++ [e])%list); [|done..].
  apply attributed_step; [done..|]. intros Hin.
  apply list_elem_of_fmap in Hin as (d & Eid & Hd).
  destruct (at_rows _ _ Ha d Hd) as (e' & a & He' & _ & _ & ->). simpl in Eid.
  rewrite !map_app in Hnd. apply NoDup_app in Hnd as (Hnd & _ & _).
  apply NoDup_app in Hnd as (_ & Hnd & _).
  apply (Hnd (TrimSpace (in_newID e'))).
  - by apply (list_elem_of_fmap_2 (fun e => TrimSpace (in_newID e))).
  - rewrite <- Eid. by left.
Qed.

(** Attribution is exactly-once, complete and isolated: after any stream of
    inbound events with fresh ids, redeliveries included, the outbox holds only rows
    of events of the stream, each under the account the tenant directory names for
    that event's tenant, and at most one per account and event key; every event whose
    tenant has an owner has such a row under that owner, every event whose owner
    cannot be determined has a dead letter under its tenant and key, and the events
    of direct customers leave nothing. *)
Theorem attribution_exact es (Hes : Forall inbound_ok es)
    (Hids : NoDup (map (fun e => TrimSpace (in_newID e)) es)) :
  let s := attribute_all es NewOutboundDeliveryStore in
  (forall d, d ∈ ob_deliveries s -> exists e a, e ∈ es /\
     ResolveAccountID dir (in_tenant e) = Ok a /\ blank a = false /\ d = row_of e a) /\
  (forall d d', d ∈ ob_deliveries s -> d' ∈ ob_deliveries s ->
     del_accountID d = del_accountID d' -> del_eventKey d = del_eventKey d' -> d = d') /\
  (forall e a, e ∈ es -> ResolveAccountID dir (in_tenant e) = Ok a -> blank a = false ->
     exists d, d ∈ ob_deliveries s /\ del_accountID d = TrimSpace a /\
       del_eventKey d = TrimSpace (in_key e)) /\
  (forall e err, e ∈ es -> ResolveAccountID dir (in_tenant e) = Err err ->
     exists l, l ∈ ob_deadLetters s /\ dl_tenantID l = TrimSpace (in_tenant e) /\
       dl_eventKey l = TrimSpace (in_key e) /\ dl_reason l = ReasonUnresolvable) /\
  (forall l, l ∈ ob_deadLetters s -> exists e err, e ∈ es /\
     ResolveAccountID dir (in_tenant e) = Err err /\ l = letter_of e).
Proof.
  intros s. assert (Ha : attributed es s).
  { apply (attributed_all []); [|done..]. split; [split|..]; simpl;
      try (by constructor); intros; try set_solver. }
  destruct Ha as [[Hk Hs _] Hds Hr Hl Hq Hp]. rewrite Forall_forall in Hes.
  split_and!; [done| | | |done].
  - intros d d' Hd Hd' Ea Ee.
    apply list_elem_of_lookup in Hd as [i Hi], Hd' as [j Hj].
    assert (i = j) as ->; [|congruence].
    eapply (NoDup_lookup (map deliver_key (ob_deliveries s)) i j (deliver_key d) Hk);
      rewrite list_lookup_fmap; [by rewrite Hi|].
    rewrite Hj. unfold deliver_key. simpl. by rewrite Ea, Ee.
  - intros e a He Hres Hb. pose proof (Hq e a He Hres Hb) as Hin.
    apply Hs, list_elem_of_fmap in Hin as (d & E & Hd). exists d. split; [done|].
    destruct (Hr d Hd) as (e' & a' & He' & Hres' & _ & ->).
    apply pipe_key_inj in E as [-> ->]; [done| |].
    + by apply (inb_account e (Hes e He)).
    + by apply (inb_account e' (Hes e' He')).
  - intros e err He Hres. pose proof (Hp e err He Hres) as Hin.
    apply Hds, list_elem_of_fmap in Hin as (l & E & Hx). exists l. split; [done|].
    destruct (Hl l Hx) as (e' & err' & He' & _ & ->).
    apply pipe_key_inj in E as [-> ->]; [done| |].
    + apply (inb_bar e (Hes e He)).
    + apply (inb_bar e' (Hes e' He')).
Qed.
End stream.

(** A directory with one reseller's tenant, one direct customer, and no others. *)
Definition sample_dir (id : string) : res Tenant :=
  if bool_decide (id = "t1") then Ok (tenant_RehydrateWithAccount "t1" "A" true zeroTime "acc")
  else if bool_decide (id = "t2") then Ok (tenant_RehydrateWithAccount "t2" "B" true zeroTime "")
  else Err ErrNotFound.

Definition sample_inbound (id tenant key : string) : inbound :=
  {| in_newID := id; in_now := zeroTime; in_tenant := tenant; in_key := key; in_tx := "tx";
     in_type := "payment.paid";
     in_detail := {| detail_AmountCents := 1050; detail_Installments := 0; detail_Message := "" |} |}.
(** Two tenants, a redelivery, and a tenant nobody knows. *)
Definition sample_stream : list inbound :=
  [sample_inbound "1" "t1" "k1"; sample_inbound "2" "t2" "k2"; sample_inbound "3" "t1" "k1";
   sample_inbound "4" "t9" "k3"].

Lemma sample_dir_bar t a : ResolveAccountID sample_dir t = Ok a -> no_bar (TrimSpace a) = true.
Proof.
  unfold ResolveAccountID, sample_dir. intros H.
  repeat (case_bool_decide; [by simplify_eq/=|]). done.
Qed.

Lemma attribution_exact_witness :
  exists d, d ∈ ob_deliveries (attribute_all sample_dir sample_stream NewOutboundDeliveryStore) /\
    del_accountID d = "acc" /\ del_eventKey d = "k1".
Proof.
  destruct (attribution_exact sample_dir sample_stream) as (_ & _ & Hq & _).
  - repeat constructor; try done; intros a; apply sample_dir_bar.
  - vm_compute. repeat constructor; set_solver.
  - apply (Hq (sample_inbound "1" "t1" "k1") "acc"); [by left|done..].
Defined.
