(* ===== verification/OutboundWebhook.v ===== *)
(** internal/domain/outboundwebhook: an account's endpoint and the signature of what
    is sent to it; with the in-memory configuration store of
    internal/adapters/persistence/inmemory/outbound_webhook.go. *)
From S2P Require Import Prelude GoStrings GoTime GoCrypto GoText Shared.

Definition SignatureHeader : string := "X-Webhook-Signature".
Definition TimestampHeader : string := "X-Webhook-Timestamp".
Definition IdempotencyHeader : string := "X-Webhook-Idempotency-Key".
Definition sigPrefix : string := "sha256=".
Definition maxURLLen : Z := 2048.

(** The MAC of timestamp, a dot and the body. *)
Definition Sign (secret : string) (timestampUnix : Z) (body : string) : string :=
  (sigPrefix ++ hmac_sha256_hex secret (FormatInt timestampUnix ++ "." ++ body))%string.

Record Config := {
  cfg_accountID : string;
  cfg_url : string;
  cfg_signingSecret : string;
  cfg_enabled : bool;
  cfg_createdAt : Time;
  cfg_updatedAt : Time
}.

Definition config_Sign (c : Config) (timestampUnix : Z) (body : string) : string :=
  Sign (cfg_signingSecret c) timestampUnix body.

Definition config_Rehydrate (accountID rawURL signingSecret : string) (enabled : bool)
    (createdAt updatedAt : Time) : Config :=
  {| cfg_accountID := accountID; cfg_url := rawURL; cfg_signingSecret := signingSecret;
     cfg_enabled := enabled; cfg_createdAt := createdAt; cfg_updatedAt := updatedAt |}.

Section validate.
(** What [ValidateURL] reads of [url.Parse]: scheme, host, and whether there is a
    userinfo; [None] is a parse error. *)
Context (url_Parse : string -> option (string * string * bool)).

Definition ValidateURL (raw : string) : res string :=
  let raw := TrimSpace raw in
  refuse (bool_decide (raw = "")) with (NewValidationError "url" "webhook URL is required") ;;
  refuse (maxURLLen <? len raw) with (NewValidationError "url" "webhook URL is too long") ;;
  match url_Parse raw with
  | None => Err (NewValidationError "url" "webhook URL is not a valid URL")
  | Some (scheme, host, user) =>
      refuse (negb (EqualFold scheme "https"))
        with (NewValidationError "url" "webhook URL must use https") ;;
      refuse (bool_decide (host = ""))
        with (NewValidationError "url" "webhook URL must include a host") ;;
      refuse user with (NewValidationError "url" "webhook URL must not embed credentials") ;;
      Ok raw
  end.

Definition config_New (accountID rawURL signingSecret : string) (enabled : bool) (now : Time)
    : res Config :=
  let accountID := TrimSpace accountID in
  refuse (bool_decide (accountID = ""))
    with (NewValidationError "account_id" "account id is required") ;;
  let? canonURL := ValidateURL rawURL in
  refuse (blank signingSecret)
    with (NewValidationError "signing_secret" "signing secret is required") ;;
  Ok (config_Rehydrate accountID canonURL signingSecret enabled now now).

Definition config_SetURL (c : Config) (rawURL : string) (now : Time) : res Config :=
  let? canonURL := ValidateURL rawURL in
  Ok (config_Rehydrate (cfg_accountID c) canonURL (cfg_signingSecret c) (cfg_enabled c)
        (cfg_createdAt c) now).

Definition config_SetEnabled (c : Config) (enabled : bool) (now : Time) : Config :=
  config_Rehydrate (cfg_accountID c) (cfg_url c) (cfg_signingSecret c) enabled
    (cfg_createdAt c) now.

(** [secret] is the result of the random generator. *)
Definition config_RotateSecret (c : Config) (secret : res string) (now : Time)
    : res (Config * string) :=
  let? s := secret in
  Ok (config_Rehydrate (cfg_accountID c) (cfg_url c) s (cfg_enabled c) (cfg_createdAt c) now, s).
End validate.

(** * The in-memory store: a record per account *)
Record storedWebhook := {
  sw_url : string;
  sw_signingSecret : string;
  sw_enabled : bool;
  sw_createdAt : Time;
  sw_updatedAt : Time
}.
Notation OutboundWebhookStore := (gmap string storedWebhook).

Definition GetOutboundWebhook (s : OutboundWebhookStore) (accountID : string) : res Config :=
  match s !! accountID with
  | None => Err ErrNotFound
  | Some rec =>
      Ok (config_Rehydrate accountID (sw_url rec) (sw_signingSecret rec) (sw_enabled rec)
            (sw_createdAt rec) (sw_updatedAt rec))
  end.

Definition UpsertOutboundWebhook (cfg : Config) (s : OutboundWebhookStore)
    : OutboundWebhookStore :=
  <[cfg_accountID cfg := {| sw_url := cfg_url cfg; sw_signingSecret := cfg_signingSecret cfg;
                            sw_enabled := cfg_enabled cfg; sw_createdAt := cfg_createdAt cfg;
                            sw_updatedAt := cfg_updatedAt cfg |}]> s.

Definition DeleteOutboundWebhook (accountID : string) (s : OutboundWebhookStore)
    : OutboundWebhookStore := delete accountID s.

Lemma Get_Upsert cfg s : GetOutboundWebhook (UpsertOutboundWebhook cfg s) (cfg_accountID cfg) = Ok cfg.
Proof.
  unfold GetOutboundWebhook, UpsertOutboundWebhook. rewrite lookup_insert_eq. by destruct cfg.
Qed.
