(* ===== verification/OutboundConsole.v ===== *)
(** The console's management of an account's outbound endpoint: internal/app/outbound_webhook.go on
    the in-memory store.  The random generator, the clock and the identifiers are inputs of a call;
    the audit trail is a step that may fail. *)
From S2P Require Import Prelude GoStrings GoTime Shared Tenants AuditTrail OutboundWebhook AccountConsole.
#[global] Open Scope Z_scope.

Definition ErrOutboundWebhookUnavailable : error := New "outbound webhook store not configured".

Record OutboundWorld := { ow_webhooks : OutboundWebhookStore; ow_audit : list Entry }.
(** What one call draws: the instants it reads, in order, the secret and the identifier. *)
Record Draws := {
  dr_now1 : Time; dr_now2 : Time; dr_auditNow : Time; dr_secret : res string; dr_id : string; dr_operator : string
}.

Section console.
(** [url.Parse]; whether the stores are wired; the accounts; the audit trail's append. *)
Context (url_Parse : string -> option (string * string * bool)) (has_webhooks has_accounts : bool).
Context (FindAccountByID : string -> res Account) (Append : list Entry -> Entry -> res unit).
Notation M A := (M OutboundWorld error A).

Definition resolveWebhookAccount (acctID : string) : res string :=
  refuse (negb has_webhooks) with ErrOutboundWebhookUnavailable ;;
  refuse (negb has_accounts) with ErrAccountsUnavailable ;;
  let? a := map_err (Wrap "resolve account") (FindAccountByID (TrimSpace acctID)) in
  refuse (IsSelfAccountID (account_id a)) with (Wrap "self-account has no outbound webhook" ErrNotFound) ;;
  Ok (account_id a).

Definition upsert (cfg : Config) : M unit := fun w =>
  ({| ow_webhooks := UpsertOutboundWebhook cfg (ow_webhooks w); ow_audit := ow_audit w |}, Ok tt).
Definition stored (id : string) : M (res Config) := fun w => (w, Ok (GetOutboundWebhook (ow_webhooks w) id)).
Definition auditWebhook (d : Draws) (action : Action) (accountID : string) : M unit :=
  do e <- liftM (map_err (Wrap "build audit entry")
            (NewOutboundWebhookEntry (dr_id d) (dr_operator d) action accountID (dr_auditNow d))) ;;
  fun w => match Append (ow_audit w) e with
           | Err err => (w, Err (Wrap "append audit entry" err))
           | Ok _ => ({| ow_webhooks := ow_webhooks w; ow_audit := (ow_audit w ++ [e])%list |}, Ok tt)
           end.

Definition Console_GetOutboundWebhook (acctID : string) : M (option Config) :=
  do id <- liftM (resolveWebhookAccount acctID) ;;
  do found <- stored id ;;
  match found with
  | Ok cfg => retM (Some cfg)
  | Err err => if errors_Is err ErrNotFound then retM None else throwM (Wrap "get outbound webhook" err)
  end.
(** The configuration, and the secret the operator is shown. *)
Definition SetOutboundWebhook (d : Draws) (acctID rawURL : string) (enabled : bool) : M (Config * string) :=
  do id <- liftM (resolveWebhookAccount acctID) ;;
  do found <- stored id ;;
  match found with
  | Ok existing =>
      do existing <- liftM (config_SetURL url_Parse existing rawURL (dr_now1 d)) ;;
      let existing := config_SetEnabled existing enabled (dr_now2 d) in
      do _ <- upsert existing ;;
      do _ <- auditWebhook d ActionSetOutboundWebhook id ;;
      retM (existing, "")
  | Err err =>
      if errors_Is err ErrNotFound then
        do secret <- liftM (map_err (Wrap "generate signing secret") (dr_secret d)) ;;
        do cfg <- liftM (config_New url_Parse id rawURL secret enabled (dr_now1 d)) ;;
        do _ <- upsert cfg ;;
        do _ <- auditWebhook d ActionSetOutboundWebhook id ;;
        retM (cfg, secret)
      else throwM (Wrap "get outbound webhook" err)
  end.
Definition RotateOutboundWebhookSecret (d : Draws) (acctID : string) : M (Config * string) :=
  do id <- liftM (resolveWebhookAccount acctID) ;;
  do found <- stored id ;;
  do cfg <- liftM (map_err (Wrap "get outbound webhook") found) ;;
  do r <- liftM (map_err (Wrap "rotate signing secret") (config_RotateSecret cfg (dr_secret d) (dr_now1 d))) ;;
  do _ <- upsert r.1 ;;
  do _ <- auditWebhook d ActionRotateOutboundWebhookSecret id ;;
  retM r.
Definition RemoveOutboundWebhook (d : Draws) (acctID : string) : M unit :=
  do id <- liftM (resolveWebhookAccount acctID) ;;
  do _ <- (fun w => ({| ow_webhooks := DeleteOutboundWebhook id (ow_webhooks w); ow_audit := ow_audit w |}, Ok tt)) ;;
  auditWebhook d ActionRemoveOutboundWebhook id.

(** * Histories *)
Inductive endpoint_op :=
| OpSetEndpoint (d : Draws) (acct rawURL : string) (enabled : bool)
| OpRotateSecret (d : Draws) (acct : string)
| OpRemoveEndpoint (d : Draws) (acct : string).
Definition op_acct (op : endpoint_op) : string :=
  match op with OpSetEndpoint _ a _ _ | OpRotateSecret _ a | OpRemoveEndpoint _ a => a end.
(** What the operator sees: an error, the end of an endpoint, or its configuration with the
    secret that is shown, if any. *)
Inductive endpoint_answer := Failed (err : error) | Removed | Configured (cfg : Config) (shown : string).
Definition endpoint_step (op : endpoint_op) (w : OutboundWorld) : OutboundWorld * endpoint_answer :=
  match op with
  | OpSetEndpoint d a u e =>
      let '(w, r) := SetOutboundWebhook d a u e w in
      (w, match r with Ok (cfg, s) => Configured cfg s | Err err => Failed err end)
  | OpRotateSecret d a =>
      let '(w, r) := RotateOutboundWebhookSecret d a w in
      (w, match r with Ok (cfg, s) => Configured cfg s | Err err => Failed err end)
  | OpRemoveEndpoint d a =>
      let '(w, r) := RemoveOutboundWebhook d a w in
      (w, match r with Ok _ => Removed | Err err => Failed err end)
  end.
Fixpoint endpoint_run (ops : list endpoint_op) (w : OutboundWorld) : OutboundWorld * list endpoint_answer :=
  match ops with
  | [] => (w, [])
  | op :: rest => let '(w, a) := endpoint_step op w in let '(w, l) := endpoint_run rest w in (w, a :: l)
  end.
End console.

(** * The secret an operator holds *)

(** The secret an operator was last shown for an account, and has not removed. *)
Definition holds_after (id : string) (op : endpoint_op) (acct_of : string -> res string) (a : endpoint_answer) (held : option string)
    : option string :=
  match acct_of (op_acct op), a with
  | Ok id', Configured _ shown =>
      if bool_decide (id' = id) then (if bool_decide (shown = "") then held else Some shown) else held
  | Ok id', Removed => if bool_decide (id' = id) then None else held
  | _, _ => held
  end.
Fixpoint held_secret (id : string) (acct_of : string -> res string) (h : list (endpoint_op * endpoint_answer)) (held : option string)
    : option string :=
  match h with [] => held | (op, a) :: rest => held_secret id acct_of rest (holds_after id op acct_of a held) end.

Section secrets.
Context (url_Parse : string -> option (string * string * bool)) (has_webhooks has_accounts : bool).
Context (FindAccountByID : string -> res Account) (Append : list Entry -> Entry -> res unit).
Notation resolve := (resolveWebhookAccount has_webhooks has_accounts FindAccountByID).
Notation step := (endpoint_step url_Parse has_webhooks has_accounts FindAccountByID Append).
Notation run := (endpoint_run url_Parse has_webhooks has_accounts FindAccountByID Append).
Definition secret_of (id : string) (w : OutboundWorld) : option string := sw_signingSecret <$> ow_webhooks w !! id.

(** The audit trail takes every entry; an account is found under its own identifier; a call has an
    identifier for its entry, and a generated secret is not empty. *)
Context (audit_up : forall log e, Append log e = Ok tt).
Context (accounts_found : forall k a, FindAccountByID k = Ok a -> account_id a = k /\ k <> "").
Definition drawn (op : endpoint_op) : Prop :=
  match op with
  | OpSetEndpoint d _ _ _ | OpRotateSecret d _ | OpRemoveEndpoint d _ =>
      TrimSpace (dr_id d) <> "" /\ forall s, dr_secret d = Ok s -> s <> ""
  end.
(** The entry a successful call leaves. *)
Definition audited (op : endpoint_op) (a : endpoint_answer) : list (Action * string) :=
  match a with
  | Failed _ => []
  | _ => [(match op with
           | OpSetEndpoint _ _ _ _ => ActionSetOutboundWebhook
           | OpRotateSecret _ _ => ActionRotateOutboundWebhookSecret
           | OpRemoveEndpoint _ _ => ActionRemoveOutboundWebhook
           end, TrimSpace (op_acct op))]
  end.
Definition audit_lines (w : OutboundWorld) : list (Action * string) := map (fun e => (entry_action e, entry_accountID e)) (ow_audit w).

Lemma resolve_id acct id : resolve acct = Ok id -> id = TrimSpace acct /\ id <> "" /\ TrimSpace id = id.
Proof.
  unfold resolveWebhookAccount. destruct (negb has_webhooks), (negb has_accounts); try done.
  destruct (FindAccountByID _) as [a|] eqn:E; [|done]. cbn. destruct (IsSelfAccountID _); [done|]. intros [= <-].
  destruct (accounts_found _ _ E) as [-> ?]. split_and!; [done..|apply TrimSpace_idem].
Qed.
Lemma audit_ok d action id w : outboundWebhookActionValid action = true -> TrimSpace (dr_id d) <> "" -> id <> "" ->
  TrimSpace id = id ->
  exists e, auditWebhook Append d action id w = ({| ow_webhooks := ow_webhooks w; ow_audit := ow_audit w ++ [e] |}, Ok tt) /\
            entry_action e = action /\ entry_accountID e = id.
Proof.
  intros Ha Hd Hid Ht. unfold auditWebhook, NewOutboundWebhookEntry, required_id, required_account, required, bindM, liftM.
  cbv zeta. rewrite Ha, Ht, !bool_decide_false by done. cbn. rewrite audit_up. eexists. split; [reflexivity|done].
Qed.
Lemma secret_upsert id cfg (w : OutboundWebhookStore) : 
  sw_signingSecret <$> UpsertOutboundWebhook cfg w !! id =
  if bool_decide (cfg_accountID cfg = id) then Some (cfg_signingSecret cfg) else sw_signingSecret <$> w !! id.
Proof. unfold UpsertOutboundWebhook. case_bool_decide as E; [by rewrite E, lookup_insert_eq|by rewrite lookup_insert_ne]. Qed.
Lemma stored_some (s : OutboundWebhookStore) id cfg : GetOutboundWebhook s id = Ok cfg ->
  cfg_accountID cfg = id /\ sw_signingSecret <$> s !! id = Some (cfg_signingSecret cfg).
Proof. unfold GetOutboundWebhook. destruct (s !! id) as [r|]; [|done]. by intros [= <-]. Qed.

(** ** The three operations *)
Definition configured_as (action : Action) (acct : string) (w w' : OutboundWorld) (cfg : Config) : Prop :=
  exists id, resolve acct = Ok id /\ cfg_accountID cfg = id /\ ow_webhooks w' = UpsertOutboundWebhook cfg (ow_webhooks w) /\
             audit_lines w' = (audit_lines w ++ [(action, TrimSpace acct)])%list.
Lemma config_after action acct id d cfg w :
  resolve acct = Ok id -> cfg_accountID cfg = id -> outboundWebhookActionValid action = true -> TrimSpace (dr_id d) <> "" ->
  exists w', (do _ <- upsert cfg ;; auditWebhook Append d action id) w = (w', Ok tt) /\ configured_as action acct w w' cfg.
Proof.
  intros Hr Hc Ha Hd. destruct (resolve_id _ _ Hr) as (Hid & Hne & Ht). unfold bindM at 1, upsert.
  destruct (audit_ok d action id {| ow_webhooks := UpsertOutboundWebhook cfg (ow_webhooks w); ow_audit := ow_audit w |} Ha Hd Hne Ht)
    as (e & -> & Hea & Hei).
  eexists. split; [reflexivity|]. exists id. split_and!; [done..|]. unfold audit_lines. cbn.
  by rewrite map_app, <- Hid, <- Hea, <- Hei.
Qed.

Lemma set_spec d acct u e w : TrimSpace (dr_id d) <> "" -> (forall s, dr_secret d = Ok s -> s <> "") ->
  match SetOutboundWebhook url_Parse has_webhooks has_accounts FindAccountByID Append d acct u e w with
  | (w', Ok (cfg, s)) =>
      configured_as ActionSetOutboundWebhook acct w w' cfg /\
      (secret_of (cfg_accountID cfg) w = Some (cfg_signingSecret cfg) /\ s = "" \/ s = cfg_signingSecret cfg /\ s <> "")
  | (w', Err _) => w' = w
  end.
Proof.
  intros Hd Hs. unfold SetOutboundWebhook, bindM at 1, liftM at 1. destruct (resolve acct) as [id|err] eqn:Er; [|done].
  destruct (resolve_id _ _ Er) as (Hid & Hne & Ht). unfold bindM at 1, stored at 1.
  destruct (GetOutboundWebhook _ id) as [cfg|err] eqn:Eg.
  - destruct (stored_some _ _ _ Eg) as [Hc Hsec]. unfold bindM at 1, liftM at 1, config_SetURL.
    destruct (ValidateURL url_Parse u) as [canon|err]; [|done]. cbv zeta.
    set (cfg' := config_SetEnabled _ _ _).
    destruct (config_after ActionSetOutboundWebhook acct id d cfg' w Er Hc eq_refl Hd) as (w' & E & Hw).
    unfold bindM in E |- *. destruct (upsert cfg' w) as [w1 [[]|]]; [|done]. rewrite E. split; [done|]. left.
    split; [|done]. cbn. by rewrite Hc.
  - destruct (errors_Is err ErrNotFound); [|done]. unfold bindM at 1, liftM at 1. destruct (dr_secret d) as [s|] eqn:Es; [|done].
    cbn [map_err]. unfold bindM at 1, liftM at 1. destruct (config_New url_Parse id u s e (dr_now1 d)) as [cfg|] eqn:En; [|done].
    assert (cfg_accountID cfg = id /\ cfg_signingSecret cfg = s) as [Hc Hsec].
    { unfold config_New in En. cbv zeta in En. rewrite Ht in En. case_bool_decide; [done|].
      destruct (ValidateURL url_Parse u); [|done]. cbn in En. destruct (blank s); [done|]. by injection En as <-. }
    destruct (config_after ActionSetOutboundWebhook acct id d cfg w Er Hc eq_refl Hd) as (w' & E & Hw).
    unfold bindM in E |- *. destruct (upsert cfg w) as [w1 [[]|]]; [|done]. rewrite E. split; [done|]. right.
    split; [done|]. by apply Hs.
Qed.
Lemma rotate_spec d acct w : TrimSpace (dr_id d) <> "" -> (forall s, dr_secret d = Ok s -> s <> "") ->
  match RotateOutboundWebhookSecret has_webhooks has_accounts FindAccountByID Append d acct w with
  | (w', Ok (cfg, s)) =>
      configured_as ActionRotateOutboundWebhookSecret acct w w' cfg /\ s = cfg_signingSecret cfg /\ s <> ""
  | (w', Err _) => w' = w
  end.
Proof.
  intros Hd Hs. unfold RotateOutboundWebhookSecret, bindM at 1, liftM at 1. destruct (resolve acct) as [id|err] eqn:Er; [|done].
  unfold bindM at 1, stored at 1. unfold bindM at 1, liftM at 1. destruct (GetOutboundWebhook _ id) as [cfg|err] eqn:Eg; [|done].
  destruct (stored_some _ _ _ Eg) as [Hc _]. cbn [map_err]. unfold bindM at 1, liftM at 1, config_RotateSecret.
  destruct (dr_secret d) as [s|] eqn:Es; [|done]. cbn [map_err]. set (cfg' := config_Rehydrate _ _ _ _ _ _). cbn [fst].
  destruct (config_after ActionRotateOutboundWebhookSecret acct id d cfg' w Er Hc eq_refl Hd) as (w' & E & Hw).
  unfold bindM in E |- *. destruct (upsert cfg' w) as [w1 [[]|]]; [|done]. rewrite E. split_and!; [done..|]. by apply Hs.
Qed.
Lemma remove_spec d acct w : TrimSpace (dr_id d) <> "" ->
  match RemoveOutboundWebhook has_webhooks has_accounts FindAccountByID Append d acct w with
  | (w', Ok _) => exists id, resolve acct = Ok id /\ ow_webhooks w' = delete id (ow_webhooks w) /\
                             audit_lines w' = (audit_lines w ++ [(ActionRemoveOutboundWebhook, TrimSpace acct)])%list
  | (w', Err _) => w' = w
  end.
Proof.
  intros Hd. unfold RemoveOutboundWebhook, bindM at 1, liftM at 1. destruct (resolve acct) as [id|err] eqn:Er; [|done].
  destruct (resolve_id _ _ Er) as (Hid & Hne & Ht). unfold bindM at 1.
  match goal with |- context [auditWebhook Append d _ id ?w0] =>
    destruct (audit_ok d ActionRemoveOutboundWebhook id w0 eq_refl Hd Hne Ht) as (e & -> & Hea & Hei) end.
  exists id. split_and!; [done..|]. unfold audit_lines. cbn. by rewrite map_app, <- Hid, <- Hea, <- Hei.
Qed.

Lemma configured_secret action acct w w' cfg op shown : op_acct op = acct -> configured_as action acct w w' cfg ->
  (secret_of (cfg_accountID cfg) w = Some (cfg_signingSecret cfg) /\ shown = "" \/ shown = cfg_signingSecret cfg /\ shown <> "") ->
  forall id, secret_of id w' = holds_after id op resolve (Configured cfg shown) (secret_of id w).
Proof.
  intros <- (id' & Hr & Hc & Hw & _) Hs id. unfold holds_after. rewrite Hr. unfold secret_of at 1. rewrite Hw, secret_upsert, Hc.
  case_bool_decide as E; [|done]. subst id'. destruct Hs as [[Hs ->]|[-> Hne]].
  - rewrite bool_decide_true by done. congruence.
  - by rewrite bool_decide_false by done.
Qed.
Lemma step_exact op w : drawn op ->
  let '(w', a) := step op w in
  (forall id, secret_of id w' = holds_after id op resolve a (secret_of id w)) /\
  audit_lines w' = (audit_lines w ++ audited op a)%list.
Proof.
  assert (Hfail : forall op err, (forall id, secret_of id w = holds_after id op resolve (Failed err) (secret_of id w)) /\
                              audit_lines w = (audit_lines w ++ audited op (Failed err))%list).
  { intros op' err. split; [|by rewrite app_nil_r]. intros id. unfold holds_after. by destruct (resolve _). }
  destruct op as [d acct u e|d acct|d acct]; intros [Hd Hs]; cbn [endpoint_step].
  - pose proof (set_spec d acct u e w Hd Hs) as H. destruct (SetOutboundWebhook _ _ _ _ _ _ _ _ _ w) as [w' [[cfg s]|err]]; [|by subst].
    destruct H as [Hc Hsec]. split; [by eapply configured_secret|]. by destruct Hc as (? & _ & _ & _ & ->).
  - pose proof (rotate_spec d acct w Hd Hs) as H. destruct (RotateOutboundWebhookSecret _ _ _ _ _ _ w) as [w' [[cfg s]|err]]; [|by subst].
    destruct H as [Hc Hsec]. split; [eapply configured_secret; [done|exact Hc|by right]|]. by destruct Hc as (? & _ & _ & _ & ->).
  - pose proof (remove_spec d acct w Hd) as H. destruct (RemoveOutboundWebhook _ _ _ _ _ _ w) as [w' [[]|err]]; [|by subst].
    destruct H as (id' & Hr & Hw & ->). split; [|done]. intros id. unfold holds_after, secret_of. cbn [op_acct]. rewrite Hr, Hw.
    case_bool_decide as E; [subst; by rewrite lookup_delete_eq|by rewrite lookup_delete_ne].
Qed.

(** The secret that signs is the one the operator was shown.  Over any history of setting,
    rotating and removing endpoints, of any accounts, the secret an account's messages are signed with
    is the last one an operator was shown for it since it was last removed, updates of the address
    showing none and keeping it; and the audit trail holds one line for every call that succeeded, in
    order, and none for the others. *)
Theorem shown_secret_signs ops w0 : Forall drawn ops ->
  let '(w, answers) := run ops w0 in
  (forall id, secret_of id w = held_secret id resolve (zip ops answers) (secret_of id w0)) /\
  audit_lines w = (audit_lines w0 ++ flat_map (fun h => audited h.1 h.2) (zip ops answers))%list.
Proof.
  intros Hops. revert w0. induction Hops as [|op ops Hop Hops IH]; intros w0; cbn [endpoint_run].
  { split; [done|]. cbn. by rewrite app_nil_r. }
  pose proof (step_exact op w0 Hop) as H. destruct (step op w0) as [w1 a]. destruct H as [H1 H2].
  specialize (IH w1). destruct (run ops w1) as [w l]. destruct IH as [IH1 IH2]. cbn [zip zip_with held_secret flat_map].
  split; [intros id; by rewrite IH1, H1|]. cbn [fst snd]. by rewrite IH2, H2, app_assoc.
Qed.
End secrets.

(** * A concrete account *)
Definition conta : Account :=
  {| account_id := "c1"; account_name := "Conta"; account_active := true;
     account_createdAt := {| ns := 1700000000 * nsec; loc := UTC_loc |} |}.
Definition find_conta (k : string) : res Account := if bool_decide (k = "c1") then Ok conta else Err ErrNotFound.
Definition https_only (raw : string) : option (string * string * bool) :=
  if HasPrefix raw "https://" then Some ("https", "host", false) else None.
Definition some_draws (id : string) (secret : res string) : Draws :=
  let t := {| ns := 1700000001 * nsec; loc := UTC_loc |} in
  {| dr_now1 := t; dr_now2 := t; dr_auditNow := t; dr_secret := secret; dr_id := id; dr_operator := "op" |}.
Definition endpoint_ops : list endpoint_op :=
  [OpSetEndpoint (some_draws "a1" (Ok "s1")) "c1" "https://x.example" true;
   OpSetEndpoint (some_draws "a2" (Ok "s2")) "c1" "https://y.example" true;
   OpRotateSecret (some_draws "a3" (Ok "s3")) " c1 ";
   OpRotateSecret (some_draws "a4" (Ok "s4")) "c2"].
Definition no_endpoints : OutboundWorld := {| ow_webhooks := ∅; ow_audit := [] |}.
Lemma shown_secret_signs_witness :
  let '(w, answers) := endpoint_run https_only true true find_conta (fun _ _ => Ok tt) endpoint_ops no_endpoints in
  secret_of "c1" w = Some "s3" /\
  audit_lines w = [(ActionSetOutboundWebhook, "c1"); (ActionSetOutboundWebhook, "c1"); (ActionRotateOutboundWebhookSecret, "c1")].
Proof.
  pose proof (shown_secret_signs https_only true true find_conta (fun _ _ => Ok tt) (fun _ _ => eq_refl)) as H.
  assert (Hf : forall k a, find_conta k = Ok a -> account_id a = k /\ k <> "").
  { intros k a. unfold find_conta. case_bool_decide as E; [|done]. intros [= <-]. by subst. }
  specialize (H Hf endpoint_ops no_endpoints).
  assert (Hd : Forall drawn endpoint_ops).
  { repeat constructor; vm_compute; try done; by intros s [= <-]. }
  specialize (H Hd). destruct (endpoint_run _ _ _ _ _ endpoint_ops no_endpoints) as [w answers] eqn:E. destruct H as [H1 H2].
  vm_compute in E. injection E as <- <-. split; [rewrite (H1 "c1"); vm_compute; reflexivity|vm_compute; reflexivity].
Defined.

(** When the audit trail refuses the entry of a first provisioning, the call fails after the endpoint
    was stored: it is enabled and signs with a secret nobody was shown, and setting the endpoint again
    shows none. *)
Theorem unaudited_secret_is_never_shown :
  let down := fun (_ : list Entry) (_ : Entry) => Err (New "audit down") in
  let '(w1, a1) := endpoint_step https_only true true find_conta down
                     (OpSetEndpoint (some_draws "a1" (Ok "s1")) "c1" "https://x.example" true) no_endpoints in
  let '(w2, a2) := endpoint_step https_only true true find_conta (fun _ _ => Ok tt)
                     (OpSetEndpoint (some_draws "a2" (Ok "s2")) "c1" "https://x.example" true) w1 in
  (exists err, a1 = Failed err) /\ secret_of "c1" w1 = Some "s1" /\
  (exists cfg, a2 = Configured cfg "") /\ secret_of "c1" w2 = Some "s1".
Proof. vm_compute. split_and!; [by eexists|done|by eexists|done]. Qed.
