(* ===== verification/OutboundForward.v ===== *)
(** internal/app/outbound_forward.go: the consumer that forwards each queued delivery
    to its account's endpoint, with bounded retries, and parks what it cannot
    deliver.  The outbox is the in-memory queue seen through an engine that may refuse
    any claim, deletion, dead-letter write or audit append; a refused write changes
    nothing. *)
From S2P Require Import Prelude GoStrings GoTime GoText Shared AuditTrail Settlement.
From S2P Require Import OutboundQueue OutboundWebhook.

Definition defaultForwardMaxAttempts : Z := 3.
Definition defaultForwardBackoffBase : Z := 250 * 1000000.
Definition defaultForwardBackoffMax : Z := 5 * nsec.
Definition defaultForwardBatch : Z := 64.
Definition systemOperatorOutboundForward : string := "system:outbound-forward".

(** The tuning knobs after the defaults were applied. *)
Record OutboundProcessor := {
  op_active : bool;
  op_maxAttempts : Z;
  op_backoffBase : Z;
  op_backoffMax : Z;
  op_batch : Z
}.

Definition knob (x d : Z) : Z := if x <=? 0 then d else x.
Definition NewOutboundProcessor (active : bool) (maxAttempts base max batch : Z)
    : OutboundProcessor :=
  {| op_active := active;
     op_maxAttempts := knob maxAttempts defaultForwardMaxAttempts;
     op_backoffBase := knob base defaultForwardBackoffBase;
     op_backoffMax := knob max defaultForwardBackoffMax;
     op_batch := knob batch defaultForwardBatch |}.

(** One POST. *)
Record post := {
  post_url : string;
  post_signature : string;
  post_timestamp : string;
  post_idempotency : string;
  post_body : string
}.

(** The outbox, the audit log, the posts made so far, and the number of times the
    environment was consulted. *)
Record FWorld := {
  fw_outbox : OutboundDeliveryStore;
  fw_audit : list Entry;
  fw_posts : list post;
  fw_time : nat
}.

(** What the environment answers when consulted for the [n]-th time. *)
Record Env := {
  env_cancelled : nat -> bool;                 (* ctx.Err() != nil *)
  env_now : nat -> Time;
  env_id : nat -> string;
  env_config : nat -> string -> res Config;    (* the configuration store *)
  env_wait : nat -> string -> bool;            (* the limiter let the account through *)
  env_deliver : nat -> post -> res Z;          (* the forwarder's status *)
  env_sleep : nat -> Z -> bool;                (* the back-off was not interrupted *)
  env_jitter : nat -> Z -> Z;                  (* time.Duration(rand() * float64(half)) *)
  env_claim : nat -> option error;             (* the error of each store call, if any *)
  env_delete : nat -> string -> option error;
  env_dead : nat -> DeadLetter -> option error;
  env_append : nat -> Entry -> option error
}.

(** A computation that cannot fail. *)
Definition F (A : Type) : Type := FWorld -> FWorld * A.
Definition retF {A} (a : A) : F A := fun w => (w, a).
Definition bindF {A B} (m : F A) (k : A -> F B) : F B :=
  fun w => let '(w, a) := m w in k a w.
Notation "'run!' x '<-' m ';;' k" := (bindF m (fun x => k))
  (at level 200, x binder, m at level 99, k at level 200, right associativity) : go_scope.

(** Consult the environment. *)
Definition ask {A} (f : nat -> A) : F A := fun w =>
  ({| fw_outbox := fw_outbox w; fw_audit := fw_audit w; fw_posts := fw_posts w;
      fw_time := S (fw_time w) |}, f (fw_time w)).
(** A store call: refused with an error and no effect, or applied. *)
Definition store_call (failed : nat -> option error) (f : FWorld -> FWorld) : F (option error) :=
  run! err <- ask failed ;;
  match err with Some err => retF (Some err) | None => fun w => (f w, None) end.
Definition on_outbox (f : OutboundDeliveryStore -> OutboundDeliveryStore) (w : FWorld) : FWorld :=
  {| fw_outbox := f (fw_outbox w); fw_audit := fw_audit w; fw_posts := fw_posts w;
     fw_time := fw_time w |}.
Definition on_audit (f : list Entry -> list Entry) (w : FWorld) : FWorld :=
  {| fw_outbox := fw_outbox w; fw_audit := f (fw_audit w); fw_posts := fw_posts w;
     fw_time := fw_time w |}.
Definition send (p : post) : F unit := fun w =>
  ({| fw_outbox := fw_outbox w; fw_audit := fw_audit w; fw_posts := (fw_posts w ++ [p])%list;
      fw_time := fw_time w |}, tt).

Section processor.
Context (p : OutboundProcessor) (env : Env).

Definition buildForwardBody (d : Delivery) (now : Time) : string :=
  json_object
    [("event_key", JString (del_eventKey d));
     ("event_type", JString (del_eventType d));
     ("tx_id", JString (del_txID d));
     ("account_id", JString (del_accountID d));
     ("client_tenant_id", JString (del_tenantID d));
     ("timestamp", JInt (unix now));
     ("amount_cents", JInt (detail_AmountCents (del_detail d)));
     ("installments", JInt (detail_Installments (del_detail d)));
     ("message", JString (detail_Message (del_detail d)))].

Definition backoff (attempt : Z) : F Z :=
  let d := shl64 (op_backoffBase p) attempt in
  let d := if (d <=? 0) || (op_backoffMax p <? d) then op_backoffMax p else d in
  let half := div64 d 2 in
  run! jitter <- ask (fun n => env_jitter env n half) ;;
  retF (add64 half jitter).

(** The store calls of the processor; each caller logs the error and goes on. *)
Definition delete_row (d : Delivery) : F (option error) :=
  store_call (fun n => env_delete env n (del_id d)) (on_outbox (DeleteDelivery (del_id d))).
Definition dead_letter_row (dl : DeadLetter) : F (option error) :=
  store_call (fun n => env_dead env n dl) (on_outbox (store_DeadLetter dl)).
Definition append_entry (e : Entry) : F (option error) :=
  store_call (fun n => env_append env n e) (on_audit (fun l => l ++ [e])%list).

Definition auditDelivery (action : Action) (d : Delivery) : F unit :=
  run! id <- ask (env_id env) ;;
  run! now <- ask (env_now env) ;;
  match NewOutboundDeliveryEntry id systemOperatorOutboundForward action
          (del_accountID d) (del_eventKey d) now with
  | Err _ => retF tt
  | Ok e => run! _ <- append_entry e ;; retF tt
  end.

Definition settleNoConfig (d : Delivery) : F bool :=
  run! _ <- delete_row d ;; retF true.

Definition settleDelivered (d : Delivery) : F bool :=
  run! _ <- delete_row d ;;
  run! _ <- auditDelivery ActionOutboundWebhookDelivered d ;;
  retF true.

Definition parkAndSettle (d : Delivery) (reason : Reason) : F bool :=
  run! id <- ask (env_id env) ;;
  run! now <- ask (env_now env) ;;
  run! _ <- match DeadLetterFromDelivery id d reason now with
            | Err err => retF (Some err)
            | Ok dl => dead_letter_row dl
            end ;;
  run! _ <- delete_row d ;;
  run! _ <- auditDelivery ActionOutboundWebhookDeadLettered d ;;
  retF true.

(** The loop from [attempt]; [fuel] attempts are left. *)
Fixpoint attempt_loop (fuel : nat) (attempt : Z) (d : Delivery) (cfg : Config) (body : string)
    : F bool :=
  match fuel with
  | O => retF false
  | S fuel =>
      run! cancelled <- ask (env_cancelled env) ;;
      if (cancelled : bool) then retF false
      else
        run! now <- ask (env_now env) ;;
        let ts := unix now in
        let m := {| post_url := cfg_url cfg; post_signature := config_Sign cfg ts body;
                    post_timestamp := FormatInt ts; post_idempotency := del_eventKey d;
                    post_body := body |} in
        run! _ <- send m ;;
        run! answer <- ask (fun n => env_deliver env n m) ;;
        if match answer with
           | Ok status => (200 <=? status) && (status <? 300)
           | Err _ => false
           end
        then retF true
        else if attempt <? op_maxAttempts p - 1 then
          run! delay <- backoff attempt ;;
          run! slept <- ask (fun n => env_sleep env n delay) ;;
          if (slept : bool) then attempt_loop fuel (attempt + 1) d cfg body else retF false
        else attempt_loop fuel (attempt + 1) d cfg body
  end.

Definition attemptDelivery (d : Delivery) (cfg : Config) (body : string) : F bool :=
  attempt_loop (Z.to_nat (op_maxAttempts p)) 0 d cfg body.

Definition deliverOne (d : Delivery) : F bool :=
  run! cfg <- ask (fun n => env_config env n (del_accountID d)) ;;
  match cfg with
  | Ok cfg =>
      if negb (cfg_enabled cfg) then parkAndSettle d ReasonEndpointInactive
      else
        run! admitted <- ask (fun n => env_wait env n (del_accountID d)) ;;
        if negb admitted then retF false
        else
          run! now <- ask (env_now env) ;;
          let body := buildForwardBody d now in
          run! accepted <- attemptDelivery d cfg body ;;
          if (accepted : bool) then settleDelivered d
          else parkAndSettle d ReasonDeliveryExhausted
  | Err err =>
      if errors_Is err ErrNotFound then settleNoConfig d else retF false
  end.

(** The loop over the claimed batch; a cancelled context ends it. *)
Fixpoint process (ds : list Delivery) (settled : Z) : F Z :=
  match ds with
  | [] => retF settled
  | d :: ds =>
      run! cancelled <- ask (env_cancelled env) ;;
      if (cancelled : bool) then retF settled
      else
        run! done_ <- deliverOne d ;;
        process ds (if (done_ : bool) then settled + 1 else settled)
  end.

(** The claim: its error ends the tick. *)
Definition claim : F (res (list Delivery)) :=
  run! err <- ask (env_claim env) ;;
  match err with
  | Some err => retF (Err err)
  | None => fun w => (w, Ok (ClaimPendingDeliveries (op_batch p) (fw_outbox w)))
  end.

Definition ProcessPending : F (res Z) :=
  if negb (op_active p) then retF (Ok 0)
  else
    run! deliveries <- claim ;;
    match deliveries with
    | Err err => retF (Err err)
    | Ok deliveries => run! settled <- process deliveries 0 ;; retF (Ok settled)
    end.
End processor.
