(* ===== verification/OutboundForwardSafety.v ===== *)
(** What the outbound forwarder guarantees: attribution queues an event once and for
    its owner only, a post goes to the owner's endpoint only and is signed with the
    owner's secret, and every delivery has exactly one outcome, whatever the stores
    refuse. *)
From S2P Require Import Prelude GoStrings GoTime GoText Shared Tenants AuditTrail.
From S2P Require Import Settlement OutboundQueue OutboundWebhook OutboundForward.

Lemma bindF_inv {A B} (m : F A) (k : A -> F B) w w' b :
  bindF m k w = (w', b) -> exists w1 a, m w = (w1, a) /\ k a w1 = (w', b).
Proof. unfold bindF. destruct (m w) as [w1 a]. eauto. Qed.

(** Consulting the environment changes nothing but the count. *)
Definition same_but_time (w w' : FWorld) : Prop :=
  fw_outbox w' = fw_outbox w /\ fw_audit w' = fw_audit w /\ fw_posts w' = fw_posts w.

Lemma ask_inv {A} (f : nat -> A) w w' a :
  ask f w = (w', a) -> same_but_time w w' /\ a = f (fw_time w).
Proof. unfold ask. intros. by simplify_eq. Qed.

(** Run the next step of a computation. *)
Ltac next H :=
  let w := fresh "w" in let a := fresh "a" in let Hm := fresh "Hm" in
  apply bindF_inv in H; destruct H as (w & a & Hm & H); cbn beta in H.
Ltac next_ask H :=
  let w := fresh "w" in let a := fresh "a" in let Hm := fresh "Hm" in
  apply bindF_inv in H; destruct H as (w & a & Hm & H); cbn beta in H;
  apply ask_inv in Hm as [(? & ? & ?) ->].

(** A store call changes its store unless it was refused. *)
Definition unless {X} (failed : option error) (f : X -> X) (x : X) : X :=
  match failed with Some _ => x | None => f x end.

Lemma write_outbox failed f w w' r : store_call failed (on_outbox f) w = (w', r) ->
  fw_audit w' = fw_audit w /\ fw_posts w' = fw_posts w /\
  exists k, fw_outbox w' = unless (failed k) f (fw_outbox w).
Proof.
  unfold store_call. intros H. next_ask H. destruct (failed _) eqn:E; unfold retF, on_outbox in H; simplify_eq;
    cbn [fw_outbox fw_audit fw_posts]; (split_and!; [congruence..|]); exists (fw_time w);
    rewrite E; cbn [unless]; congruence.
Qed.
Lemma write_audit failed f w w' r : store_call failed (on_audit f) w = (w', r) ->
  fw_outbox w' = fw_outbox w /\ fw_posts w' = fw_posts w /\
  exists k, fw_audit w' = unless (failed k) f (fw_audit w).
Proof.
  unfold store_call. intros H. next_ask H. destruct (failed _) eqn:E; unfold retF, on_audit in H; simplify_eq;
    cbn [fw_outbox fw_audit fw_posts]; (split_and!; [congruence..|]); exists (fw_time w);
    rewrite E; cbn [unless]; congruence.
Qed.

(** A row is known by its id. *)
Lemma Outbox_ids_inj s x d : Outbox_ok s -> x ∈ ob_deliveries s -> d ∈ ob_deliveries s ->
  del_id x = del_id d -> x = d.
Proof.
  intros [_ _ Hids] Hx Hd E. apply list_elem_of_lookup in Hx as [i Hi], Hd as [j Hj].
  assert (i = j) as ->; [|congruence].
  eapply (NoDup_lookup (map del_id (ob_deliveries s)) i j (del_id d) Hids);
    rewrite list_lookup_fmap; [by rewrite Hi, <- E|by rewrite Hj].
Qed.

Section forward.
Context (p : OutboundProcessor) (env : Env).
Hypothesis ids_given : forall n, blank (env_id env n) = false.

(** A queued delivery, as [NewDelivery] makes it. *)
Record Delivery_ok (d : Delivery) : Prop := {
  ok_account : blank (del_accountID d) = false;
  ok_tenant : blank (del_tenantID d) = false;
  ok_event : blank (del_eventKey d) = false;
  ok_type : blank (del_eventType d) = false
}.

(** A post for [d] under the configuration [cfg]. *)
Definition addressed (d : Delivery) (cfg : Config) (m : post) : Prop :=
  post_url m = cfg_url cfg /\ post_idempotency m = del_eventKey d /\
  (exists now, post_body m = buildForwardBody d now) /\
  exists ts, post_timestamp m = FormatInt ts /\
             post_signature m = config_Sign cfg ts (post_body m).

Definition accepted_at (m : post) (n : nat) : bool :=
  match env_deliver env n m with
  | Ok status => (200 <=? status) && (status <? 300)
  | Err _ => false
  end.

(** The posts of one delivery: at most [max] and, when it was accepted, the last one
    was. *)
Definition attempted (d : Delivery) (cfg : Config) (max : nat) (ok : bool) (ms : list post)
    : Prop :=
  Forall (addressed d cfg) ms /\ (List.length ms <= max)%nat /\
  (ok = true -> exists m n, last ms = Some m /\ accepted_at m n = true).

Lemma backoff_inv attempt w w' delay :
  backoff p env attempt w = (w', delay) -> same_but_time w w'.
Proof.
  unfold backoff. intros H. next_ask H. unfold retF in H. simplify_eq. done.
Qed.

Lemma attempt_loop_posts fuel attempt d cfg now w w' ok :
  attempt_loop p env fuel attempt d cfg (buildForwardBody d now) w = (w', ok) ->
  fw_outbox w' = fw_outbox w /\ fw_audit w' = fw_audit w /\
  exists ms, fw_posts w' = (fw_posts w ++ ms)%list /\ attempted d cfg fuel ok ms.
Proof.
  revert attempt w. induction fuel as [|fuel IH]; intros attempt w H; simpl in H.
  { unfold retF in H. simplify_eq. split_and!; [done..|].
    exists []. rewrite app_nil_r. split; [done|]. by split_and!. }
  next_ask H. destruct (env_cancelled _ _).
  { unfold retF in H. simplify_eq. split_and!; [done..|].
    exists []. rewrite app_nil_r. split; [done|]. split_and!; [done|simpl; lia|done]. }
  next_ask H. set (m := {| post_url := _ |}) in *. next H. unfold send in Hm. simplify_eq.
  next_ask H. cbn [fw_outbox fw_audit fw_posts] in *.
  assert (Hm : addressed d cfg m) by (split_and!; [done|done|by eexists|by eexists]).
  assert (Hrec : forall att w1, attempt_loop p env fuel att d cfg (buildForwardBody d now) w1 = (w', ok) ->
    fw_outbox w1 = fw_outbox w -> fw_audit w1 = fw_audit w ->
    fw_posts w1 = (fw_posts w ++ [m])%list ->
    fw_outbox w' = fw_outbox w /\ fw_audit w' = fw_audit w /\
    exists ms, fw_posts w' = (fw_posts w ++ ms)%list /\ attempted d cfg (S fuel) ok ms).
  { intros att wl Hl E1 E2 E3. apply IH in Hl as (-> & -> & ms & -> & Hf & Hlen & Hlast).
    split_and!; [done..|]. exists (m :: ms). rewrite E3, <- app_assoc. split; [done|].
    split_and!; [by constructor|simpl; lia|].
    intros (m' & n & El & ?)%Hlast. exists m', n. split; [|done].
    destruct ms; [done|]. exact El. }
  destruct (match env_deliver _ _ _ with Ok _ => _ | Err _ => _ end) eqn:Ea.
  { unfold retF in H. simplify_eq. split_and!; [congruence..|].
    exists [m]. split; [congruence|]. split_and!; [by constructor|simpl; lia|].
    intros _. exists m. eexists. split; [done|exact Ea]. }
  destruct (attempt <? _); [|by eapply Hrec; [exact H|congruence..]].
  next H. apply backoff_inv in Hm0 as (? & ? & ?).
  next_ask H. destruct (env_sleep _ _ _); [by eapply Hrec; [exact H|congruence..]|].
  unfold retF in H. simplify_eq. split_and!; [congruence..|].
  exists [m]. split; [congruence|]. split_and!; [by constructor|simpl; lia|done].
Qed.

(** The effects of the three store calls. *)
Definition deleted (k : nat) (d : Delivery) : OutboundDeliveryStore -> OutboundDeliveryStore :=
  unless (env_delete env k (del_id d)) (DeleteDelivery (del_id d)).
Definition kept (k : nat) (dl : DeadLetter) : OutboundDeliveryStore -> OutboundDeliveryStore :=
  unless (env_dead env k dl) (store_DeadLetter dl).
Definition recorded (k : nat) (e : Entry) : list Entry -> list Entry :=
  unless (env_append env k e) (fun l => l ++ [e])%list.

(** The audit entry of an outcome. *)
Definition tells (action : Action) (d : Delivery) (e : Entry) : Prop :=
  entry_action e = action /\ entry_accountID e = TrimSpace (del_accountID d) /\
  entry_txID e = TrimSpace (del_eventKey d).

Lemma auditDelivery_inv action d w w' u :
  Delivery_ok d -> outboundDeliveryActionValid action = true ->
  auditDelivery env action d w = (w', u) ->
  fw_outbox w' = fw_outbox w /\ fw_posts w' = fw_posts w /\
  exists k e, fw_audit w' = recorded k e (fw_audit w) /\ tells action d e.
Proof.
  intros Hd Ha H. unfold auditDelivery in H. next_ask H. next_ask H.
  unfold NewOutboundDeliveryEntry, required_id, required_account, required in H.
  pose proof (ids_given (fw_time w)) as Hid. pose proof (ok_account d Hd) as Hacc.
  unfold blank in Hid, Hacc. rewrite Hid, Ha, Hacc in H. cbn [negb] in H.
  next H. apply write_audit in Hm as (? & ? & k & Ek). unfold retF in H. simplify_eq.
  split_and!; [congruence..|]. exists k. eexists. split.
  - rewrite Ek. unfold recorded.
    repeat match goal with E : fw_audit _ = fw_audit _ |- _ => rewrite E; clear E end. reflexivity.
  - done.
Qed.

Lemma dead_letter_made id d reason now :
  Delivery_ok d -> blank id = false ->
  reason = ReasonEndpointInactive \/ reason = ReasonDeliveryExhausted ->
  exists dl, DeadLetterFromDelivery id d reason now = Ok dl /\ dl_reason dl = reason /\
    dl_tenantID dl = TrimSpace (del_tenantID d) /\ dl_eventKey dl = TrimSpace (del_eventKey d).
Proof.
  intros [_ Ht He Hy] Hid Hr. unfold DeadLetterFromDelivery, NewDeadLetter.
  unfold blank in *. rewrite Hid, Ht, He, Hy.
  destruct Hr as [->| ->]; eexists; (split; [reflexivity|done]).
Qed.

(** The four outcomes of one delivery; each store call may have been refused. *)
Inductive delivery_outcome (d : Delivery) (w w' : FWorld) : bool -> Prop :=
| left_queued
    (Eo : fw_outbox w' = fw_outbox w) (Ea : fw_audit w' = fw_audit w)
    (Ep : fw_posts w' = fw_posts w) : delivery_outcome d w w' false
| no_endpoint n err k
    (Hc : env_config env n (del_accountID d) = Err err) (He : errors_Is err ErrNotFound = true)
    (Eo : fw_outbox w' = deleted k d (fw_outbox w))
    (Ea : fw_audit w' = fw_audit w) (Ep : fw_posts w' = fw_posts w) : delivery_outcome d w w' true
| delivered n cfg ms k1 k2 e
    (Hc : env_config env n (del_accountID d) = Ok cfg) (Hen : cfg_enabled cfg = true)
    (Ep : fw_posts w' = (fw_posts w ++ ms)%list)
    (Hms : attempted d cfg (Z.to_nat (op_maxAttempts p)) true ms)
    (Eo : fw_outbox w' = deleted k1 d (fw_outbox w))
    (Ea : fw_audit w' = recorded k2 e (fw_audit w))
    (He : tells ActionOutboundWebhookDelivered d e) : delivery_outcome d w w' true
| parked n cfg ms dl e k1 k2 k3
    (Hc : env_config env n (del_accountID d) = Ok cfg)
    (Hen : cfg_enabled cfg = false -> ms = [])
    (Ep : fw_posts w' = (fw_posts w ++ ms)%list)
    (Hms : attempted d cfg (Z.to_nat (op_maxAttempts p)) false ms)
    (Hdl : dl_tenantID dl = TrimSpace (del_tenantID d) /\
           dl_eventKey dl = TrimSpace (del_eventKey d))
    (Hr : dl_reason dl = if cfg_enabled cfg then ReasonDeliveryExhausted
                         else ReasonEndpointInactive)
    (Eo : fw_outbox w' = deleted k2 d (kept k1 dl (fw_outbox w)))
    (Ea : fw_audit w' = recorded k3 e (fw_audit w))
    (He : tells ActionOutboundWebhookDeadLettered d e) : delivery_outcome d w w' true.

Lemma parkAndSettle_inv d reason w w' r :
  Delivery_ok d -> reason = ReasonEndpointInactive \/ reason = ReasonDeliveryExhausted ->
  parkAndSettle env d reason w = (w', r) ->
  r = true /\ fw_posts w' = fw_posts w /\ exists dl e k1 k2 k3,
    dl_reason dl = reason /\ dl_tenantID dl = TrimSpace (del_tenantID d) /\
    dl_eventKey dl = TrimSpace (del_eventKey d) /\
    fw_outbox w' = deleted k2 d (kept k1 dl (fw_outbox w)) /\
    fw_audit w' = recorded k3 e (fw_audit w) /\ tells ActionOutboundWebhookDeadLettered d e.
Proof.
  intros Hd Hr H. unfold parkAndSettle in H. next_ask H. next_ask H.
  destruct (dead_letter_made _ d reason (env_now env (fw_time w0)) Hd (ids_given (fw_time w)) Hr)
    as (dl & Edl & ? & ? & ?). rewrite Edl in H.
  next H. apply write_outbox in Hm as (? & ? & k1 & Ek1).
  next H. apply write_outbox in Hm as (? & ? & k2 & Ek2).
  next H. apply auditDelivery_inv in Hm as (Eo & Ep & k3 & e & Ea & ?); [|done|done].
  unfold retF in H. simplify_eq. split_and!; [done|congruence|].
  exists dl, e, k1, k2, k3. split_and!; try done; unfold deleted, kept; congruence.
Qed.

Lemma deliverOne_outcome d w w' r :
  Delivery_ok d -> deliverOne p env d w = (w', r) -> delivery_outcome d w w' r.
Proof.
  intros Hd H. unfold deliverOne in H. next_ask H.
  destruct (env_config env _ _) as [cfg|e] eqn:Ec.
  - destruct (cfg_enabled cfg) eqn:Een; cbn [negb] in H.
    + next_ask H. destruct (env_wait _ _ _); cbn [negb] in H;
        [|unfold retF in H; simplify_eq; apply left_queued; congruence].
      next_ask H. next H. unfold attemptDelivery in Hm.
      apply attempt_loop_posts in Hm as (Eo & Ea & ms & Ep & Hms).
      destruct a.
      * unfold settleDelivered in H. next H. apply write_outbox in Hm as (? & ? & k1 & Ek1).
        next H. apply auditDelivery_inv in Hm as (? & ? & k2 & e & Ee & ?); [|done|done].
        unfold retF in H. simplify_eq.
        eapply (delivered _ _ _ _ cfg ms k1 k2 e); [done|done|congruence|done| |congruence|done].
        unfold deleted. congruence.
      * apply parkAndSettle_inv in H as (-> & ? & dl & e & k1 & k2 & k3 & ? & ? & ? & ? & ? & ?);
          [|done|by right].
        eapply (parked _ _ _ _ cfg ms dl e k1 k2 k3); [done|congruence|congruence|done|done|
          by rewrite Een|congruence..|done].
    + apply parkAndSettle_inv in H as (-> & ? & dl & e & k1 & k2 & k3 & ? & ? & ? & ? & ? & ?);
        [|done|by left].
      eapply (parked _ _ _ _ cfg [] dl e k1 k2 k3); [done|done|rewrite app_nil_r; congruence| |done|
        by rewrite Een|congruence..|done].
      split_and!; [done|simpl; lia|done].
  - destruct (errors_Is e _) eqn:Ee.
    + unfold settleNoConfig in H. next H. apply write_outbox in Hm as (? & ? & k & Ek).
      unfold retF in H. simplify_eq.
      eapply (no_endpoint _ _ _ _ _ k); [done|done| |congruence..]. unfold deleted. congruence.
    + unfold retF in H. simplify_eq. apply left_queued; congruence.
Qed.

(** A post made for a delivery of [ds], to the endpoint configured for its account. *)
Definition posted_for (ds : list Delivery) (m : post) : Prop :=
  exists d cfg n, d ∈ ds /\ env_config env n (del_accountID d) = Ok cfg /\
    cfg_enabled cfg = true /\ addressed d cfg m.

Lemma attempted_posted d cfg n max ok ms :
  env_config env n (del_accountID d) = Ok cfg -> (cfg_enabled cfg = false -> ms = []) ->
  attempted d cfg max ok ms -> Forall (posted_for [d]) ms /\ (List.length ms <= max)%nat.
Proof.
  intros Hc Hen (Hf & Hlen & _). split; [|done].
  destruct (cfg_enabled cfg) eqn:E; [|by rewrite Hen].
  eapply Forall_impl; [exact Hf|]. intros m Hm. exists d, cfg, n.
  split_and!; [by left|done..].
Qed.

(** The engine deletes what it is asked to. *)
Definition deletes : Prop := forall k id, env_delete env k id = None.

(** The queue after an outcome: the row is gone, or its deletion was refused. *)
Lemma deleted_rows k d s : Outbox_ok s -> d ∈ ob_deliveries s ->
  exists gone : bool, (deletes -> gone = true) /\ Outbox_ok (deleted k d s) /\
  (forall x, x ∈ ob_deliveries (deleted k d s) <->
             x ∈ ob_deliveries s /\ (gone = true -> del_id x <> del_id d)) /\
  (List.length (ob_deliveries (deleted k d s)) + (if gone then 1 else 0) =
     List.length (ob_deliveries s))%nat.
Proof.
  intros Hok Hd. unfold deleted. destruct (env_delete env k (del_id d)) eqn:E; cbn [unless].
  - exists false. split_and!; [intros H; by rewrite H in E|done| |lia]. intros x. split; [by split|tauto].
  - exists true. pose proof (Delete_length _ _ Hd). split_and!; [done|by apply Delete_ok| |lia].
    intros x. rewrite Delete_spec by done. intuition.
Qed.

Lemma kept_rows k dl s : Outbox_ok s ->
  Outbox_ok (kept k dl s) /\ ob_deliveries (kept k dl s) = ob_deliveries s.
Proof.
  intros Hok. unfold kept. destruct (env_dead env k dl); cbn [unless]; [done|].
  split; [by apply DeadLetter_ok|by apply (DeadLetter_deliveries dl s)].
Qed.

(** What any outcome does to the queue. *)
Lemma outcome_step d w w' r :
  delivery_outcome d w w' r -> Outbox_ok (fw_outbox w) -> d ∈ ob_deliveries (fw_outbox w) ->
  exists gone : bool, (gone = true -> r = true) /\ (deletes -> r = true -> gone = true) /\
  Outbox_ok (fw_outbox w') /\
  (forall x, x ∈ ob_deliveries (fw_outbox w') <->
             x ∈ ob_deliveries (fw_outbox w) /\ (gone = true -> del_id x <> del_id d)) /\
  (List.length (ob_deliveries (fw_outbox w')) + (if gone then 1 else 0) =
     List.length (ob_deliveries (fw_outbox w)))%nat /\
  exists ms, fw_posts w' = (fw_posts w ++ ms)%list /\ Forall (posted_for [d]) ms /\
    (List.length ms <= Z.to_nat (op_maxAttempts p))%nat.
Proof.
  intros Ho Hok Hd.
  assert (Hnone : exists ms : list post, fw_posts w = (fw_posts w ++ ms)%list /\
            Forall (posted_for [d]) ms /\ (List.length ms <= Z.to_nat (op_maxAttempts p))%nat).
  { exists []. rewrite app_nil_r. split_and!; [done..|simpl; lia]. }
  destruct Ho; rewrite Eo, ?Ep.
  - exists false. split_and!; [done..| |lia|done]. intros x. split; [by split|tauto].
  - destruct (deleted_rows k d _ Hok Hd) as (gone & ? & ? & ? & ?). exists gone.
    split_and!; [done|by intros ? _; auto|done..].
  - destruct (deleted_rows k1 d _ Hok Hd) as (gone & ? & ? & ? & ?). exists gone.
    eapply attempted_posted in Hms as [? ?]; [|done|congruence].
    split_and!; [done|by intros ? _; auto|done..|by exists ms].
  - destruct (kept_rows k1 dl _ Hok) as [Hok1 Ek]. rewrite <- Ek in Hd |- *.
    destruct (deleted_rows k2 d _ Hok1 Hd) as (gone & ? & ? & ? & ?). exists gone.
    eapply attempted_posted in Hms as [? ?]; [|done..].
    split_and!; [done|by intros ? _; auto|done..|by exists ms].
Qed.

Lemma process_inv ds settled w w' n :
  process p env ds settled w = (w', n) ->
  Outbox_ok (fw_outbox w) -> NoDup (map del_id ds) -> Forall Delivery_ok ds ->
  (forall d, d ∈ ds -> d ∈ ob_deliveries (fw_outbox w)) ->
  Outbox_ok (fw_outbox w') /\
  (forall x, x ∈ ob_deliveries (fw_outbox w') -> x ∈ ob_deliveries (fw_outbox w)) /\
  (forall x, x ∈ ob_deliveries (fw_outbox w) -> x ∉ ds -> x ∈ ob_deliveries (fw_outbox w')) /\
  (exists refused : nat, (deletes -> refused = O) /\
    Z.of_nat (List.length (ob_deliveries (fw_outbox w'))) + (n - settled) =
      Z.of_nat (List.length (ob_deliveries (fw_outbox w))) + Z.of_nat refused) /\
  exists ms, fw_posts w' = (fw_posts w ++ ms)%list /\ Forall (posted_for ds) ms /\
    (List.length ms <= List.length ds * Z.to_nat (op_maxAttempts p))%nat.
Proof.
  revert settled w. induction ds as [|d ds IH]; intros settled w H Hok Hnd Hall Hin; simpl in H.
  { unfold retF in H. simplify_eq. split_and!; try done; [exists O; split; [done|lia]|].
    exists []. rewrite app_nil_r. split_and!; [done..|simpl; lia]. }
  next_ask H. destruct (env_cancelled _ _).
  { unfold retF in H. simplify_eq. rewrite H0, H2. split_and!; try done; [exists O; split; [done|lia]|].
    exists []. rewrite app_nil_r. split_and!; [done..|simpl; lia]. }
  next H. apply Forall_cons in Hall as [Hd Hall]. simpl in Hnd.
  apply NoDup_cons in Hnd as [Hnew Hnd].
  apply deliverOne_outcome in Hm; [|done].
  apply outcome_step in Hm as (gone & Hgone & Hdel & Hok1 & Hrows & Hlen & ms & Ep & Hms & Hn);
    rewrite ?H0 in *; [|done|by apply Hin; left].
  apply IH in H as (Hok' & Hsub & Hkeep & (refused & Href & Hlen') & ms' & Ep' & Hms' & Hn'); [|done..|].
  - split_and!; [done| | | |].
    + intros x Hx. by apply Hrows, Hsub.
    + intros x Hx Hni. apply not_elem_of_cons in Hni as [Hne Hni]. apply Hkeep; [|done].
      apply Hrows. split; [done|]. intros _ E. apply Hne.
      eapply (Outbox_ids_inj (fw_outbox w)); [done|done|by apply Hin; left|done].
    + exists (refused + (if a then if gone then 0 else 1 else 0))%nat. split.
      * intros HD. rewrite Href by done. destruct a; [by rewrite Hdel|done].
      * destruct a, gone; try lia.
    + exists (ms ++ ms')%list. rewrite Ep', Ep, H2, app_assoc. split; [done|]. split.
      * apply Forall_app. split; (eapply Forall_impl; [eassumption|]).
        -- intros m (x & cfg & k & Hx & ?). apply list_elem_of_singleton in Hx as ->.
           exists d, cfg, k. split; [by left|done].
        -- intros m (x & cfg & k & ? & ?). exists x, cfg, k. split; [by right|done].
      * rewrite length_app. simpl. lia.
  - intros x Hx. apply Hrows. split; [apply Hin; by right|]. intros _ E. apply Hnew.
    rewrite <- E. by apply (list_elem_of_fmap_2 del_id).
Qed.

(** The context is live, the limiter lets through and the configuration can be read. *)
Definition live : Prop :=
  (forall n, env_cancelled env n = false) /\ (forall n a, env_wait env n a = true) /\
  (forall n a e, env_config env n a = Err e -> errors_Is e ErrNotFound = true).

Lemma deliverOne_live d w w' r :
  live -> Delivery_ok d -> deliverOne p env d w = (w', r) -> r = true.
Proof.
  intros (_ & Hw & Hc) Hd H. unfold deliverOne in H. next_ask H.
  destruct (env_config env _ _) as [cfg|e] eqn:Ec.
  - destruct (cfg_enabled cfg); cbn [negb] in H;
      [|by apply parkAndSettle_inv in H as [-> _]; [|done|left]].
    next_ask H. rewrite Hw in H. cbn [negb] in H. next_ask H. next H.
    destruct a; [|by apply parkAndSettle_inv in H as [-> _]; [|done|right]].
    unfold settleDelivered in H. next H. next H. unfold retF in H. by simplify_eq.
  - rewrite (Hc _ _ _ Ec) in H. unfold settleNoConfig in H. next H. unfold retF in H.
    by simplify_eq.
Qed.

Lemma process_live ds settled w w' n :
  live -> Forall Delivery_ok ds -> process p env ds settled w = (w', n) ->
  n = settled + Z.of_nat (List.length ds).
Proof.
  intros Hl. revert settled w. induction ds as [|d ds IH]; intros settled w Hall H; simpl in H.
  { unfold retF in H. simplify_eq. simpl. lia. }
  apply Forall_cons in Hall as [Hd Hall]. next_ask H. rewrite (proj1 Hl) in H.
  next H. apply deliverOne_live in Hm as ->; [|done..]. apply IH in H as ->; [|done].
  simpl. lia.
Qed.

Lemma claimed_facts s :
  Outbox_ok s ->
  let ds := ClaimPendingDeliveries (op_batch p) s in
  NoDup (map del_id ds) /\ (forall d, d ∈ ds -> d ∈ ob_deliveries s /\ is_pending d = true) /\
  (List.length ds <= Z.to_nat (op_batch p))%nat.
Proof.
  intros [_ _ Hids]. unfold ClaimPendingDeliveries. destruct (Z.leb_spec (op_batch p) 0).
  { split_and!; [constructor|by intros ? ?%elem_of_nil|simpl; lia]. }
  cbn zeta. set (f := List.filter is_pending (ob_deliveries s)).
  assert (Hf : NoDup (map del_id f)).
  { unfold f. clear -Hids. induction (ob_deliveries s) as [|d l IH]; simpl; [constructor|].
    apply NoDup_cons in Hids as [Hn Hids]. destruct (is_pending d); [|auto]. simpl.
    apply NoDup_cons. split; [|auto]. intros Hx. apply Hn.
    apply list_elem_of_fmap in Hx as (x & -> & Hx). apply (list_elem_of_fmap_2 del_id).
    apply list_elem_of_In, filter_In in Hx as [? _]. by apply list_elem_of_In. }
  split_and!.
  - rewrite <- (take_drop (Z.to_nat (op_batch p)) f), map_app in Hf.
    by apply NoDup_app in Hf as [? _].
  - intros d Hd. apply elem_of_take in Hd as (i & Hi & _).
    apply list_elem_of_lookup_2, list_elem_of_In, filter_In in Hi as [Hi ?].
    split; [by apply list_elem_of_In|done].
  - rewrite length_take. lia.
Qed.

(** C35. One tick of an active forwarder over a well-formed outbox (distinct row ids, rows
    as [NewDelivery] makes them, non-blank generated ids) is safe, whatever the
    configuration store, the limiter, the receivers, the clock and the context do and
    whichever claim, deletion, dead-letter write or audit append the stores refuse: every
    post it makes goes to the enabled endpoint configured for the account of some claimed
    pending delivery, carries that delivery's fields and is signed with that endpoint's
    secret over exactly the body sent; there are at most batch times maxAttempts posts; a
    refused claim ends the tick with its error, nothing sent and nothing changed; the rows
    gone from the outbox are claimed ones, the other rows stay, and the rows gone are as
    many as reported settled less the deletions refused.  When the context stays live, the
    limiter lets through and the configuration can be read, every claimed delivery is
    settled, and when no deletion is refused either, every one of them has left the outbox. *)
Theorem forward_tick w w' r (Ha : op_active p = true)
    (Hok : Outbox_ok (fw_outbox w)) (Hds : Forall Delivery_ok (ob_deliveries (fw_outbox w)))
    (HP : ProcessPending p env w = (w', r)) :
  let ds := ClaimPendingDeliveries (op_batch p) (fw_outbox w) in
  match r with
  | Err err => env_claim env (fw_time w) = Some err /\ same_but_time w w'
  | Ok n =>
      (exists ms, fw_posts w' = (fw_posts w ++ ms)%list /\ Forall (posted_for ds) ms /\
         (List.length ms <= Z.to_nat (op_batch p) * Z.to_nat (op_maxAttempts p))%nat) /\
      Outbox_ok (fw_outbox w') /\
      (forall d, d ∈ ob_deliveries (fw_outbox w') -> d ∈ ob_deliveries (fw_outbox w)) /\
      (forall d, d ∈ ob_deliveries (fw_outbox w) -> d ∉ ds -> d ∈ ob_deliveries (fw_outbox w')) /\
      (exists refused : nat, (deletes -> refused = O) /\
         Z.of_nat (List.length (ob_deliveries (fw_outbox w'))) + n =
           Z.of_nat (List.length (ob_deliveries (fw_outbox w))) + Z.of_nat refused) /\
      (live -> n = Z.of_nat (List.length ds))
  end.
Proof.
  intros ds. unfold ProcessPending in HP. rewrite Ha in HP. cbn [negb] in HP.
  next HP. unfold claim in Hm. next_ask Hm. destruct (env_claim env (fw_time w)) as [err|] eqn:Ec.
  { unfold retF in Hm, HP. simplify_eq. by split. }
  simplify_eq. rewrite H in *. next HP. unfold retF in HP. simplify_eq. fold ds in Hm.
  destruct (claimed_facts (fw_outbox w) Hok) as (Hnd & Hin & Hlen). fold ds in Hnd, Hin, Hlen.
  assert (Hall : Forall Delivery_ok ds).
  { apply Forall_forall. intros d Hd. rewrite Forall_forall in Hds. by apply Hds, (Hin d). }
  destruct (process_inv ds 0 _ _ _ Hm) as (Hok' & Hsub & Hkeep & (k & Hk & Hcount) & ms & Ep & Hms & Hn);
    rewrite ?H in *; [done..|by intros d Hd; apply Hin|].
  rewrite H1 in Ep.
  split_and!; [exists ms; split_and!; [done..|nia]|done..|exists k; split; [done|lia]|].
  intros Hl. by rewrite (process_live ds 0 _ _ _ Hl Hall Hm).
Qed.

(** Every delivery the forwarder takes has exactly one recorded outcome: it stays
    queued with nothing sent and nothing written (the configuration could not be
    read, or the limiter was interrupted); its account has no endpoint and it leaves
    the queue silently; it was accepted, its last post answered 2xx, and it leaves
    with one delivered audit entry; or it leaves parked as a dead letter with one
    dead-letter audit entry, under the reason of a disabled endpoint (then nothing
    was sent) or of exhausted attempts.  A deletion, dead-letter write or audit append
    the stores refuse is skipped and the outcome is the same. *)
Theorem forward_outcome d w (Hd : Delivery_ok d) :
  exists r, delivery_outcome d w (deliverOne p env d w).1 r /\
            (deliverOne p env d w).2 = r.
Proof.
  destruct (deliverOne p env d w) as [w' r] eqn:E. exists r. split; [|done].
  by apply deliverOne_outcome.
Qed.
End forward.

(** * Concrete runs *)
Definition t0 : Time := {| ns := 1700000000 * nsec; loc := UTC_loc |}.
Definition sample_delivery_row : Delivery :=
  RehydrateDelivery "d1" "acc" "ten" "tx1|pix|" "tx1" "payment.paid" DeliveryPending t0
    {| detail_AmountCents := 1050; detail_Installments := 0; detail_Message := "" |}.
Definition sample_outbox : OutboundDeliveryStore :=
  EnqueueDelivery sample_delivery_row NewOutboundDeliveryStore.
Definition sample_processor : OutboundProcessor := NewOutboundProcessor true 0 0 0 0.
Definition sample_config : Config :=
  config_Rehydrate "acc" "https://acc.example/hook" "whsec_s" true t0 t0.
(** The receiver answers [status]; the context is cancelled from consultation [c] on. *)
Definition sample_env (c : nat) (status : Z) : Env :=
  {| env_cancelled := fun n => Nat.leb c n; env_now := fun _ => t0; env_id := fun _ => "id";
     env_config := fun _ a => if bool_decide (a = "acc") then Ok sample_config else Err ErrNotFound;
     env_wait := fun _ _ => true; env_deliver := fun _ _ => Ok status;
     env_sleep := fun _ _ => true; env_jitter := fun _ half => half / 2;
     env_claim := fun _ => None; env_delete := fun _ _ => None; env_dead := fun _ _ => None;
     env_append := fun _ _ => None |}.
Definition sample_fworld : FWorld :=
  {| fw_outbox := sample_outbox; fw_audit := []; fw_posts := []; fw_time := 0 |}.

Lemma sample_outbox_ok : Outbox_ok sample_outbox.
Proof. apply Enqueue_ok; [|apply not_elem_of_nil]. split; [constructor|set_solver|constructor]. Qed.

Lemma forward_tick_witness :
  let '(w, r) := ProcessPending sample_processor (sample_env 100 200) sample_fworld in
  r = Ok 1 /\ ob_deliveries (fw_outbox w) = [].
Proof.
  destruct (ProcessPending sample_processor (sample_env 100 200) sample_fworld) as [w' r] eqn:E.
  pose proof (forward_tick sample_processor (sample_env 100 200) (fun _ => eq_refl)
    sample_fworld w' r eq_refl sample_outbox_ok) as H. cbv zeta in H.
  assert (Hr : r = Ok 1) by (apply (f_equal snd) in E; vm_compute in E; congruence). subst r.
  destruct H as (_ & _ & _ & _ & (k & Hk & Hlen) & _); [by apply Forall_singleton; split|exact E|].
  rewrite (Hk (fun _ _ => eq_refl)) in Hlen. split; [reflexivity|].
  change (List.length (ob_deliveries (fw_outbox sample_fworld))) with 1%nat in Hlen.
  destruct (ob_deliveries (fw_outbox w')); [reflexivity|cbn [List.length] in Hlen; lia].
Defined.

Lemma forward_outcome_witness :
  exists r, (deliverOne sample_processor (sample_env 100 500) sample_delivery_row sample_fworld).2 = r.
Proof.
  destruct (forward_outcome sample_processor (sample_env 100 500) (fun _ => eq_refl)
    sample_delivery_row sample_fworld) as (r & _ & Hr); [by split|]. by exists r.
Defined.

(** Shutting down mid-delivery loses the event: when the context is cancelled
    after the limiter let a delivery through, the attempt loop gives up before its
    first post, and the delivery is parked as delivery_exhausted, removed from the
    outbox and reported settled, although nothing was ever sent to its healthy
    endpoint. *)
Theorem cancelled_forward_dead_letters :
  let '(w, n) := ProcessPending sample_processor (sample_env 5 200) sample_fworld in
  n = Ok 1 /\ fw_posts w = [] /\ ob_deliveries (fw_outbox w) = [] /\
  map dl_reason (ob_deadLetters (fw_outbox w)) = [ReasonDeliveryExhausted] /\
  map entry_action (fw_audit w) = [ActionOutboundWebhookDeadLettered].
Proof. vm_compute. repeat split. Qed.

(** The stores of [sample_env] with their refusals. *)
Definition refusing (claim_ delete_ dead_ : option error) (status : Z) : Env :=
  let e := sample_env 100 status in
  {| env_cancelled := env_cancelled e; env_now := env_now e; env_id := env_id e;
     env_config := env_config e; env_wait := env_wait e; env_deliver := env_deliver e;
     env_sleep := env_sleep e; env_jitter := env_jitter e;
     env_claim := fun _ => claim_; env_delete := fun _ _ => delete_;
     env_dead := fun _ _ => dead_; env_append := env_append e |}.
Definition disk_full : error := New "disk full".

(** A tick whose claim is refused reports it; one whose deletion is refused counts the
    delivery settled and leaves its row, so the next tick posts the event a second time,
    under the same idempotency key. *)
Example refused_claim :
  (ProcessPending sample_processor (refusing (Some disk_full) None None 200) sample_fworld).2
    = Err disk_full.
Proof. reflexivity. Qed.
Example refused_deletion_posts_twice :
  let '(w1, r1) := ProcessPending sample_processor (refusing None (Some disk_full) None 200) sample_fworld in
  let '(w2, r2) := ProcessPending sample_processor (sample_env 100 200) w1 in
  r1 = Ok 1 /\ r2 = Ok 1 /\ map post_idempotency (fw_posts w2) = ["tx1|pix|"; "tx1|pix|"] /\
  map entry_action (fw_audit w2) = [ActionOutboundWebhookDelivered; ActionOutboundWebhookDelivered] /\
  ob_deliveries (fw_outbox w2) = [].
Proof. vm_compute. repeat split. Qed.

(** An event whose dead letter cannot be written is removed from the outbox all the same:
    no post reached its endpoint and no row of either table remembers it. *)
Theorem refused_dead_letter_drops_event :
  let '(w, r) := ProcessPending sample_processor (refusing None None (Some disk_full) 500) sample_fworld in
  r = Ok 1 /\ ob_deliveries (fw_outbox w) = [] /\ ob_deadLetters (fw_outbox w) = [] /\
  map entry_action (fw_audit w) = [ActionOutboundWebhookDeadLettered].
Proof. vm_compute. repeat split. Qed.
