(* ===== verification/OutboundGuard.v ===== *)
(** internal/adapters/outbound: which resolved addresses the forwarder may dial
    (ssrfguard.go), the forwarder itself with its one request (forwarder.go) and the token
    buckets that pace each account (limiter.go).  The methods of net.IP are those of Go's
    standard library. *)
From S2P Require Import Prelude GoStrings GoTime GoFloat Shared BankTransport.

(** * net.IP: a slice of bytes, nil included *)
Notation IP := (list Z) (only parsing).
Definition v4InV6Prefix : IP := [0; 0; 0; 0; 0; 0; 0; 0; 0; 0; 255; 255].
Definition IPv4 (a b c d : Z) : IP := (v4InV6Prefix ++ [a; b; c; d])%list.
Definition IPv4zero : IP := IPv4 0 0 0 0.
Definition IPv4bcast : IP := IPv4 255 255 255 255.
Definition IPv6unspecified : IP := repeat 0 16.
Definition IPv6loopback : IP := (repeat 0 15 ++ [1])%list.

Definition byte_at (ip : IP) (i : nat) : Z := nth i ip 0.
Definition len_is (ip : IP) (n : nat) : bool := Nat.eqb (List.length ip) n.

Definition To4 (ip : IP) : option IP :=
  if len_is ip 4 then Some ip
  else if len_is ip 16 && bool_decide (take 12 ip = v4InV6Prefix) then Some (drop 12 ip)
  else None.

Definition Equal (ip x : IP) : bool :=
  if Nat.eqb (List.length ip) (List.length x) then bool_decide (ip = x)
  else if len_is ip 4 && len_is x 16
  then bool_decide (take 12 x = v4InV6Prefix) && bool_decide (ip = drop 12 x)
  else if len_is ip 16 && len_is x 4
  then bool_decide (take 12 ip = v4InV6Prefix) && bool_decide (drop 12 ip = x)
  else false.

Definition IsUnspecified (ip : IP) : bool := Equal ip IPv4zero || Equal ip IPv6unspecified.

(** The classifiers look at the IPv4 form when there is one. *)
Definition classified (ip : IP) (v4 v6 : IP -> bool) : bool :=
  match To4 ip with Some ip4 => v4 ip4 | None => v6 ip end.

Definition IsLoopback (ip : IP) : bool :=
  classified ip (fun ip4 => byte_at ip4 0 =? 127) (fun ip => Equal ip IPv6loopback).
Definition IsPrivate (ip : IP) : bool :=
  classified ip
    (fun ip4 => (byte_at ip4 0 =? 10)
       || ((byte_at ip4 0 =? 172) && (Z.land (byte_at ip4 1) 0xf0 =? 16))
       || ((byte_at ip4 0 =? 192) && (byte_at ip4 1 =? 168)))
    (fun ip => len_is ip 16 && (Z.land (byte_at ip 0) 0xfe =? 0xfc)).
Definition IsMulticast (ip : IP) : bool :=
  classified ip (fun ip4 => Z.land (byte_at ip4 0) 0xf0 =? 0xe0)
    (fun ip => len_is ip 16 && (byte_at ip 0 =? 0xff)).
Definition IsInterfaceLocalMulticast (ip : IP) : bool :=
  len_is ip 16 && (byte_at ip 0 =? 0xff) && (Z.land (byte_at ip 1) 0x0f =? 0x01).
Definition IsLinkLocalMulticast (ip : IP) : bool :=
  classified ip
    (fun ip4 => (byte_at ip4 0 =? 224) && (byte_at ip4 1 =? 0) && (byte_at ip4 2 =? 0))
    (fun ip => len_is ip 16 && (byte_at ip 0 =? 0xff) && (Z.land (byte_at ip 1) 0x0f =? 0x02)).
Definition IsLinkLocalUnicast (ip : IP) : bool :=
  classified ip (fun ip4 => (byte_at ip4 0 =? 169) && (byte_at ip4 1 =? 254))
    (fun ip => len_is ip 16 && (byte_at ip 0 =? 0xfe) && (Z.land (byte_at ip 1) 0xc0 =? 0x80)).
Definition IsGlobalUnicast (ip : IP) : bool :=
  (len_is ip 4 || len_is ip 16) && negb (Equal ip IPv4bcast) && negb (IsUnspecified ip)
  && negb (IsLoopback ip) && negb (IsMulticast ip) && negb (IsLinkLocalUnicast ip).

(** net.IPNet: a network of 16-byte addresses that is not an IPv4 one. *)
Record IPNet := { net_IP : IP; net_Mask : IP }.
Definition CIDRMask (ones bits : Z) : IP :=
  map (fun i => let n := Z.max 0 (Z.min 8 (ones - 8 * Z.of_nat i)) in 256 - 2 ^ (8 - n))
    (seq 0 (Z.to_nat (bits / 8))).
Definition Contains (n : IPNet) (ip : IP) : bool :=
  let ip := default ip (To4 ip) in
  Nat.eqb (List.length ip) (List.length (net_IP n))
  && forallb (fun '(b, m, x) => Z.land b m =? Z.land x m)
       (zip (zip (net_IP n) (net_Mask n)) ip).

(** * The guard *)
Definition ErrBlockedDestination : error := New "outbound webhook destination not allowed".

Definition nat64Prefix : IPNet :=
  {| net_IP := [0x00; 0x64; 0xff; 0x9b; 0; 0; 0; 0; 0; 0; 0; 0; 0; 0; 0; 0];
     net_Mask := CIDRMask 96 128 |}.

Definition CheckIP (ip : IP) : res unit :=
  refuse (bool_decide (ip = [])) with ErrBlockedDestination ;;
  let ip := match To4 ip with Some v4 => v4 | None => ip end in
  refuse (IsUnspecified ip) with ErrBlockedDestination ;;
  refuse (IsLoopback ip) with ErrBlockedDestination ;;
  refuse (IsPrivate ip) with ErrBlockedDestination ;;
  refuse (IsLinkLocalUnicast ip) with ErrBlockedDestination ;;
  refuse (IsLinkLocalMulticast ip) with ErrBlockedDestination ;;
  refuse (IsMulticast ip) with ErrBlockedDestination ;;
  refuse (IsInterfaceLocalMulticast ip) with ErrBlockedDestination ;;
  refuse (Equal ip IPv4bcast) with ErrBlockedDestination ;;
  refuse (Contains nat64Prefix ip) with ErrBlockedDestination ;;
  refuse (negb (IsGlobalUnicast ip)) with ErrBlockedDestination ;;
  Ok tt.

(** * Address blocks *)
(** The number an address denotes, and CIDR blocks of [width]-bit numbers. *)
Definition value (ip : IP) : Z := of_digits 256 ip.
Record block := { bl_base : Z; bl_len : Z }.
Definition in_block (width v : Z) (b : block) : bool :=
  Z.shiftr v (width - bl_len b) =? Z.shiftr (bl_base b) (width - bl_len b).

Definition refused4 : list block :=
  [ {| bl_base := 0; bl_len := 32 |};                       (* 0.0.0.0 *)
    {| bl_base := 127 * 2 ^ 24; bl_len := 8 |};             (* 127.0.0.0/8 *)
    {| bl_base := 10 * 2 ^ 24; bl_len := 8 |};              (* 10.0.0.0/8 *)
    {| bl_base := 172 * 2 ^ 24 + 16 * 2 ^ 16; bl_len := 12 |};
    {| bl_base := 192 * 2 ^ 24 + 168 * 2 ^ 16; bl_len := 16 |};
    {| bl_base := 169 * 2 ^ 24 + 254 * 2 ^ 16; bl_len := 16 |};
    {| bl_base := 224 * 2 ^ 24; bl_len := 4 |};             (* multicast *)
    {| bl_base := 2 ^ 32 - 1; bl_len := 32 |} ].            (* broadcast *)
Definition refused6 : list block :=
  [ {| bl_base := 0; bl_len := 128 |};                      (* :: *)
    {| bl_base := 1; bl_len := 128 |};                      (* ::1 *)
    {| bl_base := 0xfc * 2 ^ 120; bl_len := 7 |};           (* fc00::/7 *)
    {| bl_base := 0xfe80 * 2 ^ 112; bl_len := 10 |};        (* fe80::/10 *)
    {| bl_base := 0xff * 2 ^ 120; bl_len := 8 |};           (* multicast *)
    {| bl_base := 0x64ff9b * 2 ^ 96; bl_len := 96 |} ].     (* NAT64 *)

(** What the guard is to decide: IPv4 addresses, plain or mapped, and IPv6 ones. *)
Definition admissible (ip : IP) : bool :=
  let v := value ip in
  if len_is ip 4 then forallb (fun b => negb (in_block 32 v b)) refused4
  else if len_is ip 16 then
    if in_block 128 v {| bl_base := 0xffff * 2 ^ 32; bl_len := 96 |}
    then forallb (fun b => negb (in_block 32 (v mod 2 ^ 32) b)) refused4
    else forallb (fun b => negb (in_block 128 v b)) refused6
  else false.

Definition bytes_ok (ip : IP) : Prop := Forall (fun b => 0 <= b < 256) ip.

(** A test on a byte holds if it holds on the 256 of them. *)
Lemma byte_all (P : Z -> bool) b :
  forallb P (map Z.of_nat (seq 0 256)) = true -> 0 <= b < 256 -> P b = true.
Proof.
  intros HP Hb. rewrite forallb_forall in HP. apply HP.
  apply in_map_iff. exists (Z.to_nat b). rewrite in_seq. lia.
Qed.

(** The masks of the classifiers, as arithmetic. *)
Lemma land_f0 b k : 0 <= b < 256 -> 0 <= k < 16 -> (Z.land b 0xf0 =? 16 * k) = (b / 16 =? k).
Proof.
  intros Hb Hk. apply eqb_true_iff.
  apply (byte_all (fun b => Bool.eqb (Z.land b 0xf0 =? 16 * k) (b / 16 =? k))); [|done].
  assert (Hks : forallb (fun k => forallb (fun b => Bool.eqb (Z.land b 0xf0 =? 16 * k) (b / 16 =? k))
    (map Z.of_nat (seq 0 256))) (map Z.of_nat (seq 0 16)) = true) by (vm_compute; reflexivity).
  rewrite forallb_forall in Hks. apply Hks. apply in_map_iff. exists (Z.to_nat k).
  rewrite in_seq. lia.
Qed.
Lemma land_fe b : 0 <= b < 256 -> (Z.land b 0xfe =? 0xfc) = (b / 2 =? 0x7e).
Proof.
  intros Hb. apply eqb_true_iff.
  apply (byte_all (fun b => Bool.eqb (Z.land b 0xfe =? 0xfc) (b / 2 =? 0x7e))); [|done].
  vm_compute; reflexivity.
Qed.
Lemma land_c0 b : 0 <= b < 256 -> (Z.land b 0xc0 =? 0x80) = (b / 64 =? 2).
Proof.
  intros Hb. apply eqb_true_iff.
  apply (byte_all (fun b => Bool.eqb (Z.land b 0xc0 =? 0x80) (b / 64 =? 2))); [|done].
  vm_compute; reflexivity.
Qed.
Lemma land_ff b : 0 <= b < 256 -> Z.land b 0xff = b.
Proof.
  intros Hb. apply Z.eqb_eq.
  apply (byte_all (fun b => Z.land b 0xff =? b)); [vm_compute; reflexivity|done].
Qed.

Lemma refuse_Ok {A} (b : bool) (e : error) (k : res A) x :
  (if b then Err e else k) = Ok x <-> b = false /\ k = Ok x.
Proof. destruct b; naive_solver. Qed.

Lemma value_app ip1 ip2 :
  value (ip1 ++ ip2) = value ip1 * 256 ^ Z.of_nat (List.length ip2) + value ip2.
Proof. apply of_digits_app. Qed.

Lemma value_cons ip b : value (b :: ip) = b * 256 ^ Z.of_nat (List.length ip) + value ip.
Proof. change (b :: ip) with ([b] ++ ip)%list. by rewrite value_app. Qed.

Lemma value_bounds ip : bytes_ok ip -> 0 <= value ip < 256 ^ Z.of_nat (List.length ip).
Proof. by apply of_digits_bounds. Qed.

Lemma value_inj ip1 ip2 : bytes_ok ip1 -> bytes_ok ip2 -> List.length ip1 = List.length ip2 ->
  value ip1 = value ip2 -> ip1 = ip2.
Proof. by apply of_digits_inj. Qed.

(** An IPv4 address the guard lets through. *)
Definition public4 (a b c d : Z) : Prop :=
  ~ (a = 0 /\ b = 0 /\ c = 0 /\ d = 0) /\ a <> 127 /\ a <> 10 /\ (a <> 172 \/ b / 16 <> 1) /\
  (a <> 192 \/ b <> 168) /\ (a <> 169 \/ b <> 254) /\ a / 16 <> 14 /\
  ~ (a = 255 /\ b = 255 /\ c = 255 /\ d = 255).

(** Evaluate the powers of two and the shifted constants of the goal. *)
Ltac powers :=
  repeat match goal with
  | |- context [Z.shiftr ?x ?n] =>
      let v := eval vm_compute in (Z.shiftr x n) in progress change (Z.shiftr x n) with v
  | |- context [2 ^ ?e] =>
      let v := eval vm_compute in (2 ^ e) in progress change (2 ^ e) with v
  end.

Ltac div_lia := Z.to_euclidean_division_equations; lia.

(** The quotients of an IPv4 number by the sizes of the blocks. *)
Lemma value4 a b c d : value [a; b; c; d] = a * 2 ^ 24 + b * 2 ^ 16 + c * 2 ^ 8 + d.
Proof. unfold value, of_digits. cbn [foldl]. lia. Qed.

Lemma quotients4 a b c d : bytes_ok [a; b; c; d] ->
  let v := value [a; b; c; d] in
  Z.shiftr v (32 - 32) = v /\ Z.shiftr v (32 - 8) = a /\
  Z.shiftr v (32 - 12) = a * 16 + b / 16 /\ Z.shiftr v (32 - 16) = a * 256 + b /\
  Z.shiftr v (32 - 4) = a / 16.
Proof.
  unfold bytes_ok. rewrite !Forall_cons, value4. intros (? & ? & ? & ? & _). cbv zeta.
  rewrite !Z.shiftr_div_pow2 by lia. powers. split_and!; div_lia.
Qed.

Lemma admissible4 a b c d : bytes_ok [a; b; c; d] ->
  forallb (fun k => negb (in_block 32 (value [a; b; c; d]) k)) refused4 = true <->
  public4 a b c d.
Proof.
  intros Hok. unfold refused4, in_block, public4.
  cbn [forallb bl_base bl_len]. rewrite !andb_true_iff, !negb_true_iff, !Z.eqb_neq.
  destruct (quotients4 a b c d Hok) as (-> & -> & -> & -> & ->). rewrite value4.
  unfold bytes_ok in Hok. rewrite !Forall_cons in Hok. destruct Hok as (? & ? & ? & ? & _).
  powers. split; intros; split_and!; div_lia.
Qed.

Lemma list4_eq (a b c d x y z t : Z) :
  [a; b; c; d] = [x; y; z; t] <-> a = x /\ b = y /\ c = z /\ d = t.
Proof. naive_solver. Qed.

(** The tests of the guard on an IPv4 address. *)
Lemma CheckIP4 a b c d : bytes_ok [a; b; c; d] ->
  CheckIP [a; b; c; d] = Ok tt <-> public4 a b c d.
Proof.
  unfold bytes_ok. rewrite !Forall_cons. intros (? & ? & ? & ? & _).
  unfold CheckIP. rewrite (bool_decide_false ([a; b; c; d] = [])) by done.
  unfold IsGlobalUnicast, IsUnspecified, IsLoopback, IsPrivate, IsLinkLocalUnicast,
    IsLinkLocalMulticast, IsMulticast, IsInterfaceLocalMulticast, classified, Equal, len_is,
    byte_at, To4, Contains, nat64Prefix.
  cbn -[Z.land Z.eqb bool_decide CIDRMask].
  rewrite !refuse_Ok.
  change (bool_decide ([0; 0; 0; 0; 0; 0; 0; 0; 0; 0; 255; 255] = v4InV6Prefix)) with true.
  change (bool_decide ([0; 0; 0; 0; 0; 0; 0; 0; 0; 0; 0; 0] = v4InV6Prefix)) with false.
  change (Z.land b 240 =? 16) with (Z.land b 0xf0 =? 16 * 1).
  change (Z.land a 240 =? 224) with (Z.land a 0xf0 =? 16 * 14).
  rewrite (land_f0 b 1), (land_f0 a 14) by lia.
  cbn [andb orb]. rewrite !orb_false_r.
  rewrite ?negb_false_iff, ?andb_true_iff, ?negb_true_iff, ?orb_false_iff, ?andb_false_iff,
    ?Z.eqb_neq, ?bool_decide_eq_false, !list4_eq.
  assert (a = 224 -> a / 16 = 14) by (by intros ->).
  unfold public4. split; [tauto|]. intros. split_and!; tauto.
Qed.

(** ** Numbers of sixteen bytes *)
(** A prefix of whole bytes is a block. *)
Lemma prefix_block n ip base :
  bytes_ok ip -> bytes_ok base -> List.length ip = List.length base ->
  Z.shiftr (value ip) (8 * Z.of_nat (List.length ip - n)) =
    Z.shiftr (value base) (8 * Z.of_nat (List.length ip - n)) <-> take n ip = take n base.
Proof.
  intros Hi Hb HL.
  assert (HT : forall l, bytes_ok l -> List.length l = List.length ip ->
      Z.shiftr (value l) (8 * Z.of_nat (List.length ip - n)) = value (take n l)).
  { intros l Hl El. rewrite <- (take_drop n l) at 1. rewrite value_app, length_drop, El.
    rewrite Z.shiftr_div_pow2 by lia.
    change 256 with (2 ^ 8). rewrite <- Z.pow_mul_r by lia. rewrite Z.div_add_l by lia.
    rewrite Z.div_small; [lia|]. pose proof (value_bounds (drop n l)) as B.
    rewrite length_drop, El in B. change 256 with (2 ^ 8) in B.
    rewrite <- Z.pow_mul_r in B by lia. by apply B, Forall_drop. }
  rewrite !HT by done. split; [|by intros ->].
  apply value_inj; try by apply Forall_take. rewrite !length_take. lia.
Qed.

(** An IPv6 address the guard lets through. *)
Definition public6 (ip : IP) : Prop :=
  ip <> IPv6unspecified /\ ip <> IPv6loopback /\ byte_at ip 0 / 2 <> 0x7e /\
  (byte_at ip 0 <> 0xfe \/ byte_at ip 1 / 64 <> 2) /\ byte_at ip 0 <> 0xff /\
  take 12 ip <> take 12 (net_IP nat64Prefix).

Lemma quotients6 a b r : bytes_ok (a :: b :: r) -> List.length r = 14%nat ->
  let v := value (a :: b :: r) in
  Z.shiftr v (128 - 7) = a / 2 /\ Z.shiftr v (128 - 10) = a * 4 + b / 64 /\
  Z.shiftr v (128 - 8) = a.
Proof.
  intros Hok HL. unfold bytes_ok in Hok. rewrite !Forall_cons in Hok.
  destruct Hok as (Ha & Hb & Hr). cbv zeta. rewrite !value_cons. cbn [List.length]. rewrite HL.
  pose proof (value_bounds _ Hr) as B. rewrite HL in B.
  change (256 ^ Z.of_nat 14) with (2 ^ 112) in *. change (256 ^ Z.of_nat 15) with (2 ^ 120).
  rewrite !Z.shiftr_div_pow2 by lia. generalize dependent (value r). intros v B.
  change (2 ^ (128 - 7)) with (2 ^ 112 * 512). change (2 ^ (128 - 10)) with (2 ^ 112 * 64).
  change (2 ^ (128 - 8)) with (2 ^ 112 * 256). change (2 ^ 120) with (256 * 2 ^ 112).
  assert (HQ : (a * (256 * 2 ^ 112) + (b * 2 ^ 112 + v)) / 2 ^ 112 = a * 256 + b).
  { replace (a * (256 * 2 ^ 112) + (b * 2 ^ 112 + v)) with ((a * 256 + b) * 2 ^ 112 + v) by lia.
    rewrite Z.div_add_l, Z.div_small by lia. lia. }
  rewrite <- !Z.div_div, HQ by lia. split_and!; div_lia.
Qed.

Lemma block_of_prefix ip base k n :
  bytes_ok ip -> List.length ip = 16%nat -> bytes_ok base -> List.length base = 16%nat ->
  bl_base k = value base -> bl_len k = 128 - 8 * Z.of_nat (16 - n) ->
  in_block 128 (value ip) k = false <-> take n ip <> take n base.
Proof.
  intros Hi Li Hb Lb E1 E2. unfold in_block. rewrite Z.eqb_neq, E1, E2.
  pose proof (prefix_block n ip base Hi Hb) as HP. rewrite Li, Lb in HP.
  replace (128 - (128 - 8 * Z.of_nat (16 - n))) with (8 * Z.of_nat (16 - n)) by lia.
  by rewrite HP.
Qed.

Ltac byte_list := unfold bytes_ok; apply (bool_decide_unpack _); vm_compute; exact I.

Lemma bytes_split (ip : IP) n : List.length ip = S (S n) ->
  exists a b r, ip = a :: b :: r /\ List.length r = n.
Proof. destruct ip as [|a [|b r]]; intros; simplify_eq/=; eauto 10. Qed.

Lemma admissible6 ip : bytes_ok ip -> List.length ip = 16%nat ->
  forallb (fun k => negb (in_block 128 (value ip) k)) refused6 = true <-> public6 ip.
Proof.
  intros Hok HL. unfold refused6, public6. cbn [forallb].
  rewrite !andb_true_iff, !negb_true_iff.
  rewrite (block_of_prefix ip IPv6unspecified _ 16), (block_of_prefix ip IPv6loopback _ 16),
    (block_of_prefix ip (net_IP nat64Prefix) {| bl_base := 0x64ff9b * 2 ^ 96; bl_len := 96 |} 12)
    by (done || byte_list).
  rewrite (take_ge ip), !take_ge by (rewrite ?HL; cbn; lia).
  destruct (bytes_split ip 14%nat HL) as (a & b & r & -> & Hr). unfold in_block.
  cbn [bl_base bl_len byte_at nth]. destruct (quotients6 a b r Hok Hr) as (-> & -> & ->).
  rewrite !Z.eqb_neq. powers. unfold bytes_ok in Hok. rewrite !Forall_cons in Hok.
  destruct Hok as (? & ? & _). split; intros; split_and!; try tauto; div_lia.
Qed.

Lemma To4_16 ip : List.length ip = 16%nat ->
  To4 ip = if bool_decide (take 12 ip = v4InV6Prefix) then Some (drop 12 ip) else None.
Proof. unfold To4, len_is. by intros ->. Qed.

Lemma Equal_same ip x : List.length ip = List.length x -> Equal ip x = bool_decide (ip = x).
Proof. unfold Equal. intros ->. by rewrite Nat.eqb_refl. Qed.

Lemma land_ff_eqb b x : 0 <= x < 256 -> 0 <= b < 256 -> (Z.land b 255 =? Z.land x 255) = (b =? x).
Proof. intros. by rewrite !land_ff. Qed.

(** The NAT64 network, on an address that is not an IPv4 one. *)
Lemma Contains_nat64 ip : bytes_ok ip -> List.length ip = 16%nat -> To4 ip = None ->
  Contains nat64Prefix ip = bool_decide (take 12 ip = take 12 (net_IP nat64Prefix)).
Proof.
  intros Hok HL HT. unfold Contains. rewrite HT. cbn [default]. rewrite HL.
  do 16 (destruct ip as [|? ip]; [done|]). destruct ip; [|done]. unfold bytes_ok in Hok.
  rewrite !Forall_cons in Hok. destruct_and! Hok.
  change (net_Mask nat64Prefix) with (repeat 255 12 ++ repeat 0 4)%list.
  cbn -[Z.land Z.eqb bool_decide]. rewrite !land_ff_eqb, !Z.land_0_r by lia. cbn -[Z.eqb bool_decide].
  rewrite andb_true_r. apply eq_bool_prop_intro.
  rewrite !bool_decide_spec. rewrite !andb_True, !Is_true_true, !Z.eqb_eq. naive_solver.
Qed.

Lemma CheckIP_mapped ip v4 : ip <> [] -> To4 ip = Some v4 -> To4 v4 = Some v4 -> v4 <> [] ->
  CheckIP ip = CheckIP v4.
Proof. intros H1 H2 H3 H4. unfold CheckIP. by rewrite !bool_decide_false, H2, H3 by done. Qed.

Lemma CheckIP6 ip : bytes_ok ip -> List.length ip = 16%nat -> To4 ip = None ->
  CheckIP ip = Ok tt <-> public6 ip.
Proof.
  intros Hok HL HT. pose proof (Contains_nat64 ip Hok HL HT) as HN.
  assert (HM : take 12 ip <> v4InV6Prefix).
  { intros HM. by rewrite To4_16, bool_decide_true in HT. }
  assert (HE : forall a b c d, Equal ip (IPv4 a b c d) = false).
  { intros. rewrite Equal_same by done. apply bool_decide_false. by intros ->. }
  assert (E1 : Equal ip IPv6unspecified = bool_decide (ip = IPv6unspecified))
    by by apply Equal_same.
  assert (E2 : Equal ip IPv6loopback = bool_decide (ip = IPv6loopback)) by by apply Equal_same.
  unfold CheckIP. rewrite (bool_decide_false (ip = [])) by (by intros ->). rewrite HT. cbv zeta.
  unfold IsGlobalUnicast, IsUnspecified, IsLoopback, IsPrivate, IsLinkLocalUnicast,
    IsLinkLocalMulticast, IsMulticast, IsInterfaceLocalMulticast, classified, len_is,
    IPv4zero, IPv4bcast.
  rewrite HT, HL, HN, !HE, E1, E2. cbn [Nat.eqb andb orb].
  destruct (bytes_split ip 14%nat HL) as (a & b & r & -> & Hr).
  change (byte_at (a :: b :: r) 0) with a. change (byte_at (a :: b :: r) 1) with b.
  unfold bytes_ok in Hok. rewrite !Forall_cons in Hok. destruct Hok as (? & ? & _).
  rewrite land_fe, land_c0 by lia. rewrite !refuse_Ok.
  rewrite ?negb_false_iff, ?andb_true_iff, ?negb_true_iff, ?orb_false_iff, ?andb_false_iff,
    ?Z.eqb_neq, ?bool_decide_eq_false.
  unfold public6. cbn [byte_at nth]. tauto.
Qed.

(** The guard decides admissibility. *)
Lemma CheckIP_admissible ip (Hok : bytes_ok ip) : CheckIP ip = Ok tt <-> admissible ip = true.
Proof.
  unfold admissible, len_is. destruct (Nat.eqb_spec (List.length ip) 4) as [L4|L4].
  { do 4 (destruct ip as [|? ip]; [done|]). destruct ip; [|done].
    by rewrite CheckIP4, admissible4. }
  destruct (Nat.eqb_spec (List.length ip) 16) as [L16|L16].
  2: { apply Nat.eqb_neq in L4, L16.
       assert (To4 ip = None) as HT by (unfold To4, len_is; by rewrite L4, L16).
       unfold CheckIP, IsGlobalUnicast, len_is. rewrite HT, L4, L16.
       rewrite !refuse_Ok. cbn. naive_solver. }
  assert (HP : in_block 128 (value ip) {| bl_base := 0xffff * 2 ^ 32; bl_len := 96 |} = false
               <-> take 12 ip <> v4InV6Prefix).
  { apply (block_of_prefix ip (IPv4 0 0 0 0)); done || byte_list. }
  destruct (in_block 128 (value ip) _).
  - assert (HM : take 12 ip = v4InV6Prefix).
    { destruct (decide (take 12 ip = v4InV6Prefix)) as [|Hne]; [done|].
      by apply HP in Hne. }
    assert (HT : To4 ip = Some (drop 12 ip)) by (by rewrite To4_16, bool_decide_true).
    assert (List.length (drop 12 ip) = 4%nat) as LD by (by rewrite length_drop, L16).
    rewrite (CheckIP_mapped ip (drop 12 ip)); try done; try by intros E; rewrite E in *.
    2: { unfold To4, len_is. by rewrite LD. }
    assert (Hd : bytes_ok (drop 12 ip)) by by apply Forall_drop.
    assert (value ip mod 2 ^ 32 = value (drop 12 ip)) as ->.
    { rewrite <- (take_drop 12 ip) at 1. rewrite value_app, LD.
      change (256 ^ Z.of_nat 4) with (2 ^ 32). rewrite Z.add_comm, Z.mod_add by lia.
      apply Z.mod_small. pose proof (value_bounds _ Hd) as B. by rewrite LD in B. }
    generalize dependent (drop 12 ip). intros v _ LD Hd.
    do 4 (destruct v as [|? v]; [done|]). destruct v; [|done]. by rewrite CheckIP4, admissible4.
  - pose proof (proj1 HP eq_refl). rewrite CheckIP6, admissible6; try done.
    by rewrite To4_16, bool_decide_false.
Qed.

(** C24. The guard admits exactly the addresses outside a list of CIDR blocks: on any byte
    slice, of whatever length, [CheckIP] succeeds if and only if the slice is an IPv4
    address, plain or IPv4-mapped, whose 32-bit number lies in no refused IPv4 block, or
    an IPv6 address whose 128-bit number lies in no refused IPv6 block. *)
Theorem guard_exact ip (Hok : bytes_ok ip) : CheckIP ip = Ok tt <-> admissible ip = true.
Proof. exact (CheckIP_admissible ip Hok). Qed.

(** The guard lets through addresses that are not publicly routable: carrier-grade
    NAT, benchmarking, class E and the rest of 0.0.0.0/8, and IPv6 forms that embed a
    private IPv4 address other than the well-known NAT64 prefix (6to4, local-use NAT64,
    IPv4-compatible). *)
Theorem guard_admits_reserved :
  Forall (fun ip => CheckIP ip = Ok tt)
    [ [100; 64; 0; 1]; [198; 18; 0; 1]; [240; 0; 0; 1]; [0; 1; 2; 3];
      [0x20; 0x02; 10; 0; 0; 1; 0; 0; 0; 0; 0; 0; 0; 0; 0; 1];
      [0; 0x64; 0xff; 0x9b; 0; 1; 0; 0; 0; 0; 0; 0; 10; 0; 0; 1];
      [0; 0; 0; 0; 0; 0; 0; 0; 0; 0; 0; 0; 10; 0; 0; 1] ].
Proof. repeat constructor; vm_compute; reflexivity. Qed.

Lemma guard_exact_witness :
  CheckIP [169; 254; 169; 254] <> Ok tt /\ CheckIP (IPv4 8 8 8 8) = Ok tt.
Proof.
  split.
  - rewrite (guard_exact [169; 254; 169; 254]); [vm_compute; done|byte_list].
  - apply (guard_exact (IPv4 8 8 8 8)); [byte_list|vm_compute; reflexivity].
Defined.

(** * forwarder.go

    [url.Parse], [net.SplitHostPort] and [net.ParseIP] are the standard library's: what they read
    of a text. *)
Record parsed_url := { pu_Scheme : string; pu_Hostname : string; pu_Port : string; pu_String : string }.
Definition errGenericDelivery : error := New "outbound webhook delivery failed".
Notation SSRFGuard := (IP -> res unit).
Record response := { hr_StatusCode : Z; hr_Location : string }.
Record sent_request := { sr_URL : string; sr_Headers : list (string * string); sr_Body : string }.
(** The network under one request: whether an idle connection is there to be used again, else the
    addresses the name resolved to with whether each accepts a connection, and what is answered. *)
Record network := { nw_idle : bool; nw_addresses : list (string * bool); nw_answer : option response }.
Record traffic := { tr_opened : list string; tr_sent : list sent_request }.

Section forwarder.
Context (url_Parse : string -> option parsed_url).
Context (SplitHostPort : string -> option (string * string)) (ParseIP : string -> option IP).

Definition checkDialAddress (guard : SSRFGuard) (address : string) : res unit :=
  match SplitHostPort address with
  | None => Err ErrBlockedDestination
  | Some (host, _) =>
      match ParseIP host with
      | None => Err ErrBlockedDestination
      | Some ip => guard ip
      end
  end.
(** net.Dialer: the addresses in turn, [Control] before each connection; the first error is the
    one that is reported. *)
Fixpoint dial (control : string -> res unit) (addresses : list (string * bool)) (first : error)
    : list string * res unit :=
  match addresses with
  | [] => ([], Err first)
  | (address, accepts) :: rest =>
      let keep e := if bool_decide (first = New "") then e else first in
      match control address with
      | Err e => dial control rest (keep e)
      | Ok _ =>
          if accepts then ([address], Ok tt)
          else dial control rest (keep (New "connect: connection refused"))
      end
  end.
Definition CheckRedirect : error := Wrap "redirects are not followed" ErrBlockedDestination.
Definition is_redirect (r : response) : bool :=
  bool_decide (hr_StatusCode r ∈ [301; 302; 303; 307; 308]) && negb (bool_decide (hr_Location r = "")).
(** http.Client.Do with the client's transport; its errors are wrapped in a url.Error. *)
Definition client_Do (guard : SSRFGuard) (nw : network) (req : sent_request) : traffic * res response :=
  let '(opened, connected) :=
    if nw_idle nw then ([], Ok tt) else dial (checkDialAddress guard) (nw_addresses nw) (New "") in
  match connected with
  | Err e => ({| tr_opened := opened; tr_sent := [] |}, Err (Wrap "Post" e))
  | Ok _ =>
      ({| tr_opened := opened; tr_sent := [req] |},
       match nw_answer nw with
       | None => Err (Wrap "Post" (New "transport"))
       | Some r =>
           if is_redirect r
           then Err (Wrap "Post" (match url_Parse (hr_Location r) with
                                  | None => New "failed to parse Location header"
                                  | Some _ => CheckRedirect
                                  end))
           else Ok r
       end)
  end.

Definition validateDestinationURL (raw : string) (allowAnyPort : bool) : res parsed_url :=
  match url_Parse (TrimSpace raw) with
  | None => Err ErrBlockedDestination
  | Some u =>
      refuse (negb (EqualFold (pu_Scheme u) "https")) with ErrBlockedDestination ;;
      refuse (bool_decide (pu_Hostname u = "")) with ErrBlockedDestination ;;
      refuse (negb (bool_decide (pu_Port u = "")) && negb (bool_decide (pu_Port u = "443")) && negb allowAnyPort)
        with ErrBlockedDestination ;;
      Ok u
  end.
(** [builds]: http.NewRequest accepts the URL. *)
Definition Deliver (guard : SSRFGuard) (allowAnyPort builds : bool) (nw : network) (rawURL : string)
    (headers : list (string * string)) (body : string) : traffic * res Z :=
  let quiet := {| tr_opened := []; tr_sent := [] |} in
  match validateDestinationURL rawURL allowAnyPort with
  | Err e => (quiet, Err e)
  | Ok u =>
      if negb builds then (quiet, Err ErrBlockedDestination)
      else
        let req := {| sr_URL := pu_String u;
                      sr_Headers := ("Content-Type", "application/json") :: ("User-Agent", "sindireceita-webhook/1") :: headers;
                      sr_Body := body |} in
        match client_Do guard nw req with
        | (tr, Ok r) => (tr, Ok (hr_StatusCode r))
        | (tr, Err e) => (tr, Err (if errors_Is e ErrBlockedDestination then ErrBlockedDestination else errGenericDelivery))
        end
  end.
(** The production forwarder. *)
Definition forward (builds : bool) := Deliver CheckIP false builds.

Lemma dial_controlled control addresses : forall first, Forall (fun a => control a = Ok tt) (dial control addresses first).1.
Proof.
  induction addresses as [|[a up] rest IH]; intros first; [constructor|]. cbn [dial].
  destruct (control a) as [[]|e] eqn:Ec; [|apply IH]. destruct up; [by repeat constructor|apply IH].
Qed.
Lemma checkDialAddress_Ok guard a : checkDialAddress guard a = Ok tt ->
  exists host port ip, SplitHostPort a = Some (host, port) /\ ParseIP host = Some ip /\ guard ip = Ok tt.
Proof.
  unfold checkDialAddress. destruct (SplitHostPort a) as [[host port]|]; [|done].
  destruct (ParseIP host) as [ip|] eqn:Ei; [|done]. intros Hg. by exists host, port, ip.
Qed.
Lemma validateDestinationURL_Ok raw u : validateDestinationURL raw false = Ok u ->
  url_Parse (TrimSpace raw) = Some u /\ EqualFold (pu_Scheme u) "https" = true /\ pu_Hostname u <> "" /\
  pu_Port u ∈ [""; "443"].
Proof.
  clear SplitHostPort ParseIP. unfold validateDestinationURL. destruct (url_Parse _) as [v|]; [|done]. rewrite !refuse_Ok.
  intros (Hs & Hh & Hp & [= ->]). apply negb_false_iff in Hs. apply bool_decide_eq_false in Hh.
  split_and!; [done..|]. destruct (decide (pu_Port u = "")) as [->|H1]; [set_solver|].
  destruct (decide (pu_Port u = "443")) as [->|H2]; [set_solver|].
  rewrite !bool_decide_false in Hp by done. done.
Qed.
End forwarder.

Section forwarder_facts.
Context (url_Parse : string -> option parsed_url).
Context (SplitHostPort : string -> option (string * string)) (ParseIP : string -> option IP).

(** A resolved address, "ip:port", outside every refused block. *)
Definition public_address (address : string) : Prop :=
  exists host port ip, SplitHostPort address = Some (host, port) /\ ParseIP host = Some ip /\
    admissible ip = true.
Definition public_https (u : parsed_url) : Prop :=
  EqualFold (pu_Scheme u) "https" = true /\ pu_Hostname u <> "" /\ pu_Port u ∈ [""; "443"].

Lemma dial_silent control addresses : forall first,
  Forall (fun a => control a.1 <> Ok tt) addresses -> exists e, dial control addresses first = ([], Err e).
Proof.
  induction addresses as [|[a up] rest IH]; intros first Hall; [by exists first|].
  apply Forall_cons in Hall as [Ha Hrest]. cbn [dial]. cbn [fst] in Ha.
  destruct (control a) as [[]|e]; [done|by apply IH].
Qed.
Lemma client_Do_opened guard nw req :
  Forall (fun a => checkDialAddress SplitHostPort ParseIP guard a = Ok tt)
    (tr_opened (client_Do url_Parse SplitHostPort ParseIP guard nw req).1).
Proof.
  unfold client_Do. destruct (nw_idle nw); [constructor|].
  pose proof (dial_controlled (checkDialAddress SplitHostPort ParseIP guard) (nw_addresses nw) (New "")) as Hd.
  by destruct (dial _ _ _) as [opened [[]|e]].
Qed.
Lemma client_Do_sent guard nw req tr r : client_Do url_Parse SplitHostPort ParseIP guard nw req = (tr, r) ->
  tr_sent tr ∈ [[]; [req]] /\
  forall ans, r = Ok ans -> tr_sent tr = [req] /\ nw_answer nw = Some ans /\ is_redirect ans = false.
Proof.
  unfold client_Do. destruct (if nw_idle nw then _ else _) as [opened [[]|e]].
  2: { intros [= <- <-]. split; [set_solver|done]. }
  intros [= <- <-]. cbn [tr_sent]. split; [set_solver|]. intros ans.
  destruct (nw_answer nw) as [a|]; [|done]. destruct (is_redirect a) eqn:Er; [done|].
  by intros [= ->].
Qed.

(** The forwarder is contained.  Whatever the name resolves to, when it resolves to it and
    whatever is answered, a connection is opened only to an address outside every refused block;
    at most one request leaves, and only for an https URL with a host on port 443; when no
    connection is kept and no resolved address is public, nothing leaves; and the caller learns
    either the status of an answer that was not followed anywhere or one of two fixed errors. *)
Theorem forward_contained (bytes : forall host ip, ParseIP host = Some ip -> bytes_ok ip)
    builds nw raw headers body :
  let '(tr, r) := forward url_Parse SplitHostPort ParseIP builds nw raw headers body in
  Forall public_address (tr_opened tr) /\
  (tr_sent tr = [] \/ exists u req, url_Parse (TrimSpace raw) = Some u /\ public_https u /\
     tr_sent tr = [req] /\ sr_URL req = pu_String u /\ sr_Body req = body) /\
  (nw_idle nw = false -> Forall (fun a => ~ public_address a.1) (nw_addresses nw) -> tr_sent tr = []) /\
  match r with
  | Ok status => List.length (tr_sent tr) = 1%nat /\ exists ans, nw_answer nw = Some ans /\
      hr_StatusCode ans = status /\ is_redirect ans = false
  | Err e => e = ErrBlockedDestination \/ e = errGenericDelivery
  end.
Proof.
  unfold forward, Deliver.
  destruct (validateDestinationURL url_Parse raw false) as [u|e] eqn:Ev.
  2: { cbn. split_and!; [constructor|auto..|]. left. revert Ev. unfold validateDestinationURL.
       destruct (url_Parse _); [|congruence]. repeat case_match; congruence. }
  apply validateDestinationURL_Ok in Ev as (Eu & Hs & Hh & Hp).
  destruct builds; cbn [negb]; [|by cbn; auto].
  set (req := {| sr_URL := _ |}).
  pose proof (client_Do_opened CheckIP nw req) as Ho.
  destruct (client_Do url_Parse SplitHostPort ParseIP CheckIP nw req) as [tr r] eqn:Ec.
  destruct (client_Do_sent _ _ _ _ _ Ec) as [Hsent Hok]. cbn [fst] in Ho.
  assert (Hpub : forall a, checkDialAddress SplitHostPort ParseIP CheckIP a = Ok tt -> public_address a).
  { intros a (host & port & ip & H1 & H2 & H3)%checkDialAddress_Ok. exists host, port, ip.
    split_and!; [done..|]. by apply CheckIP_admissible; [apply (bytes host)|]. }
  assert (Hquiet : nw_idle nw = false -> Forall (fun a => ~ public_address a.1) (nw_addresses nw) -> tr_sent tr = []).
  { intros Hi Hall. revert Ec. unfold client_Do. rewrite Hi.
    destruct (dial_silent (checkDialAddress SplitHostPort ParseIP CheckIP) (nw_addresses nw) (New "")) as [e ->].
    { eapply Forall_impl; [exact Hall|]. cbn. intros a Ha Hc. by apply Ha, Hpub. }
    by intros [= <- <-]. }
  assert (Hout : Forall public_address (tr_opened tr)) by (eapply Forall_impl; [exact Ho|exact Hpub]).
  assert (Hone : tr_sent tr = [] \/ exists u' req', url_Parse (TrimSpace raw) = Some u' /\ public_https u' /\
     tr_sent tr = [req'] /\ sr_URL req' = pu_String u' /\ sr_Body req' = body).
  { assert (tr_sent tr = [] \/ tr_sent tr = [req]) as [->| ->] by set_solver; [by left|].
    right. by exists u, req. }
  destruct r as [ans|e].
  - destruct (Hok ans eq_refl) as (Hsn & ? & ?). split_and!; [done..|by rewrite Hsn|]. by exists ans.
  - split_and!; [exact Hout|exact Hone|exact Hquiet|]. destruct (errors_Is e _); auto.
Qed.
End forwarder_facts.

(** A name whose first address is the metadata service's and whose second is public: the first
    is skipped, the request leaves to the second; a redirect is an opaque refusal. *)
Definition sample_split (a : string) : option (string * string) :=
  if bool_decide (a = "169.254.169.254:443") then Some ("169.254.169.254", "443")
  else if bool_decide (a = "8.8.8.8:443") then Some ("8.8.8.8", "443") else None.
Definition sample_ParseIP (h : string) : option IP :=
  if bool_decide (h = "169.254.169.254") then Some (IPv4 169 254 169 254)
  else if bool_decide (h = "8.8.8.8") then Some (IPv4 8 8 8 8) else None.
Definition sample_Parse (s : string) : option parsed_url :=
  if bool_decide (s = "https://hook.example/x")
  then Some {| pu_Scheme := "https"; pu_Hostname := "hook.example"; pu_Port := ""; pu_String := s |}
  else None.
Definition rebinding (answer : response) : network :=
  {| nw_idle := false; nw_addresses := [("169.254.169.254:443", true); ("8.8.8.8:443", true)];
     nw_answer := Some answer |}.

Lemma forward_contained_witness :
  let run answer := forward sample_Parse sample_split sample_ParseIP true (rebinding answer)
                      " https://hook.example/x " [] "{}" in
  (forall answer, Forall (public_address sample_split sample_ParseIP) (tr_opened (run answer).1)) /\
  tr_opened (run {| hr_StatusCode := 200; hr_Location := "" |}).1 = ["8.8.8.8:443"] /\
  (run {| hr_StatusCode := 200; hr_Location := "" |}).2 = Ok 200 /\
  (run {| hr_StatusCode := 302; hr_Location := "https://hook.example/x" |}).2 = Err ErrBlockedDestination.
Proof.
  assert (bytes : forall host ip, sample_ParseIP host = Some ip -> bytes_ok ip).
  { intros host ip. unfold sample_ParseIP. repeat case_bool_decide; intros [= <-]; byte_list. }
  split_and!; [|vm_compute; reflexivity..]. intros answer.
  pose proof (forward_contained sample_Parse sample_split sample_ParseIP bytes true (rebinding answer)
                " https://hook.example/x " [] "{}") as H.
  destruct (forward _ _ _ _ _ _ _ _) as [tr r]. exact (proj1 H).
Defined.

(** * limiter.go: one token bucket per account *)
Definition defaultAccountRatePerSecond : frac := d_int 5.
Definition defaultAccountBurst : frac := d_int 5.
(** The buckets are shared pointers: a reservation is written back under its account. *)
Record PerAccountLimiter := {
  lm_buckets : gmap string tokenBucket; lm_ratePerSec : frac; lm_capacity : frac
}.
Definition newPerAccountLimiter (ratePerSec capacity : frac) : PerAccountLimiter :=
  {| lm_buckets := ∅; lm_ratePerSec := ratePerSec; lm_capacity := capacity |}.
Definition NewPerAccountLimiter : PerAccountLimiter :=
  newPerAccountLimiter defaultAccountRatePerSecond defaultAccountBurst.
Definition set_bucket (l : PerAccountLimiter) (accountID : string) (b : tokenBucket) : PerAccountLimiter :=
  {| lm_buckets := <[accountID := b]> (lm_buckets l); lm_ratePerSec := lm_ratePerSec l;
     lm_capacity := lm_capacity l |}.
Definition bucketFor (l : PerAccountLimiter) (accountID : string) : PerAccountLimiter * tokenBucket :=
  match lm_buckets l !! accountID with
  | Some b => (l, b)
  | None =>
      let b := {| tb_tokens := lm_capacity l; tb_capacity := lm_capacity l;
                  tb_refillPerSec := lm_ratePerSec l; tb_last := zeroTime |} in
      (set_bucket l accountID b, b)
  end.
(** [wait d]: what ends the wait of [d], nothing or the context's error.  The pause asked for,
    then what is returned. *)
Definition Wait (wait : Z -> option error) (l : PerAccountLimiter) (accountID : string) (now : Time)
    : PerAccountLimiter * (option Z * option error) :=
  let '(l, b) := bucketFor l accountID in
  let '(b, d) := reserve b now in
  (set_bucket l accountID b, if 0 <? d then (Some d, wait d) else (None, None)).
(** A run of calls, each with its account and the clock's reading, and their answers. *)
Fixpoint Waits (wait : Z -> option error) (l : PerAccountLimiter) (calls : list (string * Time))
    : list (string * (option Z * option error)) :=
  match calls with
  | [] => []
  | (accountID, now) :: calls =>
      let '(l, r) := Wait wait l accountID now in (accountID, r) :: Waits wait l calls
  end.

(** Two limiters an account cannot tell apart. *)
Definition same_for (accountID : string) (l l' : PerAccountLimiter) : Prop :=
  lm_buckets l !! accountID = lm_buckets l' !! accountID /\
  lm_ratePerSec l = lm_ratePerSec l' /\ lm_capacity l = lm_capacity l'.
Lemma Wait_same wait a l l' now : same_for a l l' ->
  (Wait wait l a now).2 = (Wait wait l' a now).2 /\ same_for a (Wait wait l a now).1 (Wait wait l' a now).1.
Proof.
  intros (H1 & H2 & H3). unfold Wait, bucketFor. rewrite <- H1, <- H2, <- H3.
  destruct (lm_buckets l !! a) as [b|];
    (destruct (reserve _ now) as [b' d]; split; [done|]; split; [by cbn; rewrite !lookup_insert_eq|done]).
Qed.
Lemma Wait_other wait a c l l' now : a <> c -> same_for a l l' -> same_for a (Wait wait l c now).1 l'.
Proof.
  intros Hne (H1 & H2 & H3). unfold Wait, bucketFor.
  destruct (lm_buckets l !! c) as [b|];
    (destruct (reserve _ now) as [b' d]; split; [by cbn; rewrite !lookup_insert_ne|done]).
Qed.

(** Throttling is isolated: what one account is made to wait, and how its waits end, is what it
    would be if no other account had ever called. *)
Theorem waits_isolated wait calls a : forall l l', same_for a l l' ->
  filter (fun r => r.1 = a) (Waits wait l calls) = Waits wait l' (filter (fun c => c.1 = a) calls).
Proof.
  induction calls as [|[c now] calls IH]; intros l l' Hl; [done|]. cbn [Waits].
  destruct (decide (c = a)) as [->|Hne].
  - pose proof (Wait_same wait a l l' now Hl) as [Hr Hs].
    destruct (Wait wait l a now) as [m r] eqn:E1. rewrite !filter_cons_True by done. cbn [Waits].
    destruct (Wait wait l' a now) as [m' r'] eqn:E2. cbn in Hr, Hs. subst r'. f_equal. by apply IH.
  - pose proof (Wait_other wait a c l l' now (not_eq_sym Hne) Hl) as Hs.
    destruct (Wait wait l c now) as [m r]. rewrite !filter_cons_False by done. by apply IH.
Qed.

(** Six calls at once on one account: five pass, the sixth waits a fifth of a second; the other
    account's call in between passes. *)
Lemma waits_isolated_witness :
  let at0 a := (a, {| ns := 1700000000 * nsec; loc := UTC_loc |}) in
  let calls := (repeat (at0 "acc-1") 5 ++ [at0 "acc-2"; at0 "acc-1"])%list in
  filter (fun r => r.1 = "acc-1") (Waits (fun _ => None) NewPerAccountLimiter calls)
  = (repeat ("acc-1", (None, None)) 5 ++ [("acc-1", (Some 200000000, None))])%list.
Proof.
  intros at0 calls. rewrite (waits_isolated _ calls "acc-1" _ NewPerAccountLimiter) by done.
  vm_compute. reflexivity.
Defined.
