(* ===== verification/C6Codec.v ===== *)
(** internal/adapters/bank/c6: the encodings between the service's values and the bank's
    wire: amounts as decimals (pix.go, boleto.go) and boleto ids as external references
    (boleto.go, bankslipv1.go). *)
From S2P Require Import Prelude GoStrings GoTime GoCrypto GoText Shared.

(** * Bytes of a string by position *)
Definition IndexByte (l : bytes) (c : ascii) : option nat :=
  fst <$> list_find (fun d => d = c) l.
(** [s[:i]] and [s[i+1:]] around the first ['.'], when there is one. *)
Definition split_dot (s : bytes) : bytes * bytes :=
  match IndexByte s "."%char with
  | Some i => (take i s, drop (i + 1) s)
  | None => (s, [])
  end.
(** [strings.Trim(s, quotes)] *)
Definition trim_quotes (l : bytes) : bytes :=
  let cut := fix cut l := match l with
                          | c :: r => if bool_decide (c = asciiZ 34) then cut r else l
                          | [] => [] end in
  rev (cut (rev (cut l))).
Definition pad_frac (l : bytes) : bytes := (l ++ repeat "0"%char (2 - List.length l))%list.

(** * pix.go: amounts as strings *)
Definition maxAmountReais : Z := 1000000000000.

(** [cents%100]: Go's remainder has the sign of the dividend. *)
Definition rem64 (a b : Z) : Z := Z.rem a b.

Definition formatAmount (cents : Z) : string :=
  let '(sign, cents) := if cents <? 0 then ("-", wrap64 (- cents)) else ("", cents) in
  (sign ++ FormatInt (div64 cents 100) ++ "." ++ pad2 (rem64 cents 100))%string.

(** The error's text is not modelled. *)
Definition parseAmountCents (s : string) : option Z :=
  let s := bytes_of (TrimSpace s) in
  if bool_decide (s = []) then Some 0
  else
    let neg := match s with c :: _ => bool_decide (c = "-"%char) | [] => false end in
    let s := if neg then drop 1 s else s in
    let '(intPart, fracPart) := split_dot s in
    if bool_decide (intPart = []) || (2 <? List.length fracPart)%nat then None
    else
      ip ← ParseInt (string_of intPart);
      if maxAmountReais <? ip then None
      else
        fp ← (if bool_decide (fracPart = []) then Some 0
              else ParseInt (string_of (pad_frac fracPart)));
        let cents := add64 (mul64 ip 100) fp in
        Some (if neg then wrap64 (- cents) else cents).

(** * boleto.go: amounts as JSON numbers *)
Definition brlDecimal_MarshalJSON (d : Z) : string := formatAmount d.

Definition brlDecimal_UnmarshalJSON (b : string) : option Z :=
  let s := trim_quotes (bytes_of (TrimSpace b)) in
  if bool_decide (s = []) || bool_decide (s = bytes_of "null") then Some 0
  else
    let neg := match s with c :: _ => bool_decide (c = "-"%char) | [] => false end in
    let s := if neg then drop 1 s else s in
    let '(intPart, fracPart) := split_dot s in
    let intPart := if bool_decide (intPart = []) then ["0"%char] else intPart in
    whole ← ParseInt (string_of intPart);
    frac ← ParseInt (string_of (pad_frac (take 2 fracPart)));
    let cents := add64 (mul64 whole 100) frac in
    Some (if neg then wrap64 (- cents) else cents).

(** * boleto.go: external references *)
Definition externalRefAlphabet : string := "0123456789ABCDEFGHJKMNPQRSTVWXYZ".
Definition externalRefLen : nat := 26.
Definition externalRefBytes : nat := 16.
Definition bankSlipV1RefMaxLen : nat := 10.

Definition symbol (d : Z) : ascii := nth (Z.to_nat d) (bytes_of externalRefAlphabet) "0"%char.

(** The loop from the last position to the first; big.Int's [SetBytes] and [QuoRem]. *)
Fixpoint crockford_loop (i : nat) (n : Z) (out : bytes) : bytes :=
  match i with
  | O => out
  | S i => crockford_loop i (n / 32) (symbol (n mod 32) :: out)
  end.
Definition set_bytes (raw : bytes) : Z := of_digits 256 (map byteZ raw).
Definition encodeCrockford (raw : bytes) : string :=
  string_of (crockford_loop externalRefLen (set_bytes raw) []).

Definition externalReferenceID (boletoID : string) : string :=
  let raw := match hex_decode (bytes_of boletoID) with
             | Some raw => if Nat.eqb (List.length raw) externalRefBytes then raw
                           else take externalRefBytes (sha256 (bytes_of boletoID))
             | None => take externalRefBytes (sha256 (bytes_of boletoID))
             end in
  encodeCrockford raw.

(** big.Int's [Bytes]: no leading zero byte. *)
Definition big_bytes (n : Z) : bytes :=
  if n =? 0 then [] else map asciiZ (to_digits 256 (Z.to_nat (Z.log2 n / 8 + 1)) n).

(** One turn of the decoding loop. *)
Definition ref_step (n : option Z) (c : ascii) : option Z :=
  n ← n; idx ← IndexByte (bytes_of externalRefAlphabet) c; Some (n * 32 + Z.of_nat idx).

Definition boletoIDFromExternalReference (ref : string) : option string :=
  if negb (Nat.eqb (String.length ref) externalRefLen) then None
  else
    n ← foldl ref_step (Some 0) (bytes_of ref);
    let raw := big_bytes n in
    if (externalRefBytes <? List.length raw)%nat then None
    else Some (hex (repeat (asciiZ 0) (externalRefBytes - List.length raw) ++ raw)).

Definition validExternalReference (ref : string) : bool :=
  Nat.eqb (String.length ref) externalRefLen
  && forallb (fun c => ((48 <=? byteZ c) && (byteZ c <=? 57))
                       || ((65 <=? byteZ c) && (byteZ c <=? 90))) (bytes_of ref).

Definition externalReferenceV1 (boletoID : string) : string :=
  let ref := externalReferenceID boletoID in
  if (bankSlipV1RefMaxLen <? String.length ref)%nat
  then String.substring 0 bankSlipV1RefMaxLen ref else ref.

(** * Amounts: the text and its parse *)
Lemma list_find_app_here {A} (P : A -> Prop) `{!forall x, Decision (P x)} l1 x l2 :
  Forall (fun y => ~ P y) l1 -> P x -> list_find P (l1 ++ x :: l2) = Some (List.length l1, x).
Proof.
  intros Hl Hx. induction Hl as [|y l Hy Hl IH]; cbn.
  - by rewrite decide_True.
  - by rewrite decide_False, IH.
Qed.

Lemma decimal_dot d : digit_ok 10 d -> decimal d <> "."%char.
Proof. intros Hd E. pose proof (proj1 (digit_decimal d Hd)) as H. rewrite E in H. done. Qed.

Lemma decimal_quote d : digit_ok 10 d -> decimal d <> asciiZ 34.
Proof. intros Hd E. pose proof (proj1 (digit_decimal d Hd)) as H. rewrite E in H. done. Qed.

Lemma decimal_visible d : digit_ok 10 d -> visible (decimal d) = true.
Proof.
  unfold digit_ok. intros Hd. unfold visible, decimal, asciiZ, code.
  rewrite N_ascii_embedding by lia. apply andb_true_iff. rewrite !N.leb_le. lia.
Qed.

Lemma split_dot_decimals ds r : Forall (digit_ok 10) ds ->
  split_dot (map decimal ds ++ "."%char :: r) = (map decimal ds, r).
Proof.
  intros Hd. unfold split_dot, IndexByte. rewrite list_find_app_here; [|clear r|done].
  - cbn [fst fmap option_fmap option_map]. rewrite take_app_length. f_equal.
    rewrite cons_middle, app_assoc. apply drop_app_length'. by rewrite length_app.
  - apply Forall_map. eapply Forall_impl; [done|]. intros d. apply decimal_dot.
Qed.

(** The characters of a printed amount: digits, a point, two digits. *)
Definition digits_text (c : Z) (ds : list Z) : bytes :=
  (map decimal ds ++ "."%char :: map decimal [c mod 100 / 10; c mod 10])%list.
Definition amount_text (c : Z) (ds : list Z) : Prop :=
  bytes_of (FormatInt (div64 c 100) ++ "." ++ pad2 (rem64 c 100)) = digits_text c ds
  /\ Forall (digit_ok 10) ds /\ ds <> [] /\ of_digits 10 ds = c / 100.

Lemma bytes_app s t : bytes_of (s ++ t) = (bytes_of s ++ bytes_of t)%list.
Proof. induction s as [|c s IH]; [done|]. exact (f_equal (cons c) IH). Qed.

Lemma amount_text_exists c : 0 <= c <= maxInt64 -> exists ds, amount_text c ds.
Proof.
  unfold maxInt64. intros Hc.
  destruct (FormatInt_digits (c / 100)) as (ds & E & Hok & Hne & HV);
    [split; [apply Z.div_pos; lia|apply Z.div_lt_upper_bound; lia]|].
  exists ds. unfold amount_text, digits_text, rem64. rewrite div64_nonneg, Z.rem_mod_nonneg by
    (unfold in64, minInt64, maxInt64; lia).
  pose proof (Z.mod_pos_bound c 100).
  rewrite !bytes_app, E, pad2_digits by lia. split_and!; [|done..]. do 2 f_equal. cbn [map].
  replace (c mod 100 mod 10) with (c mod 10); [done|].
  Z.to_euclidean_division_equations. lia.
Qed.

Definition sign_of (c : Z) : bytes := if c <? 0 then ["-"%char] else [].

Lemma formatAmount_text c : minInt64 < c -> c <= maxInt64 -> exists ds,
  Forall (digit_ok 10) ds /\ ds <> [] /\ of_digits 10 ds = Z.abs c / 100 /\
  bytes_of (formatAmount c) = (sign_of c ++ digits_text (Z.abs c) ds)%list.
Proof.
  unfold minInt64, maxInt64. intros Hlo Hhi.
  destruct (amount_text_exists (Z.abs c)) as (ds & E & Hok & Hne & HV); [unfold maxInt64; lia|].
  exists ds. split_and!; [done..|]. unfold formatAmount, sign_of. rewrite <- E.
  destruct (Z.ltb_spec c 0).
  - rewrite wrap64_id by (unfold in64, minInt64, maxInt64; lia).
    by replace (Z.abs c) with (- c) by lia.
  - by replace (Z.abs c) with c by lia.
Qed.

Lemma amount_trimmed c a ds : Forall (digit_ok 10) ds -> ds <> [] ->
  TrimSpace (string_of (sign_of c ++ digits_text a ds)) = string_of (sign_of c ++ digits_text a ds).
Proof.
  intros Hok Hne. unfold digits_text. destruct ds as [|d ds]; [done|].
  apply Forall_cons in Hok as [Hd _].
  assert (Hl : digit_ok 10 (a mod 10)) by (apply Z.mod_pos_bound; lia).
  apply (TrimSpace_visible (if c <? 0 then "-"%char else decimal d) _ (decimal (a mod 10))).
  - destruct (c <? 0); [done|by apply decimal_visible].
  - by apply decimal_visible.
  - unfold sign_of. by destruct (c <? 0).
  - unfold sign_of. destruct (c <? 0); cbn; eauto.
  - exists (sign_of c ++ map decimal (d :: ds) ++ ["."%char; decimal (a mod 100 / 10)])%list.
    by rewrite <- !app_assoc.
Qed.

(** Both parsers strip the sign and split at the point the same way. *)
Lemma sign_split c a ds : Forall (digit_ok 10) ds -> ds <> [] ->
  let s := (sign_of c ++ digits_text a ds)%list in
  let neg := match s with ch :: _ => bool_decide (ch = "-"%char) | [] => false end in
  neg = (c <? 0) /\
  split_dot (if neg then drop 1 s else s)
  = (map decimal ds, map decimal [a mod 100 / 10; a mod 10]).
Proof.
  intros Hok Hne. unfold sign_of, digits_text. destruct (c <? 0); cbn [app drop].
  - rewrite bool_decide_true by done. split; [done|]. by apply split_dot_decimals.
  - destruct ds as [|d ds]; [done|]. cbn [map app].
    rewrite bool_decide_false by (apply decimal_sign; by apply Forall_cons in Hok as [? _]).
    split; [done|]. by apply (split_dot_decimals (d :: ds)).
Qed.

Lemma ParseInt_frac a : ParseInt (string_of (map decimal [a mod 100 / 10; a mod 10])) = Some (a mod 100).
Proof.
  assert (E : of_digits 10 [a mod 100 / 10; a mod 10] = a mod 100)
    by (cbn; Z.to_euclidean_division_equations; lia).
  rewrite ParseInt_digits; [by rewrite E| |done|rewrite E; pose proof (Z.mod_pos_bound a 100); lia].
  repeat constructor; unfold digit_ok; Z.to_euclidean_division_equations; lia.
Qed.

Lemma signed_cents c : minInt64 < c -> c <= maxInt64 ->
  let cents := add64 (mul64 (Z.abs c / 100) 100) (Z.abs c mod 100) in
  (if c <? 0 then wrap64 (- cents) else cents) = c.
Proof.
  unfold minInt64, maxInt64. intros Hlo Hhi. pose proof (Z.div_mod (Z.abs c) 100).
  pose proof (Z.mod_pos_bound (Z.abs c) 100).
  rewrite mul64_id, add64_id by (unfold in64, minInt64, maxInt64; lia).
  destruct (Z.ltb_spec c 0); [rewrite wrap64_id by (unfold in64, minInt64, maxInt64; lia)|]; lia.
Qed.

Lemma parse_format c : minInt64 < c -> c <= maxInt64 ->
  parseAmountCents (formatAmount c) = if Z.abs c <? (maxAmountReais + 1) * 100 then Some c else None.
Proof.
  intros Hlo Hhi. destruct (formatAmount_text c Hlo Hhi) as (ds & Hok & Hne & HV & E).
  rewrite <- (string_bytes (formatAmount c)), E. unfold parseAmountCents.
  rewrite amount_trimmed, bytes_string by done.
  rewrite bool_decide_false by (unfold sign_of, digits_text; destruct (c <? 0), ds; done).
  destruct (sign_split c (Z.abs c) ds Hok Hne) as [En Es]. cbv zeta. rewrite En in Es |- *.
  rewrite Es, bool_decide_false by (by destruct ds). cbn [orb List.length map Nat.ltb Nat.leb].
  rewrite ParseInt_digits, HV by (done || unfold minInt64, maxInt64 in *;
    rewrite ?HV; Z.to_euclidean_division_equations; lia).
  cbn [mbind option_bind]. rewrite bool_decide_false by done.
  change (pad_frac [decimal (Z.abs c mod 100 / 10); decimal (Z.abs c mod 10)])
    with (map decimal [Z.abs c mod 100 / 10; Z.abs c mod 10]).
  rewrite ParseInt_frac. cbn [mbind option_bind]. rewrite signed_cents by done.
  unfold maxAmountReais. destruct (Z.ltb_spec 1000000000000 (Z.abs c / 100)) as [H|H];
    symmetry; [rewrite (proj2 (Z.ltb_ge _ _))|rewrite (proj2 (Z.ltb_lt _ _))]; try done;
    Z.to_euclidean_division_equations; lia.
Qed.

(** An amount of money survives the trip to the bank and back: the text the adapter
    writes into a charge is read back as the same number of cents when it is under the
    per-charge ceiling, and refused when it is over it, never read as another amount. *)
Theorem amount_roundtrip c : minInt64 < c -> c <= maxInt64 ->
  parseAmountCents (formatAmount c) = if Z.abs c <? (maxAmountReais + 1) * 100 then Some c else None.
Proof. apply parse_format. Qed.
Lemma amount_roundtrip_witness :
  parseAmountCents (formatAmount (-105)) = Some (-105) /\ formatAmount (-105) = "-1.05".
Proof.
  split; [|vm_compute; reflexivity].
  exact (amount_roundtrip (-105) ltac:(reflexivity) ltac:(discriminate)).
Defined.

Lemma trim_quotes_id l c d : c <> asciiZ 34 -> d <> asciiZ 34 ->
  (exists r, l = c :: r) -> (exists r, l = r ++ [d])%list -> trim_quotes l = l.
Proof.
  intros Hc Hd [r1 E1] [r2 E2]. unfold trim_quotes. rewrite E1 at 1.
  rewrite bool_decide_false by done. rewrite <- E1, E2, rev_unit.
  rewrite bool_decide_false by done. cbn [rev]. by rewrite rev_involutive.
Qed.

Lemma brl_roundtrip_signed c : minInt64 < c -> c <= maxInt64 ->
  brlDecimal_UnmarshalJSON (brlDecimal_MarshalJSON c) = Some c.
Proof.
  intros Hlo Hhi. destruct (formatAmount_text c Hlo Hhi) as (ds & Hok & Hne & HV & E).
  unfold brlDecimal_MarshalJSON. rewrite <- (string_bytes (formatAmount c)), E.
  unfold brlDecimal_UnmarshalJSON. rewrite amount_trimmed, bytes_string by done.
  assert (Hq : trim_quotes (sign_of c ++ digits_text (Z.abs c) ds)
               = (sign_of c ++ digits_text (Z.abs c) ds)%list).
  { destruct ds as [|d ds]; [done|]. pose proof (Forall_inv Hok) as Hd.
    assert (Hl : digit_ok 10 (Z.abs c mod 10)) by (apply Z.mod_pos_bound; lia).
    apply (trim_quotes_id _ (if c <? 0 then "-"%char else decimal d) (decimal (Z.abs c mod 10))).
    - destruct (c <? 0); [done|]. by apply decimal_quote.
    - by apply decimal_quote.
    - unfold sign_of. destruct (c <? 0); cbn; eauto.
    - exists (sign_of c ++ map decimal (d :: ds) ++ ["."%char; decimal (Z.abs c mod 100 / 10)])%list.
      unfold digits_text. by rewrite <- !app_assoc. }
  rewrite Hq. rewrite (bool_decide_false (_ = [])), (bool_decide_false (_ = bytes_of "null")).
  2:{ unfold sign_of, digits_text. destruct (c <? 0); [done|].
      destruct ds as [|d ds]; [done|]. pose proof (Forall_inv Hok) as Hd. intros [= E1 _].
      pose proof (proj1 (digit_decimal d Hd)) as H. by rewrite E1 in H. }
  2:{ unfold sign_of, digits_text. by destruct (c <? 0), ds. }
  destruct (sign_split c (Z.abs c) ds Hok Hne) as [En Es]. cbv zeta. rewrite En in Es |- *.
  cbn [orb]. rewrite Es, bool_decide_false by (by destruct ds).
  rewrite ParseInt_digits, HV by (done || unfold minInt64, maxInt64 in *;
    rewrite ?HV; Z.to_euclidean_division_equations; lia).
  cbn [mbind option_bind].
  change (pad_frac (take 2 (map decimal [Z.abs c mod 100 / 10; Z.abs c mod 10])))
    with (map decimal [Z.abs c mod 100 / 10; Z.abs c mod 10]).
  rewrite ParseInt_frac. cbn [mbind option_bind]. by rewrite signed_cents.
Qed.

(** The boleto's money field: every int64 number of cents, the least one included,
    is read back exactly from the JSON number the adapter writes for it. *)
Theorem brl_roundtrip d : in64 d ->
  brlDecimal_UnmarshalJSON (brlDecimal_MarshalJSON d) = Some d.
Proof.
  intros [Hlo Hhi]. apply Z.le_lteq in Hlo as [Hlo|<-]; [by apply brl_roundtrip_signed|].
  vm_compute. reflexivity.
Qed.
Lemma brl_roundtrip_witness :
  brlDecimal_UnmarshalJSON (brlDecimal_MarshalJSON minInt64) = Some minInt64.
Proof. apply brl_roundtrip. split; discriminate. Defined.

(** What the amount parser's comment calls an error and is not one: signs inside the
    number, a magnitude under a second sign that is read as another number altogether,
    and, in the boleto's field, an amount that wraps. *)
Theorem malformed_amounts :
  parseAmountCents "1.-5" = Some 95 /\ parseAmountCents "--5" = Some 500 /\
  parseAmountCents "10.+5" = Some 1005 /\
  parseAmountCents "--99999999999999999" = Some (-8446744073709551716) /\
  brlDecimal_UnmarshalJSON "99999999999999999.00" = Some (-8446744073709551716).
Proof. vm_compute. repeat split. Qed.

(** * References *)
Lemma crockford_symbols i n out :
  crockford_loop i n out = (map symbol (to_digits 32 i n) ++ out)%list.
Proof.
  revert n out. induction i as [|i IH]; intros n out; [done|]. cbn [crockford_loop to_digits].
  by rewrite IH, map_app, <- app_assoc.
Qed.

(** The alphabet lists 32 distinct symbols, all digits or capitals. *)
Lemma symbol_facts d : digit_ok 32 d ->
  IndexByte (bytes_of externalRefAlphabet) (symbol d) = Some (Z.to_nat d) /\
  ((48 <=? byteZ (symbol d)) && (byteZ (symbol d) <=? 57))
  || ((65 <=? byteZ (symbol d)) && (byteZ (symbol d) <=? 90)) = true.
Proof.
  intros Hd. assert (HA : forallb (fun i =>
      bool_decide (IndexByte (bytes_of externalRefAlphabet) (symbol (Z.of_nat i)) = Some i)
      && (((48 <=? byteZ (symbol (Z.of_nat i))) && (byteZ (symbol (Z.of_nat i)) <=? 57))
          || ((65 <=? byteZ (symbol (Z.of_nat i))) && (byteZ (symbol (Z.of_nat i)) <=? 90))))
      (seq 0 32) = true) by (vm_compute; reflexivity).
  rewrite forallb_forall in HA. specialize (HA (Z.to_nat d)).
  unfold digit_ok in Hd. rewrite Z2Nat.id in HA by lia.
  rewrite andb_true_iff, bool_decide_eq_true in HA. apply HA, in_seq. lia.
Qed.

Lemma IndexByte_symbol c i : IndexByte (bytes_of externalRefAlphabet) c = Some i ->
  digit_ok 32 (Z.of_nat i) /\ symbol (Z.of_nat i) = c.
Proof.
  unfold IndexByte. destruct (list_find _ _) as [[j c']|] eqn:E; [|done].
  cbn [fst fmap option_fmap option_map]. intros [= <-].
  apply list_find_Some in E as (Hj & -> & _). split.
  - apply lookup_lt_Some in Hj. unfold digit_ok. cbn in Hj. lia.
  - unfold symbol. rewrite Nat2Z.id. by apply nth_lookup_Some.
Qed.

Lemma ref_steps_None l : foldl ref_step None l = None.
Proof. by induction l. Qed.

Lemma ref_steps_symbols ds n : Forall (digit_ok 32) ds ->
  foldl ref_step (Some n) (map symbol ds) = Some (foldl (fun v d => v * 32 + d) n ds).
Proof.
  revert n. induction ds as [|d ds IH]; intros n Hds; [done|].
  apply Forall_cons in Hds as [Hd Hds]. cbn [map foldl]. unfold ref_step at 2.
  rewrite (proj1 (symbol_facts d Hd)). cbn [mbind option_bind].
  unfold digit_ok in Hd. rewrite Z2Nat.id by lia. by apply IH.
Qed.

Lemma ref_steps_Some l n v : foldl ref_step (Some n) l = Some v ->
  exists ds, Forall (digit_ok 32) ds /\ l = map symbol ds /\
             v = foldl (fun v d => v * 32 + d) n ds.
Proof.
  revert n. induction l as [|c l IH]; intros n; cbn [foldl].
  - intros [= <-]. by exists [].
  - unfold ref_step at 2. cbn [mbind option_bind].
    destruct (IndexByte _ c) as [i|] eqn:E; cbn [mbind option_bind];
      [|by rewrite ref_steps_None].
    intros (ds & Hds & -> & ->)%IH. apply IndexByte_symbol in E as [Hi <-].
    exists (Z.of_nat i :: ds). split_and!; [by constructor|done|done].
Qed.

(** The identifier's bytes as a number, and back. *)
Lemma bytes_digits raw : Forall (digit_ok 256) (map byteZ raw).
Proof. apply Forall_map, Forall_forall. intros c _. apply byteZ_bounds. Qed.

Lemma set_bytes_bounds raw : List.length raw = externalRefBytes -> 0 <= set_bytes raw < 2 ^ 128.
Proof.
  intros HL. pose proof (of_digits_bounds 256 ltac:(lia) _ (bytes_digits raw)) as Hb.
  by rewrite length_map, HL in Hb.
Qed.

Definition bytes16 (n : Z) : bytes := map asciiZ (to_digits 256 externalRefBytes n).

Lemma set_bytes16 n : 0 <= n < 2 ^ 128 ->
  set_bytes (bytes16 n) = n /\ List.length (bytes16 n) = externalRefBytes.
Proof.
  intros Hn. unfold set_bytes, bytes16. rewrite length_map, length_to_digits. split; [|done].
  rewrite map_map, (map_ext_Forall _ id).
  - rewrite map_id. apply of_to_digits; [lia|]. exact Hn.
  - eapply Forall_impl; [apply (to_digits_ok 256); lia|]. intros d. apply byteZ_asciiZ.
Qed.

Lemma bytes16_set raw : List.length raw = externalRefBytes -> bytes16 (set_bytes raw) = raw.
Proof.
  intros HL. unfold bytes16, set_bytes. rewrite <- HL, <- (length_map byteZ raw).
  rewrite to_of_digits by (lia || apply bytes_digits).
  rewrite map_map. rewrite (map_ext _ id), map_id; [done|]. apply asciiZ_byteZ.
Qed.

(** Padding the minimal bytes of a number restores its sixteen. *)
Lemma padded_bytes n : 0 <= n < 2 ^ 128 ->
  (List.length (big_bytes n) <= externalRefBytes)%nat /\
  (repeat (asciiZ 0) (externalRefBytes - List.length (big_bytes n)) ++ big_bytes n)%list = bytes16 n.
Proof.
  intros Hn. unfold big_bytes, bytes16. destruct (Z.eqb_spec n 0) as [->|Hz].
  - split; [cbn; lia|]. vm_compute. reflexivity.
  - set (k := Z.to_nat (Z.log2 n / 8 + 1)). rewrite length_map, length_to_digits.
    pose proof (Z.log2_nonneg n). pose proof (Z.log2_spec n ltac:(lia)) as [_ Hlog].
    assert (HL : Z.log2 n < 128) by (apply Z.log2_lt_pow2; lia).
    assert (Hk : Z.of_nat k = Z.log2 n / 8 + 1)
      by (unfold k; apply Z2Nat.id; Z.to_euclidean_division_equations; lia).
    assert (k <= 16)%nat by (Z.to_euclidean_division_equations; lia).
    assert (Hb : 0 <= n < 256 ^ Z.of_nat k).
    { split; [lia|]. eapply Z.lt_le_trans; [apply Hlog|]. rewrite Hk.
      change 256 with (2 ^ 8). rewrite <- Z.pow_mul_r by (Z.to_euclidean_division_equations; lia).
      apply Z.pow_le_mono_r; Z.to_euclidean_division_equations; lia. }
    split; [unfold externalRefBytes; lia|].
    replace (repeat (asciiZ 0) (externalRefBytes - k))
      with (map asciiZ (repeat 0 (externalRefBytes - k))) by apply map_repeat.
    rewrite <- map_app, <- to_digits_pad by (lia || done). do 2 f_equal. unfold externalRefBytes. lia.
Qed.


Lemma encode_spec raw : List.length raw = externalRefBytes ->
  encodeCrockford raw = string_of (map symbol (to_digits 32 externalRefLen (set_bytes raw))).
Proof. intros HL. unfold encodeCrockford. by rewrite crockford_symbols, app_nil_r. Qed.

Lemma externalReferenceID_encodes id : exists raw, List.length raw = externalRefBytes /\
  externalReferenceID id = encodeCrockford raw.
Proof.
  assert (Hh : List.length (take externalRefBytes (sha256 (bytes_of id))) = externalRefBytes)
    by (rewrite length_take, length_sha256; done).
  unfold externalReferenceID. destruct (hex_decode (bytes_of id)) as [raw|]; [|by eauto].
  destruct (Nat.eqb_spec (List.length raw) externalRefBytes); eauto.
Qed.

Lemma externalReferenceID_hex raw : List.length raw = externalRefBytes ->
  externalReferenceID (hex raw) = encodeCrockford raw.
Proof.
  intros HL. unfold externalReferenceID. by rewrite hex_roundtrip, HL, Nat.eqb_refl.
Qed.

Lemma decode_symbols ds : Forall (digit_ok 32) ds -> List.length ds = externalRefLen ->
  boletoIDFromExternalReference (string_of (map symbol ds)) =
  let n := of_digits 32 ds in if n <? 2 ^ 128 then Some (hex (bytes16 n)) else None.
Proof.
  intros Hd HL. unfold boletoIDFromExternalReference.
  rewrite length_string, length_map, HL, bytes_string, ref_steps_symbols by done.
  cbn [mbind option_bind Nat.eqb externalRefLen negb].
  fold (of_digits 32 ds). pose proof (of_digits_bounds 32 ltac:(lia) ds Hd) as [Hn _].
  destruct (Z.ltb_spec (of_digits 32 ds) (2 ^ 128)) as [Hlt|Hge].
  - destruct (padded_bytes (of_digits 32 ds) ltac:(lia)) as [Hle ->].
    by rewrite (proj2 (Nat.ltb_ge _ _)).
  - rewrite (proj2 (Nat.ltb_lt _ _)); [done|]. unfold big_bytes.
    rewrite (proj2 (Z.eqb_neq _ _)) by lia. rewrite length_map, length_to_digits.
    assert (128 <= Z.log2 (of_digits 32 ds)) by (apply Z.log2_le_pow2; lia).
    unfold externalRefBytes. Z.to_euclidean_division_equations. lia.
Qed.

(** References and identifiers are in bijection: a reference decodes to an identifier
    exactly when the identifier is sixteen bytes in hexadecimal and that is the reference
    derived from it; so deriving and decoding is the identity and two such identifiers
    never share a reference. *)
Theorem reference_bijection ref id :
  boletoIDFromExternalReference ref = Some id <->
  exists raw, List.length raw = externalRefBytes /\ id = hex raw /\ externalReferenceID id = ref.
Proof.
  split.
  - intros H. assert (Hs : exists ds, Forall (digit_ok 32) ds /\ List.length ds = externalRefLen /\
                                      ref = string_of (map symbol ds)).
    { unfold boletoIDFromExternalReference in H.
      destruct (Nat.eqb_spec (String.length ref) externalRefLen) as [HL|]; [|done]. cbn [negb] in H.
      destruct (foldl ref_step (Some 0) (bytes_of ref)) as [n|] eqn:E; [|done].
      apply ref_steps_Some in E as (ds & Hds & E & _). exists ds. split_and!; [done| |].
      - by rewrite <- (length_map symbol), <- E, length_bytes.
      - by rewrite <- E, string_bytes. }
    destruct Hs as (ds & Hds & HL & ->). rewrite decode_symbols in H by done. cbv zeta in H.
    pose proof (of_digits_bounds 32 ltac:(lia) ds Hds) as [Hn _].
    destruct (Z.ltb_spec (of_digits 32 ds) (2 ^ 128)) as [Hlt|]; [|done]. injection H as <-.
    destruct (set_bytes16 (of_digits 32 ds)) as [Hv Hlen]; [lia|].
    exists (bytes16 (of_digits 32 ds)). split_and!; [done..|].
    rewrite externalReferenceID_hex, encode_spec, Hv by done.
    by rewrite <- HL, to_of_digits by (done || lia).
  - intros (raw & HL & -> & <-). rewrite externalReferenceID_hex, encode_spec by done.
    pose proof (set_bytes_bounds raw HL).
    rewrite decode_symbols by (apply to_digits_ok || apply length_to_digits; lia). cbv zeta.
    rewrite of_to_digits by (unfold externalRefLen; cbn; lia).
    rewrite (proj2 (Z.ltb_lt _ _)) by lia. by rewrite bytes16_set.
Qed.

Lemma reference_valid id : validExternalReference (externalReferenceID id) = true.
Proof.
  destruct (externalReferenceID_encodes id) as (raw & HL & ->). rewrite encode_spec by done.
  unfold validExternalReference. rewrite length_string, length_map, length_to_digits, bytes_string.
  rewrite Nat.eqb_refl. apply forallb_forall. intros c (d & <- & Hd)%in_map_iff.
  apply symbol_facts. pose proof (to_digits_ok 32 ltac:(lia) externalRefLen (set_bytes raw)) as H.
  rewrite Forall_forall in H. by apply H, list_elem_of_In.
Qed.
Lemma symbol_visible d : digit_ok 32 d -> visible (symbol d) = true.
Proof.
  intros Hd. assert (HA : forallb (fun i => visible (symbol (Z.of_nat i))) (seq 0 32) = true)
    by (vm_compute; reflexivity).
  rewrite forallb_forall in HA. specialize (HA (Z.to_nat d)). unfold digit_ok in Hd.
  rewrite Z2Nat.id in HA by lia. apply HA, in_seq. lia.
Qed.
Lemma reference_trimmed id : TrimSpace (externalReferenceID id) = externalReferenceID id.
Proof.
  destruct (externalReferenceID_encodes id) as (raw & HL & ->). rewrite encode_spec by done.
  pose proof (to_digits_ok 32 ltac:(lia) externalRefLen (set_bytes raw)) as Hok.
  pose proof (length_to_digits 32 externalRefLen (set_bytes raw)) as Hlen.
  destruct (to_digits 32 externalRefLen (set_bytes raw)) as [|d ds]; [done|].
  destruct (exists_last (l:=d :: ds)) as (l' & e & El); [done|].
  apply (TrimSpace_visible (symbol d) _ (symbol e)).
  - apply symbol_visible. by apply Forall_inv in Hok.
  - apply symbol_visible. rewrite El in Hok. apply Forall_app in Hok as [_ Hok]. by apply Forall_inv in Hok.
  - done.
  - by eexists.
  - exists (map symbol l'). by rewrite El, map_app.
Qed.

(** C40. Whatever the identifier, the reference derived from it is one the bank's contract
    accepts: twenty-six digits or capitals. *)
Theorem reference_contract id : validExternalReference (externalReferenceID id) = true.
Proof. exact (reference_valid id). Qed.

Lemma substring_string n l : String.substring 0 n (string_of l) = string_of (take n l).
Proof.
  revert l. induction n as [|n IH]; intros [|c l]; [done..|]. exact (f_equal (String c) (IH l)).
Qed.

(** The short reference: ten symbols of which the first is one of eight, so that the
    namespace has forty-eight bits and not fifty. *)
Theorem v1_reference_namespace id : exists ds,
  Forall (digit_ok 32) ds /\ List.length ds = bankSlipV1RefMaxLen /\
  externalReferenceV1 id = string_of (map symbol ds) /\ of_digits 32 ds < 2 ^ 48.
Proof.
  destruct (externalReferenceID_encodes id) as (raw & HL & E).
  rewrite encode_spec in E by done.
  assert (Ht : to_digits 32 externalRefLen (set_bytes raw) =
    (to_digits 32 bankSlipV1RefMaxLen (set_bytes raw / 2 ^ 80) ++
     to_digits 32 16 (set_bytes raw))%list).
  { clear. generalize (set_bytes raw). intros n. unfold externalRefLen, bankSlipV1RefMaxLen.
    cbn [to_digits]. rewrite <- !app_assoc. cbn [app]. rewrite !Z.div_div by lia.
    done. }
  pose proof (set_bytes_bounds raw HL) as Hb. set (m := set_bytes raw / 2 ^ 80) in *.
  exists (to_digits 32 bankSlipV1RefMaxLen m). split_and!.
  - apply to_digits_ok. lia.
  - apply length_to_digits.
  - unfold externalReferenceV1. rewrite E, length_string, length_map, length_to_digits.
    cbn [Nat.ltb Nat.leb externalRefLen bankSlipV1RefMaxLen].
    rewrite substring_string, Ht, map_app, take_app_length'; [done|].
    by rewrite length_map, length_to_digits.
  - assert (0 <= m < 2 ^ 48) by (unfold m; split; [apply Z.div_pos|apply Z.div_lt_upper_bound]; lia).
    rewrite of_to_digits by (done || unfold bankSlipV1RefMaxLen; cbn; lia). lia.
Qed.
