(* ===== verification/C6Boleto.v ===== *)
(** internal/adapters/bank/c6/boleto.go: the boleto on the bank's wire: what a request and
    an amendment become, and how the bank's answer is read back. *)
From S2P Require Import Prelude GoStrings GoTime GoFloat GoCrypto GoText Shared Ports BankPorts C6Codec.
From S2P Require Import Boletos Issuing IssuingContracts BoletoAmend.

(** The adapter's error wraps the sentinel; its text is the detail. *)
Definition c6_invalid {A} (detail : string) : res A := Err (Wrap detail ErrValidation).

(** [utf8.RuneCountInString]: an invalid byte counts for one. *)
Fixpoint rune_count (fuel : nat) (l : bytes) : Z :=
  match fuel, l with
  | S fuel, _ :: _ => 1 + rune_count fuel (drop (Nat.max 1 (rune_len l)) l)
  | _, _ => 0
  end.
Definition RuneCount (s : string) : Z := rune_count (String.length s) (bytes_of s).
Definition tooLong (s : string) (n : Z) : bool := n <? RuneCount s.

(** * The wire *)
Record bankSlipFees := {
  bsf_FineValue : option Z;
  bsf_FineType : string;
  bsf_InterestValue : option Z;
  bsf_InterestType : string;
  bsf_DiscountType : string;
  bsf_FirstDiscountValue : option Z;
  bsf_FirstDiscountDeadline : option Z
}.
Definition feeTypeFixedValue : string := "FIXED_VALUE".
Definition feeTypePercentage : string := "PERCENTAGE".
Definition feeTypeValuePerDay : string := "VALUE_PER_DAY".
Definition feeTypeMonthlyPercentage : string := "MONTHLY_PERCENTAGE".
Definition pixKeyTypeEVP : string := "EVP".
Definition dueDate_text (t : Time) : string := Format_date t.

Record bankSlipAddressBody := {
  bsa_Address : string; bsa_Neighborhood : string; bsa_City : string; bsa_State : string;
  bsa_ZipCode : string
}.
Record bankSlipPayerBody := {
  bsp_Name : string; bsp_TaxID : string; bsp_Address : bankSlipAddressBody
}.
Record bankSlipRequestBody := {
  bsr_ExternalReferenceID : string;
  bsr_Amount : Z;
  bsr_DueDate : string;
  bsr_Description : string;
  bsr_DaysAfterDueDate : option Z;
  bsr_Payer : bankSlipPayerBody;
  bsr_Fees : option bankSlipFees;
  bsr_BillingScheme : string;
  bsr_Pix : option (string * string)  (* key and type *)
}.
(** The members of the answer the adapter reads. *)
Record bankSlipResponseBody := {
  bso_ID : string;
  bso_ExternalReferenceID : string;
  bso_Amount : Z;
  bso_DueDate : string;
  bso_Status : string;
  bso_DaysAfterDueDate : Z;
  bso_Fees : option bankSlipFees;
  bso_DigitableLine : string;
  bso_BarCode : string;
  bso_OurNumber : string;
  bso_QRCode : string
}.

(** * Fees *)
Definition request_fees (r : BoletoRequest) : BoletoFeesPatch :=
  {| bfp_FineBps := brq_FineBps r; bfp_FineFixedCents := brq_FineFixedCents r;
     bfp_MonthlyInterestBps := brq_MonthlyInterestBps r; bfp_Discounts := brq_Discounts r |}.

Definition toBankSlipFees (f : BoletoFeesPatch) : res (option bankSlipFees) :=
  let fine :=
    if 0 <? bfp_FineBps f then Some (bfp_FineBps f, feeTypePercentage)
    else if 0 <? bfp_FineFixedCents f then Some (bfp_FineFixedCents f, feeTypeFixedValue)
    else None in
  let interest :=
    if 0 <? bfp_MonthlyInterestBps f
    then Some (bfp_MonthlyInterestBps f, feeTypeMonthlyPercentage) else None in
  let? discount :=
    match bfp_Discounts f with
    | [] => Ok None
    | [d] =>
        if 0 <? bdt_Bps d
        then Ok (Some (feeTypeMonthlyPercentage, bdt_Bps d, bdt_DaysBeforeDue d))
        else if 0 <? bdt_FixedCents d
        then Ok (Some (feeTypeValuePerDay, bdt_FixedCents d, bdt_DaysBeforeDue d))
        else Ok None
    | _ => c6_invalid "bank supports at most one discount tier"
    end in
  match fine, interest, discount with
  | None, None, None => Ok None
  | _, _, _ =>
      Ok (Some {| bsf_FineValue := fst <$> fine;
                  bsf_FineType := from_option snd "" fine;
                  bsf_InterestValue := fst <$> interest;
                  bsf_InterestType := from_option snd "" interest;
                  bsf_DiscountType := from_option (fun d => fst (fst d)) "" discount;
                  bsf_FirstDiscountValue := (fun d => snd (fst d)) <$> discount;
                  bsf_FirstDiscountDeadline := snd <$> discount |})
  end.

(** The fees of a result before and after the echo is applied: fine rate, fixed fine,
    interest and discounts. *)
Definition applyBankSlipFees (fees : option bankSlipFees) : BoletoFeesPatch :=
  match fees with
  | None => {| bfp_FineBps := 0; bfp_FineFixedCents := 0; bfp_MonthlyInterestBps := 0;
               bfp_Discounts := [] |}
  | Some f =>
      {| bfp_FineBps :=
           match bsf_FineValue f with
           | Some v => if bool_decide (bsf_FineType f = feeTypePercentage) then v else 0
           | None => 0 end;
         bfp_FineFixedCents :=
           match bsf_FineValue f with
           | Some v => if bool_decide (bsf_FineType f = feeTypeFixedValue) then v else 0
           | None => 0 end;
         bfp_MonthlyInterestBps :=
           match bsf_InterestValue f with
           | Some v => if bool_decide (bsf_InterestType f = feeTypeMonthlyPercentage) then v else 0
           | None => 0 end;
         bfp_Discounts :=
           match bsf_FirstDiscountValue f with
           | Some v =>
               [{| bdt_DaysBeforeDue := default 0 (bsf_FirstDiscountDeadline f);
                   bdt_Bps := if bool_decide (bsf_DiscountType f = feeTypeMonthlyPercentage)
                              then v else 0;
                   bdt_FixedCents := if bool_decide (bsf_DiscountType f = feeTypeValuePerDay)
                                     then v else 0 |}]
           | None => [] end |}
  end.

(** * Dates *)
Definition daysAfterDueDate (dueDate validUntil : Time) : option Z :=
  if IsZero validUntil || negb (After validUntil dueDate) then None
  else
    let days := whole_days (Sub validUntil dueDate) in
    if days <=? 0 then None else Some days.

(** * The payer *)
Definition payerStreet (a : BoletoAddress) : string :=
  let street := TrimSpace (bad_Street a) in
  if 0 <? bad_Number a then (street ++ ", " ++ FormatInt (bad_Number a))%string else street.

Definition validatePayer (p : BoletoPayer) : res unit :=
  refuse (bool_decide (bpy_Name p = "")) with (Wrap "missing required payer.name" ErrValidation) ;;
  refuse (bool_decide (bpy_TaxID p = "")) with (Wrap "missing required payer.tax_id" ErrValidation) ;;
  refuse (bool_decide (bad_Street (bpy_Address p) = ""))
    with (Wrap "missing required payer.address.street" ErrValidation) ;;
  refuse (bool_decide (bad_City (bpy_Address p) = ""))
    with (Wrap "missing required payer.address.city" ErrValidation) ;;
  refuse (bool_decide (bad_State (bpy_Address p) = ""))
    with (Wrap "missing required payer.address.state" ErrValidation) ;;
  refuse (bool_decide (bad_ZipCode (bpy_Address p) = ""))
    with (Wrap "missing required payer.address.zip_code" ErrValidation) ;;
  Ok tt.

(** ** Check digits *)
Definition digits (s : string) : list Z := map digit_val (bytes_of s).
Definition allSameDigit (ds : list Z) : bool :=
  match ds with [] => false | d :: rest => forallb (Z.eqb d) rest end.
Definition check_digit (sum : Z) : Z :=
  let r := 11 - sum mod 11 in if r <? 10 then r else 0.

(** The weights run from the length plus one down to two. *)
Fixpoint descending_sum (ds : list Z) : Z :=
  match ds with
  | [] => 0
  | d :: rest => d * (Z.of_nat (List.length ds) + 1) + descending_sum rest
  end.
Definition mod11CheckDigit (ds : list Z) : Z := check_digit (descending_sum ds).
(** The weights cycle from two to nine, from the right. *)
Fixpoint cycling_sum (weight : Z) (rds : list Z) : Z :=
  match rds with
  | [] => 0
  | d :: rest => d * weight + cycling_sum (if 9 <? weight + 1 then 2 else weight + 1) rest
  end.
Definition cnpjCheckDigit (ds : list Z) : Z := check_digit (cycling_sum 2 (rev ds)).

Definition nth_digit (ds : list Z) (i : nat) : Z := nth i ds 0.
Definition validCPFCheckDigits (ds : list Z) : bool :=
  if allSameDigit ds then false
  else (mod11CheckDigit (take 9 ds) =? nth_digit ds 9)
       && (mod11CheckDigit (take 10 ds) =? nth_digit ds 10).
Definition validCNPJCheckDigits (ds : list Z) : bool :=
  if allSameDigit ds then false
  else (cnpjCheckDigit (take 12 ds) =? nth_digit ds 12)
       && (cnpjCheckDigit (take 13 ds) =? nth_digit ds 13).
Definition validTaxIDDigits (s : string) : bool :=
  if negb (all_digits s) then false
  else if len s =? 11 then validCPFCheckDigits (digits s)
  else if len s =? 14 then validCNPJCheckDigits (digits s)
  else false.
Definition validZipDigits (s : string) : bool := (len s =? 8) && all_digits s.
Definition validUFCode (s : string) : bool := (len s =? 2) && forallb upper_letter (bytes_of s).

(** ** Field limits *)
Definition maxDescriptionLen : Z := 100.
Definition maxPayerNameLen : Z := 40.
Definition maxAddressLineLen : Z := 40.
Definition maxNeighborhoodLen : Z := 40.
Definition maxCityLen : Z := 40.
Definition maxAmountCents : Z := 500000000.

Definition validateBankSlipLimits (r : BoletoRequest) (description : string) : res unit :=
  let p := brq_Payer r in
  let a := bpy_Address p in
  let bad d := Wrap d ErrValidation in
  refuse (maxAmountCents <? brq_AmountCents r)
    with (bad "amount exceeds the bank maximum of BRL 5,000,000.00") ;;
  refuse (tooLong description maxDescriptionLen) with (bad "description is too long") ;;
  refuse (tooLong (bpy_Name p) maxPayerNameLen) with (bad "payer.name is too long") ;;
  refuse (tooLong (payerStreet a) maxAddressLineLen)
    with (bad "payer.address street and number exceed the combined limit") ;;
  refuse (tooLong (bad_Neighborhood a) maxNeighborhoodLen)
    with (bad "payer.address.neighborhood is too long") ;;
  refuse (tooLong (bad_City a) maxCityLen) with (bad "payer.address.city is too long") ;;
  refuse (negb (validTaxIDDigits (bpy_TaxID p)))
    with (bad "payer.tax_id must be a valid CPF (11 digits) or CNPJ (14 digits), unmasked") ;;
  refuse (negb (validUFCode (bad_State a)))
    with (bad "payer.address.state must be a two-letter UF") ;;
  refuse (negb (validZipDigits (bad_ZipCode a)))
    with (bad "payer.address.zip_code must be 8 digits") ;;
  Ok tt.

(** The request with its UF in upper case. *)
Definition with_UF (r : BoletoRequest) : BoletoRequest :=
  let p := brq_Payer r in
  let a := bpy_Address p in
  {| brq_TenantID := brq_TenantID r; brq_BoletoID := brq_BoletoID r;
     brq_AmountCents := brq_AmountCents r; brq_Currency := brq_Currency r;
     brq_DueDate := brq_DueDate r; brq_ValidUntil := brq_ValidUntil r;
     brq_FineBps := brq_FineBps r; brq_FineFixedCents := brq_FineFixedCents r;
     brq_MonthlyInterestBps := brq_MonthlyInterestBps r; brq_Discounts := brq_Discounts r;
     brq_Payer := {| bpy_Name := bpy_Name p; bpy_TaxID := bpy_TaxID p;
       bpy_Address := {| bad_Street := bad_Street a; bad_Number := bad_Number a;
                         bad_Neighborhood := bad_Neighborhood a; bad_City := bad_City a;
                         bad_State := ToUpper (TrimSpace (bad_State a));
                         bad_ZipCode := bad_ZipCode a |} |};
     brq_Description := brq_Description r; brq_IdempotencyKey := brq_IdempotencyKey r;
     brq_Modality := brq_Modality r |}.

Definition toBankSlipRequestBody (billingScheme : string) (r : BoletoRequest) (pixKey : string)
    : res bankSlipRequestBody :=
  let? _ := validatePayer (brq_Payer r) in
  refuse (blank (bad_Neighborhood (bpy_Address (brq_Payer r))))
    with (Wrap "payer neighborhood is required" ErrValidation) ;;
  let description := TrimSpace (brq_Description r) in
  refuse (bool_decide (description = ""))
    with (Wrap "description is required" ErrValidation) ;;
  let r := with_UF r in
  let? _ := validateBankSlipLimits r description in
  let? fees := toBankSlipFees (request_fees r) in
  let? pix :=
    (if bool_decide (Modality_Normalized (brq_Modality r) = ModalityBolepix) then
       let k := TrimSpace pixKey in
       refuse (bool_decide (k = ""))
         with (Wrap "bolepix requires a registered random (EVP) pix key for the tenant"
                 ErrValidation) ;;
       Ok (Some (k, pixKeyTypeEVP))
     else Ok None) in
  let a := bpy_Address (brq_Payer r) in
  Ok {| bsr_ExternalReferenceID := externalReferenceID (brq_BoletoID r);
        bsr_Amount := brq_AmountCents r;
        bsr_DueDate := dueDate_text (brq_DueDate r);
        bsr_Description := description;
        bsr_DaysAfterDueDate := daysAfterDueDate (brq_DueDate r) (brq_ValidUntil r);
        bsr_Payer :=
          {| bsp_Name := bpy_Name (brq_Payer r);
             bsp_TaxID := bpy_TaxID (brq_Payer r);
             bsp_Address := {| bsa_Address := payerStreet a;
                               bsa_Neighborhood := TrimSpace (bad_Neighborhood a);
                               bsa_City := bad_City a; bsa_State := bad_State a;
                               bsa_ZipCode := bad_ZipCode a |} |};
        bsr_Fees := fees;
        bsr_BillingScheme := billingScheme;
        bsr_Pix := pix |}.

(** * The answer *)
Definition toBankSlipResult (boletoID : string) (out : bankSlipResponseBody) : BoletoResult :=
  let due := if bool_decide (bso_DueDate out = "") then None else Parse_date (bso_DueDate out) in
  let fees := applyBankSlipFees (bso_Fees out) in
  {| br_BoletoID := boletoID;
     br_TxID := bso_ID out;
     br_Status := bso_Status out;
     br_Modality := if negb (bool_decide (bso_QRCode out = "")) then ModalityBolepix
                    else ModalityBoleto;
     br_ExternalReferenceID := bso_ExternalReferenceID out;
     br_QRCode := bso_QRCode out;
     br_OurNumber := bso_OurNumber out;
     br_DigitableLine := bso_DigitableLine out;
     br_Barcode := bso_BarCode out;
     br_AmountCents := bso_Amount out;
     br_DueDate := default zeroTime due;
     br_ValidUntil :=
       match due with
       | Some t => if 0 <? bso_DaysAfterDueDate out then AddDays t (bso_DaysAfterDueDate out)
                   else zeroTime
       | None => zeroTime
       end;
     br_FineBps := bfp_FineBps fees;
     br_FineFixedCents := bfp_FineFixedCents fees;
     br_MonthlyInterestBps := bfp_MonthlyInterestBps fees;
     br_Discounts := bfp_Discounts fees |}.

(** * Amendments *)
Record bankSlipPatchBody := {
  bsb_Amount : option Z;
  bsb_DueDate : option string;
  bsb_Description : option string;
  bsb_DaysAfterDueDate : option Z;
  bsb_Fees : option bankSlipFees
}.
Definition toBankSlipPatchBody (p : BoletoPatch) : res bankSlipPatchBody :=
  refuse (match bpt_AmountCents p with Some a => maxAmountCents <? a | None => false end)
    with (Wrap "amount exceeds the bank maximum of BRL 5,000,000.00" ErrValidation) ;;
  refuse (match bpt_Description p with
          | Some d => tooLong (TrimSpace d) maxDescriptionLen | None => false end)
    with (Wrap "description is too long" ErrValidation) ;;
  let? days :=
    match bpt_ValidUntil p, bpt_DueDate p with
    | Some _, None =>
        c6_invalid "valid_until requires due_date: the bank counts expiry in days after the due date"
    | Some v, Some d => Ok (daysAfterDueDate d v)
    | None, _ => Ok None
    end in
  let? fees := match bpt_Fees p with Some f => toBankSlipFees f | None => Ok None end in
  Ok {| bsb_Amount := bpt_AmountCents p;
        bsb_DueDate := dueDate_text <$> bpt_DueDate p;
        bsb_Description := TrimSpace <$> bpt_Description p;
        bsb_DaysAfterDueDate := days;
        bsb_Fees := fees |}.
Definition patch_empty (b : bankSlipPatchBody) : bool :=
  negb (is_set (bsb_Amount b) || is_set (bsb_DueDate b) || is_set (bsb_Description b)
        || is_set (bsb_DaysAfterDueDate b) || is_set (bsb_Fees b)).

(** * Fees there and back *)
Record fees_ok (f : BoletoFeesPatch) : Prop := {
  fok_fine : 0 <= bfp_FineBps f;
  fok_fixed : 0 <= bfp_FineFixedCents f;
  fok_one : 0 < bfp_FineFixedCents f -> bfp_FineBps f = 0;
  fok_interest : 0 <= bfp_MonthlyInterestBps f;
  fok_tiers : Forall (fun d => 0 <= bdt_Bps d /\ 0 <= bdt_FixedCents d /\
                               (0 < bdt_Bps d <-> bdt_FixedCents d = 0)) (bfp_Discounts f)
}.

Lemma fees_roundtrip f : fees_ok f ->
  match toBankSlipFees f with
  | Ok w => applyBankSlipFees w = f
  | Err _ => (1 < List.length (bfp_Discounts f))%nat
  end.
Proof.
  intros [H1 H2 H3 H4 H5]. destruct f as [fine fixed_ interest tiers]. cbn in *.
  unfold toBankSlipFees. cbn [bfp_FineBps bfp_FineFixedCents bfp_MonthlyInterestBps bfp_Discounts].
  assert (fixed_ = 0 \/ fine = 0) by (destruct (Z.eq_dec fixed_ 0); [by left|right; apply H3; lia]).
  clear H3. destruct tiers as [|d [|d2 tiers]]; [| |cbn; lia].
  - destruct (Z.ltb_spec 0 fine), (Z.ltb_spec 0 fixed_), (Z.ltb_spec 0 interest); cbn;
      rewrite ?bool_decide_true, ?bool_decide_false by done; f_equal; lia.
  - apply Forall_cons in H5 as [(Hb & Hf & Hx) _]. destruct d as [days bps cents]. cbn in *.
    destruct (Z.ltb_spec 0 bps), (Z.ltb_spec 0 cents); try lia;
      destruct (Z.ltb_spec 0 fine), (Z.ltb_spec 0 fixed_), (Z.ltb_spec 0 interest); cbn;
      repeat case_bool_decide; try done; repeat f_equal; lia.
Qed.

Lemma request_fees_ok r : BoletoRequest_ok r -> fees_ok (request_fees r).
Proof.
  intros [_ _ Hf Hi Hx [_ [Ht _]] _]. split; cbn.
  - apply Hf.
  - destruct Hx; lia.
  - destruct Hx as [->|[? ?]]; [lia|done].
  - apply Hi.
  - rewrite Forall_map in Ht. eapply Forall_impl; [exact Ht|]. unfold tier_ok. cbn. intros d. lia.
Qed.

(** * A registration read back

    The answer of a bank that keeps what it is sent: the amount after its trip through a
    JSON number, the other members as they were. *)
Record echoes (b : bankSlipRequestBody) (out : bankSlipResponseBody) : Prop := {
  echo_amount : Some (bso_Amount out) = brlDecimal_UnmarshalJSON (brlDecimal_MarshalJSON (bsr_Amount b));
  echo_ref : bso_ExternalReferenceID out = bsr_ExternalReferenceID b;
  echo_due : bso_DueDate out = bsr_DueDate b;
  echo_days : bso_DaysAfterDueDate out = default 0 (bsr_DaysAfterDueDate b);
  echo_fees : bso_Fees out = bsr_Fees b
}.

Definition utc_midnight (day : Z) : Time := {| ns := day * day_secs * nsec; loc := UTC_loc |}.

Lemma utc_midnight_day day : civil_day (utc_midnight day) = day.
Proof.
  unfold civil_day, local_secs, unix, utc_midnight, day_secs, nsec. cbn [ns loc].
  unfold offset_at, lookup, UTC_loc. cbn [zones base lookup_from fst].
  rewrite Z.div_mul by lia. rewrite Z.add_0_r. apply Z.div_mul. lia.
Qed.

Lemma utc_midnight_add day k : AddDays (utc_midnight day) k = utc_midnight (day + k).
Proof.
  unfold AddDays, local_secs, unix, utc_midnight. cbn [ns loc].
  unfold resolve, offset_at, lookup, UTC_loc. cbn [zones base lookup_from fst snd Z.eqb].
  f_equal. unfold day_secs, nsec. rewrite Z.mod_mul, Z.div_mul by lia. lia.
Qed.

Lemma days_after_midnight day k : 0 < k <= 106751 ->
  IsZero (utc_midnight (day + k)) = false ->
  daysAfterDueDate (utc_midnight day) (utc_midnight (day + k)) = Some k.
Proof.
  intros Hk Hz. unfold daysAfterDueDate. rewrite Hz. cbn [orb].
  assert (Hd : Sub (utc_midnight (day + k)) (utc_midnight day) = k * day_ns).
  { unfold Sub, utc_midnight, day_ns, hour, day_secs, nsec, maxInt64, minInt64. cbn [ns].
    rewrite (proj2 (Z.ltb_ge _ _)), (proj2 (Z.ltb_ge _ _)) by lia. lia. }
  assert (After (utc_midnight (day + k)) (utc_midnight day) = true) as ->.
  { unfold After, utc_midnight, day_secs, nsec. cbn [ns]. apply Z.ltb_lt. lia. }
  cbn [negb]. rewrite Hd, whole_days_exact by lia. by rewrite (proj2 (Z.leb_gt _ _)) by lia.
Qed.

(** A reference decodes to the generated id it was derived from, or to the digest's prefix. *)
Lemma generated_decodes raw : List.length raw = externalRefBytes ->
  boletoIDFromExternalReference (externalReferenceID (hex raw)) = Some (hex raw).
Proof. intros HL. apply reference_bijection. by exists raw. Qed.
Lemma digest_decodes id :
  (forall raw, hex_decode (bytes_of id) = Some raw -> List.length raw <> externalRefBytes) ->
  boletoIDFromExternalReference (externalReferenceID id)
    = Some (hex (take externalRefBytes (sha256 (bytes_of id)))).
Proof.
  intros Hid. assert (Hh : List.length (take externalRefBytes (sha256 (bytes_of id))) = externalRefBytes)
    by (rewrite length_take, length_sha256; done).
  rewrite <- generated_decodes, externalReferenceID_hex by done. unfold externalReferenceID.
  destruct (hex_decode (bytes_of id)) as [raw|] eqn:E; [|done].
  by rewrite (proj2 (Nat.eqb_neq _ _) (Hid raw eq_refl)).
Qed.


(** * Samples *)
Definition wire_request : BoletoRequest :=
  {| brq_TenantID := "t1"; brq_BoletoID := "00112233445566778899aabbccddeeff";
     brq_AmountCents := 123456; brq_Currency := "BRL"; brq_DueDate := utc_midnight 20500;
     brq_ValidUntil := utc_midnight 20530; brq_FineBps := 200; brq_FineFixedCents := 0;
     brq_MonthlyInterestBps := 100; brq_Discounts := [sample_tier];
     brq_Payer := {| bpy_Name := "Ana"; bpy_TaxID := "52998224725";
       bpy_Address := {| bad_Street := "Rua A"; bad_Number := 10; bad_Neighborhood := "Centro";
                         bad_City := "Recife"; bad_State := "pe"; bad_ZipCode := "50000000" |} |};
     brq_Description := "mensalidade"; brq_IdempotencyKey := "k"; brq_Modality := "bolepix" |}.
Definition wire_answer (b : bankSlipRequestBody) : bankSlipResponseBody :=
  {| bso_ID := "C6ID"; bso_ExternalReferenceID := bsr_ExternalReferenceID b;
     bso_Amount := default 0 (brlDecimal_UnmarshalJSON (brlDecimal_MarshalJSON (bsr_Amount b)));
     bso_DueDate := bsr_DueDate b; bso_Status := "CREATED";
     bso_DaysAfterDueDate := default 0 (bsr_DaysAfterDueDate b); bso_Fees := bsr_Fees b;
     bso_DigitableLine := ""; bso_BarCode := ""; bso_OurNumber := ""; bso_QRCode := "qr" |}.

Lemma wire_request_ok : BoletoRequest_ok wire_request.
Proof.
  split; cbn; try done; try lia; try (by split); try (by left).
  split; [unfold maxBoletoDiscountTiers; lia|]. split; repeat constructor; cbn; try lia; done.
Qed.


(** Fees set to zero are not sent, so the bank, which keeps what a patch leaves out, keeps
    them: asked to remove a boleto's only fee together with another change, the service
    answers with the change made and the fee still due. *)
Theorem cleared_fee_is_kept :
  let before := registered 200 0 0 [] in
  let i := {| ubi_AmountCents := Some 60000; ubi_Currency := "BRL"; ubi_DueDate := None;
              ubi_ValidUntil := None; ubi_FineBps := Some 0; ubi_FineFixedCents := None;
              ubi_MonthlyInterestBps := None; ubi_Discounts := None;
              ubi_IdempotencyKey := "k" |} in
  match amendment "t1" "b1" before i with
  | Ok p =>
      br_FineBps (bank_apply before p) = 0 /\
      toBankSlipPatchBody p =
        Ok {| bsb_Amount := Some 60000; bsb_DueDate := None; bsb_Description := None;
              bsb_DaysAfterDueDate := None; bsb_Fees := None |}
  | Err _ => False
  end.
Proof. vm_compute. split; reflexivity. Qed.
