(* ===== verification/C6Pix.v ===== *)
(** internal/adapters/bank/c6/pix.go, pixcobv.go and the charge mapping of c6.go: PIX charges
    on the bank's wire. *)
From S2P Require Import Prelude GoStrings GoTime GoCrypto GoText Shared Ports BankPorts C6Codec.
From S2P Require Import Boletos DueCharges Settlement Issuing IssuingContracts.

(** * Immediate charges *)
Definition pixTxIDLen : nat := 32.

(** The members of the answer the adapter reads; [pcr_Pix] are the amounts received. *)
Record pixChargeResponseBody := {
  pcr_TxID : string;
  pcr_Status : string;
  pcr_Original : string;
  pcr_LocLocation : string;
  pcr_Location : string;
  pcr_PixCopiaECola : string;
  pcr_Pix : list string
}.
Record pixDevedor := {
  dev_CPF : string; dev_CNPJ : string; dev_Nome : string;
  dev_Logradouro : string; dev_Cidade : string; dev_UF : string; dev_CEP : string
}.

Definition buildDevedorFields (taxID name : string) : option pixDevedor :=
  let taxID := TrimSpace taxID in
  let name := TrimSpace name in
  if bool_decide (taxID = "") && bool_decide (name = "") then None
  else
    Some {| dev_CPF := if len taxID =? 14 then "" else taxID;
            dev_CNPJ := if len taxID =? 14 then taxID else "";
            dev_Nome := name;
            dev_Logradouro := ""; dev_Cidade := ""; dev_UF := ""; dev_CEP := "" |}.

(** The first [pixTxIDLen] characters of the anchor's digest. *)
Definition digest_txid (anchor : string) : string :=
  String.substring 0 pixTxIDLen (hex (sha256 (bytes_of anchor))).
Definition idempotencyKey (r : ChargeRequest) : string :=
  if negb (bool_decide (chr_IdempotencyKey r = "")) then chr_IdempotencyKey r
  else chr_PaymentID r.
Definition pixTxID (r : ChargeRequest) : string := digest_txid (idempotencyKey r).

Definition pixLocation (b : pixChargeResponseBody) : string :=
  if negb (bool_decide (pcr_Location b = "")) then pcr_Location b else pcr_LocLocation b.

(** The sum of the amounts received, each read; int64 addition. *)
Fixpoint sum_receipts (received : Z) (l : list string) : res Z :=
  match l with
  | [] => Ok received
  | v :: rest =>
      match parseAmountCents v with
      | None => Err ErrUnavailable
      | Some amount => sum_receipts (add64 received amount) rest
      end
  end.

(** The expiry is computed from the calendar and the adapter's clock. *)
Definition toPixResult (expiresAt : Time) (b : pixChargeResponseBody) : res PixChargeResult :=
  match parseAmountCents (pcr_Original b) with
  | None => Err ErrUnavailable
  | Some expected =>
      let? received := sum_receipts 0 (pcr_Pix b) in
      Ok {| pix_TxID := pcr_TxID b;
            pix_Status := pcr_Status b;
            pix_QRCodePayload := pcr_PixCopiaECola b;
            pix_QRCodeLocation := pixLocation b;
            pix_ExpiresAt := expiresAt;
            pix_ExpectedAmountCents := expected;
            pix_ReceivedAmountCents := received |}
  end.

Definition cobToChargeResult (b : pixChargeResponseBody) : res ChargeResult :=
  let? r := toPixResult zeroTime b in
  Ok {| cr_TxID := pix_TxID r; cr_Status := pix_Status r;
        cr_ExpectedAmountCents := pix_ExpectedAmountCents r;
        cr_ReceivedAmountCents := pix_ReceivedAmountCents r;
        cr_Installments := 0; cr_Message := ""; cr_SettlementKey := "" |}.

(** ** pixsettle.go: the reconcile read of the settlement path *)
Definition pixStatusConcluida : string := "CONCLUIDA".
Definition genericStatusPaid : string := "paid".
Definition translatePixStatus (pixStatus : string) : string :=
  if EqualFold pixStatus pixStatusConcluida then genericStatusPaid else pixStatus.

Definition PixSettlement_GetCharge (GetImmediateCharge : string -> string -> res PixChargeResult)
    (tenantID txID : string) : res ChargeResult :=
  let? r := GetImmediateCharge tenantID txID in
  Ok {| cr_TxID := pix_TxID r; cr_Status := translatePixStatus (pix_Status r);
        cr_ExpectedAmountCents := pix_ExpectedAmountCents r;
        cr_ReceivedAmountCents := pix_ReceivedAmountCents r;
        cr_Installments := 0; cr_Message := ""; cr_SettlementKey := "" |}.

(** * Due-date charges *)
Definition cobvMultaPercentual : Z := 2.
Definition cobvJurosPercentualAoMes : Z := 3.
Definition cobvDescontoPercentualAntec : Z := 5.
Definition cobvDescontoValorAntec : Z := 3.

Record cobvRate := { rate_Modalidade : Z; rate_ValorPerc : string; rate_Valor : string }.
Record cobvRequestBody := {
  cvb_DataDeVencimento : string;
  cvb_ValidadeAposVencimento : Z;
  cvb_Devedor : option pixDevedor;
  cvb_Original : string;
  cvb_Multa : option cobvRate;
  cvb_Juros : option cobvRate;
  cvb_Desconto : option cobvRate;
  cvb_Chave : string
}.
Record cobvResponseBody := {
  cvo_TxID : string;
  cvo_Status : string;
  cvo_DataDeVencimento : string;
  cvo_ValidadeAposVencimento : Z;
  cvo_Original : string;
  cvo_Multa : option cobvRate;
  cvo_Juros : option cobvRate;
  cvo_Desconto : option cobvRate;
  cvo_LocLocation : string;
  cvo_Location : string;
  cvo_PixCopiaECola : string;
  cvo_Pix : list string
}.

Definition cobvAnchor (r : PixDueChargeRequest) : string :=
  if negb (bool_decide (dcr_IdempotencyKey r = "")) then dcr_IdempotencyKey r else dcr_TxID r.
Definition cobvTxID (anchor : string) : string := digest_txid anchor.

Definition percentFromBps (bps : Z) : string := formatAmount bps.
Definition bpsFromPercent (s : string) : Z := default 0 (parseAmountCents s).

Definition buildCobvDevedor (r : PixDueChargeRequest) : option pixDevedor :=
  (fun d => {| dev_CPF := dev_CPF d; dev_CNPJ := dev_CNPJ d; dev_Nome := dev_Nome d;
               dev_Logradouro := TrimSpace (dcr_DebtorStreet r);
               dev_Cidade := TrimSpace (dcr_DebtorCity r);
               dev_UF := TrimSpace (dcr_DebtorState r);
               dev_CEP := TrimSpace (dcr_DebtorZipCode r) |})
  <$> buildDevedorFields (dcr_DebtorTaxID r) (dcr_DebtorName r).

Definition percent_rate (modalidade bps : Z) : option cobvRate :=
  if 0 <? bps
  then Some {| rate_Modalidade := modalidade; rate_ValorPerc := percentFromBps bps;
               rate_Valor := "" |}
  else None.

Definition toCobvRequestBody (chave : string) (r : PixDueChargeRequest) : cobvRequestBody :=
  {| cvb_DataDeVencimento := Format_date (in_UTC (dcr_DueDate r));
     cvb_ValidadeAposVencimento := dcr_ValidityDays r;
     cvb_Devedor := buildCobvDevedor r;
     cvb_Original := formatAmount (dcr_AmountCents r);
     cvb_Multa := percent_rate cobvMultaPercentual (dcr_FineBps r);
     cvb_Juros := percent_rate cobvJurosPercentualAoMes (dcr_MonthlyInterestBps r);
     cvb_Desconto :=
       if 0 <? dcr_DiscountBps r then percent_rate cobvDescontoPercentualAntec (dcr_DiscountBps r)
       else if 0 <? dcr_DiscountFixedCents r
       then Some {| rate_Modalidade := cobvDescontoValorAntec; rate_ValorPerc := "";
                    rate_Valor := formatAmount (dcr_DiscountFixedCents r) |}
       else None;
     cvb_Chave := chave |}.

Definition cobvLocation (b : cobvResponseBody) : string :=
  if negb (bool_decide (cvo_Location b = "")) then cvo_Location b else cvo_LocLocation b.
Definition parseCobvDate (s : string) : Time :=
  if bool_decide (s = "") then zeroTime else default zeroTime (Parse_date s).
Definition rateBps (r : option cobvRate) : Z :=
  match r with None => 0 | Some r => bpsFromPercent (rate_ValorPerc r) end.
Definition descontoFixedCents (r : option cobvRate) : Z :=
  match r with
  | None => 0
  | Some r => if bool_decide (rate_Valor r = "") then 0
              else default 0 (parseAmountCents (rate_Valor r))
  end.

Definition toCobvResult (b : cobvResponseBody) : res PixDueChargeResult :=
  match parseAmountCents (cvo_Original b) with
  | None => Err ErrUnavailable
  | Some expected =>
      let? received := sum_receipts 0 (cvo_Pix b) in
      Ok {| dcs_TxID := cvo_TxID b;
            dcs_Status := cvo_Status b;
            dcs_QRCodePayload := cvo_PixCopiaECola b;
            dcs_QRCodeLocation := cobvLocation b;
            dcs_DueDate := parseCobvDate (cvo_DataDeVencimento b);
            dcs_ValidityDays := cvo_ValidadeAposVencimento b;
            dcs_FineBps := rateBps (cvo_Multa b);
            dcs_MonthlyInterestBps := rateBps (cvo_Juros b);
            dcs_DiscountBps := rateBps (cvo_Desconto b);
            dcs_DiscountFixedCents := descontoFixedCents (cvo_Desconto b);
            dcs_ExpectedAmountCents := expected;
            dcs_ReceivedAmountCents := received |}
  end.

(** * Receipts *)
Definition ceiling : Z := (maxAmountReais + 1) * 100.

Lemma parse_small c : 0 <= c < ceiling -> parseAmountCents (formatAmount c) = Some c.
Proof.
  unfold ceiling, maxAmountReais. intros Hc.
  rewrite parse_format by (unfold minInt64, maxInt64; lia).
  by rewrite (proj2 (Z.ltb_lt _ _)) by (unfold maxAmountReais; lia).
Qed.

Lemma sum_receipts_exact rs acc :
  Forall (fun r => 0 <= r < ceiling) rs -> 0 <= acc -> acc + sumZ rs <= maxInt64 ->
  sum_receipts acc (map formatAmount rs) = Ok (acc + sumZ rs).
Proof.
  intros Hrs. revert acc. induction Hrs as [|r rs Hr Hrs IH]; intros acc Ha Hs; cbn in *;
    [f_equal; lia|].
  change (foldr Z.add 0 rs) with (sumZ rs) in *.
  assert (0 <= sumZ rs) by (unfold sumZ; clear -Hrs; induction Hrs; cbn; lia).
  rewrite parse_small by done. rewrite add64_id by (unfold in64, minInt64; lia).
  rewrite IH by lia. f_equal. lia.
Qed.

(** C23. Reading a settlement off the PSP's answer: when the answer states the charge's
    amount and its receipts in decimals, the settlement path sees a settleable charge
    exactly when the charge is concluded and the receipts add up to its amount, to the
    cent. *)
Theorem pix_answer_settles_exactly expiresAt b e rs t tx
    (He : 0 < e < ceiling) (Hrs : Forall (fun r => 0 <= r < ceiling) rs)
    (Hsum : sumZ rs <= maxInt64)
    (Hb : pcr_Original b = formatAmount e) (Hp : pcr_Pix b = map formatAmount rs) :
  exists r, PixSettlement_GetCharge (fun _ _ => toPixResult expiresAt b) t tx = Ok r /\
    cr_TxID r = pcr_TxID b /\
    (settleable r <->
     (EqualFold (pcr_Status b) pixStatusConcluida = true \/
      EqualFold (pcr_Status b) genericStatusPaid = true) /\ sumZ rs = e).
Proof.
  unfold PixSettlement_GetCharge, toPixResult.
  rewrite Hb, Hp, parse_small by lia. rewrite sum_receipts_exact by (done || lia).
  eexists. split; [reflexivity|]. split; [done|]. unfold settleable. cbn.
  unfold translatePixStatus. destruct (EqualFold (pcr_Status b) pixStatusConcluida) eqn:E.
  - split; [intros (_ & _ & ?); split; [by left|lia]|intros (_ & ?); split_and!; [reflexivity|lia|lia]].
  - change bankStatusPaid with genericStatusPaid. split.
    + intros (? & _ & ?). split; [by right|lia].
    + intros ([?|?] & ?); [done|]. split_and!; [done|lia|lia].
Qed.
Lemma pix_answer_settles_exactly_witness :
  exists r, PixSettlement_GetCharge (fun _ _ => toPixResult zeroTime
      {| pcr_TxID := "tx"; pcr_Status := "concluida"; pcr_Original := formatAmount 1050;
         pcr_LocLocation := ""; pcr_Location := ""; pcr_PixCopiaECola := "";
         pcr_Pix := map formatAmount [1000; 50] |}) "t" "tx" = Ok r /\ settleable r.
Proof.
  set (b := Build_pixChargeResponseBody _ _ _ _ _ _ _).
  destruct (pix_answer_settles_exactly zeroTime b 1050 [1000; 50] "t" "tx") as (r & E & _ & Hs).
  - split; reflexivity.
  - repeat constructor; discriminate.
  - discriminate.
  - reflexivity.
  - reflexivity.
  - exists r. split; [exact E|]. apply Hs. split; [left; vm_compute; reflexivity|reflexivity].
Defined.

(** * The derived txid *)
Lemma hex_chars l c : In c (bytes_of (hex l)) -> exists z, 0 <= z < 16 /\ c = hex_digit z.
Proof.
  unfold hex. rewrite bytes_string. induction l as [|b l IH]; [done|]. cbn [map List.concat app].
  pose proof (byteZ_bounds b). intros [<-|[<-|Hin]]; [| |by apply IH]; eexists; (split; [|reflexivity]).
  - split; [apply Z.div_pos; lia|apply Z.div_lt_upper_bound; lia].
  - apply Z.mod_pos_bound. lia.
Qed.

Lemma length_hex l : List.length (bytes_of (hex l)) = (2 * List.length l)%nat.
Proof. unfold hex. rewrite bytes_string. induction l as [|c l IH]; [done|]. cbn in *. lia. Qed.

(** Whatever its anchor, a derived txid is one the arrangement's rules accept:
    thirty-two characters, each a lower-case hexadecimal digit. *)
Theorem txid_contract anchor :
  String.length (digest_txid anchor) = pixTxIDLen /\
  forall c, In c (bytes_of (digest_txid anchor)) -> exists z, 0 <= z < 16 /\ c = hex_digit z.
Proof.
  unfold digest_txid. rewrite <- (string_bytes (hex _)), substring_string, bytes_string. split.
  - rewrite length_string, length_take, length_hex, length_sha256. done.
  - intros c Hc. eapply hex_chars.
    rewrite <- (firstn_skipn pixTxIDLen (bytes_of (hex _))). apply in_or_app. left. exact Hc.
Qed.

(** * A due-date charge on the wire and back *)
Lemma rateBps_percent m bps : 0 <= bps < ceiling -> rateBps (percent_rate m bps) = bps.
Proof.
  intros Hb. unfold percent_rate. destruct (Z.ltb_spec 0 bps); [|cbn; lia].
  cbn. unfold bpsFromPercent, percentFromBps. by rewrite parse_small.
Qed.

Lemma format_amount_not_empty c : 0 < c < ceiling -> formatAmount c <> "".
Proof.
  intros Hc E. pose proof (parse_small c ltac:(lia)) as P. rewrite E in P.
  vm_compute in P. simplify_eq; lia.
Qed.

Lemma validateDiscount_bounds bps fixed principal :
  validateDiscount bps fixed principal = Ok tt ->
  0 <= bps <= cobv_bpsDenominator /\ 0 <= fixed /\ (0 < bps -> fixed = 0) /\
  (0 < fixed -> fixed < principal).
Proof.
  unfold validateDiscount.
  destruct (_ && _) eqn:E; [apply andb_prop in E; unfold cobv_bpsDenominator; lia|].
  destruct ((0 <? bps) && (0 <? fixed)) eqn:E1; [done|].
  destruct ((bps <? 0) || (fixed <? 0)) eqn:E2; [done|].
  destruct (cobv_bpsDenominator <? bps) eqn:E3; [done|].
  destruct ((_ <=? 0) || _) eqn:E4; [done|]. intros _.
  apply andb_false_iff in E1. apply orb_false_iff in E2, E4. split_and!; try lia.
  intros Hf. unfold cobv_discountCents in E4. rewrite (proj2 (Z.ltb_lt 0 fixed) Hf) in E4. lia.
Qed.

(** What the provider states of a registered charge: the members of the request, as sent. *)
Record echoes (q : cobvRequestBody) (b : cobvResponseBody) : Prop := {
  echo_due : cvo_DataDeVencimento b = cvb_DataDeVencimento q;
  echo_validity : cvo_ValidadeAposVencimento b = cvb_ValidadeAposVencimento q;
  echo_amount : cvo_Original b = cvb_Original q;
  echo_fine : cvo_Multa b = cvb_Multa q;
  echo_interest : cvo_Juros b = cvb_Juros q;
  echo_discount : cvo_Desconto b = cvb_Desconto q
}.

(** A due-date charge the service accepts survives the wire: reading the provider's
    echo of the request the adapter sends gives back the due day at midnight UTC, the
    validity, every rate, the fixed discount and the amount, with the receipts summed. *)
Theorem cobv_wire_roundtrip chave r b rs
    (Hok : PixDueChargeRequest_ok r) (Hamount : dcr_AmountCents r < ceiling)
    (Hyear : 0 <= fst (fst (civil_from_days (civil_day (in_UTC (dcr_DueDate r))))) <= 9999)
    (Hecho : echoes (toCobvRequestBody chave r) b)
    (Hrs : Forall (fun r => 0 <= r < ceiling) rs) (Hsum : sumZ rs <= maxInt64)
    (Hp : cvo_Pix b = map formatAmount rs) :
  toCobvResult b = Ok {|
    dcs_TxID := cvo_TxID b;
    dcs_Status := cvo_Status b;
    dcs_QRCodePayload := cvo_PixCopiaECola b;
    dcs_QRCodeLocation := cobvLocation b;
    dcs_DueDate :=
      {| ns := civil_day (in_UTC (dcr_DueDate r)) * day_secs * nsec; loc := UTC_loc |};
    dcs_ValidityDays := dcr_ValidityDays r;
    dcs_FineBps := dcr_FineBps r;
    dcs_MonthlyInterestBps := dcr_MonthlyInterestBps r;
    dcs_DiscountBps := dcr_DiscountBps r;
    dcs_DiscountFixedCents := dcr_DiscountFixedCents r;
    dcs_ExpectedAmountCents := dcr_AmountCents r;
    dcs_ReceivedAmountCents := sumZ rs |}.
Proof.
  destruct Hok as [[Hpos _] _ Hf Hi Hd _ _], Hecho as [Ed Ev Ea Ef Ei Edi].
  cbn [toCobvRequestBody cvb_DataDeVencimento cvb_ValidadeAposVencimento cvb_Original cvb_Multa
       cvb_Juros cvb_Desconto cents] in *.
  apply validateDiscount_bounds in Hd as (Hb & Hx & Hxor & Hlt).
  unfold cobv_MaxFineBps, cobv_MaxMonthlyInterestBps, cobv_bpsDenominator in *.
  unfold toCobvResult. rewrite Ea, Hp, parse_small, sum_receipts_exact by (done || lia).
  rewrite Ed, Ev, Ef, Ei, Edi, !rateBps_percent by (unfold ceiling, maxAmountReais; lia).
  unfold parseCobvDate. rewrite bool_decide_false by apply format_not_empty.
  rewrite Parse_format by done. cbn [default]. do 2 f_equal.
  - destruct (Z.ltb_spec 0 (dcr_DiscountBps r)).
    + rewrite <- (rateBps_percent cobvDescontoPercentualAntec (dcr_DiscountBps r)) at 2
        by (unfold ceiling, maxAmountReais; lia).
      unfold percent_rate. by rewrite (proj2 (Z.ltb_lt _ _)).
    + destruct (0 <? dcr_DiscountFixedCents r); cbn;
        [change (bpsFromPercent "") with 0|]; lia.
  - destruct (Z.ltb_spec 0 (dcr_DiscountBps r)) as [Hbps|Hbps].
    { rewrite (Hxor Hbps). unfold percent_rate. by rewrite (proj2 (Z.ltb_lt _ _) Hbps). }
    destruct (Z.ltb_spec 0 (dcr_DiscountFixedCents r)); [|cbn; lia].
    cbn. rewrite bool_decide_false by (apply format_amount_not_empty; lia).
    by rewrite parse_small by lia.
Qed.
Lemma cobv_wire_roundtrip_witness : exists r,
  toCobvResult
    {| cvo_TxID := "tx"; cvo_Status := "ATIVA"; cvo_DataDeVencimento := "2026-03-10";
       cvo_ValidadeAposVencimento := 30; cvo_Original := "100.00";
       cvo_Multa := Some {| rate_Modalidade := 2; rate_ValorPerc := "2.00"; rate_Valor := "" |};
       cvo_Juros := Some {| rate_Modalidade := 3; rate_ValorPerc := "1.00"; rate_Valor := "" |};
       cvo_Desconto := Some {| rate_Modalidade := 3; rate_ValorPerc := ""; rate_Valor := "5.00" |};
       cvo_LocLocation := ""; cvo_Location := ""; cvo_PixCopiaECola := "";
       cvo_Pix := ["40.00"; "60.00"] |} = Ok r /\
  Format_date (dcs_DueDate r) = "2026-03-10" /\ dcs_FineBps r = 200 /\
  dcs_DiscountFixedCents r = 500 /\ PixDueChargeResult_AmountReconciled r = true.
Proof.
  set (b := Build_cobvResponseBody _ _ _ _ _ _ _ _ _ _ _ _).
  set (q := {| dcr_TenantID := "t"; dcr_TxID := "tx"; dcr_AmountCents := 10000;
               dcr_Currency := "BRL";
               dcr_DueDate := {| ns := 20522 * day_secs * nsec; loc := UTC_loc |};
               dcr_ValidityDays := 30; dcr_FineBps := 200; dcr_MonthlyInterestBps := 100;
               dcr_DiscountBps := 0; dcr_DiscountFixedCents := 500;
               dcr_DebtorTaxID := "12345678909"; dcr_DebtorName := "Ana";
               dcr_DebtorStreet := "R"; dcr_DebtorCity := "C"; dcr_DebtorState := "SP";
               dcr_DebtorZipCode := "01001000"; dcr_CreditorKey := "k";
               dcr_IdempotencyKey := "k1" |}).
  eexists. split.
  - apply (cobv_wire_roundtrip "k" q b [4000; 6000]);
      [split; vm_compute; intuition discriminate|reflexivity|vm_compute; intuition discriminate
      |split; vm_compute; reflexivity|repeat constructor; discriminate|discriminate|reflexivity].
  - vm_compute. repeat split.
Defined.

(** The amount owed moves with the payment day (fine, interest, early discount) while the
    reconciliation compares what was received with the original amount: a charge paid late
    in full, by the domain's own account of what is due, is not reconciled. *)
Theorem late_due_charge_not_reconciled :
  let c := {| cobv_tenantID := "t"; cobv_principal := {| cents := 10000; currency := "BRL" |};
              cobv_dueDate := {| ns := 20522 * day_secs * nsec; loc := UTC_loc |};
              cobv_validityDays := 30; cobv_fineBps := 200; cobv_monthlyInterestBps := 0;
              cobv_discountBps := 0; cobv_discountFixedCents := 0;
              cobv_debtor := {| debtor_taxID := ""; debtor_name := ""; debtor_street := "";
                                debtor_city := ""; debtor_state := ""; debtor_zipCode := "" |};
              cobv_creditorKey := "k" |} in
  let paid := {| ns := 20527 * day_secs * nsec; loc := UTC_loc |} in
  let b := {| cvo_TxID := "tx"; cvo_Status := "CONCLUIDA"; cvo_DataDeVencimento := "2026-03-10";
              cvo_ValidadeAposVencimento := 30;
              cvo_Original := formatAmount (cents (cobv_principal c));
              cvo_Multa := percent_rate cobvMultaPercentual (cobv_fineBps c);
              cvo_Juros := None; cvo_Desconto := None;
              cvo_LocLocation := ""; cvo_Location := ""; cvo_PixCopiaECola := "";
              cvo_Pix := [formatAmount (cobv_AmountDueCents c paid)] |} in
  cobv_AmountDueCents c paid = 10200 /\
  exists r, toCobvResult b = Ok r /\ dcs_ReceivedAmountCents r = cobv_AmountDueCents c paid /\
    PixDueChargeResult_AmountReconciled r = false.
Proof. cbv zeta. split; [vm_compute; reflexivity|]. eexists. split; [vm_compute; reflexivity|]. by vm_compute. Qed.
