(* ===== verification/C6Recurrence.v ===== *)
(** Recurring debits on the bank's wire: internal/adapters/bank/c6/recurrence.go and locrec.go,
    the adapter behind the ports of RecurrenceSvc.  Requests go through the transport of
    BankTransport; the reads of this file have a path of their own.  The HTTP client, the token
    cache and the JSON of a body are parameters; [UnmarshalJSON] of the members that have one is
    the adapter's. *)
From S2P Require Import Prelude GoStrings GoText GoTime GoFloat GoCrypto GoRFC3339 Shared ConsoleCred.
From S2P Require Import Mandates Ports MemStore MandateWebhook RecurrenceSvc MandateDeliveries RecurrenceGates.
From S2P Require Import BankTransport C6Codec.
#[global] Open Scope Z_scope.

Definition recPath : string := "/v2/pix/rec".
Definition solicRecPath : string := "/v2/pix/solicrec".
Definition cobrPath : string := "/v2/pix/cobr".
Definition locRecPath : string := "/v2/pix/locrec".

(** * What is sent

    An [omitempty] member is absent when empty; a pointer is an [option]. *)
Record recRequestBody := {
  rqb_Vinculo : RecVinculo; rqb_Calendario : RecCalendario; rqb_PoliticaRetentativa : string;
  rqb_Loc : option Z;
  rqb_Ativacao : option string;  (* dadosJornada.txid *)
  rqb_Valor : option string      (* valorRec *)
}.
Record solicRecRequestBody := {
  sqb_IDRec : string; sqb_DataExpiracaoSolicitacao : string; sqb_Destinatario : SolicRecDestinatario
}.
(** The payer is an empty object. *)
Record cobrRequestBody := {
  cqb_AjusteDiaUtil : bool; cqb_DataDeVencimento : string; cqb_Original : string;
  cqb_Recebedor : CobRRecebedor; cqb_IDRec : string
}.
Inductive body :=
| RecBody (b : recRequestBody)
| SolicRecBody (b : solicRecRequestBody)
| CobRBody (b : cobrRequestBody)
| StatusBody (status : string).
(** * What is answered *)
Inductive loc_json :=
| LocAbsent
| LocInteger (id : Z)
| LocObject (id : Z) (location : string)
| LocOther.
Record locRef := { lr_ID : Z; lr_Location : string }.
Definition locRef_UnmarshalJSON (j : loc_json) : locRef :=
  match j with
  | LocInteger id => {| lr_ID := id; lr_Location := "" |}
  | LocObject id location => {| lr_ID := id; lr_Location := location |}
  | LocAbsent | LocOther => {| lr_ID := 0; lr_Location := "" |}
  end.
(** The members of an answer as JSON delivers them: an amount is the text of its value. *)
Record recResponseBody := {
  rsb_IDRec : string; rsb_Status : string; rsb_Vinculo : RecVinculo; rsb_Calendario : RecCalendario;
  rsb_Recebedor : Recebedor; rsb_PoliticaRetentativa : string; rsb_TipoJornada : string;
  rsb_Loc : loc_json; rsb_ValorRec : option string; rsb_DadosQR : RecDadosQR
}.
Record solicRecResponseBody := {
  ssb_IDSolicRec : string; ssb_IDRec : string; ssb_Status : string;
  ssb_DataExpiracaoSolicitacao : string; ssb_Destinatario : SolicRecDestinatario
}.
Record cobrResponseBody := {
  csb_TxID : string; csb_IDRec : string; csb_Status : string; csb_Original : option string
}.
Record locRecResponseBody := {
  lsb_ID : Z; lsb_Location : string; lsb_Criacao : string; lsb_IDRec : string
}.

(** What an answer without the member [data] is read as. *)
Definition zero_destinatario : SolicRecDestinatario :=
  {| srd_CPF := ""; srd_CNPJ := ""; srd_Agencia := ""; srd_Conta := ""; srd_ISPBParticipante := "" |}.
Definition zero_rec : recResponseBody :=
  {| rsb_IDRec := ""; rsb_Status := "";
     rsb_Vinculo := {| rv_Contrato := ""; rv_Devedor := {| rd_CPF := ""; rd_CNPJ := ""; rd_Nome := "" |};
                       rv_Objeto := "" |};
     rsb_Calendario := {| rcal_DataInicial := ""; rcal_Periodicidade := "" |};
     rsb_Recebedor := {| rb_ISPB := ""; rb_CNPJ := ""; rb_CPF := ""; rb_Nome := "" |};
     rsb_PoliticaRetentativa := ""; rsb_TipoJornada := ""; rsb_Loc := LocAbsent; rsb_ValorRec := None;
     rsb_DadosQR := {| qr_Jornada := ""; qr_PixCopiaECola := "" |} |}.
Definition zero_solicRec : solicRecResponseBody :=
  {| ssb_IDSolicRec := ""; ssb_IDRec := ""; ssb_Status := ""; ssb_DataExpiracaoSolicitacao := "";
     ssb_Destinatario := zero_destinatario |}.
Definition zero_cobr : cobrResponseBody :=
  {| csb_TxID := ""; csb_IDRec := ""; csb_Status := ""; csb_Original := None |}.
Definition zero_locRec : locRecResponseBody :=
  {| lsb_ID := 0; lsb_Location := ""; lsb_Criacao := ""; lsb_IDRec := "" |}.

(** A member that is absent keeps the zero value. *)
Definition brl_member (raw : option string) : option Z :=
  match raw with None => Some 0 | Some text => brlDecimal_UnmarshalJSON text end.

(** [time.Parse] of RFC 3339.  [slow] is what it does with a text that is not written the way
    [Format] writes it.  The answer keeps the offset of the text. *)
Section instants.
Context (slow : string -> option Time).
Definition parse_rfc3339 (s : string) : option Time :=
  match parse_instant s with
  | Some n =>
      let zone := default 0 (parse_zone (parse_frac (drop 19 (bytes_of s))).2) in
      Some {| ns := n; loc := {| base := zone; zones := [] |} |}
  | None => slow s
  end.
Definition parseInstant (s : string) : Time :=
  if bool_decide (s = "") then zeroTime else default zeroTime (parse_rfc3339 s).

(** [toResult]; [None] where the decoding of the body refuses an amount. *)
Definition rec_toResult (b : recResponseBody) : option RecResult :=
  valor ← brl_member (rsb_ValorRec b);
  let l := locRef_UnmarshalJSON (rsb_Loc b) in
  Some {| rr_IDRec := rsb_IDRec b; rr_Status := rsb_Status b; rr_Vinculo := rsb_Vinculo b;
          rr_Calendario := rsb_Calendario b; rr_Recebedor := rsb_Recebedor b;
          rr_PoliticaRetentativa := rsb_PoliticaRetentativa b; rr_TipoJornada := rsb_TipoJornada b;
          rr_LocID := lr_ID l; rr_Location := lr_Location l; rr_ValorRecCents := valor;
          rr_DadosQR := rsb_DadosQR b |}.
Definition solicRec_toResult (b : solicRecResponseBody) : SolicRecResult :=
  {| srr_IDSolicRec := ssb_IDSolicRec b; srr_IDRec := ssb_IDRec b; srr_Status := ssb_Status b;
     srr_Destinatario := ssb_Destinatario b; srr_ExpiraEm := parseInstant (ssb_DataExpiracaoSolicitacao b) |}.
Definition cobr_toResult (b : cobrResponseBody) : option CobRResult :=
  valor ← brl_member (csb_Original b);
  Some {| cbr_TxID := csb_TxID b; cbr_IDRec := csb_IDRec b; cbr_Status := csb_Status b;
          cbr_ValorCents := valor |}.
Definition locRec_toResult (b : locRecResponseBody) : LocRecResult :=
  {| lrr_ID := lsb_ID b; lrr_Location := lsb_Location b; lrr_Criacao := parseInstant (lsb_Criacao b);
     lrr_IDRec := lsb_IDRec b |}.
End instants.

(** * Requests *)
Definition refused (op detail : string) : error := Wrap (op ++ detail) ErrValidation.

(** [strings.ContainsFunc(s, unicode.IsSpace)] *)
Fixpoint contains_space (l : bytes) : bool :=
  match l with
  | [] => false
  | c :: r =>
      space1 c
      || match r with
         | [] => false
         | d :: r2 => space2 c d || match r2 with [] => false | e :: _ => space3 c d e end
         end
      || contains_space r
  end.
Definition validateObjeto (objeto : string) : option error :=
  if bool_decide (objeto = "") then None
  else if contains_space (bytes_of objeto) then Some (refused "create_rec" "objeto must not contain whitespace")
  else None.

Definition create_rec_body (r : CreateRecRequest) : recRequestBody :=
  let txid := TrimSpace (crr_JornadaTxID r) in
  {| rqb_Vinculo := crr_Vinculo r; rqb_Calendario := crr_Calendario r;
     rqb_PoliticaRetentativa := crr_PoliticaRetentativa r;
     rqb_Loc := if 0 <? crr_LocID r then Some (crr_LocID r) else None;
     rqb_Ativacao := if bool_decide (txid = "") then None else Some txid;
     rqb_Valor := if 0 <? crr_ValorRecCents r then Some (formatAmount (crr_ValorRecCents r)) else None |}.
Definition create_rec_call (r : CreateRecRequest) : res (call body) :=
  refuse (blank (rv_Contrato (crr_Vinculo r)) || blank (rcal_DataInicial (crr_Calendario r))
          || bool_decide (rcal_Periodicidade (crr_Calendario r) = "")
          || bool_decide (crr_PoliticaRetentativa r = "")) with (refused "create_rec" "") ;;
  match validateObjeto (rv_Objeto (crr_Vinculo r)) with
  | Some e => Err e
  | None =>
      refuse (crr_ValorRecCents r <? 0) with (refused "create_rec" "valor_rec_cents must not be negative") ;;
      Ok {| cl_op := "create_rec"; cl_method := "POST"; cl_path := recPath;
            cl_body := Some (RecBody (create_rec_body r)); cl_idem := crr_IdempotencyKey r; cl_partner := false |}
  end.
Definition cancel_rec_call (idRec : string) : res (call body) :=
  refuse (blank idRec) with (refused "cancel_rec" "") ;;
  Ok {| cl_op := "cancel_rec"; cl_method := "PATCH"; cl_path := recPath ++ "/" ++ PathEscape idRec;
        cl_body := Some (StatusBody RecCancelada); cl_idem := idRec; cl_partner := false |}.

Definition or_else (s fallback : string) : string := if bool_decide (s = "") then fallback else s.
(** [ExpiraEm.UTC().Format(time.RFC3339)] *)
Definition FormatRFC3339 (t : Time) : string := Format_with (fun _ => []) t.
Definition create_solicrec_call (r : CreateSolicRecRequest) : res (call body) :=
  refuse (blank (csr_IDRec r) || IsZero (csr_ExpiraEm r)) with (refused "create_solicrec" "") ;;
  Ok {| cl_op := "create_solicrec"; cl_method := "POST"; cl_path := solicRecPath;
        cl_body := Some (SolicRecBody
          {| sqb_IDRec := csr_IDRec r;
             sqb_DataExpiracaoSolicitacao := FormatRFC3339 (in_UTC (csr_ExpiraEm r));
             sqb_Destinatario := csr_Destinatario r |});
        cl_idem := or_else (csr_IdempotencyKey r) (csr_IDRec r); cl_partner := false |}.

Definition cobrStatusCancelada : string := "CANCELADA".
Definition buildCobRBody (r : CreateCobRRequest) : cobrRequestBody :=
  {| cqb_AjusteDiaUtil := ccr_AjusteDiaUtil r; cqb_DataDeVencimento := ccr_DataVencimento r;
     cqb_Original := formatAmount (ccr_ValorCents r); cqb_Recebedor := ccr_Recebedor r;
     cqb_IDRec := ccr_IDRec r |}.
Definition cobr_resource (txID : string) : string := cobrPath ++ "/" ++ PathEscape txID.
Definition create_cobr_call (r : CreateCobRRequest) : res (call body) :=
  refuse (blank (ccr_TxID r) || blank (ccr_IDRec r) || (ccr_ValorCents r <=? 0))
    with (refused "create_cobr" "") ;;
  Ok {| cl_op := "create_cobr"; cl_method := "PUT"; cl_path := cobr_resource (ccr_TxID r);
        cl_body := Some (CobRBody (buildCobRBody r));
        cl_idem := or_else (ccr_IdempotencyKey r) (ccr_TxID r); cl_partner := false |}.
Definition cancel_cobr_call (txID : string) : res (call body) :=
  let txID := TrimSpace txID in
  refuse (bool_decide (txID = "")) with (refused "cancel_cobr" "") ;;
  Ok {| cl_op := "cancel_cobr"; cl_method := "PATCH"; cl_path := cobr_resource txID;
        cl_body := Some (StatusBody cobrStatusCancelada); cl_idem := txID; cl_partner := false |}.
Definition retry_cobr_call (txID dataRetentativa : string) : res (call body) :=
  refuse (blank txID || blank dataRetentativa) with (refused "retry_cobr" "") ;;
  Ok {| cl_op := "retry_cobr"; cl_method := "POST";
        cl_path := cobr_resource txID ++ "/retentativa/" ++ PathEscape dataRetentativa;
        cl_body := None; cl_idem := txID ++ ":" ++ dataRetentativa; cl_partner := false |}.

Definition create_locrec_call (idempotencyKey : string) : call body :=
  {| cl_op := "create_locrec"; cl_method := "POST"; cl_path := locRecPath; cl_body := None;
     cl_idem := idempotencyKey; cl_partner := false |}.
Definition get_locrec_call (id : Z) : res (call body) :=
  refuse (id <=? 0) with (refused "get_locrec" "") ;;
  Ok {| cl_op := "get_locrec"; cl_method := "GET"; cl_path := locRecPath ++ "/" ++ FormatInt id;
        cl_body := None; cl_idem := ""; cl_partner := false |}.
Definition unlink_locrec_call (id : Z) : res (call body) :=
  refuse (id <=? 0) with (refused "unlink_locrec" "") ;;
  Ok {| cl_op := "unlink_locrec"; cl_method := "DELETE";
        cl_path := locRecPath ++ "/" ++ FormatInt id ++ "/idRec"; cl_body := None;
        cl_idem := FormatInt id; cl_partner := false |}.

(** * Exchanges *)
Section provider.
(** The codec of the bodies: the members of a struct in a document, and the member [data] of a
    document that is an object, if it has one. *)
Context (marshal : body -> bytes) (decode_envelope : bytes -> option errorEnvelope).
Context (data_member : bytes -> option (option bytes)).
Context (rec_members : bytes -> option recResponseBody) (solicRec_members : bytes -> option solicRecResponseBody).
Context (cobr_members : bytes -> option cobrResponseBody) (locRec_members : bytes -> option locRecResponseBody).
Context (slow http_ParseTime : string -> option Time).
(** The token cache, the limiter as a call finds it, and what each attempt of a call meets. *)
Context (token : string -> res string) (maxRetries : Z).
Context (bucket : string -> call body -> option tokenBucket) (world : string -> call body -> Z -> attempt_world).
(** The answer a read meets, [None] when there is none. *)
Context (read_answer : string -> string -> option http_response).

Notation exchange := (BankTransport.exchange marshal decode_envelope http_ParseTime token maxRetries bucket world).
(** Into [out.Data]. *)
Definition in_data {B} (zero : B) (members : bytes -> option B) (payload : bytes) : option B :=
  data ← data_member payload;
  match data with Some data => members data | None => Some zero end.

(** One request, neither paced nor retried. *)
Definition recurrenceRead (tenantID op path : string) : res bytes :=
  let? _ := token tenantID in
  match read_answer tenantID path with
  | None => Err (c6_error (transportError op))
  | Some resp =>
      let payload := take maxResponseBytes (hr_body resp) in
      if negb (Z.quot (hr_status resp) 100 =? 2)
      then Err (c6_error (mapError decode_envelope op (hr_status resp) payload))
      else Ok payload
  end.
Definition decodeData {A} (members : bytes -> option A) (payload : bytes) : option A :=
  match data_member payload with
  | Some (Some data) => if bool_decide (data = []) then members payload else members data
  | _ => members payload
  end.
Definition read {B A} (members : bytes -> option B) (toResult : B -> option A)
    (tenantID op path : string) : res A :=
  let? payload := recurrenceRead tenantID op path in
  match decodeData members payload ≫= toResult with
  | Some a => Ok a
  | None => Err (Wrap (op ++ "malformed body") ErrUnavailable)
  end.

Definition rec_out (payload : bytes) : option RecResult := in_data zero_rec rec_members payload ≫= rec_toResult.
Definition solicRec_out (payload : bytes) : option SolicRecResult :=
  solicRec_toResult slow <$> in_data zero_solicRec solicRec_members payload.
Definition cobr_out (payload : bytes) : option CobRResult := in_data zero_cobr cobr_members payload ≫= cobr_toResult.
Definition locRec_out (payload : bytes) : option LocRecResult :=
  locRec_toResult slow <$> in_data zero_locRec locRec_members payload.

Definition c6_GetRec (tenantID idRec : string) : res RecResult :=
  refuse (blank idRec) with (refused "get_rec" "") ;;
  read rec_members rec_toResult tenantID "get_rec" (recPath ++ "/" ++ PathEscape idRec).
Definition c6_GetRecForQR (tenantID idRec txID : string) : res RecResult :=
  refuse (blank idRec) with (refused "get_rec_qr" "") ;;
  let txid := TrimSpace txID in
  let endpoint := recPath ++ "/" ++ PathEscape idRec in
  read rec_members rec_toResult tenantID "get_rec_qr"
    (if bool_decide (txid = "") then endpoint else endpoint ++ "?txid=" ++ QueryEscape txid).
Definition c6_GetSolicRec (tenantID idSolicRec : string) : res SolicRecResult :=
  refuse (blank idSolicRec) with (refused "get_solicrec" "") ;;
  read solicRec_members (fun b => Some (solicRec_toResult slow b)) tenantID "get_solicrec" (solicRecPath ++ "/" ++ PathEscape idSolicRec).
Definition c6_GetCobR (tenantID txID : string) : res CobRResult :=
  refuse (blank txID) with (refused "get_cobr" "") ;;
  read cobr_members cobr_toResult tenantID "get_cobr" (cobr_resource txID).

(** The adapter as the ports of the use-cases. *)
Definition c6_rec : RecProvider :=
  {| CreateRec := fun t r => exchange rec_out t (create_rec_call r);
     GetRec_ := c6_GetRec; GetRecForQR := c6_GetRecForQR;
     CancelRec := fun t idRec => exchange rec_out t (cancel_rec_call idRec) |}.
Definition c6_solicRec : SolicRecProvider :=
  {| CreateSolicRec := fun t r => exchange solicRec_out t (create_solicrec_call r);
     GetSolicRec := c6_GetSolicRec |}.
Definition c6_cobr : CobRProvider :=
  {| CreateCobR := fun t r => exchange cobr_out t (create_cobr_call r);
     GetCobR_ := c6_GetCobR;
     CancelCobR_ := fun t txID => exchange cobr_out t (cancel_cobr_call txID);
     RetryCobR_ := fun t txID date => exchange cobr_out t (retry_cobr_call txID date) |}.
Definition c6_locRec : LocRecProvider :=
  {| CreateLocRec_ := fun t k => exchange locRec_out t (Ok (create_locrec_call k));
     GetLocRec_ := fun t id => exchange locRec_out t (get_locrec_call id);
     UnlinkLocRec_ := fun t id => exchange locRec_out t (unlink_locrec_call id) |}.
End provider.

(** * Resources *)
Definition unhex (c : ascii) : Z := if digit c then byteZ c - 48 else byteZ c - 55.
Definition unpercent (h l : ascii) : ascii := asciiZ (16 * unhex h + unhex l).
Fixpoint PathUnescape (fuel : nat) (l : bytes) : bytes :=
  match fuel, l with
  | S fuel, c :: r =>
      match r with
      | h :: l :: r' => if bool_decide (c = "%"%char) then unpercent h l :: PathUnescape fuel r'
                        else c :: PathUnescape fuel r
      | _ => c :: PathUnescape fuel r
      end
  | _, _ => l
  end.
Definition kept (c : ascii) : bool := unreserved c || bool_decide (c ∈ bytes_of "$&+=:@").

(** Facts on one byte are checked on each. *)
Lemma each_byte (P : ascii -> bool) :
  forallb (fun n => P (ascii_of_N (N.of_nat n))) (seq 0 256) = true -> forall c, P c = true.
Proof.
  intros H c. rewrite forallb_forall in H. rewrite <- (ascii_N_embedding c).
  rewrite <- (N2Nat.id (N_of_ascii c)). apply H. apply in_seq.
  pose proof (N_ascii_bounded c). lia.
Qed.
Lemma kept_plain c : kept c = true -> c <> "%"%char /\ c <> "/"%char /\ c <> "?"%char /\ c <> "#"%char.
Proof.
  intros Hc. pose proof (each_byte (fun c => implb (kept c)
    (negb (bool_decide (c = "%"%char \/ c = "/"%char \/ c = "?"%char \/ c = "#"%char)))) eq_refl c) as H.
  cbv beta in H. rewrite Hc in H. cbn [implb] in H. apply negb_true_iff, bool_decide_eq_false in H.
  tauto.
Qed.
Lemma unpercent_percent c : percent c = ["%"%char; hex_upper (byteZ c / 16); hex_upper (byteZ c mod 16)] /\
  unpercent (hex_upper (byteZ c / 16)) (hex_upper (byteZ c mod 16)) = c.
Proof.
  split; [done|]. pose proof (each_byte (fun c => bool_decide
    (unpercent (hex_upper (byteZ c / 16)) (hex_upper (byteZ c mod 16)) = c)) eq_refl c) as H.
  by apply bool_decide_eq_true in H.
Qed.
Lemma hex_plain c : Forall (fun d => kept d = true) [hex_upper (byteZ c / 16); hex_upper (byteZ c mod 16)].
Proof.
  pose proof (each_byte (fun c => kept (hex_upper (byteZ c / 16)) && kept (hex_upper (byteZ c mod 16)))
    eq_refl c) as H. apply andb_true_iff in H as [? ?]. by repeat constructor.
Qed.

Definition escape (l : bytes) : bytes := List.concat (map (fun c => if kept c then [c] else percent c) l).
Lemma PathEscape_escape s : PathEscape s = string_of (escape (bytes_of s)).
Proof. done. Qed.
Lemma unescape_escape l fuel : (List.length (escape l) <= fuel)%nat -> PathUnescape fuel (escape l) = l.
Proof.
  revert fuel. induction l as [|c l IH]; intros fuel; [by destruct fuel|].
  cbn [escape map List.concat]. fold (escape l).
  destruct (kept c) eqn:Hc; intros Hf.
  - destruct fuel as [|fuel]; [cbn in Hf; lia|]. cbn [app List.length] in *.
    destruct (kept_plain c Hc) as [Hp _].
    assert (E : PathUnescape fuel (escape l) = l) by (apply IH; lia).
    cbn [PathUnescape]. destruct (escape l) as [|h [|h2 r]] eqn:El; [by rewrite E..|].
    rewrite bool_decide_false by done. by rewrite E.
  - destruct (unpercent_percent c) as [E Hu]. rewrite E in Hf |- *. cbn [app List.length] in *.
    destruct fuel as [|fuel]; [lia|]. cbn [PathUnescape]. rewrite bool_decide_true by done.
    rewrite Hu, IH by lia. done.
Qed.
Lemma PathEscape_inj s t : PathEscape s = PathEscape t -> s = t.
Proof.
  rewrite !PathEscape_escape. intros E. apply (f_equal bytes_of) in E. rewrite !bytes_string in E.
  rewrite <- (string_bytes s), <- (string_bytes t).
  rewrite <- (unescape_escape (bytes_of s) _ (le_n _)), <- (unescape_escape (bytes_of t) _ (le_n _)).
  by rewrite E.
Qed.

(** One path segment: no byte of it ends the segment, the path or the query. *)
Definition one_segment (l : bytes) : Prop :=
  Forall (fun c => c <> "/"%char /\ c <> "?"%char /\ c <> "#"%char) l.
Lemma escape_segment l : one_segment (escape l).
Proof.
  induction l as [|c l IH]; [by constructor|]. cbn [escape map List.concat]. fold (escape l).
  apply Forall_app; split; [|done]. destruct (kept c) eqn:Hc.
  - constructor; [|done]. by apply kept_plain.
  - destruct (unpercent_percent c) as [-> _]. constructor; [done|].
    eapply Forall_impl; [apply hex_plain|]. intros d Hd. by apply kept_plain.
Qed.

(** Each charge has a resource of its own at the bank, and its txid cannot name another: the
    request for it goes to one segment under the collection, distinct for distinct txids. *)
Theorem cobr_resource_exact txID txID' :
  (exists seg, cobr_resource txID = (cobrPath ++ "/" ++ string_of seg)%string /\ one_segment seg) /\
  (cobr_resource txID = cobr_resource txID' <-> txID = txID').
Proof.
  split; [exists (escape (bytes_of txID)); split; [done|apply escape_segment]|].
  split; [|by intros ->]. unfold cobr_resource. intros E. injection E as E. by apply PathEscape_inj.
Qed.

(** * Amounts and instants *)
Definition quoted (s : string) : string := string_of (asciiZ 34 :: bytes_of s ++ [asciiZ 34])%list.
Lemma trim_quotes_quoted l : trim_quotes (asciiZ 34 :: l ++ [asciiZ 34]) = trim_quotes l.
Proof.
  unfold trim_quotes. set (cut := fix cut l := match l with
    | c :: r => if bool_decide (c = asciiZ 34) then cut r else l | [] => [] end).
  assert (H : cut (l ++ [asciiZ 34])%list = match cut l with [] => [] | m => m ++ [asciiZ 34] end%list).
  { induction l as [|c r IH]; [done|]. cbn [app cut]. fold cut. by case_bool_decide. }
  rewrite H. destruct (cut l) as [|c m]; [done|]. 
  rewrite bool_decide_true, rev_unit by done. cbn [cut]. by rewrite bool_decide_true.
Qed.
(** The bank may write an amount as a JSON number or as a JSON string. *)
Lemma brl_quoted c : minInt64 < c -> c <= maxInt64 ->
  brlDecimal_UnmarshalJSON (quoted (formatAmount c)) = Some c.
Proof.
  intros Hlo Hhi. rewrite <- (brl_roundtrip_signed c Hlo Hhi).
  destruct (formatAmount_text c Hlo Hhi) as (ds & Hok & Hne & HV & E).
  unfold brlDecimal_MarshalJSON, brlDecimal_UnmarshalJSON, quoted.
  assert (HT : TrimSpace (formatAmount c) = formatAmount c).
  { rewrite <- (string_bytes (formatAmount c)), E. by rewrite amount_trimmed. }
  rewrite (TrimSpace_visible (asciiZ 34) _ (asciiZ 34)), bytes_string;
    [|done|done|done|by eauto|by exists (asciiZ 34 :: bytes_of (formatAmount c))].
  by rewrite trim_quotes_quoted, HT.
Qed.
Definition says_amount (raw : option string) (cents : Z) : Prop :=
  raw = Some (formatAmount cents) \/ raw = Some (quoted (formatAmount cents)).
Lemma says_amount_read raw c : says_amount raw c -> 0 <= c <= maxInt64 -> brl_member raw = Some c.
Proof.
  intros [-> | ->] Hc; cbn [brl_member]; [apply brl_roundtrip_signed|apply brl_quoted];
    unfold minInt64; lia.
Qed.

Lemma truncated_text t : FormatRFC3339 t = FormatRFC3339Nano {| ns := unix t * nsec; loc := loc t |}.
Proof.
  unfold FormatRFC3339, FormatRFC3339Nano, Format_with, civil_day, local_secs.
  assert (E : unix {| ns := unix t * nsec; loc := loc t |} = unix t)
    by (unfold unix at 1; cbn [ns]; apply Z.div_mul; done).
  rewrite !E. cbn [ns loc]. rewrite Z.mod_mul by done. done.
Qed.
Lemma clock_zone_suffix t : utc_writable t ->
  parse_zone (parse_frac (drop 19 (bytes_of (FormatRFC3339 t)))).2 = Some 0.
Proof.
  intros [E _]. unfold FormatRFC3339, Format_with, seconds_text, format_ymd. rewrite E.
  destruct (civil_from_days (civil_day t)) as [[y m] d]. by rewrite !bytes_string.
Qed.

(** The expiry asked of a mandate's confirmation is the one the bank is told and the one read
    back from its echo, to the second. *)
Theorem confirmation_expiry_exact slow t (Ht : utc_writable (in_UTC t)) :
  parseInstant slow (FormatRFC3339 (in_UTC t)) = {| ns := ns t / nsec * nsec; loc := UTC_loc |}.
Proof.
  unfold parseInstant, parse_rfc3339. rewrite clock_zone_suffix by done. rewrite bool_decide_false.
  2:{ unfold FormatRFC3339, Format_with, seconds_text, format_ymd.
      by destruct (civil_from_days _) as [[y m] d]. }
  rewrite truncated_text, parse_instant_format; [done|]. destruct Ht as [_ Hy]. split; [|done].
  unfold civil_day, local_secs in *. cbn [loc in_UTC] in *.
  assert (E : unix {| ns := unix (in_UTC t) * nsec; loc := UTC_loc |} = unix (in_UTC t))
    by (unfold unix at 1; cbn [ns]; apply Z.div_mul; done).
  by rewrite E.
Qed.

(** * Mandates *)
(** The bank's answer repeats the request; the mandate's location is its id or the whole
    object, and [no location] and [no fixed value] are members left out. *)
Record echoes_mandate (b : recRequestBody) (out : recResponseBody) : Prop := {
  em_vinculo : rsb_Vinculo out = rqb_Vinculo b;
  em_calendario : rsb_Calendario out = rqb_Calendario b;
  em_politica : rsb_PoliticaRetentativa out = rqb_PoliticaRetentativa b;
  em_loc : match rqb_Loc b with
           | Some id => rsb_Loc out = LocInteger id \/ exists url, rsb_Loc out = LocObject id url
           | None => rsb_Loc out = LocAbsent
           end;
  em_valor : match rqb_Valor b with
             | Some text => rsb_ValorRec out = Some text \/ rsb_ValorRec out = Some (quoted text)
             | None => rsb_ValorRec out = None
             end
}.

(** A mandate is read back from the bank as it was registered: payer, contract, calendar and
    retry policy, the location it was bound to, and the ceiling of its charges to the cent
    (none for a mandate of variable value). *)
Theorem mandate_wire_roundtrip r c b out
    (Hc : create_rec_call r = Ok c) (Hb : cl_body c = Some (RecBody b))
    (Hv : crr_ValorRecCents r <= maxInt64) (He : echoes_mandate b out) :
  exists m, rec_toResult out = Some m /\
    rr_Vinculo m = crr_Vinculo r /\ rr_Calendario m = crr_Calendario r /\
    rr_PoliticaRetentativa m = crr_PoliticaRetentativa r /\
    rr_LocID m = Z.max 0 (crr_LocID r) /\ rr_ValorRecCents m = crr_ValorRecCents r /\
    rr_IDRec m = rsb_IDRec out /\ rr_Status m = rsb_Status out.
Proof.
  unfold create_rec_call in Hc. destruct (_ || _); [done|]. destruct (validateObjeto _); [done|].
  destruct (Z.ltb_spec (crr_ValorRecCents r) 0); [done|]. simplify_eq. injection Hb as <-.
  destruct He as [E1 E2 E3 E4 E5].
  unfold create_rec_body in *. cbn [rqb_Vinculo rqb_Calendario rqb_PoliticaRetentativa rqb_Loc rqb_Valor] in *.
  assert (Ev : brl_member (rsb_ValorRec out) = Some (crr_ValorRecCents r)).
  { destruct (Z.ltb_spec 0 (crr_ValorRecCents r)); [by apply says_amount_read; [|lia]|].
    rewrite E5. cbn. f_equal. lia. }
  unfold rec_toResult. rewrite Ev. cbn [mbind option_bind]. eexists. split; [done|].
  cbn [rr_Vinculo rr_Calendario rr_PoliticaRetentativa rr_LocID rr_ValorRecCents rr_IDRec rr_Status].
  split_and!; try done.
  destruct (Z.ltb_spec 0 (crr_LocID r)) as [Hl|Hl]; [destruct E4 as [->|[url ->]]|rewrite E4]; cbn; lia.
Qed.

(** * Charges *)
Section charges.
Context (marshal : body -> bytes) (decode_envelope : bytes -> option errorEnvelope).
Context (data_member : bytes -> option (option bytes)) (cobr_members : bytes -> option cobrResponseBody).
Context (http_ParseTime : string -> option Time).
Context (token : string -> res string) (maxRetries : Z).
Context (bucket : string -> call body -> option tokenBucket) (world : string -> call body -> Z -> attempt_world).
Context (read_answer : string -> string -> option http_response).
Notation out := (cobr_out data_member cobr_members).
Notation port := (c6_cobr marshal decode_envelope data_member cobr_members http_ParseTime token
                    maxRetries bucket world read_answer).

(** The answer to a charge repeats it. *)
Record echoes_charge (r : CreateCobRRequest) (b : cobrResponseBody) : Prop := {
  ec_txid : csb_TxID b = ccr_TxID r;
  ec_rec : csb_IDRec b = ccr_IDRec r;
  ec_valor : says_amount (csb_Original b) (ccr_ValorCents r)
}.

(** C22. A charge the adapter accepts is put to its own resource: one segment under the
    collection, which unescapes to the charge's txid, so that no two txids share a resource.
    It is sent under one key and one body, at most once more than the retries allowed,
    whatever the bank and the network do; the use-case is answered with what
    the last attempt met; and an answer that repeats the charge is read as that charge, to the
    cent. *)
Theorem charge_on_the_wire tenantID r c k
    (Hc : create_cobr_call r = Ok c) (Hk : token tenantID = Ok k) (Hv : ccr_ValorCents r <= maxInt64) :
  (cl_method c = "PUT" /\ exists seg, cl_path c = ("/v2/pix/cobr/" ++ string_of seg)%string /\
     one_segment seg /\ PathUnescape (List.length seg) seg = bytes_of (ccr_TxID r)) /\
  exists w a m,
    transmit marshal decode_envelope http_ParseTime maxRetries bucket world out tenantID c = Some (w, a) /\
    CreateCobR port tenantID r = map_err c6_error a /\
    wi_sent w = replicate m (or_else (ccr_IdempotencyKey r) (ccr_TxID r), marshal (CobRBody (buildCobRBody r))) /\
    Z.of_nat m <= Z.max 0 maxRetries + 1 /\
    forall v, a = Ok v -> exists n resp b,
      aw_answer (world tenantID c n) = Some resp /\ Z.quot (hr_status resp) 100 = 2 /\
      in_data data_member zero_cobr cobr_members (take maxResponseBytes (hr_body resp)) = Some b /\
      (echoes_charge r b ->
       v = {| cbr_TxID := ccr_TxID r; cbr_IDRec := ccr_IDRec r; cbr_Status := csb_Status b;
              cbr_ValorCents := ccr_ValorCents r |}).
Proof.
  unfold create_cobr_call in Hc. destruct (_ || _) eqn:Eg; [done|].
  pose proof Eg as Hpos. apply orb_false_iff in Hpos as [_ Hpos]. apply Z.leb_gt in Hpos.
  injection Hc as <-. set (c := {| cl_op := "create_cobr" |}). split.
  { split; [done|]. exists (escape (bytes_of (ccr_TxID r))). split; [reflexivity|].
    split; [apply escape_segment|by apply unescape_escape]. }
  destruct (transmit_attempts marshal decode_envelope http_ParseTime maxRetries bucket world out tenantID c)
    as (w & a & m & E & Ed & Hs & Hm & Hok).
  exists w, a, m. split; [exact E|]. split.
  { cbn [CreateCobR c6_cobr]. unfold BankTransport.exchange, create_cobr_call. rewrite Eg. fold c.
    by rewrite Hk. }
  split; [exact Hs|]. split; [exact Hm|]. intros v Ev. destruct (Hok v Ev) as (_ & n & resp & Ha & H2 & Hu).
  unfold cobr_out in Hu. destruct (in_data _ _ _ _) as [b|] eqn:Eb; [|done]. cbn [mbind option_bind] in Hu.
  exists n, resp, b. do 3 (split; [done|]).
  intros [E1 E2 E3].
  unfold cobr_toResult in Hu. rewrite (says_amount_read _ _ E3) in Hu by lia. injection Hu as <-.
  by rewrite E1, E2.
Qed.

Context `{MapRange} (clock : nat -> Time) (ids : nat -> string).

(** An origination that passed the service's own gates is never turned away by the adapter: what
    reaches the wire is one charge with the amount and the due date asked, on the charge's own
    resource.  But the credited account, which the bank's contract requires (its number, and a
    type that is one of three), is empty in every one of them: the service never fills it in. *)
Theorem originated_charge_names_no_account cobr i w w' r
    (HO : OriginateCobR clock ids cobr i w = (w', r)) (Hc : calls w' <> calls w) :
  exists req c b, calls w' = (calls w ++ [CallCreateCobR (TrimSpace (oci_TenantID i)) req])%list /\
    create_cobr_call req = Ok c /\ cl_path c = cobr_resource (TrimSpace (oci_TxID i)) /\
    cl_body c = Some (CobRBody b) /\ cqb_Original b = formatAmount (oci_ValorCents i) /\
    cqb_DataDeVencimento b = TrimSpace (oci_Vencimento i) /\
    crb_Conta (cqb_Recebedor b) = "" /\
    crb_TipoConta (cqb_Recebedor b) ∉ [ContaCorrente; ContaPoupanca; ContaPagamento].
Proof.
  assert (Hids : w' <> w -> TrimSpace (oci_IDRec i) <> "" /\ TrimSpace (oci_TxID i) <> "").
  { intros Hw. unfold OriginateCobR in HO. cbv zeta in HO.
    do 3 (case_bool_decide; [by injection HO as <- _|]). done. }
  destruct (OriginateCobR_cases clock ids cobr i w w' r HO) as [[-> _]|[[-> _]|(m & Hm & Hor)]];
    [done|done|].
  destruct Hids as [Hi Ht]; [by intros ->|]. destruct Hm as [_ _ _ _ Hpos _ _].
  exists (origination_request i). unfold create_cobr_call, origination_request, blank.
  cbn [ccr_TxID ccr_IDRec ccr_ValorCents]. rewrite !TrimSpace_idem, !bool_decide_false by done.
  rewrite (proj2 (Z.leb_gt _ _)) by done. cbn [orb].
  eexists _, _. split; [by destruct Hor as [? E|? ? ? E]; rewrite E|].
  do 6 (split; [reflexivity|]). cbn. set_solver.
Qed.
End charges.

(** * Concrete runs *)
Definition sample_charge : CreateCobRRequest :=
  {| ccr_IDRec := "RR1"; ccr_TxID := "tx/1"; ccr_DataVencimento := "2026-08-01"; ccr_AjusteDiaUtil := true;
     ccr_ValorCents := 9905; ccr_Recebedor := {| crb_Conta := "12345"; crb_TipoConta := ContaCorrente |};
     ccr_IdempotencyKey := "" |}.
Definition sample_charge_echo : cobrResponseBody :=
  {| csb_TxID := "tx/1"; csb_IDRec := "RR1"; csb_Status := "CRIADA"; csb_Original := Some (quoted "99.05") |}.
Definition sample_body : bytes := bytes_of "{}".
Definition sample_bucket (_ : string) (_ : call body) : option tokenBucket := Some full_bucket.
Definition sample_port : CobRProvider :=
  c6_cobr (fun _ => sample_body) (fun _ => None) (fun b => Some (Some b)) (fun _ => Some sample_charge_echo)
    (fun _ => None) (fun _ => Ok "token") 2 sample_bucket (fun _ _ => busy_then_ok) (fun _ _ => None).

(** The bank was busy once; the charge went out twice under its txid and came back whole. *)
Lemma charge_on_the_wire_witness :
  create_cobr_call sample_charge = Ok {| cl_op := "create_cobr"; cl_method := "PUT";
    cl_path := "/v2/pix/cobr/tx%2F1"; cl_body := Some (CobRBody (buildCobRBody sample_charge));
    cl_idem := "tx/1"; cl_partner := false |} /\
  exists w a m, wi_sent w = replicate m ("tx/1", sample_body) /\ Z.of_nat m <= 3 /\
    CreateCobR sample_port "t1" sample_charge = map_err c6_error a /\
    a = Ok {| cbr_TxID := "tx/1"; cbr_IDRec := "RR1"; cbr_Status := "CRIADA"; cbr_ValorCents := 9905 |}.
Proof.
  split; [reflexivity|].
  destruct (charge_on_the_wire (fun _ => sample_body) (fun _ => None) (fun b => Some (Some b))
    (fun _ => Some sample_charge_echo) (fun _ => None) (fun _ => Ok "token") 2 sample_bucket
    (fun _ _ => busy_then_ok) (fun _ _ => None) "t1" sample_charge _ "token" eq_refl eq_refl)
    as (_ & w & a & m & E & Ec & Es & Em & Hv); [discriminate|].
  exists w, a, m. split; [exact Es|]. split; [exact Em|]. split; [exact Ec|].
  assert (Ea : exists v, a = Ok v).
  { assert (Er : exists w' v, Some (w, a) = Some (w', Ok v)); [|destruct Er as (? & v & [= _ ->]); by exists v].
    rewrite <- E. eexists _, _. vm_compute. reflexivity. }
  destruct Ea as [v ->]. destruct (Hv v eq_refl) as (n & resp & b & _ & _ & Eb & He).
  cbn in Eb. injection Eb as <-. rewrite He; [done|].
  constructor; [reflexivity|reflexivity|]. right. vm_compute. reflexivity.
Defined.

Lemma confirmation_expiry_exact_witness :
  parseInstant (fun _ => None) "2024-02-29T12:00:00Z" = {| ns := 1709208000 * nsec; loc := UTC_loc |} /\
  parseInstant (fun _ => None)
    (FormatRFC3339 (in_UTC {| ns := 1709208000 * nsec + 7; loc := {| base := -10800; zones := [] |} |}))
  = {| ns := 1709208000 * nsec; loc := UTC_loc |}.
Proof.
  split; [vm_compute; reflexivity|]. apply confirmation_expiry_exact.
  split; [reflexivity|]. vm_compute. by split.
Defined.

Definition sample_mandate : CreateRecRequest :=
  {| crr_Vinculo := {| rv_Contrato := "CT-1"; rv_Objeto := "Mensalidade";
                       rv_Devedor := {| rd_CPF := "12345678909"; rd_CNPJ := ""; rd_Nome := "Fulano" |} |};
     crr_Calendario := {| rcal_DataInicial := "2026-08-01"; rcal_Periodicidade := "MENSAL" |};
     crr_PoliticaRetentativa := "PERMITE_3R_7D"; crr_LocID := 108; crr_JornadaTxID := " jt ";
     crr_ValorRecCents := 9900; crr_IdempotencyKey := "k" |}.
Definition sample_mandate_echo : recResponseBody :=
  {| rsb_IDRec := "RR1"; rsb_Status := "CRIADA"; rsb_Vinculo := crr_Vinculo sample_mandate;
     rsb_Calendario := crr_Calendario sample_mandate; rsb_Recebedor := rsb_Recebedor zero_rec;
     rsb_PoliticaRetentativa := "PERMITE_3R_7D"; rsb_TipoJornada := "AGUARDANDO_DEFINICAO";
     rsb_Loc := LocObject 108 "https://pix.example/loc"; rsb_ValorRec := Some (quoted "99.00");
     rsb_DadosQR := rsb_DadosQR zero_rec |}.
Lemma mandate_wire_roundtrip_witness :
  rqb_Ativacao (create_rec_body sample_mandate) = Some "jt" /\
  exists m, rec_toResult sample_mandate_echo = Some m /\ rr_LocID m = 108 /\ rr_ValorRecCents m = 9900.
Proof.
  split; [reflexivity|].
  destruct (mandate_wire_roundtrip sample_mandate _ _ sample_mandate_echo eq_refl eq_refl)
    as (m & E & _ & _ & _ & El & Ev & _); [discriminate| |].
  - constructor; [reflexivity..| |].
    + right. by exists "https://pix.example/loc".
    + right. vm_compute. reflexivity.
  - exists m. split; [exact E|]. split; [exact El|exact Ev].
Defined.

Lemma originated_charge_names_no_account_witness :
  exists req c b, create_cobr_call req = Ok c /\ cl_body c = Some (CobRBody b) /\
    crb_Conta (cqb_Recebedor b) = "" /\ cqb_Original b = "50.00" /\
    calls (OriginateCobR const_clock const_ids (Some RecurrenceGates.sample_port) sample_origination
             approved_world).1 = [CallCreateCobR "t1" req].
Proof.
  destruct (originated_charge_names_no_account const_clock const_ids (Some RecurrenceGates.sample_port)
    sample_origination approved_world _ _ (surjective_pairing _))
    as (req & c & b & Ec & Eq & _ & Eb & Eo & _ & Ea & _); [vm_compute; done|].
  exists req, c, b. split; [exact Eq|]. split; [exact Eb|]. split; [exact Ea|]. split; [exact Eo|exact Ec].
Defined.

(** What the adapter refuses before anything is sent. *)
Example refused_requests :
  is_ok (create_cobr_call {| ccr_IDRec := "RR1"; ccr_TxID := " "; ccr_DataVencimento := ""; ccr_AjusteDiaUtil := false;
                             ccr_ValorCents := 1; ccr_Recebedor := zeroRecebedor; ccr_IdempotencyKey := "" |}) = false /\
  validateObjeto "Mensalidade homologacao" <> None /\ validateObjeto "" = None /\
  is_ok (get_locrec_call 0) = false /\ is_ok (cancel_cobr_call "  ") = false.
Proof. split_and!; vm_compute; done. Qed.
