(* ===== verification/C6Charges.v ===== *)
(** internal/adapters/bank/c6: the operations of the adapter on the four kinds of charge
    (c6.go, pix.go, pixcobv.go, boleto.go, checkout.go), from the request of the use-case to
    the bank's answer.  The bodies are those of C6Pix and C6Boleto, the transport that of
    BankTransport; the JSON of a body, the HTTP client, the token cache, url.Parse and the
    tenant's stored credential are parameters. *)
From S2P Require Import Prelude GoStrings GoText GoTime GoSort GoCrypto Shared ConsoleCred.
From S2P Require Import Checkouts DueCharges Ports BankPorts BankSurfaces Settlement Issuing IssuingContracts.
From S2P Require Import BoletoAmend BankTransport C6Codec C6Boleto C6Pix C6Recurrence.
#[global] Open Scope Z_scope.

Definition pixCobPath : string := "/v2/pix/cob".
Definition pixCobvPath : string := "/v2/pix/cobv".
Definition bankSlipsPath : string := "/v2/bank_slips".
Definition checkoutPath : string := "/v1/checkouts".
Definition defaultPixExpiry : Z := hour.

(** * What is sent *)
Record pixChargeRequestBody := {
  pcb_Expiracao : Z; pcb_Devedor : option pixDevedor; pcb_Original : string;
  pcb_Chave : string (* omitempty *)
}.
Record pixChargeReviseBody := {
  prb_Expiracao : option Z; prb_Devedor : option pixDevedor; prb_Original : option string;
  prb_Chave : string
}.
(** The members of [valor] are those of the full body. *)
Record cobvReviseBody := {
  crb_Calendario : option (string * Z); crb_Devedor : option pixDevedor;
  crb_Valor : option cobvRequestBody; crb_Chave : string
}.
Record cardBody := {
  cab_Type : string; cab_Installments : Z; cab_Authenticate : string; cab_InterestType : string
}.
Record checkoutRequestBody := {
  chb_Amount : Z; chb_Card : cardBody; chb_ExpirationDateTime : string (* omitempty *)
}.
Inductive charge_body :=
| CobBody (b : pixChargeRequestBody)
| CobReviseBody (b : pixChargeReviseBody)
| CobvBody (b : cobvRequestBody)
| CobvReviseBody (b : cobvReviseBody)
| SlipBody (b : bankSlipRequestBody)
| SlipPatchBody (b : bankSlipPatchBody)
| CheckoutBody (b : checkoutRequestBody).
Notation charge_call := (call charge_body).

(** * What is answered *)
Record cob_answer := { coa_body : pixChargeResponseBody; coa_Criacao : string; coa_Expiracao : Z }.
Record pixPaginacao := {
  pgn_PaginaAtual : Z; pgn_ItensPorPagina : Z; pgn_QuantidadeDePaginas : Z; pgn_QuantidadeTotalDeItens : Z
}.
Definition toPixPage (p : pixPaginacao) : PixPage :=
  {| pp_Page := pgn_PaginaAtual p; pp_PageSize := pgn_ItensPorPagina p;
     pp_TotalItems := pgn_QuantidadeTotalDeItens p; pp_TotalPages := pgn_QuantidadeDePaginas p |}.
Record bankSlipListResponseBody := {
  bll_Content : list bankSlipResponseBody; bll_TotalElements : Z; bll_Pages : Z; bll_PageNo : Z; bll_Size : Z
}.
(** The amount is the text of its value. *)
Record checkoutResponseBody := {
  cob_ID : string; cob_Status : string; cob_URL : string; cob_Amount : option string;
  cob_Installments : Z; cob_Message : string; cob_ReturnCode : string
}.

(** * Queries *)
(** [url.Values] with one value a key; [Encode] sorts by key. *)
Definition Encode (q : list (string * string)) : string :=
  String.concat "&" (map (fun kv => QueryEscape kv.1 ++ "=" ++ QueryEscape kv.2)%string
                       (SliceStable q (by_text fst))).
Definition pixWindowQuery (start end_ : Time) (page pageSize : Z) : list (string * string) :=
  ([("inicio", FormatRFC3339 (in_UTC start)); ("fim", FormatRFC3339 (in_UTC end_))]
   ++ (if 0 <? page then [("paginacao.paginaAtual", FormatInt page)] else [])
   ++ (if 0 <? pageSize then [("paginacao.itensPorPagina", FormatInt pageSize)] else []))%list.

Definition bankSlipListMaxWindowDays : Z := 60.
Definition addBankSlipRange (name : string) (from to : Time) : res (list (string * string)) :=
  if IsZero from && IsZero to then Ok []
  else
    refuse (IsZero from || IsZero to || Before to from) with (refused "list_boletos" "") ;;
    refuse (bankSlipListMaxWindowDays * 24 * hour <? Sub to from) with (refused "list_boletos" "") ;;
    Ok [((name ++ "_from")%string, Format_date (in_UTC from)); ((name ++ "_to")%string, Format_date (in_UTC to))].

(** * PDF documents *)
Definition pdfMediaType : string := "application/pdf".
Definition pdfMagic : bytes := bytes_of "%PDF-".
Definition bytes_HasPrefix (l prefix : bytes) : bool := bool_decide (take (List.length prefix) l = prefix).
Definition maxDocumentBytes : nat := Z.to_nat (Z.shiftl 8 20).
(** [base64.StdEncoding]: the text without its line breaks comes in groups of four, the last one
    padded. *)
Definition std_base64_decode (s : string) : option bytes :=
  let l := List.filter (fun c => negb ((code c =? 10)%N || (code c =? 13)%N)) (bytes_of s) in
  let pad l := match rev l with c :: r => if bool_decide (c = "="%char) then rev r else l | [] => l end in
  if Nat.eqb (List.length l mod 4) 0 then base64_decode (string_of (pad (pad l))) else None.
(** [fields]: the members base64_pdf_file, pdf and content of the document, if it is one. *)
Definition decodeBase64PDFEnvelope (fields : bytes -> option (list string)) (body : bytes) : option bytes :=
  encoded ← fields body;
  let decoded e := if bool_decide (e = "") then None
                   else match std_base64_decode e with
                        | Some d => if bytes_HasPrefix d pdfMagic then Some d else None
                        | None => None
                        end in
  head (omap decoded encoded).

(** * Checkout sessions *)
Definition maxCardInstallments : Z := 12.
Definition cardInterestByIssuer : string := "BY_ISSUER".
Definition checkoutStatusPaid : string := "PAID".
Definition checkoutReturnCodeApproved : string := "00".
Definition checkoutCaptured (out : checkoutResponseBody) : bool :=
  EqualFold (TrimSpace (cob_Status out)) checkoutStatusPaid
  && bool_decide (TrimSpace (cob_ReturnCode out) = checkoutReturnCodeApproved).

(** The call, with the total and the instalments it carries. *)
Definition create_checkout_call (r : CheckoutRequest) : res (charge_call * Z * Z) :=
  let no := refused "create_checkout" "" in
  let cardType := ToUpper (TrimSpace (crq_CardType r)) in
  refuse (negb (bool_decide (cardType = "CREDIT")) && negb (bool_decide (cardType = "DEBIT"))) with no ;;
  match SumCents (map coi_AmountCents (crq_Items r)) with
  | Err _ => Err no
  | Ok sum =>
      refuse (sum <=? 0) with no ;;
      let installments := if crq_MaxInstallments r <=? 0 then 1 else crq_MaxInstallments r in
      refuse ((maxCardInstallments <? installments)
              || (bool_decide (cardType = "DEBIT") && (1 <? installments))) with no ;;
      let card := {| cab_Type := cardType; cab_Installments := installments;
                     cab_Authenticate := if crq_RequireAuthentication r then "REQUIRED" else "NOT_REQUIRED";
                     cab_InterestType := cardInterestByIssuer |} in
      Ok ({| cl_op := "create_checkout"; cl_method := "POST"; cl_path := (checkoutPath ++ "/")%string;
             cl_body := Some (CheckoutBody
               {| chb_Amount := sum; chb_Card := card;
                  chb_ExpirationDateTime := if IsZero (crq_ExpiresAt r) then ""
                                            else FormatRFC3339 (in_UTC (crq_ExpiresAt r)) |});
             cl_idem := or_else (crq_IdempotencyKey r) (crq_SessionID r); cl_partner := false |}, sum, installments)
  end.

(** * The provider *)
Section provider.
Context (marshal : charge_body -> bytes) (decode_envelope : bytes -> option errorEnvelope).
Context (http_ParseTime slow : string -> option Time).
(** The codec of the answers. *)
Context (cob_members : bytes -> option cob_answer) (cobs_members : bytes -> option (pixPaginacao * list cob_answer)).
Context (cobv_members : bytes -> option cobvResponseBody)
        (cobvs_members : bytes -> option (pixPaginacao * list cobvResponseBody)).
Context (slip_members : bytes -> option bankSlipResponseBody)
        (slips_members : bytes -> option bankSlipListResponseBody).
Context (checkout_members : bytes -> option checkoutResponseBody) (pdf_fields : bytes -> option (list string)).
(** url.Parse: the scheme and the host. *)
Context (url_Parse : string -> option (string * string)).
Context (token : string -> res string) (maxRetries : Z).
Context (bucket : string -> charge_call -> option tokenBucket) (world : string -> charge_call -> Z -> attempt_world).
Context (single : string -> charge_call -> option (http_response * string)).
(** The clock, the configured billing scheme, and the CreditorKey of the tenant's credential. *)
Context (now : Time) (billingScheme : string) (stored_CreditorKey : string -> res string).

Notation deliver := (BankTransport.deliver marshal decode_envelope http_ParseTime maxRetries bucket world).
Notation exchange := (BankTransport.exchange marshal decode_envelope http_ParseTime token maxRetries bucket world).
Notation exchange_empty := (BankTransport.exchange_empty decode_envelope token single).
Notation exchange_raw := (BankTransport.exchange_raw decode_envelope token single).
Definition get_call (op path : string) : charge_call :=
  {| cl_op := op; cl_method := "GET"; cl_path := path; cl_body := None; cl_idem := ""; cl_partner := false |}.

Definition resolveCreditorKey (tenantID reqKey : string) : res string :=
  let k := TrimSpace reqKey in
  if negb (bool_decide (k = "")) then Ok k
  else let? stored := stored_CreditorKey tenantID in Ok (TrimSpace stored).

(** ** Immediate charges *)
Definition cob_resource (txid : string) : string := (pixCobPath ++ "/" ++ PathEscape txid)%string.
Definition pixExpiresAt (a : cob_answer) : Time :=
  if coa_Expiracao a <=? 0 then zeroTime
  else
    let base := if bool_decide (coa_Criacao a = "") then now
                else default now (parse_rfc3339 slow (coa_Criacao a)) in
    Add base (mul64 (coa_Expiracao a) nsec).
Definition cob_result (op : string) (a : cob_answer) : res PixChargeResult :=
  map_err (Wrap op) (toPixResult (pixExpiresAt a) (coa_body a)).
Definition cob_body (expiresIn : Z) (chave : string) (r : ChargeRequest) : charge_body :=
  CobBody {| pcb_Expiracao := Z.quot expiresIn nsec;
             pcb_Devedor := buildDevedorFields (chr_DebtorTaxID r) (chr_DebtorName r);
             pcb_Original := formatAmount (chr_AmountCents r); pcb_Chave := chave |}.
Definition unanchored (r : ChargeRequest) : bool :=
  bool_decide (idempotencyKey r = "") || (chr_AmountCents r <=? 0).

Definition create_charge_call (tenantID : string) (r : ChargeRequest) : res charge_call :=
  refuse (unanchored r) with (refused "create_charge" "") ;;
  let? chave := resolveCreditorKey tenantID (chr_CreditorKey r) in
  Ok {| cl_op := "create_charge"; cl_method := "PUT"; cl_path := cob_resource (pixTxID r);
        cl_body := Some (cob_body defaultPixExpiry chave r); cl_idem := idempotencyKey r; cl_partner := false |}.
Definition c6_CreateCharge (tenantID : string) (r : ChargeRequest) : res ChargeResult :=
  let? a := exchange cob_members tenantID (create_charge_call tenantID r) in
  map_err (Wrap "create_charge") (cobToChargeResult (coa_body a)).
Definition c6_GetCharge (tenantID txID : string) : res ChargeResult :=
  let? a := exchange cob_members tenantID (Ok (get_call "get_charge" (cob_resource txID))) in
  map_err (Wrap "get_charge") (cobToChargeResult (coa_body a)).

(** The token is asked for before the request is looked at. *)
Definition create_pix_call (tenantID : string) (r : ChargeRequest) (expiresIn : Z) : res charge_call :=
  let? _ := token tenantID in
  refuse (bool_decide (idempotencyKey r = "")) with (refused "create_pix" "") ;;
  refuse (chr_AmountCents r <=? 0) with (refused "create_pix" "") ;;
  let expiresIn := if expiresIn <=? 0 then defaultPixExpiry else expiresIn in
  let? chave := resolveCreditorKey tenantID (chr_CreditorKey r) in
  Ok {| cl_op := "create_pix"; cl_method := "PUT"; cl_path := cob_resource (pixTxID r);
        cl_body := Some (cob_body expiresIn chave r); cl_idem := idempotencyKey r; cl_partner := false |}.
Definition c6_CreateImmediateCharge (tenantID : string) (r : ChargeRequest) (expiresIn : Z) : res PixChargeResult :=
  let? c := create_pix_call tenantID r expiresIn in
  let? a := deliver cob_members tenantID c in
  cob_result "create_pix" a.
Definition c6_GetImmediateCharge (tenantID txID : string) : res PixChargeResult :=
  let? a := exchange cob_members tenantID (Ok (get_call "get_pix" (cob_resource txID))) in
  cob_result "get_pix" a.

Fixpoint cob_results (l : list cob_answer) : res (list PixChargeResult) :=
  match l with
  | [] => Ok []
  | a :: l => let? r := cob_result "list_pix" a in let? rs := cob_results l in Ok (r :: rs)
  end.
Definition c6_ListImmediateCharges (tenantID : string) (f : PixListFilter) : res PixChargeList :=
  refuse (IsZero (plf_Start f) || IsZero (plf_End f)) with (refused "list_pix" "") ;;
  let q := pixWindowQuery (plf_Start f) (plf_End f) (plf_Page f) (plf_PageSize f) in
  let? out := exchange cobs_members tenantID (Ok (get_call "list_pix" (pixCobPath ++ "?" ++ Encode q)%string)) in
  let? charges := cob_results out.2 in
  let page := toPixPage out.1 in
  Ok {| pcl_Charges := charges; pcl_Page := pp_Page page; pcl_PageSize := pp_PageSize page;
        pcl_TotalItems := pp_TotalItems page; pcl_TotalPages := pp_TotalPages page |}.

(** The bank chooses the txid. *)
Definition create_auto_call (tenantID : string) (r : ChargeRequest) (expiresIn : Z) : res charge_call :=
  refuse (unanchored r) with (refused "create_pix_auto_txid" "") ;;
  let expiresIn := if expiresIn <=? 0 then defaultPixExpiry else expiresIn in
  let? chave := resolveCreditorKey tenantID (chr_CreditorKey r) in
  Ok {| cl_op := "create_pix_auto_txid"; cl_method := "POST"; cl_path := pixCobPath;
        cl_body := Some (cob_body expiresIn chave r); cl_idem := idempotencyKey r; cl_partner := false |}.
Definition c6_CreateImmediateChargeAutoTxID (tenantID : string) (r : ChargeRequest) (expiresIn : Z)
    : res PixChargeResult :=
  let? a := exchange cob_members tenantID (create_auto_call tenantID r expiresIn) in
  refuse (blank (pcr_TxID (coa_body a))) with (Wrap "create_pix_auto_txid" ErrUnavailable) ;;
  cob_result "create_pix_auto_txid" a.

Definition revise_pix_call (txID : string) (r : ChargeRequest) (expiresIn : Z) : res charge_call :=
  let txID := TrimSpace txID in
  let no := refused "revise_pix" "" in
  refuse (bool_decide (txID = "") || (chr_AmountCents r <? 0)) with no ;;
  let b := {| prb_Expiracao := if 0 <? expiresIn then Some (Z.quot expiresIn nsec) else None;
              prb_Devedor := buildDevedorFields (chr_DebtorTaxID r) (chr_DebtorName r);
              prb_Original := if 0 <? chr_AmountCents r then Some (formatAmount (chr_AmountCents r)) else None;
              prb_Chave := TrimSpace (chr_CreditorKey r) |} in
  refuse (negb (is_set (prb_Expiracao b) || is_set (prb_Original b) || is_set (prb_Devedor b))
          && bool_decide (prb_Chave b = "")) with no ;;
  Ok {| cl_op := "revise_pix"; cl_method := "PATCH"; cl_path := cob_resource txID;
        cl_body := Some (CobReviseBody b); cl_idem := idempotencyKey r; cl_partner := false |}.
Definition c6_ReviseImmediateCharge (tenantID txID : string) (r : ChargeRequest) (expiresIn : Z)
    : res PixChargeResult :=
  let? a := exchange cob_members tenantID (revise_pix_call txID r expiresIn) in
  cob_result "revise_pix" a.

(** ** Charges with a due date *)
Definition cobv_resource (txid : string) : string := (pixCobvPath ++ "/" ++ PathEscape txid)%string.
Definition cobv_result (op : string) (b : cobvResponseBody) : res PixDueChargeResult :=
  map_err (Wrap op) (toCobvResult b).
Definition put_cobv_call (op tenantID txID idem : string) (r : PixDueChargeRequest) : res charge_call :=
  let? chave := resolveCreditorKey tenantID (dcr_CreditorKey r) in
  refuse (blank chave) with (refused op "creditor PIX key is required") ;;
  Ok {| cl_op := op; cl_method := "PUT"; cl_path := cobv_resource txID;
        cl_body := Some (CobvBody (toCobvRequestBody chave r)); cl_idem := idem; cl_partner := false |}.
Definition create_cobv_call (tenantID : string) (r : PixDueChargeRequest) : res charge_call :=
  let anchor := cobvAnchor r in
  refuse (bool_decide (anchor = "") || (dcr_AmountCents r <=? 0)) with (refused "create_cobv" "") ;;
  put_cobv_call "create_cobv" tenantID (cobvTxID anchor) anchor r.
Definition c6_CreateDueCharge (tenantID : string) (r : PixDueChargeRequest) : res PixDueChargeResult :=
  let? b := exchange cobv_members tenantID (create_cobv_call tenantID r) in
  cobv_result "create_cobv" b.
Definition c6_GetDueCharge (tenantID txID : string) : res PixDueChargeResult :=
  let? b := exchange cobv_members tenantID (Ok (get_call "get_cobv" (cobv_resource txID))) in
  cobv_result "get_cobv" b.
Definition update_cobv_call (tenantID txID : string) (r : PixDueChargeRequest) : res charge_call :=
  refuse (dcr_AmountCents r <=? 0) with (refused "update_cobv" "") ;;
  put_cobv_call "update_cobv" tenantID txID (or_else (dcr_IdempotencyKey r) txID) r.
Definition c6_UpdateDueCharge (tenantID txID : string) (r : PixDueChargeRequest) : res PixDueChargeResult :=
  let? b := exchange cobv_members tenantID (update_cobv_call tenantID txID r) in
  cobv_result "update_cobv" b.

Definition revise_cobv_call (txID : string) (r : PixDueChargeRequest) : res charge_call :=
  let txID := TrimSpace txID in
  let no := refused "revise_cobv" "" in
  refuse (bool_decide (txID = "") || (dcr_AmountCents r <? 0)) with no ;;
  let b := {| crb_Calendario :=
                if negb (IsZero (dcr_DueDate r)) || (0 <? dcr_ValidityDays r)
                then Some (if IsZero (dcr_DueDate r) then "" else Format_date (in_UTC (dcr_DueDate r)),
                           dcr_ValidityDays r)
                else None;
              crb_Devedor := buildCobvDevedor r;
              crb_Valor := if 0 <? dcr_AmountCents r then Some (toCobvRequestBody "" r) else None;
              crb_Chave := TrimSpace (dcr_CreditorKey r) |} in
  refuse (negb (is_set (crb_Calendario b) || is_set (crb_Valor b) || is_set (crb_Devedor b))
          && bool_decide (crb_Chave b = "")) with no ;;
  Ok {| cl_op := "revise_cobv"; cl_method := "PATCH"; cl_path := cobv_resource txID;
        cl_body := Some (CobvReviseBody b); cl_idem := cobvAnchor r; cl_partner := false |}.
Definition c6_ReviseDueCharge (tenantID txID : string) (r : PixDueChargeRequest) : res PixDueChargeResult :=
  let? b := exchange cobv_members tenantID (revise_cobv_call txID r) in
  cobv_result "revise_cobv" b.

Fixpoint cobv_results (l : list cobvResponseBody) : res (list PixDueChargeResult) :=
  match l with
  | [] => Ok []
  | b :: l => let? r := cobv_result "list_cobv" b in let? rs := cobv_results l in Ok (r :: rs)
  end.
Definition c6_ListDueCharges (tenantID : string) (f : PixListFilter) : res PixDueChargeList :=
  refuse (IsZero (plf_Start f) || IsZero (plf_End f)) with (refused "list_cobv" "") ;;
  let q := pixWindowQuery (plf_Start f) (plf_End f) (plf_Page f) (plf_PageSize f) in
  let? out := exchange cobvs_members tenantID (Ok (get_call "list_cobv" (pixCobvPath ++ "?" ++ Encode q)%string)) in
  let? charges := cobv_results out.2 in
  Ok {| pdl_Charges := charges; pdl_PixPage := toPixPage out.1 |}.

(** ** Boletos *)
Definition slip_resource (ref : string) : string := (bankSlipsPath ++ "/" ++ PathEscape ref)%string.
Definition create_boleto_call (tenantID : string) (r : BoletoRequest) : res charge_call :=
  let? pixKey := resolveCreditorKey tenantID "" in
  let? b := toBankSlipRequestBody billingScheme r pixKey in
  Ok {| cl_op := "create_boleto"; cl_method := "POST"; cl_path := bankSlipsPath; cl_body := Some (SlipBody b);
        cl_idem := or_else (brq_IdempotencyKey r) (brq_BoletoID r); cl_partner := false |}.
Definition c6_CreateBoleto (tenantID : string) (r : BoletoRequest) : res BoletoResult :=
  let? out := exchange slip_members tenantID (create_boleto_call tenantID r) in
  Ok (toBankSlipResult (brq_BoletoID r) out).
Definition getBankSlip (tenantID ref boletoID op : string) : res BoletoResult :=
  let? out := exchange slip_members tenantID (Ok (get_call op (slip_resource ref))) in
  Ok (toBankSlipResult boletoID out).
Definition c6_GetBoleto (tenantID boletoID : string) : res BoletoResult :=
  getBankSlip tenantID (externalReferenceID boletoID) boletoID "get_boleto".
Definition with_BoletoID (id : string) (r : BoletoResult) : BoletoResult :=
  {| br_BoletoID := id; br_TxID := br_TxID r; br_Status := br_Status r; br_Modality := br_Modality r;
     br_ExternalReferenceID := br_ExternalReferenceID r; br_QRCode := br_QRCode r;
     br_OurNumber := br_OurNumber r; br_DigitableLine := br_DigitableLine r; br_Barcode := br_Barcode r;
     br_AmountCents := br_AmountCents r; br_DueDate := br_DueDate r; br_ValidUntil := br_ValidUntil r;
     br_FineBps := br_FineBps r; br_FineFixedCents := br_FineFixedCents r;
     br_MonthlyInterestBps := br_MonthlyInterestBps r; br_Discounts := br_Discounts r |}.
Definition c6_GetBoletoByBankRef (tenantID bankRef : string) : res BoletoResult :=
  let ref := TrimSpace bankRef in
  refuse (negb (validExternalReference ref))
    with (refused "get_boleto_by_ref" "external reference must be 26 uppercase alphanumerics") ;;
  let? r := getBankSlip tenantID ref "" "get_boleto_by_ref" in
  Ok (match boletoIDFromExternalReference ref with Some id => with_BoletoID id r | None => r end).

Definition bankSlipStatusCanceled : string := "CANCELED".
Definition c6_CancelBoleto (tenantID boletoID : string) : res BoletoResult :=
  let ref := externalReferenceID boletoID in
  let? _ := exchange_empty tenantID (Ok
    {| cl_op := "cancel_boleto"; cl_method := "PUT"; cl_path := (slip_resource ref ++ "/cancel")%string;
       cl_body := None; cl_idem := boletoID; cl_partner := false |}) in
  Ok {| br_BoletoID := boletoID; br_TxID := ""; br_Status := bankSlipStatusCanceled; br_Modality := "";
        br_ExternalReferenceID := ref; br_QRCode := ""; br_OurNumber := ""; br_DigitableLine := "";
        br_Barcode := ""; br_AmountCents := 0; br_DueDate := zeroTime; br_ValidUntil := zeroTime;
        br_FineBps := 0; br_FineFixedCents := 0; br_MonthlyInterestBps := 0; br_Discounts := [] |}.

Definition update_boleto_call (boletoID : string) (p : BoletoPatch) : res charge_call :=
  let? b := toBankSlipPatchBody p in
  refuse (patch_empty b) with (refused "update_boleto" "no amendable field was supplied") ;;
  Ok {| cl_op := "update_boleto"; cl_method := "PATCH"; cl_path := slip_resource (externalReferenceID boletoID);
        cl_body := Some (SlipPatchBody b); cl_idem := or_else (bpt_IdempotencyKey p) boletoID; cl_partner := false |}.
Definition c6_UpdateBoleto (tenantID boletoID : string) (p : BoletoPatch) : res BoletoResult :=
  let? out := exchange slip_members tenantID (update_boleto_call boletoID p) in
  Ok (toBankSlipResult boletoID out).

(** The signature decides what is a PDF. *)
Definition pdf_of (op filename : string) (body : bytes) : res BoletoDocument :=
  let doc content := Ok {| bdoc_ContentType := pdfMediaType; bdoc_Filename := filename; bdoc_Content := content |} in
  if bytes_HasPrefix body pdfMagic then doc body
  else match decodeBase64PDFEnvelope pdf_fields body with
       | Some decoded => doc decoded
       | None => Err (Wrap (op ++ "response is not a PDF") ErrUnavailable)
       end.
Definition c6_GetBoletoPDF (tenantID boletoID : string) : res BoletoDocument :=
  let? out := exchange_raw tenantID maxDocumentBytes
    (Ok (get_call "get_boleto_pdf" (slip_resource (externalReferenceID boletoID) ++ "/pdf")%string)) in
  pdf_of "get_boleto_pdf" ("boleto-" ++ boletoID ++ ".pdf")%string out.1.

Definition list_boletos_call (f : BoletoListFilter) : res charge_call :=
  let no := refused "list_boletos" "" in
  let? payment := addBankSlipRange "payment_date" (blf_PaymentDateFrom f) (blf_PaymentDateTo f) in
  let? due := addBankSlipRange "due_date" (blf_DueDateFrom f) (blf_DueDateTo f) in
  let? credit := addBankSlipRange "credit_date" (blf_CreditDateFrom f) (blf_CreditDateTo f) in
  let ranges := (payment ++ due ++ credit)%list in
  refuse (bool_decide (ranges = [])) with no ;;
  let status := TrimSpace (blf_Status f) in
  let ref := TrimSpace (blf_ExternalReferenceID f) in
  refuse (negb (bool_decide (ref = "")) && negb (validExternalReference ref)) with no ;;
  let q := (ranges
    ++ (if bool_decide (status = "") then [] else [("status", status)])
    ++ (if bool_decide (ref = "") then [] else [("external_reference_id", ref)])
    ++ (if 0 <=? blf_Page f then [("page", FormatInt (blf_Page f))] else [])
    ++ (if 0 <? blf_PageSize f then [("size", FormatInt (blf_PageSize f))] else []))%list in
  Ok {| cl_op := "list_boletos"; cl_method := "GET"; cl_path := (bankSlipsPath ++ "/list?" ++ Encode q)%string;
        cl_body := None; cl_idem := ""; cl_partner := true |}.
Definition c6_ListBoletos (tenantID : string) (f : BoletoListFilter) : res BoletoList :=
  let? out := exchange slips_members tenantID (list_boletos_call f) in
  Ok {| bll_Boletos := map (toBankSlipResult "") (bll_Content out); bll_Page := bll_PageNo out;
        bll_PageSize := bll_Size out; bll_TotalItems := bll_TotalElements out; bll_TotalPages := bll_Pages out |}.

(** ** Checkout sessions *)
Definition validateRedirectURL (raw : string) : option error :=
  match url_Parse raw with
  | Some (scheme, host) =>
      if negb (bool_decide (scheme = "https")) || bool_decide (host = "")
      then Some (Wrap "create_checkout: untrusted redirect url" ErrUnavailable) else None
  | None => Some (Wrap "create_checkout: untrusted redirect url" ErrUnavailable)
  end.
(** The amount of the answer is decoded with the body. *)
Definition checkout_out (payload : bytes) : option (checkoutResponseBody * Z) :=
  out ← checkout_members payload; amount ← brl_member (cob_Amount out); Some (out, amount).
Definition toCheckoutResult (op : string) (out : checkoutResponseBody * Z) : res CheckoutResult :=
  let '(b, authorized) := out in
  match (if bool_decide (cob_URL b = "") then None else validateRedirectURL (cob_URL b)) with
  | Some _ => Err (Wrap (op ++ "untrusted redirect url") ErrUnavailable)
  | None =>
      Ok {| co_SessionID := cob_ID b; co_Status := cob_Status b; co_RedirectURL := cob_URL b;
            co_AmountCents := authorized;
            co_ReceivedAmountCents := if checkoutCaptured b then authorized else 0;
            co_CardType := ""; co_RequireAuthentication := false; co_MaxInstallments := 0;
            co_Installments := cob_Installments b; co_Message := cob_Message b |}
  end.
Definition c6_CreateCheckoutSession (tenantID : string) (r : CheckoutRequest) : res CheckoutResult :=
  let? call := create_checkout_call r in
  let '(c, sum, installments) := call in
  let? out := exchange checkout_out tenantID (Ok c) in
  match validateRedirectURL (cob_URL out.1) with
  | Some e => Err e
  | None =>
      Ok {| co_SessionID := cob_ID out.1; co_Status := or_else (cob_Status out.1) "CREATED";
            co_RedirectURL := cob_URL out.1; co_AmountCents := sum; co_ReceivedAmountCents := 0;
            co_CardType := crq_CardType r; co_RequireAuthentication := crq_RequireAuthentication r;
            co_MaxInstallments := installments; co_Installments := 0; co_Message := "" |}
  end.
Definition session_resource (id : string) : string := (checkoutPath ++ "/" ++ PathEscape id)%string.
Definition c6_GetCheckoutSession (tenantID sessionID : string) : res CheckoutResult :=
  let? out := exchange checkout_out tenantID (Ok (get_call "get_checkout" (session_resource sessionID))) in
  toCheckoutResult "get_checkout" out.
Definition c6_CancelCheckoutSession (tenantID sessionID : string) : res CheckoutResult :=
  let? _ := exchange_empty tenantID (Ok
    {| cl_op := "cancel_checkout"; cl_method := "PUT"; cl_path := (session_resource sessionID ++ "/cancel")%string;
       cl_body := None; cl_idem := ""; cl_partner := false |}) in
  Ok {| co_SessionID := sessionID; co_Status := "CANCELLED"; co_RedirectURL := ""; co_AmountCents := 0;
        co_ReceivedAmountCents := 0; co_CardType := ""; co_RequireAuthentication := false;
        co_MaxInstallments := 0; co_Installments := 0; co_Message := "" |}.

(** The call a request of the issuing services leads to. *)
Definition issue_call (tenantID : string) (r : BankRequest) : res charge_call :=
  match r with
  | BankCharge r => create_charge_call tenantID r
  | BankBoleto r => create_boleto_call tenantID r
  | BankCheckout r => let? c := create_checkout_call r in Ok c.1.1
  | BankDueCharge r => create_cobv_call tenantID r
  end.
End provider.

(** * What the issuing services send *)
(** The amount the bank reads in a body. *)
Definition wire_amount (b : charge_body) : option Z :=
  match b with
  | CobBody b => parseAmountCents (pcb_Original b)
  | CobvBody b => parseAmountCents (cvb_Original b)
  | SlipBody b => brlDecimal_UnmarshalJSON (brlDecimal_MarshalJSON (bsr_Amount b))
  | CheckoutBody b => brlDecimal_UnmarshalJSON (brlDecimal_MarshalJSON (chb_Amount b))
  | _ => None
  end.
(** Where a new charge is created: PIX charges under the digest of their key, the others in
    their collection. *)
Definition issue_path (r : BankRequest) : string :=
  match r with
  | BankCharge _ => cob_resource (digest_txid (bank_key r))
  | BankDueCharge _ => cobv_resource (digest_txid (bank_key r))
  | BankBoleto _ => bankSlipsPath
  | BankCheckout _ => (checkoutPath ++ "/")%string
  end.

Lemma or_else_set s t : s <> "" -> or_else s t = s.
Proof. intros H. unfold or_else. by rewrite bool_decide_false. Qed.
Lemma small_brl c : 0 < c < ceiling -> brlDecimal_UnmarshalJSON (brlDecimal_MarshalJSON c) = Some c.
Proof.
  intros Hc. unfold ceiling, maxAmountReais in Hc. apply brl_roundtrip_signed; unfold minInt64, maxInt64; lia.
Qed.

Lemma SumCents_from_positive l : forall sum, Forall (fun a => 0 < a) l -> 0 <= sum ->
  sum + sumZ l <= maxInt64 -> SumCents_from sum l = Ok (sum + sumZ l).
Proof.
  induction l as [|a l IH]; intros sum Hl Hs Hm; cbn [SumCents_from].
  { cbn. f_equal. lia. }
  apply Forall_cons in Hl as [Ha Hl]. cbn [sumZ fold_right] in *. change (fold_right Z.add 0 l) with (sumZ l) in *.
  assert (0 <= sumZ l) by (clear -Hl; induction Hl; [done|]; cbn [sumZ fold_right] in *; unfold sumZ in *; lia).
  destruct (AddCents_spec sum a) as [[_ ->]|[Hn _]]; [unfold in64, minInt64 in *; lia..| |].
  - rewrite IH by (done || lia). f_equal. lia.
  - exfalso. apply Hn. unfold in64, minInt64. lia.
Qed.
Lemma items_sum r : CheckoutRequest_ok r -> bank_amount (BankCheckout r) < ceiling ->
  SumCents (map coi_AmountCents (crq_Items r)) = Ok (bank_amount (BankCheckout r)).
Proof.
  intros [(_ & _ & Hpos) _ _ _ _ _ _] Hb.
  change (bank_amount (BankCheckout r)) with (sumZ (map coi_AmountCents (crq_Items r))) in *.
  unfold SumCents. rewrite SumCents_from_positive; [done|by apply Forall_map|done|].
  unfold ceiling, maxAmountReais, maxInt64 in *. lia.
Qed.

Section issued.
Context (marshal : charge_body -> bytes) (decode_envelope : bytes -> option errorEnvelope).
Context (http_ParseTime : string -> option Time) (maxRetries : Z).
Context (bucket : string -> charge_call -> option tokenBucket) (world : string -> charge_call -> Z -> attempt_world).
Context (billingScheme : string) (stored_CreditorKey : string -> res string).
Notation issue_call := (issue_call billingScheme stored_CreditorKey).

Lemma issue_call_shape tenantID r c (Hok : request_ok r) (Hkey : bank_key r <> "")
    (Ha : 0 < bank_amount r < ceiling) (Hc : issue_call tenantID r = Ok c) :
  cl_path c = issue_path r /\ cl_idem c = bank_key r /\
  exists b, cl_body c = Some b /\ wire_amount b = Some (bank_amount r).
Proof.
  destruct r as [r|r|r|r]; cbn [C6Charges.issue_call bank_key issue_path request_ok] in *.
  - unfold create_charge_call in Hc. destruct (unanchored r); [done|].
    destruct (resolveCreditorKey _ _ _) as [chave|]; [|done]. injection Hc as <-.
    unfold pixTxID, idempotencyKey. rewrite bool_decide_false by done. split_and!; [done..|].
    eexists. split; [done|]. cbn [wire_amount cob_body pcb_Original]. apply parse_small. cbn [bank_amount] in *. lia.
  - unfold create_boleto_call in Hc. destruct (resolveCreditorKey _ _ _) as [k|]; [|done].
    destruct (toBankSlipRequestBody _ _ _) as [b|] eqn:Eb; [|done]. injection Hc as <-.
    cbn [cl_path cl_idem cl_body]. rewrite or_else_set by done. split_and!; [done..|].
    eexists. split; [done|]. cbn [wire_amount].
    assert (bsr_Amount b = brq_AmountCents r) as ->; [|by apply small_brl].
    clear -Eb. unfold toBankSlipRequestBody in Eb. destruct (validatePayer _); [|done].
    destruct (blank _); [done|]. cbv zeta in Eb. case_bool_decide; [done|].
    destruct (validateBankSlipLimits _ _); [|done]. destruct (toBankSlipFees _); [|done].
    destruct (if bool_decide _ then _ else Ok None); [|done]. by injection Eb as <-.
  - unfold create_checkout_call in Hc. destruct (negb _ && negb _); [done|].
    rewrite items_sum in Hc by (done || lia).
    destruct (_ <=? 0); [done|]. destruct (_ || _); [done|]. injection Hc as <-.
    cbn [fst cl_path cl_idem cl_body]. rewrite or_else_set by done. split_and!; [done..|].
    eexists. split; [done|]. cbn [wire_amount chb_Amount]. by apply small_brl.
  - unfold create_cobv_call, put_cobv_call in Hc. destruct (bool_decide (cobvAnchor r = "") || _); [done|].
    destruct (resolveCreditorKey _ _ _) as [chave|]; [|done]. destruct (blank chave); [done|].
    injection Hc as <-. unfold cobvAnchor. rewrite bool_decide_false by done. split_and!; [done..|].
    eexists. split; [done|]. cbn [wire_amount toCobvRequestBody cvb_Original]. apply parse_small. cbn [bank_amount] in *. lia.
Qed.

(** C7. From the ledger to the wire.  A request that keeps its service's contract goes out under
    its own idempotency key, at most once more than the retries allowed and with one body
    throughout, whatever the bank and the network do; the amount the bank reads in that body is
    the request's, to the cent; and the resource it is put to is a function of the key, so a PIX
    charge asked for again under its key is put to the same resource. *)
Theorem issued_on_the_wire {A} (unmarshal : bytes -> option A) tenantID r c (Hok : request_ok r)
    (Hkey : bank_key r <> "") (Ha : 0 < bank_amount r < ceiling) (Hc : issue_call tenantID r = Ok c) :
  exists b w a m,
    wire_amount b = Some (bank_amount r) /\ cl_path c = issue_path r /\
    transmit marshal decode_envelope http_ParseTime maxRetries bucket world unmarshal tenantID c = Some (w, a) /\
    wi_sent w = replicate m (bank_key r, marshal b) /\ Z.of_nat m <= Z.max 0 maxRetries + 1.
Proof.
  destruct (issue_call_shape tenantID r c Hok Hkey Ha Hc) as (Hp & Hi & b & Hb & Hw).
  destruct (transmit_attempts marshal decode_envelope http_ParseTime maxRetries bucket world unmarshal tenantID c)
    as (w & a & m & E & _ & Hs & Hm & _).
  exists b, w, a, m. rewrite Hb, Hi in Hs. by split_and!.
Qed.

(** The adapter turns away no session and no due-date charge that keeps its contract, and
    offers the instalments asked for. *)
Theorem contracts_accepted tenantID :
  (forall r, CheckoutRequest_ok r -> bank_amount (BankCheckout r) < ceiling ->
     exists c, create_checkout_call r = Ok (c, bank_amount (BankCheckout r), crq_MaxInstallments r)) /\
  (forall r, PixDueChargeRequest_ok r -> cobvAnchor r <> "" ->
     exists c, create_cobv_call stored_CreditorKey tenantID r = Ok c /\
       cl_body c = Some (CobvBody (toCobvRequestBody (TrimSpace (dcr_CreditorKey r)) r))).
Proof.
  split.
  - intros r Hok Hb. pose proof Hok as [(Hne & Hlen & Hpos) Hmin _ Hcard Hinst Hdebit _].
    assert (Hcases : exists t, ToUpper (TrimSpace (crq_CardType r)) = t /\
              (t = "CREDIT" \/ t = "DEBIT" /\ crq_MaxInstallments r = 1)).
    { eexists. split; [reflexivity|]. unfold CardType_valid in Hcard. apply orb_true_iff in Hcard as [H|H];
        apply bool_decide_eq_true in H; [left|right; split; [|by apply Hdebit]]; by rewrite H. }
    destruct Hcases as (t & Et & Ht). unfold create_checkout_call. rewrite Et, items_sum by done.
    unfold MinCheckoutTotalCents, MaxInstallmentsLimit, maxCardInstallments in *. cbv zeta.
    rewrite (proj2 (Z.leb_gt (bank_amount _) 0)), (proj2 (Z.leb_gt (crq_MaxInstallments r) 0)),
      (proj2 (Z.ltb_ge 12 _)) by lia.
    destruct Ht as [->|[-> Em]]; [|rewrite Em]; eexists; reflexivity.
  - intros r [[Hpos _] _ _ _ _ _ Hk] Hanchor. cbn [cents] in Hpos.
    unfold create_cobv_call, put_cobv_call, resolveCreditorKey.
    rewrite bool_decide_false, (proj2 (Z.leb_gt _ _)) by (done || lia). cbn [orb].
    unfold blank in Hk |- *. rewrite Hk. cbn [negb]. rewrite TrimSpace_idem, Hk. by eexists.
Qed.
End issued.

(** * What is read *)
Lemma fold_case_plain l c r : c <> "s"%char -> c <> "k"%char -> fold_case l = c :: r ->
  exists d l', l = d :: l' /\ lower1 d = c /\ fold_case l' = r.
Proof.
  intros Hs Hk. destruct l as [|d [|e [|f l]]]; [done|..]; cbn [fold_case].
  - intros [= <- <-]. by eexists _, _.
  - destruct ((code d =? 197) && (code e =? 191))%N; intros [= <- <-]; [done|]. by eexists _, _.
  - destruct ((code d =? 197) && (code e =? 191))%N; [by intros [= <- <-]|].
    destruct ((code d =? 226) && (code e =? 132) && (code f =? 170))%N; [by intros [= <- <-]|].
    intros [= <- <-]. by eexists _, _.
Qed.
Lemma lower1_visible d c : lower1 d = c -> c ∈ bytes_of "paid" -> visible d = true.
Proof.
  intros <- Hin. pose proof (each_byte (fun d => implb (bool_decide (lower1 d ∈ bytes_of "paid")) (visible d))
    eq_refl d) as H. cbv beta in H. by rewrite bool_decide_true in H.
Qed.
(** A text that reads "paid" has no space around it. *)
Lemma paid_trimmed s : EqualFold s "paid" = true -> TrimSpace s = s.
Proof.
  unfold EqualFold. intros H%bool_decide_eq_true.
  change (fold_case (bytes_of "paid")) with ["p"; "a"; "i"; "d"]%char in H.
  apply fold_case_plain in H as (c1 & l1 & E1 & H1 & H); [|done..].
  apply fold_case_plain in H as (c2 & l2 & -> & H2 & H); [|done..].
  apply fold_case_plain in H as (c3 & l3 & -> & H3 & H); [|done..].
  apply fold_case_plain in H as (c4 & l4 & -> & H4 & H); [|done..].
  assert (l4 = []) as ->.
  { destruct l4 as [|x [|y [|z l]]]; [done|..]; cbn [fold_case] in H; repeat case_match; done. }
  rewrite <- (string_bytes s), E1. apply (TrimSpace_visible c1 _ c4).
  - apply (lower1_visible c1 _ H1). set_solver.
  - apply (lower1_visible c4 _ H4). set_solver.
  - done.
  - by eexists.
  - by exists [c1; c2; c3].
Qed.

Section reads.
Context (marshal : charge_body -> bytes) (decode_envelope : bytes -> option errorEnvelope).
Context (http_ParseTime : string -> option Time).
Context (slip_members : bytes -> option bankSlipResponseBody).
Context (checkout_members : bytes -> option checkoutResponseBody) (pdf_fields : bytes -> option (list string)).
Context (url_Parse : string -> option (string * string)).
Context (token : string -> res string) (maxRetries : Z).
Context (bucket : string -> charge_call -> option tokenBucket) (world : string -> charge_call -> Z -> attempt_world).
Context (single : string -> charge_call -> option (http_response * string)).
Notation paid_session := (c6_GetCheckoutSession marshal decode_envelope http_ParseTime checkout_members url_Parse
                          token maxRetries bucket world).

(** A session settles on what the bank affirms.  The settlement path sees a settleable charge
    exactly when the answer to the session's own read says paid, its card block carries the
    network's approval, and its amount is positive; and an answer that sends the payer anywhere
    but to an https address is never read. *)
Theorem session_settles_exactly tenantID sessionID r
    (Hr : reconcileCheckout paid_session tenantID sessionID = Ok r) :
  exists n b amount,
    accepted (checkout_out checkout_members) (world tenantID (get_call "get_checkout" (session_resource sessionID)))
      n (b, amount) /\
    cr_TxID r = cob_ID b /\ cr_ExpectedAmountCents r = amount /\
    (cob_URL b = "" \/ exists host, url_Parse (cob_URL b) = Some ("https", host) /\ host <> "") /\
    (settleable r <-> EqualFold (cob_Status b) bankStatusPaid = true /\ TrimSpace (cob_ReturnCode b) = "00" /\ 0 < amount).
Proof.
  unfold reconcileCheckout, c6_GetCheckoutSession in Hr.
  destruct (exchange _ _ _ _ _ _ _ _ _ _) as [[b amount]|] eqn:Ee; [|done].
  apply exchange_accepted in Ee as [n Hacc]. exists n, b, amount. split; [exact Hacc|].
  unfold toCheckoutResult in Hr.
  destruct (if bool_decide (cob_URL b = "") then _ else _) as [e|] eqn:Eu; [done|].
  injection Hr as <-. cbn [cr_TxID cr_ExpectedAmountCents co_SessionID co_AmountCents]. do 2 (split; [done|]). split.
  - case_bool_decide as Hu; [by left|right]. unfold validateRedirectURL in Eu.
    destruct (url_Parse (cob_URL b)) as [[scheme host]|]; [|done].
    destruct (decide (scheme = "https")) as [->|Hs]; [|by rewrite bool_decide_false in Eu].
    rewrite bool_decide_true in Eu by done. cbn [negb orb] in Eu. case_bool_decide; [done|]. by exists host.
  - unfold settleable. cbn [cr_Status cr_ExpectedAmountCents cr_ReceivedAmountCents co_Status co_AmountCents
      co_ReceivedAmountCents]. unfold checkoutCaptured.
    assert (Hpaid : EqualFold (cob_Status b) bankStatusPaid = true ->
                    EqualFold (TrimSpace (cob_Status b)) checkoutStatusPaid = true)
      by (intros H; by rewrite paid_trimmed).
    split.
    + intros (H1 & H2 & H3). rewrite Hpaid in H3 by done. cbn [andb] in H3.
      case_bool_decide; [done|]. lia.
    + intros (H1 & H2 & H3). rewrite Hpaid by done. rewrite bool_decide_true by done. done.
Qed.

(** A document the adapter hands on is a PDF, whatever the bank sent and however it labelled it. *)
Theorem document_is_pdf tenantID boletoID d
    (Hd : c6_GetBoletoPDF decode_envelope pdf_fields token single tenantID boletoID = Ok d) :
  bdoc_ContentType d = pdfMediaType /\ take 5 (bdoc_Content d) = bytes_of "%PDF-".
Proof.
  unfold c6_GetBoletoPDF in Hd. destruct (exchange_raw _ _ _ _ _ _) as [[body ct]|]; [|done].
  unfold pdf_of in Hd. cbn [fst] in Hd. destruct (bytes_HasPrefix body pdfMagic) eqn:Eb.
  { injection Hd as <-. split; [done|]. by apply bool_decide_eq_true in Eb. }
  destruct (decodeBase64PDFEnvelope pdf_fields body) as [decoded|] eqn:Ed; [|done].
  injection Hd as <-. split; [done|]. cbn [bdoc_Content]. unfold decodeBase64PDFEnvelope in Ed.
  destruct (pdf_fields body) as [l|]; [|done]. cbn [mbind option_bind] in Ed.
  apply head_Some_elem_of, list_elem_of_omap in Ed as (e & _ & He). case_bool_decide; [done|].
  destruct (std_base64_decode e) as [dd|]; [|done]. destruct (bytes_HasPrefix dd pdfMagic) eqn:Ep; [|done].
  injection He as <-. by apply bool_decide_eq_true in Ep.
Qed.

Lemma bank_ref_read tenantID ref id r : TrimSpace ref = ref -> validExternalReference ref = true ->
  boletoIDFromExternalReference ref = Some id ->
  c6_GetBoletoByBankRef marshal decode_envelope http_ParseTime slip_members token maxRetries bucket world
    tenantID ref = Ok r ->
  exists n out, accepted slip_members (world tenantID (get_call "get_boleto_by_ref" (slip_resource ref))) n out /\
    r = toBankSlipResult id out.
Proof.
  intros Ht Hv Hid Hr. unfold c6_GetBoletoByBankRef in Hr. rewrite Ht, Hv, Hid in Hr. cbn [negb] in Hr.
  unfold getBankSlip in Hr. destruct (exchange _ _ _ _ _ _ _ _ _ _) as [out|] eqn:Ee; [|done].
  apply exchange_accepted in Ee as [n Hacc]. exists n, out. split; [exact Hacc|]. by injection Hr as <-.
Qed.
(** A reference the service derived leads back to its boleto: a notification that carries it is
    read at the boleto's own resource and names the local boleto. *)
Theorem own_reference_found tenantID raw r (HL : List.length raw = externalRefBytes)
    (Hr : c6_GetBoletoByBankRef marshal decode_envelope http_ParseTime slip_members token maxRetries bucket world
            tenantID (externalReferenceID (hex raw)) = Ok r) :
  exists n out,
    accepted slip_members (world tenantID (get_call "get_boleto_by_ref" (slip_resource (externalReferenceID (hex raw)))))
      n out /\ r = toBankSlipResult (hex raw) out.
Proof.
  apply (bank_ref_read tenantID _ (hex raw) r (reference_trimmed _) (reference_valid _)); [|exact Hr].
  apply reference_bijection. eauto.
Qed.
End reads.

(** * Concrete runs *)
Definition sample_session : CheckoutRequest :=
  {| crq_TenantID := "t1"; crq_SessionID := "s1"; crq_Currency := "BRL";
     crq_Items := [{| coi_Description := "a"; coi_AmountCents := 30000 |}; {| coi_Description := "b"; coi_AmountCents := 25005 |}];
     crq_ExpiresAt := zeroTime; crq_CardType := CardCredit; crq_RequireAuthentication := true;
     crq_MaxInstallments := 3; crq_IdempotencyKey := "k1" |}.
Lemma sample_session_ok : CheckoutRequest_ok sample_session.
Proof.
  split; [split_and!; [done|vm_compute; lia|repeat constructor]|vm_compute; discriminate|reflexivity|reflexivity| | |].
  - split; vm_compute; discriminate.
  - discriminate.
  - vm_compute. discriminate.
Qed.

(** The bank was busy once: the session went out twice under its key, for 550.05. *)
Lemma issued_on_the_wire_witness :
  exists c b w a m, issue_call "21" (fun _ => Ok "key") "t1" (BankCheckout sample_session) = Ok c /\
    wire_amount b = Some 55005 /\
    transmit (fun _ => ["{"; "}"]%char) (fun _ => None) (fun _ => None) 2 (fun _ _ => Some full_bucket)
      (fun _ _ => busy_then_ok) Some "t1" c = Some (w, a) /\
    wi_sent w = replicate m ("k1", ["{"; "}"]%char) /\ Z.of_nat m <= 3.
Proof.
  destruct (issue_call "21" (fun _ => Ok "key") "t1" (BankCheckout sample_session)) as [c|e] eqn:Ec.
  2:{ vm_compute in Ec. discriminate Ec. }
  destruct (issued_on_the_wire (fun _ => ["{"; "}"]%char) (fun _ => None) (fun _ => None) 2
    (fun _ _ => Some full_bucket) (fun _ _ => busy_then_ok) "21" (fun _ => Ok "key") Some "t1"
    (BankCheckout sample_session) c) as (b & w & a & m & Hw & _ & Ht & Hs & Hm);
    [exact sample_session_ok|discriminate|split; reflexivity|exact Ec|].
  exists c, b, w, a, m. split; [reflexivity|]. split; [exact Hw|]. split; [exact Ht|]. split; [exact Hs|exact Hm].
Defined.

Definition sample_paid (status code : string) : checkoutResponseBody :=
  {| cob_ID := "s1"; cob_Status := status; cob_URL := ""; cob_Amount := Some "550.05"; cob_Installments := 3;
     cob_Message := ""; cob_ReturnCode := code |}.
Definition sample_GetSession (b : checkoutResponseBody) : string -> string -> res CheckoutResult :=
  c6_GetCheckoutSession (fun _ => []) (fun _ => None) (fun _ => None) (fun _ => Some b) (fun _ => None)
    (fun _ => Ok "token") 2 (fun _ _ => Some full_bucket) (fun _ _ => busy_then_ok).

(** Paid and captured settles; paid without the network's approval does not. *)
Lemma session_settles_exactly_witness :
  (exists r, reconcileCheckout (sample_GetSession (sample_paid "PAID" "00")) "t1" "s1" = Ok r /\ settleable r) /\
  (exists r, reconcileCheckout (sample_GetSession (sample_paid "PAID" "51")) "t1" "s1" = Ok r /\ ~ settleable r).
Proof.
  split.
  - destruct (reconcileCheckout (sample_GetSession (sample_paid "PAID" "00")) "t1" "s1") as [r|e] eqn:Er.
    2:{ vm_compute in Er. discriminate Er. }
    destruct (session_settles_exactly _ _ _ _ _ _ _ _ _ _ _ r Er) as (n & b & amount & (resp & _ & _ & E) & _ & _ & _ & Hs).
    exists r. split; [reflexivity|]. apply Hs. injection E as <- <-. split_and!; vm_compute; reflexivity.
  - destruct (reconcileCheckout (sample_GetSession (sample_paid "PAID" "51")) "t1" "s1") as [r|e] eqn:Er.
    2:{ vm_compute in Er. discriminate Er. }
    destruct (session_settles_exactly _ _ _ _ _ _ _ _ _ _ _ r Er) as (n & b & amount & (resp & _ & _ & E) & _ & _ & _ & Hs).
    exists r. split; [reflexivity|]. intros (_ & H & _)%Hs. injection E as <- <-. vm_compute in H. discriminate H.
Defined.

(** The legacy envelope, its base64 padded and broken over two lines. *)
Lemma document_is_pdf_witness :
  exists d, c6_GetBoletoPDF (fun _ => None) (fun _ => Some [""; string_of (bytes_of "JVBE" ++ [asciiZ 10] ++ bytes_of "Ri0xLjc=")])
      (fun _ => Ok "token") (fun _ _ => Some ({| hr_status := 200; hr_retry_after := ""; hr_body := bytes_of "{}" |}, ""))
      "t1" "00112233445566778899aabbccddeeff" = Ok d /\
    take 5 (bdoc_Content d) = bytes_of "%PDF-".
Proof.
  destruct (c6_GetBoletoPDF _ _ _ _ _ _) as [d|e] eqn:Ed; [|vm_compute in Ed; discriminate Ed].
  exists d. split; [reflexivity|]. exact (proj2 (document_is_pdf _ _ _ _ _ _ d Ed)).
Defined.
