(* ===== verification/C6Slips.v ===== *)
(** internal/adapters/bank/c6/schedulepayments.go and bankslipv1.go: the groups of payments and
    the plain slips on the bank's wire, behind the ports of PaymentGroups and BankServices. *)
From S2P Require Import Prelude GoStrings GoText GoTime GoCrypto Shared ConsoleCred.
From S2P Require Import PixKeys Boletos Tenants Ports BankPorts PaymentGroups BankSurfaces IssuingContracts.
From S2P Require Import BoletoAmend BankTransport C6Codec C6Boleto C6Recurrence C6Charges.
#[global] Open Scope Z_scope.

Definition schedulePaymentsPath : string := "/v1/schedule_payments".
Definition bankSlipV1Path : string := "/v1/bank_slips".
Definition bankSlipV1MaxDiscounts : nat := 3.
Definition bankSlipV1TypeValue : string := "V".
Definition bankSlipV1TypePercent : string := "P".

(** * What is sent *)
(** Empty members but the amount and the content are left out. *)
Record schedulePaymentBody := {
  spb_Amount : Z; spb_BankCode : string; spb_BankName : string; spb_BeneficiaryName : string;
  spb_Content : string; spb_Description : string; spb_PayerName : string; spb_TransactionDate : string
}.
Record bankSlipV1Fee := { svf_Type : string; svf_Value : Z; svf_DeadLine : Z }.
Record bankSlipV1DiscountTier := { svt_Value : Z; svt_DeadLine : Z }.
Record bankSlipV1Discount := {
  svd_DiscountType : string; svd_First : option bankSlipV1DiscountTier;
  svd_Second : option bankSlipV1DiscountTier; svd_Third : option bankSlipV1DiscountTier
}.
Record bankSlipV1Payer := {
  svp_Name : string; svp_TaxID : string; svp_Street : string; svp_Number : Z; svp_City : string;
  svp_State : string; svp_ZipCode : string
}.
Record bankSlipV1Request := {
  svr_ExternalReferenceID : string; svr_Amount : Z; svr_DueDate : string;
  svr_Discount : option bankSlipV1Discount; svr_Interest : option bankSlipV1Fee;
  svr_Fine : option bankSlipV1Fee; svr_BillingScheme : string; svr_Payer : bankSlipV1Payer
}.
Record bankSlipV1Patch := {
  svb_Amount : option Z; svb_DueDate : string; svb_Discount : option bankSlipV1Discount;
  svb_Interest : option bankSlipV1Fee; svb_Fine : option bankSlipV1Fee
}.
Definition v1_empty (b : bankSlipV1Patch) : bool :=
  negb (is_set (svb_Amount b)) && bool_decide (svb_DueDate b = "") && negb (is_set (svb_Discount b))
  && negb (is_set (svb_Interest b)) && negb (is_set (svb_Fine b)).
Inductive slip_body :=
| DecodeBody (items : list schedulePaymentBody)
| RemoveBody (ids : list string)
| SubmitBody (groupID uploaderName : string)
| V1Body (b : bankSlipV1Request)
| V1PatchBody (b : bankSlipV1Patch).
Notation slip_call := (call slip_body).

(** * What is answered: an amount is the text of its value *)
Record schedulePaymentView := {
  spv_Amount : option string; spv_Content : string; spv_DueDate : string; spv_ErrorMessage : string;
  spv_GroupID : string; spv_ID : string; spv_Overdue : bool; spv_ProductType : string; spv_Status : string
}.
Record scheduleBondView := {
  sbv_Amount : option string; sbv_BankCode : string; sbv_BankName : string; sbv_BeneficiaryName : string;
  sbv_Content : string; sbv_DueDate : string; sbv_Overdue : bool; sbv_PayerName : string
}.
Record bankSlipV1Response := {
  svo_ID : string; svo_ExternalReferenceID : string; svo_Amount : Z; svo_Status : string;
  svo_DueDate : string; svo_DigitableLine : string; svo_BarCode : string; svo_OurNumber : string;
  svo_Discount : option bankSlipV1Discount; svo_Interest : option bankSlipV1Fee;
  svo_Fine : option bankSlipV1Fee
}.

Definition parseScheduleDate (s : string) : Time :=
  let s := TrimSpace s in
  if bool_decide (s = "") then zeroTime else default zeroTime (Parse_date s).
Definition formatScheduleDate (t : Time) : string := if IsZero t then "" else Format_date t.

(** [None] where the decoding of the body refuses an amount. *)
Definition toScheduleBond (b : scheduleBondView) : option DDABoleto :=
  amount ← brl_member (sbv_Amount b);
  Some {| bond_content := sbv_Content b; bond_amountCents := amount;
          bond_dueDate := parseScheduleDate (sbv_DueDate b); bond_beneficiaryName := sbv_BeneficiaryName b;
          bond_payerName := sbv_PayerName b; bond_bankCode := sbv_BankCode b; bond_bankName := sbv_BankName b;
          bond_overdue := sbv_Overdue b |}.
Definition toScheduleBonds (l : list scheduleBondView) : option (list DDABoleto) := mapM toScheduleBond l.
Definition toScheduleItem (it : schedulePaymentView) : option DDAItem :=
  amount ← brl_member (spv_Amount it);
  Some {| di_ID := spv_ID it; di_Content := spv_Content it; di_AmountCents := amount;
          di_DueDate := parseScheduleDate (spv_DueDate it); di_Status := spv_Status it;
          di_ProductType := spv_ProductType it; di_ErrorMessage := spv_ErrorMessage it;
          di_Overdue := spv_Overdue it |}.
(** The last word on an empty id is the first item that names one. *)
Definition group_id (groupID : string) (l : list schedulePaymentView) : string :=
  foldl (fun id it => if bool_decide (id = "") then spv_GroupID it else id) groupID l.
Definition toScheduleGroup (groupID : string) (l : list schedulePaymentView) : option DDAGroup :=
  items ← mapM toScheduleItem l;
  Some {| dg_ID := group_id groupID l; dg_Items := items |}.

(** * Payment groups: the calls *)
Definition schedule_call (op method path : string) (b : option slip_body) (idem : string) : slip_call :=
  {| cl_op := op; cl_method := method; cl_path := path; cl_body := b; cl_idem := idem; cl_partner := true |}.
Definition group_items (groupID : string) : string :=
  (schedulePaymentsPath ++ "/" ++ PathEscape groupID ++ "/items")%string.
Fixpoint decode_items (l : list DDAPayment) : res (list schedulePaymentBody) :=
  match l with
  | [] => Ok []
  | pay :: l =>
      refuse (blank (dp_Content pay) || (dp_AmountCents pay <=? 0)) with (refused "schedule_decode" "") ;;
      let? items := decode_items l in
      Ok ({| spb_Amount := dp_AmountCents pay; spb_BankCode := dp_BankCode pay; spb_BankName := dp_BankName pay;
             spb_BeneficiaryName := dp_BeneficiaryName pay; spb_Content := TrimSpace (dp_Content pay);
             spb_Description := dp_Description pay; spb_PayerName := dp_PayerName pay;
             spb_TransactionDate := formatScheduleDate (dp_TransactionDate pay) |} :: items)
  end.
Definition create_group_call (r : DDAGroupRequest) : res slip_call :=
  refuse (bool_decide (dgr_IdempotencyKey r = "") || bool_decide (dgr_Payments r = []))
    with (refused "schedule_decode" "") ;;
  let? items := decode_items (dgr_Payments r) in
  Ok (schedule_call "schedule_decode" "POST" (schedulePaymentsPath ++ "/decode") (Some (DecodeBody items))
        (dgr_IdempotencyKey r)).
Definition get_group_call (groupID : string) : res slip_call :=
  let groupID := TrimSpace groupID in
  refuse (bool_decide (groupID = "")) with (refused "schedule_get_items" "") ;;
  Ok (schedule_call "schedule_get_items" "GET" (group_items groupID) None "").
Fixpoint remove_ids (l : list string) : res (list string) :=
  match l with
  | [] => Ok []
  | id :: l =>
      let id := TrimSpace id in
      refuse (bool_decide (id = "")) with (refused "schedule_remove_items" "") ;;
      let? ids := remove_ids l in Ok (id :: ids)
  end.
Definition remove_items_call (groupID : string) (itemIDs : list string) : res slip_call :=
  let groupID := TrimSpace groupID in
  refuse (bool_decide (groupID = "") || bool_decide (itemIDs = [])) with (refused "schedule_remove_items" "") ;;
  let? ids := remove_ids itemIDs in
  Ok (schedule_call "schedule_remove_items" "DELETE" (group_items groupID) (Some (RemoveBody ids)) "").
Definition remove_item_call (groupID itemID : string) : res slip_call :=
  let groupID := TrimSpace groupID in
  let itemID := TrimSpace itemID in
  refuse (bool_decide (groupID = "") || bool_decide (itemID = "")) with (refused "schedule_remove_item" "") ;;
  Ok (schedule_call "schedule_remove_item" "DELETE" (group_items groupID ++ "/" ++ PathEscape itemID)%string None "").
Definition submit_group_call (groupID uploaderName idemKey : string) : res slip_call :=
  let groupID := TrimSpace groupID in
  let uploaderName := TrimSpace uploaderName in
  refuse (bool_decide (groupID = "") || bool_decide (uploaderName = "")) with (refused "schedule_submit" "") ;;
  Ok (schedule_call "schedule_submit" "POST" (schedulePaymentsPath ++ "/submit")
        (Some (SubmitBody groupID uploaderName)) idemKey).

(** * Plain slips: the bodies *)
Definition v1_refused {A} (op : string) : res A := Err (refused op "").
Definition toBankSlipV1Fee (op : string) (bps cents afterDays : Z) : res (option bankSlipV1Fee) :=
  if (0 <? bps) && (0 <? cents) then v1_refused op
  else if 0 <? bps
  then Ok (Some {| svf_Type := bankSlipV1TypePercent; svf_Value := bps; svf_DeadLine := afterDays |})
  else if 0 <? cents
  then Ok (Some {| svf_Type := bankSlipV1TypeValue; svf_Value := cents; svf_DeadLine := afterDays |})
  else Ok None.

(** The first pass: whether some tier is a percentage and some a fixed amount. *)
Fixpoint tier_forms (op : string) (l : list BoletoDiscountTier) (percent fixed : bool) : res (bool * bool) :=
  match l with
  | [] => Ok (percent, fixed)
  | t :: l =>
      refuse ((0 <? bdt_Bps t) && (0 <? bdt_FixedCents t)) with (refused op "") ;;
      refuse (negb (0 <? bdt_Bps t) && negb (0 <? bdt_FixedCents t)) with (refused op "") ;;
      refuse (bdt_DaysBeforeDue t <? 0) with (refused op "") ;;
      tier_forms op l (percent || (0 <? bdt_Bps t)) (fixed || negb (0 <? bdt_Bps t))
  end.
(** The second: the bands, their deadlines strictly decreasing. *)
Fixpoint discount_bands (op : string) (percent : bool) (prev : Z) (l : list BoletoDiscountTier)
    : res (list bankSlipV1DiscountTier) :=
  match l with
  | [] => Ok []
  | t :: l =>
      refuse ((0 <=? prev) && (prev <=? bdt_DaysBeforeDue t)) with (refused op "") ;;
      let? bands := discount_bands op percent (bdt_DaysBeforeDue t) l in
      Ok ({| svt_Value := if percent then bdt_Bps t else bdt_FixedCents t;
             svt_DeadLine := bdt_DaysBeforeDue t |} :: bands)
  end.
Definition toBankSlipV1Discount (op : string) (tiers : list BoletoDiscountTier) : res (option bankSlipV1Discount) :=
  if bool_decide (tiers = []) then Ok None
  else
    refuse (bankSlipV1MaxDiscounts <? List.length tiers)%nat with (refused op "") ;;
    let? forms := tier_forms op tiers false false in
    let '(percent, fixed) := forms in
    refuse (percent && fixed) with (refused op "") ;;
    let? bands := discount_bands op percent (-1) tiers in
    Ok (Some {| svd_DiscountType := if percent then bankSlipV1TypePercent else bankSlipV1TypeValue;
                svd_First := bands !! 0%nat; svd_Second := bands !! 1%nat; svd_Third := bands !! 2%nat |}).

Definition validateBankSlipV1 (op : string) (r : BoletoRequest) : res unit :=
  refuse ((brq_AmountCents r <=? 0) || IsZero (brq_DueDate r)) with (refused op "") ;;
  refuse (negb (IsZero (brq_ValidUntil r))) with (refused op "") ;;
  refuse (negb (bool_decide (Modality_Normalized (brq_Modality r) = ModalityBoleto))) with (refused op "") ;;
  validatePayer (brq_Payer r).
Definition toBankSlipV1Payer (p : BoletoPayer) : bankSlipV1Payer :=
  let a := bpy_Address p in
  {| svp_Name := TrimSpace (bpy_Name p); svp_TaxID := TrimSpace (bpy_TaxID p);
     svp_Street := TrimSpace (bad_Street a); svp_Number := bad_Number a; svp_City := TrimSpace (bad_City a);
     svp_State := ToUpper (TrimSpace (bad_State a)); svp_ZipCode := TrimSpace (bad_ZipCode a) |}.

Definition create_slip_call (billingScheme : string) (r : BoletoRequest) : res slip_call :=
  let op := "create_plain_boleto" in
  refuse (blank (brq_BoletoID r)) with (refused op "") ;;
  let? _ := validateBankSlipV1 op r in
  let? fine := toBankSlipV1Fee op (brq_FineBps r) (brq_FineFixedCents r) 0 in
  let? interest := toBankSlipV1Fee op (brq_MonthlyInterestBps r) 0 0 in
  let? discount := toBankSlipV1Discount op (brq_Discounts r) in
  let b := {| svr_ExternalReferenceID := externalReferenceV1 (brq_BoletoID r); svr_Amount := brq_AmountCents r;
              svr_DueDate := Format_date (in_UTC (brq_DueDate r)); svr_Discount := discount;
              svr_Interest := interest; svr_Fine := fine; svr_BillingScheme := billingScheme;
              svr_Payer := toBankSlipV1Payer (brq_Payer r) |} in
  Ok (schedule_call op "POST" (bankSlipV1Path ++ "/") (Some (V1Body b))
        (or_else (brq_IdempotencyKey r) (brq_BoletoID r))).

Definition v1_resource (slipID : string) : string := (bankSlipV1Path ++ "/" ++ PathEscape slipID)%string.
Definition slip_id (op slipID : string) : res string :=
  let slipID := TrimSpace slipID in
  refuse (bool_decide (slipID = "")) with (refused op "") ;; Ok slipID.
Definition update_slip_call (slipID : string) (p : BoletoPatch) : res slip_call :=
  let op := "update_plain_boleto" in
  let? slipID := slip_id op slipID in
  refuse (match bpt_AmountCents p with Some a => a <=? 0 | None => false end) with (refused op "") ;;
  refuse (match bpt_DueDate p with Some d => IsZero d | None => false end) with (refused op "") ;;
  let? fees :=
    match bpt_Fees p with
    | None => Ok (None, None, None)
    | Some f =>
        let? fine := toBankSlipV1Fee op (bfp_FineBps f) (bfp_FineFixedCents f) 0 in
        let? interest := toBankSlipV1Fee op (bfp_MonthlyInterestBps f) 0 0 in
        let? discount := toBankSlipV1Discount op (bfp_Discounts f) in
        Ok (fine, interest, discount)
    end in
  let '(fine, interest, discount) := fees in
  let b := {| svb_Amount := bpt_AmountCents p;
              svb_DueDate := match bpt_DueDate p with Some d => Format_date (in_UTC d) | None => "" end;
              svb_Discount := discount; svb_Interest := interest; svb_Fine := fine |} in
  refuse (v1_empty b) with (refused op "") ;;
  Ok (schedule_call op "PUT" (v1_resource slipID) (Some (V1PatchBody b)) slipID).
Definition get_slip_call (op suffix slipID : string) : res slip_call :=
  let? slipID := slip_id op slipID in
  Ok (schedule_call op "GET" (v1_resource slipID ++ suffix)%string None "").
Definition cancel_slip_call (slipID : string) : res slip_call :=
  let? slipID := slip_id "cancel_plain_boleto" slipID in
  Ok (schedule_call "cancel_plain_boleto" "PUT" (v1_resource slipID ++ "/cancel")%string None slipID).

Definition read_tier (percent : bool) (t : bankSlipV1DiscountTier) : BoletoDiscountTier :=
  {| bdt_DaysBeforeDue := svt_DeadLine t; bdt_Bps := if percent then svt_Value t else 0;
     bdt_FixedCents := if percent then 0 else svt_Value t |}.
Definition toPlainBoletoResult (boletoID : string) (out : bankSlipV1Response) : BoletoResult :=
  let percent f := bool_decide (svf_Type f = bankSlipV1TypePercent) in
  {| br_BoletoID := boletoID; br_TxID := svo_ID out; br_Status := svo_Status out;
     br_Modality := ModalityBoleto; br_ExternalReferenceID := svo_ExternalReferenceID out; br_QRCode := "";
     br_OurNumber := svo_OurNumber out; br_DigitableLine := svo_DigitableLine out;
     br_Barcode := svo_BarCode out; br_AmountCents := svo_Amount out;
     br_DueDate := parseScheduleDate (svo_DueDate out); br_ValidUntil := zeroTime;
     br_FineBps := match svo_Fine out with Some f => if percent f then svf_Value f else 0 | None => 0 end;
     br_FineFixedCents := match svo_Fine out with Some f => if percent f then 0 else svf_Value f | None => 0 end;
     br_MonthlyInterestBps := match svo_Interest out with Some f => if percent f then svf_Value f else 0 | None => 0 end;
     br_Discounts :=
       match svo_Discount out with
       | Some d => let percent := bool_decide (svd_DiscountType d = bankSlipV1TypePercent) in
                   omap (fmap (read_tier percent)) [svd_First d; svd_Second d; svd_Third d]
       | None => []
       end |}.

(** * The provider *)
Section provider.
Context (marshal : slip_body -> bytes) (decode_envelope : bytes -> option errorEnvelope).
Context (http_ParseTime : string -> option Time).
Context (group_member : bytes -> option string) (items_members : bytes -> option (list schedulePaymentView)).
Context (bonds_members : bytes -> option (list scheduleBondView)) (v1_members : bytes -> option bankSlipV1Response).
Context (pdf_fields : bytes -> option (list string)).
Context (token : string -> res string) (maxRetries : Z).
Context (bucket : string -> slip_call -> option tokenBucket) (world : string -> slip_call -> Z -> attempt_world).
Context (single : string -> slip_call -> option (http_response * string)) (billingScheme : string).
Notation exchange := (BankTransport.exchange marshal decode_envelope http_ParseTime token maxRetries bucket world).
Notation exchange_empty := (BankTransport.exchange_empty decode_envelope token single).
Notation exchange_raw := (BankTransport.exchange_raw decode_envelope token single).

Definition c6_ListOpenBoletos (tenantID : string) : res (list DDABoleto) :=
  exchange (fun payload => bonds_members payload ≫= toScheduleBonds) tenantID
    (Ok (schedule_call "schedule_query_dda" "GET" (schedulePaymentsPath ++ "/query") None "")).
Definition c6_CreatePaymentGroup (tenantID : string) (r : DDAGroupRequest) : res DDAGroup :=
  let? id := exchange group_member tenantID (create_group_call r) in
  refuse (blank id) with (Wrap "schedule_decode" ErrUnavailable) ;;
  Ok {| dg_ID := id; dg_Items := [] |}.
Definition c6_GetPaymentGroup (tenantID groupID : string) : res DDAGroup :=
  exchange (fun payload => items_members payload ≫= toScheduleGroup (TrimSpace groupID)) tenantID
    (get_group_call groupID).
Definition c6_RemovePaymentGroupItems (tenantID groupID : string) (itemIDs : list string) : res unit :=
  exchange_empty tenantID (remove_items_call groupID itemIDs).
Definition c6_RemovePaymentGroupItem (tenantID groupID itemID : string) : res unit :=
  exchange_empty tenantID (remove_item_call groupID itemID).
Definition c6_SubmitPaymentGroup (tenantID groupID uploaderName idemKey : string) : res unit :=
  exchange_empty tenantID (submit_group_call groupID uploaderName idemKey).

Definition with_reference (ref : string) (r : BoletoResult) : BoletoResult :=
  {| br_BoletoID := br_BoletoID r; br_TxID := br_TxID r; br_Status := br_Status r; br_Modality := br_Modality r;
     br_ExternalReferenceID := ref; br_QRCode := br_QRCode r;
     br_OurNumber := br_OurNumber r; br_DigitableLine := br_DigitableLine r; br_Barcode := br_Barcode r;
     br_AmountCents := br_AmountCents r; br_DueDate := br_DueDate r; br_ValidUntil := br_ValidUntil r;
     br_FineBps := br_FineBps r; br_FineFixedCents := br_FineFixedCents r;
     br_MonthlyInterestBps := br_MonthlyInterestBps r; br_Discounts := br_Discounts r |}.
Definition c6_CreatePlainBoleto (tenantID : string) (r : BoletoRequest) : res BoletoResult :=
  let? out := exchange v1_members tenantID (create_slip_call billingScheme r) in
  refuse (blank (svo_ID out)) with (Wrap "create_plain_boleto" ErrUnavailable) ;;
  let res := toPlainBoletoResult (brq_BoletoID r) out in
  Ok (if bool_decide (br_ExternalReferenceID res = "")
      then with_reference (externalReferenceV1 (brq_BoletoID r)) res else res).
Definition c6_GetPlainBoleto (tenantID slipID : string) : res BoletoResult :=
  let? out := exchange v1_members tenantID (get_slip_call "get_plain_boleto" "" slipID) in
  Ok (toPlainBoletoResult "" out).
Definition c6_UpdatePlainBoleto (tenantID slipID : string) (p : BoletoPatch) : res BoletoResult :=
  let? out := exchange v1_members tenantID (update_slip_call slipID p) in
  Ok (toPlainBoletoResult "" out).
Definition c6_CancelPlainBoleto (tenantID slipID : string) : res unit :=
  exchange_empty tenantID (cancel_slip_call slipID).
Definition c6_GetPlainBoletoPDF (tenantID slipID : string) : res BoletoDocument :=
  let? out := exchange_raw tenantID maxDocumentBytes (get_slip_call "get_plain_boleto_pdf" "/pdf" slipID) in
  pdf_of pdf_fields "get_plain_boleto_pdf" ("boleto-" ++ TrimSpace slipID ++ ".pdf")%string out.1.

(** The adapter as the bank of the group service. *)
Definition c6_group_answer (w : dda_call) : res unit :=
  match w with
  | CallCreate _ _ => Ok tt
  | CallRemove t g ids => c6_RemovePaymentGroupItems t g ids
  | CallRemoveOne t g id => c6_RemovePaymentGroupItem t g id
  | CallSubmit t g u k => c6_SubmitPaymentGroup t g u k
  end.
End provider.

(** * What the group service writes *)
Definition group_wire (w : dda_call) : res slip_call :=
  match w with
  | CallCreate _ req => create_group_call req
  | CallRemove _ g ids => remove_items_call g ids
  | CallRemoveOne _ g id => remove_item_call g id
  | CallSubmit _ g u k => submit_group_call g u k
  end.
Definition same_payment (pay : DDAPayment) (it : schedulePaymentBody) : Prop :=
  spb_Amount it = dp_AmountCents pay /\ spb_Content it = TrimSpace (dp_Content pay).
(** What a write asks of the service is what the call carries. *)
Definition carries (w : dda_call) (c : slip_call) : Prop :=
  match w with
  | CallCreate _ req => cl_path c = (schedulePaymentsPath ++ "/decode")%string /\ cl_idem c = dgr_IdempotencyKey req /\
      exists items, cl_body c = Some (DecodeBody items) /\ Forall2 same_payment (dgr_Payments req) items
  | CallRemove _ g ids => cl_path c = group_items (TrimSpace g) /\ cl_body c = Some (RemoveBody (map TrimSpace ids))
  | CallRemoveOne _ g id => cl_path c = (group_items (TrimSpace g) ++ "/" ++ PathEscape (TrimSpace id))%string /\
      cl_body c = None
  | CallSubmit _ g u k => cl_path c = (schedulePaymentsPath ++ "/submit")%string /\
      cl_body c = Some (SubmitBody (TrimSpace g) (TrimSpace u)) /\ cl_idem c = k
  end.
(** The group a write changes, if it changes one. *)
Definition changed_group (w : dda_call) : option (string * string) :=
  match w with
  | CallCreate _ _ => None
  | CallRemove t g _ | CallRemoveOne t g _ | CallSubmit t g _ _ => Some (t, TrimSpace g)
  end.

Lemma blank_false s : blank s = false <-> TrimSpace s <> "".
Proof. unfold blank. apply bool_decide_eq_false. Qed.
Lemma decode_items_Ok l : Forall payment_ok l ->
  exists items, decode_items l = Ok items /\ Forall2 same_payment l items.
Proof.
  induction 1 as [|pay l (Hv & Ha & _) _ (items & IH & Hi)]; [by exists []|].
  cbn [decode_items]. assert (blank (dp_Content pay) = false) as ->.
  { apply blank_false. intros E. unfold ValidateContent in Hv. rewrite E in Hv. by vm_compute in Hv. }
  rewrite (proj2 (Z.leb_gt _ _)), IH by lia. eexists. split; [reflexivity|]. by constructor.
Qed.
Lemma remove_ids_Ok l : Forall (fun id => TrimSpace id <> "") l -> remove_ids l = Ok (map TrimSpace l).
Proof. induction 1 as [|id l Hid _ IH]; [done|]. cbn [remove_ids map]. by rewrite bool_decide_false, IH. Qed.

(** No item of a group that was read has an empty name. *)
Lemma items_named l : forall items, new_group_items l = Ok items -> Forall (fun it => gi_id it <> "") items.
Proof.
  induction l as [|d l IH]; intros items; cbn [new_group_items]; [by intros [= <-]|].
  destruct (NewGroupItem d) as [it|] eqn:Ed; [|done]. destruct (new_group_items l) as [out|]; [|done].
  intros [= <-]. constructor; [|by apply IH]. unfold NewGroupItem in Ed. case_bool_decide as Hid; [done|].
  destruct (ValidateContent _); [|done]. destruct (di_AmountCents d <=? 0); [done|].
  destruct (ParseItemStatus _); [|done]. destruct (ParseProductType _); [|done]. by injection Ed as <-.
Qed.
Lemma present_named t dg pg id : reconstruct t dg = Ok pg -> present pg id = true -> id <> "".
Proof.
  unfold reconstruct, Reconstruct. destruct (new_group_items _) as [items|] eqn:Ei; [|done].
  repeat case_bool_decide; try done. intros [= <-]. unfold present. cbn [pg_items].
  intros (it & Hin & Hid%bool_decide_eq_true)%existsb_exists. rewrite <- Hid.
  pose proof (items_named _ _ Ei) as Hn. rewrite Forall_forall in Hn. by apply Hn, list_elem_of_In.
Qed.

Section groups.
Context (marshal : slip_body -> bytes) (decode_envelope : bytes -> option errorEnvelope).
Context (http_ParseTime : string -> option Time).
Context (group_member : bytes -> option string) (items_members : bytes -> option (list schedulePaymentView)).
Context (token : string -> res string) (maxRetries : Z).
Context (bucket : string -> slip_call -> option tokenBucket) (world : string -> slip_call -> Z -> attempt_world).
Context (single : string -> slip_call -> option (http_response * string)).
Notation GetGroup := (c6_GetPaymentGroup marshal decode_envelope http_ParseTime items_members token maxRetries bucket world).
Notation CreateGroup := (c6_CreatePaymentGroup marshal decode_envelope http_ParseTime group_member token maxRetries bucket world).
Notation answer := (c6_group_answer decode_envelope token single).

(** What the bank said of a group when it was last read. *)
Definition bank_said (t g : string) (pg : PaymentGroup) : Prop :=
  exists c n dg, get_group_call g = Ok c /\ cl_path c = group_items g /\
    accepted (fun payload => items_members payload ≫= toScheduleGroup g) (world t c) n dg /\
    reconstruct t dg = Ok pg.

Lemma read_said t g pg : read_group GetGroup t g pg -> TrimSpace g <> "" /\ bank_said t (TrimSpace g) pg.
Proof.
  intros (dg & Hg & Hr). unfold c6_GetPaymentGroup, get_group_call in Hg. rewrite TrimSpace_idem in Hg.
  case_bool_decide as Hne; [done|]. split; [done|]. apply exchange_accepted in Hg as [n Hacc].
  unfold bank_said, get_group_call. rewrite TrimSpace_idem, bool_decide_false by done.
  eexists _, n, dg. split_and!; [reflexivity|reflexivity|exact Hacc|exact Hr].
Qed.

(** C27. The group service over the bank's wire.  Whatever is asked of the service and whatever the
    bank and the network answer, a request adds at most one write; the adapter never turns that
    write away; what goes on the wire is exactly what it asks (the payments in order with their
    amounts, the items named, the group and the operator); and a group is changed on the
    resource on which the bank was just read saying that it has not been submitted, even where
    the service names it with space around. *)
Theorem group_writes_on_the_wire find c calls :
  let '(calls', _) := dda_exec find GetGroup (fun r => CreateGroup (dgr_TenantID r) r) answer c calls in
  calls' = calls \/
  exists w sc, calls' = (calls ++ [w])%list /\ group_wire w = Ok sc /\ carries w sc /\
    match changed_group w with
    | None => True
    | Some (t, g) => exists pg, bank_said t g pg /\ IsSubmitted pg = false
    end.
Proof.
  pose proof (group_writes_gated find GetGroup (fun r => CreateGroup (dgr_TenantID r) r) answer c calls) as H.
  destruct (dda_exec _ _ _ _ c calls) as [calls' r]. destruct H as [->|(w & -> & Hw)]; [by left|]. right.
  exists w. destruct w as [t req|t g ids|t g id|t g u k]; cbn [allowed group_wire changed_group] in *.
  - destruct Hw as (_ & _ & Hk & Hne & _ & Hp). destruct (decode_items_Ok _ Hp) as (items & Ei & Hi).
    unfold create_group_call. rewrite (bool_decide_false (dgr_IdempotencyKey req = "")), bool_decide_false, Ei.
    + eexists. split; [done|]. split; [reflexivity|]. split; [|done]. split_and!; [done..|]. by exists items.
    + done.
    + intros E. rewrite E in Hk. by vm_compute in Hk.
  - destruct Hw as (_ & pg & Hr & Hs & Hne & Hall). pose proof Hr as (dg & _ & Hrec).
    apply read_said in Hr as [Hg Hsaid]. unfold remove_items_call.
    rewrite !bool_decide_false, remove_ids_Ok by (done || (eapply Forall_impl; [exact Hall|]; intros i Hi;
      by apply (present_named t dg pg))).
    eexists. split; [done|]. split; [reflexivity|]. split; [done|]. by exists pg.
  - destruct Hw as (_ & pg & Hr & Hs & Hid). pose proof Hr as (dg & _ & Hrec).
    apply read_said in Hr as [Hg Hsaid]. unfold remove_item_call.
    rewrite !bool_decide_false by (done || by apply (present_named t dg pg)).
    eexists. split; [done|]. split; [reflexivity|]. split; [done|]. by exists pg.
  - destruct Hw as (_ & _ & Hu & pg & Hr & Hs & _). apply read_said in Hr as [Hg Hsaid].
    unfold submit_group_call. apply blank_false in Hu. rewrite !bool_decide_false by done.
    eexists. split; [done|]. split; [reflexivity|]. split; [done|]. by exists pg.
Qed.
End groups.

(** * A slip there and back *)
Lemma v1_fee_roundtrip op bps cents f : 0 <= bps -> 0 <= cents -> toBankSlipV1Fee op bps cents 0 = Ok f ->
  let percent f := bool_decide (svf_Type f = bankSlipV1TypePercent) in
  match f with Some f => if percent f then svf_Value f else 0 | None => 0 end = bps /\
  match f with Some f => if percent f then 0 else svf_Value f | None => 0 end = cents.
Proof.
  intros Hb Hc. unfold toBankSlipV1Fee. destruct (Z.ltb_spec 0 bps), (Z.ltb_spec 0 cents); cbn [andb];
    intros [= <-]; cbn; rewrite ?bool_decide_true, ?bool_decide_false by done; lia.
Qed.

Definition tier_ok (percent : bool) (t : BoletoDiscountTier) : Prop :=
  if percent then 0 < bdt_Bps t /\ bdt_FixedCents t <= 0 else bdt_Bps t <= 0 /\ 0 < bdt_FixedCents t.
(** Once one kind of tier was seen and the other is not to be, every tier is of that kind. *)
Lemma tier_forms_Ok op l : forall percent fixed p f, tier_forms op l percent fixed = Ok (p, f) ->
  (percent = true -> p = true) /\ (fixed = true -> f = true) /\
  (p = false \/ f = false -> Forall (tier_ok p) l) /\ (l <> [] -> p = true \/ f = true).
Proof.
  induction l as [|t l IH]; intros percent fixed p f; cbn [tier_forms]; [intros [= -> ->]; split_and!; auto|].
  destruct (Z.ltb_spec 0 (bdt_Bps t)), (Z.ltb_spec 0 (bdt_FixedCents t)); cbn [andb negb orb]; try done;
    (destruct (bdt_DaysBeforeDue t <? 0); [done|]); intros Hf%IH;
    rewrite ?orb_true_r, ?orb_false_r in Hf; destruct Hf as (H1 & H2 & H3 & _).
  - specialize (H1 eq_refl). subst p. split_and!; auto. intros Hpf. constructor; [by split|by apply H3].
  - specialize (H2 eq_refl). subst f. split_and!; auto. intros [->|]; [|done]. constructor; [by split|by apply H3; left].
Qed.
Lemma discount_bands_Ok op percent l : forall prev bands, Forall (fun t => 0 <= bdt_Bps t /\ 0 <= bdt_FixedCents t) l ->
  Forall (tier_ok percent) l -> discount_bands op percent prev l = Ok bands ->
  map (read_tier percent) bands = l /\ List.length bands = List.length l.
Proof.
  induction l as [|t l IH]; intros prev bands Hnn Hok; cbn [discount_bands]; [by intros [= <-]|].
  apply Forall_cons in Hnn as [Hn Hnn]. apply Forall_cons in Hok as [Ht Hok].
  destruct (_ && _); [done|]. destruct (discount_bands op percent (bdt_DaysBeforeDue t) l) as [out|] eqn:Eo; [|done].
  intros [= <-]. destruct (IH _ _ Hnn Hok Eo) as [<- Hl]. cbn [map List.length]. split; [|lia]. f_equal.
  unfold read_tier, tier_ok in *. destruct t as [days bps cents]. cbn in *. destruct percent; f_equal; lia.
Qed.
Lemma three_bands {A B} (f : A -> B) l : (List.length l <= 3)%nat ->
  omap (fmap f) [l !! 0%nat; l !! 1%nat; l !! 2%nat] = map f l.
Proof. destruct l as [|a [|b [|c [|d l]]]]; cbn; [done..|lia]. Qed.

Lemma v1_discount_roundtrip op tiers d :
  Forall (fun t => 0 <= bdt_Bps t /\ 0 <= bdt_FixedCents t) tiers -> toBankSlipV1Discount op tiers = Ok d ->
  match d with
  | Some d => let percent := bool_decide (svd_DiscountType d = bankSlipV1TypePercent) in
              omap (fmap (read_tier percent)) [svd_First d; svd_Second d; svd_Third d]
  | None => []
  end = tiers /\ (List.length tiers <= 3)%nat.
Proof.
  intros Hnn. unfold toBankSlipV1Discount. case_bool_decide as Hne; [intros [= <-]; subst; cbn; split; [done|lia]|].
  destruct (Nat.ltb_spec bankSlipV1MaxDiscounts (List.length tiers)) as [|Hlen]; [done|].
  destruct (tier_forms op tiers false false) as [[p f]|] eqn:Ef; [|done].
  destruct (p && f) eqn:Epf; [done|]. apply andb_false_iff in Epf.
  apply tier_forms_Ok in Ef as (_ & _ & Hok & _). specialize (Hok Epf).
  destruct (discount_bands op p (-1) tiers) as [bands|] eqn:Eb; [|done]. intros [= <-].
  destruct (discount_bands_Ok op p tiers (-1) bands Hnn Hok Eb) as [Hm Hl].
  cbn [svd_DiscountType svd_First svd_Second svd_Third]. unfold bankSlipV1MaxDiscounts in Hlen. split; [|lia].
  cbv zeta. rewrite three_bands by lia.
  destruct p; [rewrite bool_decide_true by done|rewrite bool_decide_false by done]; exact Hm.
Qed.

Lemma digit_char_visible n : visible (digit_char n) = true.
Proof.
  destruct (digit_char_ok n) as [H _]. unfold digit in H. unfold visible.
  rewrite !andb_true_iff, !N.leb_le in *. lia.
Qed.
Lemma date_trimmed t : TrimSpace (Format_date t) = Format_date t.
Proof.
  unfold Format_date, format_ymd. destruct (civil_from_days (civil_day t)) as [[y m] d].
  eapply (TrimSpace_visible (digit_char (y / 1000)) _ (digit_char d)); [apply digit_char_visible..|done|by eexists|].
  unfold four_digits, two_digits. cbn [app].
  by eexists [_; _; _; _; _; _; _; _; _].
Qed.

(** The bank keeps what it is sent: the amount after its trip through a JSON number. *)
Record v1_echoes (b : bankSlipV1Request) (out : bankSlipV1Response) : Prop := {
  v1e_amount : Some (svo_Amount out) = brlDecimal_UnmarshalJSON (brlDecimal_MarshalJSON (svr_Amount b));
  v1e_due : svo_DueDate out = svr_DueDate b;
  v1e_discount : svo_Discount out = svr_Discount b;
  v1e_interest : svo_Interest out = svr_Interest b;
  v1e_fine : svo_Fine out = svr_Fine b
}.

(** A plain slip is read back from the bank as it was registered: the amount to the cent, the
    due day, the fine, the interest and every discount of the schedule, up to three, in order;
    none is merged, dropped or turned from a rate into an amount. *)
Theorem slip_wire_roundtrip scheme r c b out
    (Hfees : fees_ok (request_fees r)) (Hamount : brq_AmountCents r <= maxInt64)
    (Hyear : 0 <= fst (fst (civil_from_days (civil_day (in_UTC (brq_DueDate r))))) <= 9999)
    (Hc : create_slip_call scheme r = Ok c) (Hb : cl_body c = Some (V1Body b)) (Hout : v1_echoes b out) :
  let res := toPlainBoletoResult (brq_BoletoID r) out in
  br_AmountCents res = brq_AmountCents r /\
  br_DueDate res = utc_midnight (civil_day (in_UTC (brq_DueDate r))) /\
  br_FineBps res = brq_FineBps r /\ br_FineFixedCents res = brq_FineFixedCents r /\
  br_MonthlyInterestBps res = brq_MonthlyInterestBps r /\
  br_Discounts res = brq_Discounts r /\ (List.length (brq_Discounts r) <= 3)%nat.
Proof.
  unfold create_slip_call in Hc. destruct (blank _); [done|].
  destruct (validateBankSlipV1 _ _) as [[]|] eqn:Ev; [|done].
  destruct (toBankSlipV1Fee _ (brq_FineBps r) _ _) as [fine|] eqn:Ef; [|done].
  destruct (toBankSlipV1Fee _ (brq_MonthlyInterestBps r) _ _) as [interest|] eqn:Ei; [|done].
  destruct (toBankSlipV1Discount _ _) as [discount|] eqn:Ed; [|done]. injection Hc as <-. injection Hb as <-.
  destruct Hout as [Ea Edue Edisc Eint Efine], Hfees as [H1 H2 _ H4 H5].
  cbn [svr_Amount svr_DueDate svr_Discount svr_Interest svr_Fine request_fees bfp_FineBps bfp_FineFixedCents
       bfp_MonthlyInterestBps bfp_Discounts] in *.
  apply v1_fee_roundtrip in Ef as [F1 F2]; [|done..]. apply v1_fee_roundtrip in Ei as [I1 _]; [|done..].
  apply v1_discount_roundtrip in Ed as [D1 D2]; [|eapply Forall_impl; [exact H5|]; cbn; tauto].
  assert (Hpos : 0 < brq_AmountCents r).
  { unfold validateBankSlipV1 in Ev. destruct (Z.leb_spec (brq_AmountCents r) 0); [done|lia]. }
  rewrite brl_roundtrip_signed in Ea by (unfold minInt64; lia). injection Ea as Ea.
  unfold toPlainBoletoResult. cbn [br_AmountCents br_DueDate br_FineBps br_FineFixedCents br_MonthlyInterestBps
    br_Discounts]. rewrite Ea, Edue, Edisc, Eint, Efine. split_and!; try done.
  unfold parseScheduleDate. rewrite date_trimmed, bool_decide_false by apply format_not_empty.
  by rewrite Parse_format.
Qed.

(** * Concrete runs *)
Definition sample_tiers : list BoletoDiscountTier :=
  [ {| bdt_DaysBeforeDue := 10; bdt_Bps := 1000; bdt_FixedCents := 0 |};
    {| bdt_DaysBeforeDue := 5; bdt_Bps := 500; bdt_FixedCents := 0 |};
    {| bdt_DaysBeforeDue := 0; bdt_Bps := 100; bdt_FixedCents := 0 |} ].
Definition sample_slip (tiers : list BoletoDiscountTier) : BoletoRequest :=
  {| brq_TenantID := "t1"; brq_BoletoID := "00112233445566778899aabbccddeeff"; brq_AmountCents := 123456;
     brq_Currency := "BRL"; brq_DueDate := utc_midnight 20650; brq_ValidUntil := zeroTime; brq_FineBps := 200;
     brq_FineFixedCents := 0; brq_MonthlyInterestBps := 100; brq_Discounts := tiers;
     brq_Payer := {| bpy_Name := "Ana"; bpy_TaxID := "12345678909";
       bpy_Address := {| bad_Street := "Rua A"; bad_Number := 1; bad_Neighborhood := "Centro";
                         bad_City := "Brasilia"; bad_State := "df"; bad_ZipCode := "70000000" |} |};
     brq_Description := "mensalidade"; brq_IdempotencyKey := "k"; brq_Modality := "" |}.
Definition v1_answer (b : bankSlipV1Request) : bankSlipV1Response :=
  {| svo_ID := "1"; svo_ExternalReferenceID := svr_ExternalReferenceID b;
     svo_Amount := default 0 (brlDecimal_UnmarshalJSON (brlDecimal_MarshalJSON (svr_Amount b)));
     svo_Status := "CREATED"; svo_DueDate := svr_DueDate b; svo_DigitableLine := ""; svo_BarCode := "";
     svo_OurNumber := ""; svo_Discount := svr_Discount b; svo_Interest := svr_Interest b; svo_Fine := svr_Fine b |}.

Lemma slip_wire_roundtrip_witness :
  exists c b, create_slip_call "21" (sample_slip sample_tiers) = Ok c /\ cl_body c = Some (V1Body b) /\
    br_Discounts (toPlainBoletoResult "00112233445566778899aabbccddeeff" (v1_answer b)) = sample_tiers.
Proof.
  destruct (create_slip_call "21" (sample_slip sample_tiers)) as [c|e] eqn:Ec; [|vm_compute in Ec; discriminate Ec].
  destruct (cl_body c) as [[| | |b|]|] eqn:Eb; [vm_compute in Ec; injection Ec as <-; discriminate Eb..| | |];
    try (vm_compute in Ec; injection Ec as <-; discriminate Eb).
  exists c, b. split; [reflexivity|]. split; [exact Eb|].
  apply (slip_wire_roundtrip "21" (sample_slip sample_tiers) c b (v1_answer b)).
  - split; [discriminate|discriminate|intros H; discriminate H|discriminate|].
    repeat constructor; cbn; try discriminate; intros H; discriminate H.
  - discriminate.
  - split; vm_compute; discriminate.
  - exact Ec.
  - exact Eb.
  - split; [|reflexivity..]. vm_compute in Ec. injection Ec as <-. injection Eb as <-. vm_compute. reflexivity.
Defined.

(** A schedule out of order, or of two kinds, is refused. *)
Example discounts_refused :
  (toBankSlipV1Discount "op" (rev sample_tiers), toBankSlipV1Discount "op"
     [{| bdt_DaysBeforeDue := 10; bdt_Bps := 1000; bdt_FixedCents := 0 |};
      {| bdt_DaysBeforeDue := 5; bdt_Bps := 0; bdt_FixedCents := 500 |}])
  = (Err (refused "op" ""), Err (refused "op" "")).
Proof. vm_compute. reflexivity. Qed.

(** The group that the service names with a space before it is submitted by its own name. *)
Definition one_item : list schedulePaymentView :=
  [{| spv_Amount := Some "1.00"; spv_Content := "12345678909"; spv_DueDate := "2026-08-01"; spv_ErrorMessage := "";
      spv_GroupID := "g1"; spv_ID := "i1"; spv_Overdue := false; spv_ProductType := "PIX"; spv_Status := "READ_DATA" |}].
Example submitted_by_its_name :
  let find _ := Ok {| tenant_id := "t"; tenant_name := "n"; tenant_active := true;
                      tenant_createdAt := zeroTime; tenant_accountID := "" |} in
  let single _ _ := Some ({| hr_status := 204; hr_retry_after := ""; hr_body := [] |}, "") in
  let get := c6_GetPaymentGroup (fun _ => []) (fun _ => None) (fun _ => None) (fun _ => Some one_item)
               (fun _ => Ok "token") 2 (fun _ _ => Some full_bucket) (fun _ _ => busy_then_ok) in
  SubmitPaymentGroup find get (c6_group_answer (fun _ => None) (fun _ => Ok "token") single) "t" " g1" "ana " "k" []
  = ([CallSubmit "t" " g1" "ana " "k"], Ok tt) /\
  cl_body <$> (match group_wire (CallSubmit "t" " g1" "ana " "k") with Ok c => Some c | Err _ => None end)
  = Some (Some (SubmitBody "g1" "ana")).
Proof. vm_compute. split; reflexivity. Qed.
