(* ===== verification/HttpServer.v ===== *)
(** The HTTP plane: internal/adapters/http/server.go (the routes and what stands before each),
    csrf.go, the console's authentication (console_auth.go) and the answers of response.go.
    The router itself, chi, is a parameter: of it is used that it calls a registered route of
    the request's method, behind the middlewares of the scopes the route was registered in. *)
From S2P Require Import Prelude GoStrings GoTime GoFloat GoSort GoCrypto Shared Tenants Mandates Interleave.
From S2P Require Import ConsoleCred ConsoleLogin AccountKeys Ports BankIdentity Capabilities TenantAuth RateLimits AccountConsole.
#[global] Open Scope Z_scope.

(** * response.go

    What a domain error is answered with, and whether it is logged. *)
Definition writeDomainError (err : error) : Z * string * bool :=
  if errors_Is err ErrMandateNotFound || errors_Is err ErrMandateMismatch then (404, "not found", false)
  else if errors_Is err ErrMandateNotApproved then (409, "mandate is not approved", false)
  else if errors_Is err ErrChargeExceedsMandate then (409, "charge exceeds the authorized mandate value", false)
  else if errors_Is err ErrValidation then (400, "invalid request", false)
  else if errors_Is err ErrNotFound then (404, "not found", false)
  else if errors_Is err ErrConflict then (409, "conflict", false)
  else if errors_Is err ErrTenantScope then (404, "not found", false)
  else (500, "internal error", true).

(** recurrence_handlers.go and dda_handlers.go put one case before it; console_auth.go answers a
    failed bootstrap. *)
Definition writeRecurrenceError (err : error) : Z * string * bool :=
  if errors_Is err ErrUnavailable then (503, "recurrence unavailable", false) else writeDomainError err.
Definition writeDDAError (err : error) : Z * string * bool :=
  if errors_Is err ErrInvalidTransition then (409, "conflict", false) else writeDomainError err.
Definition bootstrapError (err : error) : Z :=
  if errors_Is err ErrBootstrapLocked then 409
  else if errors_Is err ErrBootstrapForbidden || errors_Is err ErrBootstrapDisabled then 403
  else 500.

(** * Routes

    The limiters of the plane and what each is keyed by; the middlewares, with the arguments they
    are built with. *)
Inductive limiter := LTenant | LAdmin | LConsole | LLogin | LWebhook
  | LAccountKey | LClientProvision | LSelfServeCred | LSelfServeCert.
Inductive rate_key := KTenantOrIP | KAdminToken | KConsole | KIP.
Inductive middleware :=
| MAccountKeyAuth
| MAccountKeyRotate (retryAfterSecs : Z)
| MClientProvision (retryAfterSecs : Z)
| MTenantAuthWithSelector
| MTenantAuth
| MBankRoute
| MLimit (l : limiter) (key : rate_key)
| MSelfServeCred (retryAfterSecs : Z)
| MSelfServeCert (retryAfterSecs : Z)
| MAdminAuth
| MRequireRole (allowed : list Role)
| MSecurityHeaders
| MConsoleAuth
| MCSRF.
Inductive node :=
| Handle (method pattern handler : string)
| Scope (prefix : string) (uses : list middleware) (sub : list node).
#[local] Notation Group := (Scope "").
#[local] Notation Get := (Handle "GET").
#[local] Notation Post := (Handle "POST").
#[local] Notation Put := (Handle "PUT").
#[local] Notation Patch := (Handle "PATCH").
#[local] Notation Delete := (Handle "DELETE").

(** What the server is configured with decides which routes exist: the account keys (the flag and
    an authenticator), the bank selector, and the features that ship dark. *)
Record flags := {
  fl_accountKeys : bool; fl_bankResolver : bool; fl_pixRecurrence : bool; fl_selfServeCredIntake : bool;
  fl_accountOutboundWebhook : bool
}.
Definition when {A} (b : bool) (l : list A) : list A := if b then l else [].

Definition account_routes : list node :=
  [Group [MAccountKeyAuth; MAccountKeyRotate 60]
    [Post "/account-key" "handleRotateAccountKey"];
   Group [MAccountKeyAuth; MClientProvision 60]
    [Post "/clients" "handleProvisionClient"]].
(** The tenant's routes; the recurrence and the self-service writes ship dark. *)
Definition pix_routes : list node :=
  [Post "/pix" "handleCreatePix"; Get "/pix" "handleListPix"; Get "/pix/cobv" "handleListPixCobV";
   Post "/pix/cobv" "handleCreatePixCobV"; Get "/pix/cobv/{txid}" "handleGetPixCobV";
   Put "/pix/cobv/{txid}" "handleUpdatePixCobV"; Patch "/pix/cobv/{txid}" "handleRevisePixCobV";
   Post "/pix/loc" "handleCreatePixLoc"; Get "/pix/loc" "handleListPixLoc";
   Get "/pix/loc/{id}" "handleGetPixLoc"; Delete "/pix/loc/{id}/txid" "handleUnlinkPixLoc";
   Get "/pix/received" "handleListReceivedPix"; Get "/pix/received/{e2eid}" "handleGetReceivedPix";
   Put "/pix/received/{e2eid}/refunds/{refundID}" "handleRequestRefund";
   Get "/pix/received/{e2eid}/refunds/{refundID}" "handleGetRefund"; Get "/pix/lotecobv" "handleListPixBatches";
   Put "/pix/lotecobv/{id}" "handleCreatePixBatch"; Patch "/pix/lotecobv/{id}" "handleRevisePixBatch";
   Get "/pix/lotecobv/{id}" "handleGetPixBatch"].
Definition recurrence_routes : list node :=
  [Post "/pix/locrec" "handleCreateLocRec"; Get "/pix/locrec/{id}" "handleGetLocRec";
   Delete "/pix/locrec/{id}/idrec" "handleUnlinkLocRec"; Post "/pix/rec" "handleCreateRec";
   Get "/pix/rec/{idRec}" "handleGetRec"; Delete "/pix/rec/{idRec}" "handleCancelRec";
   Post "/pix/solicrec" "handleCreateSolicRec"; Get "/pix/solicrec/{idSolicRec}" "handleGetSolicRec";
   Post "/pix/cobr" "handleCreateCobR"; Get "/pix/cobr/{txid}" "handleGetCobR";
   Delete "/pix/cobr/{txid}" "handleCancelCobR"; Post "/pix/cobr/{txid}/retentativa/{data}" "handleRetryCobR"].
Definition product_routes : list node :=
  [Get "/pix/{txid}" "handleGetPix"; Patch "/pix/{txid}" "handleRevisePix";
   Post "/checkout" "handleCreateCheckout"; Get "/checkout/{id}" "handleGetCheckout";
   Delete "/checkout/{id}" "handleCancelCheckout"; Post "/boletos" "handleCreateBoleto";
   Get "/boletos/{id}" "handleGetBoleto"; Get "/boletos/{id}/pdf" "handleGetBoletoPDF";
   Delete "/boletos/{id}" "handleDeleteBoleto"; Patch "/boletos/{id}" "handleUpdateBoleto";
   Put "/boletos/{id}" "handleUpdateBoleto"; Get "/boletos" "handleListBoletos";
   Post "/bank-slips" "handleCreatePlainBoleto"; Get "/bank-slips/{id}" "handleGetPlainBoleto";
   Patch "/bank-slips/{id}" "handleUpdatePlainBoleto"; Delete "/bank-slips/{id}" "handleCancelPlainBoleto";
   Get "/bank-slips/{id}/pdf" "handleGetPlainBoletoPDF"; Get "/dda/boletos" "handleListDDABoletos";
   Post "/dda/payment-groups" "handleCreateDDAGroup";
   Get "/dda/payment-groups/{id}/items" "handleGetDDAGroupItems";
   Delete "/dda/payment-groups/{id}/items" "handleRemoveDDAGroupItems";
   Delete "/dda/payment-groups/{id}/items/{itemID}" "handleRemoveDDAGroupItem";
   Post "/dda/payment-groups/{id}/submit" "handleSubmitDDAGroup"; Get "/statement" "handleGetStatement";
   Get "/acquirer/receivables" "handleListReceivables";
   Get "/acquirer/transactions" "handleListCardTransactions";
   Get "/bank-capabilities" "handleTenantBankCapabilities"].
Definition selfserve_routes : list node :=
  [Group [MSelfServeCred 60]
    [Put "/bank-credential" "handleTenantSetBankCredential"; Put "/pix-key" "handleTenantSetCreditorKey"];
   Group [MSelfServeCert 60]
    [Put "/bank-certificate" "handleTenantSetBankCertificate"]].
Definition tenant_routes (f : flags) : list node :=
  [Post "/charges" "handleCreateCharge"; Get "/charges/{id}" "handleGetCharge"]
  ++ pix_routes ++ when (fl_pixRecurrence f) recurrence_routes ++ product_routes
  ++ when (fl_selfServeCredIntake f) selfserve_routes.
Definition v1_routes (f : flags) : list node :=
  when (fl_accountKeys f) account_routes
  ++ [Group ([if fl_accountKeys f then MTenantAuthWithSelector else MTenantAuth]
             ++ when (fl_bankResolver f) [MBankRoute] ++ [MLimit LTenant KTenantOrIP])
        (tenant_routes f)].
Definition admin_routes : list node :=
  [Group [MRequireRole [RoleAdmin]]
    [Post "/tenants" "handleCreateTenant"; Post "/tenants/{tenantID}/pricing" "handleSetPrice";
     Put "/tenants/{tenantID}/bank-credential" "handleSetBankCredential";
     Put "/tenants/{tenantID}/bank-certificate" "handleSetBankCertificate";
     Post "/accounts/{accountID}/account-key" "handleAdminMintAccountKey"]].
Definition console_login_routes : list node :=
  [Get "/login" "consoleLoginForm"; Post "/login" "consoleLogin"; Get "/bootstrap" "consoleBootstrapForm";
   Post "/bootstrap" "consoleBootstrap"].
Definition console_read_routes (f : flags) : list node :=
  [Get "/" "consoleRedirect"; Get "/accounts" "consoleListAccounts"; Get "/accounts/rows" "consoleAccountRows";
   Get "/accounts/new" "consoleNewAccountForm"; Get "/accounts/{acctId}" "consoleAccountDetail";
   Get "/accounts/{acctId}/tenants/new" "consoleNewAccountTenantForm";
   Get "/accounts/{acctId}/consumption" "consoleAccountConsumption";
   Get "/accounts/{acctId}/consumption/rows" "consoleAccountConsumptionRows";
   Get "/accounts/{acctId}/consumption.csv" "consoleAccountConsumptionCSV";
   Get "/accounts/{acctId}/invoices" "consoleAccountInvoices"]
  ++ when (fl_accountOutboundWebhook f)
    [Get "/accounts/{acctId}/webhook" "consoleOutboundWebhookCard"]
  ++
  [Get "/tenants" "consoleListTenants"; Get "/tenants/rows" "consoleTenantRows";
   Get "/tenants/new" "consoleNewTenantForm"; Get "/tenants/{id}" "consoleTenantDetail";
   Get "/tenants/{id}/credentials" "consoleCredentialsForm"; Get "/tenants/{id}/banks" "consoleBankList";
   Get "/tenants/{id}/banks/{bankId}" "consoleBankDetail"; Get "/tenants/{id}/pricing" "consolePricing";
   Get "/tenants/{id}/consumption" "consoleConsumption";
   Get "/tenants/{id}/consumption/rows" "consoleConsumptionRows";
   Get "/tenants/{id}/consumption.csv" "consoleConsumptionCSV"; Get "/tenants/{id}/invoices" "consoleInvoices";
   Get "/tenants/{id}/invoices/{invId}.csv" "consoleInvoiceCSV"].
Definition console_write_routes (f : flags) : list node :=
  [Post "/accounts" "consoleCreateAccount"; Post "/accounts/{acctId}/suspend" "consoleSuspendAccount";
   Post "/accounts/{acctId}/activate" "consoleActivateAccount";
   Patch "/accounts/{acctId}" "consoleRenameAccount";
   Post "/accounts/{acctId}/tenants" "consoleCreateAccountTenant";
   Post "/accounts/{acctId}/invoices" "consoleGenerateAccountInvoices";
   Post "/accounts/{acctId}/account-key" "consoleMintAccountKey"]
  ++ when (fl_accountOutboundWebhook f)
    [Post "/accounts/{acctId}/webhook" "consoleSetOutboundWebhook";
     Post "/accounts/{acctId}/webhook/secret" "consoleRotateOutboundWebhookSecret";
     Delete "/accounts/{acctId}/webhook" "consoleRemoveOutboundWebhook"]
  ++
  [Post "/tenants" "consoleCreateTenant"; Post "/tenants/{id}/suspend" "consoleSuspendTenant";
   Post "/tenants/{id}/activate" "consoleActivateTenant"; Patch "/tenants/{id}" "consoleRenameTenant";
   Delete "/tenants/{id}/banks/{bankId}" "consoleRemoveBank";
   Post "/tenants/{id}/credentials" "consoleSetCredential"; Post "/tenants/{id}/banks" "consoleAddBank";
   Post "/tenants/{id}/banks/{bankId}/credential" "consoleSetBankCredential";
   Post "/tenants/{id}/banks/{bankId}/certificate" "consoleSetBankCertificate";
   Post "/tenants/{id}/creditor-key" "consoleSetCreditorKey";
   Post "/tenants/{id}/invoices" "consoleGenerateInvoice"; Post "/tenants/{id}/pricing" "consoleSetPrice"].
Definition console_routes (f : flags) : list node :=
  [Get "/static/*" "consoleServeStatic";
   Group [MSecurityHeaders; MLimit LLogin KIP; MCSRF] console_login_routes;
   Group [MSecurityHeaders; MConsoleAuth; MLimit LConsole KConsole; MCSRF]
     [Post "/logout" "consoleLogout";
      Group [MRequireRole [RoleAdmin; RoleOperator]] (console_read_routes f);
      Group [MRequireRole [RoleAdmin]] (console_write_routes f)]].
Definition Router (f : flags) : list node :=
  [Get "/healthz" "healthz";
   Scope "/v1" [] (v1_routes f);
   Scope "/admin" [MAdminAuth; MLimit LAdmin KAdminToken] admin_routes;
   Scope "/console" [] (console_routes f);
   Group [MLimit LWebhook KIP] [Post "/webhooks/c6/{tenantRef}" "handleC6Webhook"]].

(** The table: method, pattern, the middlewares in order, the handler. *)
Record Route := { rt_method : string; rt_pattern : string; rt_chain : list middleware; rt_handler : string }.
Fixpoint routes_of (prefix : string) (chain : list middleware) (n : node) : list Route :=
  match n with
  | Handle m p h => [{| rt_method := m; rt_pattern := prefix ++ p; rt_chain := chain; rt_handler := h |}]
  | Scope p uses sub => flat_map (routes_of (prefix ++ p) (chain ++ uses)) sub
  end.
Definition table (f : flags) : list Route := flat_map (routes_of "" []) (Router f).

(** * Requests

    What the middlewares read of a request: its headers, its cookies and the form's token; the
    address chi's client-IP middleware trusts and the peer's; the instants read on the way, and the
    random token a CSRF mint would draw. *)
Record Request := {
  rq_method : string; rq_path : string; rq_authorization : string; rq_clientTenant : string; rq_bankID : string;
  rq_sessionCookie : option string; rq_csrfCookie : option string; rq_csrfHeader : string;
  rq_csrfField : string; rq_hxRequest : string; rq_accept : string; rq_trustedIP : string;
  rq_remoteAddr : string; rq_now : Time; rq_limitNow : Time; rq_newCSRFToken : res string
}.
(** The values a request's context carries, and the cookies set so far. *)
Record Context_ := {
  cx_tenantID : string; cx_accountID : string; cx_role : option Role; cx_operatorID : string;
  cx_bankID : string; cx_csrf : string; cx_cookies : list (string * string * bool)
}.
Definition background : Context_ :=
  {| cx_tenantID := ""; cx_accountID := ""; cx_role := None; cx_operatorID := ""; cx_bankID := ""; cx_csrf := "";
     cx_cookies := [] |}.
Definition cx_set_tenant (t a : string) (c : Context_) : Context_ :=
  {| cx_tenantID := t; cx_accountID := a; cx_role := cx_role c; cx_operatorID := cx_operatorID c;
     cx_bankID := cx_bankID c; cx_csrf := cx_csrf c; cx_cookies := cx_cookies c |}.
Definition cx_set_account (a op : string) (c : Context_) : Context_ :=
  {| cx_tenantID := cx_tenantID c; cx_accountID := a; cx_role := cx_role c; cx_operatorID := op;
     cx_bankID := cx_bankID c; cx_csrf := cx_csrf c; cx_cookies := cx_cookies c |}.
Definition cx_set_role (r : Role) (op : string) (c : Context_) : Context_ :=
  {| cx_tenantID := cx_tenantID c; cx_accountID := cx_accountID c; cx_role := Some r; cx_operatorID := op;
     cx_bankID := cx_bankID c; cx_csrf := cx_csrf c; cx_cookies := cx_cookies c |}.
Definition cx_set_bank (b : string) (c : Context_) : Context_ :=
  {| cx_tenantID := cx_tenantID c; cx_accountID := cx_accountID c; cx_role := cx_role c;
     cx_operatorID := cx_operatorID c; cx_bankID := b; cx_csrf := cx_csrf c; cx_cookies := cx_cookies c |}.
Definition cx_set_csrf (tok : string) (cookies : list (string * string * bool)) (c : Context_) : Context_ :=
  {| cx_tenantID := cx_tenantID c; cx_accountID := cx_accountID c; cx_role := cx_role c;
     cx_operatorID := cx_operatorID c; cx_bankID := cx_bankID c; cx_csrf := tok;
     cx_cookies := (cx_cookies c ++ cookies)%list |}.

(** An answer a middleware gives instead of the handler. *)
Inductive refusal := Status (code : Z) (retryAfter : option Z) | SeeOther (location : string).
Definition csrfCookieName : string := "csrf_token".
Definition isSafeMethod (m : string) : bool := bool_decide (m ∈ ["GET"; "HEAD"; "OPTIONS"; "TRACE"]).

(** * The server *)
Record Server := {
  sv_tenantAuth : string -> option Principal;
  sv_adminAuth : string -> option AdminPrincipal;
  sv_accountResolver : option (string -> string);
  sv_accountKeyAuth : option (string -> option string);
  sv_accountKeySelector : bool;
  sv_bankResolver : option (string -> string -> res string);
  sv_consoleAuth : option ConsoleAuthService;
  sv_secureCookies : bool;
  sv_pixRecurrence : bool;
  sv_selfServeCredIntake : bool;
  sv_accountOutboundWebhook : bool
}.
Definition model_b (sv : Server) : bool :=
  sv_accountKeySelector sv && match sv_accountKeyAuth sv with Some _ => true | None => false end.
Definition flags_of (sv : Server) : flags :=
  {| fl_accountKeys := model_b sv;
     fl_bankResolver := match sv_bankResolver sv with Some _ => true | None => false end;
     fl_pixRecurrence := sv_pixRecurrence sv; fl_selfServeCredIntake := sv_selfServeCredIntake sv;
     fl_accountOutboundWebhook := sv_accountOutboundWebhook sv |}.

(** The limiters [Router] makes. *)
Definition new_limiter (l : limiter) : rateLimiter :=
  match l with
  | LTenant | LAdmin | LConsole => newRateLimiter (d_int 20) (d_int 10)
  | LLogin => newRateLimiter (d_int 10) (d_int 1)
  | LWebhook => newRateLimiter (d_int 50) (d_int 25)
  | LAccountKey | LSelfServeCred | LSelfServeCert => newRateLimiter (d_int 5) (ddiv (d_int 1) (d_int 60))
  | LClientProvision => newRateLimiter (d_int 10) (ddiv (d_int 1) (d_int 60))
  end.

(** ** The console's answers *)
Definition consoleRateKey (rq : Request) : string :=
  let tok := bearerToken (rq_authorization rq) in
  if negb (bool_decide (tok = "")) then "admin:" ++ RawURLEncoding (sha256 (bytes_of tok))
  else match rq_sessionCookie rq with
       | Some c =>
           if negb (bool_decide (c = "")) then "sess:" ++ RawURLEncoding (sha256 (bytes_of c))
           else "ip:" ++ clientIP (rq_trustedIP rq) (rq_remoteAddr rq)
       | None => "ip:" ++ clientIP (rq_trustedIP rq) (rq_remoteAddr rq)
       end.
Definition consoleAuthDeny (rq : Request) : refusal :=
  if bool_decide (rq_method rq = "GET") && negb (bool_decide (rq_hxRequest rq = "true"))
     && Contains (rq_accept rq) "text/html"
  then SeeOther "/console/login" else Status 401 None.
Definition key_of (k : rate_key) (rq : Request) (cx : Context_) : string :=
  match k with
  | KTenantOrIP => tenantOrIPKey (cx_tenantID cx) (rq_trustedIP rq) (rq_remoteAddr rq)
  | KAdminToken => adminTokenKey (bearerToken (rq_authorization rq)) (rq_trustedIP rq) (rq_remoteAddr rq)
  | KConsole => consoleRateKey rq
  | KIP => "ip:" ++ clientIP (rq_trustedIP rq) (rq_remoteAddr rq)
  end.
#[export] Instance limiter_eq_dec : EqDecision limiter.
Proof. solve_decision. Defined.
#[export] Instance rate_key_eq_dec : EqDecision rate_key.
Proof. solve_decision. Defined.
#[export] Instance middleware_eq_dec : EqDecision middleware.
Proof. solve_decision. Defined.

Section server.
Context {St : Type} `{CS : ConsoleStores St} (sv : Server).
Record World := { w_limits : limiter -> rateLimiter; w_console : Console St }.

Definition limited (l : limiter) (step : rateLimiter -> rateLimiter * verdict) (cx : Context_)
    : M World refusal Context_ := fun w =>
  let '(rl, v) := step (w_limits w l) in
  ({| w_limits := fun l' => if decide (l' = l) then rl else w_limits w l'; w_console := w_console w |},
   match v with Pass => Ok cx | TooMany retry => Err (Status 429 retry) end).
Definition of_passage (p : passage) (cx : Context_) : M World refusal Context_ :=
  match p with
  | Refused status => throwM (Status status None)
  | Served t a => retM (cx_set_tenant t a cx)
  end.

Definition accountKeyAuthMiddleware (rq : Request) (cx : Context_) : M World refusal Context_ :=
  let bearer := bearerToken (rq_authorization rq) in
  if negb (HasSecretShape bearer) then throwM (Status 401 None)
  else match (auth ← sv_accountKeyAuth sv; auth bearer) with
       | None => throwM (Status 401 None)
       | Some accountID => retM (cx_set_account accountID ("account:" ++ accountID) cx)
       end.
Definition bankRouteMiddleware (rq : Request) (cx : Context_) : M World refusal Context_ :=
  match sv_bankResolver sv with
  | None => retM cx
  | Some resolve =>
      match resolve (cx_tenantID cx) (rq_bankID rq) with
      | Err e => throwM (Status (writeDomainError e).1.1 None)
      | Ok bankID => retM (cx_set_bank bankID cx)
      end
  end.
Definition consoleAuthMiddleware (rq : Request) (cx : Context_) : M World refusal Context_ := fun w =>
  let tok := bearerToken (rq_authorization rq) in
  if negb (bool_decide (tok = "")) then
    match sv_adminAuth sv tok with
    | Some p => (w, Ok (cx_set_role (ap_Role p) (ap_OperatorID p) cx))
    | None => (w, Err (consoleAuthDeny rq))
    end
  else
    match sv_consoleAuth sv, rq_sessionCookie rq with
    | Some svc, Some c =>
        if bool_decide (c = "") then (w, Err (consoleAuthDeny rq))
        else let '(console, r) := run (Authenticate svc (rq_now rq) c) (w_console w) in
             ({| w_limits := w_limits w; w_console := console |},
              match r with
              | Some subject => Ok (cx_set_role RoleAdmin ("console:" ++ subject) cx)
              | None => Err (consoleAuthDeny rq)
              end)
    | _, _ => (w, Err (consoleAuthDeny rq))
    end.
(** csrf.go, [CSRFGuard.middleware]. *)
Definition csrf_middleware (rq : Request) (cx : Context_) : M World refusal Context_ :=
  let token := default "" (rq_csrfCookie rq) in
  if isSafeMethod (rq_method rq) then
    if bool_decide (token = "") then
      match rq_newCSRFToken rq with
      | Err _ => throwM (Status 500 None)
      | Ok minted => retM (cx_set_csrf minted [(csrfCookieName, minted, sv_secureCookies sv)] cx)
      end
    else retM (cx_set_csrf token [] cx)
  else
    let submitted := if bool_decide (rq_csrfHeader rq = "") then rq_csrfField rq else rq_csrfHeader rq in
    if bool_decide (token = "") || bool_decide (submitted = "") || negb (bool_decide (token = submitted))
    then throwM (Status 403 None)
    else retM (cx_set_csrf token [] cx).

Definition passes (m : middleware) (rq : Request) (cx : Context_) : M World refusal Context_ :=
  match m with
  | MAccountKeyAuth => accountKeyAuthMiddleware rq cx
  | MAccountKeyRotate n =>
      limited LAccountKey (fun rl => middlewareAccountKeyRotate rl n (cx_accountID cx) (rq_limitNow rq)) cx
  | MClientProvision n =>
      limited LClientProvision (fun rl => middlewareClientProvision rl n (cx_accountID cx) (rq_limitNow rq)) cx
  | MTenantAuthWithSelector =>
      of_passage (tenantAuthMiddlewareWithSelector (sv_tenantAuth sv)
                    {| akg_enabled := true; akg_keyAuth := sv_accountKeyAuth sv |} [sv_accountResolver sv]
                    (rq_authorization rq) (rq_clientTenant rq)) cx
  | MTenantAuth =>
      of_passage (tenantAuthMiddleware (sv_tenantAuth sv) [sv_accountResolver sv] (rq_authorization rq)) cx
  | MBankRoute => bankRouteMiddleware rq cx
  | MLimit l k => limited l (fun rl => middleware_ rl (key_of k rq cx) (rq_limitNow rq)) cx
  | MSelfServeCred n =>
      limited LSelfServeCred (fun rl => middlewareSelfServeCred rl n (cx_tenantID cx) (rq_limitNow rq)) cx
  | MSelfServeCert n =>
      limited LSelfServeCert (fun rl => middlewareSelfServeCert rl n (cx_tenantID cx) (rq_limitNow rq)) cx
  | MAdminAuth =>
      match adminAuthMiddleware (sv_adminAuth sv) (rq_authorization rq) with
      | AdminRefused status => throwM (Status status None)
      | AdminServed p => retM (cx_set_role (ap_Role p) (ap_OperatorID p) cx)
      end
  | MRequireRole allowed =>
      match requireRole allowed (cx_role cx) with Some status => throwM (Status status None) | None => retM cx end
  | MSecurityHeaders => retM cx
  | MConsoleAuth => consoleAuthMiddleware rq cx
  | MCSRF => csrf_middleware rq cx
  end.
Fixpoint through (chain : list middleware) (rq : Request) (cx : Context_) : M World refusal Context_ :=
  match chain with
  | [] => retM cx
  | m :: rest => do cx' <- passes m rq cx ;; through rest rq cx'
  end.

(** One request: the route chi finds for it, the middlewares, and the handler. *)
Context {A : Type} (chi : list Route -> Request -> option Route)
        (handle : string -> Request -> Context_ -> M World refusal A).
Definition ServeHTTP (rq : Request) : M World refusal A :=
  match chi (table (flags_of sv)) rq with
  | None => throwM (Status 404 None)
  | Some r => do cx <- through (rt_chain r) rq background ;; handle (rt_handler r) rq cx
  end.
(** The handler runs, with this context, in this world. *)
Definition reaches (rq : Request) (w : World) (r : Route) (cx : Context_) (w' : World) : Prop :=
  chi (table (flags_of sv)) rq = Some r /\ through (rt_chain r) rq background w = (w', Ok cx).

(** * Deny by default *)

(** Who may be served by a route: the routes anybody may call are listed; every other one has
    authenticated the caller, from the headers alone, and its handler sees that caller in its
    context. *)
Definition public : list (string * string) :=
  [("GET", "/healthz"); ("GET", "/console/static/*"); ("GET", "/console/login"); ("POST", "/console/login");
   ("GET", "/console/bootstrap"); ("POST", "/console/bootstrap"); ("POST", "/webhooks/c6/{tenantRef}")].
Definition account_plane : list string := ["/v1/account-key"; "/v1/clients"].
Definition choke_point (rq : Request) : passage :=
  if model_b sv
  then tenantAuthMiddlewareWithSelector (sv_tenantAuth sv) {| akg_enabled := true; akg_keyAuth := sv_accountKeyAuth sv |}
         [sv_accountResolver sv] (rq_authorization rq) (rq_clientTenant rq)
  else tenantAuthMiddleware (sv_tenantAuth sv) [sv_accountResolver sv] (rq_authorization rq).
Notation bearer rq := (bearerToken (rq_authorization rq)).
(** The console's caller: an admin token, or a standing session when there is no token. *)
Inductive console_caller (rq : Request) (w : World) : Role -> string -> Prop :=
| by_token p : bearer rq <> "" -> sv_adminAuth sv (bearer rq) = Some p -> console_caller rq w (ap_Role p) (ap_OperatorID p)
| by_session svc c subject :
    bearer rq = "" -> sv_consoleAuth sv = Some svc -> rq_sessionCookie rq = Some c ->
    (run (Authenticate svc (rq_now rq) c) (w_console w)).2 = Some subject ->
    console_caller rq w RoleAdmin ("console:" ++ subject).
(** The double submission of the CSRF token. *)
Definition same_site (rq : Request) : Prop :=
  exists tok, tok <> "" /\ rq_csrfCookie rq = Some tok /\
    tok = (if bool_decide (rq_csrfHeader rq = "") then rq_csrfField rq else rq_csrfHeader rq).
Inductive entitled (rq : Request) (w : World) (r : Route) (cx : Context_) : Prop :=
| entitled_public : (rt_method r, rt_pattern r) ∈ public -> entitled rq w r cx
| entitled_account auth :
    rt_pattern r ∈ account_plane -> sv_accountKeyAuth sv = Some auth -> HasSecretShape (bearer rq) = true ->
    auth (bearer rq) = Some (cx_accountID cx) -> entitled rq w r cx
| entitled_tenant :
    HasPrefix (rt_pattern r) "/v1/" = true -> rt_pattern r ∉ account_plane -> choke_point rq = Served (cx_tenantID cx) (cx_accountID cx) ->
    entitled rq w r cx
| entitled_admin p :
    HasPrefix (rt_pattern r) "/admin/" = true -> sv_adminAuth sv (bearer rq) = Some p -> ap_Role p = RoleAdmin ->
    cx_operatorID cx = ap_OperatorID p -> entitled rq w r cx
| entitled_console role :
    HasPrefix (rt_pattern r) "/console/" = true -> console_caller rq w role (cx_operatorID cx) ->
    (rt_handler r = "consoleLogout" \/ role = RoleAdmin \/ role = RoleOperator /\ isSafeMethod (rq_method rq) = true) ->
    (isSafeMethod (rq_method rq) = true \/ same_site rq) -> entitled rq w r cx.

Definition authenticates (m : middleware) : bool :=
  match m with
  | MAccountKeyAuth | MTenantAuthWithSelector | MTenantAuth | MAdminAuth | MConsoleAuth => true
  | _ => false
  end.
Definition holds (m : middleware) (l : list middleware) : bool := bool_decide (m ∈ l).
Definition plain_chain (l : list middleware) : bool := forallb (fun m => negb (authenticates m)) l.
Definition tenant_plane (r : Route) : bool :=
  HasPrefix (rt_pattern r) "/v1/" && bool_decide (rt_pattern r ∉ account_plane).
(** What the table must say of a route, by the first middlewares of its chain. *)
Definition guarded (f : flags) (r : Route) : bool :=
  match rt_chain r with
  | MAccountKeyAuth :: rest => plain_chain rest && bool_decide (rt_pattern r ∈ account_plane)
  | MTenantAuthWithSelector :: rest => plain_chain rest && tenant_plane r && fl_accountKeys f
  | MTenantAuth :: rest => plain_chain rest && tenant_plane r && negb (fl_accountKeys f)
  | MAdminAuth :: rest => plain_chain rest && HasPrefix (rt_pattern r) "/admin/" && holds (MRequireRole [RoleAdmin]) rest
  | MSecurityHeaders :: MConsoleAuth :: rest =>
      plain_chain rest && HasPrefix (rt_pattern r) "/console/" && holds MCSRF rest &&
      (bool_decide (rt_handler r = "consoleLogout") || holds (MRequireRole [RoleAdmin]) rest
       || isSafeMethod (rt_method r) && holds (MRequireRole [RoleAdmin; RoleOperator]) rest)
  | chain => plain_chain chain && bool_decide ((rt_method r, rt_pattern r) ∈ public)
  end.
Lemma table_guarded f : forallb (guarded f) (table f) = true.
Proof. destruct f as [[] [] [] [] []]; vm_compute; reflexivity. Qed.

(** ** Chains *)
Definition identity (cx : Context_) := (cx_tenantID cx, cx_accountID cx, cx_role cx, cx_operatorID cx).
Lemma limited_ok l step cx w w' cx' : limited l step cx w = (w', Ok cx') -> cx' = cx.
Proof. unfold limited. destruct (step _) as [rl [|]]; by intros [= _ ->]. Qed.
Lemma csrf_ok rq cx w w' cx' : csrf_middleware rq cx w = (w', Ok cx') ->
  identity cx' = identity cx /\ (isSafeMethod (rq_method rq) = true \/ same_site rq).
Proof.
  unfold csrf_middleware, same_site. cbv zeta. destruct (isSafeMethod _).
  { intros H. split; [|by left]. case_bool_decide; [destruct (rq_newCSRFToken rq); [|done]|]; by injection H as _ <-. }
  destruct (rq_csrfCookie rq) as [tok|]; cbn [default id]; [|done].
  set (sub := if bool_decide (rq_csrfHeader rq = "") then _ else _).
  destruct (bool_decide (tok = "") || bool_decide (sub = "") || negb (bool_decide (tok = sub))) eqn:E; [done|]. rewrite !orb_false_iff, negb_false_iff in E.
  destruct E as [[? _] ?]. bools. intros [= _ <-]. split; [done|]. right. by exists tok.
Qed.
Lemma role_ok allowed rq cx w w' cx' : passes (MRequireRole allowed) rq cx w = (w', Ok cx') ->
  cx' = cx /\ exists role, cx_role cx = Some role /\ role ∈ allowed.
Proof.
  cbn [passes]. unfold requireRole. destruct (cx_role cx) as [role|]; [|done].
  destruct (existsb _ allowed) eqn:E; [|done]. intros [= _ <-]. split; [done|]. exists role. split; [done|].
  apply existsb_exists in E as (x & Hx & E). bools. subst. by apply list_elem_of_In.
Qed.
Lemma passes_identity m rq cx w w' cx' : authenticates m = false -> passes m rq cx w = (w', Ok cx') ->
  identity cx' = identity cx.
Proof.
  intros Hm H. destruct m; try discriminate Hm; try (by cbn [passes] in H; apply limited_ok in H as ->).
  - cbn in H. unfold bankRouteMiddleware in H. destruct (sv_bankResolver sv) as [f|]; [|by injection H as _ <-].
    destruct (f _ _); [|done]. by injection H as _ <-.
  - by apply role_ok in H as [-> _].
  - by injection H as _ <-.
  - by apply csrf_ok in H as [? _].
Qed.
Lemma through_cons m rest rq cx w w' cx' : through (m :: rest) rq cx w = (w', Ok cx') ->
  exists w1 cx1, passes m rq cx w = (w1, Ok cx1) /\ through rest rq cx1 w1 = (w', Ok cx').
Proof.
  cbn [through]. unfold bindM. destruct (passes m rq cx w) as [w1 [cx1|e]]; [|done]. intros H. by exists w1, cx1.
Qed.
Lemma through_identity l rq cx w w' cx' : plain_chain l = true -> through l rq cx w = (w', Ok cx') ->
  identity cx' = identity cx.
Proof.
  unfold plain_chain. revert cx w. induction l as [|m l IH]; intros cx w; cbn [forallb]; [by intros _ [= _ <-]|].
  rewrite andb_true_iff, negb_true_iff. intros [Hm Hl] (w1 & cx1 & H1 & H2)%through_cons.
  rewrite (IH _ _ Hl H2). by eapply passes_identity.
Qed.
(** A middleware of the chain has let the request through, under the same identity. *)
Lemma through_holds m l rq cx w w' cx' : plain_chain l = true -> holds m l = true ->
  through l rq cx w = (w', Ok cx') ->
  exists w1 cx1 w2 cx2, identity cx1 = identity cx /\ passes m rq cx1 w1 = (w2, Ok cx2).
Proof.
  unfold plain_chain, holds. rewrite bool_decide_eq_true. revert cx w.
  induction l as [|m' l IH]; intros cx w; cbn [forallb]; [by intros _ ?%elem_of_nil|].
  rewrite andb_true_iff, negb_true_iff, elem_of_cons. intros [Hm Hl] Hin (w1 & cx1 & H1 & H2)%through_cons.
  destruct Hin as [->|Hin]; [by exists w, cx, w1, cx1|].
  destruct (IH _ _ Hl Hin H2) as (w2 & cx2 & w3 & cx3 & E & H3). exists w2, cx2, w3, cx3. split; [|done].
  rewrite E. by eapply passes_identity.
Qed.

(** ** By plane *)
Lemma account_reached rest rq w w' cx : plain_chain rest = true ->
  through (MAccountKeyAuth :: rest) rq background w = (w', Ok cx) ->
  exists auth, sv_accountKeyAuth sv = Some auth /\ HasSecretShape (bearer rq) = true /\
               auth (bearer rq) = Some (cx_accountID cx).
Proof.
  intros Hp (w1 & cx1 & H1 & H2)%through_cons. apply through_identity in H2; [|done]. cbn [passes] in H1.
  unfold accountKeyAuthMiddleware in H1. cbv zeta in H1. destruct (HasSecretShape _); [|done]. cbn [negb] in H1.
  destruct (sv_accountKeyAuth sv) as [auth|]; [|done]. cbn [mbind option_bind] in H1.
  destruct (auth _) as [a|] eqn:E; [|done]. injection H1 as _ <-. injection H2 as _ Ha _ _. exists auth. by rewrite Ha.
Qed.
Lemma tenant_reached m p rest rq w w' cx : plain_chain rest = true ->
  (forall w, passes m rq background w = of_passage p background w) ->
  through (m :: rest) rq background w = (w', Ok cx) -> p = Served (cx_tenantID cx) (cx_accountID cx).
Proof.
  intros Hp Hm (w1 & cx1 & H1 & H2)%through_cons. apply through_identity in H2; [|done]. rewrite Hm in H1.
  destruct p as [|t a]; [done|]. injection H1 as _ <-. by injection H2 as -> -> _ _.
Qed.
Lemma admin_reached rest rq w w' cx : plain_chain rest = true -> holds (MRequireRole [RoleAdmin]) rest = true ->
  through (MAdminAuth :: rest) rq background w = (w', Ok cx) ->
  exists p, sv_adminAuth sv (bearer rq) = Some p /\ ap_Role p = RoleAdmin /\ cx_operatorID cx = ap_OperatorID p.
Proof.
  intros Hp Hr (w1 & cx1 & H1 & H2)%through_cons. cbn [passes] in H1. unfold adminAuthMiddleware in H1.
  destruct (sv_adminAuth sv (bearer rq)) as [p|] eqn:E; [|done]. injection H1 as _ <-. exists p. split; [done|].
  destruct (through_holds _ _ _ _ _ _ _ Hp Hr H2) as (w2 & cx2 & w3 & cx3 & Ei & (_ & role & Er & Hin)%role_ok).
  apply through_identity in H2; [|done]. injection H2 as _ _ _ ->. split; [|done].
  injection Ei as _ _ Ei _. rewrite Er in Ei. injection Ei as ->. by apply list_elem_of_singleton in Hin.
Qed.
Lemma console_reached rest rq w w' cx : plain_chain rest = true ->
  through (MSecurityHeaders :: MConsoleAuth :: rest) rq background w = (w', Ok cx) ->
  exists role w1 cx1, console_caller rq w role (cx_operatorID cx) /\ cx_role cx1 = Some role /\
                      through rest rq cx1 w1 = (w', Ok cx).
Proof.
  intros Hp (w0 & cx0 & [= <- <-] & (w1 & cx1 & H1 & H2)%through_cons)%through_cons.
  pose proof (through_identity _ _ _ _ _ _ Hp H2) as Hi. injection Hi as _ _ _ ->.
  cbn [passes] in H1. unfold consoleAuthMiddleware in H1. cbv zeta in H1. case_bool_decide as Et; cbn [negb] in H1.
  - destruct (sv_consoleAuth sv) as [svc|] eqn:Es; [|done]. destruct (rq_sessionCookie rq) as [c|] eqn:Ec; [|done].
    case_bool_decide; [done|]. destruct (run _ _) as [console r] eqn:Er. destruct r as [subject|]; [|done].
    injection H1 as <- <-. exists RoleAdmin. eexists _, _. split; [|by split; [|exact H2]].
    eapply by_session; [done..|]. by rewrite Er.
  - destruct (sv_adminAuth sv _) as [p|] eqn:Ep; [|done]. injection H1 as <- <-.
    exists (ap_Role p). eexists _, _. split; [by apply by_token|by split; [|exact H2]].
Qed.

Lemma reached_entitled rq w r cx w' : r ∈ table (flags_of sv) -> rt_method r = rq_method rq ->
  through (rt_chain r) rq background w = (w', Ok cx) -> entitled rq w r cx.
Proof.
  intros Hin Hmethod H. pose proof (table_guarded (flags_of sv)) as Hg. rewrite forallb_forall in Hg.
  apply list_elem_of_In in Hin. specialize (Hg r Hin). unfold guarded in Hg.
  assert (Hpublic : forall b, b && bool_decide ((rt_method r, rt_pattern r) ∈ public) = true -> entitled rq w r cx).
  { intros b [_ E]%andb_true_iff. bools. by apply entitled_public. }
  destruct (rt_chain r) as [|m rest] eqn:Ec; [by eapply Hpublic|].
  destruct m; try (by eapply Hpublic).
  - apply andb_true_iff in Hg as [Hp Hpat]. bools. destruct (account_reached _ _ _ _ _ Hp H) as (auth & ? & ? & ?).
    by eapply entitled_account.
  - unfold tenant_plane in Hg. rewrite !andb_true_iff in Hg. destruct Hg as [[Hp [Hpat Hacc]] Hf]. cbn in Hf. bools.
    apply entitled_tenant; [done..|].
    unfold choke_point. rewrite Hf. by eapply tenant_reached; [exact Hp| |exact H].
  - unfold tenant_plane in Hg. rewrite !andb_true_iff, negb_true_iff in Hg. destruct Hg as [[Hp [Hpat Hacc]] Hf].
    cbn in Hf. bools. apply entitled_tenant; [done..|].
    unfold choke_point. rewrite Hf. by eapply tenant_reached; [exact Hp| |exact H].
  - rewrite !andb_true_iff in Hg. destruct Hg as [[Hp Hpat] Hr].
    destruct (admin_reached _ _ _ _ _ Hp Hr H) as (p & ? & ? & ?). by eapply entitled_admin.
  - destruct rest as [|m rest]; [by eapply Hpublic|]. destruct m; try (by eapply Hpublic).
    rewrite !andb_true_iff in Hg. destruct Hg as [[[Hp Hpat] Hcsrf] Hroles].
    destruct (console_reached _ _ _ _ _ Hp H) as (role & w1 & cx1 & Hcaller & Hrole & Hrest).
    assert (Hallowed : forall allowed, holds (MRequireRole allowed) rest = true -> role ∈ allowed).
    { intros allowed Ha. destruct (through_holds _ _ _ _ _ _ _ Hp Ha Hrest) as (w2 & cx2 & w3 & cx3 & Ei & Hr).
      apply role_ok in Hr as (_ & role' & Er & Hin'). injection Ei as _ _ Ei _. congruence. }
    eapply entitled_console; [done|exact Hcaller| |].
    + rewrite !orb_true_iff, andb_true_iff, Hmethod in Hroles. destruct Hroles as [[Hr|Hr]|[Hs Hr]]; bools; [by left| |].
      * right. left. apply Hallowed in Hr. by apply list_elem_of_singleton in Hr.
      * right. apply Hallowed in Hr. rewrite elem_of_cons, list_elem_of_singleton in Hr. destruct Hr as [->| ->]; [by left|by right].
    + destruct (through_holds _ _ _ _ _ _ _ Hp Hcsrf Hrest) as (? & ? & ? & ? & _ & [_ ?]%csrf_ok). done.
Qed.

(** C8. Nothing is served to a stranger.  Whatever the handlers do and however the server is
    configured, a request is either answered by the middlewares alone, or its handler runs with a
    caller who is entitled to the route: anybody on the seven public routes; on the account plane the
    account whose key the bearer is; on the rest of /v1 the tenant and account the choke point
    grants; on /admin an operator whose token has the full role; on /console the holder of an admin
    token or of a standing session, who for anything but reading and logging out is a full admin, and
    whose request for anything but reading submits the CSRF token twice. *)
Theorem deny_by_default
  (chi_routes : forall l rq r, chi l rq = Some r -> r ∈ l /\ rt_method r = rq_method rq) rq w :
  (exists r cx w', reaches rq w r cx w' /\ entitled rq w r cx /\ ServeHTTP rq w = handle (rt_handler r) rq cx w') \/
  ((forall r cx w', ~ reaches rq w r cx w') /\ exists w' e, ServeHTTP rq w = (w', Err e)).
Proof.
  unfold reaches, ServeHTTP. destruct (chi _ rq) as [r|] eqn:Er.
  2:{ right. split; [by intros r cx w' [? _]|by exists w, (Status 404 None)]. }
  destruct (chi_routes _ _ _ Er) as [Hin Hm]. unfold bindM.
  destruct (through (rt_chain r) rq background w) as [w' [cx|e]] eqn:Et.
  - left. exists r, cx, w'. split; [done|]. split; [by eapply reached_entitled|done].
  - right. split; [|by exists w', e]. intros r' cx w'' [[= <-] H]. congruence.
Qed.
End server.

(** A tenant token, a suspended router aside: a concrete server. *)
Definition sample_server : Server :=
  {| sv_tenantAuth := AuthenticateTenantPrincipal scope_auth; sv_adminAuth := fun _ => None;
     sv_accountResolver := Some (table_owner scope_db); sv_accountKeyAuth := None; sv_accountKeySelector := false;
     sv_bankResolver := None; sv_consoleAuth := None; sv_secureCookies := true; sv_pixRecurrence := false;
     sv_selfServeCredIntake := false; sv_accountOutboundWebhook := false |}.
Definition sample_request (authorization : string) : Request :=
  {| rq_method := "GET"; rq_path := "/v1/statement"; rq_authorization := authorization; rq_clientTenant := "";
     rq_bankID := ""; rq_sessionCookie := None; rq_csrfCookie := None; rq_csrfHeader := ""; rq_csrfField := "";
     rq_hxRequest := ""; rq_accept := ""; rq_trustedIP := ""; rq_remoteAddr := "10.0.0.1:4000"; rq_now := second 0;
     rq_limitNow := second 0; rq_newCSRFToken := Ok "minted" |}.
Definition find_route (l : list Route) (rq : Request) : option Route :=
  List.find (fun r => bool_decide (rt_method r = rq_method rq) && bool_decide (rt_pattern r = rq_path rq)) l.
Definition sample_world : World (St := MemStore) :=
  {| w_limits := new_limiter;
     w_console := {| stores := NewMemStore; lockout := newLoginLockout 5 (15 * minute) |} |}.
Definition sample_serve (authorization : string) :=
  ServeHTTP sample_server find_route (fun handler _ cx => retM (handler, cx_tenantID cx)) (sample_request authorization)
    sample_world.
Lemma deny_by_default_witness :
  (sample_serve "Bearer tok").2 = Ok ("handleGetStatement", "t2") /\
  (sample_serve "Bearer other").2 = Err (Status 401 None) /\
  ((exists r cx w', reaches sample_server find_route (sample_request "Bearer tok") sample_world r cx w' /\
      entitled sample_server (sample_request "Bearer tok") sample_world r cx /\
      sample_serve "Bearer tok" = retM (rt_handler r, cx_tenantID cx) w') \/
   ((forall r cx w', ~ reaches sample_server find_route (sample_request "Bearer tok") sample_world r cx w') /\
    exists w' e, sample_serve "Bearer tok" = (w', Err e))).
Proof.
  split_and!; [vm_compute; reflexivity..|].
  apply (deny_by_default sample_server find_route (fun handler _ cx => retM (handler, cx_tenantID cx))).
  intros l rq r H. apply find_some in H as [Hin E]. apply andb_true_iff in E as [E _]. bools.
  split; [by apply list_elem_of_In|done].
Defined.

(** * Transaction ids and sub-resources

    chi's own listing of its routes; a node with a subtree is written with a trailing star. *)
Inductive chi_node := ChiNode (pattern : string) (methods : list string) (sub : option (list chi_node)).
Definition TrimSuffix (s suffix : string) : string :=
  let n := (String.length s - String.length suffix)%nat in
  if (String.length suffix <=? String.length s)%nat && bool_decide (String.substring n (String.length suffix) s = suffix)
  then String.substring 0 n s else s.
Definition CutPrefix (s prefix : string) : option string :=
  if HasPrefix s prefix then Some (String.substring (String.length prefix) (String.length s - String.length prefix) s)
  else None.
Fixpoint leaves (base : string) (rt : chi_node) : list (string * list string) :=
  match rt with
  | ChiNode pattern methods sub =>
      let caminho := base ++ TrimSuffix pattern "/*" in
      match sub with
      | Some rs => flat_map (leaves (TrimSuffix caminho "/")) rs
      | None => [(caminho, methods)]
      end
  end.
Definition literal (raiz prefixo caminho : string) : option string :=
  resto ← CutPrefix caminho (raiz ++ prefixo ++ "/");
  if Contains resto "/" || HasPrefix resto "{" then None else Some resto.
Definition literalChildren (rs : list chi_node) (raiz prefixo : string) : gmap string (list string) :=
  fold_left (fun out e => match literal raiz prefixo e.1 with
                          | Some resto => <[resto := SliceStable e.2 string_less]> out
                          | None => out
                          end) (flat_map (leaves "") rs) ∅.
(** A txid, or the methods of the sub-resource it is. *)
Definition txidFromPath (pixSubresources : gmap string (list string)) (txID : string) : result (list string) string :=
  match pixSubresources !! txID with Some metodos => Err metodos | None => Ok txID end.

Lemma literals_dom rs raiz prefixo k :
  is_Some (literalChildren rs raiz prefixo !! k) <->
  exists e, e ∈ flat_map (leaves "") rs /\ literal raiz prefixo e.1 = Some k.
Proof.
  unfold literalChildren. generalize (flat_map (leaves "") rs) as l. intros l.
  enough (forall m : gmap string (list string),
    is_Some (fold_left (fun out e => match literal raiz prefixo e.1 with
       Some resto => <[resto := SliceStable e.2 string_less]> out | None => out end) l m !! k) <->
    is_Some (m !! k) \/ exists e, e ∈ l /\ literal raiz prefixo e.1 = Some k) as Hm.
  { rewrite Hm, lookup_empty. split; [intros [[? ?]|?]; done|by right]. }
  induction l as [|e l IH]; intros m; cbn [fold_left].
  { split; [by left|]. intros [?|(e & ?%elem_of_nil & _)]; done. }
  rewrite IH. setoid_rewrite elem_of_cons. destruct (literal raiz prefixo e.1) as [r|] eqn:E.
  - destruct (decide (r = k)) as [->|]; [rewrite lookup_insert_eq|rewrite lookup_insert_ne by done]; naive_solver.
  - naive_solver.
Qed.

(** The words under /v1/pix that are resources of their own. *)
Definition subresources (f : flags) : list string :=
  ["cobv"; "loc"; "received"; "lotecobv"] ++ when (fl_pixRecurrence f) ["locrec"; "rec"; "solicrec"; "cobr"].
Definition paths (f : flags) : list string := map (fun r => TrimSuffix (rt_pattern r) "/*") (table f).
Lemma paths_literal f : (forall k, k ∈ omap (literal "/v1" "/pix") (paths f) <-> k ∈ subresources f).
Proof.
  intros k. destruct f as [[] [] [] [] []];
  match goal with |- k ∈ ?a <-> k ∈ ?b => let a' := eval vm_compute in a in let b' := eval vm_compute in b in change (k ∈ a' <-> k ∈ b') end;
  rewrite !elem_of_cons, elem_of_nil; naive_solver.
Qed.

(** A word of the API is never taken for a transaction id.  Whatever listing chi gives of the
    registered routes, the handlers of /v1/pix/{txid} take a path segment for a transaction id exactly
    when it is not one of the sub-resources registered beside them; with the recurrence switched off
    its words are not among them. *)
Theorem txid_is_no_subresource f rs txID
  (Hlisting : forall p, (exists methods, (p, methods) ∈ flat_map (leaves "") rs) <-> p ∈ paths f) :
  txidFromPath (literalChildren rs "/v1" "/pix") txID = Ok txID <-> txID ∉ subresources f.
Proof.
  rewrite <- paths_literal, list_elem_of_omap. unfold txidFromPath.
  pose proof (literals_dom rs "/v1" "/pix" txID) as Hd. destruct (literalChildren rs "/v1" "/pix" !! txID) as [m|].
  - split; [done|]. intros H. exfalso. apply H. destruct (proj1 Hd (ex_intro _ m eq_refl)) as ([p ms] & He & El).
    exists p. split; [|done]. apply Hlisting. by exists ms.
  - split; [|done]. intros _ (p & Hp & El). apply Hlisting in Hp as [ms Hms].
    destruct (proj2 Hd (ex_intro _ (p, ms) (conj Hms El))). done.
Qed.
Definition flat_listing (f : flags) : list chi_node :=
  map (fun r => ChiNode (rt_pattern r) [rt_method r] None) (table f).
Definition no_flags : flags :=
  {| fl_accountKeys := false; fl_bankResolver := false; fl_pixRecurrence := false; fl_selfServeCredIntake := false;
     fl_accountOutboundWebhook := false |}.
Lemma flat_leaves f p : (exists methods, (p, methods) ∈ flat_map (leaves "") (flat_listing f)) <-> p ∈ paths f.
Proof.
  unfold flat_listing, paths. induction (table f) as [|r l IH]; cbn [map flat_map leaves app].
  { rewrite elem_of_nil. split; [intros [? ?%elem_of_nil]|]; done. }
  setoid_rewrite elem_of_cons. rewrite <- IH. change ("" ++ ?s)%string with s. naive_solver.
Qed.
Lemma txid_is_no_subresource_witness :
  txidFromPath (literalChildren (flat_listing no_flags) "/v1" "/pix") "rec" = Ok "rec" /\
  txidFromPath (literalChildren (flat_listing no_flags) "/v1" "/pix") "loc" <> Ok "loc".
Proof.
  split.
  - apply (txid_is_no_subresource no_flags _ "rec" (flat_leaves no_flags)). unfold subresources. cbn.
    rewrite !elem_of_cons, elem_of_nil. naive_solver.
  - rewrite (txid_is_no_subresource no_flags _ "loc" (flat_leaves no_flags)). intros H. apply H. right. by left.
Defined.

(** The comment on [Router] counts one unauthenticated route, the health check; seven of the table
    have no authentication before their handler. *)
Theorem seven_public_routes f :
  List.filter (fun r => plain_chain (rt_chain r)) (table f) ≡ₚ
  List.filter (fun r => bool_decide ((rt_method r, rt_pattern r) ∈ public)) (table f) /\
  List.length (List.filter (fun r => plain_chain (rt_chain r)) (table f)) = 7%nat.
Proof. destruct f as [[] [] [] [] []]; vm_compute; split; reflexivity. Qed.

(** What lies across a tenant boundary is answered as what does not exist, and only what nobody
    foresaw is logged: an error is logged exactly when it is answered 500. *)
Theorem domain_errors_answered err :
  writeDomainError ErrTenantScope = writeDomainError ErrNotFound /\
  writeDomainError ErrMandateMismatch = writeDomainError ErrMandateNotFound /\
  let '(status, _, logged) := writeDomainError err in
  status ∈ [400; 404; 409; 500] /\ (logged = true <-> status = 500).
Proof.
  split_and!; [reflexivity..|]. unfold writeDomainError.
  repeat match goal with |- context [if ?b then _ else _] => destruct b end; (split; [set_solver|by split]).
Qed.
(** Outside the recurrence routes an operation whose port is not wired answers 500, as an
    unforeseen error. *)
Example unavailable_is_unmapped :
  writeDomainError ErrUnavailable = (500, "internal error", true) /\ (writeRecurrenceError ErrUnavailable).1.1 = 503.
Proof. by split. Qed.
