(* ===== verification/DurableTables.v ===== *)
(** More durable tables of internal/adapters/persistence/sqlite (the postgres files are the same
    text with other placeholders): the outbox of outbound_delivery.go, the callback references of
    webhook_ref.go, the account keys of account_key.go, the endpoints of outbound_webhook.go, the
    console's credential and replay guard of consolecred.go and the consents of termsconsent.go.
    Each is shown to answer as the in-memory store whose theorems the services rely on, whatever
    statements the engine fails. *)
From stdpp Require Import sorting.
From S2P Require Import Prelude GoStrings GoTime GoSort GoRFC3339 GoCrypto Shared Payments Settlement.
From S2P Require Import Consents ConsoleCred ConsoleLogin OutboundWebhook OutboundQueue Capabilities WebhookRefs AccountKeys.
From S2P Require Import RowSeal CredVault SqlStore SqlRefines SqlTimes.

(** * The outbox *)
Record OutRow := {
  our_account_id : string; our_tenant_id : string; our_event_key : string; our_tx_id : string;
  our_event_type : string; our_status : string; our_created_at : string; our_amount_cents : Z;
  our_installments : Z; our_message : string
}.
Record DeadRow := {
  dlr_tenant_id : string; dlr_event_key : string; dlr_tx_id : string; dlr_event_type : string;
  dlr_reason : string; dlr_created_at : string
}.
(** account_outbound_delivery and account_outbound_dead_letter, each by its primary key. *)
Record queue := { q_out : gmap string OutRow; q_dead : gmap string DeadRow }.
Definition empty_queue : queue := {| q_out := ∅; q_dead := ∅ |}.

(** INSERT … ON CONFLICT (target) DO NOTHING: the target's index is looked at first, the primary
    key on INSERT. *)
Definition insert_once `{Dialect} {Row} (same : Row -> bool) (id : string) (row : Row) (t : gmap string Row)
    : res (gmap string Row) :=
  if existsb (fun kr => same kr.2) (map_to_list t) then Ok t else insert_row id row true t.
(** ORDER BY created_at ASC, id ASC *)
Definition oldest_text {Row} (at_ : Row -> string) (x y : string * Row) : bool := newest_text at_ y x.

Section outbox.
Context `{Dialect} `{MapIteration}.
Notation sql A := (M queue error A).
(** A statement the engine fails ([db]) or that fails of itself changes nothing. *)
Definition on_queue {A} (what : string) (db : option error) (run : queue -> res (queue * A)) : sql A :=
  wrapM (Wrap what) (statement db (fun q =>
    match run q with Ok (q', a) => (q', Ok a) | Err e => (q, Err e) end)).

Definition out_row (d : Delivery) : OutRow :=
  {| our_account_id := del_accountID d; our_tenant_id := del_tenantID d; our_event_key := del_eventKey d;
     our_tx_id := del_txID d; our_event_type := del_eventType d; our_status := del_status d;
     our_created_at := text (in_UTC (del_createdAt d)); our_amount_cents := detail_AmountCents (del_detail d);
     our_installments := detail_Installments (del_detail d); our_message := detail_Message (del_detail d) |}.
Definition scan_out (kr : string * OutRow) : Delivery :=
  let '(id, r) := kr in
  RehydrateDelivery id (our_account_id r) (our_tenant_id r) (our_event_key r) (our_tx_id r)
    (our_event_type r) (our_status r) (parseTime (our_created_at r))
    {| detail_AmountCents := our_amount_cents r; detail_Installments := our_installments r;
       detail_Message := our_message r |}.
Definition dead_row (d : DeadLetter) : DeadRow :=
  {| dlr_tenant_id := dl_tenantID d; dlr_event_key := dl_eventKey d; dlr_tx_id := dl_txID d;
     dlr_event_type := dl_eventType d; dlr_reason := dl_reason d; dlr_created_at := text (in_UTC (dl_createdAt d)) |}.
Definition scan_dead (kr : string * DeadRow) : DeadLetter :=
  let '(id, r) := kr in
  {| dl_id := id; dl_tenantID := dlr_tenant_id r; dl_eventKey := dlr_event_key r; dl_txID := dlr_tx_id r;
     dl_eventType := dlr_event_type r; dl_reason := dlr_reason r; dl_createdAt := parseTime (dlr_created_at r) |}.

Definition sql_EnqueueDelivery (db : option error) (d : Delivery) : sql unit :=
  on_queue "enqueue outbound delivery" db (fun q =>
    let row := out_row d in
    let? out := insert_once (fun r => bool_decide (our_account_id r = our_account_id row) &&
                                      bool_decide (our_event_key r = our_event_key row))
                  (del_id d) row (q_out q) in
    Ok ({| q_out := out; q_dead := q_dead q |}, tt)).
Definition sql_DeadLetter (db : option error) (d : DeadLetter) : sql unit :=
  on_queue "dead-letter outbound event" db (fun q =>
    let row := dead_row d in
    let? dead := insert_once (fun r => bool_decide (dlr_tenant_id r = dlr_tenant_id row) &&
                                       bool_decide (dlr_event_key r = dlr_event_key row))
                   (dl_id d) row (q_dead q) in
    Ok ({| q_out := q_out q; q_dead := dead |}, tt)).
Definition sql_DeleteDelivery (db : option error) (id : string) : sql unit :=
  on_queue "delete outbound delivery" db (fun q =>
    Ok ({| q_out := delete id (q_out q); q_dead := q_dead q |}, tt)).
Definition sql_PendingDeliveries (db : option error) (accountID : string) : sql (list Delivery) :=
  on_queue "query pending deliveries" db (fun q =>
    Ok (q, map scan_out (SliceStable
      (where_ (fun _ r => bool_decide (our_account_id r = accountID) && bool_decide (our_status r = DeliveryPending))
         (q_out q)) (oldest_text our_created_at)))).
Definition sql_ClaimPendingDeliveries (db : option error) (limit : Z) : sql (list Delivery) :=
  if limit <=? 0 then retM []
  else
    on_queue "claim pending deliveries" db (fun q =>
      Ok (q, map scan_out (take (Z.to_nat limit) (SliceStable
        (where_ (fun _ r => bool_decide (our_status r = DeliveryPending)) (q_out q)) (oldest_text our_created_at))))).
Definition sql_DeadLetters (db : option error) : sql (list DeadLetter) :=
  on_queue "query dead-letters" db (fun q =>
    Ok (q, map scan_dead (SliceStable (where_ (fun _ _ => true) (q_dead q)) (oldest_text dlr_created_at)))).
End outbox.

(** ** Histories of calls *)
Inductive queue_op := Enqueue (d : Delivery) | Park (l : DeadLetter) | Settle (id : string).
Record queue_call := { qc_fault : option error; qc_op : queue_op }.
Definition durably `{Dialect} (c : queue_call) : M queue error unit :=
  match qc_op c with
  | Enqueue d => sql_EnqueueDelivery (qc_fault c) d
  | Park l => sql_DeadLetter (qc_fault c) l
  | Settle id => sql_DeleteDelivery (qc_fault c) id
  end.
Definition call_name (o : queue_op) : string :=
  match o with
  | Enqueue _ => "enqueue outbound delivery"
  | Park _ => "dead-letter outbound event"
  | Settle _ => "delete outbound delivery"
  end.
(** In memory a call the engine failed did not happen. *)
Definition in_memory (s : OutboundDeliveryStore) (c : queue_call) : OutboundDeliveryStore :=
  match qc_fault c, qc_op c with
  | Some _, _ => s
  | None, Enqueue d => EnqueueDelivery d s
  | None, Park l => store_DeadLetter l s
  | None, Settle id => DeleteDelivery id s
  end.
Fixpoint run_durably `{Dialect} (h : list queue_call) (q : queue) : queue * list (res unit) :=
  match h with
  | [] => (q, [])
  | c :: h => let '(q, r) := durably c q in let '(q, rs) := run_durably h q in (q, r :: rs)
  end.
Definition enqueued_ids (h : list queue_call) : list string :=
  omap (fun c => match qc_op c with Enqueue d => Some (del_id d) | _ => None end) h.
Definition parked_ids (h : list queue_call) : list string :=
  omap (fun c => match qc_op c with Park l => Some (dl_id l) | _ => None end) h.
(** Owners without a bar, instants the layout can write, in UTC as the clock gives them. *)
Definition plain_call (c : queue_call) : Prop :=
  match qc_op c with
  | Enqueue d => no_bar (del_accountID d) = true /\ utc_writable (del_createdAt d)
  | Park l => no_bar (dl_tenantID l) = true /\ utc_writable (dl_createdAt l)
  | Settle _ => True
  end.
Definition oldest {A} (at_ : A -> Time) (id : A -> string) (x y : A) : bool := newest at_ id y x.
(** The order of the written instants, then of the identifiers: that of the instants where the
    dialect's texts are ordered as they are. *)
Definition written_before `{Dialect} {A} (at_ : A -> Time) (id : A -> string) (x y : A) : bool :=
  oldest_text (fun written => written) (id x, text (at_ x)) (id y, text (at_ y)).

(** ** The tables hold what the memory does *)
Section mirror.
Context `{MapIteration} {D : Dialect} {L : DialectLaws D}.

Definition plain_delivery (d : Delivery) : Prop := no_bar (del_accountID d) = true /\ utc_writable (del_createdAt d).
Definition plain_letter (l : DeadLetter) : Prop := no_bar (dl_tenantID l) = true /\ utc_writable (dl_createdAt l).
Record mirrors (q : queue) (s : OutboundDeliveryStore) (outs deads : list string) : Prop := {
  mr_out : logged del_id out_row (q_out q) (ob_deliveries s);
  mr_dead : logged dl_id dead_row (q_dead q) (ob_deadLetters s);
  mr_ok : Outbox_ok s;
  mr_seen_dead : forall k, k ∈ ob_seenDead s <-> k ∈ map dead_key (ob_deadLetters s);
  mr_plain : Forall plain_delivery (ob_deliveries s);
  mr_plain_dead : Forall plain_letter (ob_deadLetters s);
  mr_outs : forall d, d ∈ ob_deliveries s -> del_id d ∈ outs;
  mr_deads : forall l, l ∈ ob_deadLetters s -> dl_id l ∈ deads
}.

(** A row of the target is there exactly when its key was seen. *)
Lemma taken_logged {E Row} (id : E -> string) (row : E -> Row) t l (same : Row -> bool) :
  logged id row t l ->
  existsb (fun kr => same kr.2) (map_to_list t) = true <-> exists e, e ∈ l /\ same (row e) = true.
Proof.
  intros (H1 & H2 & _). rewrite existsb_exists. split.
  - intros ([i r] & Hir%list_elem_of_In & Hs). apply elem_of_map_to_list in Hir.
    destruct (H2 _ _ Hir) as (e & He & _ & ->). by exists e.
  - intros (e & He & Hs). exists (id e, row e). split; [|done].
    by apply list_elem_of_In, elem_of_map_to_list, H1.
Qed.
Lemma insert_once_logged {E Row} (id : E -> string) (row : E -> Row) t l e (same : Row -> bool) :
  logged id row t l -> (forall x, x ∈ l -> id x <> id e) ->
  exists t', insert_once same (id e) (row e) t = Ok t' /\
    ((exists x, x ∈ l /\ same (row x) = true) /\ t' = t \/
     ~ (exists x, x ∈ l /\ same (row x) = true) /\ logged id row t' (l ++ [e])%list).
Proof.
  intros Hl Hf. unfold insert_once. destruct (existsb _ _) eqn:Ee.
  - exists t. split; [done|]. left. split; [|done]. by eapply taken_logged.
  - destruct (logged_snoc id row t l e Hl Hf) as [Hn Hs]. exists (<[id e := row e]> t).
    unfold insert_row. rewrite Hn. split; [done|]. right. split; [|done].
    intros Hx. apply (taken_logged id row t l same Hl) in Hx. congruence.
Qed.
Lemma same_key_seen s d : Outbox_ok s -> Forall plain_delivery (ob_deliveries s) -> plain_delivery d ->
  deliver_key d ∈ ob_seenDeliver s <->
  exists x, x ∈ ob_deliveries s /\
    bool_decide (our_account_id (out_row x) = our_account_id (out_row d)) &&
    bool_decide (our_event_key (out_row x) = our_event_key (out_row d)) = true.
Proof.
  intros Ho Hp [Hd _]. rewrite (outbox_seen s Ho), list_elem_of_fmap. split.
  - intros (x & E & Hx). exists x. split; [done|]. pose proof (proj1 (Forall_forall _ _) Hp x Hx) as [Hb _].
    apply pipe_key_inj in E as [E1 E2]; [|done..]. cbn. by rewrite E1, E2, !bool_decide_true.
  - intros (x & Hx & [E1 E2]%andb_true_iff). apply bool_decide_eq_true in E1, E2. cbn in E1, E2.
    exists x. split; [|done]. unfold deliver_key. by rewrite E1, E2.
Qed.
Lemma same_key_dead s l : (forall k, k ∈ ob_seenDead s <-> k ∈ map dead_key (ob_deadLetters s)) ->
  Forall plain_letter (ob_deadLetters s) -> plain_letter l ->
  dead_key l ∈ ob_seenDead s <->
  exists x, x ∈ ob_deadLetters s /\
    bool_decide (dlr_tenant_id (dead_row x) = dlr_tenant_id (dead_row l)) &&
    bool_decide (dlr_event_key (dead_row x) = dlr_event_key (dead_row l)) = true.
Proof.
  intros Ho Hp [Hd _]. rewrite Ho, list_elem_of_fmap. split.
  - intros (x & E & Hx). exists x. split; [done|]. pose proof (proj1 (Forall_forall _ _) Hp x Hx) as [Hb _].
    apply pipe_key_inj in E as [E1 E2]; [|done..]. cbn. by rewrite E1, E2, !bool_decide_true.
  - intros (x & Hx & [E1 E2]%andb_true_iff). apply bool_decide_eq_true in E1, E2. cbn in E1, E2.
    exists x. split; [|done]. unfold dead_key. by rewrite E1, E2.
Qed.

Lemma enqueue_mirrors q s outs deads d :
  mirrors q s outs deads -> plain_delivery d -> del_id d ∉ outs ->
  exists q', sql_EnqueueDelivery None d q = (q', Ok tt) /\ mirrors q' (EnqueueDelivery d s) (del_id d :: outs) deads.
Proof.
  intros [Ho Hdd Hok Hsd Hp Hpd Hi Hj] Hd Hf.
  assert (Hfresh : forall x, x ∈ ob_deliveries s -> del_id x <> del_id d).
  { intros x Hx E. apply Hf. rewrite <- E. by apply Hi. }
  destruct (insert_once_logged del_id out_row _ _ d
    (fun r => bool_decide (our_account_id r = our_account_id (out_row d)) &&
              bool_decide (our_event_key r = our_event_key (out_row d))) Ho Hfresh) as (t' & Et & Hc).
  exists {| q_out := t'; q_dead := q_dead q |}. split.
  { unfold sql_EnqueueDelivery, on_queue, wrapM, statement. cbv zeta. by rewrite Et. }
  pose proof (same_key_seen s d Hok Hp Hd) as Hseen.
  destruct Hc as [[Hx ->]|[Hx Hl]].
  - unfold EnqueueDelivery. rewrite bool_decide_true by by apply Hseen. split; try done.
    intros x Hin. right. by apply Hi.
  - pose proof (Enqueue_ok d s Hok) as Hok'. revert Hok'. unfold EnqueueDelivery.
    rewrite bool_decide_false by by rewrite Hseen. intros Hok'. split; try done; cbn [ob_deliveries].
    + apply Hok'. intros (x & E & Hin)%list_elem_of_fmap. by apply (Hfresh x Hin).
    + apply Forall_app. split; [done|by apply Forall_singleton].
    + intros x [Hin|E%list_elem_of_singleton]%elem_of_app; [right; by apply Hi|subst x; by left].
Qed.
Lemma park_mirrors q s outs deads l :
  mirrors q s outs deads -> plain_letter l -> dl_id l ∉ deads ->
  exists q', sql_DeadLetter None l q = (q', Ok tt) /\ mirrors q' (store_DeadLetter l s) outs (dl_id l :: deads).
Proof.
  intros [Ho Hdd Hok Hsd Hp Hpd Hi Hj] Hd Hf.
  assert (Hfresh : forall x, x ∈ ob_deadLetters s -> dl_id x <> dl_id l).
  { intros x Hx E. apply Hf. rewrite <- E. by apply Hj. }
  destruct (insert_once_logged dl_id dead_row _ _ l
    (fun r => bool_decide (dlr_tenant_id r = dlr_tenant_id (dead_row l)) &&
              bool_decide (dlr_event_key r = dlr_event_key (dead_row l))) Hdd Hfresh) as (t' & Et & Hc).
  exists {| q_out := q_out q; q_dead := t' |}. split.
  { unfold sql_DeadLetter, on_queue, wrapM, statement. cbv zeta. by rewrite Et. }
  pose proof (same_key_dead s l Hsd Hpd Hd) as Hseen. pose proof (DeadLetter_ok l s Hok) as Hok'. revert Hok'.
  destruct Hc as [[Hx ->]|[Hx Hl]]; unfold store_DeadLetter.
  - rewrite bool_decide_true by by apply Hseen. intros _. split; try done.
    intros x Hin. right. by apply Hj.
  - rewrite bool_decide_false by by rewrite Hseen. intros Hok'. split; try done; cbn [ob_deadLetters ob_seenDead].
    + intros k. rewrite map_app, elem_of_app, elem_of_union, elem_of_singleton, Hsd. cbn [map].
      rewrite list_elem_of_singleton. tauto.
    + apply Forall_app. split; [done|by apply Forall_singleton].
    + intros x [Hin|E%list_elem_of_singleton]%elem_of_app; [right; by apply Hj|subst x; by left].
Qed.
Lemma settle_mirrors q s outs deads id :
  mirrors q s outs deads ->
  exists q', sql_DeleteDelivery None id q = (q', Ok tt) /\ mirrors q' (DeleteDelivery id s) outs deads.
Proof.
  intros [Ho Hdd Hok Hsd Hp Hpd Hi Hj]. eexists. split; [reflexivity|].
  pose proof (Delete_spec id s) as Hspec. pose proof (Delete_ok id s Hok) as Hok'.
  assert (Hrest : ob_deadLetters (DeleteDelivery id s) = ob_deadLetters s /\
                  ob_seenDead (DeleteDelivery id s) = ob_seenDead s).
  { unfold DeleteDelivery. by destruct (delete_first _ _) as [[]|]. }
  destruct Hrest as [E1 E2]. split; rewrite ?E1, ?E2; try done; cbn [q_out q_dead].
  - destruct Ho as (H1 & H2 & H3). split; [|split; [|apply Hok']].
    + intros d [Hd Hn]%Hspec; [|done]. rewrite lookup_delete_ne by done. by apply H1.
    + intros i r [Hn Hr]%lookup_delete_Some. apply H2 in Hr as (d & Hd & <- & ->).
      exists d. split; [|done]. by apply Hspec.
  - apply Forall_forall. intros d [Hd _]%Hspec; [|done]. by apply (proj1 (Forall_forall _ _) Hp).
  - intros d [Hd _]%Hspec; [|done]. by apply Hi.
Qed.

#[local] Instance oldest_text_order {Row} (at_ : Row -> string) : WeakOrder (oldest_text at_).
Proof.
  split; [intros x y; apply newest_text_asym|]. intros x y z Hxy Hyz.
  exact (not_after_trans (less := newest_text at_) z y x Hyz Hxy).
Qed.
Lemma oldest_rows {E Row} (id : E -> string) (row : E -> Row) (at_ : Row -> string) (time : E -> Time)
    (test : string -> Row -> bool) (keep : E -> bool) t l :
  logged id row t l ->
  (forall e, e ∈ l -> at_ (row e) = text (time e) /\ test (id e) (row e) = keep e) ->
  SliceStable (where_ test t) (oldest_text at_)
    = map (fun e => (id e, row e)) (SliceStable (List.filter keep l) (written_before time id)).
Proof.
  intros Hlog Hl. apply sorted_rows; [apply _|done|by intros e He; apply (Hl e He)| |].
  - intros x y Hx Hy. destruct (Hl x Hx) as [Ex _], (Hl y Hy) as [Ey _].
    unfold written_before, oldest_text, newest_text. cbn [fst snd]. by rewrite Ex, Ey.
  - intros x y H1 H2. by destruct (newest_text_tie at_ _ _ H1 H2).
Qed.
Lemma written_in_time {O : OrderedTexts D} {E} (id : E -> string) (time : E -> Time) l :
  Forall (fun e => utc_writable (time e)) l ->
  SliceStable l (written_before time id) = SliceStable l (oldest time id).
Proof.
  rewrite Forall_forall. intros Hl. rewrite <- (map_id l) at 1.
  rewrite (SliceStable_map (fun e => e) (oldest time id)); [apply map_id|].
  intros x y Hx Hy. apply (newest_as_text id (fun e => text (time e)) (fun written => written) time); auto.
Qed.
Lemma scan_out_row d : plain_delivery d -> scan_out (del_id d, out_row d) = d.
Proof.
  intros [_ Hd]. unfold scan_out, out_row, RehydrateDelivery. cbn. rewrite in_UTC_utc, parse_utc by done.
  by destruct d as [? ? ? ? ? ? ? ? []].
Qed.
Lemma scan_dead_row l : plain_letter l -> scan_dead (dl_id l, dead_row l) = l.
Proof. intros [_ Hd]. unfold scan_dead, dead_row. cbn. rewrite in_UTC_utc, parse_utc by done. by destruct l. Qed.
Lemma scan_all {E Row} (id : E -> string) (row : E -> Row) scan (P : E -> Prop) l :
  (forall e, P e -> scan (id e, row e) = e) -> Forall P l -> map scan (map (fun e => (id e, row e)) l) = l.
Proof. intros Hs Hl. induction Hl as [|e l He Hl IH]; [done|]. cbn [map]. by rewrite Hs, IH. Qed.
Lemma sorted_plain {E} (P : E -> Prop) less keep l : Forall P l -> Forall P (SliceStable (List.filter keep l) less).
Proof.
  rewrite !Forall_forall. intros Hl e. rewrite SliceStable_perm. intros He%filter_member. by apply Hl.
Qed.
End mirror.

Definition call_outcome (c : queue_call) : res unit :=
  match qc_fault c with Some e => Err (Wrap (call_name (qc_op c)) e) | None => Ok tt end.
(** What the forwarder and the operator are meant to read: oldest first, then by identifier. *)
Definition oldest_first (ds : list Delivery) : list Delivery := SliceStable ds (oldest del_createdAt del_id).

Section history.
Context `{MapIteration} {D : Dialect} {L : DialectLaws D}.

Lemma faulted c q e : qc_fault c = Some e -> durably c q = (q, call_outcome c).
Proof. intros Ef. unfold durably, call_outcome. rewrite Ef. by destruct (qc_op c). Qed.
Lemma fresh_ids {A} (f : A -> option string) c h ids :
  NoDup (omap f (c :: h)) -> (forall i, i ∈ omap f (c :: h) -> i ∉ ids) ->
  NoDup (omap f h) /\ (forall i, i ∈ omap f h -> i ∉ ids) /\
  forall i, f c = Some i -> i ∉ ids /\ forall j, j ∈ omap f h -> j ∉ i :: ids.
Proof.
  cbn. destruct (f c) as [i|]; intros Hn Hi; [|split_and!; [done|done|by intros]].
  apply NoDup_cons in Hn as [Hni Hn]. split; [done|]. split; [intros j Hj; apply Hi; by right|].
  intros k [= <-]. split; [apply Hi; by left|]. intros j Hj. apply not_elem_of_cons. split; [|apply Hi; by right].
  intros ->. done.
Qed.
Lemma run_mirrors h : forall q s outs deads, mirrors q s outs deads -> Forall plain_call h ->
  NoDup (enqueued_ids h) -> (forall i, i ∈ enqueued_ids h -> i ∉ outs) ->
  NoDup (parked_ids h) -> (forall i, i ∈ parked_ids h -> i ∉ deads) ->
  exists q' outs' deads', run_durably h q = (q', map call_outcome h) /\
    mirrors q' (foldl in_memory s h) outs' deads'.
Proof.
  induction h as [|c h IH]; intros q s outs deads Hm Hp Hn Hi Hnd Hd; [by exists q, outs, deads|].
  apply Forall_cons in Hp as [Hc Hp].
  destruct (fresh_ids _ _ _ outs Hn Hi) as (Hn' & Hi' & Hci), (fresh_ids _ _ _ deads Hnd Hd) as (Hnd' & Hd' & Hcd).
  assert (Hstep : exists q' outs' deads', durably c q = (q', call_outcome c) /\
    mirrors q' (in_memory s c) outs' deads' /\
    (forall i, i ∈ enqueued_ids h -> i ∉ outs') /\ (forall i, i ∈ parked_ids h -> i ∉ deads')).
  { destruct (qc_fault c) as [e|] eqn:Ef.
    { exists q, outs, deads. unfold in_memory. rewrite Ef. split; [by eapply faulted|done]. }
    unfold durably, in_memory, call_outcome, plain_call in *. rewrite Ef. destruct (qc_op c) as [d|l|id].
    - destruct (Hci _ eq_refl) as [Hf Hrest].
      destruct (enqueue_mirrors q s outs deads d Hm Hc Hf) as (q' & Eq & Hm').
      exists q', (del_id d :: outs), deads. done.
    - destruct (Hcd _ eq_refl) as [Hf Hrest].
      destruct (park_mirrors q s outs deads l Hm Hc Hf) as (q' & Eq & Hm').
      exists q', outs, (dl_id l :: deads). done.
    - destruct (settle_mirrors q s outs deads id Hm) as (q' & Eq & Hm'). by exists q', outs, deads. }
  destruct Hstep as (q1 & o1 & d1 & Eq & Hm1 & H1 & H2).
  destruct (IH q1 (in_memory s c) o1 d1 Hm1 Hp Hn' H1 Hnd' H2) as (q2 & o2 & d2 & Er & Hm2).
  exists q2, o2, d2. split; [|done]. cbn [run_durably map]. by rewrite Eq, Er.
Qed.
Lemma empty_mirrors : mirrors empty_queue NewOutboundDeliveryStore [] [].
Proof.
  split; try apply logged_empty; try done; try (intros x Hx; by apply elem_of_nil in Hx).
  - split; [constructor| |constructor]. intros k. cbn. set_solver.
  - intros k. cbn. set_solver.
Qed.

(** C14. The durable outbox is the in-memory one, sorted.  In both dialects, over any history of
    enqueued, parked and settled events, any of whose statements the engine may fail, with row
    identifiers of their own, no bar in an owner's and instants in UTC that the layout can write:
    no call is refused but by the engine, a failed call changes nothing, and what an account's
    deliveries, the forwarder's batches and the dead letters read as are the rows of the
    in-memory outbox of the calls that did not fail, put in the order of the texts of their
    instants, then of their identifiers.  In a dialect whose texts are ordered as the instants
    are, which is PostgreSQL's, that order is oldest first; with the SQLite layout it need not be
    ([sqlite_claims_newer_first]). *)
Theorem durable_outbox h
    (Hplain : Forall plain_call h) (Hids : NoDup (enqueued_ids h)) (Hdead : NoDup (parked_ids h)) :
  let s := foldl in_memory NewOutboundDeliveryStore h in
  let sorted ds := SliceStable ds (written_before del_createdAt del_id) in
  exists q, run_durably h empty_queue = (q, map call_outcome h) /\
    (forall a, sql_PendingDeliveries None a q = (q, Ok (sorted (PendingDeliveries a s)))) /\
    (forall n, sql_ClaimPendingDeliveries None n q =
       (q, Ok (take (Z.to_nat n) (sorted (List.filter is_pending (ob_deliveries s)))))) /\
    sql_DeadLetters None q = (q, Ok (SliceStable (ob_deadLetters s) (written_before dl_createdAt dl_id))) /\
    (OrderedTexts D ->
     (forall keep, sorted (List.filter keep (ob_deliveries s)) = oldest_first (List.filter keep (ob_deliveries s))) /\
     SliceStable (ob_deadLetters s) (written_before dl_createdAt dl_id)
       = SliceStable (ob_deadLetters s) (oldest dl_createdAt dl_id)).
Proof.
  cbv zeta.
  destruct (run_mirrors h empty_queue NewOutboundDeliveryStore [] [] empty_mirrors Hplain Hids
    ltac:(intros; apply not_elem_of_nil) Hdead ltac:(intros; apply not_elem_of_nil)) as (q & o & d & Er & Hm).
  exists q. split; [done|]. set (s := foldl in_memory NewOutboundDeliveryStore h) in *.
  destruct Hm as [Ho Hdd _ _ Hp Hpd _ _].
  assert (Hout : forall test keep, (forall x, x ∈ ob_deliveries s -> test (del_id x) (out_row x) = keep x) ->
    SliceStable (where_ test (q_out q)) (oldest_text our_created_at)
    = map (fun e => (del_id e, out_row e))
        (SliceStable (List.filter keep (ob_deliveries s)) (written_before del_createdAt del_id))).
  { intros test keep Ht. apply (oldest_rows del_id out_row our_created_at del_createdAt); [done|].
    intros x Hx. destruct (proj1 (Forall_forall _ _) Hp x Hx) as [_ Hu].
    split; [cbn; by rewrite in_UTC_utc|by apply Ht]. }
  split_and!.
  - intros a. unfold sql_PendingDeliveries, on_queue, wrapM, statement. cbn [map_err].
    rewrite (Hout _ (fun d => bool_decide (del_accountID d = a) && is_pending d)) by done.
    rewrite (scan_all _ _ _ plain_delivery); [done|apply scan_out_row|by apply sorted_plain].
  - intros n. unfold sql_ClaimPendingDeliveries. destruct (Z.leb_spec n 0) as [Hn|Hn].
    { rewrite Z2Nat.nonpos by done. done. }
    unfold on_queue, wrapM, statement. cbn [map_err]. rewrite (Hout _ is_pending) by done.
    rewrite firstn_map, (scan_all _ _ _ plain_delivery); [done|apply scan_out_row|].
    apply Forall_take. by apply sorted_plain.
  - unfold sql_DeadLetters, on_queue, wrapM, statement. cbn [map_err].
    rewrite (oldest_rows dl_id dead_row dlr_created_at dl_createdAt _ (fun _ => true) _ _ Hdd).
    + rewrite (scan_all _ _ _ plain_letter); [by rewrite filter_id|apply scan_dead_row|by apply sorted_plain].
    + intros x Hx. destruct (proj1 (Forall_forall _ _) Hpd x Hx) as [_ Hu]. split; [cbn; by rewrite in_UTC_utc|done].
  - intros O. split.
    + intros keep. apply written_in_time, Forall_forall. intros x Hx%filter_member.
      apply (proj1 (Forall_forall _ _) Hp x Hx).
    + apply written_in_time, Forall_forall. intros x Hx. apply (proj1 (Forall_forall _ _) Hpd x Hx).
Qed.
End history.

(** * Transactions

    BEGIN, the statements, COMMIT: anything that fails leaves the table as it was. *)
Record tx_faults := { tf_begin : option error; tf_first : option error; tf_second : option error; tf_commit : option error }.
Definition no_tx_fault : tx_faults := {| tf_begin := None; tf_first := None; tf_second := None; tf_commit := None |}.
Definition transaction {S A} (begin commit : string) (f : tx_faults) (body : M S error A) : M S error A := fun s =>
  match tf_begin f with
  | Some e => (s, Err (Wrap begin e))
  | None =>
      match body s with
      | (_, Err e) => (s, Err e)
      | (s', Ok a) =>
          match tf_commit f with
          | Some e => (s, Err (Wrap commit e))
          | None => (s', Ok a)
          end
      end
  end.

(** * Callback references: webhook_tenant_refs, by ref_sha256 *)
Record RefRow := { wtr_tenant_id : string; wtr_created_at : string; wtr_revoked_at : option string }.
Notation ref_table := (gmap string RefRow).
Definition revoked (now : string) (r : RefRow) : RefRow :=
  {| wtr_tenant_id := wtr_tenant_id r; wtr_created_at := wtr_created_at r; wtr_revoked_at := Some now |}.
Definition is_active (r : RefRow) : bool := bool_decide (wtr_revoked_at r = None).

Section refs.
(** The tenants there are: the foreign key of the table. *)
Context (tenant_known : string -> bool).
(** UPDATE … SET revoked_at WHERE tenant_id, revoked_at IS NULL and a test: the rows affected. *)
Definition revoke_where (test : string -> bool) (now tenantID : string) (t : ref_table) : ref_table * Z :=
  let hit k r := bool_decide (wtr_tenant_id r = tenantID) && is_active r && test k in
  (map_imap (fun k r => Some (if hit k r then revoked now r else r)) t,
   Z.of_nat (size (filter (fun kr => hit kr.1 kr.2) t))).
(** INSERT … ON CONFLICT (ref_sha256) DO UPDATE SET revoked_at = NULL, tenant_id *)
Definition upsert_ref (hexSHA tenantID now : string) : M ref_table error unit := fun t =>
  if tenant_known tenantID
  then (<[hexSHA := {| wtr_tenant_id := tenantID;
                       wtr_created_at := match t !! hexSHA with Some r => wtr_created_at r | None => now end;
                       wtr_revoked_at := None |}]> t, Ok tt)
  else (t, Err foreign_key_violation).

Definition sql_PutWebhookRef (f : tx_faults) (now : string) (refSHA : bytes) (tenantID : string)
    : M ref_table error unit :=
  abort (bool_decide (refSHA = [])) with (NewValidationError "ref_sha256" "ref hash is required") ;;
  abort (bool_decide (tenantID = "")) with (NewValidationError "tenant_id" "tenant id is required") ;;
  let hexSHA := hex refSHA in
  transaction "begin webhook ref tx" "commit webhook ref tx" f
    (do _ <- wrapM (Wrap "supersede active webhook refs")
               (statement (tf_first f) (fun t => ((revoke_where (fun k => negb (bool_decide (k = hexSHA))) now tenantID t).1, Ok tt))) ;;
     wrapM (Wrap "insert webhook ref") (statement (tf_second f) (upsert_ref hexSHA tenantID now))).
Definition sql_RevokeWebhookRefs (db : option error) (now tenantID : string) : M ref_table error Z :=
  abort (bool_decide (tenantID = "")) with (NewValidationError "tenant_id" "tenant id is required") ;;
  wrapM (Wrap "revoke webhook refs")
    (statement db (fun t => let '(t, n) := revoke_where (fun _ => true) now tenantID t in (t, Ok n))).
Definition sql_LookupWebhookRef (db : option error) (t : ref_table) (refSHA : bytes) : res (option string) :=
  if bool_decide (refSHA = []) then Ok None
  else
    match db with
    | Some e => Err (Wrap "lookup webhook ref" e)
    | None =>
        Ok (match t !! hex refSHA with
            | Some r => if is_active r then Some (wtr_tenant_id r) else None
            | None => None
            end)
    end.

(** ** The active rows are the in-memory store *)
Definition active (t : ref_table) : WebhookRefStore :=
  omap (fun r => if is_active r then Some (wtr_tenant_id r) else None) t.
Lemma active_lookup t k : active t !! k = r ← t !! k; if is_active r then Some (wtr_tenant_id r) else None.
Proof. apply lookup_omap. Qed.
Lemma revoke_where_lookup test now tenantID t k :
  active (revoke_where test now tenantID t).1 !! k =
  u ← active t !! k; if bool_decide (u = tenantID) && test k then None else Some u.
Proof.
  rewrite !active_lookup. unfold revoke_where. cbn [fst]. rewrite map_lookup_imap.
  destruct (t !! k) as [r|]; [|done]. cbn [mbind option_bind].
  destruct (is_active r) eqn:Ea; [|by rewrite andb_false_r; cbn; rewrite Ea].
  rewrite andb_true_r. destruct (decide (wtr_tenant_id r = tenantID)) as [E|E]; cbn.
  - rewrite !bool_decide_true by done. destruct (test k); cbn; [done|by rewrite Ea].
  - rewrite !bool_decide_false by done. cbn. by rewrite Ea.
Qed.
Lemma revoked_count now tenantID t :
  (revoke_where (fun _ => true) now tenantID t).2 = Z.of_nat (size (filter (fun p => p.2 = tenantID) (active t))).
Proof.
  unfold revoke_where. cbn [snd]. f_equal.
  rewrite <- (map_size_fmap wtr_tenant_id). f_equal. apply map_eq. intros k.
  rewrite lookup_fmap, !map_lookup_filter, active_lookup. destruct (t !! k) as [r|]; [|done]. cbn.
  destruct (is_active r); cbn; rewrite ?andb_false_r; [|done]. rewrite !andb_true_r.
  destruct (decide (wtr_tenant_id r = tenantID)) as [E|E].
  - rewrite (bool_decide_true (wtr_tenant_id r = tenantID)) by done. cbn. by rewrite !option_guard_True by done.
  - rewrite (bool_decide_false (wtr_tenant_id r = tenantID)) by done. cbn. by rewrite !option_guard_False by (done || by intros []).
Qed.

(** Every call: what the table answers and leaves is what the in-memory store does, or the call
    failed of the engine or of the foreign key and left the table as it was. *)
Lemma put_refines f now sha tenantID t :
  match sql_PutWebhookRef f now sha tenantID t with
  | (t', Ok _) => PutWebhookRef sha tenantID (active t) = (active t', Ok tt)
  | (t', Err e) => t' = t
  end.
Proof.
  unfold sql_PutWebhookRef, PutWebhookRef. destruct (bool_decide (sha = [])); [done|].
  destruct (bool_decide (tenantID = "")); [done|]. unfold transaction.
  destruct (tf_begin f); [done|]. unfold bindM, wrapM, statement.
  destruct (tf_first f); [done|]. cbn [map_err]. destruct (tf_second f); [done|].
  unfold upsert_ref. destruct (tenant_known tenantID); [|done]. cbn [map_err]. destruct (tf_commit f); [done|].
  f_equal. apply map_eq. intros k. rewrite active_lookup.
  destruct (decide (k = hex sha)) as [->|Hk]; [by rewrite !lookup_insert_eq|].
  rewrite !lookup_insert_ne by done. rewrite <- active_lookup, revoke_where_lookup, map_lookup_filter.
  rewrite (bool_decide_false (k = hex sha)) by done. destruct (active t !! k) as [u|]; [|done]. cbn.
  destruct (decide (u = tenantID)) as [->|Hu].
  - rewrite bool_decide_true by done. cbn. by rewrite option_guard_False by naive_solver.
  - rewrite bool_decide_false by done. cbn. by rewrite option_guard_True by naive_solver.
Qed.
Lemma revoke_refines db now tenantID t :
  match sql_RevokeWebhookRefs db now tenantID t with
  | (t', Ok n) => RevokeWebhookRefs tenantID (active t) = (active t', Ok n)
  | (t', Err e) => t' = t
  end.
Proof.
  unfold sql_RevokeWebhookRefs, RevokeWebhookRefs. destruct (bool_decide (tenantID = "")); [done|].
  unfold wrapM, statement. destruct db; [done|]. pose proof (revoked_count now tenantID t) as En.
  pose proof (revoke_where_lookup (fun _ => true) now tenantID t) as El.
  destruct (revoke_where _ _ _ _) as [t' n]. cbn in En, El |- *. rewrite En. f_equal.
  apply map_eq. intros k. rewrite El, map_lookup_filter. destruct (active t !! k) as [u|]; [|done]. cbn.
  rewrite andb_true_r. destruct (decide (u = tenantID)) as [->|Hu].
  - rewrite bool_decide_true by done. by rewrite option_guard_False by naive_solver.
  - rewrite bool_decide_false by done. by rewrite option_guard_True by naive_solver.
Qed.
Lemma lookup_refines t sha : sql_LookupWebhookRef None t sha = LookupWebhookRef (active t) sha.
Proof.
  unfold sql_LookupWebhookRef, LookupWebhookRef. destruct (bool_decide _); [done|].
  rewrite active_lookup. by destruct (t !! hex sha).
Qed.

(** ** Histories *)
Inductive ref_call :=
| PutRef (f : tx_faults) (now : string) (refSHA : bytes) (tenantID : string)
| RevokeRef (db : option error) (now tenantID : string).
Definition ref_durably (t : ref_table) (c : ref_call) : ref_table :=
  match c with
  | PutRef f now sha tenantID => (sql_PutWebhookRef f now sha tenantID t).1
  | RevokeRef db now tenantID => (sql_RevokeWebhookRefs db now tenantID t).1
  end.
(** In memory, the calls the durable store did not refuse. *)
Definition ref_in_memory (ts : ref_table * WebhookRefStore) (c : ref_call) : ref_table * WebhookRefStore :=
  let '(t, s) := ts in
  (ref_durably t c,
   match c with
   | PutRef f now sha tenantID =>
       match sql_PutWebhookRef f now sha tenantID t with
       | (_, Ok _) => (PutWebhookRef sha tenantID s).1
       | (_, Err _) => s
       end
   | RevokeRef db now tenantID =>
       match sql_RevokeWebhookRefs db now tenantID t with
       | (_, Ok _) => (RevokeWebhookRefs tenantID s).1
       | (_, Err _) => s
       end
   end).
(** A callback address is answered for by the durable table exactly as by the in-memory map, after
    any history of mints and revocations, whatever the engine fails. *)
Theorem durable_refs cs sha :
  let '(t, s) := foldl ref_in_memory (∅, ∅) cs in
  t = foldl ref_durably ∅ cs /\ sql_LookupWebhookRef None t sha = LookupWebhookRef s sha.
Proof.
  assert (Hinv : forall cs t, foldl ref_in_memory (t, active t) cs =
    (foldl ref_durably t cs, active (foldl ref_durably t cs))).
  { clear. induction cs as [|c cs IH]; intros t; [done|]. cbn [foldl]. rewrite <- IH. f_equal.
    unfold ref_in_memory. f_equal. destruct c as [f now sha tenantID|db now tenantID]; cbn [ref_durably].
    - pose proof (put_refines f now sha tenantID t) as R. destruct (sql_PutWebhookRef _ _ _ _ _) as [t' [[]|e]].
      + cbn. by rewrite R.
      + cbn. by rewrite R.
    - pose proof (revoke_refines db now tenantID t) as R. destruct (sql_RevokeWebhookRefs _ _ _ _) as [t' [n|e]].
      + cbn. by rewrite R.
      + cbn. by rewrite R. }
  specialize (Hinv cs ∅). unfold active at 1 in Hinv. rewrite omap_empty in Hinv. rewrite Hinv.
  split; [done|apply lookup_refines].
Qed.
End refs.

(** * Account keys: account_keys, which has no primary key *)
Record KeyRow := {
  akr_account_id : string; akr_key_hash : string; akr_active : bool; akr_created_at : string;
  akr_rotated_at : option string
}.
Definition superseded (now : string) (r : KeyRow) : KeyRow :=
  {| akr_account_id := akr_account_id r; akr_key_hash := akr_key_hash r; akr_active := false;
     akr_created_at := akr_created_at r; akr_rotated_at := Some now |}.

Section keys.
Context `{Dialect} (account_known : string -> bool).
(** UPDATE … SET active = 0, rotated_at WHERE account_id AND active = 1 *)
Definition supersede_keys (now accountID : string) (rows : list KeyRow) : list KeyRow :=
  map (fun r => if bool_decide (akr_account_id r = accountID) && akr_active r then superseded now r else r) rows.
Definition insert_key (row : KeyRow) : M (list KeyRow) error unit := fun rows =>
  if account_known (akr_account_id row) then ((rows ++ [row])%list, Ok tt) else (rows, Err foreign_key_violation).
Definition sql_PutKey (f : tx_faults) (entropy : option bytes) (now : Time) (accountID : string)
    : M (list KeyRow) error string :=
  abort (bool_decide (accountID = "")) with (NewValidationError "account_id" "account id is required") ;;
  do m <- liftM (Mint entropy accountID now) ;;
  let '(key, plaintext) := m in
  do _ <- transaction "begin account-key tx" "commit account key" f
    (do _ <- wrapM (Wrap "supersede account key")
               (statement (tf_first f) (fun rows => (supersede_keys (text (in_UTC now)) accountID rows, Ok tt))) ;;
     wrapM (Wrap "insert account key")
       (statement (tf_second f)
          (insert_key {| akr_account_id := ak_accountID key; akr_key_hash := ak_hash key; akr_active := true;
                         akr_created_at := text (in_UTC (ak_createdAt key)); akr_rotated_at := None |}))) ;;
  retM plaintext.
Definition sql_Rotate (f : tx_faults) (entropy : option bytes) (now : Time) (accountID : string)
    : M (list KeyRow) error string := sql_PutKey f entropy now accountID.
(** Any failure of the read is a miss. *)
Definition sql_AuthenticateAccountKey (db : option error) (rows : list KeyRow) (secret : string) : option string :=
  if bool_decide (secret = "") then None
  else
    match db with
    | Some _ => None
    | None => akr_account_id <$> List.find (fun r => bool_decide (akr_key_hash r = HashSecret secret) && akr_active r) rows
    end.

(** ** Histories *)
Record key_call := { kc_faults : tx_faults; kc_mint : mint }.
Definition key_step (rows : list KeyRow) (c : key_call) : list KeyRow :=
  (sql_PutKey (kc_faults c) (mint_entropy (kc_mint c)) (mint_now (kc_mint c)) (mint_account (kc_mint c)) rows).1.
Definition run_keys (cs : list key_call) : list KeyRow := foldl key_step [] cs.
(** What a call grants: the mint's grant, when the engine failed nothing and the account is there. *)
Definition undisturbed (f : tx_faults) : bool :=
  match tf_begin f, tf_first f, tf_second f, tf_commit f with None, None, None, None => true | _, _, _, _ => false end.
Definition key_grant (c : key_call) : option cap_op :=
  if undisturbed (kc_faults c) && account_known (mint_account (kc_mint c)) then mint_grant (kc_mint c) else None.
Definition key_grants (cs : list key_call) : list cap_op := omap key_grant cs.
Definition trimmed_account (c : key_call) : Prop := TrimSpace (mint_account (kc_mint c)) = mint_account (kc_mint c).

(** The active rows are the standing grants, and no digest stands for two accounts. *)
Record keys_stand (rows : list KeyRow) (m : gmap string string) : Prop := {
  ks_rows : forall a d, m !! a = Some d <->
    exists r, r ∈ rows /\ akr_active r = true /\ akr_account_id r = a /\ akr_key_hash r = d;
  ks_inj : forall a a' d, m !! a = Some d -> m !! a' = Some d -> a = a'
}.
#[local] Opaque TrimSpace HashSecret RawURLEncoding.
Lemma key_step_idle rows c : trimmed_account c -> key_grant c = None -> key_step rows c = rows.
Proof.
  unfold trimmed_account, key_grant, key_step, sql_PutKey, mint_grant, undisturbed. destruct c as [[fb f1 f2 fc] [e now a]].
  cbn. intros Ha Hg. case_bool_decide as E0; [done|]. unfold bindM, liftM. rewrite Mint_run.
  destruct e as [b|]; [|done]. destruct (blank a) eqn:Eb; [done|]. unfold transaction. cbn.
  destruct fb; [done|]. unfold bindM, wrapM, statement, insert_key. destruct f1; [done|]. cbn. destruct f2; [done|]. cbn.
  rewrite Ha. cbn in Hg. destruct fc, (account_known a); done.
Qed.
Lemma key_step_grants rows c a d : trimmed_account c -> key_grant c = Some (Grant a d) ->
  exists now created, key_step rows c = (supersede_keys now a rows ++
    [{| akr_account_id := a; akr_key_hash := d; akr_active := true; akr_created_at := created; akr_rotated_at := None |}])%list.
Proof.
  unfold trimmed_account, key_grant, key_step, sql_PutKey, mint_grant, undisturbed. destruct c as [[fb f1 f2 fc] [e now x]].
  cbn. intros Ha Hg. destruct fb, f1, f2, fc; try done. destruct (account_known x) eqn:Ek; [|done]. cbn in Hg.
  destruct e as [b|]; [|done]. destruct (blank x) eqn:Eb; [done|]. injection Hg as <- <-.
  rewrite bool_decide_false by by apply blank_empty. unfold bindM, liftM. rewrite Mint_run, Eb. unfold transaction, bindM, wrapM, statement, insert_key.
  cbn. rewrite Ha, Ek. cbn. by eexists _, _.
Qed.
Lemma keys_grant rows m now created a d : keys_stand rows m -> (forall a', m !! a' <> Some d) ->
  keys_stand (supersede_keys now a rows ++
    [{| akr_account_id := a; akr_key_hash := d; akr_active := true; akr_created_at := created; akr_rotated_at := None |}])%list
    (<[a := d]> m).
Proof.
  intros [Hr Hi] Hf. split.
  - intros a' d'. rewrite lookup_insert_Some, (Hr a' d'). split.
    + intros [[<- <-]|[Hn (r & Hin & Hact & Ea & Ed)]].
      { eexists. split; [apply elem_of_app; right; by apply list_elem_of_singleton|done]. }
      exists r. split; [|done]. apply elem_of_app. left. apply list_elem_of_fmap. exists r. split; [|done].
      by rewrite bool_decide_false by congruence.
    + intros (r & [Hin|E%list_elem_of_singleton]%elem_of_app & Hact & Ea & Ed); [|subst r; left; by cbn in *].
      apply list_elem_of_fmap in Hin as (r0 & E & Hin). right. case_bool_decide as Ec; cbn in E.
      * destruct (akr_active r0) eqn:E0; subst r; [done|]. congruence.
      * subst r0. split; [congruence|]. by exists r.
  - intros x y d' [[<- <-]|[Hx Hmx]]%lookup_insert_Some [[<- E]|[Hy Hmy]]%lookup_insert_Some; try done.
    + by destruct (Hf y).
    + subst d'. by destruct (Hf x).
    + by eapply Hi.
Qed.
Lemma keys_history cs : Forall trimmed_account cs -> NoDup (granted (key_grants cs)) ->
  keys_stand (run_keys cs) (held (key_grants cs)).
Proof.
  induction cs as [|c cs IH] using rev_ind; intros Ht Hn.
  { split; [|done]. intros a d. split; [done|]. intros (r & Hr & _). by apply elem_of_nil in Hr. }
  apply Forall_app in Ht as [Ht Hc]. rewrite Forall_singleton in Hc.
  unfold run_keys, key_grants in *. rewrite foldl_app, omap_app in *. cbn [foldl omap list_omap] in *.
  assert (Hn' : NoDup (granted (omap key_grant cs))).
  { unfold granted in Hn. rewrite omap_app in Hn. by apply NoDup_app in Hn as [? _]. }
  specialize (IH Ht Hn'). destruct (key_grant c) as [g|] eqn:Eg; [|by rewrite key_step_idle, app_nil_r].
  assert (Hg : exists a d, g = Grant a d).
  { unfold key_grant, mint_grant in Eg. repeat case_match; simplify_eq; by eexists _, _. }
  destruct Hg as (a & d & ->). destruct (key_step_grants (foldl key_step [] cs) c a d Hc Eg) as (now & created & ->).
  rewrite held_snoc. apply keys_grant; [done|]. intros a' E%held_granted.
  unfold granted in Hn. rewrite omap_app in Hn. apply NoDup_app in Hn as (_ & Hd & _).
  apply (Hd d E). cbn. by left.
Qed.

(** The durable store of account keys is the one of AccountKeys: whatever the engine fails, a secret
    authenticates an account exactly when its digest is that of the last secret minted for it. *)
Theorem durable_keys cs secret a (Ht : Forall trimmed_account cs) (Hn : NoDup (granted (key_grants cs)))
    (Hs : secret <> "") :
  sql_AuthenticateAccountKey None (run_keys cs) secret = Some a <->
  held (key_grants cs) !! a = Some (HashSecret secret).
Proof.
  destruct (keys_history cs Ht Hn) as [Hr Hi]. unfold sql_AuthenticateAccountKey.
  rewrite bool_decide_false by done. rewrite fmap_Some. split.
  - intros (r & Hf & ->). apply find_some in Hf as [Hin [Eh Ea]%andb_true_iff].
    apply list_elem_of_In in Hin. apply bool_decide_eq_true in Eh. apply Hr. by exists r.
  - intros Hm. destruct (proj1 (Hr _ _) Hm) as (r & Hin & Hact & Ea & Ed).
    destruct (List.find _ _) as [r'|] eqn:Ef.
    + exists r'. split; [done|]. apply find_some in Ef as [Hin' [Eh' Ea']%andb_true_iff].
      apply list_elem_of_In in Hin'. apply bool_decide_eq_true in Eh'.
      apply (Hi _ _ _ Hm). apply Hr. by exists r'.
    + apply list_elem_of_In in Hin. pose proof (find_none _ _ Ef r Hin) as E. cbn in E.
      by rewrite bool_decide_true, Hact in E.
Qed.
End keys.

(** * Endpoints: account_outbound_webhook, by account_id *)
Record EndRow := {
  enr_url : string; enr_secret_sealed : bytes; enr_enabled : Z; enr_created_at : string; enr_updated_at : string
}.
Notation end_table := (gmap string EndRow).

Section endpoints.
Context `{Dialect} `{AEAD} (cipher : Cipher).
Definition sql_GetOutboundWebhook (db : option error) (t : end_table) (accountID : string) : res Config :=
  match db with
  | Some e => Err (Wrap "read outbound webhook" e)
  | None =>
      match t !! accountID with
      | None => Err ErrNotFound
      | Some r =>
          let? secret := map_err (Wrap "open outbound webhook signing secret")
                           (OpenWithAAD cipher (enr_secret_sealed r) (OutboundWebhookAAD accountID)) in
          Ok (config_Rehydrate accountID (enr_url r) (string_of secret) (negb (enr_enabled r =? 0))
                (parseTime (enr_created_at r)) (parseTime (enr_updated_at r)))
      end
  end.
(** created_at is left out of DO UPDATE. *)
Definition sql_UpsertOutboundWebhook (nonce : res bytes) (db : option error) (cfg : Config) : M end_table error unit :=
  do sealed <- liftM (map_err (Wrap "seal outbound webhook signing secret")
                        (SealWithAAD cipher nonce (bytes_of (cfg_signingSecret cfg)) (OutboundWebhookAAD (cfg_accountID cfg)))) ;;
  wrapM (Wrap "write outbound webhook")
    (statement db (fun t =>
       (<[cfg_accountID cfg :=
          {| enr_url := cfg_url cfg; enr_secret_sealed := sealed; enr_enabled := boolToInt (cfg_enabled cfg);
             enr_created_at := match t !! cfg_accountID cfg with
                               | Some old => enr_created_at old
                               | None => text (in_UTC (cfg_createdAt cfg))
                               end;
             enr_updated_at := text (in_UTC (cfg_updatedAt cfg)) |}]> t, Ok tt))).
Definition sql_DeleteOutboundWebhook (db : option error) (accountID : string) : M end_table error unit :=
  wrapM (Wrap "delete outbound webhook") (statement db (fun t => (delete accountID t, Ok tt))).

Inductive end_call :=
| SetEnd (nonce : res bytes) (db : option error) (cfg : Config)
| DropEnd (db : option error) (accountID : string).
Definition end_durably (t : end_table) (c : end_call) : end_table :=
  match c with
  | SetEnd nonce db cfg => (sql_UpsertOutboundWebhook nonce db cfg t).1
  | DropEnd db a => (sql_DeleteOutboundWebhook db a t).1
  end.
(** In memory a call refused by the random source or the engine did not happen. *)
Definition end_in_memory (s : OutboundWebhookStore) (c : end_call) : OutboundWebhookStore :=
  match c with
  | SetEnd (Ok _) None cfg => UpsertOutboundWebhook cfg s
  | DropEnd None a => DeleteOutboundWebhook a s
  | _ => s
  end.
Definition end_ok (c : end_call) : Prop :=
  match c with SetEnd nonce _ cfg => nonce_read nonce /\ utc_writable (cfg_updatedAt cfg) | DropEnd _ _ => True end.
(** A configuration, but for the instant it was first provisioned. *)
Definition created_as (t : Time) (c : Config) : Config :=
  config_Rehydrate (cfg_accountID c) (cfg_url c) (cfg_signingSecret c) (cfg_enabled c) t (cfg_updatedAt c).

Context `{L : !DialectLaws H} `{!AEADLaws}.
Definition end_stands (t : end_table) (s : OutboundWebhookStore) : Prop := forall a,
  match t !! a, s !! a with
  | Some r, Some w => enr_url r = sw_url w /\ enr_enabled r = boolToInt (sw_enabled w) /\
      OpenWithAAD cipher (enr_secret_sealed r) (OutboundWebhookAAD a) = Ok (bytes_of (sw_signingSecret w)) /\
      utc_writable (sw_updatedAt w) /\ enr_updated_at r = text (sw_updatedAt w)
  | None, None => True
  | _, _ => False
  end.
Lemma end_step_stands t s c : end_ok c -> end_stands t s -> end_stands (end_durably t c) (end_in_memory s c).
Proof.
  intros Hc Hs. destruct c as [nonce db cfg|db a]; cbn [end_durably end_in_memory].
  - destruct Hc as [Hn Hu]. unfold sql_UpsertOutboundWebhook, bindM, liftM.
    destruct nonce as [n|e]; [|by cbn]. destruct (SealWithAAD cipher (Ok n) _ _) as [sealed|e] eqn:Es; [|done].
    cbn [map_err]. unfold wrapM, statement. destruct db; [by cbn|]. cbn [fst]. intros a. unfold UpsertOutboundWebhook.
    destruct (decide (cfg_accountID cfg = a)) as [<-|Ha]; [|rewrite !lookup_insert_ne by done; apply Hs].
    rewrite !lookup_insert_eq. cbn. split_and!; [done|done| |done|by rewrite in_UTC_utc].
    by apply (open_sealed cipher (Ok n) _ _ _ _ _ _ Hn Es).
  - unfold sql_DeleteOutboundWebhook, wrapM, statement. destruct db; [by cbn|]. cbn [fst]. intros b.
    unfold DeleteOutboundWebhook. destruct (decide (a = b)) as [<-|Hb]; [by rewrite !lookup_delete_eq|].
    rewrite !lookup_delete_ne by done. apply Hs.
Qed.
(** The sealed table reads as the in-memory store does, whatever the random source and the engine
    refuse; the instant of the first provisioning is kept where the in-memory store takes the last
    one it is given. *)
Theorem durable_endpoints cs a (Hok : Forall end_ok cs) :
  exists created, sql_GetOutboundWebhook None (foldl end_durably ∅ cs) a
    = (let? c := GetOutboundWebhook (foldl end_in_memory ∅ cs) a in Ok (created_as created c)).
Proof.
  assert (Hst : forall cs t s, Forall end_ok cs -> end_stands t s ->
    end_stands (foldl end_durably t cs) (foldl end_in_memory s cs)).
  { clear cs Hok. induction cs as [|c cs IH]; intros t s Hok Hs; [done|]. apply Forall_cons in Hok as [Hc Hok].
    cbn [foldl]. apply IH; [done|]. by apply end_step_stands. }
  specialize (Hst cs ∅ ∅ Hok (fun a => I) a). unfold sql_GetOutboundWebhook, GetOutboundWebhook.
  destruct (foldl end_durably ∅ cs !! a) as [r|], (foldl end_in_memory ∅ cs !! a) as [w|]; try done; [|by exists zeroTime].
  destruct Hst as (Eu & Ee & Eo & Hu & Et). exists (parseTime (enr_created_at r)). rewrite Eo, Ee, Et, Eu. cbn.
  rewrite parse_utc, string_bytes by done. by destruct (sw_enabled w).
Qed.
End endpoints.

(** * The operator's credential and the replay guard: console_credential, by username, and
    console_totp_replay, by subject *)
Record CredRow := { cdr_password_hash : string; cdr_totp_sealed : bytes; cdr_updated_at : string }.
Record StepRow := { spr_last_step : Z; spr_updated_at : string }.

Section console.
Context `{AEAD} `{MapIteration} (cipher : Cipher).
(** SELECT … LIMIT 1: the first row in the engine's order. *)
Definition sql_GetCredential (db : option error) (t : gmap string CredRow) : res (option Credential) :=
  match db with
  | Some e => Err (Wrap "read console credential" e)
  | None =>
      match head (iterate t) with
      | None => Ok None
      | Some (username, r) =>
          let? totp := map_err (Wrap "open console totp secret")
                         (OpenWithAAD cipher (cdr_totp_sealed r) (ConsoleAAD username)) in
          Ok (Some (NewCredential username (cdr_password_hash r) (string_of totp)))
      end
  end.
Definition sql_SaveCredential (nonce : res bytes) (db : option error) (now : string) (c : Credential)
    : M (gmap string CredRow) error unit :=
  do sealed <- liftM (map_err (Wrap "seal console totp secret")
                        (SealWithAAD cipher nonce (bytes_of (cred_totpSecret c)) (ConsoleAAD (cred_username c)))) ;;
  wrapM (Wrap "write console credential")
    (statement db (fun t => (<[cred_username c := {| cdr_password_hash := cred_passwordHash c; cdr_totp_sealed := sealed;
                                                   cdr_updated_at := now |}]> t, Ok tt))).
Definition sql_LastStep (db : option error) (t : gmap string StepRow) (subject : string) : res Z :=
  match db with
  | Some e => Err (Wrap "read console totp replay" e)
  | None => Ok (match t !! subject with Some r => spr_last_step r | None => 0 end)
  end.
Definition sql_SetLastStep (db : option error) (now subject : string) (step : Z) : M (gmap string StepRow) error unit :=
  wrapM (Wrap "write console totp replay")
    (statement db (fun t => (<[subject := {| spr_last_step := step; spr_updated_at := now |}]> t, Ok tt))).

Inductive console_call :=
| SaveCred (nonce : res bytes) (db : option error) (now : string) (c : Credential)
| SetStep (db : option error) (now subject : string) (step : Z).
Notation console_tables := (gmap string CredRow * gmap string StepRow)%type.
Definition console_durably (t : console_tables) (c : console_call) : console_tables :=
  match c with
  | SaveCred nonce db now cred => ((sql_SaveCredential nonce db now cred t.1).1, t.2)
  | SetStep db now subject step => (t.1, (sql_SetLastStep db now subject step t.2).1)
  end.
Definition console_in_memory (m : MemStore) (c : console_call) : MemStore :=
  match c with
  | SaveCred (Ok _) None _ cred => (mem_SaveCredential cred m).1
  | SetStep None _ subject step => (mem_SetLastStep subject step m).1
  | _ => m
  end.
(** The service saves the credential of its configured user only. *)
Definition console_ok (username : string) (c : console_call) : Prop :=
  match c with SaveCred nonce _ _ cred => nonce_read nonce /\ cred_username cred = username | SetStep _ _ _ _ => True end.

Context `{!AEADLaws}.
Definition console_stands (username : string) (t : console_tables) (m : MemStore) : Prop :=
  match ms_cred m with
  | None => t.1 = ∅
  | Some c => exists r, t.1 = {[username := r]} /\ cred_username c = username /\ cdr_password_hash r = cred_passwordHash c /\
      OpenWithAAD cipher (cdr_totp_sealed r) (ConsoleAAD username) = Ok (bytes_of (cred_totpSecret c))
  end /\ forall s, spr_last_step <$> t.2 !! s = ms_lastStep m !! s.
Lemma console_step_stands u t m c : console_ok u c -> console_stands u t m ->
  console_stands u (console_durably t c) (console_in_memory m c).
Proof.
  intros Hc [Hcred Hstep]. destruct c as [nonce db now cred|db now subject step]; cbn [console_durably console_in_memory].
  - destruct Hc as [Hn <-]. unfold sql_SaveCredential, bindM, liftM. destruct nonce as [n|e]; [|by split].
    destruct (SealWithAAD cipher (Ok n) _ _) as [sealed|e] eqn:Es; [|done]. cbn [map_err]. unfold wrapM, statement.
    destruct db; [by split|]. split; [|done].
    exists {| cdr_password_hash := cred_passwordHash cred; cdr_totp_sealed := sealed; cdr_updated_at := now |}.
    cbn. split_and!; [|done|done|].
    + destruct (ms_cred m) as [c0|]; [|by rewrite Hcred].
      destruct Hcred as (r & -> & _). by rewrite insert_singleton_eq.
    + by apply (open_sealed cipher (Ok n) _ _ _ _ _ _ Hn Es).
  - unfold sql_SetLastStep, wrapM, statement. destruct db; [by split|]. split; [done|]. cbn. intros s.
    destruct (decide (subject = s)) as [<-|Hs]; [by rewrite !lookup_insert_eq|]. by rewrite !lookup_insert_ne.
Qed.
(** The durable credential and replay guard read as the in-memory ones, so a consumed code stays
    consumed over a restart. *)
Theorem durable_console username cs (Hok : Forall (console_ok username) cs) m (Hm : ms_cred m = None /\ ms_lastStep m = ∅) :
  let t := foldl console_durably (∅, ∅) cs in
  let m := foldl console_in_memory m cs in
  sql_GetCredential None t.1 = (mem_GetCredential m).2 /\ forall s, sql_LastStep None t.2 s = (mem_LastStep s m).2.
Proof.
  assert (Hst : forall cs t m, Forall (console_ok username) cs -> console_stands username t m ->
    console_stands username (foldl console_durably t cs) (foldl console_in_memory m cs)).
  { clear cs Hok. intros cs. induction cs as [|c cs IH]; intros t m' Hok Hs; [done|]. apply Forall_cons in Hok as [Hc Hok].
    cbn [foldl]. apply IH; [done|]. by apply console_step_stands. }
  destruct (Hst cs (∅, ∅) m Hok) as [Hcred Hstep].
  { destruct Hm as [E1 E2]. unfold console_stands. rewrite E1, E2. by split. }
  cbv zeta. split.
  - unfold sql_GetCredential, mem_GetCredential. cbn [fst snd]. destruct (ms_cred (foldl console_in_memory m cs)) as [c|].
    + destruct Hcred as (r & -> & <- & Eh & Eo).
      assert (Ei : iterate {[cred_username c := r]} = [(cred_username c, r)]).
      { apply (proj1 (Permutation_singleton_r _ _)). by rewrite iterate_perm, map_to_list_singleton. }
      rewrite Ei. cbn [head]. rewrite Eo, Eh. cbn. rewrite string_bytes. by destruct c.
    + rewrite Hcred. assert (Ei : iterate (∅ : gmap string CredRow) = []).
      { apply (proj1 (Permutation_nil_r _)). by rewrite iterate_perm, map_to_list_empty. }
      by rewrite Ei.
  - intros s. unfold sql_LastStep. cbn. rewrite <- Hstep. by destruct (_ !! s).
Qed.
End console.

(** * Consents to the terms: terms_consent, by id *)
Record ConsentRow := {
  tcr_tenant_id : string; tcr_subject : string; tcr_terms_version : string; tcr_granted_at : string;
  tcr_channel : string; tcr_ip : string; tcr_user_agent : string
}.
Notation consent_table := (gmap string ConsentRow).

Section consents.
Context `{MapIteration} {D : Dialect} {L : DialectLaws D} {O : OrderedTexts D}.
Definition consent_row (r : TermsRecord) : ConsentRow :=
  {| tcr_tenant_id := tr_tenantID r; tcr_subject := tr_subject r; tcr_terms_version := tr_termsVersion r;
     tcr_granted_at := text (tr_grantedAt r); tcr_channel := ev_channel (tr_evidence r); tcr_ip := ev_ip (tr_evidence r);
     tcr_user_agent := ev_userAgent (tr_evidence r) |}.
Definition scanConsent (kr : string * ConsentRow) : res TermsRecord :=
  let '(id, r) := kr in
  let? evidence := map_err (Wrap "rehydrate evidence") (NewEvidence (tcr_channel r) (tcr_ip r) (tcr_user_agent r)) in
  Ok (terms_Rehydrate id (tcr_tenant_id r) (tcr_subject r) (tcr_terms_version r) (parseTime (tcr_granted_at r)) evidence).
Definition sql_RecordConsent (db : option error) (r : TermsRecord) : M consent_table error unit := fun t =>
  match statement db (fun t => match insert_row (tr_id r) (consent_row r) true t with
                               | Ok t' => (t', Ok tt) | Err e => (t, Err e) end) t with
  | (t', Ok _) => (t', Ok tt)
  | (t', Err e) => (t', Err (if isUniqueViolation e then ErrConflict else Wrap "record consent" e))
  end.
Definition about (tenantID subject : string) (r : ConsentRow) : bool :=
  bool_decide (tcr_tenant_id r = tenantID) && bool_decide (tcr_subject r = subject).
Definition sql_FindLatestConsent (db : option error) (t : consent_table) (tenantID subject termsVersion : string) : res TermsRecord :=
  match db with
  | Some e => Err (Wrap "scan consent" e)
  | None =>
      match head (SliceStable (where_ (fun _ r => about tenantID subject r && bool_decide (tcr_terms_version r = termsVersion)) t)
                    (newest_text tcr_granted_at)) with
      | None => Err ErrNotFound
      | Some kr => map_err (Wrap "scan consent") (scanConsent kr)
      end
  end.
Definition sql_ListConsents (db : option error) (t : consent_table) (tenantID subject : string) : res (list TermsRecord) :=
  match db with
  | Some e => Err (Wrap "query consents" e)
  | None => collect (map (fun kr => map_err (Wrap "scan consent") (scanConsent kr))
                       (SliceStable (where_ (fun _ => about tenantID subject) t) (newest_text tcr_granted_at)))
  end.

(** A record as its constructor makes it. *)
Definition storable_consent (r : TermsRecord) : Prop :=
  utc_writable (tr_grantedAt r) /\
  NewEvidence (ev_channel (tr_evidence r)) (ev_ip (tr_evidence r)) (ev_userAgent (tr_evidence r)) = Ok (tr_evidence r).
Lemma scan_consent_row r : storable_consent r -> scanConsent (tr_id r, consent_row r) = Ok r.
Proof.
  intros [Hu He]. unfold scanConsent, consent_row, terms_Rehydrate. cbn [tcr_channel tcr_ip tcr_user_agent tcr_granted_at].
  rewrite He. cbn. rewrite parse_utc by done. destruct Hu as [Hloc _], r as [? ? ? ? [n lc] ?]. cbn in *. by subst lc.
Qed.
Definition consent_call (ts : consent_table * trail) (c : option error * TermsRecord) : consent_table * trail :=
  let '(t, s) := ts in
  let '(db, r) := c in
  match sql_RecordConsent db r t with
  | (t', Ok _) => (t', RecordConsent r s)
  | (t', Err _) => (t', s)
  end.
Lemma consent_steps cs : Forall (fun c => storable_consent c.2) cs ->
  let '(t, s) := foldl consent_call (∅, []) cs in logged tr_id consent_row t s /\ Forall storable_consent s.
Proof.
  induction cs as [|[db r] cs IH] using rev_ind; intros Hc; [split; [apply logged_empty|constructor]|].
  apply Forall_app in Hc as [Hc Hr]. rewrite Forall_singleton in Hr. specialize (IH Hc). rewrite foldl_app. cbn [foldl].
  destruct (foldl consent_call (∅, []) cs) as [t s]. destruct IH as [Hl Hs].
  unfold consent_call, sql_RecordConsent, statement. destruct db as [e|]; [done|].
  unfold insert_row. destruct (t !! tr_id r) as [old|] eqn:Eo; [done|]. split; [|by apply Forall_app; split; [|apply Forall_singleton]].
  apply logged_snoc; [done|]. intros x Hx E. destruct Hl as (H1 & _). apply H1 in Hx. congruence.
Qed.
(** The durable trail of consents is the in-memory one: a duplicate is a conflict and changes
    nothing, and after any history the list of a subject's consents and the latest one to a version
    are those of the records that were accepted. *)
Theorem durable_consents cs (Hc : Forall (fun c => storable_consent c.2) cs) tenantID subject termsVersion :
  let '(t, s) := foldl consent_call (∅, []) cs in
  sql_ListConsents None t tenantID subject = Ok (ListConsents tenantID subject s) /\
  sql_FindLatestConsent None t tenantID subject termsVersion = FindLatestConsent tenantID subject termsVersion s.
Proof.
  pose proof (consent_steps cs Hc) as Hinv. destruct (foldl consent_call (∅, []) cs) as [t s].
  destruct Hinv as [Hl Hs]. rewrite Forall_forall in Hs.
  assert (Hrows : forall test keep, (forall r, test (tr_id r) (consent_row r) = keep r) ->
    SliceStable (where_ test t) (newest_text tcr_granted_at)
    = map (fun r => (tr_id r, consent_row r)) (SliceStable (List.filter keep s) consentAfter)).
  { intros test keep Ht. apply sorted_rows; [apply _|done|by intros; apply Ht| |].
    - intros x y Hx Hy. by apply newest_as_text; [apply Hs|..|apply Hs|].
    - intros x y H1 H2. by destruct (newest_text_tie _ _ _ H1 H2). }
  assert (Hscan : forall l, (forall r, r ∈ l -> r ∈ s) -> collect (map (fun kr => map_err (Wrap "scan consent") (scanConsent kr))
      (map (fun r => (tr_id r, consent_row r)) l)) = Ok l).
  { intros l Hin. apply collect_scans. intros r Hr. by rewrite scan_consent_row by apply Hs, Hin, Hr. }
  split.
  - unfold sql_ListConsents, ListConsents. rewrite (Hrows _ (of_subject tenantID subject)) by done. apply Hscan.
    intros r Hr. rewrite SliceStable_perm in Hr. by eapply filter_member.
  - unfold sql_FindLatestConsent.
    rewrite (Hrows _ (fun r => of_subject tenantID subject r && of_version termsVersion r)) by done.
    destruct (consent_trail_exact s tenantID subject termsVersion
      {| tr_id := ""; tr_tenantID := ""; tr_subject := ""; tr_termsVersion := ""; tr_grantedAt := zeroTime; tr_evidence := noEvidence |})
      as (_ & _ & Hlatest & _).
    assert (Ef : List.filter (of_version termsVersion) (ListConsents tenantID subject s)
      = SliceStable (List.filter (fun r => of_subject tenantID subject r && of_version termsVersion r) s) consentAfter).
    { unfold ListConsents. rewrite (filter_sorted consentAfter). f_equal. by rewrite filter_filter_and. }
    destruct (FindLatestConsent tenantID subject termsVersion s) as [x|e].
    + rewrite <- Ef. destruct (List.filter _ (ListConsents _ _ s)) as [|y l] eqn:El; [done|]. injection Hlatest as ->.
      cbn [map head]. rewrite scan_consent_row; [done|]. apply Hs.
      assert (Hx : x ∈ List.filter (of_version termsVersion) (ListConsents tenantID subject s)) by (rewrite El; left).
      apply filter_member in Hx. unfold ListConsents in Hx. rewrite SliceStable_perm in Hx. by eapply filter_member.
    + destruct Hlatest as [-> Hnone]. rewrite <- Ef.
      destruct (List.filter _ (ListConsents _ _ s)) as [|y l] eqn:El; [done|].
      assert (Hy : y ∈ List.filter (of_version termsVersion) (ListConsents tenantID subject s)) by (rewrite El; left).
      apply list_elem_of_In, filter_In in Hy as [Hy Hv]. apply list_elem_of_In in Hy.
      rewrite Forall_forall in Hnone. by rewrite (Hnone y Hy) in Hv.
Qed.
End consents.

(** * Concrete runs *)
Definition at_tenths (n : Z) : Time := {| ns := n * 50000000; loc := UTC_loc |}.
Definition a_delivery (id account key : string) (t : Time) : Delivery :=
  {| del_id := id; del_accountID := account; del_tenantID := "t"; del_eventKey := key; del_txID := "x";
     del_eventType := "payment.paid"; del_status := DeliveryPending; del_createdAt := t;
     del_detail := {| detail_AmountCents := 500; detail_Installments := 0; detail_Message := "" |} |}.
Definition calls (db : option error) (o : queue_op) : queue_call := {| qc_fault := db; qc_op := o |}.
Definition a_history : list queue_call :=
  [calls None (Enqueue (a_delivery "d2" "acc" "k2" (at_tenths 30))); calls (Some (New "locked")) (Enqueue (a_delivery "d0" "acc" "k0" (at_tenths 1)));
   calls None (Enqueue (a_delivery "d1" "acc" "k1" (at_tenths 20))); calls None (Enqueue (a_delivery "d3" "acc" "k1" (at_tenths 40)));
   calls None (Enqueue (a_delivery "d4" "b" "k1" (at_tenths 20))); calls None (Settle "d4")].
Definition pg : Dialect := postgres (fun _ => None) (fun e => if bool_decide (e = New "23505") then Some "23505" else None) (New "23505").
#[local] Instance pg_laws : DialectLaws pg.
Proof. by apply postgres_laws. Qed.
#[local] Instance pg_ordered : OrderedTexts pg.
Proof. apply postgres_ordered. Qed.
Lemma durable_outbox_witness :
  exists q, run_durably (H := pg) a_history empty_queue = (q, map call_outcome a_history) /\
    sql_ClaimPendingDeliveries (H := pg) None 5 q
    = (q, Ok [a_delivery "d1" "acc" "k1" (at_tenths 20); a_delivery "d2" "acc" "k2" (at_tenths 30)]).
Proof.
  assert (Hp : Forall plain_call a_history)
    by (repeat constructor; try reflexivity; vm_compute; discriminate).
  assert (Hi : NoDup (enqueued_ids a_history)) by (apply (bool_decide_unpack _); vm_compute; exact I).
  assert (Hd : NoDup (parked_ids a_history)) by constructor.
  destruct (durable_outbox (D := pg) a_history Hp Hi Hd) as (q & Er & _ & Ec & _ & Ht).
  exists q. split; [exact Er|]. rewrite Ec, (proj1 (Ht _)). f_equal.
Defined.

(** With the SQLite layout the newer of two deliveries of the same second can be claimed first. *)
Definition lite : Dialect := sqlite (fun _ => None).
Example sqlite_claims_newer_first :
  let q := (run_durably (H := lite) [calls None (Enqueue (a_delivery "d1" "acc" "k1" (at_tenths 2)));
                                     calls None (Enqueue (a_delivery "d2" "acc" "k2" (at_tenths 3)))] empty_queue).1 in
  (sql_ClaimPendingDeliveries (H := lite) None 1 q).2 = Ok [a_delivery "d2" "acc" "k2" (at_tenths 3)].
Proof. vm_compute. reflexivity. Qed.

Lemma durable_keys_witness :
  let cs := map (fun m => {| kc_faults := no_tx_fault; kc_mint := m |}) sample_mints in
  let secret c := secretPrefix ++ RawURLEncoding (replicate secretBytes c) in
  sql_AuthenticateAccountKey None (run_keys (H := pg) (fun _ => true) cs) (secret "c"%char) = Some "acc1" /\
  sql_AuthenticateAccountKey None (run_keys (H := pg) (fun _ => true) cs) (secret "a"%char) = None.
Proof.
  cbv zeta. split; [|vm_compute; reflexivity].
  refine (proj2 (durable_keys (H := pg) (fun _ => true) (map (fun m => {| kc_faults := no_tx_fault; kc_mint := m |}) sample_mints)
    (secretPrefix ++ RawURLEncoding (replicate secretBytes "c"%char)) "acc1" _ _ _) _).
  - repeat constructor.
  - apply (bool_decide_unpack _). vm_compute. exact I.
  - discriminate.
  - vm_compute. reflexivity.
Defined.
