(* ===== verification/StubBank.v ===== *)
(** The stub bank: internal/adapters/bank/stub.go with stub_pix.go, stub_cobv.go,
    stub_products.go, stub_dda.go, stub_statement.go and stub_recurrence.go, the bank the service
    runs against when none is wired.  Every method of the provider is a step on its maps, taken
    under its mutex; what it promises a tenant is stated against the calls of the others. *)
From stdpp Require Import sorting.
From S2P Require Import Prelude GoStrings GoTime GoCrypto GoText GoSort Shared Mandates Ports BankPorts MemStore.
From S2P Require Import PixKeys PaymentGroups BankSurfaces BankIdentity MandateWebhook RecurrenceSvc.
#[global] Open Scope Z_scope.

(** * State

    The maps of the provider, by name, with what they hold; the keys are [key], of a tenant and
    an identifier, and a tenant alone for the bonds, the entries and the two callbacks. *)
Record stubPixCharge := { spc_result : PixChargeResult; spc_createdAt : Time }.
Record Callback := { cb_WebhookURL : string; cb_CreatedAt : Time }.
Inductive table :=
| charges_ | byIdem | pixCharges | pixByIdem | boletos | checkouts | cobvCharges | cobvDueByIdem
| ddaBoletos | ddaGroups | ddaGroupByIdem | stmtEntries
| recs_ | recJornadaTxID | solicRecs | cobrs_ | recWebhooks | cobrWebhooks | locRecs | locRecByIdem.
#[export] Instance table_eq_dec : EqDecision table.
Proof. solve_decision. Defined.
Definition entry_of (T : table) : Type :=
  match T with
  | charges_ | byIdem => ChargeResult
  | pixCharges => stubPixCharge
  | boletos => BoletoResult
  | checkouts => CheckoutResult
  | cobvCharges => PixDueChargeResult
  | ddaBoletos => list DDABoleto
  | ddaGroups => list DDAItem
  | stmtEntries => list StatementEntry
  | recs_ => RecResult
  | solicRecs => SolicRecResult
  | cobrs_ => CobRResult
  | recWebhooks | cobrWebhooks => Callback
  | locRecs => LocRecResult
  | locRecByIdem => Z
  | pixByIdem | cobvDueByIdem | ddaGroupByIdem | recJornadaTxID => string
  end.
(** [sp_now] is what the clock reads. *)
Record StubProvider := {
  sp_now : Time; sp_map : forall T : table, gmap string (entry_of T); sp_locRecSeq : Z
}.
Definition NewStubProvider (now : Time) : StubProvider :=
  {| sp_now := now; sp_map := fun _ => ∅; sp_locRecSeq := 0 |}.
Definition SetClock (now : Time) (s : StubProvider) : StubProvider :=
  {| sp_now := now; sp_map := sp_map s; sp_locRecSeq := sp_locRecSeq s |}.
Definition with_map (s : StubProvider) (T : table) (m : gmap string (entry_of T)) : StubProvider :=
  {| sp_now := sp_now s;
     sp_map := fun U => match decide (T = U) with
                        | left e => eq_rect T (fun X => gmap string (entry_of X)) m U e
                        | right _ => sp_map s U
                        end;
     sp_locRecSeq := sp_locRecSeq s |}.

Notation stub A := (M StubProvider error A).
Definition peek (T : table) (k : string) : stub (option (entry_of T)) := fun s => (s, Ok (sp_map s T !! k)).
Definition put (T : table) (k : string) (v : entry_of T) : stub unit := fun s =>
  (with_map s T (<[k := v]> (sp_map s T)), Ok tt).
Definition read_clock : stub Time := fun s => (s, Ok (sp_now s)).
(** [res, ok := s.m[k]; if !ok { return ErrNotFound }] *)
Definition find (T : table) (k : string) : stub (entry_of T) :=
  do found <- peek T k ;;
  match found with Some v => retM v | None => throwM ErrNotFound end.
(** The test hooks do nothing to an entry that is not there. *)
Definition if_there (T : table) (k : string) (f : entry_of T -> entry_of T) : stub unit :=
  do found <- peek T k ;;
  match found with Some v => put T k (f v) | None => retM tt end.

(** * Histories *)
(** A method of the provider, or a hook of its tests. *)
Inductive method : Type -> Type :=
| MCreateCharge (req : ChargeRequest) : method ChargeResult
| MGetCharge (txID : string) : method ChargeResult
| MMarkSettled (txID : string) : method unit
| MMarkSettledWithReceived (txID : string) (cents : Z) : method unit
| MCreateImmediateCharge (req : ChargeRequest) (expiresIn : Z) : method PixChargeResult
| MGetImmediateCharge (txID : string) : method PixChargeResult
| MListImmediateCharges (filter : PixListFilter) : method PixChargeList
| MCreateDueCharge (req : PixDueChargeRequest) : method PixDueChargeResult
| MGetDueCharge (txID : string) : method PixDueChargeResult
| MUpdateDueCharge (txID : string) (req : PixDueChargeRequest) : method PixDueChargeResult
| MCreateBoleto (req : BoletoRequest) : method BoletoResult
| MGetBoleto (id : string) : method BoletoResult
| MCancelBoleto (id : string) : method BoletoResult
| MUpdateBoleto (id : string) (patch : BoletoPatch) : method BoletoResult
| MGetBoletoPDF (id : string) : method BoletoDocument
| MGetBoletoByBankRef (ref : string) : method BoletoResult
| MMarkBoletoStatus (id status : string) : method unit
| MCreateCheckoutSession (req : CheckoutRequest) : method CheckoutResult
| MGetCheckoutSession (id : string) : method CheckoutResult
| MCancelCheckoutSession (id : string) : method CheckoutResult
| MMarkCheckoutPaid (id : string) : method unit
| MMarkCheckoutPaidWithReceived (id : string) (cents : Z) : method unit
| MSeedDDABoletos (bonds : list DDABoleto) : method unit
| MListOpenBoletos : method (list DDABoleto)
| MCreatePaymentGroup (req : DDAGroupRequest) : method DDAGroup
| MGetPaymentGroup (id : string) : method DDAGroup
| MRemovePaymentGroupItems (id : string) (items : list string) : method unit
| MRemovePaymentGroupItem (id item : string) : method unit
| MSubmitPaymentGroup (id uploader idem : string) : method unit
| MSeedStatementEntries (entries : list StatementEntry) : method unit
| MGetStatement (filter : StatementFilter) : method Statement
| MRegisterRecWebhook (url : string) : method unit
| MGetRecWebhook : method Callback
| MRegisterCobRWebhook (url : string) : method unit
| MGetCobRWebhook : method Callback
| MCreateRec (req : CreateRecRequest) : method RecResult
| MGetRec (idRec : string) : method RecResult
| MGetRecForQR (idRec txID : string) : method RecResult
| MApproveRec (idRec : string) : method RecResult
| MSetRecStatus (idRec status : string) : method RecResult
| MCancelRec (idRec : string) : method RecResult
| MCreateSolicRec (req : CreateSolicRecRequest) : method SolicRecResult
| MGetSolicRec (id : string) : method SolicRecResult
| MCreateCobR (req : CreateCobRRequest) : method CobRResult
| MGetCobR (txID : string) : method CobRResult
| MCancelCobR (txID : string) : method CobRResult
| MRetryCobR (txID date : string) : method CobRResult
| MCreateLocRec (key : string) : method LocRecResult
| MGetLocRec (id : Z) : method LocRecResult
| MUnlinkLocRec (id : Z) : method LocRecResult.

Section provider.
Context (creds : string -> string -> res BankCredential).
(** [url.Parse]: scheme and host. *)
Context (url_Parse : string -> option (string * string)).
Context `{MapIteration}.

(** Each method starts with the tenant's credential; [s.bankID] is C6's. *)
Definition with_credential {A} (tenantID : string) (m : stub A) : stub A :=
  do _ <- liftM (creds tenantID BankIDC6) ;; m.
(** A read of one entry. *)
Definition get_entry (T : table) (tenantID id : string) : stub (entry_of T) :=
  with_credential tenantID (find T (key tenantID id)).
(** An entry that has to be there is rewritten, and answered. *)
Definition amend (T : table) (tenantID id : string) (f : entry_of T -> entry_of T) : stub (entry_of T) :=
  with_credential tenantID
    (do v <- find T (key tenantID id) ;;
     do _ <- put T (key tenantID id) (f v) ;;
     retM (f v)).
(** The first 32 digits of a digest. *)
Definition stubPixTxID (anchor : string) : string :=
  String.substring 0 32 (hex (sha256 (bytes_of anchor))).
Definition or_given (given fallback : string) : string :=
  if bool_decide (given = "") then fallback else given.

(** * stub.go: charges *)
Definition new_charge (txID status : string) (expected : Z) : ChargeResult :=
  {| cr_TxID := txID; cr_Status := status; cr_ExpectedAmountCents := expected;
     cr_ReceivedAmountCents := 0; cr_Installments := 0; cr_Message := ""; cr_SettlementKey := "" |}.
Definition stub_CreateCharge (tenantID : string) (req : ChargeRequest) : stub ChargeResult :=
  with_credential tenantID
    (let idem := chr_IdempotencyKey req in
     let create :=
       let txID := "tx_" ++ chr_PaymentID req in
       let r := new_charge txID "pending" (chr_AmountCents req) in
       do _ <- put charges_ (key tenantID txID) r ;;
       do _ <- (if bool_decide (idem = "") then retM tt else put byIdem (key tenantID idem) r) ;;
       retM r in
     if bool_decide (idem = "") then create
     else do prev <- peek byIdem (key tenantID idem) ;;
          match prev with Some prev => retM prev | None => create end).
Definition stub_GetCharge (tenantID txID : string) : stub ChargeResult := find charges_ (key tenantID txID).
Definition settled_charge (received : option Z) (r : ChargeResult) : ChargeResult :=
  {| cr_TxID := cr_TxID r; cr_Status := "paid"; cr_ExpectedAmountCents := cr_ExpectedAmountCents r;
     cr_ReceivedAmountCents := default (cr_ExpectedAmountCents r) received;
     cr_Installments := cr_Installments r; cr_Message := cr_Message r;
     cr_SettlementKey := cr_SettlementKey r |}.
Definition MarkSettled (tenantID txID : string) : stub unit :=
  if_there charges_ (key tenantID txID) (settled_charge None).
Definition MarkSettledWithReceived (tenantID txID : string) (receivedCents : Z) : stub unit :=
  if_there charges_ (key tenantID txID) (settled_charge (Some receivedCents)).

(** * stub_pix.go: immediate charges *)
Definition stubDefaultPixExpiry : Z := 3600 * nsec.
Definition pixAnchor (req : ChargeRequest) : string := or_given (chr_IdempotencyKey req) (chr_PaymentID req).
Definition zero_pix : PixChargeResult :=
  {| pix_TxID := ""; pix_Status := ""; pix_QRCodePayload := ""; pix_QRCodeLocation := "";
     pix_ExpiresAt := zeroTime; pix_ExpectedAmountCents := 0; pix_ReceivedAmountCents := 0 |}.
Definition stub_CreateImmediateCharge (tenantID : string) (req : ChargeRequest) (expiresIn : Z)
    : stub PixChargeResult :=
  with_credential tenantID
    (let anchor := pixAnchor req in
     abort (bool_decide (anchor = "") || (chr_AmountCents req <=? 0)) with ErrValidation ;;
     let expiresIn := if expiresIn <=? 0 then stubDefaultPixExpiry else expiresIn in
     do known <- peek pixByIdem (key tenantID anchor) ;;
     match known with
     | Some txID =>
         do c <- peek pixCharges (key tenantID txID) ;;
         retM (default zero_pix (spc_result <$> c))
     | None =>
         do now <- read_clock ;;
         let txID := stubPixTxID anchor in
         let r := {| pix_TxID := txID; pix_Status := "ATIVA"; pix_QRCodePayload := "00020126-stub-" ++ txID;
                     pix_QRCodeLocation := "https://pix.stub.example/qr/" ++ txID;
                     pix_ExpiresAt := Add now expiresIn; pix_ExpectedAmountCents := chr_AmountCents req;
                     pix_ReceivedAmountCents := 0 |} in
         do _ <- put pixCharges (key tenantID txID) {| spc_result := r; spc_createdAt := now |} ;;
         do _ <- put pixByIdem (key tenantID anchor) txID ;;
         retM r
     end).
Definition stub_GetImmediateCharge (tenantID txID : string) : stub PixChargeResult :=
  do c <- get_entry pixCharges tenantID txID ;; retM (spc_result c).

Definition lessStubPixCharge (a b : stubPixCharge) : bool :=
  if Equal (spc_createdAt a) (spc_createdAt b)
  then string_less (pix_TxID (spc_result a)) (pix_TxID (spc_result b))
  else Before (spc_createdAt a) (spc_createdAt b).
(** The inner loop moves [x] down past the entries it precedes, the last one first; the sorted
    part is kept reversed. *)
Fixpoint move_down (x : stubPixCharge) (rsorted : list stubPixCharge) : list stubPixCharge :=
  match rsorted with
  | y :: r => if lessStubPixCharge x y then y :: move_down x r else x :: rsorted
  | [] => [x]
  end.
Definition sortStubPixCharges (cs : list stubPixCharge) : list stubPixCharge :=
  rev (fold_left (fun rsorted x => move_down x rsorted) cs []).
(** [None]: the bounds of the slice are out of range, a panic. *)
Definition pageStubPixCharges (cs : list stubPixCharge) (page pageSize : Z) : option (list stubPixCharge) :=
  if pageSize <=? 0 then Some []
  else
    let n := Z.of_nat (List.length cs) in
    let start := mul64 page pageSize in
    if n <=? start then Some []
    else
      let stop := add64 start pageSize in
      let stop := if n <? stop then n else stop in
      if (start <? 0) || (stop <? start) then None
      else Some (take (Z.to_nat (stop - start)) (skipn (Z.to_nat start) cs)).
Definition out_of_range : error := New "runtime error: slice bounds out of range".
Definition in_window (filter : PixListFilter) (at_ : Time) : bool :=
  negb (Before at_ (plf_Start filter) || After at_ (plf_End filter)).
Definition pix_matches (tenantID : string) (filter : PixListFilter) (m : gmap string stubPixCharge)
    : list stubPixCharge :=
  map snd (List.filter (fun kc => HasPrefix kc.1 (key tenantID "") && in_window filter (spc_createdAt kc.2))
    (iterate m)).
Definition stub_ListImmediateCharges (tenantID : string) (filter : PixListFilter) : stub PixChargeList :=
  with_credential tenantID
    (abort (IsZero (plf_Start filter) || IsZero (plf_End filter)) with ErrValidation ;;
     readM (fun s =>
       let matches := sortStubPixCharges (pix_matches tenantID filter (sp_map s pixCharges)) in
       let total := Z.of_nat (List.length matches) in
       let '(page, pageSize) := if plf_PageSize filter <=? 0 then (0, total)
                                else (plf_Page filter, plf_PageSize filter) in
       match pageStubPixCharges matches page pageSize with
       | None => Err out_of_range
       | Some out =>
           Ok {| pcl_Charges := map spc_result out; pcl_Page := page; pcl_PageSize := pageSize;
                 pcl_TotalItems := total;
                 pcl_TotalPages := if 0 <? pageSize
                                   then div64 (sub64 (add64 total pageSize) 1) pageSize else 0 |}
       end)).

(** * stub_cobv.go: due-date charges

    A created charge is written to the charges of stub.go too. *)
Definition cobvAnchor (req : PixDueChargeRequest) : string := or_given (dcr_IdempotencyKey req) (dcr_TxID req).
Definition due_terms (req : PixDueChargeRequest) (r : PixDueChargeResult) : PixDueChargeResult :=
  {| dcs_TxID := dcs_TxID r; dcs_Status := dcs_Status r; dcs_QRCodePayload := dcs_QRCodePayload r;
     dcs_QRCodeLocation := dcs_QRCodeLocation r; dcs_DueDate := dcr_DueDate req;
     dcs_ValidityDays := dcr_ValidityDays req; dcs_FineBps := dcr_FineBps req;
     dcs_MonthlyInterestBps := dcr_MonthlyInterestBps req; dcs_DiscountBps := dcr_DiscountBps req;
     dcs_DiscountFixedCents := dcr_DiscountFixedCents req; dcs_ExpectedAmountCents := dcr_AmountCents req;
     dcs_ReceivedAmountCents := dcs_ReceivedAmountCents r |}.
Definition zero_due : PixDueChargeResult :=
  {| dcs_TxID := ""; dcs_Status := ""; dcs_QRCodePayload := ""; dcs_QRCodeLocation := "";
     dcs_DueDate := zeroTime; dcs_ValidityDays := 0; dcs_FineBps := 0; dcs_MonthlyInterestBps := 0;
     dcs_DiscountBps := 0; dcs_DiscountFixedCents := 0; dcs_ExpectedAmountCents := 0;
     dcs_ReceivedAmountCents := 0 |}.
Definition new_due (txID : string) (req : PixDueChargeRequest) : PixDueChargeResult :=
  due_terms req
    {| dcs_TxID := txID; dcs_Status := "ATIVA"; dcs_QRCodePayload := "00020126-cobv-" ++ txID;
       dcs_QRCodeLocation := "https://pix.stub.example/cobv/" ++ txID; dcs_DueDate := zeroTime;
       dcs_ValidityDays := 0; dcs_FineBps := 0; dcs_MonthlyInterestBps := 0; dcs_DiscountBps := 0;
       dcs_DiscountFixedCents := 0; dcs_ExpectedAmountCents := 0; dcs_ReceivedAmountCents := 0 |}.
Definition stub_CreateDueCharge (tenantID : string) (req : PixDueChargeRequest) : stub PixDueChargeResult :=
  with_credential tenantID
    (let anchor := cobvAnchor req in
     abort (bool_decide (anchor = "") || (dcr_AmountCents req <=? 0)) with ErrValidation ;;
     do known <- peek cobvDueByIdem (key tenantID anchor) ;;
     match known with
     | Some txID =>
         do c <- peek cobvCharges (key tenantID txID) ;;
         retM (default zero_due c)
     | None =>
         let txID := stubPixTxID anchor in
         let r := new_due txID req in
         do _ <- put cobvCharges (key tenantID txID) r ;;
         do _ <- put cobvDueByIdem (key tenantID anchor) txID ;;
         do _ <- put charges_ (key tenantID txID) (new_charge txID "ATIVA" (dcr_AmountCents req)) ;;
         retM r
     end).
Definition stub_GetDueCharge (tenantID txID : string) : stub PixDueChargeResult :=
  get_entry cobvCharges tenantID txID.
Definition expecting (cents : Z) (c : ChargeResult) : ChargeResult :=
  {| cr_TxID := cr_TxID c; cr_Status := cr_Status c; cr_ExpectedAmountCents := cents;
     cr_ReceivedAmountCents := cr_ReceivedAmountCents c; cr_Installments := cr_Installments c;
     cr_Message := cr_Message c; cr_SettlementKey := cr_SettlementKey c |}.
Definition stub_UpdateDueCharge (tenantID txID : string) (req : PixDueChargeRequest) : stub PixDueChargeResult :=
  with_credential tenantID
    (abort (dcr_AmountCents req <=? 0) with ErrValidation ;;
     do existing <- find cobvCharges (key tenantID txID) ;;
     do _ <- put cobvCharges (key tenantID txID) (due_terms req existing) ;;
     do _ <- if_there charges_ (key tenantID txID) (expecting (dcr_AmountCents req)) ;;
     retM (due_terms req existing)).

(** * stub_products.go: boletos *)
Definition new_boleto (req : BoletoRequest) : BoletoResult :=
  let modality := Modality_Normalized (brq_Modality req) in
  {| br_BoletoID := brq_BoletoID req; br_TxID := "tx_" ++ brq_BoletoID req; br_Status := "REGISTERED";
     br_Modality := modality; br_ExternalReferenceID := "";
     br_QRCode := if bool_decide (modality = ModalityBolepix) then "pix-emv-" ++ brq_BoletoID req else "";
     br_OurNumber := ""; br_DigitableLine := ""; br_Barcode := "barcode-" ++ brq_BoletoID req;
     br_AmountCents := brq_AmountCents req; br_DueDate := brq_DueDate req;
     br_ValidUntil := brq_ValidUntil req; br_FineBps := brq_FineBps req;
     br_FineFixedCents := brq_FineFixedCents req; br_MonthlyInterestBps := brq_MonthlyInterestBps req;
     br_Discounts := brq_Discounts req |}.
(** The entry under an identifier the caller chose, made if it is not there. *)
Definition create_once (T : table) (tenantID id : string) (v : entry_of T) : stub (entry_of T) :=
  do prev <- peek T (key tenantID id) ;;
  match prev with
  | Some prev => retM prev
  | None => do _ <- put T (key tenantID id) v ;; retM v
  end.
Definition stub_CreateBoleto (tenantID : string) (req : BoletoRequest) : stub BoletoResult :=
  with_credential tenantID (create_once boletos tenantID (brq_BoletoID req) (new_boleto req)).
Definition stub_GetBoleto (tenantID boletoID : string) : stub BoletoResult := get_entry boletos tenantID boletoID.
Definition with_status (status : string) (r : BoletoResult) : BoletoResult :=
  {| br_BoletoID := br_BoletoID r; br_TxID := br_TxID r; br_Status := status; br_Modality := br_Modality r;
     br_ExternalReferenceID := br_ExternalReferenceID r; br_QRCode := br_QRCode r;
     br_OurNumber := br_OurNumber r; br_DigitableLine := br_DigitableLine r; br_Barcode := br_Barcode r;
     br_AmountCents := br_AmountCents r; br_DueDate := br_DueDate r; br_ValidUntil := br_ValidUntil r;
     br_FineBps := br_FineBps r; br_FineFixedCents := br_FineFixedCents r;
     br_MonthlyInterestBps := br_MonthlyInterestBps r; br_Discounts := br_Discounts r |}.
Definition stub_CancelBoleto (tenantID boletoID : string) : stub BoletoResult :=
  amend boletos tenantID boletoID (with_status "CANCELLED").
Definition patched (p : BoletoPatch) (r : BoletoResult) : BoletoResult :=
  {| br_BoletoID := br_BoletoID r; br_TxID := br_TxID r; br_Status := br_Status r; br_Modality := br_Modality r;
     br_ExternalReferenceID := br_ExternalReferenceID r; br_QRCode := br_QRCode r;
     br_OurNumber := br_OurNumber r; br_DigitableLine := br_DigitableLine r; br_Barcode := br_Barcode r;
     br_AmountCents := default (br_AmountCents r) (bpt_AmountCents p);
     br_DueDate := default (br_DueDate r) (bpt_DueDate p);
     br_ValidUntil := default (br_ValidUntil r) (bpt_ValidUntil p);
     br_FineBps := default (br_FineBps r) (bfp_FineBps <$> bpt_Fees p);
     br_FineFixedCents := default (br_FineFixedCents r) (bfp_FineFixedCents <$> bpt_Fees p);
     br_MonthlyInterestBps := default (br_MonthlyInterestBps r) (bfp_MonthlyInterestBps <$> bpt_Fees p);
     br_Discounts := default (br_Discounts r) (bfp_Discounts <$> bpt_Fees p) |}.
Definition stub_UpdateBoleto (tenantID boletoID : string) (patch : BoletoPatch) : stub BoletoResult :=
  amend boletos tenantID boletoID (patched patch).
Definition nl : string := String "010" "".
Definition stub_GetBoletoPDF (tenantID boletoID : string) : stub BoletoDocument :=
  do _ <- get_entry boletos tenantID boletoID ;;
  retM {| bdoc_ContentType := "application/pdf"; bdoc_Filename := "boleto-" ++ boletoID ++ ".pdf";
          bdoc_Content := bytes_of ("%PDF-1.4" ++ nl ++ "% stub boleto " ++ boletoID ++ nl ++ "%%EOF" ++ nl) |}.
Definition stub_GetBoletoByBankRef (tenantID bankRef : string) : stub BoletoResult := stub_GetBoleto tenantID bankRef.
Definition MarkBoletoStatus (tenantID boletoID status : string) : stub unit :=
  if_there boletos (key tenantID boletoID) (with_status status).

(** * stub_products.go: checkout sessions *)
Definition new_checkout (req : CheckoutRequest) : CheckoutResult :=
  {| co_SessionID := crq_SessionID req; co_Status := "OPEN";
     co_RedirectURL := "https://checkout.c6.example/" ++ crq_SessionID req;
     co_AmountCents := fold_left (fun sum it => add64 sum (coi_AmountCents it)) (crq_Items req) 0;
     co_ReceivedAmountCents := 0; co_CardType := crq_CardType req;
     co_RequireAuthentication := crq_RequireAuthentication req; co_MaxInstallments := 0;
     co_Installments := 0; co_Message := "" |}.
Definition stub_CreateCheckoutSession (tenantID : string) (req : CheckoutRequest) : stub CheckoutResult :=
  with_credential tenantID (create_once checkouts tenantID (crq_SessionID req) (new_checkout req)).
Definition stub_GetCheckoutSession (tenantID sessionID : string) : stub CheckoutResult :=
  get_entry checkouts tenantID sessionID.
Definition session_state (status url : string) (received : Z) (r : CheckoutResult) : CheckoutResult :=
  {| co_SessionID := co_SessionID r; co_Status := status; co_RedirectURL := url;
     co_AmountCents := co_AmountCents r; co_ReceivedAmountCents := received; co_CardType := co_CardType r;
     co_RequireAuthentication := co_RequireAuthentication r; co_MaxInstallments := co_MaxInstallments r;
     co_Installments := co_Installments r; co_Message := co_Message r |}.
Definition stub_CancelCheckoutSession (tenantID sessionID : string) : stub CheckoutResult :=
  amend checkouts tenantID sessionID (fun r => session_state "CANCELLED" "" (co_ReceivedAmountCents r) r).
Definition MarkCheckoutPaid (tenantID sessionID : string) : stub unit :=
  if_there checkouts (key tenantID sessionID) (fun r => session_state "paid" (co_RedirectURL r) (co_AmountCents r) r).
Definition MarkCheckoutPaidWithReceived (tenantID sessionID : string) (receivedCents : Z) : stub unit :=
  if_there checkouts (key tenantID sessionID) (fun r => session_state "paid" (co_RedirectURL r) receivedCents r).

(** * stub_dda.go: groups of payments *)
Definition SeedDDABoletos (tenantID : string) (bonds : list DDABoleto) : stub unit := put ddaBoletos tenantID bonds.
Definition stubHash (n : nat) (parts : list string) : string :=
  String.substring 0 n (hex (sha256 (List.concat (map (fun p => bytes_of p ++ ["000"%char])%list parts)))).
Definition stub_ListOpenBoletos (tenantID : string) : stub (list DDABoleto) :=
  with_credential tenantID (do bonds <- peek ddaBoletos tenantID ;; retM (default [] bonds)).
Definition stubProductType (content : string) : string :=
  match ValidateContent content with
  | Err _ => ""
  | Ok _ => if (len content =? 44) || (len content =? 47) || (len content =? 48) then "BOLETO" else "PIX"
  end.
Definition new_item (anchor : string) (due : Time) (pay : DDAPayment) : DDAItem :=
  let content := TrimSpace (dp_Content pay) in
  {| di_ID := "ddai_" ++ stubHash 20 [anchor; content]; di_Content := content;
     di_AmountCents := dp_AmountCents pay; di_DueDate := due; di_Status := status_text StatusReadData;
     di_ProductType := stubProductType content; di_ErrorMessage := ""; di_Overdue := false |}.
Definition payment_refused (pay : DDAPayment) : bool :=
  bool_decide (TrimSpace (dp_Content pay) = "") || (dp_AmountCents pay <=? 0).
Definition stub_CreatePaymentGroup (tenantID : string) (req : DDAGroupRequest) : stub DDAGroup :=
  with_credential tenantID
    (let anchor := dgr_IdempotencyKey req in
     abort (bool_decide (anchor = "") || bool_decide (dgr_Payments req = [])) with ErrValidation ;;
     abort (existsb payment_refused (dgr_Payments req)) with ErrValidation ;;
     do known <- peek ddaGroupByIdem (key tenantID anchor) ;;
     match known with
     | Some groupID => retM {| dg_ID := groupID; dg_Items := [] |}
     | None =>
         let groupID := "ddag_" ++ stubHash 24 [tenantID; anchor] in
         do now <- read_clock ;;
         let due := AddDays now 7 in
         do _ <- put ddaGroups (key tenantID groupID) (map (new_item anchor due) (dgr_Payments req)) ;;
         do _ <- put ddaGroupByIdem (key tenantID anchor) groupID ;;
         retM {| dg_ID := groupID; dg_Items := [] |}
     end).
Definition stub_GetPaymentGroup (tenantID groupID : string) : stub DDAGroup :=
  do items <- get_entry ddaGroups tenantID groupID ;; retM {| dg_ID := groupID; dg_Items := items |}.
Definition stub_RemovePaymentGroupItems (tenantID groupID : string) (itemIDs : list string) : stub unit :=
  do _ <- amend ddaGroups tenantID groupID
            (List.filter (fun it => negb (bool_decide (di_ID it ∈ itemIDs)))) ;;
  retM tt.
Definition stub_RemovePaymentGroupItem (tenantID groupID itemID : string) : stub unit :=
  stub_RemovePaymentGroupItems tenantID groupID [itemID].
Definition scheduled (it : DDAItem) : DDAItem :=
  {| di_ID := di_ID it; di_Content := di_Content it; di_AmountCents := di_AmountCents it;
     di_DueDate := di_DueDate it; di_Status := status_text StatusScheduled;
     di_ProductType := di_ProductType it; di_ErrorMessage := di_ErrorMessage it; di_Overdue := di_Overdue it |}.
Definition stub_SubmitPaymentGroup (tenantID groupID uploaderName idemKey : string) : stub unit :=
  with_credential tenantID
    (abort (bool_decide (TrimSpace uploaderName = "")) with ErrValidation ;;
     do items <- find ddaGroups (key tenantID groupID) ;;
     put ddaGroups (key tenantID groupID) (map scheduled items)).

(** * stub_statement.go *)
Definition SeedStatementEntries (tenantID : string) (entries : list StatementEntry) : stub unit :=
  put stmtEntries tenantID entries.
Definition stub_GetStatement (tenantID : string) (filter : StatementFilter) : stub Statement :=
  with_credential tenantID
    (do entries <- peek stmtEntries tenantID ;;
     retM {| stm_Entries := List.filter
               (fun e => negb (Before (ste_Date e) (stf_Start filter) || After (ste_Date e) (stf_End filter)))
               (default [] entries) |}).

(** * stub_recurrence.go: callbacks *)
Definition stubHTTPSURL (raw : string) : bool :=
  match url_Parse (TrimSpace raw) with
  | Some (scheme, host) => bool_decide (scheme = "https") && negb (bool_decide (host = ""))
  | None => false
  end.
Definition registerRecurrenceWebhook (tenantID webhookURL : string) (into : string -> Callback -> stub unit) : stub unit :=
  with_credential tenantID
    (abort (bool_decide (TrimSpace tenantID = "") || negb (stubHTTPSURL webhookURL)) with ErrValidation ;;
     do now <- read_clock ;;
     into tenantID {| cb_WebhookURL := webhookURL; cb_CreatedAt := now |}).
Definition stub_RegisterRecWebhook (tenantID webhookURL : string) : stub unit :=
  registerRecurrenceWebhook tenantID webhookURL (put recWebhooks).
Definition stub_GetRecWebhook (tenantID : string) : stub Callback := with_credential tenantID (find recWebhooks tenantID).
Definition stub_RegisterCobRWebhook (tenantID webhookURL : string) : stub unit :=
  registerRecurrenceWebhook tenantID webhookURL (put cobrWebhooks).
Definition stub_GetCobRWebhook (tenantID : string) : stub Callback := with_credential tenantID (find cobrWebhooks tenantID).

(** * stub_recurrence.go: mandates *)
Definition stubRecID (prefix seed : string) : string :=
  prefix ++ String.substring 0 27 (hex (sha256 (bytes_of seed))).
Definition stub_CreateRec (tenantID : string) (req : CreateRecRequest) : stub RecResult :=
  with_credential tenantID
    (abort (bool_decide (rv_Contrato (crr_Vinculo req) = "")
            || bool_decide (rcal_DataInicial (crr_Calendario req) = "")
            || bool_decide (crr_PoliticaRetentativa req = "")) with ErrValidation ;;
     let idRec := stubRecID "RN" (or_given (crr_IdempotencyKey req) (key tenantID (rv_Contrato (crr_Vinculo req)))) in
     let k := key tenantID idRec in
     do prev <- peek recs_ k ;;
     match prev with
     | Some prev => retM prev
     | None =>
         do location <- peek locRecs (key tenantID (FormatInt (crr_LocID req))) ;;
         let r := {| rr_IDRec := idRec; rr_Status := RecCriada; rr_Vinculo := crr_Vinculo req;
                     rr_Calendario := crr_Calendario req;
                     rr_Recebedor := {| rb_ISPB := ""; rb_CNPJ := ""; rb_CPF := ""; rb_Nome := "" |};
                     rr_PoliticaRetentativa := crr_PoliticaRetentativa req;
                     rr_TipoJornada := "AGUARDANDO_DEFINICAO"; rr_LocID := crr_LocID req;
                     rr_Location := default "" (lrr_Location <$> location);
                     rr_ValorRecCents := crr_ValorRecCents req;
                     rr_DadosQR := {| qr_Jornada := ""; qr_PixCopiaECola := "" |} |} in
         let txid := TrimSpace (crr_JornadaTxID req) in
         do _ <- (if bool_decide (txid = "") then retM tt else put recJornadaTxID k txid) ;;
         do _ <- put recs_ k r ;;
         retM r
     end).
Definition stubBRCode (idRec txID : string) : string :=
  "00020101021226STUB" ++
  ToUpper (String.substring 0 32 (hex (sha256 (bytes_of (key "brcode" (key idRec txID)))))).
Definition rec_with (status journey : string) (qr : RecDadosQR) (r : RecResult) : RecResult :=
  {| rr_IDRec := rr_IDRec r; rr_Status := status; rr_Vinculo := rr_Vinculo r; rr_Calendario := rr_Calendario r;
     rr_Recebedor := rr_Recebedor r; rr_PoliticaRetentativa := rr_PoliticaRetentativa r;
     rr_TipoJornada := journey; rr_LocID := rr_LocID r; rr_Location := rr_Location r;
     rr_ValorRecCents := rr_ValorRecCents r; rr_DadosQR := qr |}.
Definition with_qr (r : RecResult) (journey payload : string) : RecResult :=
  rec_with (rr_Status r) (rr_TipoJornada r) {| qr_Jornada := journey; qr_PixCopiaECola := payload |} r.
Definition stub_GetRecForQR (tenantID idRec txID : string) : stub RecResult :=
  with_credential tenantID
    (do r <- find recs_ (key tenantID idRec) ;;
     let txID := TrimSpace txID in
     if bool_decide (txID = "") then retM (with_qr r "JORNADA_2" (stubBRCode idRec ""))
     else
       do journey <- peek recJornadaTxID (key tenantID idRec) ;;
       retM (if bool_decide (journey = Some txID) then with_qr r "JORNADA_3" (stubBRCode idRec txID) else r)).
Definition stub_GetRec (tenantID idRec : string) : stub RecResult := get_entry recs_ tenantID idRec.
Definition setRecStatus (tenantID idRec status : string) : stub RecResult :=
  with_credential tenantID
    (do r <- find recs_ (key tenantID idRec) ;;
     do journey <- peek recJornadaTxID (key tenantID idRec) ;;
     let composed := bool_decide (status = RecAprovada) && negb (bool_decide (default "" journey = "")) in
     let r := rec_with status (if composed then "JORNADA_3" else rr_TipoJornada r) (rr_DadosQR r) r in
     do _ <- put recs_ (key tenantID idRec) r ;;
     retM r).
Definition ApproveRec (tenantID idRec : string) : stub RecResult := setRecStatus tenantID idRec RecAprovada.
Definition SetRecStatus (tenantID idRec status : string) : stub RecResult := setRecStatus tenantID idRec status.
Definition stub_CancelRec (tenantID idRec : string) : stub RecResult :=
  amend recs_ tenantID idRec (fun r => rec_with RecCancelada (rr_TipoJornada r) (rr_DadosQR r) r).

(** * stub_recurrence.go: locations *)
Definition next_location : stub Z := fun s =>
  let id := add64 (sp_locRecSeq s) 1 in
  ({| sp_now := sp_now s; sp_map := sp_map s; sp_locRecSeq := id |}, Ok id).
Definition zero_location : LocRecResult :=
  {| lrr_ID := 0; lrr_Location := ""; lrr_Criacao := zeroTime; lrr_IDRec := "" |}.
Definition stub_CreateLocRec (tenantID idempotencyKey : string) : stub LocRecResult :=
  with_credential tenantID
    (abort (bool_decide (TrimSpace tenantID = "")) with ErrValidation ;;
     let idem := TrimSpace idempotencyKey in
     let mint :=
       do id <- next_location ;;
       do now <- read_clock ;;
       let r := {| lrr_ID := id;
                   lrr_Location := "https://pix.stub.example/qr/v2/rec/" ++ stubRecID "LC" (key tenantID (FormatInt id));
                   lrr_Criacao := now; lrr_IDRec := "" |} in
       do _ <- put locRecs (key tenantID (FormatInt id)) r ;;
       do _ <- (if bool_decide (idem = "") then retM tt else put locRecByIdem (key tenantID idem) id) ;;
       retM r in
     if bool_decide (idem = "") then mint
     else
       do known <- peek locRecByIdem (key tenantID idem) ;;
       match known with
       | Some id =>
           do l <- peek locRecs (key tenantID (FormatInt id)) ;; retM (default zero_location l)
       | None => mint
       end).
Definition stub_GetLocRec (tenantID : string) (id : Z) : stub LocRecResult :=
  with_credential tenantID
    (abort (id <=? 0) with ErrValidation ;; find locRecs (key tenantID (FormatInt id))).
Definition stub_UnlinkLocRec (tenantID : string) (id : Z) : stub LocRecResult :=
  with_credential tenantID
    (abort (id <=? 0) with ErrValidation ;;
     do l <- find locRecs (key tenantID (FormatInt id)) ;;
     let l := {| lrr_ID := lrr_ID l; lrr_Location := lrr_Location l; lrr_Criacao := lrr_Criacao l; lrr_IDRec := "" |} in
     do _ <- put locRecs (key tenantID (FormatInt id)) l ;;
     retM l).

(** * stub_recurrence.go: confirmations and charges *)
Definition stub_CreateSolicRec (tenantID : string) (req : CreateSolicRecRequest) : stub SolicRecResult :=
  with_credential tenantID
    (abort (bool_decide (csr_IDRec req = "") || IsZero (csr_ExpiraEm req)) with ErrValidation ;;
     let idSolicRec := stubRecID "SC" (or_given (csr_IdempotencyKey req) (key tenantID (csr_IDRec req))) in
     create_once solicRecs tenantID idSolicRec
       {| srr_IDSolicRec := idSolicRec; srr_IDRec := csr_IDRec req; srr_Status := "CRIADA";
          srr_Destinatario := csr_Destinatario req; srr_ExpiraEm := csr_ExpiraEm req |}).
Definition stub_GetSolicRec (tenantID idSolicRec : string) : stub SolicRecResult :=
  get_entry solicRecs tenantID idSolicRec.
Definition stub_CreateCobR (tenantID : string) (req : CreateCobRRequest) : stub CobRResult :=
  with_credential tenantID
    (abort (bool_decide (ccr_TxID req = "") || bool_decide (ccr_IDRec req = "") || (ccr_ValorCents req <=? 0))
       with ErrValidation ;;
     create_once cobrs_ tenantID (ccr_TxID req)
       {| cbr_TxID := ccr_TxID req; cbr_IDRec := ccr_IDRec req; cbr_Status := "CRIADA";
          cbr_ValorCents := ccr_ValorCents req |}).
Definition stub_GetCobR (tenantID txID : string) : stub CobRResult := get_entry cobrs_ tenantID txID.
Definition cancelled_cobr (r : CobRResult) : CobRResult :=
  {| cbr_TxID := cbr_TxID r; cbr_IDRec := cbr_IDRec r; cbr_Status := "CANCELADA"; cbr_ValorCents := cbr_ValorCents r |}.
Definition stub_CancelCobR (tenantID txID : string) : stub CobRResult :=
  with_credential tenantID
    (abort (bool_decide (TrimSpace txID = "")) with ErrValidation ;;
     do r <- find cobrs_ (key tenantID txID) ;;
     do _ <- put cobrs_ (key tenantID txID) (cancelled_cobr r) ;;
     retM (cancelled_cobr r)).
Definition stub_RetryCobR (tenantID txID dataRetentativa : string) : stub CobRResult :=
  with_credential tenantID
    (abort (bool_decide (txID = "") || bool_decide (dataRetentativa = "")) with ErrValidation ;;
     find cobrs_ (key tenantID txID)).

Definition run {A} (tenantID : string) (m : method A) : stub A :=
  match m with
  | MCreateCharge req => stub_CreateCharge tenantID req
  | MGetCharge txID => stub_GetCharge tenantID txID
  | MMarkSettled txID => MarkSettled tenantID txID
  | MMarkSettledWithReceived txID cents => MarkSettledWithReceived tenantID txID cents
  | MCreateImmediateCharge req expiresIn => stub_CreateImmediateCharge tenantID req expiresIn
  | MGetImmediateCharge txID => stub_GetImmediateCharge tenantID txID
  | MListImmediateCharges filter => stub_ListImmediateCharges tenantID filter
  | MCreateDueCharge req => stub_CreateDueCharge tenantID req
  | MGetDueCharge txID => stub_GetDueCharge tenantID txID
  | MUpdateDueCharge txID req => stub_UpdateDueCharge tenantID txID req
  | MCreateBoleto req => stub_CreateBoleto tenantID req
  | MGetBoleto id => stub_GetBoleto tenantID id
  | MCancelBoleto id => stub_CancelBoleto tenantID id
  | MUpdateBoleto id patch => stub_UpdateBoleto tenantID id patch
  | MGetBoletoPDF id => stub_GetBoletoPDF tenantID id
  | MGetBoletoByBankRef ref => stub_GetBoletoByBankRef tenantID ref
  | MMarkBoletoStatus id status => MarkBoletoStatus tenantID id status
  | MCreateCheckoutSession req => stub_CreateCheckoutSession tenantID req
  | MGetCheckoutSession id => stub_GetCheckoutSession tenantID id
  | MCancelCheckoutSession id => stub_CancelCheckoutSession tenantID id
  | MMarkCheckoutPaid id => MarkCheckoutPaid tenantID id
  | MMarkCheckoutPaidWithReceived id cents => MarkCheckoutPaidWithReceived tenantID id cents
  | MSeedDDABoletos bonds => SeedDDABoletos tenantID bonds
  | MListOpenBoletos => stub_ListOpenBoletos tenantID
  | MCreatePaymentGroup req => stub_CreatePaymentGroup tenantID req
  | MGetPaymentGroup id => stub_GetPaymentGroup tenantID id
  | MRemovePaymentGroupItems id items => stub_RemovePaymentGroupItems tenantID id items
  | MRemovePaymentGroupItem id item => stub_RemovePaymentGroupItem tenantID id item
  | MSubmitPaymentGroup id uploader idem => stub_SubmitPaymentGroup tenantID id uploader idem
  | MSeedStatementEntries entries => SeedStatementEntries tenantID entries
  | MGetStatement filter => stub_GetStatement tenantID filter
  | MRegisterRecWebhook url => stub_RegisterRecWebhook tenantID url
  | MGetRecWebhook => stub_GetRecWebhook tenantID
  | MRegisterCobRWebhook url => stub_RegisterCobRWebhook tenantID url
  | MGetCobRWebhook => stub_GetCobRWebhook tenantID
  | MCreateRec req => stub_CreateRec tenantID req
  | MGetRec idRec => stub_GetRec tenantID idRec
  | MGetRecForQR idRec txID => stub_GetRecForQR tenantID idRec txID
  | MApproveRec idRec => ApproveRec tenantID idRec
  | MSetRecStatus idRec status => SetRecStatus tenantID idRec status
  | MCancelRec idRec => stub_CancelRec tenantID idRec
  | MCreateSolicRec req => stub_CreateSolicRec tenantID req
  | MGetSolicRec id => stub_GetSolicRec tenantID id
  | MCreateCobR req => stub_CreateCobR tenantID req
  | MGetCobR txID => stub_GetCobR tenantID txID
  | MCancelCobR txID => stub_CancelCobR tenantID txID
  | MRetryCobR txID date => stub_RetryCobR tenantID txID date
  | MCreateLocRec key => stub_CreateLocRec tenantID key
  | MGetLocRec id => stub_GetLocRec tenantID id
  | MUnlinkLocRec id => stub_UnlinkLocRec tenantID id
  end.

(** * The ports it stands for *)
Definition stub_bank : BankProvider StubProvider :=
  {| bank_CreateCharge := stub_CreateCharge; bank_GetCharge := stub_GetCharge |}.
Definition stub_pix : PixProvider StubProvider :=
  {| pix_CreateImmediateCharge := stub_CreateImmediateCharge;
     pix_GetImmediateCharge := stub_GetImmediateCharge;
     pix_ListImmediateCharges := stub_ListImmediateCharges |}.
Definition stub_due : PixDueChargeProvider StubProvider :=
  {| due_CreateDueCharge := stub_CreateDueCharge; due_GetDueCharge := stub_GetDueCharge;
     due_UpdateDueCharge := stub_UpdateDueCharge |}.
Definition stub_boleto : BoletoProvider StubProvider :=
  {| boleto_CreateBoleto := stub_CreateBoleto; boleto_GetBoleto := stub_GetBoleto;
     boleto_CancelBoleto := stub_CancelBoleto; boleto_GetBoletoByBankRef := stub_GetBoletoByBankRef;
     boleto_GetBoletoPDF := stub_GetBoletoPDF; boleto_UpdateBoleto := stub_UpdateBoleto |}.
Definition stub_checkout : CheckoutProvider StubProvider :=
  {| checkout_CreateCheckoutSession := stub_CreateCheckoutSession;
     checkout_GetCheckoutSession := stub_GetCheckoutSession;
     checkout_CancelCheckoutSession := stub_CancelCheckoutSession |}.
Definition stub_dda : DDAProvider StubProvider :=
  {| dda_ListOpenBoletos := stub_ListOpenBoletos; dda_CreatePaymentGroup := stub_CreatePaymentGroup;
     dda_GetPaymentGroup := stub_GetPaymentGroup; dda_RemovePaymentGroupItems := stub_RemovePaymentGroupItems;
     dda_RemovePaymentGroupItem := stub_RemovePaymentGroupItem;
     dda_SubmitPaymentGroup := stub_SubmitPaymentGroup |}.
Definition stub_statement : StatementProvider StubProvider :=
  {| statement_GetStatement := stub_GetStatement |}.
End provider.

