(* ===== verification/StubTenants.v ===== *)
(** What the stub bank promises its tenants: the facts on its maps, the isolation of a tenant
    from the calls of the others, and the repeat of a request that names itself. *)
From stdpp Require Import sorting.
From S2P Require Import Prelude GoStrings GoTime GoCrypto GoText GoSort Shared Mandates Ports BankPorts MemStore.
From S2P Require Import PixKeys PaymentGroups BankSurfaces BankIdentity MandateWebhook RecurrenceSvc StubBank.
#[global] Open Scope Z_scope.

(** * Facts on the maps *)
Lemma with_map_same s T m : sp_map (with_map s T m) T = m.
Proof. cbn. destruct (decide (T = T)) as [e|]; [|done]. by rewrite (proof_irrel e eq_refl). Qed.
Lemma with_map_other s T m U : T <> U -> sp_map (with_map s T m) U = sp_map s U.
Proof. intros Hn. cbn. by destruct (decide (T = U)). Qed.
Lemma lookup_with_map s T k v U l :
  sp_map (with_map s T (<[k := v]> (sp_map s T))) U !! l
  = match decide (T = U) with
    | left e => if decide (k = l) then Some (eq_rect T entry_of v U e) else sp_map s U !! l
    | right _ => sp_map s U !! l
    end.
Proof.
  destruct (decide (T = U)) as [<-|Hn]; [|by rewrite with_map_other].
  rewrite with_map_same. cbn. destruct (decide (k = l)) as [<-|Hk]; [apply lookup_insert_eq|by apply lookup_insert_ne].
Qed.

(** ** Whose an entry is *)
Definition owned (t k : string) : Prop := k = t \/ exists id, k = key t id.
Lemma key_owned t id : owned t (key t id).
Proof. right. by exists id. Qed.
Lemma self_owned t : owned t t.
Proof. by left. Qed.
Lemma owner_unique t t' k : nul_free t -> nul_free t' -> owned t k -> owned t' k -> t = t'.
Proof.
  assert (Hk : forall a b id, nul_free a -> key b id = a -> False).
  { intros a b id Ha <-. apply Ha. rewrite bytes_key. set_solver. }
  intros Ht Ht' [->|[id ->]] [E|[id' E]]; [done|..].
  - by destruct (Hk t t' id' Ht (eq_sym E)).
  - by destruct (Hk t' t id Ht' E).
  - by apply key_unique in E as [E _].
Qed.

(** * What one tenant sees *)
(** Two states a tenant cannot tell apart. *)
Record same_view (t : string) (s s2 : StubProvider) : Prop := {
  sv_now : sp_now s = sp_now s2;
  sv_map : forall T k, owned t k -> sp_map s T !! k = sp_map s2 T !! k
}.
(** The immediate charges stand under their own txids. *)
Definition filed (s : StubProvider) : Prop := forall k c, sp_map s pixCharges !! k = Some c ->
  exists t, nul_free t /\ k = key t (pix_TxID (spc_result c)).
Record alike (t : string) (s s2 : StubProvider) : Prop := {
  al_view : same_view t s s2; al_filed : filed s; al_filed2 : filed s2
}.
Lemma same_view_refl t s : same_view t s s.
Proof. by split. Qed.
Lemma same_view_trans t s1 s2 s3 : same_view t s1 s2 -> same_view t s2 s3 -> same_view t s1 s3.
Proof. intros [E1 H1] [E2 H2]. split; [congruence|]. intros T k Hk. by rewrite H1, H2. Qed.

(** A computation of the tenant [t]: it depends on what [t] sees, and changes nothing else. *)
Record own {A} (t : string) (m : stub A) : Prop := {
  own_reads : forall s s2, alike t s s2 -> (m s).2 = (m s2).2 /\ alike t (m s).1 (m s2).1
}.
Record aside {A} (t : string) (m : stub A) : Prop := {
  aside_filed : forall s, filed s -> filed (m s).1;
  aside_views : forall s t', nul_free t' -> t' <> t -> same_view t' s (m s).1
}.
Record Confined {A} (t : string) (m : stub A) : Prop := { cf_own : own t m; cf_aside : aside t m }.

Definition files_rightly (T : table) (k : string) (v : entry_of T) : Prop :=
  match T return entry_of T -> Prop with
  | pixCharges => fun c => exists t, nul_free t /\ k = key t (pix_TxID (spc_result c))
  | _ => fun _ => True
  end v.
Lemma filed_put s T k v : filed s -> files_rightly T k v -> filed (with_map s T (<[k := v]> (sp_map s T))).
Proof.
  intros Hs Hv l c Hc. pose proof (eq_trans (eq_sym Hc) (lookup_with_map s T k v pixCharges l)) as E.
  destruct (decide (T = pixCharges)) as [->|]; [|by apply Hs].
  destruct (decide (k = l)) as [<-|]; [|by apply Hs]. injection E as ->. exact Hv.
Qed.

Section confined.
Context (t : string) (Ht : nul_free t).
Lemma confined_ret {A} (a : A) : Confined t (retM a).
Proof. split; split; [done|done|intros; apply same_view_refl]. Qed.
Lemma confined_throw {A} e : Confined t (throwM e : stub A).
Proof. split; split; [done|done|intros; apply same_view_refl]. Qed.
Lemma confined_lift {A} (r : res A) : Confined t (liftM r : stub A).
Proof. split; split; [done|done|intros; apply same_view_refl]. Qed.
Lemma confined_clock : Confined t read_clock.
Proof.
  split; split; [|done|intros; apply same_view_refl].
  intros s s2 H. split; [|exact H]. cbn. by rewrite (sv_now _ _ _ (al_view _ _ _ H)).
Qed.
Lemma confined_peek T k : owned t k -> Confined t (peek T k).
Proof.
  intros Hk. split; split; [|done|intros; apply same_view_refl].
  intros s s2 H. split; [|exact H]. cbn. by rewrite (sv_map _ _ _ (al_view _ _ _ H) T k Hk).
Qed.
Lemma confined_put T k v : owned t k -> files_rightly T k v -> Confined t (put T k v).
Proof.
  intros Hk Hv. split; split.
  - intros s s2 [[En Hm] H1 H2]. split; [done|]. split; [|by apply filed_put..]. split; [exact En|].
    intros U l Hl. cbn [fst put]. rewrite !lookup_with_map. destruct (decide (T = U)) as [<-|]; [|by apply Hm].
    destruct (decide (k = l)); [done|by apply Hm].
  - intros s Hs. by apply filed_put.
  - intros s t' Ht' Hn. split; [done|]. intros U l Hl. cbn [fst put]. rewrite lookup_with_map.
    destruct (decide (T = U)) as [<-|]; [|done]. destruct (decide (k = l)) as [<-|]; [|done].
    destruct Hn. by eapply owner_unique.
Qed.
Lemma confined_bind {A B} (m : stub A) (f : A -> stub B) :
  Confined t m -> (forall a, Confined t (f a)) -> Confined t (bindM m f).
Proof.
  intros [[Hm] [Fm Vm]] Hf. split; split; unfold bindM.
  - intros s s2 H. destruct (Hm s s2 H) as [E R]. destruct (m s) as [s' r], (m s2) as [s2' r2]. cbn in E, R.
    subst r2. destruct r as [a|e]; [|done]. by apply (Hf a).
  - intros s Hs. specialize (Fm s Hs). destruct (m s) as [s' [a|e]]; [|done]. by apply (Hf a).
  - intros s t' Ht' Hn. pose proof (Vm s t' Ht' Hn) as V. destruct (m s) as [s' [a|e]]; [|done].
    eapply same_view_trans; [exact V|]. by apply (Hf a).
Qed.
Lemma confined_find T k : owned t k -> Confined t (find T k).
Proof.
  intros Hk. apply confined_bind; [by apply confined_peek|]. intros [v|]; [apply confined_ret|apply confined_throw].
Qed.
Lemma confined_if_there T k f : owned t k -> T <> pixCharges -> Confined t (if_there T k f).
Proof.
  intros Hk HT. apply confined_bind; [by apply confined_peek|]. intros [v|]; [|apply confined_ret].
  apply confined_put; [done|by destruct T].
Qed.
Lemma confined_credential {A} creds (m : stub A) : Confined t m -> Confined t (with_credential creds t m).
Proof. intros Hm. apply confined_bind; [apply confined_lift|done]. Qed.
Lemma confined_get creds T id : Confined t (get_entry creds T t id).
Proof. apply confined_credential, confined_find, key_owned. Qed.
Lemma confined_amend creds T id f : T <> pixCharges -> Confined t (amend creds T t id f).
Proof.
  intros HT. apply confined_credential, confined_bind; [apply confined_find, key_owned|]. intros v.
  apply confined_bind; [apply confined_put; [apply key_owned|by destruct T]|intros; apply confined_ret].
Qed.
Lemma confined_create_once T id v : T <> pixCharges -> Confined t (create_once T t id v).
Proof.
  intros HT. apply confined_bind; [apply confined_peek, key_owned|]. intros [p|]; [apply confined_ret|].
  apply confined_bind; [apply confined_put; [apply key_owned|by destruct T]|intros; apply confined_ret].
Qed.
End confined.
#[export] Hint Resolve confined_ret confined_throw confined_lift confined_clock confined_peek confined_put
  confined_bind confined_find confined_if_there confined_credential confined_get confined_amend
  confined_create_once key_owned self_owned : stub.
(** Apply the lemmas along the structure of a method. *)
Ltac confine :=
  repeat first
    [ progress intros | progress cbv zeta
    | match goal with |- Confined _ (if ?b then _ else _) => destruct b
                    | |- Confined _ (match ?x with Some _ => _ | None => _ end) => destruct x end
    | apply confined_credential | apply confined_get | apply confined_amend; [done|done]
    | apply confined_create_once; [done|done] | apply confined_if_there; [done|apply key_owned|done]
    | apply confined_find; first [apply key_owned|apply self_owned]
    | apply confined_peek; first [apply key_owned|apply self_owned]
    | apply confined_put; [done|first [apply key_owned|apply self_owned]|first [done|by eexists]]
    | apply confined_ret | apply confined_throw | apply confined_lift | apply confined_clock
    | apply confined_bind ].

(** * The listing *)
#[export] Instance lessStubPixCharge_order : WeakOrder lessStubPixCharge.
Proof.
  assert (Hid : WeakOrder (by_text (fun c => pix_TxID (spc_result c)))) by apply _.
  split; unfold lessStubPixCharge, not_after, Equal, Before.
  - intros x y. rewrite (Z.eqb_sym (ns (spc_createdAt y))).
    destruct (Z.eqb_spec (ns (spc_createdAt x)) (ns (spc_createdAt y))) as [E|E].
    + apply (less_asym (less := by_text (fun c => pix_TxID (spc_result c)))).
    + rewrite Z.ltb_lt, Z.ltb_ge. lia.
  - intros x y z.
    destruct (Z.eqb_spec (ns (spc_createdAt y)) (ns (spc_createdAt x))) as [E1|E1],
      (Z.eqb_spec (ns (spc_createdAt z)) (ns (spc_createdAt y))) as [E2|E2],
      (Z.eqb_spec (ns (spc_createdAt z)) (ns (spc_createdAt x))) as [E3|E3]; rewrite ?Z.ltb_ge; try lia.
    intros H1 H2. exact (not_after_trans (less := by_text (fun c => pix_TxID (spc_result c))) x y z H1 H2).
Qed.
(** The reversed list is kept sorted downwards. *)
Definition not_before (x y : stubPixCharge) : Prop := not_after lessStubPixCharge y x.
Lemma move_down_perm x l : move_down x l ≡ₚ x :: l.
Proof.
  induction l as [|y l IH]; [done|]. cbn [move_down]. destruct (lessStubPixCharge x y); [|done].
  rewrite IH. apply Permutation_swap.
Qed.
Lemma move_down_sorted x l : StronglySorted not_before l -> StronglySorted not_before (move_down x l).
Proof.
  induction 1 as [|y l Hl IH Hy]; cbn [move_down]; [by repeat constructor|].
  destruct (lessStubPixCharge x y) eqn:E.
  - constructor; [done|]. rewrite move_down_perm. constructor; [by apply less_asym|done].
  - constructor; [by constructor|]. constructor; [exact E|].
    eapply Forall_impl; [exact Hy|]. intros z Hz. unfold not_before in *. by trans y.
Qed.
Lemma reverse_sorted {A} (R : A -> A -> Prop) l : StronglySorted (flip R) l -> StronglySorted R (rev l).
Proof.
  induction 1 as [|x l Hl IH Hx]; [constructor|]. cbn [rev]. apply StronglySorted_app_2; [|done|by repeat constructor].
  intros a b Ha ->%list_elem_of_singleton. rewrite <- (Permutation_rev l) in Ha.
  by eapply Forall_forall in Hx.
Qed.
Lemma sortStubPixCharges_spec cs :
  sortStubPixCharges cs ≡ₚ cs /\ StronglySorted (not_after lessStubPixCharge) (sortStubPixCharges cs).
Proof.
  unfold sortStubPixCharges. assert (Hg : forall cs acc, StronglySorted not_before acc ->
    fold_left (fun l x => move_down x l) cs acc ≡ₚ cs ++ acc /\
    StronglySorted not_before (fold_left (fun l x => move_down x l) cs acc)).
  { clear cs. induction cs as [|c cs IH]; intros acc Ha; [done|]. cbn [fold_left].
    destruct (IH (move_down c acc)) as [Hp Hs]; [by apply move_down_sorted|]. split; [|done].
    rewrite Hp, move_down_perm. cbn. by rewrite Permutation_middle. }
  destruct (Hg cs []) as [Hp Hs]; [constructor|]. rewrite app_nil_r in Hp. split.
  - by rewrite <- Permutation_rev.
  - by apply reverse_sorted.
Qed.
Lemma prefix_inv p s : HasPrefix s p = true -> exists r, s = p ++ r.
Proof.
  revert s. induction p as [|c p IH]; intros s Hs; [by exists s|]. destruct s as [|d s]; [done|].
  unfold HasPrefix in Hs. cbn [String.prefix] in Hs. destruct (ascii_dec c d) as [<-|]; [|done].
  destruct (IH s Hs) as [r ->]. by exists r.
Qed.
Lemma key_prefix t k : HasPrefix k (key t "") = true <-> exists id, k = key t id.
Proof.
  assert (E : forall id, key t id = key t "" ++ id) by (intros; unfold key; by rewrite append_assoc).
  split.
  - intros [r ->]%prefix_inv. exists r. symmetry. apply E.
  - intros [id ->]. rewrite E. apply prefix_app.
Qed.

Section listing.
Context `{MapIteration}.
Lemma matches_elem t f (m : gmap string stubPixCharge) c :
  c ∈ pix_matches t f m <-> exists id, m !! key t id = Some c /\ in_window f (spc_createdAt c) = true.
Proof.
  unfold pix_matches. rewrite list_elem_of_In, in_map_iff. split.
  - intros [[k c'] [<- Hin]]. apply filter_In in Hin as [Hin Hp]. cbn in *.
    apply andb_true_iff in Hp as [[id ->]%key_prefix Hw]. exists id. split; [|done].
    apply list_elem_of_In in Hin. rewrite iterate_perm in Hin. by apply elem_of_map_to_list in Hin.
  - intros (id & Hl & Hw). exists (key t id, c). split; [done|]. apply filter_In. cbn. split.
    + apply list_elem_of_In. rewrite iterate_perm. by apply elem_of_map_to_list.
    + apply andb_true_iff. split; [|done]. apply key_prefix. by exists id.
Qed.
Lemma filed_txids s t : nul_free t -> filed s -> forall f x y,
  x ∈ pix_matches t f (sp_map s pixCharges) -> y ∈ pix_matches t f (sp_map s pixCharges) ->
  pix_TxID (spc_result x) = pix_TxID (spc_result y) -> x = y.
Proof.
  intros Ht Hs f x y (i & Hi & _)%matches_elem (j & Hj & _)%matches_elem E.
  destruct (Hs _ _ Hi) as (t1 & H1 & [_ ->]%key_unique), (Hs _ _ Hj) as (t2 & H2 & [_ ->]%key_unique);
    [|done..]. cbn in *. rewrite E in Hi. congruence.
Qed.
Lemma lessStubPixCharge_total x y : lessStubPixCharge x y = false -> lessStubPixCharge y x = false ->
  pix_TxID (spc_result x) = pix_TxID (spc_result y).
Proof.
  unfold lessStubPixCharge, Equal, Before. rewrite (Z.eqb_sym (ns (spc_createdAt y))).
  destruct (Z.eqb_spec (ns (spc_createdAt x)) (ns (spc_createdAt y))); [apply string_less_total|].
  rewrite !Z.ltb_ge. lia.
Qed.
Lemma matches_perm t f m m2 : NoDup (pix_matches t f m) -> NoDup (pix_matches t f m2) ->
  (forall id, m !! key t id = m2 !! key t id) -> pix_matches t f m ≡ₚ pix_matches t f m2.
Proof.
  intros H1 H2 E. apply NoDup_Permutation; [done..|]. intros c. rewrite !matches_elem.
  by setoid_rewrite E.
Qed.
Lemma matches_NoDup s t f : nul_free t -> filed s -> NoDup (pix_matches t f (sp_map s pixCharges)).
Proof.
  intros Ht Hs. unfold pix_matches. apply (NoDup_fmap_2_strong snd).
  - intros [k c] [k' c'] Hk Hk' E. cbn in E. subst c'.
    assert (Hown : forall l, (l, c) ∈ List.filter
      (fun kc => HasPrefix kc.1 (key t "") && in_window f (spc_createdAt kc.2)) (iterate (sp_map s pixCharges)) ->
      l = key t (pix_TxID (spc_result c))).
    { intros l Hl. apply list_elem_of_In, filter_In in Hl as [Hl Hp]. apply list_elem_of_In in Hl.
      rewrite iterate_perm in Hl. apply elem_of_map_to_list in Hl.
      cbn [fst snd] in Hp. apply andb_true_iff, proj1, key_prefix in Hp as [id ->].
      destruct (Hs _ _ Hl) as (t1 & H1 & E). by apply key_unique in E as [_ <-]. }
    by rewrite (Hown _ Hk), (Hown _ Hk').
  - apply NoDup_ListNoDup, List.NoDup_filter, NoDup_ListNoDup. rewrite iterate_perm. apply NoDup_map_to_list.
Qed.
(** A tenant's sorted charges are a function of what it sees. *)
Lemma listed_alike t f s s2 : nul_free t -> alike t s s2 ->
  sortStubPixCharges (pix_matches t f (sp_map s pixCharges))
  = sortStubPixCharges (pix_matches t f (sp_map s2 pixCharges)).
Proof.
  intros Ht [[_ Hm] H1 H2].
  destruct (sortStubPixCharges_spec (pix_matches t f (sp_map s pixCharges))) as [P1 S1],
    (sortStubPixCharges_spec (pix_matches t f (sp_map s2 pixCharges))) as [P2 S2].
  apply (sorted_unique lessStubPixCharge); [done..| |].
  - rewrite P1, P2. apply matches_perm; [by apply matches_NoDup..|]. intros id. apply (Hm pixCharges), key_owned.
  - intros x y. rewrite P1. intros Hx Hy L1 L2.
    apply (filed_txids s t Ht H1 f); [done..|]. by apply lessStubPixCharge_total.
Qed.
Lemma confined_list creds t f : nul_free t -> Confined t (stub_ListImmediateCharges creds t f).
Proof.
  intros Ht. apply confined_credential. destruct (_ || _); [apply confined_throw|].
  split; split; [|done|intros; apply same_view_refl].
  intros s s2 Hs. split; [|exact Hs]. cbn. by rewrite (listed_alike t f s s2).
Qed.
End listing.

(** * Isolation *)
Definition mints {A} (m : method A) : bool := match m with MCreateLocRec _ => true | _ => false end.
Section isolation.
Context (creds : string -> string -> res BankCredential) (url_Parse : string -> option (string * string)).
Context `{MapIteration}.
Notation run := (run creds url_Parse).

Lemma confined_run {A} t (m : method A) : nul_free t -> mints m = false -> Confined t (run t m).
Proof.
  intros Ht Hm. destruct m; try discriminate Hm; cbn [StubBank.run]; try by apply confined_list.
  all: confine.
Qed.
Lemma aside_bind {A B} t (m : stub A) (f : A -> stub B) :
  aside t m -> (forall a, aside t (f a)) -> aside t (bindM m f).
Proof.
  intros [Fm Vm] Hf. split; unfold bindM.
  - intros s Hs. specialize (Fm s Hs). destruct (m s) as [s' [a|e]]; [|done]. by apply (Hf a).
  - intros s t' Ht' Hn. pose proof (Vm s t' Ht' Hn) as V. destruct (m s) as [s' [a|e]]; [|done].
    eapply same_view_trans; [exact V|]. by apply (Hf a).
Qed.
Lemma aside_mint t key : nul_free t -> aside t (run t (MCreateLocRec key)).
Proof.
  intros Ht. cbn [StubBank.run]. unfold stub_CreateLocRec, with_credential. cbv zeta.
  apply aside_bind; [apply confined_lift|intros _]. destruct (bool_decide _); [apply confined_throw|].
  assert (Hmint : aside t next_location) by by split.
  assert (Hrest : aside t (do id <- next_location ;; do now <- read_clock ;;
    let r := {| lrr_ID := id;
                lrr_Location := "https://pix.stub.example/qr/v2/rec/" ++ stubRecID "LC" (MemStore.key t (FormatInt id));
                lrr_Criacao := now; lrr_IDRec := "" |} in
    do _ <- put locRecs (MemStore.key t (FormatInt id)) r ;;
    do _ <- (if bool_decide (TrimSpace key = "") then retM tt else put locRecByIdem (MemStore.key t (TrimSpace key)) id) ;;
    retM r)).
  { apply aside_bind; [done|intros id]. apply cf_aside. confine. }
  destruct (bool_decide (TrimSpace key = "")); [exact Hrest|].
  apply aside_bind; [apply cf_aside; confine|]. intros [id|]; [apply cf_aside; confine|exact Hrest].
Qed.
Lemma aside_run {A} t (m : method A) : nul_free t -> aside t (run t m).
Proof.
  intros Ht. destruct (mints m) eqn:E; [|by apply cf_aside, confined_run].
  destruct m; try discriminate E. by apply aside_mint.
Qed.

(** Calls of tenants, and the passing of time. *)
Inductive event :=
| Call (tenantID : string) {A : Type} (m : method A)
| Tick (now : Time).
Definition answer : Type := {A : Type & res A}.
Definition step (s : StubProvider) (e : event) : StubProvider * list (string * answer) :=
  match e with
  | Call t m => let '(s', r) := run t m s in (s', [(t, existT _ r)])
  | Tick now => (SetClock now s, [])
  end.
Fixpoint play (h : list event) (s : StubProvider) : StubProvider * list (string * answer) :=
  match h with
  | [] => (s, [])
  | e :: h =>
      let '(s, a) := step s e in
      let '(s, l) := play h s in (s, (a ++ l)%list)
  end.
Definition concerns (t : string) (e : event) : bool :=
  match e with Call t' _ => bool_decide (t' = t) | Tick _ => true end.
Definition answers_to (t : string) (l : list (string * answer)) : list answer :=
  map snd (List.filter (fun a => bool_decide (a.1 = t)) l).
(** Tenant identifiers hold no NUL, and [t] has no location minted. *)
Definition allowed (t : string) (e : event) : Prop :=
  match e with Call t' m => nul_free t' /\ (t' = t -> mints m = false) | Tick _ => True end.

Lemma alike_tick t now s s2 : alike t s s2 -> alike t (SetClock now s) (SetClock now s2).
Proof. intros [[_ Hm] H1 H2]. by split. Qed.
Lemma play_alike t h s s2 : nul_free t -> Forall (allowed t) h -> alike t s s2 ->
  answers_to t (play h s).2 = answers_to t (play (List.filter (concerns t) h) s2).2 /\
  alike t (play h s).1 (play (List.filter (concerns t) h) s2).1.
Proof.
  intros Ht Hh. revert s s2. induction Hh as [|e h He Hh IH]; intros s s2 Hs; [done|].
  destruct e as [t' A m|now]; cbn [List.filter concerns play step].
  - destruct He as [Ht' Hm]. case_bool_decide as E.
    + subst t'. destruct (own_reads t _ (cf_own _ _ (confined_run t m Ht (Hm eq_refl))) s s2 Hs) as [Er Hs'].
      cbn [play step]. destruct (run t m s) as [s' r], (run t m s2) as [s2' r2]. cbn in Er, Hs'. subst r2.
      destruct (IH s' s2' Hs') as [E1 E2].
      destruct (play h s') as [s3 l], (play _ s2') as [s4 l2]. cbn in E1, E2 |- *.
      split; [|done]. unfold answers_to in *. cbn. rewrite bool_decide_true by done. cbn. by rewrite E1.
    + destruct (aside_run t' m Ht') as [Fm Vm]. pose proof (Vm s t Ht (not_eq_sym E)) as V.
      destruct Hs as [Hv H1 H2]. pose proof (Fm s H1) as F. destruct (run t' m s) as [s' r].
      destruct (IH s' s2) as [E1 E2].
      { split; [|done..]. eapply same_view_trans; [|exact Hv]. destruct V as [V1 V2]. split; [done|].
        intros T k Hk. symmetry. by apply V2. }
      destruct (play h s') as [s3 l]. cbn in E1, E2 |- *. split; [|done].
      unfold answers_to in *. cbn. by rewrite bool_decide_false.
  - cbn [play step]. destruct (IH (SetClock now s) (SetClock now s2)) as [E1 E2]; [by apply alike_tick|].
    by destruct (play h (SetClock now s)), (play _ (SetClock now s2)).
Qed.

(** Tenants do not observe each other.  Whatever a history of calls and however the maps are
    ranged over, a tenant gets the answers it would have got had it been alone: those of the
    history with only its own calls and the passing of time.  The one exception is the minting
    of locations, whose numbers are handed out to all tenants in turn. *)
Theorem stub_isolation t h now (Ht : nul_free t) (Hh : Forall (allowed t) h) :
  answers_to t (play h (NewStubProvider now)).2
  = answers_to t (play (List.filter (concerns t) h) (NewStubProvider now)).2.
Proof. apply play_alike; [done..|]. by split. Qed.
End isolation.

(** * Repeats *)
(** The tables that remember what a request was answered with. *)
Definition anchors (T : table) : bool :=
  match T with byIdem | pixByIdem | cobvDueByIdem | ddaGroupByIdem | locRecByIdem => true | _ => false end.
(** What an entry is filed under, when it is by its own identifier. *)
Definition ident (T : table) : entry_of T -> option string :=
  match T return entry_of T -> option string with
  | pixCharges => fun c => Some (pix_TxID (spc_result c))
  | cobvCharges => fun c => Some (dcs_TxID c)
  | boletos => fun b => Some (br_BoletoID b)
  | checkouts => fun c => Some (co_SessionID c)
  | recs_ => fun r => Some (rr_IDRec r)
  | solicRecs => fun r => Some (srr_IDSolicRec r)
  | cobrs_ => fun r => Some (cbr_TxID r)
  | locRecs => fun l => Some (FormatInt (lrr_ID l))
  | _ => fun _ => None
  end.
(** Where an anchor leads. *)
Definition target (T : table) : entry_of T -> option (table * string) :=
  match T return entry_of T -> option (table * string) with
  | pixByIdem => fun txID => Some (pixCharges, txID)
  | cobvDueByIdem => fun txID => Some (cobvCharges, txID)
  | locRecByIdem => fun id => Some (locRecs, FormatInt id)
  | _ => fun _ => None
  end.
Record fits (s : StubProvider) (T : table) (k : string) (v : entry_of T) : Prop := {
  fits_id : forall id, ident T v = Some id -> exists t, nul_free t /\ k = key t id;
  fits_target : forall U id, target T v = Some (U, id) ->
    exists t anchor, nul_free t /\ k = key t anchor /\ is_Some (sp_map s U !! key t id)
}.
Definition in_order (s : StubProvider) : Prop := forall T k v, sp_map s T !! k = Some v -> fits s T k v.
(** No entry goes away, and what is remembered stays as it was. *)
Definition kept (s s' : StubProvider) : Prop := forall T k v, sp_map s T !! k = Some v ->
  exists v', sp_map s' T !! k = Some v' /\ (anchors T = true -> v' = v).
Definition evolves (s s' : StubProvider) : Prop := in_order s -> in_order s' /\ kept s s'.
#[export] Instance evolves_preorder : PreOrder evolves.
Proof.
  split; [intros s Hs; split; [done|intros T k v Hv; by exists v]|].
  intros s1 s2 s3 H1 H2 Hs. destruct (H1 Hs) as [W2 K2]. destruct (H2 W2) as [W3 K3]. split; [done|].
  intros T k v Hv. destruct (K2 T k v Hv) as (v2 & Hv2 & E2). destruct (K3 T k v2 Hv2) as (v3 & Hv3 & E3).
  exists v3. split; [done|]. intros HT. by rewrite E3, E2.
Qed.
Lemma still_there s T k v U l : is_Some (sp_map s U !! l) ->
  is_Some (sp_map (with_map s T (<[k := v]> (sp_map s T))) U !! l).
Proof.
  intros [u Hu]. rewrite lookup_with_map. destruct (decide (T = U)) as [<-|]; [|by exists u].
  destruct (decide (k = l)); [by eexists|by exists u].
Qed.
Lemma evolves_put s T k v : fits s T k v -> (anchors T = true -> sp_map s T !! k = None) ->
  evolves s (with_map s T (<[k := v]> (sp_map s T))).
Proof.
  intros Hv Hf Hs. split.
  - assert (Hmono : forall U l u, fits s U l u -> fits (with_map s T (<[k := v]> (sp_map s T))) U l u).
    { intros U l u [Hi Ht]. split; [done|]. intros V id E. destruct (Ht V id E) as (t & a & H1 & H2 & H3).
      exists t, a. by split_and!; [..|apply still_there]. }
    intros U l u. rewrite lookup_with_map. destruct (decide (T = U)) as [<-|]; [|by intros; apply Hmono, Hs].
    destruct (decide (k = l)) as [<-|]; [by intros [= <-]; apply Hmono|by intros; apply Hmono, Hs].
  - intros U l u Hu. rewrite lookup_with_map. destruct (decide (T = U)) as [<-|]; [|by exists u].
    destruct (decide (k = l)) as [<-|]; [|by exists u]. exists v. split; [done|].
    intros HT. by rewrite (Hf HT) in Hu.
Qed.
Definition plain (T : table) : bool :=
  match T with
  | charges_ | byIdem | ddaBoletos | ddaGroups | ddaGroupByIdem | stmtEntries | recJornadaTxID
  | recWebhooks | cobrWebhooks => true
  | _ => false
  end.
Lemma fits_plain s T k v : plain T = true -> fits s T k v.
Proof. by destruct T. Qed.
Lemma no_target T v : anchors T = false -> target T v = None.
Proof. by destruct T. Qed.
Lemma fits_own s t T id v : anchors T = false -> nul_free t -> (forall i, ident T v = Some i -> i = id) ->
  fits s T (key t id) v.
Proof.
  intros HT Ht Hi. split; [intros i Ei; exists t; by rewrite (Hi i Ei)|]. by rewrite no_target.
Qed.
Lemma fits_anchor s t T anchor v U id : target T v = Some (U, id) -> nul_free t ->
  is_Some (sp_map s U !! key t id) -> fits s T (key t anchor) v.
Proof.
  intros E Ht Hl. split; [by destruct T|]. intros U' id' E'. rewrite E in E'. injection E' as <- <-.
  by exists t, anchor.
Qed.
Lemma own_id_lookup s t T id v i : in_order s -> nul_free t ->
  sp_map s T !! key t id = Some v -> ident T v = Some i -> i = id.
Proof. intros Hs Ht Hl Hi. destruct (fits_id _ _ _ _ (Hs T _ v Hl) i Hi) as (t' & Ht' & E). by apply key_unique in E as [_ ->]. Qed.

Definition preserving {A} (m : stub A) : Prop := forall s, evolves s (m s).1.
Lemma preserving_bind {A B} (m : stub A) (f : A -> stub B) : preserving m -> (forall a, preserving (f a)) -> preserving (bindM m f).
Proof.
  intros Hm Hf s. unfold bindM. specialize (Hm s). destruct (m s) as [s' [a|e]]; [|done].
  trans s'; [done|apply Hf].
Qed.
Lemma preserving_pure {A} (m : stub A) : (forall s, (m s).1 = s) -> preserving m.
Proof. intros E s. by rewrite E. Qed.
Lemma preserving_next : preserving next_location.
Proof. intros s Hs. split; [|intros T k v Hv; by exists v]. intros T k v Hv. by destruct (Hs T k v Hv). Qed.
Lemma preserving_put T k v : anchors T = false -> (forall s, fits s T k v) -> preserving (put T k v).
Proof. intros HT Hv s. apply evolves_put; [done|]. by rewrite HT. Qed.
(** An entry is rewritten after it was found. *)
Lemma evolves_rewrite s T k v v' : sp_map s T !! k = Some v -> ident T v' = ident T v -> anchors T = false ->
  evolves s (with_map s T (<[k := v']> (sp_map s T))).
Proof.
  intros Hv Hi HT Hs. refine (evolves_put s T k v' _ _ Hs); [|by rewrite HT].
  split; [rewrite Hi; by apply Hs|by rewrite no_target].
Qed.
Lemma preserving_find_read_put {A B} T k (f : B -> entry_of T -> entry_of T) (r : stub B) (g : B -> entry_of T -> stub A) :
  anchors T = false -> (forall b v, ident T (f b v) = ident T v) ->
  (forall s, (r s).1 = s) -> (forall b v, preserving (g b v)) ->
  preserving (do v <- find T k ;; do b <- r ;; do _ <- put T k (f b v) ;; g b v).
Proof.
  intros HT Hf Hr Hg s. unfold find, bindM, peek. destruct (sp_map s T !! k) as [v|] eqn:E; [|by cbn].
  cbn [retM]. pose proof (Hr s) as Er. destruct (r s) as [s' [b|e]]; cbn in Er; subst s'; [|by cbn].
  trans (put T k (f b v) s).1; [by eapply evolves_rewrite|apply Hg].
Qed.
Lemma preserving_find_put {A} T k (f : entry_of T -> entry_of T) (g : entry_of T -> stub A) :
  anchors T = false -> (forall v, ident T (f v) = ident T v) -> (forall v, preserving (g v)) ->
  preserving (do v <- find T k ;; do _ <- put T k (f v) ;; g v).
Proof. intros HT Hf Hg. exact (preserving_find_read_put T k (fun _ => f) (retM tt) (fun _ => g) HT (fun _ => Hf) (fun s => eq_refl) (fun _ => Hg)). Qed.
Lemma preserving_if_there T k f : anchors T = false -> (forall v, ident T (f v) = ident T v) -> preserving (if_there T k f).
Proof.
  intros HT Hf s. unfold if_there, bindM, peek. destruct (sp_map s T !! k) as [v|] eqn:E; [|by cbn].
  by eapply evolves_rewrite.
Qed.
(** An entry is made after it was not found; other tables may be written in between. *)
Lemma preserving_fresh {A} T k (none : stub A) (some : entry_of T -> stub A) :
  (forall s, sp_map s T !! k = None -> evolves s (none s).1) -> (forall v, preserving (some v)) ->
  preserving (do p <- peek T k ;; match p with Some p => some p | None => none end).
Proof.
  intros Hn Hs s. unfold bindM, peek. destruct (sp_map s T !! k) as [v|] eqn:E; [apply Hs|by apply Hn].
Qed.
Lemma preserving_credential {A} creds t (m : stub A) : preserving m -> preserving (with_credential creds t m).
Proof. intros Hm. apply preserving_bind; [by apply preserving_pure|done]. Qed.
Lemma preserving_get creds T t id : preserving (get_entry creds T t id).
Proof.
  apply preserving_credential. intros s. unfold find, bindM, peek. by destruct (sp_map s T !! key t id).
Qed.
Lemma preserving_amend creds T t id f : anchors T = false -> (forall v, ident T (f v) = ident T v) ->
  preserving (amend creds T t id f).
Proof. intros HT Hf. apply preserving_credential, preserving_find_put; [done..|]. intros v. by apply preserving_pure. Qed.
Lemma preserving_create_once T t id v : nul_free t -> anchors T = false -> (forall i, ident T v = Some i -> i = id) ->
  preserving (create_once T t id v).
Proof.
  intros Ht HT Hi. apply preserving_fresh; [|intros; by apply preserving_pure]. intros s _.
  apply (evolves_put s T _ v); [by apply fits_own|by rewrite HT].
Qed.
Lemma evolves_then s0 s T k v : evolves s0 s -> fits s T k v ->
  (anchors T = true -> sp_map s T !! k = None) -> evolves s0 (with_map s T (<[k := v]> (sp_map s T))).
Proof. intros He Hv Hf. trans s; [done|by apply evolves_put]. Qed.

Ltac keep :=
  repeat first
    [ match goal with |- forall _, _ => intro end | progress cbv zeta
    | match goal with |- preserving (if ?b then _ else _) => destruct b end
    | apply preserving_credential | apply preserving_get | apply preserving_amend; [reflexivity|intros; reflexivity]
    | match goal with |- preserving (create_once ?T ?t ?id ?v) => apply (preserving_create_once T t id v) end;
      [assumption|reflexivity|let E := fresh in intros ? E; injection E as <-; reflexivity]
    | apply preserving_if_there; [reflexivity|intros; reflexivity]
    | apply preserving_find_put; [reflexivity|intros; reflexivity|]
    | apply preserving_find_read_put; [reflexivity|intros; reflexivity|done|]
    | apply preserving_put; [reflexivity|intros; by apply fits_plain]
    | apply preserving_pure; done
    | match goal with |- preserving (match ?x with Some _ => _ | None => _ end) => destruct x end
    | apply preserving_bind ].

Section asked_again.
Context (creds : string -> string -> res BankCredential) (url_Parse : string -> option (string * string)).
Context `{MapIteration}.
Notation run := (run creds url_Parse).
Lemma preserving_run {A} t (m : method A) : nul_free t -> preserving (run t m).
Proof.
  intros Ht. destruct m; cbn [StubBank.run]; try by keep.
  - unfold stub_CreateCharge. apply preserving_credential. cbv zeta. destruct (bool_decide _); [by keep|].
    apply (preserving_fresh byIdem); [|intros; by apply preserving_pure]. intros s Hs.
    refine (evolves_then s _ byIdem _ _ (evolves_put s charges_ _ _ _ _) _ _); [by apply fits_plain|done|by apply fits_plain|].
    intros _. exact Hs.
  - unfold stub_CreateImmediateCharge. apply preserving_credential. cbv zeta. destruct (_ || _); [by apply preserving_pure|].
    apply (preserving_fresh pixByIdem); [|intros; by keep]. intros s Hs.
    refine (evolves_then s _ pixByIdem _ _ (evolves_put s pixCharges _ _ _ _) _ _); [|done| |intros _; exact Hs].
    + by apply fits_own; [done..|intros ? [= <-]].
    + eapply fits_anchor; [done..|]. rewrite with_map_same, lookup_insert_eq. by eexists.
  - unfold stub_CreateDueCharge. apply preserving_credential. cbv zeta. destruct (_ || _); [by apply preserving_pure|].
    apply (preserving_fresh cobvDueByIdem); [|intros; by keep]. intros s Hs.
    refine (evolves_then s _ charges_ _ _ (evolves_then s _ cobvDueByIdem _ _
      (evolves_put s cobvCharges _ _ _ _) _ _) _ _); [|done| |intros _; exact Hs|by apply fits_plain|done].
    + by apply fits_own; [done..|intros ? [= <-]].
    + eapply fits_anchor; [done..|]. rewrite with_map_same, lookup_insert_eq. by eexists.
  - unfold stub_CreatePaymentGroup. apply preserving_credential. cbv zeta. destruct (_ || _); [by apply preserving_pure|].
    destruct (existsb _ _); [by apply preserving_pure|].
    apply (preserving_fresh ddaGroupByIdem); [|intros; by apply preserving_pure]. intros s Hs.
    refine (evolves_then s _ ddaGroupByIdem _ _ (evolves_put s ddaGroups _ _ _ _) _ _);
      [by apply fits_plain|done|by apply fits_plain|intros _; exact Hs].
  - unfold stub_CreateRec. apply preserving_credential. cbv zeta. destruct (_ || _); [by apply preserving_pure|].
    apply (preserving_fresh recs_); [|intros; by apply preserving_pure]. intros s _. revert s.
    match goal with |- forall s, evolves s (?m s).1 => change (preserving m) end.
    apply preserving_bind; [by keep|intros l]. apply preserving_bind; [destruct (bool_decide _); by keep|intros _].
    apply preserving_bind; [|intros; by apply preserving_pure]. apply preserving_put; [done|].
    intros s. by apply fits_own; [done..|intros ? [= <-]].
  - unfold stub_CreateLocRec. apply preserving_credential. cbv zeta. destruct (bool_decide _); [by apply preserving_pure|].
    destruct (bool_decide _).
    + apply preserving_bind; [apply preserving_next|intros id]. apply preserving_bind; [by apply preserving_pure|intros now].
      apply preserving_bind; [|intros; by keep]. apply preserving_put; [done|]. intros s. by apply fits_own; [done..|intros ? [= <-]].
    + apply (preserving_fresh locRecByIdem); [|intros; by keep]. intros s Hs.
      refine (evolves_then s _ locRecByIdem _ _ (evolves_then s _ locRecs _ _ (preserving_next s) _ _) _ _);
        [|done| |intros _; exact Hs].
      * by apply fits_own; [done..|intros ? [= <-]].
      * eapply fits_anchor; [done..|]. rewrite with_map_same, lookup_insert_eq. by eexists.
Qed.

(** What a request that names itself is answered with, by name. *)
Definition names_itself {A} (m : method A) : bool :=
  match m with
  | MCreateCharge req => negb (bool_decide (chr_IdempotencyKey req = ""))
  | MCreateLocRec key => negb (bool_decide (TrimSpace key = ""))
  | MCreateImmediateCharge _ _ | MCreateDueCharge _ | MCreateBoleto _ | MCreateCheckoutSession _
  | MCreatePaymentGroup _ | MCreateRec _ | MCreateSolicRec _ | MCreateCobR _ => true
  | _ => false
  end.
Definition name_of {A} (m : method A) : A -> string :=
  match m in method A return A -> string with
  | MCreateCharge _ => cr_TxID
  | MCreateLocRec _ => fun l => FormatInt (lrr_ID l)
  | MCreateImmediateCharge _ _ => pix_TxID
  | MCreateDueCharge _ => dcs_TxID
  | MCreateBoleto _ => br_BoletoID
  | MCreateCheckoutSession _ => co_SessionID
  | MCreatePaymentGroup _ => dg_ID
  | MCreateRec _ => rr_IDRec
  | MCreateSolicRec _ => srr_IDSolicRec
  | MCreateCobR _ => cbr_TxID
  | _ => fun _ => ""
  end.

(** The two shapes of a repeat: the entry itself is there, or an anchor remembers it. *)
Lemma once_repeats T t id v s s1 a s2 : in_order s1 -> nul_free t ->
  create_once T t id v s = (s1, Ok a) -> in_order s2 -> kept s1 s2 ->
  exists b, create_once T t id v s2 = (s2, Ok b) /\ (forall i j, ident T a = Some i -> ident T b = Some j -> i = j).
Proof.
  intros H1 Ht Hr H2 Hk. assert (Ha : sp_map s1 T !! key t id = Some a).
  { unfold create_once, bindM, peek in Hr. destruct (sp_map s T !! key t id) eqn:E.
    - injection Hr as <- <-. exact E.
    - injection Hr as <- <-. rewrite with_map_same. apply lookup_insert_eq. }
  destruct (Hk T _ a Ha) as (b & Hb & _). exists b. split.
  - unfold create_once, bindM, peek. by rewrite Hb.
  - intros i j Hi Hj. rewrite (own_id_lookup s1 t T id a i), (own_id_lookup s2 t T id b j); done.
Qed.
Lemma credential_Ok {A} t (m : stub A) s s1 a : with_credential creds t m s = (s1, Ok a) ->
  m s = (s1, Ok a) /\ forall s', with_credential creds t m s' = m s'.
Proof.
  unfold with_credential, bindM, liftM. by destruct (creds t BankIDC6).
Qed.
Lemma once_Ok t g T id v s s1 a s2 (nm : entry_of T -> string) : in_order s1 -> nul_free t -> in_order s2 -> kept s1 s2 ->
  (forall e, ident T e = Some (nm e)) ->
  with_credential creds t (abort g with ErrValidation ;; create_once T t id v) s = (s1, Ok a) ->
  exists b, with_credential creds t (abort g with ErrValidation ;; create_once T t id v) s2 = (s2, Ok b) /\ nm b = nm a.
Proof.
  intros H1 Ht H2 Hk Hn [Hr Hc]%credential_Ok. rewrite Hc. destruct g; [done|].
  destruct (once_repeats T t id v s s1 a s2 H1 Ht Hr H2 Hk) as (b & Hb & Hi). exists b.
  split; [exact Hb|]. symmetry. by apply Hi.
Qed.
Lemma anchor_repeats {A} T t anchor (found : entry_of T -> stub A) (fresh : stub A)
    (nm : A -> string) (nmp : entry_of T -> string) s s1 a s2 :
  anchors T = true -> in_order s -> in_order s2 -> kept s1 s2 ->
  (forall p s', in_order s' -> sp_map s' T !! key t anchor = Some p ->
     exists b, found p s' = (s', Ok b) /\ nm b = nmp p) ->
  (forall s1 a, fresh s = (s1, Ok a) -> exists p, sp_map s1 T !! key t anchor = Some p /\ nm a = nmp p) ->
  let m := do p <- peek T (key t anchor) ;; match p with Some p => found p | None => fresh end in
  m s = (s1, Ok a) -> exists b, m s2 = (s2, Ok b) /\ nm b = nm a.
Proof.
  intros HT Hs H2 Hk Hfound Hfresh m Hr.
  assert (Hp : exists p, sp_map s1 T !! key t anchor = Some p /\ nm a = nmp p).
  { unfold m, bindM, peek in Hr. destruct (sp_map s T !! key t anchor) as [p|] eqn:E; [|by apply Hfresh].
    destruct (Hfound p s Hs E) as (b & Eb & En). rewrite Eb in Hr. injection Hr as <- <-. by exists p. }
  destruct Hp as (p & Hp & Ea). destruct (Hk T _ p Hp) as (p' & Hp' & E). rewrite (E HT) in Hp'.
  destruct (Hfound p s2 H2 Hp') as (b & Eb & En). exists b.
  unfold m, bindM, peek. rewrite Hp', Eb, En, Ea. done.
Qed.
(** An anchor leads to an entry of its name. *)
Lemma anchor_leads s t T anchor p U id : in_order s -> nul_free t -> sp_map s T !! key t anchor = Some p ->
  target T p = Some (U, id) -> exists e, sp_map s U !! key t id = Some e /\ forall i, ident U e = Some i -> i = id.
Proof.
  intros Hs Ht Hp E. destruct (fits_target _ _ _ _ (Hs T _ p Hp) U id E) as (t' & a & Ht' & Ek & [e He]).
  apply key_unique in Ek as [<- _]; [|done..]. exists e. split; [done|]. intros i Hi. by eapply own_id_lookup.
Qed.

Lemma repeats {A} t (m : method A) s s1 a s2 : names_itself m = true -> nul_free t -> in_order s ->
  run t m s = (s1, Ok a) -> in_order s2 -> kept s1 s2 ->
  exists b, run t m s2 = (s2, Ok b) /\ name_of m b = name_of m a.
Proof.
  intros Hn Ht Hs Hr H2 Hk.
  assert (H1 : in_order s1) by (pose proof (proj1 (preserving_run t m Ht s Hs)) as H1; by rewrite Hr in H1).
  destruct m; try discriminate Hn; cbn [StubBank.run name_of names_itself] in *.
  - unfold stub_CreateCharge in Hr |- *. apply credential_Ok in Hr as [Hr Hc]. rewrite Hc. cbv zeta in *.
    apply negb_true_iff in Hn. rewrite Hn in Hr |- *.
    apply (anchor_repeats byIdem t _ _ _ cr_TxID cr_TxID s s1 a s2);
      [done..|intros p s' _ _; by exists p| |exact Hr].
    intros s' a' [= <- <-]. eexists. split; [|done]. rewrite with_map_same. apply lookup_insert_eq.
  - unfold stub_CreateImmediateCharge in Hr |- *. apply credential_Ok in Hr as [Hr Hc]. rewrite Hc. cbv zeta in *.
    destruct (_ || _); [done|].
    apply (anchor_repeats pixByIdem t _ _ _ pix_TxID (fun id => id) s s1 a s2); [done..| | |exact Hr].
    + intros p s' Hs' Hp. destruct (anchor_leads s' t pixByIdem _ p pixCharges p Hs' Ht Hp eq_refl) as (e & He & Hi).
      exists (spc_result e). unfold bindM, peek, retM. rewrite He. split; [done|]. by apply Hi.
    + intros s' a' [= <- <-]. eexists. split; [rewrite with_map_same; apply lookup_insert_eq|done].
  - unfold stub_CreateDueCharge in Hr |- *. apply credential_Ok in Hr as [Hr Hc]. rewrite Hc. cbv zeta in *.
    destruct (_ || _); [done|].
    apply (anchor_repeats cobvDueByIdem t _ _ _ dcs_TxID (fun id => id) s s1 a s2); [done..| | |exact Hr].
    + intros p s' Hs' Hp. destruct (anchor_leads s' t cobvDueByIdem _ p cobvCharges p Hs' Ht Hp eq_refl) as (e & He & Hi).
      exists e. unfold bindM, peek, retM. rewrite He. split; [done|]. by apply Hi.
    + intros s' a' [= <- <-]. eexists. split; [|done]. rewrite with_map_other by done.
      rewrite with_map_same. apply lookup_insert_eq.
  - apply (once_Ok t false boletos _ _ s s1 a s2 br_BoletoID); done.
  - apply (once_Ok t false checkouts _ _ s s1 a s2 co_SessionID); done.
  - unfold stub_CreatePaymentGroup in Hr |- *. apply credential_Ok in Hr as [Hr Hc]. rewrite Hc. cbv zeta in *.
    destruct (_ || _); [done|]. destruct (existsb _ _); [done|].
    apply (anchor_repeats ddaGroupByIdem t _ _ _ dg_ID (fun id => id) s s1 a s2);
      [done..|intros p s' _ _; by eexists| |exact Hr].
    intros s' a' [= <- <-]. eexists. split; [rewrite with_map_same; apply lookup_insert_eq|done].
  - unfold stub_CreateRec in Hr |- *. apply credential_Ok in Hr as [Hr Hc]. rewrite Hc. cbv zeta in *.
    destruct (_ || _); [done|]. set (id := stubRecID _ _) in *.
    assert (Ha : sp_map s1 recs_ !! key t id = Some a).
    { unfold bindM at 1, peek at 1 in Hr. destruct (sp_map s recs_ !! key t id) as [p|] eqn:E.
      - by injection Hr as <- <-.
      - revert Hr. unfold bindM at 1, peek at 1. destruct (bool_decide _); intros [= <- <-];
          rewrite with_map_same; apply lookup_insert_eq. }
    destruct (Hk recs_ _ a Ha) as (b & Hb & _). exists b. unfold bindM at 1, peek at 1. rewrite Hb. split; [done|].
    rewrite (own_id_lookup s1 t recs_ id a (rr_IDRec a)), (own_id_lookup s2 t recs_ id b (rr_IDRec b)); done.
  - apply (once_Ok t _ solicRecs _ _ s s1 a s2 srr_IDSolicRec); done.
  - apply (once_Ok t _ cobrs_ _ _ s s1 a s2 cbr_TxID); done.
  - unfold stub_CreateLocRec in Hr |- *. apply credential_Ok in Hr as [Hr Hc]. rewrite Hc. cbv zeta in *.
    apply negb_true_iff in Hn. destruct (bool_decide (TrimSpace t = "")); [done|]. rewrite Hn in Hr |- *.
    apply (anchor_repeats locRecByIdem t _ _ _ (fun l => FormatInt (lrr_ID l)) FormatInt s s1 a s2); [done..| | |exact Hr].
    + intros p s' Hs' Hp.
      destruct (anchor_leads s' t locRecByIdem _ p locRecs (FormatInt p) Hs' Ht Hp eq_refl) as (e & He & Hi).
      exists e. unfold bindM, peek, retM. rewrite He. split; [done|]. by apply Hi.
    + intros s' a' [= <- <-]. eexists. split; [rewrite with_map_same; apply lookup_insert_eq|done].
Qed.

Definition nul_free_caller (e : event) : Prop := match e with Call t _ => nul_free t | Tick _ => True end.
Lemma evolves_play h : Forall nul_free_caller h -> forall s, evolves s (play creds url_Parse h s).1.
Proof.
  induction 1 as [|e h He Hh IH]; intros s; [done|]. cbn [play].
  assert (Hstep : evolves s (step creds url_Parse s e).1).
  { destruct e as [t A m|now]; cbn [step].
    - pose proof (preserving_run t m He s) as H1. by destruct (run t m s).
    - intros Hs. split; [|intros T k v Hv; by exists v]. intros T k v Hv. by destruct (Hs T k v Hv). }
  destruct (step creds url_Parse s e) as [s' l]. specialize (IH s').
  destruct (play creds url_Parse h s') as [s3 l3]. by trans s'.
Qed.

(** A repeated request finds what the first one made.  Whatever came before the first, and
    whatever any tenant did and the hooks made of it since, a request under the same anchor is
    answered with the charge, boleto, session, group, mandate, confirmation, instalment or
    location the first was answered with, and changes nothing. *)
Theorem stub_dedupes {A} t (m : method A) h now h' s1 a
    (Hm : names_itself m = true) (Ht : nul_free t)
    (Hh : Forall nul_free_caller h) (Hh' : Forall nul_free_caller h')
    (Hr : run t m (play creds url_Parse h (NewStubProvider now)).1 = (s1, Ok a)) :
  let s2 := (play creds url_Parse h' s1).1 in
  exists b, run t m s2 = (s2, Ok b) /\ name_of m b = name_of m a.
Proof.
  cbv zeta. destruct (evolves_play h Hh (NewStubProvider now)) as [H0 _]; [done|].
  destruct (preserving_run t m Ht _ H0) as [H1 _]. rewrite Hr in H1.
  destruct (evolves_play h' Hh' s1 H1) as [H2 Hk]. exact (repeats t m _ s1 a _ Hm Ht H0 Hr H2 Hk).
Qed.
End asked_again.

(** * The pages of a listing *)
Lemma page_taken (cs : list stubPixCharge) (p k : nat) : (0 < k)%nat ->
  Z.of_nat (List.length cs) + Z.of_nat k < 2 ^ 63 -> Z.of_nat p * Z.of_nat k <= Z.of_nat (List.length cs) + Z.of_nat k ->
  pageStubPixCharges cs (Z.of_nat p) (Z.of_nat k) = Some (take k (skipn (p * k)%nat cs)).
Proof.
  intros Hk Hn Hp. unfold pageStubPixCharges. rewrite (proj2 (Z.leb_gt _ _)) by lia.
  assert (Hpk : 0 <= Z.of_nat p * Z.of_nat k) by lia.
  rewrite mul64_id by (unfold in64, minInt64, maxInt64; lia).
  destruct (Z.leb_spec (Z.of_nat (List.length cs)) (Z.of_nat p * Z.of_nat k)) as [Hs|Hs].
  - rewrite drop_ge by nia. by destruct k.
  - rewrite add64_id by (unfold in64, minInt64, maxInt64; nia).
    rewrite (proj2 (Z.ltb_ge _ 0)) by nia.
    destruct (Z.ltb_spec (Z.of_nat (List.length cs)) (Z.of_nat p * Z.of_nat k + Z.of_nat k)) as [He|He].
    + rewrite (proj2 (Z.ltb_ge _ _)) by nia. cbn [orb]. replace (Z.to_nat (Z.of_nat p * Z.of_nat k)) with (p * k)%nat by nia.
      f_equal. rewrite !take_ge; [done| |]; rewrite length_drop; nia.
    + rewrite (proj2 (Z.ltb_ge _ _)) by nia. cbn [orb]. replace (Z.to_nat (Z.of_nat p * Z.of_nat k)) with (p * k)%nat by nia.
      f_equal. f_equal. lia.
Qed.
Lemma pages_tile {A} (l : list A) k m : List.concat (map (fun p => take k (skipn (p * k)%nat l)) (seq 0 m)) = take (m * k)%nat l.
Proof.
  induction m as [|m IH]; [done|].
  rewrite seq_S, map_app, concat_app, IH. cbn. rewrite app_nil_r, take_take_drop. f_equal. lia.
Qed.

Lemma page_whole (cs : list stubPixCharge) : Z.of_nat (List.length cs) < 2 ^ 63 ->
  pageStubPixCharges cs 0 (Z.of_nat (List.length cs)) = Some cs.
Proof.
  intros Hn. unfold pageStubPixCharges. destruct (Z.leb_spec (Z.of_nat (List.length cs)) 0) as [H0|H0].
  { by destruct cs. }
  rewrite mul64_id by (unfold in64, minInt64, maxInt64; lia). rewrite Z.mul_0_l.
  rewrite add64_id by (unfold in64, minInt64, maxInt64; lia). rewrite Z.add_0_l.
  rewrite (proj2 (Z.leb_gt _ _)) by lia. rewrite !Z.ltb_irrefl. cbv iota. rewrite (proj2 (Z.ltb_ge _ 0)) by lia.
  cbn [orb]. rewrite Z.sub_0_r, Nat2Z.id. cbn [Z.to_nat skipn]. by rewrite firstn_all.
Qed.

Section pages.
Context (creds : string -> string -> res BankCredential) (url_Parse : string -> option (string * string)).
Context `{MapIteration}.
Notation run := (run creds url_Parse).
Definition paged (f : PixListFilter) (page size : Z) : PixListFilter :=
  {| plf_Start := plf_Start f; plf_End := plf_End f; plf_Page := page; plf_PageSize := size |}.
Definition listing (t : string) (f : PixListFilter) (s : StubProvider) : list stubPixCharge :=
  sortStubPixCharges (pix_matches t f (sp_map s pixCharges)).
Definition page_count (total size : Z) : Z := (total + size - 1) / size.

(** What a listing is, once the credential and the window are in order. *)
Definition list_answer (cs : list stubPixCharge) (page size : Z) : res PixChargeList :=
  let total := Z.of_nat (List.length cs) in
  let '(page, size) := if size <=? 0 then (0, total) else (page, size) in
  match pageStubPixCharges cs page size with
  | None => Err out_of_range
  | Some out =>
      Ok {| pcl_Charges := map spc_result out; pcl_Page := page; pcl_PageSize := size; pcl_TotalItems := total;
            pcl_TotalPages := if 0 <? size then div64 (sub64 (add64 total size) 1) size else 0 |}
  end.
Lemma list_runs t f s s' page size r : run t (MListImmediateCharges (paged f page size)) s = (s', Ok r) ->
  s' = s /\ list_answer (listing t f s) page size = Ok r /\
  forall page size, run t (MListImmediateCharges (paged f page size)) s = (s, list_answer (listing t f s) page size).
Proof.
  cbn [StubBank.run]. unfold stub_ListImmediateCharges, with_credential, bindM, liftM.
  destruct (creds t BankIDC6) as [c|e]; [|done]. cbn [plf_Start plf_End paged].
  destruct (IsZero (plf_Start f) || IsZero (plf_End f)); [done|]. unfold readM.
  intros [= <- Hr]. by split_and!.
Qed.
Lemma list_page cs (p k : nat) : (0 < k)%nat -> Z.of_nat (List.length cs) + Z.of_nat k < 2 ^ 63 ->
  Z.of_nat p < page_count (Z.of_nat (List.length cs)) (Z.of_nat k) ->
  list_answer cs (Z.of_nat p) (Z.of_nat k) =
  Ok {| pcl_Charges := map spc_result (take k (skipn (p * k)%nat cs)); pcl_Page := Z.of_nat p; pcl_PageSize := Z.of_nat k;
        pcl_TotalItems := Z.of_nat (List.length cs);
        pcl_TotalPages := page_count (Z.of_nat (List.length cs)) (Z.of_nat k) |}.
Proof.
  intros Hk Hn Hp. unfold list_answer. rewrite (proj2 (Z.leb_gt (Z.of_nat k) 0)) by lia.
  rewrite page_taken; [|done..|].
  - rewrite (proj2 (Z.ltb_lt _ _)) by lia.
    rewrite add64_id by (unfold in64, minInt64, maxInt64; lia).
    rewrite sub64_id by (unfold in64, minInt64, maxInt64; lia).
    by rewrite div64_nonneg by (unfold in64, minInt64, maxInt64; lia).
  - pose proof (Z.mul_div_le (Z.of_nat (List.length cs) + Z.of_nat k - 1) (Z.of_nat k)). unfold page_count in Hp. nia.
Qed.

(** Walking the pages of a listing, from the first to the last it says there are, gives every
    charge of the listing without pages, each once and in its order; no page is refused, and each
    says the same of how many charges and pages there are. *)
Theorem stub_pages_cover t f s s' all size
    (Hall : run t (MListImmediateCharges (paged f 0 0)) s = (s', Ok all))
    (Hsize : 0 < size) (Hmany : pcl_TotalItems all + size < 2 ^ 63) :
  exists pages,
    Forall2 (fun p l => run t (MListImmediateCharges (paged f p size)) s = (s, Ok l))
      (map Z.of_nat (seq 0 (List.length pages))) pages /\
    List.concat (map pcl_Charges pages) = pcl_Charges all /\
    Forall (fun l => pcl_TotalItems l = Z.of_nat (List.length (pcl_Charges all)) /\
                     pcl_TotalPages l = Z.of_nat (List.length pages)) pages.
Proof.
  destruct (list_runs t f s s' 0 0 all Hall) as (_ & Ha & Hrun). set (cs := listing t f s) in *.
  unfold list_answer in Ha. cbn [Z.leb Z.compare] in Ha. cbv zeta iota in Ha.
  destruct (pageStubPixCharges cs 0 (Z.of_nat (List.length cs))) as [out|] eqn:Eo; [|done]. injection Ha as <-.
  cbn [pcl_TotalItems pcl_Charges] in Hmany |- *. rewrite page_whole in Eo by lia. injection Eo as <-.
  destruct (Z_of_nat_complete size) as [k ->]; [lia|].
  set (n := page_count (Z.of_nat (List.length cs)) (Z.of_nat k)).
  assert (Hn : 0 <= n) by (apply Z.div_pos; lia).
  assert (Hcover : (List.length cs <= Z.to_nat n * k)%nat).
  { unfold n, page_count in *. pose proof (Z.div_mod (Z.of_nat (List.length cs) + Z.of_nat k - 1) (Z.of_nat k)).
    pose proof (Z.mod_pos_bound (Z.of_nat (List.length cs) + Z.of_nat k - 1) (Z.of_nat k)). nia. }
  exists (map (fun p => {| pcl_Charges := map spc_result (take k (skipn (p * k)%nat cs)); pcl_Page := Z.of_nat p;
                     pcl_PageSize := Z.of_nat k; pcl_TotalItems := Z.of_nat (List.length cs); pcl_TotalPages := n |})
         (seq 0 (Z.to_nat n))).
  rewrite length_map, length_seq. split_and!.
  - apply Forall2_fmap_2, Forall_Forall2_diag, Forall_seq. intros p [_ Hp]. rewrite Hrun, list_page; [done|lia..].
  - rewrite map_map. cbn [pcl_Charges]. rewrite <- (map_map (fun p => take k (skipn (p * k)%nat cs)) (map spc_result)).
    rewrite <- concat_map, pages_tile, take_ge by lia. done.
  - apply Forall_fmap, Forall_forall. intros p _. cbn. rewrite length_map, Z2Nat.id by lia. done.
Qed.
End pages.

(** * Concrete histories *)
Definition open_vault (t b : string) : res BankCredential := Ok zeroCredential.
Definition https_to (raw : string) : option (string * string) := Some ("https", raw).
Definition a_request (key : string) (cents : Z) : ChargeRequest :=
  {| chr_TenantID := ""; chr_PaymentID := "p"; chr_AmountCents := cents; chr_Currency := "BRL";
     chr_IdempotencyKey := key; chr_DebtorTaxID := ""; chr_DebtorName := ""; chr_CreditorKey := "" |}.
Definition instant (n : Z) : Time := {| ns := n; loc := UTC_loc |}.
Definition window (a b : Z) : PixListFilter :=
  {| plf_Start := instant a; plf_End := instant b; plf_Page := 0; plf_PageSize := 0 |}.

(** Two tenants use the same payments at the same bank, and one lists its charges. *)
Definition two_at_once : list event :=
  [Call "a" (MCreateImmediateCharge (a_request "k" 500) 0); Call "b" (MCreateImmediateCharge (a_request "k" 900) 0);
   Tick (instant 7); Call "b" (MCreateLocRec "l"); Call "b" (MCreateCharge (a_request "k" 900));
   Call "a" (MCreateCharge (a_request "k" 500)); Call "a" (MListImmediateCharges (window 1 9))].
Lemma stub_isolation_witness :
  nul_free "a" /\ Forall (allowed "a") two_at_once /\
  List.length (answers_to "a" (play open_vault https_to two_at_once (NewStubProvider (instant 3))).2) = 3%nat /\
  answers_to "a" (play open_vault https_to two_at_once (NewStubProvider (instant 3))).2
  = answers_to "a" (play open_vault https_to (List.filter (concerns "a") two_at_once) (NewStubProvider (instant 3))).2.
Proof.
  assert (Ht : nul_free "a") by (by apply (bool_decide_unpack _); vm_compute).
  assert (Hh : Forall (allowed "a") two_at_once)
    by (repeat constructor; try (by apply (bool_decide_unpack _); vm_compute); intros E; discriminate E).
  split_and!; [exact Ht|exact Hh|vm_compute; reflexivity|].
  exact (stub_isolation open_vault https_to "a" two_at_once (instant 3) Ht Hh).
Defined.

(** A charge is asked for again after the payment was marked settled. *)
Definition asked : M StubProvider error ChargeResult := run open_vault https_to "a" (MCreateCharge (a_request "k" 500)).
Definition made : StubProvider := (asked (NewStubProvider (instant 3))).1.
Definition meanwhile : list event := [Call "b" (MCreateCharge (a_request "k" 900)); Call "a" (MMarkSettled "tx_p")].
Lemma stub_dedupes_witness :
  let later := (play open_vault https_to meanwhile made).1 in
  (asked (NewStubProvider (instant 3))).2 = Ok (new_charge "tx_p" "pending" 500) /\
  exists b, asked later = (later, Ok b) /\ cr_TxID b = "tx_p".
Proof.
  assert (Ha : asked (NewStubProvider (instant 3)) = (made, Ok (new_charge "tx_p" "pending" 500)))
    by (apply injective_projections; [reflexivity|vm_compute; reflexivity]).
  split; [by rewrite Ha|].
  assert (Hh : Forall nul_free_caller meanwhile)
    by (repeat constructor; by apply (bool_decide_unpack _); vm_compute).
  exact (stub_dedupes open_vault https_to "a" (MCreateCharge (a_request "k" 500)) [] (instant 3) meanwhile
    made (new_charge "tx_p" "pending" 500) eq_refl ltac:(by apply (bool_decide_unpack _); vm_compute)
    (List.Forall_nil _) Hh Ha).
Defined.

(** Three charges on pages of two. *)
Definition three_charges : list event :=
  [Call "a" (MCreateImmediateCharge (a_request "k" 500) 0); Tick (instant 4);
   Call "a" (MCreateImmediateCharge (a_request "l" 600) 0); Call "a" (MCreateImmediateCharge (a_request "m" 700) 0)].
Definition charged : StubProvider := (play open_vault https_to three_charges (NewStubProvider (instant 3))).1.
Definition all_charged : PixChargeList :=
  match list_answer (listing "a" (window 1 9) charged) 0 0 with
  | Ok l => l
  | Err _ => {| pcl_Charges := []; pcl_Page := 0; pcl_PageSize := 0; pcl_TotalItems := 0; pcl_TotalPages := 0 |}
  end.
Lemma stub_pages_cover_witness :
  exists pages,
    map pix_ExpectedAmountCents (pcl_Charges all_charged) = [500; 700; 600] /\
    Forall2 (fun p l => run open_vault https_to "a" (MListImmediateCharges (paged (window 1 9) p 2)) charged
                        = (charged, Ok l)) (map Z.of_nat (seq 0 (List.length pages))) pages /\
    List.concat (map pcl_Charges pages) = pcl_Charges all_charged.
Proof.
  assert (Ha : run open_vault https_to "a" (MListImmediateCharges (paged (window 1 9) 0 0)) charged
               = (charged, Ok all_charged))
    by (apply injective_projections; [reflexivity|vm_compute; reflexivity]).
  destruct (stub_pages_cover open_vault https_to "a" (window 1 9) charged charged all_charged 2
    Ha ltac:(reflexivity) ltac:(vm_compute; reflexivity)) as (pages & Hp & Hc & _).
  exists pages. split_and!; [vm_compute; reflexivity|exact Hp|exact Hc].
Defined.

(** A page so far that its start does not fit an int: the listing panics, whatever there is to
    list. *)
Lemma far_page_panics s :
  (run open_vault https_to "a" (MListImmediateCharges (paged (window 1 9) (2 ^ 61) 4)) s).2 = Err out_of_range.
Proof.
  change (list_answer (listing "a" (window 1 9) s) (2 ^ 61) 4 = Err out_of_range).
  unfold list_answer, pageStubPixCharges. cbn [Z.leb Z.compare].
  replace (mul64 (2 ^ 61) 4) with (- 2 ^ 63) by reflexivity. rewrite (proj2 (Z.leb_gt _ _)) by lia. done.
Qed.

(** An e-mail address of 44 characters is classed as a boleto. *)
Example long_email_is_a_boleto :
  stubProductType "aaaaaaaaaaaaaaaaaaaaaaaaaaaaaaaa@example.com" = "BOLETO".
Proof. vm_compute. reflexivity. Qed.
(** The charge of a payment, settled, is pending again once the payment is charged under another
    key. *)
Example second_key_undoes_settlement :
  let s := (play open_vault https_to
    [Call "a" (MCreateCharge (a_request "k" 500)); Call "a" (MMarkSettled "tx_p");
     Call "a" (MCreateCharge (a_request "l" 500))] (NewStubProvider (instant 3))).1 in
  (run open_vault https_to "a" (MGetCharge "tx_p") s).2 = Ok (new_charge "tx_p" "pending" 500).
Proof. vm_compute. reflexivity. Qed.
